(* ===== verification/_CoqProject ===== *)
-Q . S2P
Prelude.v
Flows.v
SerializeBuffer.v
LayerClasses.v
BaseLayers.v
Parser.v
Enums.v
Checksum.v
Tcp.v
TcpCheck.v
Ip4.v
Udp.v
Ethernet.v
Dns.v
DnsNames.v
DnsCorrect.v
DnsRoundtrip.v
Ip4Defrag.v
Ip4Reassembly.v
Bytediff.v
Capture.v
Pcap.v
PcapCorrect.v
Ng.v
NgWrite.v
NgReader.v
NgSafe.v
NgRoundtrip.v
NgFile.v
Packet.v
PacketCorrect.v
Stack.v
Links.v
TcpAssembly.v
TcpStream.v
TcpRefine.v
TcpPool.v
TcpData.v
TcpTrace.v
TcpComplete.v
TcpCorrect.v
TcpReader.v
TcpReaderCorrect.v
TcpReaderStack.v
Reassembly.v
ReassemblyQueue.v
ReassemblyHeap.v
ReassemblyHalf.v
ReassemblyData.v
ReassemblyRun.v
ReassemblyCorrect.v
ReassemblyIssues.v
Snoop.v
Lcm.v
LcmDefrag.v
LcmCorrect.v
Ip6.v
Ip6Correct.v
LinkLayers.v
TunnelLayers.v
ControlLayers.v
Sctp.v
Decoders.v
Typing.v
LayersTyped.v
DecodersCorrect.v
LayerIssues.v
RawSend.v
RawSendCorrect.v
Routing.v
RoutingCorrect.v
BsdBpf.v
Afpacket.v
AfpacketFrames.v
AfpacketCorrect.v
