(* ===== verification/Prelude.v ===== *)
(** * gopacket, verified

    gopacket decodes packets into layers, serializes layers into packets, puts
    streams and datagrams together again and reads and writes capture files. The
    development models the parts that compute: what a function of the source
    does to the state it is given, on every branch, with its errors, its panics
    and its integers at their widths. The names are those of the source.

    ** The model of Go

    This file holds the vocabulary that the others share. A call ends in an
    [outcome]: a value, an [error], a run-time panic ([Panic], with the reason) or
    [NoFuel], which marks a loop bound that was too small and is ruled out by the
    theorems. Methods that change their receiver are state transformers [M S A];
    the state survives an error. A byte slice is the list of its bytes; [index],
    [slice] and [write_at] check their bounds as Go does for slices without spare
    capacity; with it Go lets a slice be extended to its capacity, so that the model
    panics where Go may not. Where code counts on spare capacity or where two names share an array, the array is part of the
    state ([SerializeBuffer], [Ip4Defrag], [TcpAssembly], [Reassembly], [NgReader]). [wp m Q E s]
    says that [m], run from [s], ends in a value with [Q] or an error with [E], so
    that no panic and no exhausted bound is possible.

    ** The parts of the program and the files that model them

    - The core package. [Flows]: endpoints, flows and their hashes ([flows.go]).
      [SerializeBuffer]: the buffer that grows at both ends ([writer.go]).
      [LayerClasses]: the registry of layer types and the classes of types
      ([layertype.go], [layerclass.go]). [BaseLayers]: payloads and fragments
      ([base.go], [layers/base.go]). [Parser]: the decoding-layer parser and its
      three containers ([parser.go], [layers_decoder.go]). [Packet] and
      [PacketCorrect]: eager and lazy packets ([packet.go], [decode.go]).
      [Capture]: capture metadata and the interfaces of byte streams ([time.go]).
    - Protocols, under [layers/]. [Enums]: the tables of types and numbers and what
      is registered at start. [Checksum]: the one's-complement sums. [Ethernet],
      [Ip4], [Tcp], [Udp]: decoding and serialization. [Ip6], [Ip6Correct]: IPv6
      with jumbograms and extension headers. [Dns], [DnsNames], [DnsCorrect],
      [DnsRoundtrip]: messages with compressed names. [LinkLayers]: ARP, 802.1Q,
      loopback, LLC and SNAP, PPP, PPPoE, MPLS, CTP, FDDI, Linux SLL.
      [TunnelLayers]: GRE, VXLAN, Geneve, EtherIP, ERSPAN, GTP, IPSec.
      [ControlLayers]: ICMP with neighbour discovery, UDP-Lite, RUDP, STP, EAP,
      VRRP, PFLog, AGUE. [Sctp]: the header, its CRC-32C and the chunks. [Lcm]: LCM
      and its fingerprints. [Stack]: the layers of a frame, serialized together and
      decoded by the parser. [Decoders]: the functions [decodeX] of these layers as
      builders of packets and the dispatch through the tables, so that a packet of
      any of them is a value of [Packet]. [Typing] is a logic for decoders that
      may panic, [LayersTyped] the type of each layer and that its decoder respects
      it, [DecodersCorrect] that packets do, [LayerIssues] where layers go wrong.
    - Reassembly. [Ip4Defrag], [Ip4Reassembly]: IPv4 fragments ([ip4defrag/]).
      [LcmDefrag], [LcmCorrect]: LCM fragments ([defrag/lcmdefrag/]).
      [TcpAssembly] and the files [TcpStream] to [TcpCorrect]: TCP streams with
      pages, caches and pools ([tcpassembly/assembly.go]). [TcpReader],
      [TcpReaderCorrect], [TcpReaderStack]: the reader of a stream, the goroutine
      that reads and the assembler's as a transition system over two channels
      ([tcpassembly/tcpreader/reader.go]). [TcpCheck]: the state machine and option
      checks of [reassembly/tcpcheck.go]. [Reassembly]: the assembler of
      [reassembly/tcpassembly.go] and [memory.go] with both halves of a connection;
      [ReassemblyQueue] is its queue as a list, [ReassemblyHeap] and
      [ReassemblyHalf] show that the pages in memory implement it, [ReassemblyData],
      [ReassemblyRun] and [ReassemblyCorrect] what the streams receive, and
      [ReassemblyIssues] where the code goes wrong. [Links]: doubly-linked lists,
      shared by the two assemblers.
    - Files, under [pcapgo/]. [Pcap], [PcapCorrect]: [read.go] and [write.go]. [Ng],
      [NgWrite], [NgReader], [NgSafe], [NgRoundtrip], [NgFile]: [pcapng.go],
      [ngwrite.go] and [ngread.go]; [NgRoundtrip] reads what the writer writes, [NgFile]
      any file of version 1.0. [Snoop]: [snoop.go].
    - The operating system. Packages that ask it for packets or hand it packets are
      modelled over an interface of its calls. [RawSend], [RawSendCorrect]: batches
      of packets to send ([rawsend/]). [Routing], [RoutingCorrect]: the table of
      routes, made of the bytes of the kernel, and the choice of one ([routing/]).
      [BsdBpf]: the BPF sniffer ([bsdbpf/]). [Afpacket]: the options of AF_PACKET
      sockets and reading from the ring shared with the kernel ([afpacket/]);
      [AfpacketFrames] is about rings of frames, for kernels as they are documented,
      [AfpacketCorrect] about rings of blocks, for kernels of which more is assumed.
    - [Bytediff]: differences of byte slices ([bytediff/]).

    Components meet at interfaces. A layer that is serialized or decoded is an
    object of [SerializeBuffer] and of [Parser], instantiated in [Stack]; a packet is
    built from the answers of a decoder ([Packet]), instantiated in [Decoders]; a sink
    of bytes is the class [Writer] with [WriterLaws] ([Capture]), extended by
    [BufferedWriter] in [Ng]; the streams of the TCP assembler are told a list of
    events, and [TcpStream] states which lists the assembler may tell; the kernel that
    sends is the class [Sendmmsg] with [SendmmsgLaws] ([RawSend]), the one that sniffs
    [Bpf], the one that shares its memory [Memory] and [Kernel] ([Afpacket]).

    ** What the theorems show

    - Round trips: what a layer, a frame, a DNS message, a pcap or a pcapng file is
      written as is decoded to the same fields, with the checksums that a receiver
      computes.
    - Typing: of any fewer than 65536 bytes, every layer of a packet has fields of
      its types and contents and payload that are parts of the data, up to the first
      decoder that is not modelled. A failed decoding is the last layer and in the
      error layer.
    - Safety: decoders and file readers, given any bytes, neither panic nor run
      on; where the code can panic the theorem says where and a lemma shows it.
    - Equivalence: lazy packets answer as eager ones, the containers of the parser
      agree, reading without copying gives the same packets, the TCP state machine
      accepts a grammar.
    - Refinement and invariants: the TCP assembler with its pages, caches and pools
      implements an abstract specification of streams, and the reader of a stream
      in every interleaving reads what it delivers; the defragmenters implement maps
      from keys to lists of fragments; a batch of packets to send and
      the ring of frames of an AF_PACKET socket are queues that lose nothing; of the
      kernel's routes one is chosen that covers the addresses; buffers, pools and protocols of calls keep
      their invariants along every sequence of operations.
    - Liveness and termination: what has arrived without a gap has been delivered,
      flushing ends, every loop ends - except the ones of which a lemma shows that
      they do not.

    ** Bounds

    Every loop that is not structural has a bound that is computed from its input:
    readers count the bytes that are left, as each step takes some; decoders of
    options and chunks count the bytes too; a packet counts twice the bytes of the
    data, as a decoder that takes none is followed by one that does; the name decoder
    of DNS counts the bytes and the recursion level that the code has; the
    assembler counts the pages of the connection; the defragmenter the fragments.
    Waiting for the kernel has the bound
    that [AfpacketFrames] asks of the kernel: how often in a row a poll ends by a signal
    or a frame is filled with a packet of length 0. The theorems show that these bounds are
    never reached. The one exception is the
    chain of extension headers of GTP, whose 16-bit offset wraps in data of more than
    65535 bytes and then may run on; [LayerIssues] shows it.

    ** Not modelled

    - Packages that are bindings: [pcap] and [pfring] call C libraries that are loaded
      at run time, [pcapgo/capture.go] and the set-up of [afpacket] sockets call the
      operating system; what these calls do is not in the source. [available.go]
      looks for libraries in the file system.
    - Data: [macs/valid_mac_prefixes.go] and [layers/iana_ports.go] are tables; the
      programs under [examples/], [dumpcommand] and the generators are clients.
    - Text: the [String] and dump methods, which go through [fmt] and reflection.
    - The channel of [PacketSource.Packets]: its goroutine ends on errors of the
      operating system by their numbers and sleeps in between. Locks: one call is
      modelled at a time, except for [tcpreader], where both goroutines are.
    - The protocols of [layers/] that are not named above. Their decoders are
      parameters of [Decoders], of which [DecodersCorrect] assumes nothing: where
      decoding reaches one, the layers up to there are shown to be well formed. *)

From Stdlib Require Export ZArith Lia.
From stdpp Require Export base list gmap strings.

Declare Scope go_scope.
Delimit Scope go_scope with go.
#[global] Open Scope Z_scope.

(** ** Data *)

(** A byte slice is the list of its bytes, each an integer in [0, 256).
    Slices are values here: capacity beyond the length is not visible, so a
    reslice past the length is a panic in the model (the code is never
    relied on to reslice into spare capacity, except in [SerializeBuffer.v]
    and the assembler files, which model their backing arrays themselves). *)
Abbreviation bytes := (list Z).

Definition is_byte (b : Z) : Prop := 0 <= b < 256.
Definition is_bytes (l : bytes) : Prop := Forall is_byte l.

Definition is_u8 (v : Z) : Prop := 0 <= v < 256.
Definition is_u16 (v : Z) : Prop := 0 <= v < 65536.
Definition is_u32 (v : Z) : Prop := 0 <= v < 4294967296.

(** Conversions to the fixed-width unsigned types, [uint8(x)] and so on. *)
Definition u8 (v : Z) : Z := v mod 256.
Definition u16 (v : Z) : Z := v mod 65536.
Definition u32 (v : Z) : Z := v mod 4294967296.
Definition u64 (v : Z) : Z := v mod 18446744073709551616.

(** [len(l)] as a Go [int]. *)
Definition len {A} (l : list A) : Z := Z.of_nat (length l).

Definition b2z (b : bool) : Z := if b then 1 else 0.

(** An [error] value: the format string and the integers it was built from,
    or an error that wraps another one. *)
Inductive error : Type :=
  | Errorf (fmt : string) (args : list Z)
  | Wrapf (fmt : string) (cause : error).

Definition errors_New (msg : string) : error := Errorf msg [].

(** The reasons for which the Go run time, or the code itself, panics. *)
Inductive crash : Type :=
  | IndexOutOfRange
  | SliceOutOfRange
  | NilDereference
  | Panicked (msg : string).

(** How a call ends. [NoFuel] marks a loop whose step bound was too small: it
    is no behaviour of the code, and the theorems rule it out. *)
Inductive outcome (A : Type) : Type :=
  | Ok (a : A)
  | Err (e : error)
  | Panic (c : crash)
  | NoFuel.
Arguments Ok {A} a.
Arguments Err {A} e.
Arguments Panic {A} c.
Arguments NoFuel {A}.

#[export] Instance outcome_ret : MRet outcome := fun A a => Ok a.
#[export] Instance outcome_bind : MBind outcome := fun A B k m =>
  match m with
  | Ok a => k a
  | Err e => Err e
  | Panic c => Panic c
  | NoFuel => NoFuel
  end.

(** A method that mutates a state of type [S]. The state survives an error. *)
Definition M (S A : Type) : Type := S -> outcome A * S.

#[export] Instance M_ret {S} : MRet (M S) := fun A a s => (Ok a, s).
#[export] Instance M_bind {S} : MBind (M S) := fun A B k m s =>
  match m s with
  | (Ok a, s') => k a s'
  | (Err e, s') => (Err e, s')
  | (Panic c, s') => (Panic c, s')
  | (NoFuel, s') => (NoFuel, s')
  end.

Section monad_operations.
Context {S : Type}.

Definition lift {A} (o : outcome A) : M S A := fun s => (o, s).
Definition throw {A} (e : error) : M S A := fun s => (Err e, s).
Definition get : M S S := fun s => (Ok s, s).
Definition put (s' : S) : M S unit := fun _ => (Ok tt, s').
Definition modify (f : S -> S) : M S unit := fun s => (Ok tt, f s).
Definition gets {A} (f : S -> A) : M S A := fun s => (Ok (f s), s).
End monad_operations.

(** Run a method on a part of a larger state. *)
Definition zoom {S T A} (view : S -> T) (upd : T -> S -> S) (m : M T A) : M S A :=
  fun s => match m (view s) with (o, t) => (o, upd t s) end.

Definition on_fst {S T A} : M S A -> M (S * T) A :=
  zoom fst (fun a p => (a, snd p)).
Definition on_snd {S T A} : M T A -> M (S * T) A :=
  zoom snd (fun b p => (fst p, b)).

(** ** Slices *)

(** [l[i]] *)
Definition index {A} (l : list A) (i : Z) : outcome A :=
  if i <? 0 then Panic IndexOutOfRange
  else match l !! Z.to_nat i with
       | Some b => Ok b
       | None => Panic IndexOutOfRange
       end.

Fixpoint take_exact {A} (n : nat) (l : list A) : option (list A) :=
  match n, l with
  | O, _ => Some []
  | S n', a :: l' => cons a <$> take_exact n' l'
  | S _, [] => None
  end.

Fixpoint drop_exact {A} (n : nat) (l : list A) : option (list A) :=
  match n, l with
  | O, _ => Some l
  | S n', _ :: l' => drop_exact n' l'
  | S _, [] => None
  end.

(** [l[lo:]], [l[:hi]] and [l[lo:hi]] *)
Definition slice_from {A} (l : list A) (lo : Z) : outcome (list A) :=
  if lo <? 0 then Panic SliceOutOfRange
  else match drop_exact (Z.to_nat lo) l with
       | Some r => Ok r
       | None => Panic SliceOutOfRange
       end.

Definition slice_to {A} (l : list A) (hi : Z) : outcome (list A) :=
  if hi <? 0 then Panic SliceOutOfRange
  else match take_exact (Z.to_nat hi) l with
       | Some r => Ok r
       | None => Panic SliceOutOfRange
       end.

Definition slice {A} (l : list A) (lo hi : Z) : outcome (list A) :=
  if (lo <? 0) || (hi <? lo) then Panic SliceOutOfRange
  else r ← slice_to l hi; slice_from r lo.

(** Writing [src] over [l] from its start, and from position [n]. *)
Fixpoint overlay {A} (l src : list A) {struct src} : option (list A) :=
  match src with
  | [] => Some l
  | b :: src' =>
      match l with
      | _ :: l' => cons b <$> overlay l' src'
      | [] => None
      end
  end.

Fixpoint overwrite {A} (n : nat) (l src : list A) {struct n} : option (list A) :=
  match n with
  | O => overlay l src
  | S n' =>
      match l with
      | a :: l' => cons a <$> overwrite n' l' src
      | [] => None
      end
  end.

Definition write_at {A} (l : list A) (off : Z) (src : list A) : outcome (list A) :=
  if off <? 0 then Panic SliceOutOfRange
  else match overwrite (Z.to_nat off) l src with
       | Some r => Ok r
       | None => Panic IndexOutOfRange
       end.

(** [l[i] = v] *)
Definition set_index {A} (l : list A) (i : Z) (v : A) : outcome (list A) :=
  if i <? 0 then Panic IndexOutOfRange else write_at l i [v].

(** [copy(l[lo:hi], src)] and [copy(l[lo:], src)]: as many elements as fit. *)
Definition copy_into {A} (l : list A) (lo hi : Z) (src : list A) : outcome (list A) :=
  dst ← slice l lo hi; write_at l lo (take (length dst) src).

Definition copy_from {A} (l : list A) (lo : Z) (src : list A) : outcome (list A) :=
  dst ← slice_from l lo; write_at l lo (take (length dst) src).

(** ** [encoding/binary] *)

Definition BE_Uint16 (b : bytes) : outcome Z :=
  match b with
  | b0 :: b1 :: _ => Ok (b0 * 256 + b1)
  | _ => Panic IndexOutOfRange
  end.
Definition BE_Uint32 (b : bytes) : outcome Z :=
  match b with
  | b0 :: b1 :: b2 :: b3 :: _ => Ok (((b0 * 256 + b1) * 256 + b2) * 256 + b3)
  | _ => Panic IndexOutOfRange
  end.
Definition BE_Uint64 (b : bytes) : outcome Z :=
  hi ← BE_Uint32 b; t ← slice_from b 4; lo ← BE_Uint32 t; mret (hi * 4294967296 + lo).
Definition LE_Uint16 (b : bytes) : outcome Z :=
  match b with
  | b0 :: b1 :: _ => Ok (b0 + 256 * b1)
  | _ => Panic IndexOutOfRange
  end.
Definition LE_Uint32 (b : bytes) : outcome Z :=
  match b with
  | b0 :: b1 :: b2 :: b3 :: _ => Ok (b0 + 256 * (b1 + 256 * (b2 + 256 * b3)))
  | _ => Panic IndexOutOfRange
  end.

Definition be16 (v : Z) : bytes := [(v / 256) mod 256; v mod 256].
Definition be32 (v : Z) : bytes :=
  [(v / 16777216) mod 256; (v / 65536) mod 256; (v / 256) mod 256; v mod 256].
Definition le16 (v : Z) : bytes := [v mod 256; (v / 256) mod 256].
Definition le32 (v : Z) : bytes :=
  [v mod 256; (v / 256) mod 256; (v / 65536) mod 256; (v / 16777216) mod 256].

Lemma len_be16 v : len (be16 v) = 2.
Proof. reflexivity. Qed.
Lemma len_be32 v : len (be32 v) = 4.
Proof. reflexivity. Qed.
Lemma len_le16 v : len (le16 v) = 2.
Proof. reflexivity. Qed.
Lemma len_le32 v : len (le32 v) = 4.
Proof. reflexivity. Qed.

(** [binary.BigEndian.PutUint16(l[off:], v)] and its siblings. *)
Definition BE_PutUint16 (l : bytes) (off v : Z) : outcome bytes := write_at l off (be16 v).
Definition BE_PutUint32 (l : bytes) (off v : Z) : outcome bytes := write_at l off (be32 v).
Definition LE_PutUint16 (l : bytes) (off v : Z) : outcome bytes := write_at l off (le16 v).
Definition LE_PutUint32 (l : bytes) (off v : Z) : outcome bytes := write_at l off (le32 v).

(** [x & mask != 0] *)
Definition has_bits (x mask : Z) : bool := negb (Z.land x mask =? 0).

(** ** Reasoning about outcomes *)

(** [wp m Q E s]: run from [s], [m] ends with a value satisfying [Q] or an
    error satisfying [E]; it neither panics nor runs out of fuel. *)
Definition wp {S A} (m : M S A) (Q : A -> S -> Prop) (E : error -> S -> Prop) (s : S) : Prop :=
  match m s with
  | (Ok a, s') => Q a s'
  | (Err e, s') => E e s'
  | _ => False
  end.

Definition owp {A} (m : outcome A) (Q : A -> Prop) (E : error -> Prop) : Prop :=
  match m with
  | Ok a => Q a
  | Err e => E e
  | _ => False
  end.

(** No panic, no exhausted loop bound. *)
Definition ends {A} (o : outcome A) : Prop :=
  match o with Ok _ | Err _ => True | _ => False end.

Section wp_rules.
Context {S : Type}.

Lemma wp_ret {A} (a : A) Q E (s : S) : wp (mret a) Q E s ↔ Q a s.
Proof. reflexivity. Qed.
Lemma wp_throw {A} e (Q : A → S → Prop) E s : wp (throw e) Q E s ↔ E e s.
Proof. reflexivity. Qed.
Lemma wp_lift {A} (o : outcome A) Q E (s : S) :
  wp (lift o) Q E s ↔ owp o (fun a => Q a s) (fun e => E e s).
Proof. destruct o; reflexivity. Qed.
Lemma wp_get Q E (s : S) : wp get Q E s ↔ Q s s.
Proof. reflexivity. Qed.
Lemma wp_put (s' : S) Q E s : wp (put s') Q E s ↔ Q tt s'.
Proof. reflexivity. Qed.
Lemma wp_modify (f : S → S) Q E s : wp (modify f) Q E s ↔ Q tt (f s).
Proof. reflexivity. Qed.
Lemma wp_gets {A} (f : S → A) Q E s : wp (gets f) Q E s ↔ Q (f s) s.
Proof. reflexivity. Qed.

Lemma wp_bind {A B} (m : M S A) (k : A → M S B) Q E s :
  wp (m ≫= k) Q E s ↔ wp m (fun a s' => wp (k a) Q E s') E s.
Proof. unfold wp, mbind, M_bind. destruct (m s) as [[] ?]; reflexivity. Qed.

Lemma wp_mono {A} (m : M S A) (Q Q' : A → S → Prop) (E E' : error → S → Prop) s :
  (∀ a s', Q a s' → Q' a s') → (∀ e s', E e s' → E' e s') →
  wp m Q E s → wp m Q' E' s.
Proof. intros HQ HE. unfold wp. destruct (m s) as [[] ?]; naive_solver. Qed.

Lemma wp_if {A} (b : bool) (m1 m2 : M S A) Q E s :
  (b = true → wp m1 Q E s) → (b = false → wp m2 Q E s) →
  wp (if b then m1 else m2) Q E s.
Proof. destruct b; auto. Qed.
End wp_rules.

(** The monad's operations, as equations at a state. *)
Lemma bind_eq {S A B} (m : M S A) (k : A → M S B) s : (m ≫= k) s =
  match m s with
  | (Ok a, s') => k a s'
  | (Err e, s') => (Err e, s')
  | (Panic c, s') => (Panic c, s')
  | (NoFuel, s') => (NoFuel, s')
  end.
Proof. done. Qed.
Lemma bind_ok {S A B} (m : M S A) (k : A → M S B) s a s' :
  m s = (Ok a, s') → (m ≫= k) s = k a s'.
Proof. unfold mbind, M_bind. by intros ->. Qed.
Lemma ret_eq {S A} (a : A) (s : S) : (mret a : M S A) s = (Ok a, s).
Proof. done. Qed.
Lemma lift_bind {S A B} (o : outcome A) (k : A → M S B) s : (lift o ≫= k) s =
  match o with Ok a => k a s | Err e => (Err e, s) | Panic c => (Panic c, s) | NoFuel => (NoFuel, s) end.
Proof. by destruct o. Qed.

(** A call whose error is a value: Go's [out, err := f()]. *)
Definition attempt {S A} (m : M S A) : M S (A + error) := fun s =>
  match m s with
  | (Ok a, s') => (Ok (inl a), s')
  | (Err e, s') => (Ok (inr e), s')
  | (Panic c, s') => (Panic c, s')
  | (NoFuel, s') => (NoFuel, s')
  end.
Definition try_ {A} (o : outcome A) : outcome (A + error) :=
  match o with
  | Ok a => Ok (inl a)
  | Err e => Ok (inr e)
  | Panic c => Panic c
  | NoFuel => NoFuel
  end.

(** [for i := lo; i < hi; i++ { body }] *)
Fixpoint for_range {S} (n : nat) (i : Z) (body : Z → M S unit) : M S unit :=
  match n with
  | O => mret tt
  | S n' => _ ← body i; for_range n' (i + 1) body
  end.
Definition for_loop {S} (lo hi : Z) (body : Z → M S unit) : M S unit :=
  for_range (Z.to_nat (hi - lo)) lo body.

Lemma wp_for_loop {S} (I : Z → S → Prop) (E : error → S → Prop) lo hi body s :
  lo <= hi → I lo s →
  (∀ i s, lo <= i < hi → I i s → wp (body i) (fun _ s' => I (i + 1) s') E s) →
  wp (for_loop lo hi body) (fun _ s' => I hi s') E s.
Proof.
  intros Hle H0 Hbody. unfold for_loop.
  assert (∀ n i s, lo <= i → i + Z.of_nat n = hi → I i s →
    wp (for_range n i body) (fun _ s' => I hi s') E s) as Hgo.
  { induction n as [|n IH]; intros i s' Hi Hn HI; cbn [for_range].
    - apply wp_ret. by replace hi with i by lia.
    - apply wp_bind. eapply wp_mono; [| |apply Hbody; [lia | exact HI]]; [|done].
      intros ? s'' ?. apply IH; [lia | lia | done]. }
  apply Hgo; [lia | lia | done].
Qed.

Lemma wp_of_eq {S A} (m : M S A) (Q : A → S → Prop) E s a s' :
  m s = (Ok a, s') → Q a s' → wp m Q E s.
Proof. unfold wp. by intros ->. Qed.

Lemma wp_returns {S} (m : M S unit) s s' :
  wp m (fun _ s1 => s1 = s') (fun _ _ => False) s → m s = (Ok tt, s').
Proof. unfold wp. destruct (m s) as [[[]| | |] s1]; [by intros -> | done..]. Qed.

Lemma owp_bind {A B} (m : outcome A) (k : A → outcome B) Q E :
  owp (m ≫= k) Q E ↔ owp m (fun a => owp (k a) Q E) E.
Proof. destruct m; reflexivity. Qed.

Lemma owp_ret {A} (a : A) Q E : owp (mret a) Q E ↔ Q a.
Proof. reflexivity. Qed.

Lemma owp_ends {A} (m : outcome A) : owp m (fun _ => True) (fun _ => True) ↔ ends m.
Proof. destruct m; reflexivity. Qed.

Lemma owp_mono {A} (m : outcome A) (Q Q' : A → Prop) (E E' : error → Prop) :
  (∀ a, Q a → Q' a) → (∀ e, E e → E' e) → owp m Q E → owp m Q' E'.
Proof. intros HQ HE. destruct m; naive_solver. Qed.

(** ** Lengths *)

Section length_lemmas.
Context {A : Type}.
Implicit Types l : list A.

Lemma len_nil : len ([] : list A) = 0.
Proof. reflexivity. Qed.
Lemma len_cons a l : len (a :: l) = 1 + len l.
Proof. unfold len; cbn [length]; lia. Qed.
Lemma len_app l1 l2 : len (l1 ++ l2) = len l1 + len l2.
Proof. unfold len; rewrite length_app; lia. Qed.
Lemma len_nonneg l : 0 <= len l.
Proof. unfold len; lia. Qed.
Lemma len_take n l : len (take n l) = Z.min (Z.of_nat n) (len l).
Proof. unfold len; rewrite length_take; lia. Qed.
Lemma len_drop n l : len (drop n l) = Z.max 0 (len l - Z.of_nat n).
Proof. unfold len; rewrite length_drop; lia. Qed.
Lemma len_replicate n (a : A) : len (replicate n a) = Z.of_nat n.
Proof. unfold len; rewrite length_replicate; lia. Qed.
Lemma len_zero l : len l = 0 → l = [].
Proof. unfold len; destruct l; cbn [length]; [done | lia]. Qed.
Lemma len_insert i a l : len (<[i:=a]> l) = len l.
Proof. unfold len; rewrite length_insert; lia. Qed.
Lemma len_pos l : 0 < len l ↔ l ≠ [].
Proof. destruct l; rewrite ?len_nil, ?len_cons; [|pose proof (len_nonneg l)]; naive_solver lia. Qed.
End length_lemmas.

Create Rewrite HintDb lens.
#[export] Hint Rewrite @len_nil @len_cons @len_app @len_take @len_drop
  @len_replicate @len_insert len_be16 len_be32 len_le16 len_le32 : lens.

(** Arithmetic over lengths of lists. *)
Ltac lens :=
  autorewrite with lens in *;
  repeat match goal with
    | H : context [len ?l] |- _ =>
        lazymatch goal with
        | _ : 0 <= len l |- _ => fail
        | _ => pose proof (len_nonneg l)
        end
    | |- context [len ?l] =>
        lazymatch goal with
        | _ : 0 <= len l |- _ => fail
        | _ => pose proof (len_nonneg l)
        end
    end; lia.

(** ** Slices within bounds *)

Section slice_lemmas.
Context {A : Type}.
Implicit Types l src : list A.

Lemma take_exact_ok n l : (n <= length l)%nat → take_exact n l = Some (take n l).
Proof.
  revert l; induction n as [|n IH]; intros [|a l] H; cbn in *; try done; try lia.
  rewrite IH by lia. done.
Qed.
Lemma drop_exact_ok n l : (n <= length l)%nat → drop_exact n l = Some (drop n l).
Proof.
  revert l; induction n as [|n IH]; intros [|a l] H; cbn in *; try done; try lia.
  apply IH; lia.
Qed.
Lemma take_exact_None n l : (length l < n)%nat → take_exact n l = None.
Proof.
  revert l; induction n as [|n IH]; intros [|a l] H; cbn in *; try done; try lia.
  rewrite IH by lia. done.
Qed.
Lemma drop_exact_None n l : (length l < n)%nat → drop_exact n l = None.
Proof.
  revert l; induction n as [|n IH]; intros [|a l] H; cbn in *; try done; try lia.
  apply IH; lia.
Qed.
Lemma overwrite_ok n l src :
  (n + length src <= length l)%nat →
  overwrite n l src = Some (take n l ++ src ++ drop (n + length src) l).
Proof.
  revert l src; induction n as [|n IH]; intros l src; cbn.
  - revert l; induction src as [|b src IHs]; intros l H; cbn in *.
    { by destruct l. }
    destruct l as [|a l]; cbn in *; [lia|]. rewrite IHs by lia. done.
  - destruct l as [|a l]; cbn; intros H; [lia|]. rewrite IH by lia. done.
Qed.

Lemma index_ok l i : 0 <= i < len l → ∃ a, l !! Z.to_nat i = Some a ∧ index l i = Ok a.
Proof.
  intros H. unfold index. destruct (Z.ltb_spec i 0); [lia|].
  destruct (lookup_lt_is_Some_2 l (Z.to_nat i)) as [a ->]; [unfold len in H; lia|]. eauto.
Qed.
Lemma slice_from_ok l lo : 0 <= lo <= len l → slice_from l lo = Ok (drop (Z.to_nat lo) l).
Proof.
  intros H. unfold slice_from. destruct (Z.ltb_spec lo 0); [lia|].
  rewrite drop_exact_ok; [done | unfold len in H; lia].
Qed.
Lemma slice_to_ok l hi : 0 <= hi <= len l → slice_to l hi = Ok (take (Z.to_nat hi) l).
Proof.
  intros H. unfold slice_to. destruct (Z.ltb_spec hi 0); [lia|].
  rewrite take_exact_ok; [done | unfold len in H; lia].
Qed.
Lemma slice_ok l lo hi : 0 <= lo <= hi → hi <= len l →
  slice l lo hi = Ok (drop (Z.to_nat lo) (take (Z.to_nat hi) l)).
Proof.
  intros H1 H2. unfold slice.
  destruct (Z.ltb_spec lo 0); [lia|]. destruct (Z.ltb_spec hi lo); [lia|]. cbn.
  rewrite slice_to_ok by lia. cbn. apply slice_from_ok. rewrite len_take. lia.
Qed.
Lemma write_at_ok l off src : 0 <= off → off + len src <= len l →
  write_at l off src =
    Ok (take (Z.to_nat off) l ++ src ++ drop (Z.to_nat (off + len src)) l).
Proof.
  intros H1 H2. unfold write_at. destruct (Z.ltb_spec off 0); [lia|].
  unfold len in *. rewrite overwrite_ok by lia. do 4 f_equal. lia.
Qed.

(** Weakest preconditions of the accessors: the bounds check and the value. *)
Lemma owp_index l i (Q : A → Prop) E :
  0 <= i < len l → (∀ a, l !! Z.to_nat i = Some a → Q a) → owp (index l i) Q E.
Proof. intros H HQ. destruct (index_ok l i H) as (a & Ha & ->). by apply HQ. Qed.
Lemma owp_slice_from l lo (Q : list A → Prop) E :
  0 <= lo <= len l → Q (drop (Z.to_nat lo) l) → owp (slice_from l lo) Q E.
Proof. intros H HQ. by rewrite slice_from_ok. Qed.
Lemma owp_slice_to l hi (Q : list A → Prop) E :
  0 <= hi <= len l → Q (take (Z.to_nat hi) l) → owp (slice_to l hi) Q E.
Proof. intros H HQ. by rewrite slice_to_ok. Qed.
Lemma owp_slice l lo hi (Q : list A → Prop) E :
  0 <= lo <= hi → hi <= len l → Q (drop (Z.to_nat lo) (take (Z.to_nat hi) l)) →
  owp (slice l lo hi) Q E.
Proof. intros H1 H2 HQ. by rewrite slice_ok. Qed.
End slice_lemmas.

(** Writing over a middle part, named by what is around it. *)
Section write_lemmas.
Context {A : Type}.
Implicit Types l pre old post src : list A.

Lemma write_at_app pre old post src off : off = len pre → len old = len src →
  write_at (pre ++ old ++ post) off src = Ok (pre ++ src ++ post).
Proof.
  intros -> Hl. rewrite write_at_ok by lens. unfold len in *.
  rewrite Nat2Z.id, take_app_length. do 3 f_equal.
  replace (Z.to_nat _) with (length pre + length old)%nat by lia.
  by rewrite app_assoc, <-length_app, drop_app_length.
Qed.

Lemma set_index_app pre a post v off : off = len pre →
  set_index (pre ++ a :: post) off v = Ok (pre ++ v :: post).
Proof.
  intros ->. unfold set_index. destruct (Z.ltb_spec (len pre) 0); [lens|].
  by apply (write_at_app pre [a] post [v]).
Qed.

Lemma set_index_insert l i v : 0 <= i < len l → set_index l i v = Ok (<[Z.to_nat i := v]> l).
Proof.
  intros H. unfold set_index. destruct (Z.ltb_spec i 0); [lia|].
  rewrite write_at_ok by (unfold len in *; cbn; lia).
  rewrite insert_take_drop by (unfold len in H; lia). cbn [app].
  do 4 f_equal. unfold len. cbn. lia.
Qed.

Lemma index_at pre post a : index (pre ++ a :: post) (len pre) = Ok a.
Proof.
  unfold index. destruct (Z.ltb_spec (len pre) 0); [lens|]. unfold len.
  by rewrite Nat2Z.id, lookup_app_r, Nat.sub_diag.
Qed.

(** A list cut at a length that it has. *)
Lemma index_last l a : last l = Some a → index l (len l - 1) = Ok a.
Proof.
  destruct l as [|b l _] using rev_ind; [done|]. rewrite last_snoc. intros [= ->].
  rewrite len_app, len_cons, len_nil. replace (len l + (1 + 0) - 1) with (len l) by lia.
  apply (index_at l []).
Qed.

Lemma cut_at l n : 0 <= n <= len l → ∃ l1 l2, l = l1 ++ l2 ∧ len l1 = n ∧ len l2 = len l - n.
Proof.
  intros Hn. exists (take (Z.to_nat n) l), (drop (Z.to_nat n) l). rewrite take_drop.
  split; [done|]. rewrite len_take, len_drop. lia.
Qed.

Lemma copy_into_app pre old post src lo hi : lo = len pre → hi = lo + len src → len old = len src →
  copy_into (pre ++ old ++ post) lo hi src = Ok (pre ++ src ++ post).
Proof.
  intros -> -> Hl. unfold copy_into. rewrite slice_ok by lens. cbn [mbind outcome_bind].
  rewrite take_ge; [by apply write_at_app|]. rewrite length_drop, length_take, !length_app.
  unfold len in *. lia.
Qed.

Lemma copy_from_app pre old src lo : lo = len pre → len old = len src →
  copy_from (pre ++ old) lo src = Ok (pre ++ src).
Proof.
  intros -> Hl. unfold copy_from. rewrite slice_from_ok by lens. cbn [mbind outcome_bind].
  rewrite take_ge by (rewrite length_drop, length_app; unfold len in *; lia).
  pose proof (write_at_app pre old [] src (len pre) eq_refl Hl) as H. by rewrite !app_nil_r in H.
Qed.

Lemma slice_from_app pre post lo : lo = len pre → slice_from (pre ++ post) lo = Ok post.
Proof.
  intros ->. rewrite slice_from_ok by lens. unfold len. by rewrite Nat2Z.id, drop_app_length.
Qed.
Lemma slice_to_app pre post hi : hi = len pre → slice_to (pre ++ post) hi = Ok pre.
Proof.
  intros ->. rewrite slice_to_ok by lens. unfold len. by rewrite Nat2Z.id, take_app_length.
Qed.
Lemma slice_app pre mid post lo hi : lo = len pre → hi = len pre + len mid →
  slice (pre ++ mid ++ post) lo hi = Ok mid.
Proof.
  intros -> ->. rewrite slice_ok by lens. unfold len. f_equal.
  replace (Z.to_nat (_ + _)) with (length pre + length mid)%nat by lia.
  by rewrite app_assoc, <-length_app, take_app_length, Nat2Z.id, drop_app_length.
Qed.
End write_lemmas.

(** Lists that are equal up to the grouping of their parts. *)
Ltac regroup := repeat (progress (rewrite <-?app_assoc; cbn [app])); reflexivity.

Lemma owp_BE_Uint16 b (Q : Z → Prop) E :
  2 <= len b → (∀ v, (is_bytes b → is_u16 v) → Q v) → owp (BE_Uint16 b) Q E.
Proof.
  intros H HQ. destruct b as [|b0 [|b1 b]]; [lens | lens |]. cbn. apply HQ.
  unfold is_bytes, is_u16. rewrite !Forall_cons. unfold is_byte. lia.
Qed.
Lemma owp_BE_Uint32 b (Q : Z → Prop) E :
  4 <= len b → (∀ v, (is_bytes b → is_u32 v) → Q v) → owp (BE_Uint32 b) Q E.
Proof.
  intros H HQ. destruct b as [|b0 [|b1 [|b2 [|b3 b]]]]; try lens. cbn. apply HQ.
  unfold is_bytes, is_u32. rewrite !Forall_cons. unfold is_byte. lia.
Qed.

(** ** Integers and their encodings *)

Create HintDb go.
#[export] Hint Unfold is_byte is_u8 is_u16 is_u32 u8 u16 u32 : go.

(** Linear arithmetic with division and remainder by constants. *)
Ltac zdiv := Z.div_mod_to_equations; lia.

Lemma is_bytes_nil : is_bytes [].
Proof. constructor. Qed.
Lemma is_bytes_cons b l : is_bytes (b :: l) ↔ is_byte b ∧ is_bytes l.
Proof. apply Forall_cons. Qed.
Lemma is_bytes_app l1 l2 : is_bytes (l1 ++ l2) ↔ is_bytes l1 ∧ is_bytes l2.
Proof. apply Forall_app. Qed.
Lemma is_bytes_take n l : is_bytes l → is_bytes (take n l).
Proof. apply Forall_take. Qed.
Lemma is_bytes_drop n l : is_bytes l → is_bytes (drop n l).
Proof. apply Forall_drop. Qed.
Lemma is_bytes_lookup l i b : is_bytes l → l !! i = Some b → is_byte b.
Proof. intros H Hi. eapply Forall_lookup_1; eauto. Qed.
Lemma is_bytes_replicate n b : is_byte b → is_bytes (replicate n b).
Proof. intros H. by apply Forall_replicate. Qed.

#[export] Hint Resolve is_bytes_nil is_bytes_take is_bytes_drop is_bytes_replicate : go.

Lemma is_byte_mod v : is_byte (v mod 256).
Proof. unfold is_byte. zdiv. Qed.
Lemma be16_bytes v : is_bytes (be16 v).
Proof. repeat constructor; apply is_byte_mod. Qed.
Lemma be32_bytes v : is_bytes (be32 v).
Proof. repeat constructor; apply is_byte_mod. Qed.
Lemma le16_bytes v : is_bytes (le16 v).
Proof. repeat constructor; apply is_byte_mod. Qed.
Lemma le32_bytes v : is_bytes (le32 v).
Proof. repeat constructor; apply is_byte_mod. Qed.
#[export] Hint Resolve is_byte_mod be16_bytes be32_bytes le16_bytes le32_bytes : go.

Lemma be16_value v : is_u16 v → (v / 256) mod 256 * 256 + v mod 256 = v.
Proof. unfold is_u16. zdiv. Qed.
Lemma be32_value v : is_u32 v →
  (((v / 16777216) mod 256 * 256 + (v / 65536) mod 256) * 256 + (v / 256) mod 256) * 256
    + v mod 256 = v.
Proof. unfold is_u32. zdiv. Qed.
Lemma le16_value v : is_u16 v → v mod 256 + 256 * ((v / 256) mod 256) = v.
Proof. unfold is_u16. zdiv. Qed.
Lemma le32_value v : is_u32 v →
  v mod 256 + 256 * ((v / 256) mod 256 + 256 * ((v / 65536) mod 256
    + 256 * ((v / 16777216) mod 256))) = v.
Proof. unfold is_u32. zdiv. Qed.

(** The encoders undo the decoders on bytes. *)
Lemma be16_of a b : is_byte a → is_byte b → be16 (a * 256 + b) = [a; b].
Proof. unfold is_byte, be16. intros. repeat f_equal; zdiv. Qed.
Lemma be32_of a b c d : is_byte a → is_byte b → is_byte c → is_byte d →
  be32 (((a * 256 + b) * 256 + c) * 256 + d) = [a; b; c; d].
Proof. unfold is_byte, be32. intros. repeat f_equal; zdiv. Qed.
Lemma le16_of a b : is_byte a → is_byte b → le16 (a + 256 * b) = [a; b].
Proof. unfold is_byte, le16. intros. repeat f_equal; zdiv. Qed.
Lemma le32_of a b c d : is_byte a → is_byte b → is_byte c → is_byte d →
  le32 (a + 256 * (b + 256 * (c + 256 * d))) = [a; b; c; d].
Proof. unfold is_byte, le32. intros. repeat f_equal; zdiv. Qed.

Lemma BE_Uint16_be16 v r : is_u16 v → BE_Uint16 (be16 v ++ r) = Ok v.
Proof. intros H. cbn. by rewrite be16_value. Qed.
Lemma BE_Uint32_be32 v r : is_u32 v → BE_Uint32 (be32 v ++ r) = Ok v.
Proof. intros H. cbn -[Z.mul Z.div Z.modulo]. by rewrite be32_value. Qed.
Lemma LE_Uint16_le16 v r : is_u16 v → LE_Uint16 (le16 v ++ r) = Ok v.
Proof. intros H. cbn -[Z.mul Z.div Z.modulo]. by rewrite le16_value. Qed.
Lemma LE_Uint32_le32 v r : is_u32 v → LE_Uint32 (le32 v ++ r) = Ok v.
Proof. intros H. cbn -[Z.mul Z.div Z.modulo]. by rewrite le32_value. Qed.

Lemma u8_small v : is_u8 v → u8 v = v.
Proof. unfold is_u8, u8. intros. apply Z.mod_small. lia. Qed.
Lemma u16_small v : is_u16 v → u16 v = v.
Proof. unfold is_u16, u16. intros. apply Z.mod_small. lia. Qed.
Lemma u32_small v : is_u32 v → u32 v = v.
Proof. unfold is_u32, u32. intros. apply Z.mod_small. lia. Qed.
Lemma u16_range v : is_u16 (u16 v).
Proof. unfold is_u16, u16. zdiv. Qed.
Lemma u8_range v : is_u8 (u8 v).
Proof. unfold is_u8, u8. zdiv. Qed.
Lemma u32_range v : is_u32 (u32 v).
Proof. unfold is_u32, u32. zdiv. Qed.

(** Only the low 32 bits are encoded. *)
Lemma le32_u32 (v : Z) : le32 (u32 v) = le32 v.
Proof.
  assert (∀ k m n, 0 < k → 0 < m → n = k * (256 * m) → (v mod n / k) mod 256 = (v / k) mod 256) as Hd.
  { intros k m n Hk Hm ->.
    rewrite Z.rem_mul_r, (Z.mul_comm k), Z.div_add, (Z.div_small (v mod k)) by (apply Z.mod_pos_bound || nia; lia).
    rewrite Z.add_0_l, Z.rem_mul_r by lia. rewrite (Z.mul_comm 256), Z.mod_add, Z.mod_mod by lia. done. }
  pose proof (Hd 1 16777216 4294967296 eq_refl eq_refl eq_refl) as Hd1. rewrite !Z.div_1_r in Hd1.
  unfold le32, u32. by rewrite Hd1, (Hd 256 65536), (Hd 65536 256), (Hd 16777216 1).
Qed.

Lemma be32_u32 (v : Z) : be32 (u32 v) = be32 v.
Proof.
  pose proof (le32_u32 v) as H. unfold le32, be32 in *. injection H as E1 E2 E3 E4.
  by rewrite E1, E2, E3, E4.
Qed.

(** Masks and shifts by constants, as division and remainder. *)
Lemma land_low x k : 0 <= k → Z.land x (Z.ones k) = x mod 2 ^ k.
Proof. intros. by apply Z.land_ones. Qed.

Lemma land_shiftl_low hi lo k : 0 <= k → 0 <= lo < 2 ^ k → Z.land (Z.shiftl hi k) lo = 0.
Proof.
  intros Hk Hlo. apply Z.bits_inj'. intros n Hn. rewrite Z.land_spec, Z.bits_0.
  destruct (Z.ltb_spec n k); [by rewrite Z.shiftl_spec_low by lia|].
  assert (Z.testbit lo n = false) as ->; [|apply andb_false_r].
  apply Z.testbit_false; [lia|]. rewrite Z.div_small; [done|]. split; [lia|].
  eapply Z.lt_le_trans; [apply Hlo | apply Z.pow_le_mono_r; lia].
Qed.

Lemma lor_disjoint hi lo k : 0 <= k → 0 <= lo < 2 ^ k → Z.lor (Z.shiftl hi k) lo = hi * 2 ^ k + lo.
Proof.
  intros Hk Hlo. pose proof (land_shiftl_low hi lo k Hk Hlo) as H0.
  rewrite <-Z.lxor_lor, <-Z.add_nocarry_lxor, Z.shiftl_mul_pow2 by done. done.
Qed.

(** A decidable property of bytes is checked on all 256 of them. *)
Definition all_bytes (P : Z → bool) : bool := forallb P (seqZ 0 256).

Lemma byte_decide (P : Z → bool) : all_bytes P = true → ∀ b, is_byte b → P b = true.
Proof.
  unfold all_bytes. rewrite forallb_forall. intros H b Hb. apply H.
  apply list_elem_of_In, elem_of_seqZ. unfold is_byte in Hb. lia.
Qed.

(** ** Decoding states *)

(** A method [DecodeFromBytes] mutates its receiver and may call
    [df.SetTruncated()] on the feedback object it was given. *)
Record dstate (L : Type) : Type := DState {
  dlayer : L;
  dtruncated : bool;
}.
Arguments DState {L} _ _.
Arguments dlayer {L} _.
Arguments dtruncated {L} _.

Definition SetTruncated {L} : M (dstate L) unit :=
  modify (fun s => DState (dlayer s) true).
Definition get_layer {L} : M (dstate L) L := gets dlayer.
Definition put_layer {L} (l : L) : M (dstate L) unit :=
  modify (fun s => DState l (dtruncated s)).

Definition modify_layer {L} (f : L -> L) : M (dstate L) unit :=
  modify (fun s => DState (f (dlayer s)) (dtruncated s)).

(** Name the first elements of a list whose length is known: [H] is
    [length l = (20 + m)%nat], or such a number. *)
Ltac explode l H :=
  repeat (destruct l as [|? l];
    [discriminate H | apply (f_equal pred) in H; cbn [length pred Nat.add] in H]).

(** Evaluate the accesses at constant offsets of a list whose elements are
    named; arithmetic on the elements is left alone. *)
Ltac run_slices :=
  cbv [take length index set_index slice slice_to slice_from write_at copy_into copy_from
       take_exact drop_exact overwrite overlay
       BE_Uint16 BE_Uint32 LE_Uint16 LE_Uint32 BE_PutUint16 BE_PutUint32 LE_PutUint16 LE_PutUint32
       be16 be32 le16 le32 app
       Z.to_nat Pos.to_nat Pos.iter_op Init.Nat.add Z.ltb Z.compare Pos.compare Pos.compare_cont orb
       lookup list_lookup mbind outcome_bind mret outcome_ret fmap option_fmap option_map].

Lemma len_at_least {A} (l : list A) n : Z.of_nat n <= len l → ∃ m, length l = (n + m)%nat.
Proof. intros H. exists (length l - n)%nat. unfold len in H. lia. Qed.

(** Side conditions of witnesses: arithmetic on a concrete list. *)
Ltac solve_Forall :=
  repeat first
    [ apply List.Forall_nil
    | apply List.Forall_cons; [unfold is_byte, is_u8, is_u16, is_u32; cbn; lia |] ].
