(* ===== verification/Flows.v ===== *)
(** * Endpoints and flows ([flows.go])

    [Endpoint] and [Flow] are fixed-size values usable as map keys: a type, the
    lengths and 16-byte arrays padded with zeros. The file models their
    constructors, accessors, ordering and hashes, and proves that they carry
    exactly the bytes they were built from, that the hash of a flow does not
    depend on its direction, and that [LessThan] is a strict total order. *)

From S2P Require Import Prelude.

Definition MaxEndpointSize : Z := 16.

(** An [EndpointType] is an [int64]. *)
Definition EndpointType := Z.

Record Endpoint : Type := mkEndpoint {
  e_typ : EndpointType;
  e_len : Z;
  e_raw : bytes;
}.

Record Flow : Type := mkFlow {
  f_typ : EndpointType;
  f_slen : Z;
  f_dlen : Z;
  f_src : bytes;
  f_dst : bytes;
}.

#[export] Instance Endpoint_eq_dec : EqDecision Endpoint.
Proof. solve_decision. Defined.
#[export] Instance Flow_eq_dec : EqDecision Flow.
Proof. solve_decision. Defined.

#[export] Instance Flow_countable : Countable Flow.
Proof.
  apply (inj_countable'
    (λ f, (f_typ f, f_slen f, f_dlen f, f_src f, f_dst f))
    (λ '(t, sl, dl, s, d), mkFlow t sl dl s d)).
  by intros [].
Defined.

(** The zero value of a [\[MaxEndpointSize\]byte] array. *)
Definition zero_raw : bytes := replicate (Z.to_nat MaxEndpointSize) 0.

Definition NewEndpoint (typ : EndpointType) (raw : bytes) : outcome Endpoint :=
  if len raw >? MaxEndpointSize
  then Panic (Panicked "raw byte length greater than MaxEndpointSize")
  else arr ← copy_from zero_raw 0 raw; mret (mkEndpoint typ (len raw) arr).

Definition Endpoint_Raw (a : Endpoint) : outcome bytes := slice_to (e_raw a) (e_len a).

(** [bytes.Compare]: lexicographic comparison, as -1, 0 or 1. *)
Fixpoint bytes_Compare (a b : bytes) : Z :=
  match a, b with
  | [], [] => 0
  | [], _ :: _ => -1
  | _ :: _, [] => 1
  | x :: a', y :: b' => if x <? y then -1 else if y <? x then 1 else bytes_Compare a' b'
  end.

Definition LessThan (a b : Endpoint) : outcome bool :=
  if e_typ a <? e_typ b then mret true
  else if e_typ a =? e_typ b then
    ra ← slice_to (e_raw a) (e_len a);
    rb ← slice_to (e_raw b) (e_len b);
    mret (bytes_Compare ra rb <? 0)
  else mret false.

Definition fnvBasis : Z := 14695981039346656037.
Definition fnvPrime : Z := 1099511628211.

Fixpoint fnvHash_loop (h : Z) (s : bytes) : Z :=
  match s with
  | [] => h
  | b :: s' => fnvHash_loop (u64 (Z.lxor h b * fnvPrime)) s'
  end.

Definition fnvHash (s : bytes) : Z := fnvHash_loop fnvBasis s.

Definition Endpoint_FastHash (a : Endpoint) : outcome Z :=
  r ← slice_to (e_raw a) (e_len a);
  mret (u64 (Z.lxor (fnvHash r) (u64 (e_typ a)) * fnvPrime)).

Definition Flow_FastHash (f : Flow) : outcome Z :=
  s ← slice_to (f_src f) (f_slen f);
  d ← slice_to (f_dst f) (f_dlen f);
  let h := u64 (fnvHash s + fnvHash d) in
  mret (u64 (Z.lxor h (u64 (f_typ f)) * fnvPrime)).

Definition FlowFromEndpoints (src dst : Endpoint) : outcome Flow :=
  if negb (e_typ src =? e_typ dst)
  then Err (Errorf "Mismatched endpoint types: %v->%v" [e_typ src; e_typ dst])
  else mret (mkFlow (e_typ src) (e_len src) (e_len dst) (e_raw src) (e_raw dst)).

Definition Endpoints (f : Flow) : Endpoint * Endpoint :=
  (mkEndpoint (f_typ f) (f_slen f) (f_src f), mkEndpoint (f_typ f) (f_dlen f) (f_dst f)).

Definition Src (f : Flow) : Endpoint := let '(src, _) := Endpoints f in src.
Definition Dst (f : Flow) : Endpoint := let '(_, dst) := Endpoints f in dst.

Definition Reverse (f : Flow) : Flow :=
  mkFlow (f_typ f) (f_dlen f) (f_slen f) (f_dst f) (f_src f).

Definition NewFlow (t : EndpointType) (src dst : bytes) : outcome Flow :=
  if (len src >? MaxEndpointSize) || (len dst >? MaxEndpointSize)
  then Panic (Panicked "flow raw byte length greater than MaxEndpointSize")
  else
    s ← copy_from zero_raw 0 src;
    d ← copy_from zero_raw 0 dst;
    mret (mkFlow t (len src) (len dst) s d).

(** The global registry of endpoint types: number to name. *)
Definition RegisterEndpointType (num : Z) (name : string) (types : gmap Z string)
    : outcome (EndpointType * gmap Z string) :=
  match types !! num with
  | Some _ => Panic (Panicked "Endpoint type number already in use")
  | None => mret (num, <[num := name]> types)
  end.

(** [var EndpointInvalid], [InvalidEndpoint], [InvalidFlow] *)
Definition EndpointInvalid : EndpointType := 0.
Definition InvalidEndpoint : outcome Endpoint := NewEndpoint EndpointInvalid [].
Definition InvalidFlow : outcome Flow := NewFlow EndpointInvalid [] [].

(** ** Well-formed values: what the constructors build *)

Definition pad16 (r : bytes) : bytes := r ++ replicate (16 - length r) 0.

Definition Endpoint_wf (a : Endpoint) : Prop :=
  ∃ r, len r <= MaxEndpointSize ∧ is_bytes r ∧ a = mkEndpoint (e_typ a) (len r) (pad16 r).

Lemma copy_zero_raw r : len r <= MaxEndpointSize → copy_from zero_raw 0 r = Ok (pad16 r).
Proof.
  unfold MaxEndpointSize. intros H.
  assert (len zero_raw = 16) as Hz by reflexivity.
  assert (length r <= 16)%nat by (unfold len in H; lia).
  unfold copy_from. rewrite slice_from_ok by lia.
  change (drop (Z.to_nat 0) zero_raw) with zero_raw. unfold mbind, outcome_bind.
  rewrite take_ge by (change (length zero_raw) with 16%nat; lia).
  rewrite write_at_ok by lia. change (take (Z.to_nat 0) zero_raw) with (@nil Z). cbn [app].
  unfold pad16, zero_raw. rewrite drop_replicate. do 3 f_equal.
  unfold len, MaxEndpointSize. lia.
Qed.

Lemma slice_pad16 r : len r <= MaxEndpointSize → slice_to (pad16 r) (len r) = Ok r.
Proof.
  unfold pad16, MaxEndpointSize. intros H. rewrite slice_to_ok by lens.
  unfold len. rewrite Nat2Z.id. by rewrite take_app_length.
Qed.

Lemma NewEndpoint_eq typ r : len r <= MaxEndpointSize →
  NewEndpoint typ r = Ok (mkEndpoint typ (len r) (pad16 r)).
Proof.
  intros H. unfold NewEndpoint. destruct (Z.gtb_spec (len r) MaxEndpointSize); [lia|].
  by rewrite copy_zero_raw.
Qed.

Lemma NewFlow_eq t s d : len s <= MaxEndpointSize → len d <= MaxEndpointSize →
  NewFlow t s d = Ok (mkFlow t (len s) (len d) (pad16 s) (pad16 d)).
Proof.
  intros Hs Hd. unfold NewFlow.
  destruct (Z.gtb_spec (len s) MaxEndpointSize); [lia|].
  destruct (Z.gtb_spec (len d) MaxEndpointSize); [lia|]. cbn -[copy_from].
  by rewrite !copy_zero_raw.
Qed.

Lemma pad16_inj r1 r2 : len r1 = len r2 → pad16 r1 = pad16 r2 → r1 = r2.
Proof.
  unfold pad16, len. intros Hl H.
  apply app_inj_1 in H as [H _]; [done | lia].
Qed.

(** ** The order on byte strings *)

Lemma bytes_Compare_refl a : bytes_Compare a a = 0.
Proof. induction a as [|x a IH]; [done|]. cbn. by rewrite Z.ltb_irrefl. Qed.

Lemma bytes_Compare_eq a b : bytes_Compare a b = 0 → a = b.
Proof.
  revert b; induction a as [|x a IH]; intros [|y b]; cbn; try done.
  destruct (Z.ltb_spec x y); [done|]. destruct (Z.ltb_spec y x); [done|].
  intros H1. f_equal; [lia | auto].
Qed.

Lemma bytes_Compare_antisym a b : bytes_Compare b a = - bytes_Compare a b.
Proof.
  revert b; induction a as [|x a IH]; intros [|y b]; cbn; try done.
  destruct (Z.ltb_spec x y), (Z.ltb_spec y x); try done; lia.
Qed.

Lemma bytes_Compare_trans a b c :
  bytes_Compare a b < 0 → bytes_Compare b c < 0 → bytes_Compare a c < 0.
Proof.
  revert b c; induction a as [|x a IH]; intros [|y b] [|z c]; cbn; try lia.
  destruct (Z.ltb_spec x y), (Z.ltb_spec y z), (Z.ltb_spec x z), (Z.ltb_spec y x),
    (Z.ltb_spec z y), (Z.ltb_spec z x); try lia. intros. by apply (IH b).
Qed.

(** ** Theorems *)

Lemma LessThan_wf a b : Endpoint_wf a → Endpoint_wf b →
  ∃ ra rb, len ra <= MaxEndpointSize ∧ len rb <= MaxEndpointSize ∧
    a = mkEndpoint (e_typ a) (len ra) (pad16 ra) ∧ b = mkEndpoint (e_typ b) (len rb) (pad16 rb) ∧
    LessThan a b = Ok ((e_typ a <? e_typ b) || ((e_typ a =? e_typ b) && (bytes_Compare ra rb <? 0))).
Proof.
  intros (ra & Ha & _ & Ea) (rb & Hb & _ & Eb). exists ra, rb. do 4 (split; [done|]).
  unfold LessThan. destruct (e_typ a <? e_typ b); [done|].
  destruct (e_typ a =? e_typ b); [|done].
  rewrite Ea, Eb. cbn -[slice_to len pad16]. by rewrite !slice_pad16.
Qed.

(** For addresses of at most 16 bytes, [NewFlow] succeeds; the
    raw bytes of its source and destination endpoints are the addresses given,
    pasting the two endpoints back together gives the same flow, and two flows
    are equal as map keys exactly when type and both addresses are equal. *)
Theorem NewFlow_roundtrip t src dst :
  len src <= MaxEndpointSize → len dst <= MaxEndpointSize →
  ∃ f, NewFlow t src dst = Ok f ∧
    Endpoint_Raw (Src f) = Ok src ∧ Endpoint_Raw (Dst f) = Ok dst ∧
    FlowFromEndpoints (Src f) (Dst f) = Ok f ∧
    ∀ t' src' dst', len src' <= MaxEndpointSize → len dst' <= MaxEndpointSize →
      NewFlow t' src' dst' = Ok f → t' = t ∧ src' = src ∧ dst' = dst.
Proof.
  intros Hs Hd. exists (mkFlow t (len src) (len dst) (pad16 src) (pad16 dst)).
  split; [by apply NewFlow_eq|].
  split; [by apply slice_pad16|]. split; [by apply slice_pad16|].
  split; [unfold FlowFromEndpoints; cbn; by rewrite Z.eqb_refl|].
  intros t' src' dst' Hs' Hd'. rewrite NewFlow_eq by done.
  intros [= -> H1 H2 H3 H4]. eauto using pad16_inj.
Qed.

Lemma NewFlow_roundtrip_witness :
  ∃ f, NewFlow 4 [10; 0; 0; 1] [10; 0; 0; 2] = Ok f ∧ Endpoint_Raw (Src f) = Ok [10; 0; 0; 1].
Proof.
  destruct (NewFlow_roundtrip 4 [10; 0; 0; 1] [10; 0; 0; 2]) as (f & Hf & Hs & _);
    [vm_compute; discriminate | vm_compute; discriminate | eauto].
Defined.

Lemma Reverse_involutive f : Reverse (Reverse f) = f.
Proof. by destruct f. Qed.

Lemma Endpoints_Reverse f : Endpoints (Reverse f) = (Dst f, Src f).
Proof. by destruct f. Qed.

(** A flow and its reverse, which exchanges the two endpoints,
    have the same [FastHash], for every flow value. *)
Theorem Flow_FastHash_Reverse f :
  Endpoints (Reverse f) = (Dst f, Src f) ∧ Flow_FastHash (Reverse f) = Flow_FastHash f.
Proof.
  split; [apply Endpoints_Reverse|].
  unfold Flow_FastHash, Reverse; cbn.
  destruct (slice_to (f_dst f) (f_dlen f)) as [d|e|c|] eqn:Hd;
    destruct (slice_to (f_src f) (f_slen f)) as [s|e'|c'|] eqn:Hs; cbn;
    unfold slice_to in Hd, Hs; repeat case_match; simplify_eq; try done.
  by rewrite (Z.add_comm (fnvHash d)).
Qed.

(** On endpoints built by [NewEndpoint], [LessThan] never panics and
    is a strict total order: irreflexive, transitive, and two endpoints neither
    of which is less than the other are equal. *)
Theorem LessThan_strict_total a b c :
  Endpoint_wf a → Endpoint_wf b → Endpoint_wf c →
  LessThan a a = Ok false ∧
  (LessThan a b = Ok true → LessThan b c = Ok true → LessThan a c = Ok true) ∧
  (LessThan a b = Ok true ∨ LessThan b a = Ok true ∨ a = b).
Proof.
  intros Ha Hb Hc.
  destruct (LessThan_wf a b Ha Hb) as (ra & rb & La & Lb & Ea & Eb & Hab).
  destruct (LessThan_wf b c Hb Hc) as (rb' & rc & Lb' & Lc & Eb' & Ec & Hbc).
  assert (rb' = rb) as -> by (rewrite Eb in Eb'; injection Eb'; intros; by apply pad16_inj).
  assert (∀ x y rx ry, len rx <= MaxEndpointSize → len ry <= MaxEndpointSize →
    x = mkEndpoint (e_typ x) (len rx) (pad16 rx) → y = mkEndpoint (e_typ y) (len ry) (pad16 ry) →
    LessThan x y = Ok ((e_typ x <? e_typ y) || ((e_typ x =? e_typ y) && (bytes_Compare rx ry <? 0))))
    as HL.
  { intros x y rx ry Hx Hy Ex Ey. unfold LessThan. destruct (e_typ x <? e_typ y); [done|].
    destruct (e_typ x =? e_typ y); [|done]. rewrite Ex, Ey. cbn -[slice_to len pad16].
    by rewrite !slice_pad16. }
  rewrite Hab, Hbc, (HL a a ra ra), (HL a c ra rc), (HL b a rb ra) by done.
  rewrite bytes_Compare_refl, (bytes_Compare_antisym ra rb), Z.ltb_irrefl, andb_false_r.
  split; [done|]. split.
  - intros [= H1] [= H2]. f_equal.
    pose proof (bytes_Compare_trans ra rb rc). lia.
  - pose proof (bytes_Compare_eq ra rb).
    destruct (Z.lt_trichotomy (e_typ a) (e_typ b)) as [?|[?|?]]; [left; f_equal; lia| |right; left; f_equal; lia].
    destruct (Z.lt_trichotomy (bytes_Compare ra rb) 0) as [?|[?|?]];
      [left; f_equal; lia | | right; left; f_equal; lia].
    right; right. rewrite Ea, Eb. naive_solver congruence.
Qed.

Lemma LessThan_strict_total_witness :
  let a := mkEndpoint 3 2 (pad16 [9; 9]) in
  NewEndpoint 3 [9; 9] = Ok a ∧ LessThan a a = Ok false.
Proof.
  cbv zeta. set (a := mkEndpoint _ _ _). split; [reflexivity|].
  assert (Endpoint_wf a) as Ha.
  { exists [9; 9]. split; [vm_compute; discriminate|]. split; [|reflexivity].
    repeat constructor; done. }
  exact (proj1 (LessThan_strict_total a a a Ha Ha Ha)).
Defined.
