(* ===== verification/SerializeBuffer.v ===== *)
(** * Serialization buffers ([writer.go])

    The growable buffer that layers write themselves into, from the innermost
    payload outwards. The backing array is modelled with its capacity: bytes
    handed out by [PrependBytes] and [AppendBytes] keep what the array held
    there before. The contract that layers rely on is the class
    [SerializeBuffer] with its laws; [serializeBuffer] is the implementation
    of the package. *)

From S2P Require Import Prelude.

Definition LayerType := Z.

Record SerializeOptions : Type := mkSerializeOptions {
  FixLengths : bool;
  ComputeChecksums : bool;
}.

(** ** The interface *)

(** [PrependBytes] and [AppendBytes] return the present contents of the slice
    handed out. [Store] is what the caller's later writes through those slices
    amount to: the bytes that [Bytes] will show. *)
Class SerializeBuffer (W : Type) : Type := {
  Bytes : W → bytes;
  PrependBytes : Z → M W bytes;
  AppendBytes : Z → M W bytes;
  Clear : M W unit;
  Layers : W → list LayerType;
  PushLayer : LayerType → M W unit;
  Store : bytes → M W unit;
}.

Class SerializeBufferLaws (W : Type) `{SerializeBuffer W} : Type := {
  buf_ok : W → Prop;
  PrependBytes_spec : ∀ w n, buf_ok w → 0 <= n → ∃ stale w',
    PrependBytes n w = (Ok stale, w') ∧ buf_ok w' ∧ len stale = n ∧
    Bytes w' = stale ++ Bytes w ∧ Layers w' = Layers w;
  AppendBytes_spec : ∀ w n, buf_ok w → 0 <= n → ∃ stale w',
    AppendBytes n w = (Ok stale, w') ∧ buf_ok w' ∧ len stale = n ∧
    Bytes w' = Bytes w ++ stale ∧ Layers w' = Layers w;
  Clear_spec : ∀ w, buf_ok w → ∃ w',
    Clear w = (Ok tt, w') ∧ buf_ok w' ∧ Bytes w' = [] ∧ Layers w' = [];
  PushLayer_spec : ∀ w t, buf_ok w → ∃ w',
    PushLayer t w = (Ok tt, w') ∧ buf_ok w' ∧ Bytes w' = Bytes w ∧ Layers w' = Layers w ++ [t];
  Store_spec : ∀ w bs, buf_ok w → len bs = len (Bytes w) → ∃ w',
    Store bs w = (Ok tt, w') ∧ buf_ok w' ∧ Bytes w' = bs ∧ Layers w' = Layers w;
}.

(** ** The implementation *)

(** [data] is [sb_arr[:sb_len]]; [sb_arr] is the whole backing array. *)
Record serializeBuffer : Type := mkBuffer {
  sb_arr : bytes;
  sb_len : Z;
  sb_start : Z;
  sb_prepended : Z;
  sb_appended : Z;
  sb_layers : list LayerType;
}.

Definition NewSerializeBuffer : serializeBuffer := mkBuffer [] 0 0 0 0 [].

(** [make(\[\]byte, n)] *)
Definition make_bytes (n : Z) : bytes := replicate (Z.to_nat n) 0.

Definition NewSerializeBufferExpectedSize (expectedPrependLength expectedAppendLength : Z)
    : outcome serializeBuffer :=
  if (expectedPrependLength <? 0) || (expectedAppendLength <? 0)
  then Panic (Panicked "makeslice: len out of range")
  else mret (mkBuffer (make_bytes (expectedPrependLength + expectedAppendLength))
               expectedPrependLength expectedPrependLength
               expectedPrependLength expectedAppendLength []).

(** [w.data[w.start:]] *)
Definition sb_Bytes (w : serializeBuffer) : bytes :=
  drop (Z.to_nat (sb_start w)) (take (Z.to_nat (sb_len w)) (sb_arr w)).

Definition sb_grow_front (num : Z) (w : serializeBuffer) : outcome serializeBuffer :=
  let toPrepend := if sb_prepended w <? num then num else sb_prepended w in
  let length := len (sb_arr w) + toPrepend in
  let newStart := sb_start w + toPrepend in
  newData ← copy_from (make_bytes length) newStart (sb_Bytes w);
  mret (mkBuffer newData (toPrepend + sb_len w) newStart
          (sb_prepended w + toPrepend) (sb_appended w) (sb_layers w)).

Definition sb_PrependBytes (num : Z) (w : serializeBuffer) : outcome bytes * serializeBuffer :=
  if num <? 0 then (Panic (Panicked "num < 0"), w)
  else
    match (if sb_start w <? num then sb_grow_front num w else Ok w) with
    | Ok w1 =>
        let start := sb_start w1 - num in
        let w2 := mkBuffer (sb_arr w1) (sb_len w1) start (sb_prepended w1) (sb_appended w1)
                    (sb_layers w1) in
        (slice (take (Z.to_nat (sb_len w2)) (sb_arr w2)) start (start + num), w2)
    | Err e => (Err e, w)
    | Panic c => (Panic c, w)
    | NoFuel => (NoFuel, w)
    end.

Definition sb_grow_back (num : Z) (w : serializeBuffer) : outcome serializeBuffer :=
  let toAppend := if sb_appended w <? num then num else sb_appended w in
  newData ← copy_from (make_bytes (len (sb_arr w) + toAppend)) (sb_start w) (sb_Bytes w);
  mret (mkBuffer newData (sb_len w) (sb_start w) (sb_prepended w)
          (sb_appended w + toAppend) (sb_layers w)).

Definition sb_AppendBytes (num : Z) (w : serializeBuffer) : outcome bytes * serializeBuffer :=
  if num <? 0 then (Panic (Panicked "num < 0"), w)
  else
    let initialLength := sb_len w in
    match (if len (sb_arr w) - initialLength <? num then sb_grow_back num w else Ok w) with
    | Ok w1 =>
        let w2 := mkBuffer (sb_arr w1) (initialLength + num) (sb_start w1) (sb_prepended w1)
                    (sb_appended w1) (sb_layers w1) in
        (slice (sb_arr w2) initialLength (initialLength + num), w2)
    | Err e => (Err e, w)
    | Panic c => (Panic c, w)
    | NoFuel => (NoFuel, w)
    end.

(** [w.data = w.data[:w.start]] may extend the slice up to its capacity. *)
Definition sb_Clear (w : serializeBuffer) : outcome unit * serializeBuffer :=
  let start := sb_prepended w in
  if (start <? 0) || (start >? len (sb_arr w)) then (Panic SliceOutOfRange, w)
  else (Ok tt, mkBuffer (sb_arr w) start start (sb_prepended w) (sb_appended w) []).

Definition sb_PushLayer (t : LayerType) (w : serializeBuffer) : outcome unit * serializeBuffer :=
  (Ok tt, mkBuffer (sb_arr w) (sb_len w) (sb_start w) (sb_prepended w) (sb_appended w)
            (sb_layers w ++ [t])).

Definition sb_Store (bs : bytes) (w : serializeBuffer) : outcome unit * serializeBuffer :=
  match write_at (sb_arr w) (sb_start w) (take (Z.to_nat (sb_len w - sb_start w)) bs) with
  | Ok arr => (Ok tt, mkBuffer arr (sb_len w) (sb_start w) (sb_prepended w) (sb_appended w)
                        (sb_layers w))
  | Err e => (Err e, w)
  | Panic c => (Panic c, w)
  | NoFuel => (NoFuel, w)
  end.

#[export] Instance serializeBuffer_SerializeBuffer : SerializeBuffer serializeBuffer := {
  Bytes := sb_Bytes;
  PrependBytes := sb_PrependBytes;
  AppendBytes := sb_AppendBytes;
  Clear := sb_Clear;
  Layers := sb_layers;
  PushLayer := sb_PushLayer;
  Store := sb_Store;
}.

(** ** Serializing a stack of layers *)

(** A [SerializableLayer] value: its state, type and [SerializeTo] method,
    which may also fix fields of the layer itself. *)
Record layer_object (W : Type) : Type := LayerObject {
  lo_state : Type;
  lo_value : lo_state;
  lo_LayerType : LayerType;
  lo_SerializeTo : SerializeOptions → M (lo_state * W) unit;
}.
Arguments LayerObject {W} _ _ _ _.
Arguments lo_state {W} _.
Arguments lo_value {W} _.
Arguments lo_LayerType {W} _.
Arguments lo_SerializeTo {W} _ _ _.

Section serialize_layers.
Context {W : Type} `{SerializeBuffer W}.

(** One call of [layer.SerializeTo(w, opts)], keeping the mutated layer. *)
Definition serialize_one (opts : SerializeOptions) (l : layer_object W)
    : M W (layer_object W) := fun w =>
  match lo_SerializeTo l opts (lo_value l, w) with
  | (Ok _, (v, w')) => (Ok (LayerObject (lo_state l) v (lo_LayerType l) (lo_SerializeTo l)), w')
  | (Err e, (_, w')) => (Err e, w')
  | (Panic c, (_, w')) => (Panic c, w')
  | (NoFuel, (_, w')) => (NoFuel, w')
  end.

(** The loop [for i := len(layers) - 1; i >= 0; i--], on the reversed list. *)
Fixpoint SerializeLayers_loop (opts : SerializeOptions) (rev_layers : list (layer_object W))
    : M W unit :=
  match rev_layers with
  | [] => mret tt
  | layer :: rest =>
      l ← serialize_one opts layer;
      _ ← PushLayer (lo_LayerType l);
      SerializeLayers_loop opts rest
  end.

Definition SerializeLayers (opts : SerializeOptions) (layers : list (layer_object W))
    : M W unit :=
  _ ← Clear;
  SerializeLayers_loop opts (rev layers).

(** [SerializePacket]: the packet's layers, [None] for one that is not
    serializable. *)
Fixpoint serializable_layers (layers : list (LayerType * option (layer_object W)))
    : outcome (list (layer_object W)) :=
  match layers with
  | [] => mret []
  | (_, Some sl) :: rest => sls ← serializable_layers rest; mret (sl :: sls)
  | (t, None) :: _ => Err (Errorf "layer %s is not serializable" [t])
  end.

Definition SerializePacket (opts : SerializeOptions)
    (packet : list (LayerType * option (layer_object W))) : M W unit :=
  sls ← lift (serializable_layers packet);
  SerializeLayers opts sls.
End serialize_layers.

(** ** The steps of a [SerializeTo] method

    The state is the layer's fields and the buffer. The slice returned by
    [PrependBytes] is a local list that the method edits; [sync] makes those
    edits visible in the buffer, of which the slice is the front. *)

Section serialize_steps.
Context {L W : Type} `{SerializeBuffer W}.

Definition buffer_Bytes : M (L * W) bytes := gets (fun s => Bytes s.2).
Definition prepend (n : Z) : M (L * W) bytes := on_snd (PrependBytes n).
Definition append (n : Z) : M (L * W) bytes := on_snd (AppendBytes n).
Definition sync (front : bytes) : M (L * W) unit :=
  on_snd (fun w => Store (front ++ drop (length front) (Bytes w)) w).
Definition sync_back (tail : bytes) : M (L * W) unit :=
  on_snd (fun w => Store (take (length (Bytes w) - length tail) (Bytes w) ++ tail) w).
Definition get_fields : M (L * W) L := gets fst.
Definition put_fields (l : L) : M (L * W) unit := modify (fun s => (l, s.2)).
End serialize_steps.

(** ** The invariant of the implementation *)

(** [P] and [A] are the numbers of bytes prepended and appended since the last
    [Clear]; the capacity is always [prepended + appended]. *)
Record buf_inv (P A : Z) (w : serializeBuffer) : Prop := {
  inv_P : sb_prepended w - sb_start w = P;
  inv_A : sb_len w - sb_prepended w = A;
  inv_Pnn : 0 <= P;
  inv_Ann : 0 <= A;
  inv_start : 0 <= sb_start w;
  inv_app : 0 <= sb_appended w;
  inv_len : sb_len w <= len (sb_arr w);
  inv_cap : len (sb_arr w) = sb_prepended w + sb_appended w;
}.

Lemma make_bytes_len n : 0 <= n → len (make_bytes n) = n.
Proof. intros. unfold make_bytes. lens. Qed.

Lemma sb_Bytes_len P A w : buf_inv P A w → len (sb_Bytes w) = P + A.
Proof. intros []. unfold sb_Bytes. lens. Qed.

Lemma take_drop_slice {X} (l : list X) (i j k : nat) :
  (i <= j)%nat → (j <= k)%nat → drop i (take k l) = drop i (take j l) ++ drop j (take k l).
Proof.
  intros Hij Hjk. rewrite <-(take_drop j (take k l)) at 1.
  rewrite take_take, Nat.min_l by done.
  destruct (decide (i <= length (take j l))%nat) as [Hl|Hl].
  - by rewrite drop_app_le.
  - rewrite length_take in Hl.
    by rewrite !drop_ge by (rewrite ?length_app, ?length_drop, ?length_take; lia).
Qed.

Lemma copy_front n k src : 0 <= k → k + len src <= n →
  copy_from (make_bytes n) k src =
    Ok (make_bytes k ++ src ++ make_bytes (n - (k + len src))).
Proof.
  intros Hk Hn. pose proof (len_nonneg src).
  unfold copy_from. rewrite slice_from_ok by (rewrite make_bytes_len; lia).
  unfold mbind, outcome_bind.
  rewrite take_ge by (pose proof (make_bytes_len n); unfold len in *; rewrite length_drop; lia).
  rewrite write_at_ok by (rewrite ?make_bytes_len; lia).
  unfold make_bytes. rewrite take_replicate, drop_replicate. do 4 f_equal; lia.
Qed.

Lemma sb_grow_front_spec P A num w : buf_inv P A w → 0 <= num → ∃ w',
  sb_grow_front num w = Ok w' ∧ buf_inv P A w' ∧ sb_Bytes w' = sb_Bytes w ∧
  sb_layers w' = sb_layers w ∧ num <= sb_start w'.
Proof.
  intros Hw Hn. pose proof (sb_Bytes_len _ _ _ Hw) as HB. destruct Hw.
  unfold sb_grow_front. cbv zeta. set (t := if sb_prepended w <? num then _ else _).
  assert (num <= t ∧ sb_prepended w <= t) as [Ht1 Ht2] by (unfold t; case_match; lia).
  rewrite copy_front by lia. unfold mbind, outcome_bind, mret, outcome_ret.
  eexists; split; [reflexivity|].
  split; [|split; [|split; [reflexivity | cbn; lia]]].
  - split; cbn -[len]; rewrite ?len_app, ?make_bytes_len by lia; lia.
  - unfold sb_Bytes at 1; cbn [sb_arr sb_len sb_start].
    rewrite take_app_ge, drop_app_ge; rewrite ?length_app, ?length_take;
      pose proof (make_bytes_len (sb_start w + t)); unfold len in *; try lia.
    rewrite take_app_ge by lia.
    match goal with |- drop ?a ?l = _ => replace a with O by lia end.
    rewrite drop_0. match goal with |- _ ++ take ?a _ = _ => replace a with O by lia end.
    by rewrite take_0, app_nil_r.
Qed.

Lemma sb_grow_back_spec P A num w : buf_inv P A w → 0 <= num → ∃ w',
  sb_grow_back num w = Ok w' ∧ buf_inv P A w' ∧ sb_Bytes w' = sb_Bytes w ∧
  sb_layers w' = sb_layers w ∧ sb_len w' = sb_len w ∧ num <= len (sb_arr w') - sb_len w'.
Proof.
  intros Hw Hn. pose proof (sb_Bytes_len _ _ _ Hw) as HB. destruct Hw.
  unfold sb_grow_back. cbv zeta. set (t := if sb_appended w <? num then _ else _).
  assert (num <= t ∧ sb_appended w <= t) as [Ht1 Ht2] by (unfold t; case_match; lia).
  rewrite copy_front by lia. unfold mbind, outcome_bind, mret, outcome_ret.
  eexists; split; [reflexivity|]. cbn [sb_len sb_arr].
  rewrite !len_app, !make_bytes_len by lia.
  split; [|split; [|split; [reflexivity | split; [done | lia]]]].
  - split; cbn -[len]; rewrite ?len_app, ?make_bytes_len by lia; lia.
  - unfold sb_Bytes at 1; cbn [sb_arr sb_len sb_start].
    pose proof (make_bytes_len (sb_start w)); unfold len in *.
    rewrite take_app_ge, drop_app_ge by lia.
    match goal with |- drop ?a _ = _ => replace a with O by lia end.
    rewrite drop_0, take_app_ge by lia.
    match goal with |- _ ++ take ?a _ = _ => replace a with O by lia end.
    by rewrite take_0, app_nil_r.
Qed.

Lemma sb_Prepend_inv P A w n : buf_inv P A w → 0 <= n → ∃ stale w',
  sb_PrependBytes n w = (Ok stale, w') ∧ buf_inv (P + n) A w' ∧ len stale = n ∧
  sb_Bytes w' = stale ++ sb_Bytes w ∧ sb_layers w' = sb_layers w ∧
  (P + n <= sb_prepended w → sb_prepended w' = sb_prepended w ∧ sb_appended w' = sb_appended w).
Proof.
  intros Hw Hn. unfold sb_PrependBytes. destruct (Z.ltb_spec n 0); [lia|].
  assert (∃ w1, (if sb_start w <? n then sb_grow_front n w else Ok w) = Ok w1 ∧
    buf_inv P A w1 ∧ sb_Bytes w1 = sb_Bytes w ∧ sb_layers w1 = sb_layers w ∧ n <= sb_start w1 ∧
    (n <= sb_start w → w1 = w)) as (w1 & -> & Hw1 & HB & HL & Hs & Hsame).
  { destruct (Z.ltb_spec (sb_start w) n).
    - destruct (sb_grow_front_spec P A n w Hw Hn) as (w1 & ? & ? & ? & ? & ?).
      exists w1. do 5 (split; [done|]). lia.
    - exists w. split_and!; try done; lia. }
  cbn [sb_len sb_arr sb_start sb_prepended sb_appended sb_layers].
  pose proof Hw as [HP HA _ _ _ _ _ _]. destruct Hw1.
  rewrite slice_ok by lens.
  do 2 eexists; split; [reflexivity|].
  split; [split; cbn; lia|]. split; [lens|]. split; [|split].
  - rewrite <-HB. unfold sb_Bytes; cbn [sb_len sb_arr sb_start].
    rewrite (take_drop_slice _ _ (Z.to_nat (sb_start w1))) by lia.
    rewrite take_take, Nat.min_l by lia.
    do 3 f_equal; lia.
  - done.
  - cbn. intros HPn. rewrite Hsame by lia. done.
Qed.

Lemma sb_Append_inv P A w n : buf_inv P A w → 0 <= n → ∃ stale w',
  sb_AppendBytes n w = (Ok stale, w') ∧ buf_inv P (A + n) w' ∧ len stale = n ∧
  sb_Bytes w' = sb_Bytes w ++ stale ∧ sb_layers w' = sb_layers w ∧
  (A + n <= sb_appended w → sb_prepended w' = sb_prepended w ∧ sb_appended w' = sb_appended w).
Proof.
  intros Hw Hn. unfold sb_AppendBytes. destruct (Z.ltb_spec n 0); [lia|]. cbv zeta.
  assert (∃ w1, (if len (sb_arr w) - sb_len w <? n then sb_grow_back n w else Ok w) = Ok w1 ∧
    buf_inv P A w1 ∧ sb_Bytes w1 = sb_Bytes w ∧ sb_layers w1 = sb_layers w ∧
    sb_len w1 = sb_len w ∧ n <= len (sb_arr w1) - sb_len w1 ∧
    (n <= len (sb_arr w) - sb_len w → w1 = w)) as (w1 & -> & Hw1 & HB & HL & Hl & Hs & Hsame).
  { destruct (Z.ltb_spec (len (sb_arr w) - sb_len w) n).
    - destruct (sb_grow_back_spec P A n w Hw Hn) as (w1 & ? & ? & ? & ? & ? & ?).
      exists w1. do 6 (split; [done|]). lia.
    - exists w. split_and!; try done; lia. }
  cbn [sb_len sb_arr sb_start sb_prepended sb_appended sb_layers].
  pose proof Hw as [HP HA _ _ _ _ _ Hcap]. destruct Hw1.
  rewrite slice_ok by lens.
  do 2 eexists; split; [reflexivity|].
  split; [split; cbn; lia|]. split; [lens|]. split; [|split].
  - rewrite <-HB. unfold sb_Bytes; cbn [sb_len sb_arr sb_start]. rewrite <-Hl.
    rewrite <-(take_drop_slice _ _ (Z.to_nat (sb_len w1))) by lia. done.
  - done.
  - cbn. intros HPn. rewrite Hsame by lia. done.
Qed.

Lemma sb_Clear_inv P A w : buf_inv P A w → ∃ w',
  sb_Clear w = (Ok tt, w') ∧ buf_inv 0 0 w' ∧ sb_Bytes w' = [] ∧ sb_layers w' = [] ∧
  sb_prepended w' = sb_prepended w ∧ sb_appended w' = sb_appended w.
Proof.
  intros []. unfold sb_Clear. cbv zeta.
  destruct (Z.ltb_spec (sb_prepended w) 0); [lia|].
  destruct (Z.gtb_spec (sb_prepended w) (len (sb_arr w))); [lia|]. cbn [orb].
  eexists; split; [reflexivity|].
  split; [split; cbn; lia|]. split; [|done].
  unfold sb_Bytes; cbn [sb_len sb_arr sb_start]. apply drop_ge. rewrite length_take; lia.
Qed.

Lemma sb_Store_inv P A w bs : buf_inv P A w → len bs = len (sb_Bytes w) → ∃ w',
  sb_Store bs w = (Ok tt, w') ∧ buf_inv P A w' ∧ sb_Bytes w' = bs ∧ sb_layers w' = sb_layers w.
Proof.
  intros Hw Hl. rewrite (sb_Bytes_len _ _ _ Hw) in Hl. destruct Hw.
  unfold sb_Store. rewrite take_ge by (unfold len in *; lia).
  rewrite write_at_ok by lia.
  eexists; split; [reflexivity|]. split; [|split; [|done]].
  - split; cbn [sb_arr sb_len sb_start sb_prepended sb_appended]; lens.
  - unfold sb_Bytes; cbn [sb_len sb_arr sb_start]. unfold len in *.
    rewrite take_app_ge, drop_app_ge by (rewrite length_take; lia).
    rewrite length_take.
    match goal with |- drop ?a _ = _ => replace a with O by lia end.
    rewrite drop_0, take_app_ge by lia.
    match goal with |- _ ++ take ?a _ = _ => replace a with O by lia end.
    by rewrite take_0, app_nil_r.
Qed.

#[export] Instance serializeBuffer_laws : SerializeBufferLaws serializeBuffer.
Proof.
  apply (Build_SerializeBufferLaws _ _ (fun w => ∃ P A, buf_inv P A w)).
  - intros w n (P & A & Hw) Hn.
    destruct (sb_Prepend_inv P A w n Hw Hn) as (s & w' & ? & ? & ? & ? & ? & _). eauto 10.
  - intros w n (P & A & Hw) Hn.
    destruct (sb_Append_inv P A w n Hw Hn) as (s & w' & ? & ? & ? & ? & ? & _). eauto 10.
  - intros w (P & A & Hw).
    destruct (sb_Clear_inv P A w Hw) as (w' & ? & ? & ? & ? & _). eauto 10.
  - intros w t (P & A & []). eexists; split; [reflexivity|]. split; [|done].
    exists P, A. split; cbn; lia.
  - intros w bs (P & A & Hw) Hl.
    destruct (sb_Store_inv P A w bs Hw Hl) as (w' & ? & ? & ? & ?). eauto 10.
Defined.

Lemma NewSerializeBuffer_inv : buf_inv 0 0 NewSerializeBuffer.
Proof. split; vm_compute; first [reflexivity | discriminate]. Qed.

Lemma NewSerializeBufferExpectedSize_inv p a : 0 <= p → 0 <= a → ∃ w,
  NewSerializeBufferExpectedSize p a = Ok w ∧ buf_inv 0 0 w.
Proof.
  intros Hp Ha. unfold NewSerializeBufferExpectedSize.
  destruct (Z.ltb_spec p 0); [lia|]. destruct (Z.ltb_spec a 0); [lia|]. cbn [orb].
  eexists; split; [reflexivity|]. split; cbn [sb_arr sb_len sb_start sb_prepended sb_appended];
    rewrite ?make_bytes_len by lia; lia.
Qed.

(** ** Any sequence of calls

    A caller writes what it wants into the slice that it gets, before its next
    call; that a slice has another length than was asked for is a panic. *)

Inductive buffer_call : Type :=
  | CallPrepend (bs : bytes)
  | CallAppend (bs : bytes)
  | CallPushLayer (t : LayerType)
  | CallClear.

Section calls.
Context {W : Type} `{SerializeBuffer W}.

(** Writing [bs] through a slice that lies at the front, or at the end, of [Bytes]. *)
Definition write_front (slice bs : bytes) : M W unit := fun w =>
  if len slice =? len bs then Store (bs ++ drop (length bs) (Bytes w)) w else (Panic IndexOutOfRange, w).
Definition write_back (slice bs : bytes) : M W unit := fun w =>
  if len slice =? len bs then Store (take (length (Bytes w) - length bs) (Bytes w) ++ bs) w else (Panic IndexOutOfRange, w).

Definition run_call (c : buffer_call) : M W unit :=
  match c with
  | CallPrepend bs => s ← PrependBytes (len bs); write_front s bs
  | CallAppend bs => s ← AppendBytes (len bs); write_back s bs
  | CallPushLayer t => PushLayer t
  | CallClear => Clear
  end.

Fixpoint run_calls (cs : list buffer_call) : M W unit :=
  match cs with
  | [] => mret tt
  | c :: cs' => _ ← run_call c; run_calls cs'
  end.
End calls.

(** What a call does to the contents and the layers. *)
Definition call_effect (s : bytes * list LayerType) (c : buffer_call) : bytes * list LayerType :=
  match c with
  | CallPrepend bs => (bs ++ s.1, s.2)
  | CallAppend bs => (s.1 ++ bs, s.2)
  | CallPushLayer t => (s.1, s.2 ++ [t])
  | CallClear => ([], [])
  end.

(** The numbers of bytes prepended and appended since the last [Clear]. *)
Definition call_sizes (n : Z * Z) (c : buffer_call) : Z * Z :=
  match c with
  | CallPrepend bs => (n.1 + len bs, n.2)
  | CallAppend bs => (n.1, n.2 + len bs)
  | CallPushLayer _ => n
  | CallClear => (0, 0)
  end.

(** A call keeps the buffer's memory when it has room. *)
Definition same_memory (n : Z * Z) (w w' : serializeBuffer) : Prop :=
  n.1 <= sb_prepended w → n.2 <= sb_appended w → sb_prepended w' = sb_prepended w ∧ sb_appended w' = sb_appended w.

Lemma run_call_spec n w c : buf_inv n.1 n.2 w → ∃ w', run_call c w = (Ok tt, w') ∧
  let m := call_sizes n c in buf_inv m.1 m.2 w' ∧ (sb_Bytes w', sb_layers w') = call_effect (sb_Bytes w, sb_layers w) c ∧
  same_memory m w w'.
Proof.
  intros Hw. destruct c as [bs|bs|t|]; cbn [run_call call_sizes call_effect fst snd].
  - destruct (sb_Prepend_inv n.1 n.2 w (len bs) Hw (len_nonneg bs)) as (s & w1 & E & Hw1 & Hs & HB & HL & Hm).
    destruct (sb_Store_inv _ _ w1 (bs ++ sb_Bytes w) Hw1) as (w2 & E2 & Hw2 & HB2 & HL2); [rewrite HB, !len_app; lia|].
    exists w2. unfold mbind, M_bind. cbn [PrependBytes serializeBuffer_SerializeBuffer]. rewrite E. unfold write_front. rewrite Hs, Z.eqb_refl.
    cbn [Store Bytes serializeBuffer_SerializeBuffer]. rewrite HB, drop_app_ge by (unfold len in *; lia).
    replace (length bs - length s)%nat with O by (unfold len in *; lia). rewrite drop_0, E2, HB2, HL2, HL.
    split_and!; try done. intros H1 H2. unfold sb_Store in E2. destruct (Hm H1) as [<- <-].
    destruct (write_at _ _ _); try done. by injection E2 as <-.
  - destruct (sb_Append_inv n.1 n.2 w (len bs) Hw (len_nonneg bs)) as (s & w1 & E & Hw1 & Hs & HB & HL & Hm).
    destruct (sb_Store_inv _ _ w1 (sb_Bytes w ++ bs) Hw1) as (w2 & E2 & Hw2 & HB2 & HL2); [rewrite HB, !len_app; lia|].
    exists w2. unfold mbind, M_bind. cbn [AppendBytes serializeBuffer_SerializeBuffer]. rewrite E. unfold write_back. rewrite Hs, Z.eqb_refl.
    cbn [Store Bytes serializeBuffer_SerializeBuffer]. rewrite HB, length_app, take_app_le by (unfold len in *; lia).
    rewrite take_ge by (unfold len in *; lia). rewrite E2, HB2, HL2, HL.
    split_and!; try done. intros H1 H2. unfold sb_Store in E2. destruct (Hm H2) as [<- <-].
    destruct (write_at _ _ _); try done. by injection E2 as <-.
  - eexists. split; [reflexivity|]. split; [|done]. destruct Hw. by split.
  - destruct (sb_Clear_inv n.1 n.2 w Hw) as (w' & E & Hw' & HB & HL & Hm). exists w'. split; [exact E|].
    split; [done|]. split; [by rewrite HB, HL|]. by intros _ _.
Qed.

Lemma run_calls_spec cs : ∀ n w, buf_inv n.1 n.2 w → ∃ w', run_calls cs w = (Ok tt, w') ∧
  let m := foldl call_sizes n cs in buf_inv m.1 m.2 w' ∧
  (sb_Bytes w', sb_layers w') = foldl call_effect (sb_Bytes w, sb_layers w) cs.
Proof.
  induction cs as [|c cs IH]; intros n w Hw; cbn [run_calls foldl]; [by exists w|].
  destruct (run_call_spec n w c Hw) as (w1 & E & Hw1 & HB & _). destruct (IH _ w1 Hw1) as (w2 & E2 & Hw2 & HB2).
  exists w2. unfold mbind, M_bind. rewrite E, E2. split; [done|]. split; [done|]. by rewrite HB2, HB.
Qed.



(** Calls between two [Clear]s only add to the sizes, and keep the memory as long as it suffices. *)
Lemma round_memory cs : Forall (.≠ CallClear) cs → ∀ n w, buf_inv n.1 n.2 w → ∃ w', run_calls cs w = (Ok tt, w') ∧
  let m := foldl call_sizes n cs in buf_inv m.1 m.2 w' ∧ n.1 <= m.1 ∧ n.2 <= m.2 ∧ same_memory m w w'.
Proof.
  induction 1 as [|c cs Hc _ IH]; intros n w Hw; cbn [run_calls foldl].
  { exists w. unfold same_memory. split_and!; done. }
  destruct (run_call_spec n w c Hw) as (w1 & E & Hw1 & _ & Hm1). destruct (IH _ w1 Hw1) as (w2 & E2 & Hw2 & H1 & H2 & Hm2).
  exists w2. unfold mbind, M_bind. rewrite E, E2. split; [done|]. split; [done|].
  assert (n.1 <= (call_sizes n c).1 ∧ n.2 <= (call_sizes n c).2) as [].
  { destruct c as [bs|bs|t|]; cbn; try done; pose proof (len_nonneg bs); lia. }
  split_and!; [lia|lia|]. intros Hp Ha. unfold same_memory in *. destruct Hm1 as [E3 E4]; [lia|lia|].
  rewrite E3, E4 in Hm2. by apply Hm2.
Qed.

(** After a round of calls and a [Clear], the same round again allocates nothing:
    the backing array keeps its length. *)
Theorem Clear_reuses_buffer w cs : buf_inv 0 0 w → Forall (.≠ CallClear) cs →
  ∃ w1 w2 w3, run_calls cs w = (Ok tt, w1) ∧ Clear w1 = (Ok tt, w2) ∧
    Bytes w2 = [] ∧ run_calls cs w2 = (Ok tt, w3) ∧ len (sb_arr w3) = len (sb_arr w1).
Proof.
  intros Hw Hcs. destruct (round_memory cs Hcs (0, 0) w Hw) as (w1 & E1 & Hw1 & _).
  destruct (sb_Clear_inv _ _ w1 Hw1) as (w2 & Hc & Hw2 & HB & _ & Hpre & Happ).
  destruct (round_memory cs Hcs (0, 0) w2 Hw2) as (w3 & E3 & Hw3 & _ & _ & Hsame).
  exists w1, w2, w3. split_and!; try done. destruct Hw1, Hw3. destruct Hsame as [E5 E6]; lia.
Qed.

(** ** Rules for the steps of [SerializeTo] *)

Section serialize_rules.
Context {L W : Type} `{SerializeBufferLaws W}.
Implicit Types (l : L) (w : W).

Lemma wp_buffer_Bytes Q E l w : Q (Bytes w) (l, w) → wp buffer_Bytes Q E (l, w).
Proof. done. Qed.

Lemma wp_get_fields Q E l w : Q l (l, w) → wp get_fields Q E (l, w).
Proof. done. Qed.

Lemma wp_put_fields l' Q E l w : Q tt (l', w) → wp (put_fields l') Q E (l, w).
Proof. done. Qed.

Lemma wp_prepend n Q E l w : buf_ok w → 0 <= n →
  (∀ stale w', buf_ok w' → len stale = n → Bytes w' = stale ++ Bytes w →
     Layers w' = Layers w → Q stale (l, w')) →
  wp (prepend n) Q E (l, w).
Proof.
  intros Hw Hn HQ. destruct (PrependBytes_spec w n Hw Hn) as (st & w' & Hp & ? & ? & ? & ?).
  unfold wp, prepend, on_snd, zoom. cbn [snd fst]. rewrite Hp. auto.
Qed.

Lemma wp_append n Q E l w : buf_ok w → 0 <= n →
  (∀ stale w', buf_ok w' → len stale = n → Bytes w' = Bytes w ++ stale →
     Layers w' = Layers w → Q stale (l, w')) →
  wp (append n) Q E (l, w).
Proof.
  intros Hw Hn HQ. destruct (AppendBytes_spec w n Hw Hn) as (st & w' & Hp & ? & ? & ? & ?).
  unfold wp, append, on_snd, zoom. cbn [snd fst]. rewrite Hp. auto.
Qed.

Lemma wp_sync front old p Q E l w : buf_ok w → Bytes w = old ++ p → length front = length old →
  (∀ w', buf_ok w' → Bytes w' = front ++ p → Layers w' = Layers w → Q tt (l, w')) →
  wp (sync front) Q E (l, w).
Proof.
  intros Hw HB Hl HQ. unfold wp, sync, on_snd, zoom. cbn [snd fst].
  rewrite HB, Hl, drop_app_length.
  destruct (Store_spec w (front ++ p) Hw) as (w' & -> & ? & ? & ?).
  { rewrite HB. unfold len. rewrite !length_app. lia. }
  auto.
Qed.

Lemma wp_sync_back tail old p Q E l w : buf_ok w → Bytes w = p ++ old → length tail = length old →
  (∀ w', buf_ok w' → Bytes w' = p ++ tail → Layers w' = Layers w → Q tt (l, w')) →
  wp (sync_back tail) Q E (l, w).
Proof.
  intros Hw HB Hl HQ. unfold wp, sync_back, on_snd, zoom. cbn [snd fst].
  rewrite HB, Hl, length_app. replace (_ + _ - _)%nat with (length p) by lia.
  rewrite take_app_length.
  destruct (Store_spec w (p ++ tail) Hw) as (w' & -> & ? & ? & ?).
  { rewrite HB. unfold len. rewrite !length_app. lia. }
  auto.
Qed.
End serialize_rules.

(** ** What [SerializeLayers] promises *)

Section serialize_layers_spec.
Context {W : Type} `{SerializeBufferLaws W}.

(** On any buffer holding [payload], [l] writes itself so that the buffer
    holds [out]. *)
Definition layer_encodes (opts : SerializeOptions) (l : layer_object W) (payload out : bytes) : Prop :=
  ∀ w, buf_ok w → Bytes w = payload → ∃ v w',
    lo_SerializeTo l opts (lo_value l, w) = (Ok tt, (v, w')) ∧
    buf_ok w' ∧ Bytes w' = out ∧ Layers w' = Layers w.

(** A stack of layers around nothing: the first wraps all the others. *)
Inductive stack_encodes (opts : SerializeOptions) : list (layer_object W) → bytes → Prop :=
  | stack_nil : stack_encodes opts [] []
  | stack_cons l ls payload out :
      stack_encodes opts ls payload → layer_encodes opts l payload out →
      stack_encodes opts (l :: ls) out.

Lemma serialize_one_spec opts l payload out w :
  layer_encodes opts l payload out → buf_ok w → Bytes w = payload →
  ∃ l' w', serialize_one opts l w = (Ok l', w') ∧ lo_LayerType l' = lo_LayerType l ∧
    buf_ok w' ∧ Bytes w' = out ∧ Layers w' = Layers w.
Proof.
  intros Hl Hw HB. destruct (Hl w Hw HB) as (v & w' & Hs & ? & ? & ?).
  unfold serialize_one. rewrite Hs. eauto 10.
Qed.

Lemma SerializeLayers_loop_app opts ls1 ls2 w :
  SerializeLayers_loop opts (ls1 ++ ls2) w =
    (_ ← SerializeLayers_loop opts ls1; SerializeLayers_loop opts ls2) w.
Proof.
  revert w; induction ls1 as [|l ls1 IH]; intros w; [done|]. cbn.
  unfold mbind, M_bind in *. destruct (serialize_one opts l w) as [[] w1]; try done.
  destruct (PushLayer (lo_LayerType a) w1) as [[] w2]; try done.
Qed.

Lemma SerializeLayers_loop_spec opts ls out w :
  stack_encodes opts ls out → buf_ok w → Bytes w = [] →
  ∃ w', SerializeLayers_loop opts (rev ls) w = (Ok tt, w') ∧ buf_ok w' ∧ Bytes w' = out ∧
    Layers w' = Layers w ++ rev (map lo_LayerType ls).
Proof.
  intros Hs Hw HB. induction Hs as [|l ls payload out Hs IH Hl].
  - exists w. rewrite app_nil_r. done.
  - destruct IH as (w1 & Hrun & Hw1 & HB1 & HL1).
    destruct (serialize_one_spec _ _ _ _ w1 Hl Hw1 HB1) as (l' & w2 & Hone & Ht & Hw2 & HB2 & HL2).
    destruct (PushLayer_spec w2 (lo_LayerType l') Hw2) as (w3 & Hp & Hw3 & HB3 & HL3).
    exists w3. cbn [rev map]. rewrite SerializeLayers_loop_app. unfold mbind, M_bind. rewrite Hrun.
    cbn. unfold mbind, M_bind. rewrite Hone, Hp. split; [done|]. split; [done|].
    split; [congruence|]. by rewrite HL3, HL2, HL1, Ht, <-app_assoc.
Qed.

(** Whatever the buffer held before, if every layer encodes the
    output of the layers after it, [SerializeLayers] succeeds, the buffer then
    holds exactly the encoding of the whole stack, and [Layers] lists the
    layer types in the order they were written, innermost first. *)
Theorem SerializeLayers_stack opts ls out w :
  buf_ok w → stack_encodes opts ls out →
  ∃ w', SerializeLayers opts ls w = (Ok tt, w') ∧ buf_ok w' ∧ Bytes w' = out ∧
    Layers w' = rev (map lo_LayerType ls).
Proof.
  intros Hw Hs. destruct (Clear_spec w Hw) as (w1 & Hc & Hw1 & HB1 & HL1).
  destruct (SerializeLayers_loop_spec opts ls out w1 Hs Hw1 HB1) as (w2 & Hr & Hw2 & HB2 & HL2).
  exists w2. unfold SerializeLayers, mbind, M_bind. rewrite Hc, HL1 in *. done.
Qed.
End serialize_layers_spec.
