(* ===== verification/LayerClasses.v ===== *)
(** * Layer types and layer classes ([layertype.go], [layerclass.go])

    The registry of layer types, split between an array for the numbers below
    [maxLayerType] and a map for the others, and the sets of layer types used
    to look layers up: a single type, a bit slice or a map. *)

From S2P Require Import Prelude SerializeBuffer.

Definition maxLayerType : Z := 2000.

(** [decode.go]: the types registered by the package itself. *)
Definition LayerTypeZero : LayerType := 0.
Definition LayerTypeDecodeFailure : LayerType := 1.
Definition LayerTypePayload : LayerType := 2.
Definition LayerTypeFragment : LayerType := 3.

(** ** The registry *)

Section registry.
(** Decoders are opaque here; [None] is a nil decoder. *)
Context {D : Type}.

Record LayerTypeMetadata : Type := mkMetadata {
  lt_Name : string;
  lt_Decoder : option D;
}.

Record registry : Type := mkRegistry {
  ltMeta : list (option LayerTypeMetadata);
  ltMetaMap : gmap Z LayerTypeMetadata;
  DecodersByLayerName : gmap string (option D);
}.

Definition empty_registry : registry :=
  mkRegistry (replicate (Z.to_nat maxLayerType) None) ∅ ∅.

Definition in_array (num : Z) : bool := (0 <=? num) && (num <? maxLayerType).

Definition OverrideLayerType (num : Z) (meta : LayerTypeMetadata) (r : registry)
    : LayerType * registry :=
  let '(arr, mp) :=
    if in_array num
    then (<[Z.to_nat num := Some meta]> (ltMeta r), ltMetaMap r)
    else (ltMeta r, <[num := meta]> (ltMetaMap r)) in
  (num, mkRegistry arr mp (<[lt_Name meta := lt_Decoder meta]> (DecodersByLayerName r))).

Definition RegisterLayerType (num : Z) (meta : LayerTypeMetadata) (r : registry)
    : outcome (LayerType * registry) :=
  let inUse :=
    if in_array num
    then match ltMeta r !! Z.to_nat num with Some (Some _) => true | _ => false end
    else match ltMetaMap r !! num with Some _ => true | None => false end in
  if inUse then Panic (Panicked "Layer type already exists")
  else mret (OverrideLayerType num meta r).

(** The decoder [LayerType.Decode] dispatches to; an error when there is none. *)
Definition LayerType_decoder (t : LayerType) (r : registry) : outcome D :=
  let d :=
    if in_array t
    then match ltMeta r !! Z.to_nat t with Some (Some m) => lt_Decoder m | _ => None end
    else match ltMetaMap r !! t with Some m => lt_Decoder m | None => None end in
  match d with
  | Some d => mret d
  | None => Err (Errorf "Layer type %v has no associated decoder" [t])
  end.
End registry.
Arguments LayerTypeMetadata : clear implicits.
Arguments registry : clear implicits.

(** ** Layer classes *)

Inductive LayerClass : Type :=
  | ClassType (l : LayerType)
  | LayerClassSlice (s : list bool)
  | LayerClassMap (m : gmap Z bool).

Definition Contains (lc : LayerClass) (t : LayerType) : outcome bool :=
  match lc with
  | ClassType l => mret (l =? t)
  | LayerClassSlice s => if t <? len s then index s t else mret false
  | LayerClassMap m => mret (default false (m !! t))
  end.

Fixpoint slice_layer_types (i : Z) (s : list bool) : list LayerType :=
  match s with
  | [] => []
  | b :: s' => if b then i :: slice_layer_types (i + 1) s' else slice_layer_types (i + 1) s'
  end.

(** The order of [range] over a map is unspecified; the model enumerates it in
    the order of [map_to_list]. *)
Definition LayerTypes (lc : LayerClass) : list LayerType :=
  match lc with
  | ClassType l => [l]
  | LayerClassSlice s => slice_layer_types 0 s
  | LayerClassMap m => (map_to_list m).*1
  end.

Definition max_type (types : list LayerType) : Z :=
  foldl (fun max typ => if typ >? max then typ else max) 0 types.

Fixpoint set_types (t : list bool) (types : list LayerType) : outcome (list bool) :=
  match types with
  | [] => mret t
  | typ :: types' => t' ← set_index t typ true; set_types t' types'
  end.

Definition NewLayerClassSlice (types : list LayerType) : outcome LayerClass :=
  let max := max_type types in
  t ← set_types (replicate (Z.to_nat (max + 1)) false) types;
  mret (LayerClassSlice t).

Definition NewLayerClassMap (types : list LayerType) : LayerClass :=
  LayerClassMap (foldl (fun m typ => <[typ := true]> m) ∅ types).

Definition NewLayerClass (types : list LayerType) : outcome LayerClass :=
  if existsb (fun typ => typ >? maxLayerType) types
  then mret (NewLayerClassMap types)
  else NewLayerClassSlice types.

(** ** Proofs *)

Lemma max_type_ge types : ∀ m, m <= foldl (fun max typ => if typ >? max then typ else max) m types ∧
  Forall (fun t => t <= foldl (fun max typ => if typ >? max then typ else max) m types) types.
Proof.
  induction types as [|t types IH]; intros m; cbn; [split; [lia | constructor]|].
  destruct (Z.gtb_spec t m); destruct (IH t) as [H1 H2]; destruct (IH m) as [H3 H4];
    (split; [lia|]); constructor; auto; lia.
Qed.

Lemma set_types_spec types : ∀ t, Forall (fun i => 0 <= i < len t) types →
  ∃ t', set_types t types = Ok t' ∧ len t' = len t ∧
    ∀ i, 0 <= i → t' !! Z.to_nat i = Some true ↔
      (t !! Z.to_nat i = Some true ∨ In i types).
Proof.
  induction types as [|ty types IH]; intros t Hall; cbn.
  - exists t. split_and!; try done. intros; tauto.
  - apply Forall_cons in Hall as [Hty Hall]. rewrite set_index_insert by done. cbn.
    destruct (IH (<[Z.to_nat ty := true]> t)) as (t' & -> & Hl & Ht').
    { eapply Forall_impl; [apply Hall|]. intros i. rewrite len_insert. done. }
    exists t'. rewrite len_insert in Hl. split_and!; try done.
    intros i Hi. rewrite Ht' by done. destruct (decide (i = ty)) as [->|Hne].
    + rewrite list_lookup_insert_eq by (unfold len in *; lia). tauto.
    + rewrite list_lookup_insert_ne by lia. intuition congruence.
Qed.

Lemma replicate_false_true n i : replicate n false !! i ≠ Some true.
Proof. intros H. apply lookup_replicate in H as [H _]. done. Qed.

Lemma NewLayerClassMap_lookup types t : ∀ m,
  foldl (fun m typ => <[typ := true]> m) m types !! t =
    if existsb (Z.eqb t) types then Some true else (m : gmap Z bool) !! t.
Proof.
  induction types as [|ty types IH]; intros m; cbn; [done|]. rewrite IH.
  destruct (Z.eqb_spec t ty) as [->|Hne]; cbn.
  - rewrite lookup_insert_eq. by destruct (existsb _ _).
  - by rewrite lookup_insert_ne.
Qed.

Lemma existsb_eqb_In types t : existsb (Z.eqb t) types = true ↔ In t types.
Proof.
  rewrite existsb_exists. split.
  - intros (x & Hin & ->%Z.eqb_eq). done.
  - intros Hin. exists t. by rewrite Z.eqb_refl.
Qed.

(** For non-negative layer types, [NewLayerClass] succeeds whatever
    representation it picks, and [Contains] answers exactly whether the type is
    one of those given, for every non-negative type asked about. *)
Theorem NewLayerClass_Contains types :
  Forall (fun t => 0 <= t) types →
  ∃ lc, NewLayerClass types = Ok lc ∧
    ∀ t, 0 <= t → Contains lc t = Ok (existsb (Z.eqb t) types).
Proof.
  intros Hall. unfold NewLayerClass. destruct (existsb _ types) eqn:Hex.
  - eexists; split; [done|]. intros t Ht. cbn. rewrite NewLayerClassMap_lookup.
    by destruct (existsb (Z.eqb t) types).
  - unfold NewLayerClassSlice. pose proof (max_type_ge types 0) as [H0 Hmax]. fold (max_type types) in *.
    destruct (set_types_spec types (replicate (Z.to_nat (max_type types + 1)) false))
      as (t' & Hset & Hl & Ht').
    { apply Forall_forall. intros x Hx. rewrite len_replicate.
      rewrite Forall_forall in Hall, Hmax. specialize (Hall _ Hx). specialize (Hmax _ Hx). cbn in *. lia. }
    rewrite Hset. eexists; split; [done|]. intros t Ht. cbn. rewrite len_replicate in Hl.
    destruct (Z.ltb_spec t (len t')).
    + destruct (index_ok t' t) as (b & Hb & ->); [lia|]. f_equal. apply eq_bool_prop_intro.
      rewrite !Is_true_true, existsb_eqb_In. specialize (Ht' t Ht). rewrite Hb in Ht'.
      pose proof (replicate_false_true (Z.to_nat (max_type types + 1)) (Z.to_nat t)).
      destruct b; naive_solver.
    + unfold mret, outcome_ret. f_equal. symmetry. apply not_true_iff_false. rewrite existsb_eqb_In. intros Hin.
      rewrite Forall_forall in Hmax. apply list_elem_of_In in Hin. specialize (Hmax _ Hin). cbn in *. lia.
Qed.

Lemma NewLayerClass_Contains_witness :
  ∃ lc, NewLayerClass [17; 45; 2001] = Ok lc ∧ Contains lc 45 = Ok true ∧ Contains lc 46 = Ok false.
Proof.
  destruct (NewLayerClass_Contains [17; 45; 2001]) as (lc & H & Hc); [solve_Forall|].
  exists lc. split; [done|]. split; apply Hc; lia.
Defined.

(** A negative layer type, which [RegisterLayerType] documents as allowed,
    makes both the constructor and the lookup panic. *)
Lemma NewLayerClass_negative :
  NewLayerClass [-1] = Panic IndexOutOfRange ∧
  Contains (LayerClassSlice [true]) (-1) = Panic IndexOutOfRange.
Proof. split; reflexivity. Qed.
