(* ===== verification/BaseLayers.v ===== *)
(** * The layers of the core package ([base.go]) and [layers/base.go]

    [Payload] and [Fragment] keep all remaining bytes; [BaseLayer] is the pair
    of contents and payload that protocol layers embed. *)

From S2P Require Import Prelude SerializeBuffer LayerClasses.

(** [layers.BaseLayer] *)
Record BaseLayer : Type := mkBase {
  Contents : bytes;
  Payload : bytes;
}.

Definition LayerContents (b : BaseLayer) : bytes := Contents b.
Definition BaseLayer_LayerPayload (b : BaseLayer) : bytes := Payload b.

(** [var lotsOfZeros \[1024\]byte] *)
Definition lotsOfZeros : bytes := replicate 1024 0.

Module PayloadLayer.
Definition CanDecode : list LayerType := [LayerTypePayload].
Definition NextLayerType (p : bytes) : LayerType := LayerTypeZero.
Definition LayerPayload (p : bytes) : bytes := [].

Definition DecodeFromBytes (data : bytes) : M (dstate bytes) unit := put_layer data.

Definition SerializeTo {W} `{SerializeBuffer W} (opts : SerializeOptions) : M (bytes * W) unit :=
  p ← get_fields;
  bytes ← prepend (len p);
  bytes ← lift (copy_from bytes 0 p);
  sync bytes.
End PayloadLayer.

Module FragmentLayer.
Definition CanDecode : list LayerType := [LayerTypeFragment].
Definition NextLayerType (p : bytes) : LayerType := LayerTypeZero.
Definition LayerPayload (p : bytes) : bytes := [].

Definition DecodeFromBytes (data : bytes) : M (dstate bytes) unit := put_layer data.

Definition SerializeTo {W} `{SerializeBuffer W} (opts : SerializeOptions) : M (bytes * W) unit :=
  p ← get_fields;
  bytes ← prepend (len p);
  bytes ← lift (copy_from bytes 0 p);
  sync bytes.
End FragmentLayer.

(** Copying a slice over another of the same length replaces it. *)
Lemma copy_from_all {A} (l src : list A) : len src = len l → copy_from l 0 src = Ok src.
Proof.
  intros H. unfold copy_from. rewrite slice_from_ok by lens. cbn [mbind outcome_bind].
  change (drop (Z.to_nat 0) l) with l.
  rewrite take_ge by (unfold len in H; lia). rewrite write_at_ok by lens.
  change (take (Z.to_nat 0) l) with (@nil A). cbn [app].
  rewrite drop_ge by (unfold len in *; lia). by rewrite app_nil_r.
Qed.

(** The payload layer as an object of a serialization stack. *)
Definition Payload_object {W} `{SerializeBuffer W} (p : bytes) : layer_object W :=
  LayerObject bytes p LayerTypePayload PayloadLayer.SerializeTo.

Lemma Payload_encodes {W} `{SerializeBufferLaws W} opts p rest :
  layer_encodes opts (Payload_object p) rest (p ++ rest).
Proof.
  intros w Hw HB.
  enough (wp (PayloadLayer.SerializeTo opts)
    (fun _ '(l', w') => buf_ok w' ∧ Bytes w' = p ++ rest ∧ Layers w' = Layers w)
    (fun _ _ => False) (p, w)) as Hwp.
  { unfold wp in Hwp. cbn. destruct (PayloadLayer.SerializeTo opts (p, w)) as [[[]| | |] [l' w']];
      try done. eauto 10. }
  unfold PayloadLayer.SerializeTo.
  apply wp_bind, wp_get_fields, wp_bind, wp_prepend; [done | lens |].
  intros st w1 Hw1 Hl HB1 HL1. apply wp_bind, wp_lift. rewrite copy_from_all by lia. cbn.
  eapply wp_sync; [done | exact HB1 | unfold len in Hl; lia |].
  intros w2 Hw2 HB2 HL2. rewrite HB2, HL2, HB. done.
Qed.

Lemma SerializeLayers_stack_witness :
  ∃ w', SerializeLayers (mkSerializeOptions true true)
          [Payload_object [1; 2]; Payload_object [3]] NewSerializeBuffer = (Ok tt, w') ∧
        Bytes w' = [1; 2; 3] ∧ Layers w' = [LayerTypePayload; LayerTypePayload].
Proof.
  destruct (SerializeLayers_stack (mkSerializeOptions true true)
    [Payload_object [1; 2]; Payload_object [3]] [1; 2; 3] NewSerializeBuffer)
    as (w' & Hs & _ & HB & HL).
  - exists 0, 0. exact NewSerializeBuffer_inv.
  - eapply stack_cons; [eapply stack_cons; [apply stack_nil | apply (Payload_encodes _ [3] [])]
                       | apply (Payload_encodes _ [1; 2] [3])].
  - exists w'. split; [exact Hs|]. split; [exact HB | exact HL].
Defined.
