(* ===== verification/Parser.v ===== *)
(** * The decoding-layer parser ([parser.go], [layers_decoder.go])

    [DecodingLayerParser] decodes a packet into layers the caller has already
    allocated. The layers are objects decoded in place and shared between the
    caller and the parser, so the model keeps one store for all of them and
    names each layer by an identity. Three containers map a layer type to a
    layer; their theorems are proved against the class [ContainerLaws], which
    each of them implements. *)

From S2P Require Import Prelude SerializeBuffer LayerClasses BaseLayers.

(** ** Decoding layers *)

(** [D] are the identities (pointers) of the layers, [St] the store holding
    their fields. [DecodeFromBytes] also sees the parser's [Truncated] flag,
    through its [DecodeFeedback]. *)
Class DecodingLayers (D St : Type) : Type := {
  CanDecode : D → list LayerType;
  DecodeFromBytes : D → bytes → M (St * bool) unit;
  NextLayerType : D → St → LayerType;
  LayerPayload : D → St → bytes;
}.

(** ** Containers *)

Class DecodingLayerContainer (D C : Type) : Type := {
  Put : list LayerType → D → C → outcome C;
  Decoder : C → LayerType → outcome (option D);
}.

(** A sparse array indexed by layer type, an array of pairs, a map. *)
Abbreviation DecodingLayerSparse D := (list (option D)).
Abbreviation DecodingLayerArray D := (list (LayerType * D)).
Abbreviation DecodingLayerMap D := (gmap Z D).

Section containers.
Context {D : Type}.

Fixpoint Sparse_set (dl : (DecodingLayerSparse D)) (types : list LayerType) (d : D)
    : outcome (DecodingLayerSparse D) :=
  match types with
  | [] => mret dl
  | typ :: types' => dl' ← set_index dl typ (Some d); Sparse_set dl' types' d
  end.

Definition Sparse_Put (types : list LayerType) (d : D) (dl : (DecodingLayerSparse D))
    : outcome (DecodingLayerSparse D) :=
  let maxLayerType :=
    foldl (fun max typ => if typ >? max then typ else max) (len dl - 1) types in
  let extra := maxLayerType - len dl + 1 in
  let dl' := if extra >? 0 then dl ++ replicate (Z.to_nat extra) None else dl in
  Sparse_set dl' types d.

Definition Sparse_Decoder (dl : (DecodingLayerSparse D)) (typ : LayerType) : outcome (option D) :=
  if typ <? len dl then index dl typ else mret None.

(** Replace the decoder of the first entry for [typ], if there is one. *)
Fixpoint Array_replace (dl : (DecodingLayerArray D)) (typ : LayerType) (d : D)
    : option (DecodingLayerArray D) :=
  match dl with
  | [] => None
  | (t, d') :: dl' =>
      if t =? typ then Some ((t, d) :: dl') else cons (t, d') <$> Array_replace dl' typ d
  end.

Fixpoint Array_Put (types : list LayerType) (d : D) (dl : (DecodingLayerArray D))
    : outcome (DecodingLayerArray D) :=
  match types with
  | [] => mret dl
  | typ :: types' =>
      match Array_replace dl typ d with
      | Some dl' => Array_Put types' d dl'
      | None => Array_Put types' d (dl ++ [(typ, d)])
      end
  end.

Fixpoint Array_Decoder (dl : (DecodingLayerArray D)) (typ : LayerType) : outcome (option D) :=
  match dl with
  | [] => mret None
  | (t, d) :: dl' => if t =? typ then mret (Some d) else Array_Decoder dl' typ
  end.

Definition Map_Put (types : list LayerType) (d : D) (dl : (DecodingLayerMap D))
    : outcome (DecodingLayerMap D) :=
  mret (foldl (fun m typ => <[typ := d]> m) dl types).

Definition Map_Decoder (dl : (DecodingLayerMap D)) (typ : LayerType) : outcome (option D) :=
  mret (dl !! typ).

#[export] Instance Sparse_container : DecodingLayerContainer D (DecodingLayerSparse D) :=
  { Put := Sparse_Put; Decoder := Sparse_Decoder }.
#[export] Instance Array_container : DecodingLayerContainer D (DecodingLayerArray D) :=
  { Put := Array_Put; Decoder := Array_Decoder }.
#[export] Instance Map_container : DecodingLayerContainer D (DecodingLayerMap D) :=
  { Put := Map_Put; Decoder := Map_Decoder }.
End containers.

(** What a container promises: [lookup_of c] is the table it represents, [Put]
    overrides it at the given types, [Decoder] reads it. *)
Class ContainerLaws (D C : Type) `{DecodingLayerContainer D C} : Type := {
  lookup_of : C → LayerType → option D;
  Put_spec : ∀ types d c, Forall (fun t => 0 <= t) types → ∃ c',
    Put types d c = Ok c' ∧
    ∀ t, 0 <= t → lookup_of c' t = if existsb (Z.eqb t) types then Some d else lookup_of c t;
  Decoder_spec : ∀ c t, 0 <= t → Decoder c t = Ok (lookup_of c t);
}.

(** ** The parser *)

Record DecodingLayerParserOptions : Type := mkParserOptions {
  IgnorePanic : bool;
  IgnoreUnsupported : bool;
}.

(** Everything a call of [DecodeLayers] can change. *)
Record pstate (St : Type) : Type := PState {
  ps_layers : St;
  ps_truncated : bool;
  ps_decoded : list LayerType;
}.
Arguments PState {St} _ _ _.
Arguments ps_layers {St} _.
Arguments ps_truncated {St} _.
Arguments ps_decoded {St} _.

Section parser.
Context {D St C : Type} `{DecodingLayers D St} `{DecodingLayerContainer D C}.

Definition run_decoder (decoder : D) (data : bytes) : M (pstate St) unit :=
  zoom (fun s => (ps_layers s, ps_truncated s))
       (fun '(l, t) s => PState l t (ps_decoded s))
       (DecodeFromBytes decoder data).

(** The loop of the function that [LayersDecoder] returns; the same for each
    kind of container. *)
Fixpoint LayersDecoder_loop (fuel : nat) (dlc : C) (typ : LayerType) (decoder : D) (data : bytes)
    : M (pstate St) LayerType :=
  match fuel with
  | O => lift NoFuel
  | S fuel' =>
      _ ← run_decoder decoder data;
      _ ← modify (fun s => PState (ps_layers s) (ps_truncated s) (ps_decoded s ++ [typ]));
      s ← get;
      let typ := NextLayerType decoder (ps_layers s) in
      let data := LayerPayload decoder (ps_layers s) in
      if len data =? 0 then mret LayerTypeZero
      else
        next ← lift (Decoder dlc typ);
        match next with
        | None => mret typ
        | Some decoder' => LayersDecoder_loop fuel' dlc typ decoder' data
        end
  end.

(** When [first] has no decoder the returned function leaves [*decoded]
    alone. *)
Definition LayersDecoder (fuel : nat) (dl : C) (first : LayerType) (data : bytes)
    : M (pstate St) LayerType :=
  firstDec ← lift (Decoder dl first);
  match firstDec with
  | None => mret first
  | Some d =>
      _ ← modify (fun s => PState (ps_layers s) (ps_truncated s) []);
      LayersDecoder_loop fuel dl first d data
  end.

Definition UnsupportedLayerType (typ : LayerType) : error :=
  Errorf "No decoder for layer type %v" [typ].

(** [panicToError], deferred unless [IgnorePanic] is set. *)
Definition crash_code (c : crash) : Z :=
  match c with IndexOutOfRange => 0 | SliceOutOfRange => 1 | NilDereference => 2 | Panicked _ => 3 end.

Definition panicToError (c : crash) : error := Errorf "panic: %v" [crash_code c].

(** The returned error; [None] is nil. *)
Definition DecodeLayers (fuel : nat) (opts : DecodingLayerParserOptions) (dlc : C)
    (first : LayerType) (data : bytes) : M (pstate St) (option error) := fun s =>
  let s0 := PState (ps_layers s) false (ps_decoded s) in
  match LayersDecoder fuel dlc first data s0 with
  | (Ok typ, s') =>
      (* decodeFunc returned (typ, nil) *)
      if negb (typ =? LayerTypeZero) then
        if IgnoreUnsupported opts then (Ok None, s')
        else (Ok (Some (UnsupportedLayerType typ)), s')
      else (Ok None, s')
  | (Err e, s') => (* decodeFunc returned (LayerTypeZero, err) *) (Ok (Some e), s')
  | (Panic c, s') =>
      if IgnorePanic opts then (Panic c, s') else (Ok (Some (panicToError c)), s')
  | (NoFuel, s') => (NoFuel, s')
  end.

(** [NewDecodingLayerParser]: all decoders are put into the container. *)
Fixpoint Put_all (decoders : list D) (dlc : C) : outcome C :=
  match decoders with
  | [] => mret dlc
  | d :: rest => dlc' ← Put (CanDecode d) d dlc; Put_all rest dlc'
  end.
End parser.

(** ** The containers implement the interface *)

Section container_laws.
Context {D : Type}.

Definition sparse_lookup (dl : DecodingLayerSparse D) (t : LayerType) : option D :=
  if t <? len dl then default None (dl !! Z.to_nat t) else None.

Lemma Sparse_set_spec types d : ∀ dl : DecodingLayerSparse D,
  Forall (fun t => 0 <= t < len dl) types → ∃ dl',
    Sparse_set dl types d = Ok dl' ∧ len dl' = len dl ∧
    ∀ t, 0 <= t < len dl → dl' !! Z.to_nat t =
      if existsb (Z.eqb t) types then Some (Some d) else dl !! Z.to_nat t.
Proof.
  induction types as [|ty types IH]; intros dl Hall; cbn; [by exists dl|].
  apply Forall_cons in Hall as [Hty Hall]. rewrite set_index_insert by done. cbn.
  destruct (IH (<[Z.to_nat ty := Some d]> dl)) as (dl' & Hs & Hl & Hlk).
  { eapply Forall_impl; [apply Hall|]. intros i. by rewrite len_insert. }
  rewrite len_insert in Hl, Hlk. exists dl'. split; [exact Hs|]. split; [done|].
  intros t Ht. rewrite Hlk by done. destruct (Z.eqb_spec t ty) as [->|Hne]; cbn.
  - rewrite list_lookup_insert_eq by (unfold len in *; lia). by destruct (existsb _ _).
  - by rewrite list_lookup_insert_ne by lia.
Qed.

#[export] Instance Sparse_laws : ContainerLaws D (DecodingLayerSparse D).
Proof.
  apply (Build_ContainerLaws _ _ _ sparse_lookup).
  - intros types d dl Hall. unfold Put, Sparse_container, Sparse_Put. cbv zeta.
    pose proof (max_type_ge types (len dl - 1)) as [Hm Hmax].
    set (max := foldl _ _ _) in *.
    set (dl' := if max - len dl + 1 >? 0 then _ else _).
    assert (len dl' = max + 1 ∨ len dl' = len dl ∧ max + 1 <= len dl) as Hl'.
    { unfold dl'. destruct (Z.gtb_spec (max - len dl + 1) 0); [left | right; lia].
      rewrite len_app, len_replicate. lia. }
    assert (∀ t, 0 <= t < len dl' → dl' !! Z.to_nat t =
      if t <? len dl then dl !! Z.to_nat t else Some None) as Hlk.
    { intros t Ht. unfold dl' in *. destruct (Z.gtb_spec (max - len dl + 1) 0).
      - destruct (Z.ltb_spec t (len dl)); [apply lookup_app_l; unfold len in *; lia|].
        rewrite lookup_app_r by (unfold len in *; lia).
        apply lookup_replicate_2. rewrite len_app, len_replicate in Ht. unfold len in *; lia.
      - destruct (Z.ltb_spec t (len dl)); [done | lia]. }
    destruct (Sparse_set_spec types d dl') as (r & -> & Hr & Hrk).
    { apply Forall_forall. intros x Hx. rewrite Forall_forall in Hall, Hmax.
      specialize (Hall _ Hx). specialize (Hmax _ Hx). cbn in *. lia. }
    exists r. split; [done|]. intros t Ht. unfold sparse_lookup. rewrite Hr.
    destruct (Z.ltb_spec t (len dl')).
    + rewrite Hrk, Hlk by lia. destruct (existsb (Z.eqb t) types); [done|].
      destruct (Z.ltb_spec t (len dl)); done.
    + destruct (existsb (Z.eqb t) types) eqn:Hex.
      * apply existsb_eqb_In, list_elem_of_In in Hex. rewrite Forall_forall in Hmax.
        specialize (Hmax _ Hex). cbn in *. lia.
      * destruct (Z.ltb_spec t (len dl)); [lia | done].
  - intros dl t Ht. unfold Decoder, Sparse_container, Sparse_Decoder, sparse_lookup.
    destruct (Z.ltb_spec t (len dl)); [|done].
    destruct (index_ok dl t) as (d & -> & ->); [lia | done].
Defined.

Fixpoint array_lookup (dl : DecodingLayerArray D) (t : LayerType) : option D :=
  match dl with
  | [] => None
  | (t', d) :: dl' => if t' =? t then Some d else array_lookup dl' t
  end.

Lemma Array_replace_spec dl ty d t :
  match Array_replace dl ty d with
  | Some dl' => array_lookup dl' t = if t =? ty then Some d else array_lookup dl t
  | None => array_lookup (dl ++ [(ty, d)]) t = if t =? ty then Some d else array_lookup dl t
  end.
Proof.
  induction dl as [|[t' d'] dl IH]; cbn.
  - rewrite (Z.eqb_sym ty t). done.
  - destruct (Z.eqb_spec t' ty) as [->|Hne]; cbn.
    + rewrite (Z.eqb_sym ty t). by destruct (t =? ty).
    + destruct (Array_replace dl ty d); cbn; rewrite IH;
        destruct (Z.eqb_spec t' t), (Z.eqb_spec t ty); congruence.
Qed.

#[export] Instance Array_laws : ContainerLaws D (DecodingLayerArray D).
Proof.
  apply (Build_ContainerLaws _ _ _ array_lookup).
  - intros types d. induction types as [|ty types IH]; intros dl Hall.
    { exists dl. done. }
    apply Forall_cons in Hall as [_ Hall]. cbn.
    pose proof (fun t => Array_replace_spec dl ty d t) as Hr.
    destruct (Array_replace dl ty d) as [dl1|];
      (match goal with |- ∃ _, Array_Put _ _ ?x = _ ∧ _ => destruct (IH x Hall) as (dl2 & H2 & Hlk) end;
       exists dl2; split; [apply H2|]; intros t Ht; rewrite Hlk, Hr by done;
       destruct (t =? ty); cbn; [by destruct (existsb _ _) | done]).
  - intros dl t _. induction dl as [|[t' d] dl IH]; cbn; [done|].
    destruct (t' =? t); [done | apply IH].
Defined.

#[export] Instance Map_laws : ContainerLaws D (DecodingLayerMap D).
Proof.
  apply (Build_ContainerLaws _ _ _ (fun dl t => dl !! t)).
  - intros types d dl _. eexists; split; [reflexivity|]. intros t _.
    revert dl; induction types as [|ty types IH]; intros dl; cbn; [done|]. rewrite IH.
    destruct (Z.eqb_spec t ty) as [->|Hne]; cbn.
    + rewrite lookup_insert_eq. by destruct (existsb _ _).
    + by rewrite lookup_insert_ne.
  - done.
Defined.
End container_laws.

(** ** Theorems *)

(** The table a list of decoders defines: the last one that can decode a type. *)
Definition decoder_table {D St} `{DecodingLayers D St} (ds : list D) (t : LayerType) : option D :=
  foldl (fun o d => if existsb (Z.eqb t) (CanDecode d) then Some d else o) None ds.

Section parser_theorems.
Context {D St : Type} `{DecodingLayers D St}.

(** Layer types are non-negative: the numbers reserved for the library and
    the fast application range. *)
Definition types_ok (ds : list D) : Prop :=
  Forall (fun d => Forall (fun t => 0 <= t) (CanDecode d)) ds.

Definition next_ok : Prop := ∀ (d : D) (s : St), 0 <= NextLayerType d s.

Lemma Put_all_lookup {C} `{ContainerLaws D C} ds : ∀ c, types_ok ds →
  ∃ c', Put_all ds c = Ok c' ∧ ∀ t, 0 <= t → lookup_of c' t =
    foldl (fun o d => if existsb (Z.eqb t) (CanDecode d) then Some d else o) (lookup_of c t) ds.
Proof.
  induction ds as [|d ds IH]; intros c Hok; cbn; [by exists c|].
  apply Forall_cons in Hok as [Hd Hok].
  destruct (Put_spec (CanDecode d) d c Hd) as (c1 & -> & Hc1). cbn.
  destruct (IH c1 Hok) as (c2 & -> & Hc2).
  exists c2. split; [done|]. intros t Ht. by rewrite Hc2, Hc1.
Qed.

Lemma loop_lookup {C1 C2} `{ContainerLaws D C1} `{ContainerLaws D C2} (c1 : C1) (c2 : C2) fuel :
  next_ok → (∀ t, 0 <= t → lookup_of c1 t = lookup_of c2 t) →
  ∀ typ d data s, LayersDecoder_loop fuel c1 typ d data s = LayersDecoder_loop fuel c2 typ d data s.
Proof.
  intros Hnext Hlk. induction fuel as [|fuel IH]; intros typ d data s; cbn; [done|].
  unfold mbind, M_bind in *. destruct (run_decoder d data s) as [[[]|e|c|] s1]; try done.
  unfold modify, get; cbn. destruct (len _ =? 0); [done|].
  rewrite !Decoder_spec, Hlk by apply Hnext. cbn.
  destruct (lookup_of c2 _); [apply IH | done].
Qed.

Lemma DecodeLayers_lookup {C1 C2} `{ContainerLaws D C1} `{ContainerLaws D C2}
    (c1 : C1) (c2 : C2) fuel opts first data s :
  next_ok → 0 <= first → (∀ t, 0 <= t → lookup_of c1 t = lookup_of c2 t) →
  DecodeLayers fuel opts c1 first data s = DecodeLayers fuel opts c2 first data s.
Proof.
  intros Hnext Hf Hlk. unfold DecodeLayers.
  enough (∀ s0, LayersDecoder fuel c1 first data s0 = LayersDecoder fuel c2 first data s0) as ->
    by done.
  intros s0. unfold LayersDecoder, mbind, M_bind, lift.
  rewrite !Decoder_spec, Hlk by done. destruct (lookup_of c2 first); [|done].
  cbn. by apply loop_lookup.
Qed.

(** For the same decoders, put into an empty sparse array, array
    or map, every call of [DecodeLayers] gives the same error, leaves the same
    layers, truncation flag and list of decoded types. The decoder used for a
    type is the last one registered for it. *)
Theorem containers_agree ds fuel opts first data (s : pstate St) :
  types_ok ds → next_ok → 0 <= first →
  ∃ (cs : DecodingLayerSparse D) (ca : DecodingLayerArray D) (cm : DecodingLayerMap D),
    Put_all ds [] = Ok cs ∧ Put_all ds [] = Ok ca ∧ Put_all ds ∅ = Ok cm ∧
    DecodeLayers fuel opts cs first data s = DecodeLayers fuel opts cm first data s ∧
    DecodeLayers fuel opts ca first data s = DecodeLayers fuel opts cm first data s ∧
    ∀ t, 0 <= t → Decoder cm t = Ok (decoder_table ds t).
Proof.
  intros Hok Hnext Hf.
  destruct (Put_all_lookup ds ([] : DecodingLayerSparse D) Hok) as (cs & Hs & Ls).
  destruct (Put_all_lookup ds ([] : DecodingLayerArray D) Hok) as (ca & Ha & La).
  destruct (Put_all_lookup ds (∅ : DecodingLayerMap D) Hok) as (cm & Hm & Lm).
  assert (∀ t, 0 <= t → lookup_of ([] : DecodingLayerSparse D) t = None) as E1.
  { intros t Ht. cbn -[len]. unfold sparse_lookup. rewrite len_nil. destruct (Z.ltb_spec t 0); [lia | done]. }
  assert (∀ t, lookup_of (∅ : DecodingLayerMap D) t = None) as E2 by (intros t; apply lookup_empty).
  exists cs, ca, cm. do 3 (split; [done|]). split; [|split].
  - apply DecodeLayers_lookup; try done. intros t Ht. by rewrite Ls, Lm, E1, E2.
  - apply DecodeLayers_lookup; try done. intros t Ht. rewrite La, Lm, E2 by done. done.
  - intros t Ht. rewrite Decoder_spec by done. f_equal. unfold decoder_table. by rewrite Lm, E2.
Qed.

(** A layer consumes input: its payload is empty or shorter than what it was
    given; and its own decoding always ends. *)
Definition layers_consume : Prop :=
  ∀ (d : D) data s o s', DecodeFromBytes d data s = (o, s') →
    o ≠ NoFuel ∧ (o = Ok tt → LayerPayload d s'.1 = [] ∨ len (LayerPayload d s'.1) < len data).

Lemma loop_terminates {C} `{ContainerLaws D C} (c : C) :
  layers_consume → next_ok → ∀ fuel typ d data s, (length data < fuel)%nat →
  fst (LayersDecoder_loop fuel c typ d data s) ≠ NoFuel ∧
  ∀ extra, LayersDecoder_loop (fuel + extra) c typ d data s = LayersDecoder_loop fuel c typ d data s.
Proof.
  intros Hcons Hnext. induction fuel as [|fuel IH]; intros typ d data s Hf; [lia|].
  cbn. unfold mbind, M_bind in *. unfold run_decoder, zoom.
  destruct (DecodeFromBytes d data (ps_layers s, ps_truncated s)) as [o [st tr]] eqn:Hd.
  destruct (Hcons _ _ _ _ _ Hd) as [Ho Hpay]. destruct o as [[]|e|cr|]; try done.
  unfold modify, get; cbn -[LayersDecoder_loop].
  destruct (Z.eqb_spec (len (LayerPayload d st)) 0) as [|Hne]; [done|].
  rewrite !Decoder_spec by apply Hnext. cbn -[LayersDecoder_loop].
  destruct (lookup_of c (NextLayerType d st)) as [d'|]; [|done].
  apply IH. destruct Hpay as [Hp|Hp]; [done | |].
  - cbn in Hp. rewrite Hp in Hne. done.
  - cbn in Hp. unfold len in Hp. lia.
Qed.

(** If every layer consumes input, [DecodeLayers] with panic
    recovery (the default) always returns an error value or nil within
    [len(data) + 1] rounds of its loop, never panics, and a larger bound on the
    rounds changes nothing. *)
Theorem DecodeLayers_total {C} `{ContainerLaws D C} (c : C) opts first data s :
  layers_consume → next_ok → 0 <= first → IgnorePanic opts = false →
  ∃ r s', DecodeLayers (length data + 1) opts c first data s = (Ok r, s') ∧
    ∀ extra, DecodeLayers (length data + 1 + extra) opts c first data s = (Ok r, s').
Proof.
  intros Hcons Hnext Hf Hopt. unfold DecodeLayers, LayersDecoder, mbind, M_bind, lift.
  rewrite !Decoder_spec by done. rewrite Hopt.
  destruct (lookup_of c first) as [d|].
  - unfold modify; cbn -[LayersDecoder_loop].
    match goal with |- context [LayersDecoder_loop _ _ _ _ _ ?s0] =>
      destruct (loop_terminates c Hcons Hnext (length data + 1) first d data s0) as [Hn Hex]; [lia|] end.
    destruct (LayersDecoder_loop (length data + 1) c first d data _) as [[t|e|cr|] s1]; try done;
      [destruct (negb (t =? LayerTypeZero)) eqn:E1, (IgnoreUnsupported opts) eqn:E2 | |];
      eexists _, _; (split; [reflexivity|]); intros extra; rewrite Hex, ?E1, ?E2; reflexivity.
  - cbn. destruct (negb _), (IgnoreUnsupported opts); (eexists _, _; split; [reflexivity | intros; reflexivity]).
Qed.

(** A first layer without a decoder leaves the caller's [decoded] slice as it
    was, so it still lists the layers of the previous packet. *)
Lemma decoded_not_truncated {C} `{ContainerLaws D C} (c : C) fuel opts first data s :
  0 <= first → lookup_of c first = None →
  ps_decoded (snd (DecodeLayers fuel opts c first data s)) = ps_decoded s.
Proof.
  intros Hf Hl. unfold DecodeLayers, LayersDecoder, mbind, M_bind, lift.
  rewrite !Decoder_spec, Hl by done. cbn. repeat case_match; simplify_eq; done.
Qed.
End parser_theorems.

(** ** The payload layer alone as a set of decoding layers *)

#[export] Instance payload_layers : DecodingLayers unit bytes := {
  CanDecode _ := PayloadLayer.CanDecode;
  DecodeFromBytes _ data '(p, tr) :=
    match PayloadLayer.DecodeFromBytes data (DState p tr) with
    | (o, DState p' tr') => (o, (p', tr'))
    end;
  NextLayerType _ := PayloadLayer.NextLayerType;
  LayerPayload _ := PayloadLayer.LayerPayload;
}.

Lemma payload_layers_ok : types_ok [tt] ∧ next_ok ∧ layers_consume.
Proof.
  split; [|split].
  - constructor; [|constructor]. constructor; [unfold LayerTypePayload; lia | constructor].
  - intros [] p. cbn. unfold PayloadLayer.NextLayerType, LayerTypeZero. lia.
  - intros [] data [p tr] o s'. cbn. intros [= <- <-]. split; [done|]. intros _. by left.
Qed.

Lemma containers_agree_witness :
  ∃ (cs : DecodingLayerSparse unit) (cm : DecodingLayerMap unit),
    Put_all [tt] [] = Ok cs ∧ Put_all [tt] ∅ = Ok cm ∧
    DecodeLayers 5 (mkParserOptions false false) cs LayerTypePayload [1; 2] (PState [] false [7])
      = DecodeLayers 5 (mkParserOptions false false) cm LayerTypePayload [1; 2] (PState [] false [7]).
Proof.
  destruct payload_layers_ok as (H1 & H2 & _).
  destruct (containers_agree [tt] 5 (mkParserOptions false false) LayerTypePayload [1; 2]
    (PState [] false [7]) H1 H2) as (cs & ca & cm & Hs & _ & Hm & Heq & _);
    [unfold LayerTypePayload; lia|].
  exists cs, cm. auto.
Defined.

Lemma DecodeLayers_total_witness :
  ∃ r s', DecodeLayers 3 (mkParserOptions false false)
    ({[LayerTypePayload := tt]} : DecodingLayerMap unit) LayerTypePayload [1; 2] (PState [] true [])
    = (Ok r, s').
Proof.
  destruct payload_layers_ok as (H1 & H2 & H3).
  destruct (DecodeLayers_total ({[LayerTypePayload := tt]} : DecodingLayerMap unit)
    (mkParserOptions false false) LayerTypePayload [1; 2] (PState [] true []) H3 H2)
    as (r & s' & Hr & _); [unfold LayerTypePayload; lia | done |].
  exists r, s'. exact Hr.
Defined.
