(* ===== verification/Enums.v ===== *)
(** * Layer types and protocol enumerations ([layers/layertypes.go],
    [layers/enums.go], [layers/enums_generated.go], [layers/ports.go],
    [layers/endpoints.go])

    The numbers of the layer types with the decoders registered for them, the
    values of the protocol enumerations, and the tables that say how each value
    is decoded. A decoder is named, not run, here: [decode_func] has one
    constructor per decoding function the tables refer to. The theorems say
    that initialisation goes through (no number is registered twice) and that
    the two routes from a protocol number to a decoder, directly and through
    its layer type, lead to the same function. *)

From S2P Require Import Prelude SerializeBuffer LayerClasses Flows.

(** ** Layer types *)

Definition LayerTypeARP : LayerType := 10.
Definition LayerTypeCiscoDiscovery : LayerType := 11.
Definition LayerTypeEthernetCTP : LayerType := 12.
Definition LayerTypeEthernetCTPForwardData : LayerType := 13.
Definition LayerTypeEthernetCTPReply : LayerType := 14.
Definition LayerTypeDot1Q : LayerType := 15.
Definition LayerTypeEtherIP : LayerType := 16.
Definition LayerTypeEthernet : LayerType := 17.
Definition LayerTypeGRE : LayerType := 18.
Definition LayerTypeICMPv4 : LayerType := 19.
Definition LayerTypeIPv4 : LayerType := 20.
Definition LayerTypeIPv6 : LayerType := 21.
Definition LayerTypeLLC : LayerType := 22.
Definition LayerTypeSNAP : LayerType := 23.
Definition LayerTypeMPLS : LayerType := 24.
Definition LayerTypePPP : LayerType := 25.
Definition LayerTypePPPoE : LayerType := 26.
Definition LayerTypeRUDP : LayerType := 27.
Definition LayerTypeSCTP : LayerType := 28.
Definition LayerTypeSCTPUnknownChunkType : LayerType := 29.
Definition LayerTypeSCTPData : LayerType := 30.
Definition LayerTypeSCTPInit : LayerType := 31.
Definition LayerTypeSCTPSack : LayerType := 32.
Definition LayerTypeSCTPHeartbeat : LayerType := 33.
Definition LayerTypeSCTPError : LayerType := 34.
Definition LayerTypeSCTPShutdown : LayerType := 35.
Definition LayerTypeSCTPShutdownAck : LayerType := 36.
Definition LayerTypeSCTPCookieEcho : LayerType := 37.
Definition LayerTypeSCTPEmptyLayer : LayerType := 38.
Definition LayerTypeSCTPInitAck : LayerType := 39.
Definition LayerTypeSCTPHeartbeatAck : LayerType := 40.
Definition LayerTypeSCTPAbort : LayerType := 41.
Definition LayerTypeSCTPShutdownComplete : LayerType := 42.
Definition LayerTypeSCTPCookieAck : LayerType := 43.
Definition LayerTypeTCP : LayerType := 44.
Definition LayerTypeUDP : LayerType := 45.
Definition LayerTypeIPv6HopByHop : LayerType := 46.
Definition LayerTypeIPv6Routing : LayerType := 47.
Definition LayerTypeIPv6Fragment : LayerType := 48.
Definition LayerTypeIPv6Destination : LayerType := 49.
Definition LayerTypeIPSecAH : LayerType := 50.
Definition LayerTypeIPSecESP : LayerType := 51.
Definition LayerTypeUDPLite : LayerType := 52.
Definition LayerTypeFDDI : LayerType := 53.
Definition LayerTypeLoopback : LayerType := 54.
Definition LayerTypeEAP : LayerType := 55.
Definition LayerTypeEAPOL : LayerType := 56.
Definition LayerTypeICMPv6 : LayerType := 57.
Definition LayerTypeLinkLayerDiscovery : LayerType := 58.
Definition LayerTypeCiscoDiscoveryInfo : LayerType := 59.
Definition LayerTypeLinkLayerDiscoveryInfo : LayerType := 60.
Definition LayerTypeNortelDiscovery : LayerType := 61.
Definition LayerTypeIGMP : LayerType := 62.
Definition LayerTypePFLog : LayerType := 63.
Definition LayerTypeRadioTap : LayerType := 64.
Definition LayerTypeDot11 : LayerType := 65.
Definition LayerTypeDot11Ctrl : LayerType := 66.
Definition LayerTypeDot11Data : LayerType := 67.
Definition LayerTypeDot11DataCFAck : LayerType := 68.
Definition LayerTypeDot11DataCFPoll : LayerType := 69.
Definition LayerTypeDot11DataCFAckPoll : LayerType := 70.
Definition LayerTypeDot11DataNull : LayerType := 71.
Definition LayerTypeDot11DataCFAckNoData : LayerType := 72.
Definition LayerTypeDot11DataCFPollNoData : LayerType := 73.
Definition LayerTypeDot11DataCFAckPollNoData : LayerType := 74.
Definition LayerTypeDot11DataQOSData : LayerType := 75.
Definition LayerTypeDot11DataQOSDataCFAck : LayerType := 76.
Definition LayerTypeDot11DataQOSDataCFPoll : LayerType := 77.
Definition LayerTypeDot11DataQOSDataCFAckPoll : LayerType := 78.
Definition LayerTypeDot11DataQOSNull : LayerType := 79.
Definition LayerTypeDot11DataQOSCFPollNoData : LayerType := 80.
Definition LayerTypeDot11DataQOSCFAckPollNoData : LayerType := 81.
Definition LayerTypeDot11InformationElement : LayerType := 82.
Definition LayerTypeDot11CtrlCTS : LayerType := 83.
Definition LayerTypeDot11CtrlRTS : LayerType := 84.
Definition LayerTypeDot11CtrlBlockAckReq : LayerType := 85.
Definition LayerTypeDot11CtrlBlockAck : LayerType := 86.
Definition LayerTypeDot11CtrlPowersavePoll : LayerType := 87.
Definition LayerTypeDot11CtrlAck : LayerType := 88.
Definition LayerTypeDot11CtrlCFEnd : LayerType := 89.
Definition LayerTypeDot11CtrlCFEndAck : LayerType := 90.
Definition LayerTypeDot11MgmtAssociationReq : LayerType := 91.
Definition LayerTypeDot11MgmtAssociationResp : LayerType := 92.
Definition LayerTypeDot11MgmtReassociationReq : LayerType := 93.
Definition LayerTypeDot11MgmtReassociationResp : LayerType := 94.
Definition LayerTypeDot11MgmtProbeReq : LayerType := 95.
Definition LayerTypeDot11MgmtProbeResp : LayerType := 96.
Definition LayerTypeDot11MgmtMeasurementPilot : LayerType := 97.
Definition LayerTypeDot11MgmtBeacon : LayerType := 98.
Definition LayerTypeDot11MgmtATIM : LayerType := 99.
Definition LayerTypeDot11MgmtDisassociation : LayerType := 100.
Definition LayerTypeDot11MgmtAuthentication : LayerType := 101.
Definition LayerTypeDot11MgmtDeauthentication : LayerType := 102.
Definition LayerTypeDot11MgmtAction : LayerType := 103.
Definition LayerTypeDot11MgmtActionNoAck : LayerType := 104.
Definition LayerTypeDot11MgmtArubaWLAN : LayerType := 105.
Definition LayerTypeDot11WEP : LayerType := 106.
Definition LayerTypeDNS : LayerType := 107.
Definition LayerTypeUSB : LayerType := 108.
Definition LayerTypeUSBRequestBlockSetup : LayerType := 109.
Definition LayerTypeUSBControl : LayerType := 110.
Definition LayerTypeUSBInterrupt : LayerType := 111.
Definition LayerTypeUSBBulk : LayerType := 112.
Definition LayerTypeLinuxSLL : LayerType := 113.
Definition LayerTypeSFlow : LayerType := 114.
Definition LayerTypePrismHeader : LayerType := 115.
Definition LayerTypeVXLAN : LayerType := 116.
Definition LayerTypeNTP : LayerType := 117.
Definition LayerTypeDHCPv4 : LayerType := 118.
Definition LayerTypeVRRP : LayerType := 119.
Definition LayerTypeGeneve : LayerType := 120.
Definition LayerTypeSTP : LayerType := 121.
Definition LayerTypeBFD : LayerType := 122.
Definition LayerTypeOSPF : LayerType := 123.
Definition LayerTypeICMPv6RouterSolicitation : LayerType := 124.
Definition LayerTypeICMPv6RouterAdvertisement : LayerType := 125.
Definition LayerTypeICMPv6NeighborSolicitation : LayerType := 126.
Definition LayerTypeICMPv6NeighborAdvertisement : LayerType := 127.
Definition LayerTypeICMPv6Redirect : LayerType := 128.
Definition LayerTypeGTPv1U : LayerType := 129.
Definition LayerTypeEAPOLKey : LayerType := 130.
Definition LayerTypeLCM : LayerType := 131.
Definition LayerTypeICMPv6Echo : LayerType := 132.
Definition LayerTypeSIP : LayerType := 133.
Definition LayerTypeDHCPv6 : LayerType := 134.
Definition LayerTypeMLDv1MulticastListenerReport : LayerType := 135.
Definition LayerTypeMLDv1MulticastListenerDone : LayerType := 136.
Definition LayerTypeMLDv1MulticastListenerQuery : LayerType := 137.
Definition LayerTypeMLDv2MulticastListenerReport : LayerType := 138.
Definition LayerTypeMLDv2MulticastListenerQuery : LayerType := 139.
Definition LayerTypeTLS : LayerType := 140.
Definition LayerTypeModbusTCP : LayerType := 141.
Definition LayerTypeRMCP : LayerType := 142.
Definition LayerTypeASF : LayerType := 143.
Definition LayerTypeASFPresencePong : LayerType := 144.
Definition LayerTypeERSPANII : LayerType := 145.
Definition LayerTypeRADIUS : LayerType := 146.
Definition LayerTypeAGUEVar0 : LayerType := 147.
Definition LayerTypeAGUEVar1 : LayerType := 148.
Definition LayerTypeAPSP : LayerType := 149.

(** ** Enumeration values *)

(** [EthernetType] *)
Definition EthernetTypeLLC : Z := 0.
Definition EthernetTypeIPv4 : Z := 2048.
Definition EthernetTypeARP : Z := 2054.
Definition EthernetTypeIPv6 : Z := 34525.
Definition EthernetTypeCiscoDiscovery : Z := 8192.
Definition EthernetTypeNortelDiscovery : Z := 418.
Definition EthernetTypeTransparentEthernetBridging : Z := 25944.
Definition EthernetTypeDot1Q : Z := 33024.
Definition EthernetTypePPP : Z := 34827.
Definition EthernetTypePPPoEDiscovery : Z := 34915.
Definition EthernetTypePPPoESession : Z := 34916.
Definition EthernetTypeMPLSUnicast : Z := 34887.
Definition EthernetTypeMPLSMulticast : Z := 34888.
Definition EthernetTypeEAPOL : Z := 34958.
Definition EthernetTypeERSPAN : Z := 35006.
Definition EthernetTypeQinQ : Z := 34984.
Definition EthernetTypeLinkLayerDiscovery : Z := 35020.
Definition EthernetTypeEthernetCTP : Z := 36864.

(** [IPProtocol] *)
Definition IPProtocolIPv6HopByHop : Z := 0.
Definition IPProtocolICMPv4 : Z := 1.
Definition IPProtocolIGMP : Z := 2.
Definition IPProtocolIPv4 : Z := 4.
Definition IPProtocolTCP : Z := 6.
Definition IPProtocolUDP : Z := 17.
Definition IPProtocolRUDP : Z := 27.
Definition IPProtocolIPv6 : Z := 41.
Definition IPProtocolIPv6Routing : Z := 43.
Definition IPProtocolIPv6Fragment : Z := 44.
Definition IPProtocolGRE : Z := 47.
Definition IPProtocolESP : Z := 50.
Definition IPProtocolAH : Z := 51.
Definition IPProtocolICMPv6 : Z := 58.
Definition IPProtocolNoNextHeader : Z := 59.
Definition IPProtocolIPv6Destination : Z := 60.
Definition IPProtocolOSPF : Z := 89.
Definition IPProtocolIPIP : Z := 94.
Definition IPProtocolEtherIP : Z := 97.
Definition IPProtocolVRRP : Z := 112.
Definition IPProtocolSCTP : Z := 132.
Definition IPProtocolUDPLite : Z := 136.
Definition IPProtocolMPLSInIP : Z := 137.

(** [LinkType] *)
Definition LinkTypeNull : Z := 0.
Definition LinkTypeEthernet : Z := 1.
Definition LinkTypeAX25 : Z := 3.
Definition LinkTypeTokenRing : Z := 6.
Definition LinkTypeArcNet : Z := 7.
Definition LinkTypeSLIP : Z := 8.
Definition LinkTypePPP : Z := 9.
Definition LinkTypeFDDI : Z := 10.
Definition LinkTypePPP_HDLC : Z := 50.
Definition LinkTypePPPEthernet : Z := 51.
Definition LinkTypeATM_RFC1483 : Z := 100.
Definition LinkTypeRaw : Z := 101.
Definition LinkTypeC_HDLC : Z := 104.
Definition LinkTypeIEEE802_11 : Z := 105.
Definition LinkTypeFRelay : Z := 107.
Definition LinkTypeLoop : Z := 108.
Definition LinkTypeLinuxSLL : Z := 113.
Definition LinkTypeLTalk : Z := 114.
Definition LinkTypePFLog : Z := 117.
Definition LinkTypePrismHeader : Z := 119.
Definition LinkTypeIPOverFC : Z := 122.
Definition LinkTypeSunATM : Z := 123.
Definition LinkTypeIEEE80211Radio : Z := 127.
Definition LinkTypeARCNetLinux : Z := 129.
Definition LinkTypeIPOver1394 : Z := 138.
Definition LinkTypeMTP2Phdr : Z := 139.
Definition LinkTypeMTP2 : Z := 140.
Definition LinkTypeMTP3 : Z := 141.
Definition LinkTypeSCCP : Z := 142.
Definition LinkTypeDOCSIS : Z := 143.
Definition LinkTypeLinuxIRDA : Z := 144.
Definition LinkTypeLinuxLAPD : Z := 177.
Definition LinkTypeLinuxUSB : Z := 220.
Definition LinkTypeFC2 : Z := 224.
Definition LinkTypeFC2Framed : Z := 225.
Definition LinkTypeIPv4 : Z := 228.
Definition LinkTypeIPv6 : Z := 229.

(** [PPPoECode] *)
Definition PPPoECodePADI : Z := 9.
Definition PPPoECodePADO : Z := 7.
Definition PPPoECodePADR : Z := 25.
Definition PPPoECodePADS : Z := 101.
Definition PPPoECodePADT : Z := 167.
Definition PPPoECodeSession : Z := 0.

(** [PPPType] *)
Definition PPPTypeIPv4 : Z := 33.
Definition PPPTypeIPv6 : Z := 87.
Definition PPPTypeMPLSUnicast : Z := 641.
Definition PPPTypeMPLSMulticast : Z := 643.

(** [SCTPChunkType] *)
Definition SCTPChunkTypeData : Z := 0.
Definition SCTPChunkTypeInit : Z := 1.
Definition SCTPChunkTypeInitAck : Z := 2.
Definition SCTPChunkTypeSack : Z := 3.
Definition SCTPChunkTypeHeartbeat : Z := 4.
Definition SCTPChunkTypeHeartbeatAck : Z := 5.
Definition SCTPChunkTypeAbort : Z := 6.
Definition SCTPChunkTypeShutdown : Z := 7.
Definition SCTPChunkTypeShutdownAck : Z := 8.
Definition SCTPChunkTypeError : Z := 9.
Definition SCTPChunkTypeCookieEcho : Z := 10.
Definition SCTPChunkTypeCookieAck : Z := 11.
Definition SCTPChunkTypeShutdownComplete : Z := 14.

(** [FDDIFrameControl] *)
Definition FDDIFrameControlLLC : Z := 80.

(** [EAPOLType] *)
Definition EAPOLTypeEAP : Z := 0.
Definition EAPOLTypeStart : Z := 1.
Definition EAPOLTypeLogOff : Z := 2.
Definition EAPOLTypeKey : Z := 3.
Definition EAPOLTypeASFAlert : Z := 4.

(** [ProtocolFamily] *)
Definition ProtocolFamilyIPv4 : Z := 2.
Definition ProtocolFamilyIPv6BSD : Z := 24.
Definition ProtocolFamilyIPv6FreeBSD : Z := 28.
Definition ProtocolFamilyIPv6Darwin : Z := 30.
Definition ProtocolFamilyIPv6Linux : Z := 10.

(** [Dot11Type] *)
Definition Dot11TypeMgmt : Z := 0.
Definition Dot11TypeCtrl : Z := 1.
Definition Dot11TypeData : Z := 2.
Definition Dot11TypeReserved : Z := 3.
Definition dot11TypeMask : Z := 3.
Definition dot11QOSMask : Z := 35.
Definition Dot11TypeMgmtAssociationReq : Z := 0.
Definition Dot11TypeMgmtAssociationResp : Z := 4.
Definition Dot11TypeMgmtReassociationReq : Z := 8.
Definition Dot11TypeMgmtReassociationResp : Z := 12.
Definition Dot11TypeMgmtProbeReq : Z := 16.
Definition Dot11TypeMgmtProbeResp : Z := 20.
Definition Dot11TypeMgmtMeasurementPilot : Z := 24.
Definition Dot11TypeMgmtBeacon : Z := 32.
Definition Dot11TypeMgmtATIM : Z := 36.
Definition Dot11TypeMgmtDisassociation : Z := 40.
Definition Dot11TypeMgmtAuthentication : Z := 44.
Definition Dot11TypeMgmtDeauthentication : Z := 48.
Definition Dot11TypeMgmtAction : Z := 52.
Definition Dot11TypeMgmtActionNoAck : Z := 56.
Definition Dot11TypeCtrlWrapper : Z := 29.
Definition Dot11TypeCtrlBlockAckReq : Z := 33.
Definition Dot11TypeCtrlBlockAck : Z := 37.
Definition Dot11TypeCtrlPowersavePoll : Z := 41.
Definition Dot11TypeCtrlRTS : Z := 45.
Definition Dot11TypeCtrlCTS : Z := 49.
Definition Dot11TypeCtrlAck : Z := 53.
Definition Dot11TypeCtrlCFEnd : Z := 57.
Definition Dot11TypeCtrlCFEndAck : Z := 61.
Definition Dot11TypeDataCFAck : Z := 6.
Definition Dot11TypeDataCFPoll : Z := 10.
Definition Dot11TypeDataCFAckPoll : Z := 14.
Definition Dot11TypeDataNull : Z := 18.
Definition Dot11TypeDataCFAckNoData : Z := 22.
Definition Dot11TypeDataCFPollNoData : Z := 26.
Definition Dot11TypeDataCFAckPollNoData : Z := 30.
Definition Dot11TypeDataQOSData : Z := 34.
Definition Dot11TypeDataQOSDataCFAck : Z := 38.
Definition Dot11TypeDataQOSDataCFPoll : Z := 42.
Definition Dot11TypeDataQOSDataCFAckPoll : Z := 46.
Definition Dot11TypeDataQOSNull : Z := 50.
Definition Dot11TypeDataQOSCFPollNoData : Z := 58.
Definition Dot11TypeDataQOSCFAckPollNoData : Z := 62.

(** [USBTransportType] ([layers/usb.go]) *)
Definition USBTransportTypeTransferIn : Z := 128.
Definition USBTransportTypeIsochronous : Z := 0.
Definition USBTransportTypeInterrupt : Z := 1.
Definition USBTransportTypeControl : Z := 2.
Definition USBTransportTypeBulk : Z := 3.

(** [MainType] and [QOS] of a [Dot11Type]. *)
Definition MainType (d : Z) : Z := Z.land d dot11TypeMask.
Definition QOS (d : Z) : bool := Z.land d dot11QOSMask =? Dot11TypeDataQOSData.

(** ** Decoders and tables *)

(** The decoding functions, by name. [errorDecoder] is the default entry of the
    tables, which fails on its number. *)
Inductive decode_func : Type :=
  | F_DecodeUnknown | F_DecodePayload | F_DecodeFragment
  | F_decodeARP | F_decodeCiscoDiscovery | F_decodeEthernetCTP | F_decodeDot1Q
  | F_decodeEtherIP | F_decodeEthernet | F_decodeGRE | F_decodeICMPv4 | F_decodeIPv4
  | F_decodeIPv6 | F_decodeLLC | F_decodeSNAP | F_decodeMPLS | F_decodePPP | F_decodePPPoE
  | F_decodeRUDP | F_decodeSCTP | F_decodeTCP | F_decodeUDP | F_decodeIPv6HopByHop
  | F_decodeIPv6Routing | F_decodeIPv6Fragment | F_decodeIPv6Destination | F_decodeIPSecAH
  | F_decodeIPSecESP | F_decodeUDPLite | F_decodeFDDI | F_decodeLoopback | F_decodeEAP
  | F_decodeEAPOL | F_decodeICMPv6 | F_decodeLinkLayerDiscovery | F_decodeCiscoDiscoveryInfo
  | F_decodeNortelDiscovery | F_decodeIGMP | F_decodePFLog | F_decodeRadioTap | F_decodeDot11
  | F_decodeDot11Ctrl | F_decodeDot11Data | F_decodeDot11DataCFAck | F_decodeDot11DataCFPoll
  | F_decodeDot11DataCFAckPoll | F_decodeDot11DataNull | F_decodeDot11DataQOSData
  | F_decodeDot11DataQOSDataCFAck | F_decodeDot11DataQOSDataCFPoll
  | F_decodeDot11DataQOSDataCFAckPoll | F_decodeDot11DataQOSNull
  | F_decodeDot11DataQOSCFPollNoData | F_decodeDot11DataQOSCFAckPollNoData
  | F_decodeDot11InformationElement | F_decodeDot11CtrlCTS | F_decodeDot11CtrlRTS
  | F_decodeDot11CtrlBlockAckReq | F_decodeDot11CtrlBlockAck | F_decodeDot11CtrlPowersavePoll
  | F_decodeDot11CtrlAck | F_decodeDot11CtrlCFEnd | F_decodeDot11CtrlCFEndAck
  | F_decodeDot11MgmtAssociationReq | F_decodeDot11MgmtAssociationResp
  | F_decodeDot11MgmtReassociationReq | F_decodeDot11MgmtReassociationResp
  | F_decodeDot11MgmtProbeReq | F_decodeDot11MgmtProbeResp | F_decodeDot11MgmtMeasurementPilot
  | F_decodeDot11MgmtBeacon | F_decodeDot11MgmtATIM | F_decodeDot11MgmtDisassociation
  | F_decodeDot11MgmtAuthentication | F_decodeDot11MgmtDeauthentication
  | F_decodeDot11MgmtAction | F_decodeDot11MgmtActionNoAck | F_decodeDot11MgmtArubaWLAN
  | F_decodeDot11WEP | F_decodeDNS | F_decodeUSB | F_decodeUSBRequestBlockSetup
  | F_decodeUSBControl | F_decodeUSBInterrupt | F_decodeUSBBulk | F_decodeLinuxSLL
  | F_decodeSFlow | F_decodePrismHeader | F_decodeVXLAN | F_decodeNTP | F_decodeDHCPv4
  | F_decodeVRRP | F_decodeGeneve | F_decodeSTP | F_decodeBFD | F_decodeOSPF
  | F_decodeICMPv6RouterSolicitation | F_decodeICMPv6RouterAdvertisement
  | F_decodeICMPv6NeighborSolicitation | F_decodeICMPv6NeighborAdvertisement
  | F_decodeICMPv6Redirect | F_decodeGTPv1u | F_decodeEAPOLKey | F_decodeLCM
  | F_decodeICMPv6Echo | F_decodeSIP | F_decodeDHCPv6 | F_decodeMLDv1MulticastListenerReport
  | F_decodeMLDv1MulticastListenerDone | F_decodeMLDv1MulticastListenerQuery
  | F_decodeMLDv2MulticastListenerReport | F_decodeMLDv2MulticastListenerQuery | F_decodeTLS
  | F_decodeModbusTCP | F_decodeRMCP | F_decodeASF | F_decodeASFPresencePong | F_decodeERSPANII
  | F_decodeRADIUS | F_decodeAGUE | F_decodeAPSP | F_decodeSCTPData | F_decodeSCTPInit
  | F_decodeSCTPSack | F_decodeSCTPHeartbeat | F_decodeSCTPError | F_decodeSCTPShutdown
  | F_decodeSCTPShutdownAck | F_decodeSCTPCookieEcho | F_decodeSCTPEmptyLayer | F_decodeIPv4or6
  | F_decodeDot11DataCFAckNoData | F_decodeDot11DataCFPollNoData
  | F_decodeDot11DataCFAckPollNoData.

Inductive enum_kind : Type :=
  | EthernetTypeEnum | IPProtocolEnum | SCTPChunkTypeEnum | PPPTypeEnum | PPPoECodeEnum
  | LinkTypeEnum | FDDIFrameControlEnum | EAPOLTypeEnum | ProtocolFamilyEnum | Dot11TypeEnum
  | USBTransportTypeEnum.

(** The constructors numbered, so that they can be compared. *)
Definition decode_num (f : decode_func) : Z :=
  match f with
  | F_DecodeUnknown => 0
  | F_DecodePayload => 1
  | F_DecodeFragment => 2
  | F_decodeARP => 3
  | F_decodeCiscoDiscovery => 4
  | F_decodeEthernetCTP => 5
  | F_decodeDot1Q => 6
  | F_decodeEtherIP => 7
  | F_decodeEthernet => 8
  | F_decodeGRE => 9
  | F_decodeICMPv4 => 10
  | F_decodeIPv4 => 11
  | F_decodeIPv6 => 12
  | F_decodeLLC => 13
  | F_decodeSNAP => 14
  | F_decodeMPLS => 15
  | F_decodePPP => 16
  | F_decodePPPoE => 17
  | F_decodeRUDP => 18
  | F_decodeSCTP => 19
  | F_decodeTCP => 20
  | F_decodeUDP => 21
  | F_decodeIPv6HopByHop => 22
  | F_decodeIPv6Routing => 23
  | F_decodeIPv6Fragment => 24
  | F_decodeIPv6Destination => 25
  | F_decodeIPSecAH => 26
  | F_decodeIPSecESP => 27
  | F_decodeUDPLite => 28
  | F_decodeFDDI => 29
  | F_decodeLoopback => 30
  | F_decodeEAP => 31
  | F_decodeEAPOL => 32
  | F_decodeICMPv6 => 33
  | F_decodeLinkLayerDiscovery => 34
  | F_decodeCiscoDiscoveryInfo => 35
  | F_decodeNortelDiscovery => 36
  | F_decodeIGMP => 37
  | F_decodePFLog => 38
  | F_decodeRadioTap => 39
  | F_decodeDot11 => 40
  | F_decodeDot11Ctrl => 41
  | F_decodeDot11Data => 42
  | F_decodeDot11DataCFAck => 43
  | F_decodeDot11DataCFPoll => 44
  | F_decodeDot11DataCFAckPoll => 45
  | F_decodeDot11DataNull => 46
  | F_decodeDot11DataQOSData => 47
  | F_decodeDot11DataQOSDataCFAck => 48
  | F_decodeDot11DataQOSDataCFPoll => 49
  | F_decodeDot11DataQOSDataCFAckPoll => 50
  | F_decodeDot11DataQOSNull => 51
  | F_decodeDot11DataQOSCFPollNoData => 52
  | F_decodeDot11DataQOSCFAckPollNoData => 53
  | F_decodeDot11InformationElement => 54
  | F_decodeDot11CtrlCTS => 55
  | F_decodeDot11CtrlRTS => 56
  | F_decodeDot11CtrlBlockAckReq => 57
  | F_decodeDot11CtrlBlockAck => 58
  | F_decodeDot11CtrlPowersavePoll => 59
  | F_decodeDot11CtrlAck => 60
  | F_decodeDot11CtrlCFEnd => 61
  | F_decodeDot11CtrlCFEndAck => 62
  | F_decodeDot11MgmtAssociationReq => 63
  | F_decodeDot11MgmtAssociationResp => 64
  | F_decodeDot11MgmtReassociationReq => 65
  | F_decodeDot11MgmtReassociationResp => 66
  | F_decodeDot11MgmtProbeReq => 67
  | F_decodeDot11MgmtProbeResp => 68
  | F_decodeDot11MgmtMeasurementPilot => 69
  | F_decodeDot11MgmtBeacon => 70
  | F_decodeDot11MgmtATIM => 71
  | F_decodeDot11MgmtDisassociation => 72
  | F_decodeDot11MgmtAuthentication => 73
  | F_decodeDot11MgmtDeauthentication => 74
  | F_decodeDot11MgmtAction => 75
  | F_decodeDot11MgmtActionNoAck => 76
  | F_decodeDot11MgmtArubaWLAN => 77
  | F_decodeDot11WEP => 78
  | F_decodeDNS => 79
  | F_decodeUSB => 80
  | F_decodeUSBRequestBlockSetup => 81
  | F_decodeUSBControl => 82
  | F_decodeUSBInterrupt => 83
  | F_decodeUSBBulk => 84
  | F_decodeLinuxSLL => 85
  | F_decodeSFlow => 86
  | F_decodePrismHeader => 87
  | F_decodeVXLAN => 88
  | F_decodeNTP => 89
  | F_decodeDHCPv4 => 90
  | F_decodeVRRP => 91
  | F_decodeGeneve => 92
  | F_decodeSTP => 93
  | F_decodeBFD => 94
  | F_decodeOSPF => 95
  | F_decodeICMPv6RouterSolicitation => 96
  | F_decodeICMPv6RouterAdvertisement => 97
  | F_decodeICMPv6NeighborSolicitation => 98
  | F_decodeICMPv6NeighborAdvertisement => 99
  | F_decodeICMPv6Redirect => 100
  | F_decodeGTPv1u => 101
  | F_decodeEAPOLKey => 102
  | F_decodeLCM => 103
  | F_decodeICMPv6Echo => 104
  | F_decodeSIP => 105
  | F_decodeDHCPv6 => 106
  | F_decodeMLDv1MulticastListenerReport => 107
  | F_decodeMLDv1MulticastListenerDone => 108
  | F_decodeMLDv1MulticastListenerQuery => 109
  | F_decodeMLDv2MulticastListenerReport => 110
  | F_decodeMLDv2MulticastListenerQuery => 111
  | F_decodeTLS => 112
  | F_decodeModbusTCP => 113
  | F_decodeRMCP => 114
  | F_decodeASF => 115
  | F_decodeASFPresencePong => 116
  | F_decodeERSPANII => 117
  | F_decodeRADIUS => 118
  | F_decodeAGUE => 119
  | F_decodeAPSP => 120
  | F_decodeSCTPData => 121
  | F_decodeSCTPInit => 122
  | F_decodeSCTPSack => 123
  | F_decodeSCTPHeartbeat => 124
  | F_decodeSCTPError => 125
  | F_decodeSCTPShutdown => 126
  | F_decodeSCTPShutdownAck => 127
  | F_decodeSCTPCookieEcho => 128
  | F_decodeSCTPEmptyLayer => 129
  | F_decodeIPv4or6 => 130
  | F_decodeDot11DataCFAckNoData => 131
  | F_decodeDot11DataCFPollNoData => 132
  | F_decodeDot11DataCFAckPollNoData => 133
  end.

Definition decode_of_num (n : Z) : decode_func :=
  match n with
  | 0 => F_DecodeUnknown
  | 1 => F_DecodePayload
  | 2 => F_DecodeFragment
  | 3 => F_decodeARP
  | 4 => F_decodeCiscoDiscovery
  | 5 => F_decodeEthernetCTP
  | 6 => F_decodeDot1Q
  | 7 => F_decodeEtherIP
  | 8 => F_decodeEthernet
  | 9 => F_decodeGRE
  | 10 => F_decodeICMPv4
  | 11 => F_decodeIPv4
  | 12 => F_decodeIPv6
  | 13 => F_decodeLLC
  | 14 => F_decodeSNAP
  | 15 => F_decodeMPLS
  | 16 => F_decodePPP
  | 17 => F_decodePPPoE
  | 18 => F_decodeRUDP
  | 19 => F_decodeSCTP
  | 20 => F_decodeTCP
  | 21 => F_decodeUDP
  | 22 => F_decodeIPv6HopByHop
  | 23 => F_decodeIPv6Routing
  | 24 => F_decodeIPv6Fragment
  | 25 => F_decodeIPv6Destination
  | 26 => F_decodeIPSecAH
  | 27 => F_decodeIPSecESP
  | 28 => F_decodeUDPLite
  | 29 => F_decodeFDDI
  | 30 => F_decodeLoopback
  | 31 => F_decodeEAP
  | 32 => F_decodeEAPOL
  | 33 => F_decodeICMPv6
  | 34 => F_decodeLinkLayerDiscovery
  | 35 => F_decodeCiscoDiscoveryInfo
  | 36 => F_decodeNortelDiscovery
  | 37 => F_decodeIGMP
  | 38 => F_decodePFLog
  | 39 => F_decodeRadioTap
  | 40 => F_decodeDot11
  | 41 => F_decodeDot11Ctrl
  | 42 => F_decodeDot11Data
  | 43 => F_decodeDot11DataCFAck
  | 44 => F_decodeDot11DataCFPoll
  | 45 => F_decodeDot11DataCFAckPoll
  | 46 => F_decodeDot11DataNull
  | 47 => F_decodeDot11DataQOSData
  | 48 => F_decodeDot11DataQOSDataCFAck
  | 49 => F_decodeDot11DataQOSDataCFPoll
  | 50 => F_decodeDot11DataQOSDataCFAckPoll
  | 51 => F_decodeDot11DataQOSNull
  | 52 => F_decodeDot11DataQOSCFPollNoData
  | 53 => F_decodeDot11DataQOSCFAckPollNoData
  | 54 => F_decodeDot11InformationElement
  | 55 => F_decodeDot11CtrlCTS
  | 56 => F_decodeDot11CtrlRTS
  | 57 => F_decodeDot11CtrlBlockAckReq
  | 58 => F_decodeDot11CtrlBlockAck
  | 59 => F_decodeDot11CtrlPowersavePoll
  | 60 => F_decodeDot11CtrlAck
  | 61 => F_decodeDot11CtrlCFEnd
  | 62 => F_decodeDot11CtrlCFEndAck
  | 63 => F_decodeDot11MgmtAssociationReq
  | 64 => F_decodeDot11MgmtAssociationResp
  | 65 => F_decodeDot11MgmtReassociationReq
  | 66 => F_decodeDot11MgmtReassociationResp
  | 67 => F_decodeDot11MgmtProbeReq
  | 68 => F_decodeDot11MgmtProbeResp
  | 69 => F_decodeDot11MgmtMeasurementPilot
  | 70 => F_decodeDot11MgmtBeacon
  | 71 => F_decodeDot11MgmtATIM
  | 72 => F_decodeDot11MgmtDisassociation
  | 73 => F_decodeDot11MgmtAuthentication
  | 74 => F_decodeDot11MgmtDeauthentication
  | 75 => F_decodeDot11MgmtAction
  | 76 => F_decodeDot11MgmtActionNoAck
  | 77 => F_decodeDot11MgmtArubaWLAN
  | 78 => F_decodeDot11WEP
  | 79 => F_decodeDNS
  | 80 => F_decodeUSB
  | 81 => F_decodeUSBRequestBlockSetup
  | 82 => F_decodeUSBControl
  | 83 => F_decodeUSBInterrupt
  | 84 => F_decodeUSBBulk
  | 85 => F_decodeLinuxSLL
  | 86 => F_decodeSFlow
  | 87 => F_decodePrismHeader
  | 88 => F_decodeVXLAN
  | 89 => F_decodeNTP
  | 90 => F_decodeDHCPv4
  | 91 => F_decodeVRRP
  | 92 => F_decodeGeneve
  | 93 => F_decodeSTP
  | 94 => F_decodeBFD
  | 95 => F_decodeOSPF
  | 96 => F_decodeICMPv6RouterSolicitation
  | 97 => F_decodeICMPv6RouterAdvertisement
  | 98 => F_decodeICMPv6NeighborSolicitation
  | 99 => F_decodeICMPv6NeighborAdvertisement
  | 100 => F_decodeICMPv6Redirect
  | 101 => F_decodeGTPv1u
  | 102 => F_decodeEAPOLKey
  | 103 => F_decodeLCM
  | 104 => F_decodeICMPv6Echo
  | 105 => F_decodeSIP
  | 106 => F_decodeDHCPv6
  | 107 => F_decodeMLDv1MulticastListenerReport
  | 108 => F_decodeMLDv1MulticastListenerDone
  | 109 => F_decodeMLDv1MulticastListenerQuery
  | 110 => F_decodeMLDv2MulticastListenerReport
  | 111 => F_decodeMLDv2MulticastListenerQuery
  | 112 => F_decodeTLS
  | 113 => F_decodeModbusTCP
  | 114 => F_decodeRMCP
  | 115 => F_decodeASF
  | 116 => F_decodeASFPresencePong
  | 117 => F_decodeERSPANII
  | 118 => F_decodeRADIUS
  | 119 => F_decodeAGUE
  | 120 => F_decodeAPSP
  | 121 => F_decodeSCTPData
  | 122 => F_decodeSCTPInit
  | 123 => F_decodeSCTPSack
  | 124 => F_decodeSCTPHeartbeat
  | 125 => F_decodeSCTPError
  | 126 => F_decodeSCTPShutdown
  | 127 => F_decodeSCTPShutdownAck
  | 128 => F_decodeSCTPCookieEcho
  | 129 => F_decodeSCTPEmptyLayer
  | 130 => F_decodeIPv4or6
  | 131 => F_decodeDot11DataCFAckNoData
  | 132 => F_decodeDot11DataCFPollNoData
  | 133 => F_decodeDot11DataCFAckPollNoData
  | _ => F_DecodeUnknown
  end.

Lemma decode_of_num_num f : decode_of_num (decode_num f) = f.
Proof. by destruct f. Qed.

#[export] Instance decode_func_eq_dec : EqDecision decode_func.
Proof.
  intros f g. destruct (decide (decode_num f = decode_num g)) as [E|E].
  - left. by rewrite <-(decode_of_num_num f), E, decode_of_num_num.
  - right. congruence.
Defined.
#[export] Instance enum_kind_eq_dec : EqDecision enum_kind.
Proof. solve_decision. Defined.

Inductive enum_decoder : Type :=
  | DecodeFunc (f : decode_func)
  | errorDecoder (k : enum_kind) (i : Z).

#[export] Instance enum_decoder_eq_dec : EqDecision enum_decoder.
Proof. solve_decision. Defined.

Record EnumMetadata : Type := mkEnum {
  DecodeWith : enum_decoder;
  em_Name : string;
  em_LayerType : LayerType;
}.

(** The arrays [XMetadata], as the list of the assignments made to them, the
    latest first. *)
Abbreviation metadata := (list (enum_kind * Z * EnumMetadata)).

Definition kind_name (k : enum_kind) : string :=
  match k with
  | EthernetTypeEnum => "EthernetType"
  | IPProtocolEnum => "IPProtocol"
  | SCTPChunkTypeEnum => "SCTPChunkType"
  | PPPTypeEnum => "PPPType"
  | PPPoECodeEnum => "PPPoECode"
  | LinkTypeEnum => "LinkType"
  | FDDIFrameControlEnum => "FDDIFrameControl"
  | EAPOLTypeEnum => "EAPOLType"
  | ProtocolFamilyEnum => "ProtocolFamily"
  | Dot11TypeEnum => "Dot11Type"
  | USBTransportTypeEnum => "USBTransportType"
  end.

(** The entry written by [initUnknownTypesForX]. *)
Definition initUnknownTypes (k : enum_kind) (i : Z) : EnumMetadata :=
  mkEnum (errorDecoder k i) ("Unknown" +:+ kind_name k) LayerTypeZero.

Fixpoint metadata_at (md : metadata) (k : enum_kind) (a : Z) : EnumMetadata :=
  match md with
  | [] => initUnknownTypes k a
  | (k', i, m) :: md' => if bool_decide (k = k') && (a =? i) then m else metadata_at md' k a
  end.

(** The methods [Decode] (up to running the decoder) and [LayerType] of every
    enumeration. *)
Definition enum_Decode (md : metadata) (k : enum_kind) (a : Z) : enum_decoder :=
  DecodeWith (metadata_at md k a).
Definition enum_LayerType (md : metadata) (k : enum_kind) (a : Z) : LayerType :=
  em_LayerType (metadata_at md k a).

(** [initActualTypeData]; [openbsd] is [runtime.GOOS == "openbsd"]. *)
Definition initActualTypeData (openbsd : bool) : list (enum_kind * Z * EnumMetadata) := [
  (EthernetTypeEnum, EthernetTypeLLC, mkEnum (DecodeFunc F_decodeLLC) "LLC" LayerTypeLLC);
  (EthernetTypeEnum, EthernetTypeIPv4, mkEnum (DecodeFunc F_decodeIPv4) "IPv4" LayerTypeIPv4);
  (EthernetTypeEnum, EthernetTypeIPv6, mkEnum (DecodeFunc F_decodeIPv6) "IPv6" LayerTypeIPv6);
  (EthernetTypeEnum, EthernetTypeARP, mkEnum (DecodeFunc F_decodeARP) "ARP" LayerTypeARP);
  (EthernetTypeEnum, EthernetTypeDot1Q, mkEnum (DecodeFunc F_decodeDot1Q) "Dot1Q" LayerTypeDot1Q);
  (EthernetTypeEnum, EthernetTypePPP, mkEnum (DecodeFunc F_decodePPP) "PPP" LayerTypePPP);
  (EthernetTypeEnum, EthernetTypePPPoEDiscovery, mkEnum (DecodeFunc F_decodePPPoE) "PPPoEDiscovery" LayerTypePPPoE);
  (EthernetTypeEnum, EthernetTypePPPoESession, mkEnum (DecodeFunc F_decodePPPoE) "PPPoESession" LayerTypePPPoE);
  (EthernetTypeEnum, EthernetTypeEthernetCTP, mkEnum (DecodeFunc F_decodeEthernetCTP) "EthernetCTP" LayerTypeEthernetCTP);
  (EthernetTypeEnum, EthernetTypeCiscoDiscovery, mkEnum (DecodeFunc F_decodeCiscoDiscovery) "CiscoDiscovery" LayerTypeCiscoDiscovery);
  (EthernetTypeEnum, EthernetTypeNortelDiscovery, mkEnum (DecodeFunc F_decodeNortelDiscovery) "NortelDiscovery" LayerTypeNortelDiscovery);
  (EthernetTypeEnum, EthernetTypeLinkLayerDiscovery, mkEnum (DecodeFunc F_decodeLinkLayerDiscovery) "LinkLayerDiscovery" LayerTypeLinkLayerDiscovery);
  (EthernetTypeEnum, EthernetTypeMPLSUnicast, mkEnum (DecodeFunc F_decodeMPLS) "MPLSUnicast" LayerTypeMPLS);
  (EthernetTypeEnum, EthernetTypeMPLSMulticast, mkEnum (DecodeFunc F_decodeMPLS) "MPLSMulticast" LayerTypeMPLS);
  (EthernetTypeEnum, EthernetTypeEAPOL, mkEnum (DecodeFunc F_decodeEAPOL) "EAPOL" LayerTypeEAPOL);
  (EthernetTypeEnum, EthernetTypeQinQ, mkEnum (DecodeFunc F_decodeDot1Q) "Dot1Q" LayerTypeDot1Q);
  (EthernetTypeEnum, EthernetTypeTransparentEthernetBridging, mkEnum (DecodeFunc F_decodeEthernet) "TransparentEthernetBridging" LayerTypeEthernet);
  (EthernetTypeEnum, EthernetTypeERSPAN, mkEnum (DecodeFunc F_decodeERSPANII) "ERSPAN Type II" LayerTypeERSPANII);
  (IPProtocolEnum, IPProtocolIPv4, mkEnum (DecodeFunc F_decodeIPv4) "IPv4" LayerTypeIPv4);
  (IPProtocolEnum, IPProtocolTCP, mkEnum (DecodeFunc F_decodeTCP) "TCP" LayerTypeTCP);
  (IPProtocolEnum, IPProtocolUDP, mkEnum (DecodeFunc F_decodeUDP) "UDP" LayerTypeUDP);
  (IPProtocolEnum, IPProtocolICMPv4, mkEnum (DecodeFunc F_decodeICMPv4) "ICMPv4" LayerTypeICMPv4);
  (IPProtocolEnum, IPProtocolICMPv6, mkEnum (DecodeFunc F_decodeICMPv6) "ICMPv6" LayerTypeICMPv6);
  (IPProtocolEnum, IPProtocolSCTP, mkEnum (DecodeFunc F_decodeSCTP) "SCTP" LayerTypeSCTP);
  (IPProtocolEnum, IPProtocolIPv6, mkEnum (DecodeFunc F_decodeIPv6) "IPv6" LayerTypeIPv6);
  (IPProtocolEnum, IPProtocolIPIP, mkEnum (DecodeFunc F_decodeIPv4) "IPv4" LayerTypeIPv4);
  (IPProtocolEnum, IPProtocolEtherIP, mkEnum (DecodeFunc F_decodeEtherIP) "EtherIP" LayerTypeEtherIP);
  (IPProtocolEnum, IPProtocolRUDP, mkEnum (DecodeFunc F_decodeRUDP) "RUDP" LayerTypeRUDP);
  (IPProtocolEnum, IPProtocolGRE, mkEnum (DecodeFunc F_decodeGRE) "GRE" LayerTypeGRE);
  (IPProtocolEnum, IPProtocolIPv6HopByHop, mkEnum (DecodeFunc F_decodeIPv6HopByHop) "IPv6HopByHop" LayerTypeIPv6HopByHop);
  (IPProtocolEnum, IPProtocolIPv6Routing, mkEnum (DecodeFunc F_decodeIPv6Routing) "IPv6Routing" LayerTypeIPv6Routing);
  (IPProtocolEnum, IPProtocolIPv6Fragment, mkEnum (DecodeFunc F_decodeIPv6Fragment) "IPv6Fragment" LayerTypeIPv6Fragment);
  (IPProtocolEnum, IPProtocolIPv6Destination, mkEnum (DecodeFunc F_decodeIPv6Destination) "IPv6Destination" LayerTypeIPv6Destination);
  (IPProtocolEnum, IPProtocolOSPF, mkEnum (DecodeFunc F_decodeOSPF) "OSPF" LayerTypeOSPF);
  (IPProtocolEnum, IPProtocolAH, mkEnum (DecodeFunc F_decodeIPSecAH) "IPSecAH" LayerTypeIPSecAH);
  (IPProtocolEnum, IPProtocolESP, mkEnum (DecodeFunc F_decodeIPSecESP) "IPSecESP" LayerTypeIPSecESP);
  (IPProtocolEnum, IPProtocolUDPLite, mkEnum (DecodeFunc F_decodeUDPLite) "UDPLite" LayerTypeUDPLite);
  (IPProtocolEnum, IPProtocolMPLSInIP, mkEnum (DecodeFunc F_decodeMPLS) "MPLS" LayerTypeMPLS);
  (IPProtocolEnum, IPProtocolNoNextHeader, mkEnum (DecodeFunc F_DecodePayload) "NoNextHeader" LayerTypePayload);
  (IPProtocolEnum, IPProtocolIGMP, mkEnum (DecodeFunc F_decodeIGMP) "IGMP" LayerTypeIGMP);
  (IPProtocolEnum, IPProtocolVRRP, mkEnum (DecodeFunc F_decodeVRRP) "VRRP" LayerTypeVRRP);
  (SCTPChunkTypeEnum, SCTPChunkTypeData, mkEnum (DecodeFunc F_decodeSCTPData) "Data" LayerTypeZero);
  (SCTPChunkTypeEnum, SCTPChunkTypeInit, mkEnum (DecodeFunc F_decodeSCTPInit) "Init" LayerTypeZero);
  (SCTPChunkTypeEnum, SCTPChunkTypeInitAck, mkEnum (DecodeFunc F_decodeSCTPInit) "InitAck" LayerTypeZero);
  (SCTPChunkTypeEnum, SCTPChunkTypeSack, mkEnum (DecodeFunc F_decodeSCTPSack) "Sack" LayerTypeZero);
  (SCTPChunkTypeEnum, SCTPChunkTypeHeartbeat, mkEnum (DecodeFunc F_decodeSCTPHeartbeat) "Heartbeat" LayerTypeZero);
  (SCTPChunkTypeEnum, SCTPChunkTypeHeartbeatAck, mkEnum (DecodeFunc F_decodeSCTPHeartbeat) "HeartbeatAck" LayerTypeZero);
  (SCTPChunkTypeEnum, SCTPChunkTypeAbort, mkEnum (DecodeFunc F_decodeSCTPError) "Abort" LayerTypeZero);
  (SCTPChunkTypeEnum, SCTPChunkTypeError, mkEnum (DecodeFunc F_decodeSCTPError) "Error" LayerTypeZero);
  (SCTPChunkTypeEnum, SCTPChunkTypeShutdown, mkEnum (DecodeFunc F_decodeSCTPShutdown) "Shutdown" LayerTypeZero);
  (SCTPChunkTypeEnum, SCTPChunkTypeShutdownAck, mkEnum (DecodeFunc F_decodeSCTPShutdownAck) "ShutdownAck" LayerTypeZero);
  (SCTPChunkTypeEnum, SCTPChunkTypeCookieEcho, mkEnum (DecodeFunc F_decodeSCTPCookieEcho) "CookieEcho" LayerTypeZero);
  (SCTPChunkTypeEnum, SCTPChunkTypeCookieAck, mkEnum (DecodeFunc F_decodeSCTPEmptyLayer) "CookieAck" LayerTypeZero);
  (SCTPChunkTypeEnum, SCTPChunkTypeShutdownComplete, mkEnum (DecodeFunc F_decodeSCTPEmptyLayer) "ShutdownComplete" LayerTypeZero);
  (PPPTypeEnum, PPPTypeIPv4, mkEnum (DecodeFunc F_decodeIPv4) "IPv4" LayerTypeZero);
  (PPPTypeEnum, PPPTypeIPv6, mkEnum (DecodeFunc F_decodeIPv6) "IPv6" LayerTypeZero);
  (PPPTypeEnum, PPPTypeMPLSUnicast, mkEnum (DecodeFunc F_decodeMPLS) "MPLSUnicast" LayerTypeZero);
  (PPPTypeEnum, PPPTypeMPLSMulticast, mkEnum (DecodeFunc F_decodeMPLS) "MPLSMulticast" LayerTypeZero);
  (PPPoECodeEnum, PPPoECodeSession, mkEnum (DecodeFunc F_decodePPP) "PPP" LayerTypeZero);
  (LinkTypeEnum, LinkTypeEthernet, mkEnum (DecodeFunc F_decodeEthernet) "Ethernet" LayerTypeZero);
  (LinkTypeEnum, LinkTypePPP, mkEnum (DecodeFunc F_decodePPP) "PPP" LayerTypeZero);
  (LinkTypeEnum, LinkTypeFDDI, mkEnum (DecodeFunc F_decodeFDDI) "FDDI" LayerTypeZero);
  (LinkTypeEnum, LinkTypeNull, mkEnum (DecodeFunc F_decodeLoopback) "Null" LayerTypeZero);
  (LinkTypeEnum, LinkTypeIEEE802_11, mkEnum (DecodeFunc F_decodeDot11) "Dot11" LayerTypeZero);
  (LinkTypeEnum, LinkTypeLoop, mkEnum (DecodeFunc F_decodeLoopback) "Loop" LayerTypeZero);
  (LinkTypeEnum, LinkTypeIEEE802_11, mkEnum (DecodeFunc F_decodeDot11) "802.11" LayerTypeZero);
  (LinkTypeEnum, LinkTypeRaw, mkEnum (DecodeFunc F_decodeIPv4or6) "Raw" LayerTypeZero);
  (LinkTypeEnum, if openbsd then 14 else 12, mkEnum (DecodeFunc F_decodeIPv4or6) "Raw" LayerTypeZero);
  (LinkTypeEnum, LinkTypePFLog, mkEnum (DecodeFunc F_decodePFLog) "PFLog" LayerTypeZero);
  (LinkTypeEnum, LinkTypeIEEE80211Radio, mkEnum (DecodeFunc F_decodeRadioTap) "RadioTap" LayerTypeZero);
  (LinkTypeEnum, LinkTypeLinuxUSB, mkEnum (DecodeFunc F_decodeUSB) "USB" LayerTypeZero);
  (LinkTypeEnum, LinkTypeLinuxSLL, mkEnum (DecodeFunc F_decodeLinuxSLL) "Linux SLL" LayerTypeZero);
  (LinkTypeEnum, LinkTypePrismHeader, mkEnum (DecodeFunc F_decodePrismHeader) "Prism" LayerTypeZero);
  (FDDIFrameControlEnum, FDDIFrameControlLLC, mkEnum (DecodeFunc F_decodeLLC) "LLC" LayerTypeZero);
  (EAPOLTypeEnum, EAPOLTypeEAP, mkEnum (DecodeFunc F_decodeEAP) "EAP" LayerTypeEAP);
  (EAPOLTypeEnum, EAPOLTypeKey, mkEnum (DecodeFunc F_decodeEAPOLKey) "EAPOLKey" LayerTypeEAPOLKey);
  (ProtocolFamilyEnum, ProtocolFamilyIPv4, mkEnum (DecodeFunc F_decodeIPv4) "IPv4" LayerTypeIPv4);
  (ProtocolFamilyEnum, ProtocolFamilyIPv6BSD, mkEnum (DecodeFunc F_decodeIPv6) "IPv6" LayerTypeIPv6);
  (ProtocolFamilyEnum, ProtocolFamilyIPv6FreeBSD, mkEnum (DecodeFunc F_decodeIPv6) "IPv6" LayerTypeIPv6);
  (ProtocolFamilyEnum, ProtocolFamilyIPv6Darwin, mkEnum (DecodeFunc F_decodeIPv6) "IPv6" LayerTypeIPv6);
  (ProtocolFamilyEnum, ProtocolFamilyIPv6Linux, mkEnum (DecodeFunc F_decodeIPv6) "IPv6" LayerTypeIPv6);
  (Dot11TypeEnum, Dot11TypeMgmtAssociationReq, mkEnum (DecodeFunc F_decodeDot11MgmtAssociationReq) "MgmtAssociationReq" LayerTypeDot11MgmtAssociationReq);
  (Dot11TypeEnum, Dot11TypeMgmtAssociationResp, mkEnum (DecodeFunc F_decodeDot11MgmtAssociationResp) "MgmtAssociationResp" LayerTypeDot11MgmtAssociationResp);
  (Dot11TypeEnum, Dot11TypeMgmtReassociationReq, mkEnum (DecodeFunc F_decodeDot11MgmtReassociationReq) "MgmtReassociationReq" LayerTypeDot11MgmtReassociationReq);
  (Dot11TypeEnum, Dot11TypeMgmtReassociationResp, mkEnum (DecodeFunc F_decodeDot11MgmtReassociationResp) "MgmtReassociationResp" LayerTypeDot11MgmtReassociationResp);
  (Dot11TypeEnum, Dot11TypeMgmtProbeReq, mkEnum (DecodeFunc F_decodeDot11MgmtProbeReq) "MgmtProbeReq" LayerTypeDot11MgmtProbeReq);
  (Dot11TypeEnum, Dot11TypeMgmtProbeResp, mkEnum (DecodeFunc F_decodeDot11MgmtProbeResp) "MgmtProbeResp" LayerTypeDot11MgmtProbeResp);
  (Dot11TypeEnum, Dot11TypeMgmtMeasurementPilot, mkEnum (DecodeFunc F_decodeDot11MgmtMeasurementPilot) "MgmtMeasurementPilot" LayerTypeDot11MgmtMeasurementPilot);
  (Dot11TypeEnum, Dot11TypeMgmtBeacon, mkEnum (DecodeFunc F_decodeDot11MgmtBeacon) "MgmtBeacon" LayerTypeDot11MgmtBeacon);
  (Dot11TypeEnum, Dot11TypeMgmtATIM, mkEnum (DecodeFunc F_decodeDot11MgmtATIM) "MgmtATIM" LayerTypeDot11MgmtATIM);
  (Dot11TypeEnum, Dot11TypeMgmtDisassociation, mkEnum (DecodeFunc F_decodeDot11MgmtDisassociation) "MgmtDisassociation" LayerTypeDot11MgmtDisassociation);
  (Dot11TypeEnum, Dot11TypeMgmtAuthentication, mkEnum (DecodeFunc F_decodeDot11MgmtAuthentication) "MgmtAuthentication" LayerTypeDot11MgmtAuthentication);
  (Dot11TypeEnum, Dot11TypeMgmtDeauthentication, mkEnum (DecodeFunc F_decodeDot11MgmtDeauthentication) "MgmtDeauthentication" LayerTypeDot11MgmtDeauthentication);
  (Dot11TypeEnum, Dot11TypeMgmtAction, mkEnum (DecodeFunc F_decodeDot11MgmtAction) "MgmtAction" LayerTypeDot11MgmtAction);
  (Dot11TypeEnum, Dot11TypeMgmtActionNoAck, mkEnum (DecodeFunc F_decodeDot11MgmtActionNoAck) "MgmtActionNoAck" LayerTypeDot11MgmtActionNoAck);
  (Dot11TypeEnum, Dot11TypeCtrl, mkEnum (DecodeFunc F_decodeDot11Ctrl) "Ctrl" LayerTypeDot11Ctrl);
  (Dot11TypeEnum, Dot11TypeCtrlWrapper, mkEnum (DecodeFunc F_decodeDot11Ctrl) "CtrlWrapper" LayerTypeDot11Ctrl);
  (Dot11TypeEnum, Dot11TypeCtrlBlockAckReq, mkEnum (DecodeFunc F_decodeDot11CtrlBlockAckReq) "CtrlBlockAckReq" LayerTypeDot11CtrlBlockAckReq);
  (Dot11TypeEnum, Dot11TypeCtrlBlockAck, mkEnum (DecodeFunc F_decodeDot11CtrlBlockAck) "CtrlBlockAck" LayerTypeDot11CtrlBlockAck);
  (Dot11TypeEnum, Dot11TypeCtrlPowersavePoll, mkEnum (DecodeFunc F_decodeDot11CtrlPowersavePoll) "CtrlPowersavePoll" LayerTypeDot11CtrlPowersavePoll);
  (Dot11TypeEnum, Dot11TypeCtrlRTS, mkEnum (DecodeFunc F_decodeDot11CtrlRTS) "CtrlRTS" LayerTypeDot11CtrlRTS);
  (Dot11TypeEnum, Dot11TypeCtrlCTS, mkEnum (DecodeFunc F_decodeDot11CtrlCTS) "CtrlCTS" LayerTypeDot11CtrlCTS);
  (Dot11TypeEnum, Dot11TypeCtrlAck, mkEnum (DecodeFunc F_decodeDot11CtrlAck) "CtrlAck" LayerTypeDot11CtrlAck);
  (Dot11TypeEnum, Dot11TypeCtrlCFEnd, mkEnum (DecodeFunc F_decodeDot11CtrlCFEnd) "CtrlCFEnd" LayerTypeDot11CtrlCFEnd);
  (Dot11TypeEnum, Dot11TypeCtrlCFEndAck, mkEnum (DecodeFunc F_decodeDot11CtrlCFEndAck) "CtrlCFEndAck" LayerTypeDot11CtrlCFEndAck);
  (Dot11TypeEnum, Dot11TypeData, mkEnum (DecodeFunc F_decodeDot11Data) "Data" LayerTypeDot11Data);
  (Dot11TypeEnum, Dot11TypeDataCFAck, mkEnum (DecodeFunc F_decodeDot11DataCFAck) "DataCFAck" LayerTypeDot11DataCFAck);
  (Dot11TypeEnum, Dot11TypeDataCFPoll, mkEnum (DecodeFunc F_decodeDot11DataCFPoll) "DataCFPoll" LayerTypeDot11DataCFPoll);
  (Dot11TypeEnum, Dot11TypeDataCFAckPoll, mkEnum (DecodeFunc F_decodeDot11DataCFAckPoll) "DataCFAckPoll" LayerTypeDot11DataCFAckPoll);
  (Dot11TypeEnum, Dot11TypeDataNull, mkEnum (DecodeFunc F_decodeDot11DataNull) "DataNull" LayerTypeDot11DataNull);
  (Dot11TypeEnum, Dot11TypeDataCFAckNoData, mkEnum (DecodeFunc F_decodeDot11DataCFAckNoData) "DataCFAckNoData" LayerTypeDot11DataCFAckNoData);
  (Dot11TypeEnum, Dot11TypeDataCFPollNoData, mkEnum (DecodeFunc F_decodeDot11DataCFPollNoData) "DataCFPollNoData" LayerTypeDot11DataCFPollNoData);
  (Dot11TypeEnum, Dot11TypeDataCFAckPollNoData, mkEnum (DecodeFunc F_decodeDot11DataCFAckPollNoData) "DataCFAckPollNoData" LayerTypeDot11DataCFAckPollNoData);
  (Dot11TypeEnum, Dot11TypeDataQOSData, mkEnum (DecodeFunc F_decodeDot11DataQOSData) "DataQOSData" LayerTypeDot11DataQOSData);
  (Dot11TypeEnum, Dot11TypeDataQOSDataCFAck, mkEnum (DecodeFunc F_decodeDot11DataQOSDataCFAck) "DataQOSDataCFAck" LayerTypeDot11DataQOSDataCFAck);
  (Dot11TypeEnum, Dot11TypeDataQOSDataCFPoll, mkEnum (DecodeFunc F_decodeDot11DataQOSDataCFPoll) "DataQOSDataCFPoll" LayerTypeDot11DataQOSDataCFPoll);
  (Dot11TypeEnum, Dot11TypeDataQOSDataCFAckPoll, mkEnum (DecodeFunc F_decodeDot11DataQOSDataCFAckPoll) "DataQOSDataCFAckPoll" LayerTypeDot11DataQOSDataCFAckPoll);
  (Dot11TypeEnum, Dot11TypeDataQOSNull, mkEnum (DecodeFunc F_decodeDot11DataQOSNull) "DataQOSNull" LayerTypeDot11DataQOSNull);
  (Dot11TypeEnum, Dot11TypeDataQOSCFPollNoData, mkEnum (DecodeFunc F_decodeDot11DataQOSCFPollNoData) "DataQOSCFPollNoData" LayerTypeDot11DataQOSCFPollNoData);
  (Dot11TypeEnum, Dot11TypeDataQOSCFAckPollNoData, mkEnum (DecodeFunc F_decodeDot11DataQOSCFAckPollNoData) "DataQOSCFAckPollNoData" LayerTypeDot11DataQOSCFAckPollNoData);
  (USBTransportTypeEnum, USBTransportTypeInterrupt, mkEnum (DecodeFunc F_decodeUSBInterrupt) "Interrupt" LayerTypeUSBInterrupt);
  (USBTransportTypeEnum, USBTransportTypeControl, mkEnum (DecodeFunc F_decodeUSBControl) "Control" LayerTypeUSBControl);
  (USBTransportTypeEnum, USBTransportTypeBulk, mkEnum (DecodeFunc F_decodeUSBBulk) "Bulk" LayerTypeUSBBulk)].

Definition initial_metadata (openbsd : bool) : metadata := rev (initActualTypeData openbsd).

(** The calls of [RegisterLayerType] in [decode.go] and [layertypes.go], in order. *)
Definition layertypes : list (LayerType * LayerTypeMetadata decode_func) := [
  (LayerTypeZero, mkMetadata "Unknown" (Some F_DecodeUnknown));
  (LayerTypeDecodeFailure, mkMetadata "DecodeFailure" (Some F_DecodeUnknown));
  (LayerTypePayload, mkMetadata "Payload" (Some F_DecodePayload));
  (LayerTypeFragment, mkMetadata "Fragment" (Some F_DecodeFragment));
  (LayerTypeARP, mkMetadata "ARP" (Some F_decodeARP));
  (LayerTypeCiscoDiscovery, mkMetadata "CiscoDiscovery" (Some F_decodeCiscoDiscovery));
  (LayerTypeEthernetCTP, mkMetadata "EthernetCTP" (Some F_decodeEthernetCTP));
  (LayerTypeEthernetCTPForwardData, mkMetadata "EthernetCTPForwardData" None);
  (LayerTypeEthernetCTPReply, mkMetadata "EthernetCTPReply" None);
  (LayerTypeDot1Q, mkMetadata "Dot1Q" (Some F_decodeDot1Q));
  (LayerTypeEtherIP, mkMetadata "EtherIP" (Some F_decodeEtherIP));
  (LayerTypeEthernet, mkMetadata "Ethernet" (Some F_decodeEthernet));
  (LayerTypeGRE, mkMetadata "GRE" (Some F_decodeGRE));
  (LayerTypeICMPv4, mkMetadata "ICMPv4" (Some F_decodeICMPv4));
  (LayerTypeIPv4, mkMetadata "IPv4" (Some F_decodeIPv4));
  (LayerTypeIPv6, mkMetadata "IPv6" (Some F_decodeIPv6));
  (LayerTypeLLC, mkMetadata "LLC" (Some F_decodeLLC));
  (LayerTypeSNAP, mkMetadata "SNAP" (Some F_decodeSNAP));
  (LayerTypeMPLS, mkMetadata "MPLS" (Some F_decodeMPLS));
  (LayerTypePPP, mkMetadata "PPP" (Some F_decodePPP));
  (LayerTypePPPoE, mkMetadata "PPPoE" (Some F_decodePPPoE));
  (LayerTypeRUDP, mkMetadata "RUDP" (Some F_decodeRUDP));
  (LayerTypeSCTP, mkMetadata "SCTP" (Some F_decodeSCTP));
  (LayerTypeSCTPUnknownChunkType, mkMetadata "SCTPUnknownChunkType" None);
  (LayerTypeSCTPData, mkMetadata "SCTPData" None);
  (LayerTypeSCTPInit, mkMetadata "SCTPInit" None);
  (LayerTypeSCTPSack, mkMetadata "SCTPSack" None);
  (LayerTypeSCTPHeartbeat, mkMetadata "SCTPHeartbeat" None);
  (LayerTypeSCTPError, mkMetadata "SCTPError" None);
  (LayerTypeSCTPShutdown, mkMetadata "SCTPShutdown" None);
  (LayerTypeSCTPShutdownAck, mkMetadata "SCTPShutdownAck" None);
  (LayerTypeSCTPCookieEcho, mkMetadata "SCTPCookieEcho" None);
  (LayerTypeSCTPEmptyLayer, mkMetadata "SCTPEmptyLayer" None);
  (LayerTypeSCTPInitAck, mkMetadata "SCTPInitAck" None);
  (LayerTypeSCTPHeartbeatAck, mkMetadata "SCTPHeartbeatAck" None);
  (LayerTypeSCTPAbort, mkMetadata "SCTPAbort" None);
  (LayerTypeSCTPShutdownComplete, mkMetadata "SCTPShutdownComplete" None);
  (LayerTypeSCTPCookieAck, mkMetadata "SCTPCookieAck" None);
  (LayerTypeTCP, mkMetadata "TCP" (Some F_decodeTCP));
  (LayerTypeUDP, mkMetadata "UDP" (Some F_decodeUDP));
  (LayerTypeIPv6HopByHop, mkMetadata "IPv6HopByHop" (Some F_decodeIPv6HopByHop));
  (LayerTypeIPv6Routing, mkMetadata "IPv6Routing" (Some F_decodeIPv6Routing));
  (LayerTypeIPv6Fragment, mkMetadata "IPv6Fragment" (Some F_decodeIPv6Fragment));
  (LayerTypeIPv6Destination, mkMetadata "IPv6Destination" (Some F_decodeIPv6Destination));
  (LayerTypeIPSecAH, mkMetadata "IPSecAH" (Some F_decodeIPSecAH));
  (LayerTypeIPSecESP, mkMetadata "IPSecESP" (Some F_decodeIPSecESP));
  (LayerTypeUDPLite, mkMetadata "UDPLite" (Some F_decodeUDPLite));
  (LayerTypeFDDI, mkMetadata "FDDI" (Some F_decodeFDDI));
  (LayerTypeLoopback, mkMetadata "Loopback" (Some F_decodeLoopback));
  (LayerTypeEAP, mkMetadata "EAP" (Some F_decodeEAP));
  (LayerTypeEAPOL, mkMetadata "EAPOL" (Some F_decodeEAPOL));
  (LayerTypeICMPv6, mkMetadata "ICMPv6" (Some F_decodeICMPv6));
  (LayerTypeLinkLayerDiscovery, mkMetadata "LinkLayerDiscovery" (Some F_decodeLinkLayerDiscovery));
  (LayerTypeCiscoDiscoveryInfo, mkMetadata "CiscoDiscoveryInfo" (Some F_decodeCiscoDiscoveryInfo));
  (LayerTypeLinkLayerDiscoveryInfo, mkMetadata "LinkLayerDiscoveryInfo" None);
  (LayerTypeNortelDiscovery, mkMetadata "NortelDiscovery" (Some F_decodeNortelDiscovery));
  (LayerTypeIGMP, mkMetadata "IGMP" (Some F_decodeIGMP));
  (LayerTypePFLog, mkMetadata "PFLog" (Some F_decodePFLog));
  (LayerTypeRadioTap, mkMetadata "RadioTap" (Some F_decodeRadioTap));
  (LayerTypeDot11, mkMetadata "Dot11" (Some F_decodeDot11));
  (LayerTypeDot11Ctrl, mkMetadata "Dot11Ctrl" (Some F_decodeDot11Ctrl));
  (LayerTypeDot11Data, mkMetadata "Dot11Data" (Some F_decodeDot11Data));
  (LayerTypeDot11DataCFAck, mkMetadata "Dot11DataCFAck" (Some F_decodeDot11DataCFAck));
  (LayerTypeDot11DataCFPoll, mkMetadata "Dot11DataCFPoll" (Some F_decodeDot11DataCFPoll));
  (LayerTypeDot11DataCFAckPoll, mkMetadata "Dot11DataCFAckPoll" (Some F_decodeDot11DataCFAckPoll));
  (LayerTypeDot11DataNull, mkMetadata "Dot11DataNull" (Some F_decodeDot11DataNull));
  (LayerTypeDot11DataCFAckNoData, mkMetadata "Dot11DataCFAck" (Some F_decodeDot11DataCFAck));
  (LayerTypeDot11DataCFPollNoData, mkMetadata "Dot11DataCFPoll" (Some F_decodeDot11DataCFPoll));
  (LayerTypeDot11DataCFAckPollNoData, mkMetadata "Dot11DataCFAckPoll" (Some F_decodeDot11DataCFAckPoll));
  (LayerTypeDot11DataQOSData, mkMetadata "Dot11DataQOSData" (Some F_decodeDot11DataQOSData));
  (LayerTypeDot11DataQOSDataCFAck, mkMetadata "Dot11DataQOSDataCFAck" (Some F_decodeDot11DataQOSDataCFAck));
  (LayerTypeDot11DataQOSDataCFPoll, mkMetadata "Dot11DataQOSDataCFPoll" (Some F_decodeDot11DataQOSDataCFPoll));
  (LayerTypeDot11DataQOSDataCFAckPoll, mkMetadata "Dot11DataQOSDataCFAckPoll" (Some F_decodeDot11DataQOSDataCFAckPoll));
  (LayerTypeDot11DataQOSNull, mkMetadata "Dot11DataQOSNull" (Some F_decodeDot11DataQOSNull));
  (LayerTypeDot11DataQOSCFPollNoData, mkMetadata "Dot11DataQOSCFPoll" (Some F_decodeDot11DataQOSCFPollNoData));
  (LayerTypeDot11DataQOSCFAckPollNoData, mkMetadata "Dot11DataQOSCFAckPoll" (Some F_decodeDot11DataQOSCFAckPollNoData));
  (LayerTypeDot11InformationElement, mkMetadata "Dot11InformationElement" (Some F_decodeDot11InformationElement));
  (LayerTypeDot11CtrlCTS, mkMetadata "Dot11CtrlCTS" (Some F_decodeDot11CtrlCTS));
  (LayerTypeDot11CtrlRTS, mkMetadata "Dot11CtrlRTS" (Some F_decodeDot11CtrlRTS));
  (LayerTypeDot11CtrlBlockAckReq, mkMetadata "Dot11CtrlBlockAckReq" (Some F_decodeDot11CtrlBlockAckReq));
  (LayerTypeDot11CtrlBlockAck, mkMetadata "Dot11CtrlBlockAck" (Some F_decodeDot11CtrlBlockAck));
  (LayerTypeDot11CtrlPowersavePoll, mkMetadata "Dot11CtrlPowersavePoll" (Some F_decodeDot11CtrlPowersavePoll));
  (LayerTypeDot11CtrlAck, mkMetadata "Dot11CtrlAck" (Some F_decodeDot11CtrlAck));
  (LayerTypeDot11CtrlCFEnd, mkMetadata "Dot11CtrlCFEnd" (Some F_decodeDot11CtrlCFEnd));
  (LayerTypeDot11CtrlCFEndAck, mkMetadata "Dot11CtrlCFEndAck" (Some F_decodeDot11CtrlCFEndAck));
  (LayerTypeDot11MgmtAssociationReq, mkMetadata "Dot11MgmtAssociationReq" (Some F_decodeDot11MgmtAssociationReq));
  (LayerTypeDot11MgmtAssociationResp, mkMetadata "Dot11MgmtAssociationResp" (Some F_decodeDot11MgmtAssociationResp));
  (LayerTypeDot11MgmtReassociationReq, mkMetadata "Dot11MgmtReassociationReq" (Some F_decodeDot11MgmtReassociationReq));
  (LayerTypeDot11MgmtReassociationResp, mkMetadata "Dot11MgmtReassociationResp" (Some F_decodeDot11MgmtReassociationResp));
  (LayerTypeDot11MgmtProbeReq, mkMetadata "Dot11MgmtProbeReq" (Some F_decodeDot11MgmtProbeReq));
  (LayerTypeDot11MgmtProbeResp, mkMetadata "Dot11MgmtProbeResp" (Some F_decodeDot11MgmtProbeResp));
  (LayerTypeDot11MgmtMeasurementPilot, mkMetadata "Dot11MgmtMeasurementPilot" (Some F_decodeDot11MgmtMeasurementPilot));
  (LayerTypeDot11MgmtBeacon, mkMetadata "Dot11MgmtBeacon" (Some F_decodeDot11MgmtBeacon));
  (LayerTypeDot11MgmtATIM, mkMetadata "Dot11MgmtATIM" (Some F_decodeDot11MgmtATIM));
  (LayerTypeDot11MgmtDisassociation, mkMetadata "Dot11MgmtDisassociation" (Some F_decodeDot11MgmtDisassociation));
  (LayerTypeDot11MgmtAuthentication, mkMetadata "Dot11MgmtAuthentication" (Some F_decodeDot11MgmtAuthentication));
  (LayerTypeDot11MgmtDeauthentication, mkMetadata "Dot11MgmtDeauthentication" (Some F_decodeDot11MgmtDeauthentication));
  (LayerTypeDot11MgmtAction, mkMetadata "Dot11MgmtAction" (Some F_decodeDot11MgmtAction));
  (LayerTypeDot11MgmtActionNoAck, mkMetadata "Dot11MgmtActionNoAck" (Some F_decodeDot11MgmtActionNoAck));
  (LayerTypeDot11MgmtArubaWLAN, mkMetadata "Dot11MgmtArubaWLAN" (Some F_decodeDot11MgmtArubaWLAN));
  (LayerTypeDot11WEP, mkMetadata "Dot11WEP" (Some F_decodeDot11WEP));
  (LayerTypeDNS, mkMetadata "DNS" (Some F_decodeDNS));
  (LayerTypeUSB, mkMetadata "USB" (Some F_decodeUSB));
  (LayerTypeUSBRequestBlockSetup, mkMetadata "USBRequestBlockSetup" (Some F_decodeUSBRequestBlockSetup));
  (LayerTypeUSBControl, mkMetadata "USBControl" (Some F_decodeUSBControl));
  (LayerTypeUSBInterrupt, mkMetadata "USBInterrupt" (Some F_decodeUSBInterrupt));
  (LayerTypeUSBBulk, mkMetadata "USBBulk" (Some F_decodeUSBBulk));
  (LayerTypeLinuxSLL, mkMetadata "Linux SLL" (Some F_decodeLinuxSLL));
  (LayerTypeSFlow, mkMetadata "SFlow" (Some F_decodeSFlow));
  (LayerTypePrismHeader, mkMetadata "Prism monitor mode header" (Some F_decodePrismHeader));
  (LayerTypeVXLAN, mkMetadata "VXLAN" (Some F_decodeVXLAN));
  (LayerTypeNTP, mkMetadata "NTP" (Some F_decodeNTP));
  (LayerTypeDHCPv4, mkMetadata "DHCPv4" (Some F_decodeDHCPv4));
  (LayerTypeVRRP, mkMetadata "VRRP" (Some F_decodeVRRP));
  (LayerTypeGeneve, mkMetadata "Geneve" (Some F_decodeGeneve));
  (LayerTypeSTP, mkMetadata "STP" (Some F_decodeSTP));
  (LayerTypeBFD, mkMetadata "BFD" (Some F_decodeBFD));
  (LayerTypeOSPF, mkMetadata "OSPF" (Some F_decodeOSPF));
  (LayerTypeICMPv6RouterSolicitation, mkMetadata "ICMPv6RouterSolicitation" (Some F_decodeICMPv6RouterSolicitation));
  (LayerTypeICMPv6RouterAdvertisement, mkMetadata "ICMPv6RouterAdvertisement" (Some F_decodeICMPv6RouterAdvertisement));
  (LayerTypeICMPv6NeighborSolicitation, mkMetadata "ICMPv6NeighborSolicitation" (Some F_decodeICMPv6NeighborSolicitation));
  (LayerTypeICMPv6NeighborAdvertisement, mkMetadata "ICMPv6NeighborAdvertisement" (Some F_decodeICMPv6NeighborAdvertisement));
  (LayerTypeICMPv6Redirect, mkMetadata "ICMPv6Redirect" (Some F_decodeICMPv6Redirect));
  (LayerTypeGTPv1U, mkMetadata "GTPv1U" (Some F_decodeGTPv1u));
  (LayerTypeEAPOLKey, mkMetadata "EAPOLKey" (Some F_decodeEAPOLKey));
  (LayerTypeLCM, mkMetadata "LCM" (Some F_decodeLCM));
  (LayerTypeICMPv6Echo, mkMetadata "ICMPv6Echo" (Some F_decodeICMPv6Echo));
  (LayerTypeSIP, mkMetadata "SIP" (Some F_decodeSIP));
  (LayerTypeDHCPv6, mkMetadata "DHCPv6" (Some F_decodeDHCPv6));
  (LayerTypeMLDv1MulticastListenerReport, mkMetadata "MLDv1MulticastListenerReport" (Some F_decodeMLDv1MulticastListenerReport));
  (LayerTypeMLDv1MulticastListenerDone, mkMetadata "MLDv1MulticastListenerDone" (Some F_decodeMLDv1MulticastListenerDone));
  (LayerTypeMLDv1MulticastListenerQuery, mkMetadata "MLDv1MulticastListenerQuery" (Some F_decodeMLDv1MulticastListenerQuery));
  (LayerTypeMLDv2MulticastListenerReport, mkMetadata "MLDv2MulticastListenerReport" (Some F_decodeMLDv2MulticastListenerReport));
  (LayerTypeMLDv2MulticastListenerQuery, mkMetadata "MLDv2MulticastListenerQuery" (Some F_decodeMLDv2MulticastListenerQuery));
  (LayerTypeTLS, mkMetadata "TLS" (Some F_decodeTLS));
  (LayerTypeModbusTCP, mkMetadata "ModbusTCP" (Some F_decodeModbusTCP));
  (LayerTypeRMCP, mkMetadata "RMCP" (Some F_decodeRMCP));
  (LayerTypeASF, mkMetadata "ASF" (Some F_decodeASF));
  (LayerTypeASFPresencePong, mkMetadata "ASFPresencePong" (Some F_decodeASFPresencePong));
  (LayerTypeERSPANII, mkMetadata "ERSPAN Type II" (Some F_decodeERSPANII));
  (LayerTypeRADIUS, mkMetadata "RADIUS" (Some F_decodeRADIUS));
  (LayerTypeAGUEVar0, mkMetadata "AGUEVar0" (Some F_decodeAGUE));
  (LayerTypeAGUEVar1, mkMetadata "AGUEVar1" (Some F_decodeAGUE));
  (LayerTypeAPSP, mkMetadata "APSP" (Some F_decodeAPSP))].

(** ** Registration *)

(** Package initialisation: the calls in order. *)
Fixpoint register_all {D} (ls : list (LayerType * LayerTypeMetadata D)) (r : registry D)
    : outcome (registry D) :=
  match ls with
  | [] => mret r
  | (t, m) :: ls' => '(_, r') ← RegisterLayerType t m r; register_all ls' r'
  end.

(** ** Ports *)

(** [tcpPortLayerType] and [udpPortLayerType]: the entries that are not zero. *)
Abbreviation port_table := (gmap Z LayerType).

Definition port_LayerType (tbl : port_table) (a : Z) : LayerType :=
  let lt := default LayerTypeZero (tbl !! a) in
  if negb (lt =? 0) then lt else LayerTypePayload.

Definition tcpPortLayerType : port_table := list_to_map
  [(53, LayerTypeDNS); (443, LayerTypeTLS); (502, LayerTypeModbusTCP); (636, LayerTypeTLS);
   (989, LayerTypeTLS); (990, LayerTypeTLS); (992, LayerTypeTLS); (993, LayerTypeTLS);
   (994, LayerTypeTLS); (995, LayerTypeTLS); (5061, LayerTypeTLS)].

Definition udpPortLayerType : port_table := list_to_map
  [(53, LayerTypeDNS); (123, LayerTypeNTP); (4789, LayerTypeVXLAN); (67, LayerTypeDHCPv4);
   (68, LayerTypeDHCPv4); (546, LayerTypeDHCPv6); (547, LayerTypeDHCPv6);
   (666, LayerTypeAGUEVar0); (1000, LayerTypeAPSP); (5060, LayerTypeSIP);
   (6343, LayerTypeSFlow); (6081, LayerTypeGeneve); (3784, LayerTypeBFD);
   (2152, LayerTypeGTPv1U); (623, LayerTypeRMCP); (1812, LayerTypeRADIUS)].

Definition RegisterTCPPortLayerType (port : Z) (t : LayerType) (tbl : port_table) : port_table :=
  <[port := t]> tbl.
Definition RegisterUDPPortLayerType (port : Z) (t : LayerType) (tbl : port_table) : port_table :=
  <[port := t]> tbl.

(** ** Endpoints *)

Definition EndpointIPv4 : EndpointType := 1.
Definition EndpointIPv6 : EndpointType := 2.
Definition EndpointMAC : EndpointType := 3.
Definition EndpointTCPPort : EndpointType := 4.
Definition EndpointUDPPort : EndpointType := 5.
Definition EndpointSCTPPort : EndpointType := 6.
Definition EndpointRUDPPort : EndpointType := 7.
Definition EndpointUDPLitePort : EndpointType := 8.
Definition EndpointPPP : EndpointType := 9.

(** [net.IP.To4] and [net.IP.To16]; [None] is nil. *)
Definition v4InV6Prefix : bytes := [0; 0; 0; 0; 0; 0; 0; 0; 0; 0; 255; 255].

Definition To4 (ip : bytes) : option bytes :=
  if len ip =? 4 then Some ip
  else if (len ip =? 16) && bool_decide (take 12 ip = v4InV6Prefix) then Some (drop 12 ip)
  else None.

Definition To16 (ip : bytes) : option bytes :=
  if len ip =? 4 then Some (v4InV6Prefix ++ ip)
  else if len ip =? 16 then Some ip
  else None.

Definition NewIPEndpoint (a : bytes) : outcome Endpoint :=
  match To4 a with
  | Some ipv4 => NewEndpoint EndpointIPv4 ipv4
  | None =>
      match To16 a with
      | Some ipv6 => NewEndpoint EndpointIPv6 ipv6
      | None => InvalidEndpoint
      end
  end.

Definition NewMACEndpoint (a : bytes) : outcome Endpoint := NewEndpoint EndpointMAC a.

Definition newPortEndpoint (t : EndpointType) (p : Z) : outcome Endpoint :=
  NewEndpoint t [u8 (Z.shiftr p 8); u8 p].

Definition NewTCPPortEndpoint (p : Z) : outcome Endpoint := newPortEndpoint EndpointTCPPort p.
Definition NewUDPPortEndpoint (p : Z) : outcome Endpoint := newPortEndpoint EndpointUDPPort p.
Definition NewSCTPPortEndpoint (p : Z) : outcome Endpoint := newPortEndpoint EndpointSCTPPort p.
Definition NewRUDPPortEndpoint (p : Z) : outcome Endpoint := NewEndpoint EndpointRUDPPort [u8 p].
Definition NewUDPLitePortEndpoint (p : Z) : outcome Endpoint :=
  newPortEndpoint EndpointUDPLitePort p.

(** ** Proofs *)

Lemma in_array_cases t : in_array t = true ↔ 0 <= t < maxLayerType.
Proof. unfold in_array. rewrite andb_true_iff, Z.leb_le, Z.ltb_lt. lia. Qed.

(** The metadata a registry holds for a number. *)
Definition meta_at {D} (r : registry D) (t : Z) : option (LayerTypeMetadata D) :=
  if in_array t then match ltMeta r !! Z.to_nat t with Some o => o | None => None end
  else ltMetaMap r !! t.

Definition registry_ok {D} (r : registry D) : Prop := len (ltMeta r) = maxLayerType.

Lemma empty_registry_ok {D} : registry_ok (@empty_registry D).
Proof. unfold registry_ok, empty_registry. cbn [ltMeta]. by rewrite len_replicate. Qed.

Lemma meta_at_empty {D} (t : Z) : meta_at (@empty_registry D) t = None.
Proof.
  unfold meta_at, empty_registry. cbn [ltMeta ltMetaMap]. destruct (in_array t).
  - destruct (_ !! _) eqn:E; [|done]. by apply lookup_replicate in E as [-> _].
  - apply lookup_empty.
Qed.

Lemma RegisterLayerType_spec {D} (t : Z) m (r : registry D) : registry_ok r →
  match meta_at r t with
  | Some _ => RegisterLayerType t m r = Panic (Panicked "Layer type already exists")
  | None => ∃ r', RegisterLayerType t m r = Ok (t, r') ∧ registry_ok r' ∧
      ∀ u, meta_at r' u = if u =? t then Some m else meta_at r u
  end.
Proof.
  intros Hok. unfold meta_at, RegisterLayerType, OverrideLayerType.
  destruct (in_array t) eqn:Et.
  - apply in_array_cases in Et as Ht.
    destruct (lookup_lt_is_Some_2 (ltMeta r) (Z.to_nat t)) as [o Ho].
    { unfold registry_ok, len in Hok. lia. }
    rewrite Ho. destruct o as [m'|]; [done|]. eexists; split; [reflexivity|].
    split; [unfold registry_ok; cbn [ltMeta]; by rewrite len_insert|]. cbn [ltMeta ltMetaMap].
    intros u. destruct (in_array u) eqn:Eu.
    + apply in_array_cases in Eu. destruct (Z.eqb_spec u t) as [->|Hne].
      * rewrite list_lookup_insert_eq by (unfold registry_ok, len in Hok; lia). done.
      * by rewrite list_lookup_insert_ne by lia.
    + destruct (Z.eqb_spec u t) as [->|]; [congruence | done].
  - destruct (ltMetaMap r !! t) eqn:E; [done|]. eexists; split; [reflexivity|]. split; [done|].
    cbn [ltMeta ltMetaMap]. intros u. destruct (in_array u) eqn:Eu.
    + destruct (Z.eqb_spec u t) as [->|]; [congruence | done].
    + destruct (Z.eqb_spec u t) as [->|]; [apply lookup_insert_eq | by apply lookup_insert_ne].
Qed.

Lemma register_all_spec {D} (ls : list (LayerType * LayerTypeMetadata D)) : ∀ r,
  registry_ok r → NoDup ls.*1 → Forall (fun t => meta_at r t = None) ls.*1 →
  ∃ r', register_all ls r = Ok r' ∧ registry_ok r' ∧
    (∀ t m, In (t, m) ls → meta_at r' t = Some m) ∧
    ∀ t, ¬ In t ls.*1 → meta_at r' t = meta_at r t.
Proof.
  induction ls as [|[t m] ls IH]; intros r Hok Hnd Hfresh; cbn.
  - exists r. done.
  - apply NoDup_cons in Hnd as [Hnin Hnd]. apply Forall_cons in Hfresh as [Ht Hfresh].
    cbn in Ht. pose proof (RegisterLayerType_spec t m r Hok) as Hr. rewrite Ht in Hr.
    destruct Hr as (r1 & -> & Hok1 & Hm1). cbn.
    destruct (IH r1 Hok1 Hnd) as (r2 & -> & Hok2 & Hin & Hout).
    { rewrite Forall_forall in *. intros u Hu. rewrite Hm1.
      destruct (Z.eqb_spec u t) as [->|]; [done | auto]. }
    exists r2. split; [done|]. split; [done|]. rewrite list_elem_of_In in Hnin. split.
    + intros u mu [[= <- <-]|Hu]; [|auto]. by rewrite Hout, Hm1, Z.eqb_refl by done.
    + intros u Hu. rewrite Hout, Hm1 by tauto. destruct (Z.eqb_spec u t) as [->|]; tauto.
Qed.

Lemma LayerType_decoder_meta {D} (t : Z) (r : registry D) : LayerType_decoder t r =
  match meta_at r t ≫= lt_Decoder with
  | Some d => Ok d
  | None => Err (Errorf "Layer type %v has no associated decoder" [t])
  end.
Proof.
  unfold LayerType_decoder, meta_at.
  destruct (in_array t); [destruct (_ !! _) as [[[n [d|]]|]|] | destruct (_ !! _) as [[n [d|]]|]]; done.
Qed.

Lemma layertypes_NoDup : NoDup layertypes.*1.
Proof. apply (bool_decide_unpack _). vm_compute. done. Qed.

Lemma layertypes_lookup : ∃ r, register_all layertypes empty_registry = Ok r ∧
  ∀ t m, In (t, m) layertypes → LayerType_decoder t r =
    match lt_Decoder m with
    | Some f => Ok f
    | None => Err (Errorf "Layer type %v has no associated decoder" [t])
    end.
Proof.
  destruct (register_all_spec layertypes empty_registry empty_registry_ok layertypes_NoDup)
    as (r & Hr & _ & Hin & _).
  { apply Forall_forall. intros t _. apply meta_at_empty. }
  exists r. split; [done|]. intros t m Hm. rewrite LayerType_decoder_meta, (Hin t m Hm).
  cbn. by destruct (lt_Decoder m).
Qed.

(** The package registers every layer type without running into
    the panic for a number that is taken, and afterwards each layer type
    decodes with the decoder it was registered with, or is an error when it
    was registered without one. *)
Theorem layertypes_registered : ∃ r, register_all layertypes empty_registry = Ok r ∧
  ∀ t m, In (t, m) layertypes → LayerType_decoder t r =
    match lt_Decoder m with
    | Some f => Ok f
    | None => Err (Errorf "Layer type %v has no associated decoder" [t])
    end.
Proof. exact layertypes_lookup. Qed.

(** The three 802.11 data types without data. *)
Definition is_NoData (k : enum_kind) (a : Z) : bool :=
  bool_decide (k = Dot11TypeEnum) &&
  existsb (Z.eqb a) [Dot11TypeDataCFAckNoData; Dot11TypeDataCFPollNoData; Dot11TypeDataCFAckPollNoData].

(** The entry of a table, checked against the decoder of its layer type. *)
Definition entry_agrees (e : enum_kind * Z * EnumMetadata) : bool :=
  let '(k, a, m) := e in
  if em_LayerType m =? LayerTypeZero then true
  else if is_NoData k a then true
  else existsb (fun '(t, lm) => (t =? em_LayerType m) &&
    bool_decide (DecodeFunc <$> lt_Decoder lm = Some (DecodeWith m))) layertypes.

Lemma metadata_at_cases md k a :
  metadata_at md k a = initUnknownTypes k a ∨ In (k, a, metadata_at md k a) md.
Proof.
  induction md as [|[[k' i] m] md IH]; cbn; [by left|].
  destruct (bool_decide_reflect (k = k')) as [->|]; cbn.
  - destruct (Z.eqb_spec a i) as [->|]; [right; by left|]. destruct IH as [?|?]; [by left | right; by right].
  - destruct IH as [?|?]; [by left | right; by right].
Qed.

(** Whenever a protocol number has a layer type, the
    function that decodes the number directly is the one registered for that
    layer type: decoding through [EthernetType.Decode] and through
    [LayerType.Decode] is the same. The three 802.11 data types without data
    are the exceptions: see [NoData_decoders_differ]. *)
Theorem decoding_routes_agree openbsd k a r :
  register_all layertypes empty_registry = Ok r →
  let md := initial_metadata openbsd in
  enum_LayerType md k a ≠ LayerTypeZero → is_NoData k a = false →
  ∃ f, enum_Decode md k a = DecodeFunc f ∧ LayerType_decoder (enum_LayerType md k a) r = Ok f.
Proof.
  intros Hr md Hne Hnd. unfold enum_LayerType, enum_Decode in *.
  destruct layertypes_lookup as (r' & Hr' & Hdec). rewrite Hr in Hr'. injection Hr' as <-. clear Hr.
  assert (forallb entry_agrees md = true) as Hall by (unfold md; destruct openbsd; vm_compute; reflexivity).
  clearbody md.
  destruct (metadata_at_cases md k a) as [Hu|Hin]; [exfalso; apply Hne; rewrite Hu; reflexivity|].
  set (m := metadata_at md k a) in *. clearbody m.
  rewrite forallb_forall in Hall. specialize (Hall _ Hin). unfold entry_agrees in Hall.
  destruct (Z.eqb_spec (em_LayerType m) LayerTypeZero); [contradiction|]. rewrite Hnd in Hall.
  apply existsb_exists in Hall as ([t lm] & Hlm & [Ht Hd]%andb_true_iff).
  apply Z.eqb_eq in Ht. apply bool_decide_eq_true in Hd. rewrite <-Ht.
  specialize (Hdec t lm Hlm). rewrite Hdec.
  destruct (lt_Decoder lm) as [f|]; [|discriminate Hd]. injection Hd as Hd. exists f. split; congruence.
Qed.

Lemma decoding_routes_agree_witness : ∃ r f,
  register_all layertypes empty_registry = Ok r ∧
  enum_Decode (initial_metadata false) IPProtocolEnum 6 = DecodeFunc f ∧
  LayerType_decoder (enum_LayerType (initial_metadata false) IPProtocolEnum 6) r = Ok f.
Proof.
  destruct layertypes_lookup as (r & Hr & _). exists r.
  destruct (decoding_routes_agree false IPProtocolEnum 6 r Hr) as (f & Hf & Hd).
  - vm_compute. discriminate.
  - vm_compute. reflexivity.
  - exists f. split; [exact Hr|]. split; [exact Hf | exact Hd].
Defined.

(** The exceptions: [LayerTypeDot11DataCFAckNoData] and its two siblings are
    registered with the decoders (and the names) of the types that carry data,
    while [Dot11TypeMetadata] decodes the same numbers with their own decoders. *)
Theorem NoData_decoders_differ r : register_all layertypes empty_registry = Ok r →
  let md := initial_metadata false in
  enum_Decode md Dot11TypeEnum Dot11TypeDataCFAckNoData = DecodeFunc F_decodeDot11DataCFAckNoData ∧
  LayerType_decoder (enum_LayerType md Dot11TypeEnum Dot11TypeDataCFAckNoData) r =
    Ok F_decodeDot11DataCFAck.
Proof.
  intros Hr md. destruct layertypes_lookup as (r' & Hr' & Hdec). rewrite Hr in Hr'.
  injection Hr' as <-. clear Hr. split; [reflexivity|].
  refine (Hdec LayerTypeDot11DataCFAckNoData (mkMetadata "Dot11DataCFAck" (Some F_decodeDot11DataCFAck)) _).
  unfold layertypes. repeat first [left; reflexivity | right].
Qed.
