(* ===== verification/Checksum.v ===== *)
(** * Internet checksums ([layers/tcpip.go], [checksum] and the address checks
    of [layers/ip4.go] and [layers/ip6.go])

    The one's-complement sum of RFC 1071, accumulated in a [uint32] and folded
    into 16 bits. The theorems say that the folding loop ends after at most
    three rounds, and that a field filled with the computed checksum makes the
    sum over the whole data come out as zero, which is the receiver's test. *)

From S2P Require Import Prelude SerializeBuffer LayerClasses Flows Enums.

(** [for csum > 0xffff { csum = (csum >> 16) + (csum & 0xffff) }] *)
Fixpoint fold_carries (fuel : nat) (csum : Z) : outcome Z :=
  if csum >? 65535 then
    match fuel with
    | O => NoFuel
    | S fuel' => fold_carries fuel' (u32 (Z.shiftr csum 16 + Z.land csum 65535))
    end
  else Ok csum.

(** [^uint16(csum)] *)
Definition complement16 (csum : Z) : Z := 65535 - u16 csum.

(** The loop over pairs of bytes, and the last byte of an odd length. *)
Fixpoint sum_words (csum : Z) (data : bytes) : Z :=
  match data with
  | hi :: lo :: rest => sum_words (u32 (u32 (csum + Z.shiftl hi 8) + lo)) rest
  | [last] => u32 (csum + Z.shiftl last 8)
  | [] => csum
  end.

(** Three rounds are enough for any [uint32]. *)
Definition fold_fuel : nat := 3.

Definition tcpipChecksum (data : bytes) (csum : Z) : outcome Z :=
  s ← fold_carries fold_fuel (sum_words csum data);
  mret (complement16 s).

(** [checksum] of [ip4.go]: it clears bytes 10 and 11 of its argument, which
    stay cleared, and reads the bytes in pairs. The result is the sum with the
    modified bytes. *)
Fixpoint sum_pairs (csum : Z) (data : bytes) : outcome Z :=
  match data with
  | [] => mret csum
  | [_] => Panic IndexOutOfRange
  | hi :: lo :: rest => sum_pairs (u32 (u32 (csum + Z.shiftl hi 8) + lo)) rest
  end.

Definition checksum (data : bytes) : outcome (bytes * Z) :=
  d ← set_index data 10 0;
  d ← set_index d 11 0;
  s ← sum_pairs 0 d;
  s ← fold_carries fold_fuel s;
  mret (d, complement16 s).

(** ** Pseudo-headers *)

(** The layer a [tcpipPseudoHeader] points to: its addresses are all that the
    checksum uses of it. The pointer is shared with the caller, who will see
    the addresses normalised. *)
Inductive network_layer : Type :=
  | NetIPv4 (SrcIP DstIP : bytes)
  | NetIPv6 (SrcIP DstIP : bytes).

Definition checkIPv4Address (addr : bytes) : outcome bytes :=
  match To4 addr with
  | Some c => mret c
  | None =>
      if len addr =? 16 then Err (errors_New "address is IPv6")
      else Err (Errorf "wrong length of %d bytes instead of %d" [len addr; 4])
  end.

Definition wrap_error {A} (fmt : string) (o : outcome A) : outcome A :=
  match o with Err e => Err (Wrapf fmt e) | _ => o end.

(** The new addresses; they are only assigned when both are valid. *)
Definition AddressTo4 (SrcIP DstIP : bytes) : outcome (bytes * bytes) :=
  src ← wrap_error "Invalid source IPv4 address (%s)" (checkIPv4Address SrcIP);
  dst ← wrap_error "Invalid destination IPv4 address (%s)" (checkIPv4Address DstIP);
  mret (src, dst).

Definition checkIPv6Address (addr : bytes) : outcome unit :=
  if len addr =? 16 then mret tt
  else if len addr =? 4 then Err (errors_New "address is IPv4")
  else Err (Errorf "wrong length of %d bytes instead of %d" [len addr; 16]).

Definition AddressTo16 (SrcIP DstIP : bytes) : outcome unit :=
  _ ← wrap_error "Invalid source IPv6 address (%s)" (checkIPv6Address SrcIP);
  wrap_error "Invalid destination IPv6 address (%s)" (checkIPv6Address DstIP).

Definition IPv4_pseudo_sum (SrcIP DstIP : bytes) : outcome Z :=
  s0 ← index SrcIP 0; s2 ← index SrcIP 2;
  let csum := u32 (Z.shiftl (s0 + s2) 8) in
  s1 ← index SrcIP 1; s3 ← index SrcIP 3;
  let csum := u32 (csum + (s1 + s3)) in
  d0 ← index DstIP 0; d2 ← index DstIP 2;
  let csum := u32 (csum + u32 (Z.shiftl (d0 + d2) 8)) in
  d1 ← index DstIP 1; d3 ← index DstIP 3;
  mret (u32 (csum + (d1 + d3))).

(** [for i := 0; i < 16; i += 2]: [n] rounds from [i]. *)
Fixpoint IPv6_pseudo_sum (n : nat) (i : Z) (SrcIP DstIP : bytes) (csum : Z) : outcome Z :=
  match n with
  | O => mret csum
  | S n' =>
      s ← index SrcIP i; let csum := u32 (csum + Z.shiftl s 8) in
      s' ← index SrcIP (i + 1); let csum := u32 (csum + s') in
      d ← index DstIP i; let csum := u32 (csum + Z.shiftl d 8) in
      d' ← index DstIP (i + 1); let csum := u32 (csum + d') in
      IPv6_pseudo_sum n' (i + 2) SrcIP DstIP csum
  end.

Definition pseudoheaderChecksum : M network_layer Z :=
  ip ← get;
  match ip with
  | NetIPv4 src dst =>
      a ← lift (AddressTo4 src dst);
      _ ← put (NetIPv4 a.1 a.2);
      lift (IPv4_pseudo_sum a.1 a.2)
  | NetIPv6 src dst =>
      _ ← lift (AddressTo16 src dst);
      lift (IPv6_pseudo_sum 8 0 src dst 0)
  end.

(** [tcpipchecksum.computeChecksum]; the state is the field [pseudoheader]. *)
Definition computeChecksum (headerAndPayload : bytes) (headerProtocol : Z)
    : M (option network_layer) Z := fun pseudoheader =>
  match pseudoheader with
  | None => (Err (errors_New "TCP/IP layer 4 checksum cannot be computed without network layer... call SetNetworkLayerForChecksum to set which layer to use"), None)
  | Some l =>
      let length := u32 (len headerAndPayload) in
      match pseudoheaderChecksum l with
      | (Ok csum, l') =>
          let csum := u32 (csum + headerProtocol) in
          let csum := u32 (csum + Z.land length 65535) in
          let csum := u32 (csum + Z.shiftr length 16) in
          (tcpipChecksum headerAndPayload csum, Some l')
      | (Err e, l') => (Err e, Some l')
      | (Panic c, l') => (Panic c, Some l')
      | (NoFuel, l') => (NoFuel, Some l')
      end
  end.

(** ** The sum as a number *)

Fixpoint word_sum (data : bytes) : Z :=
  match data with
  | hi :: lo :: rest => hi * 256 + lo + word_sum rest
  | [last] => last * 256
  | [] => 0
  end.

(** Induction two elements at a time. *)
Lemma list_pair_ind {A} (P : list A → Prop) :
  P [] → (∀ a, P [a]) → (∀ a b l, P l → P (a :: b :: l)) → ∀ l, P l.
Proof.
  intros H0 H1 H2. fix IH 1. intros [|a [|b l]]; [done | done |]. apply H2, IH.
Qed.

Lemma word_sum_bound data : is_bytes data → 0 <= word_sum data <= 65535 * ((len data + 1) / 2).
Proof.
  induction data as [|a|a b l IH] using list_pair_ind; cbn [word_sum];
    rewrite ?len_cons, ?len_nil.
  - intros _. split; vm_compute; discriminate.
  - rewrite is_bytes_cons. unfold is_byte. intros [? _]. change ((1 + len (@nil Z) + 1) / 2) with 1. lia.
  - rewrite !is_bytes_cons. unfold is_byte. intros (? & ? & Hl). specialize (IH Hl).
    replace (1 + (1 + len l) + 1) with (len l + 1 + 1 * 2) by lia.
    rewrite Z.div_add by lia. lia.
Qed.

Lemma shiftl8 x : Z.shiftl x 8 = x * 256.
Proof. by rewrite Z.shiftl_mul_pow2. Qed.

Lemma sum_words_eq data : ∀ csum, is_bytes data → 0 <= csum → csum + word_sum data < 4294967296 →
  sum_words csum data = csum + word_sum data.
Proof.
  induction data as [|a|a b l IH] using list_pair_ind; intros csum Hb Hc Hs; cbn [sum_words word_sum] in *.
  - lia.
  - rewrite shiftl8. unfold u32. apply Z.mod_small. apply is_bytes_cons in Hb as [Ha _].
    unfold is_byte in Ha. lia.
  - rewrite !is_bytes_cons in Hb. unfold is_byte in Hb. destruct Hb as (Ha & Hb & Hl).
    pose proof (word_sum_bound l Hl).
    rewrite shiftl8, (u32_small (csum + _)), u32_small by (unfold is_u32; lia).
    rewrite IH by (done || lia). lia.
Qed.

Lemma sum_pairs_eq data : ∀ csum, len data mod 2 = 0 → sum_pairs csum data = Ok (sum_words csum data).
Proof.
  induction data as [|a|a b l IH] using list_pair_ind; intros csum; cbn [sum_pairs sum_words].
  - done.
  - done.
  - rewrite !len_cons. intros H. apply IH.
    replace (1 + (1 + len l)) with (len l + 1 * 2) in H by lia. by rewrite Z.mod_add in H.
Qed.

Lemma fold_step csum : 0 <= csum →
  Z.shiftr csum 16 + Z.land csum 65535 = csum / 65536 + csum mod 65536.
Proof.
  intros. rewrite Z.shiftr_div_pow2 by lia.
  change 65535 with (Z.ones 16). by rewrite Z.land_ones by lia.
Qed.

(** What folding computes: the representative in 1..65535 of a positive sum
    modulo 65535. *)
Definition folded (x : Z) : Z := if x =? 0 then 0 else (x - 1) mod 65535 + 1.

Lemma folded_step x : 65535 < x → folded (x / 65536 + x mod 65536) = folded x.
Proof.
  intros H. unfold folded.
  destruct (Z.eqb_spec x 0); [lia|].
  destruct (Z.eqb_spec (x / 65536 + x mod 65536) 0); [zdiv|]. f_equal.
  replace (x - 1) with (x / 65536 + x mod 65536 - 1 + (x / 65536) * 65535) by zdiv.
  by rewrite Z.mod_add by lia.
Qed.

Lemma fold_carries_spec n : ∀ x, 0 <= x < 4294967296 →
  (x <= 65535 ∨ (x <= 131070 ∧ (1 <= n)%nat) ∨ (2 <= n)%nat) → fold_carries n x = Ok (folded x).
Proof.
  assert (∀ m x, 0 <= x <= 65535 → fold_carries m x = Ok (folded x)) as Hbase.
  { intros m x Hx. destruct m; cbn; (destruct (Z.gtb_spec x 65535); [lia|]); f_equal;
      unfold folded; (destruct (Z.eqb_spec x 0); [done|]); rewrite Z.mod_small; lia. }
  induction n as [|n IH]; intros x Hx Hn.
  - apply Hbase. lia.
  - destruct (decide (x <= 65535)); [apply Hbase; lia|].
    cbn. destruct (Z.gtb_spec x 65535); [|lia].
    rewrite fold_step, u32_small by (unfold is_u32; zdiv).
    rewrite <-folded_step by lia.
    assert (x / 65536 <= 65535) by zdiv. assert (x mod 65536 <= 65535) by zdiv.
    apply IH; [zdiv|].
    destruct Hn as [?|[[? ?]|?]]; [lia | left; zdiv |].
    right. left. split; [zdiv | lia].
Qed.

(** [^uint16] of the folded sum. *)
Definition internet_checksum (sum : Z) : Z := 65535 - folded sum.

Lemma folded_range x : 0 <= x → 0 <= folded x <= 65535 ∧ (0 < x → 1 <= folded x).
Proof. unfold folded. destruct (Z.eqb_spec x 0); intros; zdiv. Qed.

Lemma internet_checksum_u16 x : 0 <= x → is_u16 (internet_checksum x).
Proof. intros H. unfold internet_checksum, is_u16. pose proof (folded_range x H). lia. Qed.

(** Adding the checksum to the sum it was computed from gives a sum whose
    checksum is zero. *)
Lemma internet_checksum_verifies x : 0 <= x → internet_checksum (x + internet_checksum x) = 0.
Proof.
  intros H. unfold internet_checksum, folded.
  destruct (Z.eqb_spec x 0) as [->|Hx]; [done|].
  destruct (Z.eqb_spec (x + (65535 - ((x - 1) mod 65535 + 1))) 0); zdiv.
Qed.

Lemma tcpipChecksum_eq data csum : is_bytes data → 0 <= csum → csum + word_sum data < 4294967296 →
  tcpipChecksum data csum = Ok (internet_checksum (csum + word_sum data)).
Proof.
  intros Hb Hc Hs. unfold tcpipChecksum. rewrite sum_words_eq by done.
  pose proof (word_sum_bound data Hb).
  rewrite fold_carries_spec by (unfold fold_fuel; lia). cbn.
  unfold complement16, internet_checksum, mret, outcome_ret. do 2 f_equal.
  pose proof (folded_range (csum + word_sum data)). apply u16_small. unfold is_u16. lia.
Qed.

Lemma word_sum_app l1 l2 : len l1 mod 2 = 0 → word_sum (l1 ++ l2) = word_sum l1 + word_sum l2.
Proof.
  induction l1 as [|a|a b l IH] using list_pair_ind; cbn [word_sum app].
  - lia.
  - done.
  - rewrite !len_cons. intros H.
    replace (1 + (1 + len l)) with (len l + 1 * 2) in H by lia. rewrite Z.mod_add in H by lia.
    rewrite IH by done. lia.
Qed.

Lemma word_sum_be16 v : is_u16 v → word_sum (be16 v) = v.
Proof. intros H. cbn [be16 word_sum]. unfold is_u16 in H. zdiv. Qed.

Lemma checksum_field_verifies before after csum :
  is_bytes before → is_bytes after → len before mod 2 = 0 →
  len before + 2 + len after <= 65536 → 0 <= csum < 2147483648 →
  ∃ c, tcpipChecksum (before ++ [0; 0] ++ after) csum = Ok c ∧ is_u16 c ∧
    tcpipChecksum (before ++ be16 c ++ after) csum = Ok 0.
Proof.
  intros Hb Ha Heven Hlen Hc.
  pose proof (word_sum_bound before Hb) as Hwb. pose proof (word_sum_bound after Ha) as Hwa.
  pose proof (len_nonneg before). pose proof (len_nonneg after).
  assert ((len before + 1) / 2 + (len after + 1) / 2 <= 32767) by zdiv.
  exists (internet_checksum (csum + word_sum before + word_sum after)).
  assert (is_u16 (internet_checksum (csum + word_sum before + word_sum after))) as Hu
    by (apply internet_checksum_u16; lia).
  assert (∀ mid, is_bytes mid → len mid = 2 → word_sum (before ++ mid ++ after) =
    word_sum before + word_sum mid + word_sum after) as Hsum.
  { intros mid Hm Hl. rewrite !word_sum_app by (done || by rewrite Hl). lia. }
  split; [|split; [done|]].
  - assert (is_bytes [0; 0]) by solve_Forall.
    rewrite tcpipChecksum_eq, Hsum by (rewrite ?is_bytes_app, ?Hsum; done || (cbn; lia)).
    f_equal. f_equal. cbn. lia.
  - set (c := internet_checksum _) in *.
    assert (word_sum (be16 c) = c) as Hw by (by apply word_sum_be16).
    assert (is_bytes (be16 c)) by apply be16_bytes.
    unfold is_u16 in Hu.
    rewrite tcpipChecksum_eq, Hsum, Hw by (rewrite ?is_bytes_app, ?Hsum, ?Hw; done || lia).
    f_equal. replace (csum + (word_sum before + c + word_sum after))
      with (csum + word_sum before + word_sum after + c) by lia.
    apply internet_checksum_verifies. lia.
Qed.

(** Let the checksum field sit at an even offset of data of at
    most 65536 bytes and hold zero. [tcpipChecksum], started from any 16-bit
    pseudo-header sum below 2^31, gives a 16-bit value, and when that value is
    stored in the field the checksum of the whole becomes zero. *)
Theorem tcpipChecksum_verifies before after csum :
  is_bytes before → is_bytes after → len before mod 2 = 0 →
  len before + 2 + len after <= 65536 → 0 <= csum < 2147483648 →
  ∃ c, tcpipChecksum (before ++ [0; 0] ++ after) csum = Ok c ∧ is_u16 c ∧
    tcpipChecksum (before ++ be16 c ++ after) csum = Ok 0.
Proof. apply checksum_field_verifies. Qed.

Lemma tcpipChecksum_verifies_witness :
  ∃ c, tcpipChecksum ([69; 0; 0; 40] ++ [0; 0] ++ [200; 7; 255]) 1234 = Ok c ∧
    tcpipChecksum ([69; 0; 0; 40] ++ be16 c ++ [200; 7; 255]) 1234 = Ok 0.
Proof.
  destruct (tcpipChecksum_verifies [69; 0; 0; 40] [200; 7; 255] 1234) as (c & Hc & _ & Hv).
  - solve_Forall.
  - solve_Forall.
  - vm_compute. reflexivity.
  - vm_compute. discriminate.
  - lia.
  - exists c. split; [exact Hc | exact Hv].
Defined.

(** ** Pseudo-header checksums *)

Definition addresses_ok (l : network_layer) : Prop :=
  match l with
  | NetIPv4 s d => len s = 4 ∧ len d = 4 ∧ is_bytes s ∧ is_bytes d
  | NetIPv6 s d => len s = 16 ∧ len d = 16 ∧ is_bytes s ∧ is_bytes d
  end.

Lemma index_byte l i : is_bytes l → 0 <= i < len l → ∃ b, index l i = Ok b ∧ 0 <= b < 256.
Proof.
  intros Hb Hi. destruct (index_ok l i Hi) as (b & Hl & ->). exists b. split; [done|].
  by apply (is_bytes_lookup l (Z.to_nat i)).
Qed.

Ltac next_byte :=
  match goal with
  | |- context [index ?l ?i] =>
      let b := fresh "b" in
      destruct (index_byte l i) as (b & -> & ?); [done | lia |];
      unfold mbind, outcome_bind; fold (@outcome_bind)
  end.

Lemma IPv4_pseudo_sum_ok s d : len s = 4 → len d = 4 → is_bytes s → is_bytes d →
  ∃ c, IPv4_pseudo_sum s d = Ok c ∧ 0 <= c < 1048576.
Proof.
  intros Hs Hd Hbs Hbd. unfold IPv4_pseudo_sum. repeat next_byte.
  eexists; split; [reflexivity|]. rewrite !shiftl8. unfold u32. zdiv.
Qed.

Lemma IPv6_pseudo_sum_ok s d n : ∀ i c, len s = 16 → len d = 16 → is_bytes s → is_bytes d →
  (n <= 8)%nat → 0 <= i → i + 2 * Z.of_nat n <= 16 → 0 <= c <= 1048576 * (8 - Z.of_nat n) →
  ∃ c', IPv6_pseudo_sum n i s d c = Ok c' ∧ 0 <= c' < 16777216.
Proof.
  induction n as [|n IH]; intros i c Hs Hd Hbs Hbd Hn Hi Hin Hc; cbn [IPv6_pseudo_sum].
  - eexists; split; [reflexivity|]. lia.
  - repeat next_byte. apply IH; try done; try lia.
    rewrite !shiftl8. unfold u32. zdiv.
Qed.

Lemma pseudoheaderChecksum_ok l : addresses_ok l →
  ∃ c, pseudoheaderChecksum l = (Ok c, l) ∧ 0 <= c < 16777216.
Proof.
  destruct l as [s d|s d]; intros (Hs & Hd & Hbs & Hbd).
  - destruct (IPv4_pseudo_sum_ok s d Hs Hd Hbs Hbd) as (c & Hc & ?). exists c. split; [|lia].
    unfold pseudoheaderChecksum, AddressTo4, checkIPv4Address, To4, get, lift, put, mbind, M_bind.
    rewrite Hs, Hd. cbn -[IPv4_pseudo_sum]. by rewrite Hc.
  - destruct (IPv6_pseudo_sum_ok s d 8 0 0) as (c & Hc & ?); try done; try lia.
    exists c. split; [|lia].
    unfold pseudoheaderChecksum, AddressTo16, checkIPv6Address, get, lift, mbind, M_bind.
    rewrite Hs, Hd. cbn -[IPv6_pseudo_sum]. by rewrite Hc.
Qed.

Lemma computeChecksum_eq l (data : bytes) proto : addresses_ok l → is_u8 proto → len data <= 65536 →
  ∃ csum, 0 <= csum < 2147483648 ∧ ∀ data', len data' = len data →
    computeChecksum data' proto (Some l) = (tcpipChecksum data' csum, Some l).
Proof.
  intros Hl Hp Hlen. destruct (pseudoheaderChecksum_ok l Hl) as (c & Hc & Hr).
  pose proof (len_nonneg data) as Hnn. unfold is_u8 in Hp.
  set (n := u32 (len data)). set (k := u32 (u32 (u32 (c + proto) + Z.land n 65535) + Z.shiftr n 16)).
  exists k. split.
  - unfold k, n. change 65535 with (Z.ones 16). rewrite Z.land_ones, Z.shiftr_div_pow2 by lia.
    unfold u32. zdiv.
  - intros data' Hd. unfold computeChecksum. rewrite Hd, Hc. done.
Qed.

Lemma compute_checksum_field l before after proto :
  addresses_ok l → is_u8 proto → is_bytes before → is_bytes after → len before mod 2 = 0 →
  len before + 2 + len after <= 65536 →
  ∃ c, computeChecksum (before ++ [0; 0] ++ after) proto (Some l) = (Ok c, Some l) ∧ is_u16 c ∧
    computeChecksum (before ++ be16 c ++ after) proto (Some l) = (Ok 0, Some l).
Proof.
  intros Hl Hp Hb Ha Heven Hlen.
  destruct (computeChecksum_eq l (before ++ [0; 0] ++ after) proto Hl Hp) as (k & Hk & Hcomp);
    [lens|].
  destruct (checksum_field_verifies before after k Hb Ha Heven Hlen Hk) as (c & Hc & Hu & Hv).
  exists c. split; [|split; [done|]]; rewrite Hcomp by lens; congruence.
Qed.

(** With a network layer whose addresses have the right
    length, [computeChecksum] over at most 65536 bytes with a zeroed checksum
    field gives a 16-bit value, and over the same bytes with that value stored
    in the field it gives zero, which is the receiver's test. *)
Theorem computeChecksum_verifies l before after proto :
  addresses_ok l → is_u8 proto → is_bytes before → is_bytes after → len before mod 2 = 0 →
  len before + 2 + len after <= 65536 →
  ∃ c, computeChecksum (before ++ [0; 0] ++ after) proto (Some l) = (Ok c, Some l) ∧ is_u16 c ∧
    computeChecksum (before ++ be16 c ++ after) proto (Some l) = (Ok 0, Some l).
Proof. apply compute_checksum_field. Qed.

Lemma computeChecksum_verifies_witness :
  ∃ c, computeChecksum ([0; 80; 0; 53] ++ [0; 0] ++ [7]) 17 (Some (NetIPv4 [10; 0; 0; 1] [10; 0; 0; 2])) =
    (Ok c, Some (NetIPv4 [10; 0; 0; 1] [10; 0; 0; 2])).
Proof.
  destruct (computeChecksum_verifies (NetIPv4 [10; 0; 0; 1] [10; 0; 0; 2]) [0; 80; 0; 53] [7] 17)
    as (c & Hc & _).
  - repeat split; solve_Forall.
  - unfold is_u8. lia.
  - solve_Forall.
  - solve_Forall.
  - reflexivity.
  - vm_compute. discriminate.
  - exists c. exact Hc.
Defined.

(** ** The IPv4 header checksum *)

Lemma checksum_zeroes pre a b post : len pre = 10 →
  checksum (pre ++ [a; b] ++ post) =
    (s ← sum_pairs 0 (pre ++ [0; 0] ++ post); s ← fold_carries fold_fuel s;
     mret (pre ++ [0; 0] ++ post, complement16 s)).
Proof.
  intros Hl. unfold checksum. rewrite (set_index_app pre a (b :: post) 0) by done. cbn [mbind outcome_bind].
  pose proof (set_index_app (pre ++ [0]) b post 0 11 ltac:(rewrite len_app, Hl; done)) as Hs.
  rewrite <-!app_assoc in Hs. cbn [app] in *. by rewrite Hs.
Qed.

Lemma checksum_valid pre a b post : is_bytes pre → is_bytes post → len pre = 10 →
  len post mod 2 = 0 → len post <= 65524 →
  ∃ c, checksum (pre ++ [a; b] ++ post) = Ok (pre ++ [0; 0] ++ post, c) ∧ is_u16 c ∧
    tcpipChecksum (pre ++ be16 c ++ post) 0 = Ok 0.
Proof.
  intros Hpre Hpost Hl Heven Hlen.
  destruct (checksum_field_verifies pre post 0 Hpre Hpost) as (c & Hc & Hu & Hv);
    [by rewrite Hl | lia | lia |].
  exists c. split; [|done]. rewrite checksum_zeroes by done.
  rewrite sum_pairs_eq by (rewrite !len_app, Hl; change (len [0; 0]) with 2; zdiv).
  cbn [mbind outcome_bind]. revert Hc. unfold tcpipChecksum. cbn [mbind outcome_bind].
  destruct (fold_carries _ _); try done. cbn. by intros [= ->].
Qed.
