(* ===== verification/Tcp.v ===== *)
(** * TCP headers ([layers/tcp.go])

    The layer for TCP headers: decoding with its loop over the options, and
    serialization with the fixing of lengths and the checksum over the
    pseudo-header. *)

From S2P Require Import Prelude SerializeBuffer LayerClasses Flows BaseLayers Enums Checksum.

Definition TCPOptionKindEndList : Z := 0.
Definition TCPOptionKindNop : Z := 1.
Definition TCPOptionKindMSS : Z := 2.
Definition TCPOptionKindWindowScale : Z := 3.
Definition TCPOptionKindSACKPermitted : Z := 4.
Definition TCPOptionKindSACK : Z := 5.
Definition TCPOptionKindTimestamps : Z := 8.

Record TCPOption : Type := mkOption {
  OptionType : Z;
  OptionLength : Z;
  OptionData : bytes;
}.

Record TCP : Type := mkTCP {
  base : BaseLayer;
  SrcPort : Z;
  DstPort : Z;
  Seq : Z;
  Ack : Z;
  DataOffset : Z;
  FIN : bool; SYN : bool; RST : bool; PSH : bool; ACK : bool;
  URG : bool; ECE : bool; CWR : bool; NS : bool;
  Window : Z;
  Checksum : Z;
  Urgent : Z;
  sPort : bytes;
  dPort : bytes;
  Options : list TCPOption;
  Padding : bytes;
  pseudoheader : option network_layer;
}.

(** [&TCP{}] *)
Definition empty_TCP : TCP :=
  mkTCP (mkBase [] []) 0 0 0 0 0 false false false false false false false false false
    0 0 0 [] [] [] [] None.

Definition set_base (b : BaseLayer) (t : TCP) : TCP :=
  mkTCP b (SrcPort t) (DstPort t) (Seq t) (Ack t) (DataOffset t) (FIN t) (SYN t) (RST t) (PSH t)
    (ACK t) (URG t) (ECE t) (CWR t) (NS t) (Window t) (Checksum t) (Urgent t) (sPort t) (dPort t)
    (Options t) (Padding t) (pseudoheader t).
Definition set_DataOffset (v : Z) (t : TCP) : TCP :=
  mkTCP (base t) (SrcPort t) (DstPort t) (Seq t) (Ack t) v (FIN t) (SYN t) (RST t) (PSH t)
    (ACK t) (URG t) (ECE t) (CWR t) (NS t) (Window t) (Checksum t) (Urgent t) (sPort t) (dPort t)
    (Options t) (Padding t) (pseudoheader t).
Definition set_Checksum (v : Z) (t : TCP) : TCP :=
  mkTCP (base t) (SrcPort t) (DstPort t) (Seq t) (Ack t) (DataOffset t) (FIN t) (SYN t) (RST t)
    (PSH t) (ACK t) (URG t) (ECE t) (CWR t) (NS t) (Window t) v (Urgent t) (sPort t) (dPort t)
    (Options t) (Padding t) (pseudoheader t).
Definition set_Options (v : list TCPOption) (t : TCP) : TCP :=
  mkTCP (base t) (SrcPort t) (DstPort t) (Seq t) (Ack t) (DataOffset t) (FIN t) (SYN t) (RST t)
    (PSH t) (ACK t) (URG t) (ECE t) (CWR t) (NS t) (Window t) (Checksum t) (Urgent t) (sPort t)
    (dPort t) v (Padding t) (pseudoheader t).
Definition set_Padding (v : bytes) (t : TCP) : TCP :=
  mkTCP (base t) (SrcPort t) (DstPort t) (Seq t) (Ack t) (DataOffset t) (FIN t) (SYN t) (RST t)
    (PSH t) (ACK t) (URG t) (ECE t) (CWR t) (NS t) (Window t) (Checksum t) (Urgent t) (sPort t)
    (dPort t) (Options t) v (pseudoheader t).
Definition set_pseudoheader (v : option network_layer) (t : TCP) : TCP :=
  mkTCP (base t) (SrcPort t) (DstPort t) (Seq t) (Ack t) (DataOffset t) (FIN t) (SYN t) (RST t)
    (PSH t) (ACK t) (URG t) (ECE t) (CWR t) (NS t) (Window t) (Checksum t) (Urgent t) (sPort t)
    (dPort t) (Options t) (Padding t) v.

(** ** Serialization *)

Fixpoint options_length (os : list TCPOption) : Z :=
  match os with
  | [] => 0
  | o :: os' =>
      (if (OptionType o =? 0) || (OptionType o =? 1) then 1 else 2 + len (OptionData o))
        + options_length os'
  end.

Definition flagsAndOffset (t : TCP) : Z :=
  let f := u16 (Z.shiftl (DataOffset t) 12) in
  let f := if FIN t then Z.lor f 0x0001 else f in
  let f := if SYN t then Z.lor f 0x0002 else f in
  let f := if RST t then Z.lor f 0x0004 else f in
  let f := if PSH t then Z.lor f 0x0008 else f in
  let f := if ACK t then Z.lor f 0x0010 else f in
  let f := if URG t then Z.lor f 0x0020 else f in
  let f := if ECE t then Z.lor f 0x0040 else f in
  let f := if CWR t then Z.lor f 0x0080 else f in
  if NS t then Z.lor f 0x0100 else f.

Definition fix_lengths (t : TCP) : TCP :=
  let optionLength := options_length (Options t) in
  let rem := Z.rem optionLength 4 in
  let t :=
    if negb (rem =? 0) then set_Padding (take (Z.to_nat (4 - rem)) lotsOfZeros) t else t in
  set_DataOffset (u8 (Z.quot (len (Padding t) + optionLength + 20) 4)) t.

(** The fixed part of the header; bytes 16 and 17 are written last. *)
Definition put_header (t : TCP) (bytes : bytes) : outcome Prelude.bytes :=
  bytes ← BE_PutUint16 bytes 0 (SrcPort t);
  bytes ← BE_PutUint16 bytes 2 (DstPort t);
  bytes ← BE_PutUint32 bytes 4 (Seq t);
  bytes ← BE_PutUint32 bytes 8 (Ack t);
  bytes ← BE_PutUint16 bytes 12 (flagsAndOffset t);
  bytes ← BE_PutUint16 bytes 14 (Window t);
  BE_PutUint16 bytes 18 (Urgent t).

(** The loop over the options; [o.OptionLength] is changed in a copy. *)
Fixpoint put_options (opts : SerializeOptions) (os : list TCPOption) (bytes : bytes) (start : Z)
    : outcome (Prelude.bytes * Z) :=
  match os with
  | [] => mret (bytes, start)
  | o :: os' =>
      bytes ← set_index bytes start (OptionType o);
      if (OptionType o =? 0) || (OptionType o =? 1) then put_options opts os' bytes (start + 1)
      else
        let optionLength :=
          if FixLengths opts then u8 (len (OptionData o) + 2) else OptionLength o in
        bytes ← set_index bytes (start + 1) optionLength;
        bytes ← copy_into bytes (start + 2) (start + len (OptionData o) + 2) (OptionData o);
        put_options opts os' bytes (start + len (OptionData o) + 2)
  end.

Definition IPProtocolTCP_checksum {W} (headerAndPayload : bytes) : M (TCP * W) Z :=
  on_fst (zoom pseudoheader set_pseudoheader (computeChecksum headerAndPayload IPProtocolTCP)).

Definition SerializeTo {W} `{SerializeBuffer W} (opts : SerializeOptions) : M (TCP * W) unit :=
  t ← get_fields;
  let optionLength := options_length (Options t) in
  let t := if FixLengths opts then fix_lengths t else t in
  _ ← put_fields t;
  bytes ← prepend (20 + optionLength + len (Padding t));
  bytes ← lift (put_header t bytes);
  r ← lift (put_options opts (Options t) bytes 20);
  let '(bytes, start) := r in
  bytes ← lift (copy_from bytes start (Padding t));
  _ ← sync bytes;
  bytes ←
    (if ComputeChecksums opts then
       bytes ← lift (set_index bytes 16 0);
       bytes ← lift (set_index bytes 17 0);
       _ ← sync bytes;
       all ← buffer_Bytes;
       csum ← IPProtocolTCP_checksum all;
       t ← get_fields;
       _ ← put_fields (set_Checksum csum t);
       mret bytes
     else mret bytes);
  t ← get_fields;
  bytes ← lift (BE_PutUint16 bytes 16 (Checksum t));
  sync bytes.

Definition ComputeChecksum : M TCP Z :=
  t ← get;
  zoom pseudoheader set_pseudoheader
    (computeChecksum (Contents (base t) ++ Payload (base t)) IPProtocolTCP).

(** ** Decoding *)

Fixpoint decode_options (fuel : nat) (data : bytes) : M (dstate TCP) unit :=
  match fuel with
  | O => lift NoFuel
  | S fuel' =>
      if len data >? 0 then
        old ← gets (fun s => Options (dlayer s));
        kind ← lift (index data 0);
        let put_opt o := modify_layer (set_Options (old ++ [o])) in
        _ ← put_opt (mkOption kind 0 []);
        if kind =? TCPOptionKindEndList then
          _ ← put_opt (mkOption kind 1 []);
          rest ← lift (slice_from data 1);
          modify_layer (set_Padding rest)
        else if kind =? TCPOptionKindNop then
          _ ← put_opt (mkOption kind 1 []);
          rest ← lift (slice_from data 1);
          decode_options fuel' rest
        else if len data <? 2 then
          _ ← SetTruncated;
          throw (Errorf "Invalid TCP option length. Length %d less than 2" [len data])
        else
          optionLength ← lift (index data 1);
          _ ← put_opt (mkOption kind optionLength []);
          if optionLength <? 2 then
            throw (Errorf "Invalid TCP option length %d < 2" [optionLength])
          else if optionLength >? len data then
            _ ← SetTruncated;
            throw (Errorf "Invalid TCP option length %d exceeds remaining %d bytes"
                     [optionLength; len data])
          else
            optionData ← lift (slice data 2 optionLength);
            _ ← put_opt (mkOption kind optionLength optionData);
            rest ← lift (slice_from data optionLength);
            decode_options fuel' rest
      else mret tt
  end.

(** The assignments to the fixed fields; the options and the padding are
    emptied. *)
Definition decode_header (data : bytes) (t : TCP) : outcome TCP :=
  sport ← slice data 0 2;
  SrcPort ← BE_Uint16 sport;
  dport ← slice data 2 4;
  DstPort ← BE_Uint16 dport;
  Seq ← slice data 4 8 ≫= BE_Uint32;
  Ack ← slice data 8 12 ≫= BE_Uint32;
  b12 ← index data 12;
  b13 ← index data 13;
  Window ← slice data 14 16 ≫= BE_Uint16;
  Checksum ← slice data 16 18 ≫= BE_Uint16;
  Urgent ← slice data 18 20 ≫= BE_Uint16;
  mret (mkTCP (base t) SrcPort DstPort Seq Ack (Z.shiftr b12 4)
    (has_bits b13 0x01) (has_bits b13 0x02) (has_bits b13 0x04) (has_bits b13 0x08)
    (has_bits b13 0x10) (has_bits b13 0x20) (has_bits b13 0x40) (has_bits b13 0x80)
    (has_bits b12 0x01) Window Checksum Urgent sport dport [] [] (pseudoheader t)).

Definition DecodeFromBytes (data : bytes) : M (dstate TCP) unit :=
  if len data <? 20 then
    _ ← SetTruncated;
    throw (Errorf "Invalid TCP header. Length %d less than 20" [len data])
  else
    old ← get_layer;
    tcp ← lift (decode_header data old);
    _ ← put_layer tcp;
    if DataOffset tcp <? 5 then
      throw (Errorf "Invalid TCP data offset %d < 5" [DataOffset tcp])
    else
      let dataStart := DataOffset tcp * 4 in
      if dataStart >? len data then
        _ ← SetTruncated;
        _ ← modify_layer (set_base (mkBase data []));
        throw (errors_New "TCP data offset greater than packet length")
      else
        contents ← lift (slice_to data dataStart);
        payload ← lift (slice_from data dataStart);
        _ ← modify_layer (set_base (mkBase contents payload));
        options ← lift (slice data 20 dataStart);
        decode_options (S (length options)) options.

Definition CanDecode : list LayerType := [LayerTypeTCP].

Definition NextLayerType (ports : port_table) (t : TCP) : LayerType :=
  let lt := port_LayerType ports (DstPort t) in
  if lt =? LayerTypePayload then port_LayerType ports (SrcPort t) else lt.

Definition TransportFlow (t : TCP) : outcome Flow := NewFlow EndpointTCPPort (sPort t) (dPort t).

Definition SetInternalPortsForTesting (t : TCP) : TCP :=
  mkTCP (base t) (SrcPort t) (DstPort t) (Seq t) (Ack t) (DataOffset t) (FIN t) (SYN t) (RST t)
    (PSH t) (ACK t) (URG t) (ECE t) (CWR t) (NS t) (Window t) (Checksum t) (Urgent t)
    (be16 (SrcPort t)) (be16 (DstPort t)) (Options t) (Padding t) (pseudoheader t).

(** ** The wire format *)

(** The eight low flag bits and the whole flag word, as numbers. *)
Definition flag_byte (t : TCP) : Z :=
  b2z (FIN t) + 2 * b2z (SYN t) + 4 * b2z (RST t) + 8 * b2z (PSH t) + 16 * b2z (ACK t)
    + 32 * b2z (URG t) + 64 * b2z (ECE t) + 128 * b2z (CWR t).

Lemma lor_if (b : bool) f m : (if b then Z.lor f m else f) = Z.lor f (if b then m else 0).
Proof. destruct b; [done|]. by rewrite Z.lor_0_r. Qed.

Lemma flagsAndOffset_eq t : 0 <= DataOffset t < 16 →
  flagsAndOffset t = DataOffset t * 4096 + (256 * b2z (NS t) + flag_byte t).
Proof.
  intros Hd. unfold flagsAndOffset. rewrite u16_small by
    (unfold is_u16; rewrite Z.shiftl_mul_pow2 by lia; lia).
  rewrite !lor_if, <-!Z.lor_assoc.
  assert (Z.lor (if FIN t then 1 else 0) (Z.lor (if SYN t then 2 else 0)
    (Z.lor (if RST t then 4 else 0) (Z.lor (if PSH t then 8 else 0) (Z.lor (if ACK t then 16 else 0)
    (Z.lor (if URG t then 32 else 0) (Z.lor (if ECE t then 64 else 0)
    (Z.lor (if CWR t then 128 else 0) (if NS t then 256 else 0)))))))) =
    256 * b2z (NS t) + flag_byte t) as ->.
  { unfold flag_byte.
    destruct (FIN t), (SYN t), (RST t), (PSH t), (ACK t), (URG t), (ECE t), (CWR t), (NS t);
      reflexivity. }
  rewrite lor_disjoint; [done | lia |]. unfold flag_byte.
  destruct (FIN t), (SYN t), (RST t), (PSH t), (ACK t), (URG t), (ECE t), (CWR t), (NS t);
    cbn; lia.
Qed.

Lemma flag_byte_range t : 0 <= flag_byte t < 256.
Proof.
  unfold flag_byte.
  destruct (FIN t), (SYN t), (RST t), (PSH t), (ACK t), (URG t), (ECE t), (CWR t); cbn; lia.
Qed.

Lemma flag_bits (b0 b1 b2 b3 b4 b5 b6 b7 : bool) :
  let b := b2z b0 + 2 * b2z b1 + 4 * b2z b2 + 8 * b2z b3 + 16 * b2z b4 + 32 * b2z b5
             + 64 * b2z b6 + 128 * b2z b7 in
  has_bits b 1 = b0 ∧ has_bits b 2 = b1 ∧ has_bits b 4 = b2 ∧ has_bits b 8 = b3 ∧
  has_bits b 16 = b4 ∧ has_bits b 32 = b5 ∧ has_bits b 64 = b6 ∧ has_bits b 128 = b7.
Proof. destruct b0, b1, b2, b3, b4, b5, b6, b7; vm_compute; auto 10. Qed.

Lemma bits_byte b : is_byte b →
  b2z (has_bits b 1) + 2 * b2z (has_bits b 2) + 4 * b2z (has_bits b 4) + 8 * b2z (has_bits b 8)
    + 16 * b2z (has_bits b 16) + 32 * b2z (has_bits b 32) + 64 * b2z (has_bits b 64)
    + 128 * b2z (has_bits b 128) = b.
Proof.
  intros Hb. apply Z.eqb_eq. revert b Hb. apply byte_decide. vm_compute. reflexivity.
Qed.

(** Byte 12 without its three reserved bits. *)
Lemma offset_byte b : is_byte b →
  0 <= Z.shiftr b 4 < 16 ∧ Z.shiftr b 4 * 16 + b2z (has_bits b 1) = Z.land b 241.
Proof.
  intros Hb. split; [rewrite Z.shiftr_div_pow2 by lia; unfold is_byte in Hb; zdiv|].
  apply Z.eqb_eq. revert b Hb. apply byte_decide. vm_compute. reflexivity.
Qed.

Lemma offset_byte_inv d (ns : bool) : 0 <= d < 16 →
  Z.shiftr (d * 16 + b2z ns) 4 = d ∧ has_bits (d * 16 + b2z ns) 1 = ns.
Proof.
  intros Hd. split.
  - rewrite Z.shiftr_div_pow2 by lia. destruct ns; cbn; zdiv.
  - unfold has_bits. change 1 with (Z.ones 1) at 1. rewrite Z.land_ones by lia.
    change (2 ^ 1) with 2. destruct ns; cbn [b2z];
    [replace ((d * 16 + 1) mod 2) with 1 by zdiv | replace ((d * 16 + 0) mod 2) with 0 by zdiv]; done.
Qed.

(** The twenty bytes before the options. *)
Definition fixed_header (t : TCP) (csum : Z) : bytes :=
  be16 (SrcPort t) ++ be16 (DstPort t) ++ be32 (Seq t) ++ be32 (Ack t) ++
  be16 (flagsAndOffset t) ++ be16 (Window t) ++ be16 csum ++ be16 (Urgent t).

Definition encode_option (o : TCPOption) : bytes :=
  if (OptionType o =? 0) || (OptionType o =? 1) then [OptionType o]
  else OptionType o :: OptionLength o :: OptionData o.

Definition encode_options (os : list TCPOption) : bytes := concat (map encode_option os).

Definition encode_header (t : TCP) (csum : Z) : bytes :=
  fixed_header t csum ++ encode_options (Options t) ++ Padding t.

(** The fields hold values of their Go types, and the data offset fits its
    four bits. *)
Record fields_ok (t : TCP) : Prop := {
  ok_SrcPort : is_u16 (SrcPort t);
  ok_DstPort : is_u16 (DstPort t);
  ok_Seq : is_u32 (Seq t);
  ok_Ack : is_u32 (Ack t);
  ok_DataOffset : 0 <= DataOffset t < 16;
  ok_Window : is_u16 (Window t);
  ok_Checksum : is_u16 (Checksum t);
  ok_Urgent : is_u16 (Urgent t);
}.

Lemma TCP_fixed_header_len t csum : len (fixed_header t csum) = 20.
Proof. reflexivity. Qed.

(** [decode_header] reads back everything but the reserved bits. *)
Lemma TCP_decode_header_spec data old : is_bytes data → 20 <= len data → ∃ t,
  decode_header data old = Ok t ∧ base t = base old ∧ pseudoheader t = pseudoheader old ∧
  Options t = [] ∧ Padding t = [] ∧ fields_ok t ∧
  sPort t = be16 (SrcPort t) ∧ dPort t = be16 (DstPort t) ∧
  fixed_header t (Checksum t) = take 12 data ++ Z.land (data !!! 12%nat) 241 :: drop 13 (take 20 data).
Proof.
  intros Hb Hl. destruct (len_at_least data 20 Hl) as [m Hm]. clear Hl.
  explode data Hm. clear Hm. rewrite !is_bytes_cons in Hb.
  repeat match goal with H : _ ∧ _ |- _ => destruct H as [? H] end.
  match goal with H : is_bytes _ |- _ => clear H end.
  eexists. split; [reflexivity|]. do 4 (split; [done|]).
  pose proof (offset_byte z11 ltac:(assumption)) as [Hd Ho].
  pose proof (bits_byte z12 ltac:(assumption)) as Hf.
  split; [|split; [|split]].
  - constructor; cbn -[Z.mul]; unfold is_byte, is_u16, is_u32 in *; lia.
  - cbn [sPort SrcPort]. by rewrite be16_of.
  - cbn [dPort DstPort]. by rewrite be16_of.
  - unfold fixed_header. rewrite flagsAndOffset_eq by done. unfold flag_byte.
    cbn -[Z.mul be16 be32 b2z has_bits]. rewrite Hf.
    replace (_ * 4096 + _) with (Z.land z11 241 * 256 + z12) by lia.
    rewrite !be16_of, !be32_of; try done. rewrite <-Ho.
    unfold is_byte. destruct (has_bits z11 1); cbn [b2z]; lia.
Qed.

(** What [decode_header] gives for a header written from [t]. *)
Definition decoded_fields (t : TCP) (csum : Z) (old : TCP) : TCP :=
  mkTCP (base old) (SrcPort t) (DstPort t) (Seq t) (Ack t) (DataOffset t) (FIN t) (SYN t) (RST t)
    (PSH t) (ACK t) (URG t) (ECE t) (CWR t) (NS t) (Window t) csum (Urgent t)
    (be16 (SrcPort t)) (be16 (DstPort t)) [] [] (pseudoheader old).

Lemma TCP_decode_header_fixed t csum rest old : fields_ok t → is_u16 csum →
  decode_header (fixed_header t csum ++ rest) old = Ok (decoded_fields t csum old).
Proof.
  intros [] Hc. unfold fixed_header, decoded_fields.
  rewrite flagsAndOffset_eq by done. pose proof (flag_byte_range t).
  replace (be16 (DataOffset t * 4096 + (256 * b2z (NS t) + flag_byte t)))
    with [DataOffset t * 16 + b2z (NS t); flag_byte t].
  2: { symmetry. rewrite <-be16_of; [f_equal; lia | |]; unfold is_byte; destruct (NS t); cbn [b2z]; lia. }
  destruct (offset_byte_inv (DataOffset t) (NS t)) as [Ho Hn]; [done|].
  pose proof (flag_bits (FIN t) (SYN t) (RST t) (PSH t) (ACK t) (URG t) (ECE t) (CWR t)) as Hf.
  cbv zeta in Hf. fold (flag_byte t) in Hf. destruct Hf as (F0 & F1 & F2 & F3 & F4 & F5 & F6 & F7).
  unfold decode_header. run_slices.
  rewrite !be16_value, !be32_value by done. rewrite Ho, Hn, F0, F1, F2, F3, F4, F5, F6, F7. done.
Qed.

(** ** Options *)

(** An option as the decoder builds them. *)
Definition option_ok (o : TCPOption) : Prop :=
  if (OptionType o =? 0) || (OptionType o =? 1) then OptionLength o = 1 ∧ OptionData o = []
  else OptionLength o = len (OptionData o) + 2.

Lemma encode_options_app l1 l2 : encode_options (l1 ++ l2) = encode_options l1 ++ encode_options l2.
Proof. unfold encode_options. by rewrite map_app, concat_app. Qed.

Lemma TCP_encode_options_cons o os : encode_options (o :: os) = encode_option o ++ encode_options os.
Proof. reflexivity. Qed.

Lemma encode_options_len os : len (encode_options os) = options_length os.
Proof.
  induction os as [|o os IH]; [done|]. rewrite TCP_encode_options_cons, len_app, IH. cbn [options_length].
  unfold encode_option. destruct (_ || _); lens.
Qed.

Definition is_end (o : TCPOption) : bool := OptionType o =? TCPOptionKindEndList.

(** The option that an end-of-list byte decodes to. *)
Definition end_option : TCPOption := mkOption TCPOptionKindEndList 1 [].

Definition with_options (os : list TCPOption) (pad : bytes) (t : TCP) : TCP :=
  set_Padding pad (set_Options os t).

Ltac step_option := apply wp_bind; first [apply wp_gets | apply wp_lift | apply wp_modify].

(** The loop over the options: what it reads is what the options it adds
    encode to, and it only stops early at an end-of-list option. *)
Lemma TCP_decode_options_spec fuel : ∀ data t tr, (length data < fuel)%nat → Padding t = [] →
  wp (decode_options fuel data)
    (fun _ s => ∃ new pad, data = encode_options new ++ pad ∧ Forall option_ok new ∧
       (pad = [] ∨ ∃ new', new = new' ++ [end_option]) ∧
       s = DState (with_options (Options t ++ new) pad t) tr)
    (fun _ s => base (dlayer s) = base t ∧ pseudoheader (dlayer s) = pseudoheader t) (DState t tr).
Proof.
  induction fuel as [|fuel IH]; intros data t tr Hf Hp; [lia|]. cbn [decode_options].
  destruct data as [|k d].
  { cbn. exists [], []. rewrite !app_nil_r. unfold with_options. split; [done|]. split; [apply List.Forall_nil|]. split; [by left|]. destruct t; cbn in *; by subst. }
  rewrite len_cons. pose proof (len_nonneg d). destruct (Z.gtb_spec (1 + len d) 0); [|lia].
  step_option. cbn [dlayer]. step_option. cbn [owp index]. step_option.
  destruct (Z.eqb_spec k TCPOptionKindEndList) as [->|Hk0].
  - step_option. exists [end_option], d. split; [done|]. split.
    { repeat constructor. }
    split; [right; by exists []|]. done.
  - cbn [length] in Hf.
    assert (∀ o rest new pad, (k :: d = encode_option o ++ rest) → option_ok o →
      rest = encode_options new ++ pad → Forall option_ok new →
      (pad = [] ∨ ∃ new', new = new' ++ [end_option]) →
      ∃ new' pad', k :: d = encode_options new' ++ pad' ∧ Forall option_ok new' ∧
        (pad' = [] ∨ ∃ new2, new' = new2 ++ [end_option]) ∧
        DState (with_options ((Options t ++ [o]) ++ new) pad (set_Options (Options t ++ [o]) t)) tr =
        DState (with_options (Options t ++ new') pad' t) tr) as Hcons.
    { intros o rest new pad Hd Ho -> Hnew Hpad. exists (o :: new), pad.
      rewrite TCP_encode_options_cons, <-app_assoc. split; [done|]. split; [by constructor|]. split.
      - destruct Hpad as [?|[new' ->]]; [by left | right; by exists (o :: new')].
      - by rewrite <-app_assoc. }
    destruct (Z.eqb_spec k TCPOptionKindNop) as [->|Hk1].
    + step_option. step_option. cbn [owp].
      eapply wp_mono; [| |apply (IH d (set_Options (Options t ++ [mkOption TCPOptionKindNop 1 []]) t));
        [lia | done]].
      * intros _ s (new & pad & -> & Hnew & Hpad & ->). by eapply Hcons.
      * done.
    + destruct d as [|l d].
      { destruct (Z.ltb_spec (1 + len (@nil Z)) 2) as [_|Hlt]; [|unfold len in Hlt; cbn in Hlt; lia].
        unfold SetTruncated. step_option. done. }
      pose proof (len_nonneg d). rewrite !len_cons. destruct (Z.ltb_spec (1 + (1 + len d)) 2); [lia|].
      step_option. change (index (k :: l :: d) 1) with (Ok l). cbn [owp]. step_option.
      destruct (Z.ltb_spec l 2); [done|].
      destruct (Z.gtb_spec l (1 + (1 + len d))); [unfold SetTruncated; by step_option|].
      destruct (Z.leb_spec 0 (len d)); [|lia].
      assert (slice (k :: l :: d) 2 l = Ok (take (Z.to_nat (l - 2)) d)) as ->.
      { rewrite slice_ok by lens. do 2 f_equal. replace (Z.to_nat l) with (S (S (Z.to_nat (l - 2)))) by lia.
        done. }
      assert (slice_from (k :: l :: d) l = Ok (drop (Z.to_nat (l - 2)) d)) as ->.
      { rewrite slice_from_ok by lens. replace (Z.to_nat l) with (S (S (Z.to_nat (l - 2)))) by lia. done. }
      step_option. cbn [owp]. step_option. step_option. cbn [owp].
      set (o := mkOption k l (take (Z.to_nat (l - 2)) d)).
      eapply wp_mono; [| |apply (IH (drop (Z.to_nat (l - 2)) d) (set_Options (Options t ++ [o]) t));
        [cbn [length] in Hf; rewrite length_drop; lia | done]].
      * intros _ s (new & pad & Hrest & Hnew & Hpad & ->).
        assert ((k =? 0) || (k =? 1) = false) as Hk by (rewrite orb_false_iff, !Z.eqb_neq; auto).
        eapply Hcons; [| |exact Hrest |done |done].
        -- unfold encode_option, o. cbn [OptionType OptionLength OptionData]. rewrite Hk. cbn [app].
           by rewrite take_drop.
        -- unfold option_ok, o. cbn [OptionType OptionLength OptionData]. rewrite Hk, len_take. lia.
      * done.
Qed.

Definition implicit_end (pad : bytes) : list TCPOption :=
  match pad with [] => [] | _ :: _ => [end_option] end.

(** The loop reads back encoded options; padding begins with a zero, which
    decodes to an end-of-list option. *)
Lemma TCP_decode_encode_options fuel : ∀ os pad t tr, Forall option_ok os → Forall (fun o => is_end o = false) os →
  (pad = [] ∨ ∃ p, pad = 0 :: p) → (length (encode_options os ++ pad) < fuel)%nat → Padding t = [] →
  wp (decode_options fuel (encode_options os ++ pad))
    (fun _ s => s = DState (with_options (Options t ++ os ++ implicit_end pad) (tail pad) t) tr)
    (fun _ _ => False) (DState t tr).
Proof.
  induction fuel as [|fuel IH]; intros os pad t tr Hos Hend Hpad Hf Hp; [lia|]. cbn [decode_options].
  destruct os as [|o os].
  - change (encode_options [] ++ pad) with pad in *. destruct Hpad as [->|[p ->]].
    + cbn. rewrite !app_nil_r. destruct t; cbn in *; by subst.
    + rewrite len_cons. pose proof (len_nonneg p). destruct (Z.gtb_spec (1 + len p) 0); [|lia].
      step_option. step_option. cbn [owp index]. step_option. reflexivity.
  - apply Forall_cons in Hos as [Ho Hos]. apply Forall_cons in Hend as [He Hend].
    rewrite TCP_encode_options_cons, <-app_assoc in *. set (rest := encode_options os ++ pad) in *.
    unfold encode_option, option_ok in *. unfold is_end, TCPOptionKindEndList in He.
    destruct o as [k l d]; cbn [OptionType OptionLength OptionData] in *.
    pose proof (len_nonneg rest).
    assert (∀ o, o = mkOption k l d → wp (decode_options fuel rest)
      (fun _ s => s = DState (with_options (Options t ++ (mkOption k l d :: os) ++ implicit_end pad) (tail pad) t) tr)
      (fun _ _ => False) (DState (set_Options (Options t ++ [o]) t) tr)) as Hrest.
    { intros o ->. eapply wp_mono; [| |apply (IH os pad (set_Options (Options t ++ [mkOption k l d]) t));
        [done | done | done | fold rest; destruct (_ || _); cbn [app length] in Hf; rewrite ?length_app in Hf; lia | done]].
      - intros _ s ->. f_equal. destruct t. cbn. by rewrite <-app_assoc.
      - done. }
    destruct (Z.eqb_spec k 1) as [->|Hk1].
    + destruct Ho as [-> ->]. cbn [Z.eqb Pos.eqb orb app]. rewrite len_cons.
      destruct (Z.gtb_spec (1 + len rest) 0); [|lia].
      step_option. step_option. cbn [owp index]. step_option. cbn [Z.eqb].
      step_option. step_option. cbn [owp]. by apply Hrest.
    + apply Z.eqb_neq in Hk1 as Hk1b. rewrite He in Ho. rewrite He. cbn [orb app] in *. rewrite !len_cons, len_app.
      pose proof (len_nonneg d). destruct (Z.gtb_spec (1 + (1 + (len d + len rest))) 0); [|lia].
      step_option. step_option. cbn [owp index]. step_option.
      unfold TCPOptionKindEndList, TCPOptionKindNop. rewrite He, Hk1b.
      destruct (Z.ltb_spec (1 + (1 + (len d + len rest))) 2); [lia|].
      step_option. change (index (k :: l :: d ++ rest) 1) with (Ok l). cbn [owp]. step_option.
      destruct (Z.ltb_spec l 2); [lia|]. destruct (Z.gtb_spec l (1 + (1 + (len d + len rest)))); [lia|].
      pose proof (slice_app [k; l] d rest 2 l eq_refl) as Hsl.
      pose proof (slice_from_app (k :: l :: d) rest l) as Hsf. cbn [app] in Hsl, Hsf.
      rewrite Hsl by (change (len [k; l]) with 2; lia). rewrite Hsf by (rewrite !len_cons; lia).
      step_option. cbn [owp]. step_option. step_option. cbn [owp]. by apply Hrest.
Qed.

(** ** What [SerializeTo] writes *)

Definition fix_option (opts : SerializeOptions) (o : TCPOption) : TCPOption :=
  if FixLengths opts then mkOption (OptionType o) (u8 (len (OptionData o) + 2)) (OptionData o) else o.

(** The layer after its lengths are fixed, if they are to be. *)
Definition fixed (opts : SerializeOptions) (t : TCP) : TCP :=
  if FixLengths opts then fix_lengths t else t.

(** The header that ends up in the buffer. *)
Definition written (opts : SerializeOptions) (t : TCP) (csum : Z) : bytes :=
  fixed_header (fixed opts t) csum ++ encode_options (map (fix_option opts) (Options t))
    ++ Padding (fixed opts t).

(** The header up to the checksum. *)
Definition front_header (t : TCP) : bytes :=
  be16 (SrcPort t) ++ be16 (DstPort t) ++ be32 (Seq t) ++ be32 (Ack t) ++
  be16 (flagsAndOffset t) ++ be16 (Window t).

Lemma fixed_header_front t csum : fixed_header t csum = front_header t ++ be16 csum ++ be16 (Urgent t).
Proof. reflexivity. Qed.

Lemma TCP_put_header_spec t stale n : length stale = (20 + n)%nat → ∃ s16 s17 rest,
  put_header t stale = Ok (front_header t ++ [s16; s17] ++ be16 (Urgent t) ++ rest) ∧
  length rest = n.
Proof.
  intros Hn. explode stale Hn. unfold put_header, front_header. run_slices.
  do 3 eexists. split; [reflexivity | exact Hn].
Qed.

Lemma TCP_put_options_spec opts os : ∀ pre old post,
  len old = options_length os → put_options opts os (pre ++ old ++ post) (len pre) =
    Ok (pre ++ encode_options (map (fix_option opts) os) ++ post, len pre + options_length os).
Proof.
  induction os as [|o os IH]; intros pre old post Hl; cbn [options_length put_options map] in *.
  - apply len_zero in Hl as ->. rewrite Z.add_0_r. done.
  - assert (0 <= options_length os) as Hnn by (rewrite <-encode_options_len; apply len_nonneg).
    pose proof (len_nonneg (OptionData o)).
    assert (OptionType (fix_option opts o) = OptionType o) as Ht
      by (unfold fix_option; by destruct (FixLengths opts)).
    rewrite TCP_encode_options_cons. unfold encode_option at 1. rewrite Ht.
    destruct old as [|x old]; [unfold len at 1 in Hl; cbn in Hl; destruct (_ || _); lia|].
    rewrite len_cons in Hl. rewrite (set_index_app pre x (old ++ post)) by done.
    cbn [mbind outcome_bind].
    destruct ((OptionType o =? 0) || (OptionType o =? 1)) eqn:Hk.
    + specialize (IH (pre ++ [OptionType o]) old post ltac:(lia)).
      rewrite <-!app_assoc in IH. rewrite len_app, len_cons in IH. cbn [app] in *.
      replace (len pre + (1 + len [])) with (len pre + 1) in IH by (unfold len; cbn; lia).
      rewrite IH. do 2 f_equal. lia.
    + destruct old as [|y old]; [unfold len at 1 in Hl; cbn in Hl; lia|]. rewrite len_cons in Hl.
      replace (pre ++ OptionType o :: (y :: old) ++ post)
        with ((pre ++ [OptionType o]) ++ y :: old ++ post) by (by rewrite <-app_assoc).
      rewrite set_index_app by lens. cbn [mbind outcome_bind].
      set (l := if FixLengths opts then _ else _).
      rewrite <-(take_drop (Z.to_nat (len (OptionData o))) old).
      set (dst := take _ old). set (old' := drop _ old).
      assert (len dst = len (OptionData o)) as Hdst by (unfold dst; lens).
      replace ((pre ++ [OptionType o]) ++ l :: (dst ++ old') ++ post)
        with ((pre ++ [OptionType o; l]) ++ dst ++ (old' ++ post)) by (by rewrite <-!app_assoc).
      rewrite copy_into_app by lens. cbn [mbind outcome_bind].
      specialize (IH (pre ++ [OptionType o; l] ++ OptionData o) old' post).
      rewrite <-!app_assoc in IH. rewrite <-app_assoc.
      replace (len pre + len (OptionData o) + 2)
        with (len (pre ++ [OptionType o; l] ++ OptionData o)) by lens.
      rewrite IH by (unfold old'; lens). clear IH.
      assert (OptionLength (fix_option opts o) = l ∧ OptionData (fix_option opts o) = OptionData o) as [-> ->]
        by (unfold fix_option, l; by destruct (FixLengths opts)).
      rewrite len_app. do 2 f_equal; [|lens]. cbn [app]. by rewrite <-app_assoc.
Qed.

(** The header is made of bytes when the fields are in range. *)
Definition option_bytes (o : TCPOption) : Prop :=
  is_byte (OptionType o) ∧ is_byte (OptionLength o) ∧ is_bytes (OptionData o).

Lemma TCP_encode_options_bytes os : Forall option_bytes os → is_bytes (encode_options os).
Proof.
  induction 1 as [|o os (Ht & Hl & Hd) Hos IH]; [apply is_bytes_nil|].
  rewrite TCP_encode_options_cons, is_bytes_app. split; [|done]. unfold encode_option.
  destruct (_ || _); rewrite !is_bytes_cons; auto using is_bytes_nil.
Qed.

Lemma front_header_bytes t : is_bytes (front_header t).
Proof. unfold front_header. rewrite !is_bytes_app. auto 10 with go. Qed.

Section serialize.
Context {W : Type} `{SerializeBufferLaws W}.

(** What the checksum needs to be computed. *)
Definition checksum_ready (opts : SerializeOptions) (t : TCP) (payload : bytes) : Prop :=
(∃ l, pseudoheader t = Some l ∧ addresses_ok l) ∧ Forall option_bytes (Options t) ∧
is_bytes (Padding t) ∧ is_bytes payload ∧ len (written opts t 0 ++ payload) <= 65536.

(** The layer's checksum, and the receiver's test when it was computed. *)
Definition checksum_result (opts : SerializeOptions) (t t' : TCP) (payload : bytes) : Prop :=
if ComputeChecksums opts then
  t' = set_Checksum (Checksum t') (fixed opts t) ∧ is_u16 (Checksum t') ∧
  (computeChecksum (written opts t (Checksum t') ++ payload) IPProtocolTCP (pseudoheader t)).1 = Ok 0
else t' = fixed opts t.

Lemma TCP_fixed_same opts t : pseudoheader (fixed opts t) = pseudoheader t ∧ Options (fixed opts t) = Options t.
Proof.
unfold fixed, fix_lengths. destruct (FixLengths opts); [|done]. cbv zeta. destruct (negb _); done.
Qed.

Lemma fixed_padding_bytes opts t : is_bytes (Padding t) → is_bytes (Padding (fixed opts t)).
Proof.
intros Hp. unfold fixed, fix_lengths. destruct (FixLengths opts); [|done]. cbv zeta.
destruct (negb _); [|done]. apply is_bytes_take, is_bytes_replicate. unfold is_byte; lia.
Qed.

Lemma fix_option_bytes opts o : option_bytes o → option_bytes (fix_option opts o).
Proof.
intros (? & ? & ?). unfold fix_option. destruct (FixLengths opts); [|done].
split; [done|]. split; [apply u8_range | done].
Qed.

Lemma options_length_fix opts os : options_length (map (fix_option opts) os) = options_length os.
Proof.
induction os as [|o os IH]; [done|]. cbn [map options_length]. rewrite IH.
unfold fix_option. by destruct (FixLengths opts).
Qed.

Lemma wp_tcp_checksum all l c Q E t (w : W) :
pseudoheader t = Some l → computeChecksum all IPProtocolTCP (Some l) = (Ok c, Some l) →
Q c (t, w) → wp (IPProtocolTCP_checksum all) Q E (t, w).
Proof.
intros Ht Hc HQ. unfold wp, IPProtocolTCP_checksum, on_fst, zoom. cbn [fst snd].
rewrite Ht, Hc. replace (set_pseudoheader (Some l) t) with t; [done|].
destruct t. cbn in *. by subst.
Qed.

Lemma written_front opts t csum : written opts t csum =
front_header (fixed opts t) ++ be16 csum ++ be16 (Urgent (fixed opts t)) ++
encode_options (map (fix_option opts) (Options t)) ++ Padding (fixed opts t).
Proof. unfold written. rewrite fixed_header_front. by rewrite <-!app_assoc. Qed.

Lemma front_header_len t : len (front_header t) = 16.
Proof. reflexivity. Qed.

(** The checksum branch. *)
Lemma serialize_checksum opts t t1 payload :
checksum_ready opts t payload → t1 = fixed opts t →
∃ l c, pseudoheader t1 = Some l ∧ is_u16 c ∧
  computeChecksum (written opts t 0 ++ payload) IPProtocolTCP (Some l) = (Ok c, Some l) ∧
  (computeChecksum (written opts t c ++ payload) IPProtocolTCP (pseudoheader t)).1 = Ok 0.
Proof.
intros ((l & Hl & Hal) & Hos & Hpad & Hpay & Hlen) ->. exists l.
rewrite (proj1 (TCP_fixed_same opts t)), Hl. rewrite written_front in Hlen.
edestruct (compute_checksum_field l (front_header (fixed opts t))
  (be16 (Urgent (fixed opts t)) ++ encode_options (map (fix_option opts) (Options t)) ++
   Padding (fixed opts t) ++ payload) IPProtocolTCP Hal) as (c & Hc & Hu & Hv).
- unfold is_u8, IPProtocolTCP. lia.
- apply front_header_bytes.
- rewrite !is_bytes_app. split; [apply be16_bytes|]. split; [|split; [by apply fixed_padding_bytes|done]].
  apply TCP_encode_options_bytes. apply Forall_map. eapply Forall_impl; [exact Hos|].
  intros o. apply fix_option_bytes.
- reflexivity.
- rewrite front_header_len. autorewrite with lens in *. rewrite front_header_len in Hlen. lia.
- exists c. split; [done|]. split; [done|]. rewrite !written_front.
  rewrite <-!app_assoc. change (be16 0) with [0; 0]. rewrite Hc, Hv. done.
Qed.

(** The header with given bytes in the place of the checksum, and the edits
  that produce it from what [PrependBytes] returned. *)
Definition image opts t (csum : bytes) : bytes :=
front_header (fixed opts t) ++ csum ++ be16 (Urgent (fixed opts t)) ++
encode_options (map (fix_option opts) (Options t)) ++ Padding (fixed opts t).

Lemma image_length opts t c1 c2 : length c1 = length c2 →
length (image opts t c1) = length (image opts t c2).
Proof. intros Hc. unfold image. rewrite !length_app. lia. Qed.

Lemma image_len opts t a b : len (image opts t [a; b]) =
20 + options_length (Options t) + len (Padding (fixed opts t)).
Proof.
unfold image. autorewrite with lens. rewrite front_header_len, encode_options_len, options_length_fix. lia.
Qed.

Lemma TCP_image_checksum opts t a b c :
BE_PutUint16 (image opts t [a; b]) 16 c = Ok (written opts t c).
Proof. rewrite written_front. by apply (write_at_app (front_header (fixed opts t)) [a; b]). Qed.

Lemma TCP_image_zero opts t a b : ∃ r, set_index (image opts t [a; b]) 16 0 = Ok r ∧
set_index r 17 0 = Ok (image opts t [0; 0]).
Proof.
eexists. split; [by apply (set_index_app (front_header (fixed opts t)) a)|].
pose proof (set_index_app (front_header (fixed opts t) ++ [0]) b
  (be16 (Urgent (fixed opts t)) ++ encode_options (map (fix_option opts) (Options t)) ++
   Padding (fixed opts t)) 0 17 eq_refl) as Hs.
rewrite <-!app_assoc in Hs. exact Hs.
Qed.

Lemma TCP_image_edits opts t stale :
len stale = 20 + options_length (Options t) + len (Padding (fixed opts t)) →
∃ b1 b2 start s16 s17, put_header (fixed opts t) stale = Ok b1 ∧
  put_options opts (Options t) b1 20 = Ok (b2, start) ∧
  copy_from b2 start (Padding (fixed opts t)) = Ok (image opts t [s16; s17]).
Proof.
intros Hst. set (t1 := fixed opts t) in *. set (ol := options_length (Options t)) in *.
assert (0 <= ol) as Hol by (unfold ol; rewrite <-encode_options_len; apply len_nonneg).
pose proof (len_nonneg (Padding t1)).
destruct (TCP_put_header_spec t1 stale (Z.to_nat (ol + len (Padding t1)))) as (s16 & s17 & rest & Hput & Hrest).
{ unfold len in *. lia. }
assert (len rest = ol + len (Padding t1)) as Hlr by (unfold len at 1; lia).
rewrite <-(take_drop (Z.to_nat ol) rest) in Hput.
set (old := take (Z.to_nat ol) rest) in *. set (post := drop (Z.to_nat ol) rest) in *.
assert (len old = ol) as Hold by (unfold old; rewrite len_take; lia).
assert (len post = len (Padding t1)) as Hpost by (unfold post; rewrite len_drop; lia).
set (pre := front_header t1 ++ [s16; s17] ++ be16 (Urgent t1)).
exists (pre ++ old ++ post). do 2 eexists. exists s16, s17. split; [|split].
- rewrite Hput. unfold pre. by rewrite <-!app_assoc.
- change 20 with (len pre). by apply TCP_put_options_spec.
- rewrite app_assoc, copy_from_app; [|rewrite len_app, encode_options_len, options_length_fix; done | done].
  unfold image, pre. by rewrite <-!app_assoc.
Qed.

Lemma TCP_SerializeTo_spec opts t w payload :
buf_ok w → Bytes w = payload → (ComputeChecksums opts = true → checksum_ready opts t payload) →
wp (SerializeTo opts)
  (fun _ '(t', w') => buf_ok w' ∧ Layers w' = Layers w ∧ checksum_result opts t t' payload ∧
     Bytes w' = written opts t (Checksum t') ++ payload)
  (fun _ _ => False) (t, w).
Proof.
intros Hw <- Hready. unfold SerializeTo. apply wp_bind, wp_get_fields. cbv zeta.
change (if FixLengths opts then fix_lengths t else t) with (fixed opts t).
apply wp_bind, wp_put_fields, wp_bind, wp_prepend; [done | |].
{ rewrite <-encode_options_len. pose proof (len_nonneg (encode_options (Options t))).
  pose proof (len_nonneg (Padding (fixed opts t))). lia. }
intros stale w1 Hw1 Hst HB1 HL1.
destruct (TCP_image_edits opts t stale Hst) as (b1 & b2 & start & s16 & s17 & E1 & E2 & E3).
apply wp_bind, wp_lift. rewrite E1. cbn [owp].
apply wp_bind, wp_lift. rewrite (proj2 (TCP_fixed_same opts t)), E2. cbn [owp].
apply wp_bind, wp_lift. rewrite E3. cbn [owp].
assert (length (image opts t [s16; s17]) = length stale) as Hlen.
{ pose proof (image_len opts t s16 s17). unfold len in *. lia. }
apply wp_bind. eapply wp_sync; [done | exact HB1 | done |]. intros w2 Hw2 HB2 HL2.
assert (∀ a b t1 w3, (ComputeChecksums opts = true → checksum_result opts t t1 (Bytes w)) →
  (ComputeChecksums opts = false → t1 = fixed opts t) →
  buf_ok w3 → Bytes w3 = image opts t [a; b] ++ (Bytes w) → Layers w3 = Layers w →
  wp (bytes ← lift (BE_PutUint16 (image opts t [a; b]) 16 (Checksum t1)); sync bytes)
    (fun _ '(t', w') => buf_ok w' ∧ Layers w' = Layers w ∧ checksum_result opts t t' (Bytes w) ∧
       Bytes w' = written opts t (Checksum t') ++ (Bytes w)) (fun _ _ => False) (t1, w3)) as Hlast.
{ intros a b t1 w3 H1 H2 Hw3 HB3 HL3. apply wp_bind, wp_lift. rewrite TCP_image_checksum. cbn [owp].
  eapply wp_sync; [done | exact HB3 | rewrite written_front; by apply image_length |].
  intros w4 Hw4 HB4 HL4. split; [done|]. split; [congruence|]. split; [|done].
  destruct (ComputeChecksums opts) eqn:Hcc; [auto|]. unfold checksum_result. rewrite Hcc. auto. }
apply wp_bind, wp_if; intros Hcc.
- destruct (serialize_checksum opts t _ (Bytes w) (Hready Hcc) eq_refl) as (l & c & Hl & Hu & Hc & Hv).
  destruct (TCP_image_zero opts t s16 s17) as (r & R1 & R2).
  apply wp_bind, wp_lift. rewrite R1. cbn [owp]. apply wp_bind, wp_lift. rewrite R2. cbn [owp].
  apply wp_bind. eapply wp_sync; [done | exact HB2 | by apply image_length |].
  intros w3 Hw3 HB3 HL3. apply wp_bind, wp_buffer_Bytes, wp_bind.
  eapply wp_tcp_checksum; [exact Hl | rewrite HB3; rewrite written_front in Hc; exact Hc |].
  apply wp_bind, wp_get_fields, wp_bind, wp_put_fields, wp_ret, wp_bind, wp_get_fields.
  apply Hlast; [|congruence | done | done | congruence].
  intros _. unfold checksum_result. rewrite Hcc. done.
- apply wp_ret, wp_bind, wp_get_fields. apply Hlast; [congruence | done | done | done | congruence].
Qed.
End serialize.

(** ** Decoding, on every input *)

Lemma TCP_DecodeFromBytes_spec data old tr : is_bytes data →
  wp (DecodeFromBytes data)
    (fun _ s => ∃ t contents payload new pad, decode_header data old = Ok t ∧
       data = contents ++ payload ∧ 5 <= DataOffset t ∧ len contents = 4 * DataOffset t ∧
       drop 20 contents = encode_options new ++ pad ∧ Forall option_ok new ∧
       (pad = [] ∨ ∃ new', new = new' ++ [end_option]) ∧
       s = DState (with_options new pad (set_base (mkBase contents payload) t)) tr)
    (fun _ s => True) (DState old tr).
Proof.
  intros Hb. unfold DecodeFromBytes. apply wp_if; intros Hlen.
  { unfold SetTruncated. by apply wp_bind, wp_modify. }
  apply Z.ltb_ge in Hlen. apply wp_bind, wp_gets, wp_bind, wp_lift.
  destruct (TCP_decode_header_spec data old Hb Hlen) as (t & Ht & _ & _ & Hos & Hpad & _ & _).
  cbn [dlayer]. rewrite Ht. cbn [owp]. apply wp_bind, wp_modify. cbn [dtruncated].
  apply wp_if; intros Hoff; [done|]. apply Z.ltb_ge in Hoff.
  apply wp_if; intros Hst.
  { unfold SetTruncated. by apply wp_bind, wp_modify, wp_bind, wp_modify. }
  apply Z.gtb_ltb, Z.ltb_ge in Hst || (rewrite Z.gtb_ltb in Hst; apply Z.ltb_ge in Hst).
  apply wp_bind, wp_lift. rewrite slice_to_ok by lia. cbn [owp].
  apply wp_bind, wp_lift. rewrite slice_from_ok by lia. cbn [owp].
  apply wp_bind, wp_modify. apply wp_bind, wp_lift. rewrite slice_ok by lia. cbn [owp].
  set (n := Z.to_nat (DataOffset t * 4)). cbn [dlayer dtruncated].
  eapply wp_mono; [| |apply TCP_decode_options_spec; [lia | done]].
  - intros _ s (new & pad & Henc & Hnew & Hend & ->).
    exists t, (take n data), (drop n data), new, pad. split; [done|].
    split; [by rewrite take_drop|]. split; [done|].
    split; [rewrite len_take; unfold n; lia|]. split; [exact Henc|]. split; [done|]. split; [done|].
    cbn. rewrite Hos. done.
  - done.
Qed.

(** The checksum's network layer plays no part in decoding. *)
Lemma decode_header_frame data old old' t : decode_header data old = Ok t →
  decode_header data old' = Ok (set_pseudoheader (pseudoheader old') (set_base (base old') t)).
Proof.
  unfold decode_header, mbind, outcome_bind.
  repeat (case_match; try discriminate). by intros [= <-].
Qed.

Lemma decode_options_frame p fuel : ∀ data t tr tr' s,
  decode_options fuel data (DState t tr) = (Ok tt, s) →
  decode_options fuel data (DState (set_pseudoheader p t) tr') =
    (Ok tt, DState (set_pseudoheader p (dlayer s)) tr').
Proof.
  induction fuel as [|fuel IH]; intros data t tr tr' s; cbn [decode_options]; [done|].
  unfold gets, lift, modify_layer, modify, SetTruncated, throw, mbind, M_bind in *.
  destruct (len data >? 0); [|by intros [= <-]]. cbn -[index slice slice_from decode_options].
  destruct (index data 0) as [k| | |]; try done.
  destruct (k =? TCPOptionKindEndList).
  { destruct (slice_from data 1); try done. by intros [= <-]. }
  destruct (k =? TCPOptionKindNop).
  { destruct (slice_from data 1) as [rest| | |]; try done. intros H.
    exact (IH _ _ _ tr' _ H). }
  destruct (len data <? 2); [done|].
  destruct (index data 1) as [l| | |]; try done.
  destruct (l <? 2); [done|]. destruct (l >? len data); [done|].
  destruct (slice data 2 l) as [d| | |]; try done.
  destruct (slice_from data l) as [rest| | |]; try done. intros H.
  exact (IH _ _ _ tr' _ H).
Qed.

Lemma DecodeFromBytes_frame data old old' tr tr' s :
  DecodeFromBytes data (DState old tr) = (Ok tt, s) →
  DecodeFromBytes data (DState old' tr') =
    (Ok tt, DState (set_pseudoheader (pseudoheader old') (dlayer s)) tr').
Proof.
  unfold DecodeFromBytes. destruct (len data <? 20); [done|].
  unfold get_layer, put_layer, gets, modify_layer, modify, lift, mbind, M_bind.
  cbn -[decode_header slice slice_to slice_from decode_options].
  destruct (decode_header data old) as [t| | |] eqn:Ht; try done.
  rewrite (decode_header_frame _ _ old' _ Ht).
  cbn -[decode_header slice slice_to slice_from decode_options].
  destruct (DataOffset t <? 5); [done|]. destruct (_ >? len data); [done|].
  destruct (slice_to data _) as [c| | |]; try done.
  destruct (slice_from data _) as [p| | |]; try done.
  destruct (slice data 20 _) as [o| | |]; try done. intros H.
  by apply (decode_options_frame (pseudoheader old') _ _ _ _ tr') in H.
Qed.

(** On any bytes and whatever the layer held before,
    [DecodeFromBytes] ends with a nil error or an error, never with a run-time
    panic. On success the contents and payload are the input cut at four times
    the data offset, the payload is shorter than the input, the fields are in
    range, the options are well-formed, and the result does not depend on what
    the layer held before, except for the checksum's network layer, which is
    left alone. *)
Theorem TCP_decode_total data old tr : is_bytes data →
  wp (DecodeFromBytes data)
    (fun _ s => let t := dlayer s in
       Contents (base t) ++ Payload (base t) = data ∧
       len (Contents (base t)) = 4 * DataOffset t ∧ 20 <= len (Contents (base t)) ∧
       len (Payload (base t)) < len data ∧
       fields_ok t ∧ Forall option_ok (Options t) ∧
       ∀ old' tr', DecodeFromBytes data (DState old' tr') =
         (Ok tt, DState (set_pseudoheader (pseudoheader old') t) tr'))
    (fun _ _ => True) (DState old tr).
Proof.
  intros Hb. pose proof (TCP_DecodeFromBytes_spec data old tr Hb) as H. revert H. unfold wp.
  destruct (DecodeFromBytes data (DState old tr)) as [[[]| | |] s] eqn:Hd; try done.
  intros (t & contents & payload & new & pad & Ht & Hdata & Hoff & Hlc & _ & Hnew & _ & Hs).
  assert (20 <= len data) as Hlen by (rewrite Hdata; lens).
  destruct (TCP_decode_header_spec data old Hb Hlen) as (t' & Ht' & _ & _ & _ & _ & Hok & _).
  rewrite Ht in Ht'. injection Ht' as <-. rewrite Hs at 1 2 3 4 5 6 7 8. cbn.
  split; [done|]. split; [done|]. split; [lia|]. split; [rewrite Hdata; lens|].
  split; [destruct Hok; constructor; assumption|]. split; [done|].
  intros old' tr'. exact (DecodeFromBytes_frame _ _ _ _ _ _ Hd).
Qed.

Lemma TCP_decode_total_witness :
  ∃ t, DecodeFromBytes ([0; 80; 31; 144; 0; 0; 0; 1; 0; 0; 0; 2; 96; 18; 1; 0; 0; 0; 0; 0] ++
      [2; 4; 5; 180; 7]) (DState empty_TCP false) = (Ok tt, DState t false) ∧
    Contents (base t) ++ Payload (base t) =
      [0; 80; 31; 144; 0; 0; 0; 1; 0; 0; 0; 2; 96; 18; 1; 0; 0; 0; 0; 0] ++ [2; 4; 5; 180; 7].
Proof.
  pose proof (TCP_decode_total ([0; 80; 31; 144; 0; 0; 0; 1; 0; 0; 0; 2; 96; 18; 1; 0; 0; 0; 0; 0] ++
      [2; 4; 5; 180; 7]) empty_TCP false) as H.
  unfold wp in H. eexists. split; [vm_compute; reflexivity|].
  apply H. solve_Forall.
Defined.

(** ** Reading back what was written *)

Lemma encode_options_fix opts os : Forall option_ok os → options_length os <= 255 →
  encode_options (map (fix_option opts) os) = encode_options os.
Proof.
  intros Hos. induction Hos as [|o os Ho Hos IH]; cbn [options_length map]; [done|]. intros Hl.
  pose proof (encode_options_len os). pose proof (len_nonneg (encode_options os)).
  pose proof (len_nonneg (OptionData o)).
  rewrite !TCP_encode_options_cons. rewrite IH by (destruct (_ || _); lia). f_equal.
  unfold encode_option, fix_option, option_ok in *. destruct (FixLengths opts); [|done].
  cbn [OptionType OptionLength OptionData]. destruct (_ || _); [done|].
  rewrite u8_small by (unfold is_u8; lia). by rewrite Ho.
Qed.

(** What a header written from [t] decodes to. *)
Definition read_back (t : TCP) (os : list TCPOption) (csum : Z) (pad payload : bytes) (old : TCP) : TCP :=
  with_options (os ++ implicit_end pad) (tail pad)
    (set_base (mkBase (fixed_header t csum ++ encode_options os ++ pad) payload)
      (decoded_fields t csum old)).

Lemma TCP_decode_written t os csum pad payload old tr :
  fields_ok t → is_u16 csum → Forall option_ok os → Forall (fun o => is_end o = false) os →
  (pad = [] ∨ ∃ p, pad = 0 :: p) → 4 * DataOffset t = 20 + options_length os + len pad →
  DecodeFromBytes (fixed_header t csum ++ encode_options os ++ pad ++ payload) (DState old tr) =
    (Ok tt, DState (read_back t os csum pad payload old) tr).
Proof.
  intros Hok Hc Hos Hend Hpad Hoff.
  set (rest := encode_options os ++ pad ++ payload).
  pose proof (encode_options_len os) as Hel. pose proof (len_nonneg (encode_options os)).
  pose proof (len_nonneg pad). pose proof (len_nonneg payload).
  unfold DecodeFromBytes. rewrite len_app, TCP_fixed_header_len.
  destruct (Z.ltb_spec (20 + len rest) 20); [pose proof (len_nonneg rest); lia|].
  unfold get_layer, put_layer, gets, modify_layer, modify, lift, mbind, M_bind. cbn [dlayer].
  rewrite TCP_decode_header_fixed by done. cbn [dlayer dtruncated]. unfold decoded_fields at 2 3.
  cbn [DataOffset].
  destruct (Z.gtb_spec (DataOffset t * 4) (20 + len rest)); [unfold rest in *; rewrite !len_app in *; lia|].
  assert (fixed_header t csum ++ rest = (fixed_header t csum ++ encode_options os ++ pad) ++ payload)
    as Hsplit by (unfold rest; by rewrite <-!app_assoc).
  assert (DataOffset t * 4 = len (fixed_header t csum ++ encode_options os ++ pad)) as Hcut
    by (rewrite !len_app, TCP_fixed_header_len; lia).
  cbn [DataOffset decoded_fields]. rewrite Hsplit, slice_to_app, slice_from_app by done.
  rewrite <-Hsplit. unfold rest. rewrite (app_assoc (encode_options os) pad payload).
  rewrite (slice_app (fixed_header t csum) (encode_options os ++ pad) payload)
    by (rewrite ?TCP_fixed_header_len, ?Hcut, ?len_app, ?TCP_fixed_header_len; lia).
  pose proof (TCP_decode_encode_options (S (length (encode_options os ++ pad))) os pad
    (set_base (mkBase (fixed_header t csum ++ encode_options os ++ pad) payload)
      (decoded_fields t csum old)) tr Hos Hend Hpad ltac:(lia) eq_refl) as Hd.
  apply wp_returns in Hd. destruct (Z.ltb_spec (DataOffset t) 5); [lia|]. exact Hd.
Qed.

(** The data offset and padding that fixing the lengths gives. *)
Lemma fix_lengths_spec t : Padding t = [] → options_length (Options t) <= 40 →
  ∃ k, 0 <= k < 4 ∧ Padding (fix_lengths t) = replicate (Z.to_nat k) 0 ∧
    (k = 0 ↔ options_length (Options t) mod 4 = 0) ∧
    DataOffset (fix_lengths t) = (20 + options_length (Options t) + k) / 4 ∧
    (20 + options_length (Options t) + k) mod 4 = 0.
Proof.
  intros Hp Hl. set (ol := options_length (Options t)) in *.
  assert (0 <= ol) as Hnn by (unfold ol; rewrite <-encode_options_len; apply len_nonneg).
  unfold fix_lengths. fold ol. cbv zeta. rewrite Z.rem_mod_nonneg by lia.
  destruct (Z.eqb_spec (ol mod 4) 0) as [E|E]; cbn [negb].
  - exists 0. cbn [set_DataOffset Padding DataOffset]. rewrite Hp. split; [lia|]. split; [done|]. split; [done|].
    change (len (@nil Z)) with 0. rewrite Z.quot_div_nonneg by lia. rewrite u8_small by (unfold is_u8; zdiv).
    split; [f_equal; lia | zdiv].
  - exists (4 - ol mod 4). cbn [set_DataOffset Padding DataOffset set_Padding].
    assert (take (Z.to_nat (4 - ol mod 4)) lotsOfZeros = replicate (Z.to_nat (4 - ol mod 4)) 0) as ->.
    { unfold lotsOfZeros. rewrite take_replicate. f_equal. zdiv. }
    rewrite len_replicate. rewrite Z.quot_div_nonneg by zdiv. rewrite u8_small by (unfold is_u8; zdiv).
    split; [zdiv|]. split; [done|]. split; [zdiv|]. split; [f_equal; zdiv | zdiv].
Qed.

Lemma TCP_serialize_decode {W} `{SerializeBufferLaws W} opts t (w : W) old tr :
  FixLengths opts = true → buf_ok w → fields_ok t → Padding t = [] →
  Forall option_ok (Options t) → Forall (fun o => is_end o = false) (Options t) →
  options_length (Options t) <= 40 →
  (ComputeChecksums opts = true → checksum_ready opts t (Bytes w)) →
  ∃ t' w' k, SerializeTo opts (t, w) = (Ok tt, (t', w')) ∧ buf_ok w' ∧ Layers w' = Layers w ∧
    len (Bytes w') = 20 + options_length (Options t) + k + len (Bytes w) ∧
    0 <= k < 4 ∧ (k = 0 ↔ options_length (Options t) mod 4 = 0) ∧
    DecodeFromBytes (Bytes w') (DState old tr) = (Ok tt,
      DState (read_back t' (Options t) (Checksum t') (replicate (Z.to_nat k) 0) (Bytes w) old) tr) ∧
    set_Checksum 0 (set_DataOffset 0 t') = set_Checksum 0 (set_DataOffset 0 (fix_lengths t)).
Proof.
  intros Hfix Hw Hok Hpad Hos Hend Hlen Hready.
  pose proof (TCP_SerializeTo_spec opts t w (Bytes w) Hw eq_refl Hready) as Hs. unfold wp in Hs.
  destruct (SerializeTo opts (t, w)) as [[[]| | |] [t' w']]; try done.
  destruct Hs as (Hw' & HLay & Hres & HB).
  destruct (fix_lengths_spec t Hpad Hlen) as (k & Hk & Hpk & Hk0 & Hoff & Hmod).
  exists t', w', k. do 3 (split; [done|]). split.
  { rewrite HB. unfold written, fixed. rewrite Hfix, Hpk, encode_options_fix by (done || lia).
    rewrite !len_app, TCP_fixed_header_len, encode_options_len, len_replicate. lia. }
  do 2 (split; [done|]).
  assert (0 <= options_length (Options t)) by (rewrite <-encode_options_len; apply len_nonneg).
  assert (fields_ok t' ∧ DataOffset t' = DataOffset (fix_lengths t) ∧
    (∀ c, fixed_header t' c = fixed_header (fix_lengths t) c) ∧
    set_Checksum 0 (set_DataOffset 0 t') = set_Checksum 0 (set_DataOffset 0 (fix_lengths t)))
    as (Hok' & Hd' & Hfh & Hrest).
  { assert (fields_ok (fix_lengths t)) as Hokf.
    { destruct Hok. unfold fix_lengths in *. cbv zeta in *. destruct (negb _); constructor; try done;
        cbn [set_DataOffset DataOffset] in *; rewrite Hoff; zdiv. }
    unfold checksum_result, fixed in Hres. rewrite Hfix in Hres. destruct (ComputeChecksums opts).
    - destruct Hres as (-> & Hu & _). destruct Hokf. split; [constructor; done|]. done.
    - subst t'. done. }
  split; [|done]. rewrite HB. unfold written, fixed. rewrite Hfix, <-Hfh, Hpk, encode_options_fix by (done || lia).
  rewrite <-!app_assoc. apply TCP_decode_written; try done.
  - apply Hok'.
  - destruct (decide (k = 0)) as [->|Hne]; [by left|]. right. exists (replicate (Z.to_nat (k - 1)) 0).
    replace (Z.to_nat k) with (S (Z.to_nat (k - 1))) by lia. done.
  - rewrite Hd', Hoff, len_replicate. zdiv.
Qed.

(** C40 (TCP round trip): take any layer with in-range fields, well-formed options other
    than end-of-list of at most 40 bytes in all, and no padding. Serialized
    with [FixLengths] onto any payload, with or without checksums, it succeeds,
    and [DecodeFromBytes] of the buffer, into any layer, gives back every
    field, the options and the payload. When the options do not fill a multiple
    of four bytes an end-of-list option appears after them, read from the zero
    padding. *)
Theorem TCP_roundtrip {W} `{SerializeBufferLaws W} opts t (w : W) old tr :
  FixLengths opts = true → buf_ok w → fields_ok t → Padding t = [] →
  Forall option_ok (Options t) → Forall (fun o => is_end o = false) (Options t) →
  options_length (Options t) <= 40 →
  (ComputeChecksums opts = true → checksum_ready opts t (Bytes w)) →
  ∃ t' w' k, SerializeTo opts (t, w) = (Ok tt, (t', w')) ∧ buf_ok w' ∧
    0 <= k < 4 ∧ (k = 0 ↔ options_length (Options t) mod 4 = 0) ∧
    DecodeFromBytes (Bytes w') (DState old tr) = (Ok tt,
      DState (read_back t' (Options t) (Checksum t') (replicate (Z.to_nat k) 0) (Bytes w) old) tr) ∧
    set_Checksum 0 (set_DataOffset 0 t') = set_Checksum 0 (set_DataOffset 0 (fix_lengths t)).
Proof.
  intros Hfix Hw Hok Hpad Hos Hend Hlen Hready.
  destruct (TCP_serialize_decode opts t w old tr Hfix Hw Hok Hpad Hos Hend Hlen Hready)
    as (t' & w' & k & ? & ? & _ & _ & ?). by exists t', w', k.
Qed.

Definition sample : TCP :=
  mkTCP (mkBase [] []) 80 8080 1 2 0 false true false false true false false false false
    256 0 0 [] [] [mkOption 2 4 [5; 180]; mkOption 3 3 [7]] []
    (Some (NetIPv4 [10; 0; 0; 1] [10; 0; 0; 2])).

Lemma sample_ready : checksum_ready (mkSerializeOptions true true) sample [].
Proof.
  split; [eexists; split; [reflexivity | repeat split; solve_Forall]|].
  split; [repeat constructor; unfold is_byte; cbn; lia|].
  split; [constructor|]. split; [constructor|]. vm_compute. discriminate.
Qed.

Lemma TCP_roundtrip_witness :
  ∃ t' w', SerializeTo (mkSerializeOptions true true) (sample, NewSerializeBuffer) = (Ok tt, (t', w')) ∧
    DecodeFromBytes (Bytes w') (DState empty_TCP false) = (Ok tt, DState
      (read_back t' (Options sample) (Checksum t') [0] [] empty_TCP) false).
Proof.
  destruct (TCP_roundtrip (mkSerializeOptions true true) sample NewSerializeBuffer empty_TCP false)
    as (t' & w' & k & Hs & _ & Hk & Hk0 & Hd & _).
  - reflexivity.
  - exists 0, 0. exact NewSerializeBuffer_inv.
  - constructor; vm_compute; split; first [discriminate | reflexivity].
  - reflexivity.
  - repeat constructor.
  - repeat constructor.
  - vm_compute. discriminate.
  - intros _. exact sample_ready.
  - exists t', w'. split; [exact Hs|].
    assert (Hs2 := Hs). vm_compute in Hs2. injection Hs2 as <- <-. vm_compute. reflexivity.
Defined.

(** Byte 12 of a header with its reserved bits cleared. *)
Definition clear_reserved (header : bytes) : bytes :=
  take 12 header ++ Z.land (header !!! 12%nat) 241 :: drop 13 header.

(** A TCP header that was decoded without error, serialized
    again as it is onto any payload, gives back the original header byte for
    byte, options and padding included; only the three reserved bits are lost.
    The layer is not changed. *)
Theorem TCP_reserialize {W} `{SerializeBufferLaws W} data old tr t tr' (w : W) :
  is_bytes data → DecodeFromBytes data (DState old tr) = (Ok tt, DState t tr') → buf_ok w →
  ∃ w', SerializeTo (mkSerializeOptions false false) (t, w) = (Ok tt, (t, w')) ∧ buf_ok w' ∧
    Bytes w' = clear_reserved (Contents (base t)) ++ Bytes w.
Proof.
  intros Hb Hd Hw. pose proof (TCP_DecodeFromBytes_spec data old tr Hb) as Hs. unfold wp in Hs.
  rewrite Hd in Hs.
  destruct Hs as (h & contents & payload & new & pad & Hh & Hdata & Hoff & Hlc & Henc & Hnew & _ & [= -> ->]).
  set (t := with_options new pad (set_base (mkBase contents payload) h)).
  assert (20 <= len contents) as Hlen by lia.
  destruct (TCP_decode_header_spec data old Hb ltac:(rewrite Hdata; lens))
    as (h' & Hh' & _ & _ & _ & _ & _ & _ & _ & Hfix). rewrite Hh in Hh'. injection Hh' as <-.
  pose proof (TCP_SerializeTo_spec (mkSerializeOptions false false) t w (Bytes w) Hw eq_refl
    ltac:(discriminate)) as Hser. unfold wp in Hser.
  destruct (SerializeTo _ (t, w)) as [[[]| | |] [t2 w2]]; try done.
  destruct Hser as (Hw2 & _ & Ht2 & HB). change (t2 = t) in Ht2. rewrite Ht2 in *.
  exists w2. split; [done|]. split; [done|].
  rewrite HB. unfold written. cbn [fixed FixLengths].
  replace (map (fix_option (mkSerializeOptions false false)) (Options t)) with new
    by (symmetry; apply map_id).
  change (Padding t) with pad. rewrite <-Henc. f_equal. unfold clear_reserved.
  change (Contents (base t)) with contents.
  change (fixed_header t (Checksum t)) with (fixed_header h (Checksum h)). rewrite Hfix, Hdata.
  assert (20 <= length contents)%nat as Hlc2 by (unfold len in Hlen; lia).
  rewrite !take_app_le by lia.
  assert ((contents ++ payload) !!! 12%nat = contents !!! 12%nat) as -> by (apply lookup_total_app_l; lia).
  rewrite <-app_assoc. do 2 f_equal. cbn [app]. f_equal.
  rewrite <-drop_app_le, take_drop by (rewrite length_take; lia). done.
Qed.

Lemma TCP_reserialize_witness :
  ∃ t w', DecodeFromBytes [0; 80; 31; 144; 0; 0; 0; 1; 0; 0; 0; 2; 96; 18; 1; 0; 0; 0; 0; 0; 3; 3; 7; 0; 9]
      (DState empty_TCP false) = (Ok tt, DState t false) ∧
    SerializeTo (mkSerializeOptions false false) (t, NewSerializeBuffer) = (Ok tt, (t, w')) ∧
    Bytes w' = [0; 80; 31; 144; 0; 0; 0; 1; 0; 0; 0; 2; 96; 18; 1; 0; 0; 0; 0; 0; 3; 3; 7; 0].
Proof.
  eexists. edestruct (TCP_reserialize (W:=serializeBuffer)
    [0; 80; 31; 144; 0; 0; 0; 1; 0; 0; 0; 2; 96; 18; 1; 0; 0; 0; 0; 0; 3; 3; 7; 0; 9] empty_TCP false)
    as (w' & Hs & _ & HB).
  - solve_Forall.
  - vm_compute. reflexivity.
  - exists 0, 0. exact NewSerializeBuffer_inv.
  - exists w'. split; [vm_compute; reflexivity|]. split; [exact Hs|]. rewrite HB. vm_compute. reflexivity.
Defined.

(** When the network layer was set and the segment is made of bytes and
    at most 65536 of them, serializing with [ComputeChecksums] succeeds, and
    the receiver's test holds: the checksum of the bytes in the buffer, over
    the pseudo-header, is zero. *)
Theorem TCP_checksum_valid {W} `{SerializeBufferLaws W} opts t (w : W) :
  ComputeChecksums opts = true → buf_ok w → checksum_ready opts t (Bytes w) →
  ∃ t' w', SerializeTo opts (t, w) = (Ok tt, (t', w')) ∧ buf_ok w' ∧ is_u16 (Checksum t') ∧
    Bytes w' = written opts t (Checksum t') ++ Bytes w ∧
    (computeChecksum (Bytes w') IPProtocolTCP (pseudoheader t')).1 = Ok 0.
Proof.
  intros Hcc Hw Hready.
  pose proof (TCP_SerializeTo_spec opts t w (Bytes w) Hw eq_refl (fun _ => Hready)) as Hs. unfold wp in Hs.
  destruct (SerializeTo opts (t, w)) as [[[]| | |] [t' w']]; try done.
  destruct Hs as (Hw' & _ & Hres & HB). unfold checksum_result in Hres. rewrite Hcc in Hres.
  destruct Hres as (Ht' & Hu & Hv). exists t', w'. do 4 (split; [done|]).
  rewrite HB, Ht'. cbn [set_Checksum pseudoheader]. by rewrite (proj1 (TCP_fixed_same opts t)).
Qed.

Lemma TCP_checksum_valid_witness :
  ∃ t' w', SerializeTo (mkSerializeOptions true true) (sample, NewSerializeBuffer) = (Ok tt, (t', w')) ∧
    (computeChecksum (Bytes w') IPProtocolTCP (pseudoheader t')).1 = Ok 0.
Proof.
  destruct (TCP_checksum_valid (mkSerializeOptions true true) sample NewSerializeBuffer)
    as (t' & w' & Hs & _ & _ & _ & Hv).
  - reflexivity.
  - exists 0, 0. exact NewSerializeBuffer_inv.
  - exact sample_ready.
  - exists t', w'. split; [exact Hs | exact Hv].
Defined.

(** The layer in a serialization stack. *)
Definition TCP_object {W} `{SerializeBuffer W} (t : TCP) : layer_object W :=
  LayerObject TCP t LayerTypeTCP SerializeTo.

Lemma TCP_encodes {W} `{SerializeBufferLaws W} opts t payload :
  (ComputeChecksums opts = true → checksum_ready opts t payload) →
  ∀ w, buf_ok w → Bytes w = payload → ∃ t' w', SerializeTo opts (t, w) = (Ok tt, (t', w')) ∧
    buf_ok w' ∧ Layers w' = Layers w ∧ checksum_result opts t t' payload ∧
    Bytes w' = written opts t (Checksum t') ++ payload.
Proof.
  intros Hready w Hw HB. pose proof (TCP_SerializeTo_spec opts t w payload Hw HB Hready) as Hs.
  unfold wp in Hs. destruct (SerializeTo opts (t, w)) as [[[]| | |] [t' w']]; try done.
  exists t', w'. tauto.
Qed.
