(* ===== verification/TcpCheck.v ===== *)
(** * Checks of TCP packets against their connection ([reassembly/tcpcheck.go])

    [TCPSimpleFSM] follows the establishment and the end of a connection and
    rejects packets that do not fit; [TCPOptionCheck] compares packets with the
    sizes that the other side announced. The file proves that the packets the
    machine accepts are exactly the conversations of a small grammar, and
    states when the option check accepts a packet. *)

From S2P Require Import Prelude BaseLayers Tcp.

(** ** Sequence numbers and directions ([reassembly/tcpassembly.go]) *)

Definition invalidSequence : Z := -1.
Definition uint32Max : Z := 0xFFFFFFFF.

Definition Sequence : Type := Z.

Definition Difference (s t : Sequence) : Z :=
  if (s >? uint32Max - Z.quot uint32Max 4) && (t <? Z.quot uint32Max 4)
  then t + uint32Max - s
  else if (t >? uint32Max - Z.quot uint32Max 4) && (s <? Z.quot uint32Max 4)
  then t - (s + uint32Max)
  else t - s.

Definition Add (s : Sequence) (t : Z) : Sequence := Z.land (s + t) uint32Max.

(** A direction is a [bool] in the code, client to server being [false]. *)
Definition TCPFlowDirection : Type := bool.
Definition TCPDirClientToServer : TCPFlowDirection := false.
Definition TCPDirServerToClient : TCPFlowDirection := true.
Definition Reverse (dir : TCPFlowDirection) : TCPFlowDirection := negb dir.

(** ** Options *)

Record tcpStreamOptions : Type := mkStreamOptions {
  mss : Z;
  scale : Z;
  receiveWindow : Z;
}.

Record TCPOptionCheck : Type := mkOptionCheck {
  options0 : tcpStreamOptions;
  options1 : tcpStreamOptions;
}.

Definition getOptions (dir : TCPFlowDirection) (t : TCPOptionCheck) : tcpStreamOptions :=
  if Bool.eqb dir TCPDirClientToServer then options0 t else options1 t.

Definition set_options (dir : TCPFlowDirection) (o : tcpStreamOptions) (t : TCPOptionCheck) : TCPOptionCheck :=
  if Bool.eqb dir TCPDirClientToServer then mkOptionCheck o (options1 t) else mkOptionCheck (options0 t) o.

Definition NewTCPOptionCheck : TCPOptionCheck :=
  mkOptionCheck (mkStreamOptions 0 (-1) 0) (mkStreamOptions 0 (-1) 0).

(** The loop over the options of a SYN. *)
Fixpoint syn_options (os : list TCPOption) (mss scale : Z) : outcome (Z * Z) :=
  match os with
  | [] => mret (mss, scale)
  | o :: os' =>
      mss ← (if OptionType o =? 2 then
               if negb (len (OptionData o) =? 2) then
                 Err (Errorf "MSS option data length expected 2, got %d" [len (OptionData o)])
               else slice_to (OptionData o) 2 ≫= BE_Uint16
             else mret mss);
      scale ← (if OptionType o =? 3 then
                 if negb (len (OptionData o) =? 1) then
                   Err (Errorf "Window scaling length expected: 1, got %d" [len (OptionData o)])
                 else index (OptionData o) 0
               else mret scale);
      syn_options os' mss scale
  end.

(** [int(x)] of an unsigned 64-bit [x]. *)
Definition int_of_uint (v : Z) : Z := if v <? 2 ^ 63 then v else v - 2 ^ 64.

(** The checks of a packet that is not a SYN. *)
Definition check_window (tcp : TCP) (nextSeq : Sequence) (revOptions : tcpStreamOptions) : outcome unit :=
  let length := len (Payload (base tcp)) in
  let diff := Difference nextSeq (Seq tcp) in
  if (diff =? -1) && ((length =? 1) || (length =? 0)) then mret tt
  else if diff <? 0 then
    Err (Errorf "Re-emitted packet (diff:%d,seq:%d,rev-ack:%d)" [diff; Seq tcp; nextSeq])
  else if (mss revOptions >? 0) && (length >? mss revOptions) then
    Err (Errorf "%d > mss (%d)" [length; mss revOptions])
  else if negb (receiveWindow revOptions =? 0) && (scale revOptions <? 0)
          && (diff >? int_of_uint (receiveWindow revOptions)) then
    Err (Errorf "%d > receiveWindow(%d)" [diff; receiveWindow revOptions])
  else mret tt.

(** [Accept] does not use the capture information and the flag it is given. *)
Definition Accept (tcp : TCP) (dir : TCPFlowDirection) (nextSeq : Sequence) : M TCPOptionCheck unit :=
  t ← get;
  _ ← (if SYN tcp then
         r ← lift (syn_options (Options tcp) (-1) (-1));
         put (set_options dir (mkStreamOptions r.1 r.2 (receiveWindow (getOptions dir t))) t)
       else if negb (nextSeq =? invalidSequence) then
         lift (check_window tcp nextSeq (getOptions (Reverse dir) t))
       else mret tt);
  t ← get;
  let o := getOptions dir t in
  let w := Window tcp in
  let w := if scale o >? 0 then u64 (Z.shiftl w (scale o)) else w in
  put (set_options dir (mkStreamOptions (mss o) (scale o) w) t).

(** ** The state machine *)

Record TCPSimpleFSMOptions : Type := mkFSMOptions { SupportMissingEstablishment : bool }.

Record TCPSimpleFSM : Type := mkFSM {
  dir : TCPFlowDirection;
  state : Z;
  options : TCPSimpleFSMOptions;
}.

Definition TCPStateClosed : Z := 0.
Definition TCPStateSynSent : Z := 1.
Definition TCPStateEstablished : Z := 2.
Definition TCPStateCloseWait : Z := 3.
Definition TCPStateLastAck : Z := 4.
Definition TCPStateReset : Z := 5.

Definition NewTCPSimpleFSM (o : TCPSimpleFSMOptions) : TCPSimpleFSM :=
  mkFSM TCPDirClientToServer TCPStateClosed o.

Definition FSM_String (t : TCPSimpleFSM) : string :=
  if state t =? TCPStateClosed then "Closed"
  else if state t =? TCPStateSynSent then "SynSent"
  else if state t =? TCPStateEstablished then "Established"
  else if state t =? TCPStateCloseWait then "CloseWait"
  else if state t =? TCPStateLastAck then "LastAck"
  else if state t =? TCPStateReset then "Reset"
  else "?".

Definition set_state (s : Z) (t : TCPSimpleFSM) : TCPSimpleFSM := mkFSM (dir t) s (options t).
Definition set_dir (d : TCPFlowDirection) (t : TCPSimpleFSM) : TCPSimpleFSM :=
  mkFSM d (state t) (options t).

(** The state guessed for a connection whose beginning was missed. *)
Definition missing_establishment (tcp : TCP) (d : TCPFlowDirection) (t : TCPSimpleFSM) : TCPSimpleFSM :=
  if (state t =? TCPStateClosed) && SupportMissingEstablishment (options t)
     && negb (SYN tcp && negb (ACK tcp))
  then
    if SYN tcp && ACK tcp then set_dir (Reverse d) (set_state TCPStateSynSent t)
    else if FIN tcp && negb (ACK tcp) then set_state TCPStateEstablished t
    else if FIN tcp && ACK tcp then set_dir (Reverse d) (set_state TCPStateCloseWait t)
    else set_state TCPStateEstablished t
  else t.

Definition CheckState (tcp : TCP) (d : TCPFlowDirection) (t : TCPSimpleFSM) : bool * TCPSimpleFSM :=
  let t := missing_establishment tcp d t in
  if state t =? TCPStateClosed then
    if SYN tcp && negb (ACK tcp) then (true, set_state TCPStateSynSent (set_dir d t)) else (false, t)
  else if state t =? TCPStateSynSent then
    if RST tcp then (true, set_state TCPStateReset t)
    else if SYN tcp && ACK tcp && Bool.eqb d (Reverse (dir t)) then
      (true, set_state TCPStateEstablished t)
    else if SYN tcp && negb (ACK tcp) && Bool.eqb d (dir t) then (true, t)
    else (false, t)
  else if state t =? TCPStateEstablished then
    if RST tcp then (true, set_state TCPStateReset t)
    else if FIN tcp then (true, set_dir d (set_state TCPStateCloseWait t))
    else (true, t)
  else if state t =? TCPStateCloseWait then
    if RST tcp then (true, set_state TCPStateReset t)
    else if FIN tcp && ACK tcp && Bool.eqb d (Reverse (dir t)) then
      (true, set_state TCPStateLastAck t)
    else if ACK tcp then (true, t)
    else (false, t)
  else if state t =? TCPStateLastAck then
    if RST tcp then (true, set_state TCPStateReset t)
    else if ACK tcp && Bool.eqb (dir t) d then (true, set_state TCPStateClosed t)
    else (false, t)
  else (false, t).

(** The packets of a sequence that the machine accepts. *)
Definition segment : Type := TCP * TCPFlowDirection.

Fixpoint accepted (t : TCPSimpleFSM) (ps : list segment) : list segment * TCPSimpleFSM :=
  match ps with
  | [] => ([], t)
  | (tcp, d) :: ps' =>
      let '(ok, t') := CheckState tcp d t in
      let '(l, t'') := accepted t' ps' in
      (if ok then (tcp, d) :: l else l, t'')
  end.

(** ** The grammar of conversations *)

Definition from (d : TCPFlowDirection) (p : segment) : Prop := p.2 = d.
Definition syn (p : segment) : Prop := SYN p.1 = true ∧ ACK p.1 = false.
Definition syn_ack (p : segment) : Prop := SYN p.1 = true ∧ ACK p.1 = true.
Definition has_syn (p : segment) : Prop := SYN p.1 = true.
Definition fin (p : segment) : Prop := FIN p.1 = true.
Definition ack (p : segment) : Prop := ACK p.1 = true.
Definition rst (p : segment) : Prop := RST p.1 = true.

(** The conversations of a machine with the options [o]: with
    [SupportMissingEstablishment] each one may begin in the middle. *)
Section grammar.
Context (o : TCPSimpleFSMOptions).
Notation missing := (SupportMissingEstablishment o = true).

(** A SYN from [c] and its retransmissions. *)
Definition opening (c : TCPFlowDirection) (l : list segment) : Prop :=
  ∃ s rs, l = s :: rs ∧ syn s ∧ from c s ∧ Forall (fun p => ¬ rst p ∧ syn p ∧ from c p) rs.

(** The answer to it, or to a SYN that was missed, or the first packet of a
    connection whose beginning was missed. *)
Definition established (l : list segment) (p : segment) : Prop :=
  ¬ rst p ∧ ((∃ c, opening c l ∧ syn_ack p ∧ from (Reverse c) p) ∨
    missing ∧ l = [] ∧ ¬ syn p ∧ (syn_ack p ∨ ¬ fin p)).

(** Then any traffic without a FIN. *)
Definition opened (l : list segment) : Prop :=
  ∃ before p d, l = before ++ p :: d ∧ established before p ∧ Forall (fun p => ¬ rst p ∧ ¬ fin p) d.

(** A FIN from [d], and acknowledgements until the other side's. A connection that
    begins here begins with a FIN without ACK. *)
Definition closing (d : TCPFlowDirection) (l : list segment) : Prop :=
  ∃ before f a, l = before ++ f :: a ∧
    (opened before ∨ missing ∧ before = [] ∧ ¬ has_syn f ∧ ¬ ack f) ∧ (¬ rst f ∧ fin f ∧ from d f) ∧
    Forall (fun p => ¬ rst p ∧ ack p ∧ ¬ (fin p ∧ from (Reverse d) p)) a.

(** The FIN and ACK of the other side, with which a connection may begin, too. *)
Definition last_ack (d : TCPFlowDirection) (l : list segment) : Prop :=
  ∃ before f, l = before ++ [f] ∧ (closing d before ∨ missing ∧ before = [] ∧ ¬ has_syn f) ∧
    ¬ rst f ∧ fin f ∧ ack f ∧ from (Reverse d) f.

(** A whole connection. *)
Definition session (l : list segment) : Prop :=
  ∃ d before a, l = before ++ [a] ∧ last_ack d before ∧ ¬ rst a ∧ ack a ∧ from d a.

(** A connection that is going on. *)
Definition ongoing (l : list segment) : Prop :=
  (∃ c, opening c l) ∨ opened l ∨ (∃ d, closing d l) ∨ (∃ d, last_ack d l).

(** A connection that was reset, maybe by the first packet that was seen of it. *)
Definition aborted (l : list segment) : Prop :=
  ∃ before r, l = before ++ [r] ∧ (ongoing before ∨ missing ∧ before = [] ∧ ¬ syn r) ∧ rst r.

(** Connections one after the other, the last one maybe going on or reset. *)
Definition conversation (l : list segment) : Prop :=
  ∃ ss tail, l = concat ss ++ tail ∧ Forall session ss ∧ (tail = [] ∨ ongoing tail ∨ aborted tail).

(** ** The machine accepts conversations *)

Definition at_state (s : Z) (d : TCPFlowDirection) : TCPSimpleFSM := mkFSM d s o.

(** What the machine has accepted since the last whole connection. *)
Inductive stage : TCPSimpleFSM → list segment → Prop :=
  | stage_closed d : stage (at_state TCPStateClosed d) []
  | stage_syn_sent c l : opening c l → stage (at_state TCPStateSynSent c) l
  | stage_established d l : opened l → stage (at_state TCPStateEstablished d) l
  | stage_close_wait d l : closing d l → stage (at_state TCPStateCloseWait d) l
  | stage_last_ack d l : last_ack d l → stage (at_state TCPStateLastAck d) l
  | stage_reset d l : aborted l → stage (at_state TCPStateReset d) l.

Lemma missing_establishment_open tcp d s d' : s ≠ TCPStateClosed →
  missing_establishment tcp d (at_state s d') = at_state s d'.
Proof. unfold missing_establishment. cbn. by intros ->%Z.eqb_neq. Qed.

(** A packet at a machine with no connection. *)
Lemma CheckState_closed tcp d d0 : ∃ d',
  CheckState tcp d (at_state TCPStateClosed d0) =
    if SYN tcp && negb (ACK tcp) then (true, at_state TCPStateSynSent d)
    else if SupportMissingEstablishment o then
      (true, if RST tcp then at_state TCPStateReset d'
             else if SYN tcp then at_state TCPStateEstablished d'
             else if FIN tcp then if ACK tcp then at_state TCPStateLastAck (Reverse d) else at_state TCPStateCloseWait d
             else at_state TCPStateEstablished d')
    else (false, at_state TCPStateClosed d0).
Proof.
  unfold CheckState, missing_establishment. cbn [state at_state options]. change (TCPStateClosed =? TCPStateClosed) with true. cbn [andb].
  exists (if ACK tcp && (SYN tcp || FIN tcp) then Reverse d else d0).
  destruct (SupportMissingEstablishment o); [|by destruct (SYN tcp), (ACK tcp)].
  destruct (SYN tcp), (ACK tcp), (FIN tcp), (RST tcp), d; reflexivity.
Qed.

(** Evaluate a step of the machine at a known state. *)
Ltac fsm_step :=
  unfold CheckState; rewrite missing_establishment_open by done; cbn -[andb negb Bool.eqb].

Section stages.
Implicit Types (l : list segment) (p : segment).

Lemma opening_start p c : syn p → from c p → opening c [p].
Proof. intros. exists p, []. auto. Qed.

Lemma opening_more c l p : opening c l → ¬ rst p → syn p → from c p → opening c (l ++ [p]).
Proof.
  intros (s & rs & -> & Hs & Hc & Hrs) Hr Hp Hf. exists s, (rs ++ [p]). split; [done|].
  split; [done|]. split; [done|]. apply Forall_app. by rewrite Forall_singleton.
Qed.

Lemma opened_start l p : established l p → opened (l ++ [p]).
Proof. intros. exists l, p, []. auto. Qed.

Lemma opened_answer c l p : opening c l → ¬ rst p → syn_ack p → from (Reverse c) p → opened (l ++ [p]).
Proof. intros. apply opened_start. split; [done|]. left. eauto. Qed.

Lemma opened_more l p : opened l → ¬ rst p → ¬ fin p → opened (l ++ [p]).
Proof.
  intros (b & e & d & -> & He & Hd) Hr Hf. exists b, e, (d ++ [p]). rewrite <-app_assoc. split; [done|]. split; [done|].
  apply Forall_app. by rewrite Forall_singleton.
Qed.

Lemma closing_start d l p : opened l → ¬ rst p → fin p → from d p → closing d (l ++ [p]).
Proof. intros. exists l, p, []. auto 7. Qed.

Lemma closing_more d l p : closing d l → ¬ rst p → ack p → ¬ (fin p ∧ from (Reverse d) p) →
  closing d (l ++ [p]).
Proof.
  intros (b & f & a & -> & Hb & Hf & Ha) Hr Hk Hn. exists b, f, (a ++ [p]).
  rewrite <-app_assoc. split; [done|]. split; [done|]. split; [done|].
  apply Forall_app. by rewrite Forall_singleton.
Qed.

Lemma stage_ongoing t l p : stage t l → state t ≠ TCPStateClosed → state t ≠ TCPStateReset →
  rst p → aborted (l ++ [p]).
Proof.
  intros Ht Hc Hr Hp. exists l, p. split; [done|]. split; [|done]. left. unfold ongoing.
  destruct Ht; cbn in *; try done; eauto.
Qed.
End stages.

(** The first packet of a connection. *)
Lemma closed_stage d0 tcp d :
  let '(ok, t') := CheckState tcp d (at_state TCPStateClosed d0) in
  if ok then stage t' [(tcp, d)] else t' = at_state TCPStateClosed d0.
Proof.
  destruct (CheckState_closed tcp d d0) as (d' & ->).
  destruct (SYN tcp && negb (ACK tcp)) eqn:Es.
  { rewrite andb_true_iff, negb_true_iff in Es. by apply stage_syn_sent, opening_start. }
  assert (¬ syn (tcp, d)) as Hs by (unfold syn; cbn; intros [H1 H2]; by rewrite H1, H2 in Es).
  destruct (SupportMissingEstablishment o) eqn:Em; [|done].
  destruct (RST tcp) eqn:Er; [apply stage_reset; exists [], (tcp, d); auto 6|].
  assert (¬ rst (tcp, d)) as Hr by (unfold rst; cbn; congruence).
  destruct (SYN tcp) eqn:Ey.
  { apply stage_established, (opened_start []). split; [done|]. right. split; [done|]. split; [done|]. split; [done|].
    left. split; [done|]. cbn in *. by destruct (ACK tcp). }
  assert (¬ has_syn (tcp, d)) as Hy by (unfold has_syn; cbn; congruence).
  destruct (FIN tcp) eqn:Ef; [|apply stage_established, (opened_start []); split; [done|]; right; split_and!; try done; right; unfold fin; cbn; congruence].
  destruct (ACK tcp) eqn:Ea.
  - apply stage_last_ack. exists [], (tcp, d). split_and!; try done; [by right|]. unfold from, Reverse. cbn. by rewrite negb_involutive.
  - apply stage_close_wait. exists [], (tcp, d), []. split_and!; try done. right. split_and!; try done. unfold ack. cbn. congruence.
Qed.

Lemma CheckState_stage t l tcp d : stage t l →
  let '(ok, t') := CheckState tcp d t in
  if ok then stage t' (l ++ [(tcp, d)]) ∨ (∃ d', t' = at_state TCPStateClosed d') ∧ session (l ++ [(tcp, d)])
  else t' = t.
Proof.
  intros Ht. pose proof (stage_ongoing t l (tcp, d) Ht) as Habort.
  destruct Ht as [d0|c l Hl|d0 l Hl|d0 l Hl|d0 l Hl|d0 l Hl]; [|fsm_step; cbn in Habort..].
  - pose proof (closed_stage d0 tcp d) as H. destruct (CheckState _ _ _) as [[] t']; [by left|done].
  - destruct (RST tcp) eqn:Hr; [left; apply stage_reset, Habort; done|].
    destruct (SYN tcp && ACK tcp && Bool.eqb d (Reverse c)) eqn:H1.
    { rewrite !andb_true_iff, eqb_true_iff in H1. destruct H1 as [[? ?] ->].
      left. apply stage_established. eapply opened_answer; [done | unfold rst, fin; cbn; congruence | done | done]. }
    destruct (SYN tcp && negb (ACK tcp) && Bool.eqb d c) eqn:H2; [|done].
    rewrite !andb_true_iff, negb_true_iff, eqb_true_iff in H2. destruct H2 as [[? ?] ->].
    left. apply stage_syn_sent, opening_more; [done | unfold rst, fin; cbn; congruence | done | done].
  - destruct (RST tcp) eqn:Hr; [left; apply stage_reset, Habort; done|].
    destruct (FIN tcp) eqn:Hf; left.
    + apply (stage_close_wait d), closing_start; [done | unfold rst, fin; cbn; congruence | done | done].
    + apply stage_established, opened_more; [done | unfold rst, fin; cbn; congruence | unfold rst, fin; cbn; congruence].
  - destruct (RST tcp) eqn:Hr; [left; apply stage_reset, Habort; done|].
    destruct (FIN tcp && ACK tcp && Bool.eqb d (Reverse d0)) eqn:H1.
    { rewrite !andb_true_iff, eqb_true_iff in H1. destruct H1 as [[? ?] ->].
      left. apply stage_last_ack. exists l, (tcp, Reverse d0). split_and!; try done; [by left|]. unfold rst, fin; cbn; congruence. }
    destruct (ACK tcp) eqn:Ha; [|done]. left. apply stage_close_wait, closing_more;
      [done | unfold rst, fin; cbn; congruence | done |]. intros [Hf Hd]. unfold fin, from in Hf, Hd. cbn in Hf, Hd. subst d.
    by rewrite Hf, eqb_reflx in H1.
  - destruct (RST tcp) eqn:Hr; [left; apply stage_reset, Habort; done|].
    destruct (ACK tcp && Bool.eqb d0 d) eqn:H1; [|done].
    rewrite andb_true_iff, eqb_true_iff in H1. destruct H1 as [? ->].
    right. split; [by eexists|]. exists d, l, (tcp, d). split_and!; try done. unfold rst, fin; cbn; congruence.
  - done.
Qed.

(** Since the last whole connection, and before. *)
Definition history (t : TCPSimpleFSM) (l : list segment) : Prop :=
  ∃ ss tail, l = concat ss ++ tail ∧ Forall session ss ∧ stage t tail.

Lemma CheckState_history t l tcp d : history t l →
  let '(ok, t') := CheckState tcp d t in
  if ok then history t' (l ++ [(tcp, d)]) else t' = t.
Proof.
  intros (ss & tail & -> & Hss & Ht). pose proof (CheckState_stage t tail tcp d Ht) as Hs.
  destruct (CheckState tcp d t) as [[] t']; [|done]. destruct Hs as [Hs|[[d' ->] Hs]].
  - exists ss, (tail ++ [(tcp, d)]). by rewrite app_assoc.
  - exists (ss ++ [tail ++ [(tcp, d)]]), []. rewrite concat_app. cbn [concat]. rewrite !app_nil_r, app_assoc.
    split; [done|]. split; [|constructor]. apply Forall_app. by rewrite Forall_singleton.
Qed.

Lemma accepted_history : ∀ ps t l, history t l →
  history (accepted t ps).2 (l ++ (accepted t ps).1).
Proof.
  induction ps as [|[tcp d] ps IH]; intros t l Hl; cbn [accepted]; [by rewrite app_nil_r|].
  pose proof (CheckState_history t l tcp d Hl) as Hs. destruct (CheckState tcp d t) as [ok t'] eqn:E.
  destruct ok.
  - pose proof (IH t' _ Hs) as H. destruct (accepted t' ps) as [l' t'']. cbn in *.
    by rewrite <-app_assoc in H.
  - subst t'. pose proof (IH t l Hl) as H. by destruct (accepted t ps).
Qed.

Lemma history_conversation t l : history t l → conversation l.
Proof.
  intros (ss & tail & -> & Hss & Ht). exists ss, tail. split; [done|]. split; [done|].
  unfold ongoing. destruct Ht; eauto 7.
Qed.

(** ** Conversations are accepted *)

Definition accepts (t : TCPSimpleFSM) (l : list segment) (t' : TCPSimpleFSM) : Prop :=
  accepted t l = (l, t').

Lemma accepts_nil t : accepts t [] t.
Proof. done. Qed.

Lemma accepts_cons t t' t'' p l : CheckState p.1 p.2 t = (true, t') → accepts t' l t'' → accepts t (p :: l) t''.
Proof. destruct p as [tcp d]. unfold accepts. cbn. intros -> ->. done. Qed.

Lemma accepted_app t l1 l2 :
  accepted t (l1 ++ l2) =
    ((accepted t l1).1 ++ (accepted (accepted t l1).2 l2).1, (accepted (accepted t l1).2 l2).2).
Proof.
  revert t; induction l1 as [|[tcp d] l1 IH]; intros t; cbn; [by destruct (accepted t l2)|].
  destruct (CheckState tcp d t) as [ok t']. rewrite IH. destruct (accepted t' l1) as [a t1]. cbn.
  by destruct ok.
Qed.

Lemma accepts_app t t' t'' l1 l2 : accepts t l1 t' → accepts t' l2 t'' → accepts t (l1 ++ l2) t''.
Proof. unfold accepts. intros H1 H2. rewrite accepted_app, H1. cbn. by rewrite H2. Qed.

(** Packets that leave the state as it is. *)
Lemma accepts_stay t l : Forall (fun p => CheckState p.1 p.2 t = (true, t)) l → accepts t l t.
Proof. induction 1; [apply accepts_nil | by eapply accepts_cons]. Qed.

Lemma accepts_snoc t t' t'' l p : accepts t l t' → CheckState p.1 p.2 t' = (true, t'') → accepts t (l ++ [p]) t''.
Proof. intros H1 H2. eapply accepts_app; [done|]. by eapply accepts_cons; [|apply accepts_nil]. Qed.

(** The hypotheses on a packet, as equations on its flags. *)
Ltac on_flags :=
  unfold rst, fin, ack, syn, syn_ack, from in *; destruct_and?; subst;
  repeat match goal with
    | H : ¬ (?b = true) |- _ => apply not_true_iff_false in H
    | H : ?b = _ |- context [?b] => rewrite H
    end.

Lemma accepts_opening d c l : opening c l →
  accepts (at_state TCPStateClosed d) l (at_state TCPStateSynSent c).
Proof.
  intros (s & rs & -> & Hs & Hc & Hrs). eapply (accepts_cons _ (at_state TCPStateSynSent c)).
  - destruct (CheckState_closed s.1 s.2 d) as (d' & ->). by on_flags.
  - apply accepts_stay. eapply Forall_impl; [exact Hrs|]. intros p Hp. fsm_step. on_flags.
    cbn. by rewrite eqb_reflx.
Qed.

(** A connection that begins in the middle. *)
Lemma CheckState_missing d p : SupportMissingEstablishment o = true → ¬ syn p → ∃ d',
  CheckState p.1 p.2 (at_state TCPStateClosed d) =
    (true, if RST p.1 then at_state TCPStateReset d'
           else if SYN p.1 then at_state TCPStateEstablished d'
           else if FIN p.1 then if ACK p.1 then at_state TCPStateLastAck (Reverse p.2) else at_state TCPStateCloseWait p.2
           else at_state TCPStateEstablished d').
Proof.
  intros Hm Hs. destruct (CheckState_closed p.1 p.2 d) as (d' & ->). exists d'. rewrite Hm.
  destruct (SYN p.1 && negb (ACK p.1)) eqn:E; [|done]. rewrite andb_true_iff, negb_true_iff in E. by destruct Hs.
Qed.

Lemma accepts_opened d l : opened l → ∃ d', accepts (at_state TCPStateClosed d) l (at_state TCPStateEstablished d').
Proof.
  intros (b & p & tr & -> & (Hr & Hp) & Htr).
  assert (∃ d', accepts (at_state TCPStateClosed d) (b ++ [p]) (at_state TCPStateEstablished d')) as (d' & Hb).
  { destruct Hp as [(c & Ho & Hsa & Hf)|(Hm & -> & Hs & Hp)].
    - exists c. eapply accepts_snoc; [by apply accepts_opening|]. fsm_step. on_flags. cbn. by rewrite eqb_reflx.
    - destruct (CheckState_missing d p Hm Hs) as (d' & E). exists d'. eapply (accepts_cons _ (at_state TCPStateEstablished d')); [|done].
      rewrite E. apply not_true_iff_false in Hr. rewrite Hr. unfold syn_ack, fin in Hp.
      destruct (SYN p.1), (FIN p.1); naive_solver. }
  exists d'. change (b ++ p :: tr) with (b ++ [p] ++ tr). rewrite app_assoc. eapply accepts_app; [exact Hb|].
  apply accepts_stay. eapply Forall_impl; [exact Htr|]. intros q Hq. fsm_step. by on_flags.
Qed.

Lemma accepts_closing d d' l : closing d' l →
  accepts (at_state TCPStateClosed d) l (at_state TCPStateCloseWait d').
Proof.
  intros (b & f & a & -> & Hb & Hf & Ha).
  assert (accepts (at_state TCPStateClosed d) (b ++ [f]) (at_state TCPStateCloseWait d')) as Hbf.
  { destruct Hb as [[d0 Ho]%(accepts_opened d)|(Hm & -> & Hs & Hk)].
    - eapply accepts_snoc; [done|]. fsm_step. by on_flags.
    - destruct (CheckState_missing d f Hm) as (d0 & E); [by intros []|]. eapply accepts_cons; [|done]. rewrite E. unfold has_syn in *. by on_flags. }
  change (b ++ f :: a) with (b ++ [f] ++ a). rewrite app_assoc. eapply accepts_app; [exact Hbf|].
  clear Hf. apply accepts_stay. eapply Forall_impl; [exact Ha|]. intros p (Hr & Hk & Hn). fsm_step. on_flags.
  destruct (FIN p.1 && true && Bool.eqb p.2 (Reverse d')) eqn:E; [|done].
  rewrite !andb_true_iff, eqb_true_iff in E. naive_solver.
Qed.

Lemma accepts_last_ack d d' l : last_ack d' l →
  accepts (at_state TCPStateClosed d) l (at_state TCPStateLastAck d').
Proof.
  intros (b & f & -> & [Ho|(Hm & -> & Hs)] & Hf).
  - eapply accepts_snoc; [by apply accepts_closing|]. fsm_step. on_flags. cbn. by rewrite eqb_reflx.
  - destruct (CheckState_missing d f Hm) as (d0 & E); [by intros []|]. eapply accepts_cons; [|done]. rewrite E. unfold has_syn in *. on_flags.
    unfold Reverse. by rewrite negb_involutive.
Qed.

Lemma accepts_session d l : session l → ∃ d', accepts (at_state TCPStateClosed d) l (at_state TCPStateClosed d').
Proof.
  intros (d' & b & a & -> & Ho & Ha). exists d'. eapply accepts_snoc; [by apply accepts_last_ack|].
  fsm_step. on_flags. cbn. by rewrite eqb_reflx.
Qed.

Lemma accepts_ongoing d l : ongoing l → ∃ s d', accepts (at_state TCPStateClosed d) l (at_state s d') ∧
  s ≠ TCPStateClosed ∧ s ≠ TCPStateReset ∧ 0 <= s <= 4.
Proof.
  intros [[c H]|[H|[[d' H]|[d' H]]]].
  - eexists _, _. split; [by apply accepts_opening | done].
  - destruct (accepts_opened d l H) as [d' ?]. eexists _, _. split; [done | done].
  - eexists _, _. split; [by apply accepts_closing | done].
  - eexists _, _. split; [by apply accepts_last_ack | done].
Qed.

Lemma accepts_aborted d l : aborted l → ∃ d', accepts (at_state TCPStateClosed d) l (at_state TCPStateReset d').
Proof.
  intros (b & r & -> & [Ho|(Hm & -> & Hs)] & Hr).
  - destruct (accepts_ongoing d b Ho) as (s & d' & Ha & H0 & H5 & Hb). exists d'. eapply accepts_snoc; [done|].
    assert (s = 1 ∨ s = 2 ∨ s = 3 ∨ s = 4) as [->|[->|[->| ->]]] by (unfold TCPStateClosed in H0; lia);
      fsm_step; by on_flags.
  - destruct (CheckState_missing d r Hm Hs) as (d0 & E). exists d0. eapply accepts_cons; [|done]. rewrite E. by on_flags.
Qed.

Lemma accepts_conversation d l : conversation l → ∃ t, accepts (at_state TCPStateClosed d) l t.
Proof.
  intros (ss & tail & -> & Hss & Htail). revert d.
  induction Hss as [|s ss Hs Hss IH]; intros d; cbn [concat app].
  - destruct Htail as [->|[H|H]]; [eexists; apply accepts_nil | |].
    + destruct (accepts_ongoing d tail H) as (s & d' & ? & _). by eexists.
    + destruct (accepts_aborted d tail H) as (d' & ?). by eexists.
  - destruct (accepts_session d s Hs) as [d' H]. destruct (IH d') as [t Ht]. exists t.
    rewrite <-app_assoc. by eapply accepts_app.
Qed.
End grammar.

(** C32 (state machine): a machine with any options accepts, of any sequence of
    packets, a sub-sequence that is a conversation: whole connections one after
    the other (SYN and retransmissions from one side, SYN and ACK from the other,
    traffic, FIN from one side, ACKs, FIN and ACK from the other, a last ACK) and
    then maybe one that is going on or was reset, after which nothing is accepted.
    With [SupportMissingEstablishment] each connection may also begin with a SYN and
    ACK, with traffic, with a FIN, with a FIN and ACK as if the other side's had been
    seen, or with a RST. Every conversation is accepted whole, and a packet that is
    rejected leaves the machine as it was. *)
Theorem TCPSimpleFSM_language (o : TCPSimpleFSMOptions) :
  (∀ ps, conversation o (accepted (NewTCPSimpleFSM o) ps).1) ∧
  (∀ ps, (accepted (NewTCPSimpleFSM o) ps).1 = ps ↔ conversation o ps) ∧
  (∀ ps tcp d, let t := (accepted (NewTCPSimpleFSM o) ps).2 in
     (CheckState tcp d t).1 = false → (CheckState tcp d t).2 = t).
Proof.
  assert (∀ ps, history o (accepted (NewTCPSimpleFSM o) ps).2 (accepted (NewTCPSimpleFSM o) ps).1)
    as Hh by (intros ps; apply (accepted_history o ps _ []); exists [], []; repeat constructor).
  split_and!.
  - intros ps. by eapply history_conversation.
  - intros ps. split; [|by intros [t Ht]%(accepts_conversation o TCPDirClientToServer); rewrite Ht].
    intros <-. by eapply history_conversation.
  - intros ps tcp d t. pose proof (CheckState_history o t _ tcp d (Hh ps)) as H.
    destruct (CheckState tcp d t) as [[] t']; [done|]. done.
Qed.

Definition flagged (syn ack : bool) : TCP :=
  mkTCP (mkBase [] []) 0 0 0 0 0 false syn false false ack false false false false 0 0 0 [] [] [] [] None.

(** A connection whose SYN was missed is taken up with the option, and not without it. *)
Example missing_syn : let sa := (flagged true true, TCPDirServerToClient) in
  let a := (flagged false true, TCPDirClientToServer) in
  (accepted (NewTCPSimpleFSM (mkFSMOptions false)) [sa; a]).1 = [] ∧
  (accepted (NewTCPSimpleFSM (mkFSMOptions true)) [sa; a]).1 = [sa; a].
Proof. by vm_compute. Qed.

(** ** Sequence numbers *)

(** Across the wrap-around the difference is one less than the distance, so
    that the first two numbers on both sides of it count as equal. *)
Lemma Difference_short s t : is_u32 s → is_u32 t →
  s > uint32Max - uint32Max / 4 → t < uint32Max / 4 →
  Difference s t = (t - s) mod 2 ^ 32 - 1.
Proof.
  unfold is_u32, Difference, uint32Max. change (Z.quot 4294967295 4) with 1073741823.
  change (4294967295 / 4) with 1073741823. intros Hs Ht H1 H2.
  destruct (Z.gtb_spec s (4294967295 - 1073741823)); [|lia]. destruct (Z.ltb_spec t 1073741823); [|lia].
  cbn [andb]. change (2 ^ 32) with 4294967296. zdiv.
Qed.

Lemma Difference_zero_wraps : Difference 0xFFFFFFFF 0 = 0.
Proof. reflexivity. Qed.

(** ** The option check *)

(** When a segment that is not a SYN passes: a keep-alive, or a segment that
    is new, no larger than the other side's MSS and within its window, which is
    compared only while that side has not announced a scale. *)
Lemma Accept_data tcp d nextSeq t : SYN tcp = false → nextSeq ≠ invalidSequence →
  let rev := getOptions (Reverse d) t in
  let diff := Difference nextSeq (Seq tcp) in
  let n := len (Payload (base tcp)) in
  (Accept tcp d nextSeq t).1 = Ok tt ↔
    diff = -1 ∧ n <= 1 ∨
    0 <= diff ∧ (0 < mss rev → n <= mss rev) ∧
    (receiveWindow rev ≠ 0 → scale rev < 0 → diff <= int_of_uint (receiveWindow rev)).
Proof.
  intros Hs Hn rev diff n. pose proof (len_nonneg (Payload (base tcp))) as Hlen. fold n in Hlen.
  assert ((Accept tcp d nextSeq t).1 = Ok tt ↔ check_window tcp nextSeq rev = Ok tt) as ->.
  { unfold Accept. cbn. rewrite Hs. destruct (Z.eqb_spec nextSeq invalidSequence); [done|]. cbn.
    unfold lift, mbind, M_bind, get, put. cbn. fold rev.
    destruct (check_window tcp nextSeq rev) as [[]| | |]; cbn; split; first [done | discriminate]. }
  unfold check_window. fold n diff.
  destruct (Z.eqb_spec diff (-1)); cbn [andb].
  - destruct (Z.eqb_spec n 1), (Z.eqb_spec n 0); cbn [orb]; try (split; [intros _; left; lia | done]).
    replace (diff <? 0) with true by lia. split; [done | lia].
  - destruct (Z.ltb_spec diff 0); [split; [done | lia]|].
    destruct (Z.gtb_spec (mss rev) 0), (Z.gtb_spec n (mss rev)); cbn [andb]; try (split; [done | lia]);
      (destruct (Z.eqb_spec (receiveWindow rev) 0), (Z.ltb_spec (scale rev) 0),
         (Z.gtb_spec diff (int_of_uint (receiveWindow rev))); cbn [negb andb];
       first [split; [done | lia] | split; [intros _; right; split_and!; lia | done]]).
Qed.
