(* ===== verification/Ip4.v ===== *)
(** * IPv4 headers ([layers/ip4.go])

    Decoding with the options and the cases of a length field that disagrees
    with the data, serialization with the fixing of lengths and the header
    checksum. *)

From S2P Require Import Prelude SerializeBuffer LayerClasses Flows BaseLayers Enums Checksum.

Definition IPv4EvilBit : Z := 4.
Definition IPv4DontFragment : Z := 2.
Definition IPv4MoreFragments : Z := 1.

Record IPv4Option : Type := mkOption {
  OptionType : Z;
  OptionLength : Z;
  OptionData : bytes;
}.

Record IPv4 : Type := mkIPv4 {
  base : BaseLayer;
  Version : Z;
  IHL : Z;
  TOS : Z;
  Length : Z;
  Id : Z;
  Flags : Z;
  FragOffset : Z;
  TTL : Z;
  Protocol : Z;
  Checksum : Z;
  SrcIP : bytes;
  DstIP : bytes;
  Options : list IPv4Option;
  Padding : bytes;
}.

Definition empty_IPv4 : IPv4 := mkIPv4 (mkBase [] []) 0 0 0 0 0 0 0 0 0 0 [] [] [] [].

Definition set_base (b : BaseLayer) (i : IPv4) : IPv4 :=
  mkIPv4 b (Version i) (IHL i) (TOS i) (Length i) (Id i) (Flags i) (FragOffset i) (TTL i)
    (Protocol i) (Checksum i) (SrcIP i) (DstIP i) (Options i) (Padding i).
Definition set_lengths (ihl length : Z) (i : IPv4) : IPv4 :=
  mkIPv4 (base i) (Version i) ihl (TOS i) length (Id i) (Flags i) (FragOffset i) (TTL i)
    (Protocol i) (Checksum i) (SrcIP i) (DstIP i) (Options i) (Padding i).
Definition set_Checksum (v : Z) (i : IPv4) : IPv4 :=
  mkIPv4 (base i) (Version i) (IHL i) (TOS i) (Length i) (Id i) (Flags i) (FragOffset i) (TTL i)
    (Protocol i) v (SrcIP i) (DstIP i) (Options i) (Padding i).
Definition set_addresses (src dst : bytes) (i : IPv4) : IPv4 :=
  mkIPv4 (base i) (Version i) (IHL i) (TOS i) (Length i) (Id i) (Flags i) (FragOffset i) (TTL i)
    (Protocol i) (Checksum i) src dst (Options i) (Padding i).
Definition set_Options (v : list IPv4Option) (i : IPv4) : IPv4 :=
  mkIPv4 (base i) (Version i) (IHL i) (TOS i) (Length i) (Id i) (Flags i) (FragOffset i) (TTL i)
    (Protocol i) (Checksum i) (SrcIP i) (DstIP i) v (Padding i).
Definition set_Padding (v : bytes) (i : IPv4) : IPv4 :=
  mkIPv4 (base i) (Version i) (IHL i) (TOS i) (Length i) (Id i) (Flags i) (FragOffset i) (TTL i)
    (Protocol i) (Checksum i) (SrcIP i) (DstIP i) (Options i) v.

Definition NetworkFlow (i : IPv4) : outcome Flow := NewFlow EndpointIPv4 (SrcIP i) (DstIP i).

(** ** Serialization *)

(** The sum of the sizes of the options, in a [uint8]. *)
Fixpoint sum_option_sizes (optionSize : Z) (os : list IPv4Option) : Z :=
  match os with
  | [] => optionSize
  | o :: os' =>
      sum_option_sizes
        (if (OptionType o =? 0) || (OptionType o =? 1) then u8 (optionSize + 1)
         else u8 (optionSize + OptionLength o)) os'
  end.

Definition getIPv4OptionSize (i : IPv4) : Z :=
  let optionSize := sum_option_sizes 0 (Options i) in
  if negb (optionSize mod 4 =? 0) then u8 (optionSize + (4 - optionSize mod 4)) else optionSize.

Definition flagsfrags (i : IPv4) : Z := Z.lor (u16 (Z.shiftl (Flags i) 13)) (FragOffset i).

Definition put_header (i : IPv4) (bytes : bytes) : outcome Prelude.bytes :=
  bytes ← set_index bytes 0 (Z.lor (u8 (Z.shiftl (Version i) 4)) (IHL i));
  bytes ← set_index bytes 1 (TOS i);
  bytes ← BE_PutUint16 bytes 2 (Length i);
  bytes ← BE_PutUint16 bytes 4 (Id i);
  bytes ← BE_PutUint16 bytes 6 (flagsfrags i);
  bytes ← set_index bytes 8 (TTL i);
  set_index bytes 9 (Protocol i).

Definition put_addresses (i : IPv4) (bytes : bytes) : outcome Prelude.bytes :=
  bytes ← copy_into bytes 12 16 (SrcIP i);
  copy_into bytes 16 20 (DstIP i).

Section serialize.
Context {W : Type} `{SerializeBuffer W}.

(** The loop over the options; an option too short for its data is an error. *)
Fixpoint put_options (os : list IPv4Option) (bytes : bytes) (curLocation : Z)
  : M (IPv4 * W) Prelude.bytes :=
match os with
| [] => mret bytes
| o :: os' =>
    if OptionType o =? 0 then
      bytes ← lift (set_index bytes curLocation 0);
      put_options os' bytes (curLocation + 1)
    else if OptionType o =? 1 then
      bytes ← lift (set_index bytes curLocation 1);
      put_options os' bytes (curLocation + 1)
    else
      bytes ← lift (set_index bytes curLocation (OptionType o));
      bytes ← lift (set_index bytes (curLocation + 1) (OptionLength o));
      if len (OptionData o) >? u8 (OptionLength o - 2) then
        _ ← sync bytes;
        throw (errors_New "option length is smaller than length of option data")
      else
        bytes ← lift (copy_into bytes (curLocation + 2) (curLocation + OptionLength o) (OptionData o));
        put_options os' bytes (curLocation + OptionLength o)
end.

Definition SerializeTo (opts : SerializeOptions) : M (IPv4 * W) unit :=
ip ← get_fields;
let optionLength := getIPv4OptionSize ip in
bytes ← prepend (20 + optionLength);
all ← buffer_Bytes;
let ip :=
  if FixLengths opts then set_lengths (u8 (5 + optionLength / 4)) (u16 (len all)) ip else ip in
_ ← put_fields ip;
bytes ← lift (put_header ip bytes);
_ ← sync bytes;
a ← lift (AddressTo4 (SrcIP ip) (DstIP ip));
let ip := set_addresses a.1 a.2 ip in
_ ← put_fields ip;
bytes ← lift (put_addresses ip bytes);
bytes ← put_options (Options ip) bytes 20;
bytes ←
  (if ComputeChecksums opts then
     r ← lift (checksum bytes);
     ip ← get_fields;
     _ ← put_fields (set_Checksum r.2 ip);
     mret r.1
   else mret bytes);
ip ← get_fields;
bytes ← lift (BE_PutUint16 bytes 10 (Checksum ip));
sync bytes.
End serialize.

(** ** Decoding *)

Definition append_option (o : IPv4Option) : M (dstate IPv4) unit :=
  modify_layer (fun i => set_Options (Options i ++ [o]) i).

Fixpoint decode_options (fuel : nat) (data : bytes) : M (dstate IPv4) unit :=
  match fuel with
  | O => lift NoFuel
  | S fuel' =>
      if len data >? 0 then
        optionType ← lift (index data 0);
        if optionType =? 0 then
          _ ← append_option (mkOption optionType 1 []);
          rest ← lift (slice_from data 1);
          modify_layer (set_Padding rest)
        else if optionType =? 1 then
          rest ← lift (slice_from data 1);
          _ ← append_option (mkOption optionType 1 []);
          decode_options fuel' rest
        else if len data <? 2 then
          _ ← SetTruncated;
          throw (Errorf "Invalid ip4 option length. Length %d less than 2" [len data])
        else
          optionLength ← lift (index data 1);
          if len data <? optionLength then
            _ ← SetTruncated;
            throw (Errorf "IP option length exceeds remaining IP header size, option type %v length %v"
                     [optionType; optionLength])
          else if optionLength <=? 2 then
            throw (Errorf "Invalid IP option type %v length %d. Must be greater than 2"
                     [optionType; optionLength])
          else
            optionData ← lift (slice data 2 optionLength);
            rest ← lift (slice_from data optionLength);
            _ ← append_option (mkOption optionType optionLength optionData);
            decode_options fuel' rest
      else mret tt
  end.

(** The assignments to the fixed fields; [Contents] is a first guess, and a
    length of zero stands for the length of the data. *)
Definition decode_header (data : bytes) : outcome IPv4 :=
  flagsfrags ← slice data 6 8 ≫= BE_Uint16;
  b0 ← index data 0;
  TOS ← index data 1;
  Length ← slice data 2 4 ≫= BE_Uint16;
  Id ← slice data 4 6 ≫= BE_Uint16;
  TTL ← index data 8;
  Protocol ← index data 9;
  Checksum ← slice data 10 12 ≫= BE_Uint16;
  SrcIP ← slice data 12 16;
  DstIP ← slice data 16 20;
  mret (mkIPv4 (mkBase data []) (Z.shiftr b0 4) (Z.land b0 0x0F) TOS
    (if Length =? 0 then u16 (len data) else Length) Id
    (Z.shiftr flagsfrags 13) (Z.land flagsfrags 0x1FFF) TTL Protocol Checksum SrcIP DstIP [] []).

(** The data up to the length field, when there is that much. *)
Definition cut_to_length (ip : IPv4) (data : bytes) : M (dstate IPv4) bytes :=
  let cmp := len data - Length ip in
  if cmp >? 0 then lift (slice_to data (Length ip))
  else if cmp <? 0 then
    _ ← SetTruncated;
    if IHL ip * 4 >? len data then throw (errors_New "Not all IP header bytes available")
    else mret data
  else mret data.

Definition DecodeFromBytes (data : bytes) : M (dstate IPv4) unit :=
  if len data <? 20 then
    _ ← SetTruncated;
    throw (Errorf "Invalid ip4 header. Length %d less than 20" [len data])
  else
    ip ← lift (decode_header data);
    _ ← put_layer ip;
    if Length ip <? 20 then
      throw (Errorf "Invalid (too small) IP length (%d < 20)" [Length ip])
    else if IHL ip <? 5 then
      throw (Errorf "Invalid (too small) IP header length (%d < 5)" [IHL ip])
    else if u8 (IHL ip * 4) >? Length ip then
      throw (Errorf "Invalid IP header length > IP length (%d > %d)" [IHL ip; Length ip])
    else
      data ← cut_to_length ip data;
      contents ← lift (slice_to data (u8 (IHL ip * 4)));
      payload ← lift (slice_from data (u8 (IHL ip * 4)));
      _ ← modify_layer (set_base (mkBase contents payload));
      options ← lift (slice data 20 (u8 (IHL ip * 4)));
      decode_options (S (length options)) options.

Definition CanDecode : list LayerType := [LayerTypeIPv4].

Definition NextLayerType (md : metadata) (i : IPv4) : LayerType :=
  if has_bits (Flags i) IPv4MoreFragments || negb (FragOffset i =? 0) then LayerTypeFragment
  else enum_LayerType md IPProtocolEnum (Protocol i).

(** ** The wire format *)

(** The ten bytes before the checksum, and the whole fixed header. *)
Definition front_header (i : IPv4) : bytes :=
  [Version i * 16 + IHL i; TOS i] ++ be16 (Length i) ++ be16 (Id i) ++
  be16 (Flags i * 8192 + FragOffset i) ++ [TTL i; Protocol i].

Definition fixed_header (i : IPv4) (csum : Z) : bytes :=
  front_header i ++ be16 csum ++ SrcIP i ++ DstIP i.

Definition encode_option (o : IPv4Option) : bytes :=
  if (OptionType o =? 0) || (OptionType o =? 1) then [OptionType o]
  else OptionType o :: OptionLength o :: OptionData o.

Definition encode_options (os : list IPv4Option) : bytes := concat (map encode_option os).

Record fields_ok (i : IPv4) : Prop := {
  ok_Version : 0 <= Version i < 16;
  ok_IHL : 0 <= IHL i < 16;
  ok_TOS : is_u8 (TOS i);
  ok_Length : is_u16 (Length i);
  ok_Id : is_u16 (Id i);
  ok_Flags : 0 <= Flags i < 8;
  ok_FragOffset : 0 <= FragOffset i < 8192;
  ok_TTL : is_u8 (TTL i);
  ok_Protocol : is_u8 (Protocol i);
  ok_SrcIP : len (SrcIP i) = 4 ∧ is_bytes (SrcIP i);
  ok_DstIP : len (DstIP i) = 4 ∧ is_bytes (DstIP i);
}.

(** An option as the decoder builds them. *)
Definition option_ok (o : IPv4Option) : Prop :=
  is_byte (OptionType o) ∧ is_bytes (OptionData o) ∧
  if (OptionType o =? 0) || (OptionType o =? 1) then OptionLength o = 1 ∧ OptionData o = []
  else OptionLength o = len (OptionData o) + 2 ∧ 2 < OptionLength o < 256.

Definition is_end (o : IPv4Option) : bool := OptionType o =? 0.
Definition end_option : IPv4Option := mkOption 0 1 [].

Definition with_options (os : list IPv4Option) (pad : bytes) (i : IPv4) : IPv4 :=
  set_Padding pad (set_Options os i).

Lemma IPv4_encode_options_cons o os : encode_options (o :: os) = encode_option o ++ encode_options os.
Proof. reflexivity. Qed.

Lemma IPv4_encode_options_bytes os : Forall option_ok os → is_bytes (encode_options os).
Proof.
  induction 1 as [|o os (Ht & Hd & Hl) Hos IH]; [apply is_bytes_nil|].
  rewrite IPv4_encode_options_cons, is_bytes_app. split; [|done]. unfold encode_option.
  destruct (_ || _); rewrite !is_bytes_cons; auto using is_bytes_nil.
  split; [done|]. split; [unfold is_byte; lia | done].
Qed.

(** The size that [getIPv4OptionSize] adds up, when it does not overflow. *)
Lemma sum_option_sizes_eq os : ∀ n, Forall option_ok os → 0 <= n →
  n + len (encode_options os) < 256 → sum_option_sizes n os = n + len (encode_options os).
Proof.
  induction os as [|o os IH]; intros n Hos Hn Hl; cbn [sum_option_sizes]; [unfold len; cbn; lia|].
  apply Forall_cons in Hos as [(_ & _ & Ho) Hos].
  rewrite IPv4_encode_options_cons, len_app in *. pose proof (len_nonneg (encode_options os)).
  assert (len (encode_option o) =
    if (OptionType o =? 0) || (OptionType o =? 1) then 1 else OptionLength o) as He.
  { unfold encode_option. destruct (_ || _); [done|]. rewrite !len_cons. lia. }
  rewrite He in *. destruct (_ || _); rewrite u8_small by (unfold is_u8; lia); rewrite IH by (done || lia); lia.
Qed.

Lemma getIPv4OptionSize_eq i : Forall option_ok (Options i) → len (encode_options (Options i)) mod 4 = 0 →
  len (encode_options (Options i)) <= 40 → getIPv4OptionSize i = len (encode_options (Options i)).
Proof.
  intros Hos Hm Hl. unfold getIPv4OptionSize. rewrite sum_option_sizes_eq by (done || lia).
  rewrite Z.add_0_l, Hm. done.
Qed.

Lemma first_byte v h : 0 <= v < 16 → 0 <= h < 16 → Z.lor (u8 (Z.shiftl v 4)) h = v * 16 + h.
Proof.
  intros Hv Hh. rewrite u8_small by (unfold is_u8; rewrite Z.shiftl_mul_pow2 by lia; lia).
  rewrite lor_disjoint by (lia || (cbn; lia)). lia.
Qed.

Lemma flagsfrags_eq i : fields_ok i → flagsfrags i = Flags i * 8192 + FragOffset i.
Proof.
  intros []. unfold flagsfrags.
  rewrite u16_small by (unfold is_u16; rewrite Z.shiftl_mul_pow2 by lia; lia).
  rewrite lor_disjoint by (lia || (cbn; lia)). lia.
Qed.

(** The edits of the fixed part of the header. *)
Lemma IPv4_put_header_spec i stale n : fields_ok i → length stale = (20 + n)%nat → ∃ b1 s10 s11 rest,
  put_header i stale = Ok b1 ∧ length b1 = length stale ∧
  put_addresses i b1 = Ok (front_header i ++ [s10; s11] ++ SrcIP i ++ DstIP i ++ rest) ∧
  length rest = n.
Proof.
  intros Hok Hn. pose proof (flagsfrags_eq i Hok) as Hff. destruct Hok.
  unfold front_header. rewrite <-Hff.
  assert (length (SrcIP i) = 4%nat ∧ length (DstIP i) = 4%nat) as [Hs Hd] by (unfold len in *; lia).
  unfold put_addresses. destruct (SrcIP i) as [|a0 [|a1 [|a2 [|a3 [|? ?]]]]]; try discriminate Hs.
  destruct (DstIP i) as [|d0 [|d1 [|d2 [|d3 [|? ?]]]]]; try discriminate Hd.
  explode stale Hn. unfold put_header. rewrite first_byte by done. run_slices.
  do 4 eexists. split; [reflexivity|]. split; [reflexivity|]. split; [reflexivity | exact Hn].
Qed.

(** ** Decoding *)

Ltac step := apply wp_bind; first [apply wp_gets | apply wp_lift | apply wp_modify].

(** The fixed header is read back exactly. *)
Lemma IPv4_decode_header_spec data : is_bytes data → 20 <= len data → ∃ i,
  decode_header data = Ok i ∧ fields_ok i ∧ is_u16 (Checksum i) ∧ Options i = [] ∧ Padding i = [] ∧
  ∃ l, is_u16 l ∧ Length i = (if l =? 0 then u16 (len data) else l) ∧
    fixed_header (set_lengths (IHL i) l i) (Checksum i) = take 20 data.
Proof.
  intros Hb Hl. destruct (len_at_least data 20 Hl) as [m Hm]. set (n := len data).
  assert (n = len data) as Hn by done. clearbody n. clear Hl.
  explode data Hm. clear Hm. rewrite !is_bytes_cons in Hb.
  repeat match goal with H : _ ∧ _ |- _ => destruct H as [? H] end.
  match goal with H : is_bytes _ |- _ => clear H end.
  assert (is_u16 (z1 * 256 + z2)) as Hu by (unfold is_u16, is_byte in *; lia).
  unfold decode_header. rewrite <-Hn. run_slices. eexists. split; [reflexivity|].
  change 15 with (Z.ones 4). change 8191 with (Z.ones 13). rewrite !Z.land_ones, !Z.shiftr_div_pow2 by lia.
  change (2 ^ 4) with 16. change (2 ^ 13) with 8192.
  split; [|split; [|split; [done|split; [done|]]]].
  - constructor; cbn [Version IHL TOS Length Id Flags FragOffset TTL Protocol SrcIP DstIP];
      unfold is_byte, is_u8, is_u16 in *; try lia; try zdiv.
    + destruct (_ =? 0); [unfold u16; zdiv | lia].
    + split; [done|]. repeat constructor; unfold is_byte; lia.
    + split; [done|]. repeat constructor; unfold is_byte; lia.
  - cbn [Checksum]. unfold is_byte, is_u16 in *. lia.
  - exists (z1 * 256 + z2). split; [done|]. split; [done|].
    unfold fixed_header, front_header, set_lengths.
    cbn -[Z.mul Z.add Z.div Z.modulo be16]. rewrite !be16_of by done.
    replace (_ / 8192 * 8192 + _) with (z5 * 256 + z6) by (unfold is_byte in *; zdiv).
    rewrite be16_of by done. cbn [app]. f_equal. zdiv.
Qed.

Lemma IPv4_decode_options_spec fuel : ∀ data i tr, (length data < fuel)%nat → Padding i = [] → is_bytes data →
  wp (decode_options fuel data)
    (fun _ s => ∃ new pad, data = encode_options new ++ pad ∧ Forall option_ok new ∧
       (pad = [] ∨ ∃ new', new = new' ++ [end_option]) ∧
       s = DState (with_options (Options i ++ new) pad i) tr)
    (fun _ s => base (dlayer s) = base i) (DState i tr).
Proof.
  induction fuel as [|fuel IH]; intros data i tr Hf Hp Hb; [lia|]. cbn [decode_options].
  destruct data as [|k d].
  { cbn. exists [], []. rewrite !app_nil_r. split; [done|]. split; [apply List.Forall_nil|].
    split; [by left|]. destruct i; cbn in *; by subst. }
  rewrite len_cons. pose proof (len_nonneg d). destruct (Z.gtb_spec (1 + len d) 0); [|lia].
  apply is_bytes_cons in Hb as [Hk Hb].
  step. cbn [owp index]. cbn [length] in Hf.
  assert (∀ o rest, k :: d = encode_option o ++ rest → option_ok o → is_bytes rest →
    (length rest < fuel)%nat →
    wp (decode_options fuel rest)
      (fun _ s => ∃ new' pad', k :: d = encode_options new' ++ pad' ∧ Forall option_ok new' ∧
        (pad' = [] ∨ ∃ new2, new' = new2 ++ [end_option]) ∧
        s = DState (with_options (Options i ++ new') pad' i) tr)
      (fun _ s => base (dlayer s) = base i) (DState (set_Options (Options i ++ [o]) i) tr)) as Hcons.
  { intros o rest Hd Ho Hbr Hlr.
    eapply wp_mono; [| |apply (IH rest (set_Options (Options i ++ [o]) i) tr Hlr Hp Hbr)]; [|done].
    intros _ s (new & pad & -> & Hnew & Hpad & ->). exists (o :: new), pad.
    rewrite IPv4_encode_options_cons, <-app_assoc. split; [done|]. split; [by constructor|]. split.
    - destruct Hpad as [?|[new' ->]]; [by left | right; by exists (o :: new')].
    - cbn. by rewrite <-app_assoc. }
  destruct (Z.eqb_spec k 0) as [->|Hk0].
  - step. exists [end_option], d. split; [done|]. split.
    { repeat constructor; done. }
    split; [right; by exists []|]. done.
  - destruct (Z.eqb_spec k 1) as [->|Hk1].
    + step. cbn [owp]. step. apply Hcons; [done | repeat constructor; done | done | lia].
    + destruct d as [|l d].
      { destruct (Z.ltb_spec (1 + len (@nil Z)) 2) as [_|Hlt]; [|unfold len in Hlt; cbn in Hlt; lia].
        unfold SetTruncated. step. done. }
      apply is_bytes_cons in Hb as [Hlb Hb].
      pose proof (len_nonneg d). rewrite !len_cons. destruct (Z.ltb_spec (1 + (1 + len d)) 2); [lia|].
      step. change (index (k :: l :: d) 1) with (Ok l). cbn [owp].
      destruct (Z.ltb_spec (1 + (1 + len d)) l); [unfold SetTruncated; by step|].
      destruct (Z.leb_spec l 2); [done|].
      assert (slice (k :: l :: d) 2 l = Ok (take (Z.to_nat (l - 2)) d)) as ->.
      { rewrite slice_ok by lens. do 2 f_equal. replace (Z.to_nat l) with (S (S (Z.to_nat (l - 2)))) by lia.
        done. }
      assert (slice_from (k :: l :: d) l = Ok (drop (Z.to_nat (l - 2)) d)) as ->.
      { rewrite slice_from_ok by lens. replace (Z.to_nat l) with (S (S (Z.to_nat (l - 2)))) by lia. done. }
      step. cbn [owp]. step. cbn [owp]. step.
      assert ((k =? 0) || (k =? 1) = false) as Hkb by (rewrite orb_false_iff, !Z.eqb_neq; auto).
      apply Hcons.
      * unfold encode_option. cbn [OptionType OptionLength OptionData]. rewrite Hkb. cbn [app].
        by rewrite take_drop.
      * unfold option_ok. cbn [OptionType OptionLength OptionData]. rewrite Hkb, len_take.
        split; [done|]. split; [by apply is_bytes_take|]. unfold is_byte in Hlb. lia.
      * by apply is_bytes_drop.
      * cbn [length] in Hf. rewrite length_drop. lia.
Qed.

Lemma IPv4_DecodeFromBytes_spec data old tr : is_bytes data →
  wp (DecodeFromBytes data)
    (fun _ s => ∃ i contents payload new pad tr', decode_header data = Ok i ∧
       5 <= IHL i ∧ 4 * IHL i <= Length i ∧ len contents = 4 * IHL i ∧
       contents ++ payload = take (Z.to_nat (Length i)) data ∧
       drop 20 contents = encode_options new ++ pad ∧ Forall option_ok new ∧
       (pad = [] ∨ ∃ new', new = new' ++ [end_option]) ∧
       tr' = tr || (len data <? Length i) ∧
       s = DState (with_options new pad (set_base (mkBase contents payload) i)) tr')
    (fun _ _ => True) (DState old tr).
Proof.
  intros Hb. unfold DecodeFromBytes. apply wp_if; intros Hlen.
  { unfold SetTruncated. by apply wp_bind, wp_modify. }
  apply Z.ltb_ge in Hlen. apply wp_bind, wp_lift.
  destruct (IPv4_decode_header_spec data Hb Hlen) as (i & Hi & Hok & _ & Hos & Hpad & _).
  rewrite Hi. cbn [owp]. apply wp_bind, wp_modify. cbn [dtruncated].
  apply wp_if; intros HL; [done|]. apply Z.ltb_ge in HL.
  apply wp_if; intros Hihl; [done|]. apply Z.ltb_ge in Hihl.
  pose proof (ok_IHL i Hok). rewrite u8_small by (unfold is_u8; lia).
  apply wp_if; intros Hle; [done|]. rewrite Z.gtb_ltb in Hle. apply Z.ltb_ge in Hle.
  assert (∀ data1 tr', data1 = take (Z.to_nat (Length i)) data → IHL i * 4 <= len data1 →
    tr' = tr || (len data <? Length i) → is_bytes data1 →
    wp (contents ← lift (slice_to data1 (IHL i * 4));
        payload ← lift (slice_from data1 (IHL i * 4));
        _ ← modify_layer (set_base (mkBase contents payload));
        options ← lift (slice data1 20 (IHL i * 4));
        decode_options (S (length options)) options)
      (fun _ s => ∃ i' contents payload new pad tr', Ok i = Ok i' ∧
        5 <= IHL i' ∧ 4 * IHL i' <= Length i' ∧ len contents = 4 * IHL i' ∧
        contents ++ payload = take (Z.to_nat (Length i')) data ∧
        drop 20 contents = encode_options new ++ pad ∧ Forall option_ok new ∧
        (pad = [] ∨ ∃ new', new = new' ++ [end_option]) ∧
        tr' = tr || (len data <? Length i') ∧
        s = DState (with_options new pad (set_base (mkBase contents payload) i')) tr')
      (fun _ _ => True) (DState i tr')) as Hrest.
  { intros data1 tr' Hd1 Hl1 -> Hb1.
    apply wp_bind, wp_lift. rewrite slice_to_ok by lia. cbn [owp].
    apply wp_bind, wp_lift. rewrite slice_from_ok by lia. cbn [owp].
    apply wp_bind, wp_modify. apply wp_bind, wp_lift. rewrite slice_ok by lia. cbn [owp].
    set (n := Z.to_nat (IHL i * 4)). cbn [dlayer dtruncated].
    eapply wp_mono; [| |apply IPv4_decode_options_spec; [lia | done | by apply is_bytes_drop, is_bytes_take]]; [|done].
    intros _ s (new & pad & Henc & Hnew & Hend & ->).
    exists i, (take n data1), (drop n data1), new, pad. eexists. split; [done|]. split; [done|].
    split; [lia|]. split; [rewrite len_take; unfold n; lia|].
    split; [by rewrite take_drop|]. split; [exact Henc|]. split; [done|]. split; [done|]. split; [done|].
    cbn. rewrite Hos. done. }
  apply wp_bind. unfold cut_to_length.
  assert (Length i = len data ∨ Length i < len data ∨ len data < Length i) as [Heq|[Hlt|Hgt]] by lia.
  - destruct (Z.gtb_spec (len data - Length i) 0); [lia|].
    destruct (Z.ltb_spec (len data - Length i) 0); [lia|]. apply wp_ret.
    apply Hrest; [by rewrite take_ge by (unfold len in Heq; lia) | lia | | done].
    destruct (Z.ltb_spec (len data) (Length i)); [lia | by rewrite orb_false_r].
  - destruct (Z.gtb_spec (len data - Length i) 0); [|lia].
    apply wp_lift. rewrite slice_to_ok by lia. cbn [owp].
    apply Hrest; [done | rewrite len_take; lia | | by apply is_bytes_take].
    destruct (Z.ltb_spec (len data) (Length i)); [lia | by rewrite orb_false_r].
  - destruct (Z.gtb_spec (len data - Length i) 0); [lia|].
    destruct (Z.ltb_spec (len data - Length i) 0); [|lia].
    unfold SetTruncated. apply wp_bind, wp_modify. cbn [dlayer].
    apply wp_if; intros Hav; [done|]. rewrite Z.gtb_ltb in Hav. apply Z.ltb_ge in Hav.
    apply wp_ret. apply Hrest; [by rewrite take_ge by (unfold len in Hgt; lia) | lia | | done].
    destruct (Z.ltb_spec (len data) (Length i)); [|lia]. by rewrite orb_true_r.
Qed.

(** On any bytes and whatever the layer held before,
    [DecodeFromBytes] ends with a nil error or an error, never with a run-time
    panic. On success the header and payload together are the input cut at the
    length field (the whole input when it is shorter, and then the packet is
    marked truncated), the header is four times [IHL] bytes, the payload is
    shorter than the input, every field is in range and the options are
    well-formed, none of them shorter than three bytes unless it is a padding
    byte. *)
Theorem IPv4_decode_total data old tr : is_bytes data →
  wp (DecodeFromBytes data)
    (fun _ s => let i := dlayer s in
       Contents (base i) ++ Payload (base i) = take (Z.to_nat (Length i)) data ∧
       len (Contents (base i)) = 4 * IHL i ∧ 20 <= 4 * IHL i <= Length i ∧
       len (Payload (base i)) < len data ∧ fields_ok i ∧ Forall option_ok (Options i) ∧
       dtruncated s = tr || (len data <? Length i))
    (fun _ _ => True) (DState old tr).
Proof.
  intros Hb. eapply wp_mono; [|done|apply IPv4_DecodeFromBytes_spec, Hb].
  intros _ s (i & contents & payload & new & pad & tr' & Hi & H5 & HL & Hlc & Hcp & _ & Hnew & _ & -> & ->).
  assert (len contents + len payload <= len data) as Hsum.
  { rewrite <-len_app, Hcp, len_take. lia. }
  pose proof (len_nonneg payload).
  destruct (IPv4_decode_header_spec data Hb ltac:(lia)) as (i' & Hi' & Hok & _).
  rewrite Hi in Hi'. injection Hi' as <-. cbn.
  split; [done|]. split; [done|]. split; [lia|]. split; [lia|].
  split; [destruct Hok; constructor; assumption|]. done.
Qed.

Lemma IPv4_decode_total_witness :
  ∃ i, DecodeFromBytes ([69; 0; 0; 21; 0; 1; 64; 0; 64; 6; 0; 0; 10; 0; 0; 1; 10; 0; 0; 2] ++ [9; 0; 0])
      (DState empty_IPv4 false) = (Ok tt, DState i false) ∧
    Contents (base i) ++ Payload (base i) =
      [69; 0; 0; 21; 0; 1; 64; 0; 64; 6; 0; 0; 10; 0; 0; 1; 10; 0; 0; 2] ++ [9].
Proof.
  pose proof (IPv4_decode_total ([69; 0; 0; 21; 0; 1; 64; 0; 64; 6; 0; 0; 10; 0; 0; 1; 10; 0; 0; 2] ++ [9; 0; 0])
    empty_IPv4 false) as H. unfold wp in H.
  eexists. split; [vm_compute; reflexivity|]. apply H. solve_Forall.
Defined.

(** ** Reading back what was written *)

Lemma IPv4_decode_header_fixed i csum rest : fields_ok i → is_u16 csum → Length i ≠ 0 →
  decode_header (fixed_header i csum ++ rest) = Ok (mkIPv4 (mkBase (fixed_header i csum ++ rest) [])
    (Version i) (IHL i) (TOS i) (Length i) (Id i) (Flags i) (FragOffset i) (TTL i) (Protocol i) csum
    (SrcIP i) (DstIP i) [] []).
Proof.
  intros Hok Hc HL. destruct Hok. unfold decode_header.
  set (data := fixed_header i csum ++ rest). set (base0 := mkBase data []). set (n := len data).
  destruct ok_SrcIP0 as [Hs Hbs], ok_DstIP0 as [Hd Hbd]. unfold len in Hs, Hd.
  unfold data, fixed_header, front_header.
  destruct (SrcIP i) as [|a0 [|a1 [|a2 [|a3 [|? ?]]]]]; try (exfalso; cbn in Hs; lia).
  destruct (DstIP i) as [|d0 [|d1 [|d2 [|d3 [|? ?]]]]]; try (exfalso; cbn in Hd; lia).
  run_slices. fold base0. rewrite !be16_value; try done; [|unfold is_u16; lia].
  apply Z.eqb_neq in HL. rewrite HL.
  change 15 with (Z.ones 4). change 8191 with (Z.ones 13). rewrite !Z.land_ones, !Z.shiftr_div_pow2 by lia.
  change (2 ^ 4) with 16. change (2 ^ 13) with 8192.
  unfold mret, outcome_ret. f_equal. f_equal; zdiv.
Qed.

Lemma IPv4_decode_encode_options fuel : ∀ os i tr, Forall option_ok os → Forall (fun o => is_end o = false) os →
  (length (encode_options os) < fuel)%nat → Padding i = [] →
  wp (decode_options fuel (encode_options os))
    (fun _ s => s = DState (set_Options (Options i ++ os) i) tr) (fun _ _ => False) (DState i tr).
Proof.
  induction fuel as [|fuel IH]; intros os i tr Hos Hend Hf Hp; [lia|]. cbn [decode_options].
  destruct os as [|o os].
  - cbn. rewrite app_nil_r. by destruct i.
  - apply Forall_cons in Hos as [Ho Hos]. apply Forall_cons in Hend as [He Hend].
    rewrite IPv4_encode_options_cons in *. set (rest := encode_options os) in *.
    destruct Ho as (_ & _ & Ho). unfold encode_option in *. unfold is_end in He.
    destruct o as [k l d]; cbn [OptionType OptionLength OptionData] in *.
    pose proof (len_nonneg rest). pose proof (len_nonneg d).
    assert (wp (decode_options fuel rest)
      (fun _ s => s = DState (set_Options (Options i ++ (mkOption k l d :: os)) i) tr)
      (fun _ _ => False) (DState (set_Options (Options i ++ [mkOption k l d]) i) tr)) as Hrest.
    { eapply wp_mono; [| |apply (IH os (set_Options (Options i ++ [mkOption k l d]) i) tr);
        [done | done | fold rest; destruct (_ || _); cbn [app length] in Hf; rewrite ?length_app in Hf; lia | done]].
      - intros _ s ->. f_equal. destruct i. cbn. by rewrite <-app_assoc.
      - done. }
    destruct (Z.eqb_spec k 1) as [->|Hk1].
    + destruct Ho as [-> ->]. cbn [Z.eqb Pos.eqb orb app]. rewrite len_cons.
      destruct (Z.gtb_spec (1 + len rest) 0); [|lia].
      step. cbn [owp index Z.eqb Pos.eqb]. step. cbn [owp]. step. exact Hrest.
    + apply Z.eqb_neq in Hk1 as Hk1b. rewrite He in Ho. rewrite He. cbn [orb app] in *. rewrite !len_cons, len_app.
      destruct (Z.gtb_spec (1 + (1 + (len d + len rest))) 0); [|lia].
      step. cbn [owp index]. rewrite He, Hk1b.
      destruct (Z.ltb_spec (1 + (1 + (len d + len rest))) 2); [lia|].
      step. change (index (k :: l :: d ++ rest) 1) with (Ok l). cbn [owp].
      destruct (Z.ltb_spec (1 + (1 + (len d + len rest))) l); [lia|].
      destruct (Z.leb_spec l 2); [lia|].
      pose proof (slice_app [k; l] d rest 2 l eq_refl) as Hsl.
      pose proof (slice_from_app (k :: l :: d) rest l) as Hsf. cbn [app] in Hsl, Hsf.
      rewrite Hsl by (change (len [k; l]) with 2; lia). rewrite Hsf by (rewrite !len_cons; lia).
      step. cbn [owp]. step. cbn [owp]. step. exact Hrest.
Qed.

(** What a header written from [i] decodes to; [rest] after the packet, such as
    the padding of an Ethernet frame, is cut off. *)
Definition read_back (i : IPv4) (csum : Z) (payload : bytes) : IPv4 :=
  mkIPv4 (mkBase (fixed_header i csum ++ encode_options (Options i)) payload)
    (Version i) (IHL i) (TOS i) (Length i) (Id i) (Flags i) (FragOffset i) (TTL i) (Protocol i) csum
    (SrcIP i) (DstIP i) (Options i) [].

Lemma IPv4_fixed_header_len i csum : fields_ok i → len (fixed_header i csum) = 20.
Proof.
  intros []. unfold fixed_header, front_header. autorewrite with lens. lia.
Qed.

Lemma cut_written i header payload rest s : Length i = len (header ++ payload) →
  cut_to_length i (header ++ payload ++ rest) s = (Ok (header ++ payload), s).
Proof.
  intros HL. unfold cut_to_length. rewrite app_assoc, len_app, HL. pose proof (len_nonneg rest).
  destruct (Z.gtb_spec (len (header ++ payload) + len rest - len (header ++ payload)) 0).
  - unfold lift. by rewrite slice_to_app.
  - destruct (Z.ltb_spec (len (header ++ payload) + len rest - len (header ++ payload)) 0); [lia|].
    assert (rest = []) as -> by (apply len_zero; lia). by rewrite app_nil_r.
Qed.

Lemma IPv4_decode_written i csum payload rest old tr :
  fields_ok i → is_u16 csum → Forall option_ok (Options i) →
  Forall (fun o => is_end o = false) (Options i) →
  4 * IHL i = 20 + len (encode_options (Options i)) → Length i = 4 * IHL i + len payload →
  DecodeFromBytes (fixed_header i csum ++ encode_options (Options i) ++ payload ++ rest) (DState old tr) =
    (Ok tt, DState (read_back i csum payload) tr).
Proof.
  intros Hok Hc Hos Hend Hihl HL.
  pose proof (len_nonneg (encode_options (Options i))). pose proof (len_nonneg payload). pose proof (len_nonneg rest).
  pose proof (IPv4_fixed_header_len i csum Hok) as Hfl. pose proof (ok_IHL i Hok).
  set (header := fixed_header i csum ++ encode_options (Options i)).
  set (data := fixed_header i csum ++ encode_options (Options i) ++ payload ++ rest).
  assert (data = header ++ payload ++ rest) as Hdata by (unfold data, header; by rewrite <-!app_assoc).
  assert (len header = 4 * IHL i) as Hhl by (unfold header; rewrite len_app; lia).
  assert (len data = 4 * IHL i + len payload + len rest) as Hdl by (rewrite Hdata; lens).
  unfold DecodeFromBytes. destruct (Z.ltb_spec (len data) 20); [lia|].
  unfold put_layer, modify_layer, modify, lift, mbind, M_bind. unfold data at 1.
  rewrite IPv4_decode_header_fixed by (done || lia). cbn [dlayer dtruncated Length IHL base].
  rewrite u8_small by (unfold is_u8; lia).
  destruct (Z.ltb_spec (Length i) 20); [lia|]. destruct (Z.ltb_spec (IHL i) 5); [lia|].
  destruct (Z.gtb_spec (IHL i * 4) (Length i)); [lia|].
  assert (slice_to (header ++ payload) (IHL i * 4) = Ok header) as E1 by (apply slice_to_app; lia).
  assert (slice_from (header ++ payload) (IHL i * 4) = Ok payload) as E2 by (apply slice_from_app; lia).
  assert (slice (header ++ payload) 20 (IHL i * 4) = Ok (encode_options (Options i))) as E3.
  { unfold header. rewrite <-app_assoc. apply slice_app; lia. }
  fold data. rewrite Hdata, cut_written by (cbn [Length]; rewrite len_app; lia).
  rewrite E1, E2, E3. cbn [dlayer dtruncated].
  apply wp_returns.
  eapply wp_mono; [| |apply IPv4_decode_encode_options; [done | done | lia | done]]; [|done].
  intros _ s ->. done.
Qed.

(** ** What [SerializeTo] writes *)

Section serialize_spec.
Context {W : Type} `{SerializeBufferLaws W}.

Lemma IPv4_put_options_spec os : ∀ pre old post (s : IPv4 * W), Forall option_ok os →
len old = len (encode_options os) →
put_options os (pre ++ old ++ post) (len pre) s = (Ok (pre ++ encode_options os ++ post), s).
Proof.
induction os as [|o os IH]; intros pre old post s Hos Hl; cbn [put_options].
- change (len (encode_options [])) with 0 in Hl. by apply len_zero in Hl as ->.
- apply Forall_cons in Hos as [(_ & _ & Ho) Hos].
  rewrite IPv4_encode_options_cons, len_app in Hl. rewrite IPv4_encode_options_cons.
  pose proof (len_nonneg (encode_options os)). unfold encode_option in *.
  unfold mbind, M_bind, lift in *.
  destruct old as [|x old].
  { exfalso. change (len (@nil Z)) with 0 in Hl. pose proof (len_nonneg (OptionData o)).
    destruct (_ || _); rewrite !len_cons in Hl; [change (len (@nil Z)) with 0 in Hl|]; lia. }
  rewrite len_cons in Hl.
  assert (∀ x', len old = len (encode_options os) →
    put_options os (pre ++ x' :: old ++ post) (len pre + 1) s =
      (Ok (pre ++ x' :: encode_options os ++ post), s)) as Hone.
  { intros x' Hold. specialize (IH (pre ++ [x']) old post s Hos Hold).
    rewrite <-!app_assoc, len_app in IH. cbn [app] in IH. exact IH. }
  destruct (Z.eqb_spec (OptionType o) 0) as [Ek|Hk0]; [|destruct (Z.eqb_spec (OptionType o) 1) as [Ek|Hk1]];
    cbn [orb] in *; cbn [app]; rewrite set_index_app by done.
  + change (len [OptionType o]) with 1 in Hl. rewrite Ek. apply Hone. lia.
  + change (len [OptionType o]) with 1 in Hl. rewrite Ek. apply Hone. lia.
  + destruct Ho as [Hlo Hrange]. rewrite !len_cons in Hl.
    destruct old as [|y old]; [exfalso; change (len (@nil Z)) with 0 in Hl; pose proof (len_nonneg (OptionData o)); lia|].
    rewrite len_cons in Hl.
    pose proof (set_index_app (pre ++ [OptionType o]) y (old ++ post) (OptionLength o) (len pre + 1)
      ltac:(rewrite len_app; done)) as Hs. rewrite <-!app_assoc in Hs. cbn [app] in Hs.
    cbn [app]. rewrite Hs, u8_small by (unfold is_u8; lia).
    destruct (Z.gtb_spec (len (OptionData o)) (OptionLength o - 2)); [lia|].
    rewrite <-(take_drop (Z.to_nat (len (OptionData o))) old).
    set (dst := take _ old). set (old' := drop _ old).
    assert (len dst = len (OptionData o)) as Hdst by (unfold dst; lens).
    pose proof (copy_into_app (pre ++ [OptionType o; OptionLength o]) dst (old' ++ post) (OptionData o)
      (len pre + 2) (len pre + OptionLength o) ltac:(rewrite len_app; done) ltac:(lia) Hdst) as Hc.
    rewrite <-!app_assoc in Hc. cbn [app] in Hc. rewrite <-app_assoc, Hc.
    specialize (IH (pre ++ [OptionType o; OptionLength o] ++ OptionData o) old' post s Hos
      ltac:(unfold old'; lens)).
    rewrite <-!app_assoc in IH. cbn [app] in IH.
    replace (len pre + OptionLength o) with (len (pre ++ OptionType o :: OptionLength o :: OptionData o)) by lens.
    rewrite <-app_assoc. exact IH.
Qed.

(** The layer after its lengths and addresses are set, for [total] bytes in the buffer. *)
Definition prepared (opts : SerializeOptions) (src dst : bytes) (total : Z) (i : IPv4) : IPv4 :=
set_addresses src dst
  (if FixLengths opts then set_lengths (u8 (5 + getIPv4OptionSize i / 4)) (u16 total) i else i).

Lemma prepared_Options opts src dst total i : Options (prepared opts src dst total i) = Options i.
Proof. unfold prepared. by destruct (FixLengths opts). Qed.

(** What a layer has to satisfy for its header to be written without loss. *)
Record serializable (opts : SerializeOptions) (i : IPv4) (src dst : bytes) (total : Z) : Prop := {
ser_addresses : AddressTo4 (SrcIP i) (DstIP i) = Ok (src, dst);
ser_fields : fields_ok (prepared opts src dst total i);
ser_options : Forall option_ok (Options i);
ser_aligned : len (encode_options (Options i)) mod 4 = 0;
ser_size : len (encode_options (Options i)) <= 40;
}.

(** The checksum branch, on the finished header. *)
Lemma header_checksum i a b os : fields_ok i → Forall option_ok os →
len (encode_options os) mod 4 = 0 → len (encode_options os) <= 40 →
∃ c, checksum (front_header i ++ [a; b] ++ SrcIP i ++ DstIP i ++ encode_options os) =
    Ok (front_header i ++ [0; 0] ++ SrcIP i ++ DstIP i ++ encode_options os, c) ∧ is_u16 c ∧
  tcpipChecksum (fixed_header i c ++ encode_options os) 0 = Ok 0.
Proof.
intros [] Hos Hm Hl.
destruct (checksum_valid (front_header i) a b (SrcIP i ++ DstIP i ++ encode_options os))
  as (c & Hc & Hu & Hv).
- unfold front_header. rewrite !is_bytes_app, !is_bytes_cons. unfold is_byte.
  repeat split; auto using is_bytes_nil, be16_bytes; unfold is_u8 in *; lia.
- rewrite !is_bytes_app. split; [apply ok_SrcIP0|]. split; [apply ok_DstIP0 | by apply IPv4_encode_options_bytes].
- reflexivity.
- rewrite !len_app. zdiv.
- rewrite !len_app. lia.
- exists c. split; [done|]. split; [done|]. unfold fixed_header. by rewrite <-!app_assoc.
Qed.

Definition checksum_result (opts : SerializeOptions) (i1 i' : IPv4) : Prop :=
if ComputeChecksums opts then
  i' = set_Checksum (Checksum i') i1 ∧ is_u16 (Checksum i') ∧
  tcpipChecksum (fixed_header i1 (Checksum i') ++ encode_options (Options i1)) 0 = Ok 0
else i' = i1.

Lemma IPv4_SerializeTo_spec opts i src dst (w : W) :
let total := 20 + len (encode_options (Options i)) + len (Bytes w) in
let i1 := prepared opts src dst total i in
buf_ok w → serializable opts i src dst total →
wp (SerializeTo opts)
  (fun _ '(i', w') => buf_ok w' ∧ Layers w' = Layers w ∧ checksum_result opts i1 i' ∧
     Bytes w' = fixed_header i1 (Checksum i') ++ encode_options (Options i) ++ Bytes w)
  (fun _ _ => False) (i, w).
Proof.
intros total i1 Hw [Hadr Hok Hos Hm Hl]. unfold SerializeTo.
apply wp_bind, wp_get_fields. cbv zeta. rewrite (getIPv4OptionSize_eq i) by done.
set (enc := encode_options (Options i)) in *. pose proof (len_nonneg enc).
apply wp_bind, wp_prepend; [done | lia |]. intros stale w1 Hw1 Hst HB1 HL1.
apply wp_bind, wp_buffer_Bytes. rewrite HB1, len_app, Hst. fold total.
set (i0 := if FixLengths opts then _ else i).
assert (i1 = set_addresses src dst i0) as Hi1
  by (unfold i1, i0, prepared; rewrite getIPv4OptionSize_eq by done; done).
destruct (IPv4_put_header_spec i1 stale (length enc)) as (b1 & s10 & s11 & rest & Hb1 & Hlen1 & Hb2 & Hrest);
  [done | unfold len in Hst; lia |].
apply wp_bind, wp_put_fields, wp_bind, wp_lift.
assert (put_header i0 stale = Ok b1) as -> by (rewrite <-Hb1, Hi1; done). cbn [owp].
apply wp_bind. eapply wp_sync; [done | exact HB1 | exact Hlen1 |]. intros w2 Hw2 HB2 HL2.
assert (SrcIP i0 = SrcIP i ∧ DstIP i0 = DstIP i) as [-> ->] by (unfold i0; by destruct (FixLengths opts)).
apply wp_bind, wp_lift. rewrite Hadr. cbn [owp fst snd]. rewrite <-Hi1.
apply wp_bind, wp_put_fields, wp_bind, wp_lift. rewrite Hb2. cbn [owp].
assert (Options i1 = Options i) as Hoi by apply prepared_Options. rewrite Hoi.
set (image csum := front_header i1 ++ csum ++ SrcIP i1 ++ DstIP i1 ++ enc).
apply wp_bind. eapply wp_of_eq.
{ pose proof (IPv4_put_options_spec (Options i) (front_header i1 ++ [s10; s11] ++ SrcIP i1 ++ DstIP i1) rest []
    (i1, w2) Hos ltac:(unfold len; by rewrite Hrest)) as Hput.
  rewrite !app_nil_r, <-!app_assoc in Hput. fold enc in Hput.
  replace 20 with (len (front_header i1 ++ [s10; s11] ++ SrcIP i1 ++ DstIP i1))
    by (pose proof (IPv4_fixed_header_len i1 0 Hok) as Hfl; unfold fixed_header in Hfl;
        rewrite !len_app in Hfl |- *; change (len [s10; s11]) with (len (be16 0)); lia).
  exact Hput. }
assert (∀ a b i' w3, (ComputeChecksums opts = true → checksum_result opts i1 i') →
  (ComputeChecksums opts = false → i' = i1) →
  w3 = w2 → wp (bytes ← lift (BE_PutUint16 (image [a; b]) 10 (Checksum i')); sync bytes)
    (fun _ '(i', w') => buf_ok w' ∧ Layers w' = Layers w ∧ checksum_result opts i1 i' ∧
       Bytes w' = fixed_header i1 (Checksum i') ++ enc ++ Bytes w) (fun _ _ => False) (i', w3)) as Hlast.
{ intros a b i' w3 H1' H2' ->. apply wp_bind, wp_lift. unfold BE_PutUint16, image.
  rewrite (write_at_app (front_header i1) [a; b]) by done. cbn [owp].
  eapply wp_sync; [done | exact HB2 | |].
  { rewrite Hlen1. pose proof (IPv4_fixed_header_len i1 (Checksum i') Hok) as Hfl.
    unfold fixed_header, len in *. rewrite !length_app in *. lia. }
  intros w4 Hw4 HB4 HL4. split; [done|]. split; [congruence|].
  split; [|rewrite HB4; unfold fixed_header; by rewrite <-!app_assoc].
  destruct (ComputeChecksums opts) eqn:Hcc; [auto|]. unfold checksum_result. rewrite Hcc. auto. }
apply wp_bind, wp_if; intros Hcc.
- destruct (header_checksum i1 s10 s11 (Options i) Hok Hos Hm Hl) as (c & Hc & Hu & Hv).
  apply wp_bind, wp_lift. fold enc in Hc. rewrite Hc. cbn [owp snd fst].
  apply wp_bind, wp_get_fields, wp_bind, wp_put_fields, wp_ret, wp_bind, wp_get_fields.
  apply Hlast; [|congruence | done]. intros _. unfold checksum_result. rewrite Hcc.
  split; [done|]. split; [done|]. rewrite Hoi. exact Hv.
- apply wp_ret, wp_bind, wp_get_fields. apply Hlast; [congruence | done | done].
Qed.
End serialize_spec.

(** The addresses [AddressTo4] gives are the four bytes that go on the wire. *)
Lemma AddressTo4_ok s d src dst : AddressTo4 s d = Ok (src, dst) → len src = 4 ∧ len dst = 4.
Proof.
  unfold AddressTo4, checkIPv4Address, wrap_error, To4.
  assert (∀ a c : bytes, (if len a =? 4 then Some a
    else if (len a =? 16) && bool_decide (take 12 a = v4InV6Prefix) then Some (drop 12 a) else None) = Some c →
    len c = 4) as Hto4.
  { intros a c. destruct (Z.eqb_spec (len a) 4); [by intros [= <-]|].
    destruct (Z.eqb_spec (len a) 16); [|done]. cbn [andb]. case_bool_decide; [|done].
    intros [= <-]. rewrite len_drop. lia. }
  destruct (if len s =? 4 then _ else _) as [s'|] eqn:Es; [|destruct (len s =? 16); done].
  destruct (if len d =? 4 then _ else _) as [d'|] eqn:Ed; [|destruct (len d =? 16); done].
  cbn. intros [= <- <-]. eauto.
Qed.

Lemma IPv4_serialize_decode {W} `{SerializeBufferLaws W} opts i src dst (w : W) rest old tr :
  let total := 20 + len (encode_options (Options i)) + len (Bytes w) in
  FixLengths opts = true → buf_ok w → serializable opts i src dst total → total < 65536 →
  Forall (fun o => is_end o = false) (Options i) → is_u16 (Checksum i) →
  ∃ i' w', SerializeTo opts (i, w) = (Ok tt, (i', w')) ∧ buf_ok w' ∧ Layers w' = Layers w ∧
    DecodeFromBytes (Bytes w' ++ rest) (DState old tr) = (Ok tt,
      DState (read_back (prepared opts src dst total i) (Checksum i') (Bytes w)) tr) ∧
    4 * IHL i' = 20 + len (encode_options (Options i)) ∧ Length i' = total.
Proof.
  intros total Hfix Hw Hser Htot Hend Hcs.
  pose proof (IPv4_SerializeTo_spec opts i src dst w Hw Hser) as Hs. cbv zeta in Hs. fold total in Hs.
  unfold wp in Hs. destruct (SerializeTo opts (i, w)) as [[[]| | |] [i' w']]; try done.
  destruct Hs as (Hw' & HLay & Hres & HB). destruct Hser as [Hadr Hok Hos Hm Hl].
  pose proof (len_nonneg (encode_options (Options i))). pose proof (len_nonneg (Bytes w)).
  set (i1 := prepared opts src dst total i) in *.
  assert (4 * IHL i1 = 20 + len (encode_options (Options i)) ∧ Length i1 = total) as [Hihl HL].
  { unfold i1, prepared. rewrite Hfix. cbn [set_addresses set_lengths IHL Length].
    rewrite getIPv4OptionSize_eq by done. rewrite u8_small, u16_small by (unfold is_u8, is_u16; zdiv). zdiv. }
  assert (Options i1 = Options i) as Hoi by apply prepared_Options.
  assert (Checksum i1 = Checksum i) as Hci by (unfold i1, prepared; by rewrite Hfix).
  assert (IHL i' = IHL i1 ∧ Length i' = Length i1 ∧ is_u16 (Checksum i')) as (Ei & El & Hu).
  { unfold checksum_result in Hres. destruct (ComputeChecksums opts).
    - destruct Hres as (-> & ? & _). done.
    - subst i'. by rewrite Hci. }
  exists i', w'. do 3 (split; [done|]). split; [|by rewrite Ei, El].
  rewrite HB, <-!app_assoc, <-Hoi. apply IPv4_decode_written; rewrite ?Hoi; try done. lia.
Qed.

(** An IPv4 layer with in-range fields, addresses that are
    IPv4 (in 4- or 16-byte form) and well-formed options filling a multiple of
    four bytes, serialized with [FixLengths] onto a payload it can carry,
    decodes back to the same fields, options and payload, with [IHL] and
    [Length] set to the real sizes; whatever follows the packet, such as
    Ethernet padding, is cut off. *)
Theorem IPv4_roundtrip {W} `{SerializeBufferLaws W} opts i src dst (w : W) rest old tr :
  let total := 20 + len (encode_options (Options i)) + len (Bytes w) in
  FixLengths opts = true → buf_ok w → serializable opts i src dst total → total < 65536 →
  Forall (fun o => is_end o = false) (Options i) → is_u16 (Checksum i) →
  ∃ i' w', SerializeTo opts (i, w) = (Ok tt, (i', w')) ∧ buf_ok w' ∧
    DecodeFromBytes (Bytes w' ++ rest) (DState old tr) = (Ok tt,
      DState (read_back (prepared opts src dst total i) (Checksum i') (Bytes w)) tr) ∧
    4 * IHL i' = 20 + len (encode_options (Options i)) ∧ Length i' = total.
Proof.
  intros total Hfix Hw Hser Htot Hend Hcs.
  destruct (IPv4_serialize_decode opts i src dst w rest old tr Hfix Hw Hser Htot Hend Hcs)
    as (i' & w' & ? & ? & _ & ? & ? & ?). by exists i', w'.
Qed.

Definition sample : IPv4 :=
  mkIPv4 (mkBase [] []) 4 0 0 0 77 2 0 64 6 0 (v4InV6Prefix ++ [10; 0; 0; 1]) [10; 0; 0; 2]
    [mkOption 148 4 [0; 0]] [].

Lemma sample_serializable : serializable (mkSerializeOptions true true) sample [10; 0; 0; 1] [10; 0; 0; 2] 24.
Proof.
  constructor.
  - vm_compute. reflexivity.
  - constructor; vm_compute; repeat split; try discriminate; repeat constructor; discriminate.
  - repeat constructor; unfold is_byte; cbn; lia.
  - reflexivity.
  - vm_compute. discriminate.
Qed.

Lemma IPv4_roundtrip_witness :
  ∃ i' w', SerializeTo (mkSerializeOptions true true) (sample, NewSerializeBuffer) = (Ok tt, (i', w')) ∧
    Length i' = 24.
Proof.
  destruct (IPv4_roundtrip (mkSerializeOptions true true) sample [10; 0; 0; 1] [10; 0; 0; 2]
    NewSerializeBuffer [] empty_IPv4 false) as (i' & w' & Hs & _ & _ & _ & HL).
  - reflexivity.
  - exists 0, 0. exact NewSerializeBuffer_inv.
  - exact sample_serializable.
  - vm_compute. reflexivity.
  - repeat constructor.
  - vm_compute. split; [discriminate | reflexivity].
  - exists i', w'. split; [exact Hs | exact HL].
Defined.

(** Serialized with [ComputeChecksums], the header in the
    buffer passes the receiver's test: the one's-complement sum over its bytes,
    checksum included, is zero. *)
Theorem IPv4_checksum_valid {W} `{SerializeBufferLaws W} opts i src dst (w : W) :
  let total := 20 + len (encode_options (Options i)) + len (Bytes w) in
  ComputeChecksums opts = true → buf_ok w → serializable opts i src dst total →
  ∃ i' w' header, SerializeTo opts (i, w) = (Ok tt, (i', w')) ∧ Bytes w' = header ++ Bytes w ∧
    len header = 20 + len (encode_options (Options i)) ∧ is_u16 (Checksum i') ∧
    tcpipChecksum header 0 = Ok 0.
Proof.
  intros total Hcc Hw Hser.
  pose proof (IPv4_SerializeTo_spec opts i src dst w Hw Hser) as Hs. cbv zeta in Hs. fold total in Hs.
  unfold wp in Hs. destruct (SerializeTo opts (i, w)) as [[[]| | |] [i' w']]; try done.
  destruct Hs as (Hw' & _ & Hres & HB). unfold checksum_result in Hres. rewrite Hcc in Hres.
  destruct Hres as (_ & Hu & Hv). rewrite prepared_Options in Hv.
  exists i', w'. eexists. split; [done|]. split; [rewrite HB, app_assoc; done|].
  split; [rewrite len_app, IPv4_fixed_header_len by apply Hser; done|]. done.
Qed.

Lemma IPv4_checksum_valid_witness :
  ∃ i' w', SerializeTo (mkSerializeOptions true true) (sample, NewSerializeBuffer) = (Ok tt, (i', w')) ∧
    tcpipChecksum (Bytes w') 0 = Ok 0.
Proof.
  destruct (IPv4_checksum_valid (mkSerializeOptions true true) sample [10; 0; 0; 1] [10; 0; 0; 2]
    NewSerializeBuffer) as (i' & w' & h & Hs & HB & _ & _ & Hv).
  - reflexivity.
  - exists 0, 0. exact NewSerializeBuffer_inv.
  - exact sample_serializable.
  - exists i', w'. split; [exact Hs|]. rewrite HB. change (Bytes NewSerializeBuffer) with (@nil Z).
    rewrite app_nil_r. exact Hv.
Defined.

(** An option whose declared length is below two makes [SerializeTo] panic:
    the length check is done on the [uint8] difference, which wraps around. *)
Lemma IPv4_short_option_panics :
  fst (SerializeTo (mkSerializeOptions true true)
    (mkIPv4 (mkBase [] []) 4 0 0 0 0 0 0 64 6 0 [10; 0; 0; 1] [10; 0; 0; 2]
      [mkOption 7 1 [9]; mkOption 7 3 [9]] [], NewSerializeBuffer)) = Panic SliceOutOfRange.
Proof. vm_compute. reflexivity. Qed.
