(* ===== verification/Udp.v ===== *)
(** * UDP headers ([layers/udp.go])

    Decoding, with its three readings of the length field, and serialization
    with jumbograms over IPv6 and the checksum over the pseudo-header. *)

From S2P Require Import Prelude SerializeBuffer LayerClasses Flows BaseLayers Enums Checksum.

Record UDP : Type := mkUDP {
  base : BaseLayer;
  SrcPort : Z;
  DstPort : Z;
  Length : Z;
  Checksum : Z;
  sPort : bytes;
  dPort : bytes;
  pseudoheader : option network_layer;
}.

Definition empty_UDP : UDP := mkUDP (mkBase [] []) 0 0 0 0 [] [] None.

Definition set_base (b : BaseLayer) (u : UDP) : UDP :=
  mkUDP b (SrcPort u) (DstPort u) (Length u) (Checksum u) (sPort u) (dPort u) (pseudoheader u).
Definition set_Length (v : Z) (u : UDP) : UDP :=
  mkUDP (base u) (SrcPort u) (DstPort u) v (Checksum u) (sPort u) (dPort u) (pseudoheader u).
Definition set_Checksum (v : Z) (u : UDP) : UDP :=
  mkUDP (base u) (SrcPort u) (DstPort u) (Length u) v (sPort u) (dPort u) (pseudoheader u).
Definition set_pseudoheader (v : option network_layer) (u : UDP) : UDP :=
  mkUDP (base u) (SrcPort u) (DstPort u) (Length u) (Checksum u) (sPort u) (dPort u) v.

Definition decode_header (data : bytes) (u : UDP) : outcome UDP :=
  sport ← slice data 0 2;
  SrcPort ← BE_Uint16 sport;
  dport ← slice data 2 4;
  DstPort ← BE_Uint16 dport;
  Length ← slice data 4 6 ≫= BE_Uint16;
  Checksum ← slice data 6 8 ≫= BE_Uint16;
  contents ← slice_to data 8;
  mret (mkUDP (mkBase contents []) SrcPort DstPort Length Checksum sport dport (pseudoheader u)).

Definition set_Payload (payload : bytes) : M (dstate UDP) unit :=
  modify_layer (fun u => set_base (mkBase (Contents (base u)) payload) u).

Definition DecodeFromBytes (data : bytes) : M (dstate UDP) unit :=
  if len data <? 8 then
    _ ← SetTruncated;
    throw (Errorf "Invalid UDP header. Length %d less than 8" [len data])
  else
    old ← get_layer;
    udp ← lift (decode_header data old);
    _ ← put_layer udp;
    if Length udp >=? 8 then
      let hlen := Length udp in
      hlen ← (if hlen >? len data then _ ← SetTruncated; mret (len data) else mret hlen);
      payload ← lift (slice data 8 hlen);
      set_Payload payload
    else if Length udp =? 0 then
      payload ← lift (slice_from data 8);
      set_Payload payload
    else throw (Errorf "UDP packet too small: %d bytes" [Length udp]).

Definition IPProtocolUDP_checksum {W} (headerAndPayload : bytes) : M (UDP * W) Z :=
  on_fst (zoom pseudoheader set_pseudoheader (computeChecksum headerAndPayload IPProtocolUDP)).

Definition is_IPv6 (p : option network_layer) : bool :=
  match p with Some (NetIPv6 _ _) => true | _ => false end.

Definition SerializeTo {W} `{SerializeBuffer W} (opts : SerializeOptions) : M (UDP * W) unit :=
  u ← get_fields;
  payload ← buffer_Bytes;
  let jumbo := is_IPv6 (pseudoheader u) && (len payload + 8 >? 65535) in
  bytes ← prepend 8;
  bytes ← lift (BE_PutUint16 bytes 0 (SrcPort u));
  bytes ← lift (BE_PutUint16 bytes 2 (DstPort u));
  let u :=
    if FixLengths opts then
      if jumbo then set_Length 0 u else set_Length (u16 (u16 (len payload) + 8)) u
    else u in
  _ ← put_fields u;
  bytes ← lift (BE_PutUint16 bytes 4 (Length u));
  bytes ←
    (if ComputeChecksums opts then
       bytes ← lift (set_index bytes 6 0);
       bytes ← lift (set_index bytes 7 0);
       _ ← sync bytes;
       all ← buffer_Bytes;
       csum ← IPProtocolUDP_checksum all;
       u ← get_fields;
       _ ← put_fields (set_Checksum csum u);
       mret bytes
     else mret bytes);
  u ← get_fields;
  bytes ← lift (BE_PutUint16 bytes 6 (Checksum u));
  sync bytes.

Definition CanDecode : list LayerType := [LayerTypeUDP].

Definition NextLayerType (ports : port_table) (u : UDP) : LayerType :=
  let lt := port_LayerType ports (DstPort u) in
  if negb (lt =? LayerTypePayload) then lt else port_LayerType ports (SrcPort u).

Definition TransportFlow (u : UDP) : outcome Flow := NewFlow EndpointUDPPort (sPort u) (dPort u).

Definition SetInternalPortsForTesting (u : UDP) : UDP :=
  mkUDP (base u) (SrcPort u) (DstPort u) (Length u) (Checksum u) (be16 (SrcPort u)) (be16 (DstPort u))
    (pseudoheader u).

(** ** The wire format *)

Record fields_ok (u : UDP) : Prop := {
  ok_SrcPort : is_u16 (SrcPort u);
  ok_DstPort : is_u16 (DstPort u);
  ok_Length : is_u16 (Length u);
  ok_Checksum : is_u16 (Checksum u);
}.

Definition fixed_header (u : UDP) (csum : Z) : bytes :=
  be16 (SrcPort u) ++ be16 (DstPort u) ++ be16 (Length u) ++ be16 csum.

Definition decoded_fields (u : UDP) (csum : Z) (old : UDP) : UDP :=
  mkUDP (mkBase (fixed_header u csum) []) (SrcPort u) (DstPort u) (Length u) csum
    (be16 (SrcPort u)) (be16 (DstPort u)) (pseudoheader old).

(** Eight bytes are always the encoding of some fields. *)
Lemma header_shape data : is_bytes data → 8 <= len data → ∃ u rest, fields_ok u ∧ is_bytes rest ∧
  data = fixed_header u (Checksum u) ++ rest.
Proof.
  intros Hb Hl. destruct (len_at_least data 8 Hl) as [m Hm]. explode data Hm.
  rewrite !is_bytes_cons in Hb. destruct Hb as (? & ? & ? & ? & ? & ? & ? & ? & Hrest).
  exists (mkUDP (mkBase [] []) (z * 256 + z0) (z1 * 256 + z2) (z3 * 256 + z4) (z5 * 256 + z6) [] [] None), data.
  split; [|split; [done|]].
  - constructor; cbn; unfold is_u16, is_byte in *; lia.
  - unfold fixed_header. cbn [SrcPort DstPort Length Checksum]. by rewrite !be16_of.
Qed.

Lemma UDP_decode_header_fixed u csum rest old : fields_ok u → is_u16 csum →
  decode_header (fixed_header u csum ++ rest) old = Ok (decoded_fields u csum old).
Proof.
  intros [] Hc. unfold decode_header, decoded_fields, fixed_header. run_slices.
  by rewrite !be16_value.
Qed.

(** The payload that a length field of a decoded packet selects. *)
Definition select_payload (length : Z) (rest : bytes) : bytes :=
  if length =? 0 then rest else take (Z.to_nat (length - 8)) rest.

(** The outcome of decoding any header and any bytes after it. *)
Lemma UDP_decode_written u csum rest old tr : fields_ok u → is_u16 csum →
  let data := fixed_header u csum ++ rest in
  DecodeFromBytes data (DState old tr) =
    if (0 <? Length u) && (Length u <? 8)
    then (Err (Errorf "UDP packet too small: %d bytes" [Length u]), DState (decoded_fields u csum old) tr)
    else (Ok tt, DState (set_base (mkBase (fixed_header u csum) (select_payload (Length u) rest))
                           (decoded_fields u csum old)) (tr || (Length u >? 8 + len rest))).
Proof.
  intros Hok Hc data. pose proof (ok_Length u Hok) as HL. unfold is_u16 in HL.
  pose proof (len_nonneg rest).
  assert (len data = 8 + len rest) as Hdl by (unfold data; rewrite len_app; done).
  unfold DecodeFromBytes, get_layer, put_layer, gets, set_Payload, modify_layer, modify, lift, throw, mbind, M_bind.
  destruct (Z.ltb_spec (len data) 8); [lia|]. cbn [dlayer].
  unfold data at 1. rewrite UDP_decode_header_fixed by done. cbn [dlayer dtruncated].
  cbn [Length decoded_fields]. unfold select_payload.
  assert (slice_from data 8 = Ok rest) as Hsf by (by apply slice_from_app).
  destruct (Z.geb_spec (Length u) 8).
  - destruct (Z.ltb_spec 0 (Length u)); [|lia]. destruct (Z.ltb_spec (Length u) 8); [lia|]. cbn [andb].
    destruct (Z.eqb_spec (Length u) 0); [lia|]. rewrite Hdl.
    destruct (Z.gtb_spec (Length u) (8 + len rest)).
    + unfold SetTruncated, modify, mret, M_ret. cbn [dlayer dtruncated].
      assert (slice data 8 (8 + len rest) = Ok rest) as ->.
      { unfold data. rewrite <-(app_nil_r rest) at 1. by apply slice_app. }
      rewrite take_ge by (unfold len in *; lia). by rewrite orb_true_r.
    + unfold mret, M_ret. cbn [dlayer dtruncated].
      assert (slice data 8 (Length u) = Ok (take (Z.to_nat (Length u - 8)) rest)) as ->.
      { unfold data. rewrite <-(take_drop (Z.to_nat (Length u - 8)) rest) at 1. apply slice_app; [done|].
        rewrite len_take. change (len (fixed_header u csum)) with 8. lia. }
      by rewrite orb_false_r.
  - destruct (Z.eqb_spec (Length u) 0) as [E|E].
    + rewrite Hsf, E. cbn [Z.ltb andb Z.compare]. destruct (Z.gtb_spec 0 (8 + len rest)); [lia|].
      by rewrite orb_false_r.
    + destruct (Z.ltb_spec 0 (Length u)); [|lia]. destruct (Z.ltb_spec (Length u) 8); [|lia]. done.
Qed.

(** On any bytes, [DecodeFromBytes] is an error exactly when there
    are fewer than eight bytes or the length field is between 1 and 7, and never
    a run-time panic. Otherwise the contents are the first eight bytes and the
    payload what the length field selects of the rest: all of it for a length
    of zero, at most [Length - 8] bytes for any other; the packet is marked
    truncated when fewer bytes are there than the length says. The previous
    contents of the layer do not matter. *)
Theorem UDP_decode_total data old tr : is_bytes data →
  wp (DecodeFromBytes data)
    (fun _ s => ∃ u rest, fields_ok u ∧ data = fixed_header u (Checksum u) ++ rest ∧
       (Length u = 0 ∨ 8 <= Length u) ∧
       s = DState (set_base (mkBase (fixed_header u (Checksum u)) (select_payload (Length u) rest))
             (decoded_fields u (Checksum u) old)) (tr || (Length u >? len data)))
    (fun _ _ => len data < 8 ∨ ∃ u rest, data = fixed_header u (Checksum u) ++ rest ∧ 0 < Length u < 8)
    (DState old tr).
Proof.
  intros Hb. destruct (Z.ltb_spec (len data) 8) as [Hlt|Hge].
  - unfold DecodeFromBytes. destruct (Z.ltb_spec (len data) 8); [|lia].
    unfold SetTruncated. apply wp_bind, wp_modify. by left.
  - destruct (header_shape data Hb Hge) as (u & rest & Hok & Hr & ->).
    pose proof (UDP_decode_written u (Checksum u) rest old tr Hok (ok_Checksum u Hok)) as Hd. cbv zeta in Hd.
    unfold wp. rewrite Hd. pose proof (ok_Length u Hok) as HL. unfold is_u16 in HL.
    destruct ((0 <? Length u) && (Length u <? 8)) eqn:E.
    + right. exists u, rest. split; [done|]. rewrite andb_true_iff, !Z.ltb_lt in E. lia.
    + exists u, rest. split; [done|]. split; [done|].
      split; [rewrite andb_false_iff, !Z.ltb_ge in E; lia|]. by rewrite len_app.
Qed.

Lemma UDP_decode_total_witness :
  ∃ s u rest, DecodeFromBytes [0; 53; 4; 0; 0; 9; 0; 0; 7; 8] (DState empty_UDP false) = (Ok tt, s) ∧
    [0; 53; 4; 0; 0; 9; 0; 0; 7; 8] = fixed_header u (Checksum u) ++ rest ∧
    (Length u = 0 ∨ 8 <= Length u) ∧ Payload (base (dlayer s)) = select_payload (Length u) rest.
Proof.
  pose proof (UDP_decode_total [0; 53; 4; 0; 0; 9; 0; 0; 7; 8] empty_UDP false
    ltac:(solve_Forall)) as H. unfold wp in H.
  destruct (DecodeFromBytes _ _) as [[[]| | |] s] eqn:Hd; try (vm_compute in Hd; discriminate Hd).
  destruct H as (u & rest & _ & Hdata & HL & ->). eexists _, u, rest.
  split; [reflexivity|]. split; [exact Hdata|]. split; [exact HL | reflexivity].
Defined.

(** ** What [SerializeTo] writes *)

Section serialize_spec.
Context {W : Type} `{SerializeBufferLaws W}.

(** The layer with its length fixed, if it is to be, for [n] bytes of payload. *)
Definition fixed (opts : SerializeOptions) (n : Z) (u : UDP) : UDP :=
if FixLengths opts then
  if is_IPv6 (pseudoheader u) && (n + 8 >? 65535) then set_Length 0 u
  else set_Length (u16 (u16 n + 8)) u
else u.

Lemma UDP_fixed_same opts n u : SrcPort (fixed opts n u) = SrcPort u ∧ DstPort (fixed opts n u) = DstPort u ∧
pseudoheader (fixed opts n u) = pseudoheader u ∧ Checksum (fixed opts n u) = Checksum u.
Proof. unfold fixed. destruct (FixLengths opts); [|done]. by destruct (_ && _). Qed.

Definition checksum_ready (opts : SerializeOptions) (u : UDP) (payload : bytes) : Prop :=
(∃ l, pseudoheader u = Some l ∧ addresses_ok l) ∧ is_bytes payload ∧ len payload + 8 <= 65536.

Definition checksum_result (opts : SerializeOptions) (u1 u' : UDP) (payload : bytes) : Prop :=
if ComputeChecksums opts then
  u' = set_Checksum (Checksum u') u1 ∧ is_u16 (Checksum u') ∧
  (computeChecksum (fixed_header u1 (Checksum u') ++ payload) IPProtocolUDP (pseudoheader u1)).1 = Ok 0
else u' = u1.

Lemma wp_udp_checksum all l c Q E u (w : W) :
pseudoheader u = Some l → computeChecksum all IPProtocolUDP (Some l) = (Ok c, Some l) →
Q c (u, w) → wp (IPProtocolUDP_checksum all) Q E (u, w).
Proof.
intros Ht Hc HQ. unfold wp, IPProtocolUDP_checksum, on_fst, zoom. cbn [fst snd].
rewrite Ht, Hc. replace (set_pseudoheader (Some l) u) with u; [done|].
destruct u. cbn in *. by subst.
Qed.

(** The header with given bytes in the place of the checksum, and the edits
  that produce it. *)
Definition image (u : UDP) (a b : Z) : bytes :=
(be16 (SrcPort u) ++ be16 (DstPort u) ++ be16 (Length u)) ++ [a; b].

Lemma UDP_image_edits u stale : len stale = 8 → ∃ b1 b2 a b,
BE_PutUint16 stale 0 (SrcPort u) = Ok b1 ∧ BE_PutUint16 b1 2 (DstPort u) = Ok b2 ∧
BE_PutUint16 b2 4 (Length u) = Ok (image u a b).
Proof.
intros Hst. assert (length stale = 8 + 0)%nat as Hn by (unfold len in Hst; lia).
explode stale Hn. destruct stale; [|discriminate Hn]. unfold image. run_slices.
do 4 eexists. split; [reflexivity|]. split; reflexivity.
Qed.

Lemma UDP_image_checksum u a b c : BE_PutUint16 (image u a b) 6 c = Ok (fixed_header u c).
Proof. unfold image, fixed_header. run_slices. reflexivity. Qed.

Lemma UDP_image_zero u a b : ∃ r, set_index (image u a b) 6 0 = Ok r ∧ set_index r 7 0 = Ok (image u 0 0).
Proof. unfold image. run_slices. eexists. split; reflexivity. Qed.

Lemma UDP_SerializeTo_spec opts u w payload :
let u1 := fixed opts (len payload) u in
buf_ok w → Bytes w = payload → (ComputeChecksums opts = true → checksum_ready opts u payload) →
wp (SerializeTo opts)
  (fun _ '(u', w') => buf_ok w' ∧ Layers w' = Layers w ∧ checksum_result opts u1 u' payload ∧
     Bytes w' = fixed_header u1 (Checksum u') ++ payload)
  (fun _ _ => False) (u, w).
Proof.
intros u1 Hw HB Hready. unfold SerializeTo.
apply wp_bind, wp_get_fields, wp_bind, wp_buffer_Bytes. rewrite HB. cbv zeta.
apply wp_bind, wp_prepend; [done | lia |]. intros stale w1 Hw1 Hst HB1 HL1. rewrite HB in HB1.
destruct (UDP_fixed_same opts (len payload) u) as (Es & Ed & Ep & Ec). fold u1 in Es, Ed, Ep, Ec.
change (if FixLengths opts then _ else u) with u1. rewrite <-Es, <-Ed.
destruct (UDP_image_edits u1 stale Hst) as (b1 & b2 & s6 & s7 & E1 & E2 & E3).
apply wp_bind, wp_lift. rewrite E1. cbn [owp]. apply wp_bind, wp_lift. rewrite E2. cbn [owp].
apply wp_bind, wp_put_fields. apply wp_bind, wp_lift. rewrite E3. cbn [owp].
assert (length stale = 8%nat) as Hst8 by (unfold len in Hst; lia).
assert (∀ a b u' w3 old, (ComputeChecksums opts = true → checksum_result opts u1 u' payload) →
  (ComputeChecksums opts = false → u' = u1) → buf_ok w3 → Layers w3 = Layers w →
  length old = 8%nat → Bytes w3 = old ++ payload →
  wp (bytes ← lift (BE_PutUint16 (image u1 a b) 6 (Checksum u')); sync bytes)
    (fun _ '(u', w') => buf_ok w' ∧ Layers w' = Layers w ∧ checksum_result opts u1 u' payload ∧
       Bytes w' = fixed_header u1 (Checksum u') ++ payload) (fun _ _ => False) (u', w3)) as Hlast.
{ intros a b u' w3 old H1' H2' Hw3 HL3 Hold HB3. apply wp_bind, wp_lift. rewrite UDP_image_checksum. cbn [owp].
  eapply wp_sync; [done | exact HB3 | by rewrite Hold |].
  intros w4 Hw4 HB4 HL4. split; [done|]. split; [congruence|]. split; [|exact HB4].
  destruct (ComputeChecksums opts) eqn:Hcc; [auto|]. unfold checksum_result. rewrite Hcc. auto. }
apply wp_bind, wp_if; intros Hcc.
- destruct (Hready Hcc) as ((l & Hl & Hal) & Hpb & Hplen).
  destruct (compute_checksum_field l (be16 (SrcPort u1) ++ be16 (DstPort u1) ++ be16 (Length u1)) payload
    IPProtocolUDP Hal) as (c & Hc & Hu & Hv); try done.
  { rewrite !is_bytes_app. auto with go. }
  { change (len (be16 (SrcPort u1) ++ be16 (DstPort u1) ++ be16 (Length u1))) with 6. lia. }
  destruct (UDP_image_zero u1 s6 s7) as (r & R1 & R2).
  apply wp_bind, wp_lift. rewrite R1. cbn [owp]. apply wp_bind, wp_lift. rewrite R2. cbn [owp].
  apply wp_bind. eapply wp_sync; [done | exact HB1 | by rewrite Hst8 |]. intros w2 Hw2 HB2 HL2.
  apply wp_bind, wp_buffer_Bytes, wp_bind.
  eapply wp_udp_checksum; [rewrite Ep; exact Hl | rewrite HB2; exact Hc |].
  apply wp_bind, wp_get_fields, wp_bind, wp_put_fields, wp_ret, wp_bind, wp_get_fields.
  eapply Hlast; [|congruence | done | congruence | |exact HB2]; [|done].
  intros _. unfold checksum_result. rewrite Hcc. split; [done|]. split; [done|].
  rewrite Ep, Hl. exact (f_equal fst Hv).
- apply wp_ret, wp_bind, wp_get_fields.
  eapply Hlast; [congruence | done | done | done | exact Hst8 | exact HB1].
Qed.
End serialize_spec.

(** A UDP layer serialized with [FixLengths], with or without
    checksums, onto any payload of at most 65527 bytes decodes back to the same
    ports, the real length and the payload; with checksums the receiver's test
    over the pseudo-header holds. *)
Theorem UDP_roundtrip {W} `{SerializeBufferLaws W} opts u (w : W) old tr :
  FixLengths opts = true → buf_ok w → fields_ok u → len (Bytes w) <= 65527 →
  (ComputeChecksums opts = true → checksum_ready opts u (Bytes w)) →
  ∃ u' w', SerializeTo opts (u, w) = (Ok tt, (u', w')) ∧ buf_ok w' ∧ Length u' = 8 + len (Bytes w) ∧
    DecodeFromBytes (Bytes w') (DState old tr) = (Ok tt,
      DState (mkUDP (mkBase (fixed_header u' (Checksum u')) (Bytes w)) (SrcPort u) (DstPort u)
        (8 + len (Bytes w)) (Checksum u') (be16 (SrcPort u)) (be16 (DstPort u)) (pseudoheader old)) tr) ∧
    (ComputeChecksums opts = true →
      (computeChecksum (Bytes w') IPProtocolUDP (pseudoheader u)).1 = Ok 0).
Proof.
  intros Hfix Hw Hok Hlen Hready. pose proof (len_nonneg (Bytes w)) as Hnn.
  pose proof (UDP_SerializeTo_spec opts u w (Bytes w) Hw eq_refl Hready) as Hs. cbv zeta in Hs.
  set (u1 := fixed opts (len (Bytes w)) u) in *.
  assert (u1 = set_Length (8 + len (Bytes w)) u) as Hu1.
  { unfold u1, fixed. rewrite Hfix. destruct (Z.gtb_spec (len (Bytes w) + 8) 65535); [lia|].
    rewrite andb_false_r. rewrite (u16_small (len (Bytes w))) by (unfold is_u16; lia).
    rewrite u16_small by (unfold is_u16; lia). f_equal. lia. }
  unfold wp in Hs. destruct (SerializeTo opts (u, w)) as [[[]| | |] [u' w']]; try done.
  destruct Hs as (Hw' & _ & Hres & HB). exists u', w'. split; [done|]. split; [done|].
  assert (is_u16 (Checksum u') ∧ (∀ c, fixed_header u' c = fixed_header u1 c) ∧ Length u' = Length u1)
    as (Hu & Hfh & HLu).
  { unfold checksum_result in Hres. destruct (ComputeChecksums opts).
    - destruct Hres as (-> & ? & _). done.
    - subst u'. rewrite Hu1. destruct Hok. done. }
  split; [rewrite HLu, Hu1; done|]. split.
  - rewrite HB. assert (fields_ok u1) as Hok1.
    { destruct Hok. rewrite Hu1. constructor; try done. cbn [set_Length Length]. unfold is_u16. lia. }
    rewrite (UDP_decode_written u1 (Checksum u') (Bytes w) old tr Hok1 Hu). rewrite Hfh, Hu1. cbn [set_Length Length].
    destruct (Z.ltb_spec (8 + len (Bytes w)) 8); [lia|]. rewrite andb_false_r.
    destruct (Z.gtb_spec (8 + len (Bytes w)) (8 + len (Bytes w))); [lia|]. rewrite orb_false_r.
    do 2 f_equal. unfold select_payload. destruct (Z.eqb_spec (8 + len (Bytes w)) 0); [lia|].
    rewrite take_ge by (unfold len; lia). done.
  - intros Hcc. unfold checksum_result in Hres. rewrite Hcc in Hres. destruct Hres as (_ & _ & Hv).
    rewrite HB. rewrite <-Hv. rewrite Hu1 at 3. done.
Qed.

Lemma UDP_roundtrip_witness :
  ∃ u' w', SerializeTo (mkSerializeOptions true true)
      (mkUDP (mkBase [] []) 53 1024 0 0 [] [] (Some (NetIPv4 [10; 0; 0; 1] [10; 0; 0; 2])), NewSerializeBuffer)
      = (Ok tt, (u', w')) ∧ Length u' = 8.
Proof.
  destruct (UDP_roundtrip (mkSerializeOptions true true)
    (mkUDP (mkBase [] []) 53 1024 0 0 [] [] (Some (NetIPv4 [10; 0; 0; 1] [10; 0; 0; 2])))
    NewSerializeBuffer empty_UDP false) as (u' & w' & Hs & _ & HL & _).
  - reflexivity.
  - exists 0, 0. exact NewSerializeBuffer_inv.
  - constructor; vm_compute; split; first [discriminate | reflexivity].
  - vm_compute. discriminate.
  - intros _. split; [eexists; split; [reflexivity | repeat split; solve_Forall]|].
    split; [apply List.Forall_nil | vm_compute; discriminate].
  - exists u', w'. split; [exact Hs | exact HL].
Defined.
