(* ===== verification/Ethernet.v ===== *)
(** * Ethernet frames ([layers/ethernet.go])

    Both framings: an EthernetType of at least 0x0600, or an 802.3 length that
    an LLC header follows; on decoding, a length cuts off trailing bytes, and
    on serialization a frame is padded to 60 bytes. *)

From S2P Require Import Prelude SerializeBuffer LayerClasses Flows BaseLayers Enums.

Definition EthernetBroadcast : bytes := [255; 255; 255; 255; 255; 255].

Record Ethernet : Type := mkEthernet {
  base : BaseLayer;
  SrcMAC : bytes;
  DstMAC : bytes;
  EthernetType : Z;
  Length : Z;
}.

Definition empty_Ethernet : Ethernet := mkEthernet (mkBase [] []) [] [] 0 0.

Definition set_Length (v : Z) (e : Ethernet) : Ethernet :=
  mkEthernet (base e) (SrcMAC e) (DstMAC e) (EthernetType e) v.

Definition LinkFlow (e : Ethernet) : outcome Flow := NewFlow EndpointMAC (SrcMAC e) (DstMAC e).

Definition decode_header (data : bytes) : outcome Ethernet :=
  dst ← slice data 0 6;
  src ← slice data 6 12;
  typ ← slice data 12 14 ≫= BE_Uint16;
  contents ← slice_to data 14;
  payload ← slice_from data 14;
  mret (mkEthernet (mkBase contents payload) src dst typ 0).

Definition DecodeFromBytes (data : bytes) : M (dstate Ethernet) unit :=
  if len data <? 14 then throw (errors_New "Ethernet packet too small")
  else
    eth ← lift (decode_header data);
    _ ← put_layer eth;
    if EthernetType eth <? 0x0600 then
      let eth := mkEthernet (base eth) (SrcMAC eth) (DstMAC eth) EthernetTypeLLC (EthernetType eth) in
      _ ← put_layer eth;
      let payload := Payload (base eth) in
      let cmp := len payload - Length eth in
      if cmp <? 0 then SetTruncated
      else if cmp >? 0 then
        payload ← lift (slice_to payload (len payload - cmp));
        put_layer (mkEthernet (mkBase (Contents (base eth)) payload) (SrcMAC eth) (DstMAC eth)
          (EthernetType eth) (Length eth))
      else mret tt
    else mret tt.

Section serialize.
Context {W : Type} `{SerializeBuffer W}.

(** The field after the addresses: the length, or the type. *)
Definition put_type (opts : SerializeOptions) (payload bytes : Prelude.bytes) : M (Ethernet * W) Prelude.bytes :=
  eth ← get_fields;
  if negb (Length eth =? 0) || (EthernetType eth =? EthernetTypeLLC) then
    _ ← (if FixLengths opts then put_fields (set_Length (u16 (len payload)) eth) else mret tt);
    eth ← get_fields;
    if negb (EthernetType eth =? EthernetTypeLLC) then
      throw (Errorf "ethernet type %v not compatible with length value %v" [EthernetType eth; Length eth])
    else if Length eth >? 0x0600 then
      throw (Errorf "invalid ethernet length %v" [Length eth])
    else lift (BE_PutUint16 bytes 12 (Length eth))
  else lift (BE_PutUint16 bytes 12 (u16 (EthernetType eth))).

(** Padding to 60 bytes. *)
Definition pad_frame : M (Ethernet * W) unit :=
  all ← buffer_Bytes;
  let length := len all in
  if length <? 60 then
    padding ← append (60 - length);
    padding ← lift (copy_from padding 0 lotsOfZeros);
    sync_back padding
  else mret tt.

Definition SerializeTo (opts : SerializeOptions) : M (Ethernet * W) unit :=
  eth ← get_fields;
  if negb (len (DstMAC eth) =? 6) then throw (Errorf "invalid dst MAC: %v" (DstMAC eth))
  else if negb (len (SrcMAC eth) =? 6) then throw (Errorf "invalid src MAC: %v" (SrcMAC eth))
  else
    payload ← buffer_Bytes;
    bytes ← prepend 14;
    bytes ← lift (copy_from bytes 0 (DstMAC eth));
    bytes ← lift (copy_from bytes 6 (SrcMAC eth));
    _ ← sync bytes;
    bytes ← put_type opts payload bytes;
    _ ← sync bytes;
    pad_frame.
End serialize.

Definition CanDecode : list LayerType := [LayerTypeEthernet].

Definition NextLayerType (md : metadata) (e : Ethernet) : LayerType :=
  enum_LayerType md EthernetTypeEnum (EthernetType e).

(** ** The wire format *)

Definition header (dst src : bytes) (t : Z) : bytes := dst ++ src ++ be16 t.

(** What a frame with type or length field [t] decodes to. *)
Definition frame (dst src : bytes) (t : Z) (rest : bytes) : Ethernet :=
  if t <? 0x0600
  then mkEthernet (mkBase (header dst src t) (take (Z.to_nat t) rest)) src dst EthernetTypeLLC t
  else mkEthernet (mkBase (header dst src t) rest) src dst t 0.

Definition short_frame (t : Z) (rest : bytes) : bool := (t <? 0x0600) && (t >? len rest).

Lemma Ethernet_decode_header dst src t rest : len dst = 6 → len src = 6 → is_u16 t →
  decode_header (header dst src t ++ rest) = Ok (mkEthernet (mkBase (header dst src t) rest) src dst t 0).
Proof.
  intros Hd Hs Ht. assert (length dst = 6 + 0)%nat as Hd' by (unfold len in Hd; lia).
  assert (length src = 6 + 0)%nat as Hs' by (unfold len in Hs; lia).
  explode dst Hd'. destruct dst; [|discriminate Hd']. explode src Hs'. destruct src; [|discriminate Hs'].
  unfold decode_header, header. run_slices. by rewrite be16_value.
Qed.

Lemma Ethernet_decode_written dst src t rest old tr : len dst = 6 → len src = 6 → is_u16 t →
  DecodeFromBytes (header dst src t ++ rest) (DState old tr) =
    (Ok tt, DState (frame dst src t rest) (tr || short_frame t rest)).
Proof.
  intros Hd Hs Ht. pose proof (len_nonneg rest). unfold is_u16 in Ht.
  assert (len (header dst src t ++ rest) = 14 + len rest) as Hl.
  { unfold header. rewrite !len_app, len_be16. lia. }
  unfold DecodeFromBytes. rewrite Hl. destruct (Z.ltb_spec (14 + len rest) 14); [lia|].
  unfold put_layer, modify, lift, SetTruncated, mbind, M_bind. rewrite Ethernet_decode_header by done.
  unfold modify. cbn [dlayer dtruncated EthernetType Length base Payload Contents SrcMAC DstMAC].
  unfold frame, short_frame. destruct (Z.ltb_spec t 0x0600); cbn [andb]; [|by rewrite orb_false_r].
  destruct (Z.ltb_spec (len rest - t) 0).
  - destruct (Z.gtb_spec t (len rest)); [|lia]. rewrite take_ge by (unfold len in *; lia).
    by rewrite orb_true_r.
  - destruct (Z.gtb_spec t (len rest)); [lia|]. rewrite orb_false_r.
    destruct (Z.gtb_spec (len rest - t) 0).
    + replace (len rest - (len rest - t)) with t by lia. by rewrite slice_to_ok by lia.
    + by rewrite take_ge by (unfold len in *; lia).
Qed.

Lemma Ethernet_header_shape data : is_bytes data → 14 <= len data → ∃ dst src t rest,
  len dst = 6 ∧ len src = 6 ∧ is_u16 t ∧ data = header dst src t ++ rest.
Proof.
  intros Hb Hl. destruct (len_at_least data 14 Hl) as [m Hm]. explode data Hm.
  rewrite !is_bytes_cons in Hb. destruct Hb as (_ & _ & _ & _ & _ & _ & _ & _ & _ & _ & _ & _ & H1 & H2 & _).
  exists [z; z0; z1; z2; z3; z4], [z5; z6; z7; z8; z9; z10], (z11 * 256 + z12), data.
  split; [done|]. split; [done|]. split; [unfold is_u16, is_byte in *; lia|].
  unfold header. by rewrite be16_of.
Qed.

(** [DecodeFromBytes] fails exactly on fewer than 14
    bytes and never panics. The frame is its header and a payload: all of the
    rest when the type field is at least 0x0600, else at most as many bytes as
    the field says, the type becoming LLC and the packet marked truncated when
    fewer are there. The previous contents of the layer do not matter. *)
Theorem Ethernet_decode_total data old tr : is_bytes data →
  wp (DecodeFromBytes data)
    (fun _ s => ∃ dst src t rest, len dst = 6 ∧ len src = 6 ∧ is_u16 t ∧ data = header dst src t ++ rest ∧
       s = DState (frame dst src t rest) (tr || short_frame t rest))
    (fun _ _ => len data < 14) (DState old tr).
Proof.
  intros Hb. destruct (Z.ltb_spec (len data) 14) as [Hlt|Hge].
  - unfold DecodeFromBytes. by destruct (Z.ltb_spec (len data) 14); [|lia].
  - destruct (Ethernet_header_shape data Hb Hge) as (dst & src & t & rest & Hd & Hs & Ht & ->).
    unfold wp. rewrite Ethernet_decode_written by done. by exists dst, src, t, rest.
Qed.

Lemma Ethernet_decode_total_witness :
  ∃ s dst src t rest, DecodeFromBytes [1; 2; 3; 4; 5; 6; 7; 8; 9; 10; 11; 12; 0; 2; 20; 30; 40]
      (DState empty_Ethernet false) = (Ok tt, s) ∧ t = 2 ∧ rest = [20; 30; 40] ∧
    dlayer s = frame dst src t rest ∧ Payload (base (dlayer s)) = [20; 30].
Proof.
  pose proof (Ethernet_decode_total [1; 2; 3; 4; 5; 6; 7; 8; 9; 10; 11; 12; 0; 2; 20; 30; 40]
    empty_Ethernet false ltac:(solve_Forall)) as H. unfold wp in H.
  destruct (DecodeFromBytes _ _) as [[[]| | |] s] eqn:Hd; try (vm_compute in Hd; discriminate Hd).
  destruct H as (dst & src & t & rest & Hld & Hls & Ht & Hdata & ->).
  assert (Hlen := f_equal len Hdata). unfold header in Hdata, Hlen.
  assert (length dst = 6 + 0)%nat as Hd' by (unfold len in Hld; lia).
  assert (length src = 6 + 0)%nat as Hs' by (unfold len in Hls; lia).
  explode dst Hd'. destruct dst; [|discriminate Hd']. explode src Hs'. destruct src; [|discriminate Hs'].
  cbn [app be16] in Hdata. injection Hdata as <- <- <- <- <- <- <- <- <- <- <- <- E1 E2 <-.
  assert (t = 2) as -> by (unfold is_u16 in Ht; zdiv).
  eexists _, _, _, 2, [20; 30; 40]. split; [reflexivity|]. repeat split; reflexivity.
Defined.

(** ** What [SerializeTo] writes *)

(** The value of the field after the addresses for [n] bytes of payload: what
    [SerializeTo] accepts. *)
Definition framing (opts : SerializeOptions) (e : Ethernet) (n t : Z) : Prop :=
  (Length e = 0 ∧ EthernetType e ≠ EthernetTypeLLC ∧ t = EthernetType e) ∨
  (EthernetType e = EthernetTypeLLC ∧ t = (if FixLengths opts then n else Length e) ∧ t <= 0x0600).

Definition frame_padding (n : Z) : bytes := replicate (Z.to_nat (46 - n)) 0.

Section serialize_spec.
Context {W : Type} `{SerializeBufferLaws W}.

Lemma put_type_spec opts e payload b0 t Q E (w : W) : length b0 = 14%nat → is_u16 t →
  framing opts e (len payload) t →
  (∀ b1 e', BE_PutUint16 b0 12 t = Ok b1 → SrcMAC e' = SrcMAC e ∧ DstMAC e' = DstMAC e ∧
     EthernetType e' = EthernetType e → Q b1 (e', w)) →
  wp (put_type opts payload b0) Q E (e, w).
Proof.
  intros Hb Ht Hf HQ. unfold put_type. apply wp_bind, wp_get_fields.
  assert (∃ b1, BE_PutUint16 b0 12 t = Ok b1) as [b1 Hb1].
  { unfold BE_PutUint16. rewrite write_at_ok by (rewrite ?len_be16; unfold len; lia). eauto. }
  destruct Hf as [(HL & HT & ->)|(HT & -> & Hle)].
  - rewrite HL, (proj2 (Z.eqb_neq _ _) HT). cbn [negb orb Z.eqb].
    rewrite u16_small by done. apply wp_lift. rewrite Hb1. by apply HQ.
  - rewrite HT, Z.eqb_refl, orb_true_r. destruct (FixLengths opts).
    + apply wp_bind, wp_put_fields, wp_bind, wp_get_fields. cbn [set_Length EthernetType Length].
      rewrite HT, Z.eqb_refl, u16_small by done. cbn [negb].
      destruct (Z.gtb_spec (len payload) 0x0600); [lia|]. apply wp_lift. rewrite Hb1. by apply HQ.
    + apply wp_bind, wp_ret, wp_bind, wp_get_fields. rewrite HT, Z.eqb_refl. cbn [negb].
      destruct (Z.gtb_spec (Length e) 0x0600); [lia|]. apply wp_lift. rewrite Hb1. by apply HQ.
Qed.

Lemma pad_frame_spec e w front payload : buf_ok w → len front = 14 → Bytes w = front ++ payload →
  wp (pad_frame (W := W)) (fun _ '(e', w') => e' = e ∧ buf_ok w' ∧ Layers w' = Layers w ∧
    Bytes w' = front ++ payload ++ frame_padding (len payload)) (fun _ _ => False) (e, w).
Proof.
  intros Hw Hf HB. unfold pad_frame. apply wp_bind, wp_buffer_Bytes. cbv zeta. rewrite HB, len_app, Hf.
  unfold frame_padding. destruct (Z.ltb_spec (14 + len payload) 60).
  - apply wp_bind, wp_append; [done | lia |]. intros stale w1 Hw1 Hst HB1 HL1.
    assert (copy_from stale 0 lotsOfZeros = Ok (replicate (Z.to_nat (46 - len payload)) 0)) as Hz.
    { pose proof (len_nonneg payload). rewrite HB in HB1.
      unfold copy_from. rewrite slice_from_ok by lens. cbn [mbind outcome_bind].
      change (drop (Z.to_nat 0) stale) with stale.
      assert (take (length stale) lotsOfZeros = replicate (Z.to_nat (46 - len payload)) 0) as ->.
      { unfold lotsOfZeros. rewrite take_replicate. f_equal. unfold len in *. lia. }
      rewrite write_at_ok by (rewrite ?len_replicate; lia). rewrite len_replicate.
      change (take (Z.to_nat 0) stale) with (@nil Z). cbn [app].
      rewrite drop_ge by (unfold len in *; lia). by rewrite app_nil_r. }
    apply wp_bind, wp_lift. rewrite Hz. cbn [owp].
    eapply wp_sync_back; [done | exact HB1 | rewrite length_replicate; unfold len in *; lia |].
    intros w2 Hw2 HB2 HL2. rewrite HB2, HL2, HL1, HB, <-app_assoc. done.
  - apply wp_ret. replace (Z.to_nat (46 - len payload)) with O by lia. cbn [replicate].
    by rewrite app_nil_r.
Qed.

Lemma Ethernet_SerializeTo_spec opts e w payload t :
  buf_ok w → Bytes w = payload → len (DstMAC e) = 6 → len (SrcMAC e) = 6 → is_u16 t →
  framing opts e (len payload) t →
  wp (SerializeTo opts)
    (fun _ '(e', w') => buf_ok w' ∧ Layers w' = Layers w ∧
       Bytes w' = header (DstMAC e) (SrcMAC e) t ++ payload ++ frame_padding (len payload))
    (fun _ _ => False) (e, w).
Proof.
  intros Hw HB Hd Hs Ht Hf. unfold SerializeTo. apply wp_bind, wp_get_fields.
  rewrite Hd, Hs. cbn [negb Z.eqb Pos.eqb]. apply wp_bind, wp_buffer_Bytes. rewrite HB.
  apply wp_bind, wp_prepend; [done | lia |]. intros stale w1 Hw1 Hst HB1 HL1. rewrite HB in HB1.
  assert (∃ b2 b3, copy_from stale 0 (DstMAC e) = Ok b2 ∧ copy_from b2 6 (SrcMAC e) = Ok b3 ∧
    length b3 = 14%nat ∧ BE_PutUint16 b3 12 t = Ok (header (DstMAC e) (SrcMAC e) t)) as (b2 & b3 & E2 & E3 & L3 & E4).
  { unfold header. destruct (DstMAC e) as [|d0 [|d1 [|d2 [|d3 [|d4 [|d5 [|? ?]]]]]]]; cbn in Hd; try discriminate Hd; try lens.
    destruct (SrcMAC e) as [|s0 [|s1 [|s2 [|s3 [|s4 [|s5 [|? ?]]]]]]]; cbn in Hs; try discriminate Hs; try lens.
    assert (length stale = 14 + 0)%nat as Hn by (unfold len in Hst; lia). explode stale Hn.
    destruct stale; [|discriminate Hn]. do 2 eexists. split; [reflexivity|]. split; [reflexivity|].
    split; reflexivity. }
  apply wp_bind, wp_lift. rewrite E2. cbn [owp]. apply wp_bind, wp_lift. rewrite E3. cbn [owp].
  apply wp_bind. eapply wp_sync; [done | exact HB1 | unfold len in Hst; lia |]. intros w2 Hw2 HB2 HL2.
  apply wp_bind, (put_type_spec opts e payload b3 t); [done..|].
  intros b4 e' Hb4 _. rewrite E4 in Hb4. injection Hb4 as <-.
  assert (length (header (DstMAC e) (SrcMAC e) t) = 14%nat) as Hlh.
  { unfold header. rewrite !length_app. unfold len in *. cbn. lia. }
  apply wp_bind. eapply wp_sync; [done | exact HB2 | by rewrite Hlh |]. intros w3 Hw3 HB3 HL3.
  eapply wp_mono; [| |apply (pad_frame_spec e' w3 (header (DstMAC e) (SrcMAC e) t) payload Hw3)]; try done.
  - intros _ [e'' w''] (-> & ? & HL & HB'). split; [done|]. split; [congruence | done].
  - unfold len. by rewrite Hlh.
Qed.
End serialize_spec.

(** A frame that can be told apart when it is read: typed with at least 0x0600,
    or with its length fixed to less than that. *)
Definition readable (e : Ethernet) (n : Z) : Prop :=
  (Length e = 0 ∧ 0x0600 <= EthernetType e ∧ is_u16 (EthernetType e)) ∨
  (EthernetType e = EthernetTypeLLC ∧ n < 0x0600).

(** What a serialized frame decodes to: its payload is padded when typed, and
    exact when it has a length. *)
Definition read_back (e : Ethernet) (payload : bytes) : Ethernet :=
  if EthernetType e =? EthernetTypeLLC
  then mkEthernet (mkBase (header (DstMAC e) (SrcMAC e) (len payload)) payload) (SrcMAC e) (DstMAC e)
         EthernetTypeLLC (len payload)
  else mkEthernet (mkBase (header (DstMAC e) (SrcMAC e) (EthernetType e)) (payload ++ frame_padding (len payload)))
         (SrcMAC e) (DstMAC e) (EthernetType e) 0.

Lemma Ethernet_serialize_decode {W} `{SerializeBufferLaws W} opts e (w : W) old tr :
  FixLengths opts = true → buf_ok w → len (DstMAC e) = 6 → len (SrcMAC e) = 6 → readable e (len (Bytes w)) →
  ∃ e' w', SerializeTo opts (e, w) = (Ok tt, (e', w')) ∧ buf_ok w' ∧ Layers w' = Layers w ∧
    len (Bytes w') = Z.max 60 (14 + len (Bytes w)) ∧
    DecodeFromBytes (Bytes w') (DState old tr) = (Ok tt, DState (read_back e (Bytes w)) tr).
Proof.
  intros Hfix Hw Hd Hs Hr. pose proof (len_nonneg (Bytes w)) as Hn.
  set (t := if EthernetType e =? EthernetTypeLLC then len (Bytes w) else EthernetType e).
  assert (is_u16 t ∧ framing opts e (len (Bytes w)) t) as [Ht Hf].
  { unfold t, framing, is_u16 in *. rewrite Hfix. destruct Hr as [(HL & HT & HT')|(HT & Hl)].
    - unfold EthernetTypeLLC. destruct (Z.eqb_spec (EthernetType e) 0); [lia|]. split; [done|]. by left.
    - rewrite HT, Z.eqb_refl. split; [lia|]. right. split; [done|]. split; [done | lia]. }
  pose proof (Ethernet_SerializeTo_spec opts e w (Bytes w) t Hw eq_refl Hd Hs Ht Hf) as Hspec.
  unfold wp in Hspec. destruct (SerializeTo opts (e, w)) as [[[]| | |] [e' w']]; try done.
  destruct Hspec as (Hw' & HL & HB). exists e', w'. do 3 (split; [done|]). rewrite HB. split.
  - unfold header, frame_padding. rewrite !len_app, len_replicate, len_be16. lia.
  - rewrite Ethernet_decode_written by done. unfold frame, short_frame, read_back, t.
    unfold EthernetTypeLLC in *. destruct Hr as [(HL' & HT & HT')|(HT & Hl)].
    + destruct (Z.eqb_spec (EthernetType e) 0); [lia|].
      destruct (Z.ltb_spec (EthernetType e) 0x0600); [lia|]. by rewrite orb_false_r.
    + rewrite HT. change EthernetTypeLLC with 0. change (0 =? 0) with true. cbv iota.
      destruct (Z.ltb_spec (len (Bytes w)) 0x0600); [|lia].
      rewrite len_app. pose proof (len_nonneg (frame_padding (len (Bytes w)))).
      destruct (Z.gtb_spec (len (Bytes w)) (len (Bytes w) + len (frame_padding (len (Bytes w))))); [lia|].
      cbn [andb]. rewrite orb_false_r. do 3 f_equal. unfold len. by rewrite Nat2Z.id, take_app_length.
Qed.

(** A frame with 6-byte addresses, and either a type
    of at least 0x0600 or the LLC type and a payload below 1536 bytes,
    serialized with [FixLengths], is at least 60 bytes long and decodes back to
    the same addresses and type; an 802.3 frame gives exactly the payload, a
    typed one the payload with its padding. *)
Theorem Ethernet_roundtrip {W} `{SerializeBufferLaws W} opts e (w : W) old tr :
  FixLengths opts = true → buf_ok w → len (DstMAC e) = 6 → len (SrcMAC e) = 6 → readable e (len (Bytes w)) →
  ∃ e' w', SerializeTo opts (e, w) = (Ok tt, (e', w')) ∧ buf_ok w' ∧
    len (Bytes w') = Z.max 60 (14 + len (Bytes w)) ∧
    DecodeFromBytes (Bytes w') (DState old tr) = (Ok tt, DState (read_back e (Bytes w)) tr).
Proof.
  intros Hfix Hw Hd Hs Hr.
  destruct (Ethernet_serialize_decode opts e w old tr Hfix Hw Hd Hs Hr) as (e' & w' & ? & ? & _ & ? & ?).
  by exists e', w'.
Qed.

Definition sample_frame : Ethernet :=
  mkEthernet (mkBase [] []) [2; 0; 0; 0; 0; 1] EthernetBroadcast EthernetTypeLLC 0.

Lemma Ethernet_roundtrip_witness :
  ∃ e' w', SerializeTo (mkSerializeOptions true true) (sample_frame, NewSerializeBuffer) = (Ok tt, (e', w')) ∧
    len (Bytes w') = 60.
Proof.
  destruct (Ethernet_roundtrip (mkSerializeOptions true true) sample_frame NewSerializeBuffer empty_Ethernet false)
    as (e' & w' & Hs & _ & Hl & _); [reflexivity | exists 0, 0; exact NewSerializeBuffer_inv | reflexivity..| |].
  - right. split; reflexivity.
  - exists e', w'. split; [exact Hs | exact Hl].
Defined.

(** [SerializeTo] accepts the length 0x0600, which [DecodeFromBytes] takes for
    a type. *)
Lemma length_1536_not_read dst src rest old tr : len dst = 6 → len src = 6 →
  framing (mkSerializeOptions true true) (mkEthernet (mkBase [] []) src dst EthernetTypeLLC 0) 0x0600 0x0600 ∧
  DecodeFromBytes (header dst src 0x0600 ++ rest) (DState old tr) =
    (Ok tt, DState (mkEthernet (mkBase (header dst src 0x0600) rest) src dst 0x0600 0) tr).
Proof.
  intros Hd Hs. split; [right; done|].
  rewrite Ethernet_decode_written by (done || (unfold is_u16; lia)). change (short_frame 0x0600 rest) with false.
  by rewrite orb_false_r.
Qed.

Definition Ethernet_object {W} `{SerializeBuffer W} (e : Ethernet) : layer_object W :=
  LayerObject Ethernet e LayerTypeEthernet SerializeTo.
