(* ===== verification/Dns.v ===== *)
(** * DNS messages ([layers/dns.go])

    Decoding of messages, with compressed names and the data of eleven types of
    resource records, and serialization. Names are the text form that the code
    keeps, labels separated by dots. Every name of a message is decoded into
    one buffer, which the layer keeps for the next message; names are values
    here, so the reuse of the buffer by a later message does not show in them. *)

From S2P Require Import Prelude SerializeBuffer LayerClasses BaseLayers Enums.

Definition DNSTypeA : Z := 1.
Definition DNSTypeNS : Z := 2.
Definition DNSTypeCNAME : Z := 5.
Definition DNSTypeSOA : Z := 6.
Definition DNSTypePTR : Z := 12.
Definition DNSTypeHINFO : Z := 13.
Definition DNSTypeMX : Z := 15.
Definition DNSTypeTXT : Z := 16.
Definition DNSTypeAAAA : Z := 28.
Definition DNSTypeSRV : Z := 33.
Definition DNSTypeOPT : Z := 41.
Definition DNSTypeURI : Z := 256.

Definition errMaxRecursion : error := errors_New "max DNS recursion level hit".
Definition errDNSNameOffsetTooHigh : error := errors_New "dns name offset too high".
Definition errDNSNameOffsetNegative : error := errors_New "dns name offset is negative".
Definition errDNSPacketTooShort : error := errors_New "DNS packet too short".
Definition errDNSNameTooLong : error := errors_New "dns name is too long".
Definition errDNSNameInvalidIndex : error := errors_New "dns name uncomputable: invalid index".
Definition errDNSPointerOffsetTooHigh : error := errors_New "dns offset pointer too high".
Definition errDNSIndexOutOfRange : error := errors_New "dns index walked out of range".
Definition errCharStringMissData : error := errors_New "Insufficient data for a <character-string>".
Definition errDecodeRecordLength : error := errors_New "resource record length exceeds data".
Definition errDecodeQueryBadQDCount : error :=
  errors_New "Invalid query decoding, not the right number of questions".
Definition errDecodeQueryBadANCount : error :=
  errors_New "Invalid query decoding, not the right number of answers".
Definition errDecodeQueryBadNSCount : error :=
  errors_New "Invalid query decoding, not the right number of authorities".
Definition errDecodeQueryBadARCount : error :=
  errors_New "Invalid query decoding, not the right number of additionals info".

(** ** Data *)

Record DNSSOA : Type := mkSOA {
  MName : bytes; RName : bytes; Serial : Z; Refresh : Z; Retry : Z; Expire : Z; Minimum : Z;
}.
Record DNSSRV : Type := mkSRV { srv_Priority : Z; srv_Weight : Z; Port : Z; srv_Name : bytes }.
Record DNSMX : Type := mkMX { Preference : Z; mx_Name : bytes }.
Record DNSURI : Type := mkURI { uri_Priority : Z; uri_Weight : Z; Target : bytes }.
Record DNSOPT : Type := mkOPT { Code : Z; opt_Data : bytes }.

Record DNSQuestion : Type := mkQuestion { q_Name : bytes; q_Type : Z; q_Class : Z }.

(** The fields with the decoded data, those that the code groups as "RDATA
    Decoded Values", and the undecoded [TXT]. *)
Record RData : Type := mkRData {
  IP : bytes;
  NS : bytes; CNAME : bytes; PTR : bytes;
  TXTs : list bytes;
  SOA : DNSSOA;
  SRV : DNSSRV;
  MX : DNSMX;
  OPT : list DNSOPT;
  URI : DNSURI;
  TXT : bytes;
}.

Record DNSResourceRecord : Type := mkRR {
  Name : bytes;
  Type_ : Z;
  Class_ : Z;
  TTL : Z;
  DataLength : Z;
  Data : bytes;
  rdata : RData;
}.

Definition empty_SOA : DNSSOA := mkSOA [] [] 0 0 0 0 0.
Definition empty_rdata : RData :=
  mkRData [] [] [] [] [] empty_SOA (mkSRV 0 0 0 []) (mkMX 0 []) [] (mkURI 0 0 []) [].

(** The decoded data with one field set. *)
Definition with_IP (v : bytes) : RData :=
  mkRData v [] [] [] [] empty_SOA (mkSRV 0 0 0 []) (mkMX 0 []) [] (mkURI 0 0 []) [].
Definition with_NS (v : bytes) : RData :=
  mkRData [] v [] [] [] empty_SOA (mkSRV 0 0 0 []) (mkMX 0 []) [] (mkURI 0 0 []) [].
Definition with_CNAME (v : bytes) : RData :=
  mkRData [] [] v [] [] empty_SOA (mkSRV 0 0 0 []) (mkMX 0 []) [] (mkURI 0 0 []) [].
Definition with_PTR (v : bytes) : RData :=
  mkRData [] [] [] v [] empty_SOA (mkSRV 0 0 0 []) (mkMX 0 []) [] (mkURI 0 0 []) [].
Definition with_TXT (raw : bytes) (v : list bytes) : RData :=
  mkRData [] [] [] [] v empty_SOA (mkSRV 0 0 0 []) (mkMX 0 []) [] (mkURI 0 0 []) raw.
Definition with_SOA (v : DNSSOA) : RData :=
  mkRData [] [] [] [] [] v (mkSRV 0 0 0 []) (mkMX 0 []) [] (mkURI 0 0 []) [].
Definition with_SRV (v : DNSSRV) : RData :=
  mkRData [] [] [] [] [] empty_SOA v (mkMX 0 []) [] (mkURI 0 0 []) [].
Definition with_MX (v : DNSMX) : RData :=
  mkRData [] [] [] [] [] empty_SOA (mkSRV 0 0 0 []) v [] (mkURI 0 0 []) [].
Definition with_OPT (v : list DNSOPT) : RData :=
  mkRData [] [] [] [] [] empty_SOA (mkSRV 0 0 0 []) (mkMX 0 []) v (mkURI 0 0 []) [].
Definition with_URI (v : DNSURI) : RData :=
  mkRData [] [] [] [] [] empty_SOA (mkSRV 0 0 0 []) (mkMX 0 []) [] v [].

Record DNS : Type := mkDNS {
  base : BaseLayer;
  ID : Z;
  QR : bool;
  OpCode : Z;
  AA : bool; TC : bool; RD : bool; RA : bool;
  Z_ : Z;
  ResponseCode : Z;
  QDCount : Z; ANCount : Z; NSCount : Z; ARCount : Z;
  Questions : list DNSQuestion;
  Answers : list DNSResourceRecord;
  Authorities : list DNSResourceRecord;
  Additionals : list DNSResourceRecord;
  buffer : bytes;
}.

Definition empty_DNS : DNS :=
  mkDNS (mkBase [] []) 0 false 0 false false false false 0 0 0 0 0 0 [] [] [] [] [].

(** ** Names *)

Definition maxRecursionLevel : Z := 255.

(** The loop over the labels; [follow] decodes the name at a pointer. The value
    is the index of the last byte of the name. *)
Section labels.
Context (follow : Z → M bytes (bytes * Z)).

Fixpoint decode_labels (fuel : nat) (data : bytes) (offset index_ : Z) : M bytes Z :=
  match fuel with
  | O => lift NoFuel
  | S fuel' =>
      b ← lift (index data index_);
      if b =? 0 then mret index_
      else
        let kind := Z.land b 0xc0 in
        if kind =? 0xc0 then
          if index_ + 2 >? len data then throw errDNSPointerOffsetTooHigh
          else
            p ← lift (slice data index_ (index_ + 2) ≫= BE_Uint16);
            let offsetp := Z.land p 0x3fff in
            if offsetp >? len data then throw errDNSPointerOffsetTooHigh
            else
              _ ← follow offsetp;
              mret (index_ + 1)
        else if kind =? 0x40 then
          throw (Errorf "qname '0x40' - RFC 2673 unsupported yet (data=%x index=%d)" [b; index_])
        else if kind =? 0x80 then
          throw (Errorf "qname '0x80' unsupported yet (data=%x index=%d)" [b; index_])
        else
          let index2 := index_ + b + 1 in
          if index2 - offset >? 255 then throw errDNSNameTooLong
          else if (index2 <? index_ + 1) || (index2 >? len data) then throw errDNSNameInvalidIndex
          else
            label ← lift (slice data (index_ + 1) index2);
            _ ← modify (fun buffer => buffer ++ [46] ++ label);
            if index2 >=? len data then throw errDNSIndexOutOfRange
            else decode_labels fuel' data offset index2
  end.
End labels.

(** The state is the buffer; a pointer goes one level deeper. A name has at
    most 255 bytes on a level, so that 256 rounds of the loop are enough. *)
Fixpoint decodeName_at (fuel : nat) (data : bytes) (offset level : Z) : M bytes (bytes * Z) :=
  match fuel with
  | O => lift NoFuel
  | S fuel' =>
      if level >? maxRecursionLevel then throw errMaxRecursion
      else if offset >=? len data then throw errDNSNameOffsetTooHigh
      else if offset <? 0 then throw errDNSNameOffsetNegative
      else
        start ← gets len;
        b ← lift (index data offset);
        if b =? 0 then mret ([], offset + 1)
        else
          index_ ← decode_labels (fun offsetp => decodeName_at fuel' data offsetp (level + 1))
                     256 data offset offset;
          buffer ← get;
          name ← lift (slice_from buffer (if len buffer <=? start then start else start + 1));
          mret (name, index_ + 1)
  end.

(** Levels 1 to 255, and the one that is too deep. *)
Definition level_fuel : nat := 256.

(** [decodeName(data, offset, buffer, 1)] *)
Definition decodeName (data : bytes) (offset : Z) : M bytes (bytes * Z) :=
  decodeName_at level_fuel data offset 1.

(** ** Questions and records *)

Definition Question_decode (data : bytes) (offset : Z) : M bytes (DNSQuestion * Z) :=
  '(name, endq) ← decodeName data offset;
  if len data <? endq + 4 then throw (errors_New "DNS question too small")
  else
    t ← lift (slice data endq (endq + 2) ≫= BE_Uint16);
    c ← lift (slice data (endq + 2) (endq + 4) ≫= BE_Uint16);
    mret (mkQuestion name t c, endq + 4).

(** [fuel] is at least the length of the data. *)
Fixpoint character_strings (fuel : nat) (data : bytes) (index_ : Z) : outcome (list bytes) :=
  if index_ =? len data then mret []
  else
    match fuel with
    | O => NoFuel
    | S fuel' =>
        l ← index data index_;
        let index2 := index_ + 1 + l in
        if index2 >? len data then Err errCharStringMissData
        else
          s ← slice data (index_ + 1) index2;
          ss ← character_strings fuel' data index2;
          mret (s :: ss)
    end.

Definition decodeCharacterStrings (data : bytes) : outcome (list bytes) :=
  character_strings (length data) data 0.

Fixpoint decode_OPTs (fuel : nat) (data : bytes) (i : Z) : outcome (list DNSOPT) :=
  if i <? len data then
    match fuel with
    | O => NoFuel
    | S fuel' =>
        if len data <? i + 4 then
          Err (Errorf "Malformed DNSOPT record.  Length %d < %d" [len data; i + 4])
        else
          code ← slice data i (i + 2) ≫= BE_Uint16;
          l ← slice data (i + 2) (i + 4) ≫= BE_Uint16;
          if i + 4 + l >? len data then
            Err (Errorf "Malformed DNSOPT record. The length (%d) field implies a packet larger than the one received" [l])
          else
            d ← slice data (i + 4) (i + 4 + l);
            os ← decode_OPTs fuel' data (i + (l + 4));
            mret (mkOPT code d :: os)
    end
  else mret [].

Definition decodeOPTs (data : bytes) (offset : Z) : outcome (list DNSOPT) :=
  if offset =? len data then mret []
  else if offset + 4 >? len data then
    Err (Errorf "DNSOPT record is of length %d, it should be at least length 4" [len data - offset])
  else decode_OPTs (length data) data offset.

Definition decode_SOA (data : bytes) (offset : Z) : M bytes DNSSOA :=
  '(mname, endq) ← decodeName data offset;
  '(rname, endq) ← decodeName data endq;
  if len data <? endq + 20 then throw (errors_New "SOA too small")
  else
    serial ← lift (slice data endq (endq + 4) ≫= BE_Uint32);
    refresh ← lift (slice data (endq + 4) (endq + 8) ≫= BE_Uint32);
    retry ← lift (slice data (endq + 8) (endq + 12) ≫= BE_Uint32);
    expire ← lift (slice data (endq + 12) (endq + 16) ≫= BE_Uint32);
    minimum ← lift (slice data (endq + 16) (endq + 20) ≫= BE_Uint32);
    mret (mkSOA mname rname serial refresh retry expire minimum).

(** The data of a record of type [t] whose fields are still zero; [raw] is its
    field [Data]. *)
Definition decodeRData (t : Z) (raw data : bytes) (offset : Z) : M bytes RData :=
  if (t =? DNSTypeA) || (t =? DNSTypeAAAA) then mret (with_IP raw)
  else if (t =? DNSTypeTXT) || (t =? DNSTypeHINFO) then
    txts ← lift (decodeCharacterStrings raw); mret (with_TXT raw txts)
  else if t =? DNSTypeNS then '(name, _) ← decodeName data offset; mret (with_NS name)
  else if t =? DNSTypeCNAME then '(name, _) ← decodeName data offset; mret (with_CNAME name)
  else if t =? DNSTypePTR then '(name, _) ← decodeName data offset; mret (with_PTR name)
  else if t =? DNSTypeSOA then soa ← decode_SOA data offset; mret (with_SOA soa)
  else if t =? DNSTypeMX then
    if len data <? offset + 2 then throw (errors_New "MX too small")
    else
      preference ← lift (slice data offset (offset + 2) ≫= BE_Uint16);
      '(name, _) ← decodeName data (offset + 2);
      mret (with_MX (mkMX preference name))
  else if t =? DNSTypeURI then
    if len raw <? 4 then throw (errors_New "URI too small")
    else
      priority ← lift (slice data offset (offset + 2) ≫= BE_Uint16);
      weight ← lift (slice data (offset + 2) (offset + 4) ≫= BE_Uint16);
      target ← lift (slice_from raw 4);
      mret (with_URI (mkURI priority weight target))
  else if t =? DNSTypeSRV then
    if len data <? offset + 6 then throw (errors_New "SRV too small")
    else
      priority ← lift (slice data offset (offset + 2) ≫= BE_Uint16);
      weight ← lift (slice data (offset + 2) (offset + 4) ≫= BE_Uint16);
      port ← lift (slice data (offset + 4) (offset + 6) ≫= BE_Uint16);
      '(name, _) ← decodeName data (offset + 6);
      mret (with_SRV (mkSRV priority weight port name))
  else if t =? DNSTypeOPT then
    opts ← lift (decodeOPTs data offset); mret (with_OPT opts)
  else mret empty_rdata.

(** A record that fails to decode is dropped by the caller. *)
Definition RR_decode (data : bytes) (offset : Z) : M bytes (DNSResourceRecord * Z) :=
  '(name, endq) ← decodeName data offset;
  if len data <? endq + 10 then throw (errors_New "DNS record too small")
  else
    t ← lift (slice data endq (endq + 2) ≫= BE_Uint16);
    c ← lift (slice data (endq + 2) (endq + 4) ≫= BE_Uint16);
    ttl ← lift (slice data (endq + 4) (endq + 8) ≫= BE_Uint32);
    dl ← lift (slice data (endq + 8) (endq + 10) ≫= BE_Uint16);
    let end_ := endq + 10 + dl in
    if end_ >? len data then throw errDecodeRecordLength
    else
      raw ← lift (slice data (endq + 10) end_);
      rd ← (if dl >? 0 then d ← lift (slice_to data end_); decodeRData t raw d (endq + 10)
            else mret empty_rdata);
      mret (mkRR name t c ttl dl raw rd, end_).

(** ** Messages *)

Definition set_Questions (v : list DNSQuestion) (d : DNS) : DNS :=
  mkDNS (base d) (ID d) (QR d) (OpCode d) (AA d) (TC d) (RD d) (RA d) (Z_ d) (ResponseCode d)
    (QDCount d) (ANCount d) (NSCount d) (ARCount d) v (Answers d) (Authorities d) (Additionals d) (buffer d).
Definition set_Answers (v : list DNSResourceRecord) (d : DNS) : DNS :=
  mkDNS (base d) (ID d) (QR d) (OpCode d) (AA d) (TC d) (RD d) (RA d) (Z_ d) (ResponseCode d)
    (QDCount d) (ANCount d) (NSCount d) (ARCount d) (Questions d) v (Authorities d) (Additionals d) (buffer d).
Definition set_Authorities (v : list DNSResourceRecord) (d : DNS) : DNS :=
  mkDNS (base d) (ID d) (QR d) (OpCode d) (AA d) (TC d) (RD d) (RA d) (Z_ d) (ResponseCode d)
    (QDCount d) (ANCount d) (NSCount d) (ARCount d) (Questions d) (Answers d) v (Additionals d) (buffer d).
Definition set_Additionals (v : list DNSResourceRecord) (d : DNS) : DNS :=
  mkDNS (base d) (ID d) (QR d) (OpCode d) (AA d) (TC d) (RD d) (RA d) (Z_ d) (ResponseCode d)
    (QDCount d) (ANCount d) (NSCount d) (ARCount d) (Questions d) (Answers d) (Authorities d) v (buffer d).
Definition set_ResponseCode (v : Z) (d : DNS) : DNS :=
  mkDNS (base d) (ID d) (QR d) (OpCode d) (AA d) (TC d) (RD d) (RA d) (Z_ d) v
    (QDCount d) (ANCount d) (NSCount d) (ARCount d) (Questions d) (Answers d) (Authorities d)
    (Additionals d) (buffer d).
Definition set_counts (qd an ns ar : Z) (d : DNS) : DNS :=
  mkDNS (base d) (ID d) (QR d) (OpCode d) (AA d) (TC d) (RD d) (RA d) (Z_ d) (ResponseCode d)
    qd an ns ar (Questions d) (Answers d) (Authorities d) (Additionals d) (buffer d).
Definition set_buffer (v : bytes) (d : DNS) : DNS :=
  mkDNS (base d) (ID d) (QR d) (OpCode d) (AA d) (TC d) (RD d) (RA d) (Z_ d) (ResponseCode d)
    (QDCount d) (ANCount d) (NSCount d) (ARCount d) (Questions d) (Answers d) (Authorities d)
    (Additionals d) v.

(** Run on the buffer of the layer. *)
Definition on_buffer {A} (m : M bytes A) : M (dstate DNS) A :=
  zoom (fun s => buffer (dlayer s)) (fun b s => DState (set_buffer b (dlayer s)) (dtruncated s)) m.

Definition add_question (q : DNSQuestion) (d : DNS) : DNS := set_Questions (Questions d ++ [q]) d.
Definition add_answer (r : DNSResourceRecord) (d : DNS) : DNS := set_Answers (Answers d ++ [r]) d.
Definition add_authority (r : DNSResourceRecord) (d : DNS) : DNS :=
  set_Authorities (Authorities d ++ [r]) d.

(** The code with the upper bits that an OPT record has. *)
Definition extended_code (code : Z) (r : DNSResourceRecord) : Z :=
  if Type_ r =? DNSTypeOPT then Z.lor code (u8 (Z.land (Z.shiftr (TTL r) 20) 0xF0)) else code.

Definition add_additional (r : DNSResourceRecord) (d : DNS) : DNS :=
  set_ResponseCode (extended_code (ResponseCode d) r) (set_Additionals (Additionals d ++ [r]) d).

(** [n] items, one after the other; the value is the offset after them. *)
Fixpoint decode_items {A} (decode : bytes → Z → M bytes (A * Z)) (add : A → DNS → DNS)
    (n : nat) (data : bytes) (offset : Z) : M (dstate DNS) Z :=
  match n with
  | O => mret offset
  | S n' =>
      '(x, offset) ← on_buffer (decode data offset);
      _ ← modify_layer (add x);
      decode_items decode add n' data offset
  end.

Definition decode_header (data : bytes) (buffer : bytes) : outcome DNS :=
  id ← slice_to data 2 ≫= BE_Uint16;
  b2 ← index data 2;
  b3 ← index data 3;
  qd ← slice data 4 6 ≫= BE_Uint16;
  an ← slice data 6 8 ≫= BE_Uint16;
  ns ← slice data 8 10 ≫= BE_Uint16;
  ar ← slice data 10 12 ≫= BE_Uint16;
  mret (mkDNS (mkBase data []) id (has_bits b2 0x80) (Z.land (Z.shiftr b2 3) 0x0F)
    (has_bits b2 0x04) (has_bits b2 0x02) (has_bits b2 0x01) (has_bits b3 0x80)
    (Z.land (Z.shiftr b3 4) 0x7) (Z.land b3 0xF) qd an ns ar [] [] [] [] buffer).

Definition check_counts (d : DNS) : outcome unit :=
  if negb (u16 (len (Questions d)) =? QDCount d) then Err errDecodeQueryBadQDCount
  else if negb (u16 (len (Answers d)) =? ANCount d) then Err errDecodeQueryBadANCount
  else if negb (u16 (len (Authorities d)) =? NSCount d) then Err errDecodeQueryBadNSCount
  else if negb (u16 (len (Additionals d)) =? ARCount d) then Err errDecodeQueryBadARCount
  else mret tt.

Definition DecodeFromBytes (data : bytes) : M (dstate DNS) unit :=
  _ ← modify_layer (set_buffer []);
  if len data <? 12 then _ ← SetTruncated; throw errDNSPacketTooShort
  else
    d ← lift (decode_header data []);
    _ ← put_layer d;
    offset ← decode_items Question_decode add_question (Z.to_nat (QDCount d)) data 12;
    offset ← decode_items RR_decode add_answer (Z.to_nat (ANCount d)) data offset;
    offset ← decode_items RR_decode add_authority (Z.to_nat (NSCount d)) data offset;
    _ ← decode_items RR_decode add_additional (Z.to_nat (ARCount d)) data offset;
    d ← get_layer;
    lift (check_counts d).

Definition CanDecode : list LayerType := [LayerTypeDNS].
Definition NextLayerType (d : DNS) : LayerType := LayerTypePayload.
Definition DNS_Payload (d : DNS) : bytes := [].

(** ** Serialization *)

Definition b2i (b : bool) : Z := if b then 1 else 0.

Definition sum_len {A} (f : A → bytes) (l : list A) : Z := foldr (fun x n => len (f x) + n) 0 l.

Definition recSize (rr : DNSResourceRecord) : Z :=
  let t := Type_ rr in
  let d := rdata rr in
  if t =? DNSTypeA then 4
  else if t =? DNSTypeAAAA then 16
  else if t =? DNSTypeNS then len (NS d) + 2
  else if t =? DNSTypeCNAME then len (CNAME d) + 2
  else if t =? DNSTypePTR then len (PTR d) + 2
  else if t =? DNSTypeSOA then len (MName (SOA d)) + 2 + len (RName (SOA d)) + 2 + 20
  else if t =? DNSTypeMX then 2 + len (mx_Name (MX d)) + 2
  else if t =? DNSTypeTXT then len (TXTs d) + sum_len id (TXTs d)
  else if t =? DNSTypeSRV then 6 + len (srv_Name (SRV d)) + 2
  else if t =? DNSTypeURI then 4 + len (Target (URI d))
  else if t =? DNSTypeOPT then len (OPT d) * 4 + sum_len opt_Data (OPT d)
  else 0.

Definition computeSize (recs : list DNSResourceRecord) : Z :=
  foldr (fun rr sz => (if len (Name rr) =? 0 then len (Name rr) + 11 else len (Name rr) + 12)
                      + recSize rr + sz) 0 recs.

Definition message_size (d : DNS) : Z :=
  12 + (foldr (fun q sz => len (q_Name q) + 6 + sz) 0 (Questions d)
        + computeSize (Answers d) + computeSize (Authorities d) + computeSize (Additionals d)).

(** The loop over the bytes of the name: [i] is the position, [l] the length of
    the label so far. *)
Fixpoint encode_labels (name : bytes) (i l offset : Z) (data : bytes) : outcome (bytes * Z) :=
  match name with
  | [] => mret (data, l)
  | c :: name' =>
      if c =? 46 then
        data ← set_index data (offset + i - l) (u8 l);
        encode_labels name' (i + 1) 0 offset data
      else
        data ← set_index data (offset + i + 1) c;
        encode_labels name' (i + 1) (l + 1) offset data
  end.

(** The data, and the offset after the name. *)
Definition encodeName (name data : bytes) (offset : Z) : outcome (bytes * Z) :=
  '(data, l) ← encode_labels name 0 0 offset data;
  if len name =? 0 then
    data ← set_index data offset 0;
    mret (data, offset + 1)
  else
    data ← set_index data (offset + len name - l) (u8 l);
    data ← set_index data (offset + len name + 1) 0;
    mret (data, offset + len name + 2).

Definition Question_encode (q : DNSQuestion) (data : bytes) (offset : Z) : outcome (bytes * Z) :=
  '(data, noff) ← encodeName (q_Name q) data offset;
  let nSz := noff - offset in
  data ← BE_PutUint16 data noff (q_Type q);
  data ← BE_PutUint16 data (noff + 2) (q_Class q);
  mret (data, nSz + 4).

Fixpoint encode_TXTs (txts : list bytes) (data : bytes) (noff2 : Z) : outcome bytes :=
  match txts with
  | [] => mret data
  | txt :: txts' =>
      data ← set_index data noff2 (u8 (len txt));
      data ← copy_from data (noff2 + 1) txt;
      encode_TXTs txts' data (noff2 + (1 + len txt))
  end.

Fixpoint encode_OPTs (opts : list DNSOPT) (data : bytes) (noff2 : Z) : outcome bytes :=
  match opts with
  | [] => mret data
  | opt :: opts' =>
      data ← BE_PutUint16 data noff2 (Code opt);
      data ← BE_PutUint16 data (noff2 + 2) (u16 (len (opt_Data opt)));
      data ← copy_from data (noff2 + 4) (opt_Data opt);
      encode_OPTs opts' data (noff2 + (4 + len (opt_Data opt)))
  end.

Definition encode_SOA (soa : DNSSOA) (data : bytes) (offset : Z) : outcome bytes :=
  '(data, noff2) ← encodeName (MName soa) data offset;
  '(data, noff2) ← encodeName (RName soa) data noff2;
  data ← BE_PutUint32 data noff2 (Serial soa);
  data ← BE_PutUint32 data (noff2 + 4) (Refresh soa);
  data ← BE_PutUint32 data (noff2 + 8) (Retry soa);
  data ← BE_PutUint32 data (noff2 + 12) (Expire soa);
  BE_PutUint32 data (noff2 + 16) (Minimum soa).

Definition encode_SRV (srv : DNSSRV) (data : bytes) (offset : Z) : outcome bytes :=
  data ← BE_PutUint16 data offset (srv_Priority srv);
  data ← BE_PutUint16 data (offset + 2) (srv_Weight srv);
  data ← BE_PutUint16 data (offset + 4) (Port srv);
  r ← encodeName (srv_Name srv) data (offset + 6);
  mret r.1.

Definition encode_URI (uri : DNSURI) (data : bytes) (offset : Z) : outcome bytes :=
  data ← BE_PutUint16 data offset (uri_Priority uri);
  data ← BE_PutUint16 data (offset + 2) (uri_Weight uri);
  copy_from data (offset + 4) (Target uri).

(** The data of a record, at [offset]; an error for a type that is not supported. *)
Definition encode_rdata (rr : DNSResourceRecord) (data : bytes) (offset : Z) : outcome bytes :=
  let t := Type_ rr in
  let d := rdata rr in
  if t =? DNSTypeA then copy_from data offset (match To4 (IP d) with Some a => a | None => [] end)
  else if t =? DNSTypeAAAA then copy_from data offset (IP d)
  else if t =? DNSTypeNS then r ← encodeName (NS d) data offset; mret r.1
  else if t =? DNSTypeCNAME then r ← encodeName (CNAME d) data offset; mret r.1
  else if t =? DNSTypePTR then r ← encodeName (PTR d) data offset; mret r.1
  else if t =? DNSTypeSOA then encode_SOA (SOA d) data offset
  else if t =? DNSTypeMX then
    data ← BE_PutUint16 data offset (Preference (MX d));
    r ← encodeName (mx_Name (MX d)) data (offset + 2);
    mret r.1
  else if t =? DNSTypeTXT then encode_TXTs (TXTs d) data offset
  else if t =? DNSTypeSRV then encode_SRV (SRV d) data offset
  else if t =? DNSTypeURI then encode_URI (URI d) data offset
  else if t =? DNSTypeOPT then encode_OPTs (OPT d) data offset
  else Err (Errorf "serializing resource record of type %v not supported" [t]).

Definition set_DataLength (v : Z) (rr : DNSResourceRecord) : DNSResourceRecord :=
  mkRR (Name rr) (Type_ rr) (Class_ rr) (TTL rr) v (Data rr) (rdata rr).

(** The record, the data and the number of bytes, or an error. *)
Definition RR_encode (opts : SerializeOptions) (rr : DNSResourceRecord) (data : bytes) (offset : Z)
    : outcome (DNSResourceRecord * bytes * (Z + error)) :=
  '(data, noff) ← encodeName (Name rr) data offset;
  let nSz := noff - offset in
  data ← BE_PutUint16 data noff (Type_ rr);
  data ← BE_PutUint16 data (noff + 2) (Class_ rr);
  data ← BE_PutUint32 data (noff + 4) (TTL rr);
  r ← try_ (encode_rdata rr data (noff + 10));
  match r with
  | inr e => mret (rr, data, inr e)
  | inl data =>
      let dSz := recSize rr in
      data ← BE_PutUint16 data (noff + 8) (u16 dSz);
      mret (if FixLengths opts then set_DataLength (u16 dSz) rr else rr, data, inl (nSz + 10 + dSz))
  end.

Fixpoint encode_questions (qs : list DNSQuestion) (data : bytes) (off : Z) : outcome (bytes * Z) :=
  match qs with
  | [] => mret (data, off)
  | q :: qs' =>
      '(data, n) ← Question_encode q data off;
      encode_questions qs' data (off + n)
  end.

(** The records, those written with their lengths fixed, the data, and the
    offset or an error. *)
Fixpoint encode_records (opts : SerializeOptions) (rs : list DNSResourceRecord) (data : bytes) (off : Z)
    : outcome (list DNSResourceRecord * bytes * (Z + error)) :=
  match rs with
  | [] => mret ([], data, inl off)
  | rr :: rs' =>
      '(rr, data, n) ← RR_encode opts rr data off;
      match n with
      | inr e => mret (rr :: rs', data, inr e)
      | inl n =>
          '(rs, data, r) ← encode_records opts rs' data (off + n);
          mret (rr :: rs, data, r)
      end
  end.

Section serialize.
Context {W : Type} `{SerializeBuffer W}.

(** One of the three loops over records. *)
Definition serialize_records (opts : SerializeOptions) (records : DNS → list DNSResourceRecord)
    (set_records : list DNSResourceRecord → DNS → DNS) (bytes : bytes) (off : Z)
    : M (DNS * W) (Prelude.bytes * Z) :=
  d ← get_fields;
  '(rs, bytes, r) ← lift (encode_records opts (records d) bytes off);
  _ ← put_fields (set_records rs d);
  match r with
  | inl off => mret (bytes, off)
  | inr e => _ ← sync bytes; throw e
  end.

Definition header_byte2 (d : DNS) : Z :=
  u8 (Z.lor (Z.lor (Z.lor (Z.lor (Z.shiftl (b2i (QR d)) 7) (Z.shiftl (OpCode d) 3))
        (Z.shiftl (b2i (AA d)) 2)) (Z.shiftl (b2i (TC d)) 1)) (b2i (RD d))).
Definition header_byte3 (d : DNS) : Z :=
  u8 (Z.lor (Z.lor (Z.shiftl (b2i (RA d)) 7) (Z.shiftl (Z_ d) 4)) (ResponseCode d)).

Definition put_counts (d : DNS) (bytes : bytes) : outcome Prelude.bytes :=
  bytes ← BE_PutUint16 bytes 4 (QDCount d);
  bytes ← BE_PutUint16 bytes 6 (ANCount d);
  bytes ← BE_PutUint16 bytes 8 (NSCount d);
  BE_PutUint16 bytes 10 (ARCount d).

Definition SerializeTo (opts : SerializeOptions) : M (DNS * W) unit :=
  d ← get_fields;
  bytes ← prepend (message_size d);
  bytes ← lift (BE_PutUint16 bytes 0 (ID d));
  bytes ← lift (set_index bytes 2 (header_byte2 d));
  bytes ← lift (set_index bytes 3 (header_byte3 d));
  let d :=
    if FixLengths opts then
      set_counts (u16 (len (Questions d))) (u16 (len (Answers d))) (u16 (len (Authorities d)))
        (u16 (len (Additionals d))) d
    else d in
  _ ← put_fields d;
  bytes ← lift (put_counts d bytes);
  '(bytes, off) ← lift (encode_questions (Questions d) bytes 12);
  '(bytes, off) ← serialize_records opts Answers set_Answers bytes off;
  '(bytes, off) ← serialize_records opts Authorities set_Authorities bytes off;
  '(bytes, off) ← serialize_records opts Additionals set_Additionals bytes off;
  sync bytes.
End serialize.
