(* ===== verification/DnsNames.v ===== *)
(** * Domain names on the wire

    What a name in a DNS message stands for, with compression pointers, as a
    relation on the bytes; [decodeName] computes it, within the limits of the
    code, and [encodeName] writes names that it reads back. *)

From S2P Require Import Prelude BaseLayers Dns.

(** ** The format *)

(** The labels that start at [off] in a name that starts at [start], and the
    offset after them. A pointer goes one level deeper. *)
Inductive labels_at (data : bytes) : Z → Z → Z → list bytes → Z → Prop :=
  | labels_end level start off :
      0 <= off → data !! Z.to_nat off = Some 0 → labels_at data level start off [] (off + 1)
  | labels_cons level start off b l ls e :
      0 <= off → data !! Z.to_nat off = Some b → 0 < b < 64 → off + b + 1 - start <= 255 →
      slice data (off + 1) (off + b + 1) = Ok l →
      labels_at data level start (off + b + 1) ls e →
      labels_at data level start off (l :: ls) e
  | labels_pointer level start off b c ls e :
      0 <= off → data !! Z.to_nat off = Some b → 192 <= b < 256 → data !! Z.to_nat (off + 1) = Some c →
      level < maxRecursionLevel →
      labels_at data (level + 1) ((b * 256 + c) mod 16384) ((b * 256 + c) mod 16384) ls e →
      labels_at data level start off ls (off + 2).

(** The text of a name: its labels with dots between them. *)
Definition dotted (ls : list bytes) : bytes := concat (map (cons 46) ls).
Definition join (ls : list bytes) : bytes := drop 1 (dotted ls).

Lemma labels_at_start data level start off ls e : labels_at data level start off ls e → 0 <= off < len data.
Proof. destruct 1 as [? ? ? ? Hl|? ? ? ? ? ? ? ? Hl|? ? ? ? ? ? ? ? Hl]; apply lookup_lt_Some in Hl; unfold len; lia. Qed.

Lemma labels_at_end data level start off ls e : labels_at data level start off ls e → off < e <= len data.
Proof.
  induction 1 as [? ? ? ? Hl%lookup_lt_Some|? ? ? b ? ? ? ? ? ? ? ? Hs IH|? ? ? ? ? ? ? ? Hb ? Hc%lookup_lt_Some].
  - unfold len. lia.
  - lia.
  - unfold len. lia.
Qed.

(** The two upper bits of a byte tell labels and pointers apart. *)
Lemma kind_of_byte b : is_byte b → Z.land b 0xc0 = b / 64 * 64.
Proof.
  intros Hb. apply Z.eqb_eq. revert b Hb. apply byte_decide. vm_compute. reflexivity.
Qed.

Lemma dotted_cons l ls : dotted (l :: ls) = (46 :: l) ++ dotted ls.
Proof. done. Qed.

Lemma land_3fff p : Z.land p 0x3fff = p mod 16384.
Proof. by apply (land_low p 14). Qed.

Lemma BE_Uint16_slice data off b c : 0 <= off → data !! Z.to_nat off = Some b →
  data !! Z.to_nat (off + 1) = Some c → slice data off (off + 2) ≫= BE_Uint16 = Ok (b * 256 + c).
Proof.
  intros H0 Hb Hc. pose proof (lookup_lt_Some _ _ _ Hc). rewrite slice_ok by (unfold len; lia).
  cbn [mbind outcome_bind]. replace (Z.to_nat (off + 2)) with (Z.to_nat off + 2)%nat by lia.
  rewrite <-take_drop_commute. replace (Z.to_nat (off + 1)) with (S (Z.to_nat off)) in Hc by lia.
  by rewrite (drop_S _ b _ Hb), (drop_S _ c _ Hc).
Qed.

(** The part of the buffer that a call has added, less the first dot. *)
Lemma name_slice buf ls :
  slice_from (buf ++ dotted ls)
    (if len (buf ++ dotted ls) <=? len buf then len buf else len buf + 1) = Ok (join ls).
Proof.
  rewrite len_app. destruct ls as [|l ls].
  - destruct (Z.leb_spec (len buf + len (dotted [])) (len buf)) as [|H]; [|change (len (dotted [])) with 0 in H; lia].
    by rewrite slice_from_app.
  - rewrite dotted_cons. change ((46 :: l) ++ dotted ls) with ([46] ++ l ++ dotted ls).
    rewrite len_app. pose proof (len_nonneg (l ++ dotted ls)). change (len [46]) with 1.
    destruct (Z.leb_spec (len buf + (1 + len (l ++ dotted ls))) (len buf)); [lia|].
    rewrite app_assoc, slice_from_app; [done|]. by rewrite len_app.
Qed.

(** ** [decodeName] finds what the relation says *)

Section decode_name.
Context (data : bytes).
Hypothesis Hdata : is_bytes data.

(** What a call that starts at [off] on a level gives back. *)
Definition name_result (level off : Z) (buf : bytes) (r : bytes * Z) (buf' : bytes) : Prop :=
  ∃ ls, labels_at data level off off ls r.2 ∧ r.1 = join ls ∧ buf' = buf ++ dotted ls.

Lemma decode_labels_ok follow level start :
  (∀ p buf, wp (follow p)
     (fun r buf' => level < maxRecursionLevel ∧ name_result (level + 1) p buf r buf') (fun _ _ => True) buf) →
  0 <= start → ∀ k off buf,
  start <= off < len data → 256 - (off - start) <= Z.of_nat k → off - start <= 255 →
  wp (decode_labels follow k data start off)
    (fun i buf' => ∃ ls, labels_at data level start off ls (i + 1) ∧ buf' = buf ++ dotted ls)
    (fun _ _ => True) buf.
Proof.
  intros Hfollow Hs0. induction k as [|k IH]; intros off buf Hoff Hk Hl; [lia|].
  cbn [decode_labels]. apply wp_bind, wp_lift, owp_index; [lia|]. intros b Hb.
  pose proof (is_bytes_lookup _ _ _ Hdata Hb) as Hbyte. unfold is_byte in Hbyte.
  destruct (Z.eqb_spec b 0) as [->|Hb0].
  { apply wp_ret. exists []. rewrite app_nil_r. split; [|done]. constructor; [lia | done]. }
  rewrite kind_of_byte by done. cbv zeta.
  destruct (Z.eqb_spec (b / 64 * 64) 192) as [H192|].
  { destruct (Z.gtb_spec (off + 2) (len data)); [done|].
    destruct (lookup_lt_is_Some_2 data (Z.to_nat (off + 1))) as [c Hc]; [unfold len in *; lia|].
    apply wp_bind, wp_lift. rewrite (BE_Uint16_slice data off b c) by (done || lia). cbn [owp].
    rewrite land_3fff. destruct (Z.gtb_spec ((b * 256 + c) mod 16384) (len data)); [done|].
    apply wp_bind. eapply wp_mono; [| |apply Hfollow]; [|done].
    intros r buf' (Hlt & ls & Hls & _ & ->). apply wp_ret. exists ls. split; [|done].
    replace (off + 1 + 1) with (off + 2) by lia. eapply labels_pointer;
      [lia | exact Hb | split; zdiv | exact Hc | done | exact Hls]. }
  destruct (Z.eqb_spec (b / 64 * 64) 64); [done|]. destruct (Z.eqb_spec (b / 64 * 64) 128); [done|].
  assert (b < 64) as H64 by zdiv.
  destruct (Z.gtb_spec (off + b + 1 - start) 255); [done|].
  destruct (Z.ltb_spec (off + b + 1) (off + 1)); [lia|].
  destruct (Z.gtb_spec (off + b + 1) (len data)); [done|]. cbn [orb].
  apply wp_bind, wp_lift. destruct (slice data (off + 1) (off + b + 1)) as [l| | |] eqn:Hs;
    rewrite slice_ok in Hs by lia; try discriminate Hs. cbn [owp].
  apply wp_bind, wp_modify. destruct (Z.geb_spec (off + b + 1) (len data)); [done|].
  eapply wp_mono; [| |apply IH; lia]; [|done].
  intros i buf' (ls & Hls & ->). exists (l :: ls). split; [|by rewrite dotted_cons, <-app_assoc].
  eapply labels_cons; [lia | exact Hb | lia | lia | rewrite slice_ok by lia; exact Hs | done].
Qed.

Lemma decodeName_at_ok : ∀ fuel level off buf, maxRecursionLevel + 2 - level <= Z.of_nat fuel →
  level <= maxRecursionLevel + 1 →
  wp (decodeName_at fuel data off level)
    (fun r buf' => level <= maxRecursionLevel ∧ name_result level off buf r buf') (fun _ _ => True) buf.
Proof.
  induction fuel as [|fuel IH]; intros level off buf Hf Hl; [lia|]. cbn [decodeName_at].
  destruct (Z.gtb_spec level maxRecursionLevel); [done|].
  destruct (Z.geb_spec off (len data)); [done|]. destruct (Z.ltb_spec off 0); [done|].
  apply wp_bind, wp_gets, wp_bind, wp_lift, owp_index; [lia|]. intros b Hb.
  destruct (Z.eqb_spec b 0) as [->|Hb0].
  { apply wp_ret. split; [lia|]. exists []. rewrite app_nil_r. split; [|done]. constructor; [lia | done]. }
  apply wp_bind. eapply wp_mono; [| |apply (decode_labels_ok _ level off)]; [|done| |lia..].
  2: { intros p buf'. eapply wp_mono; [| |apply IH; lia]; [|done]. intros r buf'' [? ?]. split; [lia | done]. }
  intros i buf' (ls & Hls & ->). apply wp_bind, wp_get, wp_bind, wp_lift.
  rewrite name_slice. cbn [owp]. apply wp_ret. split; [lia|]. by exists ls.
Qed.

Lemma decodeName_ok off buf :
  wp (decodeName data off) (fun r buf' => name_result 1 off buf r buf') (fun _ _ => True) buf.
Proof.
  eapply wp_mono; [| |apply decodeName_at_ok]; [|done|unfold level_fuel, maxRecursionLevel; lia..].
  by intros r buf' [_ ?].
Qed.
End decode_name.

(** ** and finds it whenever it is there *)

Section find_name.
Context (data : bytes).

Lemma decodeName_at_of level off ls e fuel buf :
  (∀ buf, data !! Z.to_nat off ≠ Some 0 →
     decode_labels (fun p => decodeName_at fuel data p (level + 1)) 256 data off off buf =
       (Ok (e - 1), buf ++ dotted ls)) →
  level <= maxRecursionLevel → labels_at data level off off ls e →
  decodeName_at (S fuel) data off level buf = (Ok (join ls, e), buf ++ dotted ls).
Proof.
  intros Hd Hl Hls. pose proof (labels_at_start _ _ _ _ _ _ Hls) as Hoff. cbn [decodeName_at].
  destruct (Z.gtb_spec level maxRecursionLevel); [lia|]. destruct (Z.geb_spec off (len data)); [lia|].
  destruct (Z.ltb_spec off 0); [lia|]. unfold mbind, M_bind, gets, get, lift.
  destruct (index_ok data off) as (b & Hb & ->); [lia|].
  destruct (Z.eqb_spec b 0) as [->|Hb0].
  { inversion Hls as [? ? ? ? Hb'|? ? ? b' ? ? ? ? Hb'|? ? ? b' ? ? ? ? Hb']; simplify_eq; try lia.
    by rewrite app_nil_r. }
  rewrite Hd by congruence. cbn. rewrite name_slice. cbn. by replace (e - 1 + 1) with e by lia.
Qed.

Lemma decode_labels_of level start off ls e : labels_at data level start off ls e →
  ∀ fuel k buf, level <= maxRecursionLevel → maxRecursionLevel - level < Z.of_nat fuel + 1 →
  start <= off → off - start <= 255 → 256 - (off - start) <= Z.of_nat k →
  decode_labels (fun p => decodeName_at fuel data p (level + 1)) k data start off buf =
    (Ok (e - 1), buf ++ dotted ls).
Proof.
  induction 1 as [level start off H0 Hb|level start off b l ls e H0 Hb Hr Hl Hs Hls IH
                 |level start off b c ls e H0 Hb Hr Hc Hlv Hls IH]; intros fuel k buf Hmax Hf Hst H255 Hk;
    (destruct k as [|k]; [lia|]); cbn [decode_labels]; unfold mbind at 1, M_bind at 1, lift at 1;
    pose proof (lookup_lt_Some _ _ _ Hb) as Hlt;
    (destruct (index_ok data off) as (b' & Hb' & ->); [unfold len; lia|]); rewrite Hb in Hb'; injection Hb' as <-.
  - cbn. unfold mret, M_ret. rewrite app_nil_r. do 2 f_equal. lia.
  - rewrite kind_of_byte by (unfold is_byte; lia). cbv zeta.
    destruct (Z.eqb_spec b 0); [lia|]. replace (b / 64 * 64) with 0 by zdiv. cbn [Z.eqb].
    destruct (Z.gtb_spec (off + b + 1 - start) 255); [lia|].
    pose proof (labels_at_start _ _ _ _ _ _ Hls) as Hn.
    destruct (Z.ltb_spec (off + b + 1) (off + 1)); [lia|].
    destruct (Z.gtb_spec (off + b + 1) (len data)); [lia|]. cbn [orb].
    unfold mbind, M_bind, lift, modify. rewrite Hs. cbn [mbind].
    destruct (Z.geb_spec (off + b + 1) (len data)); [lia|].
    rewrite IH by lia. by rewrite dotted_cons, <-app_assoc.
  - rewrite kind_of_byte by (unfold is_byte; lia). cbv zeta.
    destruct (Z.eqb_spec b 0); [lia|]. replace (b / 64 * 64) with 192 by zdiv. cbn [Z.eqb Pos.eqb].
    pose proof (lookup_lt_Some _ _ _ Hc). destruct (Z.gtb_spec (off + 2) (len data)); [unfold len in *; lia|].
    unfold mbind at 1, M_bind at 1, lift at 1. rewrite (BE_Uint16_slice data off b c) by done. rewrite land_3fff.
    pose proof (labels_at_start _ _ _ _ _ _ Hls) as Hn.
    destruct (Z.gtb_spec ((b * 256 + c) mod 16384) (len data)); [lia|].
    destruct fuel as [|fuel]; [lia|]. unfold mbind at 1, M_bind at 1.
    rewrite (decodeName_at_of (level + 1) _ ls e fuel buf); [| |lia|done].
    + unfold mret, M_ret. do 2 f_equal. lia.
    + intros buf' _. apply IH; lia.
Qed.

(** [decodeName] succeeds exactly on the names of the format. *)
Lemma decodeName_labels off ls e buf : labels_at data 1 off off ls e →
  decodeName data off buf = (Ok (join ls, e), buf ++ dotted ls).
Proof.
  intros Hls. unfold decodeName, level_fuel. apply decodeName_at_of; [|unfold maxRecursionLevel; lia | done].
  intros buf' _. apply decode_labels_of; try done; unfold maxRecursionLevel; lia.
Qed.
End find_name.

(** ** Names as the code writes them *)


(** A label of 1 to 63 bytes, without a dot. *)
Definition label_ok (l : bytes) : Prop := 0 < len l < 64 ∧ is_bytes l ∧ 46 ∉ l.

Definition wire_labels (ls : list bytes) : bytes := concat (map (fun l => len l :: l) ls).
Definition wire_name (ls : list bytes) : bytes := wire_labels ls ++ [0].

Lemma wire_labels_cons l ls : wire_labels (l :: ls) = (len l :: l) ++ wire_labels ls.
Proof. done. Qed.

Lemma join_cons l l' ls : join (l :: l' :: ls) = l ++ 46 :: join (l' :: ls).
Proof. done. Qed.
Lemma join_one l : join [l] = l.
Proof. unfold join, dotted. cbn. by rewrite app_nil_r. Qed.

Lemma join_pos l ls : label_ok l → 0 < len (join (l :: ls)).
Proof.
  intros (Hl & _). destruct ls as [|l' ls]; [rewrite join_one; lia|]. rewrite join_cons. lens.
Qed.

Lemma len_wire_name ls : ls ≠ [] → len (wire_name ls) = len (join ls) + 2.
Proof.
  intros Hne. unfold wire_name. rewrite len_app. change (len [0]) with 1.
  destruct ls as [|l ls]; [done|]. clear Hne. revert l. induction ls as [|l' ls IH]; intros l.
  - rewrite join_one. unfold wire_labels. cbn. rewrite app_nil_r, len_cons. lia.
  - rewrite wire_labels_cons, join_cons, !len_app, !len_cons. specialize (IH l'). lia.
Qed.

Lemma wire_name_bytes ls : Forall label_ok ls → is_bytes (wire_name ls).
Proof.
  intros H. unfold wire_name. apply is_bytes_app. split; [|repeat constructor; done].
  induction H as [|l ls (Hl & Hb & _) H IH]; [constructor|]. rewrite wire_labels_cons.
  apply is_bytes_app. split; [|done]. apply is_bytes_cons. split; [unfold is_byte; lia | done].
Qed.

(** Reading a name that stands in the data as the code writes it. *)
Lemma labels_at_wire ls : ∀ data pre post level start, Forall label_ok ls → data = pre ++ wire_name ls ++ post →
  start <= len pre → len pre + len (wire_labels ls) - start <= 255 →
  labels_at data level start (len pre) ls (len pre + len (wire_name ls)).
Proof.
  induction ls as [|l ls IH]; intros data pre post level start Hok -> Hs Hlen.
  - change (len (wire_name [])) with 1. constructor; [lens|].
    unfold len. rewrite Nat2Z.id. by rewrite lookup_app_r, Nat.sub_diag.
  - inversion_clear Hok as [|? ? (Hl & Hb & Hd) Hls]. rewrite wire_labels_cons in Hlen.
    unfold wire_name. rewrite wire_labels_cons. rewrite len_app, len_cons in Hlen.
    pose proof (len_nonneg pre). pose proof (len_nonneg (wire_labels ls)).
    assert (pre ++ (((len l :: l) ++ wire_labels ls) ++ [0]) ++ post =
      (pre ++ len l :: l) ++ wire_name ls ++ post) as Hdata.
    { unfold wire_name. regroup. }
    eapply labels_cons; [done | | exact Hl | lia | |].
    + unfold len at 1. rewrite Nat2Z.id. rewrite lookup_app_r, Nat.sub_diag by done. done.
    + rewrite Hdata. rewrite <-app_assoc. change (pre ++ (len l :: l) ++ wire_name ls ++ post)
        with (pre ++ [len l] ++ l ++ wire_name ls ++ post). rewrite app_assoc.
      apply slice_app; rewrite len_app; change (len [len l]) with 1; lia.
    + rewrite Hdata. replace (len pre + len l + 1) with (len (pre ++ len l :: l)) by (rewrite len_app, len_cons; lia).
      replace (len pre + len (((len l :: l) ++ wire_labels ls) ++ [0]))
        with (len (pre ++ len l :: l) + len (wire_name ls))
        by (unfold wire_name; rewrite !len_app, !len_cons; lia).
      apply IH with post; [done | done | rewrite len_app, len_cons; lia | rewrite len_app, len_cons; lia].
Qed.

(** ** [encodeName] *)

Lemma encode_label cs : ∀ rest i l offset A x done_ old post, 46 ∉ cs → len done_ = l → len old = len cs →
  len A = offset + i - l →
  encode_labels (cs ++ rest) i l offset (A ++ x :: done_ ++ old ++ post) =
    encode_labels rest (i + len cs) (l + len cs) offset (A ++ x :: (done_ ++ cs) ++ post).
Proof.
  induction cs as [|c cs IH]; intros rest i l offset A x d old post Hdot Hl Hold HA.
  - apply len_zero in Hold as ->. by rewrite !Z.add_0_r, app_nil_r.
  - destruct old as [|o old]; [rewrite len_cons in Hold; pose proof (len_nonneg cs); change (len []) with 0 in Hold; lia|].
    rewrite !len_cons in Hold. apply not_elem_of_cons in Hdot as [Hc Hdot].
    cbn [app encode_labels]. destruct (Z.eqb_spec c 46); [congruence|].
    replace (A ++ x :: d ++ o :: old ++ post) with ((A ++ x :: d) ++ o :: old ++ post) by regroup.
    rewrite set_index_app by (rewrite len_app, len_cons; lia). cbn [mbind outcome_bind].
    replace ((A ++ x :: d) ++ c :: old ++ post) with (A ++ x :: (d ++ [c]) ++ old ++ post) by regroup.
    rewrite IH; [|done | rewrite len_app; change (len [c]) with 1; lia | lia | lia].
    rewrite len_cons, <-!app_assoc. cbn [app]. by rewrite !Z.add_assoc.
Qed.

Lemma encode_labels_ok ls : ∀ l0 i offset A old post, Forall label_ok (l0 :: ls) → len A = offset + i →
  len old = len (wire_labels (l0 :: ls)) →
  ∃ B x lst, encode_labels (join (l0 :: ls)) i 0 offset (A ++ old ++ post) = Ok (B ++ x :: lst ++ post, len lst) ∧
    B ++ len lst :: lst = A ++ wire_labels (l0 :: ls) ∧ 0 < len lst < 64.
Proof.
  induction ls as [|l1 ls IH]; intros l0 i offset A old post Hok HA Hold;
    inversion_clear Hok as [|? ? (Hl & Hb & Hd) Hls]; rewrite wire_labels_cons, len_app, len_cons in Hold;
    (destruct old as [|y old]; [exfalso; lens|]); rewrite len_cons in Hold.
  - change (len (wire_labels [])) with 0 in Hold. exists A, y, l0. split; [|split; [unfold wire_labels; cbn; by rewrite app_nil_r | done]].
    rewrite join_one. rewrite <-(app_nil_r l0) at 1.
    change (A ++ (y :: old) ++ post) with (A ++ y :: [] ++ old ++ post).
    rewrite encode_label; [done | done | done | lia | lia].
  - rewrite join_cons. set (o1 := take (length l0) old). set (o2 := drop (length l0) old).
    assert (len o1 = len l0) as Ho1 by (subst o1; rewrite len_take; unfold len in *; lia).
    assert (len o2 = len (wire_labels (l1 :: ls))) as Ho2 by (subst o2; rewrite len_drop; unfold len in *; lia).
    replace old with (o1 ++ o2) by apply take_drop.
    replace (A ++ (y :: o1 ++ o2) ++ post) with (A ++ y :: [] ++ o1 ++ o2 ++ post) by regroup.
    rewrite encode_label; [|done | done | lia | lia]. cbn [app encode_labels].
    change (46 =? 46) with true. cbv iota.
    rewrite set_index_app by lia. cbn [mbind outcome_bind].
    rewrite u8_small by (unfold is_u8; lia). rewrite Z.add_0_l.
    destruct (IH l1 (i + len l0 + 1) offset (A ++ len l0 :: l0) o2 post) as (B & z & lst & He & HB & Hlst);
      [done | rewrite len_app, len_cons; lia | done |].
    exists B, z, lst. split; [|split; [|done]].
    + rewrite <-He. f_equal. regroup.
    + rewrite HB, wire_labels_cons. regroup.
Qed.

Lemma encodeName_ok ls pre old post : Forall label_ok ls → len old = len (wire_name ls) →
  encodeName (join ls) (pre ++ old ++ post) (len pre) =
    Ok (pre ++ wire_name ls ++ post, len pre + len (wire_name ls)).
Proof.
  intros Hok Hold. unfold encodeName. destruct ls as [|l0 ls].
  - change (len (wire_name [])) with 1 in *. change (wire_name []) with [0]. change (join []) with (@nil Z).
    destruct old as [|x [|y old]]; [discriminate Hold | | exfalso; lens].
    cbn [encode_labels mbind outcome_bind mret outcome_ret app].
    change (len (@nil Z) =? 0) with true. cbv iota beta.
    by rewrite set_index_app.
  - rewrite len_wire_name in Hold by done. rewrite (len_wire_name (l0 :: ls)) by done.
    pose proof (join_pos l0 ls (Forall_inv Hok)). pose proof (len_wire_name (l0 :: ls) ltac:(done)) as Hw.
    unfold wire_name in Hw. rewrite len_app in Hw. change (len [0]) with 1 in Hw.
    destruct old as [|t o1 _] using rev_ind; [change (len []) with 0 in Hold; lia|].
    rewrite len_app in Hold. change (len [t]) with 1 in Hold.
    destruct (encode_labels_ok ls l0 0 (len pre) pre o1 ([t] ++ post)) as (B & x & lst & He & HB & Hlst);
      [done | lia | lia |].
    rewrite <-app_assoc, He. cbn [mbind outcome_bind].
    pose proof (f_equal len HB) as HBl. rewrite !len_app, len_cons in HBl.
    destruct (Z.eqb_spec (len (join (l0 :: ls))) 0); [lia|].
    rewrite set_index_app by lia. cbn [mbind outcome_bind]. rewrite u8_small by (unfold is_u8; lia).
    replace (B ++ len lst :: lst ++ [t] ++ post) with ((B ++ len lst :: lst) ++ t :: post) by regroup.
    rewrite HB. rewrite set_index_app by (rewrite len_app; lia). cbn. f_equal. f_equal; [|lia].
    unfold wire_name. regroup.
Qed.

(** ** The properties *)

(** C29 (names): on any bytes and from any offset, [decodeName] neither panics
    nor runs on, however the compression pointers lead; it succeeds exactly
    when the labels at the offset make up a name in which every level, the name
    and the names it points to, spans at most 255 bytes and no more than 254
    pointers follow each other, and gives the labels joined by dots and the
    offset after the name, leaving the name, with a dot in front, in the
    buffer. *)
Theorem decodeName_correct data off buf : is_bytes data →
  wp (decodeName data off) (fun _ _ => True) (fun _ _ => True) buf ∧
  ∀ name e, (decodeName data off buf).1 = Ok (name, e) ↔
    ∃ ls, labels_at data 1 off off ls e ∧ name = join ls ∧
      (decodeName data off buf).2 = buf ++ dotted ls.
Proof.
  intros Hdata. pose proof (decodeName_ok data Hdata off buf) as Hok.
  split; [eapply wp_mono; [| |exact Hok]; done|]. intros name e. split.
  - unfold wp in Hok. destruct (decodeName data off buf) as [[r| | |] buf']; try done.
    cbn. intros [= ->]. destruct Hok as (ls & ? & ? & ?). by exists ls.
  - intros (ls & Hls & -> & _). by rewrite (decodeName_labels data _ _ _ _ Hls).
Qed.

(** "www.a" behind a header-like prefix, and a pointer to it. *)
Definition sample_names : bytes := [0; 3; 119; 119; 119; 1; 97; 0; 1; 98; 192; 1].

Lemma decodeName_correct_witness :
  (∃ buf, decodeName sample_names 8 [] = (Ok ([98; 46; 119; 119; 119; 46; 97], 12), buf)) ∧
  ∃ ls, labels_at sample_names 1 8 8 ls 12 ∧ [98; 46; 119; 119; 119; 46; 97] = join ls.
Proof.
  split; [eexists; vm_compute; reflexivity|].
  destruct (decodeName_correct sample_names 8 [] ltac:(solve_Forall)) as [_ H].
  destruct (proj1 (H [98; 46; 119; 119; 119; 46; 97] 12) ltac:(vm_compute; reflexivity)) as (ls & Hls & Hj & _).
  by exists ls.
Defined.
