(* ===== verification/DnsRoundtrip.v ===== *)
(** * Round trip of DNS messages

    What [SerializeTo] writes for a message, and that [DecodeFromBytes] reads
    it back: headers, questions, and records of the eleven types that the code
    serializes. *)

From S2P Require Import Prelude SerializeBuffer BaseLayers Enums Dns DnsNames.

(** ** Names as text *)

(** The labels of a text. *)
Fixpoint split_dots (cur n : bytes) : list bytes :=
  match n with
  | [] => [cur]
  | c :: n' => if c =? 46 then cur :: split_dots [] n' else split_dots (cur ++ [c]) n'
  end.

Definition labels_of (n : bytes) : list bytes := match n with [] => [] | _ => split_dots [] n end.

(** A name with labels of 1 to 63 bytes and not too long, or the root. *)
Definition name_ok (n : bytes) : Prop := Forall label_ok (labels_of n) ∧ len n <= 254.

Definition wire (n : bytes) : bytes := wire_name (labels_of n).

Lemma join_split n : ∀ cur, join (split_dots cur n) = cur ++ n ∧ split_dots cur n ≠ [].
Proof.
  induction n as [|c n IH]; intros cur; cbn [split_dots]; [by rewrite join_one, app_nil_r|].
  destruct (Z.eqb_spec c 46) as [->|]; split; try done.
  - destruct (IH []) as [H Hne]. destruct (split_dots [] n) as [|l ls]; [done|]. by rewrite join_cons, H.
  - destruct (IH (cur ++ [c])) as [-> _]. by rewrite <-app_assoc.
  - apply IH.
Qed.

Lemma join_labels n : join (labels_of n) = n.
Proof. destruct n as [|c n]; [done|]. unfold labels_of. apply join_split. Qed.

Lemma len_wire n : n ≠ [] → len (wire n) = len n + 2.
Proof.
  intros Hn. unfold wire. rewrite len_wire_name; [by rewrite join_labels|].
  destruct n; [done|]. apply join_split.
Qed.

Lemma wire_nil : wire [] = [0].
Proof. done. Qed.

Lemma decodeName_wire n pre post buf : name_ok n →
  ∃ ext, decodeName (pre ++ wire n ++ post) (len pre) buf = (Ok (n, len pre + len (wire n)), buf ++ ext).
Proof.
  intros [Hok Hl]. exists (dotted (labels_of n)).
  rewrite <-(join_labels n) at 2. apply decodeName_labels.
  eapply labels_at_wire; [done | done | lia |].
  assert (len (wire_labels (labels_of n)) <= 255) as H; [|lia].
  destruct n as [|c n]; [done|].
  pose proof (len_wire (c :: n) ltac:(done)) as Hw. unfold wire, wire_name in Hw.
  rewrite len_app in Hw. change (len [0]) with 1 in Hw. lia.
Qed.

Lemma encodeName_wire n pre old post : name_ok n → len old = len (wire n) →
  encodeName n (pre ++ old ++ post) (len pre) = Ok (pre ++ wire n ++ post, len pre + len (wire n)).
Proof. intros [Hok _] Hold. rewrite <-(join_labels n) at 1. by apply encodeName_ok. Qed.

Lemma wire_pos n : 0 < len (wire n).
Proof. unfold wire, wire_name. rewrite len_app. change (len [0]) with 1. lens. Qed.

(** ** Data of records *)

Definition wire_soa (s : DNSSOA) : bytes :=
  wire (MName s) ++ wire (RName s) ++ be32 (Serial s) ++ be32 (Refresh s) ++ be32 (Retry s) ++
  be32 (Expire s) ++ be32 (Minimum s).

Definition soa_ok (s : DNSSOA) : Prop :=
  name_ok (MName s) ∧ MName s ≠ [] ∧ name_ok (RName s) ∧ RName s ≠ [] ∧
  is_u32 (Serial s) ∧ is_u32 (Refresh s) ∧ is_u32 (Retry s) ∧ is_u32 (Expire s) ∧ is_u32 (Minimum s).

Definition wire_txts (ts : list bytes) : bytes := concat (map (fun t => len t :: t) ts).
Definition wire_opts (os : list DNSOPT) : bytes :=
  concat (map (fun o => be16 (Code o) ++ be16 (len (opt_Data o)) ++ opt_Data o) os).

Definition opt_ok (o : DNSOPT) : Prop := is_u16 (Code o) ∧ is_u16 (len (opt_Data o)).

(** The data of a record of type [t] with fields [d], the bytes that stand for
    it, and the fields that they decode to. The names in it are not the root. *)
Inductive rdata_wire : Z → RData → bytes → RData → Prop :=
  | rd_A d ip : To4 (IP d) = Some ip → len ip = 4 → rdata_wire DNSTypeA d ip (with_IP ip)
  | rd_AAAA d : len (IP d) = 16 → rdata_wire DNSTypeAAAA d (IP d) (with_IP (IP d))
  | rd_NS d : name_ok (NS d) → NS d ≠ [] → rdata_wire DNSTypeNS d (wire (NS d)) (with_NS (NS d))
  | rd_CNAME d : name_ok (CNAME d) → CNAME d ≠ [] →
      rdata_wire DNSTypeCNAME d (wire (CNAME d)) (with_CNAME (CNAME d))
  | rd_PTR d : name_ok (PTR d) → PTR d ≠ [] → rdata_wire DNSTypePTR d (wire (PTR d)) (with_PTR (PTR d))
  | rd_SOA d : soa_ok (SOA d) → rdata_wire DNSTypeSOA d (wire_soa (SOA d)) (with_SOA (SOA d))
  | rd_MX d : is_u16 (Preference (MX d)) → name_ok (mx_Name (MX d)) → mx_Name (MX d) ≠ [] →
      rdata_wire DNSTypeMX d (be16 (Preference (MX d)) ++ wire (mx_Name (MX d))) (with_MX (MX d))
  | rd_TXT d : Forall (fun t => len t < 256) (TXTs d) →
      rdata_wire DNSTypeTXT d (wire_txts (TXTs d)) (with_TXT (wire_txts (TXTs d)) (TXTs d))
  | rd_SRV d : is_u16 (srv_Priority (SRV d)) → is_u16 (srv_Weight (SRV d)) → is_u16 (Port (SRV d)) →
      name_ok (srv_Name (SRV d)) → srv_Name (SRV d) ≠ [] →
      rdata_wire DNSTypeSRV d
        (be16 (srv_Priority (SRV d)) ++ be16 (srv_Weight (SRV d)) ++ be16 (Port (SRV d)) ++
         wire (srv_Name (SRV d))) (with_SRV (SRV d))
  | rd_URI d : is_u16 (uri_Priority (URI d)) → is_u16 (uri_Weight (URI d)) →
      rdata_wire DNSTypeURI d
        (be16 (uri_Priority (URI d)) ++ be16 (uri_Weight (URI d)) ++ Target (URI d)) (with_URI (URI d))
  | rd_OPT d : Forall opt_ok (OPT d) →
      rdata_wire DNSTypeOPT d (wire_opts (OPT d)) (with_OPT (OPT d)).

Lemma len_wire_txts ts : len (wire_txts ts) = len ts + sum_len id ts.
Proof.
  unfold wire_txts, sum_len. induction ts as [|t ts IH]; [done|]. cbn [map concat foldr].
  rewrite len_app, !len_cons, IH. unfold id. lia.
Qed.

Lemma len_wire_opts os : len (wire_opts os) = len os * 4 + sum_len opt_Data os.
Proof.
  unfold wire_opts, sum_len. induction os as [|o os IH]; [done|]. cbn [map concat foldr].
  rewrite !len_app, !len_be16, !len_cons, IH. lia.
Qed.

Lemma recSize_wire t d w d' n c ttl dl raw : rdata_wire t d w d' →
  recSize (mkRR n t c ttl dl raw d) = len w.
Proof.
  intros H. destruct H; unfold recSize; cbn [Type_ rdata]; rewrite ?len_app, ?len_be16, ?len_wire by done;
    change (?a =? ?a) with true; cbv iota; try done.
  - unfold soa_ok in *. unfold wire_soa. rewrite !len_app, !len_be32, !len_wire by naive_solver. cbn. lia.
  - cbn. lia.
  - by rewrite len_wire_txts.
  - cbn. lia.
  - cbn. lia.
  - by rewrite len_wire_opts.
Qed.

(** ** Writing in place *)

(** A write at the front of the part [old], which it shortens. *)
Section in_place.
Implicit Types pre old post : bytes.

Lemma write_step pre old post src off : off = len pre → len src <= len old →
  write_at (pre ++ old ++ post) off src = Ok ((pre ++ src) ++ drop (length src) old ++ post).
Proof.
  intros -> Hl. rewrite <-(take_drop (length src) old) at 1. rewrite <-(app_assoc (take _ _)).
  rewrite write_at_app; [by rewrite <-app_assoc | done |].
  rewrite len_take. unfold len in *. lia.
Qed.

Lemma put16_step pre old post v off : off = len pre → 2 <= len old →
  BE_PutUint16 (pre ++ old ++ post) off v = Ok ((pre ++ be16 v) ++ drop 2 old ++ post).
Proof. intros. by apply write_step. Qed.

Lemma put32_step pre old post v off : off = len pre → 4 <= len old →
  BE_PutUint32 (pre ++ old ++ post) off v = Ok ((pre ++ be32 v) ++ drop 4 old ++ post).
Proof. intros. by apply write_step. Qed.

Lemma set_step pre old post v off : off = len pre → 1 <= len old →
  set_index (pre ++ old ++ post) off v = Ok ((pre ++ [v]) ++ drop 1 old ++ post).
Proof.
  intros -> H. unfold set_index. destruct (Z.ltb_spec (len pre) 0); [lens|]. by apply (write_step _ _ _ [v]).
Qed.

Lemma copy_step pre old post src off : off = len pre → len src <= len old →
  copy_from (pre ++ old ++ post) off src = Ok ((pre ++ src) ++ drop (length src) old ++ post).
Proof.
  intros -> Hl. unfold copy_from. rewrite slice_from_app by done. cbn [mbind outcome_bind].
  rewrite take_ge by (rewrite length_app; unfold len in Hl; lia). by apply write_step.
Qed.

Lemma name_step n pre old post off : off = len pre → name_ok n → len (wire n) <= len old →
  encodeName n (pre ++ old ++ post) off =
    Ok ((pre ++ wire n) ++ drop (length (wire n)) old ++ post, off + len (wire n)).
Proof.
  intros -> Hn Hl. rewrite <-(take_drop (length (wire n)) old) at 1. rewrite <-(app_assoc (take _ _)).
  rewrite encodeName_wire; [by rewrite <-app_assoc | done |].
  rewrite len_take. unfold len in *. lia.
Qed.
End in_place.

Ltac put_lens := rewrite ?len_app, ?len_drop, ?len_be16, ?len_be32, ?len_cons;
  unfold len in *; cbn [length] in *; lia.
(** One write, of a field, a slice or a name. *)
Ltac put_step :=
  first [rewrite put16_step by put_lens | rewrite put32_step by put_lens
        | rewrite copy_step by put_lens | rewrite set_step by put_lens
        | rewrite name_step by (done || put_lens)]; cbn [mbind outcome_bind].

Lemma drop_all {A} (l : list A) n : (length l <= n)%nat → drop n l = [].
Proof. apply drop_ge. Qed.

Lemma encode_TXTs_ok ts : ∀ pre old post off, Forall (fun t => len t < 256) ts → off = len pre →
  len old = len (wire_txts ts) → encode_TXTs ts (pre ++ old ++ post) off = Ok (pre ++ wire_txts ts ++ post).
Proof.
  induction ts as [|t ts IH]; intros pre old post off Hok Hoff Hl; cbn [encode_TXTs].
  - by apply len_zero in Hl as ->.
  - inversion_clear Hok as [|? ? Ht Hts]. unfold wire_txts in *. cbn [map concat] in *.
    rewrite len_app, len_cons in Hl. pose proof (len_nonneg t). pose proof (len_nonneg (concat (map (fun t => len t :: t) ts))).
    do 2 put_step. rewrite IH; [|done | put_lens | put_lens].
    rewrite u8_small by (unfold is_u8; lia). f_equal. regroup.
Qed.

Lemma encode_OPTs_ok os : ∀ pre old post off, Forall opt_ok os → off = len pre →
  len old = len (wire_opts os) → encode_OPTs os (pre ++ old ++ post) off = Ok (pre ++ wire_opts os ++ post).
Proof.
  induction os as [|o os IH]; intros pre old post off Hok Hoff Hl; cbn [encode_OPTs].
  - by apply len_zero in Hl as ->.
  - inversion_clear Hok as [|? ? [Hc Ho] Hos]. rewrite (u16_small (len (opt_Data o))) by done.
    unfold wire_opts in *. cbn [map concat] in *. rewrite !len_app, !len_be16 in Hl.
    set (rest := concat (map (fun o => be16 (Code o) ++ be16 (len (opt_Data o)) ++ opt_Data o) os)) in *.
    pose proof (len_nonneg (opt_Data o)). pose proof (len_nonneg rest).
    do 3 put_step. rewrite IH; [|done | put_lens | put_lens]. f_equal. regroup.
Qed.

(** Compare two record types that are known. *)
Ltac eval_types :=
  repeat match goal with |- context [Z.eqb ?a ?b] =>
    let v := eval vm_compute in (Z.eqb a b) in
    lazymatch v with true => change (Z.eqb a b) with true | false => change (Z.eqb a b) with false end
  end; cbn [orb]; cbv iota.

(** All of the place has been written. *)
Ltac written := rewrite ?drop_drop, ?drop_all by (unfold len in *; lia); cbn [fst]; f_equal; regroup.

Lemma encode_SOA_ok s pre old post : soa_ok s → len old = len (wire_soa s) →
  encode_SOA s (pre ++ old ++ post) (len pre) = Ok (pre ++ wire_soa s ++ post).
Proof.
  intros (Hm & _ & Hr & _ & _) Hl. unfold wire_soa in *. rewrite !len_app, !len_be32 in Hl.
  unfold encode_SOA. pose proof (len_nonneg (wire (MName s))). pose proof (len_nonneg (wire (RName s))).
  do 7 put_step. written.
Qed.

Lemma encode_rdata_ok t d w d' n c ttl dl raw pre old post : rdata_wire t d w d' → len old = len w →
  encode_rdata (mkRR n t c ttl dl raw d) (pre ++ old ++ post) (len pre) = Ok (pre ++ w ++ post).
Proof.
  intros H. destruct H; intros Hl; unfold encode_rdata; cbn [Type_ rdata]; cbv zeta; eval_types;
    unfold encode_SRV, encode_URI; rewrite ?len_app, ?len_be16 in Hl.
  - rewrite H. put_step. written.
  - put_step. written.
  - put_step. written.
  - put_step. written.
  - put_step. written.
  - by apply encode_SOA_ok.
  - pose proof (wire_pos (mx_Name (MX d))). do 2 put_step. written.
  - by apply encode_TXTs_ok.
  - pose proof (wire_pos (srv_Name (SRV d))). do 4 put_step. written.
  - pose proof (len_nonneg (Target (URI d))). do 3 put_step. written.
  - by apply encode_OPTs_ok.
Qed.

(** ** Records and questions *)

Record rr_ok (rr : DNSResourceRecord) (w : bytes) (d' : RData) : Prop := {
  rr_name : name_ok (Name rr);
  rr_type : is_u16 (Type_ rr);
  rr_class : is_u16 (Class_ rr);
  rr_ttl : is_u32 (TTL rr);
  rr_data : rdata_wire (Type_ rr) (rdata rr) w d';
  rr_length : is_u16 (len w);
}.

Definition wire_rr (rr : DNSResourceRecord) (w : bytes) : bytes :=
  wire (Name rr) ++ be16 (Type_ rr) ++ be16 (Class_ rr) ++ be32 (TTL rr) ++ be16 (len w) ++ w.

Definition written_rr (opts : SerializeOptions) (rr : DNSResourceRecord) (w : bytes) : DNSResourceRecord :=
  if FixLengths opts then set_DataLength (len w) rr else rr.

Lemma RR_encode_ok opts rr w d' pre old post : rr_ok rr w d' → len old = len (wire_rr rr w) →
  RR_encode opts rr (pre ++ old ++ post) (len pre) =
    Ok (written_rr opts rr w, pre ++ wire_rr rr w ++ post, inl (len (wire_rr rr w))).
Proof.
  intros [Hn Ht Hc Httl Hd Hw] Hl. unfold wire_rr in *. rewrite !len_app, !len_be16, len_be32 in Hl.
  pose proof (wire_pos (Name rr)). pose proof (len_nonneg w). unfold RR_encode.
  do 4 put_step. rewrite !drop_drop.
  match goal with |- context [drop ?k' old] => set (k := k') end.
  set (front := ((((pre ++ wire (Name rr)) ++ be16 (Type_ rr)) ++ be16 (Class_ rr)) ++ be32 (TTL rr))).
  assert (len front = len pre + len (wire (Name rr)) + 8) as Hfront
    by (unfold front; rewrite !len_app, !len_be16, len_be32; lia).
  assert (∃ s1 rest, drop k old = s1 ++ rest ∧ len s1 = 2 ∧ len rest = len w) as (s1 & rest & -> & Hs1 & Hrest).
  { exists (take 2 (drop k old)), (drop 2 (drop k old)). rewrite take_drop. split; [done|].
    rewrite len_take, !len_drop. subst k. unfold len in *. lia. }
  replace (front ++ (s1 ++ rest) ++ post) with ((front ++ s1) ++ rest ++ post) by regroup.
  replace (len pre + len (wire (Name rr)) + 10) with (len (front ++ s1)) by (rewrite len_app; lia).
  destruct rr as [n t c ttl dl raw d]. cbn [Name Type_ Class_ TTL rdata] in *.
  rewrite (encode_rdata_ok t d w d') by done. cbn [try_ mbind outcome_bind].
  rewrite (recSize_wire t d w d') by done. rewrite u16_small by done.
  replace ((front ++ s1) ++ w ++ post) with (front ++ s1 ++ w ++ post) by regroup.
  unfold BE_PutUint16 at 1. rewrite write_at_app by (rewrite ?len_be16; lia). cbn [mbind outcome_bind].
  unfold mret, outcome_ret. do 2 f_equal.
  - f_equal. unfold front. regroup.
  - f_equal. rewrite !len_app, !len_be16, len_be32. lia.
Qed.

(** A sequence of records, their bytes, and what they decode to. *)
Definition decoded_rr (rr : DNSResourceRecord) (w : bytes) (d' : RData) : DNSResourceRecord :=
  mkRR (Name rr) (Type_ rr) (Class_ rr) (TTL rr) (len w) w d'.

Inductive records_wire : list DNSResourceRecord → bytes → list DNSResourceRecord → Prop :=
  | records_nil : records_wire [] [] []
  | records_cons rr w d' rs ws rs' :
      rr_ok rr w d' → records_wire rs ws rs' →
      records_wire (rr :: rs) (wire_rr rr w ++ ws) (decoded_rr rr w d' :: rs').

Lemma encode_records_ok opts rs ws rs' : records_wire rs ws rs' → ∀ pre old post, len old = len ws →
  ∃ rs1, encode_records opts rs (pre ++ old ++ post) (len pre) =
    Ok (rs1, pre ++ ws ++ post, inl (len pre + len ws)).
Proof.
  induction 1 as [|rr w d' rs ws rs' Hrr Hrs IH]; intros pre old post Hl; cbn [encode_records].
  - apply len_zero in Hl as ->. exists []. by rewrite Z.add_0_r.
  - rewrite len_app in Hl. pose proof (len_nonneg (wire_rr rr w)). pose proof (len_nonneg ws).
    set (n := length (wire_rr rr w)). rewrite <-(take_drop n old), <-(app_assoc (take n old)).
    assert (len (take n old) = len (wire_rr rr w)) as Hn by (rewrite len_take; subst n; unfold len in *; lia).
    rewrite (RR_encode_ok opts rr w d') by done. cbn [mbind outcome_bind].
    destruct (IH (pre ++ wire_rr rr w) (drop n old) post) as [rs1 He]; [rewrite len_drop; subst n; unfold len in *; lia|].
    rewrite len_app, <-app_assoc in He. rewrite He. cbn. eexists. do 2 f_equal; [f_equal; regroup | f_equal; lens].
Qed.

Lemma computeSize_wire rs ws rs' : records_wire rs ws rs' → computeSize rs = len ws.
Proof.
  induction 1 as [|rr w d' rs ws rs' Hrr Hrs IH]; [done|]. unfold computeSize in *. cbn [foldr]. rewrite IH, len_app.
  destruct rr as [n t c ttl dl raw d]. cbn [Name]. destruct Hrr. cbn in *.
  rewrite (recSize_wire t d w d') by done. unfold wire_rr. cbn [Name Type_ Class_ TTL].
  rewrite !len_app, !len_be16, len_be32. destruct (Z.eqb_spec (len n) 0) as [->%len_zero|Hne].
  - rewrite wire_nil. change (len [0]) with 1. change (len (@nil Z)) with 0. lia.
  - rewrite len_wire by (intros ->; done). lia.
Qed.

Record question_ok (q : DNSQuestion) : Prop := {
  qn_name : name_ok (q_Name q);
  qn_type : is_u16 (q_Type q);
  qn_class : is_u16 (q_Class q);
}.

Definition wire_question (q : DNSQuestion) : bytes := wire (q_Name q) ++ be16 (q_Type q) ++ be16 (q_Class q).
Definition wire_questions (qs : list DNSQuestion) : bytes := concat (map wire_question qs).

Lemma encode_questions_ok qs : ∀ pre old post, Forall question_ok qs → len old = len (wire_questions qs) →
  encode_questions qs (pre ++ old ++ post) (len pre) =
    Ok (pre ++ wire_questions qs ++ post, len pre + len (wire_questions qs)).
Proof.
  induction qs as [|q qs IH]; intros pre old post Hok Hl; cbn [encode_questions].
  - apply len_zero in Hl as ->. by rewrite Z.add_0_r.
  - inversion_clear Hok as [|? ? [Hn Ht Hc] Hqs]. unfold wire_questions in *. cbn [map concat] in *.
    rewrite len_app in Hl. unfold wire_question in Hl at 1. rewrite !len_app, !len_be16 in Hl.
    set (ws := concat (map wire_question qs)) in *. pose proof (len_nonneg ws). pose proof (wire_pos (q_Name q)).
    unfold Question_encode. do 3 put_step. rewrite !drop_drop.
    cbn [mret outcome_ret mbind outcome_bind].
    match goal with |- context [drop ?k' old] => set (k := k') end.
    replace (((pre ++ wire (q_Name q)) ++ be16 (q_Type q)) ++ be16 (q_Class q)) with (pre ++ wire_question q)
      by (unfold wire_question; regroup).
    replace (len pre + (len pre + len (wire (q_Name q)) - len pre + 4)) with (len (pre ++ wire_question q))
      by (unfold wire_question; rewrite !len_app, !len_be16; lia).
    rewrite IH; [|done | rewrite len_drop; subst k; unfold len in *; lia]. f_equal. f_equal; [regroup|].
    rewrite !len_app. lia.
Qed.

(** ** Reading the data back *)

Lemma uint16_at pre v post lo hi : lo = len pre → hi = lo + 2 → is_u16 v →
  slice (pre ++ be16 v ++ post) lo hi ≫= BE_Uint16 = Ok v.
Proof.
  intros -> -> Hv. rewrite slice_app by (rewrite ?len_be16; lia). cbn [mbind outcome_bind].
  pose proof (BE_Uint16_be16 v [] Hv) as H. by rewrite app_nil_r in H.
Qed.

Lemma uint32_at pre v post lo hi : lo = len pre → hi = lo + 4 → is_u32 v →
  slice (pre ++ be32 v ++ post) lo hi ≫= BE_Uint32 = Ok v.
Proof.
  intros -> -> Hv. rewrite slice_app by (rewrite ?len_be32; lia). cbn [mbind outcome_bind].
  pose proof (BE_Uint32_be32 v [] Hv) as H. by rewrite app_nil_r in H.
Qed.

Lemma character_strings_ok ts : ∀ fuel pre, Forall (fun t => len t < 256) ts → (length (wire_txts ts) <= fuel)%nat →
  character_strings fuel (pre ++ wire_txts ts) (len pre) = Ok ts.
Proof.
  induction ts as [|t ts IH]; intros fuel pre Hok Hf.
  - unfold wire_txts. cbn [map concat]. rewrite app_nil_r.
    destruct fuel; cbn [character_strings]; by rewrite Z.eqb_refl.
  - inversion_clear Hok as [|? ? Ht Hts]. unfold wire_txts in *. cbn [map concat] in *.
    set (ws := concat (map (fun t => len t :: t) ts)) in *. pose proof (len_nonneg t). pose proof (len_nonneg ws).
    rewrite length_app in Hf. cbn [length] in Hf. destruct fuel as [|fuel]; [lia|]. cbn [character_strings].
    destruct (Z.eqb_spec (len pre) (len (pre ++ (len t :: t) ++ ws))) as [E|_]; [rewrite !len_app, len_cons in E; lia|].
    assert (index (pre ++ (len t :: t) ++ ws) (len pre) = Ok (len t)) as ->.
    { apply index_at. }
    cbn [mbind outcome_bind].
    destruct (Z.gtb_spec (len pre + 1 + len t) (len (pre ++ (len t :: t) ++ ws))) as [E|_];
      [rewrite !len_app, len_cons in E; lia|].
    assert (slice (pre ++ (len t :: t) ++ ws) (len pre + 1) (len pre + 1 + len t) = Ok t) as ->.
    { replace (pre ++ (len t :: t) ++ ws) with ((pre ++ [len t]) ++ t ++ ws) by regroup.
      apply slice_app; rewrite len_app; done. }
    cbn [mbind outcome_bind]. replace (pre ++ (len t :: t) ++ ws) with ((pre ++ len t :: t) ++ ws) by regroup.
    replace (len pre + 1 + len t) with (len (pre ++ len t :: t)) by (rewrite len_app, len_cons; lia).
    rewrite IH; [done | done | lia].
Qed.

Lemma decode_OPTs_ok os : ∀ fuel pre, Forall opt_ok os → (length (wire_opts os) <= fuel)%nat →
  decode_OPTs fuel (pre ++ wire_opts os) (len pre) = Ok os.
Proof.
  induction os as [|o os IH]; intros fuel pre Hok Hf.
  - unfold wire_opts. cbn [map concat]. rewrite app_nil_r.
    destruct fuel; cbn [decode_OPTs]; by rewrite Z.ltb_irrefl.
  - inversion_clear Hok as [|? ? [Hc Hd] Hos]. unfold wire_opts in *. cbn [map concat] in *.
    set (ws := concat (map (fun o => be16 (Code o) ++ be16 (len (opt_Data o)) ++ opt_Data o) os)) in *.
    pose proof (len_nonneg (opt_Data o)). pose proof (len_nonneg ws). rewrite !length_app in Hf. cbn [length be16] in Hf.
    destruct fuel as [|fuel]; [lia|]. cbn [decode_OPTs].
    set (data := pre ++ (be16 (Code o) ++ be16 (len (opt_Data o)) ++ opt_Data o) ++ ws).
    assert (len data = len pre + 4 + len (opt_Data o) + len ws) as Hlen
      by (unfold data; rewrite !len_app, !len_be16; lia).
    destruct (Z.ltb_spec (len pre) (len data)); [|lia].
    destruct (Z.ltb_spec (len data) (len pre + 4)); [lia|].
    assert (slice data (len pre) (len pre + 2) ≫= BE_Uint16 = Ok (Code o)) as ->.
    { replace data with (pre ++ be16 (Code o) ++ (be16 (len (opt_Data o)) ++ opt_Data o) ++ ws)
        by (unfold data; regroup). by apply uint16_at. }
    cbn [mbind outcome_bind].
    assert (slice data (len pre + 2) (len pre + 4) ≫= BE_Uint16 = Ok (len (opt_Data o))) as ->.
    { replace data with ((pre ++ be16 (Code o)) ++ be16 (len (opt_Data o)) ++ (opt_Data o ++ ws))
        by (unfold data; regroup). apply uint16_at; [rewrite len_app, len_be16; lia | lia | done]. }
    cbn [mbind outcome_bind]. destruct (Z.gtb_spec (len pre + 4 + len (opt_Data o)) (len data)); [lia|].
    assert (slice data (len pre + 4) (len pre + 4 + len (opt_Data o)) = Ok (opt_Data o)) as ->.
    { replace data with ((pre ++ be16 (Code o) ++ be16 (len (opt_Data o))) ++ opt_Data o ++ ws)
        by (unfold data; regroup). apply slice_app; rewrite !len_app, !len_be16; lia. }
    cbn [mbind outcome_bind].
    replace data with ((pre ++ be16 (Code o) ++ be16 (len (opt_Data o)) ++ opt_Data o) ++ ws) by (unfold data; regroup).
    replace (len pre + (len (opt_Data o) + 4))
      with (len (pre ++ be16 (Code o) ++ be16 (len (opt_Data o)) ++ opt_Data o)) by (rewrite !len_app, !len_be16; lia).
    rewrite IH; [by destruct o | done | lia].
Qed.

(** A computation on the buffer that only adds to it. *)
Definition gives {A} (m : M bytes A) (buf : bytes) (a : A) : Prop := ∃ ext, m buf = (Ok a, buf ++ ext).

Lemma gives_bind {A B} (m : M bytes A) (k : A → M bytes B) buf a b :
  gives m buf a → (∀ buf', gives (k a) buf' b) → gives (m ≫= k) buf b.
Proof.
  intros [e1 H1] H2. destruct (H2 (buf ++ e1)) as [e2 H2']. exists (e1 ++ e2).
  unfold mbind, M_bind. by rewrite H1, H2', app_assoc.
Qed.

Lemma gives_ret {A} (a : A) buf : gives (mret a) buf a.
Proof. exists []. by rewrite app_nil_r. Qed.

Lemma gives_lift {A} (o : outcome A) buf a : o = Ok a → gives (lift o) buf a.
Proof. intros ->. exists []. by rewrite app_nil_r. Qed.

Lemma gives_name n pre post buf data off e : data = pre ++ wire n ++ post → off = len pre →
  e = len pre + len (wire n) → name_ok n → gives (decodeName data off) buf (n, e).
Proof. intros -> -> -> Hn. by apply decodeName_wire. Qed.

(** A field behind the prefix [pre] of the data. *)
Lemma gives16 pre post v data lo hi buf : data = pre ++ be16 v ++ post → lo = len pre → hi = lo + 2 →
  is_u16 v → gives (lift (slice data lo hi ≫= BE_Uint16)) buf v.
Proof. intros -> Hlo Hhi Hv. by apply gives_lift, uint16_at. Qed.

Lemma gives32 pre post v data lo hi buf : data = pre ++ be32 v ++ post → lo = len pre → hi = lo + 4 →
  is_u32 v → gives (lift (slice data lo hi ≫= BE_Uint32)) buf v.
Proof. intros -> Hlo Hhi Hv. by apply gives_lift, uint32_at. Qed.

Ltac all_lens := rewrite ?len_app, ?len_be16, ?len_be32; lia.
Ltac read16 pre := eapply gives_bind;
  [eapply (gives16 pre); [regroup | all_lens | lia | done] | intros ?; cbn beta iota].
Ltac read32 pre := eapply gives_bind;
  [eapply (gives32 pre); [regroup | all_lens | lia | done] | intros ?; cbn beta iota].
Ltac read_name pre := eapply gives_bind;
  [eapply (gives_name _ pre); [regroup | all_lens | reflexivity | done] | intros ?; cbn beta iota].

Ltac read_last pre := eapply gives_bind;
  [eapply (gives_name _ pre []); [rewrite app_nil_r; regroup | all_lens | reflexivity | done]
  | intros ?; cbn beta iota; apply gives_ret].

Lemma decode_SOA_ok s pre buf : soa_ok s → gives (decode_SOA (pre ++ wire_soa s) (len pre)) buf s.
Proof.
  intros (Hm & _ & Hr & _ & H1 & H2 & H3 & H4 & H5). unfold decode_SOA, wire_soa.
  read_name pre. read_name (pre ++ wire (MName s)).
  set (p := pre ++ wire (MName s) ++ wire (RName s)).
  replace (len (pre ++ wire (MName s)) + len (wire (RName s))) with (len p) by (subst p; all_lens).
  replace (pre ++ wire (MName s) ++ wire (RName s) ++ be32 (Serial s) ++ be32 (Refresh s) ++
    be32 (Retry s) ++ be32 (Expire s) ++ be32 (Minimum s)) with
    (p ++ be32 (Serial s) ++ be32 (Refresh s) ++ be32 (Retry s) ++ be32 (Expire s) ++ be32 (Minimum s))
    by (subst p; regroup). clearbody p.
  match goal with |- context [len ?d <? ?n] => destruct (Z.ltb_spec (len d) n) as [E|_] end;
    [revert E; all_lens|].
  read32 p. read32 (p ++ be32 (Serial s)). read32 (p ++ be32 (Serial s) ++ be32 (Refresh s)).
  read32 (p ++ be32 (Serial s) ++ be32 (Refresh s) ++ be32 (Retry s)).
  read32 (p ++ be32 (Serial s) ++ be32 (Refresh s) ++ be32 (Retry s) ++ be32 (Expire s)).
  destruct s. apply gives_ret.
Qed.

Lemma decodeRData_ok t d w d' pre buf : rdata_wire t d w d' → 0 < len w →
  gives (decodeRData t w (pre ++ w) (len pre)) buf d'.
Proof.
  intros H. destruct H; intros Hl; unfold decodeRData; cbv zeta; eval_types.
  - apply gives_ret.
  - apply gives_ret.
  - read_last pre.
  - read_last pre.
  - read_last pre.
  - eapply gives_bind; [by apply decode_SOA_ok | intros ?; apply gives_ret].
  - pose proof (wire_pos (mx_Name (MX d))).
    match goal with |- context [len ?d <? ?n] => destruct (Z.ltb_spec (len d) n) as [E|_] end; [revert E; all_lens|].
    read16 pre. destruct (MX d) as [p n]. cbn [Preference mx_Name] in *. read_last (pre ++ be16 p).
  - eapply gives_bind; [|intros ?; apply gives_ret]. apply gives_lift.
    unfold decodeCharacterStrings. change 0 with (len (@nil Z)).
    change (wire_txts (TXTs d)) with ([] ++ wire_txts (TXTs d)) at 2. by apply character_strings_ok.
  - pose proof (wire_pos (srv_Name (SRV d))).
    match goal with |- context [len ?d <? ?n] => destruct (Z.ltb_spec (len d) n) as [E|_] end; [revert E; all_lens|].
    destruct (SRV d) as [p w po n]. cbn [srv_Priority srv_Weight Port srv_Name] in *.
    read16 pre. read16 (pre ++ be16 p). read16 (pre ++ be16 p ++ be16 w). read_last (pre ++ be16 p ++ be16 w ++ be16 po).
  - destruct (URI d) as [p w tg]. cbn [uri_Priority uri_Weight Target] in *. pose proof (len_nonneg tg).
    match goal with |- context [len ?d <? ?n] => destruct (Z.ltb_spec (len d) n) as [E|_] end; [revert E; all_lens|].
    read16 pre. read16 (pre ++ be16 p).
    eapply gives_bind; [apply gives_lift; rewrite app_assoc; by apply slice_from_app | intros ?; apply gives_ret].
  - eapply gives_bind; [|intros ?; apply gives_ret]. apply gives_lift. unfold decodeOPTs.
    destruct (OPT d) as [|o os] eqn:E; [done|].
    assert (4 <= len (wire_opts (o :: os))).
    { unfold wire_opts. cbn [map concat]. rewrite !len_app, !len_be16.
      pose proof (len_nonneg (opt_Data o)). match goal with |- context [len (concat ?l)] => pose proof (len_nonneg (concat l)) end. lia. }
    match goal with |- context [?a =? len ?d] => destruct (Z.eqb_spec a (len d)) as [E'|_] end; [revert E'; all_lens|].
    match goal with |- context [?a >? len ?d] => destruct (Z.gtb_spec a (len d)) as [E'|_] end; [revert E'; all_lens|].
    apply decode_OPTs_ok; [done | rewrite length_app; lia].
Qed.

(** ** Records and questions, read back *)

Lemma rdata_wire_empty t d w d' : rdata_wire t d w d' → w = [] → d' = empty_rdata.
Proof.
  intros H. destruct H; intros Hw; try (apply (f_equal len) in Hw; change (len []) with 0 in Hw;
    rewrite ?len_app, ?len_be16 in Hw; pose proof wire_pos; exfalso; revert Hw;
    first [lia | (match goal with |- context [wire ?n] => pose proof (wire_pos n) end; lia)
          | (match goal with |- context [len (Target ?n)] => pose proof (len_nonneg (Target n)) end; lia)]).
  - unfold wire_soa in Hw. pose proof (wire_pos (MName (SOA d))) as Hp. apply app_eq_nil in Hw as [Hw _].
    rewrite Hw in Hp. change (len []) with 0 in Hp. lia.
  - unfold wire_txts in *. by destruct (TXTs d).
  - unfold wire_opts in *. by destruct (OPT d).
Qed.

Lemma RR_decode_ok rr w d' pre post buf : rr_ok rr w d' →
  gives (RR_decode (pre ++ wire_rr rr w ++ post) (len pre)) buf
    (decoded_rr rr w d', len pre + len (wire_rr rr w)).
Proof.
  intros [Hn Ht Hc Httl Hd Hw]. unfold RR_decode, wire_rr, decoded_rr. pose proof (len_nonneg w).
  pose proof (len_nonneg post). read_name pre.
  set (p := pre ++ wire (Name rr)). replace (len pre + len (wire (Name rr))) with (len p) by (subst p; all_lens).
  replace (len pre + _) with (len p + 10 + len w) by (subst p; all_lens).
  set (data := pre ++ _).
  assert (data = p ++ be16 (Type_ rr) ++ be16 (Class_ rr) ++ be32 (TTL rr) ++ be16 (len w) ++ w ++ post) as ->
    by (subst data p; regroup).
  match goal with |- context [len ?d <? ?n] => destruct (Z.ltb_spec (len d) n) as [E|_] end; [revert E; all_lens|].
  read16 p. read16 (p ++ be16 (Type_ rr)). read32 (p ++ be16 (Type_ rr) ++ be16 (Class_ rr)).
  read16 (p ++ be16 (Type_ rr) ++ be16 (Class_ rr) ++ be32 (TTL rr)). cbv zeta.
  match goal with |- context [?n >? len ?d] => destruct (Z.gtb_spec n (len d)) as [E|_] end; [revert E; all_lens|].
  set (q := p ++ be16 (Type_ rr) ++ be16 (Class_ rr) ++ be32 (TTL rr) ++ be16 (len w)).
  replace (p ++ be16 (Type_ rr) ++ be16 (Class_ rr) ++ be32 (TTL rr) ++ be16 (len w) ++ w ++ post)
    with (q ++ w ++ post) by (subst q; regroup).
  replace (len p + 10) with (len q) by (subst q; all_lens). clearbody q.
  eapply gives_bind; [by apply gives_lift, slice_app|]. intros b.
  eapply gives_bind; [|intros ?; apply gives_ret].
  destruct (Z.gtb_spec (len w) 0).
  - eapply gives_bind; [apply gives_lift; rewrite app_assoc; apply slice_to_app; all_lens|]. intros b'.
    by apply decodeRData_ok with (d := rdata rr).
  - rewrite (rdata_wire_empty _ _ w d' Hd); [apply gives_ret|]. apply len_zero. lia.
Qed.

Lemma Question_decode_ok q pre post buf : question_ok q →
  gives (Question_decode (pre ++ wire_question q ++ post) (len pre)) buf
    (q, len pre + len (wire_question q)).
Proof.
  intros [Hn Ht Hc]. unfold Question_decode, wire_question. pose proof (len_nonneg post). read_name pre.
  set (p := pre ++ wire (q_Name q)). replace (len pre + len (wire (q_Name q))) with (len p) by (subst p; all_lens).
  replace (len pre + _) with (len p + 4) by (subst p; all_lens).
  replace (pre ++ _) with (p ++ be16 (q_Type q) ++ be16 (q_Class q) ++ post) by (subst p; regroup).
  match goal with |- context [len ?d <? ?n] => destruct (Z.ltb_spec (len d) n) as [E|_] end; [revert E; all_lens|].
  read16 p. read16 (p ++ be16 (q_Type q)). destruct q. apply gives_ret.
Qed.

(** Items that stand one after the other. *)
Inductive decodes {A} (decode : bytes → Z → M bytes (A * Z)) : bytes → list A → Prop :=
  | decodes_nil : decodes decode [] []
  | decodes_cons w x ws xs :
      (∀ pre post buf, gives (decode (pre ++ w ++ post) (len pre)) buf (x, len pre + len w)) →
      decodes decode ws xs → decodes decode (w ++ ws) (x :: xs).

Lemma records_decode rs ws rs' : records_wire rs ws rs' → decodes RR_decode ws rs'.
Proof. induction 1; constructor; [|done]. intros. by apply RR_decode_ok. Qed.

Lemma questions_decode qs : Forall question_ok qs → decodes Question_decode (wire_questions qs) qs.
Proof. induction 1; [constructor|]. constructor; [|done]. intros. by apply Question_decode_ok. Qed.

(** The loop over them; [add] leaves the buffer alone. *)
Lemma decode_items_ok {A} (decode : bytes → Z → M bytes (A * Z)) add ws xs : decodes decode ws xs →
  (∀ x b d, add x (set_buffer b d) = set_buffer b (add x d)) →
  ∀ pre post d tr, ∃ buf,
  decode_items decode add (length xs) (pre ++ ws ++ post) (len pre) (DState d tr) =
    (Ok (len pre + len ws), DState (set_buffer buf (foldl (fun d x => add x d) d xs)) tr).
Proof.
  intros H Hadd. induction H as [|w x ws xs Hw Hws IH]; intros pre post d tr.
  - exists (buffer d). cbn. change (len (@nil Z)) with 0. rewrite Z.add_0_r. by destruct d.
  - destruct (Hw pre (ws ++ post) (buffer d)) as [ext Hx].
    destruct (IH (pre ++ w) post (add x (set_buffer (buffer d ++ ext) d)) tr) as [buf Hr].
    exists buf. cbn [length decode_items foldl]. unfold mbind, M_bind, on_buffer, zoom. cbn [dlayer dtruncated].
    rewrite <-(app_assoc w), Hx. unfold modify_layer, modify. cbn [dlayer dtruncated].
    rewrite len_app, <-!app_assoc in Hr. rewrite Hr, len_app. f_equal; [f_equal; lia|].
    f_equal. clear -Hadd. rewrite Hadd. generalize (buffer d ++ ext) as b. generalize (add x d) as e.
    induction xs as [|y xs IH]; intros e b; cbn [foldl]; [by destruct e | by rewrite Hadd, IH].
Qed.

Lemma fold_questions qs : ∀ d, foldl (fun d q => add_question q d) d qs = set_Questions (Questions d ++ qs) d.
Proof. induction qs as [|q qs IH]; intros d; cbn; [by destruct d; cbn; rewrite app_nil_r|]. rewrite IH. cbn. by rewrite <-app_assoc. Qed.
Lemma fold_answers rs : ∀ d, foldl (fun d r => add_answer r d) d rs = set_Answers (Answers d ++ rs) d.
Proof. induction rs as [|q qs IH]; intros d; cbn; [by destruct d; cbn; rewrite app_nil_r|]. rewrite IH. cbn. by rewrite <-app_assoc. Qed.
Lemma fold_authorities rs : ∀ d, foldl (fun d r => add_authority r d) d rs = set_Authorities (Authorities d ++ rs) d.
Proof. induction rs as [|q qs IH]; intros d; cbn; [by destruct d; cbn; rewrite app_nil_r|]. rewrite IH. cbn. by rewrite <-app_assoc. Qed.
Lemma fold_additionals rs : ∀ d, foldl (fun d r => add_additional r d) d rs =
  set_ResponseCode (foldl extended_code (ResponseCode d) rs) (set_Additionals (Additionals d ++ rs) d).
Proof. induction rs as [|q qs IH]; intros d; cbn; [by destruct d; cbn; rewrite app_nil_r|]. rewrite IH. cbn. by rewrite <-app_assoc. Qed.

(** ** Messages *)

Record header_ok (d : DNS) : Prop := {
  hd_ID : is_u16 (ID d);
  hd_OpCode : 0 <= OpCode d < 16;
  hd_Z : 0 <= Z_ d < 8;
  hd_code : 0 <= ResponseCode d < 16;
}.

Lemma header_byte2_bits d : 0 <= OpCode d < 16 → let b := header_byte2 d in
  has_bits b 0x80 = QR d ∧ Z.land (Z.shiftr b 3) 0x0F = OpCode d ∧ has_bits b 0x04 = AA d ∧
  has_bits b 0x02 = TC d ∧ has_bits b 0x01 = RD d.
Proof.
  intros Hop. unfold header_byte2.
  set (f op qr aa tc rd := let b := u8 (Z.lor (Z.lor (Z.lor (Z.lor (Z.shiftl (b2i qr) 7) (Z.shiftl op 3))
    (Z.shiftl (b2i aa) 2)) (Z.shiftl (b2i tc) 1)) (b2i rd)) in
    negb (op <? 16) || (Bool.eqb (has_bits b 0x80) qr && (Z.land (Z.shiftr b 3) 0x0F =? op) &&
      Bool.eqb (has_bits b 0x04) aa && Bool.eqb (has_bits b 0x02) tc && Bool.eqb (has_bits b 0x01) rd)).
  assert (f (OpCode d) (QR d) (AA d) (TC d) (RD d) = true) as H.
  { destruct (QR d), (AA d), (TC d), (RD d);
      match goal with |- f _ ?a ?b ?c ?e = true => apply (byte_decide (fun op => f op a b c e)) end;
      try (unfold is_byte; lia); vm_compute; reflexivity. }
  unfold f in H. replace (OpCode d <? 16) with true in H by lia. cbn [negb orb] in H.
  rewrite !andb_true_iff, !eqb_true_iff, Z.eqb_eq in H. cbv zeta. tauto.
Qed.

Lemma header_byte3_bits d : 0 <= Z_ d < 8 → 0 <= ResponseCode d < 16 → let b := header_byte3 d in
  has_bits b 0x80 = RA d ∧ Z.land (Z.shiftr b 4) 0x7 = Z_ d ∧ Z.land b 0xF = ResponseCode d.
Proof.
  intros Hz Hc. unfold header_byte3.
  set (f v ra := let z := v / 16 in let c := v mod 16 in
    let b := u8 (Z.lor (Z.lor (Z.shiftl (b2i ra) 7) (Z.shiftl z 4)) c) in
    negb (z <? 8) || (Bool.eqb (has_bits b 0x80) ra && (Z.land (Z.shiftr b 4) 0x7 =? z) && (Z.land b 0xF =? c))).
  assert (f (Z_ d * 16 + ResponseCode d) (RA d) = true) as H.
  { destruct (RA d); match goal with |- f _ ?a = true => apply (byte_decide (fun v => f v a)) end;
      try (unfold is_byte; lia); vm_compute; reflexivity. }
  unfold f in H. replace ((Z_ d * 16 + ResponseCode d) / 16) with (Z_ d) in H by zdiv.
  replace ((Z_ d * 16 + ResponseCode d) mod 16) with (ResponseCode d) in H by zdiv.
  replace (Z_ d <? 8) with true in H by lia. cbn [negb orb] in H.
  rewrite !andb_true_iff, !eqb_true_iff, !Z.eqb_eq in H. cbv zeta. tauto.
Qed.

Definition wire_header (d : DNS) : bytes :=
  be16 (ID d) ++ [header_byte2 d] ++ [header_byte3 d] ++ be16 (len (Questions d)) ++
  be16 (len (Answers d)) ++ be16 (len (Authorities d)) ++ be16 (len (Additionals d)).

(** A message with the bytes of its three sections of records and what the
    records decode to. *)
Record message_ok (d : DNS) (wa wn wr : bytes) (ra rn rr : list DNSResourceRecord) : Prop := {
  ms_header : header_ok d;
  ms_questions : Forall question_ok (Questions d);
  ms_answers : records_wire (Answers d) wa ra;
  ms_authorities : records_wire (Authorities d) wn rn;
  ms_additionals : records_wire (Additionals d) wr rr;
  ms_counts : is_u16 (len (Questions d)) ∧ is_u16 (len (Answers d)) ∧
    is_u16 (len (Authorities d)) ∧ is_u16 (len (Additionals d));
}.

Definition wire_message (d : DNS) (wa wn wr : bytes) : bytes :=
  wire_header d ++ wire_questions (Questions d) ++ wa ++ wn ++ wr.

(** The number of questions for the root, each of which gets a byte too many. *)
Definition root_questions (d : DNS) : Z := len (filter (fun q => q_Name q = []) (Questions d)).

Lemma len_wire_header d : len (wire_header d) = 12.
Proof. reflexivity. Qed.

Lemma questions_size qs : foldr (fun q sz => len (q_Name q) + 6 + sz) 0 qs =
  len (wire_questions qs) + len (filter (fun q => q_Name q = []) qs).
Proof.
  induction qs as [|q qs IH]; [done|]. unfold wire_questions in *. cbn [foldr map concat].
  rewrite IH, len_app. unfold wire_question at 2. rewrite !len_app, !len_be16, filter_cons.
  destruct (decide (q_Name q = [])) as [->|Hne].
  - rewrite len_cons, wire_nil. change (len [0]) with 1. change (len (@nil Z)) with 0. lia.
  - rewrite len_wire by done. lia.
Qed.

Lemma message_size_wire d wa wn wr ra rn rr : message_ok d wa wn wr ra rn rr →
  message_size d = len (wire_message d wa wn wr) + root_questions d.
Proof.
  intros []. unfold message_size, wire_message, root_questions. rewrite questions_size, !len_app, len_wire_header.
  rewrite (computeSize_wire _ wa ra), (computeSize_wire _ wn rn), (computeSize_wire _ wr rr) by done. lia.
Qed.

Section serialize_spec.
Context {W : Type} `{SerializeBufferLaws W}.

Lemma serialize_records_ok opts records set_records pre old post off rs ws rs' d w :
  records d = rs → records_wire rs ws rs' → off = len pre → len old = len ws →
  ∃ rs1, serialize_records (W := W) opts records set_records (pre ++ old ++ post) off (d, w) =
    (Ok (pre ++ ws ++ post, off + len ws), (set_records rs1 d, w)).
Proof.
  intros Hrs Hws -> Hl. destruct (encode_records_ok opts rs ws rs' Hws pre old post Hl) as [rs1 He].
  exists rs1. unfold serialize_records, get_fields, put_fields, gets, modify, lift, mbind, M_bind. cbn [fst snd].
  by rewrite Hrs, He.
Qed.

Lemma header_writes d d1 h rest : len h = 12 →
  QDCount d1 = len (Questions d) → ANCount d1 = len (Answers d) → NSCount d1 = len (Authorities d) →
  ARCount d1 = len (Additionals d) → ∃ b1 b2 b3,
  BE_PutUint16 (h ++ rest) 0 (ID d) = Ok b1 ∧ set_index b1 2 (header_byte2 d) = Ok b2 ∧
  set_index b2 3 (header_byte3 d) = Ok b3 ∧ put_counts d1 b3 = Ok (wire_header d ++ rest).
Proof.
  unfold put_counts. intros Hl -> -> -> ->. assert (length h = 12 + 0)%nat as Hn by (unfold len in Hl; lia).
  explode h Hn. destruct h; [|discriminate Hn]. unfold wire_header. run_slices.
  do 3 eexists. split; [reflexivity|]. split; [reflexivity|]. split; reflexivity.
Qed.

Lemma SerializeTo_ok opts d wa wn wr ra rn rr (w : W) : FixLengths opts = true → buf_ok w →
  message_ok d wa wn wr ra rn rr →
  wp (SerializeTo opts)
    (fun _ '(d', w') => buf_ok w' ∧ Layers w' = Layers w ∧
       ∃ slack, Bytes w' = wire_message d wa wn wr ++ slack ++ Bytes w ∧ len slack = root_questions d)
    (fun _ _ => False) (d, w).
Proof.
  intros Hfix Hw Hm. pose proof (message_size_wire _ _ _ _ _ _ _ Hm) as Hsize.
  assert (0 <= root_questions d) as Hroot by apply len_nonneg.
  destruct Hm as [Hh Hq Ha Hn Hr (Cq & Ca & Cn & Cr)].
  unfold wire_message in *. rewrite !len_app, len_wire_header in Hsize.
  set (wq := wire_questions (Questions d)) in *.
  pose proof (len_nonneg wq). pose proof (len_nonneg wa). pose proof (len_nonneg wn). pose proof (len_nonneg wr).
  unfold SerializeTo. apply wp_bind, wp_get_fields, wp_bind, wp_prepend; [done | lia |].
  intros stale w1 Hw1 Hst HB HL. rewrite Hsize in Hst. cbv zeta. rewrite Hfix.
  rewrite !u16_small by done. set (d1 := set_counts _ _ _ _ d).
  destruct (cut_at stale 12) as (h & t1 & -> & Hlh & Hl1); [lia|].
  destruct (cut_at t1 (len wq)) as (oq & t2 & -> & Hoq & Hl2); [lia|].
  destruct (cut_at t2 (len wa)) as (oa & t3 & -> & Hoa & Hl3); [lia|].
  destruct (cut_at t3 (len wn)) as (on & t4 & -> & Hon & Hl4); [lia|].
  destruct (cut_at t4 (len wr)) as (or_ & slack & -> & Hor & Hl5); [lia|].
  destruct (header_writes d d1 h (oq ++ oa ++ on ++ or_ ++ slack)) as (b1 & b2 & b3 & E1 & E2 & E3 & E4); [done..|].
  apply wp_bind, wp_lift. rewrite E1. apply wp_bind, wp_lift. rewrite E2. apply wp_bind, wp_lift. rewrite E3.
  cbn [owp]. apply wp_bind, wp_put_fields, wp_bind, wp_lift. rewrite E4. cbn [owp].
  apply wp_bind, wp_lift. change 12 with (len (wire_header d)).
  rewrite (encode_questions_ok (Questions d)) by done. cbn [owp]. fold wq.
  set (p1 := wire_header d ++ wq).
  replace (wire_header d ++ wq ++ oa ++ on ++ or_ ++ slack) with (p1 ++ oa ++ on ++ or_ ++ slack) by (subst p1; regroup).
  replace (len (wire_header d) + len wq) with (len p1) by (subst p1; all_lens).
  destruct (serialize_records_ok opts Answers set_Answers p1 oa (on ++ or_ ++ slack) (len p1) (Answers d) wa ra d1 w1)
    as [rs1 S1]; [done..|]. apply wp_bind. unfold wp at 1. rewrite S1. cbn beta iota.
  replace (p1 ++ wa ++ on ++ or_ ++ slack) with ((p1 ++ wa) ++ on ++ or_ ++ slack) by regroup.
  replace (len p1 + len wa) with (len (p1 ++ wa)) by all_lens.
  destruct (serialize_records_ok opts Authorities set_Authorities (p1 ++ wa) on (or_ ++ slack) (len (p1 ++ wa))
    (Authorities d) wn rn (set_Answers rs1 d1) w1) as [rs2 S2]; [done..|].
  apply wp_bind. unfold wp at 1. rewrite S2. cbn beta iota.
  replace ((p1 ++ wa) ++ wn ++ or_ ++ slack) with ((p1 ++ wa ++ wn) ++ or_ ++ slack) by regroup.
  replace (len (p1 ++ wa) + len wn) with (len (p1 ++ wa ++ wn)) by all_lens.
  destruct (serialize_records_ok opts Additionals set_Additionals (p1 ++ wa ++ wn) or_ slack (len (p1 ++ wa ++ wn))
    (Additionals d) wr rr (set_Authorities rs2 (set_Answers rs1 d1)) w1) as [rs3 S3]; [done..|].
  apply wp_bind. unfold wp at 1. rewrite S3. cbn beta iota.
  eapply wp_sync; [done | exact HB | |].
  { apply Nat2Z.inj. fold (len ((p1 ++ wa ++ wn) ++ wr ++ slack)) (len (h ++ oq ++ oa ++ on ++ or_ ++ slack)).
    subst p1. rewrite !len_app, len_wire_header. lia. }
  intros w2 Hw2 HB2 HL2. split; [done|]. split; [congruence|]. exists slack. split; [|lia].
  rewrite HB2. subst p1. regroup.
Qed.
End serialize_spec.

(** What a message decodes to. *)
Definition decoded_message (d : DNS) (data : bytes) (ra rn rr : list DNSResourceRecord) (buf : bytes) : DNS :=
  mkDNS (mkBase data []) (ID d) (QR d) (OpCode d) (AA d) (TC d) (RD d) (RA d) (Z_ d)
    (foldl extended_code (ResponseCode d) rr) (len (Questions d)) (len (Answers d)) (len (Authorities d))
    (len (Additionals d)) (Questions d) ra rn rr buf.

Lemma decode_header_wire d rest buf : header_ok d → is_u16 (len (Questions d)) → is_u16 (len (Answers d)) →
  is_u16 (len (Authorities d)) → is_u16 (len (Additionals d)) →
  decode_header (wire_header d ++ rest) buf = Ok (mkDNS (mkBase (wire_header d ++ rest) []) (ID d) (QR d)
    (OpCode d) (AA d) (TC d) (RD d) (RA d) (Z_ d) (ResponseCode d) (len (Questions d)) (len (Answers d))
    (len (Authorities d)) (len (Additionals d)) [] [] [] [] buf).
Proof.
  intros [Hid Hop Hz Hc] Hq Ha Hn Hr.
  destruct (header_byte2_bits d Hop) as (E1 & E2 & E3 & E4 & E5). destruct (header_byte3_bits d Hz Hc) as (E6 & E7 & E8).
  unfold decode_header, wire_header. run_slices.
  rewrite !be16_value by done. by rewrite E1, E2, E3, E4, E5, E6, E7, E8.
Qed.

Lemma records_wire_len rs ws rs' : records_wire rs ws rs' → len rs' = len rs.
Proof. induction 1; [done|]. rewrite !len_cons. lia. Qed.

Lemma DecodeFromBytes_ok d wa wn wr ra rn rr rest old tr : message_ok d wa wn wr ra rn rr →
  let data := wire_message d wa wn wr ++ rest in
  ∃ buf, DecodeFromBytes data (DState old tr) = (Ok tt, DState (decoded_message d data ra rn rr buf) tr).
Proof.
  intros [Hh Hq Ha Hn Hr (Cq & Ca & Cn & Cr)] data. unfold DecodeFromBytes, modify_layer, modify.
  unfold mbind at 1, M_bind at 1. cbn [dlayer dtruncated].
  assert (12 <= len data) as Hl.
  { unfold data, wire_message. rewrite !len_app, len_wire_header. lens. }
  set (wq := wire_questions (Questions d)).
  assert (data = wire_header d ++ (wq ++ wa ++ wn ++ wr) ++ rest) as Hdata
    by (unfold data, wire_message; subst wq; regroup). clearbody data.
  destruct (Z.ltb_spec (len data) 12); [lia|]. unfold mbind at 1, M_bind at 1, lift at 1.
  pose proof (decode_header_wire d ((wq ++ wa ++ wn ++ wr) ++ rest) [] Hh Cq Ca Cn Cr) as Hhd.
  rewrite <-Hdata in Hhd. rewrite Hhd.
  unfold mbind at 1, M_bind at 1, put_layer at 1, modify. cbn [QDCount ANCount NSCount ARCount dtruncated].
  unfold len at 1 2 3 4. rewrite !Nat2Z.id.
  rewrite <-(Nat2Z.id (length (Answers d))), <-(Nat2Z.id (length (Authorities d))), <-(Nat2Z.id (length (Additionals d))).
  fold (len (Answers d)) (len (Authorities d)) (len (Additionals d)).
  rewrite <-(records_wire_len _ _ _ Ha), <-(records_wire_len _ _ _ Hn), <-(records_wire_len _ _ _ Hr).
  unfold len at 1 2 3. rewrite !Nat2Z.id.
  match goal with |- context [DState ?d0 tr] => set (e0 := d0) end.
  destruct (decode_items_ok Question_decode add_question wq (Questions d) (questions_decode _ Hq) ltac:(done)
    (wire_header d) (wa ++ wn ++ wr ++ rest) e0 tr) as [buf1 S1].
  replace (wire_header d ++ wq ++ wa ++ wn ++ wr ++ rest) with data in S1 by (rewrite Hdata; regroup).
  change (len (wire_header d)) with 12 in S1. unfold mbind at 1, M_bind at 1. rewrite S1.
  set (p1 := wire_header d ++ wq). replace (12 + len wq) with (len p1) by (subst p1; rewrite len_app; done).
  set (d1 := set_buffer buf1 _).
  destruct (decode_items_ok RR_decode add_answer wa ra (records_decode _ _ _ Ha) ltac:(done)
    p1 (wn ++ wr ++ rest) d1 tr) as [buf2 S2].
  replace (p1 ++ wa ++ wn ++ wr ++ rest) with data in S2 by (rewrite Hdata; subst p1; regroup).
  unfold mbind at 1, M_bind at 1. rewrite S2.
  replace (len p1 + len wa) with (len (p1 ++ wa)) by all_lens. set (d2 := set_buffer buf2 _).
  destruct (decode_items_ok RR_decode add_authority wn rn (records_decode _ _ _ Hn) ltac:(done)
    (p1 ++ wa) (wr ++ rest) d2 tr) as [buf3 S3].
  replace ((p1 ++ wa) ++ wn ++ wr ++ rest) with data in S3 by (rewrite Hdata; subst p1; regroup).
  unfold mbind at 1, M_bind at 1. rewrite S3.
  replace (len (p1 ++ wa) + len wn) with (len (p1 ++ wa ++ wn)) by all_lens. set (d3 := set_buffer buf3 _).
  destruct (decode_items_ok RR_decode add_additional wr rr (records_decode _ _ _ Hr) ltac:(done)
    (p1 ++ wa ++ wn) rest d3 tr) as [buf4 S4].
  replace ((p1 ++ wa ++ wn) ++ wr ++ rest) with data in S4 by (rewrite Hdata; subst p1; regroup).
  unfold mbind at 1, M_bind at 1. rewrite S4. set (d4 := set_buffer buf4 _).
  assert (d4 = decoded_message d data ra rn rr buf4) as ->.
  { unfold d4, d3, d2, d1, e0. rewrite fold_questions, fold_answers, fold_authorities, fold_additionals.
    unfold decoded_message.
    by rewrite <-(records_wire_len _ _ _ Ha), <-(records_wire_len _ _ _ Hn), <-(records_wire_len _ _ _ Hr). }
  exists buf4. unfold mbind, M_bind, get_layer, gets, lift. cbn [dlayer].
  assert (check_counts (decoded_message d data ra rn rr buf4) = Ok tt) as ->; [|done].
  unfold check_counts. cbn [Questions Answers Authorities Additionals QDCount ANCount NSCount ARCount decoded_message].
  rewrite (records_wire_len _ _ _ Ha), (records_wire_len _ _ _ Hn), (records_wire_len _ _ _ Hr).
  rewrite !u16_small by done. by rewrite !Z.eqb_refl.
Qed.

(** C30 (DNS round trip): a message whose names have labels of 1 to 63 bytes and
    whose records are of the eleven supported types with data in range,
    serialized with [FixLengths] in front of any payload, decodes to the same
    header, questions and records, each record with its data and its length;
    the response code gets the upper bits that OPT records carry. The message
    is its sections one after the other, and a question for the root leaves a
    byte that nobody writes behind them. *)
Theorem DNS_roundtrip {W} `{SerializeBufferLaws W} opts d wa wn wr ra rn rr (w : W) old tr :
  FixLengths opts = true → buf_ok w → message_ok d wa wn wr ra rn rr →
  ∃ d' w' slack buf, SerializeTo opts (d, w) = (Ok tt, (d', w')) ∧ buf_ok w' ∧
    Bytes w' = wire_message d wa wn wr ++ slack ++ Bytes w ∧ len slack = root_questions d ∧
    DecodeFromBytes (Bytes w') (DState old tr) =
      (Ok tt, DState (decoded_message d (Bytes w') ra rn rr buf) tr).
Proof.
  intros Hfix Hw Hm. pose proof (SerializeTo_ok opts d wa wn wr ra rn rr w Hfix Hw Hm) as Hs. unfold wp in Hs.
  destruct (SerializeTo opts (d, w)) as [[[]| | |] [d' w']]; try done.
  destruct Hs as (Hw' & _ & slack & HB & Hsl).
  destruct (DecodeFromBytes_ok d wa wn wr ra rn rr (slack ++ Bytes w) old tr Hm) as [buf Hd].
  rewrite <-HB in Hd. by exists d', w', slack, buf.
Qed.

Definition www_a : bytes := [119; 119; 119; 46; 97].

Definition sample_message : DNS :=
  mkDNS (mkBase [] []) 7 true 0 true false true false 0 0 0 0 0 0 [mkQuestion www_a 1 1]
    [mkRR www_a DNSTypeA 1 300 0 [] (with_IP [10; 0; 0; 1]);
     mkRR [] DNSTypeTXT 1 60 0 [] (with_TXT [] [[104; 105]; []])] []
    [mkRR [] DNSTypeOPT 1 0x01000000 0 [] (with_OPT [mkOPT 10 [1; 2]])] [].

Lemma www_a_ok : name_ok www_a.
Proof.
  split; [|vm_compute; discriminate]. change (labels_of www_a) with [[119; 119; 119]; [97]].
  assert (∀ l, 0 < len l < 64 → forallb (fun b => (0 <=? b) && (b <? 256) && negb (b =? 46)) l = true → label_ok l) as H.
  { intros l Hl H. rewrite forallb_forall in H. split; [done|]. split.
    - apply Forall_forall. intros b Hb%list_elem_of_In%H. unfold is_byte. lia.
    - intros Hb%list_elem_of_In%H. lia. }
  constructor; [by apply H|]. constructor; [by apply H | constructor].
Qed.

Lemma DNS_roundtrip_witness : ∃ d' w' buf,
  SerializeTo (mkSerializeOptions true true) (sample_message, NewSerializeBuffer) = (Ok tt, (d', w')) ∧
  len (Bytes w') = 76 ∧
  DecodeFromBytes (Bytes w') (DState empty_DNS false) =
    (Ok tt, DState (decoded_message sample_message (Bytes w')
      [mkRR www_a DNSTypeA 1 300 4 [10; 0; 0; 1] (with_IP [10; 0; 0; 1]);
       mkRR [] DNSTypeTXT 1 60 4 [2; 104; 105; 0] (with_TXT [2; 104; 105; 0] [[104; 105]; []])] []
      [mkRR [] DNSTypeOPT 1 0x01000000 6 [0; 10; 0; 2; 1; 2] (with_OPT [mkOPT 10 [1; 2]])] buf) false).
Proof.
  assert (name_ok []) as H0 by (split; [constructor | vm_compute; discriminate]).
  assert (∀ v, (0 <=? v) && (v <? 4294967296) = true → is_u32 v) as Hu32 by (unfold is_u32; lia).
  assert (∀ v, (0 <=? v) && (v <? 65536) = true → is_u16 v) as Hu16 by (unfold is_u16; lia).
  destruct (DNS_roundtrip (mkSerializeOptions true true) sample_message
    (wire_rr (mkRR www_a DNSTypeA 1 300 0 [] (with_IP [10; 0; 0; 1])) [10; 0; 0; 1] ++
     wire_rr (mkRR [] DNSTypeTXT 1 60 0 [] (with_TXT [] [[104; 105]; []])) [2; 104; 105; 0] ++ []) []
    (wire_rr (mkRR [] DNSTypeOPT 1 0x01000000 0 [] (with_OPT [mkOPT 10 [1; 2]])) [0; 10; 0; 2; 1; 2] ++ [])
    [mkRR www_a DNSTypeA 1 300 4 [10; 0; 0; 1] (with_IP [10; 0; 0; 1]);
     mkRR [] DNSTypeTXT 1 60 4 [2; 104; 105; 0] (with_TXT [2; 104; 105; 0] [[104; 105]; []])] []
    [mkRR [] DNSTypeOPT 1 0x01000000 6 [0; 10; 0; 2; 1; 2] (with_OPT [mkOPT 10 [1; 2]])]
    NewSerializeBuffer empty_DNS false)
    as (d' & w' & slack & buf & Hs & _ & HB & Hsl & Hd).
  - reflexivity.
  - exists 0, 0. exact NewSerializeBuffer_inv.
  - constructor; cbn [Questions Answers Authorities Additionals sample_message].
    + by constructor; [apply Hu16 | | |].
    + constructor; [|constructor]. constructor; [exact www_a_ok | by apply Hu16 | by apply Hu16].
    + apply records_cons with (d' := with_IP [10; 0; 0; 1]).
      { constructor; [exact www_a_ok | by apply Hu16 | by apply Hu16 | by apply Hu32 | by constructor | by apply Hu16]. }
      apply records_cons with (d' := with_TXT [2; 104; 105; 0] [[104; 105]; []]); [|constructor].
      constructor; [done | by apply Hu16 | by apply Hu16 | by apply Hu32 | | by apply Hu16].
      apply (rd_TXT (with_TXT [] [[104; 105]; []])). constructor; [done|]. constructor; [done | constructor].
    + constructor.
    + apply records_cons with (d' := with_OPT [mkOPT 10 [1; 2]]); [|constructor].
      constructor; [done | by apply Hu16 | by apply Hu16 | by apply Hu32 | | by apply Hu16].
      apply (rd_OPT (with_OPT [mkOPT 10 [1; 2]])). constructor; [|constructor]. split; by apply Hu16.
    + split_and!; by apply Hu16.
  - exists d', w', buf. split; [exact Hs|]. split; [|exact Hd]. rewrite HB, !len_app, Hsl. vm_compute. reflexivity.
Defined.

(** A name server that is the root is written with one byte, but its length
    field says two. *)
Lemma root_data_length : RR_encode (mkSerializeOptions true true)
    (mkRR [] DNSTypeNS 1 0 0 [] (with_NS [])) (replicate 13 7) 0 =
  Ok (mkRR [] DNSTypeNS 1 0 2 [] (with_NS []), [0; 0; 2; 0; 1; 0; 0; 0; 0; 0; 2; 0; 7], inl 13).
Proof. vm_compute. reflexivity. Qed.

(** A response code above 15, as decoding gives it from OPT records, spills
    into the reserved bits when it is written again. *)
Lemma extended_code_spills d : ResponseCode d = 16 → RA d = false → Z_ d = 0 →
  Z.land (Z.shiftr (header_byte3 d) 4) 0x7 = 1.
Proof. intros H1 H2 H3. unfold header_byte3. rewrite H1, H2, H3. reflexivity. Qed.
