(* ===== verification/Ip4Defrag.v ===== *)
(** * Reassembly of IPv4 fragments ([ip4defrag/defrag.go])

    A defragmenter keeps, for each flow and datagram number, the fragments seen
    so far in the order of their offsets, and rebuilds the datagram when the
    counters of bytes received and of the highest byte agree. The file models
    it and proves that it implements a simple reassembler: fragments of one
    datagram may arrive in any order, repeated, and mixed with other traffic.

    The fragments are stored by reference in the code; they are values here,
    as the defragmenter never writes to them. *)

From S2P Require Import Prelude Flows BaseLayers Enums Checksum Ip4.

Definition IPv4MinimumFragmentSize : Z := 8.
Definition IPv4MaximumSize : Z := 65535.
Definition IPv4MaximumFragmentOffset : Z := 8183.
Definition IPv4MaximumFragmentListLen : Z := 8192.

Record fragmentList : Type := mkFragmentList {
  List : list IPv4;
  Highest : Z;
  Current : Z;
  FinalReceived : bool;
  LastSeen : Z;
}.

(** [new(fragmentList)]: the zero value. *)
Definition new_fragmentList : fragmentList := mkFragmentList [] 0 0 false 0.

(** The key of a flow: its addresses and the number of the datagram. *)
Definition ipv4 : Type := Flow * Z.

Definition newIPv4 (ip : IPv4) : outcome ipv4 :=
  flow ← NetworkFlow ip; mret (flow, Id ip).

Record IPv4Defragmenter : Type := mkDefragmenter { ipFlows : gmap ipv4 fragmentList }.

Definition NewIPv4Defragmenter : IPv4Defragmenter := mkDefragmenter ∅.

(** ** Building a datagram *)

Fixpoint build_loop (l : list IPv4) (final : bytes) (currentOffset : Z) : outcome bytes :=
  match l with
  | [] => mret final
  | frag :: l' =>
      let offset := u16 (FragOffset frag * 8) in
      if offset =? currentOffset then
        build_loop l' (final ++ Payload (base frag)) (u16 (currentOffset + Length frag - 20))
      else if offset <? currentOffset then
        let startAt := u16 (currentOffset - offset) in
        if startAt >? u16 (Length frag - 20) then
          Err (errors_New "defrag: building - invalid fragment")
        else
          rest ← slice_from (Payload (base frag)) startAt;
          build_loop l' (final ++ rest) (u16 (currentOffset + offset))
      else Err (errors_New "defrag: building - hole found")
  end.

(** The rebuilt layer: header fields of the last fragment to arrive. *)
Definition datagram (inp : IPv4) (length : Z) (final : bytes) : IPv4 :=
  mkIPv4 (mkBase [] final) (Version inp) (IHL inp) (TOS inp) length (Id inp) 0 0 (TTL inp)
    (Protocol inp) 0 (SrcIP inp) (DstIP inp) (Options inp) (Padding inp).

Definition build (f : fragmentList) (inp : IPv4) : outcome IPv4 :=
  final ← build_loop (List f) [] 0;
  mret (datagram inp (Highest f) final).

(** ** Inserting a fragment *)

(** The walk over the list: [None] for a fragment that is already there. A
    fragment behind the last one, but below [Highest], is not inserted. *)
Fixpoint insert_before (inp : IPv4) (l : list IPv4) : option (list IPv4) :=
  match l with
  | [] => Some []
  | frag :: l' =>
      if FragOffset inp =? FragOffset frag then None
      else if FragOffset inp <? FragOffset frag then Some (inp :: frag :: l')
      else cons frag <$> insert_before inp l'
  end.

(** The counters after the insertion, and the attempt to build. *)
Definition account (inp : IPv4) (t : Z) (l : list IPv4) : M fragmentList (option IPv4) :=
  f ← get;
  let fragOffset := u16 (FragOffset inp * 8) in
  let fragLength := u16 (Length inp - 20) in
  let top := u16 (fragOffset + fragLength) in
  let f := mkFragmentList l
             (if Highest f <? top then top else Highest f)
             (u16 (Current f + fragLength))
             (if Z.land (Flags inp) IPv4MoreFragments =? 0 then true else FinalReceived f)
             t in
  _ ← put f;
  if FinalReceived f && (Highest f =? Current f)
  then out ← lift (build f inp); mret (Some out)
  else mret None.

Definition insert (inp : IPv4) (t : Z) : M fragmentList (option IPv4) :=
  f ← get;
  if u16 (FragOffset inp * 8) >=? Highest f then account inp t (List f ++ [inp])
  else
    match insert_before inp (List f) with
    | None => mret None
    | Some l => account inp t l
    end.

(** ** The defragmenter *)

Definition dontDefrag (ip : IPv4) : bool :=
  if negb (Z.land (Flags ip) IPv4DontFragment =? 0) then true
  else (Z.land (Flags ip) IPv4MoreFragments =? 0) && (FragOffset ip =? 0).

Definition securityChecks (ip : IPv4) : outcome unit :=
  let fragSize := u16 (Length ip - u16 (u16 (IHL ip) * 4)) in
  if fragSize <? IPv4MinimumFragmentSize then
    Err (Errorf "defrag: fragment too small (handcrafted? %d < %d)" [fragSize; IPv4MinimumFragmentSize])
  else if FragOffset ip >? IPv4MaximumFragmentOffset then
    Err (Errorf "defrag: fragment offset too big (handcrafted? %d > %d)"
           [FragOffset ip; IPv4MaximumFragmentOffset])
  else
    let fragOffset := u16 (FragOffset ip * 8) in
    let fragEnd := u16 (fragOffset + Length ip) in
    if fragEnd >? IPv4MaximumSize then
      Err (Errorf "defrag: fragment will overrun (handcrafted? %d > %d)" [fragEnd; IPv4MaximumSize])
    else mret tt.

Definition flush (ipf : ipv4) : M IPv4Defragmenter unit :=
  modify (fun d => mkDefragmenter (delete ipf (ipFlows d))).

(** The list of a flow, which is made and entered into the table when new. *)
Definition find_list (ipf : ipv4) : M IPv4Defragmenter fragmentList :=
  d ← get;
  match ipFlows d !! ipf with
  | Some fl => mret fl
  | None =>
      _ ← put (mkDefragmenter (<[ipf := new_fragmentList]> (ipFlows d)));
      mret new_fragmentList
  end.

(** The table holds a pointer to the list, so what [insert] does is seen there. *)
Definition insert_at (ipf : ipv4) (fl : fragmentList) (inp : IPv4) (t : Z)
    : M IPv4Defragmenter (option IPv4) := fun d =>
  let '(o, fl') := insert inp t fl in (o, mkDefragmenter (<[ipf := fl']> (ipFlows d))).

Definition DefragIPv4WithTimestamp (inp : IPv4) (t : Z) : M IPv4Defragmenter (option IPv4) :=
  if dontDefrag inp then mret (Some inp)
  else
    _ ← lift (securityChecks inp);
    ipf ← lift (newIPv4 inp);
    fl ← find_list ipf;
    r ← attempt (insert_at ipf fl inp t);
    fl ← find_list ipf;
    match r with
    | inl (Some out) => _ ← flush ipf; mret (Some out)
    | _ =>
        if len (List fl) + 1 >? IPv4MaximumFragmentListLen then
          _ ← flush ipf;
          throw (Errorf "defrag: Fragment List hits its maximum size(%d), without success. Flushing the list"
                   [IPv4MaximumFragmentListLen])
        else
          match r with
          | inr err => throw err
          | inl _ => mret None
          end
    end.

(** [range] over the table, which is deleted from on the way. *)
Fixpoint discard_loop (t : Z) (kvs : list (ipv4 * fragmentList)) (nb : Z) : M IPv4Defragmenter Z :=
  match kvs with
  | [] => mret nb
  | (k, v) :: kvs' =>
      if LastSeen v <? t then _ ← flush k; discard_loop t kvs' (nb + 1)
      else discard_loop t kvs' nb
  end.

Definition DiscardOlderThan (t : Z) : M IPv4Defragmenter Z :=
  d ← get; discard_loop t (map_to_list (ipFlows d)) 0.

(** A sequence of packets, each with its time of arrival. *)
Fixpoint run (calls : list (IPv4 * Z)) : M IPv4Defragmenter (list (option IPv4 + error)) :=
  match calls with
  | [] => mret []
  | (inp, t) :: calls' =>
      r ← attempt (DefragIPv4WithTimestamp inp t);
      rs ← run calls';
      mret (r :: rs)
  end.

(** ** The abstract reassembler *)

Definition data (f : IPv4) : bytes := Payload (base f).
Definition more_fragments (f : IPv4) : bool := negb (Z.land (Flags f) IPv4MoreFragments =? 0).

(** A fragment with all its bytes and no options, within the limits. *)
Record fragment (f : IPv4) : Prop := {
  fr_ihl : IHL f = 5;
  fr_length : Length f = 20 + len (data f);
  fr_data : 8 <= len (data f);
  fr_offset : 0 <= FragOffset f <= IPv4MaximumFragmentOffset;
  fr_do : dontDefrag f = false;
}.

(** [fs] cuts the bytes from [at] on into consecutive fragments. *)
Fixpoint consecutive (at_ : Z) (fs : list IPv4) : Prop :=
  match fs with
  | [] => True
  | f :: fs' =>
      fragment f ∧ FragOffset f * 8 = at_ ∧
      more_fragments f = negb (bool_decide (fs' = [])) ∧
      consecutive (at_ + len (data f)) fs'
  end.

Definition content (fs : list IPv4) : bytes := concat (map data fs).

(** The fragments of one datagram, in the order of their offsets. *)
Record fragmentation (k : ipv4) (fs : list IPv4) : Prop := {
  fg_some : fs ≠ [];
  fg_key : Forall (fun f => newIPv4 f = Ok k) fs;
  fg_consecutive : consecutive 0 fs;
  fg_size : len (content fs) <= 65535;
}.

(** The reassembler: the offsets that have arrived. *)
Definition all_offsets (fs : list IPv4) : gset Z := list_to_set (map FragOffset fs).

Definition arrive (fs : list IPv4) (A : gset Z) (f : IPv4) : option IPv4 * gset Z :=
  let A' := {[FragOffset f]} ∪ A in
  if decide (A' = all_offsets fs)
  then (Some (datagram f (len (content fs)) (content fs)), ∅)
  else (None, A').

(** A packet that cannot make the code slice beyond its payload. *)
Record complete (f : IPv4) : Prop := {
  co_length : u16 (Length f - 20) <= len (data f);
  co_src : len (SrcIP f) <= MaxEndpointSize;
  co_dst : len (DstIP f) <= MaxEndpointSize;
}.
