(* ===== verification/Ip4Reassembly.v ===== *)
(** * Correctness of the IPv4 defragmenter

    The fragments of one datagram and what holds when some of them have
    arrived; one arrival; runs over a stream of packets; the theorems, and
    examples of what the code does with overlapping, truncated and short
    fragments. *)

From S2P Require Import Prelude Flows BaseLayers Enums Checksum Ip4 Ip4Defrag.

(** ** Fragmentations *)

(** The fragments received so far, in order, and their last byte. *)
Definition received (A : gset Z) (fs : list IPv4) : list IPv4 := filter (fun f => FragOffset f ∈ A) fs.

Definition fragment_end (f : IPv4) : Z := FragOffset f * 8 + len (data f).

Fixpoint top (l : list IPv4) : Z :=
  match l with [] => 0 | f :: l' => Z.max (fragment_end f) (top l') end.

Definition total (l : list IPv4) : Z := len (content l).

Definition is_final (f : IPv4) : bool := negb (more_fragments f).

Lemma total_cons f l : total (f :: l) = len (data f) + total l.
Proof. unfold total, content; cbn. by rewrite len_app. Qed.

Lemma total_app l1 l2 : total (l1 ++ l2) = total l1 + total l2.
Proof. unfold total, content. by rewrite map_app, concat_app, len_app. Qed.

Lemma total_nonneg l : 0 <= total l.
Proof. apply len_nonneg. Qed.

Lemma top_middle l1 f l2 : top (l1 ++ f :: l2) = Z.max (fragment_end f) (top (l1 ++ l2)).
Proof. induction l1 as [|g l1 IH]; cbn; [done|]. rewrite IH. lia. Qed.

Lemma top_nonneg l : 0 <= top l.
Proof. induction l; cbn; lia. Qed.

Lemma top_le l b : 0 <= b → Forall (fun f => fragment_end f <= b) l → top l <= b.
Proof. intros Hb. induction 1; cbn; lia. Qed.

Lemma top_ge l f : f ∈ l → fragment_end f <= top l.
Proof. induction 1; cbn; lia. Qed.

Lemma consecutive_bounds fs : ∀ a, consecutive a fs →
  Forall (fun f => fragment f ∧ a <= FragOffset f * 8 ∧ fragment_end f <= a + total fs) fs.
Proof.
  induction fs as [|f fs IH]; intros a Hc; [done|]. destruct Hc as (Hf & Ho & _ & Hc).
  pose proof (fr_data f Hf). pose proof (total_nonneg fs). rewrite total_cons. constructor.
  { unfold fragment_end. split_and!; [done | lia..]. }
  apply (Forall_impl _ _ _ (IH _ Hc)). intros g (Hg & ? & ?). split_and!; [done | lia..].
Qed.

Lemma consecutive_split pre f post : ∀ a, consecutive a (pre ++ f :: post) →
  fragment f ∧ FragOffset f * 8 = a + total pre ∧ more_fragments f = negb (bool_decide (post = [])) ∧
  Forall (fun g => fragment_end g <= FragOffset f * 8 ∧ FragOffset g < FragOffset f ∧ more_fragments g = true) pre ∧
  Forall (fun g => fragment_end f <= FragOffset g * 8 ∧ FragOffset f < FragOffset g) post.
Proof.
  induction pre as [|g pre IH]; intros a Hc; cbn [app] in Hc.
  - destruct Hc as (Hf & Ho & Hm & Hc). change (total []) with 0. pose proof (fr_data f Hf).
    split; [done|]. split; [lia|]. split; [done|]. split; [done|].
    apply (Forall_impl _ _ _ (consecutive_bounds post _ Hc)). unfold fragment_end. intros h (_ & ? & _). lia.
  - destruct Hc as (Hg & Ho & Hm & Hc). destruct (IH _ Hc) as (Hf & Hof & Hmf & Hpre & Hpost).
    rewrite total_cons. split; [done|]. split; [lia|]. split; [done|]. split; [|done].
    constructor; [|done]. pose proof (fr_data g Hg). pose proof (total_nonneg pre). unfold fragment_end.
    split; [lia|]. split; [lia|]. rewrite Hm, bool_decide_eq_false_2 by (by destruct pre). done.
Qed.

Lemma total_ge l : Forall fragment l → 8 * len l <= total l.
Proof.
  induction 1 as [|f l Hf _ IH]; [done|]. rewrite total_cons. pose proof (fr_data f Hf). lens.
Qed.

Section one_datagram.
Context (k : ipv4) (fs : list IPv4) (Hfs : fragmentation k fs).

Lemma consecutive_fragment f : f ∈ fs → fragment f ∧ fragment_end f <= 65535 ∧ 0 <= FragOffset f * 8.
Proof.
  intros Hin. pose proof (consecutive_bounds fs 0 (fg_consecutive k fs Hfs)) as HF.
  rewrite Forall_forall in HF. destruct (HF f Hin) as (Hf & ? & He). pose proof (fg_size k fs Hfs).
  unfold total in He. split_and!; [done | lia..].
Qed.

Lemma offset_inj f g : f ∈ fs → g ∈ fs → FragOffset f = FragOffset g → f = g.
Proof.
  intros Hf Hg He. apply list_elem_of_split in Hf as (pre & post & Hs).
  pose proof (fg_consecutive k fs Hfs) as Hc. rewrite Hs in Hc, Hg.
  destruct (consecutive_split pre f post 0 Hc) as (_ & _ & _ & Hpre & Hpost).
  rewrite Forall_forall in Hpre, Hpost. apply elem_of_app in Hg as [Hg|[->|Hg]%elem_of_cons]; [|done|].
  - destruct (Hpre g Hg) as (_ & ? & _). lia.
  - destruct (Hpost g Hg) as (_ & ?). lia.
Qed.

Lemma all_fragments : Forall fragment fs.
Proof. apply Forall_forall. intros f Hf. by destruct (consecutive_fragment f Hf). Qed.

Lemma fragments_count : len fs <= 8191.
Proof.
  pose proof (total_ge fs all_fragments) as H8. pose proof (fg_size k fs Hfs).
  unfold total in H8. lia.
Qed.

Lemma offsets_NoDup : NoDup (map FragOffset fs).
Proof.
  pose proof (fg_consecutive k fs Hfs) as Hc. clear Hfs. revert Hc. generalize 0 as a.
  induction fs as [|f l IH]; intros a Hc; [constructor|]. cbn. pose proof Hc as (_ & _ & _ & Hc').
  constructor; [|by apply (IH _ Hc')]. destruct (consecutive_split [] f l a Hc) as (_ & _ & _ & _ & Hpost).
  rewrite Forall_forall in Hpost. intros (g & He & Hg)%list_elem_of_fmap. destruct (Hpost g Hg). lia.
Qed.
End one_datagram.

Lemma received_le A l : total (received A l) <= total l.
Proof.
  unfold received. induction l as [|f l IH]; [done|]. rewrite filter_cons.
  destruct (decide _); rewrite ?total_cons; pose proof (len_nonneg (data f)); lia.
Qed.

Lemma received_all A fs : total (received A fs) = total fs → Forall fragment fs → received A fs = fs.
Proof.
  intros He HF. induction HF as [|f l Hf HF IH]; [done|]. pose proof (received_le A l).
  unfold received in *. rewrite filter_cons in *. pose proof (fr_data f Hf).
  destruct (decide _); rewrite ?total_cons in He; [f_equal; apply IH | ]; lia.
Qed.

(** ** One fragment arrives *)

Record holds (fs : list IPv4) (A : gset Z) (fl : fragmentList) : Prop := {
  ho_list : List fl = received A fs;
  ho_highest : Highest fl = top (received A fs);
  ho_current : Current fl = total (received A fs);
  ho_final : FinalReceived fl = existsb is_final (received A fs);
}.

Lemma holds_new fs : holds fs ∅ new_fragmentList.
Proof.
  assert (received ∅ fs = []) as Hr.
  { unfold received. induction fs; [done|]. rewrite filter_cons, decide_False by set_solver. done. }
  by split; rewrite Hr.
Qed.

Lemma insert_before_middle x l1 l2 :
  Forall (fun g => FragOffset g < FragOffset x) l1 → Forall (fun g => FragOffset x < FragOffset g) l2 →
  insert_before x (l1 ++ l2) = Some (if decide (l2 = []) then l1 else l1 ++ x :: l2).
Proof.
  intros H1 H2. induction H1 as [|g l1 Hg _ IH]; cbn [app insert_before].
  - destruct H2 as [|g l2 Hg _]; [done|]. cbn [insert_before].
    destruct (Z.eqb_spec (FragOffset x) (FragOffset g)); [lia|].
    destruct (Z.ltb_spec (FragOffset x) (FragOffset g)); [done | lia].
  - destruct (Z.eqb_spec (FragOffset x) (FragOffset g)); [lia|].
    destruct (Z.ltb_spec (FragOffset x) (FragOffset g)); [lia|]. rewrite IH.
    destruct (decide (l2 = [])); by cbn.
Qed.

Lemma insert_before_duplicate x l1 l2 :
  Forall (fun g => FragOffset g < FragOffset x) l1 → insert_before x (l1 ++ x :: l2) = None.
Proof.
  intros H1. induction H1 as [|g l1 Hg _ IH]; cbn [app insert_before].
  - by rewrite Z.eqb_refl.
  - destruct (Z.eqb_spec (FragOffset x) (FragOffset g)); [lia|].
    destruct (Z.ltb_spec (FragOffset x) (FragOffset g)); [lia|]. by rewrite IH.
Qed.

Lemma received_ext A B l : (∀ f, f ∈ l → FragOffset f ∈ A ↔ FragOffset f ∈ B) → received A l = received B l.
Proof.
  intros H. unfold received. induction l as [|g l IH]; [done|].
  rewrite !filter_cons, IH by set_solver. pose proof (H g ltac:(left)).
  by repeat destruct (decide _); [|tauto..|].
Qed.

Lemma Forall_received P A l : Forall P l → Forall P (received A l).
Proof.
  rewrite !Forall_forall. intros H f [_ Hf]%list_elem_of_filter. by apply H.
Qed.

Section arrival.
Context (k : ipv4) (fs : list IPv4) (Hfs : fragmentation k fs).
Context (pre post : list IPv4) (x : IPv4) (Hsplit : fs = pre ++ x :: post).

Lemma offset_small f : f ∈ fs → u16 (FragOffset f * 8) = FragOffset f * 8 ∧
  u16 (Length f - 20) = len (data f) ∧ u16 (FragOffset f * 8 + len (data f)) = fragment_end f.
Proof.
  intros Hf. destruct (consecutive_fragment k fs Hfs f Hf) as (Hfr & He & Ho).
  pose proof (fr_length f Hfr) as Hl. pose proof (fr_data f Hfr). unfold fragment_end in *.
  rewrite Hl. split_and!; rewrite ?u16_small; unfold is_u16; lia.
Qed.

Lemma x_in : x ∈ fs.
Proof. rewrite Hsplit. set_solver. Qed.

Lemma around : FragOffset x * 8 = total pre ∧ more_fragments x = negb (bool_decide (post = [])) ∧
  Forall (fun g => fragment_end g <= FragOffset x * 8 ∧ FragOffset g < FragOffset x ∧ more_fragments g = true) pre ∧
  Forall (fun g => fragment_end x <= FragOffset g * 8 ∧ FragOffset x < FragOffset g) post.
Proof.
  pose proof (fg_consecutive k fs Hfs) as Hc. rewrite Hsplit in Hc.
  destruct (consecutive_split pre x post 0 Hc) as (_ & ? & ? & ? & ?). done.
Qed.

Lemma received_new A : FragOffset x ∉ A →
  received A fs = received A pre ++ received A post ∧
  received ({[FragOffset x]} ∪ A) fs = received A pre ++ x :: received A post.
Proof.
  intros Hx. destruct around as (_ & _ & Hpre & Hpost). rewrite Forall_forall in Hpre, Hpost.
  rewrite Hsplit. unfold received. rewrite !filter_app, !filter_cons, decide_False, decide_True by set_solver.
  split; [done|]. f_equal; [|f_equal]; apply (received_ext _ A); intros f Hf; rewrite elem_of_union, elem_of_singleton.
  - destruct (Hpre f Hf) as (_ & ? & _). naive_solver lia.
  - destruct (Hpost f Hf). naive_solver lia.
Qed.

Lemma received_old A : FragOffset x ∈ A → received A fs = received A pre ++ x :: received A post.
Proof. intros Hx. rewrite Hsplit. unfold received. by rewrite filter_app, filter_cons, decide_True. Qed.

Lemma before_x A : Forall (fun g => FragOffset g < FragOffset x) (received A pre).
Proof. apply Forall_received. destruct around as (_ & _ & H & _). apply (Forall_impl _ _ _ H). tauto. Qed.

Lemma after_x A : Forall (fun g => FragOffset x < FragOffset g) (received A post).
Proof. apply Forall_received. destruct around as (_ & _ & _ & H). apply (Forall_impl _ _ _ H). tauto. Qed.

(** The place that the code finds for a new fragment. *)
Lemma placed A fl t : holds fs A fl → FragOffset x ∉ A →
  insert x t fl = account x t (received ({[FragOffset x]} ∪ A) fs) fl.
Proof.
  intros [Hl Hh _ _] Hx. destruct (received_new A Hx) as [Hr Hr']. destruct (offset_small x x_in) as (Ho & _ & _).
  unfold insert, mbind, M_bind, get. rewrite Ho, Hl, Hh, Hr, Hr'. destruct around as (_ & _ & Hpre & Hpost).
  destruct (decide (received A post = [])) as [Hn|Hn].
  - rewrite Hn, app_nil_r. pose proof (top_nonneg (received A pre)).
    destruct (consecutive_fragment k fs Hfs x x_in) as (_ & _ & ?).
    assert (top (received A pre) <= FragOffset x * 8).
    { apply top_le; [done|]. apply Forall_received, (Forall_impl _ _ _ Hpre). tauto. }
    by rewrite (proj2 (Z.geb_le _ _)) by lia.
  - assert (FragOffset x * 8 < top (received A pre ++ received A post)).
    { destruct (received A post) as [|g l] eqn:Hg; [done|].
      assert (g ∈ post) as Hgin.
      { assert (g ∈ received A post) as Hin by (rewrite Hg; left). unfold received in Hin.
        by apply list_elem_of_filter in Hin as [_ ?]. }
      assert (g ∈ fs) as Hgfs by (rewrite Hsplit; set_solver).
      destruct (consecutive_fragment k fs Hfs g Hgfs) as (Hfr & _ & _). pose proof (fr_data g Hfr).
      rewrite Forall_forall in Hpost. destruct (Hpost g Hgin) as [_ ?].
      pose proof (top_ge (received A pre ++ g :: l) g ltac:(set_solver)). unfold fragment_end in *. lia. }
    destruct (Z.geb_spec (FragOffset x * 8) (top (received A pre ++ received A post))); [lia|].
    rewrite (insert_before_middle x _ _ (before_x A) (after_x A)), decide_False by done. done.
Qed.

Lemma duplicate A fl t : holds fs A fl → FragOffset x ∈ A → insert x t fl = (Ok None, fl).
Proof.
  intros [Hl Hh _ _] Hx. pose proof (received_old A Hx) as Hr. destruct (offset_small x x_in) as (Ho & _ & _).
  unfold insert, mbind, M_bind, get. rewrite Ho, Hl, Hh, Hr, top_middle.
  destruct (consecutive_fragment k fs Hfs x x_in) as (Hfr & _ & _). pose proof (fr_data x Hfr).
  destruct (Z.geb_spec (FragOffset x * 8) (Z.max (fragment_end x) (top (received A pre ++ received A post)))).
  { unfold fragment_end in *. lia. }
  by rewrite (insert_before_duplicate x _ _ (before_x A)).
Qed.
End arrival.

#[export] Instance BaseLayer_eq_dec : EqDecision BaseLayer.
Proof. solve_decision. Defined.
#[export] Instance IPv4Option_eq_dec : EqDecision IPv4Option.
Proof. solve_decision. Defined.
#[export] Instance IPv4_eq_dec : EqDecision IPv4.
Proof. solve_decision. Defined.

(** ** Building *)

Lemma build_consecutive l : ∀ a acc, consecutive a l → 0 <= a → a + total l <= 65535 →
  build_loop l acc a = Ok (acc ++ content l).
Proof.
  induction l as [|f l IH]; intros a acc Hc Ha Hb; [by unfold content; cbn; rewrite app_nil_r|].
  destruct Hc as (Hf & Ho & _ & Hc). rewrite total_cons in Hb.
  pose proof (total_nonneg l). pose proof (fr_length f Hf) as Hl. pose proof (fr_data f Hf).
  cbn [build_loop]. rewrite Ho, (u16_small a) by (unfold is_u16; lia). rewrite Z.eqb_refl, Hl.
  replace (a + (20 + len (data f)) - 20) with (a + len (data f)) by lia.
  rewrite u16_small by (unfold is_u16; lia). fold (data f). rewrite IH by (done || lia).
  unfold content; cbn. by rewrite app_assoc.
Qed.

Lemma consecutive_last_final l : ∀ a, consecutive a l → l ≠ [] → ∃ f, f ∈ l ∧ is_final f = true.
Proof.
  induction l as [|f l IH]; intros a Hc Hn; [done|]. destruct Hc as (_ & _ & Hm & Hc).
  destruct (decide (l = [])) as [->|Hl].
  - exists f. split; [left|]. unfold is_final. by rewrite Hm.
  - destruct (IH _ Hc Hl) as (g & Hg & ?). exists g. split; [by right | done].
Qed.

Section one_datagram.
Context (k : ipv4) (fs : list IPv4) (Hfs : fragmentation k fs).

Lemma top_all : top fs = total fs.
Proof.
  pose proof (fg_consecutive k fs Hfs) as Hc.
  apply Z.le_antisymm.
  - apply top_le; [apply total_nonneg|]. apply (Forall_impl _ _ _ (consecutive_bounds fs 0 Hc)). intros f (_ & _ & ?). lia.
  - destruct (exists_last (fg_some k fs Hfs)) as (pre & f & Hl).
    pose proof Hc as Hc'. rewrite Hl in Hc'. destruct (consecutive_split pre f [] 0 Hc') as (_ & Ho & _).
    pose proof (top_ge fs f ltac:(rewrite Hl; set_solver)).
    rewrite (f_equal total Hl), total_app, total_cons.
    change (total []) with 0. unfold fragment_end in *. lia.
Qed.

(** The counters agree exactly when every fragment is there. *)
Lemma counters_agree A : existsb is_final (received A fs) && (top (received A fs) =? total (received A fs)) =
  bool_decide (received A fs = fs).
Proof.
  pose proof (fg_consecutive k fs Hfs) as Hc. apply Bool.eq_iff_eq_true.
  rewrite andb_true_iff, Z.eqb_eq, bool_decide_eq_true, existsb_exists. split.
  - intros ((f & Hf & Hfin) & He). apply list_elem_of_In in Hf.
    assert (f ∈ fs) as Hin by (by apply list_elem_of_filter in Hf as [_ ?]).
    apply list_elem_of_split in Hin as (pre & post & Hs). rewrite Hs in Hc.
    destruct (consecutive_split pre f post 0 Hc) as (_ & Ho & Hm & _).
    assert (post = []) as ->.
    { unfold is_final in Hfin. rewrite Hm in Hfin. by destruct (decide (post = [])) as [?|?];
        [|rewrite bool_decide_eq_false_2 in Hfin]. }
    apply received_all; [|apply (all_fragments k), Hfs]. apply Z.le_antisymm.
    + apply received_le.
    + rewrite <- He. pose proof (top_ge _ _ Hf). rewrite (f_equal total Hs), total_app, total_cons. change (total []) with 0.
      unfold fragment_end in *. lia.
  - intros Hr. rewrite Hr. split; [|apply top_all].
    destruct (consecutive_last_final fs 0 Hc (fg_some k fs Hfs)) as (f & Hf & ?). exists f.
    split; [by apply list_elem_of_In | done].
Qed.

Lemma received_is_all A : A ⊆ all_offsets fs → received A fs = fs ↔ A = all_offsets fs.
Proof.
  intros Hsub. split.
  - intros Hr. apply set_eq. intros o. split; [by apply Hsub|]. unfold all_offsets.
    rewrite elem_of_list_to_set, list_elem_of_fmap. intros (f & -> & Hf). rewrite <- Hr in Hf.
    by apply list_elem_of_filter in Hf as [? _].
  - intros ->. unfold received. assert (∀ f, f ∈ fs → FragOffset f ∈ all_offsets fs) as Hall.
    { intros f Hf. unfold all_offsets. rewrite elem_of_list_to_set, list_elem_of_fmap. eauto. }
    clear Hfs Hsub. revert Hall. generalize (all_offsets fs) as A. intros A Hall.
    induction fs as [|f l IH]; [done|]. rewrite filter_cons, decide_True by (apply Hall; left).
    f_equal. apply IH. intros g Hg. apply Hall. by right.
Qed.

Lemma build_all fl x : List fl = fs → Highest fl = total fs →
  build fl x = Ok (datagram x (total fs) (content fs)).
Proof.
  intros Hl Hh. unfold build, mbind, outcome_bind.
  rewrite Hl, (build_consecutive fs 0 []); [by rewrite Hh | apply (fg_consecutive k), Hfs | done |].
  apply (fg_size k fs Hfs).
Qed.

(** A new fragment: the counters, and the datagram when it was the last one. *)
Lemma account_new A fl x t : holds fs A fl → x ∈ fs → FragOffset x ∉ A → A ⊆ all_offsets fs →
  let '(out, A') := arrive fs A x in
  ∃ fl', account x t (received ({[FragOffset x]} ∪ A) fs) fl = (Ok out, fl') ∧
    List fl' = received ({[FragOffset x]} ∪ A) fs ∧ (out = None → holds fs A' fl').
Proof.
  intros Hh Hx HA Hsub. pose proof (list_elem_of_split _ _ Hx) as (pre & post & Hs).
  destruct (received_new k fs Hfs pre post x Hs A HA) as [Hr Hr'].
  set (A' := {[FragOffset x]} ∪ A) in *. destruct (offset_small k fs Hfs x Hx) as (Ho & Hl & He).
  unfold arrive. fold A'. unfold account, mbind, M_bind, get, put. rewrite Ho, Hl, He.
  destruct Hh as [_ Hh Hc Hf]. rewrite Hh, Hc, Hf.
  assert (total (received A' fs) = total (received A fs) + len (data x)) as Hct.
  { rewrite Hr, Hr', !total_app, total_cons. lia. }
  pose proof (received_le A' fs). pose proof (fg_size k fs Hfs). unfold total in H0.
  pose proof (total_nonneg (received A fs)). pose proof (len_nonneg (data x)). fold (total fs) in H0.
  set (fl' := mkFragmentList _ _ _ _ _).
  assert (Highest fl' = top (received A' fs)) as Hh'.
  { cbn. rewrite Hr', Hr, top_middle. destruct (Z.ltb_spec (top (received A pre ++ received A post)) (fragment_end x)); lia. }
  assert (Current fl' = total (received A' fs)) as Hc'.
  { cbn. rewrite <- Hct. apply u16_small. pose proof (total_nonneg (received A' fs)). unfold is_u16. lia. }
  assert (FinalReceived fl' = existsb is_final (received A' fs)) as Hf'.
  { cbn. rewrite Hr', Hr, !existsb_app. cbn. unfold is_final at 4, more_fragments. rewrite negb_involutive.
    destruct (Z.land (Flags x) IPv4MoreFragments =? 0); [by rewrite !orb_true_r | done]. }
  rewrite Hf', Hh', Hc', counters_agree.
  assert (A' ⊆ all_offsets fs) as Hsub'.
  { unfold all_offsets, A' in *. apply union_subseteq. split; [|done]. apply singleton_subseteq_l.
    rewrite elem_of_list_to_set, list_elem_of_fmap. eauto. }
  destruct (decide (A' = all_offsets fs)) as [Ha|Ha].
  - pose proof (proj2 (received_is_all A' Hsub') Ha) as Hall. rewrite bool_decide_eq_true_2 by done.
    unfold lift. rewrite (build_all fl' x); [|done|by rewrite Hh', Hall, top_all]. exists fl'. done.
  - rewrite bool_decide_eq_false_2 by (by intros Hall%received_is_all). exists fl'. split; [done|]. split; [done|].
    intros _. by split.
Qed.

Lemma insert_arrive A fl x t : holds fs A fl → x ∈ fs → A ⊂ all_offsets fs →
  let '(out, A') := arrive fs A x in
  ∃ fl', insert x t fl = (Ok out, fl') ∧ len (List fl') <= 8191 ∧ (out = None → holds fs A' fl' ∧ A' ⊂ all_offsets fs).
Proof.
  intros Hh Hx Hsub. pose proof (list_elem_of_split _ _ Hx) as (pre & post & Hs).
  assert (FragOffset x ∈ all_offsets fs) as Hxa.
  { unfold all_offsets. rewrite elem_of_list_to_set, list_elem_of_fmap. eauto. }
  assert (∀ B, len (received B fs) <= 8191) as Hlen.
  { intros B. pose proof (fragments_count k fs Hfs). pose proof (length_filter (fun f => FragOffset f ∈ B) fs).
    unfold received, len in *. lia. }
  destruct (decide (FragOffset x ∈ A)) as [HA|HA].
  - unfold arrive. replace ({[FragOffset x]} ∪ A) with A by set_solver.
    rewrite decide_False by set_solver. exists fl. rewrite (duplicate k fs Hfs pre post x Hs A fl t Hh HA).
    split_and!; [done | | done..]. rewrite (ho_list fs A fl Hh). apply Hlen.
  - pose proof (account_new A fl x t Hh Hx HA ltac:(set_solver)) as Hacc.
    rewrite (placed k fs Hfs pre post x Hs A fl t Hh HA). unfold arrive in *.
    destruct (decide _) as [Ha|Ha]; destruct Hacc as (fl' & -> & Hl & Hn); exists fl'; rewrite Hl.
    + done.
    + split; [done|]. split; [apply Hlen|]. intros _. split; [by apply Hn | set_solver].
Qed.
End one_datagram.

(** ** The table of flows *)

Definition safe (d : IPv4Defragmenter) : Prop :=
  map_Forall (fun _ fl => Forall complete (List fl) ∧ len (List fl) <= 8191) (ipFlows d).

Lemma newIPv4_complete x : complete x → ∃ k, newIPv4 x = Ok k.
Proof.
  intros [_ Hs Hd]. unfold newIPv4, NetworkFlow. rewrite (NewFlow_eq _ _ _ Hs Hd). eexists. reflexivity.
Qed.

Lemma build_loop_ends l : ∀ acc a, Forall complete l → ends (build_loop l acc a).
Proof.
  induction l as [|f l IH]; intros acc a HF; [done|].
  apply Forall_cons in HF as [Hf HF]. cbn [build_loop].
  destruct (_ =? _); [by apply IH|]. destruct (_ <? _); [|done].
  destruct (Z.gtb_spec (u16 (a - u16 (FragOffset f * 8))) (u16 (Length f - 20))) as [?|Hle]; [done|].
  pose proof (co_length f Hf) as Hc. unfold data in Hc. pose proof (u16_range (a - u16 (FragOffset f * 8))) as [Hp _].
  rewrite slice_from_ok by lia. by apply IH.
Qed.

Lemma insert_before_complete x l l' : complete x → Forall complete l → insert_before x l = Some l' → Forall complete l'.
Proof.
  intros Hx HF. revert l'. induction HF as [|f l Hf HF IH]; intros l'; cbn; [by intros [= <-]|].
  destruct (_ =? _); [done|]. destruct (_ <? _).
  - intros [= <-]. by apply Forall_cons_2, Forall_cons_2.
  - intros (l1 & Hl & ->)%fmap_Some_1. constructor; [done|]. by apply IH.
Qed.

Lemma account_safe x t l fl : Forall complete l → ∃ o fl', account x t l fl = (o, fl') ∧ ends o ∧ List fl' = l.
Proof.
  intros Hl. unfold account, mbind, M_bind, get, put. set (fl' := mkFragmentList l _ _ _ _).
  destruct (_ && _); [|by eexists _, _].
  pose proof (build_loop_ends l [] 0 Hl) as He. unfold lift, build, mbind, outcome_bind. change (List fl') with l.
  destruct (build_loop l [] 0); try done; by eexists _, _.
Qed.

Lemma insert_safe x t fl : complete x → Forall complete (List fl) →
  ∃ o fl', insert x t fl = (o, fl') ∧ ends o ∧ Forall complete (List fl').
Proof.
  intros Hx Hl. unfold insert, mbind, M_bind, get. destruct (_ >=? _).
  - destruct (account_safe x t (List fl ++ [x]) fl) as (o & fl' & -> & ? & Hl').
    { apply Forall_app_2, Forall_singleton; done. }
    exists o, fl'. rewrite Hl'. split_and!; [done..|]. apply Forall_app_2, Forall_singleton; done.
  - destruct (insert_before x (List fl)) as [l|] eqn:Hi; [|by eexists _, _].
    pose proof (insert_before_complete x _ l Hx Hl Hi) as Hl'.
    destruct (account_safe x t l fl Hl') as (o & fl' & -> & ? & Hf). exists o, fl'. by rewrite Hf.
Qed.

Lemma find_list_eq k d : find_list k d =
  (Ok (default new_fragmentList (ipFlows d !! k)),
   mkDefragmenter (<[k := default new_fragmentList (ipFlows d !! k)]> (ipFlows d))).
Proof.
  unfold find_list, mbind, M_bind, get, put. destruct (ipFlows d !! k) as [fl|] eqn:Hk; [|done].
  cbn. rewrite insert_id by done. by destruct d.
Qed.

(** A fragment's call: what [insert] answers decides between entering the list
    in the table and deleting the flow. *)
Lemma Defrag_eq x t d k o fl' : dontDefrag x = false → securityChecks x = Ok tt → newIPv4 x = Ok k →
  insert x t (default new_fragmentList (ipFlows d !! k)) = (o, fl') → ends o →
  let kept := mkDefragmenter (<[k := fl']> (ipFlows d)) in
  let dropped := mkDefragmenter (delete k (ipFlows d)) in
  DefragIPv4WithTimestamp x t d =
    match o with
    | Ok (Some out) => (Ok (Some out), dropped)
    | _ =>
        if len (List fl') + 1 >? IPv4MaximumFragmentListLen then
          (Err (Errorf "defrag: Fragment List hits its maximum size(%d), without success. Flushing the list"
                  [IPv4MaximumFragmentListLen]), dropped)
        else (o, kept)
    end.
Proof.
  intros Hd Hs Hk Hi He kept dropped. unfold DefragIPv4WithTimestamp. rewrite Hd, Hs, Hk.
  unfold mbind, M_bind, lift. rewrite find_list_eq.
  unfold attempt, insert_at. rewrite Hi. cbn [ipFlows].
  rewrite insert_insert_eq.
  assert (∀ d1, delete k (<[k := fl']> d1) = delete k d1) as Hdel by (intros; apply delete_insert_eq).
  destruct o as [out|e|c|]; try done; rewrite find_list_eq; cbn [ipFlows]; rewrite lookup_insert_eq; cbn [default];
    rewrite insert_insert_eq; unfold kept, dropped.
  - destruct out as [out|]; unfold flush, modify; [|destruct (_ >? _)]; cbn; by rewrite ?Hdel.
  - destruct (_ >? _); unfold flush, modify; cbn; by rewrite ?Hdel.
Qed.

Lemma securityChecks_ends x : ends (securityChecks x).
Proof.
  unfold securityChecks. destruct (_ <? _); [done|]. destruct (_ >? _); [done|]. by destruct (_ >? _).
Qed.

Lemma step_safe x t d : complete x → safe d → ∃ r d',
  attempt (DefragIPv4WithTimestamp x t) d = (Ok r, d') ∧ safe d' ∧
  (∀ k, newIPv4 x ≠ Ok k → ipFlows d' !! k = ipFlows d !! k) ∧
  (dontDefrag x = true → r = inl (Some x) ∧ d' = d).
Proof.
  intros Hx Hd. unfold attempt. destruct (dontDefrag x) eqn:Hdo.
  { unfold DefragIPv4WithTimestamp. rewrite Hdo. by eexists _, _. }
  destruct (securityChecks x) as [[]|e|c|] eqn:Hsec.
  2: { unfold DefragIPv4WithTimestamp. rewrite Hdo, Hsec. by eexists _, _. }
  2,3: pose proof (securityChecks_ends x) as Hh; by rewrite Hsec in Hh.
  destruct (newIPv4_complete x Hx) as [k Hk].
  assert (Forall complete (List (default new_fragmentList (ipFlows d !! k)))) as Hl.
  { destruct (ipFlows d !! k) as [fl|] eqn:Hlk; [|constructor]. by destruct (Hd k fl Hlk). }
  destruct (insert_safe x t _ Hx Hl) as (o & fl' & Hi & Ho & Hl').
  rewrite (Defrag_eq x t d k o fl' Hdo Hsec Hk Hi Ho). unfold IPv4MaximumFragmentListLen.
  assert (safe (mkDefragmenter (delete k (ipFlows d)))) as Hdrop by (apply map_Forall_delete, Hd).
  assert (len (List fl') + 1 <= 8192 → safe (mkDefragmenter (<[k := fl']> (ipFlows d)))) as Hkeep.
  { intros ?. apply map_Forall_insert_2; [|exact Hd]. split; [done | lia]. }
  assert (∀ k', newIPv4 x ≠ Ok k' → delete k (ipFlows d) !! k' = ipFlows d !! k') as Hfd.
  { intros k' ?. apply lookup_delete_ne. congruence. }
  assert (∀ k', newIPv4 x ≠ Ok k' → <[k := fl']> (ipFlows d) !! k' = ipFlows d !! k') as Hfi.
  { intros k' ?. apply lookup_insert_ne. congruence. }
  destruct (Z.gtb_spec (len (List fl') + 1) 8192); destruct o as [[out|]|e|c|]; try done;
    eexists _, _; (split; [reflexivity|]); split_and!; try done; by apply Hkeep.
Qed.

(** ** Runs *)

Definition of_flow (k : ipv4) (x : IPv4) : bool :=
  negb (dontDefrag x) && match newIPv4 x with Ok k' => bool_decide (k' = k) | _ => false end.

(** What the calls return: packets that are no fragments come back as they
    are; the fragments of the flow get the answers of the reassembler. *)
Fixpoint expected (k : ipv4) (fs : list IPv4) (A : gset Z) (calls : list (IPv4 * Z))
    (rs : list (option IPv4 + error)) : Prop :=
  match calls, rs with
  | [], [] => True
  | (x, _) :: calls', r :: rs' =>
      if of_flow k x then
        let '(out, A') := arrive fs A x in r = inl out ∧ expected k fs A' calls' rs'
      else (dontDefrag x = true → r = inl (Some x)) ∧ expected k fs A calls' rs'
  | _, _ => False
  end.

Lemma run_cons x t calls d r d' : attempt (DefragIPv4WithTimestamp x t) d = (Ok r, d') →
  run ((x, t) :: calls) d = (rs ← run calls; mret (r :: rs)) d'.
Proof. intros H. cbn [run]. unfold mbind at 1, M_bind at 1. by rewrite H. Qed.

Lemma run_cons_ok x t calls d r d1 rs d2 :
  attempt (DefragIPv4WithTimestamp x t) d = (Ok r, d1) → run calls d1 = (Ok rs, d2) →
  run ((x, t) :: calls) d = (Ok (r :: rs), d2).
Proof. intros H1 H2. rewrite (run_cons x t calls d r d1 H1). unfold mbind, M_bind. by rewrite H2. Qed.

Lemma run_safe calls : ∀ d, Forall (fun c => complete c.1) calls → safe d →
  ∃ rs d', run calls d = (Ok rs, d') ∧ safe d' ∧ length rs = length calls ∧
    ∀ i x t, calls !! i = Some (x, t) → dontDefrag x = true → rs !! i = Some (inl (Some x)).
Proof.
  induction calls as [|[x t] calls IH]; intros d HF Hd; [by exists [], d|].
  apply Forall_cons in HF as [Hx HF]. destruct (step_safe x t d Hx Hd) as (r & d1 & Hr & Hd1 & _ & Hdo).
  destruct (IH d1 HF Hd1) as (rs & d' & Hrs & Hd' & Hl & Hi). exists (r :: rs), d'.
  split; [by apply (run_cons_ok x t calls d r d1)|]. split; [done|]. split; [cbn; by rewrite Hl|].
  intros [|i] y t' Hy Hdy; cbn in Hy |- *; [|by apply (Hi i y t')].
  injection Hy as -> ->. by destruct (Hdo Hdy) as [-> _].
Qed.

Section one_flow.
Context (k : ipv4) (fs : list IPv4) (Hfs : fragmentation k fs).

Definition flow_state (A : gset Z) (d : IPv4Defragmenter) : Prop :=
  holds fs A (default new_fragmentList (ipFlows d !! k)) ∧ A ⊂ all_offsets fs.

Lemma fragment_of_flow x : x ∈ fs → newIPv4 x = Ok k.
Proof. pose proof (fg_key k fs Hfs) as HF. rewrite Forall_forall in HF. apply HF. Qed.

Lemma fragment_checks x : x ∈ fs → securityChecks x = Ok tt.
Proof.
  intros Hx. destruct (consecutive_fragment k fs Hfs x Hx) as ([Hi Hl Hd Ho _] & _ & _).
  unfold securityChecks. rewrite Hi, Hl. change (u16 (u16 5 * 4)) with 20.
  replace (20 + len (data x) - 20) with (len (data x)) by lia.
  destruct (offset_small k fs Hfs x Hx) as (_ & Hs & _). rewrite Hl in Hs.
  replace (20 + len (data x) - 20) with (len (data x)) in Hs by lia. rewrite Hs.
  unfold IPv4MinimumFragmentSize, IPv4MaximumFragmentOffset, IPv4MaximumSize in *.
  destruct (Z.ltb_spec (len (data x)) 8); [lia|]. destruct (Z.gtb_spec (FragOffset x) 8183); [lia|].
  match goal with |- context [?v >? 65535] => destruct (Z.gtb_spec v 65535) as [Hgt|]; [|done] end.
  pose proof (u16_range (u16 (FragOffset x * 8) + (20 + len (data x)))) as [_ ?]. lia.
Qed.

Lemma all_nonempty : ∅ ⊂ all_offsets fs.
Proof.
  pose proof (fg_some k fs Hfs) as Hn. unfold all_offsets. destruct fs as [|f l]; [done|]. cbn. set_solver.
Qed.

Lemma flow_start A d : ipFlows d !! k = None → A = ∅ → flow_state A d.
Proof. intros Hk ->. unfold flow_state. rewrite Hk. split; [apply holds_new | apply all_nonempty]. Qed.

Lemma step_flow A d x t : x ∈ fs → flow_state A d →
  let '(out, A') := arrive fs A x in
  ∃ d', DefragIPv4WithTimestamp x t d = (Ok out, d') ∧ flow_state A' d' ∧
    (∀ k', k' ≠ k → ipFlows d' !! k' = ipFlows d !! k') ∧ (out ≠ None → ipFlows d' !! k = None).
Proof.
  intros Hx [Hh HA]. pose proof (insert_arrive k fs Hfs A _ x t Hh Hx HA) as Hi.
  destruct (arrive fs A x) as [out A'] eqn:Ha. destruct Hi as (fl' & Hi & Hl & Hn).
  destruct (consecutive_fragment k fs Hfs x Hx) as ([_ _ _ _ Hdo] & _ & _).
  rewrite (Defrag_eq x t d k _ fl' Hdo (fragment_checks x Hx) (fragment_of_flow x Hx) Hi I).
  unfold IPv4MaximumFragmentListLen.
  destruct out as [out|].
  - eexists. split; [reflexivity|]. cbn [ipFlows]. split.
    + apply flow_start; [apply lookup_delete_eq|]. unfold arrive in Ha. by destruct (decide _); simplify_eq.
    + split; [intros k' ?; by apply lookup_delete_ne|]. intros _. apply lookup_delete_eq.
  - destruct (Z.gtb_spec (len (List fl') + 1) 8192); [lia|]. eexists. split; [reflexivity|]. cbn [ipFlows].
    destruct (Hn eq_refl) as [Hh' HA']. split; [|split; [intros k' ?; by apply lookup_insert_ne | done]].
    split; [|done]. cbn [ipFlows]. by rewrite lookup_insert_eq.
Qed.

Lemma run_expected calls : ∀ A d, safe d → flow_state A d →
  Forall (fun c => complete c.1 ∧ (of_flow k c.1 = true → c.1 ∈ fs)) calls →
  ∃ rs d', run calls d = (Ok rs, d') ∧ expected k fs A calls rs.
Proof.
  induction calls as [|[x t] calls IH]; intros A d Hd HA HF; [by exists [], d|].
  apply Forall_cons in HF as [[Hx Hin] HF]. cbn [fst] in *.
  destruct (step_safe x t d Hx Hd) as (r & d1 & Hr & Hd1 & Hother & Hdo). cbn [expected].
  destruct (of_flow k x) eqn:Hof.
  - pose proof (step_flow A d x t (Hin eq_refl) HA) as Hs. destruct (arrive fs A x) as [out A'].
    destruct Hs as (d1' & Hs & HA' & _). unfold attempt in Hr. rewrite Hs in Hr. injection Hr as <- <-.
    destruct (IH A' d1' Hd1 HA' HF) as (rs & d2 & Hrs & He). exists (inl out :: rs), d2.
    split; [|done]. apply (run_cons_ok x t calls d _ d1'); [unfold attempt; by rewrite Hs | done].
  - assert (flow_state A d1) as HA1.
    { destruct HA as [Hh HA]. split; [|done]. unfold of_flow in Hof. destruct (dontDefrag x) eqn:Hdx.
      - by destruct (Hdo eq_refl) as [_ ->].
      - rewrite Hother; [done|]. intros Hk. rewrite Hk in Hof. cbn in Hof. by rewrite bool_decide_eq_true_2 in Hof. }
    destruct (IH A d1 Hd1 HA1 HF) as (rs & d2 & Hrs & He). exists (r :: rs), d2.
    split; [by apply (run_cons_ok x t calls d r d1)|]. split; [|done]. intros Hdx. by destruct (Hdo Hdx) as [-> _].
Qed.

(** Fragments that arrive once each. *)
Lemma run_once calls : ∀ A d, flow_state A d → calls ≠ [] → Forall (fun c => c.1 ∈ fs) calls →
  NoDup (map (fun c => FragOffset c.1) calls) →
  all_offsets fs = A ∪ list_to_set (map (fun c => FragOffset c.1) calls) →
  (∀ c, c ∈ calls → FragOffset c.1 ∉ A) → (∀ k', k' ≠ k → ipFlows d !! k' = None) →
  ∃ f t d', last calls = Some (f, t) ∧ ipFlows d' = ∅ ∧
    run calls d = (Ok (replicate (length calls - 1) (inl None) ++
                       [inl (Some (datagram f (len (content fs)) (content fs)))]), d').
Proof.
  induction calls as [|[x t] calls IH]; intros A d HA Hn HF HND Hall Hout Hother; [done|].
  apply Forall_cons in HF as [Hx HF]. cbn [fst map] in *. apply NoDup_cons in HND as [Hnx HND].
  pose proof (step_flow A d x t Hx HA) as Hs. unfold arrive in Hs. cbn [list_to_set] in Hall.
  destruct calls as [|c calls].
  - rewrite decide_True in Hs by (rewrite Hall; cbn; set_solver). destruct Hs as (d' & Hs & _ & Ho & Hk).
    exists x, t, d'. split; [done|]. split.
    { apply map_empty. intros k'. destruct (decide (k' = k)) as [->|Hne]; [by apply Hk | by rewrite Ho, Hother]. }
    apply (run_cons_ok x t [] d _ d'); [unfold attempt; by rewrite Hs | done].
  - assert (FragOffset c.1 ≠ FragOffset x) as Hcx by (intros He; apply Hnx; rewrite <- He; left).
    rewrite decide_False in Hs.
    2: { intros He. rewrite Hall in He. specialize (Hout c ltac:(right; left)).
         assert (FragOffset c.1 ∈ {[FragOffset x]} ∪ A) as [?%elem_of_singleton|?]%elem_of_union; [|done..].
         rewrite He. cbn. set_solver. }
    destruct Hs as (d1 & Hs & HA1 & Ho & _).
    destruct (IH ({[FragOffset x]} ∪ A) d1) as (f & t' & d' & Hl & Hd' & Hrun); try done.
    + rewrite Hall. set_solver.
    + intros c' Hc' [He%elem_of_singleton|Hin]%elem_of_union.
      * apply Hnx. rewrite <- He, list_elem_of_fmap. by exists c'.
      * apply (Hout c'); [by right | done].
    + intros k' Hk'. by rewrite Ho, Hother.
    + exists f, t', d'. split; [done|]. split; [done|].
      replace (length ((x, t) :: c :: calls) - 1)%nat with (S (length (c :: calls) - 1)) by (cbn; lia).
      cbn [replicate app]. apply (run_cons_ok x t _ d _ d1); [unfold attempt; by rewrite Hs | done].
Qed.
End one_flow.

(** ** Correctness *)

(** C21 (reassembly): whatever the order in which the fragments of a datagram
    arrive, all calls but the last return nothing, the last one returns the
    datagram with its whole content, and the table is empty again. *)
Theorem defrag_any_order k fs calls : fragmentation k fs → map fst calls ≡ₚ fs →
  ∃ f t d', last calls = Some (f, t) ∧ ipFlows d' = ∅ ∧
    run calls NewIPv4Defragmenter =
      (Ok (replicate (length fs - 1) (inl None) ++
           [inl (Some (datagram f (len (content fs)) (content fs)))]), d').
Proof.
  intros Hfs Hp.
  assert (length calls = length fs) as Hl by (by rewrite <- (Permutation_length Hp), length_map).
  rewrite <- Hl. apply (run_once k fs Hfs calls ∅).
  - by apply flow_start.
  - intros ->. cbn in Hp. apply Permutation_nil_l in Hp. by destruct (fg_some k fs Hfs).
  - apply Forall_forall. intros c Hc. rewrite <- Hp. apply list_elem_of_fmap. by exists c.
  - rewrite <- (map_map fst FragOffset), Hp. by apply (offsets_NoDup k).
  - unfold all_offsets. rewrite <- (map_map fst FragOffset), Hp. set_solver.
  - set_solver.
  - done.
Qed.

(** C22 (refinement): in a stream of packets, other traffic and repeated
    fragments included, the fragments of one datagram get the answers of the
    abstract reassembler, which keeps the set of the offsets that have arrived,
    and every packet that is no fragment comes back unchanged. *)
Theorem defrag_refines k fs calls : fragmentation k fs →
  Forall (fun c => complete c.1 ∧ (of_flow k c.1 = true → c.1 ∈ fs)) calls →
  ∃ rs d', run calls NewIPv4Defragmenter = (Ok rs, d') ∧ expected k fs ∅ calls rs.
Proof.
  intros Hfs HF. apply (run_expected k fs Hfs); [apply map_Forall_empty | by apply flow_start | done].
Qed.

(** C23 (safety): packets that carry all the bytes that their length field
    promises never make the defragmenter panic, however their offsets and
    lengths overlap; each list that is kept holds fewer fragments than the
    limit, and what is no fragment is returned as it came. *)
Theorem defrag_safe calls : Forall (fun c => complete c.1) calls →
  ∃ rs d', run calls NewIPv4Defragmenter = (Ok rs, d') ∧ length rs = length calls ∧
    map_Forall (fun _ fl => len (List fl) < IPv4MaximumFragmentListLen) (ipFlows d') ∧
    ∀ i x t, calls !! i = Some (x, t) → dontDefrag x = true → rs !! i = Some (inl (Some x)).
Proof.
  intros HF. destruct (run_safe calls NewIPv4Defragmenter HF (map_Forall_empty _)) as (rs & d' & Hr & Hd & Hl & Hi).
  exists rs, d'. split; [done|]. split; [done|]. split; [|done].
  apply (map_Forall_impl _ _ _ Hd). unfold IPv4MaximumFragmentListLen. intros _ fl [_ ?]. lia.
Qed.


(** Two fragments of a datagram of twenty bytes, and a packet that is whole. *)
Definition sample_packet (id flags offset : Z) (payload : bytes) : IPv4 :=
  mkIPv4 (mkBase [] payload) 4 5 0 (20 + len payload) id flags offset 64 17 0
    [10; 0; 0; 1] [10; 0; 0; 2] [] [].

Definition first_part : IPv4 := sample_packet 7 1 0 [0; 1; 2; 3; 4; 5; 6; 7].
Definition second_part : IPv4 := sample_packet 7 0 1 [8; 9; 10; 11; 12; 13; 14; 15; 16; 17; 18; 19].
Definition whole_packet : IPv4 := sample_packet 7 2 0 [1; 2; 3].

Definition sample_key : ipv4 :=
  (mkFlow EndpointIPv4 4 4 (pad16 [10; 0; 0; 1]) (pad16 [10; 0; 0; 2]), 7).

Lemma sample_fragmentation : fragmentation sample_key [first_part; second_part].
Proof.
  split; [done | by repeat constructor | | vm_compute; congruence].
  repeat split; vm_compute; congruence.
Qed.

Lemma sample_complete id flags offset payload : len payload <= 1000 →
  complete (sample_packet id flags offset payload).
Proof.
  intros Hl. split; [|vm_compute; congruence..]. unfold sample_packet, data; cbn [Length base Payload].
  replace (20 + len payload - 20) with (len payload) by lia.
  rewrite u16_small; [lia|]. pose proof (len_nonneg payload). unfold is_u16. lia.
Qed.

Lemma defrag_any_order_witness : ∃ f t d',
  last [(second_part, 5); (first_part, 6)] = Some (f, t) ∧ ipFlows d' = ∅ ∧
  run [(second_part, 5); (first_part, 6)] NewIPv4Defragmenter =
    (Ok [inl None; inl (Some (datagram f 20 (content [first_part; second_part])))], d').
Proof.
  exact (defrag_any_order sample_key [first_part; second_part] [(second_part, 5); (first_part, 6)]
    sample_fragmentation (Permutation_swap _ _ _)).
Defined.

Definition sample_stream : list (IPv4 * Z) :=
  [(second_part, 5); (whole_packet, 6); (second_part, 7); (first_part, 8)].

Lemma defrag_refines_witness : ∃ rs d', run sample_stream NewIPv4Defragmenter = (Ok rs, d') ∧
  expected sample_key [first_part; second_part] ∅ sample_stream rs.
Proof.
  apply (defrag_refines sample_key [first_part; second_part] sample_stream sample_fragmentation).
  unfold sample_stream. repeat constructor; cbn [fst]; try (by apply sample_complete); try (intros; set_solver).
  all: unfold whole_packet; vm_compute; congruence.
Defined.

Lemma defrag_safe_witness : ∃ rs d', run sample_stream NewIPv4Defragmenter = (Ok rs, d') ∧
  length rs = length sample_stream ∧
  map_Forall (fun _ fl => len (List fl) < IPv4MaximumFragmentListLen) (ipFlows d') ∧
  ∀ i x t, sample_stream !! i = Some (x, t) → dontDefrag x = true → rs !! i = Some (inl (Some x)).
Proof.
  apply (defrag_safe sample_stream).
  unfold sample_stream. repeat (apply Forall_cons_2; [apply sample_complete; vm_compute; congruence|]).
  apply Forall_nil_2.
Defined.

(** ** What the code does besides *)

(** The offset of an overlapping fragment is added to the position instead of
    its end, which can hide a hole: the datagram says it has 32 bytes, and has
    only 24. *)
Lemma overlap_hides_hole :
  let a := sample_packet 1 1 0 (replicate 16 1) in
  let b := sample_packet 1 1 1 (replicate 8 2) in
  let c := sample_packet 1 0 3 (replicate 8 3) in
  fst (run [(c, 0); (a, 0); (b, 0)] NewIPv4Defragmenter) =
    Ok [inl None; inl None; inl (Some (datagram b 32 (replicate 16 1 ++ replicate 8 3)))].
Proof. vm_compute. reflexivity. Qed.

(** A truncated fragment, whose length field promises more than there is, makes
    the slicing of its payload panic. *)
Lemma truncated_overlap_panics :
  let a := sample_packet 1 1 0 (replicate 16 1) in
  let b := mkIPv4 (mkBase [] [2; 2; 2; 2]) 4 5 0 28 1 1 1 64 17 0 [10; 0; 0; 1] [10; 0; 0; 2] [] [] in
  let c := sample_packet 1 0 3 (replicate 8 3) in
  fst (run [(c, 0); (a, 0); (b, 0)] NewIPv4Defragmenter) = Panic SliceOutOfRange.
Proof. vm_compute. reflexivity. Qed.

(** The counters take every header to be of 20 bytes: fragments with options
    are never put together. *)
Lemma options_not_reassembled :
  let part off flags := mkIPv4 (mkBase [] (replicate 8 1)) 4 6 0 32 1 flags off 64 17 0
    [10; 0; 0; 1] [10; 0; 0; 2] [mkOption 1 1 []; mkOption 1 1 []; mkOption 1 1 []; mkOption 1 1 []] [] in
  fst (run [(part 0 1, 0); (part 1 0, 0)] NewIPv4Defragmenter) = Ok [inl None; inl None].
Proof. vm_compute. reflexivity. Qed.

(** A last fragment of fewer than eight bytes is refused. *)
Lemma short_final_refused :
  securityChecks (sample_packet 1 0 1 [1; 2; 3; 4]) =
    Err (Errorf "defrag: fragment too small (handcrafted? %d < %d)" [4; 8]).
Proof. vm_compute. reflexivity. Qed.

(** ** Old lists *)

Definition is_old (t : Z) (kv : ipv4 * fragmentList) : Prop := LastSeen kv.2 < t.
#[export] Instance is_old_dec t kv : Decision (is_old t kv) := decide (LastSeen kv.2 < t).

Lemma discard_loop_spec t kvs : ∀ nb d, ∃ d',
  discard_loop t kvs nb d = (Ok (nb + len (filter (is_old t) kvs)), d') ∧
  ∀ k, ipFlows d' !! k = if decide (k ∈ map fst (filter (is_old t) kvs)) then None else ipFlows d !! k.
Proof.
  induction kvs as [|[k v] kvs IH]; intros nb d; cbn [discard_loop].
  - exists d. change (len (filter (is_old t) [])) with 0. rewrite Z.add_0_r. split; [done|]. intros k.
    by rewrite decide_False by (cbn; set_solver).
  - rewrite filter_cons. destruct (Z.ltb_spec (LastSeen v) t) as [Hlt|Hlt]; destruct (decide (is_old t (k, v))) as [Ho|Ho];
      unfold is_old in Ho; cbn [snd] in Ho; try lia; [|apply IH].
    destruct (IH (nb + 1) (mkDefragmenter (delete k (ipFlows d)))) as (d' & He & Hk). exists d'.
    unfold mbind, M_bind, flush, modify. rewrite He, len_cons, Z.add_assoc. split; [done|]. intros k'.
    rewrite Hk. cbn [map fst ipFlows]. destruct (decide (k' = k)) as [->|Hne].
    + rewrite lookup_delete_eq, (decide_True (P := k ∈ k :: _)) by left. by destruct (decide _).
    + rewrite lookup_delete_ne by done. by repeat destruct (decide _); set_solver.
Qed.

Lemma old_keys (t : Z) (m : gmap ipv4 fragmentList) (k : ipv4) :
  k ∈ map fst (filter (is_old t) (map_to_list m)) ↔ ∃ v, m !! k = Some v ∧ LastSeen v < t.
Proof.
  rewrite list_elem_of_fmap. split.
  - intros ([k' v] & -> & [Ho Hin]%list_elem_of_filter). exists v. by apply elem_of_map_to_list in Hin.
  - intros (v & Hk & Ho). exists (k, v). split; [done|]. apply list_elem_of_filter. by rewrite elem_of_map_to_list.
Qed.

Lemma size_filter_list P `{∀ kv, Decision (P kv)} (m : gmap ipv4 fragmentList) :
  size (filter P m) = length (filter P (map_to_list m)).
Proof.
  rewrite map_filter_alt, <- length_map_to_list. apply Permutation_length, map_to_list_to_map.
  eapply sublist_NoDup, fmap_sublist, sublist_filter. apply NoDup_fst_map_to_list.
Qed.

(** [DiscardOlderThan] removes the lists whose last fragment
    came before the given time, leaves the others alone, and returns how many
    it removed. *)
Theorem DiscardOlderThan_spec t d : ∃ nb d', DiscardOlderThan t d = (Ok nb, d') ∧
  ipFlows d' = filter (fun kv => t <= LastSeen kv.2) (ipFlows d) ∧
  nb = Z.of_nat (size (ipFlows d)) - Z.of_nat (size (ipFlows d')).
Proof.
  destruct (discard_loop_spec t (map_to_list (ipFlows d)) 0 d) as (d' & He & Hk). exists (len (filter (is_old t) (map_to_list (ipFlows d)))), d'.
  assert (ipFlows d' = filter (fun kv => t <= LastSeen kv.2) (ipFlows d)) as Hd.
  { apply map_eq. intros k. rewrite Hk, map_lookup_filter. destruct (decide _) as [Ho|Ho]; rewrite old_keys in Ho.
    - destruct Ho as (v & -> & ?). cbn. rewrite option_guard_False; [done | cbn; lia].
    - destruct (ipFlows d !! k) as [v|] eqn:Hv; [|done]. cbn. rewrite option_guard_True; [done|]. cbn.
      apply Z.nlt_ge. naive_solver. }
  split; [exact He|]. split; [exact Hd|]. rewrite Hd, size_filter_list, <- length_map_to_list.
  generalize (map_to_list (ipFlows d)) as l. clear. induction l as [|kv l IH]; [done|].
  rewrite !filter_cons. destruct (decide (is_old t kv)) as [?|?], (decide (t <= LastSeen kv.2)) as [?|?];
    unfold is_old in *; try lia; unfold len in *; cbn [length] in *; lia.
Qed.
