(* ===== verification/Bytediff.v ===== *)
(** * Differences of byte slices ([bytediff/bytediff.go])

    [Diff] finds the longest common substring of two slices with a table of
    the lengths of the common suffixes of their prefixes, and calls itself on
    what is before and after it. The file proves the table right, the substring
    longest, and the differences a script from one slice to the other whose
    replaced parts have no byte in common. *)

From S2P Require Import Prelude.

(** ** The longest common substring *)

(** The local variables of the nested loops. *)
Record lcs_state : Type := mkLcs {
  arr : list (list Z);
  maxLength : Z;
  maxA : Z;
  maxB : Z;
}.

Definition get_cell (a b : Z) : M lcs_state Z :=
  s ← get; row ← lift (index (arr s) a); lift (index row b).

Definition set_cell (a b v : Z) : M lcs_state unit :=
  s ← get;
  row ← lift (index (arr s) a);
  row ← lift (set_index row b v);
  arr ← lift (set_index (arr s) a row);
  put (mkLcs arr (maxLength s) (maxA s) (maxB s)).

(** The body of the two loops. *)
Definition lcs_cell (strA strB : bytes) (a b : Z) : M lcs_state unit :=
  x ← lift (index strA a);
  y ← lift (index strB b);
  if x =? y then
    length ← (if (a >? 0) && (b >? 0) then l ← get_cell (a - 1) (b - 1); mret (l + 1) else mret 1);
    _ ← set_cell a b length;
    s ← get;
    if length >? maxLength s then put (mkLcs (arr s) length a b) else mret tt
  else mret tt.

Definition lcs_table (strA strB : bytes) : M lcs_state unit :=
  for_loop 0 (len strA) (fun a => for_loop 0 (len strB) (fun b => lcs_cell strA strB a b)).

(** The walk back from the end of the substring; [fuel] is above [a]. *)
Fixpoint lcs_back (fuel : nat) (strA strB : bytes) (a b : Z) (r : Z * Z * Z) : outcome (Z * Z * Z) :=
  if (a >=? 0) && (b >=? 0) then
    x ← index strA a;
    y ← index strB b;
    if x =? y then
      match fuel with
      | O => NoFuel
      | S fuel' => lcs_back fuel' strA strB (a - 1) (b - 1) (a, b, r.2 + 1)
      end
    else mret r
  else mret r.

Definition longestCommonSubstring (strA strB : bytes) : outcome (Z * Z * Z) :=
  if (len strA =? 0) || (len strB =? 0) then mret (0, 0, 0)
  else
    let arr := replicate (length strA) (replicate (length strB) 0) in
    let '(o, s) := lcs_table strA strB (mkLcs arr 0 0 0) in
    _ ← o;
    lcs_back (S (length strA)) strA strB (maxA s) (maxB s) (0, 0, 0).

(** ** Differences *)

Record Difference : Type := mkDifference {
  Replace : bool;
  From : bytes;
  To : bytes;
}.

Definition Differences : Type := list Difference.

(** [fuel] bounds the depth of the recursion. *)
Fixpoint Diff_loop (fuel : nat) (strA strB : bytes) : outcome Differences :=
  if (len strA =? 0) && (len strB =? 0) then mret []
  else
    '(ia, ib, l) ← longestCommonSubstring strA strB;
    if l =? 0 then mret [mkDifference true strA strB]
    else
      match fuel with
      | O => NoFuel
      | S fuel' =>
          beforeA ← slice_to strA ia;
          match_ ← slice strA ia (ia + l);
          afterA ← slice_from strA (ia + l);
          beforeB ← slice_to strB ib;
          afterB ← slice_from strB (ib + l);
          d1 ← Diff_loop fuel' beforeA beforeB;
          d2 ← Diff_loop fuel' afterA afterB;
          mret (d1 ++ [mkDifference false match_ match_] ++ d2)
      end.

Definition Diff (strA strB : bytes) : outcome Differences := Diff_loop (length strA) strA strB.

(** ** Colours *)

Record OutputFormat : Type := mkOutputFormat {
  start : string; finish : string; add : string; remove : string; change : string; reset : string;
}.

Definition HTMLOutput : OutputFormat :=
  mkOutputFormat "<pre>" "</pre>" "<span style='color:green'>" "<span style='color:red'>"
    "<span style='color:yellow'>" "</span>".

Definition color (c : OutputFormat) (d : Difference) : string :=
  if negb (Replace d) then ""%string
  else if len (From d) =? 0 then remove c
  else if len (To d) =? 0 then add c
  else change c.

(** ** The table *)

Lemma list_lookup_insert_Some' {T} (l : list T) i j x y :
  <[i:=x]> l !! j = Some y → i = j ∧ x = y ∨ i ≠ j ∧ l !! j = Some y.
Proof. intros H%list_lookup_insert_Some. naive_solver. Qed.

Section table.
Context (A B : bytes).
Local Open Scope nat_scope.

(** The length of the common suffix of the prefixes that end at [a] and [b]. *)
Fixpoint suffix (a b : nat) : nat :=
  match A !! a, B !! b with
  | Some x, Some y =>
      if decide (x = y) then S (match a, b with S a', S b' => suffix a' b' | _, _ => 0 end) else 0
  | _, _ => 0
  end.

(** The cell at [i], [j] is filled before the one at [a], [b]. *)
Definition before (a b i j : nat) : Prop := i < a ∨ i = a ∧ j < b.

Record table (a b : nat) (s : lcs_state) : Prop := {
  tb_rows : length (arr s) = length A;
  tb_cols : ∀ i row, arr s !! i = Some row → length row = length B;
  tb_cell : ∀ i j row v, arr s !! i = Some row → row !! j = Some v →
    (before a b i j ∧ v = Z.of_nat (suffix i j)) ∨ (¬ before a b i j ∧ v = 0%Z);
  tb_max : ∀ i j, before a b i j → (Z.of_nat (suffix i j) <= maxLength s)%Z ∨ length B <= j;
  tb_pos : ∃ ma mb, maxA s = Z.of_nat ma ∧ maxB s = Z.of_nat mb ∧ ma < length A ∧ mb < length B ∧
    (maxLength s = 0%Z ∧ ma = 0 ∧ mb = 0 ∨ maxLength s = Z.of_nat (suffix ma mb));
}.

Lemma suffix_eq a b x : A !! a = Some x → B !! b = Some x →
  suffix a b = S (match a, b with S a', S b' => suffix a' b' | _, _ => 0 end).
Proof. intros Ha Hb. destruct a; cbn [suffix]; rewrite Ha, Hb; by rewrite decide_True. Qed.

Lemma suffix_neq a b x y : A !! a = Some x → B !! b = Some y → x ≠ y → suffix a b = 0.
Proof. intros Ha Hb Hn. destruct a; cbn [suffix]; rewrite Ha, Hb; by rewrite decide_False. Qed.

Lemma before_S a b i j : before a (S b) i j ↔ before a b i j ∨ i = a ∧ j = b.
Proof. unfold before. lia. Qed.

(** A cell that is left zero, and one that is set. *)
Lemma table_skip a b s : suffix a b = 0 → table a b s → table a (S b) s.
Proof.
  intros H0 [Hr Hc Hcell Hmax Hpos]. split; [done | done | | | done].
  - intros i j row v Hi Hj. rewrite before_S. destruct (Hcell i j row v Hi Hj) as [[? ->]|[Hn ->]]; [tauto|].
    destruct (decide (i = a ∧ j = b)) as [[-> ->]|]; [|tauto]. left. rewrite H0. tauto.
  - intros i j [H|[-> ->]]%before_S; [by apply Hmax|]. rewrite H0.
    left. destruct Hpos as (ma & mb & _ & _ & _ & _ & [(-> & _)| ->]); lia.
Qed.

Lemma table_set a b s row : arr s !! a = Some row → table a b s →
  let v := Z.of_nat (suffix a b) in
  a < length A → b < length B →
  table a (S b)
    (mkLcs (<[a := <[b := v]> row]> (arr s)) (Z.max v (maxLength s))
       (if (v >? maxLength s)%Z then Z.of_nat a else maxA s)
       (if (v >? maxLength s)%Z then Z.of_nat b else maxB s)).
Proof.
  intros Hrow [Hr Hc Hcell Hmax Hpos] v Ha Hb. split; cbn [arr maxLength maxA maxB].
  - by rewrite length_insert.
  - intros i row' [[<- <-]|[_ H]]%list_lookup_insert_Some'; [|by apply (Hc i)].
    rewrite length_insert. by apply (Hc a).
  - intros i j row' w [[<- <-]|[Hne H]]%list_lookup_insert_Some' Hj.
    + apply list_lookup_insert_Some' in Hj as [[<- <-]|[Hne Hj]].
      * left. unfold before. split; [lia | done].
      * destruct (Hcell a j row w Hrow Hj) as [[? ->]|[? ->]]; rewrite before_S; [tauto|].
        right. split; [|done]. intros [?|[_ ?]]; [done | congruence].
    + destruct (Hcell i j row' w H Hj) as [[? ->]|[? ->]]; rewrite before_S; [tauto|].
      right. split; [|done]. intros [?|[? _]]; [done | congruence].
  - intros i j [H|[-> ->]]%before_S; [|left; subst v; lia].
    destruct (Hmax i j H); [left; lia | by right].
  - destruct Hpos as (ma & mb & HA & HB & Hla & Hlb & Hv).
    destruct (Z.gtb_spec v (maxLength s)); [exists a, b | exists ma, mb];
      (split; [done|]; split; [done|]; split; [done|]; split; [done|]).
    + right. subst v. lia.
    + destruct Hv as [(H0 & -> & ->)| Hv]; [left | right]; lia.
Qed.

Lemma table_next_row a s : table a (length B) s → table (S a) 0 s.
Proof.
  intros [Hr Hc Hcell Hmax Hpos].
  assert (∀ i j, j < length B → before (S a) 0 i j ↔ before a (length B) i j) as Hb
    by (unfold before; lia).
  split; [done | done | | | done].
  - intros i j row v Hi Hj. rewrite Hb; [by apply (Hcell i j row) |].
    rewrite <-(Hc i row Hi). by eapply lookup_lt_Some.
  - intros i j H. destruct (decide (j < length B)) as [Hlt|]; [|right; lia]. apply Hmax. by apply Hb.
Qed.
Lemma table_row a b i s : table a b s → i < length A → ∃ row, arr s !! i = Some row ∧ length row = length B.
Proof.
  intros Ht Ha. destruct (lookup_lt_is_Some_2 (arr s) i) as [row Hrow]; [rewrite (tb_rows _ _ _ Ht); lia|].
  exists row. split; [done | by apply (tb_cols _ _ _ Ht i)].
Qed.

Lemma get_cell_ok a b i j s (Q : Z → lcs_state → Prop) E : table a b s → before a b i j →
  i < length A → j < length B → Q (Z.of_nat (suffix i j)) s →
  wp (get_cell (Z.of_nat i) (Z.of_nat j)) Q E s.
Proof.
  intros Ht Hb Hi Hj HQ. unfold get_cell. apply wp_bind, wp_get, wp_bind, wp_lift.
  destruct (table_row a b i s Ht Hi) as (row & Hrow & Hlen).
  apply owp_index; [unfold len; rewrite (tb_rows _ _ _ Ht); lia|].
  rewrite Nat2Z.id, Hrow. intros ? [= <-]. apply wp_lift, owp_index; [unfold len; lia|].
  rewrite Nat2Z.id. intros v Hv.
  destruct (tb_cell _ _ _ Ht i j row v Hrow Hv) as [[_ ->]|[? _]]; [done | tauto].
Qed.

(** The length that the code computes where the bytes agree. *)
Lemma lcs_length_ok a b x s : table a b s → A !! a = Some x → B !! b = Some x →
  wp (if (Z.of_nat a >? 0)%Z && (Z.of_nat b >? 0)%Z
      then l ← get_cell (Z.of_nat a - 1) (Z.of_nat b - 1); mret (l + 1)%Z else mret 1%Z)
    (fun v s' => v = Z.of_nat (suffix a b) ∧ s' = s) (fun _ _ => False) s.
Proof.
  intros Ht Ha Hb. rewrite (suffix_eq a b x Ha Hb).
  apply lookup_lt_Some in Ha, Hb. destruct a as [|a]; [by apply wp_ret|].
  destruct b as [|b]; [by rewrite andb_false_r; apply wp_ret|].
  destruct (Z.gtb_spec (Z.of_nat (S a)) 0); [|lia]. destruct (Z.gtb_spec (Z.of_nat (S b)) 0); [|lia].
  cbn [andb]. apply wp_bind. replace (Z.of_nat (S a) - 1)%Z with (Z.of_nat a) by lia.
  replace (Z.of_nat (S b) - 1)%Z with (Z.of_nat b) by lia.
  eapply get_cell_ok; [done | unfold before; lia | lia | lia |]. apply wp_ret. split; [lia | done].
Qed.

Lemma lcs_cell_ok a b s : table a b s → a < length A → b < length B →
  wp (lcs_cell A B (Z.of_nat a) (Z.of_nat b)) (fun _ => table a (S b)) (fun _ _ => False) s.
Proof.
  intros Ht Ha Hb. unfold lcs_cell.
  apply wp_bind, wp_lift, owp_index; [unfold len; lia|]. rewrite Nat2Z.id. intros x Hx.
  apply wp_bind, wp_lift, owp_index; [unfold len; lia|]. rewrite Nat2Z.id. intros y Hy.
  destruct (Z.eqb_spec x y) as [<-|Hne].
  2: { apply wp_ret, table_skip; [by eapply suffix_neq | done]. }
  apply wp_bind. eapply wp_mono; [| |by eapply lcs_length_ok]; [|done].
  intros v s' [-> ->]. unfold set_cell.
  destruct (table_row a b a s Ht Ha) as (row & Hrow & Hlen).
  apply wp_bind, wp_bind, wp_get, wp_bind, wp_lift.
  apply owp_index; [unfold len; rewrite (tb_rows _ _ _ Ht); lia|].
  rewrite Nat2Z.id, Hrow. intros ? [= <-].
  apply wp_bind, wp_lift. rewrite set_index_insert by (unfold len; lia). cbn [owp].
  apply wp_bind, wp_lift. rewrite set_index_insert by (unfold len; rewrite (tb_rows _ _ _ Ht); lia).
  cbn [owp]. apply wp_put, wp_bind, wp_get. cbn [maxLength arr]. rewrite !Nat2Z.id.
  pose proof (table_set a b s row Hrow Ht Ha Hb) as H. cbn zeta in H.
  destruct (Z.gtb_spec (Z.of_nat (suffix a b)) (maxLength s)).
  - apply wp_put. by rewrite Z.max_l in H by lia.
  - apply wp_ret. by rewrite Z.max_r in H by lia.
Qed.

Definition first_table : lcs_state := mkLcs (replicate (length A) (replicate (length B) 0%Z)) 0 0 0.

Lemma first_table_ok : A ≠ [] → B ≠ [] → table 0 0 first_table.
Proof.
  intros HA HB. split; cbn [arr maxLength maxA maxB first_table].
  - apply length_replicate.
  - intros i row [-> _]%lookup_replicate. apply length_replicate.
  - intros i j row v [-> _]%lookup_replicate [-> _]%lookup_replicate. right. unfold before. lia.
  - unfold before. lia.
  - exists 0, 0. apply len_pos in HA, HB. unfold len in *. split_and!; [done | done | lia | lia | by left].
Qed.

Lemma lcs_table_ok : A ≠ [] → B ≠ [] → wp (lcs_table A B)
  (fun _ => table (length A) 0) (fun _ _ => False) first_table.
Proof.
  intros HA HB. unfold lcs_table.
  eapply wp_mono; [| |apply (wp_for_loop (fun i => table (Z.to_nat i) 0) (fun _ _ => False))]; [| done | lens | by apply first_table_ok |].
  { cbn. intros _ s. unfold len. by rewrite Nat2Z.id. }
  intros i s Hi Ht. eapply wp_mono; [| |apply (wp_for_loop (fun j => table (Z.to_nat i) (Z.to_nat j)) (fun _ _ => False))];
    [| done | lens | done |].
  - cbn. intros _ s'. unfold len. rewrite Nat2Z.id, Z2Nat.inj_add by lia. intros ?%table_next_row.
    by replace (_ + _) with (S (Z.to_nat i)) by lia.
  - intros j s' Hj Ht'. unfold len in *.
    pose proof (lcs_cell_ok _ _ _ Ht' ltac:(lia) ltac:(lia)) as H.
    rewrite !Z2Nat.id in H by lia. by replace (Z.to_nat (j + 1)) with (S (Z.to_nat j)) by lia.
Qed.

(** ** The substring *)

Lemma suffix_bound a b : suffix a b <= S a ∧ suffix a b <= S b.
Proof.
  revert b; induction a as [|a IH]; intros b; cbn [suffix];
    (destruct (A !! _) as [x|]; [|lia]); (destruct (B !! b) as [y|]; [|lia]);
    (destruct (decide (x = y)); [|lia]); [lia|]. destruct b; [lia|]. pose proof (IH b). lia.
Qed.

Lemma triple_eq (a b c a' b' c' : Z) : a = a' → b = b' → c = c' → (a, b, c) = (a', b', c').
Proof. by intros -> -> ->. Qed.

Lemma lcs_back_ok : ∀ fuel a b r, (-1 <= a < len A)%Z → (-1 <= b < len B)%Z → (a < Z.of_nat fuel)%Z →
  let v := (if (a <? 0)%Z || (b <? 0)%Z then 0 else suffix (Z.to_nat a) (Z.to_nat b)) in
  lcs_back fuel A B a b r =
    Ok (if v =? 0 then r else (a + 1 - Z.of_nat v, b + 1 - Z.of_nat v, r.2 + Z.of_nat v)%Z).
Proof.
  induction fuel as [|fuel IH]; intros a b r Ha Hb Hf; cbn [lcs_back].
  { destruct (Z.geb_spec a 0); [lia|]. by destruct (Z.ltb_spec a 0); [|lia]. }
  destruct (Z.geb_spec a 0), (Z.ltb_spec a 0); try lia; [|done].
  destruct (Z.geb_spec b 0), (Z.ltb_spec b 0); try lia; [|done]. cbn [andb orb].
  destruct (index_ok A a ltac:(lia)) as (x & Hx & ->).
  destruct (index_ok B b ltac:(lia)) as (y & Hy & ->). cbn [mbind outcome_bind].
  destruct (Z.eqb_spec x y) as [<-|Hne]; [|by rewrite (suffix_neq _ _ x y)].
  rewrite IH by lia. rewrite (suffix_eq _ _ x Hx Hy). cbn [Nat.eqb fst snd].
  f_equal. destruct (Z.to_nat a) as [|a'] eqn:Ea.
  { replace (a - 1 <? 0)%Z with true by lia. cbn [Nat.eqb]. apply triple_eq; lia. }
  destruct (Z.to_nat b) as [|b'] eqn:Eb.
  { replace (b - 1 <? 0)%Z with true by lia. rewrite orb_true_r. cbn [Nat.eqb]. apply triple_eq; lia. }
  destruct (Z.ltb_spec (a - 1) 0); [lia|]. destruct (Z.ltb_spec (b - 1) 0); [lia|]. cbn [orb].
  replace (Z.to_nat (a - 1)) with a' by lia. replace (Z.to_nat (b - 1)) with b' by lia.
  destruct (Nat.eqb_spec (suffix a' b') 0) as [->|]; cbn [fst snd]; apply triple_eq; lia.
Qed.

(** The suffix is common, and no common one is longer. *)
Lemma suffix_common a b k : k < suffix a b → A !! (a - k) = B !! (b - k).
Proof.
  revert b k; induction a as [|a IH]; intros b k H.
  - cbn [suffix] in H. destruct (A !! 0) as [x|] eqn:Hx; [|lia]. destruct (B !! b) as [y|] eqn:Hy; [|lia].
    destruct (decide (x = y)) as [<-|]; [|lia]. assert (k = 0) as -> by lia.
    by rewrite !Nat.sub_0_r, Hx, Hy.
  - cbn [suffix] in H. destruct (A !! S a) as [x|] eqn:Hx; [|lia]. destruct (B !! b) as [y|] eqn:Hy; [|lia].
    destruct (decide (x = y)) as [<-|]; [|lia].
    destruct k as [|k]; [by rewrite !Nat.sub_0_r, Hx, Hy|].
    destruct b as [|b]; [lia|]. apply (IH b k). lia.
Qed.

Lemma suffix_longest k : ∀ a b, k <= S a → k <= S b → a < length A →
  (∀ i, i < k → A !! (a - i) = B !! (b - i)) → k <= suffix a b.
Proof.
  induction k as [|k IH]; intros a b Ha Hb Hl H; [lia|].
  destruct (lookup_lt_is_Some_2 _ _ Hl) as [x Hx].
  pose proof (H 0 ltac:(lia)) as H0. rewrite !Nat.sub_0_r in H0.
  rewrite (suffix_eq a b x) by congruence.
  destruct a as [|a]; [lia|]. destruct b as [|b]; [lia|]. apply le_n_S, IH; [lia..|].
  intros i Hi. apply (H (S i)). lia.
Qed.
End table.

(** [A] and [B] agree on [l] bytes, from [i] and [j] on. *)
Definition common (A B : bytes) (i j l : Z) : Prop :=
  0 <= i ∧ 0 <= j ∧ 0 <= l ∧ i + l <= len A ∧ j + l <= len B ∧
  take (Z.to_nat l) (drop (Z.to_nat i) A) = take (Z.to_nat l) (drop (Z.to_nat j) B).

Lemma common_lookup A B i j l : 0 <= i → 0 <= j → 0 <= l → i + l <= len A → j + l <= len B →
  common A B i j l ↔ (∀ k, 0 <= k < l → A !! Z.to_nat (i + k) = B !! Z.to_nat (j + k)).
Proof.
  intros Hi Hj Hl HA HB. unfold common. split.
  - intros (_ & _ & _ & _ & _ & H) k Hk. apply (f_equal (lookup (Z.to_nat k))) in H.
    rewrite !lookup_take_lt, !lookup_drop in H by lia. by rewrite !Z2Nat.inj_add by lia.
  - intros H. repeat (split; [done|]). apply list_eq. intros k.
    destruct (decide (k < Z.to_nat l)%nat) as [Hk|Hk].
    + rewrite !lookup_take_lt, !lookup_drop by done. pose proof (H (Z.of_nat k) ltac:(lia)) as Hk'.
      by rewrite !Z2Nat.inj_add, Nat2Z.id in Hk' by lia.
    + by rewrite !lookup_take_ge by lia.
Qed.

Lemma common_nil A B : common A B 0 0 0.
Proof. pose proof (len_nonneg A). pose proof (len_nonneg B). unfold common. split_and!; [lia..|done]. Qed.

Lemma longestCommonSubstring_ok A B : ∃ ia ib l,
  longestCommonSubstring A B = Ok (ia, ib, l) ∧ common A B ia ib l ∧
  ∀ i j k, common A B i j k → k <= l.
Proof.
  unfold longestCommonSubstring.
  assert (len A = 0 ∨ len B = 0 ∨ A ≠ [] ∧ B ≠ []) as [H|[H|[HA HB]]].
  { rewrite <-!len_pos. pose proof (len_nonneg A). pose proof (len_nonneg B). lia. }
  1-2: exists 0, 0, 0; replace (_ || _) with true by lia; split; [done|]; split;
    [by apply common_nil | intros i j k Hc; unfold common in Hc; lia].
  pose proof (proj2 (len_pos A) HA). pose proof (proj2 (len_pos B) HB).
  replace (_ || _) with false by lia.
  pose proof (lcs_table_ok A B HA HB) as Ht. unfold wp, first_table in Ht.
  destruct (lcs_table A B _) as [[[]| | |] s]; try contradiction. cbn [mbind outcome_bind].
  destruct (tb_pos _ _ _ _ _ Ht) as (ma & mb & -> & -> & Hma & Hmb & Hv).
  rewrite (lcs_back_ok A B) by (unfold len in *; lia).
  replace (_ || _) with false by lia. rewrite !Nat2Z.id.
  set (v := suffix A B ma mb) in *.
  assert (∀ i j k, common A B i j k → k <= Z.of_nat v) as Hlong.
  { intros i j k Hc. pose proof Hc as Hb. unfold common in Hb.
    rewrite common_lookup in Hc by lia. destruct (decide (k = 0)) as [->|]; [lia|].
    assert (Z.to_nat k <= suffix A B (Z.to_nat (i + k - 1)) (Z.to_nat (j + k - 1)))%nat as Hk.
    { apply suffix_longest; [lia | lia | unfold len in Hb; lia|].
      intros t Ht'. pose proof (Hc (k - 1 - Z.of_nat t) ltac:(lia)) as He.
      replace (Z.to_nat (i + k - 1) - t)%nat with (Z.to_nat (i + (k - 1 - Z.of_nat t))) by lia.
      by replace (Z.to_nat (j + k - 1) - t)%nat with (Z.to_nat (j + (k - 1 - Z.of_nat t))) by lia. }
    destruct (tb_max _ _ _ _ _ Ht (Z.to_nat (i + k - 1)) (Z.to_nat (j + k - 1))) as [Hm|Hm];
      [unfold before, len in *; lia | | unfold len in *; lia].
    destruct Hv as [(Hv & _)|Hv]; lia. }
  pose proof (suffix_bound A B ma mb) as Hbound. fold v in Hbound.
  destruct (Nat.eqb_spec v 0) as [Hz|Hnz].
  - exists 0, 0, 0. split; [done|]. split; [by apply common_nil|]. intros i j k Hc%Hlong. lia.
  - eexists _, _, _. split; [done|]. cbn [snd]. rewrite Z.add_0_l. split; [|done].
    apply common_lookup; [unfold len; lia..|]. intros k Hk.
    pose proof (suffix_common A B ma mb (v - 1 - Z.to_nat k) ltac:(lia)) as Hs.
    replace (Z.to_nat (Z.of_nat ma + 1 - Z.of_nat v + k)) with (ma - (v - 1 - Z.to_nat k))%nat by lia.
    by replace (Z.to_nat (Z.of_nat mb + 1 - Z.of_nat v + k)) with (mb - (v - 1 - Z.to_nat k))%nat by lia.
Qed.

(** ** The differences *)

Definition old (ds : Differences) : bytes := concat (map From ds).
Definition new (ds : Differences) : bytes := concat (map To ds).

(** What is kept is the same on both sides, and not empty; what is replaced
    has no byte in common. *)
Definition well_formed (d : Difference) : Prop :=
  if Replace d then (From d ≠ [] ∨ To d ≠ []) ∧ ∀ b, b ∈ From d → b ∉ To d
  else From d = To d ∧ From d ≠ [].

(** No two replaced parts follow each other. *)
Fixpoint separated (ds : Differences) : bool :=
  match ds with
  | d :: (d' :: _) as ds' => negb (Replace d && Replace d') && separated ds'
  | _ => true
  end.

Lemma separated_join ds1 d ds2 : Replace d = false →
  separated ds1 = true → separated ds2 = true → separated (ds1 ++ d :: ds2) = true.
Proof.
  intros Hd. induction ds1 as [|x [|y ds1] IH]; intros H1 H2.
  - destruct ds2; cbn [app separated]; [done|]. by rewrite Hd.
  - change (negb (Replace x && Replace d) && separated ([] ++ d :: ds2) = true).
    rewrite Hd, andb_false_r. by apply IH.
  - cbn [app separated] in *. apply andb_true_iff in H1 as [-> H1]. by apply IH.
Qed.

Lemma no_common_byte A B b : (∀ i j k, common A B i j k → k <= 0) → b ∈ A → b ∉ B.
Proof.
  intros H [i Hi]%list_elem_of_lookup [j Hj]%list_elem_of_lookup.
  pose proof (lookup_lt_Some _ _ _ Hi). pose proof (lookup_lt_Some _ _ _ Hj).
  enough (1 <= 0) by lia. apply (H (Z.of_nat i) (Z.of_nat j)). apply common_lookup; [unfold len; lia..|].
  intros k Hk. replace k with 0 by lia. rewrite !Z.add_0_r, !Nat2Z.id. congruence.
Qed.

(** A slice, split at the part from [i] to [i + l]. *)
Lemma split_three {A} (l : list A) i n : 0 <= i → 0 <= n → i + n <= len l →
  take (Z.to_nat i) l ++ take (Z.to_nat n) (drop (Z.to_nat i) l) ++ drop (Z.to_nat (i + n)) l = l.
Proof.
  intros Hi Hn H. rewrite Z2Nat.inj_add, <-drop_drop by lia. by rewrite !take_drop.
Qed.

Lemma Diff_loop_ok : ∀ fuel A B, (length A <= fuel)%nat → ∃ ds, Diff_loop fuel A B = Ok ds ∧
  old ds = A ∧ new ds = B ∧ Forall well_formed ds ∧ separated ds = true.
Proof.
  assert (∀ fuel A B, (length A <= fuel)%nat →
    (∀ fuel' A' B', fuel = S fuel' → (length A' < length A)%nat → ∃ ds, Diff_loop fuel' A' B' = Ok ds ∧
       old ds = A' ∧ new ds = B' ∧ Forall well_formed ds ∧ separated ds = true) →
    ∃ ds, Diff_loop fuel A B = Ok ds ∧
      old ds = A ∧ new ds = B ∧ Forall well_formed ds ∧ separated ds = true) as Hstep.
  2: { induction fuel as [|fuel IH]; intros A B Hf; apply Hstep; try done.
       intros fuel' A' B' [= <-] Hlt. apply IH. lia. }
  intros fuel A B Hf IH.
  assert (Diff_loop fuel A B = Ok [] ∧ A = [] ∧ B = [] ∨
    (A ≠ [] ∨ B ≠ []) ∧ ((len A =? 0) && (len B =? 0)) = false) as [(-> & -> & ->)|[Hne Hz]].
  { destruct A as [|a A]; [|right; split; [by left | done]].
    destruct B as [|b B]; [left; by destruct fuel | right; split; [by right | done]]. }
  { exists []. by repeat constructor. }
  destruct (longestCommonSubstring_ok A B) as (ia & ib & l & Hlcs & Hc & Hlong).
  destruct (decide (l = 0)) as [->|Hl].
  { exists [mkDifference true A B]. split.
    { destruct fuel; cbn [Diff_loop]; rewrite Hz, Hlcs; done. }
    unfold old, new. cbn. rewrite !app_nil_r. split_and!; [done | done | | done].
    apply Forall_singleton. split; [done|]. intros b. by apply no_common_byte. }
  unfold common in Hc. destruct Hc as (Hia & Hib & Hl0 & HA & HB & Heq).
  destruct fuel as [|fuel]; [unfold len in *; lia|]. cbn [Diff_loop]. rewrite Hz, Hlcs. cbn [mbind outcome_bind].
  destruct (Z.eqb_spec l 0); [done|].
  rewrite !slice_to_ok, !slice_from_ok, slice_ok by (pose proof (len_nonneg A); lia).
  cbn [mbind outcome_bind].
  destruct (IH fuel (take (Z.to_nat ia) A) (take (Z.to_nat ib) B)) as (d1 & -> & Ho1 & Hn1 & Hw1 & Hs1);
    [done | rewrite length_take; unfold len in *; lia|].
  destruct (IH fuel (drop (Z.to_nat (ia + l)) A) (drop (Z.to_nat (ib + l)) B)) as (d2 & -> & Ho2 & Hn2 & Hw2 & Hs2);
    [done | rewrite length_drop; unfold len in *; lia|].
  cbn [mbind outcome_bind]. set (m := drop (Z.to_nat ia) (take (Z.to_nat (ia + l)) A)).
  assert (m = take (Z.to_nat l) (drop (Z.to_nat ia) A)) as Hm.
  { subst m. rewrite Z2Nat.inj_add by lia. by rewrite <-take_drop_commute. }
  eexists. split; [done|]. unfold old, new in *. rewrite !map_app, !concat_app. cbn [map concat From To].
  rewrite Ho1, Hn1, Ho2, Hn2. cbn [app]. rewrite app_nil_r. split_and!.
  - rewrite Hm. by apply split_three.
  - rewrite Hm, Heq. by apply split_three.
  - apply Forall_app. split; [done|]. constructor; [|done]. split; [done|]. cbn [From].
    apply len_pos. rewrite Hm. rewrite len_take, len_drop. lia.
  - by apply separated_join.
Qed.

(** C33 (differences of byte slices): [Diff] returns for any two slices, and
    the differences it returns are a script from one to the other: their old
    sides make up the first slice and their new sides the second, in order;
    a part that is kept is the same on both sides and not empty, a part that
    is replaced has no byte in common on its two sides, and two replaced parts
    never follow each other. *)
Theorem Diff_script (strA strB : bytes) : ∃ ds, Diff strA strB = Ok ds ∧
  old ds = strA ∧ new ds = strB ∧ Forall well_formed ds ∧ separated ds = true.
Proof. by apply Diff_loop_ok. Qed.

(** The function returns, without an index out
    of range in its table, a position in each slice and a length at which the
    slices agree, and no common substring is longer. *)
Theorem longestCommonSubstring_longest (strA strB : bytes) : ∃ ia ib l,
  longestCommonSubstring strA strB = Ok (ia, ib, l) ∧ common strA strB ia ib l ∧
  ∀ i j k, common strA strB i j k → k <= l.
Proof. apply longestCommonSubstring_ok. Qed.


Example Diff_example :
  Diff [1; 2; 3; 4; 5; 6] [9; 3; 4; 5; 8; 8; 6] =
    Ok [mkDifference true [1; 2] [9]; mkDifference false [3; 4; 5] [3; 4; 5];
        mkDifference true [] [8; 8]; mkDifference false [6] [6]].
Proof. vm_compute. reflexivity. Qed.

(** The colour for removal is given to what is inserted. *)
Lemma insertion_coloured_as_removal c bs : bs ≠ [] → color c (mkDifference true [] bs) = remove c.
Proof. reflexivity. Qed.
