(* ===== verification/Capture.v ===== *)
(** * Capture metadata, times and byte streams

    What the readers and writers of capture files share: [CaptureInfo]
    ([packet.go]), timestamp resolutions ([time.go]), and the parts of Go's
    [time] and [io] packages that they use. *)

From S2P Require Import Prelude.

(** ** [time.Time]: seconds since the epoch and nanoseconds within the second *)

Record time : Type := mkTime { seconds : Z; nanoseconds : Z }.

#[export] Instance time_eq_dec : EqDecision time.
Proof. solve_decision. Defined.

Definition nanosPerSecond : Z := 1000000000.

(** [time.Unix(sec, nsec)] normalizes [nsec]. *)
Definition time_Unix (sec nsec : Z) : time :=
  mkTime (sec + nsec / nanosPerSecond) (nsec mod nanosPerSecond).

(** [t.IsZero()]: January 1 of the year 1. *)
Definition zero_time : time := mkTime (-62135596800) 0.
Definition IsZero (t : time) : bool := bool_decide (t = zero_time).

Definition time_ok (t : time) : Prop := 0 <= nanoseconds t < nanosPerSecond.

(** ** Capture information; its [AncillaryData] is left out, as no file reader or writer
    uses it but the pcapng reader, which returns it beside the rest. *)

Record CaptureInfo : Type := mkCaptureInfo {
  Timestamp : time;
  CaptureLength : Z;
  Length : Z;
  InterfaceIndex : Z;
}.

Record TimestampResolution : Type := mkResolution { Base : Z; Exponent : Z }.

Definition TimestampResolutionInvalid : TimestampResolution := mkResolution 0 0.
Definition TimestampResolutionMillisecond : TimestampResolution := mkResolution 10 (-3).
Definition TimestampResolutionMicrosecond : TimestampResolution := mkResolution 10 (-6).
Definition TimestampResolutionNanosecond : TimestampResolution := mkResolution 10 (-9).
Definition TimestampResolutionNTP : TimestampResolution := mkResolution 2 (-32).
Definition TimestampResolutionCaptureInfo : TimestampResolution := TimestampResolutionNanosecond.

(** ** [io.Reader]: the bytes still to come, and the error at their end *)

Record stream : Type := mkStream { rest : bytes; end_error : error }.

Definition io_EOF : error := errors_New "EOF".
Definition io_ErrUnexpectedEOF : error := errors_New "unexpected EOF".

Definition is_EOF (e : error) : bool :=
  match e with Errorf "EOF" [] => true | _ => false end.

(** [io.ReadFull(r, buf)] for a buffer of [n] bytes: the bytes read and the
    error, if there are fewer. *)
Definition ReadFull_partial (n : Z) (s : stream) : bytes * option error * stream :=
  let got := take (Z.to_nat n) (rest s) in
  let s' := mkStream (drop (Z.to_nat n) (rest s)) (end_error s) in
  if len got >=? n then (got, None, s')
  else if (0 <? len got) && is_EOF (end_error s) then (got, Some io_ErrUnexpectedEOF, s')
  else (got, Some (end_error s), s').

Definition ReadFull (n : Z) : M stream bytes := fun s =>
  match ReadFull_partial n s with
  | (got, None, s') => (Ok got, s')
  | (_, Some e, s') => (Err e, s')
  end.

(** [bufio.Reader.Peek(n)] *)
Definition Peek (n : Z) : M stream bytes := fun s =>
  if n <=? len (rest s) then (Ok (take (Z.to_nat n) (rest s)), s) else (Err (end_error s), s).

(** [make([]byte, n)] *)
Definition make_bytes (n : Z) : outcome bytes :=
  if n <? 0 then Panic (Panicked "makeslice: len out of range") else mret (replicate (Z.to_nat n) 0).

(** ** [io.Writer]: what a sink of bytes promises *)

Class Writer (W : Type) := { Write : bytes → M W unit }.

(** A write either appends all the bytes, or fails after a part of them. *)
Class WriterLaws (W : Type) `{Writer W} := {
  written : W → bytes;
  Write_law b w : wp (Write b) (fun _ w' => written w' = written w ++ b)
                     (fun _ w' => ∃ n, written w' = written w ++ take n b) w;
}.

(** A file without limits. *)
#[export] Instance file_writer : Writer bytes := { Write b := modify (fun w => w ++ b) }.
#[export] Program Instance file_writer_laws : WriterLaws bytes := { written w := w }.
Next Obligation. done. Qed.

(** A file on a disk with room for [room] bytes more. *)
Record disk : Type := mkDisk { contents : bytes; room : nat }.
#[export] Instance disk_writer : Writer disk := {
  Write b := fun d =>
    if decide (length b <= room d)%nat then (Ok tt, mkDisk (contents d ++ b) (room d - length b))
    else (Err (errors_New "no space left on device"), mkDisk (contents d ++ take (room d) b) 0);
}.
#[export] Program Instance disk_writer_laws : WriterLaws disk := { written := contents }.
Next Obligation.
  intros b d. unfold wp, Write, disk_writer. destruct (decide _); cbn; [done | by exists (room d)].
Qed.

(** ** Reading what is there *)

Lemma ReadFull_ok n b t e : len b = n → ReadFull n (mkStream (b ++ t) e) = (Ok b, mkStream t e).
Proof.
  intros Hb. assert (Z.to_nat n = length b) as Hn by (unfold len in Hb; lia).
  unfold ReadFull, ReadFull_partial. cbn [rest end_error]. rewrite Hn, take_app_length, drop_app_length.
  by rewrite (proj2 (Z.geb_le _ _)) by lia.
Qed.

Lemma ReadFull_end n e : 0 < n → ReadFull n (mkStream [] e) = (Err e, mkStream [] e).
Proof.
  intros Hn. unfold ReadFull, ReadFull_partial. cbn [rest end_error]. rewrite take_nil, drop_nil.
  change (len ([] : bytes)) with 0. by destruct (Z.geb_spec 0 n); [lia|].
Qed.

(** Reading takes some bytes off the front, all that were asked for or all there are. *)
Lemma ReadFull_spec n s : 0 <= n →
  wp (ReadFull n)
    (fun b s' => len b = n ∧ rest s = b ++ rest s' ∧ end_error s' = end_error s)
    (fun e s' => len (rest s) < n ∧ rest s' = [] ∧ end_error s' = end_error s) s.
Proof.
  intros Hn. unfold wp, ReadFull, ReadFull_partial. destruct s as [r e]; cbn [rest end_error].
  destruct (Z.geb_spec (len (take (Z.to_nat n) r)) n) as [Hge|Hlt].
  - rewrite len_take in *. split_and!; [lia | by cbn; rewrite take_drop | done].
  - rewrite len_take in Hlt. assert (drop (Z.to_nat n) r = []) as Hd by (apply drop_ge; unfold len in *; lia).
    destruct (_ && _); cbn; rewrite Hd; (split; [lia | done]).
Qed.
