(* ===== verification/PcapCorrect.v ===== *)
(** * Correctness of the capture file writer and reader

    The file format as lists of bytes; what the writer appends; reading a file
    back in either byte order; arbitrary input; reading without copying. *)

From S2P Require Import Prelude Capture Pcap.

(** ** The format *)

Definition enc16 (o : ByteOrder) (v : Z) : bytes :=
  match o with LittleEndian => le16 v | BigEndian => be16 v end.
Definition enc32 (o : ByteOrder) (v : Z) : bytes :=
  match o with LittleEndian => le32 v | BigEndian => be32 v end.

(** [factor] is the number of nanoseconds in a unit of time: 1 or 1000. *)
Definition file_header (o : ByteOrder) (factor snaplen linktype : Z) : bytes :=
  enc32 o (if factor =? 1 then magicNanoseconds else magicMicroseconds) ++
  enc16 o versionMajor ++ enc16 o versionMinor ++ replicate 8 0 ++ enc32 o snaplen ++ enc32 o linktype.

Definition packet_header (o : ByteOrder) (factor : Z) (now : time) (ci : CaptureInfo) : bytes :=
  let t := if IsZero (Timestamp ci) then now else Timestamp ci in
  enc32 o (seconds t) ++ enc32 o (nanoseconds t / factor) ++
  enc32 o (CaptureLength ci) ++ enc32 o (Length ci).

Definition packet_bytes (o : ByteOrder) (factor : Z) (now : time) (p : CaptureInfo * bytes) : bytes :=
  packet_header o factor now p.1 ++ p.2.

Definition file_bytes (o : ByteOrder) (factor snaplen linktype : Z) (now : time)
    (ps : list (CaptureInfo * bytes)) : bytes :=
  file_header o factor snaplen linktype ++ concat (map (packet_bytes o factor now) ps).

(** What a file can hold: 32-bit lengths and times, within the snapshot length. *)
Record packet_ok (snaplen : Z) (now : time) (p : CaptureInfo * bytes) : Prop := {
  po_data : CaptureLength p.1 = len p.2;
  po_snaplen : CaptureLength p.1 <= snaplen;
  po_length : CaptureLength p.1 <= Length p.1 < 4294967296;
  po_time : let t := if IsZero (Timestamp p.1) then now else Timestamp p.1 in
            is_u32 (seconds t) ∧ time_ok t;
}.

(** A packet as it is read back: its time is cut to the resolution of the file. *)
Definition as_read (factor : Z) (now : time) (p : CaptureInfo * bytes) : bytes * CaptureInfo :=
  let t := if IsZero (Timestamp p.1) then now else Timestamp p.1 in
  (p.2, mkCaptureInfo (mkTime (seconds t) (nanoseconds t / factor * factor))
          (CaptureLength p.1) (Length p.1) 0).

Lemma packet_header_len o factor now ci : len (packet_header o factor now ci) = 16.
Proof. by destruct o. Qed.

(** ** What the writer writes *)

Section writing.
Context {W : Type} `{WriterLaws W}.

(** [m] appends [b] to the output, or a part of [b] if it fails. *)
Definition appends {A} (b : bytes) (m : M (PcapWriter W) A) (s : PcapWriter W) : Prop :=
  wp m (fun _ s' => written (w_w s') = written (w_w s) ++ b ∧
                    w_tsScaler s' = w_tsScaler s ∧ length (w_buf s') = 16%nat)
       (fun _ s' => ∃ n, written (w_w s') = written (w_w s) ++ take n b) s.

Lemma appends_seq {A} b1 b2 (m1 : M (PcapWriter W) unit) (m2 : M (PcapWriter W) A) s :
  appends b1 m1 s →
  (∀ s', w_tsScaler s' = w_tsScaler s → length (w_buf s') = 16%nat → appends b2 m2 s') →
  appends (b1 ++ b2) (_ ← m1; m2) s.
Proof.
  intros H1 H2. unfold appends. rewrite wp_bind. refine (wp_mono _ _ _ _ _ _ _ _ H1).
  - intros _ s' (Hw & Ht & Hb). refine (wp_mono _ _ _ _ _ _ _ _ (H2 s' Ht Hb)).
    + intros a s2 (Hw2 & Ht2 & Hb2). rewrite Hw2, Hw, app_assoc. by rewrite Ht2.
    + intros e s2 [n Hn]. exists (length b1 + n)%nat. by rewrite Hn, Hw, take_app_add, app_assoc.
  - intros e s' [n Hn]. exists (Nat.min n (length b1)). rewrite Hn. f_equal.
    rewrite take_app_le by lia. by rewrite <- take_take, (take_ge b1 (length b1)).
Qed.

Lemma write_appends b s : length (w_buf s) = 16%nat → appends b (write b) s.
Proof.
  intros Hb. pose proof (Write_law b (w_w s)) as Hw. unfold appends, wp, write, zoom in *.
  destruct (Write b (w_w s)) as [[[]|e|c|] w']; try done.
Qed.

Lemma WriteFileHeader_appends snaplen linktype s :
  length (w_buf s) = 16%nat → w_tsScaler s = 1 ∨ w_tsScaler s = 1000 →
  appends (file_header LittleEndian (w_tsScaler s) snaplen linktype) (WriteFileHeader snaplen linktype) s.
Proof.
  intros Hb Hs. pose proof (write_appends (file_header LittleEndian (w_tsScaler s) snaplen linktype) s Hb) as Hw.
  destruct Hs as [Hs|Hs]; unfold appends, wp in *; unfold WriteFileHeader, mbind, M_bind, get, lift;
    rewrite Hs in *; exact Hw.
Qed.

Lemma put_four buf a b c d : length buf = 16%nat →
  (buf ← LE_PutUint32 buf 0 a; buf ← LE_PutUint32 buf 4 b; buf ← LE_PutUint32 buf 8 c; LE_PutUint32 buf 12 d) =
  Ok (le32 a ++ le32 b ++ le32 c ++ le32 d).
Proof. intros Hb. explode buf Hb. destruct buf; [|done]. reflexivity. Qed.

Lemma writePacketHeader_appends now ci s : length (w_buf s) = 16%nat → 0 < w_tsScaler s →
  0 <= nanoseconds (if IsZero (Timestamp ci) then now else Timestamp ci) →
  appends (packet_header LittleEndian (w_tsScaler s) now ci) (writePacketHeader now ci) s.
Proof.
  intros Hb Hs Hn. unfold writePacketHeader, packet_header. set (t := if IsZero _ then _ else _) in *.
  cbn [enc32].
  pose proof (put_four (w_buf s) (u32 (seconds t)) (u32 (nanoseconds t / w_tsScaler s))
                (u32 (CaptureLength ci)) (u32 (Length ci)) Hb) as Hp. rewrite !le32_u32 in Hp.
  set (h := le32 _ ++ _) in *. set (s' := mkWriter (w_w s) (w_tsScaler s) h).
  pose proof (write_appends h s' eq_refl) as Hw. unfold appends, wp in *.
  unfold mbind, outcome_bind in Hp. unfold mbind, M_bind, get, lift, set_w_buf, modify. rewrite Z.quot_div_nonneg by lia.
  repeat match goal with |- context [LE_PutUint32 ?b ?i ?v] =>
    destruct (LE_PutUint32 b i v) as [?| | |] eqn:?; try discriminate Hp end.
  injection Hp as ->. exact Hw.
Qed.

Lemma WritePacket_appends now p s snaplen : length (w_buf s) = 16%nat → 0 < w_tsScaler s →
  packet_ok snaplen now p → appends (packet_bytes LittleEndian (w_tsScaler s) now p) (WritePacket now p.1 p.2) s.
Proof.
  intros Hb Hs [Hd _ Hl [_ Ht]]. unfold WritePacket, packet_bytes. rewrite Hd, Z.eqb_refl. cbn [negb].
  destruct (Z.gtb_spec (len p.2) (Length p.1)); [lia|]. apply appends_seq.
  - pose proof (writePacketHeader_appends now p.1 s Hb Hs (proj1 Ht)) as Hw. unfold appends, wp, wrapping in *.
    by destruct (writePacketHeader now p.1 s) as [[]].
  - intros s' Ht' Hb'. by apply write_appends.
Qed.

Lemma write_file_appends snaplen linktype now ps s : length (w_buf s) = 16%nat →
  w_tsScaler s = 1 ∨ w_tsScaler s = 1000 → Forall (packet_ok snaplen now) ps →
  appends (file_bytes LittleEndian (w_tsScaler s) snaplen linktype now ps) (write_file snaplen linktype now ps) s.
Proof.
  intros Hb Hs HF. unfold write_file, file_bytes. apply appends_seq; [by apply WriteFileHeader_appends|].
  intros s' Ht' Hb'. rewrite <- Ht' in Hs |- *. clear Hb Ht' s. revert s' Hs Hb'.
  induction HF as [|p ps Hp HF IH]; intros s Hs Hb; cbn [map concat].
  - unfold appends, wp. cbn. by rewrite app_nil_r.
  - cbn [write_packets]. destruct p as [ci data]. apply appends_seq.
    + apply (WritePacket_appends now (ci, data) s snaplen); [done | lia | done].
    + intros s' Ht' Hb'. rewrite <- Ht'. apply IH; [by rewrite Ht' | done].
Qed.
End writing.

(** ** Reading what was written *)

Lemma enc16_len o v : len (enc16 o v) = 2.
Proof. by destruct o. Qed.
Lemma enc32_len o v : len (enc32 o v) = 4.
Proof. by destruct o. Qed.
Lemma order_Uint16_enc o v r : is_u16 v → order_Uint16 o (enc16 o v ++ r) = Ok v.
Proof. destruct o; [apply LE_Uint16_le16 | apply BE_Uint16_be16]. Qed.
Lemma order_Uint32_enc o v r : is_u32 v → order_Uint32 o (enc32 o v ++ r) = Ok v.
Proof. destruct o; [apply LE_Uint32_le32 | apply BE_Uint32_be32]. Qed.

(** Lengths and widths of fields. *)
Ltac sizes :=
  rewrite ?len_app, ?len_replicate, ?enc32_len, ?enc16_len;
  unfold is_u8, is_u16, is_u32, versionMajor, versionMinor in *; lia.

(** A 32-bit field at a given offset. *)
Lemma field32 o pre v post off : off = len pre → is_u32 v →
  (slice (pre ++ enc32 o v ++ post) off (off + 4) ≫= order_Uint32 o) = Ok v.
Proof.
  intros -> Hv. rewrite (slice_app pre (enc32 o v) post) by (rewrite ?enc32_len; lia).
  rewrite <- (app_nil_r (enc32 o v)). by apply order_Uint32_enc.
Qed.

Lemma slice_front {A} (pre post : list A) hi : hi = len pre → slice (pre ++ post) 0 hi = Ok pre.
Proof. intros ->. apply (slice_app [] pre post 0 (len pre)); [done | by rewrite Z.add_0_l]. Qed.

Lemma field16 o pre v post off : off = len pre → is_u16 v →
  (slice (pre ++ enc16 o v ++ post) off (off + 2) ≫= order_Uint16 o) = Ok v.
Proof.
  intros -> Hv. rewrite (slice_app pre (enc16 o v) post) by (rewrite ?enc16_len; lia).
  rewrite <- (app_nil_r (enc16 o v)). by apply order_Uint16_enc.
Qed.

(** The reader that [readHeader] makes. *)
Definition fresh_reader (o : ByteOrder) (factor snaplen linktype : Z) (r : stream) : Reader :=
  mkReader r o factor versionMajor versionMinor snaplen linktype (replicate 16 0) [].

(** The input is the file itself, or what is decompressed to it. *)
Definition delivers (gunzip : stream → outcome stream) (z f : stream) : Prop :=
  z = f ∨ (∃ t, rest z = magicGzip1 :: magicGzip2 :: t ∧ gunzip z = Ok f).

Lemma unwrap_delivers gunzip z o factor snaplen linktype t e : factor = 1 ∨ factor = 1000 →
  delivers gunzip z (mkStream (file_header o factor snaplen linktype ++ t) e) →
  unwrap gunzip z = (Ok tt, mkStream (file_header o factor snaplen linktype ++ t) e).
Proof.
  intros Hf [->|(tz & Hz & Hg)].
  - unfold unwrap, Peek, mbind, M_bind. cbn [rest end_error].
    destruct (Z.leb_spec 2 (len (file_header o factor snaplen linktype ++ t))) as [_|Hlt].
    2: { rewrite len_app in Hlt. replace (len (file_header o factor snaplen linktype)) with 24 in Hlt by (by destruct o).
         pose proof (len_nonneg t). lia. }
    by destruct o, Hf as [-> | ->].
  - unfold unwrap, Peek, mbind, M_bind. rewrite Hz, !len_cons.
    destruct (Z.leb_spec 2 (1 + (1 + len tz))) as [_|Hlt]; [|pose proof (len_nonneg tz); lia].
    change (take (Z.to_nat 2) (magicGzip1 :: magicGzip2 :: tz)) with [magicGzip1; magicGzip2].
    change (index [magicGzip1; magicGzip2] 0) with (Ok magicGzip1). change (index [magicGzip1; magicGzip2] 1) with (Ok magicGzip2).
    unfold lift, get, put. rewrite !Z.eqb_refl. cbn. by rewrite Hg.
Qed.

Lemma header_fields o factor snaplen linktype : is_u32 snaplen → is_u8 linktype →
  let h := file_header o factor snaplen linktype in
  (slice h 4 6 ≫= order_Uint16 o) = Ok versionMajor ∧ (slice h 6 8 ≫= order_Uint16 o) = Ok versionMinor ∧
  (slice h 16 20 ≫= order_Uint32 o) = Ok snaplen ∧ (slice h 20 24 ≫= order_Uint32 o) = Ok linktype.
Proof.
  intros Hs Hl h. unfold h, file_header. set (m := enc32 o (if factor =? 1 then _ else _)).
  assert (len m = 4) as Hm by apply enc32_len.
  split; [apply (field16 o m versionMajor); sizes|].
  split; [rewrite app_assoc; apply (field16 o (m ++ _) versionMinor); sizes|].
  split; [rewrite 3!app_assoc; apply (field32 o (((m ++ _) ++ _) ++ _) snaplen); sizes|].
  rewrite 4!app_assoc, <- (app_nil_r (enc32 o linktype)).
  apply (field32 o ((((m ++ _) ++ _) ++ _) ++ _) linktype); sizes.
Qed.

Lemma NewReader_reads gunzip z o factor snaplen linktype t e : factor = 1 ∨ factor = 1000 →
  is_u32 snaplen → is_u8 linktype →
  delivers gunzip z (mkStream (file_header o factor snaplen linktype ++ t) e) →
  NewReader gunzip z = Ok (fresh_reader o factor snaplen linktype (mkStream t e)).
Proof.
  intros Hf Hs Hl Hd. unfold NewReader, readHeader. rewrite (unwrap_delivers gunzip z o factor snaplen linktype t e Hf Hd).
  unfold mbind at 1, outcome_bind at 1.
  assert (len (file_header o factor snaplen linktype) = 24) as Hlen by (by destruct o).
  rewrite (ReadFull_ok 24 _ t e Hlen). unfold mbind at 1, outcome_bind at 1.
  rewrite Hlen. change (24 <? 24) with false. cbv iota.
  assert (∃ m, (slice (file_header o factor snaplen linktype) 0 4 ≫= LE_Uint32) = Ok m ∧
            byte_order m = Ok (o, factor)) as (m & Hm1 & Hm2).
  { unfold file_header. rewrite slice_front by (by rewrite enc32_len).
    by destruct o, Hf as [-> | ->]; eexists. }
  rewrite Hm1. unfold mbind at 1, outcome_bind at 1. rewrite Hm2. unfold mbind at 1, outcome_bind at 1.
  destruct (header_fields o factor snaplen linktype Hs Hl) as (Hmaj & Hmin & Hsn & Hlt).
  rewrite Hmaj. unfold mbind at 1, outcome_bind at 1. rewrite Z.eqb_refl. cbn [negb].
  rewrite Hmin. unfold mbind at 1, outcome_bind at 1. rewrite Z.eqb_refl. cbn [negb].
  rewrite Hsn. unfold mbind at 1, outcome_bind at 1.
  rewrite Hlt. unfold mbind, outcome_bind. by rewrite u8_small.
Qed.

Lemma whole_units n f : 0 <= n < 1000000000 → f = 1 ∨ f = 1000 →
  0 <= n / f * f < 1000000000 ∧ is_u32 (n / f).
Proof. unfold is_u32. intros Hn [-> | ->]; zdiv. Qed.

Lemma four_fields o a b c d : is_u32 a → is_u32 b → is_u32 c → is_u32 d →
  let h := enc32 o a ++ enc32 o b ++ enc32 o c ++ enc32 o d in
  (slice h 0 4 ≫= order_Uint32 o) = Ok a ∧ (slice h 4 8 ≫= order_Uint32 o) = Ok b ∧
  (slice h 8 12 ≫= order_Uint32 o) = Ok c ∧ (slice h 12 16 ≫= order_Uint32 o) = Ok d.
Proof.
  intros Ha Hb Hc Hd h. unfold h.
  split; [by apply (field32 o [] a)|].
  split; [apply (field32 o (enc32 o a) b); sizes|].
  split; [rewrite app_assoc; apply (field32 o (enc32 o a ++ _) c); sizes|].
  rewrite 2!app_assoc, <- (app_nil_r (enc32 o d)). apply (field32 o ((enc32 o a ++ _) ++ _) d); sizes.
Qed.

(** Moving on to the rest of the input, with new buffers. *)
Definition advanced (s s' : Reader) (r : stream) : Prop :=
  s' = mkReader r (r_byteOrder s) (r_nanoSecsFactor s) (r_versionMajor s) (r_versionMinor s)
         (r_snaplen s) (r_linkType s) (r_buf s') (r_packetBuf s) ∧ length (r_buf s') = 16%nat.

Lemma ReadFull_partial_ok n b t e : len b = n → ReadFull_partial n (mkStream (b ++ t) e) = (b, None, mkStream t e).
Proof.
  intros Hb. assert (Z.to_nat n = length b) as Hn by (unfold len in Hb; lia).
  unfold ReadFull_partial. cbn [rest end_error]. rewrite Hn, take_app_length, drop_app_length.
  by rewrite (proj2 (Z.geb_le _ _)) by lia.
Qed.

Lemma read_header_bytes s h t e : len h = 16 → length (r_buf s) = 16%nat → r_r s = mkStream (h ++ t) e →
  read_into set_r_buf (r_buf s) 16 s =
    (Ok h, mkReader (mkStream t e) (r_byteOrder s) (r_nanoSecsFactor s) (r_versionMajor s) (r_versionMinor s)
             (r_snaplen s) (r_linkType s) h (r_packetBuf s)).
Proof.
  intros Hh Hb Hr. unfold read_into. rewrite Hr, (ReadFull_partial_ok 16 h t e Hh).
  assert (write_at (r_buf s) 0 h = Ok h) as Hw.
  { rewrite <- (app_nil_l (r_buf s)), <- (app_nil_r ([] ++ r_buf s)), <- app_assoc.
    rewrite write_at_app by (done || unfold len in *; lia). cbn. by rewrite app_nil_r. }
  unfold mbind, M_bind, lift. by rewrite Hw.
Qed.

Lemma readPacketHeader_reads s now ci t e : length (r_buf s) = 16%nat →
  let tm := if IsZero (Timestamp ci) then now else Timestamp ci in
  is_u32 (seconds tm) → time_ok tm → is_u32 (CaptureLength ci) → is_u32 (Length ci) →
  r_nanoSecsFactor s = 1 ∨ r_nanoSecsFactor s = 1000 →
  r_r s = mkStream (packet_header (r_byteOrder s) (r_nanoSecsFactor s) now ci ++ t) e →
  ∃ s', readPacketHeader s = (Ok (as_read (r_nanoSecsFactor s) now (ci, [])).2, s') ∧ advanced s s' (mkStream t e).
Proof.
  intros Hb tm Hs Ht Hc Hl Hf Hr. unfold readPacketHeader.
  set (o := r_byteOrder s) in *. set (f := r_nanoSecsFactor s) in *.
  pose proof (read_header_bytes s _ t e (packet_header_len o f now ci) Hb Hr) as Hread. fold o f in Hread.
  set (s' := mkReader _ _ _ _ _ _ _ _ _) in Hread. exists s'.
  unfold mbind at 1, M_bind at 1, get at 1. unfold mbind at 1, M_bind at 1. rewrite Hread.
  unfold mbind at 1, M_bind at 1, get. change (r_buf s') with (packet_header o f now ci).
  change (r_byteOrder s') with o. change (r_nanoSecsFactor s') with f.
  unfold packet_header. fold tm. unfold time_ok, nanosPerSecond in Ht.
  destruct (whole_units (nanoseconds tm) f Ht Hf) as [Hn Hu].
  destruct (four_fields o _ _ _ _ Hs Hu Hc Hl) as (H1 & H2 & H3 & H4).
  rewrite H1. unfold mbind at 1, M_bind at 1, lift at 1. rewrite H2. unfold mbind at 1, M_bind at 1, lift at 1.
  rewrite H3. unfold mbind at 1, M_bind at 1, lift at 1. rewrite H4. unfold mbind, M_bind, lift.
  split; [|by repeat split; destruct o].
  unfold mret, M_ret, as_read, time_Unix. cbn [fst snd]. fold tm. rewrite u32_small by (unfold is_u32; lia).
  unfold nanosPerSecond. rewrite Z.div_small, Z.mod_small, Z.add_0_r by lia. done.
Qed.

Lemma ReadPacketData_reads s now p t e : length (r_buf s) = 16%nat →
  packet_ok (r_snaplen s) now p → r_nanoSecsFactor s = 1 ∨ r_nanoSecsFactor s = 1000 →
  r_r s = mkStream (packet_bytes (r_byteOrder s) (r_nanoSecsFactor s) now p ++ t) e →
  ∃ s', ReadPacketData s = (Ok (as_read (r_nanoSecsFactor s) now p), s') ∧ advanced s s' (mkStream t e).
Proof.
  intros Hb [Hd Hsn Hl [Hsec Ht]] Hf Hr. unfold packet_bytes in Hr. rewrite <- app_assoc in Hr.
  destruct p as [ci data]; cbn [fst snd] in *. pose proof (len_nonneg data) as Hn.
  destruct (readPacketHeader_reads s now ci (data ++ t) e Hb Hsec Ht) as (s1 & Hh & Hs1 & Hb1);
    [unfold is_u32; lia.. | exact Hf | exact Hr |].
  assert (r_snaplen s1 = r_snaplen s) as Hsn1 by (by rewrite Hs1).
  assert (r_r s1 = mkStream (data ++ t) e) as Hr1 by (by rewrite Hs1).
  unfold ReadPacketData. unfold mbind at 1, M_bind at 1. rewrite Hh. unfold mbind at 1, M_bind at 1, get.
  unfold mbind at 1, M_bind at 1, lift at 1. rewrite Hsn1. unfold as_read at 1, check_lengths; cbn [snd CaptureLength Length fst].
  destruct (Z.gtb_spec (CaptureLength ci) (r_snaplen s)); [lia|].
  destruct (Z.gtb_spec (CaptureLength ci) (Length ci)); [lia|].
  unfold mret at 1, outcome_ret at 1, mbind at 1, M_bind at 1, lift, make_bytes.
  destruct (Z.ltb_spec (CaptureLength (as_read (r_nanoSecsFactor s) now (ci, [])).2) 0) as [Hlt|_]; [cbn in Hlt; lia|].
  unfold mret at 1, outcome_ret at 1, mbind, M_bind, read, zoom. rewrite Hr1, ReadFull_ok by (cbn; lia).
  eexists. split; [reflexivity|]. unfold advanced. cbn [r_buf]. split; [by rewrite Hs1 | done].
Qed.

Lemma read_packets_reads now ps : ∀ s t e, length (r_buf s) = 16%nat →
  Forall (packet_ok (r_snaplen s) now) ps → r_nanoSecsFactor s = 1 ∨ r_nanoSecsFactor s = 1000 →
  r_r s = mkStream (concat (map (packet_bytes (r_byteOrder s) (r_nanoSecsFactor s) now) ps) ++ t) e →
  ∃ s', read_packets (length ps) s = (Ok (map (as_read (r_nanoSecsFactor s) now) ps), s') ∧ advanced s s' (mkStream t e).
Proof.
  induction ps as [|p ps IH]; intros s t e Hb HF Hf Hr.
  - exists s. split; [done|]. split; [|done]. cbn in Hr. destruct s; cbn in *. by rewrite Hr.
  - apply Forall_cons in HF as [Hp HF]. cbn [map concat] in Hr. rewrite <- app_assoc in Hr.
    destruct (ReadPacketData_reads s now p _ e Hb Hp Hf Hr) as (s1 & H1 & Hs1 & Hb1).
    assert (r_snaplen s1 = r_snaplen s ∧ r_nanoSecsFactor s1 = r_nanoSecsFactor s ∧ r_byteOrder s1 = r_byteOrder s)
      as (E1 & E2 & E3) by (by rewrite Hs1).
    destruct (IH s1 t e Hb1) as (s2 & H2 & Hs2 & Hb2); [by rewrite E1 | by rewrite E2 | by rewrite E2, E3, Hs1 |].
    exists s2. cbn [length read_packets map]. unfold mbind, M_bind. rewrite H1, H2, E2. split; [done|].
    split; [|done]. rewrite Hs2 at 1. by rewrite Hs1.
Qed.

Lemma ReadPacketData_EOF s e : length (r_buf s) = 16%nat → r_r s = mkStream [] e → fst (ReadPacketData s) = Err e.
Proof.
  intros Hb Hr. unfold ReadPacketData, readPacketHeader, read_into, mbind, M_bind, get, lift. rewrite Hr.
  unfold ReadFull_partial; cbn [rest end_error]. rewrite take_nil, drop_nil. change (len ([] : bytes) >=? 16) with false.
  change (0 <? len ([] : bytes)) with false. cbn [andb]. rewrite write_at_ok by (change (len ([] : bytes)) with 0; unfold len; lia).
  reflexivity.
Qed.

(** Reading a whole file. *)
Lemma read_file gunzip z o factor snaplen linktype now ps t e :
  factor = 1 ∨ factor = 1000 → is_u32 snaplen → is_u8 linktype → Forall (packet_ok snaplen now) ps →
  delivers gunzip z (mkStream (file_bytes o factor snaplen linktype now ps ++ t) e) →
  ∃ r s, NewReader gunzip z = Ok r ∧ Snaplen r = snaplen ∧ LinkType r = linktype ∧
    read_packets (length ps) r = (Ok (map (as_read factor now) ps), s) ∧
    r_r s = mkStream t e ∧ length (r_buf s) = 16%nat.
Proof.
  intros Hf Hs Hl HF Hd. unfold file_bytes in Hd. rewrite <- app_assoc in Hd.
  set (r := fresh_reader o factor snaplen linktype (mkStream (concat (map (packet_bytes o factor now) ps) ++ t) e)).
  destruct (read_packets_reads now ps r t e eq_refl HF Hf eq_refl) as (s & Hrd & Hs1 & Hb).
  exists r, s. split; [by apply NewReader_reads|]. split; [done|]. split; [done|]. split; [exact Hrd|].
  split; [by rewrite Hs1 | done].
Qed.

(** C26 (roundtrip): a file that was written, with microseconds or nanoseconds,
    is read back packet by packet with its snapshot length, its link type, its
    data and lengths, and its times cut to the resolution, and then ends; a
    write that fails leaves a prefix of that file. *)
Theorem pcap_roundtrip {W} `{WriterLaws W} gunzip (nanos : bool) snaplen linktype now ps (w : W) :
  written w = [] → is_u32 snaplen → is_u8 linktype → Forall (packet_ok snaplen now) ps →
  let factor := if nanos then 1 else 1000 in
  wp (write_file snaplen linktype now ps)
    (fun _ wr => ∃ r s, NewReader gunzip (mkStream (written (w_w wr)) io_EOF) = Ok r ∧
       Snaplen r = snaplen ∧ LinkType r = linktype ∧
       read_packets (length ps) r = (Ok (map (as_read factor now) ps), s) ∧
       fst (ReadPacketData s) = Err io_EOF)
    (fun _ wr => ∃ n, written (w_w wr) = take n (file_bytes LittleEndian factor snaplen linktype now ps))
    (if nanos then NewWriterNanos w else NewWriter w).
Proof.
  intros Hw Hs Hl HF factor. set (wr0 := if nanos then NewWriterNanos w else NewWriter w).
  assert (w_tsScaler wr0 = factor ∧ length (w_buf wr0) = 16%nat ∧ written (w_w wr0) = []) as (Ef & Eb & Ew)
    by (by unfold wr0; destruct nanos).
  assert (factor = 1 ∨ factor = 1000) as Hf by (unfold factor; destruct nanos; tauto).
  pose proof (write_file_appends snaplen linktype now ps wr0 Eb) as Ha. rewrite Ef in Ha.
  refine (wp_mono _ _ _ _ _ _ _ _ (Ha Hf HF)).
  - intros _ wr (Hwr & _). rewrite Hwr, Ew. cbn [app].
    destruct (read_file gunzip (mkStream (file_bytes LittleEndian factor snaplen linktype now ps) io_EOF)
                LittleEndian factor snaplen linktype now ps [] io_EOF Hf Hs Hl HF) as (r & s & H1 & H2 & H3 & H4 & H5 & H6).
    { left. by rewrite app_nil_r. }
    exists r, s. split_and!; try done. by apply ReadPacketData_EOF.
  - intros e wr [n Hn]. exists n. by rewrite Hn, Ew.
Qed.

(** The reader reads files of both byte orders and both
    resolutions, compressed or not, and leaves what follows the packets. *)
Theorem pcap_reads_any_order gunzip z o factor snaplen linktype now ps t e :
  factor = 1 ∨ factor = 1000 → is_u32 snaplen → is_u8 linktype → Forall (packet_ok snaplen now) ps →
  delivers gunzip z (mkStream (file_bytes o factor snaplen linktype now ps ++ t) e) →
  ∃ r s, NewReader gunzip z = Ok r ∧ Snaplen r = snaplen ∧ LinkType r = linktype ∧
    read_packets (length ps) r = (Ok (map (as_read factor now) ps), s) ∧ r_r s = mkStream t e.
Proof.
  intros Hf Hs Hl HF Hd.
  destruct (read_file gunzip z o factor snaplen linktype now ps t e Hf Hs Hl HF Hd) as (r & s & ? & ? & ? & ? & ? & _).
  by exists r, s.
Qed.

Definition sample_packets : list (CaptureInfo * bytes) :=
  [(mkCaptureInfo (mkTime 1700000000 123456789) 4 60 0, [1; 2; 3; 4]);
   (mkCaptureInfo zero_time 0 0 3, [])].
Definition sample_now : time := mkTime 1700000001 5.
Definition no_gzip (s : stream) : outcome stream := Err (errors_New "gzip: invalid header").

Lemma sample_packets_ok : Forall (packet_ok 65536 sample_now) sample_packets.
Proof.
  repeat (apply Forall_cons_2; [split; vm_compute; intuition congruence|]). apply Forall_nil_2.
Qed.

Lemma pcap_roundtrip_witness :
  wp (write_file 65536 1 sample_now sample_packets)
    (fun _ wr => ∃ r s, NewReader no_gzip (mkStream (written (w_w wr)) io_EOF) = Ok r ∧
       Snaplen r = 65536 ∧ LinkType r = 1 ∧
       read_packets 2 r = (Ok (map (as_read 1 sample_now) sample_packets), s) ∧
       fst (ReadPacketData s) = Err io_EOF)
    (fun _ wr => ∃ n, written (w_w wr) = take n (file_bytes LittleEndian 1 65536 1 sample_now sample_packets))
    (NewWriterNanos (mkDisk [] 40)).
Proof.
  apply (pcap_roundtrip no_gzip true 65536 1 sample_now sample_packets (mkDisk [] 40));
    [done | split; vm_compute; congruence | split; vm_compute; congruence | apply sample_packets_ok].
Defined.

(** A decompressor for the witness: the file after the two magic bytes. *)
Definition stored_gzip (s : stream) : outcome stream := Ok (mkStream (drop 2 (rest s)) (end_error s)).

Lemma pcap_reads_any_order_witness :
  let file := file_bytes BigEndian 1000 65536 1 sample_now sample_packets in
  ∃ r s, NewReader stored_gzip (mkStream (magicGzip1 :: magicGzip2 :: file ++ [7]) io_EOF) = Ok r ∧
    Snaplen r = 65536 ∧ LinkType r = 1 ∧
    read_packets 2 r = (Ok (map (as_read 1000 sample_now) sample_packets), s) ∧ r_r s = mkStream [7] io_EOF.
Proof.
  apply (pcap_reads_any_order stored_gzip _ BigEndian 1000 65536 1 sample_now sample_packets [7] io_EOF);
    [by right | split; vm_compute; congruence | split; vm_compute; congruence | apply sample_packets_ok |].
  right. eexists. split; reflexivity.
Defined.

(** ** Arbitrary input *)

Definition reader_ok (s : Reader) : Prop := length (r_buf s) = 16%nat ∧ is_bytes (rest (r_r s)).

Lemma order_Uint32_four o b : len b = 4 → is_bytes b → ∃ v, order_Uint32 o b = Ok v ∧ is_u32 v.
Proof.
  intros Hl Hb. destruct b as [|b0 [|b1 [|b2 [|b3 [|]]]]]; try done; try (unfold len in Hl; cbn in Hl; lia).
  unfold is_bytes, is_byte in Hb. repeat rewrite Forall_cons in Hb. destruct o; eexists; (split; [reflexivity|]); unfold is_u32; lia.
Qed.

Lemma order_Uint16_two o b : len b = 2 → is_bytes b → ∃ v, order_Uint16 o b = Ok v.
Proof.
  intros Hl Hb. destruct b as [|b0 [|b1 [|]]]; try done; try (unfold len in Hl; cbn in Hl; lia).
  destruct o; by eexists.
Qed.

Lemma field32_any o b off hi : hi = off + 4 → 0 <= off → hi <= len b → is_bytes b →
  ∃ v, (slice b off hi ≫= order_Uint32 o) = Ok v ∧ is_u32 v.
Proof.
  intros -> H0 H1 Hb. rewrite slice_ok by lia. apply order_Uint32_four.
  - lens.
  - by apply is_bytes_drop, is_bytes_take.
Qed.

Lemma field16_any o b off hi : hi = off + 2 → 0 <= off → hi <= len b → is_bytes b →
  ∃ v, (slice b off hi ≫= order_Uint16 o) = Ok v.
Proof.
  intros -> H0 H1 Hb. rewrite slice_ok by lia. apply order_Uint16_two.
  - lens.
  - by apply is_bytes_drop, is_bytes_take.
Qed.

Lemma ReadFull_partial_spec n s : 0 <= n →
  let '(got, e, s') := ReadFull_partial n s in
  rest s = got ++ rest s' ∧ len got <= n ∧ (e = None → len got = n).
Proof.
  intros Hn. unfold ReadFull_partial. destruct (Z.geb_spec (len (take (Z.to_nat n) (rest s))) n); [|destruct (_ && _)];
    cbn; rewrite ?take_drop, ?len_take in *; split_and!; (done || lia).
Qed.

Lemma read_into_header s : reader_ok s →
  wp (read_into set_r_buf (r_buf s) 16)
    (fun _ s' => reader_ok s' ∧ is_bytes (r_buf s') ∧ r_snaplen s' = r_snaplen s ∧ r_packetBuf s' = r_packetBuf s)
    (fun _ s' => reader_ok s' ∧ r_packetBuf s' = r_packetBuf s) s.
Proof.
  intros [Hb Hr]. unfold wp, read_into. pose proof (ReadFull_partial_spec 16 (r_r s) ltac:(lia)) as Hsp.
  destruct (ReadFull_partial 16 (r_r s)) as [[got e] r]. destruct Hsp as (Hrest & Hle & Hn).
  rewrite Hrest in Hr. apply is_bytes_app in Hr as [Hg Hr].
  unfold mbind, M_bind, lift, set_r_buf, modify. rewrite write_at_ok by (unfold len in *; lia).
  set (b := take _ _ ++ _).
  assert (length b = 16%nat) as Hbl by (unfold b; rewrite !length_app, length_take, length_drop; unfold len in *; lia).
  destruct e as [e|]; [done|]. specialize (Hn eq_refl). split; [done|]. split; [|done].
  cbn [r_buf]. unfold b. rewrite drop_ge by (unfold len in *; lia). by rewrite app_nil_r.
Qed.

(** A packet header, whatever the input: it ends, and the lengths are 32-bit numbers. *)
Lemma readPacketHeader_ok s : reader_ok s →
  wp readPacketHeader
    (fun ci s' => reader_ok s' ∧ r_snaplen s' = r_snaplen s ∧ r_packetBuf s' = r_packetBuf s ∧ 0 <= CaptureLength ci)
    (fun _ s' => reader_ok s' ∧ r_packetBuf s' = r_packetBuf s) s.
Proof.
  intros Hs. unfold readPacketHeader. rewrite wp_bind, wp_get, wp_bind.
  refine (wp_mono _ _ _ _ _ _ _ _ (read_into_header s Hs)); [|done].
  intros _ s' (Hs' & Hb & ? & ?). rewrite wp_bind, wp_get.
  assert (len (r_buf s') = 16) as Hl by (unfold len; rewrite (proj1 Hs'); done).
  destruct (field32_any (r_byteOrder s') (r_buf s') 0 4) as (v0 & E0 & _); [lia.. | done |].
  destruct (field32_any (r_byteOrder s') (r_buf s') 4 8) as (v1 & E1 & _); [lia.. | done |].
  destruct (field32_any (r_byteOrder s') (r_buf s') 8 12) as (v2 & E2 & Hv2); [lia.. | done |].
  destruct (field32_any (r_byteOrder s') (r_buf s') 12 16) as (v3 & E3 & _); [lia.. | done |].
  rewrite wp_bind, wp_lift, E0; cbn [owp]. rewrite wp_bind, wp_lift, E1; cbn [owp].
  rewrite wp_bind, wp_lift, E2; cbn [owp]. rewrite wp_bind, wp_lift, E3; cbn [owp]. rewrite wp_ret.
  unfold is_u32 in Hv2. by split_and!; cbn; (done || lia).
Qed.

(** What a packet that is returned satisfies. *)
Definition packet_read (snaplen : Z) (p : bytes * CaptureInfo) : Prop :=
  len p.1 = CaptureLength p.2 ∧ CaptureLength p.2 <= snaplen ∧ CaptureLength p.2 <= Length p.2.

Lemma ReadPacketData_ok s : reader_ok s →
  wp ReadPacketData (fun p s' => packet_read (r_snaplen s) p ∧ reader_ok s' ∧ r_snaplen s' = r_snaplen s)
    (fun _ s' => reader_ok s') s.
Proof.
  intros Hs. unfold ReadPacketData. rewrite wp_bind.
  refine (wp_mono _ _ _ _ _ _ _ _ (readPacketHeader_ok s Hs)); [|by intros e s' [? _]].
  intros ci s' (Hs' & Hsn & _ & Hc). rewrite wp_bind, wp_get, wp_bind, wp_lift. unfold check_lengths.
  destruct (Z.gtb_spec (CaptureLength ci) (r_snaplen s')); [done|].
  destruct (Z.gtb_spec (CaptureLength ci) (Length ci)); [done|]. rewrite owp_ret.
  rewrite wp_bind, wp_lift. unfold make_bytes. destruct (Z.ltb_spec (CaptureLength ci) 0); [lia|]. rewrite owp_ret.
  rewrite wp_bind. unfold wp at 1, read, zoom. pose proof (ReadFull_spec (CaptureLength ci) (r_r s') Hc) as Hr.
  unfold wp in Hr. destruct Hs' as [Hb Hbytes]. destruct (ReadFull (CaptureLength ci) (r_r s')) as [[b|e|c|] r]; try done.
  - destruct Hr as (Hl & Hrest & _). rewrite wp_ret. rewrite Hrest in Hbytes. apply is_bytes_app in Hbytes as [_ ?].
    unfold packet_read. cbn. split_and!; (done || lia).
  - destruct Hr as (_ & Hrest & _). split; [done|]. cbn. rewrite Hrest. constructor.
Qed.

Lemma read_packets_ok n : ∀ s, reader_ok s →
  wp (read_packets n) (fun ps s' => Forall (packet_read (r_snaplen s)) ps ∧ reader_ok s') (fun _ s' => reader_ok s') s.
Proof.
  induction n as [|n IH]; intros s Hs; cbn [read_packets]; [by rewrite wp_ret|].
  rewrite wp_bind. refine (wp_mono _ _ _ _ _ _ _ _ (ReadPacketData_ok s Hs)); [|done].
  intros p s1 (Hp & Hs1 & Hsn). rewrite wp_bind. refine (wp_mono _ _ _ _ _ _ _ _ (IH s1 Hs1)); [|done].
  intros ps s2 [HF Hs2]. rewrite wp_ret. rewrite Hsn in HF. split; [by constructor | done].
Qed.

(** What is asked of a decompressor: it yields bytes or an error. *)
Definition gunzip_ok (gunzip : stream → outcome stream) : Prop :=
  ∀ z, is_bytes (rest z) → owp (gunzip z) (fun f => is_bytes (rest f)) (fun _ => True).

Lemma unwrap_ok gunzip z : gunzip_ok gunzip → is_bytes (rest z) →
  wp (unwrap gunzip) (fun _ f => is_bytes (rest f)) (fun _ _ => True) z.
Proof.
  intros Hg Hz. unfold unwrap. rewrite wp_bind. unfold wp at 1, Peek.
  destruct (Z.leb_spec 2 (len (rest z))) as [Hl|]; [|done].
  assert (len (take (Z.to_nat 2) (rest z)) = 2) as Hl2 by lens.
  rewrite wp_bind, wp_lift. destruct (index_ok (take (Z.to_nat 2) (rest z)) 0) as (m0 & _ & ->); [lia|]. cbn [owp].
  rewrite wp_bind, wp_lift. destruct (index_ok (take (Z.to_nat 2) (rest z)) 1) as (m1 & _ & ->); [lia|]. cbn [owp].
  destruct (_ && _); [|by rewrite wp_ret]. rewrite wp_bind, wp_get, wp_bind, wp_lift.
  refine (owp_mono _ _ _ _ _ _ _ (Hg z Hz)); [|done]. intros f Hf. by rewrite wp_put.
Qed.

Lemma byte_order_ends magic : owp (byte_order magic) (fun _ => True) (fun _ => True).
Proof. unfold byte_order. by repeat destruct (magic =? _). Qed.

Lemma NewReader_ok gunzip z : gunzip_ok gunzip → is_bytes (rest z) →
  owp (NewReader gunzip z) reader_ok (fun _ => True).
Proof.
  intros Hg Hz. unfold NewReader, readHeader. pose proof (unwrap_ok gunzip z Hg Hz) as Hu. unfold wp in Hu.
  destruct (unwrap gunzip z) as [[[]|e|c|] r]; try done. unfold mbind at 1, outcome_bind at 1.
  pose proof (ReadFull_spec 24 r ltac:(lia)) as Hr. unfold wp in Hr.
  destruct (ReadFull 24 r) as [[buf|e|c|] r']; try done. destruct Hr as (Hl & Hrest & _).
  rewrite Hrest in Hu. apply is_bytes_app in Hu as [Hb Hu]. unfold mbind at 1, outcome_bind at 1.
  rewrite Hl. change (24 <? 24) with false. cbv iota.
  destruct (field32_any LittleEndian buf 0 4) as (m & Em & _); [lia.. | done |]. change (order_Uint32 LittleEndian) with LE_Uint32 in Em.
  rewrite owp_bind, Em; cbn [owp]. rewrite owp_bind. refine (owp_mono _ _ _ _ _ _ _ (byte_order_ends m)); [|done].
  intros [o f] _. 
  destruct (field16_any o buf 4 6) as (maj & E1); [lia.. | done |]. rewrite owp_bind, E1; cbn [owp].
  destruct (negb _); [done|].
  destruct (field16_any o buf 6 8) as (min & E2); [lia.. | done |]. rewrite owp_bind, E2; cbn [owp].
  destruct (negb _); [done|].
  destruct (field32_any o buf 16 20) as (sn & E3 & _); [lia.. | done |]. rewrite owp_bind, E3; cbn [owp].
  destruct (field32_any o buf 20 24) as (lt & E4 & _); [lia.. | done |]. rewrite owp_bind, E4; cbn [owp].
  rewrite owp_ret. done.
Qed.

(** C27 (safety): whatever the bytes of the input, opening it and reading any
    number of packets neither panics nor runs on, and a packet that is returned
    has the length its header gives, within the snapshot length. *)
Theorem pcap_reader_safe gunzip z n : gunzip_ok gunzip → is_bytes (rest z) →
  owp (NewReader gunzip z)
    (fun r => wp (read_packets n) (fun ps _ => Forall (packet_read (Snaplen r)) ps) (fun _ _ => True) r)
    (fun _ => True).
Proof.
  intros Hg Hz. refine (owp_mono _ _ _ _ _ _ _ (NewReader_ok gunzip z Hg Hz)); [|done].
  intros r Hr. refine (wp_mono _ _ _ _ _ _ _ _ (read_packets_ok n r Hr)); [|done]. by intros ps s [? _].
Qed.

Lemma no_gzip_ok : gunzip_ok no_gzip.
Proof. done. Qed.

Lemma pcap_reader_safe_witness :
  let z := mkStream (file_header BigEndian 1 100 1 ++ [0; 1; 2; 3; 4; 5]) io_EOF in
  owp (NewReader no_gzip z)
    (fun r => wp (read_packets 3) (fun ps _ => Forall (packet_read (Snaplen r)) ps) (fun _ _ => True) r)
    (fun _ => True).
Proof. apply (pcap_reader_safe no_gzip _ 3 no_gzip_ok). vm_compute. repeat constructor; congruence. Defined.

(** ** Reading without copying *)

Definition with_packetBuf (b : bytes) (s : Reader) : Reader :=
  mkReader (r_r s) (r_byteOrder s) (r_nanoSecsFactor s) (r_versionMajor s) (r_versionMinor s)
    (r_snaplen s) (r_linkType s) (r_buf s) b.

(** Two readers that differ at most in their packet buffers. *)
Definition same_but_buffer (s1 s2 : Reader) : Prop := s2 = with_packetBuf (r_packetBuf s2) s1.

Lemma make_bytes_ok n : 0 <= n → make_bytes n = Ok (replicate (Z.to_nat n) 0).
Proof. intros Hn. unfold make_bytes. by destruct (Z.ltb_spec n 0); [lia|]. Qed.

Lemma readPacketHeader_same s b :
  readPacketHeader (with_packetBuf b s) =
    (fst (readPacketHeader s), with_packetBuf b (snd (readPacketHeader s))).
Proof.
  unfold readPacketHeader, read_into, mbind, M_bind, get, lift, set_r_buf, modify, mret, M_ret, throw.
  cbn [with_packetBuf r_r r_buf r_byteOrder r_nanoSecsFactor].
  destruct (ReadFull_partial 16 (r_r s)) as [[got e] r].
  destruct (write_at (r_buf s) 0 got) as [h| | |]; [|done..]. destruct e; [done|].
  cbn [r_buf r_byteOrder r_nanoSecsFactor].
  by repeat match goal with |- context [match ?x with Ok _ => _ | _ => _ end] => destruct x end.
Qed.

Lemma read_same s b n (ci : CaptureInfo) :
  (data ← read n; mret (data, ci)) (with_packetBuf b s) =
    (fst ((data ← read n; mret (data, ci)) s), with_packetBuf b (snd ((data ← read n; mret (data, ci)) s))).
Proof.
  rewrite !bind_eq. unfold read, zoom. cbn [with_packetBuf r_r].
  by destruct (ReadFull n (r_r s)) as [[| | |] r].
Qed.

(** Filling the front of a buffer that is large enough. *)
Lemma fill_front s n (ci : CaptureInfo) : 0 <= n <= len (r_packetBuf s) →
  ∃ b, (_ ← read_into set_packetBuf (r_packetBuf s) n;
        s ← get; data ← lift (slice_to (r_packetBuf s) n); mret (data, ci)) s =
    (fst ((data ← read n; mret (data, ci)) s), with_packetBuf b (snd ((data ← read n; mret (data, ci)) s))).
Proof.
  intros Hn. pose proof (ReadFull_partial_spec n (r_r s) ltac:(lia)) as Hsp.
  unfold read_into, read, zoom, ReadFull, mbind, M_bind, lift, get, set_packetBuf, modify, throw, mret, M_ret.
  destruct (ReadFull_partial n (r_r s)) as [[got e] r]. destruct Hsp as (_ & Hle & Hgot).
  rewrite write_at_ok by lia. change (take (Z.to_nat 0) (r_packetBuf s)) with ([] : bytes). cbn [app].
  destruct e as [e|]; [by eexists|]. cbn [r_packetBuf].
  specialize (Hgot eq_refl). rewrite slice_to_app by done. by eexists.
Qed.

(** The buffer is made large enough first. *)
Lemma buffered_read s b n (ci : CaptureInfo) : 0 <= n →
  ∃ b', (_ ← (if len b <? n then
                let snaplen := if r_snaplen s <? n then n else r_snaplen s in
                b ← lift (make_bytes snaplen); set_packetBuf b
              else mret tt);
         s ← get;
         _ ← lift (slice_to (r_packetBuf s) n);
         _ ← read_into set_packetBuf (r_packetBuf s) n;
         s ← get;
         data ← lift (slice_to (r_packetBuf s) n);
         mret (data, ci)) (with_packetBuf b s) =
    (fst ((data ← read n; mret (data, ci)) s), with_packetBuf b' (snd ((data ← read n; mret (data, ci)) s))).
Proof.
  intros Hn.
  assert (∃ b1, n <= len b1 ∧ (if len b <? n then
            let snaplen := if r_snaplen s <? n then n else r_snaplen s in
            b ← lift (make_bytes snaplen); set_packetBuf b
          else mret tt) (with_packetBuf b s) = (Ok tt, with_packetBuf b1 s)) as (b1 & Hb1 & He).
  { destruct (Z.ltb_spec (len b) n); [|by exists b]. cbv zeta. unfold make_bytes, mbind, M_bind, lift.
    exists (replicate (Z.to_nat (if r_snaplen s <? n then n else r_snaplen s)) 0). rewrite len_replicate.
    destruct (Z.ltb_spec (r_snaplen s) n); (split; [lia|]); by rewrite (proj2 (Z.ltb_ge _ _)) by lia. }
  rewrite bind_eq, He, bind_eq. cbn [get]. rewrite bind_eq. unfold lift at 1.
  cbn [with_packetBuf r_packetBuf]. rewrite slice_to_ok by lia.
  destruct (fill_front (with_packetBuf b1 s) n ci) as (b' & Hb'); [cbn; lia|].
  exists b'. rewrite read_same in Hb'. exact Hb'.
Qed.


(** Reading a packet into the reader's own buffer gives the
    same packet, or the same error, as reading it into a new one, whatever the
    buffer holds, and leaves the reader in the same state but for its buffer;
    so any sequence of calls gives the same packets either way. *)
Theorem ZeroCopy_equivalent s1 s2 : reader_ok s1 → same_but_buffer s1 s2 →
  let '(o1, s1') := ReadPacketData s1 in
  let '(o2, s2') := ZeroCopyReadPacketData s2 in
  o2 = o1 ∧ same_but_buffer s1' s2' ∧ reader_ok s1'.
Proof.
  intros Hok Hs. pose proof (ReadPacketData_ok s1 Hok) as Hok'. pose proof (readPacketHeader_ok s1 Hok) as Hh.
  unfold wp in Hok', Hh. rewrite Hs. generalize (r_packetBuf s2) as b. clear s2 Hs. intros b.
  assert (∃ b', ZeroCopyReadPacketData (with_packetBuf b s1) =
            (fst (ReadPacketData s1), with_packetBuf b' (snd (ReadPacketData s1)))) as (b' & ->).
  { clear Hok'. unfold ReadPacketData, ZeroCopyReadPacketData. rewrite !bind_eq, readPacketHeader_same.
    destruct (readPacketHeader s1) as [[ci|e|c|] s'] eqn:Eh; cbn [fst snd]; [|done || by exists b..].
    destruct Hh as (_ & _ & _ & Hc). rewrite !bind_eq. cbn [get fst snd].
    change (r_snaplen (with_packetBuf b s')) with (r_snaplen s'). rewrite !lift_bind.
    destruct (check_lengths ci (r_snaplen s')) as [[]|e|c|]; [|by exists b..].
    rewrite (make_bytes_ok (CaptureLength ci)) by exact Hc.
    apply (buffered_read s' b (CaptureLength ci) ci Hc). }
  destruct (ReadPacketData s1) as [o s1']. cbn [fst snd]. split; [done|]. split; [reflexivity|].
  destruct o; try done. by destruct Hok' as (_ & ? & _).
Qed.

Lemma ZeroCopy_equivalent_witness :
  let s1 := fresh_reader BigEndian 1 100 1
              (mkStream (packet_bytes BigEndian 1 sample_now (mkCaptureInfo sample_now 2 2 0, [8; 9])) io_EOF) in
  let s2 := with_packetBuf [1; 2; 3] s1 in
  let '(o1, s1') := ReadPacketData s1 in
  let '(o2, s2') := ZeroCopyReadPacketData s2 in
  o2 = o1 ∧ same_but_buffer s1' s2' ∧ reader_ok s1'.
Proof.
  apply (ZeroCopy_equivalent (fresh_reader BigEndian 1 100 1
    (mkStream (packet_bytes BigEndian 1 sample_now (mkCaptureInfo sample_now 2 2 0, [8; 9])) io_EOF))); [|done].
  split; [done|]. vm_compute. repeat constructor; congruence.
Defined.

(** [Resolution] has its cases the wrong way round: a reader of a file in
    nanoseconds reports microseconds. *)
Lemma resolution_swapped o snaplen linktype r :
  Resolution (fresh_reader o 1 snaplen linktype r) = TimestampResolutionMicrosecond ∧
  Resolution (fresh_reader o 1000 snaplen linktype r) = TimestampResolutionNanosecond.
Proof. done. Qed.
