(* ===== verification/Ng.v ===== *)
(** * pcapng files ([pcapgo/pcapng.go], [ngwrite.go], [ngread.go])

    A file is a sequence of blocks: section headers, interface descriptions,
    statistics and packets. The writer writes one section in little-endian order
    through a [bufio.Writer]; the reader accepts both byte orders, several
    sections, and skips the blocks it does not know.

    The scratch buffer of the reader is written before every use and left out;
    the array behind the value of an option is kept, because an option that is
    shorter than its reader expects shows what was in it before. *)

From S2P Require Import Prelude Capture.

Definition ErrNgVersionMismatch : error := errors_New "Unknown pcapng Version in Section Header".
Definition ErrNgLinkTypeMismatch : error :=
  errors_New "Link type of current interface is different from first one".

Definition ngByteOrderMagic : Z := 0x1A2B3C4D.
Definition ngVersionMajor : Z := 1.
Definition ngVersionMinor : Z := 0.

Definition ngBlockTypeInterfaceDescriptor : Z := 1.
Definition ngBlockTypePacket : Z := 2.
Definition ngBlockTypeSimplePacket : Z := 3.
Definition ngBlockTypeInterfaceStatistics : Z := 5.
Definition ngBlockTypeEnhancedPacket : Z := 6.
Definition ngBlockTypeSectionHeader : Z := 0x0A0D0D0A.

Definition ngOptionCodeEndOfOptions : Z := 0.
Definition ngOptionCodeComment : Z := 1.
Definition ngOptionCodeHardware : Z := 2.
Definition ngOptionCodeOS : Z := 3.
Definition ngOptionCodeUserApplication : Z := 4.

Definition ngOptionCodeInterfaceName : Z := 2.
Definition ngOptionCodeInterfaceDescription : Z := 3.
Definition ngOptionCodeInterfaceTimestampResolution : Z := 9.
Definition ngOptionCodeInterfaceFilter : Z := 11.
Definition ngOptionCodeInterfaceOS : Z := 12.
Definition ngOptionCodeInterfaceTimestampOffset : Z := 14.

Definition ngOptionCodeInterfaceStatisticsStartTime : Z := 2.
Definition ngOptionCodeInterfaceStatisticsEndTime : Z := 3.
Definition ngOptionCodeInterfaceStatisticsInterfaceReceived : Z := 4.
Definition ngOptionCodeInterfaceStatisticsInterfaceDropped : Z := 5.

(** ** Data *)

(** [NgResolution] is a [uint8]: the upper bit for powers of two. *)
Definition Binary (r : Z) : bool := Z.land r 0x80 =? 0x80.
Definition NgExponent (r : Z) : Z := Z.land r 0x7f.
Definition ToTimestampResolution (r : Z) : TimestampResolution :=
  mkResolution (if Binary r then 2 else 10) (- NgExponent r).

Definition NgNoValue64 : Z := 2 ^ 64 - 1.

Record NgInterfaceStatistics : Type := mkStatistics {
  LastUpdate : time;
  StartTime : time;
  EndTime : time;
  st_Comment : bytes;
  PacketsReceived : Z;
  PacketsDropped : Z;
}.

(** The zero value, and [ngEmptyStatistics]. *)
Definition zero_statistics : NgInterfaceStatistics :=
  mkStatistics zero_time zero_time zero_time [] 0 0.
Definition ngEmptyStatistics : NgInterfaceStatistics :=
  mkStatistics zero_time zero_time zero_time [] NgNoValue64 NgNoValue64.

Record NgInterface : Type := mkInterface {
  if_Name : bytes;
  if_Comment : bytes;
  if_Description : bytes;
  if_Filter : bytes;
  if_OS : bytes;
  if_LinkType : Z;
  TimestampResolution_ : Z;
  TimestampOffset : Z;
  SnapLength : Z;
  Statistics : NgInterfaceStatistics;
  secondMask : Z;
  scaleUp : Z;
  scaleDown : Z;
}.

Definition zero_interface : NgInterface :=
  mkInterface [] [] [] [] [] 0 0 0 0 zero_statistics 0 0 0.

Definition NgInterface_Resolution (i : NgInterface) : TimestampResolution :=
  ToTimestampResolution (TimestampResolution_ i).

Record NgSectionInfo : Type := mkSectionInfo {
  Hardware : bytes;
  s_OS : bytes;
  Application : bytes;
  s_Comment : bytes;
}.

(** ** Integers of 64 bits *)

Definition is_u64 (v : Z) : Prop := 0 <= v < 18446744073709551616.

Definition le64 (v : Z) : bytes := le32 v ++ le32 (v / 4294967296).
Definition LE_PutUint64 (l : bytes) (off v : Z) : outcome bytes := write_at l off (le64 v).
Definition LE_Uint64 (b : bytes) : outcome Z :=
  lo ← LE_Uint32 b; hi ← slice_from b 4 ≫= LE_Uint32; mret (lo + 4294967296 * hi).
Definition BE_Uint64 (b : bytes) : outcome Z :=
  hi ← BE_Uint32 b; lo ← slice_from b 4 ≫= BE_Uint32; mret (lo + 4294967296 * hi).

(** [int64(x)] of an unsigned [x]. *)
Definition i64 (v : Z) : Z := if v <? 2 ^ 63 then v else v - 2 ^ 64.

(** [t.UnixNano()], for times whose value fits; other values are wrapped. *)
Definition UnixNano (t : time) : Z := i64 (u64 (seconds t * nanosPerSecond + nanoseconds t)).

(** ** Writing *)

(** The value of an option, by its type in the code. *)
Inductive ngValue : Type :=
  | RawBytes (b : bytes)
  | RawString (s : bytes)
  | RawTime (t : time)
  | RawUint64 (v : Z)
  | RawUint32 (v : Z)
  | RawUint8 (v : Z).

(** An option to be written: [prepareNgOptions] fills in the length. *)
Record ngOption : Type := mkNgOption { o_code : Z; o_raw : ngValue; o_length : Z }.

Definition new_option (code : Z) (raw : ngValue) : ngOption := mkNgOption code raw 0.

Definition ngOptionLength (o : ngOption) : Z :=
  match o_raw o with
  | RawBytes b | RawString b => len b
  | RawTime _ | RawUint64 _ => 8
  | RawUint32 _ => 4
  | RawUint8 _ => 1
  end.

(** [(4 - length&3) & 3] *)
Definition padding (length : Z) : Z := Z.land (4 - Z.land length 3) 3.

(** The sum of the sizes, a [uint32]. *)
Fixpoint options_size (options : list ngOption) (ret : Z) : Z :=
  match options with
  | [] => ret
  | o :: options' =>
      let length := ngOptionLength o in
      options_size options' (u32 (ret + u32 (length + padding length + 4)))
  end.

Definition prepareNgOptions (options : list ngOption) : list ngOption * Z :=
  let ret := options_size options 0 in
  (map (fun o => mkNgOption (o_code o) (o_raw o) (u16 (ngOptionLength o))) options,
   if ret >? 0 then u32 (ret + 4) else ret).

(** A [bufio.Writer]: bytes are written to the file by [Flush] at the latest. *)
Class BufferedWriter (W : Type) `{Writer W} := { Flush : M W unit }.

Class BufferedWriterLaws (W : Type) `{WriterLaws W} `{!BufferedWriter W} := {
  flushed : W → bytes;
  Flush_law w : wp Flush (fun _ w' => written w' = written w ∧ flushed w' = written w)
                  (fun _ w' => written w' = written w) w;
}.

Section writer.
Context {W : Type} `{BufferedWriter W}.

Record NgWriter : Type := mkNgWriter {
  nw_w : W;
  nw_SectionInfo : NgSectionInfo;
  nw_intf : Z;
  nw_buf : bytes;
}.

(** [w.w.Write(b)] *)
Definition ng_write (b : bytes) : M NgWriter unit :=
  zoom nw_w (fun x s => mkNgWriter x (nw_SectionInfo s) (nw_intf s) (nw_buf s)) (Write b).

(** An edit of [w.buf]. *)
Definition edit (f : bytes → outcome bytes) : M NgWriter unit :=
  s ← get;
  b ← lift (f (nw_buf s));
  put (mkNgWriter (nw_w s) (nw_SectionInfo s) (nw_intf s) b).

(** [w.w.Write(w.buf[lo:hi])] *)
Definition write_buf (lo hi : Z) : M NgWriter unit :=
  s ← get; b ← lift (slice (nw_buf s) lo hi); ng_write b.

Definition put16 (off v : Z) : M NgWriter unit := edit (fun b => LE_PutUint16 b off v).
Definition put32 (off v : Z) : M NgWriter unit := edit (fun b => LE_PutUint32 b off v).
Definition put64 (off v : Z) : M NgWriter unit := edit (fun b => LE_PutUint64 b off v).

(** [zero[:padding]] of four zeros; [padding] is below four. *)
Definition write_padding (length : Z) : M NgWriter unit :=
  let p := u8 (padding length) in
  if p <? 4 then zeros ← lift (slice_to [0; 0; 0; 0] p); ng_write zeros else mret tt.

Definition writeValue (o : ngOption) : M NgWriter unit :=
  match o_raw o with
  | RawBytes val | RawString val => _ ← ng_write val; write_padding (o_length o)
  | RawTime val =>
      let ts := UnixNano val in
      _ ← put32 0 (u32 (Z.shiftr ts 32));
      _ ← put32 4 (u32 ts);
      write_buf 0 8
  | RawUint64 val => _ ← put64 0 val; write_buf 0 8
  | RawUint32 val => _ ← put32 0 val; write_buf 0 4
  | RawUint8 val => _ ← put32 0 0; _ ← edit (fun b => set_index b 0 val); write_buf 0 4
  end.

Fixpoint writeOptions_loop (options : list ngOption) : M NgWriter unit :=
  match options with
  | [] => mret tt
  | o :: options' =>
      _ ← put16 0 (o_code o);
      _ ← put16 2 (o_length o);
      _ ← write_buf 0 4;
      _ ← writeValue o;
      writeOptions_loop options'
  end.

Definition writeOptions (options : list ngOption) : M NgWriter unit :=
  if len options =? 0 then mret tt
  else
    _ ← writeOptions_loop options;
    _ ← put16 0 ngOptionCodeEndOfOptions;
    _ ← put16 2 0;
    write_buf 0 4.

(** An option for a string that is not empty. *)
Definition string_option (code : Z) (s : bytes) : list ngOption :=
  if bool_decide (s = []) then [] else [new_option code (RawString s)].

Definition section_options (info : NgSectionInfo) : list ngOption :=
  string_option ngOptionCodeUserApplication (Application info) ++
  string_option ngOptionCodeComment (s_Comment info) ++
  string_option ngOptionCodeHardware (Hardware info) ++
  string_option ngOptionCodeOS (s_OS info).

Definition writeSectionHeader : M NgWriter unit :=
  s ← get;
  let '(options, size) := prepareNgOptions (section_options (nw_SectionInfo s)) in
  let length := u32 (size + 24 + 4) in
  _ ← put32 0 ngBlockTypeSectionHeader;
  _ ← put32 4 length;
  _ ← put32 8 ngByteOrderMagic;
  _ ← put16 12 ngVersionMajor;
  _ ← put16 14 ngVersionMinor;
  _ ← put64 16 0xFFFFFFFFFFFFFFFF;
  _ ← write_buf 0 24;
  _ ← writeOptions options;
  _ ← put32 0 length;
  write_buf 0 4.

Definition interface_options (intf : NgInterface) : list ngOption :=
  string_option ngOptionCodeInterfaceName (if_Name intf) ++
  string_option ngOptionCodeComment (if_Comment intf) ++
  string_option ngOptionCodeInterfaceDescription (if_Description intf) ++
  (if bool_decide (if_Filter intf = []) then []
   else [new_option ngOptionCodeInterfaceFilter (RawBytes (0 :: if_Filter intf))]) ++
  string_option ngOptionCodeInterfaceOS (if_OS intf) ++
  (if negb (TimestampOffset intf =? 0)
   then [new_option ngOptionCodeInterfaceTimestampOffset (RawUint64 (TimestampOffset intf))] else []) ++
  [new_option ngOptionCodeInterfaceTimestampResolution (RawUint8 9)].

Definition AddInterface (intf : NgInterface) : M NgWriter Z :=
  s ← get;
  let id := nw_intf s in
  _ ← put (mkNgWriter (nw_w s) (nw_SectionInfo s) (u32 (nw_intf s + 1)) (nw_buf s));
  let '(options, size) := prepareNgOptions (interface_options intf) in
  let length := u32 (size + 16 + 4) in
  _ ← put32 0 ngBlockTypeInterfaceDescriptor;
  _ ← put32 4 length;
  _ ← put16 8 (if_LinkType intf);
  _ ← put16 10 0;
  _ ← put32 12 (SnapLength intf);
  _ ← write_buf 0 16;
  _ ← writeOptions options;
  _ ← put32 0 length;
  _ ← write_buf 0 4;
  mret id.

Definition NewNgWriterInterface (w : W) (intf : NgInterface) (info : NgSectionInfo) : outcome NgWriter :=
  let '(o, s) := (_ ← writeSectionHeader; AddInterface intf) (mkNgWriter w info 0 (replicate 28 0)) in
  _ ← o; mret s.

(** The defaults name the platform, [runtime.GOOS] and [runtime.GOARCH]. *)
Definition DefaultNgInterface (GOOS : bytes) : NgInterface :=
  mkInterface [105; 110; 116; 102; 48] [] [] [] GOOS 0 9 0 0 zero_statistics 0 0 0.
Definition DefaultNgWriterOptions (GOOS GOARCH : bytes) : NgSectionInfo :=
  mkSectionInfo GOARCH GOOS [103; 111; 112; 97; 99; 107; 101; 116] [].

Definition NewNgWriter (GOOS GOARCH : bytes) (w : W) (linkType : Z) : outcome NgWriter :=
  let d := DefaultNgInterface GOOS in
  let intf := mkInterface (if_Name d) (if_Comment d) (if_Description d) (if_Filter d) (if_OS d) linkType
                (TimestampResolution_ d) (TimestampOffset d) (SnapLength d) (Statistics d) (secondMask d) (scaleUp d) (scaleDown d) in
  NewNgWriterInterface w intf (DefaultNgWriterOptions GOOS GOARCH).

Definition statistics_options (stats : NgInterfaceStatistics) : list ngOption :=
  (if IsZero (StartTime stats) then []
   else [new_option ngOptionCodeInterfaceStatisticsStartTime (RawTime (StartTime stats))]) ++
  (if IsZero (EndTime stats) then []
   else [new_option ngOptionCodeInterfaceStatisticsEndTime (RawTime (EndTime stats))]) ++
  (if negb (PacketsDropped stats =? NgNoValue64)
   then [new_option ngOptionCodeInterfaceStatisticsInterfaceDropped (RawUint64 (PacketsDropped stats))] else []) ++
  (if negb (PacketsReceived stats =? NgNoValue64)
   then [new_option ngOptionCodeInterfaceStatisticsInterfaceReceived (RawUint64 (PacketsReceived stats))] else []).

Definition missing_interface (i n : Z) : error :=
  Errorf "Can't send statistics for non existent interface %d; have only %d interfaces" [i; n].

Definition WriteInterfaceStats (intf : Z) (stats : NgInterfaceStatistics) : M NgWriter unit :=
  s ← get;
  if (intf >=? nw_intf s) || (intf <? 0) then throw (missing_interface intf (nw_intf s))
  else
    let '(options, size) := prepareNgOptions (statistics_options stats) in
    let length := u32 (size + 24) in
    let ts := if IsZero (LastUpdate stats) then 0 else UnixNano (LastUpdate stats) in
    _ ← put32 0 ngBlockTypeInterfaceStatistics;
    _ ← put32 4 length;
    _ ← put32 8 (u32 intf);
    _ ← put32 12 (u32 (Z.shiftr ts 32));
    _ ← put32 16 (u32 ts);
    _ ← write_buf 0 20;
    _ ← writeOptions options;
    _ ← put32 0 length;
    write_buf 0 4.

Definition WritePacket (ci : CaptureInfo) (data : bytes) : M NgWriter unit :=
  s ← get;
  if (InterfaceIndex ci >=? nw_intf s) || (InterfaceIndex ci <? 0) then
    throw (missing_interface (InterfaceIndex ci) (nw_intf s))
  else if negb (CaptureLength ci =? len data) then
    throw (Errorf "capture length %d does not match data length %d" [CaptureLength ci; len data])
  else if CaptureLength ci >? Length ci then
    throw (Errorf "invalid capture info %+v:  capture length > length" [CaptureLength ci; Length ci])
  else
    let length := u32 (u32 (len data) + 32) in
    let p := padding length in
    let length := u32 (length + p) in
    let ts := UnixNano (Timestamp ci) in
    _ ← put32 0 ngBlockTypeEnhancedPacket;
    _ ← put32 4 length;
    _ ← put32 8 (u32 (InterfaceIndex ci));
    _ ← put32 12 (u32 (Z.shiftr ts 32));
    _ ← put32 16 (u32 ts);
    _ ← put32 20 (u32 (CaptureLength ci));
    _ ← put32 24 (u32 (Length ci));
    _ ← write_buf 0 28;
    _ ← ng_write data;
    _ ← put32 0 0;
    write_buf (4 - p) 8.

Definition NgFlush : M NgWriter unit :=
  zoom nw_w (fun x s => mkNgWriter x (nw_SectionInfo s) (nw_intf s) (nw_buf s)) Flush.

(** What can follow in a file after its first interface. *)
Inductive ng_item : Type :=
  | ItemInterface (intf : NgInterface)
  | ItemStatistics (intf : Z) (stats : NgInterfaceStatistics)
  | ItemPacket (ci : CaptureInfo) (data : bytes).

Definition write_item (i : ng_item) : M NgWriter unit :=
  match i with
  | ItemInterface intf => _ ← AddInterface intf; mret tt
  | ItemStatistics intf stats => WriteInterfaceStats intf stats
  | ItemPacket ci data => WritePacket ci data
  end.

Fixpoint write_items (l : list ng_item) : M NgWriter unit :=
  match l with
  | [] => mret tt
  | i :: l' => _ ← write_item i; write_items l'
  end.
End writer.
Arguments NgWriter W : clear implicits.
