(* ===== verification/NgWrite.v ===== *)
(** * The bytes of a pcapng file ([pcapgo/ngwrite.go])

    The layout of the blocks, in either byte order, and the proof that the writer
    puts exactly these bytes, in little-endian order, into its file. *)

From S2P Require Import Prelude Capture Ng.

(** ** The layout *)

Section layout.
Context (big : bool).

Definition enc16 (v : Z) : bytes := if big then be16 v else le16 v.
Definition enc32 (v : Z) : bytes := if big then be32 v else le32 v.
Definition enc64 (v : Z) : bytes := if big then be32 (v / 4294967296) ++ be32 v else le64 v.

(** The two halves of a time, the upper one first in either order. *)
Definition enc_time (ts : Z) : bytes := enc32 (ts / 4294967296) ++ enc32 ts.

(** An option: its code and its value. *)
Definition option_bytes (o : Z * bytes) : bytes :=
  enc16 o.1 ++ enc16 (len o.2) ++ o.2 ++ replicate (Z.to_nat (padding (len o.2))) 0.

Definition options_bytes (l : list (Z * bytes)) : bytes :=
  if bool_decide (l = []) then [] else concat (map option_bytes l) ++ enc16 0 ++ enc16 0.

Definition block (typ : Z) (body : bytes) : bytes :=
  enc32 typ ++ enc32 (len body + 12) ++ body ++ enc32 (len body + 12).

Definition value_bytes (v : ngValue) : bytes :=
  match v with
  | RawBytes b | RawString b => b
  | RawTime t => enc_time (UnixNano t)
  | RawUint64 v => enc64 v
  | RawUint32 v => enc32 v
  | RawUint8 v => [v]
  end.

Definition encoded (o : ngOption) : Z * bytes := (o_code o, value_bytes (o_raw o)).

Definition section_body (info : NgSectionInfo) : bytes :=
  enc32 ngByteOrderMagic ++ enc16 ngVersionMajor ++ enc16 ngVersionMinor ++ enc64 (2 ^ 64 - 1) ++
  options_bytes (map encoded (section_options info)).

Definition interface_body (intf : NgInterface) : bytes :=
  enc16 (if_LinkType intf) ++ enc16 0 ++ enc32 (SnapLength intf) ++
  options_bytes (map encoded (interface_options intf)).

(** A missing time of the last update is written as zero. *)
Definition update_nanos (stats : NgInterfaceStatistics) : Z :=
  if IsZero (LastUpdate stats) then 0 else UnixNano (LastUpdate stats).

Definition statistics_body (id : Z) (stats : NgInterfaceStatistics) : bytes :=
  enc32 id ++ enc_time (update_nanos stats) ++ options_bytes (map encoded (statistics_options stats)).

Definition packet_body (ci : CaptureInfo) (data : bytes) : bytes :=
  enc32 (InterfaceIndex ci) ++ enc_time (UnixNano (Timestamp ci)) ++ enc32 (len data) ++ enc32 (Length ci) ++
  data ++ replicate (Z.to_nat (padding (len data))) 0.

Definition item_bytes (i : ng_item) : bytes :=
  match i with
  | ItemInterface intf => block ngBlockTypeInterfaceDescriptor (interface_body intf)
  | ItemStatistics id stats => block ngBlockTypeInterfaceStatistics (statistics_body id stats)
  | ItemPacket ci data => block ngBlockTypeEnhancedPacket (packet_body ci data)
  end.

Definition file_bytes (info : NgSectionInfo) (items : list ng_item) : bytes :=
  block ngBlockTypeSectionHeader (section_body info) ++ concat (map item_bytes items).
End layout.

(** ** What the writer is asked for *)

(** A value that leaves room for its padding in a length of 16 bits. *)
Definition short (b : bytes) : Prop := len b <= 65532.

Definition info_ok (info : NgSectionInfo) : Prop :=
  short (Hardware info) ∧ short (s_OS info) ∧ short (Application info) ∧ short (s_Comment info).

Definition intf_ok (i : NgInterface) : Prop :=
  short (if_Name i) ∧ short (if_Comment i) ∧ short (if_Description i) ∧ len (if_Filter i) <= 65531 ∧
  short (if_OS i) ∧ is_u8 (if_LinkType i) ∧ is_u64 (TimestampOffset i) ∧ is_u32 (SnapLength i).

(** A time whose nanoseconds since the epoch are a number of 63 bits. *)
Definition time_fits (t : time) : Prop :=
  time_ok t ∧ 0 <= seconds t * nanosPerSecond + nanoseconds t < 2 ^ 63.

Definition time_fits_or_zero (t : time) : Prop := t = zero_time ∨ time_fits t.

Definition stats_ok (s : NgInterfaceStatistics) : Prop :=
  time_fits_or_zero (LastUpdate s) ∧ time_fits_or_zero (StartTime s) ∧ time_fits_or_zero (EndTime s) ∧
  is_u64 (PacketsReceived s) ∧ is_u64 (PacketsDropped s).

(** An item, after [n] interfaces. *)
Definition item_ok (n : Z) (i : ng_item) : Prop :=
  match i with
  | ItemInterface intf => intf_ok intf ∧ n + 1 < 4294967296
  | ItemStatistics id stats => 0 <= id < n ∧ stats_ok stats
  | ItemPacket ci data => 0 <= InterfaceIndex ci < n ∧ CaptureLength ci = len data ∧
      len data <= Length ci ∧ len data + 35 < 4294967296 ∧ is_u32 (Length ci) ∧ time_fits (Timestamp ci)
  end.

Definition interfaces_after (n : Z) (i : ng_item) : Z :=
  match i with ItemInterface _ => n + 1 | _ => n end.

Fixpoint items_ok (n : Z) (l : list ng_item) : Prop :=
  match l with
  | [] => True
  | i :: l' => item_ok n i ∧ items_ok (interfaces_after n i) l'
  end.

(** ** Padding and sizes *)

Lemma padding_spec n : padding n = (- n) mod 4.
Proof.
  unfold padding. change 3 with (Z.ones 2). rewrite !Z.land_ones by lia. change (2 ^ 2) with 4. zdiv.
Qed.
Lemma padding_range n : 0 <= padding n < 4.
Proof. rewrite padding_spec. apply Z.mod_pos_bound. lia. Qed.
Lemma padding_mult n : (n + padding n) mod 4 = 0.
Proof. rewrite padding_spec. zdiv. Qed.

Lemma len_enc16 big v : len (enc16 big v) = 2.
Proof. by destruct big. Qed.
Lemma len_enc32 big v : len (enc32 big v) = 4.
Proof. by destruct big. Qed.
Lemma len_enc64 big v : len (enc64 big v) = 8.
Proof. by destruct big. Qed.
Lemma len_enc_time big v : len (enc_time big v) = 8.
Proof. by destruct big. Qed.
#[export] Hint Rewrite len_enc16 len_enc32 len_enc64 len_enc_time : lens.

Lemma len_option_bytes big o : len (option_bytes big o) = len o.2 + padding (len o.2) + 4.
Proof. unfold option_bytes. pose proof (padding_range (len o.2)). lens. Qed.

Lemma len_value_bytes big v o : o_raw o = v → len (value_bytes big v) = ngOptionLength o.
Proof. unfold ngOptionLength. intros ->. by destruct v, big. Qed.

(** An option to be written: its value fits, and its integers are in range. *)
Definition option_ok (o : ngOption) : Prop :=
  ngOptionLength o <= 65532 ∧ match o_raw o with RawUint8 v => is_u8 v | _ => True end.

Lemma options_size_app opts : ∀ ret, 0 <= ret →
  ret + len (concat (map (fun o => option_bytes false (encoded false o)) opts)) < 4294967296 →
  options_size opts ret = ret + len (concat (map (fun o => option_bytes false (encoded false o)) opts)).
Proof.
  induction opts as [|o opts IH]; intros ret Hr Hlt; cbn [options_size map concat] in *; [rewrite len_nil; lia|].
  rewrite len_app, len_option_bytes in *. cbn [encoded snd] in *. rewrite (len_value_bytes false _ o eq_refl) in *.
  pose proof (padding_range (ngOptionLength o)). pose proof (len_nonneg (concat (map (fun o => option_bytes false (encoded false o)) opts))).
  assert (0 <= ngOptionLength o) by (unfold ngOptionLength; destruct (o_raw o); try lia; apply len_nonneg).
  cbv zeta. rewrite (u32_small (ngOptionLength o + _ + 4)) by (unfold is_u32; lia).
  rewrite u32_small by (unfold is_u32; lia). rewrite IH by lia. lia.
Qed.

Lemma concat_length_bound (opts : list ngOption) : Forall option_ok opts →
  len (concat (map (fun o => option_bytes false (encoded false o)) opts)) <= 65540 * len opts.
Proof.
  induction 1 as [|o opts [Ho _] _ IH]; cbn [map concat]; [done|].
  rewrite len_app, len_option_bytes, len_cons. cbn [encoded snd]. rewrite (len_value_bytes false _ o eq_refl).
  pose proof (padding_range (ngOptionLength o)). lia.
Qed.

(** The length that [prepareNgOptions] gives, and the options with theirs. *)
Lemma prepareNgOptions_size opts : Forall option_ok opts → len opts <= 10 →
  prepareNgOptions opts =
    (map (fun o => mkNgOption (o_code o) (o_raw o) (ngOptionLength o)) opts,
     len (options_bytes false (map (encoded false) opts))).
Proof.
  intros HF Hl. pose proof (concat_length_bound opts HF) as Hb. unfold prepareNgOptions.
  rewrite options_size_app by lia. f_equal.
  { apply map_ext_in. intros o Ho. rewrite u16_small; [done|]. rewrite <- list_elem_of_In in Ho.
    destruct (proj1 (Forall_forall _ _) HF o Ho) as [? _].
    assert (0 <= ngOptionLength o) by (unfold ngOptionLength; destruct (o_raw o); try lia; apply len_nonneg).
    unfold is_u16. lia. }
  unfold options_bytes.
  destruct opts as [|o opts]; [by rewrite bool_decide_eq_true_2 by done|].
  rewrite bool_decide_eq_false_2 by done.
  rewrite map_map, Z.add_0_l.
  set (n := len (concat _)) in *. assert (4 <= n).
  { unfold n. cbn [map concat]. rewrite len_app, len_option_bytes. pose proof (padding_range (len (encoded false o).2)).
    pose proof (len_nonneg (encoded false o).2). pose proof (len_nonneg (concat (map (fun o => option_bytes false (encoded false o)) opts))). lia. }
  destruct (Z.gtb_spec n 0); [|lia]. rewrite u32_small by (unfold is_u32; lia). rewrite len_app. fold n. done.
Qed.

(** ** Emitting bytes *)

Section emitting.
Context {W : Type} `{!Writer W} `{!WriterLaws W} `{!BufferedWriter W} (info : NgSectionInfo).

(** With [p] at the front of its buffer and [n] interfaces, the writer appends [bs],
    or a part of it when it fails, and has [n'] interfaces then. *)
Definition emits {A} (p bs : bytes) (n n' : Z) (m : M (NgWriter W) A) : Prop := ∀ s q,
  nw_buf s = p ++ q → length (nw_buf s) = 28%nat → nw_intf s = n → nw_SectionInfo s = info →
  wp m
    (fun _ s' => written (nw_w s') = written (nw_w s) ++ bs ∧ length (nw_buf s') = 28%nat ∧
       nw_intf s' = n' ∧ nw_SectionInfo s' = info)
    (fun _ s' => ∃ k, written (nw_w s') = written (nw_w s) ++ take k bs) s.

Lemma emits_front {A} p bs n n' (m : M (NgWriter W) A) : emits [] bs n n' m → emits p bs n n' m.
Proof. intros H s q Hb. by apply (H s (p ++ q)). Qed.

Lemma emits_nil {A} p n (a : A) : emits p [] n n (mret a : M (NgWriter W) A).
Proof. intros s q Hb Hl Hn Hi. rewrite wp_ret, app_nil_r. done. Qed.

Lemma emits_get {A} p bs n n' (k : NgWriter W → M (NgWriter W) A) :
  (∀ s, nw_intf s = n → nw_SectionInfo s = info → emits p bs n n' (k s)) → emits p bs n n' (get ≫= k).
Proof. intros Hk s q Hb Hl Hn Hi. rewrite wp_bind, wp_get. by apply (Hk s Hn Hi s q). Qed.

Lemma emits_bind {A B} p b1 b2 n1 n2 n3 (m : M (NgWriter W) A) (k : A → M (NgWriter W) B) :
  emits p b1 n1 n2 m → (∀ a, emits [] b2 n2 n3 (k a)) → emits p (b1 ++ b2) n1 n3 (m ≫= k).
Proof.
  intros H1 H2 s q Hb Hl Hn Hi. rewrite wp_bind. refine (wp_mono _ _ _ _ _ _ _ _ (H1 s q Hb Hl Hn Hi)).
  - intros a s' (Hw & Hl' & Hn' & Hi'). refine (wp_mono _ _ _ _ _ _ _ _ (H2 a s' (nw_buf s') eq_refl Hl' Hn' Hi')).
    + intros b s2 (Hw2 & ? & ? & ?). rewrite Hw2, Hw, app_assoc. split_and!; congruence.
    + intros e s2 [j Hj]. exists (length b1 + j)%nat. by rewrite Hj, Hw, take_app_add, app_assoc.
  - intros e s' [j Hj]. exists (Nat.min j (length b1)). rewrite Hj. f_equal.
    rewrite take_app_le by lia. by rewrite <- take_take, (take_ge b1 (length b1)).
Qed.

(** An edit of the buffer: what is at its front then. *)
Lemma emits_edit {A} (f : bytes → outcome bytes) p p' bs n n' (k : M (NgWriter W) A) :
  (∀ q, length (p ++ q) = 28%nat → ∃ q', f (p ++ q) = Ok (p' ++ q') ∧ length (p' ++ q') = 28%nat) →
  emits p' bs n n' k → emits p bs n n' (_ ← edit f; k).
Proof.
  intros Hf Hk s q Hb Hl Hn Hi. rewrite wp_bind. unfold edit. rewrite wp_bind, wp_get, wp_bind, wp_lift.
  rewrite Hb in Hl |- *. destruct (Hf q Hl) as (q' & -> & Hl'). cbn [owp]. rewrite wp_put.
  apply (Hk (mkNgWriter (nw_w s) (nw_SectionInfo s) (nw_intf s) (p' ++ q')) q'); done.
Qed.

(** Writing past the front. *)
Lemma extends (p v q : bytes) : len p + len v <= 28 → length (p ++ q) = 28%nat →
  ∃ q', write_at (p ++ q) (len p) v = Ok ((p ++ v) ++ q') ∧ length ((p ++ v) ++ q') = 28%nat.
Proof.
  intros Hlen Hl. destruct (cut_at q (len v)) as (q1 & q2 & -> & H1 & H2).
  { rewrite length_app in Hl. pose proof (len_nonneg v). unfold len in *. lia. }
  exists q2. rewrite (write_at_app p q1 q2 v) by done. rewrite <- app_assoc. split; [done|].
  rewrite !length_app in *. unfold len in *. lia.
Qed.

(** Writing over a part of the front. *)
Lemma replaces (p1 old p2 v q : bytes) : len old = len v → length ((p1 ++ old ++ p2) ++ q) = 28%nat →
  ∃ q', write_at ((p1 ++ old ++ p2) ++ q) (len p1) v = Ok ((p1 ++ v ++ p2) ++ q') ∧
        length ((p1 ++ v ++ p2) ++ q') = 28%nat.
Proof.
  intros Hv Hl. exists q. rewrite <- !app_assoc in *. rewrite (write_at_app p1 old (p2 ++ q) v) by done.
  split; [done|]. rewrite !length_app in *. unfold len in *. lia.
Qed.

Lemma emits_put16 {A} p v off bs n n' (k : M (NgWriter W) A) : off = len p → off + 2 <= 28 →
  emits (p ++ le16 v) bs n n' k → emits p bs n n' (_ ← put16 off v; k).
Proof. intros -> ? Hk. eapply emits_edit; [|exact Hk]. intros q. apply (extends p (le16 v)). rewrite len_le16. lia. Qed.
Lemma emits_put32 {A} p v off bs n n' (k : M (NgWriter W) A) : off = len p → off + 4 <= 28 →
  emits (p ++ le32 v) bs n n' k → emits p bs n n' (_ ← put32 off v; k).
Proof. intros -> ? Hk. eapply emits_edit; [|exact Hk]. intros q. apply (extends p (le32 v)). rewrite len_le32. lia. Qed.
Lemma emits_put64 {A} p v off bs n n' (k : M (NgWriter W) A) : off = len p → off + 8 <= 28 →
  emits (p ++ le64 v) bs n n' k → emits p bs n n' (_ ← put64 off v; k).
Proof.
  intros -> ? Hk. eapply emits_edit; [|exact Hk]. intros q. apply (extends p (le64 v)).
  change (len (le64 v)) with 8. lia.
Qed.

Lemma emits_write {A} p b bs n n' (k : M (NgWriter W) A) : emits p bs n n' k →
  emits p (b ++ bs) n n' (_ ← ng_write b; k).
Proof.
  intros Hk s q Hb Hl Hn Hi. rewrite wp_bind. pose proof (Write_law b (nw_w s)) as Hw. unfold wp at 1, ng_write, zoom.
  unfold wp in Hw. destruct (Write b (nw_w s)) as [[[]|e|c|] w]; try done.
  - refine (wp_mono _ _ _ _ _ _ _ _ (Hk (mkNgWriter w (nw_SectionInfo s) (nw_intf s) (nw_buf s)) q Hb Hl Hn Hi)); cbn.
    + intros a s' (Hw2 & ?). rewrite Hw2, Hw, app_assoc. done.
    + intros e s' [j Hj]. exists (length b + j)%nat. by rewrite Hj, Hw, take_app_add, app_assoc.
  - destruct Hw as [j Hj]. exists (Nat.min j (length b)). cbn. rewrite Hj. f_equal.
    rewrite take_app_le by lia. by rewrite <- take_take, (take_ge b (length b)).
Qed.

Lemma slice_all (p : bytes) n : n = len p → slice p 0 n = Ok p.
Proof. intros ->. rewrite <- (app_nil_r p) at 1. apply (slice_app [] p []); [done | by rewrite Z.add_0_l]. Qed.

Lemma write_buf_eq p q (s : NgWriter W) lo hi b : nw_buf s = p ++ q → hi <= len p → slice p lo hi = Ok b →
  (slice (nw_buf s) lo hi) = Ok b.
Proof.
  intros -> Hh. unfold slice. destruct (_ || _) eqn:E; [done|]. apply orb_false_iff in E as [E1%Z.ltb_ge E2%Z.ltb_ge].
  rewrite !slice_to_ok by (rewrite ?len_app; pose proof (len_nonneg q); lia).
  rewrite take_app_le by (unfold len in Hh; lia). done.
Qed.

Lemma emits_write_buf {A} p b lo hi bs n n' (k : M (NgWriter W) A) : hi <= len p → slice p lo hi = Ok b →
  emits p bs n n' k → emits p (b ++ bs) n n' (_ ← write_buf lo hi; k).
Proof.
  intros Hh Hs Hk s q Hb Hl Hn Hi. pose proof (write_buf_eq p q s lo hi b Hb Hh Hs) as E.
  pose proof (emits_write p b bs n n' k Hk s q Hb Hl Hn Hi) as Hw. unfold wp in *.
  rewrite bind_eq in *. unfold write_buf. rewrite bind_eq. cbn [get]. by rewrite E, lift_bind.
Qed.

(** ** The operations *)

Lemma padding_eq n : write_padding n = ng_write (W := W) (replicate (Z.to_nat (padding n)) 0).
Proof.
  unfold write_padding. pose proof (padding_range n) as Hp. rewrite u8_small by (unfold is_u8; lia).
  destruct (Z.ltb_spec (padding n) 4); [|lia].
  assert (∀ k, 0 <= k < 4 → slice_to [0; 0; 0; 0] k = Ok (replicate (Z.to_nat k) 0)) as Hz.
  { intros k Hk. assert (k = 0 ∨ k = 1 ∨ k = 2 ∨ k = 3) as [-> | [-> | [-> | ->]]] by lia; done. }
  by rewrite Hz by lia.
Qed.

Lemma emits_last {A} p bs n n' (m : M (NgWriter W) A) : emits p (bs ++ []) n n' m → emits p bs n n' m.
Proof. by rewrite app_nil_r. Qed.

(** A last call, with nothing after it. *)
Lemma emits_tail p bs n n' (m : M (NgWriter W) unit) : emits p bs n n' (_ ← m; mret tt) → emits p bs n n' m.
Proof.
  intros Hm s q Hb Hl Hn Hi. specialize (Hm s q Hb Hl Hn Hi). rewrite wp_bind in Hm. exact Hm.
Qed.

Lemma time_halves ts : le32 (u32 (Z.shiftr ts 32)) ++ le32 (u32 ts) = enc_time false ts.
Proof. unfold enc_time, enc32. by rewrite !le32_u32, Z.shiftr_div_pow2 by lia. Qed.

Lemma emits_writeValue o n : option_ok o →
  emits [] (value_bytes false (o_raw o) ++ replicate (Z.to_nat (padding (ngOptionLength o))) 0) n n
    (writeValue (mkNgOption (o_code o) (o_raw o) (ngOptionLength o))).
Proof.
  intros [_ Ho]. unfold writeValue, ngOptionLength. cbn [o_raw o_length]. destruct (o_raw o) as [b|b|t|v|v|v]; cbn [value_bytes].
  - rewrite padding_eq. apply emits_write, emits_tail, emits_last, emits_write, emits_nil.
  - rewrite padding_eq. apply emits_write, emits_tail, emits_last, emits_write, emits_nil.
  - apply emits_put32; [done | done |]. apply emits_put32; [done | done |]. rewrite app_nil_l, time_halves.
    apply emits_tail, emits_write_buf; [done | done | apply emits_nil].
  - apply emits_put64; [done | done |]. apply emits_tail, emits_write_buf; [done | done | apply emits_nil].
  - apply emits_put32; [done | done |]. apply emits_tail, emits_write_buf; [done | done | apply emits_nil].
  - apply emits_put32; [done | done |]. apply (emits_edit _ _ [v; 0; 0; 0]).
    { intros q. apply (replaces [] [0] [0; 0; 0] [v] q). done. }
    apply emits_tail, emits_last, (emits_write_buf _ [v; 0; 0; 0]); [done | done | apply emits_nil].
Qed.

Lemma emits_writeOptions_loop opts n bs (k : M (NgWriter W) unit) : Forall option_ok opts → emits [] bs n n k →
  emits [] (concat (map (fun o => option_bytes false (encoded false o)) opts) ++ bs) n n
    (_ ← writeOptions_loop (map (fun o => mkNgOption (o_code o) (o_raw o) (ngOptionLength o)) opts); k).
Proof.
  intros HF Hk. eapply emits_bind; [|done]. induction HF as [|o opts Ho _ IH]; cbn [map concat writeOptions_loop].
  { apply emits_nil. }
  unfold option_bytes at 1. cbn [encoded fst snd]. rewrite (len_value_bytes false _ o eq_refl), <- !app_assoc.
  apply emits_put16; [done | done |]. apply emits_put16; [done | done |].
  rewrite app_assoc. apply (emits_write_buf _ (le16 (o_code o) ++ le16 (ngOptionLength o))); [done | done |].
  apply emits_front. rewrite app_assoc. eapply emits_bind; [by apply emits_writeValue | done].
Qed.

Lemma emits_writeOptions {A} opts n bs (k : M (NgWriter W) A) : Forall option_ok opts → emits [] bs n n k →
  emits [] (options_bytes false (map (encoded false) opts) ++ bs) n n
    (_ ← writeOptions (map (fun o => mkNgOption (o_code o) (o_raw o) (ngOptionLength o)) opts); k).
Proof.
  intros HF Hk. unfold writeOptions, options_bytes. destruct opts as [|o opts].
  { rewrite bool_decide_eq_true_2 by done. change (len _ =? 0) with true. cbv iota.
    eapply emits_bind; [apply emits_nil | done]. }
  rewrite bool_decide_eq_false_2 by done. change (len _ =? 0) with false. cbv iota.
  eapply emits_bind; [|done]. rewrite map_map. apply emits_writeOptions_loop; [done|].
  apply emits_put16; [done | done |]. apply emits_put16; [done | done |].
  apply emits_tail, emits_last, (emits_write_buf _ (le16 0 ++ le16 0)); [done | done | apply emits_nil].
Qed.

Lemma string_option_ok code b : short b → Forall option_ok (string_option code b).
Proof. intros Hb. unfold string_option. case_bool_decide; [constructor|]. by constructor. Qed.
Lemma string_option_len code b : len (string_option code b) <= 1.
Proof. unfold string_option. by case_bool_decide. Qed.

Lemma section_options_ok : info_ok info → Forall option_ok (section_options info) ∧ len (section_options info) <= 10.
Proof.
  intros (? & ? & ? & ?). unfold section_options. rewrite !Forall_app, !len_app.
  pose proof string_option_len as Hl. split; [split_and!; by apply string_option_ok|].
  pose proof (Hl ngOptionCodeUserApplication (Application info)). pose proof (Hl ngOptionCodeComment (s_Comment info)).
  pose proof (Hl ngOptionCodeHardware (Hardware info)). pose proof (Hl ngOptionCodeOS (s_OS info)). lia.
Qed.

Lemma interface_options_ok i : intf_ok i → Forall option_ok (interface_options i) ∧ len (interface_options i) <= 10.
Proof.
  intros (? & ? & ? & ? & ? & ? & ? & ?). unfold interface_options. rewrite !Forall_app, !len_app.
  pose proof string_option_len as Hl. split.
  - split_and!; try by apply string_option_ok.
    + case_bool_decide; constructor; [|constructor]. split; [|done]. cbn -[len]. rewrite len_cons. lia.
    + destruct (negb _); constructor; [|constructor]. by split.
    + by constructor.
  - pose proof (Hl ngOptionCodeInterfaceName (if_Name i)). pose proof (Hl ngOptionCodeComment (if_Comment i)).
    pose proof (Hl ngOptionCodeInterfaceDescription (if_Description i)). pose proof (Hl ngOptionCodeInterfaceOS (if_OS i)).
    match goal with |- context [len (if ?c then [] else [?x])] => assert (len (if c then [] else [x]) <= 1) by (by destruct c) end.
    match goal with |- context [len (if ?c then [?x] else [])] => assert (len (if c then [x] else []) <= 1) by (by destruct c) end.
    change (len [new_option ngOptionCodeInterfaceTimestampResolution (RawUint8 9)]) with 1. lia.
Qed.

Lemma statistics_options_ok st : Forall option_ok (statistics_options st) ∧ len (statistics_options st) <= 10.
Proof.
  unfold statistics_options. destruct (IsZero (StartTime st)), (IsZero (EndTime st)), (negb _), (negb _);
    (split; [repeat (apply Forall_cons_2; [by split|]); apply Forall_nil_2 | done]).
Qed.

(** The options are at most some hundred thousand bytes. *)
Lemma options_bytes_bound opts : Forall option_ok opts → len opts <= 10 →
  0 <= len (options_bytes false (map (encoded false) opts)) <= 655404.
Proof.
  intros HF Hl. pose proof (concat_length_bound opts HF) as Hb. unfold options_bytes. rewrite map_map.
  pose proof (len_nonneg (concat (map (fun o => option_bytes false (encoded false o)) opts))).
  case_bool_decide; [by cbn|]. rewrite !len_app, !len_enc16. lia.
Qed.

(** The length at the end of a block. *)
Lemma emits_end v n : emits [] (le32 v) n n (_ ← put32 0 v; write_buf (W := W) 0 4).
Proof. apply emits_put32; [done | done |]. apply emits_tail, emits_last, (emits_write_buf _ (le32 v)); [done | done | apply emits_nil]. Qed.

(** A block with options, once its front is in the buffer. *)
Lemma emits_block {A} p typ hd opts v hi n (k : M (NgWriter W) A) : Forall option_ok opts →
  let ob := options_bytes false (map (encoded false) opts) in
  v = len (hd ++ ob) + 12 → p = le32 typ ++ le32 v ++ hd → hi = len p → emits [] (le32 v) n n k →
  emits p (block false typ (hd ++ ob)) n n
    (_ ← write_buf 0 hi;
     _ ← writeOptions (map (fun o => mkNgOption (o_code o) (o_raw o) (ngOptionLength o)) opts);
     k).
Proof.
  intros HF ob Hv Hp -> Hk.
  replace (block false typ (hd ++ ob)) with (p ++ ob ++ le32 v) by (rewrite Hp; unfold block; rewrite <- Hv; regroup).
  apply emits_write_buf; [lia | by apply slice_all |].
  by apply emits_front, emits_writeOptions.
Qed.

Ltac puts := repeat first [apply emits_put16; [done | done |] | apply emits_put32; [done | done |] | apply emits_put64; [done | done |]].

Lemma emits_writeSectionHeader n : info_ok info →
  emits [] (block false ngBlockTypeSectionHeader (section_body false info)) n n (writeSectionHeader (W := W)).
Proof.
  intros Hi. destruct (section_options_ok Hi) as [HF Hl]. unfold writeSectionHeader.
  apply emits_get. intros s _ ->. rewrite (prepareNgOptions_size _ HF Hl).
  pose proof (options_bytes_bound _ HF Hl) as Hb.
  rewrite u32_small by (unfold is_u32; lia). puts.
  eapply (emits_block _ _ (enc32 false ngByteOrderMagic ++ enc16 false ngVersionMajor ++ enc16 false ngVersionMinor ++
    enc64 false (2 ^ 64 - 1)) _ _ _ _ _ HF); [| | | apply emits_end]; [lens | regroup | done].
Qed.

Lemma emits_count {A} p bs n n' (k : NgWriter W → M (NgWriter W) A) : (∀ s, emits p bs (u32 (n + 1)) n' (k s)) →
  emits p bs n n' (s ← get; _ ← put (mkNgWriter (nw_w s) (nw_SectionInfo s) (u32 (nw_intf s + 1)) (nw_buf s)); k s).
Proof.
  intros Hk s q Hb Hl Hn Hi. rewrite wp_bind, wp_get, wp_bind, wp_put.
  apply (Hk s (mkNgWriter (nw_w s) (nw_SectionInfo s) (u32 (nw_intf s + 1)) (nw_buf s)) q); cbn; congruence.
Qed.

Lemma emits_AddInterface intf n : intf_ok intf → 0 <= n → n + 1 < 4294967296 →
  emits [] (block false ngBlockTypeInterfaceDescriptor (interface_body false intf)) n (n + 1) (AddInterface (W := W) intf).
Proof.
  intros Hi Hn Hn'. destruct (interface_options_ok intf Hi) as [HF Hl]. unfold AddInterface.
  apply emits_count. intros s. rewrite (u32_small (n + 1)) by (unfold is_u32; lia).
  rewrite (prepareNgOptions_size _ HF Hl). pose proof (options_bytes_bound _ HF Hl) as Hb.
  rewrite u32_small by (unfold is_u32; lia). puts.
  eapply (emits_block _ _ (enc16 false (if_LinkType intf) ++ enc16 false 0 ++ enc32 false (SnapLength intf)) _ _ _ _ _ HF);
    [| | | puts; apply emits_last, (emits_write_buf _ (le32 _)); [done | done | apply emits_nil]]; [lens | regroup | done].
Qed.

Lemma emits_WriteInterfaceStats id st n : 0 <= id < n → n < 4294967296 →
  emits [] (block false ngBlockTypeInterfaceStatistics (statistics_body false id st)) n n
    (WriteInterfaceStats (W := W) id st).
Proof.
  intros Hid Hn. destruct (statistics_options_ok st) as [HF Hl]. unfold WriteInterfaceStats.
  apply emits_get. intros s -> _. destruct (Z.geb_spec id n); [lia|]. destruct (Z.ltb_spec id 0); [lia|]. cbn [orb].
  rewrite (prepareNgOptions_size _ HF Hl). pose proof (options_bytes_bound _ HF Hl) as Hb.
  rewrite (u32_small (len _ + 24)), (u32_small id) by (unfold is_u32; lia). cbv zeta. puts.
  unfold statistics_body. rewrite <- time_halves, app_assoc.
  eapply (emits_block _ _ (enc32 false id ++ le32 (u32 (Z.shiftr (update_nanos st) 32)) ++ le32 (u32 (update_nanos st))) _ _ _ _ _ HF);
    [| | | apply emits_end]; [lens | regroup | done].
Qed.

Lemma emits_WritePacket ci data n : item_ok n (ItemPacket ci data) → n < 4294967296 →
  emits [] (block false ngBlockTypeEnhancedPacket (packet_body false ci data)) n n (WritePacket (W := W) ci data).
Proof.
  intros (Hid & Hcap & Hlen & Hsize & Hu & Ht) Hn. unfold WritePacket. apply emits_get. intros s -> _.
  destruct (Z.geb_spec (InterfaceIndex ci) n); [lia|]. destruct (Z.ltb_spec (InterfaceIndex ci) 0); [lia|]. cbn [orb].
  rewrite Hcap, Z.eqb_refl. cbn [negb]. destruct (Z.gtb_spec (len data) (Length ci)); [lia|].
  pose proof (padding_range (len data)) as Hp. pose proof (len_nonneg data).
  rewrite (u32_small (len data)) by (unfold is_u32; lia). cbv zeta. rewrite (u32_small (len data + 32)) by (unfold is_u32; lia).
  assert (padding (len data + 32) = padding (len data)) as -> by (rewrite !padding_spec; zdiv).
  rewrite (u32_small (len data + 32 + _)), (u32_small (InterfaceIndex ci)), (u32_small (Length ci))
    by (unfold is_u32 in *; lia).
  set (v := len data + 32 + padding (len data)).
  assert (len (packet_body false ci data) + 12 = v) as Hv by (unfold packet_body, v; lens).
  puts. match goal with |- emits ?p _ _ _ _ => set (front := p) end.
  set (post := le32 (InterfaceIndex ci) ++ enc_time false (UnixNano (Timestamp ci)) ++ le32 (len data) ++ le32 (Length ci)).
  assert (front = le32 ngBlockTypeEnhancedPacket ++ le32 v ++ post) as Hfront
    by (unfold front, post; rewrite <- time_halves; regroup).
  replace (block _ _ _) with (front ++ data ++ replicate (Z.to_nat (padding (len data))) 0 ++ le32 v)
    by (rewrite Hfront; unfold block; rewrite Hv; unfold packet_body, post; regroup).
  apply emits_write_buf; [rewrite Hfront; unfold post; lens | apply slice_all; rewrite Hfront; unfold post; lens |].
  apply emits_write. rewrite Hfront. apply (emits_edit _ _ ([0; 0; 0; 0] ++ le32 v ++ post)).
  { intros q. apply (replaces [] (le32 ngBlockTypeEnhancedPacket) (le32 v ++ post) (le32 0)). done. }
  apply emits_tail, emits_last, emits_write_buf; [unfold post; lens | | apply emits_nil].
  assert (∀ k, 0 <= k < 4 → slice ([0; 0; 0; 0] ++ le32 v ++ post) (4 - k) 8 = Ok (replicate (Z.to_nat k) 0 ++ le32 v)) as Hs.
  { intros k Hk. assert (k = 0 ∨ k = 1 ∨ k = 2 ∨ k = 3) as [-> | [-> | [-> | ->]]] by lia; done. }
  by apply Hs.
Qed.

Lemma emits_item i n : 0 <= n < 4294967296 → item_ok n i →
  emits [] (item_bytes false i) n (interfaces_after n i) (write_item (W := W) i).
Proof.
  intros Hn Hi. destruct i as [intf|id st|ci data]; cbn [item_bytes interfaces_after write_item].
  - destruct Hi as [Hi Hlt]. apply emits_last. eapply emits_bind; [apply emits_AddInterface; [done | lia | done]|].
    intros ?. apply emits_nil.
  - destruct Hi as [Hid _]. apply emits_WriteInterfaceStats; [done | lia].
  - apply emits_WritePacket; [done | lia].
Qed.

Lemma interfaces_after_bound n i : 0 <= n < 4294967296 → item_ok n i → 0 <= interfaces_after n i < 4294967296.
Proof. intros Hn Hi. destruct i; cbn in *; lia. Qed.

Lemma emits_items l : ∀ n, 0 <= n < 4294967296 → items_ok n l →
  ∃ n', emits [] (concat (map (item_bytes false) l)) n n' (write_items (W := W) l).
Proof.
  induction l as [|i l IH]; intros n Hn Hl; cbn [map concat write_items]; [exists n; apply emits_nil|].
  destruct Hl as [Hi Hl]. destruct (IH _ (interfaces_after_bound n i Hn Hi) Hl) as [n' Hn'].
  exists n'. eapply emits_bind; [by apply emits_item | done].
Qed.

(** Opening a file: its section header and its first interface. *)
Lemma NewNgWriterInterface_writes (w : W) intf : written w = [] → info_ok info → intf_ok intf →
  match NewNgWriterInterface w intf info with
  | Ok s => written (nw_w s) = file_bytes false info [ItemInterface intf] ∧ length (nw_buf s) = 28%nat ∧
      nw_intf s = 1 ∧ nw_SectionInfo s = info
  | Err _ => True
  | _ => False
  end.
Proof.
  intros Hw Hinfo Hi. unfold NewNgWriterInterface.
  pose proof (emits_bind [] _ _ 0 0 1 writeSectionHeader (fun _ => AddInterface intf)
    (emits_writeSectionHeader 0 Hinfo) (fun _ => emits_AddInterface intf 0 Hi ltac:(lia) ltac:(lia))
    (mkNgWriter w info 0 (replicate 28 0)) _ eq_refl eq_refl eq_refl eq_refl) as He.
  unfold wp in He. destruct ((_ ← writeSectionHeader; AddInterface intf) (mkNgWriter w info 0 (replicate 28 0)))
    as [[a|e|c|] s]; cbn [mbind outcome_bind]; [|done..].
  destruct He as (Hs & ?). split; [|done]. rewrite Hs. cbn [nw_w]. rewrite Hw.
  unfold file_bytes. cbn [map concat item_bytes]. by rewrite app_nil_r.
Qed.
End emitting.

(** The writer puts the section, the interfaces, the statistics
    and the packets into its file as the blocks of the layout, in order; when an
    operation fails the file holds a part of these bytes. *)
Lemma writes_file {W} `{!Writer W} `{!WriterLaws W} `{!BufferedWriter W} `{!BufferedWriterLaws W}
    (w : W) intf info items :
  written w = [] → info_ok info → items_ok 0 (ItemInterface intf :: items) →
  match NewNgWriterInterface w intf info with
  | Ok s =>
      wp (_ ← write_items items; NgFlush)
        (fun _ s' => flushed (nw_w s') = file_bytes false info (ItemInterface intf :: items))
        (fun _ s' => ∃ k, written (nw_w s') = take k (file_bytes false info (ItemInterface intf :: items))) s
  | Err _ => True
  | _ => False
  end.
Proof.
  intros Hw Hinfo [[Hi _] Hitems]. pose proof (NewNgWriterInterface_writes info w intf Hw Hinfo Hi) as Hnew.
  destruct (NewNgWriterInterface w intf info) as [s|e|c|]; [|done..]. destruct Hnew as (Hs & Hb & Hn & Hsi).
  destruct (emits_items info items 1 ltac:(lia) Hitems) as [n' He].
  assert (file_bytes false info (ItemInterface intf :: items) =
    file_bytes false info [ItemInterface intf] ++ concat (map (item_bytes false) items)) as Ef
    by (unfold file_bytes; cbn [map concat]; rewrite app_nil_r; regroup).
  rewrite wp_bind. refine (wp_mono _ _ _ _ _ _ _ _ (He s _ eq_refl Hb Hn Hsi)).
  - intros _ s' (Hw' & _). unfold wp, NgFlush, zoom. pose proof (Flush_law (nw_w s')) as Hf. unfold wp in Hf.
    destruct (Flush (nw_w s')) as [[[]|e|c|] w']; cbn -[file_bytes]; [| |done..].
    + destruct Hf as [_ Hf]. by rewrite Hf, Hw', Hs, Ef.
    + exists (length (written (nw_w s'))). by rewrite Hf, Ef, <- Hs, <- Hw', take_ge by done.
  - intros e s' [k Hk]. exists (length (file_bytes false info [ItemInterface intf]) + k)%nat.
    by rewrite Hk, Ef, take_app_add, Hs.
Qed.

(** A file behind a buffer: what is written stays in the buffer until it is flushed. *)
Record buffered : Type := mkBuffered { on_disk : bytes; in_buffer : bytes }.
#[export] Instance buffered_writer : Writer buffered :=
  { Write b := modify (fun w => mkBuffered (on_disk w) (in_buffer w ++ b)) }.
#[export] Program Instance buffered_writer_laws : WriterLaws buffered := { written w := on_disk w ++ in_buffer w }.
Next Obligation. intros b w. cbn. by rewrite app_assoc. Qed.
#[export] Instance buffered_flush : BufferedWriter buffered :=
  { Flush := modify (fun w => mkBuffered (on_disk w ++ in_buffer w) []) }.
#[export] Program Instance buffered_flush_laws : BufferedWriterLaws buffered := { flushed := on_disk }.
Next Obligation. intros w. cbn. by rewrite app_nil_r. Qed.

Definition sample_interface : NgInterface :=
  mkInterface [101; 116; 104; 48] [] [] [1; 2] [] 1 0 0 65535 zero_statistics 0 0 0.
Definition sample_info : NgSectionInfo := mkSectionInfo [] [76] [103; 111] [].
Definition sample_items : list ng_item :=
  [ItemPacket (mkCaptureInfo (mkTime 1700000000 5) 3 60 0) [7; 8; 9];
   ItemInterface sample_interface;
   ItemStatistics 1 (mkStatistics (mkTime 9 8) zero_time (mkTime 7 6) [] NgNoValue64 12);
   ItemPacket (mkCaptureInfo (mkTime 1700000001 6) 0 0 1) []].

Lemma sample_items_ok : items_ok 0 (ItemInterface sample_interface :: sample_items).
Proof.
  cbn [items_ok sample_items]. split_and!; try done; try (vm_compute; intuition (congruence || done)).
Qed.
