(* ===== verification/NgReader.v ===== *)
(** * Reading pcapng files ([pcapgo/ngread.go])

    The state has three parts: the input with the block and the option at hand,
    the section and its interfaces, and what belongs to the packet at hand. A
    callback that is set is a log of the calls made to it. *)

From S2P Require Import Prelude Capture Ng.

(** ** The input *)

(** [currentBlock] and [currentOption] are kept in place; the value of the
    option is the first [in_size] bytes of [in_array], the whole array behind it. *)
Record ngInput : Type := mkInput {
  in_r : stream;
  in_typ : Z;
  in_length : Z;
  in_code : Z;
  in_array : bytes;
  in_size : Z;
  in_bigEndian : bool;
}.

Definition in_value (i : ngInput) : bytes := take (Z.to_nat (in_size i)) (in_array i).

Definition set_stream (r : stream) (i : ngInput) : ngInput :=
  mkInput r (in_typ i) (in_length i) (in_code i) (in_array i) (in_size i) (in_bigEndian i).
Definition set_typ (v : Z) (i : ngInput) : ngInput :=
  mkInput (in_r i) v (in_length i) (in_code i) (in_array i) (in_size i) (in_bigEndian i).
Definition set_length (v : Z) (i : ngInput) : ngInput :=
  mkInput (in_r i) (in_typ i) v (in_code i) (in_array i) (in_size i) (in_bigEndian i).
Definition set_code (v : Z) (i : ngInput) : ngInput :=
  mkInput (in_r i) (in_typ i) (in_length i) v (in_array i) (in_size i) (in_bigEndian i).
Definition set_value (array : bytes) (size : Z) (i : ngInput) : ngInput :=
  mkInput (in_r i) (in_typ i) (in_length i) (in_code i) array size (in_bigEndian i).
Definition set_bigEndian (b : bool) (i : ngInput) : ngInput :=
  mkInput (in_r i) (in_typ i) (in_length i) (in_code i) (in_array i) (in_size i) b.

(** [r.currentBlock.length -= n] *)
Definition consume (n : Z) : M ngInput unit := modify (fun i => set_length (u32 (in_length i - n)) i).

(** [r.r.Read] until [n] bytes are there: the bytes, and whether they are all. *)
Definition read_some (n : Z) (s : stream) : bytes * bool * stream :=
  let got := take (Z.to_nat n) (rest s) in
  (got, len got >=? n, mkStream (drop (Z.to_nat n) (rest s)) (end_error s)).

(** [readBytes] into a buffer of [n] bytes that is not used after an error. *)
Definition readBytes (n : Z) : M ngInput bytes := fun i =>
  let '(got, enough, r) := read_some n (in_r i) in
  (if enough then Ok got else Err (end_error (in_r i)), set_stream r i).

(** [readBytes(r.currentOption.value)] *)
Definition read_value : M ngInput unit := fun i =>
  let '(got, enough, r) := read_some (in_size i) (in_r i) in
  match write_at (in_array i) 0 got with
  | Ok array => (if enough then Ok tt else Err (end_error (in_r i)),
                 set_stream r (set_value array (in_size i) i))
  | Err e => (Err e, i)
  | Panic c => (Panic c, i)
  | NoFuel => (NoFuel, i)
  end.

(** [r.r.Discard(n)] *)
Definition Discard (n : Z) : M ngInput unit := fun i =>
  if n <? 0 then (Err (errors_New "bufio: negative count"), i)
  else
    let '(_, enough, r) := read_some n (in_r i) in
    (if enough then Ok tt else Err (end_error (in_r i)), set_stream r i).

Definition discard_block : M ngInput unit := i ← get; Discard (in_length i).

Definition getUint16 (b : bytes) : M ngInput Z :=
  i ← get; lift (if in_bigEndian i then BE_Uint16 b else LE_Uint16 b).
Definition getUint32 (b : bytes) : M ngInput Z :=
  i ← get; lift (if in_bigEndian i then BE_Uint32 b else LE_Uint32 b).
Definition getUint64 (b : bytes) : M ngInput Z :=
  i ← get; lift (if in_bigEndian i then BE_Uint64 b else LE_Uint64 b).

(** [r.getUint16(buf[lo:lo+2])], and the wider ones. *)
Definition field16 (buf : bytes) (lo : Z) : M ngInput Z := b ← lift (slice buf lo (lo + 2)); getUint16 b.
Definition field32 (buf : bytes) (lo : Z) : M ngInput Z := b ← lift (slice buf lo (lo + 4)); getUint32 b.
Definition field64 (buf : bytes) (lo : Z) : M ngInput Z := b ← lift (slice buf lo (lo + 8)); getUint64 b.

(** [uint64(r.getUint32(buf[lo:lo+4]))<<32 | uint64(r.getUint32(buf[lo+4:lo+8]))] *)
Definition timestamp (buf : bytes) (lo : Z) : M ngInput Z :=
  hi ← field32 buf lo; low ← field32 buf (lo + 4); mret (Z.lor (Z.shiftl hi 32) low).

Definition wrong_byte_order : error := errors_New "Wrong byte order value in Section Header".

Definition readBlock : M ngInput unit :=
  buf ← readBytes 8;
  typ ← field32 buf 0;
  _ ← modify (set_typ typ);
  if typ =? ngBlockTypeSectionHeader then
    order ← readBytes 4;
    big ← lift (BE_Uint32 order);
    little ← lift (LE_Uint32 order);
    _ ← (if big =? ngByteOrderMagic then modify (set_bigEndian true)
         else if little =? ngByteOrderMagic then modify (set_bigEndian false)
         else throw wrong_byte_order);
    length ← field32 buf 4;
    modify (set_length (u32 (length - 8 - 4)))
  else
    length ← field32 buf 4;
    modify (set_length (u32 (length - 8))).

(** The value is made smaller in place, or is given a new array. The capacity of
    a slice is the length of the array. *)
Definition size_value (length : Z) (i : ngInput) : ngInput :=
  if length <? u16 (len (in_array i)) then set_value (in_array i) length i
  else set_value (replicate (Z.to_nat length) 0) length i.

Definition readOption : M ngInput unit :=
  i ← get;
  if in_length i =? 4 then modify (set_code ngOptionCodeEndOfOptions)
  else
    buf ← readBytes 4;
    _ ← consume 4;
    code ← field16 buf 0;
    _ ← modify (set_code code);
    length ← field16 buf 2;
    if code =? ngOptionCodeEndOfOptions then
      if negb (length =? 0) then throw (errors_New "End of Options must be zero length") else mret tt
    else if negb (length =? 0) then
      _ ← modify (size_value length);
      _ ← read_value;
      let padding := length mod 4 in
      let padding := if padding >? 0 then 4 - padding else padding in
      _ ← (if padding >? 0 then Discard padding else mret tt);
      consume (u16 (length + padding))
    else mret tt.

(** ** Options *)

(** A method on the input and a local variable of the calling function. *)
Definition with_local {S A} (a : A) (m : M (S * A) unit) : M S A := fun s =>
  match m (s, a) with
  | (Ok _, (s', a')) => (Ok a', s')
  | (Err e, (s', _)) => (Err e, s')
  | (Panic c, (s', _)) => (Panic c, s')
  | (NoFuel, (s', _)) => (NoFuel, s')
  end.

Section options.
Context {A : Type} (use : Z → M (ngInput * A) unit).

(** [for { readOption; switch code { ... } }]: every option but the faked end
    takes bytes from the input. *)
Fixpoint options_loop (fuel : nat) : M (ngInput * A) unit :=
  match fuel with
  | O => lift NoFuel
  | S fuel' =>
      _ ← on_fst readOption;
      p ← get;
      if in_code p.1 =? ngOptionCodeEndOfOptions then mret tt
      else _ ← use (in_code p.1); options_loop fuel'
  end.

Definition read_options : M (ngInput * A) unit :=
  p ← get; options_loop (S (length (rest (in_r p.1)))).
End options.

(** [string(r.currentOption.value)] *)
Definition option_string {A} : M (ngInput * A) bytes := p ← get; mret (in_value p.1).
(** [r.currentOption.value[:n]]: up to the capacity. *)
Definition option_front {A} (n : Z) : M (ngInput * A) bytes := p ← get; lift (slice_to (in_array p.1) n).
Definition option_uint64 {A} : M (ngInput * A) Z :=
  b ← option_front 8; on_fst (getUint64 b).

Definition local {S A} (f : A → A) : M (S * A) unit := modify (fun p => (p.1, f p.2)).

(** ** Sections *)

Definition section_option (code : Z) : M (ngInput * NgSectionInfo) unit :=
  if code =? ngOptionCodeComment then
    v ← option_string; local (fun s => mkSectionInfo (Hardware s) (s_OS s) (Application s) v)
  else if code =? ngOptionCodeHardware then
    v ← option_string; local (fun s => mkSectionInfo v (s_OS s) (Application s) (s_Comment s))
  else if code =? ngOptionCodeOS then
    v ← option_string; local (fun s => mkSectionInfo (Hardware s) v (Application s) (s_Comment s))
  else if code =? ngOptionCodeUserApplication then
    v ← option_string; local (fun s => mkSectionInfo (Hardware s) (s_OS s) v (s_Comment s))
  else mret tt.

Definition empty_section : NgSectionInfo := mkSectionInfo [] [] [] [].

(** [skipSection] *)
Fixpoint skipSection_loop (fuel : nat) : M ngInput unit :=
  match fuel with
  | O => lift NoFuel
  | S fuel' =>
      _ ← readBlock;
      i ← get;
      if in_typ i =? ngBlockTypeSectionHeader then mret tt
      else _ ← discard_block; skipSection_loop fuel'
  end.

(** Every block takes bytes from the input. *)
Definition skipSection : M ngInput unit :=
  i ← get; skipSection_loop (S (length (rest (in_r i)))).

(** Up to a section header of the version that is known: the part of
    [readSectionHeader] from [RESTART] to [goto RESTART]. *)
Fixpoint find_version (SkipUnknownVersion : bool) (fuel : nat) : M ngInput unit :=
  match fuel with
  | O => lift NoFuel
  | S fuel' =>
      buf ← readBytes 12;
      _ ← consume 12;
      vMajor ← field16 buf 0;
      vMinor ← field16 buf 2;
      if negb (vMajor =? ngVersionMajor) || negb (vMinor =? ngVersionMinor) then
        if negb SkipUnknownVersion then throw ErrNgVersionMismatch
        else
          _ ← discard_block;
          _ ← skipSection;
          find_version SkipUnknownVersion fuel'
      else mret tt
  end.

(** ** Interfaces *)

Definition intf_Name (v : bytes) (i : NgInterface) : NgInterface :=
  mkInterface v (if_Comment i) (if_Description i) (if_Filter i) (if_OS i) (if_LinkType i) (TimestampResolution_ i)
    (TimestampOffset i) (SnapLength i) (Statistics i) (secondMask i) (scaleUp i) (scaleDown i).
Definition intf_Comment (v : bytes) (i : NgInterface) : NgInterface :=
  mkInterface (if_Name i) v (if_Description i) (if_Filter i) (if_OS i) (if_LinkType i) (TimestampResolution_ i)
    (TimestampOffset i) (SnapLength i) (Statistics i) (secondMask i) (scaleUp i) (scaleDown i).
Definition intf_Description (v : bytes) (i : NgInterface) : NgInterface :=
  mkInterface (if_Name i) (if_Comment i) v (if_Filter i) (if_OS i) (if_LinkType i) (TimestampResolution_ i)
    (TimestampOffset i) (SnapLength i) (Statistics i) (secondMask i) (scaleUp i) (scaleDown i).
Definition intf_Filter (v : bytes) (i : NgInterface) : NgInterface :=
  mkInterface (if_Name i) (if_Comment i) (if_Description i) v (if_OS i) (if_LinkType i) (TimestampResolution_ i)
    (TimestampOffset i) (SnapLength i) (Statistics i) (secondMask i) (scaleUp i) (scaleDown i).
Definition intf_OS (v : bytes) (i : NgInterface) : NgInterface :=
  mkInterface (if_Name i) (if_Comment i) (if_Description i) (if_Filter i) v (if_LinkType i) (TimestampResolution_ i)
    (TimestampOffset i) (SnapLength i) (Statistics i) (secondMask i) (scaleUp i) (scaleDown i).
Definition intf_Offset (v : Z) (i : NgInterface) : NgInterface :=
  mkInterface (if_Name i) (if_Comment i) (if_Description i) (if_Filter i) (if_OS i) (if_LinkType i)
    (TimestampResolution_ i) v (SnapLength i) (Statistics i) (secondMask i) (scaleUp i) (scaleDown i).
Definition intf_Resolution (v : Z) (i : NgInterface) : NgInterface :=
  mkInterface (if_Name i) (if_Comment i) (if_Description i) (if_Filter i) (if_OS i) (if_LinkType i)
    v (TimestampOffset i) (SnapLength i) (Statistics i) (secondMask i) (scaleUp i) (scaleDown i).
Definition intf_Statistics (v : NgInterfaceStatistics) (i : NgInterface) : NgInterface :=
  mkInterface (if_Name i) (if_Comment i) (if_Description i) (if_Filter i) (if_OS i) (if_LinkType i)
    (TimestampResolution_ i) (TimestampOffset i) (SnapLength i) v (secondMask i) (scaleUp i) (scaleDown i).
Definition intf_scales (mask up down : Z) (i : NgInterface) : NgInterface :=
  mkInterface (if_Name i) (if_Comment i) (if_Description i) (if_Filter i) (if_OS i) (if_LinkType i)
    (TimestampResolution_ i) (TimestampOffset i) (SnapLength i) (Statistics i) mask up down.

Definition interface_option (code : Z) : M (ngInput * NgInterface) unit :=
  if code =? ngOptionCodeInterfaceName then v ← option_string; local (intf_Name v)
  else if code =? ngOptionCodeComment then v ← option_string; local (intf_Comment v)
  else if code =? ngOptionCodeInterfaceDescription then v ← option_string; local (intf_Description v)
  else if code =? ngOptionCodeInterfaceFilter then
    v ← option_string; v ← lift (slice_from v 1); local (intf_Filter v)
  else if code =? ngOptionCodeInterfaceOS then v ← option_string; local (intf_OS v)
  else if code =? ngOptionCodeInterfaceTimestampOffset then v ← option_uint64; local (intf_Offset v)
  else if code =? ngOptionCodeInterfaceTimestampResolution then
    v ← option_string; r ← lift (index v 0); local (intf_Resolution r)
  else mret tt.

(** Division of unsigned integers. *)
Definition divided_by_zero : crash := Panicked "runtime error: integer divide by zero".
Definition div64 (a b : Z) : outcome Z := if b =? 0 then Panic divided_by_zero else mret (a / b).
Definition mod64 (a b : Z) : outcome Z := if b =? 0 then Panic divided_by_zero else mret (a mod b).

(** The number of units in a second. *)
Definition second_mask (resolution : Z) : Z :=
  if Binary resolution then u64 (Z.shiftl 1 (NgExponent resolution))
  else Nat.iter (Z.to_nat (NgExponent resolution)) (fun m => u64 (m * 10)) 1.

(** The part of [readInterfaceDescriptor] after the options. *)
Definition prepare_interface (intf : NgInterface) : outcome NgInterface :=
  let intf := if TimestampResolution_ intf =? 0 then intf_Resolution 6 intf else intf in
  let mask := second_mask (TimestampResolution_ intf) in
  if mask <? nanosPerSecond then
    up ← div64 nanosPerSecond mask; mret (intf_scales mask up 1 intf)
  else mret (intf_scales mask 1 (mask / nanosPerSecond) intf).

Definition readInterfaceDescriptor : M ngInput NgInterface :=
  buf ← readBytes 8;
  _ ← consume 8;
  linkType ← field16 buf 0;
  snapLength ← field32 buf 4;
  let intf := mkInterface [] [] [] [] [] (u8 linkType) 0 0 snapLength zero_statistics 0 0 0 in
  intf ← with_local intf (read_options interface_option);
  _ ← discard_block;
  lift (prepare_interface intf).

(** [time.Unix(r.convertTime(ifaceID, ts))] of the interface [iface]. *)
Definition convertTime (iface : NgInterface) (ts : Z) : outcome time :=
  sec ← div64 ts (secondMask iface);
  frac ← mod64 ts (secondMask iface);
  nsec ← div64 (u64 (frac * scaleUp iface)) (scaleDown iface);
  mret (time_Unix (i64 (u64 (sec + TimestampOffset iface))) (i64 nsec)).

(** The statistics of the interface are changed in place. *)
Definition statistics_option (iface : NgInterface) (code : Z) : M (ngInput * NgInterfaceStatistics) unit :=
  if code =? ngOptionCodeComment then
    v ← option_string;
    local (fun s => mkStatistics (LastUpdate s) (StartTime s) (EndTime s) v (PacketsReceived s) (PacketsDropped s))
  else if code =? ngOptionCodeInterfaceStatisticsStartTime then
    b ← option_front 8; ts ← on_fst (timestamp b 0); t ← lift (convertTime iface ts);
    local (fun s => mkStatistics (LastUpdate s) t (EndTime s) (st_Comment s) (PacketsReceived s) (PacketsDropped s))
  else if code =? ngOptionCodeInterfaceStatisticsEndTime then
    b ← option_front 8; ts ← on_fst (timestamp b 0); t ← lift (convertTime iface ts);
    local (fun s => mkStatistics (LastUpdate s) (StartTime s) t (st_Comment s) (PacketsReceived s) (PacketsDropped s))
  else if code =? ngOptionCodeInterfaceStatisticsInterfaceReceived then
    v ← option_uint64;
    local (fun s => mkStatistics (LastUpdate s) (StartTime s) (EndTime s) (st_Comment s) v (PacketsDropped s))
  else if code =? ngOptionCodeInterfaceStatisticsInterfaceDropped then
    v ← option_uint64;
    local (fun s => mkStatistics (LastUpdate s) (StartTime s) (EndTime s) (st_Comment s) (PacketsReceived s) v)
  else mret tt.

(** ** The reader *)

(** [SectionEndCallback] and [StatisticsCallback]: whether they are set. *)
Record NgReaderOptions : Type := mkOptions {
  WantMixedLinkType : bool;
  ErrorOnMismatchingLinkType : bool;
  SkipUnknownVersion : bool;
  SectionEndCallback : bool;
  StatisticsCallback : bool;
}.

Definition DefaultNgReaderOptions : NgReaderOptions := mkOptions false false false false false.

(** The calls of the callbacks. *)
Inductive ng_event : Type :=
  | SectionEnd (interfaces : list NgInterface) (info : NgSectionInfo)
  | StatisticsRead (ifaceID : Z) (stats : NgInterfaceStatistics).

(** The section that is read. [ancil] is the link type of the last packet, if mixed
    link types are wanted. *)
Record NgReader : Type := mkNgReader {
  nr_in : ngInput;
  options : NgReaderOptions;
  sectionInfo : NgSectionInfo;
  linkType : Z;
  ifaces : list NgInterface;
  packetBuf : bytes;
  ci_ : CaptureInfo;
  ancil : option Z;
  firstSectionFound : bool;
  activeSection : bool;
  events : list ng_event;
}.

Definition set_in (v : ngInput) (r : NgReader) : NgReader :=
  mkNgReader v (options r) (sectionInfo r) (linkType r) (ifaces r) (packetBuf r) (ci_ r) (ancil r)
    (firstSectionFound r) (activeSection r) (events r).
Definition set_sectionInfo (v : NgSectionInfo) (r : NgReader) : NgReader :=
  mkNgReader (nr_in r) (options r) v (linkType r) (ifaces r) (packetBuf r) (ci_ r) (ancil r)
    (firstSectionFound r) (activeSection r) (events r).
Definition set_linkType (v : Z) (r : NgReader) : NgReader :=
  mkNgReader (nr_in r) (options r) (sectionInfo r) v (ifaces r) (packetBuf r) (ci_ r) (ancil r)
    true (activeSection r) (events r).
Definition set_ifaces (v : list NgInterface) (r : NgReader) : NgReader :=
  mkNgReader (nr_in r) (options r) (sectionInfo r) (linkType r) v (packetBuf r) (ci_ r) (ancil r)
    (firstSectionFound r) (activeSection r) (events r).
Definition set_ngBuf (v : bytes) (r : NgReader) : NgReader :=
  mkNgReader (nr_in r) (options r) (sectionInfo r) (linkType r) (ifaces r) v (ci_ r) (ancil r)
    (firstSectionFound r) (activeSection r) (events r).
Definition set_ci (v : CaptureInfo) (r : NgReader) : NgReader :=
  mkNgReader (nr_in r) (options r) (sectionInfo r) (linkType r) (ifaces r) (packetBuf r) v (ancil r)
    (firstSectionFound r) (activeSection r) (events r).
Definition set_ancil (v : option Z) (r : NgReader) : NgReader :=
  mkNgReader (nr_in r) (options r) (sectionInfo r) (linkType r) (ifaces r) (packetBuf r) (ci_ r) v
    (firstSectionFound r) (activeSection r) (events r).
Definition set_active (v : bool) (r : NgReader) : NgReader :=
  mkNgReader (nr_in r) (options r) (sectionInfo r) (linkType r) (ifaces r) (packetBuf r) (ci_ r) (ancil r)
    (firstSectionFound r) v (events r).
Definition log_event (v : ng_event) (r : NgReader) : NgReader :=
  mkNgReader (nr_in r) (options r) (sectionInfo r) (linkType r) (ifaces r) (packetBuf r) (ci_ r) (ancil r)
    (firstSectionFound r) (activeSection r) (events r ++ [v]).

Definition input {A} (m : M ngInput A) : M NgReader A := zoom nr_in set_in m.

Definition add_interface : M NgReader unit :=
  intf ← input readInterfaceDescriptor;
  modify (fun r => set_ifaces (ifaces r ++ [intf]) r).

Definition no_interface : error :=
  errors_New "A section must have an interface before a packet block".

(** Is it a block that needs an interface? *)
Definition packet_block (typ : Z) : bool :=
  (typ =? ngBlockTypePacket) || (typ =? ngBlockTypeEnhancedPacket) ||
  (typ =? ngBlockTypeSimplePacket) || (typ =? ngBlockTypeInterfaceStatistics).

(** [firstInterface] *)
Fixpoint firstInterface_loop (fuel : nat) : M NgReader unit :=
  match fuel with
  | O => lift NoFuel
  | S fuel' =>
      _ ← input readBlock;
      r ← get;
      if in_typ (nr_in r) =? ngBlockTypeInterfaceDescriptor then
        _ ← add_interface;
        r ← get;
        i0 ← lift (index (ifaces r) 0);
        if negb (firstSectionFound r) then modify (set_linkType (if_LinkType i0))
        else if negb (linkType r =? if_LinkType i0) then
          if ErrorOnMismatchingLinkType (options r) then throw ErrNgLinkTypeMismatch
          else firstInterface_loop fuel'
        else mret tt
      else if packet_block (in_typ (nr_in r)) then throw no_interface
      else _ ← input discard_block; firstInterface_loop fuel'
  end.

(** Every block takes bytes from the input. *)
Definition blocks_bound (r : NgReader) : nat := S (length (rest (in_r (nr_in r)))).

Definition firstInterface : M NgReader unit := r ← get; firstInterface_loop (blocks_bound r).

Definition readSectionHeader : M NgReader unit :=
  r ← get;
  _ ← (if SectionEndCallback (options r) && activeSection r
       then modify (log_event (SectionEnd (ifaces r) (sectionInfo r))) else mret tt);
  _ ← modify (fun r => set_active false (set_ifaces [] r));
  _ ← input (find_version (SkipUnknownVersion (options r)) (blocks_bound r));
  section ← input (with_local empty_section (read_options section_option));
  _ ← input discard_block;
  _ ← modify (fun r => set_sectionInfo section (set_active true r));
  if negb (WantMixedLinkType (options r)) then firstInterface else mret tt.

Definition SkipSection : M NgReader unit := _ ← input skipSection; readSectionHeader.

Definition unknown_interface (id n : Z) : error :=
  Errorf "Interface id %d not present in section (have only %d interfaces)" [id; n].

(** [r.ifaces[ifaceID]], for an interface named in the file. *)
Definition named_interface (id : Z) : M NgReader NgInterface :=
  r ← get;
  if id >=? len (ifaces r) then throw (unknown_interface id (len (ifaces r)))
  else lift (index (ifaces r) id).

Definition statistics_of (id : Z) (r : NgReader) : NgInterfaceStatistics :=
  match ifaces r !! Z.to_nat id with Some i => Statistics i | None => zero_statistics end.
Definition set_statistics (id : Z) (v : NgInterfaceStatistics) (r : NgReader) : NgReader :=
  set_ifaces (alter (intf_Statistics v) (Z.to_nat id) (ifaces r)) r.

(** A method on the input and the statistics of an interface, where they are. *)
Definition on_statistics {A} (id : Z) (m : M (ngInput * NgInterfaceStatistics) A) : M NgReader A :=
  zoom (fun r => (nr_in r, statistics_of id r)) (fun p r => set_statistics id p.2 (set_in p.1 r)) m.

Definition readInterfaceStatistics : M NgReader unit :=
  buf ← input (readBytes 12);
  _ ← input (consume 12);
  ifaceID ← input (field32 buf 0);
  ts ← input (timestamp buf 4);
  iface ← named_interface ifaceID;
  _ ← modify (set_statistics ifaceID ngEmptyStatistics);
  t ← lift (convertTime iface ts);
  _ ← modify (set_statistics ifaceID (mkStatistics t zero_time zero_time [] NgNoValue64 NgNoValue64));
  _ ← on_statistics ifaceID (read_options (statistics_option iface));
  _ ← input discard_block;
  r ← get;
  if StatisticsCallback (options r) then modify (log_event (StatisticsRead ifaceID (statistics_of ifaceID r)))
  else mret tt.

(** The fields of [r.ci] are set one after the other. *)
Definition ci_InterfaceIndex (v : Z) (c : CaptureInfo) : CaptureInfo :=
  mkCaptureInfo (Timestamp c) (CaptureLength c) (Length c) v.

(** An enhanced packet, or an old one, whose interface is a number of 16 bits. *)
Definition read_packet_block (interface : bytes → M ngInput Z) : M NgReader unit :=
  buf ← input (readBytes 20);
  _ ← input (consume 20);
  id ← input (interface buf);
  _ ← modify (fun r => set_ci (ci_InterfaceIndex id (ci_ r)) r);
  iface ← named_interface id;
  ts ← input (timestamp buf 4);
  t ← lift (convertTime iface ts);
  caplen ← input (field32 buf 12);
  length ← input (field32 buf 16);
  modify (set_ci (mkCaptureInfo t caplen length id)).

Definition read_simple_packet : M NgReader unit :=
  buf ← input (readBytes 4);
  _ ← input (consume 4);
  length ← input (field32 buf 0);
  _ ← modify (set_ci (mkCaptureInfo zero_time length length 0));
  r ← get;
  if len (ifaces r) =? 0 then throw (errors_New "At least one Interface is needed for a packet")
  else
    i0 ← lift (index (ifaces r) 0);
    if negb (SnapLength i0 =? 0) && (u32 length >? SnapLength i0)
    then modify (set_ci (mkCaptureInfo zero_time (SnapLength i0) length 0))
    else mret tt.

(** One block: is it a packet? *)
Definition read_a_block : M NgReader bool :=
  _ ← input readBlock;
  r ← get;
  let typ := in_typ (nr_in r) in
  if typ =? ngBlockTypeEnhancedPacket then _ ← read_packet_block (fun buf => field32 buf 0); mret true
  else if typ =? ngBlockTypeSimplePacket then _ ← read_simple_packet; mret true
  else if typ =? ngBlockTypeInterfaceDescriptor then _ ← add_interface; mret false
  else if typ =? ngBlockTypeInterfaceStatistics then _ ← readInterfaceStatistics; mret false
  else if typ =? ngBlockTypeSectionHeader then _ ← readSectionHeader; mret false
  else if typ =? ngBlockTypePacket then _ ← read_packet_block (fun buf => field16 buf 0); mret true
  else _ ← input discard_block; mret false.

(** [readPacketHeader] *)
Fixpoint readPacketHeader_loop (fuel : nat) : M NgReader unit :=
  match fuel with
  | O => lift NoFuel
  | S fuel' =>
      found ← read_a_block;
      if negb found then readPacketHeader_loop fuel'
      else
        r ← get;
        iface ← lift (index (ifaces r) (InterfaceIndex (ci_ r)));
        if negb (WantMixedLinkType (options r)) then
          if negb (if_LinkType iface =? linkType r) then
            _ ← input discard_block;
            if ErrorOnMismatchingLinkType (options r) then throw ErrNgLinkTypeMismatch
            else readPacketHeader_loop fuel'
          else mret tt
        else modify (set_ancil (Some (if_LinkType iface)))
  end.

Definition readPacketHeader : M NgReader unit := r ← get; readPacketHeader_loop (blocks_bound r).

(** [ci.AncillaryData[0]], when mixed link types are wanted. *)
Definition ancillary (r : NgReader) : option Z := if WantMixedLinkType (options r) then ancil r else None.

Definition discard_rest (captured : Z) : M NgReader unit :=
  r ← get; input (Discard (in_length (nr_in r) - captured)).

Definition ReadPacketData : M NgReader (bytes * CaptureInfo * option Z) :=
  _ ← readPacketHeader;
  r ← get;
  let ci := ci_ r in
  _ ← lift (make_bytes (CaptureLength ci));
  data ← input (readBytes (CaptureLength ci));
  _ ← discard_rest (CaptureLength ci);
  mret (data, ci, ancillary r).

(** Into the front of the packet buffer, whose capacity is its length. *)
Definition read_into_packetBuf (n : Z) : M NgReader unit := fun r =>
  let '(got, enough, s) := read_some n (in_r (nr_in r)) in
  let r := set_in (set_stream s (nr_in r)) r in
  match write_at (packetBuf r) 0 got with
  | Ok b => (if enough then Ok tt else Err (end_error s), set_ngBuf b r)
  | Err e => (Err e, r)
  | Panic c => (Panic c, r)
  | NoFuel => (NoFuel, r)
  end.

Definition ZeroCopyReadPacketData : M NgReader (bytes * CaptureInfo * option Z) :=
  _ ← readPacketHeader;
  r ← get;
  let ci := ci_ r in
  _ ← (if len (packetBuf r) <? CaptureLength ci then
         iface ← lift (index (ifaces r) (InterfaceIndex ci));
         let snaplen := if SnapLength iface <? CaptureLength ci then CaptureLength ci else SnapLength iface in
         b ← lift (make_bytes snaplen);
         modify (set_ngBuf b)
       else mret tt);
  r' ← get;
  _ ← lift (slice_to (packetBuf r') (CaptureLength ci));
  _ ← read_into_packetBuf (CaptureLength ci);
  _ ← discard_rest (CaptureLength ci);
  r' ← get;
  data ← lift (slice_to (packetBuf r') (CaptureLength ci));
  mret (data, ci, ancillary r).

Definition unknown_magic (typ : Z) : error := Errorf "Unknown magic %x" [typ].

(** The reader of a new file, before its first block. *)
Definition new_input (s : stream) : ngInput := mkInput s 0 0 0 (replicate 1024 0) 1024 false.
Definition new_reader (s : stream) (o : NgReaderOptions) : NgReader :=
  mkNgReader (new_input s) o empty_section 0 [] [] (mkCaptureInfo zero_time 0 0 0) None false false [].

Definition open_file : M NgReader unit :=
  _ ← input readBlock;
  r ← get;
  if negb (in_typ (nr_in r) =? ngBlockTypeSectionHeader) then throw (unknown_magic (in_typ (nr_in r)))
  else readSectionHeader.

Definition NewNgReader (s : stream) (o : NgReaderOptions) : outcome NgReader :=
  let '(res, r) := open_file (new_reader s o) in
  _ ← res; mret r.

Definition NgLinkType (r : NgReader) : Z := linkType r.
Definition SectionInfo (r : NgReader) : NgSectionInfo := sectionInfo r.

Definition Interface (r : NgReader) (i : Z) : outcome NgInterface :=
  if (i >=? len (ifaces r)) || (i <? 0) then
    Err (Errorf "Interface %d invalid. There are only %d interfaces" [i; len (ifaces r)])
  else index (ifaces r) i.

Definition NInterfaces (r : NgReader) : Z := len (ifaces r).

Definition NgReader_Resolution (r : NgReader) : outcome TimestampResolution :=
  if WantMixedLinkType (options r) then mret (mkResolution 0 0)
  else i ← index (ifaces r) 0; mret (NgInterface_Resolution i).

(** [n] packets, one after the other. *)
Fixpoint read_packets (n : nat) : M NgReader (list (bytes * CaptureInfo * option Z)) :=
  match n with
  | O => mret []
  | S n' => p ← ReadPacketData; ps ← read_packets n'; mret (p :: ps)
  end.
