(* ===== verification/NgSafe.v ===== *)
(** * Reading any pcapng input ([pcapgo/ngread.go])

    Whatever the bytes of the input, opening it and reading packets ends; the
    only panic is the division by the number of units in a second, for an
    interface whose resolution has an exponent of 64 or more. *)

From S2P Require Import Prelude Capture Ng NgReader.

(** ** Methods that read *)

(** A state with an input: what must hold of it, and how much is left to read. *)
Class Reading (S : Type) := { sound : S → Prop; left : S → nat }.

Definition moved {S : Type} `{Reading S} (s s' : S) : Prop := sound s' ∧ (left s' <= left s)%nat.

(** From [s], [m] ends with a value and [Q], or an error, or a division by zero. *)
Definition safe {S : Type} `{Reading S} {A} (m : M S A) (Q : A → S → Prop) (s : S) : Prop :=
  match m s with
  | (Ok a, s') => moved s s' ∧ Q a s'
  | (Err _, s') => moved s s'
  | (Panic c, _) => c = divided_by_zero
  | (NoFuel, _) => False
  end.

Section rules.
Context {S : Type} `{Reading S}.

Lemma moved_refl s : sound s → moved s s.
Proof. by split. Qed.
Lemma moved_trans s1 s2 s3 : moved s1 s2 → moved s2 s3 → moved s1 s3.
Proof. unfold moved. intros [? ?] [? ?]. split; [done | lia]. Qed.

Lemma safe_ret {A} (a : A) (Q : A → S → Prop) s : sound s → Q a s → safe (mret a) Q s.
Proof. intros Hs HQ. split; [by apply moved_refl | done]. Qed.

Lemma safe_throw {A} e (Q : A → S → Prop) s : sound s → safe (throw e) Q s.
Proof. apply moved_refl. Qed.

Lemma safe_bind {A B} (m : M S A) (k : A → M S B) P Q s :
  safe m P s → (∀ a s', moved s s' → P a s' → safe (k a) Q s') → safe (m ≫= k) Q s.
Proof.
  unfold safe. rewrite bind_eq. destruct (m s) as [[a|e|c|] s1]; [|done..].
  intros [Hm HP] Hk. specialize (Hk a s1 Hm HP).
  destruct (k a s1) as [[b|e|c|] s2]; [|by eapply moved_trans|done..].
  destruct Hk as [? ?]. split; [by eapply moved_trans | done].
Qed.

Lemma safe_mono {A} (m : M S A) (P Q : A → S → Prop) s :
  safe m P s → (∀ a s', moved s s' → P a s' → Q a s') → safe m Q s.
Proof. unfold safe. destruct (m s) as [[a|e|c|] s1]; [|done..]. intros [? ?] Hk. split; [done | by apply Hk]. Qed.

Lemma safe_get_bind {B} (k : S → M S B) Q s : safe (k s) Q s → safe (get ≫= k) Q s.
Proof. done. Qed.

Lemma safe_lift {A} (o : outcome A) (Q : A → S → Prop) s : sound s →
  owp o (fun a => Q a s) (fun _ => True) → safe (lift o) Q s.
Proof. intros Hs. destruct o; cbn; try done; intros; (split; [by apply moved_refl | done]) || by apply moved_refl. Qed.

Lemma safe_modify (f : S → S) (Q : unit → S → Prop) s : moved s (f s) → Q tt (f s) → safe (modify f) Q s.
Proof. done. Qed.
End rules.

(** ** The input *)

Record input_ok (i : ngInput) : Prop := {
  input_bytes : is_bytes (rest (in_r i));
  array_bytes : is_bytes (in_array i);
  array_size : 1024 <= len (in_array i) < 65536;
  value_size : 1 <= in_size i <= len (in_array i);
}.

#[export] Instance reading_input : Reading ngInput :=
  { sound := input_ok; left i := length (rest (in_r i)) }.

(** What must hold of a local variable. *)
Class Local (A : Type) := local_ok : A → Prop.
#[export] Instance local_section : Local NgSectionInfo := fun _ => True.
#[export] Instance local_interface : Local NgInterface := fun i => 0 <= SnapLength i.
#[export] Instance local_statistics : Local NgInterfaceStatistics := fun _ => True.

#[export] Instance reading_local `{Local A} : Reading (ngInput * A) :=
  { sound p := input_ok p.1 ∧ local_ok p.2; left p := length (rest (in_r p.1)) }.

Lemma read_some_spec n s : 0 <= n → is_bytes (rest s) →
  let '(got, enough, s') := read_some n s in
  is_bytes got ∧ is_bytes (rest s') ∧ len got <= n ∧ (length (rest s) = length got + length (rest s'))%nat ∧
  (enough = true → len got = n).
Proof.
  intros Hn Hb. unfold read_some. cbn [rest]. split_and!; eauto with go.
  - rewrite len_take. lia.
  - by rewrite <- length_app, take_drop.
  - intros Hg. apply Z.geb_le in Hg. rewrite len_take in *. lia.
Qed.

Lemma moved_stream (i : ngInput) s : sound i → is_bytes (rest s) → (length (rest s) <= left i)%nat →
  moved i (set_stream s i).
Proof. intros [? ? ? ?] Hb Hl. split; [by constructor | exact Hl]. Qed.

Lemma safe_readBytes n i : 0 <= n → sound i →
  safe (readBytes n) (fun b i' => is_bytes b ∧ len b = n ∧ (left i = Z.to_nat n + left i')%nat ∧
    in_length i' = in_length i ∧ in_typ i' = in_typ i) i.
Proof.
  intros Hn Hi. unfold safe, readBytes. pose proof (read_some_spec n (in_r i) Hn (input_bytes i Hi)) as Hsp.
  destruct (read_some n (in_r i)) as [[got enough] s]. destruct Hsp as (Hg & Hs & _ & Hl & He).
  assert (moved i (set_stream s i)) as Hm by (apply moved_stream; [done..| cbn; lia]).
  destruct enough; [|done]. specialize (He eq_refl). split; [done|]. split_and!; try done.
  cbn. unfold len in He. lia.
Qed.

Lemma safe_Discard n i : sound i → safe (Discard n) (fun _ i' => in_typ i' = in_typ i) i.
Proof.
  intros Hi. unfold safe, Discard. destruct (Z.ltb_spec n 0); [by apply moved_refl|].
  pose proof (read_some_spec n (in_r i) ltac:(lia) (input_bytes i Hi)) as Hsp.
  destruct (read_some n (in_r i)) as [[got enough] s]. destruct Hsp as (_ & Hs & _ & Hl & _).
  assert (moved i (set_stream s i)) by (apply moved_stream; [done..| cbn; lia]). by destruct enough.
Qed.

Lemma safe_consume n i : sound i → safe (consume n) (fun _ i' => left i' = left i ∧ in_typ i' = in_typ i) i.
Proof. intros [? ? ? ?]. split; [split; [by constructor | done] | done]. Qed.

Lemma safe_discard_block i : sound i → safe discard_block (fun _ i' => in_typ i' = in_typ i) i.
Proof. intros Hi. apply safe_get_bind. by apply safe_Discard. Qed.

(** Fields of a buffer that was read. *)
Lemma field_bytes (b : bytes) lo n : is_bytes b → 0 <= lo → 0 <= n → lo + n <= len b →
  ∃ c, slice b lo (lo + n) = Ok c ∧ is_bytes c ∧ len c = n.
Proof.
  intros Hb Hlo Hn Hl. rewrite slice_ok by lia. eexists. split; [done|]. split; [eauto with go|].
  rewrite len_drop, len_take. lia.
Qed.

Lemma LE_Uint16_ok b : is_bytes b → 2 <= len b → ∃ v, LE_Uint16 b = Ok v ∧ is_u16 v.
Proof.
  intros Hb Hl. destruct b as [|b0 [|b1 b]]; [lens | lens |]. eexists. split; [done|].
  apply is_bytes_cons in Hb as [? [? _]%is_bytes_cons]. unfold is_byte, is_u16 in *. lia.
Qed.
Lemma BE_Uint16_ok b : is_bytes b → 2 <= len b → ∃ v, BE_Uint16 b = Ok v ∧ is_u16 v.
Proof.
  intros Hb Hl. destruct b as [|b0 [|b1 b]]; [lens | lens |]. eexists. split; [done|].
  apply is_bytes_cons in Hb as [? [? _]%is_bytes_cons]. unfold is_byte, is_u16 in *. lia.
Qed.
Lemma LE_Uint32_ok b : is_bytes b → 4 <= len b → ∃ v, LE_Uint32 b = Ok v ∧ is_u32 v.
Proof.
  intros Hb Hl. destruct b as [|b0 [|b1 [|b2 [|b3 b]]]]; try lens. eexists. split; [done|].
  unfold is_bytes in Hb. rewrite !Forall_cons in Hb. unfold is_byte, is_u32 in *. lia.
Qed.
Lemma BE_Uint32_ok b : is_bytes b → 4 <= len b → ∃ v, BE_Uint32 b = Ok v ∧ is_u32 v.
Proof.
  intros Hb Hl. destruct b as [|b0 [|b1 [|b2 [|b3 b]]]]; try lens. eexists. split; [done|].
  unfold is_bytes in Hb. rewrite !Forall_cons in Hb. unfold is_byte, is_u32 in *. lia.
Qed.

Lemma safe_field16 b lo i : is_bytes b → 0 <= lo → lo + 2 <= len b → sound i →
  safe (field16 b lo) (fun v i' => i' = i ∧ is_u16 v) i.
Proof.
  intros Hb Hlo Hl Hi. destruct (field_bytes b lo 2 Hb Hlo) as (c & Hc & Hcb & Hcl); [lia..|].
  unfold field16. rewrite Hc. apply (safe_bind _ _ (fun a i' => a = c ∧ i' = i));
    [by apply safe_lift | intros ? ? _ [-> ->]].
  unfold getUint16. apply safe_get_bind, safe_lift; [done|].
  destruct (BE_Uint16_ok c Hcb) as (v & Hv & ?); [lia|]. destruct (LE_Uint16_ok c Hcb) as (w & Hw & ?); [lia|].
  destruct (in_bigEndian i); [by rewrite Hv | by rewrite Hw].
Qed.

Lemma safe_field32 b lo i : is_bytes b → 0 <= lo → lo + 4 <= len b → sound i →
  safe (field32 b lo) (fun v i' => i' = i ∧ is_u32 v) i.
Proof.
  intros Hb Hlo Hl Hi. destruct (field_bytes b lo 4 Hb Hlo) as (c & Hc & Hcb & Hcl); [lia..|].
  unfold field32. rewrite Hc. apply (safe_bind _ _ (fun a i' => a = c ∧ i' = i));
    [by apply safe_lift | intros ? ? _ [-> ->]].
  unfold getUint32. apply safe_get_bind, safe_lift; [done|].
  destruct (BE_Uint32_ok c Hcb) as (v & Hv & ?); [lia|]. destruct (LE_Uint32_ok c Hcb) as (w & Hw & ?); [lia|].
  destruct (in_bigEndian i); [by rewrite Hv | by rewrite Hw].
Qed.

Lemma safe_getUint64 b i : is_bytes b → len b = 8 → sound i → safe (getUint64 b) (fun _ i' => i' = i) i.
Proof.
  intros Hb Hl Hi. unfold getUint64. apply safe_get_bind, safe_lift; [done|].
  unfold BE_Uint64, LE_Uint64. rewrite slice_from_ok by lia.
  assert (is_bytes (drop (Z.to_nat 4) b)) as Hd by eauto with go.
  assert (len (drop (Z.to_nat 4) b) = 4) as Hdl by (rewrite len_drop; lia).
  destruct (BE_Uint32_ok b Hb) as (? & E1 & _); [lia|]. destruct (LE_Uint32_ok b Hb) as (? & E2 & _); [lia|].
  destruct (BE_Uint32_ok _ Hd) as (? & E3 & _); [lia|]. destruct (LE_Uint32_ok _ Hd) as (? & E4 & _); [lia|].
  destruct (in_bigEndian i); [rewrite E1|rewrite E2]; unfold mbind, outcome_bind; [by rewrite E3 | by rewrite E4].
Qed.

Lemma safe_timestamp b lo i : is_bytes b → 0 <= lo → lo + 8 <= len b → sound i →
  safe (timestamp b lo) (fun _ i' => i' = i) i.
Proof.
  intros Hb Hlo Hl Hi. eapply safe_bind; [apply safe_field32; [done | lia | lia | done]|].
  intros hi ? _ [-> _]. eapply safe_bind; [apply safe_field32; [done | lia | lia | done]|].
  intros low ? _ [-> _]. by apply safe_ret.
Qed.

Lemma moved_of (i i' : ngInput) : sound i → in_r i' = in_r i → in_array i' = in_array i → in_size i' = in_size i →
  moved i i'.
Proof. intros [? ? ? ?] E1 E2 E3. unfold moved. cbn. split; [split|]; rewrite ?E1, ?E2, ?E3; done. Qed.

Lemma safe_set_typ v i : sound i → safe (modify (set_typ v)) (fun _ i' => left i' = left i ∧ in_typ i' = v) i.
Proof. intros Hi. by apply safe_modify; [apply moved_of|]. Qed.

Lemma safe_readBlock i : sound i → safe readBlock (fun _ i' => (left i' + 8 <= left i)%nat) i.
Proof.
  intros Hi. eapply safe_bind; [by apply safe_readBytes|]. intros buf i1 [Hi1 _] (Hb & Hl & Hleft & _ & _).
  eapply safe_bind; [apply safe_field32; [done | lia | lia | done]|]. intros typ ? _ [-> _].
  eapply safe_bind; [by apply safe_set_typ|]. intros ? i2 [Hi2 _] [Hl2 _]. destruct (typ =? _).
  - eapply safe_bind; [by apply safe_readBytes|]. intros order i3 [Hi3 Hle] (Hob & Hol & _).
    destruct (BE_Uint32_ok order Hob) as (big & Ebig & _); [lia|].
    destruct (LE_Uint32_ok order Hob) as (little & Elit & _); [lia|]. rewrite Ebig, Elit.
    apply (safe_bind _ _ (fun _ i' => i' = i3)); [by apply safe_lift|]. intros ? ? _ ->.
    apply (safe_bind _ _ (fun _ i' => i' = i3)); [by apply safe_lift|]. intros ? ? _ ->.
    apply (safe_bind _ _ (fun _ i' => (left i' <= left i3)%nat)).
    { destruct (_ =? ngByteOrderMagic); [|destruct (_ =? ngByteOrderMagic); [|by apply safe_throw]];
        (apply safe_modify; [by apply moved_of | done]). }
    intros ? i4 [Hi4 _] Hle4. eapply safe_bind; [apply safe_field32; [done | lia | lia | done]|]. intros l ? _ [-> _].
    apply safe_modify; [by apply moved_of|]. change (left (set_length (u32 (l - 8 - 4)) i4)) with (left i4). lia.
  - eapply safe_bind; [apply safe_field32; [done | lia | lia | done]|]. intros l ? _ [-> _].
    apply safe_modify; [by apply moved_of|]. change (left (set_length (u32 (l - 8)) i2)) with (left i2). lia.
Qed.

Lemma size_value_ok n i : 1 <= n < 65536 → sound i →
  sound (size_value n i) ∧ in_r (size_value n i) = in_r i ∧ in_size (size_value n i) = n.
Proof.
  intros Hn [Hr Ha Hl Hs]. unfold size_value, u16. rewrite Z.mod_small by lia.
  destruct (Z.ltb_spec n (len (in_array i))); cbn; (split; [constructor; cbn; rewrite ?len_replicate|]); eauto with go; try lia.
  apply is_bytes_replicate. unfold is_byte. lia.
Qed.

Lemma safe_read_value i : sound i → safe read_value (fun _ _ => True) i.
Proof.
  intros Hi. unfold safe, read_value. destruct Hi as [Hr Ha Hl Hs].
  pose proof (read_some_spec (in_size i) (in_r i) ltac:(lia) Hr) as Hsp.
  destruct (read_some (in_size i) (in_r i)) as [[got enough] s]. destruct Hsp as (Hg & Hsb & Hle & Hleft & _).
  rewrite write_at_ok by lia. set (array := _ ++ _ ++ _).
  assert (len array = len (in_array i)) as El by (unfold array; rewrite !len_app, len_take, len_drop; pose proof (len_nonneg got); lia).
  assert (moved i (set_stream s (set_value array (in_size i) i))) as Hm; [|by destruct enough].
  split; [|cbn; lia]. constructor; cbn; rewrite ?El; try done.
  unfold array. rewrite !is_bytes_app. split_and!; eauto with go.
Qed.

Lemma safe_readOption i : sound i →
  safe readOption (fun _ i' => in_code i' = ngOptionCodeEndOfOptions ∨ (left i' < left i)%nat) i.
Proof.
  intros Hi. unfold readOption. apply safe_get_bind. destruct (in_length i =? 4).
  { apply safe_modify; [by apply moved_of | by left]. }
  eapply safe_bind; [by apply safe_readBytes|]. intros buf i1 [Hi1 _] (Hb & Hl & Hleft & _ & _).
  assert (left i1 < left i)%nat as Hlt by lia.
  eapply safe_bind; [by apply safe_consume|]. intros ? i2 [Hi2 _] [Hl2 _].
  eapply safe_bind; [apply safe_field16; [done | lia | lia | done]|]. intros code ? _ [-> _].
  apply (safe_bind _ _ (fun _ i' => left i' = left i2)); [apply safe_modify; [by apply moved_of | done]|].
  intros ? i3 [Hi3 _] Hl3.
  eapply safe_bind; [apply safe_field16; [done | lia | lia | done]|]. intros n ? _ [-> Hn].
  destruct (code =? _).
  { destruct (negb _); [by apply safe_throw|]. apply safe_ret; [done | right; lia]. }
  destruct (Z.eqb_spec n 0) as [|Hn0]; cbn [negb]; [apply safe_ret; [done | right; lia]|].
  unfold is_u16 in Hn. destruct (size_value_ok n i3 ltac:(lia) Hi3) as (Hs1 & Hs2 & Hs3).
  apply (safe_bind _ _ (fun _ i' => left i' = left i3)).
  { apply safe_modify; [split; [done|] |]; cbn; by rewrite Hs2. }
  intros ? i4 [Hi4 _] Hl4. eapply safe_bind; [by apply safe_read_value|]. intros ? i5 [Hi5 Hl5] _.
  apply (safe_bind _ _ (fun _ _ => True)).
  { destruct (_ >? 0); [|by apply safe_ret]. by eapply safe_mono; [apply safe_Discard|]. }
  intros ? i6 [Hi6 Hl6] _. eapply safe_mono; [by apply safe_consume|]. intros ? i7 _ [Hl7 _]. right. lia.
Qed.

(** ** Options *)

Section with_locals.
Context `{Local A}.

Lemma moved_local (i i' : ngInput) (a a' : A) : moved i i' → local_ok a' → moved (i, a) (i', a').
Proof. intros [? ?] ?. by split. Qed.

Lemma safe_on_fst {B} (m : M ngInput B) (Q : B → ngInput → Prop) (p : ngInput * A) : sound p →
  safe m Q p.1 → safe (on_fst m) (fun b p' => Q b p'.1 ∧ p'.2 = p.2) p.
Proof.
  intros [_ Ha]. unfold safe, on_fst, zoom. destruct p as [i a]; cbn [fst snd] in *.
  destruct (m i) as [[b|e|c|] i']; [|by intros; apply moved_local|done..].
  intros [? ?]. split; [by apply moved_local | done].
Qed.

Lemma safe_options_loop (use : Z → M (ngInput * A) unit) :
  (∀ code p, sound p → safe (use code) (fun _ _ => True) p) →
  ∀ fuel p, sound p → (left p < fuel)%nat → safe (options_loop use fuel) (fun _ _ => True) p.
Proof.
  intros Huse. induction fuel as [|fuel IH]; intros p Hp Hf; [lia|]. cbn [options_loop].
  eapply safe_bind; [apply safe_on_fst; [done | apply safe_readOption, Hp]|].
  intros ? p1 [Hp1 Hl1] [Hend _]. apply safe_get_bind.
  destruct (Z.eqb_spec (in_code p1.1) ngOptionCodeEndOfOptions) as [|Hne]; [by apply safe_ret|].
  destruct Hend as [|Hlt]; [done|]. eapply safe_bind; [by apply Huse|].
  intros ? p2 [Hp2 Hl2] _. apply IH; [done|]. cbn in *. lia.
Qed.

Lemma safe_read_options (use : Z → M (ngInput * A) unit) p :
  (∀ code p, sound p → safe (use code) (fun _ _ => True) p) → sound p →
  safe (read_options use) (fun _ _ => True) p.
Proof. intros Huse Hp. apply safe_get_bind. apply safe_options_loop; [done | done |]. cbn. lia. Qed.

Lemma safe_with_local (a : A) (m : M (ngInput * A) unit) i : local_ok a → sound i →
  safe m (fun _ _ => True) (i, a) → safe (with_local a m) (fun a' _ => local_ok a') i.
Proof.
  intros Ha Hi. unfold safe, with_local. destruct (m (i, a)) as [[b|e|c|] [i' a']]; [|by intros [[? ?] ?] |done..].
  by intros [[[? ?] ?] _].
Qed.

Lemma safe_option_string (p : ngInput * A) : sound p →
  safe option_string (fun v p' => p' = p ∧ v = in_value p.1 ∧ 1 <= len v) p.
Proof.
  intros Hp. apply safe_get_bind, safe_ret; [done|]. split_and!; [done..|].
  destruct Hp as [[_ _ _ ?] _]. unfold in_value. rewrite len_take. lia.
Qed.

Lemma safe_option_front n (p : ngInput * A) : 0 <= n <= 1024 → sound p →
  safe (option_front n) (fun v p' => p' = p ∧ is_bytes v ∧ len v = n) p.
Proof.
  intros Hn Hp. apply safe_get_bind, safe_lift; [done|]. pose proof Hp as [[_ ? ? _] _].
  rewrite slice_to_ok by lia. cbn. split_and!; [done | eauto with go|]. rewrite len_take. lia.
Qed.

Lemma safe_option_uint64 (p : ngInput * A) : sound p → safe option_uint64 (fun _ p' => p' = p) p.
Proof.
  intros Hp. eapply safe_bind; [by apply (safe_option_front 8)|]. intros b ? _ (-> & Hb & Hl).
  eapply safe_mono; [apply safe_on_fst; [done | apply safe_getUint64; [done | done | apply Hp]]|].
  intros ? p' _ [E1 E2]. destruct p, p'; cbn in *. by rewrite E1, E2.
Qed.

Lemma safe_local (f : A → A) (p : ngInput * A) : sound p → local_ok (f p.2) →
  safe (local f) (fun _ _ => True) p.
Proof. intros [? ?] ?. by apply safe_modify. Qed.

(** An option whose value is kept. *)
Lemma safe_keep_string (f : bytes → A → A) (p : ngInput * A) : sound p → (∀ v, local_ok (f v p.2)) →
  safe (v ← option_string; local (f v)) (fun _ _ => True) p.
Proof. intros Hp Hf. eapply safe_bind; [by apply safe_option_string|]. intros v ? _ (-> & _). by apply safe_local. Qed.

Lemma safe_keep_uint64 (f : Z → A → A) (p : ngInput * A) : sound p → (∀ v, local_ok (f v p.2)) →
  safe (v ← option_uint64; local (f v)) (fun _ _ => True) p.
Proof. intros Hp Hf. eapply safe_bind; [by apply safe_option_uint64|]. intros v ? _ ->. by apply safe_local. Qed.
End with_locals.

Lemma safe_section_option code p : sound p → safe (section_option code) (fun _ _ => True) p.
Proof.
  intros Hp. unfold section_option.
  repeat (destruct (_ =? _); [by apply (safe_keep_string (fun v s => mkSectionInfo _ _ _ _))|]). by apply safe_ret.
Qed.

Lemma safe_interface_option code p : sound p → safe (interface_option code) (fun _ _ => True) p.
Proof.
  intros Hp. pose proof (proj2 Hp) as Ha. unfold interface_option.
  destruct (_ =? _); [by apply (safe_keep_string intf_Name)|].
  destruct (_ =? _); [by apply (safe_keep_string intf_Comment)|].
  destruct (_ =? _); [by apply (safe_keep_string intf_Description)|].
  destruct (_ =? _).
  { eapply safe_bind; [by apply safe_option_string|]. intros v ? _ (-> & -> & Hl).
    rewrite slice_from_ok by lia. apply (safe_bind _ _ (fun _ p' => p' = p)); [by apply safe_lift|].
    intros ? ? _ ->. by apply safe_local. }
  destruct (_ =? _); [by apply (safe_keep_string intf_OS)|].
  destruct (_ =? _); [by apply (safe_keep_uint64 intf_Offset)|].
  destruct (_ =? _); [|by apply safe_ret].
  eapply safe_bind; [by apply safe_option_string|]. intros v ? _ (-> & -> & Hl).
  destruct (index_ok (in_value p.1) 0) as (r & _ & ->); [lia|].
  apply (safe_bind _ _ (fun _ p' => p' = p)); [by apply safe_lift|]. intros ? ? _ ->. by apply safe_local.
Qed.

(** ** Interfaces *)

(** What the time of a packet is computed from. *)
Record iface_ok (i : NgInterface) : Prop := {
  mask_positive : 0 < secondMask i;
  down_positive : 0 < scaleDown i;
  snap_nonneg : 0 <= SnapLength i;
}.

Lemma convertTime_ok iface ts : iface_ok iface → ∃ t, convertTime iface ts = Ok t ∧ time_ok t.
Proof.
  intros [Hm Hd _]. unfold convertTime, div64, mod64.
  destruct (Z.eqb_spec (secondMask iface) 0); [lia|]. destruct (Z.eqb_spec (scaleDown iface) 0); [lia|].
  eexists. split; [done|]. unfold time_ok, time_Unix. cbn. apply Z.mod_pos_bound. unfold nanosPerSecond. lia.
Qed.

Lemma second_mask_nonneg r : 0 <= second_mask r.
Proof.
  unfold second_mask, u64. destruct (Binary r); [apply Z.mod_pos_bound; lia|].
  destruct (Z.to_nat (NgExponent r)) as [|n]; [done|]. apply Z.mod_pos_bound. lia.
Qed.

(** The panic: no units in a second. *)
Lemma prepare_interface_cases intf : local_ok intf →
  match prepare_interface intf with
  | Ok i => iface_ok i ∧ if_LinkType i = if_LinkType intf
  | Panic c => c = divided_by_zero
  | _ => False
  end.
Proof.
  intros Hl. unfold local_ok, local_interface in Hl. unfold prepare_interface.
  set (i := if TimestampResolution_ intf =? 0 then _ else intf).
  assert (SnapLength i = SnapLength intf ∧ if_LinkType i = if_LinkType intf) as [Es El]
    by (unfold i; by destruct (_ =? _)).
  pose proof (second_mask_nonneg (TimestampResolution_ i)) as Hm. unfold div64.
  destruct (Z.ltb_spec (second_mask (TimestampResolution_ i)) nanosPerSecond) as [Hlt|Hge].
  - destruct (Z.eqb_spec (second_mask (TimestampResolution_ i)) 0); [done|].
    split; [|done]. split; cbn; lia.
  - split; [|done]. split; cbn; [unfold nanosPerSecond in *; lia | | lia].
    apply Z.div_str_pos. unfold nanosPerSecond in *. lia.
Qed.

Lemma safe_keep_time iface (f : time → NgInterfaceStatistics → NgInterfaceStatistics) p :
  iface_ok iface → sound p →
  safe (b ← option_front 8; ts ← on_fst (timestamp b 0); t ← lift (convertTime iface ts); local (f t))
    (fun _ _ => True) p.
Proof.
  intros Hi Hp. eapply safe_bind; [by apply (safe_option_front 8)|]. intros b ? _ (-> & Hb & Hl).
  eapply safe_bind; [apply safe_on_fst; [done | apply safe_timestamp; [done | lia | lia | apply Hp]]|].
  intros ts p1 [Hp1 _] _. destruct (convertTime_ok iface ts Hi) as (t & -> & _).
  apply (safe_bind _ _ (fun _ p' => p' = p1)); [by apply safe_lift|]. intros ? ? _ ->. by apply safe_local.
Qed.

Lemma safe_statistics_option iface code p : iface_ok iface → sound p →
  safe (statistics_option iface code) (fun _ _ => True) p.
Proof.
  intros Hi Hp. unfold statistics_option.
  destruct (_ =? _); [by apply (safe_keep_string (fun v s => mkStatistics _ _ _ _ _ _))|].
  destruct (_ =? _); [by apply (safe_keep_time iface (fun t s => mkStatistics _ _ _ _ _ _))|].
  destruct (_ =? _); [by apply (safe_keep_time iface (fun t s => mkStatistics _ _ _ _ _ _))|].
  destruct (_ =? _); [by apply (safe_keep_uint64 (fun v s => mkStatistics _ _ _ _ _ _))|].
  destruct (_ =? _); [by apply (safe_keep_uint64 (fun v s => mkStatistics _ _ _ _ _ _))|]. by apply safe_ret.
Qed.

Lemma safe_skipSection i : sound i → safe skipSection (fun _ _ => True) i.
Proof.
  intros Hi. unfold skipSection. apply safe_get_bind.
  enough (∀ fuel i, sound i → (left i < fuel)%nat → safe (skipSection_loop fuel) (fun _ _ => True) i) as Hgo
    by (apply Hgo; [done | cbn; lia]). clear i Hi.
  induction fuel as [|fuel IH]; intros i Hi Hf; [lia|]. cbn [skipSection_loop].
  eapply safe_bind; [by apply safe_readBlock|]. intros ? i1 [Hi1 _] Hl1. apply safe_get_bind.
  destruct (_ =? _); [by apply safe_ret|].
  eapply safe_bind; [by apply safe_discard_block|]. intros ? i2 [Hi2 Hl2] _. apply IH; [done | lia].
Qed.

Lemma safe_find_version skip : ∀ fuel i, sound i → (left i < fuel)%nat →
  safe (find_version skip fuel) (fun _ _ => True) i.
Proof.
  induction fuel as [|fuel IH]; intros i Hi Hf; [lia|]. cbn [find_version].
  eapply safe_bind; [by apply safe_readBytes|]. intros buf i1 [Hi1 _] (Hb & Hl & Hl1 & _ & _).
  eapply safe_bind; [by apply safe_consume|]. intros ? i2 [Hi2 _] [Hl2 _].
  eapply safe_bind; [apply safe_field16; [done | lia | lia | done]|]. intros major ? _ [-> _].
  eapply safe_bind; [apply safe_field16; [done | lia | lia | done]|]. intros minor ? _ [-> _].
  destruct (_ || _); [|by apply safe_ret]. destruct (negb skip); [by apply safe_throw|].
  eapply safe_bind; [by apply safe_discard_block|]. intros ? i3 [Hi3 Hl3] _.
  eapply safe_bind; [by apply safe_skipSection|]. intros ? i4 [Hi4 Hl4] _. apply IH; [done | lia].
Qed.

Lemma safe_readInterfaceDescriptor i : sound i →
  safe readInterfaceDescriptor (fun intf _ => iface_ok intf) i.
Proof.
  intros Hi. unfold readInterfaceDescriptor.
  eapply safe_bind; [by apply safe_readBytes|]. intros buf i1 [Hi1 _] (Hb & Hl & _).
  eapply safe_bind; [by apply safe_consume|]. intros ? i2 [Hi2 _] _.
  eapply safe_bind; [apply safe_field16; [done | lia | lia | done]|]. intros lt ? _ [-> _].
  eapply safe_bind; [apply safe_field32; [done | lia | lia | done]|]. intros snap ? _ [-> Hs].
  set (intf := mkInterface _ _ _ _ _ _ _ _ _ _ _ _ _).
  assert (local_ok intf) as Hintf by (unfold local_ok, local_interface; cbn; unfold is_u32 in Hs; lia).
  eapply safe_bind.
  { apply safe_with_local; [done | done |]. apply safe_read_options; [|by split].
    intros code p Hp. by apply safe_interface_option. }
  intros intf' i3 [Hi3 _] Hok. eapply safe_bind; [by apply safe_discard_block|]. intros ? i4 [Hi4 _] _.
  pose proof (prepare_interface_cases intf' Hok) as Hc. unfold safe, lift.
  destruct (prepare_interface intf'); try done. split; [by apply moved_refl | by destruct Hc].
Qed.

(** ** The reader *)

Record reader_ok (r : NgReader) : Prop := {
  reader_input : input_ok (nr_in r);
  reader_ifaces : Forall iface_ok (ifaces r);
}.

#[export] Instance reading_reader : Reading NgReader :=
  { sound := reader_ok; left r := length (rest (in_r (nr_in r))) }.

Lemma safe_input {A} (m : M ngInput A) (Q : A → ngInput → Prop) r : sound r → safe m Q (nr_in r) →
  safe (input m) (fun a r' => Q a (nr_in r') ∧ r' = set_in (nr_in r') r) r.
Proof.
  intros [_ Hf]. unfold safe, input, zoom. destruct (m (nr_in r)) as [[a|e|c|] i]; [|by intros [? ?]|done..].
  intros [[? ?] ?]. split; [split; [by split | done] | done].
Qed.

(** A change of a part other than the input. *)
Lemma moved_same (r r' : NgReader) : sound r → nr_in r' = nr_in r → Forall iface_ok (ifaces r') → moved r r'.
Proof. intros [? ?] E ?. split; [split; [by rewrite E | done]|]. cbn. by rewrite E. Qed.

Lemma safe_discard r : sound r → safe (input discard_block) (fun _ r' => ifaces r' = ifaces r) r.
Proof.
  intros Hr. eapply safe_mono; [apply safe_input; [done | apply safe_discard_block, Hr]|].
  by intros ? r' _ [_ ->].
Qed.

Lemma safe_add_interface r : sound r → safe add_interface (fun _ r' => ifaces r' ≠ []) r.
Proof.
  intros Hr. eapply safe_bind; [apply safe_input; [done | apply safe_readInterfaceDescriptor, Hr]|].
  intros intf r1 [Hr1 _] [Hi _]. apply safe_modify; [|cbn; by destruct (ifaces r1)].
  apply moved_same; [done | done |]. cbn. apply Forall_app. split; [apply Hr1 | by constructor].
Qed.

Lemma index_first (r : NgReader) : sound r → ifaces r ≠ [] → ∃ i, index (ifaces r) 0 = Ok i ∧ iface_ok i.
Proof. intros [_ Hf] Hne. destruct (ifaces r) as [|i l]; [done|]. exists i. split; [done | by inversion Hf]. Qed.

Lemma safe_firstInterface_loop : ∀ fuel r, sound r → (left r < fuel)%nat →
  safe (firstInterface_loop fuel) (fun _ _ => True) r.
Proof.
  induction fuel as [|fuel IH]; intros r Hr Hf; [lia|]. cbn [firstInterface_loop].
  eapply safe_bind; [apply safe_input; [done | apply safe_readBlock, Hr]|]. intros ? r1 [Hr1 _] [Hl1 _].
  apply safe_get_bind. destruct (_ =? ngBlockTypeInterfaceDescriptor).
  - eapply safe_bind; [by apply safe_add_interface|]. intros ? r2 [Hr2 Hl2] Hne.
    apply safe_get_bind. destruct (index_first r2 Hr2 Hne) as (i0 & -> & _).
    apply (safe_bind _ _ (fun _ r' => r' = r2)); [by apply safe_lift|]. intros ? ? _ ->.
    destruct (negb (firstSectionFound r2)); [by apply safe_modify; [apply moved_same; [..|apply Hr2]|]|].
    destruct (negb _); [|by apply safe_ret]. destruct (ErrorOnMismatchingLinkType _); [by apply safe_throw|].
    apply IH; [done|]. cbn in *. lia.
  - destruct (packet_block _); [by apply safe_throw|].
    eapply safe_bind; [by apply safe_discard|]. intros ? r2 [Hr2 Hl2] _. apply IH; [done|]. cbn in *. lia.
Qed.

Lemma safe_readSectionHeader r : sound r → safe readSectionHeader (fun _ _ => True) r.
Proof.
  intros Hr. unfold readSectionHeader. apply safe_get_bind.
  apply (safe_bind _ _ (fun _ r' => left r' = left r)).
  { destruct (_ && _); [|by apply safe_ret]. apply safe_modify; [apply moved_same; [..|apply Hr] | done]; done. }
  intros ? r1 [Hr1 _] Hl1. apply (safe_bind _ _ (fun _ r' => left r' = left r1)).
  { apply safe_modify; [apply moved_same; [done | done | constructor] | done]. }
  intros ? r2 [Hr2 _] Hl2. eapply safe_bind.
  { apply safe_input; [done|]. apply safe_find_version; [apply Hr2|]. unfold blocks_bound. cbn in *. lia. }
  intros ? r3 [Hr3 _] _. eapply safe_bind.
  { apply safe_input; [done|]. apply safe_with_local; [done | apply Hr3 |]. apply safe_read_options; [|by split; [apply Hr3|]].
    intros code p Hp. by apply safe_section_option. }
  intros section r4 [Hr4 _] _. eapply safe_bind; [by apply safe_discard|]. intros ? r5 [Hr5 _] _.
  apply (safe_bind _ _ (fun _ _ => True)); [apply safe_modify; [apply moved_same; [done | done | apply Hr5] | done]|].
  intros ? r6 [Hr6 _] _. destruct (negb _); [|by apply safe_ret].
  apply safe_get_bind, safe_firstInterface_loop; [done|]. unfold blocks_bound. cbn. lia.
Qed.

Lemma safe_named_interface id r : 0 <= id → sound r →
  safe (named_interface id) (fun i r' => r' = r ∧ iface_ok i ∧ index (ifaces r) id = Ok i) r.
Proof.
  intros H0 Hr. apply safe_get_bind. destruct (Z.geb_spec id (len (ifaces r))); [by apply safe_throw|].
  apply safe_lift; [done|]. destruct (index_ok (ifaces r) id) as (i & Hi & ->); [lia|]. cbn. split_and!; [done | | done].
  eapply Forall_lookup_1; [apply Hr | done].
Qed.

Lemma moved_statistics id v r : sound r → moved r (set_statistics id v r).
Proof.
  intros Hr. apply moved_same; [done | done |]. cbn. apply Forall_alter; [apply Hr|].
  intros i _ [? ? ?]. by split.
Qed.

Lemma safe_on_statistics {A} id (m : M (ngInput * NgInterfaceStatistics) A) r : sound r →
  safe m (fun _ _ => True) (nr_in r, statistics_of id r) → safe (on_statistics id m) (fun _ _ => True) r.
Proof.
  intros Hr. assert (∀ p : ngInput * NgInterfaceStatistics, moved (nr_in r, statistics_of id r) p →
    moved r (set_statistics id p.2 (set_in p.1 r))) as Hm.
  { intros p [[? ?] ?]. assert (sound (set_in p.1 r)) by (split; [done | apply Hr]).
    apply (moved_trans _ (set_in p.1 r)); [by split | by apply moved_statistics]. }
  unfold safe, on_statistics, zoom. destruct (m _) as [[a|e|c|] p]; [|by apply Hm|done..].
  intros [? _]. split; [by apply Hm | done].
Qed.

Lemma safe_readInterfaceStatistics r : sound r → safe readInterfaceStatistics (fun _ _ => True) r.
Proof.
  intros Hr. unfold readInterfaceStatistics.
  eapply safe_bind; [apply safe_input; [done | by apply safe_readBytes, Hr]|]. intros buf r1 [Hr1 _] [(Hb & Hl & _) _].
  eapply safe_bind; [apply safe_input; [done | apply safe_consume, Hr1]|]. intros ? r2 [Hr2 _] _.
  eapply safe_bind; [apply safe_input; [done | apply safe_field32; [done | lia | lia | apply Hr2]]|].
  intros id r3 [Hr3 _] [[_ Hid] _]. unfold is_u32 in Hid.
  eapply safe_bind; [apply safe_input; [done | apply safe_timestamp; [done | lia | lia | apply Hr3]]|].
  intros ts r4 [Hr4 _] _. eapply safe_bind; [apply safe_named_interface; [lia | done]|].
  intros iface ? _ (-> & Hi & _).
  eapply (safe_bind _ _ (fun _ _ => True)); [apply safe_modify; [by apply moved_statistics | done]|]. intros ? r5 [Hr5 _] _.
  destruct (convertTime_ok iface ts Hi) as (t & -> & _).
  eapply (safe_bind _ _ (fun _ _ => True)); [by apply safe_lift|]. intros ? r6 [Hr6 _] _.
  eapply (safe_bind _ _ (fun _ _ => True)); [apply safe_modify; [by apply moved_statistics | done]|]. intros ? r7 [Hr7 _] _.
  eapply safe_bind.
  { apply safe_on_statistics; [done|]. apply safe_read_options; [|by split; [apply Hr7|]].
    intros code p Hp. by apply safe_statistics_option. }
  intros ? r8 [Hr8 _] _. eapply safe_bind; [by apply safe_discard|]. intros ? r9 [Hr9 _] _. apply safe_get_bind.
  destruct (StatisticsCallback _); [|by apply safe_ret].
  apply safe_modify; [apply moved_same; [..|apply Hr9] | done]; done.
Qed.

(** The packet at hand: its lengths, its time and its interface. *)
Record ci_ok (c : CaptureInfo) (r : NgReader) : Prop := {
  ci_length : 0 <= CaptureLength c;
  ci_time : time_ok (Timestamp c);
  ci_interface : 0 <= InterfaceIndex c < len (ifaces r);
}.

Lemma safe_read_packet_block interface r : sound r →
  (∀ buf i, is_bytes buf → len buf = 20 → sound i → safe (interface buf) (fun v _ => 0 <= v) i) →
  safe (read_packet_block interface) (fun _ r' => ci_ok (ci_ r') r') r.
Proof.
  intros Hr Hint. unfold read_packet_block.
  eapply safe_bind; [apply safe_input; [done | by apply safe_readBytes, Hr]|]. intros buf r1 [Hr1 _] [(Hb & Hl & _) _].
  eapply safe_bind; [apply safe_input; [done | apply safe_consume, Hr1]|]. intros ? r2 [Hr2 _] _.
  eapply safe_bind; [apply safe_input; [done | apply Hint; [done | lia | apply Hr2]]|]. intros id r3 [Hr3 _] [Hid _].
  eapply (safe_bind _ _ (fun _ _ => True)); [apply safe_modify; [apply moved_same; [..|apply Hr3]|]; done|].
  intros ? r4 [Hr4 _] _. eapply safe_bind; [by apply safe_named_interface|]. intros iface ? _ (-> & Hi & Hix).
  eapply safe_bind; [apply safe_input; [done | apply safe_timestamp; [done | lia | lia | apply Hr4]]|].
  intros ts r5 [Hr5 _] [_ E5]. destruct (convertTime_ok iface ts Hi) as (t & -> & Ht).
  apply (safe_bind _ _ (fun a r' => a = t ∧ r' = r5)); [by apply safe_lift|]. intros ? ? _ [-> ->].
  eapply safe_bind; [apply safe_input; [done | apply safe_field32; [done | lia | lia | apply Hr5]]|].
  intros caplen r6 [Hr6 _] [[_ Hcap] E6].
  eapply safe_bind; [apply safe_input; [done | apply safe_field32; [done | lia | lia | apply Hr6]]|].
  intros length r7 [Hr7 _] [_ E7]. assert (ifaces r7 = ifaces r4) as Ei by (by rewrite E7, E6, E5). apply safe_modify; [apply moved_same; [..|apply Hr7]; done|].
  split; cbn; [unfold is_u32 in Hcap; lia | done |]. rewrite Ei. unfold index in Hix. destruct (Z.ltb_spec id 0); [lia|].
  destruct (ifaces r4 !! Z.to_nat id) eqn:E; [|done]. apply lookup_lt_Some in E. unfold len. lia.
Qed.

Lemma safe_read_simple_packet r : sound r → safe read_simple_packet (fun _ r' => ci_ok (ci_ r') r') r.
Proof.
  intros Hr. unfold read_simple_packet.
  eapply safe_bind; [apply safe_input; [done | by apply safe_readBytes, Hr]|]. intros buf r1 [Hr1 _] [(Hb & Hl & _) _].
  eapply safe_bind; [apply safe_input; [done | apply safe_consume, Hr1]|]. intros ? r2 [Hr2 _] _.
  eapply safe_bind; [apply safe_input; [done | apply safe_field32; [done | lia | lia | apply Hr2]]|].
  intros n r3 [Hr3 _] [[_ Hn] _]. unfold is_u32 in Hn.
  apply (safe_bind _ _ (fun _ r' => ci_ r' = mkCaptureInfo zero_time n n 0));
    [apply safe_modify; [apply moved_same; [..|apply Hr3]|]; done|].
  intros ? r4 [Hr4 _] Hci. apply safe_get_bind. destruct (Z.eqb_spec (len (ifaces r4)) 0) as [|Hne]; [by apply safe_throw|].
  destruct (index_first r4 Hr4) as (i0 & -> & Hi0); [by intros E; rewrite E in Hne|].
  apply (safe_bind _ _ (fun a r' => a = i0 ∧ r' = r4)); [by apply safe_lift|]. intros ? ? _ [-> ->].
  pose proof (len_nonneg (ifaces r4)) as Hpos. assert (time_ok zero_time) by done.
  destruct (_ && _); [apply safe_modify; [apply moved_same; [done | done | apply Hr4]|] | apply safe_ret; [done|]; rewrite Hci];
    (split; cbn; [destruct Hi0; lia | done | lia]).
Qed.

Lemma safe_read_a_block r : sound r →
  safe read_a_block (fun found r' => (left r' < left r)%nat ∧ (found = true → ci_ok (ci_ r') r')) r.
Proof.
  intros Hr. unfold read_a_block.
  eapply safe_bind; [apply safe_input; [done | apply safe_readBlock, Hr]|]. intros ? r1 [Hr1 _] [Hl1 _].
  assert (left r1 < left r)%nat as Hlt by (cbn in *; lia). clear Hl1. apply safe_get_bind.
  assert (∀ m : M NgReader unit, ∀ P, safe m P r1 → safe (_ ← m; mret false)
    (fun found r' => (left r' < left r)%nat ∧ (found = true → ci_ok (ci_ r') r')) r1) as Hno.
  { intros m P Hm. eapply safe_bind; [exact Hm|]. intros ? r2 [Hr2 Hl2] _. apply safe_ret; [done|]. split; [lia | done]. }
  assert (∀ m : M NgReader unit, safe m (fun _ r' => ci_ok (ci_ r') r') r1 → safe (_ ← m; mret true)
    (fun found r' => (left r' < left r)%nat ∧ (found = true → ci_ok (ci_ r') r')) r1) as Hyes.
  { intros m Hm. eapply safe_bind; [exact Hm|]. intros ? r2 [Hr2 Hl2] ?. apply safe_ret; [done|]. split; [lia | done]. }
  cbv zeta. repeat (destruct (_ =? _)).
  - apply Hyes, safe_read_packet_block; [done|]. intros buf i Hb Hl Hi.
    eapply safe_mono; [apply safe_field32; [done | lia | lia | done]|]. intros v ? _ [_ Hv]. unfold is_u32 in Hv. lia.
  - by apply Hyes, safe_read_simple_packet.
  - eapply Hno. by apply safe_add_interface.
  - eapply Hno. by apply safe_readInterfaceStatistics.
  - eapply Hno. by apply safe_readSectionHeader.
  - apply Hyes, safe_read_packet_block; [done|]. intros buf i Hb Hl Hi.
    eapply safe_mono; [apply safe_field16; [done | lia | lia | done]|]. intros v ? _ [_ Hv]. unfold is_u16 in Hv. lia.
  - eapply Hno. by apply safe_discard.
Qed.

Lemma safe_readPacketHeader r : sound r → safe readPacketHeader (fun _ r' => ci_ok (ci_ r') r') r.
Proof.
  intros Hr. unfold readPacketHeader. apply safe_get_bind.
  enough (∀ fuel r, sound r → (left r < fuel)%nat →
    safe (readPacketHeader_loop fuel) (fun _ r' => ci_ok (ci_ r') r') r) as Hgo
    by (apply Hgo; [done | unfold blocks_bound; cbn; lia]). clear r Hr.
  induction fuel as [|fuel IH]; intros r Hr Hf; [lia|]. cbn [readPacketHeader_loop].
  eapply safe_bind; [by apply safe_read_a_block|]. intros found r1 [Hr1 _] [Hl1 Hci].
  destruct found; cbn [negb]; [|apply IH; [done | lia]]. specialize (Hci eq_refl). apply safe_get_bind.
  destruct (index_ok (ifaces r1) (InterfaceIndex (ci_ r1))) as (iface & _ & ->); [apply Hci|].
  apply (safe_bind _ _ (fun _ r' => r' = r1)); [by apply safe_lift|]. intros ? ? _ ->.
  destruct (negb _).
  - destruct (negb _); [|by apply safe_ret]. eapply safe_bind; [by apply safe_discard|]. intros ? r2 [Hr2 Hl2] _.
    destruct (ErrorOnMismatchingLinkType _); [by apply safe_throw | apply IH; [done | lia]].
  - apply safe_modify; [apply moved_same; [..|apply Hr1]; done|]. destruct Hci. by split.
Qed.

Lemma make_bytes_nonneg n : 0 <= n → make_bytes n = Ok (replicate (Z.to_nat n) 0).
Proof. intros Hn. unfold make_bytes. by destruct (Z.ltb_spec n 0); [lia|]. Qed.

Lemma safe_discard_rest n r : sound r → safe (discard_rest n) (fun _ r' => ifaces r' = ifaces r) r.
Proof.
  intros Hr. apply safe_get_bind. eapply safe_mono; [apply safe_input; [done | apply safe_Discard, Hr]|].
  by intros ? r' _ [_ ->].
Qed.

(** A packet as it is returned: as long as it says, from an interface that is known. *)
Definition packet_ok (p : bytes * CaptureInfo * option Z) (r : NgReader) : Prop :=
  len p.1.1 = CaptureLength p.1.2 ∧ ci_ok p.1.2 r.

Lemma safe_ReadPacketData r : sound r → safe ReadPacketData packet_ok r.
Proof.
  intros Hr. unfold ReadPacketData. eapply safe_bind; [by apply safe_readPacketHeader|].
  intros ? r1 [Hr1 _] [Hc Ht Hi]. apply safe_get_bind. cbv zeta. rewrite make_bytes_nonneg by done.
  apply (safe_bind _ _ (fun _ r' => r' = r1)); [by apply safe_lift|]. intros ? ? _ ->.
  eapply safe_bind; [apply safe_input; [done | by apply safe_readBytes, Hr1]|].
  intros data r2 [Hr2 _] [(_ & Hl & _) E2]. eapply safe_bind; [by apply safe_discard_rest|]. intros ? r3 [Hr3 _] E3.
  apply safe_ret; [done|]. split; [done|]. split; [done..|]. by rewrite E3, E2.
Qed.

(** The part of [packet_ok] that does not depend on the interfaces. *)
Definition packet_fits (p : bytes * CaptureInfo * option Z) : Prop :=
  len p.1.1 = CaptureLength p.1.2 ∧ time_ok (Timestamp p.1.2) ∧ 0 <= InterfaceIndex p.1.2.

Lemma safe_read_packets n : ∀ r, sound r → safe (read_packets n) (fun ps _ => Forall packet_fits ps) r.
Proof.
  induction n as [|n IH]; intros r Hr; cbn [read_packets]; [by apply safe_ret|].
  eapply safe_bind; [by apply safe_ReadPacketData|]. intros p r1 [Hr1 _] [Hl [_ Ht Hi]].
  eapply safe_bind; [by apply IH|]. intros ps r2 [Hr2 _] Hps. apply safe_ret; [done|].
  constructor; [|done]. split_and!; [done..|lia].
Qed.

Lemma new_reader_ok s o : is_bytes (rest s) → sound (new_reader s o).
Proof.
  intros Hs. split; [|constructor]. constructor; cbn -[replicate]; rewrite ?len_replicate; (done || lia || idtac).
  apply is_bytes_replicate. unfold is_byte. lia.
Qed.

Lemma safe_open_file r : sound r → safe open_file (fun _ _ => True) r.
Proof.
  intros Hr. unfold open_file. eapply safe_bind; [apply safe_input; [done | apply safe_readBlock, Hr]|].
  intros ? r1 [Hr1 _] _. apply safe_get_bind. destruct (negb _); [by apply safe_throw | by apply safe_readSectionHeader].
Qed.

Lemma NewNgReader_ok s o r : is_bytes (rest s) → NewNgReader s o = Ok r → reader_ok r.
Proof.
  intros Hs. pose proof (safe_open_file _ (new_reader_ok s o Hs)) as Ho. unfold safe in Ho. unfold NewNgReader.
  destruct (open_file (new_reader s o)) as [[[]|e|c|] r']; [|done..]. intros [= <-]. apply Ho.
Qed.

(** C36 (safety): whatever the bytes of the input and the options, opening a
    pcapng file and reading any number of packets ends, every packet that is
    returned is as long as its capture length says, and the only panic is a
    division by zero. *)
Theorem ng_reader_safe s o n : is_bytes (rest s) →
  match NewNgReader s o with
  | Ok r => safe (read_packets n) (fun ps _ => Forall packet_fits ps) r
  | Err _ => True
  | Panic c => c = divided_by_zero
  | NoFuel => False
  end.
Proof.
  intros Hs. pose proof (safe_open_file _ (new_reader_ok s o Hs)) as Ho. unfold safe in Ho. unfold NewNgReader.
  destruct (open_file (new_reader s o)) as [[[]|e|c|] r]; [|done..]. by apply safe_read_packets, Ho.
Qed.

(** A section header and an interface with a resolution of [r]. *)
Definition sample_file (r : Z) : bytes :=
  [10; 13; 13; 10; 28; 0; 0; 0; 77; 60; 43; 26; 1; 0; 0; 0] ++ replicate 8 255 ++ [28; 0; 0; 0] ++
  [1; 0; 0; 0; 32; 0; 0; 0; 1; 0; 0; 0; 0; 0; 0; 0; 9; 0; 1; 0; r; 0; 0; 0; 0; 0; 0; 0; 32; 0; 0; 0].

Lemma ng_reader_safe_witness :
  match NewNgReader (mkStream (sample_file 9 ++ [6; 0; 0; 0; 1]) io_EOF) DefaultNgReaderOptions with
  | Ok r => safe (read_packets 2) (fun ps _ => Forall packet_fits ps) r
  | Err _ => True
  | Panic c => c = divided_by_zero
  | NoFuel => False
  end.
Proof.
  apply (ng_reader_safe (mkStream (sample_file 9 ++ [6; 0; 0; 0; 1]) io_EOF) DefaultNgReaderOptions 2).
  vm_compute. repeat constructor; congruence.
Defined.

(** With an exponent of 64 or more the panic is there, for either base. *)
Lemma resolution_panics :
  NewNgReader (mkStream (sample_file 64) io_EOF) DefaultNgReaderOptions = Panic divided_by_zero ∧
  NewNgReader (mkStream (sample_file 192) io_EOF) DefaultNgReaderOptions = Panic divided_by_zero.
Proof. split; vm_compute; reflexivity. Qed.

Lemma resolution_mask r : second_mask r = 0 ↔ 64 <= NgExponent r.
Proof.
  assert (0 <= NgExponent r < 128) as He.
  { unfold NgExponent. change 0x7f with (Z.ones 7). rewrite land_low by lia. apply Z.mod_pos_bound. lia. }
  unfold second_mask. rewrite Z.shiftl_1_l.
  assert (∀ e, In e (seqZ 0 128) → (u64 (2 ^ e) =? 0) = (64 <=? e) ∧
    (Nat.iter (Z.to_nat e) (fun m => u64 (m * 10)) 1 =? 0) = (64 <=? e)) as Hall.
  { assert (forallb (fun e => Bool.eqb (u64 (2 ^ e) =? 0) (64 <=? e) &&
      Bool.eqb (Nat.iter (Z.to_nat e) (fun m => u64 (m * 10)) 1 =? 0) (64 <=? e)) (seqZ 0 128) = true) as H
      by (vm_compute; reflexivity).
    rewrite forallb_forall in H. intros e Hin. apply H in Hin.
    apply andb_true_iff in Hin as [?%eqb_prop ?%eqb_prop]. done. }
  destruct (Hall (NgExponent r)) as [H2 H10]; [by apply list_elem_of_In, elem_of_seqZ|].
  destruct (Binary r); rewrite <- Z.eqb_eq, <- Z.leb_le; [by rewrite H2 | by rewrite H10].
Qed.

(** ** Reading without copying *)

(** A method that neither looks at the packet buffer nor changes it. *)
Definition oblivious {A} (m : M NgReader A) : Prop :=
  ∀ b r, m (set_ngBuf b r) = (fst (m r), set_ngBuf b (snd (m r))).

Lemma oblivious_bind {A B} (m : M NgReader A) (k : A → M NgReader B) :
  oblivious m → (∀ a, oblivious (k a)) → oblivious (m ≫= k).
Proof. intros Hm Hk b r. rewrite !bind_eq, Hm. destruct (m r) as [[a|e|c|] r']; cbn; [apply Hk | done..]. Qed.
Lemma oblivious_get {B} (k : NgReader → M NgReader B) :
  (∀ r, oblivious (k r)) → (∀ b r s, k (set_ngBuf b r) s = k r s) → oblivious (get ≫= k).
Proof. intros Hk Hb b r. rewrite !bind_eq. cbn [get]. rewrite Hb. apply Hk. Qed.
Lemma oblivious_ret {A} (a : A) : oblivious (mret a).
Proof. done. Qed.
Lemma oblivious_throw {A} e : oblivious (throw e : M NgReader A).
Proof. done. Qed.
Lemma oblivious_lift {A} (o : outcome A) : oblivious (lift o).
Proof. done. Qed.
Lemma oblivious_modify f : (∀ b r, f (set_ngBuf b r) = set_ngBuf b (f r)) → oblivious (modify f).
Proof. intros Hf b r. unfold modify. by rewrite Hf. Qed.
Lemma oblivious_input {A} (m : M ngInput A) : oblivious (input m).
Proof. intros b r. unfold input, zoom. cbn. by destruct (m (nr_in r)) as [o i]. Qed.
Lemma oblivious_statistics {A} id (m : M (ngInput * NgInterfaceStatistics) A) : oblivious (on_statistics id m).
Proof. intros b r. unfold on_statistics, zoom. cbn. unfold statistics_of. cbn. by destruct (m _) as [o p]. Qed.

Ltac oblivious := repeat first
  [ assumption
  | match goal with H : ∀ _, oblivious _ |- _ => simple apply H end
  | progress cbv zeta
  | progress intros
  | match goal with
    | |- oblivious (get ≫= _) => apply oblivious_get; [|intros; reflexivity]
    | |- oblivious (if ?x then _ else _) => destruct x
    end
  | apply oblivious_bind
  | apply oblivious_ret
  | apply oblivious_throw
  | apply oblivious_lift
  | apply oblivious_input
  | apply oblivious_statistics
  | apply oblivious_modify; [reflexivity] ].

Lemma oblivious_add_interface : oblivious add_interface.
Proof. unfold add_interface. oblivious. Qed.
Lemma oblivious_firstInterface_loop fuel : oblivious (firstInterface_loop fuel).
Proof.
  induction fuel; cbn [firstInterface_loop]; [done|]. pose proof oblivious_add_interface. oblivious.
Qed.
Lemma oblivious_readSectionHeader : oblivious readSectionHeader.
Proof. pose proof oblivious_firstInterface_loop as H. unfold readSectionHeader, firstInterface. oblivious. Qed.
Lemma oblivious_named_interface id : oblivious (named_interface id).
Proof. unfold named_interface. oblivious. Qed.
Lemma oblivious_readInterfaceStatistics : oblivious readInterfaceStatistics.
Proof.
  pose proof oblivious_named_interface as H. unfold readInterfaceStatistics. oblivious.
Qed.
Lemma oblivious_read_a_block : oblivious read_a_block.
Proof.
  pose proof oblivious_named_interface as H. pose proof oblivious_add_interface.
  pose proof oblivious_readSectionHeader. pose proof oblivious_readInterfaceStatistics.
  unfold read_a_block, read_packet_block, read_simple_packet. oblivious.
Qed.
Lemma oblivious_readPacketHeader : oblivious readPacketHeader.
Proof.
  enough (∀ fuel, oblivious (readPacketHeader_loop fuel)) as H by (unfold readPacketHeader; oblivious).
  induction fuel; cbn [readPacketHeader_loop]; [done|]. pose proof oblivious_read_a_block. oblivious.
Qed.
Lemma oblivious_discard_rest n : oblivious (discard_rest n).
Proof. unfold discard_rest. oblivious. Qed.

(** Two readers that differ at most in their packet buffers. *)
Definition same_but_buffer (r1 r2 : NgReader) : Prop := r2 = set_ngBuf (packetBuf r2) r1.

(** Filling the front of a buffer that is large enough. *)
Lemma fill_packetBuf n b r : 0 <= n <= len b →
  ∃ b', read_into_packetBuf n (set_ngBuf b r) =
          (_ ← fst (input (readBytes n) r); Ok tt, set_ngBuf b' (snd (input (readBytes n) r))) ∧
        ∀ data, fst (input (readBytes n) r) = Ok data → slice_to b' n = Ok data.
Proof.
  intros Hn. unfold read_into_packetBuf, input, zoom, readBytes, read_some. cbn [nr_in set_ngBuf set_in packetBuf].
  set (got := take (Z.to_nat n) (rest (in_r (nr_in r)))).
  assert (len got <= n) as Hle by (unfold got; rewrite len_take; lia). rewrite write_at_ok by lia.
  change (take (Z.to_nat 0) b) with ([] : bytes). cbn [app].
  destruct (Z.geb_spec (len got) n) as [Hge|Hlt]; eexists; (split; [reflexivity|]); cbn; [|done].
  intros data [= <-]. apply slice_to_app. lia.
Qed.

Lemma outcome_unit_bind {A B} (o : outcome A) (k : A → outcome B) :
  (_ ← (_ ← o; Ok tt); o ≫= k) = o ≫= k.
Proof. by destruct o. Qed.

(** Reading a packet into the reader's own buffer gives the
    same packet, or the same error, as reading it into a new one, whatever the
    buffer holds, and leaves the reader in the same state but for its buffer. *)
Theorem ng_ZeroCopy_equivalent r1 r2 : reader_ok r1 → same_but_buffer r1 r2 →
  let '(o1, r1') := ReadPacketData r1 in
  let '(o2, r2') := ZeroCopyReadPacketData r2 in
  o2 = o1 ∧ same_but_buffer r1' r2'.
Proof.
  intros Hok Hs. pose proof (safe_readPacketHeader r1 Hok) as Hh. unfold safe in Hh.
  rewrite Hs. generalize (packetBuf r2) as b. clear r2 Hs. intros b.
  assert (∃ b', ZeroCopyReadPacketData (set_ngBuf b r1) =
            (fst (ReadPacketData r1), set_ngBuf b' (snd (ReadPacketData r1)))) as (b' & ->);
    [|by destruct (ReadPacketData r1)].
  unfold ReadPacketData, ZeroCopyReadPacketData. rewrite !bind_eq, oblivious_readPacketHeader.
  destruct (readPacketHeader r1) as [[[]|e|c|] r] eqn:Eh; cbn [fst snd]; [|by exists b..].
  destruct Hh as [[Hr _] Hci]. rewrite !bind_eq. cbn [get]. change (ci_ (set_ngBuf b r)) with (ci_ r).
  set (n := CaptureLength (ci_ r)). assert (0 <= n) as Hn by apply Hci. rewrite make_bytes_nonneg, lift_bind by done.
  match goal with |- context [(?m ≫= _) (set_ngBuf b r)] => set (grow := m) end.
  assert (∃ b1, n <= len b1 ∧ grow (set_ngBuf b r) = (Ok tt, set_ngBuf b1 r)) as (b1 & Hb1 & He).
  { unfold grow. cbn [packetBuf set_ngBuf ifaces]. destruct (Z.ltb_spec (len b) n); [|by exists b].
    destruct (index_ok (ifaces r) (InterfaceIndex (ci_ r))) as (i & _ & ->); [apply Hci|]. rewrite lift_bind.
    exists (replicate (Z.to_nat (if SnapLength i <? n then n else SnapLength i)) 0). rewrite len_replicate.
    destruct (Z.ltb_spec (SnapLength i) n); (split; [lia|]); by rewrite make_bytes_nonneg, lift_bind by lia. }
  rewrite bind_eq, He, bind_eq. cbn [get]. cbn [packetBuf set_ngBuf].
  rewrite slice_to_ok, lift_bind, bind_eq by lia.
  destruct (fill_packetBuf n b1 r (conj Hn Hb1)) as (b2 & -> & Hb2). rewrite !bind_eq.
  destruct (input (readBytes n) r) as [[data|e|c|] r3]; cbn [fst snd mbind outcome_bind]; [|by exists b2..].
  rewrite !bind_eq, oblivious_discard_rest. exists b2.
  destruct (discard_rest n r3) as [[[]|e|c|] r4]; cbn [fst snd]; [|done..].
  rewrite bind_eq. cbn [get packetBuf set_ngBuf]. by rewrite (Hb2 data eq_refl), lift_bind.
Qed.

Definition sample_packet_file : stream :=
  mkStream (sample_file 9 ++ [6; 0; 0; 0; 36; 0; 0; 0] ++ replicate 12 0 ++ [3; 0; 0; 0; 3; 0; 0; 0; 7; 8; 9; 0; 36; 0; 0; 0]) io_EOF.

Lemma ng_ZeroCopy_equivalent_witness :
  ∃ r1, NewNgReader sample_packet_file DefaultNgReaderOptions = Ok r1 ∧
    let '(o1, r1') := ReadPacketData r1 in
    let '(o2, r2') := ZeroCopyReadPacketData (set_ngBuf [1; 2] r1) in
    o2 = o1 ∧ same_but_buffer r1' r2'.
Proof.
  eexists. split; [vm_compute; reflexivity|].
  apply ng_ZeroCopy_equivalent; [|done]. apply (NewNgReader_ok sample_packet_file DefaultNgReaderOptions).
  - vm_compute. repeat constructor; congruence.
  - vm_compute. reflexivity.
Defined.
