(* ===== verification/NgRoundtrip.v ===== *)
(** * Reading pcapng files that are well formed

    What the reader makes of the blocks that the writer writes, in either byte order,
    and the round trip from the writer to the reader. Files of other writers are in
    NgFile. *)

From S2P Require Import Prelude Capture Ng NgWrite NgReader.

(** ** What is read back *)

(** A time, at nanoseconds, with the offset of its interface in seconds. *)
Definition as_read_time (offset : Z) (t : time) : time :=
  mkTime (i64 (u64 (seconds t + offset))) (nanoseconds t).

Definition as_read_interface (i : NgInterface) : NgInterface :=
  mkInterface (if_Name i) (if_Comment i) (if_Description i) (if_Filter i) (if_OS i) (if_LinkType i) 9
    (TimestampOffset i) (SnapLength i) zero_statistics nanosPerSecond 1 1.

(** The epoch stands for a missing time of the last update; the comment is not written. *)
Definition as_read_statistics (offset : Z) (s : NgInterfaceStatistics) : NgInterfaceStatistics :=
  mkStatistics
    (as_read_time offset (if IsZero (LastUpdate s) then mkTime 0 0 else LastUpdate s))
    (if IsZero (StartTime s) then zero_time else as_read_time offset (StartTime s))
    (if IsZero (EndTime s) then zero_time else as_read_time offset (EndTime s))
    [] (PacketsReceived s) (PacketsDropped s).

Definition interface_at (ifs : list NgInterface) (id : Z) : NgInterface := nth (Z.to_nat id) ifs zero_interface.

(** The interfaces after a block. *)
Definition ifaces_after (ifs : list NgInterface) (i : ng_item) : list NgInterface :=
  match i with
  | ItemInterface intf => ifs ++ [as_read_interface intf]
  | ItemStatistics id st =>
      alter (intf_Statistics (as_read_statistics (TimestampOffset (interface_at ifs id)) st)) (Z.to_nat id) ifs
  | ItemPacket _ _ => ifs
  end.

Definition events_after (o : NgReaderOptions) (ifs : list NgInterface) (evs : list ng_event) (i : ng_item) : list ng_event :=
  match i with
  | ItemStatistics id st =>
      if StatisticsCallback o
      then evs ++ [StatisticsRead id (as_read_statistics (TimestampOffset (interface_at ifs id)) st)] else evs
  | _ => evs
  end.

(** The packet that a block is, unless it is passed over: without mixed link types
    only packets of the link type [lt] are returned. *)
Definition packet_of (o : NgReaderOptions) (lt : Z) (ifs : list NgInterface) (i : ng_item)
    : option (bytes * CaptureInfo * option Z) :=
  match i with
  | ItemPacket ci data =>
      let iface := interface_at ifs (InterfaceIndex ci) in
      if WantMixedLinkType o || (if_LinkType iface =? lt) then
        Some (data,
              mkCaptureInfo (as_read_time (TimestampOffset iface) (Timestamp ci)) (len data) (Length ci) (InterfaceIndex ci),
              if WantMixedLinkType o then Some (if_LinkType iface) else None)
      else None
  | _ => None
  end.

Fixpoint all_ifaces (ifs : list NgInterface) (l : list ng_item) : list NgInterface :=
  match l with [] => ifs | i :: l' => all_ifaces (ifaces_after ifs i) l' end.

Fixpoint all_events (o : NgReaderOptions) (ifs : list NgInterface) (evs : list ng_event) (l : list ng_item) : list ng_event :=
  match l with [] => evs | i :: l' => all_events o (ifaces_after ifs i) (events_after o ifs evs i) l' end.

Fixpoint all_packets (o : NgReaderOptions) (lt : Z) (ifs : list NgInterface) (l : list ng_item)
    : list (bytes * CaptureInfo * option Z) :=
  match l with
  | [] => []
  | i :: l' => option_list (packet_of o lt ifs i) ++ all_packets o lt (ifaces_after ifs i) l'
  end.

(** ** The input *)

Section reading.
Context (big : bool) (e : error).

(** The input is at [t]; the array behind the option is large enough. *)
Record input_at (t : bytes) (i : ngInput) : Prop := {
  at_stream : in_r i = mkStream t e;
  at_order : in_bigEndian i = big;
  at_array : 1024 <= len (in_array i) < 65536;
}.

(** [m] returns, and [Q] holds then. *)
Definition does {S A} (m : M S A) (Q : A → S → Prop) (s : S) : Prop := wp m Q (fun _ _ => False) s.

Lemma does_bind {S A B} (m : M S A) (k : A → M S B) P Q s :
  does m P s → (∀ a s', P a s' → does (k a) Q s') → does (m ≫= k) Q s.
Proof. intros Hm Hk. unfold does. rewrite wp_bind. by refine (wp_mono _ _ _ _ _ _ _ _ Hm). Qed.

Lemma does_ret {S A} (a : A) (Q : A → S → Prop) s : Q a s → does (mret a) Q s.
Proof. done. Qed.
Lemma does_get {S B} (k : S → M S B) Q s : does (k s) Q s → does (get ≫= k) Q s.
Proof. done. Qed.
Lemma does_modify {S} (f : S → S) (Q : unit → S → Prop) s : Q tt (f s) → does (modify f) Q s.
Proof. done. Qed.
Lemma does_modify_bind {S B} (f : S → S) (k : unit → M S B) Q s : does (k tt) Q (f s) → does (modify f ≫= k) Q s.
Proof. done. Qed.
Lemma does_lift_bind {S A B} (o : outcome A) a (k : A → M S B) Q s : o = Ok a → does (k a) Q s → does (lift o ≫= k) Q s.
Proof. by intros ->. Qed.
Lemma does_mono {S A} (m : M S A) (P Q : A → S → Prop) s : does m P s → (∀ a s', P a s' → Q a s') → does m Q s.
Proof. intros Hm HQ. by refine (wp_mono _ _ _ _ _ _ _ _ Hm). Qed.
Lemma does_eq {S A} (m : M S A) (Q : A → S → Prop) s : does m Q s → ∃ a s', m s = (Ok a, s') ∧ Q a s'.
Proof. unfold does, wp. destruct (m s) as [[a|?|?|] s']; [|done..]. by exists a, s'. Qed.

Lemma read_some_app n b t : len b = n → read_some n (mkStream (b ++ t) e) = (b, true, mkStream t e).
Proof.
  intros Hb. assert (Z.to_nat n = length b) as Hn by (unfold len in Hb; lia).
  unfold read_some. cbn [rest end_error]. rewrite Hn, take_app_length, drop_app_length. by rewrite (proj2 (Z.geb_le _ _)) by lia.
Qed.

Lemma input_moves t t' i : input_at t i → input_at t' (set_stream (mkStream t' e) i).
Proof. by intros [? ? ?]. Qed.

Lemma does_readBytes n b t i : len b = n → input_at (b ++ t) i →
  does (readBytes n) (fun b' i' => b' = b ∧ input_at t i' ∧ in_length i' = in_length i ∧ in_typ i' = in_typ i) i.
Proof.
  intros Hb Hi. unfold does, wp, readBytes. rewrite (at_stream _ _ Hi), (read_some_app n b t Hb).
  split; [done|]. split; [by eapply input_moves | done].
Qed.

Lemma does_Discard n b t i : len b = n → input_at (b ++ t) i →
  does (Discard n) (fun _ i' => input_at t i' ∧ in_length i' = in_length i ∧ in_typ i' = in_typ i) i.
Proof.
  intros Hb Hi. unfold does, wp, Discard. pose proof (len_nonneg b). destruct (Z.ltb_spec n 0); [lia|].
  rewrite (at_stream _ _ Hi), (read_some_app n b t Hb). split; [by eapply input_moves | done].
Qed.

Lemma does_consume n m t i : in_length i = n + m → is_u32 m → input_at t i →
  does (consume n) (fun _ i' => input_at t i' ∧ in_length i' = m ∧ in_typ i' = in_typ i ∧ in_code i' = in_code i ∧
    in_array i' = in_array i ∧ in_size i' = in_size i) i.
Proof.
  intros Hl Hm [? ? ?]. apply does_modify. split; [done|]. cbn. rewrite Hl. split; [|done].
  rewrite <- (u32_small m Hm) at 2. f_equal. lia.
Qed.

Lemma does_discard_block b t i : len b = in_length i → input_at (b ++ t) i →
  does discard_block (fun _ i' => input_at t i' ∧ in_length i' = in_length i) i.
Proof. intros Hb Hi. apply does_get. eapply does_mono; [by eapply does_Discard|]. by intros _ i' (? & ? & _). Qed.

(** ** Fields *)

Lemma getUint16_enc v r : is_u16 v → (if big then BE_Uint16 (enc16 big v ++ r) else LE_Uint16 (enc16 big v ++ r)) = Ok v.
Proof. destruct big; [apply BE_Uint16_be16 | apply LE_Uint16_le16]. Qed.
Lemma getUint32_enc v r : is_u32 v → (if big then BE_Uint32 (enc32 big v ++ r) else LE_Uint32 (enc32 big v ++ r)) = Ok v.
Proof. destruct big; [apply BE_Uint32_be32 | apply LE_Uint32_le32]. Qed.

Lemma halves v : is_u64 v → is_u32 (v / 4294967296) ∧ v mod 4294967296 + 4294967296 * (v / 4294967296) = v.
Proof. unfold is_u64, is_u32. intros ?. split; zdiv. Qed.

Lemma getUint64_enc v : is_u64 v → (if big then BE_Uint64 (enc64 big v) else LE_Uint64 (enc64 big v)) = Ok v.
Proof.
  intros Hv. destruct (halves v Hv) as [Hhi Hsum]. pose proof (u32_range v) as Hlo. unfold enc64, BE_Uint64, LE_Uint64.
  destruct big.
  - rewrite BE_Uint32_be32 by done. cbn [mbind outcome_bind]. rewrite (slice_from_app (be32 (v / 4294967296))) by done.
    cbn [mbind outcome_bind]. rewrite <- (be32_u32 v), <- (app_nil_r (be32 (u32 v))), BE_Uint32_be32 by done.
    unfold u32. cbn [mbind outcome_bind]. by rewrite Hsum.
  - unfold le64. rewrite <- (le32_u32 v), LE_Uint32_le32 by done. cbn [mbind outcome_bind].
    rewrite (slice_from_app (le32 (u32 v))) by done. cbn [mbind outcome_bind].
    rewrite <- (app_nil_r (le32 (v / 4294967296))), LE_Uint32_le32 by done. unfold u32. cbn [mbind outcome_bind]. by rewrite Hsum.
Qed.

(** A field of a buffer, between what is before it and after it. *)
Lemma does_field16 t pre v post lo i : lo = len pre → is_u16 v → input_at t i →
  does (field16 (pre ++ enc16 big v ++ post) lo) (fun v' i' => v' = v ∧ i' = i) i.
Proof.
  intros -> Hv Hi. unfold field16. rewrite (slice_app pre (enc16 big v) post) by (rewrite ?len_enc16; lia).
  apply (does_lift_bind _ (enc16 big v)); [done|]. apply does_get. rewrite (at_order _ _ Hi).
  unfold does, wp, lift. rewrite <- (app_nil_r (enc16 big v)), getUint16_enc by done. done.
Qed.
Lemma does_field32 t pre v post lo i : lo = len pre → is_u32 v → input_at t i →
  does (field32 (pre ++ enc32 big v ++ post) lo) (fun v' i' => v' = v ∧ i' = i) i.
Proof.
  intros -> Hv Hi. unfold field32. rewrite (slice_app pre (enc32 big v) post) by (rewrite ?len_enc32; lia).
  apply (does_lift_bind _ (enc32 big v)); [done|]. apply does_get. rewrite (at_order _ _ Hi).
  unfold does, wp, lift. rewrite <- (app_nil_r (enc32 big v)), getUint32_enc by done. done.
Qed.

Lemma does_field16_last t pre v lo i : lo = len pre → is_u16 v → input_at t i →
  does (field16 (pre ++ enc16 big v) lo) (fun v' i' => v' = v ∧ i' = i) i.
Proof. rewrite <- (app_nil_r (enc16 big v)). apply does_field16. Qed.
Lemma does_field32_last t pre v lo i : lo = len pre → is_u32 v → input_at t i →
  does (field32 (pre ++ enc32 big v) lo) (fun v' i' => v' = v ∧ i' = i) i.
Proof. rewrite <- (app_nil_r (enc32 big v)). apply does_field32. Qed.

Lemma enc32_u32 v : enc32 big (u32 v) = enc32 big v.
Proof. unfold enc32. destruct big; [apply be32_u32 | apply le32_u32]. Qed.

(** The two halves are disjoint bits. *)
Lemma join_halves ts : is_u64 ts → Z.lor (Z.shiftl (ts / 4294967296) 32) (u32 ts) = ts.
Proof.
  intros Hts. destruct (halves ts Hts) as [Hhi Hsum]. rewrite lor_disjoint; [|lia|apply (u32_range ts)].
  unfold u32. change (2 ^ 32) with 4294967296. lia.
Qed.

Lemma does_timestamp t pre ts post lo i : lo = len pre → is_u64 ts → input_at t i →
  does (timestamp (pre ++ enc_time big ts ++ post) lo) (fun v' i' => v' = ts ∧ i' = i) i.
Proof.
  intros -> Hts Hi. destruct (halves ts Hts) as [Hhi _]. unfold enc_time. rewrite <- app_assoc.
  eapply does_bind; [by eapply does_field32|]. intros ? ? [-> ->].
  rewrite app_assoc, <- (enc32_u32 ts).
  eapply does_bind; [eapply (does_field32 t (pre ++ enc32 big _)); [by lens | apply u32_range | done]|].
  intros ? ? [-> ->]. apply does_ret. by rewrite join_halves.
Qed.

(** ** Blocks *)

Lemma does_readBlock typ body t i : typ ≠ ngBlockTypeSectionHeader → is_u32 typ → is_u32 (len body + 12) →
  input_at (block big typ body ++ t) i →
  does readBlock (fun _ i' => input_at (body ++ enc32 big (len body + 12) ++ t) i' ∧
    in_typ i' = typ ∧ in_length i' = len body + 4) i.
Proof.
  intros Hne Ht Hl Hi. unfold block in Hi. rewrite <- !app_assoc in Hi.
  rewrite (app_assoc (enc32 big typ)) in Hi. unfold readBlock.
  eapply does_bind; [eapply does_readBytes; [|exact Hi]; by lens|]. intros ? i1 (-> & Hi1 & _ & _).
  eapply does_bind; [by eapply (does_field32 _ [])|]. intros ? ? [-> ->].
  apply does_modify_bind. destruct (Z.eqb_spec typ ngBlockTypeSectionHeader); [done|].
  assert (input_at (body ++ enc32 big (len body + 12) ++ t) (set_typ typ i1)) as Hi2 by (destruct Hi1; by split).
  eapply does_bind; [eapply (does_field32_last _ (enc32 big typ)); [by lens | done | exact Hi2]|]. intros ? ? [-> ->].
  apply does_modify. split; [destruct Hi2; by split|]. split; [done|]. cbn.
  pose proof (len_nonneg body). unfold is_u32 in Hl. rewrite u32_small; unfold is_u32; lia.
Qed.

(** ** Options *)

(** An option that can be told from the end and from the one before. *)
Definition option_fits (o : Z * bytes) : Prop := o.1 ≠ 0 ∧ is_u16 o.1 ∧ 0 < len o.2 <= 65532.

(** The option at hand has the value [v]. *)
Definition holds (v : bytes) (i : ngInput) : Prop := in_size i = len v ∧ ∃ q, in_array i = v ++ q.

Lemma holds_value v i : holds v i → in_value i = v.
Proof. intros [Hs [q Hq]]. unfold in_value. rewrite Hs, Hq. unfold len. by rewrite Nat2Z.id, take_app_length. Qed.

Lemma padding_mod n : 0 <= n → (if n mod 4 >? 0 then 4 - n mod 4 else n mod 4) = padding n.
Proof.
  intros Hn. rewrite padding_spec. destruct (Z.gtb_spec (n mod 4) 0); zdiv.
Qed.

Lemma size_value_at n t i : 0 < n < 65536 → input_at t i →
  input_at t (size_value n i) ∧ in_size (size_value n i) = n ∧ n <= len (in_array (size_value n i)).
Proof.
  intros Hn [Hr Ho Ha]. unfold size_value, u16. rewrite Z.mod_small by lia.
  destruct (Z.ltb_spec n (len (in_array i))); cbn; rewrite ?len_replicate; (split; [split; cbn; rewrite ?len_replicate|]); (done || lia).
Qed.

Lemma does_read_value v t i : in_size i = len v → len v <= len (in_array i) → input_at (v ++ t) i →
  does read_value (fun _ i' => input_at t i' ∧ holds v i' ∧ in_length i' = in_length i ∧ in_typ i' = in_typ i ∧
    in_code i' = in_code i) i.
Proof.
  intros Hs Hl [Hr Ho Ha]. unfold does, wp, read_value. rewrite Hs, Hr, (read_some_app (len v) v t) by done.
  destruct (cut_at (in_array i) (len v)) as (a1 & a2 & Ea & H1 & H2); [pose proof (len_nonneg v); lia|].
  rewrite Ea. pose proof (write_at_app [] a1 a2 v 0 eq_refl H1) as Hw. cbn [app] in Hw. rewrite Hw.
  split; [split; cbn; [done | done | rewrite len_app in *; rewrite Ea, len_app in Ha; lia]|].
  split; [split; [done | by exists a2]|]. done.
Qed.

(** After [readOption]: the input, the code and the length that is left. *)
Lemma does_readOption o m t i : option_fits o → is_u32 (len (option_bytes big o) + m) → 0 <= m →
  in_length i = len (option_bytes big o) + m → input_at (option_bytes big o ++ t) i →
  does readOption (fun _ i' => input_at t i' ∧ in_length i' = m ∧ in_code i' = o.1 ∧ holds o.2 i') i.
Proof.
  intros (Hne & Hc & Hv) Hu Hm Hl Hi. rewrite len_option_bytes in *. pose proof (padding_range (len o.2)) as Hp.
  unfold readOption. apply does_get. destruct (Z.eqb_spec (in_length i) 4); [lia|].
  unfold option_bytes in Hi. rewrite <- !app_assoc, app_assoc in Hi.
  eapply does_bind; [eapply (does_readBytes 4 (enc16 big o.1 ++ enc16 big (len o.2))); [by lens | exact Hi]|].
  intros ? i1 (-> & Hi1 & Hl1 & _).
  eapply does_bind; [eapply (does_consume 4 (len o.2 + padding (len o.2) + m)); [lia | unfold is_u32 in *; lia | exact Hi1]|].
  intros ? i2 (Hi2 & Hl2 & _).
  eapply does_bind; [eapply (does_field16 _ []); [done | done | exact Hi2]|]. intros ? ? [-> ->].
  apply does_modify_bind.
  assert (input_at (o.2 ++ replicate (Z.to_nat (padding (len o.2))) 0 ++ t) (set_code o.1 i2)) as Hi3 by (destruct Hi2; by split).
  eapply does_bind; [eapply (does_field16_last _ (enc16 big o.1)); [by lens | unfold is_u16; lia | exact Hi3]|]. intros ? ? [-> ->].
  destruct (Z.eqb_spec o.1 ngOptionCodeEndOfOptions); [done|]. destruct (Z.eqb_spec (len o.2) 0); [lia|]. cbn [negb].
  destruct (size_value_at (len o.2) _ _ ltac:(lia) Hi3) as (Hi4 & Hs4 & Hle4).
  apply does_modify_bind.
  eapply does_bind; [apply (does_read_value o.2); [done | done | exact Hi4]|].
  intros ? i5 (Hi5 & Hh5 & Hl5 & _ & Hc5). cbv zeta. rewrite padding_mod by lia.
  assert (in_length i5 = len o.2 + padding (len o.2) + m) as Hl5'.
  { rewrite Hl5. unfold size_value. by destruct (_ <? _). }
  assert (in_code i5 = o.1) as Hc5' by (rewrite Hc5; unfold size_value; by destruct (_ <? _)).
  eapply (does_bind _ _ (fun _ i' => input_at t i' ∧ in_length i' = in_length i5 ∧ in_code i' = o.1 ∧ holds o.2 i')).
  { destruct (Z.gtb_spec (padding (len o.2)) 0) as [Hpos|Hz].
    - unfold does, wp, Discard. destruct (Z.ltb_spec (padding (len o.2)) 0); [lia|].
      rewrite (at_stream _ _ Hi5), (read_some_app _ (replicate (Z.to_nat (padding (len o.2))) 0) t) by (rewrite len_replicate; lia).
      split; [by eapply input_moves | done].
    - apply does_ret. replace (padding (len o.2)) with 0 in Hi5 by lia. done. }
  intros ? i6 (Hi6 & Hl6 & Hc6 & Hh6). rewrite u16_small by (unfold is_u16; lia).
  eapply does_mono; [apply (does_consume (len o.2 + padding (len o.2)) m t); [lia | unfold is_u32 in *; lia | exact Hi6]|].
  intros _ i7 (Hi7 & Hl7 & _ & Hc7 & Ha7 & Hs7). split; [done|]. split; [done|]. split; [congruence|].
  destruct Hh6 as [? [q ?]]. split; [congruence|]. exists q. congruence.
Qed.

Lemma does_readOption_end t i : in_length i = 8 → input_at (enc16 big 0 ++ enc16 big 0 ++ t) i →
  does readOption (fun _ i' => input_at t i' ∧ in_length i' = 4 ∧ in_code i' = 0) i.
Proof.
  intros Hl Hi. unfold readOption. apply does_get. rewrite Hl. change (8 =? 4) with false. cbv iota. rewrite app_assoc in Hi.
  eapply does_bind; [eapply does_readBytes; [|exact Hi]; by lens|]. intros ? i1 (-> & Hi1 & Hl1 & _).
  eapply does_bind; [eapply (does_consume 4 4); [lia | done | exact Hi1]|]. intros ? i2 (Hi2 & Hl2 & _).
  eapply does_bind; [eapply (does_field16 _ []); [done | done | exact Hi2]|]. intros ? ? [-> ->].
  apply does_modify_bind.
  assert (input_at t (set_code 0 i2)) as Hi3 by (destruct Hi2; by split).
  eapply does_bind; [eapply (does_field16_last _ (enc16 big 0)); [by lens | done | exact Hi3]|]. intros ? ? [-> ->].
  cbn. done.
Qed.

(** A use of options that changes the local variable by [step], for values in [V]. *)
Definition handles {A} (use : Z → M (ngInput * A) unit) (step : Z → bytes → A → A) (V : Z → bytes → Prop) : Prop :=
  ∀ c v t i a, V c v → 0 < len v → holds v i → input_at t i → use c (i, a) = (Ok tt, (i, step c v a)).

Lemma does_on_fst {A B} (m : M ngInput B) (Q : B → ngInput → Prop) (i : ngInput) (a : A) :
  does m Q i → does (on_fst m) (fun b p => Q b p.1 ∧ p.2 = a) (i, a).
Proof. unfold does, wp, on_fst, zoom. cbn. by destruct (m i) as [[]]. Qed.

Lemma options_loop_reads {A} (use : Z → M (ngInput * A) unit) step V t opts : handles use step V →
  Forall (fun o => option_fits o ∧ V o.1 o.2) opts →
  is_u32 (len (concat (map (option_bytes big) opts)) + 8) →
  ∀ fuel i a, (length opts < fuel)%nat → in_length i = len (concat (map (option_bytes big) opts)) + 8 →
  input_at (concat (map (option_bytes big) opts) ++ enc16 big 0 ++ enc16 big 0 ++ t) i →
  does (options_loop use fuel)
    (fun _ p => input_at t p.1 ∧ in_length p.1 = 4 ∧ p.2 = fold_left (fun a o => step o.1 o.2 a) opts a) (i, a).
Proof.
  intros Huse. induction opts as [|o opts IH]; intros HF Hu fuel i a Hf Hl Hi;
    (destruct fuel as [|fuel]; [cbn in Hf; lia|]); cbn [options_loop map concat] in *.
  - eapply does_bind; [by eapply does_on_fst, does_readOption_end|].
    intros ? [i1 a1] [(Hi1 & Hl1 & Hc1) Ha]. cbn in Ha, Hi1, Hl1, Hc1. subst a1. apply does_get. cbn [fst].
    rewrite Hc1. by apply does_ret.
  - apply Forall_cons in HF as [[Ho HV] HF]. rewrite <- !app_assoc in Hi. rewrite len_app in *.
    pose proof (len_nonneg (option_bytes big o)). pose proof (len_nonneg (concat (map (option_bytes big) opts))).
    eapply does_bind; [eapply does_on_fst, (does_readOption o (len (concat (map (option_bytes big) opts)) + 8));
      [done | unfold is_u32 in *; lia | lia | lia | exact Hi]|].
    intros ? [i1 a1] [(Hi1 & Hl1 & Hc1 & Hh1) Ha]. cbn in Ha, Hi1, Hl1, Hc1, Hh1. subst a1. apply does_get. cbn [fst].
    rewrite Hc1. destruct (Z.eqb_spec o.1 ngOptionCodeEndOfOptions); [by destruct Ho|].
    eapply (does_bind _ _ (fun _ p => p = (i1, step o.1 o.2 a))).
    { unfold does, wp. destruct Ho as (_ & _ & ? & _). by rewrite (Huse o.1 o.2 _ i1 a HV ltac:(done) Hh1 Hi1). }
    intros ? ? ->. cbn [fold_left]. apply IH; [done | unfold is_u32 in *; lia | cbn in Hf; lia | lia | done].
Qed.

Lemma concat_options_length opts : (length opts <= length (concat (map (option_bytes big) opts)))%nat.
Proof.
  induction opts as [|o opts IH]; cbn [map concat length]; [done|]. rewrite length_app.
  enough (1 <= length (option_bytes big o))%nat by lia. unfold option_bytes. rewrite length_app. by destruct big; cbn; lia.
Qed.

(** All the options of a block, of which four bytes are left then. *)
Lemma read_options_reads {A} (use : Z → M (ngInput * A) unit) step V t opts i a : handles use step V →
  Forall (fun o => option_fits o ∧ V o.1 o.2) opts → is_u32 (len (options_bytes big opts) + 4) →
  in_length i = len (options_bytes big opts) + 4 → input_at (options_bytes big opts ++ t) i →
  does (read_options use)
    (fun _ p => input_at t p.1 ∧ in_length p.1 = 4 ∧ p.2 = fold_left (fun a o => step o.1 o.2 a) opts a) (i, a).
Proof.
  intros Huse HF Hu Hl Hi. apply does_get. cbn [fst]. unfold options_bytes in *. case_bool_decide as Hnil.
  - subst opts. cbn [options_loop]. cbn [app] in Hi. rewrite len_nil in Hl.
    eapply (does_bind _ _ (fun _ p => p = (set_code ngOptionCodeEndOfOptions i, a))).
    { unfold does, wp, on_fst, zoom, readOption. rewrite bind_eq. cbn [get fst]. by rewrite Hl. }
    intros ? ? ->. apply does_get. apply does_ret. split; [by destruct Hi | done].
  - rewrite !len_app, !len_enc16 in *. rewrite <- !app_assoc in Hi.
    eapply (options_loop_reads use step V); [done | done | unfold is_u32 in *; lia | | lia | done].
    rewrite (at_stream _ _ Hi). cbn [rest]. rewrite length_app. pose proof (concat_options_length opts). lia.
Qed.

Lemma local_options_read {A} (use : Z → M (ngInput * A) unit) step V t opts i a : handles use step V →
  Forall (fun o => option_fits o ∧ V o.1 o.2) opts → is_u32 (len (options_bytes big opts) + 4) →
  in_length i = len (options_bytes big opts) + 4 → input_at (options_bytes big opts ++ t) i →
  does (with_local a (read_options use))
    (fun a' i' => input_at t i' ∧ in_length i' = 4 ∧ a' = fold_left (fun a o => step o.1 o.2 a) opts a) i.
Proof.
  intros Huse HF Hu Hl Hi. pose proof (read_options_reads use step V t opts i a Huse HF Hu Hl Hi) as H.
  unfold does, wp, with_local in *. by destruct (read_options use (i, a)) as [[] []].
Qed.

(** ** The option of each kind *)

Lemma option_string_at {A} v t i (a : A) : holds v i → input_at t i → option_string (i, a) = (Ok v, (i, a)).
Proof. intros Hh _. unfold option_string. rewrite bind_eq. cbn [get fst]. by rewrite (holds_value v i Hh). Qed.

Lemma option_front_at {A} v t i (a : A) : holds v i → input_at t i → option_front (len v) (i, a) = (Ok v, (i, a)).
Proof.
  intros [_ [q Hq]] _. unfold option_front. rewrite bind_eq. cbn [get fst]. rewrite Hq. unfold lift. by rewrite slice_to_app.
Qed.

Lemma option_uint64_at {A} x t i (a : A) : is_u64 x → holds (enc64 big x) i → input_at t i →
  option_uint64 (i, a) = (Ok x, (i, a)).
Proof.
  intros Hx Hh Hi. pose proof (option_front_at _ t i a Hh Hi) as Hf. rewrite len_enc64 in Hf.
  unfold option_uint64. rewrite bind_eq, Hf. unfold on_fst, zoom, getUint64. cbn [fst snd]. rewrite bind_eq. cbn [get].
  rewrite (at_order _ _ Hi). unfold lift. by rewrite getUint64_enc.
Qed.

Definition section_step (c : Z) (v : bytes) (s : NgSectionInfo) : NgSectionInfo :=
  if c =? ngOptionCodeComment then mkSectionInfo (Hardware s) (s_OS s) (Application s) v
  else if c =? ngOptionCodeHardware then mkSectionInfo v (s_OS s) (Application s) (s_Comment s)
  else if c =? ngOptionCodeOS then mkSectionInfo (Hardware s) v (Application s) (s_Comment s)
  else if c =? ngOptionCodeUserApplication then mkSectionInfo (Hardware s) (s_OS s) v (s_Comment s)
  else s.

Lemma section_handles : handles section_option section_step (fun _ _ => True).
Proof.
  intros c v t i a _ _ Hh Hi. unfold section_option, section_step.
  repeat (destruct (_ =? _); [by rewrite bind_eq, (option_string_at v t i a Hh Hi)|]). done.
Qed.

Definition value64 (v : bytes) : Z :=
  match (if big then BE_Uint64 v else LE_Uint64 v) with Ok x => x | _ => 0 end.

Lemma value64_enc x : is_u64 x → value64 (enc64 big x) = x.
Proof. intros Hx. unfold value64. by rewrite getUint64_enc. Qed.

(** A value of eight bytes that is an integer. *)
Definition is_value64 (v : bytes) : Prop := ∃ x, is_u64 x ∧ v = enc64 big x.

Definition interface_step (c : Z) (v : bytes) (i : NgInterface) : NgInterface :=
  if c =? ngOptionCodeInterfaceName then intf_Name v i
  else if c =? ngOptionCodeComment then intf_Comment v i
  else if c =? ngOptionCodeInterfaceDescription then intf_Description v i
  else if c =? ngOptionCodeInterfaceFilter then intf_Filter (drop 1 v) i
  else if c =? ngOptionCodeInterfaceOS then intf_OS v i
  else if c =? ngOptionCodeInterfaceTimestampOffset then intf_Offset (value64 v) i
  else if c =? ngOptionCodeInterfaceTimestampResolution then intf_Resolution (hd 0 v) i
  else i.

Definition interface_value (c : Z) (v : bytes) : Prop :=
  c = ngOptionCodeInterfaceTimestampOffset → is_value64 v.

Lemma interface_handles : handles interface_option interface_step interface_value.
Proof.
  intros c v t i a HV Hl Hh Hi. pose proof (option_string_at v t i a Hh Hi) as Hs. unfold interface_option, interface_step.
  destruct (_ =? _); [by rewrite bind_eq, Hs|]. destruct (_ =? _); [by rewrite bind_eq, Hs|].
  destruct (_ =? _); [by rewrite bind_eq, Hs|].
  destruct (_ =? _); [by rewrite bind_eq, Hs, slice_from_ok, lift_bind by lia|].
  destruct (_ =? _); [by rewrite bind_eq, Hs|].
  destruct (Z.eqb_spec c ngOptionCodeInterfaceTimestampOffset) as [Hc|_].
  { destruct (HV Hc) as (x & Hx & ->). by rewrite bind_eq, (option_uint64_at x t i a Hx Hh Hi), value64_enc. }
  destruct (_ =? _); [|done]. rewrite bind_eq, Hs. destruct v as [|b v]; [by vm_compute in Hl|]. done.
Qed.

(** ** Times *)

(** An interface that was read, with nanoseconds. *)
Definition good_interface (i : NgInterface) : Prop := secondMask i = nanosPerSecond ∧ scaleUp i = 1 ∧ scaleDown i = 1.

Lemma UnixNano_fits t : time_fits t → UnixNano t = seconds t * nanosPerSecond + nanoseconds t ∧ is_u64 (UnixNano t).
Proof.
  intros [_ Ht]. unfold UnixNano, i64, u64. rewrite Z.mod_small by lia.
  destruct (Z.ltb_spec (seconds t * nanosPerSecond + nanoseconds t) (2 ^ 63)); [|lia]. unfold is_u64. lia.
Qed.

Lemma convertTime_reads iface t : good_interface iface → time_fits t →
  convertTime iface (UnixNano t) = Ok (as_read_time (TimestampOffset iface) t).
Proof.
  intros (Hm & Hup & Hdown) Ht. destruct (UnixNano_fits t Ht) as [-> Hu]. destruct Ht as [Hok Hr]. unfold time_ok in Hok.
  unfold convertTime, div64, mod64. rewrite Hm, Hup, Hdown. cbn [Z.eqb nanosPerSecond mbind outcome_bind].
  change (nanosPerSecond =? 0) with false. change (1 =? 0) with false. cbv iota. cbn [mbind outcome_bind mret outcome_ret].
  unfold nanosPerSecond in *.
  rewrite (Z.add_comm (seconds t * _)), Z.div_add, Z.mod_add, Z.div_small, Z.mod_small, Z.add_0_l, Z.mul_1_r by lia.
  rewrite Z.div_1_r. unfold u64 at 2. rewrite (Z.mod_small (nanoseconds t)) by lia. unfold i64 at 2.
  destruct (Z.ltb_spec (nanoseconds t) (2 ^ 63)); [|lia].
  unfold mret, outcome_ret, time_Unix, as_read_time, nanosPerSecond.
  by rewrite Z.div_small, Z.mod_small, Z.add_0_r by lia.
Qed.

(** ** What the options come to *)

Lemma fold_string {A} (step : Z → bytes → A → A) code s a :
  fold_left (fun a o => step o.1 o.2 a) (map (encoded big) (string_option code s)) a =
    if bool_decide (s = []) then a else step code s a.
Proof. unfold string_option. by case_bool_decide. Qed.

Lemma string_kept {B} (s : bytes) (a b : B) : (s = [] → a = b) → (if bool_decide (s = []) then a else b) = b.
Proof. case_bool_decide; auto. Qed.

Lemma section_fold info :
  fold_left (fun a o => section_step o.1 o.2 a) (map (encoded big) (section_options info)) empty_section = info.
Proof.
  unfold section_options. rewrite !map_app, !fold_left_app, !fold_string. destruct info as [h o a c]; cbn.
  by repeat case_bool_decide; subst.
Qed.

(** Options that carry something: their codes and values can be told apart. *)
Lemma string_option_fits (V : Z → bytes → Prop) code s : code ≠ 0 → is_u16 code → V code s → short s →
  Forall (fun o => option_fits o ∧ V o.1 o.2) (map (encoded big) (string_option code s)).
Proof.
  intros Hc Hu HV Hs. unfold string_option. case_bool_decide as Hn; [constructor|]. constructor; [|constructor].
  split; [|done]. split; [done|]. split; [done|]. cbn. pose proof (proj2 (len_pos s) Hn). unfold short in Hs. lia.
Qed.

Lemma section_options_fit info : info_ok info →
  Forall (fun o => option_fits o ∧ (fun _ _ => True) o.1 o.2) (map (encoded big) (section_options info)).
Proof.
  intros (? & ? & ? & ?). unfold section_options. rewrite !map_app, !Forall_app.
  split_and!; by apply (string_option_fits (fun _ _ => True)).
Qed.

Lemma interface_fold intf base : is_u64 (TimestampOffset intf) →
  if_Name base = [] → if_Comment base = [] → if_Description base = [] → if_Filter base = [] → if_OS base = [] →
  TimestampOffset base = 0 →
  fold_left (fun a o => interface_step o.1 o.2 a) (map (encoded big) (interface_options intf)) base =
    mkInterface (if_Name intf) (if_Comment intf) (if_Description intf) (if_Filter intf) (if_OS intf) (if_LinkType base) 9
      (TimestampOffset intf) (SnapLength base) (Statistics base) (secondMask base) (scaleUp base) (scaleDown base).
Proof.
  intros Hu. destruct base as [n c d f o lt r off snap st m up down]; cbn. intros -> -> -> -> -> ->.
  unfold interface_options. rewrite !map_app, !fold_left_app, !fold_string.
  case_bool_decide as E1; case_bool_decide as E2; case_bool_decide as E3; case_bool_decide as E4; case_bool_decide as E5;
    (destruct (Z.eqb_spec (TimestampOffset intf) 0) as [E6|E6]; cbn;
     rewrite ?E1, ?E2, ?E3, ?E4, ?E5, ?E6; unfold intf_Offset; cbn; rewrite ?drop_0, ?value64_enc by done; done).
Qed.

Lemma interface_options_fit intf : intf_ok intf →
  Forall (fun o => option_fits o ∧ interface_value o.1 o.2) (map (encoded big) (interface_options intf)).
Proof.
  intros (? & ? & ? & Hf & ? & _ & Hu & _). unfold interface_options. rewrite !map_app, !Forall_app.
  split_and!; try by apply string_option_fits.
  - case_bool_decide as Hn; [constructor|]. constructor; [|constructor]. split; [|done]. split; [done|]. split; [done|].
    cbn -[len]. rewrite len_cons. pose proof (len_nonneg (if_Filter intf)). lia.
  - destruct (negb _); constructor; [|constructor]. cbn [encoded fst snd new_option o_code o_raw value_bytes].
    split; [split; [done|]; split; [done | by destruct big]|]. intros _. by exists (TimestampOffset intf).
  - by constructor.
Qed.

Lemma prepare_reads i : TimestampResolution_ i = 9 →
  prepare_interface i = Ok (intf_scales nanosPerSecond 1 1 i).
Proof.
  intros Hr. unfold prepare_interface. rewrite Hr. change (9 =? 0) with false. cbv iota zeta. rewrite Hr.
  assert (second_mask 9 = nanosPerSecond) as -> by (vm_compute; reflexivity).
  rewrite Z.ltb_irrefl, Z.div_same by done. reflexivity.
Qed.

(** A description of an interface, once its block has been opened. *)
Lemma does_readInterfaceDescriptor intf n t i : intf_ok intf → is_u32 (len (interface_body big intf) + 12) →
  in_length i = len (interface_body big intf) + 4 → input_at (interface_body big intf ++ enc32 big n ++ t) i →
  does readInterfaceDescriptor (fun intf' i' => intf' = as_read_interface intf ∧ input_at t i') i.
Proof.
  intros Hok Hu Hl Hi. pose proof Hok as (_ & _ & _ & _ & _ & Hlt & Hoff & Hsnap). unfold interface_body in *.
  set (ob := options_bytes big (map (encoded big) (interface_options intf))) in *. rewrite !len_app, !len_enc16, len_enc32 in *.
  rewrite <- !app_assoc in Hi. rewrite (app_assoc (enc16 big 0)), (app_assoc (enc16 big (if_LinkType intf))) in Hi.
  pose proof (len_nonneg ob). unfold readInterfaceDescriptor.
  eapply does_bind; [eapply does_readBytes; [|exact Hi]; rewrite !len_app, !len_enc16, len_enc32; lia|].
  intros ? i1 (-> & Hi1 & Hl1 & _).
  eapply does_bind; [eapply (does_consume 8 (len ob + 4)); [lia | unfold is_u32 in *; lia | exact Hi1]|]. intros ? i2 (Hi2 & Hl2 & _).
  eapply does_bind; [eapply (does_field16 _ []); [done | unfold is_u8, is_u16 in *; lia | exact Hi2]|]. intros ? ? [-> ->].
  rewrite app_assoc. eapply does_bind; [eapply does_field32_last; [by rewrite len_app, !len_enc16 | done | exact Hi2]|].
  intros ? ? [-> ->]. rewrite u8_small by done.
  eapply does_bind; [eapply (local_options_read interface_option interface_step interface_value);
    [apply interface_handles | by apply interface_options_fit | fold ob; unfold is_u32 in *; lia | done | done]|].
  intros ? i3 (Hi3 & Hl3 & ->). rewrite interface_fold by done.
  eapply does_bind; [eapply does_discard_block; [by rewrite Hl3, len_enc32 | exact Hi3]|]. intros ? i4 [Hi4 _].
  unfold does, wp, lift. by rewrite prepare_reads.
Qed.

(** ** Statistics *)

Definition time_value (v : bytes) : Prop := ∃ t, time_fits t ∧ v = enc_time big (UnixNano t).

Definition statistics_value (c : Z) (v : bytes) : Prop :=
  (c = ngOptionCodeInterfaceStatisticsStartTime ∨ c = ngOptionCodeInterfaceStatisticsEndTime → time_value v) ∧
  (c = ngOptionCodeInterfaceStatisticsInterfaceReceived ∨ c = ngOptionCodeInterfaceStatisticsInterfaceDropped → is_value64 v).

Definition value_time (v : bytes) : Z :=
  match (if big then BE_Uint32 v else LE_Uint32 v), (if big then BE_Uint32 (drop 4 v) else LE_Uint32 (drop 4 v)) with
  | Ok hi, Ok lo => Z.lor (Z.shiftl hi 32) lo
  | _, _ => 0
  end.

Lemma value_time_enc ts : is_u64 ts → value_time (enc_time big ts) = ts.
Proof.
  intros Hts. destruct (halves ts Hts) as [Hhi _]. unfold value_time, enc_time. rewrite getUint32_enc by done.
  assert (drop 4 (enc32 big (ts / 4294967296) ++ enc32 big ts) = enc32 big ts ++ []) as -> by (by destruct big).
  rewrite <- (enc32_u32 ts), getUint32_enc by apply u32_range. by apply join_halves.
Qed.

Definition statistics_step (iface : NgInterface) (c : Z) (v : bytes) (s : NgInterfaceStatistics) : NgInterfaceStatistics :=
  let t := match convertTime iface (value_time v) with Ok t => t | _ => zero_time end in
  if c =? ngOptionCodeComment then
    mkStatistics (LastUpdate s) (StartTime s) (EndTime s) v (PacketsReceived s) (PacketsDropped s)
  else if c =? ngOptionCodeInterfaceStatisticsStartTime then
    mkStatistics (LastUpdate s) t (EndTime s) (st_Comment s) (PacketsReceived s) (PacketsDropped s)
  else if c =? ngOptionCodeInterfaceStatisticsEndTime then
    mkStatistics (LastUpdate s) (StartTime s) t (st_Comment s) (PacketsReceived s) (PacketsDropped s)
  else if c =? ngOptionCodeInterfaceStatisticsInterfaceReceived then
    mkStatistics (LastUpdate s) (StartTime s) (EndTime s) (st_Comment s) (value64 v) (PacketsDropped s)
  else if c =? ngOptionCodeInterfaceStatisticsInterfaceDropped then
    mkStatistics (LastUpdate s) (StartTime s) (EndTime s) (st_Comment s) (PacketsReceived s) (value64 v)
  else s.

Lemma option_time_at {A} iface t ti i (a : A) (k : time → M (ngInput * A) unit) : good_interface iface → time_fits ti →
  holds (enc_time big (UnixNano ti)) i → input_at t i →
  (b ← option_front 8; ts ← on_fst (timestamp b 0); t ← lift (convertTime iface ts); k t) (i, a) =
    k (as_read_time (TimestampOffset iface) ti) (i, a).
Proof.
  intros Hg Ht Hh Hi. destruct (UnixNano_fits ti Ht) as [_ Hu].
  pose proof (option_front_at _ t i a Hh Hi) as Hf. rewrite len_enc_time in Hf. rewrite bind_eq, Hf, bind_eq.
  pose proof (does_timestamp t [] (UnixNano ti) [] 0 i eq_refl Hu Hi) as Hts. cbn [app] in Hts. rewrite app_nil_r in Hts.
  unfold does, wp in Hts. unfold on_fst, zoom. cbn [fst snd].
  destruct (timestamp (enc_time big (UnixNano ti)) 0 i) as [[ts| | |] i']; try done. destruct Hts as [-> ->].
  by rewrite convertTime_reads, lift_bind by done.
Qed.

Lemma statistics_handles iface : good_interface iface →
  handles (statistics_option iface) (statistics_step iface) statistics_value.
Proof.
  intros Hg c v t i a [HT HV] _ Hh Hi. pose proof (option_string_at v t i a Hh Hi) as Hs.
  unfold statistics_option, statistics_step. destruct (_ =? _); [by rewrite bind_eq, Hs|].
  destruct (Z.eqb_spec c ngOptionCodeInterfaceStatisticsStartTime) as [Hc|_].
  { destruct (HT (or_introl Hc)) as (ti & Ht & ->). rewrite (option_time_at iface t ti) by done.
    by rewrite value_time_enc, convertTime_reads by (done || by apply UnixNano_fits). }
  destruct (Z.eqb_spec c ngOptionCodeInterfaceStatisticsEndTime) as [Hc|_].
  { destruct (HT (or_intror Hc)) as (ti & Ht & ->). rewrite (option_time_at iface t ti) by done.
    by rewrite value_time_enc, convertTime_reads by (done || by apply UnixNano_fits). }
  destruct (Z.eqb_spec c ngOptionCodeInterfaceStatisticsInterfaceReceived) as [Hc|_].
  { destruct (HV (or_introl Hc)) as (x & Hx & ->). by rewrite bind_eq, (option_uint64_at x t i a Hx Hh Hi), value64_enc. }
  destruct (Z.eqb_spec c ngOptionCodeInterfaceStatisticsInterfaceDropped) as [Hc|_]; [|done].
  destruct (HV (or_intror Hc)) as (x & Hx & ->). by rewrite bind_eq, (option_uint64_at x t i a Hx Hh Hi), value64_enc.
Qed.

Lemma statistics_fold iface st lu : good_interface iface → stats_ok st →
  fold_left (fun a o => statistics_step iface o.1 o.2 a) (map (encoded big) (statistics_options st))
    (mkStatistics lu zero_time zero_time [] NgNoValue64 NgNoValue64) =
  mkStatistics lu (StartTime (as_read_statistics (TimestampOffset iface) st)) (EndTime (as_read_statistics (TimestampOffset iface) st))
    [] (PacketsReceived st) (PacketsDropped st).
Proof.
  intros Hg (_ & Hs & He & Hr & Hd). unfold statistics_options. rewrite !map_app, !fold_left_app.
  assert (∀ t, time_fits_or_zero t → IsZero t = false →
    match convertTime iface (value_time (enc_time big (UnixNano t))) with Ok t => t | _ => zero_time end =
    as_read_time (TimestampOffset iface) t) as Hconv.
  { intros t [->|Ht] Hz; [done|]. by rewrite value_time_enc, convertTime_reads by (done || by apply UnixNano_fits). }
  destruct (IsZero (StartTime st)) eqn:E1; destruct (IsZero (EndTime st)) eqn:E2;
    destruct (Z.eqb_spec (PacketsDropped st) NgNoValue64) as [E3|E3]; destruct (Z.eqb_spec (PacketsReceived st) NgNoValue64) as [E4|E4];
    cbn; unfold statistics_step; cbn; rewrite ?Hconv, ?value64_enc, ?E1, ?E2, ?E3, ?E4 by done; done.
Qed.

Lemma statistics_options_fit st : stats_ok st →
  Forall (fun o => option_fits o ∧ statistics_value o.1 o.2) (map (encoded big) (statistics_options st)).
Proof.
  intros (_ & Hs & He & Hr & Hd). unfold statistics_options. rewrite !map_app, !Forall_app.
  assert (∀ code t, (code = 2 ∨ code = 3) → time_fits_or_zero t →
    Forall (fun o => option_fits o ∧ statistics_value o.1 o.2)
      (map (encoded big) (if IsZero t then [] else [new_option code (RawTime t)]))) as Htime.
  { intros code t Hc Ht. destruct (IsZero t) eqn:Hz; [constructor|]. constructor; [|constructor].
    destruct Ht as [->|Ht]; [done|]. cbn [encoded new_option o_code o_raw value_bytes fst snd].
    split; [destruct Hc as [-> | ->]; (split; [done|]; split; [done | by destruct big])|].
    split; [intros _; by exists t | destruct Hc as [-> | ->]; by intros [|]]. }
  assert (∀ code v, (code = 4 ∨ code = 5) → is_u64 v →
    Forall (fun o => option_fits o ∧ statistics_value o.1 o.2)
      (map (encoded big) (if negb (v =? NgNoValue64) then [new_option code (RawUint64 v)] else []))) as Hint.
  { intros code v Hc Hv. destruct (negb _); constructor; [|constructor].
    cbn [encoded new_option o_code o_raw value_bytes fst snd].
    split; [destruct Hc as [-> | ->]; (split; [done|]; split; [done | by destruct big])|].
    split; [destruct Hc as [-> | ->]; by intros [|] | intros _; by exists v]. }
  split_and!; [apply Htime | apply Htime | apply Hint | apply Hint]; auto.
Qed.

(** ** The blocks *)

Lemma len_options_bytes opts :
  len (options_bytes big (map (encoded big) opts)) = len (options_bytes false (map (encoded false) opts)).
Proof.
  assert (len (concat (map (option_bytes big) (map (encoded big) opts))) =
    len (concat (map (option_bytes false) (map (encoded false) opts)))) as H.
  { induction opts as [|o opts IH]; cbn [map concat]; [done|]. rewrite !len_app, IH, !len_option_bytes. cbn [encoded snd].
    by rewrite !(len_value_bytes _ _ o eq_refl). }
  unfold options_bytes. destruct opts as [|o opts].
  { by rewrite !bool_decide_eq_true_2 by done. }
  rewrite !bool_decide_eq_false_2 by done. by rewrite !len_app, H, !len_enc16.
Qed.

Lemma section_body_bound info : info_ok info → is_u32 (len (section_body big info) + 12).
Proof.
  intros Hi. destruct (section_options_ok info Hi) as [HF Hl]. pose proof (options_bytes_bound _ HF Hl) as Hb.
  rewrite <- len_options_bytes in Hb. unfold section_body. rewrite !len_app, !len_enc16, len_enc32, len_enc64. unfold is_u32. lia.
Qed.
Lemma interface_body_bound i : intf_ok i → is_u32 (len (interface_body big i) + 12).
Proof.
  intros Hi. destruct (interface_options_ok i Hi) as [HF Hl]. pose proof (options_bytes_bound _ HF Hl) as Hb.
  rewrite <- len_options_bytes in Hb. unfold interface_body. rewrite !len_app, !len_enc16, len_enc32. unfold is_u32. lia.
Qed.
Lemma statistics_body_bound id st : is_u32 (len (statistics_body big id st) + 12).
Proof.
  destruct (statistics_options_ok st) as [HF Hl]. pose proof (options_bytes_bound _ HF Hl) as Hb.
  rewrite <- len_options_bytes in Hb. unfold statistics_body. rewrite !len_app, len_enc_time, len_enc32. unfold is_u32. lia.
Qed.

(** The reader at [t], with some interfaces and after some calls of the callbacks. *)
Context (o : NgReaderOptions) (lt : Z).

Record ready (t : bytes) (ifs : list NgInterface) (evs : list ng_event) (r : NgReader) : Prop := {
  ready_input : input_at t (nr_in r);
  ready_options : options r = o;
  ready_linkType : linkType r = lt;
  ready_ifaces : ifaces r = ifs;
  ready_events : events r = evs;
  ready_good : Forall good_interface ifs;
}.

Lemma does_input {A} (m : M ngInput A) (Q : A → ngInput → Prop) r : does m Q (nr_in r) →
  does (input m) (fun a r' => ∃ i', r' = set_in i' r ∧ Q a i') r.
Proof. unfold does, wp, input, zoom. destruct (m (nr_in r)) as [[a| | |] i']; try done. intros HQ. by exists i'. Qed.

Lemma does_input_same {A} (m : M ngInput A) v r : does m (fun a i' => a = v ∧ i' = nr_in r) (nr_in r) →
  does (input m) (fun a r' => a = v ∧ r' = r) r.
Proof.
  unfold does, wp, input, zoom. destruct (m (nr_in r)) as [[a| | |] i']; try done. intros [-> ->].
  split; [done|]. by destruct r.
Qed.

Lemma ready_moves t t' ifs evs r i : ready t ifs evs r → input_at t' i → ready t' ifs evs (set_in i r).
Proof. intros [? ? ? ? ? ?] ?. by split. Qed.

(** Opening a block. *)
Lemma opens typ body t ifs evs r : typ ≠ ngBlockTypeSectionHeader → is_u32 typ → is_u32 (len body + 12) →
  ready (block big typ body ++ t) ifs evs r →
  does (input readBlock) (fun _ r' => ready (body ++ enc32 big (len body + 12) ++ t) ifs evs r' ∧
    in_typ (nr_in r') = typ ∧ in_length (nr_in r') = len body + 4 ∧ ci_ r' = ci_ r ∧
    firstSectionFound r' = firstSectionFound r) r.
Proof.
  intros Hne Ht Hl Hr. eapply does_mono; [eapply does_input, does_readBlock; [done | done | done | apply Hr]|].
  intros _ r' (i & -> & Hi & ? & ?). split; [by eapply ready_moves | done].
Qed.

Lemma add_interface_reads intf t ifs evs r : intf_ok intf →
  in_length (nr_in r) = len (interface_body big intf) + 4 →
  ready (interface_body big intf ++ enc32 big (len (interface_body big intf) + 12) ++ t) ifs evs r →
  does add_interface (fun _ r' => ready t (ifs ++ [as_read_interface intf]) evs r' ∧
    firstSectionFound r' = firstSectionFound r) r.
Proof.
  intros Hok Hl Hr. unfold add_interface.
  eapply does_bind; [eapply does_input, does_readInterfaceDescriptor; [done | by apply interface_body_bound | done | apply Hr]|].
  intros ? r' (i & -> & -> & Hi). apply does_modify. split; [|done]. destruct Hr as [? ? ? <- ? Hg]. split; try done.
  apply Forall_app. split; [done|]. constructor; [|constructor]. done.
Qed.

Lemma index_interface ifs id : 0 <= id < len ifs → index ifs id = Ok (interface_at ifs id).
Proof.
  intros Hid. destruct (index_ok ifs id Hid) as (i & Hi & ->). unfold interface_at. by rewrite (nth_lookup_Some _ _ _ _ Hi).
Qed.

Lemma good_at ifs id : Forall good_interface ifs → 0 <= id < len ifs → good_interface (interface_at ifs id).
Proof.
  intros HF Hid. destruct (index_ok ifs id Hid) as (i & Hi & _). unfold interface_at. rewrite (nth_lookup_Some _ _ _ _ Hi).
  by eapply Forall_lookup_1.
Qed.

Lemma does_named_interface id t ifs evs r : 0 <= id < len ifs → ready t ifs evs r →
  does (named_interface id) (fun i r' => i = interface_at ifs id ∧ r' = r) r.
Proof.
  intros Hid Hr. apply does_get. rewrite (ready_ifaces _ _ _ _ Hr). destruct (Z.geb_spec id (len ifs)); [lia|].
  unfold does, wp, lift. by rewrite index_interface.
Qed.

Lemma statistics_altered id v l : 0 <= id < len l →
  match alter (intf_Statistics v) (Z.to_nat id) l !! Z.to_nat id with Some i => Statistics i | None => zero_statistics end = v.
Proof.
  intros Hid. rewrite list_lookup_alter_eq. destruct (index_ok l id Hid) as (i & -> & _). done.
Qed.

Lemma statistics_set_twice id v w r :
  set_statistics id v (set_statistics id w r) = set_statistics id v r.
Proof. unfold set_statistics. cbn. by rewrite list_alter_alter_eq. Qed.

(** The time of the last update, as it is in the file. *)
Lemma update_reads iface st : good_interface iface → stats_ok st →
  is_u64 (update_nanos st) ∧
  convertTime iface (update_nanos st) = Ok (LastUpdate (as_read_statistics (TimestampOffset iface) st)).
Proof.
  intros Hg (Hlu & _). unfold update_nanos, as_read_statistics. cbn [LastUpdate].
  destruct (IsZero (LastUpdate st)) eqn:Hz.
  - split; [done|]. apply (convertTime_reads iface (mkTime 0 0)); [done|]. by split.
  - destruct Hlu as [Hlu|Hlu]; [by rewrite Hlu in Hz|]. split; [by apply UnixNano_fits | by apply convertTime_reads].
Qed.

Lemma does_on_statistics {A} id (m : M (ngInput * NgInterfaceStatistics) A) Q r :
  does m Q (nr_in r, statistics_of id r) →
  does (on_statistics id m) (fun a r' => ∃ p, r' = set_statistics id p.2 (set_in p.1 r) ∧ Q a p) r.
Proof. unfold does, wp, on_statistics, zoom. destruct (m _) as [[a| | |] p]; try done. intros HQ. by exists p. Qed.

Lemma readInterfaceStatistics_reads id st t ifs evs r : 0 <= id < len ifs → id < 4294967296 → stats_ok st →
  in_length (nr_in r) = len (statistics_body big id st) + 4 →
  ready (statistics_body big id st ++ enc32 big (len (statistics_body big id st) + 12) ++ t) ifs evs r →
  does readInterfaceStatistics
    (fun _ r' => ready t (ifaces_after ifs (ItemStatistics id st)) (events_after o ifs evs (ItemStatistics id st)) r') r.
Proof.
  intros Hid Hid32 Hst Hl Hr. pose proof (statistics_body_bound id st) as Hu.
  set (n := enc32 big (len (statistics_body big id st) + 12)) in *. assert (len n = 4) as Hn by apply len_enc32.
  unfold statistics_body in *. set (ob := options_bytes big (map (encoded big) (statistics_options st))) in *.
  rewrite !len_app, len_enc32, len_enc_time in *. pose proof (len_nonneg ob).
  set (iface := interface_at ifs id). assert (good_interface iface) as Hg by (apply good_at; [apply (ready_good _ _ _ _ Hr) | done]).
  destruct (update_reads iface st Hg Hst) as [Hlu Hconv]. unfold readInterfaceStatistics.
  pose proof (ready_input _ _ _ _ Hr) as Hi. rewrite <- !app_assoc, app_assoc in Hi.
  eapply does_bind; [eapply does_input, does_readBytes; [|exact Hi]; by rewrite len_app, len_enc32, len_enc_time|].
  intros ? r1 (i1 & -> & -> & Hi1 & Hl1 & _).
  eapply does_bind; [eapply does_input, (does_consume 12 (len ob + 4)); [cbn; lia | unfold is_u32 in *; lia | exact Hi1]|].
  intros ? r2 (i2 & -> & Hi2 & Hl2 & _).
  assert (ready (ob ++ n ++ t) ifs evs (set_in i2 (set_in i1 r))) as Hr4 by (destruct Hr; by split).
  remember (set_in i2 (set_in i1 r)) as r4 eqn:E4. assert (i2 = nr_in r4) as -> by (by rewrite E4). clear E4.
  eapply does_bind; [eapply does_input_same, (does_field32 _ []); [done | unfold is_u32; lia | exact Hi2]|].
  intros ? ? [-> ->].
  eapply does_bind; [eapply does_input_same|]; [rewrite <- (app_nil_r (enc_time big _));
    eapply (does_timestamp _ (enc32 big id)); [by rewrite len_enc32 | done | exact Hi2]|].
  intros ? ? [-> ->]. eapply does_bind; [by eapply does_named_interface|]. intros ? ? [-> ->]. fold iface.
  apply does_modify_bind. eapply does_lift_bind; [exact Hconv|]. apply does_modify_bind. rewrite statistics_set_twice.
  set (r5 := set_statistics id _ r4).
  assert (statistics_of id r5 = mkStatistics (LastUpdate (as_read_statistics (TimestampOffset iface) st)) zero_time zero_time [] NgNoValue64 NgNoValue64) as Hst5.
  { unfold statistics_of, r5, set_statistics. cbn [set_ifaces ifaces]. apply statistics_altered. by rewrite (ready_ifaces _ _ _ _ Hr4). }
  eapply does_bind.
  { eapply does_on_statistics, (read_options_reads _ (statistics_step iface) statistics_value (n ++ t) (map (encoded big) (statistics_options st)));
      [by apply statistics_handles | by apply statistics_options_fit | fold ob; unfold is_u32 in *; lia | exact Hl2 | exact Hi2]. }
  intros ? r6 (p & -> & Hi6 & Hl6 & Hp). rewrite Hst5, statistics_fold in Hp by done.
  unfold r5. eapply does_bind; [eapply does_input, does_discard_block; [|exact Hi6]; cbn; by rewrite Hl6|].
  intros ? r7 (i7 & -> & Hi7 & _). apply does_get.
  assert (∀ x, set_in i7 (set_statistics id p.2 (set_in p.1 (set_statistics id x r4))) =
    set_in i7 (set_statistics id p.2 r4)) as ->.
  { intros x. unfold set_statistics. cbn. by rewrite list_alter_alter_eq. }
  assert (p.2 = as_read_statistics (TimestampOffset iface) st) as -> by exact Hp. set (st' := as_read_statistics _ _).
  assert (ready t (ifaces_after ifs (ItemStatistics id st)) evs (set_in i7 (set_statistics id st' r4))) as Hr7.
  { destruct Hr4 as [? ? ? Hifs ? ?]. split; try done.
    - cbn. by rewrite Hifs.
    - cbn. apply Forall_alter; [done|]. by intros ? ? (? & ? & ?). }
  unfold events_after. fold iface st'. cbn [options set_in set_statistics set_ifaces].
  change (options _) with (options r4). rewrite (ready_options _ _ _ _ Hr4). destruct (StatisticsCallback o); [|by apply does_ret].
  apply does_modify. assert (statistics_of id (set_in i7 (set_statistics id st' r4)) = st') as ->.
  { unfold statistics_of. cbn. apply statistics_altered. by rewrite (ready_ifaces _ _ _ _ Hr4). }
  destruct Hr7 as [? ? ? ? Hev ?]. split; try done. cbn in *. by rewrite Hev.
Qed.

(** ** Packets *)

(** What follows the data of a packet in its block. *)
Definition packet_tail (data : bytes) : bytes :=
  replicate (Z.to_nat (padding (len data))) 0 ++ enc32 big (28 + len data + padding (len data) + 4).

Lemma len_packet_body ci data : len (packet_body big ci data) + 12 = 28 + len data + padding (len data) + 4.
Proof.
  pose proof (padding_range (len data)). unfold packet_body. rewrite !len_app, !len_enc32, len_enc_time, len_replicate. lia.
Qed.

Lemma packet_body_split ci data t : ∃ pre, len pre = 20 ∧
  pre = enc32 big (InterfaceIndex ci) ++ enc_time big (UnixNano (Timestamp ci)) ++ enc32 big (len data) ++ enc32 big (Length ci) ∧
  packet_body big ci data ++ enc32 big (len (packet_body big ci data) + 12) ++ t = pre ++ data ++ packet_tail data ++ t.
Proof.
  eexists. split; [|split; [reflexivity|]].
  - by rewrite !len_app, !len_enc32, len_enc_time.
  - rewrite len_packet_body. unfold packet_body, packet_tail. regroup.
Qed.

(** The reader once the header of a packet has been read. *)
Definition at_packet (n : Z) (ci : CaptureInfo) (data t : bytes) (ifs : list NgInterface) (evs : list ng_event) (r : NgReader) : Prop :=
  ready (data ++ packet_tail data ++ t) ifs evs r ∧
  ci_ r = mkCaptureInfo (as_read_time (TimestampOffset (interface_at ifs (InterfaceIndex ci))) (Timestamp ci)) (len data)
            (Length ci) (InterfaceIndex ci) ∧
  in_length (nr_in r) = len data + len (packet_tail data).

Lemma len_packet_tail data : len (packet_tail data) = padding (len data) + 4.
Proof. pose proof (padding_range (len data)). unfold packet_tail. rewrite len_app, len_enc32, len_replicate. lia. Qed.

Lemma read_packet_block_reads n ci data t ifs evs r : item_ok n (ItemPacket ci data) → n = len ifs → n < 4294967296 →
  in_length (nr_in r) = len (packet_body big ci data) + 4 →
  ready (packet_body big ci data ++ enc32 big (len (packet_body big ci data) + 12) ++ t) ifs evs r →
  does (read_packet_block (fun buf => field32 buf 0)) (fun _ r' => at_packet n ci data t ifs evs r') r.
Proof.
  intros (Hid & _ & _ & Hlen & Hlu & Ht) -> Hn Hl Hr. pose proof (len_packet_body ci data) as Hb.
  destruct (packet_body_split ci data t) as (pre & Hpre & Epre & Esplit). rewrite Esplit in Hr. clear Esplit.
  pose proof (padding_range (len data)). pose proof (len_nonneg data).
  unfold read_packet_block.
  eapply does_bind; [eapply does_input, does_readBytes; [exact Hpre | apply Hr]|]. intros ? r1 (i1 & -> & -> & Hi1 & Hl1 & _).
  eapply does_bind; [eapply does_input, (does_consume 20 (len data + padding (len data) + 4));
    [cbn; lia | unfold is_u32 in *; lia | exact Hi1]|]. intros ? r2 (i2 & -> & Hi2 & Hl2 & _).
  assert (ready (data ++ packet_tail data ++ t) ifs evs (set_in i2 (set_in i1 r))) as Hr2 by (destruct Hr; by split).
  remember (set_in i2 (set_in i1 r)) as r2 eqn:E2. assert (i2 = nr_in r2) as -> by (by rewrite E2). clear E2 Hr.
  rewrite Epre. eapply does_bind; [eapply does_input_same, (does_field32 _ []); [done | unfold is_u32; lia | exact Hi2]|].
  intros ? ? [-> ->]. apply does_modify_bind. set (r3 := set_ci _ r2).
  assert (ready (data ++ packet_tail data ++ t) ifs evs r3) as Hr3 by (destruct Hr2; by split).
  eapply does_bind; [by eapply does_named_interface|]. intros ? ? [-> ->].
  set (iface := interface_at ifs (InterfaceIndex ci)).
  assert (good_interface iface) as Hg by (apply good_at; [apply (ready_good _ _ _ _ Hr3) | done]).
  destruct (UnixNano_fits _ Ht) as [_ Hu].
  eapply does_bind; [eapply does_input_same, (does_timestamp _ (enc32 big (InterfaceIndex ci)));
    [by rewrite len_enc32 | exact Hu | apply Hr3]|]. intros ? ? [-> ->].
  apply (does_lift_bind _ _ _ _ _ (convertTime_reads iface (Timestamp ci) Hg Ht)).
  rewrite app_assoc.
  eapply does_bind; [eapply does_input_same, does_field32;
    [by rewrite !len_app, len_enc32, len_enc_time | unfold is_u32; lia | apply Hr3]|]. intros ? ? [-> ->].
  rewrite app_assoc.
  eapply does_bind; [eapply does_input_same, does_field32_last;
    [by rewrite !len_app, !len_enc32, len_enc_time | done | apply Hr3]|]. intros ? ? [-> ->].
  apply does_modify. split; [destruct Hr3; by split|]. split; [done|]. rewrite len_packet_tail. cbn. lia.
Qed.

(** The link type that is wanted. *)
Definition wanted (ifs : list NgInterface) (id : Z) : bool :=
  WantMixedLinkType o || (if_LinkType (interface_at ifs id) =? lt).

(** [ReadPacketData] after its header, and all of it with some fuel for the header. *)
Definition read_data : M NgReader (bytes * CaptureInfo * option Z) :=
  r ← get;
  let ci := ci_ r in
  _ ← lift (make_bytes (CaptureLength ci));
  data ← input (readBytes (CaptureLength ci));
  _ ← discard_rest (CaptureLength ci);
  mret (data, ci, ancillary r).

Definition read_from (fuel : nat) : M NgReader (bytes * CaptureInfo * option Z) :=
  _ ← readPacketHeader_loop fuel; read_data.

Lemma ReadPacketData_from r : ReadPacketData r = read_from (blocks_bound r) r.
Proof. done. Qed.

Lemma ReadPacketData_packet n ci data t ifs evs r : item_ok n (ItemPacket ci data) → at_packet n ci data t ifs evs r →
  WantMixedLinkType o = true ∧ ancil r = Some (if_LinkType (interface_at ifs (InterfaceIndex ci))) ∨ WantMixedLinkType o = false →
  does read_data
    (fun p r' => ready t ifs evs r' ∧ p = (data,
       mkCaptureInfo (as_read_time (TimestampOffset (interface_at ifs (InterfaceIndex ci))) (Timestamp ci)) (len data)
         (Length ci) (InterfaceIndex ci),
       if WantMixedLinkType o then Some (if_LinkType (interface_at ifs (InterfaceIndex ci))) else None)) r.
Proof.
  intros _ (Hr & Hci & Hl) Hanc. apply does_get. rewrite Hci. cbn [CaptureLength]. pose proof (len_nonneg data).
  eapply does_lift_bind. { unfold make_bytes. by destruct (Z.ltb_spec (len data) 0); [lia|]. }
  eapply does_bind; [eapply does_input, does_readBytes; [done | apply Hr]|]. intros ? r1 (i1 & -> & -> & Hi1 & Hl1 & _).
  eapply does_bind.
  { unfold discard_rest. apply does_get. eapply does_input, does_Discard; [|exact Hi1]. cbn. rewrite Hl1. lia. }
  intros ? r2 (i2 & -> & Hi2 & _). apply does_ret. split; [destruct Hr; by split|]. f_equal.
  unfold ancillary. rewrite (ready_options _ _ _ _ Hr). by destruct Hanc as [[-> ->] | ->].
Qed.

(** ** One block after the other *)

Lemma read_a_block_reads i t ifs evs r : item_ok (len ifs) i → len ifs < 4294967296 →
  ready (item_bytes big i ++ t) ifs evs r →
  does read_a_block (fun found r' =>
    match i with
    | ItemPacket ci data => found = true ∧ at_packet (len ifs) ci data t ifs evs r'
    | _ => found = false ∧ ready t (ifaces_after ifs i) (events_after o ifs evs i) r'
    end) r.
Proof.
  intros Hi Hn Hr. unfold read_a_block. destruct i as [intf|id st|ci data]; cbn [item_bytes] in Hr.
  - destruct Hi as [Hi _].
    eapply does_bind; [eapply opens; [| | | exact Hr]; [done | by split | by apply interface_body_bound]|].
    intros ? r1 (Hr1 & Ht & Hl & _). apply does_get. rewrite Ht. cbn.
    eapply does_bind; [by eapply add_interface_reads|]. intros ? r2 [Hr2 _]. by apply does_ret.
  - destruct Hi as [Hid Hst].
    eapply does_bind; [eapply opens; [| | | exact Hr]; [done | by split | by apply statistics_body_bound]|].
    intros ? r1 (Hr1 & Ht & Hl & _). apply does_get. rewrite Ht. cbn.
    eapply does_bind; [eapply readInterfaceStatistics_reads; [done | lia | done | exact Hl | exact Hr1]|].
    intros ? r2 Hr2. by apply does_ret.
  - pose proof (len_packet_body ci data) as Hb. pose proof (padding_range (len data)). pose proof (len_nonneg data).
    pose proof Hi as (_ & _ & _ & Hlen & _).
    eapply does_bind; [eapply opens; [| | | exact Hr]; [done | by split | rewrite Hb; unfold is_u32; lia]|].
    intros ? r1 (Hr1 & Ht & Hl & _). apply does_get. rewrite Ht. cbn.
    eapply does_bind; [by eapply (read_packet_block_reads (len ifs))|]. intros ? r2 Hr2. by apply does_ret.
Qed.

(** A packet that is not wanted is passed over. *)
Lemma discard_packet n ci data t ifs evs r : at_packet n ci data t ifs evs r →
  does (input discard_block) (fun _ r' => ready t ifs evs r') r.
Proof.
  intros (Hr & _ & Hl). pose proof (ready_input _ _ _ _ Hr) as Hi. rewrite app_assoc in Hi.
  eapply does_mono; [eapply does_input, does_discard_block; [|exact Hi]; by rewrite len_app, Hl|].
  intros _ r' (i & -> & Hi' & _). by eapply ready_moves.
Qed.

Context (Hoptions : WantMixedLinkType o = true ∨ ErrorOnMismatchingLinkType o = false).

Lemma item_step i t ifs evs r fuel : item_ok (len ifs) i → len ifs < 4294967296 → ready (item_bytes big i ++ t) ifs evs r →
  ∃ r', ready t (ifaces_after ifs i) (events_after o ifs evs i) r' ∧
    read_from (S fuel) r = match packet_of o lt ifs i with None => read_from fuel r' | Some p => (Ok p, r') end.
Proof.
  intros Hi Hn Hr. destruct (does_eq _ _ _ (read_a_block_reads i t ifs evs r Hi Hn Hr)) as (found & r1 & Hread & Hr1).
  unfold read_from at 1. rewrite bind_eq. cbn [readPacketHeader_loop]. rewrite bind_eq, Hread.
  destruct i as [intf|id st|ci data]; [by destruct Hr1 as [-> ?]; exists r1 | by destruct Hr1 as [-> ?]; exists r1|].
  destruct Hr1 as [-> Hat]. cbn [negb]. rewrite bind_eq. cbn [get]. pose proof Hat as (Hr1 & Hci & _).
  pose proof Hi as [Hid _]. rewrite Hci. cbn [InterfaceIndex]. rewrite (ready_ifaces _ _ _ _ Hr1), index_interface, lift_bind by done.
  rewrite (ready_options _ _ _ _ Hr1), (ready_linkType _ _ _ _ Hr1). cbn [packet_of ifaces_after events_after].
  set (iface := interface_at ifs (InterfaceIndex ci)).
  destruct (WantMixedLinkType o) eqn:Hw; cbn [negb orb].
  - destruct (does_eq _ _ _ (ReadPacketData_packet (len ifs) ci data t ifs evs (set_ancil (Some (if_LinkType iface)) r1) Hi
      ltac:(destruct Hat as [[] ?]; by split) ltac:(by left))) as (p & r2 & Hp & Hr2 & ->).
    exists r2. split; [done|]. unfold modify. rewrite Hp, Hw. done.
  - destruct (Z.eqb_spec (if_LinkType iface) lt) as [Heq|Hne]; cbn [negb].
    + destruct (does_eq _ _ _ (ReadPacketData_packet (len ifs) ci data t ifs evs r1 Hi Hat ltac:(by right)))
        as (p & r2 & Hp & Hr2 & ->).
      exists r2. split; [done|]. rewrite ret_eq, Hp, Hw. done.
    + destruct (does_eq _ _ _ (discard_packet (len ifs) ci data t ifs evs r1 Hat)) as ([] & r2 & Hd & Hr2).
      exists r2. split; [done|]. rewrite bind_eq, Hd. destruct Hoptions as [|HE]; [done|]. by rewrite HE.
Qed.

(** The packets [ps] are read, and then the end of the input. *)
Definition reads_all (fuel : nat) (r : NgReader) (ps : list (bytes * CaptureInfo * option Z)) (final : NgReader → Prop) : Prop :=
  match ps with
  | [] => ∃ r', read_from fuel r = (Err e, r') ∧ final r'
  | p :: ps' => ∃ r1 r2 r3, read_from fuel r = (Ok p, r1) ∧ read_packets (length ps') r1 = (Ok ps', r2) ∧
      ReadPacketData r2 = (Err e, r3) ∧ final r3
  end.

Lemma reads_all_packets r ps final : reads_all (blocks_bound r) r ps final →
  ∃ r1 r2, read_packets (length ps) r = (Ok ps, r1) ∧ ReadPacketData r1 = (Err e, r2) ∧ final r2.
Proof.
  destruct ps as [|p ps]; cbn [reads_all length read_packets].
  - intros (r' & ? & ?). by exists r, r'.
  - intros (r1 & r2 & r3 & H1 & H2 & H3 & Hf). exists r2, r3. by rewrite bind_eq, ReadPacketData_from, H1, bind_eq, H2.
Qed.

Lemma read_from_end fuel ifs evs r : ready [] ifs evs r →
  ∃ r', read_from (S fuel) r = (Err e, r') ∧ ready [] ifs evs r'.
Proof.
  intros Hr. pose proof (at_stream _ _ (ready_input _ _ _ _ Hr)) as Hs.
  exists (set_in (set_stream (mkStream [] e) (nr_in r)) r). split.
  - unfold read_from. rewrite bind_eq. cbn [readPacketHeader_loop]. rewrite bind_eq. unfold read_a_block.
    rewrite bind_eq. unfold input, zoom, readBlock. rewrite bind_eq. unfold readBytes. by rewrite Hs.
  - eapply ready_moves; [exact Hr|]. eapply input_moves, Hr.
Qed.

Lemma item_bytes_length i : (1 <= length (item_bytes big i))%nat.
Proof. destruct i; cbn [item_bytes]; unfold block; rewrite length_app; destruct big; cbn; lia. Qed.

Lemma items_length l : (length l <= length (concat (map (item_bytes big) l)))%nat.
Proof.
  induction l as [|i l IH]; cbn [map concat length]; [done|]. rewrite length_app. pose proof (item_bytes_length i). lia.
Qed.

Lemma len_ifaces_after ifs i : len (ifaces_after ifs i) = interfaces_after (len ifs) i.
Proof. destruct i; cbn; rewrite ?len_app; [done | unfold len; by rewrite length_alter | done]. Qed.

Lemma items_read l : ∀ ifs evs r fuel, items_ok (len ifs) l → len ifs < 4294967296 → (length l < fuel)%nat →
  ready (concat (map (item_bytes big) l)) ifs evs r →
  reads_all fuel r (all_packets o lt ifs l)
    (fun r' => ifaces r' = all_ifaces ifs l ∧ events r' = all_events o ifs evs l).
Proof.
  induction l as [|i l IH]; intros ifs evs r fuel Hl Hn Hf Hr; (destruct fuel as [|fuel]; [cbn in Hf; lia|]);
    cbn [map concat all_packets all_ifaces all_events] in *.
  - destruct (read_from_end fuel ifs evs r Hr) as (r' & Hend & Hr'). exists r'. split; [done|]. by destruct Hr'.
  - destruct Hl as [Hi Hl]. destruct (item_step i _ ifs evs r fuel Hi Hn Hr) as (r' & Hr' & Hstep).
    rewrite <- len_ifaces_after in Hl.
    assert (len (ifaces_after ifs i) < 4294967296) as Hn' by (rewrite len_ifaces_after; destruct i; cbn in *; lia).
    destruct (packet_of o lt ifs i) as [p|] eqn:Hp; cbn [option_list app].
    + assert (length l < blocks_bound r')%nat as Hb.
      { unfold blocks_bound. rewrite (at_stream _ _ (ready_input _ _ _ _ Hr')). cbn [rest]. pose proof (items_length l). lia. }
      destruct (reads_all_packets _ _ _ (IH _ _ r' _ Hl Hn' Hb Hr')) as (r1 & r2 & H1 & H2 & Hfin).
      cbn [reads_all]. exists r', r1, r2. by rewrite Hstep.
    + pose proof (IH _ _ r' fuel Hl Hn' ltac:(cbn in Hf; lia) Hr') as HIH. unfold reads_all in *. by rewrite Hstep.
Qed.

(** ** The section header *)

Lemma section_magic v : (if big then BE_Uint32 v else LE_Uint32 v) = Ok ngByteOrderMagic →
  v = enc32 big ngByteOrderMagic →
  ∃ b l, BE_Uint32 v = Ok b ∧ LE_Uint32 v = Ok l ∧ (b =? ngByteOrderMagic) = big ∧ (big = false → l = ngByteOrderMagic).
Proof. intros _ ->. destruct big; eexists _, _; split_and!; try reflexivity; done. Qed.

(** A section header is opened whatever the byte order was. *)
Lemma section_opens body t i : is_u32 (len body + 16) → in_r i = mkStream (block big ngBlockTypeSectionHeader (enc32 big ngByteOrderMagic ++ body) ++ t) e →
  1024 <= len (in_array i) < 65536 →
  does readBlock (fun _ i' => input_at (body ++ enc32 big (len body + 16) ++ t) i' ∧
    in_typ i' = ngBlockTypeSectionHeader ∧ in_length i' = len body + 4) i.
Proof.
  intros Hu Hs Ha. unfold block in Hs. rewrite !len_app, len_enc32 in Hs. replace (4 + len body + 12) with (len body + 16) in Hs by lia.
  rewrite <- !app_assoc in Hs. pose proof (len_nonneg body).
  set (n := enc32 big (len body + 16)) in *. assert (len n = 4) as Hn by apply len_enc32.
  rewrite (app_assoc (enc32 big ngBlockTypeSectionHeader)) in Hs. unfold readBlock.
  set (t1 := enc32 big ngByteOrderMagic ++ body ++ n ++ t) in *.
  set (i1 := set_stream (mkStream t1 e) i).
  eapply (does_bind _ _ (fun b i' => b = enc32 big ngBlockTypeSectionHeader ++ n ∧ i' = i1)).
  { unfold does, wp, readBytes. rewrite Hs, (read_some_app 8) by (rewrite len_app, len_enc32; lia). done. }
  intros ? ? [-> ->].
  eapply (does_bind _ _ (fun v i' => v = ngBlockTypeSectionHeader ∧ i' = i1)).
  { pose proof (slice_app [] (enc32 big ngBlockTypeSectionHeader) n 0 4 eq_refl ltac:(by rewrite len_enc32)) as E. cbn [app] in E.
    unfold does, wp, field32. change (0 + 4) with 4. rewrite E, lift_bind.
    unfold getUint32. rewrite bind_eq. cbn [get]. unfold lift. by destruct (in_bigEndian i1), big. }
  intros ? ? [-> ->]. apply does_modify_bind. rewrite Z.eqb_refl.
  set (i2 := set_stream (mkStream (body ++ n ++ t) e) (set_typ ngBlockTypeSectionHeader i1)).
  eapply (does_bind _ _ (fun b i' => b = enc32 big ngByteOrderMagic ∧ i' = i2)).
  { unfold does, wp, readBytes. cbn [set_typ in_r]. unfold i1, t1. cbn [set_stream in_r].
    rewrite (read_some_app 4) by (by rewrite len_enc32). done. }
  intros ? ? [-> ->].
  destruct (section_magic (enc32 big ngByteOrderMagic)) as (b & l & Hb & Hlit & Hbig & Hlv); [by destruct big | done|].
  eapply does_lift_bind; [exact Hb|]. eapply does_lift_bind; [exact Hlit|].
  assert (input_at (body ++ n ++ t) (set_bigEndian big i2)) as Hi3 by (by split).
  eapply (does_bind _ _ (fun _ i' => i' = set_bigEndian big i2)).
  { rewrite Hbig. destruct big; [done|]. by rewrite (Hlv eq_refl). }
  intros ? ? ->. eapply does_bind; [eapply (does_field32_last _ (enc32 big ngBlockTypeSectionHeader)); [by rewrite len_enc32 | done | exact Hi3]|].
  intros ? ? [-> ->]. apply does_modify. split; [destruct Hi3; by split|]. split; [done|]. cbn.
  unfold is_u32 in *. rewrite u32_small; unfold is_u32; lia.
Qed.

Lemma firstInterface_reads intf t evs r : intf_ok intf → firstSectionFound r = false →
  lt = if_LinkType intf → ∀ lt0,
  input_at (item_bytes big (ItemInterface intf) ++ t) (nr_in r) → options r = o → linkType r = lt0 → ifaces r = [] → events r = evs →
  does firstInterface (fun _ r' => ready t [as_read_interface intf] evs r' ∧ sectionInfo r' = sectionInfo r) r.
Proof.
  intros Hok Hf -> lt0 Hi Ho Hl Hifs Hev. apply does_get. unfold blocks_bound. cbn [firstInterface_loop].
  eapply does_bind; [eapply does_input, (does_readBlock ngBlockTypeInterfaceDescriptor); [done | by split | by apply interface_body_bound | exact Hi]|].
  intros ? r1 (i1 & -> & Hi1 & Ht & Hl1). apply does_get. cbn [nr_in set_in]. rewrite Ht. cbn [Z.eqb Pos.eqb ngBlockTypeInterfaceDescriptor].
  eapply (does_bind _ _ (fun _ r' => ∃ i2, input_at t i2 ∧ r' = set_ifaces [as_read_interface intf] (set_in i2 r))).
  { unfold add_interface. eapply does_bind;
      [eapply does_input, does_readInterfaceDescriptor; [done | by apply interface_body_bound | exact Hl1 | exact Hi1]|].
    intros ? r' (i2 & -> & -> & Hi2). apply does_modify. exists i2. split; [done|]. unfold set_ifaces, set_in. cbn. by rewrite Hifs. }
  intros ? ? (i2 & Hi2 & ->). apply does_get. eapply does_lift_bind; [done|]. cbn [firstSectionFound set_ifaces set_in]. rewrite Hf.
  apply does_modify. split; [|done]. split; try done. by constructor.
Qed.

Definition section_rest (info : NgSectionInfo) : bytes :=
  enc16 big ngVersionMajor ++ enc16 big ngVersionMinor ++ enc64 big (2 ^ 64 - 1) ++
  options_bytes big (map (encoded big) (section_options info)).

(** The version of the first section. *)
Lemma find_version_reads info n t r : info_ok info → len n = 4 →
  input_at (section_rest info ++ n ++ t) (nr_in r) → in_length (nr_in r) = len (section_rest info) + 4 →
  activeSection r = false → options r = o →
  does (input (find_version (SkipUnknownVersion o) (blocks_bound r))) (fun _ r' => ∃ i, r' = set_in i r ∧
    input_at (options_bytes big (map (encoded big) (section_options info)) ++ n ++ t) i ∧
    in_length i = len (options_bytes big (map (encoded big) (section_options info))) + 4) r.
Proof.
  intros Hinfo Hn Hi Hl Hact Ho. apply does_input. unfold section_rest in *.
  pose proof (section_body_bound info Hinfo) as Hu. unfold section_body in Hu.
  set (ob := options_bytes big _) in *. rewrite !len_app, !len_enc16, len_enc64 in *. rewrite len_enc32 in Hu.
  pose proof (len_nonneg ob). rewrite <- !app_assoc in Hi. rewrite (app_assoc (enc16 big ngVersionMinor)), app_assoc in Hi.
  unfold blocks_bound. cbn [find_version].
  eapply does_bind; [eapply does_readBytes; [|exact Hi]; by rewrite !len_app, !len_enc16, len_enc64|].
  intros ? i1 (-> & Hi1 & Hl1 & _).
  eapply does_bind; [eapply (does_consume 12 (len ob + 4)); [lia | unfold is_u32 in *; lia | exact Hi1]|]. intros ? i2 (Hi2 & Hl2 & _).
  eapply does_bind; [eapply (does_field16 _ []); [done | by split | exact Hi2]|]. intros ? ? [-> ->].
  eapply does_bind; [eapply (does_field16 _ (enc16 big ngVersionMajor)); [by rewrite len_enc16 | by split | exact Hi2]|].
  intros ? ? [-> ->]. rewrite !Z.eqb_refl. cbn [negb orb]. by apply does_ret.
Qed.

(** Opening a file: its section, and its first interface unless link types are mixed. *)
Lemma open_file_reads info intf l : info_ok info → intf_ok intf →
  lt = (if WantMixedLinkType o then 0 else if_LinkType intf) →
  does open_file (fun _ r => sectionInfo r = info ∧
    if WantMixedLinkType o then ready (concat (map (item_bytes big) (ItemInterface intf :: l))) [] [] r
    else ready (concat (map (item_bytes big) l)) [as_read_interface intf] [] r)
    (new_reader (mkStream (file_bytes big info (ItemInterface intf :: l)) e) o).
Proof.
  intros Hinfo Hintf Hlt. pose proof (section_body_bound info Hinfo) as Hu.
  set (t := concat (map (item_bytes big) (ItemInterface intf :: l))).
  change (section_body big info) with (enc32 big ngByteOrderMagic ++ section_rest info) in Hu.
  rewrite len_app, len_enc32 in Hu. unfold open_file.
  eapply does_bind; [eapply does_input, (section_opens (section_rest info) t);
    [unfold is_u32 in *; lia | reflexivity | cbn [new_reader nr_in new_input in_array]; rewrite len_replicate; lia]|].
  intros ? r1 (i1 & -> & Hi1 & Ht & Hl1). apply does_get. cbn [nr_in set_in]. rewrite Ht, Z.eqb_refl. cbn [negb].
  unfold readSectionHeader. apply does_get. cbn [options set_in new_reader activeSection]. rewrite andb_false_r.
  eapply (does_bind _ _ (fun _ r' => r' = _)); [by apply does_ret|]. intros ? ? ->. apply does_modify_bind.
  eapply does_bind; [eapply (find_version_reads info); [done | | exact Hi1 | exact Hl1 | done | done]|]. { apply len_enc32. }
  intros ? r2 (i2 & -> & Hi2 & Hl2).
  eapply does_bind.
  { eapply does_input, (local_options_read section_option section_step (fun _ _ => True));
      [apply section_handles | by apply section_options_fit | | exact Hl2 | exact Hi2].
    unfold section_rest in Hu. rewrite !len_app in Hu. rewrite !len_enc16, len_enc64 in Hu. unfold is_u32 in *.
    pose proof (len_nonneg (options_bytes big (map (encoded big) (section_options info)))). lia. }
  intros ? r3 (i3 & -> & Hi3 & Hl3 & ->). rewrite section_fold.
  eapply does_bind; [eapply does_input, does_discard_block; [|exact Hi3]; cbn; by rewrite len_enc32, Hl3|].
  intros ? r4 (i4 & -> & Hi4 & _). apply does_modify_bind.
  destruct (WantMixedLinkType o) eqn:Hw; cbn [negb].
  - apply does_ret. split; [done|]. by split.
  - eapply does_mono; [eapply firstInterface_reads; [done | done | exact Hlt | exact Hi4 | done | done | done | done]|].
    intros ? r5 [Hr5 Hs5]. split; [by rewrite Hs5 | done].
Qed.
End reading.

(** The packets of a file, all of them or those of the first link type. *)
Definition packets_of (o : NgReaderOptions) (intf : NgInterface) (items : list ng_item)
    : list (bytes * CaptureInfo * option Z) :=
  all_packets o (if WantMixedLinkType o then 0 else if_LinkType intf) [] (ItemInterface intf :: items).

(** A file with the interfaces, packets and statistics given, read to its end. *)
Definition reads_back (o : NgReaderOptions) (info : NgSectionInfo) (intf : NgInterface) (items : list ng_item)
    (file : bytes) (e : error) : Prop :=
  ∃ r s s', NewNgReader (mkStream file e) o = Ok r ∧ SectionInfo r = info ∧
    (WantMixedLinkType o = false → NgLinkType r = if_LinkType intf) ∧
    read_packets (length (packets_of o intf items)) r = (Ok (packets_of o intf items), s) ∧
    ReadPacketData s = (Err e, s') ∧
    ifaces s' = all_ifaces [] (ItemInterface intf :: items) ∧
    events s' = all_events o [] [] (ItemInterface intf :: items).

Lemma file_reads_back big e o info intf items : info_ok info → items_ok 0 (ItemInterface intf :: items) →
  WantMixedLinkType o = true ∨ ErrorOnMismatchingLinkType o = false →
  reads_back o info intf items (file_bytes big info (ItemInterface intf :: items)) e.
Proof.
  intros Hinfo Hitems Ho. pose proof Hitems as [[Hintf _] Hrest]. set (lt := if WantMixedLinkType o then 0 else if_LinkType intf).
  destruct (does_eq _ _ _ (open_file_reads big e o lt Ho info intf items Hinfo Hintf eq_refl)) as ([] & r & Hopen & Hinfo' & Hr).
  assert (∃ s s', read_packets (length (packets_of o intf items)) r = (Ok (packets_of o intf items), s) ∧
    ReadPacketData s = (Err e, s') ∧ ifaces s' = all_ifaces [] (ItemInterface intf :: items) ∧
    events s' = all_events o [] [] (ItemInterface intf :: items)) as (s & s' & H1 & H2 & H3 & H4).
  { unfold packets_of. fold lt. apply (reads_all_packets e).
    assert (∀ l ifs, items_ok (len ifs) l → len ifs < 4294967296 → ready big e o lt (concat (map (item_bytes big) l)) ifs [] r →
      reads_all e (blocks_bound r) r (all_packets o lt ifs l)
        (fun r' => ifaces r' = all_ifaces ifs l ∧ events r' = all_events o ifs [] l)) as Hgo.
    { intros l ifs Hl Hn Hr'. apply (items_read big e o lt Ho l ifs [] r); [done | done | | done].
      unfold blocks_bound. rewrite (at_stream _ _ _ _ (ready_input _ _ _ _ _ _ _ _ Hr')). cbn [rest].
      pose proof (items_length big l). lia. }
    destruct (WantMixedLinkType o) eqn:Hw.
    - by apply (Hgo (ItemInterface intf :: items) []).
    - cbn [all_packets packet_of option_list app all_ifaces all_events ifaces_after events_after].
      by apply (Hgo items [as_read_interface intf]). }
  exists r, s, s'. split_and!; try done.
  - unfold NewNgReader. by rewrite Hopen.
  - intros Hw. unfold NgLinkType. unfold lt in Hr. rewrite Hw in Hr. by destruct Hr.
Qed.

(** C34 (roundtrip): what the writer has written and flushed, the reader reads back:
    packets in order, times shifted by the offset of their interface alone. *)
Theorem ng_roundtrip {W} `{!Writer W} `{!WriterLaws W} `{!BufferedWriter W} `{!BufferedWriterLaws W}
    (w : W) intf info items o :
  written w = [] → info_ok info → items_ok 0 (ItemInterface intf :: items) →
  WantMixedLinkType o = true ∨ ErrorOnMismatchingLinkType o = false →
  match NewNgWriterInterface w intf info with
  | Ok s =>
      wp (_ ← write_items items; NgFlush)
        (fun _ s' => reads_back o info intf items (flushed (nw_w s')) io_EOF) (fun _ _ => True) s
  | Err _ => True
  | _ => False
  end.
Proof.
  intros Hw Hinfo Hitems Ho. pose proof (writes_file w intf info items Hw Hinfo Hitems) as Hfile.
  destruct (NewNgWriterInterface w intf info); [|done..]. refine (wp_mono _ _ _ _ _ _ _ _ Hfile); [|done].
  intros _ s' ->. by apply file_reads_back.
Qed.

Lemma ng_roundtrip_witness :
  match NewNgWriterInterface (mkBuffered [] []) sample_interface sample_info with
  | Ok s =>
      wp (_ ← write_items sample_items; NgFlush)
        (fun _ s' => reads_back DefaultNgReaderOptions sample_info sample_interface sample_items (flushed (nw_w s')) io_EOF)
        (fun _ _ => True) s
  | Err _ => True
  | _ => False
  end.
Proof.
  apply (ng_roundtrip (mkBuffered [] []) sample_interface sample_info sample_items DefaultNgReaderOptions);
    [done | repeat split; vm_compute; congruence | exact sample_items_ok | by right].
Defined.

(** With no offset the times come back as they were; with one they are shifted,
    because the writer records the offset but does not subtract it. *)
Lemma as_read_time_id t : time_fits t → as_read_time 0 t = t.
Proof.
  intros [Hok Hr]. unfold as_read_time, u64, i64, time_ok, nanosPerSecond in *. rewrite Z.add_0_r, Z.mod_small by lia.
  destruct (Z.ltb_spec (seconds t) (2 ^ 63)); [by destruct t | lia].
Qed.

Lemma offset_shifts_times : as_read_time 3600 (mkTime 1700000000 5) = mkTime 1700003600 5.
Proof. reflexivity. Qed.

(** ** Behaviour at the borders *)

Definition header_block : bytes := block false ngBlockTypeSectionHeader (section_body false empty_section).

(** An option of no length keeps the value of the option before it: here the
    description, which is empty in the file, is read as the name. *)
Definition empty_description : bytes :=
  header_block ++ block false ngBlockTypeInterfaceDescriptor
    (enc16 false 1 ++ enc16 false 0 ++ enc32 false 0 ++ options_bytes false [(2, [108; 111]); (3, [])]).

Lemma empty_option_keeps_value :
  match NewNgReader (mkStream empty_description io_EOF) DefaultNgReaderOptions with
  | Ok r => map if_Description (ifaces r) = [[108; 111]]
  | _ => False
  end.
Proof. vm_compute. reflexivity. Qed.

(** A time before 1970 is written as a negative number and read as one after 2500. *)
Definition early_packet : ng_item := ItemPacket (mkCaptureInfo (mkTime (-1) 0) 1 1 0) [7].

Lemma early_time_is_late :
  match NewNgReader (mkStream (file_bytes false sample_info [ItemInterface sample_interface; early_packet]) io_EOF)
          DefaultNgReaderOptions with
  | Ok r => match read_packets 1 r with
            | (Ok [(_, ci, _)], _) => seconds (Timestamp ci) = 18446744072
            | _ => False
            end
  | _ => False
  end.
Proof. vm_compute. reflexivity. Qed.

(** A second section whose first interface has another link type: later interfaces
    of the section are not looked at, and its first packet is an error. *)
Definition other_interface : NgInterface := intf_Name [97] (mkInterface [] [] [] [] [] 105 0 0 0 zero_statistics 0 0 0).

Lemma second_section_unreadable :
  match NewNgReader (mkStream (file_bytes false sample_info [ItemInterface sample_interface] ++
           file_bytes false sample_info [ItemInterface other_interface; ItemInterface sample_interface;
             ItemPacket (mkCaptureInfo (mkTime 1 1) 1 1 1) [7]]) io_EOF) DefaultNgReaderOptions with
  | Ok r => fst (ReadPacketData r) = Err no_interface
  | _ => False
  end.
Proof. vm_compute. reflexivity. Qed.
