(* ===== verification/NgFile.v ===== *)
(** * Reading any pcapng file of version 1.0

    Files as the pcapng draft has them: sections of either byte order, with
    interfaces of any resolution that nanoseconds can tell, the three kinds of packet
    blocks, statistics, blocks of other types, and options of any number and order.
    What is to be read from them is stated without the reader; the theorem is that the
    reader finds it, to the end of the file. *)

From S2P Require Import Prelude Capture Ng NgWrite NgReader NgRoundtrip.

(** ** Files *)

(** Options of a section header, an interface and its statistics; the codes are those
    of the draft. *)
Inductive header_option : Type := HComment (v : bytes) | HHardware (v : bytes) | HOS (v : bytes) | HApplication (v : bytes) | HOther (c : Z) (v : bytes).
Inductive intf_option : Type :=
  | IComment (v : bytes) | IName (v : bytes) | IDescription (v : bytes) | IResolution (r : Z) | IFilter (kind : Z) (v : bytes)
  | IOS (v : bytes) | IOffset (seconds : Z) | IOther (c : Z) (v : bytes).
Inductive stats_option : Type :=
  | TComment (v : bytes) | TStart (ts : Z) | TEnd (ts : Z) | TReceived (n : Z) | TDropped (n : Z) | TOther (c : Z) (v : bytes).

(** Blocks after the section header: interface descriptions, statistics, enhanced, old
    and simple packets, and those of types that are not known. [ended] says whether the
    options are closed by an end of options. Of a packet, [rest] is what follows its
    data, the padding and the options. *)
Inductive ng_block : Type :=
  | IDB (lt reserved snap : Z) (opts : list intf_option) (ended : bool)
  | ISB (id ts : Z) (opts : list stats_option) (ended : bool)
  | EPB (id ts orig : Z) (data rest : bytes)
  | OPB (id drops ts orig : Z) (data rest : bytes)
  | SPB (orig : Z) (data rest : bytes)
  | OtherBlock (typ : Z) (body : bytes).

Record ng_section : Type := mkSection { s_big : bool; s_length : Z; s_opts : list header_option; s_ended : bool; s_blocks : list ng_block }.

Section encoding.
Context (big : bool).

Definition header_raw (o : header_option) : Z * bytes :=
  match o with HComment v => (1, v) | HHardware v => (2, v) | HOS v => (3, v) | HApplication v => (4, v) | HOther c v => (c, v) end.
Definition intf_raw (o : intf_option) : Z * bytes :=
  match o with
  | IComment v => (1, v) | IName v => (2, v) | IDescription v => (3, v) | IResolution r => (9, [r]) | IFilter kind v => (11, kind :: v)
  | IOS v => (12, v) | IOffset s => (14, enc64 big s) | IOther c v => (c, v)
  end.
Definition stats_raw (o : stats_option) : Z * bytes :=
  match o with
  | TComment v => (1, v) | TStart ts => (2, enc_time big ts) | TEnd ts => (3, enc_time big ts)
  | TReceived n => (4, enc64 big n) | TDropped n => (5, enc64 big n) | TOther c v => (c, v)
  end.

(** Options with or without an end of options. *)
Definition raw_options (ended : bool) (l : list (Z * bytes)) : bytes :=
  concat (map (option_bytes big) l) ++ (if ended then enc16 big 0 ++ enc16 big 0 else []).

Definition packet_fields (ts : Z) (data : bytes) (orig : Z) : bytes := enc_time big ts ++ enc32 big (len data) ++ enc32 big orig.

Definition block_type (b : ng_block) : Z :=
  match b with IDB _ _ _ _ _ => 1 | OPB _ _ _ _ _ _ => 2 | SPB _ _ _ => 3 | ISB _ _ _ _ => 5 | EPB _ _ _ _ _ => 6 | OtherBlock typ _ => typ end.

Definition block_body (b : ng_block) : bytes :=
  match b with
  | IDB lt reserved snap opts ended => enc16 big lt ++ enc16 big reserved ++ enc32 big snap ++ raw_options ended (map intf_raw opts)
  | ISB id ts opts ended => enc32 big id ++ enc_time big ts ++ raw_options ended (map stats_raw opts)
  | EPB id ts orig data rest => enc32 big id ++ packet_fields ts data orig ++ data ++ rest
  | OPB id drops ts orig data rest => enc16 big id ++ enc16 big drops ++ packet_fields ts data orig ++ data ++ rest
  | SPB orig data rest => enc32 big orig ++ data ++ rest
  | OtherBlock _ body => body
  end.

Definition block_bytes (b : ng_block) : bytes := block big (block_type b) (block_body b).
Definition blocks_bytes (l : list ng_block) : bytes := concat (map block_bytes l).

Definition header_rest (n : Z) (opts : list header_option) (ended : bool) : bytes :=
  enc16 big 1 ++ enc16 big 0 ++ enc64 big n ++ raw_options ended (map header_raw opts).
End encoding.

Definition section_bytes (s : ng_section) : bytes :=
  block (s_big s) 0x0A0D0D0A (enc32 (s_big s) 0x1A2B3C4D ++ header_rest (s_big s) (s_length s) (s_opts s) (s_ended s)) ++
  blocks_bytes (s_big s) (s_blocks s).

Definition sections_bytes (l : list ng_section) : bytes := concat (map section_bytes l).

(** ** What is in them *)

(** The units of time in a second, of a resolution as in the file. *)
Definition units (r : Z) : Z := if r <? 128 then 10 ^ r else 2 ^ (r - 128).

(** Resolutions whose units are a number of nanoseconds, or parts of one: all powers
    of 10 that fit into 64 bits, and the powers of 2 down to 2^-9. *)
Definition exact (r : Z) : Prop := 0 < r < 256 ∧ units r < 2 ^ 64 ∧ ((units r | nanosPerSecond) ∨ (nanosPerSecond | units r)).

(** The time of a stamp: the units since the epoch, and the offset in seconds. *)
Definition clock (i : NgInterface) (ts : Z) : time :=
  let u := units (TimestampResolution_ i) in
  mkTime (i64 (u64 (ts / u + TimestampOffset i))) (ts mod u * nanosPerSecond / u).

Definition header_step (s : NgSectionInfo) (o : header_option) : NgSectionInfo :=
  match o with
  | HComment v => mkSectionInfo (Hardware s) (s_OS s) (Application s) v
  | HHardware v => mkSectionInfo v (s_OS s) (Application s) (s_Comment s)
  | HOS v => mkSectionInfo (Hardware s) v (Application s) (s_Comment s)
  | HApplication v => mkSectionInfo (Hardware s) (s_OS s) v (s_Comment s)
  | HOther _ _ => s
  end.

Definition intf_step (i : NgInterface) (o : intf_option) : NgInterface :=
  match o with
  | IComment v => intf_Comment v i | IName v => intf_Name v i | IDescription v => intf_Description v i | IResolution r => intf_Resolution r i
  | IFilter _ v => intf_Filter v i | IOS v => intf_OS v i | IOffset s => intf_Offset s i | IOther _ _ => i
  end.

Definition stats_step (i : NgInterface) (s : NgInterfaceStatistics) (o : stats_option) : NgInterfaceStatistics :=
  match o with
  | TComment v => mkStatistics (LastUpdate s) (StartTime s) (EndTime s) v (PacketsReceived s) (PacketsDropped s)
  | TStart ts => mkStatistics (LastUpdate s) (clock i ts) (EndTime s) (st_Comment s) (PacketsReceived s) (PacketsDropped s)
  | TEnd ts => mkStatistics (LastUpdate s) (StartTime s) (clock i ts) (st_Comment s) (PacketsReceived s) (PacketsDropped s)
  | TReceived n => mkStatistics (LastUpdate s) (StartTime s) (EndTime s) (st_Comment s) n (PacketsDropped s)
  | TDropped n => mkStatistics (LastUpdate s) (StartTime s) (EndTime s) (st_Comment s) (PacketsReceived s) n
  | TOther _ _ => s
  end.

(** An interface: without a resolution its unit is the microsecond. *)
Definition scaled (i : NgInterface) : NgInterface :=
  let u := units (TimestampResolution_ i) in
  intf_scales u (if u <? nanosPerSecond then nanosPerSecond / u else 1) (if u <? nanosPerSecond then 1 else u / nanosPerSecond) i.

Definition described (lt snap : Z) (opts : list intf_option) : NgInterface :=
  scaled (fold_left intf_step opts (mkInterface [] [] [] [] [] lt 6 0 snap zero_statistics 0 0 0)).

Definition measured (i : NgInterface) (ts : Z) (opts : list stats_option) : NgInterfaceStatistics :=
  fold_left (stats_step i) opts (mkStatistics (clock i ts) zero_time zero_time [] NgNoValue64 NgNoValue64).

(** What a call is to return: a packet, or that it is of another link type. *)
Definition ng_result : Type := (bytes * CaptureInfo * option Z) + error.

(** The section at hand and the calls of the callbacks. *)
Record contents : Type := mkContents { c_info : NgSectionInfo; c_ifaces : list NgInterface; c_events : list ng_event }.

Section contents.
Context (o : NgReaderOptions) (lt : Z).

Definition result_of (i : NgInterface) (ci : CaptureInfo) (data : bytes) : list ng_result :=
  if WantMixedLinkType o then [inl (data, ci, Some (if_LinkType i))]
  else if if_LinkType i =? lt then [inl (data, ci, None)]
  else if ErrorOnMismatchingLinkType o then [inr ErrNgLinkTypeMismatch] else [].

(** The packet of a block. *)
Definition block_packet (ifs : list NgInterface) (b : ng_block) : option (CaptureInfo * bytes) :=
  match b with
  | EPB id ts orig data _ | OPB id _ ts orig data _ => Some (mkCaptureInfo (clock (interface_at ifs id) ts) (len data) orig id, data)
  | SPB orig data _ => Some (mkCaptureInfo zero_time (len data) orig 0, data)
  | _ => None
  end.

Definition block_results (ifs : list NgInterface) (b : ng_block) : list ng_result :=
  match block_packet ifs b with
  | Some (ci, data) => result_of (interface_at ifs (InterfaceIndex ci)) ci data
  | None => []
  end.

Definition block_contents (c : contents) (b : ng_block) : contents :=
  match b with
  | IDB lt _ snap opts _ => mkContents (c_info c) (c_ifaces c ++ [described lt snap opts]) (c_events c)
  | ISB id ts opts _ =>
      let st := measured (interface_at (c_ifaces c) id) ts opts in
      mkContents (c_info c) (alter (intf_Statistics st) (Z.to_nat id) (c_ifaces c))
        (if StatisticsCallback o then c_events c ++ [StatisticsRead id st] else c_events c)
  | _ => c
  end.

Fixpoint blocks_results (c : contents) (l : list ng_block) : list ng_result :=
  match l with [] => [] | b :: l => block_results (c_ifaces c) b ++ blocks_results (block_contents c b) l end.

(** A new section, [active] if it is not the first. *)
Definition section_contents (active : bool) (c : contents) (s : ng_section) : contents :=
  mkContents (fold_left header_step (s_opts s) empty_section) []
    (if SectionEndCallback o && active then c_events c ++ [SectionEnd (c_ifaces c) (c_info c)] else c_events c).

Fixpoint sections_results (active : bool) (c : contents) (l : list ng_section) : list ng_result * contents :=
  match l with
  | [] => ([], c)
  | s :: l =>
      let c1 := section_contents active c s in
      let (rs, c') := sections_results true (fold_left block_contents (s_blocks s) c1) l in
      (blocks_results c1 (s_blocks s) ++ rs, c')
  end.
End contents.

(** ** Files that are well formed *)

Definition value_fits (v : bytes) : Prop := 0 < len v <= 65532.
(** An option that is not known. *)
Definition other_fits (known : list Z) (c : Z) (v : bytes) : Prop := c ∉ known ∧ is_u16 c ∧ value_fits v.

Definition header_option_ok (o : header_option) : Prop :=
  match o with HComment v | HHardware v | HOS v | HApplication v => value_fits v | HOther c v => other_fits [0; 1; 2; 3; 4] c v end.
Definition intf_option_ok (o : intf_option) : Prop :=
  match o with
  | IComment v | IName v | IDescription v | IOS v => value_fits v
  | IFilter _ v => len v <= 65531
  | IResolution r => exact r
  | IOffset s => is_u64 s
  | IOther c v => other_fits [0; 1; 2; 3; 9; 11; 12; 14] c v
  end.
Definition stats_option_ok (o : stats_option) : Prop :=
  match o with TComment v => value_fits v | TStart n | TEnd n | TReceived n | TDropped n => is_u64 n | TOther c v => other_fits [0; 1; 2; 3; 4; 5] c v end.

(** The data of a simple packet is as much as the interface captures. *)
Definition simple_length (snap orig : Z) : Z := if snap =? 0 then orig else Z.min snap orig.

Section well_formed.
Context (big : bool).

(** A block, where the interfaces [ifs] are known. *)
Definition block_ok (ifs : list NgInterface) (b : ng_block) : Prop :=
  is_u32 (len (block_body big b) + 12) ∧
  match b with
  | IDB lt reserved snap opts _ => is_u8 lt ∧ is_u16 reserved ∧ is_u32 snap ∧ Forall intf_option_ok opts
  | ISB id ts opts _ => 0 <= id < len ifs ∧ is_u32 id ∧ is_u64 ts ∧ Forall stats_option_ok opts
  | EPB id ts orig _ _ => 0 <= id < len ifs ∧ is_u32 id ∧ is_u64 ts ∧ is_u32 orig
  | OPB id drops ts orig _ _ => 0 <= id < len ifs ∧ is_u16 id ∧ is_u16 drops ∧ is_u64 ts ∧ is_u32 orig
  | SPB orig data _ => 0 < len ifs ∧ is_u32 orig ∧ len data = simple_length (SnapLength (interface_at ifs 0)) orig
  | OtherBlock typ _ => is_u32 typ ∧ typ ∉ [1; 2; 3; 5; 6; 0x0A0D0D0A]
  end.
End well_formed.

Section well_formed_sections.
Context (o : NgReaderOptions).

Fixpoint blocks_ok (big : bool) (c : contents) (l : list ng_block) : Prop :=
  match l with [] => True | b :: l => block_ok big (c_ifaces c) b ∧ blocks_ok big (block_contents o c b) l end.

(** Without mixed link types a section has an interface, the first of which has the
    link type [lt]. *)
Fixpoint first_link_type (l : list ng_block) : option Z :=
  match l with IDB lt _ _ _ _ :: _ => Some lt | OtherBlock _ _ :: l => first_link_type l | _ => None end.

Definition section_ok (lt : Z) (s : ng_section) : Prop :=
  is_u64 (s_length s) ∧ Forall header_option_ok (s_opts s) ∧
  is_u32 (len (header_rest (s_big s) (s_length s) (s_opts s) (s_ended s)) + 16) ∧
  blocks_ok (s_big s) (mkContents empty_section [] []) (s_blocks s) ∧
  (WantMixedLinkType o = false → first_link_type (s_blocks s) = Some lt).

End well_formed_sections.

(** ** Times *)

(** The fields of an interface for its times. *)
Definition timed (i : NgInterface) : Prop :=
  exact (TimestampResolution_ i) ∧ scaled i = i.

Lemma units_pos r : 0 <= r → 0 < units r.
Proof. intros Hr. unfold units. destruct (Z.ltb_spec r 128); apply Z.pow_pos_nonneg; lia. Qed.

Lemma second_mask_units r : 0 < r < 256 → units r < 2 ^ 64 → second_mask r = units r.
Proof.
  intros Hr Hu. assert (forallb (fun r => (2 ^ 64 <=? units r) || (second_mask r =? units r)) (seqZ 0 256) = true) as Hall by (by vm_compute).
  rewrite forallb_forall in Hall. specialize (Hall r). rewrite <-list_elem_of_In, elem_of_seqZ in Hall. specialize (Hall ltac:(lia)).
  apply orb_true_iff in Hall as [Hle%Z.leb_le|Heq%Z.eqb_eq]; [lia|done].
Qed.

Lemma prepare_scaled i : exact (TimestampResolution_ i) → prepare_interface i = Ok (scaled i).
Proof.
  intros (Hr & Hu & _). unfold prepare_interface, scaled. destruct (Z.eqb_spec (TimestampResolution_ i) 0); [lia|]. cbv zeta.
  rewrite second_mask_units by done. pose proof (units_pos (TimestampResolution_ i) ltac:(lia)).
  destruct (units (TimestampResolution_ i) <? nanosPerSecond); [|done]. unfold div64. by destruct (Z.eqb_spec (units (TimestampResolution_ i)) 0); [lia|].
Qed.

Lemma scaled_timed i : exact (TimestampResolution_ i) → timed (scaled i).
Proof. done. Qed.

(** Nanoseconds of a part [f] of a second. *)
Lemma nanos_of_units u f : 0 < u → 0 <= f < u → ((u | nanosPerSecond) ∨ (nanosPerSecond | u)) →
  f * (if u <? nanosPerSecond then nanosPerSecond / u else 1) / (if u <? nanosPerSecond then 1 else u / nanosPerSecond) = f * nanosPerSecond / u.
Proof.
  intros Hu Hf Hd. assert (0 < nanosPerSecond) as HN by done. destruct (Z.ltb_spec u nanosPerSecond) as [Hlt|Hge].
  - destruct Hd as [[k Hk]|[k Hk]]; [|unfold nanosPerSecond in *; lia]. rewrite Hk, Z.div_mul, Z.div_1_r by lia. rewrite Z.mul_assoc, Z.div_mul by lia. done.
  - assert (∃ k, u = k * nanosPerSecond) as [k Hk].
    { destruct Hd as [[k Hk]|Hd]; [|done]. exists 1. assert (k = 1) by nia. nia. }
    rewrite Z.mul_1_r, Hk, Z.div_mul by lia. by rewrite (Z.div_mul_cancel_r f k nanosPerSecond) by nia.
Qed.

Lemma convertTime_clock i ts : timed i → is_u64 ts → convertTime i ts = Ok (clock i ts).
Proof.
  intros [(Hr & Hu & Hd) Hs] Hts. unfold is_u64 in Hts. pose proof (units_pos (TimestampResolution_ i) ltac:(lia)) as Hpos.
  assert (secondMask i = units (TimestampResolution_ i)) as Em by (by rewrite <-Hs).
  assert (scaleUp i = if units (TimestampResolution_ i) <? nanosPerSecond then nanosPerSecond / units (TimestampResolution_ i) else 1) as Eu by (rewrite <-Hs at 1; done).
  assert (scaleDown i = if units (TimestampResolution_ i) <? nanosPerSecond then 1 else units (TimestampResolution_ i) / nanosPerSecond) as Ed by (rewrite <-Hs at 1; done).
  unfold convertTime, clock, div64, mod64. rewrite Em, Eu, Ed. set (u := units (TimestampResolution_ i)) in *.
  destruct (Z.eqb_spec u 0); [lia|]. pose proof (Z.mod_pos_bound ts u Hpos) as Hf. pose proof (nanos_of_units u (ts mod u) Hpos Hf Hd) as Hn.
  assert (ts mod u * nanosPerSecond / u < nanosPerSecond) as Hlt by (apply Z.div_lt_upper_bound; unfold nanosPerSecond; nia).
  assert (0 <= ts mod u * nanosPerSecond / u) as Hge by (apply Z.div_pos; unfold nanosPerSecond; nia).
  set (up := if u <? nanosPerSecond then nanosPerSecond / u else 1) in *. set (down := if u <? nanosPerSecond then 1 else u / nanosPerSecond) in *.
  assert (0 < down) as Hdown by (unfold down; destruct (Z.ltb_spec u nanosPerSecond); [lia|apply Z.div_str_pos; unfold nanosPerSecond in *; lia]).
  assert (0 <= ts mod u * up < 2 ^ 64) as Hup.
  { unfold up. destruct (Z.ltb_spec u nanosPerSecond); [|lia]. assert (0 < nanosPerSecond / u) by (apply Z.div_str_pos; lia).
    assert (u * (nanosPerSecond / u) <= nanosPerSecond) by (apply Z.mul_div_le; lia). split; [nia|].
    apply Z.le_lt_trans with nanosPerSecond; [nia | done]. }
  destruct (Z.eqb_spec down 0); [lia|]. cbn [mbind outcome_bind mret outcome_ret].
  assert (u64 (ts mod u * up) = ts mod u * up) as -> by (by apply Z.mod_small).
  rewrite Hn. unfold i64 at 2. destruct (Z.ltb_spec (ts mod u * nanosPerSecond / u) (2 ^ 63)); [|unfold nanosPerSecond in *; lia].
  unfold mret, outcome_ret, time_Unix. rewrite (Z.div_small (ts mod u * nanosPerSecond / u)), (Z.mod_small (ts mod u * nanosPerSecond / u)), Z.add_0_r by lia. done.
Qed.

(** ** Options *)

Section options.
Context (big : bool) (e : error).

Lemma ended_loop {A} (use : Z → M (ngInput * A) unit) step V t opts ended : handles big e use step V →
  Forall (fun o => option_fits o ∧ V o.1 o.2) opts → is_u32 (len (raw_options big ended opts) + 4) →
  ∀ fuel i a, (length opts < fuel)%nat → in_length i = len (raw_options big ended opts) + 4 →
  input_at big e (raw_options big ended opts ++ t) i →
  does (options_loop use fuel)
    (fun _ p => input_at big e t p.1 ∧ in_length p.1 = 4 ∧ p.2 = fold_left (fun a o => step o.1 o.2 a) opts a) (i, a).
Proof.
  intros Huse. unfold raw_options. induction opts as [|o opts IH]; intros HF Hu fuel i a Hf Hl Hi;
    (destruct fuel as [|fuel]; [cbn in Hf; lia|]); cbn [options_loop map concat] in *.
  - destruct ended.
    + cbn [app] in Hi. rewrite <-app_assoc in Hi. cbn [app] in Hl. rewrite len_app, !len_enc16 in Hl.
      eapply does_bind; [eapply does_on_fst, does_readOption_end; [lia | exact Hi]|].
      intros ? [i1 a1] [(Hi1 & Hl1 & Hc1) Ha]. cbn in Ha, Hi1, Hl1, Hc1. subst a1. apply does_get. cbn [fst]. rewrite Hc1. by apply does_ret.
    + cbn [app] in Hi, Hl. change (len []) with 0 in Hl.
      eapply (does_bind _ _ (fun _ p => p = (set_code ngOptionCodeEndOfOptions i, a))).
      { unfold does, wp, on_fst, zoom, readOption. rewrite bind_eq. cbn [get fst]. by rewrite Hl. }
      intros ? ? ->. apply does_get. apply does_ret. split; [by destruct Hi | done].
  - apply Forall_cons in HF as [[Ho HV] HF]. rewrite <- !app_assoc in Hi. rewrite <-app_assoc, len_app in Hl. rewrite <-app_assoc, len_app in Hu.
    set (tl := concat _ ++ _) in *. pose proof (len_nonneg (option_bytes big o)). pose proof (len_nonneg tl).
    eapply does_bind; [eapply does_on_fst, (does_readOption big e o (len tl + 4)); [done | unfold is_u32 in *; lia | lia | lia | exact Hi]|].
    intros ? [i1 a1] [(Hi1 & Hl1 & Hc1 & Hh1) Ha]. cbn in Ha, Hi1, Hl1, Hc1, Hh1. subst a1. apply does_get. cbn [fst].
    rewrite Hc1. destruct (Z.eqb_spec o.1 ngOptionCodeEndOfOptions); [by destruct Ho|].
    eapply (does_bind _ _ (fun _ p => p = (i1, step o.1 o.2 a))).
    { unfold does, wp. destruct Ho as (_ & _ & ? & _). by rewrite (Huse o.1 o.2 _ i1 a HV ltac:(done) Hh1 Hi1). }
    intros ? ? ->. cbn [fold_left]. apply IH; [done | unfold is_u32 in *; lia | cbn in Hf; lia | lia | unfold tl; by rewrite <-app_assoc].
Qed.

(** All the options of a block, of which four bytes are left then. *)
Lemma ended_options {A T} (use : Z → M (ngInput * A) unit) step V (raw : T → Z * bytes) (tstep : A → T → A) (ok : T → Prop) t opts ended i a :
  handles big e use step V →
  (∀ o a, ok o → option_fits (raw o) ∧ V (raw o).1 (raw o).2 ∧ step (raw o).1 (raw o).2 a = tstep a o) →
  Forall ok opts → is_u32 (len (raw_options big ended (map raw opts)) + 4) →
  in_length i = len (raw_options big ended (map raw opts)) + 4 → input_at big e (raw_options big ended (map raw opts) ++ t) i →
  does (read_options use) (fun _ p => input_at big e t p.1 ∧ in_length p.1 = 4 ∧ p.2 = fold_left tstep opts a) (i, a).
Proof.
  intros Huse Hraw HF Hu Hl Hi. apply does_get. cbn [fst].
  assert (fold_left (fun a o => step o.1 o.2 a) (map raw opts) a = fold_left tstep opts a) as <-.
  { clear Hu Hl Hi. revert a. induction opts as [|o opts IH]; intros a; [done|]. apply Forall_cons in HF as [Ho HF].
    cbn [map fold_left]. destruct (Hraw o a Ho) as (_ & _ & ->). by apply IH. }
  eapply ended_loop; [exact Huse | | done | | done | done].
  - clear Hu Hl Hi. induction HF as [|o opts Ho HF IH]; cbn [map]; constructor; [|done]. by destruct (Hraw o a Ho) as (? & ? & _).
  - rewrite (at_stream _ _ _ _ Hi). cbn [rest]. unfold raw_options. rewrite !length_app. pose proof (concat_options_length big (map raw opts)). lia.
Qed.

Lemma ended_local {A T} (use : Z → M (ngInput * A) unit) step V (raw : T → Z * bytes) (tstep : A → T → A) (ok : T → Prop) t opts ended i a :
  handles big e use step V →
  (∀ o a, ok o → option_fits (raw o) ∧ V (raw o).1 (raw o).2 ∧ step (raw o).1 (raw o).2 a = tstep a o) →
  Forall ok opts → is_u32 (len (raw_options big ended (map raw opts)) + 4) →
  in_length i = len (raw_options big ended (map raw opts)) + 4 → input_at big e (raw_options big ended (map raw opts) ++ t) i →
  does (with_local a (read_options use)) (fun a' i' => input_at big e t i' ∧ in_length i' = 4 ∧ a' = fold_left tstep opts a) i.
Proof.
  intros Huse Hraw HF Hu Hl Hi. pose proof (ended_options use step V raw tstep ok t opts ended i a Huse Hraw HF Hu Hl Hi) as H.
  unfold does, wp, with_local in *. by destruct (read_options use (i, a)) as [[] []].
Qed.

Lemma fits_code c v : c ≠ 0 → is_u16 c → value_fits v → option_fits (c, v).
Proof. done. Qed.

(** A code that is not among those that are known. *)
Ltac unknown_code := repeat match goal with |- context [?a =? ?b] => destruct (Z.eqb_spec a b); [exfalso; set_solver|] end.

Lemma header_option_reads o a : header_option_ok o →
  option_fits (header_raw o) ∧ True ∧ section_step (header_raw o).1 (header_raw o).2 a = header_step a o.
Proof.
  destruct o as [v|v|v|v|c v]; try by intros ?. intros (Hk & Hc & Hv). cbn [header_raw fst snd].
  split; [apply fits_code; [set_solver|done..]|]. split; [done|]. unfold section_step.
  unfold ngOptionCodeComment, ngOptionCodeHardware, ngOptionCodeOS, ngOptionCodeUserApplication. unknown_code. by destruct a.
Qed.

Lemma intf_option_reads o a : intf_option_ok o →
  option_fits (intf_raw big o) ∧ interface_value big (intf_raw big o).1 (intf_raw big o).2 ∧
  interface_step big (intf_raw big o).1 (intf_raw big o).2 a = intf_step a o.
Proof.
  destruct o as [v|v|v|r|k v|v|s|c v]; cbn [intf_option_ok intf_raw fst snd]; intros Ho; try (split; [done|]; split; [done|]; done).
  - split; [split; [done|]; split; [done|]; cbn -[len]; rewrite len_cons; pose proof (len_nonneg v); lia|]. split; [done|]. cbn. by rewrite drop_0.
  - split; [split; [done|]; split; [done|]; cbn [snd]; by rewrite len_enc64|]. split; [intros _; by exists s|]. cbn. by rewrite value64_enc.
  - destruct Ho as (Hk & Hc & Hv). split; [apply fits_code; [set_solver|done..]|]. split; [intros ->; exfalso; by apply Hk; set_solver|]. unfold interface_step.
    unfold ngOptionCodeInterfaceName, ngOptionCodeComment, ngOptionCodeInterfaceDescription, ngOptionCodeInterfaceFilter, ngOptionCodeInterfaceOS,
      ngOptionCodeInterfaceTimestampOffset, ngOptionCodeInterfaceTimestampResolution. by unknown_code.
Qed.

(** Values of statistics: stamps and numbers. *)
Definition stats_value (c : Z) (v : bytes) : Prop :=
  (c = 2 ∨ c = 3 → ∃ ts, is_u64 ts ∧ v = enc_time big ts) ∧ (c = 4 ∨ c = 5 → is_value64 big v).

Lemma stamp_at {A} i0 t ts i (a : A) (k : time → M (ngInput * A) unit) : timed i0 → is_u64 ts →
  holds (enc_time big ts) i → input_at big e t i →
  (b ← option_front 8; ts ← on_fst (timestamp b 0); t ← lift (convertTime i0 ts); k t) (i, a) = k (clock i0 ts) (i, a).
Proof.
  intros Hg Hu Hh Hi. pose proof (option_front_at big e _ t i a Hh Hi) as Hf. rewrite len_enc_time in Hf. rewrite bind_eq, Hf, bind_eq.
  pose proof (does_timestamp big e t [] ts [] 0 i eq_refl Hu Hi) as Hts. cbn [app] in Hts. rewrite app_nil_r in Hts.
  unfold does, wp in Hts. unfold on_fst, zoom. cbn [fst snd].
  destruct (timestamp (enc_time big ts) 0 i) as [[x| | |] i']; try done. destruct Hts as [-> ->].
  by rewrite convertTime_clock, lift_bind by done.
Qed.

Lemma stats_handles i0 : timed i0 → handles big e (statistics_option i0) (statistics_step big i0) stats_value.
Proof.
  intros Hg c v t i a [HT HV] _ Hh Hi. pose proof (option_string_at big e v t i a Hh Hi) as Hs.
  unfold statistics_option, statistics_step. destruct (_ =? _); [by rewrite bind_eq, Hs|].
  destruct (Z.eqb_spec c ngOptionCodeInterfaceStatisticsStartTime) as [Hc|_].
  { destruct (HT (or_introl Hc)) as (ts & Ht & ->). rewrite (stamp_at i0 t ts) by done. by rewrite value_time_enc, convertTime_clock. }
  destruct (Z.eqb_spec c ngOptionCodeInterfaceStatisticsEndTime) as [Hc|_].
  { destruct (HT (or_intror Hc)) as (ts & Ht & ->). rewrite (stamp_at i0 t ts) by done. by rewrite value_time_enc, convertTime_clock. }
  destruct (Z.eqb_spec c ngOptionCodeInterfaceStatisticsInterfaceReceived) as [Hc|_].
  { destruct (HV (or_introl Hc)) as (x & Hx & ->). by rewrite bind_eq, (option_uint64_at big e x t i a Hx Hh Hi), value64_enc. }
  destruct (Z.eqb_spec c ngOptionCodeInterfaceStatisticsInterfaceDropped) as [Hc|_]; [|done].
  destruct (HV (or_intror Hc)) as (x & Hx & ->). by rewrite bind_eq, (option_uint64_at big e x t i a Hx Hh Hi), value64_enc.
Qed.

Lemma stats_option_reads i0 o a : timed i0 → stats_option_ok o →
  option_fits (stats_raw big o) ∧ stats_value (stats_raw big o).1 (stats_raw big o).2 ∧
  statistics_step big i0 (stats_raw big o).1 (stats_raw big o).2 a = stats_step i0 a o.
Proof.
  intros Hg. destruct o as [v|ts|ts|n|n|c v]; cbn [stats_option_ok stats_raw fst snd]; intros Ho.
  - split; [done|]. split; [|done]. by split; intros [].
  - split; [split; [done|]; split; [done|]; cbn [snd]; by rewrite len_enc_time|]. split; [split; [intros _; by exists ts|by intros []]|].
    cbn. by rewrite value_time_enc, convertTime_clock.
  - split; [split; [done|]; split; [done|]; cbn [snd]; by rewrite len_enc_time|]. split; [split; [intros _; by exists ts|by intros []]|].
    cbn. by rewrite value_time_enc, convertTime_clock.
  - split; [split; [done|]; split; [done|]; cbn [snd]; by rewrite len_enc64|]. split; [split; [by intros []|intros _; by exists n]|]. cbn. by rewrite value64_enc.
  - split; [split; [done|]; split; [done|]; cbn [snd]; by rewrite len_enc64|]. split; [split; [by intros []|intros _; by exists n]|]. cbn. by rewrite value64_enc.
  - destruct Ho as (Hk & Hc & Hv). split; [apply fits_code; [set_solver|done..]|]. split; [split; intros [->| ->]; exfalso; apply Hk; set_solver|]. unfold statistics_step.
    unfold ngOptionCodeComment, ngOptionCodeInterfaceStatisticsStartTime, ngOptionCodeInterfaceStatisticsEndTime,
      ngOptionCodeInterfaceStatisticsInterfaceReceived, ngOptionCodeInterfaceStatisticsInterfaceDropped. by unknown_code.
Qed.

(** ** Descriptions of interfaces *)

(** The reader marks a missing resolution with 0 until the end of the options. *)
Definition resolved (a b : NgInterface) : Prop :=
  TimestampResolution_ a = 0 ∧ b = intf_Resolution 6 a ∨ exact (TimestampResolution_ a) ∧ a = b.

Lemma exact_6 : exact 6.
Proof. split; [lia|]. split; [done|]. left. by exists 1000. Qed.

Lemma resolved_step a b o : intf_option_ok o → resolved a b → resolved (intf_step a o) (intf_step b o).
Proof. intros Ho [[Ha ->]|[Ha ->]]; destruct o; try (by left); try (by right). Qed.

Lemma resolved_fold opts : Forall intf_option_ok opts → ∀ a b, resolved a b → resolved (fold_left intf_step opts a) (fold_left intf_step opts b).
Proof. induction 1 as [|o opts Ho _ IH]; intros a b Hr; [done|]. apply IH, resolved_step; done. Qed.

Lemma resolved_prepare a b : resolved a b → prepare_interface a = Ok (scaled b) ∧ timed (scaled b).
Proof.
  intros [[Ha ->]|[Ha ->]]; [|split; [by apply prepare_scaled | by apply scaled_timed]].
  assert (exact (TimestampResolution_ (intf_Resolution 6 a))) as Hx by apply exact_6.
  split; [|by apply scaled_timed]. rewrite <-(prepare_scaled _ Hx). unfold prepare_interface. by rewrite Ha.
Qed.

Lemma does_descriptor ty reserved snap opts ended n t i : block_ok big [] (IDB ty reserved snap opts ended) →
  let body := block_body big (IDB ty reserved snap opts ended) in
  in_length i = len body + 4 → input_at big e (body ++ enc32 big n ++ t) i →
  does readInterfaceDescriptor (fun i0 i' => i0 = described ty snap opts ∧ timed i0 ∧ input_at big e t i') i.
Proof.
  intros (Hu & Hty & Hres & Hsnap & Hopts) body Hl Hi. unfold body in *. clear body. cbn [block_body] in *.
  set (ob := raw_options _ _ _) in *. rewrite !len_app, !len_enc16, len_enc32 in Hu, Hl.
  rewrite <- !app_assoc in Hi. rewrite (app_assoc (enc16 big reserved)), (app_assoc (enc16 big ty)) in Hi.
  pose proof (len_nonneg ob). unfold readInterfaceDescriptor.
  eapply does_bind; [eapply does_readBytes; [|exact Hi]; rewrite !len_app, !len_enc16, len_enc32; lia|].
  intros ? i1 (-> & Hi1 & Hl1 & _).
  eapply does_bind; [eapply (does_consume _ _ 8 (len ob + 4)); [lia | unfold is_u32 in *; lia | exact Hi1]|]. intros ? i2 (Hi2 & Hl2 & _).
  eapply does_bind; [eapply (does_field16 _ _ _ []); [done | unfold is_u8, is_u16 in *; lia | exact Hi2]|]. intros ? ? [-> ->].
  rewrite app_assoc. eapply does_bind; [eapply does_field32_last; [by rewrite len_app, !len_enc16 | done | exact Hi2]|].
  intros ? ? [-> ->]. rewrite u8_small by done.
  eapply does_bind; [eapply (ended_local interface_option (interface_step big) (interface_value big) (intf_raw big) intf_step intf_option_ok (enc32 big n ++ t) opts ended);
    [apply interface_handles | intros o0 a0; apply intf_option_reads | done | fold ob; unfold is_u32 in *; lia | done | done]|].
  intros ? i3 (Hi3 & Hl3 & ->).
  eapply does_bind; [eapply does_discard_block; [by rewrite Hl3, len_enc32 | exact Hi3]|]. intros ? i4 [Hi4 _].
  destruct (resolved_prepare _ _ (resolved_fold opts Hopts (mkInterface [] [] [] [] [] ty 0 0 snap zero_statistics 0 0 0) (mkInterface [] [] [] [] [] ty 6 0 snap zero_statistics 0 0 0) (or_introl (conj eq_refl eq_refl)))) as [Hp Ht].
  unfold does, wp, lift. by rewrite Hp.
Qed.
End options.

(** ** Blocks *)

Section reading.
Context (e : error) (o : NgReaderOptions) (lt : Z) (found : bool).

(** The reader in front of [t], in a section of which it has read [c]. *)
Record at_block (big : bool) (t : bytes) (c : contents) (r : NgReader) : Prop := {
  b_input : input_at big e t (nr_in r);
  b_options : options r = o;
  b_linkType : linkType r = lt;
  b_found : firstSectionFound r = found;
  b_info : sectionInfo r = c_info c;
  b_ifaces : ifaces r = c_ifaces c;
  b_events : events r = c_events c;
  b_active : activeSection r = true;
  b_timed : Forall timed (c_ifaces c);
}.

Lemma block_moves big t t' c r i : at_block big t c r → input_at big e t' i → at_block big t' c (set_in i r).
Proof. intros [? ? ? ? ? ? ? ? ?] ?. by split. Qed.

Lemma block_opens big typ body t c r : typ ≠ ngBlockTypeSectionHeader → is_u32 typ → is_u32 (len body + 12) →
  at_block big (block big typ body ++ t) c r →
  does (input readBlock) (fun _ r' => at_block big (body ++ enc32 big (len body + 12) ++ t) c r' ∧
    in_typ (nr_in r') = typ ∧ in_length (nr_in r') = len body + 4) r.
Proof.
  intros Hne Ht Hl Hr. eapply does_mono; [eapply does_input, (does_readBlock big e typ); [done | done | done | apply Hr]|].
  intros _ r' (i & -> & Hi & ? & ?). split; [by eapply block_moves | done].
Qed.

(** The steps that read fields leave the rest of the reader alone. *)
Lemma block_readBytes {B} big n b t c r (k : bytes → M NgReader B) Q : len b = n → at_block big (b ++ t) c r →
  (∀ r', at_block big t c r' → in_length (nr_in r') = in_length (nr_in r) → does (k b) Q r') → does (input (readBytes n) ≫= k) Q r.
Proof.
  intros Hb Hr Hk. eapply does_bind; [eapply does_input, does_readBytes; [exact Hb | apply Hr]|].
  intros ? r' (i & -> & -> & Hi & Hl & _). apply Hk; [by eapply block_moves | done].
Qed.

Lemma block_consume {B} big n m t c r (k : unit → M NgReader B) Q : in_length (nr_in r) = n + m → is_u32 m → at_block big t c r →
  (∀ r', at_block big t c r' → in_length (nr_in r') = m → does (k tt) Q r') → does (input (consume n) ≫= k) Q r.
Proof.
  intros Hl Hm Hr Hk. eapply does_bind; [eapply does_input, (does_consume big e n m t); [exact Hl | exact Hm | apply Hr]|].
  intros [] r' (i & -> & Hi & Hl' & _). apply Hk; [by eapply block_moves | done].
Qed.

Lemma block_field32 {B} big pre v post lo t c r (k : Z → M NgReader B) Q : lo = len pre → is_u32 v → at_block big t c r →
  does (k v) Q r → does (input (field32 (pre ++ enc32 big v ++ post) lo) ≫= k) Q r.
Proof. intros Hlo Hv Hr Hk. eapply does_bind; [eapply does_input_same, does_field32; [done | done | apply Hr]|]. by intros ? ? [-> ->]. Qed.

Lemma block_field16 {B} big pre v post lo t c r (k : Z → M NgReader B) Q : lo = len pre → is_u16 v → at_block big t c r →
  does (k v) Q r → does (input (field16 (pre ++ enc16 big v ++ post) lo) ≫= k) Q r.
Proof. intros Hlo Hv Hr Hk. eapply does_bind; [eapply does_input_same, does_field16; [done | done | apply Hr]|]. by intros ? ? [-> ->]. Qed.

Lemma block_timestamp {B} big pre v post lo t c r (k : Z → M NgReader B) Q : lo = len pre → is_u64 v → at_block big t c r →
  does (k v) Q r → does (input (timestamp (pre ++ enc_time big v ++ post) lo) ≫= k) Q r.
Proof. intros Hlo Hv Hr Hk. eapply does_bind; [eapply does_input_same, does_timestamp; [done | done | apply Hr]|]. by intros ? ? [-> ->]. Qed.

Lemma block_named {B} big id t c r (k : NgInterface → M NgReader B) Q : 0 <= id < len (c_ifaces c) → at_block big t c r →
  does (k (interface_at (c_ifaces c) id)) Q r → does (named_interface id ≫= k) Q r.
Proof.
  intros Hid Hr Hk. unfold named_interface. apply (does_bind _ _ (fun i r' => i = interface_at (c_ifaces c) id ∧ r' = r)); [|by intros ? ? [-> ->]].
  apply does_get. rewrite (b_ifaces _ _ _ _ Hr). destruct (Z.geb_spec id (len (c_ifaces c))); [lia|].
  unfold does, wp, lift. by rewrite index_interface.
Qed.

Lemma block_discard big b t c r : at_block big (b ++ t) c r → in_length (nr_in r) = len b → does (input discard_block) (fun _ r' => at_block big t c r') r.
Proof.
  intros Hr Hl. eapply does_mono; [eapply does_input, does_discard_block; [|apply Hr]; by rewrite Hl|].
  intros _ r' (i & -> & Hi' & _). by eapply block_moves.
Qed.

Lemma timed_at ifs id : Forall timed ifs → 0 <= id < len ifs → timed (interface_at ifs id).
Proof.
  intros HF Hid. destruct (index_ok ifs id Hid) as (i & Hi & _). unfold interface_at. rewrite (nth_lookup_Some _ _ _ _ Hi).
  by eapply Forall_lookup_1.
Qed.

Lemma block_interface big ty reserved snap opts ended t c r : let b := IDB ty reserved snap opts ended in
  block_ok big (c_ifaces c) b → in_length (nr_in r) = len (block_body big b) + 4 →
  at_block big (block_body big b ++ enc32 big (len (block_body big b) + 12) ++ t) c r →
  does add_interface (fun _ r' => at_block big t (block_contents o c b) r') r.
Proof.
  intros b Hok Hl Hr. unfold add_interface.
  eapply does_bind; [eapply does_input, does_descriptor; [exact Hok | exact Hl | apply Hr]|].
  intros ? r' (i & -> & -> & Ht & Hi). apply does_modify. destruct Hr as [? ? ? ? ? Hifs ? ? Hg]. split; try done.
  - cbn. by rewrite Hifs.
  - cbn. apply Forall_app. split; [done|]. by constructor.
Qed.

Lemma block_statistics big id ts opts ended t c r : let b := ISB id ts opts ended in
  block_ok big (c_ifaces c) b → in_length (nr_in r) = len (block_body big b) + 4 →
  at_block big (block_body big b ++ enc32 big (len (block_body big b) + 12) ++ t) c r →
  does readInterfaceStatistics (fun _ r' => at_block big t (block_contents o c b) r') r.
Proof.
  intros b (Hu & Hid & Hid32 & Hts & Hopts) Hl Hr. subst b. cbn [block_body] in *. set (n := len _ + 12) in Hr. clearbody n.
  set (ob := raw_options _ _ _) in *. rewrite !len_app, len_enc32, len_enc_time in Hu, Hl. pose proof (len_nonneg ob).
  set (i0 := interface_at (c_ifaces c) id). assert (timed i0) as Hg by (apply timed_at; [apply (b_timed _ _ _ _ Hr) | done]).
  unfold readInterfaceStatistics. rewrite <- !app_assoc, app_assoc in Hr.
  eapply block_readBytes; [|exact Hr|]; [by rewrite len_app, len_enc32, len_enc_time|]. clear Hr. intros r1 Hr Hl1.
  eapply (block_consume _ 12 (len ob + 4)); [lia | unfold is_u32 in *; lia | exact Hr|]. clear Hr. intros r2 Hr Hl2.
  eapply (block_field32 _ []); [done | done | exact Hr|].
  rewrite <-(app_nil_r (enc_time big ts)). eapply (block_timestamp _ (enc32 big id)); [by rewrite len_enc32 | done | exact Hr|].
  eapply block_named; [exact Hid | exact Hr|]. fold i0.
  apply does_modify_bind. eapply does_lift_bind; [by apply convertTime_clock|]. apply does_modify_bind. rewrite statistics_set_twice.
  set (r5 := set_statistics id _ r2).
  assert (statistics_of id r5 = mkStatistics (clock i0 ts) zero_time zero_time [] NgNoValue64 NgNoValue64) as Hst5.
  { unfold statistics_of, r5, set_statistics. cbn [set_ifaces ifaces]. apply statistics_altered. by rewrite (b_ifaces _ _ _ _ Hr). }
  eapply does_bind.
  { eapply does_on_statistics, (ended_options big e _ (statistics_step big i0) (stats_value big) (stats_raw big) (stats_step i0) stats_option_ok (enc32 big n ++ t) opts ended);
      [by apply stats_handles | intros o0 a0 Ho0; by apply stats_option_reads | done | fold ob; unfold is_u32 in *; lia | exact Hl2 | apply Hr]. }
  intros ? r6 (p & -> & Hi6 & Hl6 & Hp). rewrite Hst5 in Hp. change (fold_left _ _ _) with (measured i0 ts opts) in Hp.
  unfold r5. eapply does_bind; [eapply does_input, does_discard_block; [|exact Hi6]; cbn; by rewrite Hl6, len_enc32|].
  intros ? r7 (i7 & -> & Hi7 & _). apply does_get.
  assert (∀ x, set_in i7 (set_statistics id p.2 (set_in p.1 (set_statistics id x r2))) = set_in i7 (set_statistics id p.2 r2)) as ->.
  { intros x. unfold set_statistics. cbn. by rewrite list_alter_alter_eq. }
  rewrite Hp. clear Hp. set (st := measured i0 ts opts).
  set (c' := mkContents (c_info c) (alter (intf_Statistics st) (Z.to_nat id) (c_ifaces c)) (c_events c)).
  assert (at_block big t c' (set_in i7 (set_statistics id st r2))) as Hr7.
  { destruct Hr as [? ? ? ? ? Hifs ? ? Ht]. split; try done.
    - cbn. by rewrite Hifs.
    - cbn. apply Forall_alter; [done|]. intros i Hi [Hx Hs]. split; [done|]. change (intf_Statistics st (scaled i) = intf_Statistics st i). by rewrite Hs. }
  change (options (set_in i7 (set_statistics id st r2))) with (options r2). rewrite (b_options _ _ _ _ Hr). cbn [block_contents]. fold i0 st.
  destruct (StatisticsCallback o); [|by apply does_ret].
  apply does_modify. assert (statistics_of id (set_in i7 (set_statistics id st r2)) = st) as ->.
  { unfold statistics_of. cbn. apply statistics_altered. by rewrite (b_ifaces _ _ _ _ Hr). }
  destruct Hr7 as [? ? ? ? ? ? Hev ? ?]. split; try done. cbn in *. by rewrite Hev.
Qed.

(** ** Packets *)

(** The reader once the header of a packet has been read. *)
Definition at_data (big : bool) (c : contents) (ci : CaptureInfo) (data tl t : bytes) (r : NgReader) : Prop :=
  at_block big (data ++ tl ++ t) c r ∧ ci_ r = ci ∧ in_length (nr_in r) = len data + len tl ∧ CaptureLength ci = len data ∧
  0 <= InterfaceIndex ci < len (c_ifaces c).

Lemma block_set_ci big t c r ci : at_block big t c r → at_block big t c (set_ci ci r).
Proof. intros [? ? ? ? ? ? ? ? ?]. by split. Qed.

Lemma packet_block_reads big interface idb id ts orig data rest t c r : len idb = 4 →
  (∀ B post t' r' (k : Z → M NgReader B) Q, at_block big t' c r' → does (k id) Q r' → does (input (interface (idb ++ post)) ≫= k) Q r') →
  0 <= id < len (c_ifaces c) → is_u64 ts → is_u32 orig → let body := idb ++ packet_fields big ts data orig ++ data ++ rest in
  is_u32 (len body + 12) → in_length (nr_in r) = len body + 4 → at_block big (body ++ enc32 big (len body + 12) ++ t) c r →
  does (read_packet_block interface)
    (fun _ => at_data big c (mkCaptureInfo (clock (interface_at (c_ifaces c) id) ts) (len data) orig id) data (rest ++ enc32 big (len body + 12)) t) r.
Proof.
  intros Hidb Hif Hid Hts Horig body Hu Hl Hr. set (n := len body + 12) in Hr |- *. clearbody n. unfold body, packet_fields in *. clear body.
  rewrite !len_app, !len_enc32, len_enc_time in Hu, Hl. pose proof (len_nonneg data). pose proof (len_nonneg rest).
  set (i0 := interface_at (c_ifaces c) id). assert (timed i0) as Hg by (apply timed_at; [apply (b_timed _ _ _ _ Hr) | done]).
  unfold read_packet_block. set (buf := idb ++ enc_time big ts ++ enc32 big (len data) ++ enc32 big orig).
  assert (len buf = 20) as Hbuf by (unfold buf; rewrite !len_app, !len_enc32, len_enc_time; lia).
  assert (at_block big (buf ++ data ++ rest ++ enc32 big n ++ t) c r) as Hr0 by (unfold buf; by rewrite <-!app_assoc in *). clear Hr.
  eapply block_readBytes; [exact Hbuf | exact Hr0|]. clear Hr0. intros r1 Hr Hl1.
  eapply (block_consume _ 20 (len data + len rest + 4)); [lia | unfold is_u32 in *; lia | exact Hr|]. clear Hr. intros r2 Hr Hl2.
  eapply Hif; [exact Hr|]. apply does_modify_bind. apply (block_set_ci _ _ _ _ (ci_InterfaceIndex id (ci_ r2))) in Hr.
  set (r3 := set_ci _ r2) in *. assert (in_length (nr_in r3) = len data + len rest + 4) as Hl3 by done. clearbody r3.
  eapply block_named; [exact Hid | exact Hr|]. fold i0.
  eapply (block_timestamp _ idb); [by rewrite Hidb | done | exact Hr|]. eapply does_lift_bind; [by apply convertTime_clock|].
  unfold buf. rewrite app_assoc. eapply block_field32; [by rewrite len_app, Hidb, len_enc_time | unfold is_u32 in *; lia | exact Hr|].
  rewrite app_assoc. rewrite <-(app_nil_r (enc32 big orig)).
  eapply block_field32; [by rewrite !len_app, Hidb, len_enc_time, len_enc32 | done | exact Hr|].
  apply does_modify. split; [|split; [done|split; [|done]]].
  - rewrite <-app_assoc. by apply block_set_ci.
  - change (in_length (nr_in (set_ci _ r3))) with (in_length (nr_in r3)). rewrite Hl3, len_app, len_enc32. lia.
Qed.

Lemma simple_block_reads big orig data rest t c r : let b := SPB orig data rest in
  block_ok big (c_ifaces c) b → in_length (nr_in r) = len (block_body big b) + 4 →
  at_block big (block_body big b ++ enc32 big (len (block_body big b) + 12) ++ t) c r →
  does read_simple_packet (fun _ => at_data big c (mkCaptureInfo zero_time (len data) orig 0) data (rest ++ enc32 big (len (block_body big b) + 12)) t) r.
Proof.
  intros b (Hu & Hn & Horig & Hd) Hl Hr. subst b. cbn [block_body] in *. set (n := len _ + 12) in Hr |- *. clearbody n.
  pose proof (len_nonneg data). pose proof (len_nonneg rest). unfold read_simple_packet. rewrite <-!app_assoc in Hr.
  rewrite !len_app, len_enc32 in Hl, Hu.
  eapply block_readBytes; [apply len_enc32 | exact Hr|]. clear Hr. intros r1 Hr Hl1.
  eapply (block_consume _ 4 (len data + len rest + 4)); [lia | unfold is_u32 in *; lia | exact Hr|]. clear Hr. intros r2 Hr Hl2.
  rewrite <-(app_nil_r (enc32 big orig)). eapply (block_field32 _ []); [done | done | exact Hr|].
  apply does_modify_bind. apply (block_set_ci _ _ _ _ (mkCaptureInfo zero_time orig orig 0)) in Hr. apply does_get.
  rewrite (b_ifaces _ _ _ _ Hr). destruct (Z.eqb_spec (len (c_ifaces c)) 0); [lia|].
  eapply does_lift_bind; [by apply index_interface|]. rewrite u32_small by done. unfold simple_length in Hd. set (snap := SnapLength _) in *.
  assert (∀ x r', x = len data → at_block big (data ++ rest ++ enc32 big n ++ t) c r' → in_length (nr_in r') = len data + len rest + 4 →
    ci_ r' = mkCaptureInfo zero_time x orig 0 → at_data big c (mkCaptureInfo zero_time (len data) orig 0) data (rest ++ enc32 big n) t r') as Hdone.
  { intros x r' -> Hr' Hl' Hci. split; [by rewrite <-app_assoc|]. split; [done|]. split; [|by split]. rewrite len_app, len_enc32. lia. }
  destruct (Z.eqb_spec snap 0) as [Es|Es]; cbn [negb andb].
  - apply does_ret. by apply (Hdone orig).
  - destruct (Z.gtb_spec orig snap).
    + apply does_modify. apply (Hdone snap); [lia | by apply block_set_ci | done | done].
    + apply does_ret. apply (Hdone orig); [lia | done..].
Qed.

Lemma block_known big b t c r : block_ok big (c_ifaces c) b → at_block big (block_bytes big b ++ t) c r →
  does (input readBlock) (fun _ r' => at_block big (block_body big b ++ enc32 big (len (block_body big b) + 12) ++ t) c r' ∧
    in_typ (nr_in r') = block_type b ∧ in_length (nr_in r') = len (block_body big b) + 4) r.
Proof.
  intros Hok Hr. destruct b; cbn [block_type] in *; (eapply block_opens; [| |by apply Hok|exact Hr]); try done.
  - destruct Hok as (_ & _ & Hne). intros ->. apply Hne. set_solver.
  - by destruct Hok as (_ & ? & _).
Qed.

Lemma read_block_reads big b t c r : block_ok big (c_ifaces c) b → at_block big (block_bytes big b ++ t) c r →
  does read_a_block (fun yes r' =>
    match block_packet (c_ifaces c) b with
    | Some (ci, data) => yes = true ∧ ∃ tl, at_data big c ci data tl t r'
    | None => yes = false ∧ at_block big t (block_contents o c b) r'
    end) r.
Proof.
  intros Hok Hr. unfold read_a_block. eapply does_bind; [by eapply block_known|]. intros ? r1 (Hr1 & Ht & Hl). apply does_get. rewrite Ht.
  destruct b as [ty reserved snap opts ended|id ts opts ended|id ts orig data rest|id drops ts orig data rest|orig data rest|typ body]; cbn [block_type block_packet Z.eqb Pos.eqb ngBlockTypeEnhancedPacket
    ngBlockTypeSimplePacket ngBlockTypeInterfaceDescriptor ngBlockTypeInterfaceStatistics ngBlockTypeSectionHeader ngBlockTypePacket].
  - eapply does_bind; [by eapply block_interface|]. intros ? r2 Hr2. by apply does_ret.
  - eapply does_bind; [by eapply block_statistics|]. intros ? r2 Hr2. by apply does_ret.
  - pose proof Hok as (Hu & Hid & Hid32 & Hts & Horig).
    eapply does_bind; [eapply (packet_block_reads big _ (enc32 big id)); [apply len_enc32 | | exact Hid | exact Hts | exact Horig | exact Hu | exact Hl | exact Hr1]|].
    { intros B post t' r' k Q Hr' Hk. by eapply (block_field32 _ []). }
    intros ? r2 Hr2. apply does_ret. split; [done|]. eexists; exact Hr2.
  - pose proof Hok as (Hu & Hid & Hid16 & Hdrops & Hts & Horig). cbn [block_body] in *. rewrite (app_assoc (enc16 big id)) in Hu, Hl, Hr1.
    eapply does_bind; [eapply (packet_block_reads big _ (enc16 big id ++ enc16 big drops)); [by rewrite len_app, !len_enc16 | | exact Hid | exact Hts | exact Horig | exact Hu | exact Hl | exact Hr1]|].
    { intros B post t' r' k Q Hr' Hk. rewrite <-app_assoc. by eapply (block_field16 _ []). }
    intros ? r2 Hr2. apply does_ret. split; [done|]. eexists; exact Hr2.
  - eapply does_bind; [by eapply simple_block_reads|]. intros ? r2 Hr2. apply does_ret. split; [done|]. eexists; exact Hr2.
  - destruct Hok as (_ & _ & Hne). repeat match goal with |- context [typ =? ?x] => destruct (Z.eqb_spec typ x) as [->|_]; [exfalso; apply Hne; set_solver|] end.
    eapply does_bind; [eapply (block_discard big (body ++ enc32 big (len body + 12))); [|by rewrite Hl, len_app, len_enc32]; by rewrite <-app_assoc|].
    intros ? r2 Hr2. by apply does_ret.
Qed.

Lemma data_read big c ci data tl t r : at_data big c ci data tl t r →
  WantMixedLinkType o = false ∨ ancil r = Some (if_LinkType (interface_at (c_ifaces c) (InterfaceIndex ci))) →
  does read_data (fun p r' => at_block big t c r' ∧
    p = (data, ci, if WantMixedLinkType o then Some (if_LinkType (interface_at (c_ifaces c) (InterfaceIndex ci))) else None)) r.
Proof.
  intros (Hr & Hci & Hl & Hcap & _) Hanc. apply does_get. rewrite Hci. cbv zeta. rewrite Hcap. pose proof (len_nonneg data).
  eapply does_lift_bind. { unfold make_bytes. by destruct (Z.ltb_spec (len data) 0); [lia|]. }
  eapply does_bind; [eapply does_input, does_readBytes; [done | apply Hr]|]. intros ? r1 (i1 & -> & -> & Hi1 & Hl1 & _).
  eapply does_bind.
  { unfold discard_rest. apply does_get. eapply does_input, does_Discard; [|exact Hi1]. cbn. rewrite Hl1. lia. }
  intros ? r2 (i2 & -> & Hi2 & _). apply does_ret. split; [destruct Hr; by split|]. f_equal.
  unfold ancillary. rewrite (b_options _ _ _ _ Hr). destruct Hanc as [-> | ->]; [done|]. by destruct (WantMixedLinkType o).
Qed.

Definition outcome_of (x : ng_result) : outcome (bytes * CaptureInfo * option Z) := match x with inl p => Ok p | inr e => Err e end.

(** A block is what the next call returns, or it is passed over. *)
Lemma block_step big b t c r fuel : block_ok big (c_ifaces c) b → at_block big (block_bytes big b ++ t) c r →
  ∃ r', at_block big t (block_contents o c b) r' ∧
    read_from (S fuel) r = match head (block_results o lt (c_ifaces c) b) with None => read_from fuel r' | Some x => (outcome_of x, r') end.
Proof.
  intros Hok Hr. destruct (does_eq _ _ _ (read_block_reads big b t c r Hok Hr)) as (yes & r1 & Hread & Hr1).
  unfold read_from at 1. rewrite bind_eq. cbn [readPacketHeader_loop]. rewrite bind_eq, Hread. unfold block_results.
  destruct (block_packet (c_ifaces c) b) as [[ci data]|] eqn:Hp; [|destruct Hr1 as [-> Hr1]; by exists r1].
  assert (block_contents o c b = c) as -> by (by destruct b).
  destruct Hr1 as [-> (tl & Hat)]. cbn [negb]. rewrite bind_eq. cbn [get]. pose proof Hat as (Hr1 & Hci & Hl & _ & Hid).
  rewrite Hci, (b_ifaces _ _ _ _ Hr1), index_interface, lift_bind by done.
  rewrite (b_options _ _ _ _ Hr1), (b_linkType _ _ _ _ Hr1). unfold result_of. set (i := interface_at _ _) in *.
  destruct (WantMixedLinkType o) eqn:Hw; cbn [negb].
  - destruct (does_eq _ _ _ (data_read big c ci data tl t (set_ancil (Some (if_LinkType i)) r1) ltac:(destruct Hat as [[] ?]; by split) ltac:(by right)))
      as (p & r2 & Hd & Hr2 & ->).
    exists r2. split; [done|]. unfold modify. rewrite Hd, Hw. done.
  - destruct (Z.eqb_spec (if_LinkType i) lt) as [Heq|Hne]; cbn [negb].
    + destruct (does_eq _ _ _ (data_read big c ci data tl t r1 Hat ltac:(by left))) as (p & r2 & Hd & Hr2 & ->).
      exists r2. split; [done|]. rewrite ret_eq, Hd, Hw. done.
    + destruct (does_eq _ _ _ (block_discard big (data ++ tl) t c r1 ltac:(by rewrite <-app_assoc) ltac:(by rewrite len_app))) as ([] & r2 & Hd & Hr2).
      exists r2. split; [done|]. rewrite bind_eq, Hd. by destruct (ErrorOnMismatchingLinkType o).
Qed.

(** ** Calls, one after the other *)

Fixpoint attempts (n : nat) : M NgReader (list ng_result) :=
  match n with
  | O => mret []
  | S n => x ← attempt ReadPacketData; xs ← attempts n; mret (x :: xs)
  end.

(** The calls return [xs], and then comes the end of the input. *)
Definition returns (fuel : nat) (r : NgReader) (xs : list ng_result) (final : NgReader → Prop) : Prop :=
  match xs with
  | [] => ∃ r', read_from fuel r = (Err e, r') ∧ final r'
  | x :: xs => ∃ r1 r2 r3, read_from fuel r = (outcome_of x, r1) ∧ attempts (length xs) r1 = (Ok xs, r2) ∧
      ReadPacketData r2 = (Err e, r3) ∧ final r3
  end.

Lemma returns_attempts r xs final : returns (blocks_bound r) r xs final →
  ∃ r1 r2, attempts (length xs) r = (Ok xs, r1) ∧ ReadPacketData r1 = (Err e, r2) ∧ final r2.
Proof.
  destruct xs as [|x xs]; cbn [returns length attempts].
  - intros (r' & ? & ?). by exists r, r'.
  - intros (r1 & r2 & r3 & H1 & H2 & H3 & Hf). exists r2, r3. rewrite bind_eq. unfold attempt. rewrite ReadPacketData_from, H1.
    destruct x as [p|e']; cbn [outcome_of]; by rewrite bind_eq, H2.
Qed.

Lemma block_bound big t c r : at_block big t c r → blocks_bound r = S (length t).
Proof. intros Hr. unfold blocks_bound. by rewrite (at_stream _ _ _ _ (b_input _ _ _ _ Hr)). Qed.

Lemma block_bytes_length big b : (1 <= length (block_bytes big b))%nat.
Proof. unfold block_bytes, block. rewrite length_app. destruct big; cbn; lia. Qed.

Lemma blocks_length big l : (length l <= length (blocks_bytes big l))%nat.
Proof.
  induction l as [|b l IH]; [done|]. unfold blocks_bytes. cbn [map concat]. fold (blocks_bytes big l). rewrite length_app. cbn [length].
  pose proof (block_bytes_length big b). lia.
Qed.

Lemma blocks_return big l : ∀ t c r fuel xs final, blocks_ok o big c l → at_block big (blocks_bytes big l ++ t) c r →
  (length (blocks_bytes big l ++ t) < fuel)%nat →
  (∀ r' fuel', at_block big t (fold_left (block_contents o) l c) r' → (length t < fuel')%nat → returns fuel' r' xs final) →
  returns fuel r (blocks_results o lt c l ++ xs) final.
Proof.
  induction l as [|b l IH]; intros t c r fuel xs final Hok Hr Hf Hk; [by apply Hk|].
  unfold blocks_bytes in Hr, Hf. cbn [map concat] in Hr, Hf. fold (blocks_bytes big l) in Hr, Hf. rewrite <-app_assoc in Hr, Hf.
  destruct Hok as [Hb Hok]. destruct fuel as [|fuel]; [lia|]. rewrite length_app in Hf. pose proof (block_bytes_length big b).
  destruct (block_step big b _ c r fuel Hb Hr) as (r' & Hr' & Hstep). cbn [blocks_results].
  assert (block_results o lt (c_ifaces c) b = [] ∨ ∃ x, block_results o lt (c_ifaces c) b = [x]) as Hone.
  { unfold block_results, result_of. destruct (block_packet _ _) as [[ci data]|]; [|by left]. repeat case_match; eauto. }
  destruct Hone as [E|[x E]]; rewrite E in *; cbn [head app] in *.
  - assert (returns fuel r' (blocks_results o lt (block_contents o c b) l ++ xs) final) as HIH by (eapply IH; [done | exact Hr' | lia | exact Hk]).
    unfold returns in *. by rewrite Hstep.
  - destruct (returns_attempts r' (blocks_results o lt (block_contents o c b) l ++ xs) final) as (r1 & r2 & H1 & H2 & H3).
    { rewrite (block_bound _ _ _ _ Hr'). eapply IH; [done | exact Hr' | lia | exact Hk]. }
    cbn [returns]. exists r', r1, r2. by rewrite Hstep.
Qed.
End reading.

(** ** Sections *)

Section files.
Context (e : error) (o : NgReaderOptions).

Lemma described_link_type ty snap opts : if_LinkType (described ty snap opts) = ty.
Proof.
  unfold described. change (if_LinkType (fold_left intf_step opts (mkInterface [] [] [] [] [] ty 6 0 snap zero_statistics 0 0 0)) = ty).
  set (i := mkInterface _ _ _ _ _ _ _ _ _ _ _ _ _). assert (if_LinkType i = ty) as Hi by done. clearbody i. revert i Hi.
  induction opts as [|x opts IH]; intros i Hi; [done|]. apply IH. by destruct x.
Qed.

(** The interfaces decide what is well formed. *)
Lemma blocks_ok_same big l : ∀ c c', c_ifaces c = c_ifaces c' → blocks_ok o big c l → blocks_ok o big c' l.
Proof.
  induction l as [|b l IH]; intros c c' E; [done|]. intros [Hb Hl]. split; [by rewrite <-E|]. eapply IH, Hl. by destruct b; cbn; rewrite ?E.
Qed.

Lemma blocks_ok_app big l1 l2 : ∀ c, blocks_ok o big c (l1 ++ l2) → blocks_ok o big (fold_left (block_contents o) l1 c) l2.
Proof. induction l1 as [|b l1 IH]; intros c; [done|]. intros [_ H]. by apply IH. Qed.

Lemma blocks_results_app lt l1 l2 : ∀ c, blocks_results o lt c (l1 ++ l2) = blocks_results o lt c l1 ++ blocks_results o lt (fold_left (block_contents o) l1 c) l2.
Proof. induction l1 as [|b l1 IH]; intros c; [done|]. cbn [app blocks_results fold_left]. by rewrite IH, app_assoc. Qed.

(** Blocks up to the first interface, after which the link type is [lt]. *)
Lemma first_interface big t lt lt0 found l : (found = true → lt0 = lt) → ∀ c r fuel, c_ifaces c = [] → blocks_ok o big c l → first_link_type l = Some lt →
  at_block e o lt0 found big (blocks_bytes big l ++ t) c r → (length l < fuel)%nat →
  ∃ pre rest, l = pre ++ rest ∧ blocks_results o lt c pre = [] ∧
    does (firstInterface_loop fuel) (fun _ r' => at_block e o lt true big (blocks_bytes big rest ++ t) (fold_left (block_contents o) pre c) r') r.
Proof.
  intros Hlt. induction l as [|b l IH]; intros c r fuel Hifs Hok Hfirst Hr Hf; [done|]. destruct Hok as [Hb Hok].
  unfold blocks_bytes in Hr. cbn [map concat] in Hr. fold (blocks_bytes big l) in Hr. rewrite <-app_assoc in Hr.
  destruct fuel as [|fuel]; [cbn in Hf; lia|]. cbn [firstInterface_loop].
  destruct b as [ty reserved snap opts ended| | | | |typ body]; try done; cbn [first_link_type] in Hfirst.
  - injection Hfirst as ->. exists [IDB lt reserved snap opts ended], l. split; [done|]. split; [done|].
    eapply does_bind; [by eapply block_known|]. intros ? r1 (Hr1 & Ht & Hl). apply does_get. rewrite Ht. cbn [block_type Z.eqb Pos.eqb ngBlockTypeInterfaceDescriptor].
    eapply does_bind; [by eapply block_interface|]. intros ? r2 Hr2. apply does_get. rewrite (b_ifaces _ _ _ _ _ _ _ _ Hr2).
    cbn [block_contents c_ifaces]. rewrite Hifs. cbn [app]. eapply does_lift_bind; [done|]. rewrite (b_found _ _ _ _ _ _ _ _ Hr2), described_link_type.
    destruct found; cbn [negb].
    + specialize (Hlt eq_refl). subst lt0. rewrite (b_linkType _ _ _ _ _ _ _ _ Hr2), Z.eqb_refl. by apply does_ret.
    + apply does_modify. destruct Hr2. by split.
  - destruct (does_eq _ _ _ (block_known e o lt0 found big _ _ c r Hb Hr)) as ([] & r1 & E1 & Hr1 & Ht & Hl). cbn [block_body block_type] in *.
    destruct (does_eq _ _ _ (block_discard e o lt0 found big (body ++ enc32 big (len body + 12)) (blocks_bytes big l ++ t) c r1
      ltac:(by rewrite <-app_assoc) ltac:(by rewrite len_app, len_enc32))) as ([] & r2 & E2 & Hr2).
    destruct (IH c r2 fuel Hifs Hok Hfirst Hr2 ltac:(cbn in Hf; lia)) as (pre & rest & -> & Hres & Hdoes).
    exists (OtherBlock typ body :: pre), rest. split; [done|]. split; [done|]. unfold does, wp in *. rewrite bind_eq, E1, bind_eq. cbn [get]. rewrite Ht.
    destruct Hb as (_ & _ & Hne). unfold packet_block, ngBlockTypeInterfaceDescriptor, ngBlockTypePacket, ngBlockTypeEnhancedPacket, ngBlockTypeSimplePacket, ngBlockTypeInterfaceStatistics.
    repeat match goal with |- context [typ =? ?x] => destruct (Z.eqb_spec typ x) as [->|_]; [exfalso; apply Hne; set_solver|] end.
    cbn [orb]. by rewrite bind_eq, E2.
Qed.

(** The version, up to the options. *)
Lemma version_reads big n opts ended t i fuel : is_u64 n → is_u32 (len (header_rest big n opts ended) + 16) →
  in_length i = len (header_rest big n opts ended) + 4 → input_at big e (header_rest big n opts ended ++ t) i →
  does (find_version (SkipUnknownVersion o) (S fuel))
    (fun _ i' => input_at big e (raw_options big ended (map header_raw opts) ++ t) i' ∧
      in_length i' = len (raw_options big ended (map header_raw opts)) + 4) i.
Proof.
  intros Hn Hu Hl Hi. unfold header_rest in *. set (ob := raw_options _ _ _) in *. rewrite !len_app, !len_enc16, len_enc64 in *.
  pose proof (len_nonneg ob). rewrite <- !app_assoc in Hi. rewrite (app_assoc (enc16 big 0)), app_assoc in Hi. cbn [find_version].
  eapply does_bind; [eapply does_readBytes; [|exact Hi]; by rewrite !len_app, !len_enc16, len_enc64|].
  intros ? i1 (-> & Hi1 & Hl1 & _).
  eapply does_bind; [eapply (does_consume big e 12 (len ob + 4)); [lia | unfold is_u32 in *; lia | exact Hi1]|]. intros ? i2 (Hi2 & Hl2 & _).
  eapply does_bind; [eapply (does_field16 big e _ []); [done | by split | exact Hi2]|]. intros ? ? [-> ->].
  eapply does_bind; [eapply (does_field16 big e _ (enc16 big 1)); [by rewrite len_enc16 | by split | exact Hi2]|]. intros ? ? [-> ->].
  by apply does_ret.
Qed.

(** A section header, once its block has been opened. *)
Lemma header_opens lt lt0 act s t c r : section_ok o lt s → let big := s_big s in let h := header_rest big (s_length s) (s_opts s) (s_ended s) in
  input_at big e (h ++ enc32 big (len h + 16) ++ t) (nr_in r) → in_length (nr_in r) = len h + 4 →
  options r = o → linkType r = lt0 → sectionInfo r = c_info c → ifaces r = c_ifaces c → events r = c_events c → activeSection r = act →
  ∃ r5, readSectionHeader r = (if negb (WantMixedLinkType o) then firstInterface else mret tt) r5 ∧
    at_block e o lt0 (firstSectionFound r) big t (section_contents o act c s) r5.
Proof.
  intros (Hn & Hopts & Hu & _ & _) big h Hi Hl Ho Hlink Hinfo Hifs Hev Hact.
  set (r1 := if SectionEndCallback o && act then log_event (SectionEnd (ifaces r) (sectionInfo r)) r else r).
  set (r2 := set_active false (set_ifaces [] r1)).
  assert (nr_in r2 = nr_in r) as E2 by (unfold r2, r1; by destruct (SectionEndCallback o && act)).
  unfold blocks_bound in *. rewrite <-E2 in Hi, Hl. fold big in Hu. fold h in Hu.
  destruct (does_eq _ _ _ (does_input _ _ r2 (version_reads big (s_length s) (s_opts s) (s_ended s) _ _ (length (rest (in_r (nr_in r)))) Hn Hu Hl Hi)))
    as ([] & r3 & H3 & i3 & E3 & Hi3 & Hl3).
  set (ob := raw_options big (s_ended s) (map header_raw (s_opts s))) in *.
  assert (is_u32 (len ob + 4)) as Hob by (unfold h, header_rest in Hu; rewrite !len_app, !len_enc16, len_enc64 in Hu; fold ob in Hu; pose proof (len_nonneg ob); unfold is_u32 in *; lia).
  assert (nr_in r3 = i3) as <- by (by rewrite E3).
  destruct (does_eq _ _ _ (does_input _ _ r3 (ended_local big e section_option section_step (fun _ _ => True) header_raw header_step header_option_ok _
    (s_opts s) (s_ended s) (nr_in r3) empty_section (section_handles big e) header_option_reads Hopts Hob Hl3 Hi3))) as (info & r4 & H4 & i4 & E4 & Hi4 & Hl4 & Hi0).
  assert (nr_in r4 = i4) as <- by (by rewrite E4).
  destruct (does_eq _ _ _ (does_input _ _ r4 (does_discard_block big e _ t (nr_in r4) ltac:(by rewrite Hl4, len_enc32) Hi4))) as ([] & r5 & H5 & i5 & E5 & Hi5 & _).
  exists (set_sectionInfo info (set_active true r5)). split.
  - unfold readSectionHeader. rewrite bind_eq. cbn [get]. rewrite Ho, Hact.
    rewrite (bind_ok _ _ r tt r1) by (unfold r1; by destruct (SectionEndCallback o && act)).
    rewrite (bind_ok _ _ r1 tt r2) by done. unfold blocks_bound. rewrite (bind_ok _ _ _ _ _ H3), (bind_ok _ _ _ _ _ H4), (bind_ok _ _ _ _ _ H5). done.
  - subst info. rewrite E5, E4, E3. unfold r2, r1, section_contents. destruct (SectionEndCallback o && act); split; cbn; rewrite ?Hinfo, ?Hifs, ?Hev; done.
Qed.

(** It is read, and without mixed link types the blocks up to the first interface. *)
Lemma header_reads lt lt0 found act s t c r : (found = true → lt0 = lt) → (WantMixedLinkType o = true → found = false ∧ lt0 = lt) →
  section_ok o lt s → let big := s_big s in let h := header_rest big (s_length s) (s_opts s) (s_ended s) in
  input_at big e (h ++ enc32 big (len h + 16) ++ blocks_bytes big (s_blocks s) ++ t) (nr_in r) → in_length (nr_in r) = len h + 4 →
  options r = o → linkType r = lt0 → firstSectionFound r = found → sectionInfo r = c_info c → ifaces r = c_ifaces c → events r = c_events c →
  activeSection r = act → let c1 := section_contents o act c s in
  ∃ pre rest, s_blocks s = pre ++ rest ∧ blocks_results o lt c1 pre = [] ∧
    does readSectionHeader
      (fun _ r' => at_block e o lt (negb (WantMixedLinkType o)) big (blocks_bytes big rest ++ t) (fold_left (block_contents o) pre c1) r') r.
Proof.
  intros Hlt Hmixed Hs big h Hi Hl Ho Hlink Hfound Hinfo Hifs Hev Hact c1.
  destruct (header_opens lt lt0 act s _ c r Hs Hi Hl Ho Hlink Hinfo Hifs Hev Hact) as (r5 & E & Hr5). fold c1 big in Hr5. rewrite Hfound in Hr5.
  pose proof Hs as (_ & _ & _ & Hblocks & Hfirst). unfold does, wp. rewrite E. destruct (WantMixedLinkType o) eqn:Hw; cbn [negb].
  - destruct (Hmixed eq_refl) as [-> ->]. by exists [], (s_blocks s).
  - destruct (first_interface big t lt lt0 found (s_blocks s) Hlt c1 r5 (blocks_bound r5)) as (pre & rest & Eb & Hres & Hdoes); [done| |by apply Hfirst|done| |].
    + eapply blocks_ok_same, Hblocks. done.
    + rewrite (block_bound _ _ _ _ _ _ _ _ Hr5), length_app. pose proof (blocks_length big (s_blocks s)). lia.
    + by exists pre, rest.
Qed.

(** Opening the block of a section header, whatever the byte order was. *)
Lemma section_block s t r lt : section_ok o lt s → in_r (nr_in r) = mkStream (section_bytes s ++ t) e → 1024 <= len (in_array (nr_in r)) < 65536 →
  let h := header_rest (s_big s) (s_length s) (s_opts s) (s_ended s) in
  does (input readBlock) (fun _ r' => ∃ i, r' = set_in i r ∧ input_at (s_big s) e (h ++ enc32 (s_big s) (len h + 16) ++ blocks_bytes (s_big s) (s_blocks s) ++ t) i ∧
    in_typ i = ngBlockTypeSectionHeader ∧ in_length i = len h + 4) r.
Proof.
  intros (_ & _ & Hu & _) Hs Ha h. apply does_input. unfold section_bytes in Hs. rewrite <-app_assoc in Hs. by apply section_opens.
Qed.

(** The section as it is read. *)
Definition section_done (s : ng_section) (act : bool) (c : contents) : contents :=
  fold_left (block_contents o) (s_blocks s) (section_contents o act c s).

Lemma blocks_rest lt big c pre rest l : l = pre ++ rest → blocks_results o lt c pre = [] → blocks_ok o big c l →
  blocks_results o lt (fold_left (block_contents o) pre c) rest = blocks_results o lt c l ∧
  fold_left (block_contents o) rest (fold_left (block_contents o) pre c) = fold_left (block_contents o) l c ∧
  blocks_ok o big (fold_left (block_contents o) pre c) rest.
Proof. intros -> Hres Hok. split_and!; [by rewrite blocks_results_app, Hres | by rewrite fold_left_app | by apply blocks_ok_app]. Qed.

(** A section in the middle of a file. *)
Lemma section_step lt big s t c r fuel : (WantMixedLinkType o = true → lt = 0) → section_ok o lt s →
  at_block e o lt (negb (WantMixedLinkType o)) big (section_bytes s ++ t) c r → ∃ pre rest r', s_blocks s = pre ++ rest ∧
    blocks_results o lt (section_contents o true c s) pre = [] ∧
    at_block e o lt (negb (WantMixedLinkType o)) (s_big s) (blocks_bytes (s_big s) rest ++ t) (fold_left (block_contents o) pre (section_contents o true c s)) r' ∧
    read_from (S fuel) r = read_from fuel r'.
Proof.
  intros Hmixed Hs Hr.
  destruct (does_eq _ _ _ (section_block s t r lt Hs (at_stream _ _ _ _ (b_input _ _ _ _ _ _ _ _ Hr)) (at_array _ _ _ _ (b_input _ _ _ _ _ _ _ _ Hr))))
    as ([] & r1 & E1 & i & Er1 & Hi & Ht & Hl).
  destruct (header_reads lt lt (negb (WantMixedLinkType o)) true s t c r1) as (pre & rest & Eb & Hres & Hdoes); subst r1; try apply Hr; try done.
  { intros ->. done. }
  destruct (does_eq _ _ _ Hdoes) as ([] & r2 & E2 & Hr2). exists pre, rest, r2. split; [done|]. split; [done|]. split; [done|].
  unfold read_from at 1. rewrite bind_eq. cbn [readPacketHeader_loop]. unfold read_a_block. rewrite !bind_eq, E1, bind_eq. cbn [get nr_in set_in]. rewrite Ht.
  cbn [Z.eqb Pos.eqb ngBlockTypeEnhancedPacket ngBlockTypeSimplePacket ngBlockTypeInterfaceDescriptor ngBlockTypeInterfaceStatistics ngBlockTypeSectionHeader].
  by rewrite bind_eq, E2.
Qed.

Lemma section_bytes_length s : (1 <= length (section_bytes s))%nat.
Proof. unfold section_bytes, block. rewrite !length_app. destruct (s_big s); cbn; lia. Qed.

Lemma input_end lt found big c r fuel : at_block e o lt found big [] c r → ∃ r', read_from (S fuel) r = (Err e, r') ∧ at_block e o lt found big [] c r'.
Proof.
  intros Hr. pose proof (at_stream _ _ _ _ (b_input _ _ _ _ _ _ _ _ Hr)) as Hs.
  exists (set_in (set_stream (mkStream [] e) (nr_in r)) r). split.
  - unfold read_from. rewrite bind_eq. cbn [readPacketHeader_loop]. rewrite bind_eq. unfold read_a_block.
    rewrite bind_eq. unfold input, zoom, readBlock. rewrite bind_eq. unfold readBytes. by rewrite Hs.
  - eapply block_moves; [exact Hr|]. eapply input_moves, Hr.
Qed.

Definition reader_has (c : contents) (r : NgReader) : Prop := sectionInfo r = c_info c ∧ ifaces r = c_ifaces c ∧ events r = c_events c.

Lemma sections_return lt l : (WantMixedLinkType o = true → lt = 0) → Forall (section_ok o lt) l → ∀ big c r fuel,
  at_block e o lt (negb (WantMixedLinkType o)) big (sections_bytes l) c r → (length (sections_bytes l) < fuel)%nat →
  returns e fuel r (sections_results o lt true c l).1 (reader_has (sections_results o lt true c l).2).
Proof.
  intros Hmixed. induction 1 as [|s l Hs _ IH]; intros big c r fuel Hr Hf; (destruct fuel as [|fuel]; [lia|]).
  - destruct (input_end _ _ _ _ _ fuel Hr) as (r' & E & Hr'). exists r'. split; [done|]. by destruct Hr'.
  - unfold sections_bytes in Hr, Hf. cbn [map concat] in Hr, Hf. fold (sections_bytes l) in Hr, Hf.
    pose proof Hs as (_ & _ & _ & Hblocks & _).
    destruct (section_step lt big s (sections_bytes l) c r fuel Hmixed Hs Hr) as (pre & rest & r' & Eb & Hres & Hr' & Estep).
    set (c1 := section_contents o true c s) in *.
    destruct (blocks_rest lt (s_big s) c1 pre rest (s_blocks s) Eb Hres) as (E1 & E2 & E3); [by eapply blocks_ok_same, Hblocks|].
    cbn [sections_results]. fold c1. destruct (sections_results o lt true (fold_left (block_contents o) (s_blocks s) c1) l) as [xs c'] eqn:El. cbn [fst snd].
    assert (returns e fuel r' (blocks_results o lt c1 (s_blocks s) ++ xs) (reader_has c')) as Hret.
    { rewrite <-E1. eapply (blocks_return e o lt _ (s_big s)); [exact E3 | exact Hr' | |].
      - unfold section_bytes in Hf. rewrite Eb in Hf. unfold blocks_bytes in *. rewrite map_app, concat_app, !length_app in *. unfold block in Hf. rewrite !length_app in Hf. 
        assert (1 <= length (enc32 (s_big s) 168627466))%nat by (by destruct (s_big s); cbn; lia). lia.
      - intros r2 fuel2 Hr2 Hf2. rewrite E2 in Hr2. specialize (IH _ _ r2 fuel2 Hr2 Hf2). by rewrite El in IH. }
    unfold returns in *. by rewrite Estep.
Qed.
End files.

(** C35 (functional): any file of version 1.0 is read to its end: one section or more,
    each of its own byte order, with interfaces of any resolution that nanoseconds can
    tell (the microsecond when none is given), enhanced, simple and old packets,
    statistics, blocks of other types, and options of any number and order, with or
    without an end of options. The calls return the packets in order, with their data,
    lengths, interfaces and times; packets whose link type is not that of the first
    interface are passed over, or reported, or returned, as the options say. The
    section, the interfaces with their statistics and the calls of the callbacks are
    those of the file. What is asked of the file: stamps, numbers and lengths that fit
    their fields, options that are not empty, link types of 8 bits, packets of
    interfaces that are there, and, if link types are not mixed, in every section an
    interface before the packets, the first one of the link type of the first section. *)
Theorem ng_reads_file e o s l : let lt := if WantMixedLinkType o then 0 else default 0 (first_link_type (s_blocks s)) in
  Forall (section_ok o lt) (s :: l) →
  let (xs, c) := sections_results o lt false (mkContents empty_section [] []) (s :: l) in
  ∃ r s1 s2, NewNgReader (mkStream (sections_bytes (s :: l)) e) o = Ok r ∧ NgLinkType r = lt ∧
    attempts (length xs) r = (Ok xs, s1) ∧ ReadPacketData s1 = (Err e, s2) ∧
    SectionInfo s2 = c_info c ∧ ifaces s2 = c_ifaces c ∧ events s2 = c_events c.
Proof.
  intros lt Hok. apply Forall_cons in Hok as [Hs Hl]. assert (WantMixedLinkType o = true → lt = 0) as Hmixed by (unfold lt; by intros ->).
  cbn [sections_results]. set (c1 := section_contents o false _ s).
  destruct (sections_results o lt true (fold_left (block_contents o) (s_blocks s) c1) l) as [xs c] eqn:El.
  set (r0 := new_reader (mkStream (sections_bytes (s :: l)) e) o).
  destruct (does_eq _ _ _ (section_block e o s (sections_bytes l) r0 lt Hs eq_refl ltac:(cbn [r0 new_reader nr_in new_input in_array]; rewrite len_replicate; lia))) as ([] & r1 & E1 & i & Er1 & Hi & Ht & Hlen).
  destruct (header_reads e o lt 0 false false s (sections_bytes l) (mkContents empty_section [] []) r1) as (pre & rest & Eb & Hres & Hdoes); subst r1; try done.
  { intros Hw. by rewrite Hmixed. }
  fold c1 in Hres, Hdoes. destruct (does_eq _ _ _ Hdoes) as ([] & r & E2 & Hr).
  pose proof Hs as (_ & _ & _ & Hblocks & _).
  destruct (blocks_rest o lt (s_big s) c1 pre rest (s_blocks s) Eb Hres) as (B1 & B2 & B3); [by eapply blocks_ok_same, Hblocks|].
  destruct (returns_attempts e r (blocks_results o lt c1 (s_blocks s) ++ xs) (reader_has c)) as (s1 & s2 & H1 & H2 & H3 & H4 & H5).
  { rewrite (block_bound _ _ _ _ _ _ _ _ Hr), <-B1. eapply blocks_return; [exact B3 | exact Hr | lia |].
    intros r2 fuel2 Hr2 Hf2. rewrite B2 in Hr2. pose proof (sections_return e o lt l Hmixed Hl _ _ r2 fuel2 Hr2 Hf2) as Hret. by rewrite El in Hret. }
  exists r, s1, s2. split_and!; try done; [|by destruct Hr].
  unfold NewNgReader. fold r0. unfold open_file. rewrite bind_eq, E1, bind_eq. cbn [get nr_in set_in]. rewrite Ht, Z.eqb_refl. cbn [negb]. by rewrite E2.
Qed.

(** ** A file of two sections *)

(** A big-endian section with three interfaces: milliseconds, 2^-5 seconds and the
    default; a simple packet that is cut, an old one, one of another link type. *)
Definition first_section : ng_section := mkSection true 0xFFFFFFFFFFFFFFFF [HOther 77 [1; 2; 3]; HOS [108]; HComment [99]; HHardware [104; 119]] true
  [ OtherBlock 0x0BAD [1; 2; 3; 4];
    IDB 1 0 2 [IOther 40 [7]; IResolution 3; IName [101; 48]; IFilter 0 [116]; IComment [99]] false;
    IDB 105 7 0 [IResolution 133; IOffset 3600; IDescription [100]; IOS [111]] true;
    IDB 1 0 0 [] false;
    EPB 0 1700000000123 60 [1; 2; 3] [0; 0; 1; 0; 1; 0; 99; 0; 0; 0; 0; 0; 0; 0];
    SPB 5 [8; 9] [0; 0];
    ISB 1 (32 * 10 + 16) [TComment [99]; TReceived 5; TStart 64; TOther 9 [1]; TDropped 0; TEnd 96] true;
    EPB 1 (32 * 10 + 1) 4 [5; 6; 7; 8] [];
    OPB 2 3 1700000000000007 4 [1; 1; 1; 1] [] ].

(** A little-endian section without options. *)
Definition second_section : ng_section := mkSection false 100 [] false
  [ IDB 1 0 0 [IResolution 12] true; EPB 0 5000000000123 1 [42] [0; 0; 0] ].

Definition strict_options : NgReaderOptions := mkOptions false true false true true.

Lemma exact_3 : exact 3.
Proof. split; [lia|]. split; [done|]. left. by exists 1000000. Qed.
Lemma exact_12 : exact 12.
Proof. split; [lia|]. split; [done|]. right. by exists 1000. Qed.
Lemma exact_133 : exact 133.
Proof. split; [lia|]. split; [done|]. left. by exists 31250000. Qed.

Ltac fits := repeat match goal with
  | |- exact _ => first [apply exact_3 | apply exact_12 | apply exact_133]
  | |- _ ∧ _ => split
  | |- Forall _ [] => constructor
  | |- Forall _ (_ :: _) => constructor
  | |- header_option_ok _ => cbn [header_option_ok] | |- intf_option_ok _ => cbn [intf_option_ok] | |- stats_option_ok _ => cbn [stats_option_ok]
  | |- other_fits _ _ _ => split_and!; [by rewrite !not_elem_of_cons; split_and!; [..|apply not_elem_of_nil]|..]
  | |- _ ∉ _ => by rewrite !not_elem_of_cons; split_and!; [..|apply not_elem_of_nil]
  | |- _ → _ => intros _
  | |- True => exact I
  end; try (vm_compute; intuition congruence).


Lemma two_sections_ok : Forall (section_ok strict_options 1) [first_section; second_section].
Proof.
  constructor; [|constructor; [|constructor]]; (split; [by vm_compute|]); cbn [first_section second_section s_big s_length s_opts s_ended s_blocks].
  - split; [fits|]. split; [vm_compute; intuition congruence|]. split; [|done]. repeat (split; [unfold block_ok; fits|]). done.
  - split; [fits|]. split; [vm_compute; intuition congruence|]. split; [|done]. repeat (split; [unfold block_ok; fits|]). done.
Qed.

Lemma ng_reads_file_witness :
  let (xs, c) := sections_results strict_options 1 false (mkContents empty_section [] []) [first_section; second_section] in
  ∃ r s1 s2, NewNgReader (mkStream (sections_bytes [first_section; second_section]) io_EOF) strict_options = Ok r ∧ NgLinkType r = 1 ∧
    attempts (length xs) r = (Ok xs, s1) ∧ ReadPacketData s1 = (Err io_EOF, s2) ∧
    SectionInfo s2 = c_info c ∧ ifaces s2 = c_ifaces c ∧ events s2 = c_events c.
Proof. exact (ng_reads_file io_EOF strict_options first_section [second_section] two_sections_ok). Defined.

(** The calls: milliseconds and an old packet of microseconds, the packet of another
    link type, which is reported, and picoseconds in the second section. *)
Example two_sections_read :
  (sections_results strict_options 1 false (mkContents empty_section [] []) [first_section; second_section]).1 =
  [inl ([1; 2; 3], mkCaptureInfo (mkTime 1700000000 123000000) 3 60 0, None);
   inl ([8; 9], mkCaptureInfo zero_time 2 5 0, None);
   inr ErrNgLinkTypeMismatch;
   inl ([1; 1; 1; 1], mkCaptureInfo (mkTime 1700000000 7000) 4 4 2, None);
   inl ([42], mkCaptureInfo (mkTime 5 0) 1 1 0, None)].
Proof. vm_compute. reflexivity. Qed.

Example two_sections_statistics :
  map (fun ev => match ev with StatisticsRead _ s => (LastUpdate s, StartTime s, PacketsReceived s) | _ => (zero_time, zero_time, 0) end)
    (c_events (sections_results strict_options 1 false (mkContents empty_section [] []) [first_section; second_section]).2) =
  [(mkTime 3610 500000000, mkTime 3602 0, 5); (zero_time, zero_time, 0)].
Proof. vm_compute. reflexivity. Qed.

(** ** Where the code goes wrong *)

(** Of other powers of two the scale is rounded: half a second in units of 2^-20 is
    read as 0.499646464 seconds, and in units of 2^-30 as 0.536870912. *)
Definition in_units (r : Z) : NgInterface := match prepare_interface (intf_Resolution r zero_interface) with Ok i => i | _ => zero_interface end.

Lemma powers_of_two_rounded :
  convertTime (in_units 148) (2 ^ 19) = Ok (mkTime 0 499646464) ∧ convertTime (in_units 158) (2 ^ 29) = Ok (mkTime 0 536870912) ∧
  clock (in_units 148) (2 ^ 19) = mkTime 0 500000000 ∧ clock (in_units 158) (2 ^ 29) = mkTime 0 500000000.
Proof. by vm_compute. Qed.

(** A resolution of one second that is given as 10^0 is read as microseconds. *)
Lemma seconds_are_microseconds : convertTime (in_units 0) 5 = Ok (mkTime 0 5000) ∧ units 0 = 1.
Proof. by vm_compute. Qed.
