(* ===== verification/Packet.v ===== *)
(** * Packets: eager and lazy decoding ([packet.go], [decode.go])

    A decoder is a program that calls methods of the packet builder it is
    given: an inductive tree of calls, in which the result of [NextDecoder]
    goes back to the program. The file models the two builders, which run the
    next decoder at once or when a layer is asked for, the accessors, the
    recovery from panics and the packet sources. [PacketCorrect.v] has the
    theorems. *)

From S2P Require Import Prelude SerializeBuffer LayerClasses Capture.

Record DecodeOptions : Type := mkDecodeOptions {
  Lazy : bool;
  NoCopy : bool;
  SkipDecodeRecovery : bool;
  DecodeStreamsAsDatagrams : bool;
}.

Definition Default : DecodeOptions := mkDecodeOptions false false false false.
Definition LazyOptions : DecodeOptions := mkDecodeOptions true false false false.
Definition NoCopyOptions : DecodeOptions := mkDecodeOptions false true false false.
Definition DecodeStreamsAsDatagramsOptions : DecodeOptions := mkDecodeOptions false false false true.

(** What a layer of a client offers. *)
Class LayerIface (X : Type) : Type := {
  x_type : X → LayerType;
  x_payload : X → bytes;
}.

(** The five distinguished layers of a packet. *)
Inductive slot : Type := LinkSlot | NetworkSlot | TransportSlot | ApplicationSlot | ErrorSlot.
#[export] Instance slot_eq_dec : EqDecision slot.
Proof. solve_decision. Defined.

(** What a decoder does with its builder. [X] are the layers, [D] the decoders. *)
Inductive builder (X D : Type) : Type :=
  | Return (err : option error)
  | Crash (c : crash)
  | AddLayer (l : X) (k : builder X D)
  | SetLayer (s : slot) (l : X) (k : builder X D)
  | SetTruncatedThen (k : builder X D)
  | GetDecodeOptions (k : DecodeOptions → builder X D)
  | NextDecoder (next : option D) (k : option error → builder X D).
Arguments Return {X D} err.
Arguments Crash {X D} c.
Arguments AddLayer {X D} l k.
Arguments SetLayer {X D} s l k.
Arguments SetTruncatedThen {X D} k.
Arguments GetDecodeOptions {X D} k.
Arguments NextDecoder {X D} next k.

(** The layer that a failure adds; the stack trace it keeps for [Dump] is left out. *)
Inductive Layer (X : Type) : Type :=
  | Decoded (l : X)
  | DecodeFailure (data : bytes) (err : error).
Arguments Decoded {X} l.
Arguments DecodeFailure {X} data err.

Definition errNilDecoder : error :=
  errors_New "NextDecoder passed nil decoder, probably an unsupported decode type".

(** [fmt.Errorf("%v", r)] for a recovered panic. *)
Definition recovered (c : crash) : error :=
  match c with
  | IndexOutOfRange => errors_New "runtime error: index out of range"
  | SliceOutOfRange => errors_New "runtime error: slice bounds out of range"
  | NilDereference => errors_New "runtime error: invalid memory address or nil pointer dereference"
  | Panicked msg => errors_New msg
  end.

Section packet.
Context {X D : Type} `{LayerIface X}.
Context (Decode : D → bytes → builder X D).

Definition layer_type (l : Layer X) : LayerType :=
  match l with Decoded x => x_type x | DecodeFailure _ _ => LayerTypeDecodeFailure end.
Definition layer_payload (l : Layer X) : bytes :=
  match l with Decoded x => x_payload x | DecodeFailure _ _ => [] end.

Record packet : Type := mkPacket {
  p_data : bytes;
  p_layers : list (Layer X);
  p_last : option (Layer X);
  p_capture : CaptureInfo;
  p_truncated : bool;
  p_options : DecodeOptions;
  p_slots : slot → option (Layer X);
}.

(** [SetLinkLayer] and its siblings: the first call is kept. *)
Definition set_slot (s : slot) (l : Layer X) (p : packet) : packet :=
  match p_slots p s with
  | Some _ => p
  | None => mkPacket (p_data p) (p_layers p) (p_last p) (p_capture p) (p_truncated p) (p_options p)
              (fun s' => if decide (s' = s) then Some l else p_slots p s')
  end.

Definition set_truncated (p : packet) : packet :=
  mkPacket (p_data p) (p_layers p) (p_last p) (p_capture p) true (p_options p) (p_slots p).

Definition add_layer (l : Layer X) (p : packet) : packet :=
  mkPacket (p_data p) (p_layers p ++ [l]) (Some l) (p_capture p) (p_truncated p) (p_options p) (p_slots p).

(** The bytes that the next decoder gets. *)
Definition remaining (p : packet) : bytes :=
  match p_last p with None => p_data p | Some l => layer_payload l end.

Definition addFinalDecodeError (err : error) (p : packet) : packet :=
  let fail := DecodeFailure (remaining p) err in
  set_slot ErrorSlot fail (add_layer fail p).

(** [defer p.recoverDecodeError()] *)
Definition recoverDecodeError (m : M packet unit) : M packet unit := fun p =>
  match m p with
  | (Panic c, p') =>
      if SkipDecodeRecovery (p_options p') then (Panic c, p')
      else (Ok tt, addFinalDecodeError (recovered c) p')
  | r => r
  end.

(** ** Eager decoding *)

(** [run] decodes in the call, and stands for [next.Decode(d, p)]. *)
Definition eager_NextDecoder (run : builder X D → M packet (option error)) (next : option D)
    : M packet (option error) :=
  match next with
  | None => mret (Some errNilDecoder)
  | Some next =>
      p ← get;
      match p_last p with
      | None => mret (Some (errors_New "NextDecoder called, but no layers added yet"))
      | Some last =>
          let d := layer_payload last in
          if len d =? 0 then mret None else run (Decode next d)
      end
  end.

(** [fuel] bounds how deep the calls of [NextDecoder] nest. *)
Fixpoint eager_run (fuel : nat) : builder X D → M packet (option error) :=
  fix go (b : builder X D) : M packet (option error) :=
    match b with
    | Return err => mret err
    | Crash c => lift (Panic c)
    | AddLayer l k => _ ← modify (add_layer (Decoded l)); go k
    | SetLayer s l k => _ ← modify (set_slot s (Decoded l)); go k
    | SetTruncatedThen k => _ ← modify set_truncated; go k
    | GetDecodeOptions k => p ← get; go (k (p_options p))
    | NextDecoder next k =>
        err ← eager_NextDecoder (match fuel with O => fun _ => lift NoFuel | S fuel' => eager_run fuel' end) next;
        go (k err)
    end.

(** [dec.Decode(data, p)] on an interface value, which may be nil. *)
Definition decode_with {S} (run : builder X D → M S (option error)) (dec : option D) (data : bytes)
    : M S (option error) :=
  match dec with None => lift (Panic NilDereference) | Some dec => run (Decode dec data) end.

Definition initialDecode (fuel : nat) (dec : option D) : M packet unit :=
  recoverDecodeError
    (p ← get;
     err ← decode_with (eager_run fuel) dec (p_data p);
     match err with Some err => modify (addFinalDecodeError err) | None => mret tt end).

(** The first layer of a wanted type: [Layer] asks for one type, [LayerClass]
    for those that the class contains. *)
Definition find_layer (want : LayerType → bool) (ls : list (Layer X)) : option (Layer X) :=
  List.find (fun l => want (layer_type l)) ls.

Definition eager_slot (s : slot) (p : packet) : option (Layer X) := p_slots p s.
Definition eager_Layers (p : packet) : list (Layer X) := p_layers p.
Definition eager_Layer (want : LayerType → bool) (p : packet) : option (Layer X) :=
  find_layer want (p_layers p).

(** ** Lazy decoding *)

Record lazyPacket : Type := mkLazy { lz_packet : packet; lz_next : option D }.

Definition on_packet {A} (m : M packet A) : M lazyPacket A :=
  zoom lz_packet (fun p s => mkLazy p (lz_next s)) m.
Definition set_next (next : option D) : M lazyPacket unit :=
  modify (fun s => mkLazy (lz_packet s) next).

Definition lazy_NextDecoder (next : option D) : M lazyPacket (option error) :=
  match next with
  | None => mret (Some errNilDecoder)
  | Some _ => _ ← set_next next; mret None
  end.

Fixpoint lazy_run (b : builder X D) : M lazyPacket (option error) :=
  match b with
  | Return err => mret err
  | Crash c => lift (Panic c)
  | AddLayer l k => _ ← on_packet (modify (add_layer (Decoded l))); lazy_run k
  | SetLayer s l k => _ ← on_packet (modify (set_slot s (Decoded l))); lazy_run k
  | SetTruncatedThen k => _ ← on_packet (modify set_truncated); lazy_run k
  | GetDecodeOptions k => p ← on_packet get; lazy_run (k (p_options p))
  | NextDecoder next k => err ← lazy_NextDecoder next; lazy_run (k err)
  end.

Definition lazy_recover (m : M lazyPacket unit) : M lazyPacket unit := fun s =>
  match m s with
  | (Panic c, s') =>
      let '(o, p) := recoverDecodeError (lift (Panic c)) (lz_packet s') in (o, mkLazy p (lz_next s'))
  | r => r
  end.

Definition decodeNextLayer : M lazyPacket unit :=
  s ← get;
  match lz_next s with
  | None => mret tt
  | Some next =>
      let d := remaining (lz_packet s) in
      _ ← set_next None;
      if len d =? 0 then mret tt
      else
        lazy_recover
          (err ← lazy_run (Decode next d);
           match err with
           | Some err => on_packet (modify (addFinalDecodeError err))
           | None => mret tt
           end)
  end.

(** [for p.link == nil && p.next != nil], and so on for the other slots. *)
Fixpoint lazy_slot (fuel : nat) (s : slot) : M lazyPacket (option (Layer X)) :=
  st ← get;
  match p_slots (lz_packet st) s, lz_next st with
  | None, Some _ =>
      match fuel with
      | O => lift NoFuel
      | S fuel' => _ ← decodeNextLayer; lazy_slot fuel' s
      end
  | l, _ => mret l
  end.

Fixpoint lazy_Layers (fuel : nat) : M lazyPacket (list (Layer X)) :=
  st ← get;
  match lz_next st with
  | Some _ =>
      match fuel with
      | O => lift NoFuel
      | S fuel' => _ ← decodeNextLayer; lazy_Layers fuel'
      end
  | None => mret (p_layers (lz_packet st))
  end.

Fixpoint lazy_Layer_loop (fuel : nat) (want : LayerType → bool) (numLayers : nat)
    : M lazyPacket (option (Layer X)) :=
  st ← get;
  match lz_next st with
  | Some _ =>
      match fuel with
      | O => lift NoFuel
      | S fuel' =>
          _ ← decodeNextLayer;
          st ← get;
          match find_layer want (drop numLayers (p_layers (lz_packet st))) with
          | Some l => mret (Some l)
          | None => lazy_Layer_loop fuel' want (length (p_layers (lz_packet st)))
          end
      end
  | None => mret None
  end.

Definition lazy_Layer (fuel : nat) (want : LayerType → bool) : M lazyPacket (option (Layer X)) :=
  st ← get;
  match find_layer want (p_layers (lz_packet st)) with
  | Some l => mret (Some l)
  | None => lazy_Layer_loop fuel want (length (p_layers (lz_packet st)))
  end.

(** ** Making packets; copying the data is the identity on values *)

Definition no_capture : CaptureInfo := mkCaptureInfo zero_time 0 0 0.

Definition new_packet (data : bytes) (options : DecodeOptions) : packet :=
  mkPacket data [] None no_capture false options (fun _ => None).

Inductive Packet : Type :=
  | LazyPacket (p : lazyPacket)
  | EagerPacket (p : packet).

Definition NewPacket (fuel : nat) (data : bytes) (firstLayerDecoder : option D) (options : DecodeOptions)
    : outcome Packet :=
  if Lazy options then mret (LazyPacket (mkLazy (new_packet data options) firstLayerDecoder))
  else
    let '(o, p) := initialDecode fuel firstLayerDecoder (new_packet data options) in
    _ ← o; mret (EagerPacket p).

(** ** Sources of packets *)

Definition set_metadata (ci : CaptureInfo) (p : packet) : packet :=
  mkPacket (p_data p) (p_layers p) (p_last p) ci
    (p_truncated p || (CaptureLength ci <? Length ci)) (p_options p) (p_slots p).

(** A source is the list of what its reads give. *)
Definition source : Type := list (outcome (bytes * CaptureInfo)).

Definition ReadPacketData : M source (bytes * CaptureInfo) := fun src =>
  match src with [] => (Err io_EOF, []) | r :: src' => (r, src') end.

Fixpoint concat_ReadPacketData (pds : list source) : outcome (bytes * CaptureInfo) * list source :=
  match pds with
  | [] => (Err io_EOF, [])
  | s :: pds' =>
      match ReadPacketData s with
      | (Err err, s') => if is_EOF err then concat_ReadPacketData pds' else (Err err, s' :: pds')
      | (r, s') => (r, s' :: pds')
      end
  end.

Definition NextPacket (fuel : nat) (decoder : option D) (options : DecodeOptions) : M source Packet :=
  '(data, ci) ← ReadPacketData;
  packet ← lift (NewPacket fuel data decoder options);
  mret (match packet with
        | LazyPacket p => LazyPacket (mkLazy (set_metadata ci (lz_packet p)) (lz_next p))
        | EagerPacket p => EagerPacket (set_metadata ci p)
        end).
End packet.
Arguments packet X : clear implicits.
Arguments lazyPacket X D : clear implicits.
Arguments Packet X D : clear implicits.
