(* ===== verification/PacketCorrect.v ===== *)
(** * Lazy decoding agrees with eager decoding

    For decoders that keep the contract of [PacketBuilder] - a layer is added
    before [NextDecoder] is called, and that call comes last - every accessor
    of a lazy packet, in any order of calls, answers what the eager packet
    answers; and for decoders that consume data, decoding ends. *)

From S2P Require Import Prelude SerializeBuffer LayerClasses Capture Packet.

Section packets.
Context {X D : Type} `{LayerIface X}.
Context (Decode : D → bytes → builder X D).

(** The contract: whether a layer has been added so far is the index. Of the
    options a decoder looks at [DecodeStreamsAsDatagrams] only. *)
Inductive abides : bool → builder X D → Prop :=
  | abides_Return a err : abides a (Return err)
  | abides_Crash a c : abides a (Crash c)
  | abides_AddLayer a l k : abides true k → abides a (AddLayer l k)
  | abides_SetLayer a s l k : abides a k → abides a (SetLayer s l k)
  | abides_SetTruncated a k : abides a k → abides a (SetTruncatedThen k)
  | abides_GetDecodeOptions a k : (∀ o, abides a (k o)) →
      (∀ o o', DecodeStreamsAsDatagrams o = DecodeStreamsAsDatagrams o' → k o = k o') →
      abides a (GetDecodeOptions k)
  | abides_NextDecoder next k : (∀ err, k err = Return err) → abides true (NextDecoder next k).

Definition decoders_abide : Prop := ∀ d data, abides false (Decode d data).

Lemma bind_ret {S A} (m : M S A) s : (a ← m; mret a) s = m s.
Proof. rewrite bind_eq. by destruct (m s) as [[]]. Qed.

Lemma eager_run_unfold n b : eager_run Decode n b =
  match b with
  | Return err => mret err
  | Crash c => lift (Panic c)
  | AddLayer l k => _ ← modify (add_layer (Decoded l)); eager_run Decode n k
  | SetLayer s l k => _ ← modify (set_slot s (Decoded l)); eager_run Decode n k
  | SetTruncatedThen k => _ ← modify set_truncated; eager_run Decode n k
  | GetDecodeOptions k => p ← get; eager_run Decode n (k (p_options p))
  | NextDecoder next k =>
      err ← eager_NextDecoder Decode (match n with O => fun _ => lift NoFuel | S n' => eager_run Decode n' end) next;
      eager_run Decode n (k err)
  end.
Proof. destruct n, b; reflexivity. Qed.

Lemma slot_options s l (p : packet X) : p_options (set_slot s l p) = p_options p.
Proof. unfold set_slot. by destruct (p_slots p s). Qed.
Lemma slot_last s l (p : packet X) : p_last (set_slot s l p) = p_last p.
Proof. unfold set_slot. by destruct (p_slots p s). Qed.
Lemma slot_layers s l (p : packet X) : p_layers (set_slot s l p) = p_layers p.
Proof. unfold set_slot. by destruct (p_slots p s). Qed.

(** How one decoder that keeps the contract ends: with a result that both
    builders see alike, or by handing over to the next decoder. *)
Inductive ending (p : packet X) (b : builder X D) : Prop :=
  | ends_here r p1 :
      p_options p1 = p_options p →
      (∃ err, r = Ok err) ∨ (∃ c, r = Panic c) →
      lazy_run b (mkLazy p None) = (r, mkLazy p1 None) →
      (∀ n, eager_run Decode n b p = (r, p1)) →
      ending p b
  | hands_over d p1 :
      p_options p1 = p_options p →
      lazy_run b (mkLazy p None) = (Ok None, mkLazy p1 (Some d)) →
      (∀ n, eager_run Decode n b p =
         if len (remaining p1) =? 0 then (Ok None, p1)
         else match n with O => (NoFuel, p1) | S n' => eager_run Decode n' (Decode d (remaining p1)) p1 end) →
      ending p b.

(** A step that both builders take alike. *)
Lemma ending_step p p' b k : p_options p' = p_options p →
  lazy_run b (mkLazy p None) = lazy_run k (mkLazy p' None) →
  (∀ n, eager_run Decode n b p = eager_run Decode n k p') →
  ending p' k → ending p b.
Proof.
  intros Ho Hl He [r p1 Ho1 Hr Hl1 He1|d p1 Ho1 Hl1 He1].
  - apply (ends_here p b r p1); [congruence | done | congruence | intros n; by rewrite He].
  - apply (hands_over p b d p1); [congruence | congruence | intros n; by rewrite He].
Qed.

Lemma run_ending added b : abides added b → ∀ p, (added = true → p_last p ≠ None) → ending p b.
Proof.
  induction 1 as [a err|a c|a l k _ IH|a s l k _ IH|a k _ IH|a k _ IH _|next k Hk]; intros p Hp.
  - apply (ends_here p _ (Ok err) p); [done | eauto | done | intros n; by rewrite eager_run_unfold].
  - apply (ends_here p _ (Panic c) p); [done | eauto | done | intros n; by rewrite eager_run_unfold].
  - apply (ending_step p (add_layer (Decoded l) p) _ k); [done | done | intros n; by rewrite eager_run_unfold | by apply IH].
  - apply (ending_step p (set_slot s (Decoded l) p) _ k); [apply slot_options | done | intros n; by rewrite eager_run_unfold |].
    apply IH. by rewrite slot_last.
  - apply (ending_step p (set_truncated p) _ k); [done | done | intros n; by rewrite eager_run_unfold | by apply IH].
  - apply (ending_step p p _ (k (p_options p))); [done | done | intros n; by rewrite eager_run_unfold | by apply IH].
  - destruct next as [d|].
    + apply (hands_over p _ d p); [done | |].
      { change (lazy_run (k None) (mkLazy p (Some d)) = (Ok None, mkLazy p (Some d))). by rewrite Hk. }
      intros n. rewrite eager_run_unfold, bind_eq. unfold eager_NextDecoder. rewrite bind_eq. cbn [get].
      specialize (Hp eq_refl). unfold remaining. destruct (p_last p) as [last|]; [|done].
      destruct (_ =? _); [cbn; by rewrite Hk, eager_run_unfold|]. destruct n as [|n]; [done|].
      destruct (eager_run Decode n (Decode d (layer_payload last)) p) as [[err|e|c|] p'] eqn:E; try done.
      by rewrite Hk, eager_run_unfold.
    + apply (ends_here p _ (Ok (Some errNilDecoder)) p); [done | eauto | |].
      { change (lazy_run (k (Some errNilDecoder)) (mkLazy p None) = (Ok (Some errNilDecoder), mkLazy p None)). by rewrite Hk. }
      intros n. rewrite eager_run_unfold, bind_eq. cbn. by rewrite Hk, eager_run_unfold.
Qed.

(** ** A lazy packet on its way to the eager one *)

(** What a decode leaves in the packet, by the way it ended. *)
Definition decode_end (r : outcome (option error)) (p : packet X) : packet X :=
  match r with
  | Ok (Some e) => addFinalDecodeError e p
  | Panic c => addFinalDecodeError (recovered c) p
  | _ => p
  end.

Lemma decodeNextLayer_eq p d : SkipDecodeRecovery (p_options p) = false → ∀ r p1 next,
  lazy_run (Decode d (remaining p)) (mkLazy p None) = (r, mkLazy p1 next) →
  (∃ err, r = Ok err) ∨ (∃ c, r = Panic c) → p_options p1 = p_options p →
  decodeNextLayer Decode (mkLazy p (Some d)) =
    (Ok tt, if len (remaining p) =? 0 then mkLazy p None else mkLazy (decode_end r p1) next).
Proof.
  intros Hs r p1 next Hr Hcase Ho. unfold decodeNextLayer. rewrite bind_eq. cbn [get lz_next lz_packet].
  rewrite bind_eq. unfold set_next, modify. cbn [lz_packet]. destruct (_ =? _); [done|].
  unfold lazy_recover. rewrite bind_eq, Hr.
  destruct Hcase as [[[e|] ->]|[c ->]]; cbn; [done..|].
  unfold recoverDecodeError. cbn. by rewrite Ho, Hs.
Qed.

Lemma decodeNextLayer_empty p d : (len (remaining p) =? 0) = true →
  decodeNextLayer Decode (mkLazy p (Some d)) = (Ok tt, mkLazy p None).
Proof.
  intros He. unfold decodeNextLayer. rewrite bind_eq. cbn [get lz_next lz_packet].
  rewrite bind_eq. unfold set_next, modify. cbn [lz_packet]. by rewrite He.
Qed.

(** [n] calls of [decodeNextLayer] lead from [s] to the finished packet [pe]. *)
Inductive chain : nat → lazyPacket X D → packet X → Prop :=
  | chain_done p : chain 0 (mkLazy p None) p
  | chain_step n s s' pe : lz_next s ≠ None → decodeNextLayer Decode s = (Ok tt, s') →
      chain n s' pe → chain (S n) s pe.

Lemma eager_chain n : decoders_abide → ∀ d p r p1, len (remaining p) ≠ 0 →
  SkipDecodeRecovery (p_options p) = false → eager_run Decode n (Decode d (remaining p)) p = (r, p1) →
  r ≠ NoFuel → ∃ m, (m <= n + 2)%nat ∧ chain m (mkLazy p (Some d)) (decode_end r p1).
Proof.
  intros Hab. induction n as [|n IH]; intros d p r p1 Hne Hs Hr Hnf;
    destruct (run_ending false _ (Hab d (remaining p)) p ltac:(done)) as [r2 p2 Ho Hc Hl He|d2 p2 Ho Hl He];
    rewrite He in Hr; apply Z.eqb_neq in Hne.
  1,3: injection Hr as -> ->; exists 1%nat; split; [lia|]; econstructor;
    [done | rewrite (decodeNextLayer_eq p d Hs _ _ _ Hl Hc Ho), Hne; reflexivity | apply chain_done].
  all: pose proof (decodeNextLayer_eq p d Hs _ _ _ Hl (or_introl (ex_intro _ None eq_refl)) Ho) as Hstep;
    rewrite Hne in Hstep; cbn [decode_end] in Hstep; destruct (len (remaining p2) =? 0) eqn:Hemp.
  - injection Hr as <- <-. exists 2%nat. split; [lia|]. econstructor; [done | exact Hstep |].
    econstructor; [done | by apply decodeNextLayer_empty | apply chain_done].
  - congruence.
  - injection Hr as <- <-. exists 2%nat. split; [lia|]. econstructor; [done | exact Hstep |].
    econstructor; [done | by apply decodeNextLayer_empty | apply chain_done].
  - apply Z.eqb_neq in Hemp. destruct (IH d2 p2 r p1 Hemp ltac:(congruence) Hr Hnf) as (m & Hm & Hch).
    exists (S m). split; [lia|]. econstructor; [done | exact Hstep | exact Hch].
Qed.

(** ** Packets only grow *)

Definition grows (p p' : packet X) : Prop :=
  (∃ ls, p_layers p' = p_layers p ++ ls) ∧ ∀ s l, p_slots p s = Some l → p_slots p' s = Some l.

#[local] Instance grows_preorder : PreOrder grows.
Proof.
  split.
  - intros p. split; [exists []; by rewrite app_nil_r | done].
  - intros p1 p2 p3 [[l1 H1] S1] [[l2 H2] S2]. split; [|eauto]. exists (l1 ++ l2). by rewrite H2, H1, app_assoc.
Qed.

Lemma grows_add l p : grows p (add_layer l p).
Proof. split; [by exists [l] | done]. Qed.

Lemma grows_set s l p : grows p (set_slot s l p).
Proof.
  split; [exists []; by rewrite slot_layers, app_nil_r|]. intros s' l' Hs'. unfold set_slot.
  destruct (p_slots p s) eqn:Hs; [done|]. cbn. destruct (decide (s' = s)) as [->|]; [congruence | done].
Qed.

Lemma grows_failure e p : grows p (addFinalDecodeError e p).
Proof. unfold addFinalDecodeError. etrans; [apply grows_add | apply grows_set]. Qed.

Lemma lazy_run_grows (b : builder X D) : ∀ s, grows (lz_packet s) (lz_packet (snd (lazy_run b s))).
Proof.
  induction b as [err|c|l k IH|sl l k IH|k IH|k IH|next k IH]; intros s; cbn [lazy_run]; try reflexivity.
  - etrans; [apply (grows_add (Decoded l)) | apply (IH (mkLazy (add_layer (Decoded l) (lz_packet s)) (lz_next s)))].
  - etrans; [apply (grows_set sl (Decoded l)) | apply (IH (mkLazy (set_slot sl (Decoded l) (lz_packet s)) (lz_next s)))].
  - etrans; [|apply (IH (mkLazy (set_truncated (lz_packet s)) (lz_next s)))]. split; [exists []; by rewrite app_nil_r | done].
  - destruct s as [p nx]. apply (IH (p_options p) (mkLazy p nx)).
  - destruct next as [d|]; [apply (IH None (mkLazy (lz_packet s) (Some d))) | apply (IH (Some errNilDecoder) s)].
Qed.

Lemma decodeNextLayer_grows s : grows (lz_packet s) (lz_packet (snd (decodeNextLayer Decode s))).
Proof.
  unfold decodeNextLayer. rewrite bind_eq. cbn [get]. destruct (lz_next s) as [d|]; [|reflexivity].
  rewrite bind_eq. unfold set_next, modify. destruct (_ =? _); [reflexivity|].
  unfold lazy_recover. rewrite bind_eq. pose proof (lazy_run_grows (Decode d (remaining (lz_packet s))) (mkLazy (lz_packet s) None)) as Hg.
  destruct (lazy_run _ _) as [[[e|]|e|c|] s']; cbn in *; try done.
  - etrans; [exact Hg | apply grows_failure].
  - unfold recoverDecodeError, lift. destruct (SkipDecodeRecovery _); [done|]. etrans; [exact Hg | apply grows_failure].
Qed.

Lemma chain_grows n s pe : chain n s pe → grows (lz_packet s) pe.
Proof.
  induction 1 as [p|n s s' pe _ Hs _ IH]; [reflexivity|].
  etrans; [|exact IH]. pose proof (decodeNextLayer_grows s) as Hg. by rewrite Hs in Hg.
Qed.

(** ** The accessors *)

Lemma lazy_slot_chain sl fuel : ∀ n s pe, chain n s pe → (n <= fuel)%nat →
  ∃ s' n', lazy_slot Decode fuel sl s = (Ok (eager_slot sl pe), s') ∧ chain n' s' pe ∧ (n' <= n)%nat.
Proof.
  induction fuel as [|fuel IH]; intros n s pe Hc Hn; pose proof (chain_grows n s pe Hc) as [_ Hg];
    unfold eager_slot; cbn [lazy_slot]; rewrite bind_eq; cbn [get];
    destruct (p_slots (lz_packet s) sl) as [l|] eqn:Hsl; try (rewrite (Hg sl l Hsl); by exists s, n).
  - destruct Hc as [p|]; [|lia]. cbn in *. rewrite Hsl. exists (mkLazy p None), 0%nat. repeat split; constructor.
  - destruct Hc as [p|n s s1 pe Hnx Hd Hc].
    + cbn in *. rewrite Hsl. exists (mkLazy p None), 0%nat. repeat split; constructor.
    + destruct (lz_next s) as [d|]; [|done]. rewrite bind_eq, Hd.
      destruct (IH n s1 pe Hc ltac:(lia)) as (s' & n' & ? & ? & ?). exists s', n'. split; [done|]. split; [done | lia].
Qed.

Lemma lazy_Layers_chain fuel : ∀ n s pe, chain n s pe → (n <= fuel)%nat →
  ∃ s' n', lazy_Layers Decode fuel s = (Ok (eager_Layers pe), s') ∧ chain n' s' pe ∧ (n' <= n)%nat.
Proof.
  induction fuel as [|fuel IH]; intros n s pe Hc Hn; cbn [lazy_Layers]; rewrite bind_eq; cbn [get];
    destruct Hc as [p|n s s1 pe Hnx Hd Hc]; try lia.
  1,2: exists (mkLazy p None), 0%nat; repeat split; constructor.
  destruct (lz_next s) as [d|]; [|done]. rewrite bind_eq, Hd.
  destruct (IH n s1 pe Hc ltac:(lia)) as (s' & n' & ? & ? & ?). exists s', n'. split; [done|]. split; [done | lia].
Qed.

Lemma find_layer_app want (l1 l2 : list (Layer X)) : find_layer want (l1 ++ l2) =
  match find_layer want l1 with Some l => Some l | None => find_layer want l2 end.
Proof. unfold find_layer. induction l1 as [|l l1 IH]; cbn; [done|]. by destruct (want (layer_type l)). Qed.

Lemma find_layer_grows want p p' l : grows p p' →
  find_layer want (p_layers p) = Some l → find_layer want (p_layers p') = Some l.
Proof. intros [[ls ->] _] Hf. by rewrite find_layer_app, Hf. Qed.

Lemma lazy_Layer_loop_chain want fuel : ∀ n s pe, chain n s pe → (n <= fuel)%nat →
  find_layer want (p_layers (lz_packet s)) = None →
  ∃ s' n', lazy_Layer_loop Decode fuel want (length (p_layers (lz_packet s))) s =
             (Ok (find_layer want (p_layers pe)), s') ∧ chain n' s' pe ∧ (n' <= n)%nat.
Proof.
  induction fuel as [|fuel IH]; intros n s pe Hc Hn Hf; cbn [lazy_Layer_loop]; rewrite bind_eq; cbn [get];
    destruct Hc as [p|n s s1 pe Hnx Hd Hc]; try lia.
  1,2: cbn in *; rewrite Hf; exists (mkLazy p None), 0%nat; repeat split; constructor.
  destruct (lz_next s) as [d|]; [|done]. rewrite bind_eq, Hd, bind_eq. cbn [get].
  pose proof (decodeNextLayer_grows s) as [[ls Hls] _]. rewrite Hd in Hls. cbn [snd] in Hls.
  rewrite Hls, drop_app_length. pose proof (find_layer_app want (p_layers (lz_packet s)) ls) as Hfa.
  rewrite Hf, <- Hls in Hfa. destruct (find_layer want ls) as [l|].
  - rewrite (find_layer_grows want _ pe l (chain_grows n s1 pe Hc) Hfa). exists s1, n. split; [done|]. split; [done | lia].
  - rewrite <- Hls. destruct (IH n s1 pe Hc ltac:(lia) Hfa) as (s' & n' & ? & ? & ?).
    exists s', n'. split; [done|]. split; [done | lia].
Qed.

Lemma lazy_Layer_chain want fuel n s pe : chain n s pe → (n <= fuel)%nat →
  ∃ s' n', lazy_Layer Decode fuel want s = (Ok (eager_Layer want pe), s') ∧ chain n' s' pe ∧ (n' <= n)%nat.
Proof.
  intros Hc Hn. unfold lazy_Layer, eager_Layer. rewrite bind_eq. cbn [get].
  destruct (find_layer want (p_layers (lz_packet s))) as [l|] eqn:Hf.
  - rewrite (find_layer_grows want _ pe l (chain_grows n s pe Hc) Hf). by exists s, n.
  - by apply lazy_Layer_loop_chain.
Qed.

(** ** The options that differ between the two packets *)

Definition relabel (o : DecodeOptions) (p : packet X) : packet X :=
  mkPacket (p_data p) (p_layers p) (p_last p) (p_capture p) (p_truncated p) o (p_slots p).

Definition relabeled {A} (o : DecodeOptions) (r : outcome A * packet X) : outcome A * packet X :=
  (fst r, relabel o (snd r)).

Lemma relabel_set o s l p : set_slot s l (relabel o p) = relabel o (set_slot s l p).
Proof. unfold set_slot. cbn. by destruct (p_slots p s). Qed.

Lemma eager_relabel : decoders_abide → ∀ n a b, abides a b → ∀ p o,
  DecodeStreamsAsDatagrams o = DecodeStreamsAsDatagrams (p_options p) →
  eager_run Decode n b (relabel o p) = relabeled o (eager_run Decode n b p).
Proof.
  intros Hab n. induction n as [|n IHn]; induction 1 as [a err|a c|a l k _ IH|a s l k _ IH|a k _ IH|a k _ IH Hk|next k Hk];
    intros p o Ho; rewrite (eager_run_unfold _ (_ : builder X D)); try done; rewrite !bind_eq.
  1,6: apply (IH (add_layer (Decoded l) p) o Ho).
  1,5: cbn [modify]; rewrite relabel_set; apply IH; by rewrite slot_options.
  1,4: apply (IH (set_truncated p) o Ho).
  1,3: cbn [get]; change (p_options (relabel o p)) with o; rewrite (Hk o (p_options p) Ho); by apply IH.
  all: unfold eager_NextDecoder; destruct next as [d|]; [|rewrite !ret_eq, Hk, eager_run_unfold; done].
  all: rewrite !bind_eq; cbn [get relabel p_last]; destruct (p_last p) as [last|];
    [|rewrite !ret_eq, Hk, eager_run_unfold; done].
  all: destruct (_ =? _); [rewrite !ret_eq, Hk, eager_run_unfold; done|].
  - done.
  - rewrite (IHn false (Decode d (layer_payload last)) (Hab d _) p o Ho). unfold relabeled at 1.
    destruct (eager_run Decode n _ p) as [[err|e|c|] p']; cbn [fst snd]; try done.
    by rewrite Hk, (eager_run_unfold _ (Return err)).
Qed.

(** ** Any sequence of questions *)

Inductive query : Type :=
  | QSlot (s : slot)
  | QLayers
  | QLayer (want : LayerType → bool).

Inductive answer : Type :=
  | One (l : option (Layer X))
  | All (ls : list (Layer X)).

Definition eager_answer (p : packet X) (q : query) : answer :=
  match q with
  | QSlot s => One (eager_slot s p)
  | QLayers => All (eager_Layers p)
  | QLayer want => One (eager_Layer want p)
  end.

Definition lazy_answer (fuel : nat) (q : query) : M (lazyPacket X D) answer :=
  match q with
  | QSlot s => l ← lazy_slot Decode fuel s; mret (One l)
  | QLayers => ls ← lazy_Layers Decode fuel; mret (All ls)
  | QLayer want => l ← lazy_Layer Decode fuel want; mret (One l)
  end.

Fixpoint lazy_answers (fuel : nat) (qs : list query) : M (lazyPacket X D) (list answer) :=
  match qs with
  | [] => mret []
  | q :: qs' => a ← lazy_answer fuel q; rest ← lazy_answers fuel qs'; mret (a :: rest)
  end.

Lemma lazy_answers_chain fuel qs : ∀ n s pe, chain n s pe → (n <= fuel)%nat →
  ∃ s', lazy_answers fuel qs s = (Ok (map (eager_answer pe) qs), s').
Proof.
  induction qs as [|q qs IH]; intros n s pe Hc Hn; cbn [lazy_answers map]; [by exists s|].
  assert (∃ s' n', lazy_answer fuel q s = (Ok (eager_answer pe q), s') ∧ chain n' s' pe ∧ (n' <= n)%nat)
    as (s1 & n1 & H1 & Hc1 & Hn1).
  { destruct q as [sl| |want]; cbn [lazy_answer eager_answer].
    - destruct (lazy_slot_chain sl fuel n s pe Hc Hn) as (s' & n' & E & ? & ?). exists s', n'. by rewrite bind_eq, E.
    - destruct (lazy_Layers_chain fuel n s pe Hc Hn) as (s' & n' & E & ? & ?). exists s', n'. by rewrite bind_eq, E.
    - destruct (lazy_Layer_chain want fuel n s pe Hc Hn) as (s' & n' & E & ? & ?). exists s', n'. by rewrite bind_eq, E. }
  destruct (IH n1 s1 pe Hc1 ltac:(lia)) as (s2 & H2). exists s2. by rewrite bind_eq, H1, bind_eq, H2.
Qed.

Definition lazily (o : DecodeOptions) : DecodeOptions :=
  mkDecodeOptions true (NoCopy o) (SkipDecodeRecovery o) (DecodeStreamsAsDatagrams o).

Lemma initialDecode_end n d p : SkipDecodeRecovery (p_options p) = false →
  ∀ r p1, eager_run Decode n (Decode d (p_data p)) p = (r, p1) → (∃ err, r = Ok err) ∨ (∃ c, r = Panic c) →
  p_options p1 = p_options p →
  initialDecode Decode n (Some d) p = (Ok tt, decode_end r p1).
Proof.
  intros Hs r p1 Hr Hc Ho. unfold initialDecode, recoverDecodeError. rewrite bind_eq. cbn [get decode_with].
  rewrite bind_eq, Hr. destruct Hc as [[[e|] ->]|[c ->]]; cbn; [done..|]. by rewrite Ho, Hs.
Qed.

(** The runs of a builder end in a result or a panic, or run out of fuel, and keep the options. *)
Lemma eager_run_ends : decoders_abide → ∀ n d data p,
  let '(r, p1) := eager_run Decode n (Decode d data) p in
  p_options p1 = p_options p ∧ ((∃ err, r = Ok err) ∨ (∃ c, r = Panic c) ∨ r = NoFuel).
Proof.
  intros Hab n. induction n as [|n IH]; intros d data p;
    destruct (run_ending false _ (Hab d data) p ltac:(done)) as [r2 p2 Ho Hc Hl He|d2 p2 Ho Hl He]; rewrite He.
  1,3: split; [done | naive_solver].
  all: destruct (_ =? _); [split; eauto|].
  - split; eauto.
  - specialize (IH d2 (remaining p2) p2). destruct (eager_run _ _ _ _) as [r p1]. by rewrite Ho in IH.
Qed.

(** The eager packet and the start of the lazy one are joined by a chain. *)
Lemma eager_lazy_chain n data d o pe : decoders_abide → data ≠ [] →
  Lazy o = false → SkipDecodeRecovery o = false →
  NewPacket Decode n data (Some d) o = Ok (EagerPacket pe) →
  ∃ m pl, (m <= n + 2)%nat ∧ NewPacket Decode n data (Some d) (lazily o) = Ok (LazyPacket pl) ∧
    chain m pl (relabel (lazily o) pe).
Proof.
  intros Hab Hne Hlz Hsk Hnew. unfold NewPacket in *. rewrite Hlz in Hnew. cbn [Lazy lazily].
  set (p := new_packet data o) in *.
  pose proof (eager_run_ends Hab n d data p) as Hends.
  destruct (eager_run Decode n (Decode d data) p) as [r p1] eqn:Hr. destruct Hends as [Ho Hc].
  assert ((∃ err, r = Ok err) ∨ (∃ c, r = Panic c)) as Hc'.
  { destruct Hc as [?|[?| ->]]; [by left | by right|]. unfold initialDecode, recoverDecodeError in Hnew.
    rewrite bind_eq in Hnew. cbn [get decode_with] in Hnew. rewrite bind_eq in Hnew.
    change (p_data p) with data in Hnew. by rewrite Hr in Hnew. }
  rewrite (initialDecode_end n d p Hsk r p1 Hr Hc' Ho) in Hnew. injection Hnew as <-.
  pose proof (eager_relabel Hab n false _ (Hab d data) p (lazily o) eq_refl) as Hrl. rewrite Hr in Hrl.
  unfold relabeled in Hrl. cbn [fst snd] in Hrl.
  assert (len data ≠ 0) as Hlen by (intros ?; by apply Hne, len_zero).
  destruct (eager_chain n Hab d (relabel (lazily o) p) r (relabel (lazily o) p1) Hlen Hsk Hrl) as (m & Hm & Hch).
  { by destruct Hc' as [[? ->]|[? ->]]. }
  exists m, (mkLazy (relabel (lazily o) p) (Some d)). split; [done|]. split; [done|].
  replace (relabel (lazily o) (decode_end r p1)) with (decode_end r (relabel (lazily o) p1)); [done|].
  destruct r as [[e|]|e|c|]; cbn; try done; unfold addFinalDecodeError; by rewrite <- relabel_set.
Qed.

(** ** Decoders that consume data *)

(** Before [NextDecoder] the last layer's payload is shorter than [bound]. *)
Inductive consumes (bound : Z) : option X → builder X D → Prop :=
  | consumes_Return last err : consumes bound last (Return err)
  | consumes_Crash last c : consumes bound last (Crash c)
  | consumes_AddLayer last l k : consumes bound (Some l) k → consumes bound last (AddLayer l k)
  | consumes_SetLayer last s l k : consumes bound last k → consumes bound last (SetLayer s l k)
  | consumes_SetTruncated last k : consumes bound last k → consumes bound last (SetTruncatedThen k)
  | consumes_GetDecodeOptions last k : (∀ o, consumes bound last (k o)) → consumes bound last (GetDecodeOptions k)
  | consumes_NextDecoder l next k : len (x_payload l) < bound → consumes bound (Some l) (NextDecoder next k).

Definition decoders_consume : Prop := ∀ d data, consumes (len data) None (Decode d data).

Lemma consumes_shorter bound last b : consumes bound last b → ∀ a p p1 r d, abides a b →
  (∀ l, last = Some l → p_last p = Some (Decoded l)) →
  lazy_run b (mkLazy p None) = (r, mkLazy p1 (Some d)) → len (remaining p1) < bound.
Proof.
  induction 1 as [last err|last c|last l k _ IH|last s l k _ IH|last k _ IH|last k _ IH|l next k Hl];
    intros a p p1 r d Hab Hp Hr; inversion Hab as [| | | | | |? ? Hk]; subst; cbn [lazy_run] in Hr; try done.
  - apply (IH true (add_layer (Decoded l) p) p1 r d); [done | by intros ? [= <-] | exact Hr].
  - apply (IH a (set_slot s (Decoded l) p) p1 r d); [done | by rewrite slot_last | exact Hr].
  - apply (IH a (set_truncated p) p1 r d); [done | done | exact Hr].
  - by apply (IH (p_options p) a p p1 r d).
  - rewrite bind_eq in Hr. destruct next as [d'|]; cbn [lazy_NextDecoder] in Hr.
    + rewrite bind_eq in Hr. unfold set_next, modify in Hr. rewrite ret_eq, Hk in Hr. injection Hr as <- <- <-.
      unfold remaining. cbn [lz_packet]. by rewrite (Hp l eq_refl).
    + rewrite ret_eq, Hk in Hr. cbn [lazy_run] in Hr. rewrite ret_eq in Hr. by injection Hr.
Qed.

Lemma eager_run_enough : decoders_abide → decoders_consume → ∀ n d data p r p1,
  (length data <= n)%nat → eager_run Decode n (Decode d data) p = (r, p1) → r ≠ NoFuel.
Proof.
  intros Hab Hco n. induction n as [|n IH]; intros d data p r p1 Hn Hr ->;
    destruct (run_ending false _ (Hab d data) p ltac:(done)) as [r2 p2 _ Hc _ He|d2 p2 _ Hl He]; rewrite He in Hr;
    try (destruct Hc as [[? ->]|[? ->]]; discriminate Hr).
  all: pose proof (consumes_shorter _ _ _ (Hco d data) false p p2 _ d2 (Hab d data) ltac:(done) Hl) as Hlt;
    destruct (Z.eqb_spec (len (remaining p2)) 0); [discriminate Hr|].
  - pose proof (len_nonneg (remaining p2)). unfold len in *. lia.
  - refine (IH d2 (remaining p2) p2 NoFuel p1 _ Hr eq_refl). unfold len in *. lia.
Qed.

(** ** What the decoders do, one after the other

    Decoding without a packet: the layers that are added, those that are marked as
    one of the distinguished layers, the marks for truncated data, and the failure
    in which it ends, if it does. [last] is the layer added last. *)

Inductive action : Type :=
  | Added (l : X)
  | Marked (s : slot) (l : X)
  | Truncated.

Inductive decodes (o : DecodeOptions) : option X → builder X D → list action → option error → Prop :=
  | decodes_Return last err : decodes o last (Return err) [] err
  | decodes_Crash last c : decodes o last (Crash c) [] (Some (recovered c))
  | decodes_AddLayer last l k tr err : decodes o (Some l) k tr err → decodes o last (AddLayer l k) (Added l :: tr) err
  | decodes_SetLayer last s l k tr err : decodes o last k tr err → decodes o last (SetLayer s l k) (Marked s l :: tr) err
  | decodes_SetTruncated last k tr err : decodes o last k tr err → decodes o last (SetTruncatedThen k) (Truncated :: tr) err
  | decodes_GetDecodeOptions last k tr err : decodes o last (k o) tr err → decodes o last (GetDecodeOptions k) tr err
  | decodes_no_decoder last k : decodes o last (NextDecoder None k) [] (Some errNilDecoder)
  | decodes_no_data l d k : x_payload l = [] → decodes o (Some l) (NextDecoder (Some d) k) [] None
  | decodes_next l d k tr err : x_payload l ≠ [] → decodes o (Some l) (Decode d (x_payload l)) tr err →
      decodes o (Some l) (NextDecoder (Some d) k) tr err.

Definition added (tr : list action) : list X := omap (fun a => match a with Added l => Some l | _ => None end) tr.
Definition marked (s : slot) (tr : list action) : option X :=
  head (omap (fun a => match a with Marked s' l => if decide (s = s') then Some l else None | _ => None end) tr).
Definition truncates (tr : list action) : bool := existsb (fun a => match a with Truncated => true | _ => false end) tr.

(** The layer that a failure adds, with the data that were not decoded. *)
Definition failure_of (data : bytes) (tr : list action) (err : option error) : option (Layer X) :=
  e ← err; Some (DecodeFailure (match last (added tr) with Some l => x_payload l | None => data end) e).

(** The packet that comes of it: all layers that were added, then the failure; each
    distinguished layer is the first that was marked as such, the error layer else the
    failure. *)
Record made (data : bytes) (tr : list action) (err : option error) (p : packet X) : Prop := {
  made_layers : eager_Layers p = (Decoded <$> added tr) ++ option_list (failure_of data tr err);
  made_slots s : eager_slot s p = match marked s tr with
                                  | Some l => Some (Decoded l)
                                  | None => if decide (s = ErrorSlot) then failure_of data tr err else None
                                  end;
  made_truncated : p_truncated p = truncates tr;
}.

(** A packet on the way. *)
Record making (data : bytes) (o : DecodeOptions) (tr : list action) (p : packet X) : Prop := {
  mk_data : p_data p = data;
  mk_options : p_options p = o;
  mk_layers : p_layers p = Decoded <$> added tr;
  mk_last : p_last p = Decoded <$> last (added tr);
  mk_slots s : p_slots p s = Decoded <$> marked s tr;
  mk_truncated : p_truncated p = truncates tr;
}.

Lemma added_snoc tr a : added (tr ++ [a]) = added tr ++ match a with Added l => [l] | _ => [] end.
Proof. unfold added. rewrite omap_app. by destruct a. Qed.
Lemma marked_snoc s tr a : marked s (tr ++ [a]) =
  match marked s tr with Some l => Some l | None => match a with Marked s' l => if decide (s = s') then Some l else None | _ => None end end.
Proof. unfold marked. rewrite omap_app. destruct (omap _ tr); [|done]. cbn. destruct a as [l|s' l|]; try done. by destruct (decide (s = s')). Qed.
Lemma truncates_snoc tr a : truncates (tr ++ [a]) = truncates tr || match a with Truncated => true | _ => false end.
Proof. unfold truncates. rewrite existsb_app. cbn. by rewrite orb_false_r. Qed.

Lemma making_new data o : making data o [] (new_packet data o).
Proof. by split. Qed.

Lemma making_add data o tr p l : making data o tr p → making data o (tr ++ [Added l]) (add_layer (Decoded l) p).
Proof.
  intros []. split; cbn; try done.
  - by rewrite added_snoc, fmap_app, mk_layers0.
  - by rewrite added_snoc, last_snoc.
  - intros s. by rewrite marked_snoc, mk_slots0; destruct (marked s tr).
  - by rewrite truncates_snoc, orb_false_r.
Qed.

Lemma making_set data o tr p s l : making data o tr p → making data o (tr ++ [Marked s l]) (set_slot s (Decoded l) p).
Proof.
  intros []. unfold set_slot. pose proof (mk_slots0 s) as Hs. destruct (p_slots p s) as [l'|]; cbn.
  all: split; cbn; rewrite ?added_snoc, ?app_nil_r, ?truncates_snoc, ?orb_false_r; try done; intros s'; rewrite marked_snoc.
  - rewrite mk_slots0. destruct (marked s' tr) eqn:E; [done|]. destruct (decide (s' = s)) as [->|]; [|done]. by rewrite E in Hs.
  - destruct (decide (s' = s)) as [->|]; [by destruct (marked s tr)|]. rewrite mk_slots0. by destruct (marked s' tr).
Qed.

Lemma making_truncated data o tr p : making data o tr p → making data o (tr ++ [Truncated]) (set_truncated p).
Proof.
  intros []. split; cbn; rewrite ?added_snoc, ?app_nil_r, ?truncates_snoc, ?orb_true_r; try done.
  intros s. rewrite marked_snoc, mk_slots0. by destruct (marked s tr).
Qed.

(** The run of a builder makes the packet that its decoding says. *)
Lemma eager_run_makes data o : decoders_abide → ∀ n a b, abides a b → ∀ p tr0, making data o tr0 p →
  (a = true → last (added tr0) ≠ None) → (eager_run Decode n b p).1 ≠ NoFuel →
  ∃ tr err, decodes o (last (added tr0)) b tr err ∧ making data o (tr0 ++ tr) (eager_run Decode n b p).2 ∧
    match (eager_run Decode n b p).1 with Ok e => err = e | Panic c => err = Some (recovered c) | _ => False end.
Proof.
  intros Hab n. induction n as [|n IHn]; induction 1 as [a err|a c|a l k _ IH|a s l k _ IH|a k _ IH|a k _ IH _|next k Hk];
    intros p tr0 Hp Ha; rewrite (eager_run_unfold _ (_ : builder X D)).
  1,8: intros _; exists [], err; rewrite app_nil_r; by split; [constructor|].
  1,7: intros _; exists [], (Some (recovered c)); rewrite app_nil_r; by split; [constructor|].
  1,6: rewrite bind_eq; intros Hr; destruct (IH _ _ (making_add _ _ _ _ l Hp)) as (tr & err & Hd & Hm & He);
    [by rewrite added_snoc, last_snoc|exact Hr|]; exists (Added l :: tr), err; rewrite added_snoc, last_snoc in Hd; rewrite <-app_assoc in Hm;
    split; [by constructor|done].
  1,5: rewrite bind_eq; intros Hr; destruct (IH _ _ (making_set _ _ _ _ s l Hp)) as (tr & err & Hd & Hm & He);
    [by rewrite added_snoc, app_nil_r|exact Hr|]; exists (Marked s l :: tr), err; rewrite added_snoc, app_nil_r in Hd; rewrite <-app_assoc in Hm;
    split; [by constructor|done].
  1,4: rewrite bind_eq; intros Hr; destruct (IH _ _ (making_truncated _ _ _ _ Hp)) as (tr & err & Hd & Hm & He);
    [by rewrite added_snoc, app_nil_r|exact Hr|]; exists (Truncated :: tr), err; rewrite added_snoc, app_nil_r in Hd; rewrite <-app_assoc in Hm;
    split; [by constructor|done].
  1,3: rewrite bind_eq; cbn [get]; intros Hr; destruct (IH (p_options p) p tr0 Hp Ha Hr) as (tr & err & Hd & Hm & He);
    exists tr, err; rewrite (mk_options _ _ _ _ Hp) in *; split; [by constructor|done].
  all: rewrite bind_eq; unfold eager_NextDecoder; destruct next as [d|];
    [|rewrite ret_eq, Hk, eager_run_unfold; intros _; exists [], (Some errNilDecoder); rewrite app_nil_r; by split; [constructor|]].
  all: rewrite bind_eq; cbn [get]; specialize (Ha eq_refl); rewrite (mk_last _ _ _ _ Hp); destruct (last (added tr0)) as [l|] eqn:El; [|done]; cbn [fmap option_fmap option_map layer_payload].
  all: destruct (Z.eqb_spec (len (x_payload l)) 0) as [H0|H0];
    [rewrite ret_eq, Hk, eager_run_unfold; intros _; exists [], None; rewrite app_nil_r; split; [constructor; by apply len_zero|done]|].
  { done. }
  intros Hr. assert ((eager_run Decode n (Decode d (x_payload l)) p).1 ≠ NoFuel) as Hr'.
  { intros E. apply Hr. destruct (eager_run Decode n _ p) as [[err|e|c|] p']; cbn in E; done. }
  destruct (IHn false _ (Hab d (x_payload l)) p tr0 Hp ltac:(done) Hr') as (tr & err & Hd & Hm & He).
  exists tr, err. rewrite El in Hd. split; [constructor; [by intros E; rewrite E in H0|done]|].
  destruct (eager_run Decode n _ p) as [[err'|e|c|] p']; cbn [fst snd] in *; try done. by rewrite Hk, eager_run_unfold.
Qed.

Lemma making_made data o tr p err : making data o tr p →
  made data tr err (match err with Some e => addFinalDecodeError e p | None => p end).
Proof.
  intros []. destruct err as [e|]; split; unfold eager_Layers, eager_slot, failure_of; cbn [mbind option_bind].
  - unfold addFinalDecodeError. cbv zeta. rewrite slot_layers. cbn [add_layer p_layers]. rewrite mk_layers0. do 2 f_equal. cbn.
    unfold remaining. rewrite mk_last0, mk_data0. by destruct (last (added tr)).
  - intros s. unfold addFinalDecodeError, set_slot. cbv zeta. cbn [add_layer p_slots]. rewrite mk_slots0.
    assert (remaining p = match last (added tr) with Some l => x_payload l | None => data end) as ->
      by (unfold remaining; rewrite mk_last0, mk_data0; by destruct (last (added tr))).
    destruct (marked ErrorSlot tr) eqn:Em; cbn; rewrite ?mk_slots0; destruct (decide (s = ErrorSlot)) as [->|]; rewrite ?Em; try done;
      by destruct (marked s tr).
  - unfold addFinalDecodeError, set_slot. cbv zeta. by destruct (p_slots _ _).
  - cbn. by rewrite app_nil_r.
  - intros s. rewrite mk_slots0. destruct (marked s tr); [done|]. by destruct (decide _).
  - done.
Qed.

(** Making an eager packet is one run, with what its end adds. *)
Lemma NewPacket_run : decoders_abide → decoders_consume → ∀ data d o, Lazy o = false → SkipDecodeRecovery o = false →
  ∃ r p1, eager_run Decode (length data) (Decode d data) (new_packet data o) = (r, p1) ∧
    NewPacket Decode (length data) data (Some d) o = Ok (EagerPacket (decode_end r p1)) ∧
    ((∃ err, r = Ok err) ∨ (∃ c, r = Panic c)).
Proof.
  intros Hab Hco data d o Hlz Hsk. unfold NewPacket. rewrite Hlz. set (p := new_packet data o).
  pose proof (eager_run_ends Hab (length data) d data p) as Hends.
  destruct (eager_run Decode (length data) (Decode d data) p) as [r p1] eqn:Hr. destruct Hends as [Ho Hc].
  pose proof (eager_run_enough Hab Hco (length data) d data p r p1 (le_n _) Hr) as Hnf.
  assert ((∃ err, r = Ok err) ∨ (∃ c, r = Panic c)) as Hc' by naive_solver.
  exists r, p1. by rewrite (initialDecode_end (length data) d p Hsk r p1 Hr Hc' Ho).
Qed.

Lemma eager_run_grows n : ∀ b p, grows p (eager_run Decode n b p).2.
Proof.
  induction n as [|n IHn]; intros b; induction b as [err|c|l k IH|sl l k IH|k IH|k IH|next k IH]; intros p;
    rewrite (eager_run_unfold _ (_ : builder X D)); try reflexivity; rewrite bind_eq.
  1,6: etrans; [apply (grows_add (Decoded l)) | apply IH].
  1,5: etrans; [apply (grows_set sl (Decoded l)) | apply IH].
  1,4: etrans; [|apply (IH (set_truncated p))]; split; [exists []; by rewrite app_nil_r | done].
  1,3: apply (IH (p_options p) p).
  all: unfold eager_NextDecoder; destruct next as [d|]; [|rewrite ret_eq; apply IH].
  all: rewrite bind_eq; cbn [get]; destruct (p_last p) as [last|]; [|rewrite ret_eq; apply IH].
  all: destruct (_ =? _); [rewrite ret_eq; apply IH|].
  { reflexivity. }
  pose proof (IHn (Decode d (layer_payload last)) p) as Hg.
  destruct (eager_run Decode n _ p) as [[err|e|c|] p']; cbn [fst snd] in *; try done. etrans; [exact Hg|apply IH].
Qed.

Lemma decode_end_grows r (p : packet X) : grows p (decode_end r p).
Proof. destruct r as [[e|]|e|c|]; cbn; try reflexivity; apply grows_failure. Qed.

(** The layer that the first decoder adds is the first layer of the packet. *)
Lemma NewPacket_first : decoders_abide → decoders_consume → ∀ data d o l k, Lazy o = false →
  SkipDecodeRecovery o = false → Decode d data = AddLayer l k →
  ∃ pe ls, NewPacket Decode (length data) data (Some d) o = Ok (EagerPacket pe) ∧ p_layers pe = Decoded l :: ls.
Proof.
  intros Hab Hco data d o l k Hlz Hsk Hd.
  destruct (NewPacket_run Hab Hco data d o Hlz Hsk) as (r & p1 & Hr & Hn & _).
  rewrite Hd, eager_run_unfold, bind_eq in Hr. cbn [modify] in Hr.
  pose proof (eager_run_grows (length data) k (add_layer (Decoded l) (new_packet data o))) as Hg. rewrite Hr in Hg.
  pose proof (transitivity Hg (decode_end_grows r p1)) as [[ls Hls] _]. by exists (decode_end r p1), ls.
Qed.
End packets.

(** C25 (termination): for decoders that keep the contract of the packet builder - a
    layer is added before the next decoder is called, and that call comes last - and
    hand on less data than they got, making a packet ends with as many nested calls
    as there are bytes, and it is the packet that the decoders' actions, one after the
    other, say: the layers that they added in order, each distinguished layer the first
    that was marked as it. When decoding fails - a decoder returns an error, panics, or
    asks for a decoder that there is none of - a layer with that failure and the
    data that were left is the last layer, and the error layer unless a decoder has
    marked another. *)
Theorem NewPacket_terminates {X D} `{LayerIface X} (Decode : D → bytes → builder X D) data d o :
  decoders_abide Decode → decoders_consume Decode → Lazy o = false → SkipDecodeRecovery o = false →
  ∃ pe tr err, NewPacket Decode (length data) data (Some d) o = Ok (EagerPacket pe) ∧
    decodes Decode o None (Decode d data) tr err ∧ made data tr err pe.
Proof.
  intros Hab Hco Hlz Hsk. destruct (NewPacket_run Decode Hab Hco data d o Hlz Hsk) as (r & p1 & Hr & -> & Hc).
  destruct (eager_run_makes Decode data o Hab (length data) false _ (Hab d data) _ [] (making_new data o) ltac:(done)) as (tr & err & Hd & Hm & He).
  { rewrite Hr. by destruct Hc as [[? ->]|[? ->]]. }
  rewrite Hr in Hm, He. cbn [fst snd app] in Hm, He. exists (decode_end r p1), tr, err. split; [done|]. split; [exact Hd|].
  pose proof (making_made data o tr p1 err Hm) as Hp. destruct Hc as [[[e|] ->]|[c ->]]; by subst err.
Qed.

(** C24 (equivalence): for decoders that keep the contract, and data that is not
    empty, a lazy packet answers every sequence of questions - for any of the
    distinguished layers, for all layers, for the first layer of a type or of
    a class - as the eager packet of the same data does. *)
Theorem lazy_agrees_with_eager {X D} `{LayerIface X} (Decode : D → bytes → builder X D) n data d o pe qs :
  decoders_abide Decode → data ≠ [] → Lazy o = false → SkipDecodeRecovery o = false →
  NewPacket Decode n data (Some d) o = Ok (EagerPacket pe) →
  ∃ pl s', NewPacket Decode n data (Some d) (lazily o) = Ok (LazyPacket pl) ∧
    lazy_answers Decode (n + 2) qs pl = (Ok (map (eager_answer pe) qs), s').
Proof.
  intros Hab Hne Hlz Hsk Hnew.
  destruct (eager_lazy_chain Decode n data d o pe Hab Hne Hlz Hsk Hnew) as (m & pl & Hm & Hpl & Hch).
  destruct (lazy_answers_chain Decode (n + 2) qs m pl _ Hch Hm) as (s' & Hs'). exists pl, s'. split; [done|].
  rewrite Hs'. by do 2 f_equal.
Qed.

(** ** A protocol of one-byte headers *)

#[local] Instance sample_layers : LayerIface (Z * bytes) := { x_type := fst; x_payload := snd }.

Definition sample_Decode (d : unit) (data : bytes) : builder (Z * bytes) unit :=
  match data with
  | [] => Return (Some (errors_New "no header"))
  | b :: rest =>
      if b =? 255 then Crash IndexOutOfRange
      else if b =? 254 then AddLayer (b, rest) (NextDecoder None Return)
      else AddLayer (b, rest) (SetLayer LinkSlot (b, rest)
             (GetDecodeOptions (fun o => if DecodeStreamsAsDatagrams o then Return None
                                         else NextDecoder (Some d) Return)))
  end.

Lemma sample_abides : decoders_abide sample_Decode.
Proof.
  intros d [|b rest]; cbn; [constructor|]. destruct (b =? 255); [constructor|]. destruct (b =? 254); repeat constructor.
  - intros o. destruct (DecodeStreamsAsDatagrams o); by constructor.
  - by intros o o' ->.
Qed.

Lemma sample_consumes : decoders_consume sample_Decode.
Proof.
  intros d [|b rest]; cbn [sample_Decode]; [constructor|].
  assert (len (x_payload (b, rest)) < len (b :: rest)) as Hlt by (cbn; lens).
  destruct (b =? 255); [constructor|]. destruct (b =? 254); repeat constructor; [done|].
  intros o. destruct (DecodeStreamsAsDatagrams o); by constructor.
Qed.

Definition sample_eager : packet (Z * bytes) :=
  match NewPacket sample_Decode 4 [6; 17; 254; 2] (Some tt) Default with
  | Ok (EagerPacket pe) => pe
  | _ => new_packet [] Default
  end.

Lemma NewPacket_terminates_witness :
  ∃ pe tr err, NewPacket sample_Decode 4 [6; 17; 255; 2] (Some tt) Default = Ok (EagerPacket pe) ∧
    decodes sample_Decode Default None (sample_Decode tt [6; 17; 255; 2]) tr err ∧ made [6; 17; 255; 2] tr err pe ∧
    eager_Layers pe = [Decoded (6, [17; 255; 2]); Decoded (17, [255; 2]); DecodeFailure [255; 2] (recovered IndexOutOfRange)].
Proof.
  destruct (NewPacket_terminates sample_Decode [6; 17; 255; 2] tt Default sample_abides sample_consumes) as (pe & tr & err & Hn & Hd & Hm); [reflexivity..|].
  exists pe, tr, err. split; [exact Hn|]. split; [exact Hd|]. split; [exact Hm|]. clear Hm Hd. vm_compute in Hn. by injection Hn as <-.
Defined.

Definition sample_questions : list query :=
  [QLayer (Z.eqb 17); QSlot LinkSlot; QSlot ErrorSlot; QLayers].

Lemma lazy_agrees_with_eager_witness :
  map (eager_answer sample_eager) sample_questions =
    [One (Some (Decoded (17, [254; 2]))); One (Some (Decoded (6, [17; 254; 2])));
     One (Some (DecodeFailure [2] errNilDecoder));
     All [Decoded (6, [17; 254; 2]); Decoded (17, [254; 2]); Decoded (254, [2]); DecodeFailure [2] errNilDecoder]] ∧
  ∃ pl s', NewPacket sample_Decode 4 [6; 17; 254; 2] (Some tt) (lazily Default) = Ok (LazyPacket pl) ∧
    lazy_answers sample_Decode (4 + 2) sample_questions pl = (Ok (map (eager_answer sample_eager) sample_questions), s').
Proof.
  split; [vm_compute; reflexivity|].
  apply (lazy_agrees_with_eager sample_Decode 4 [6; 17; 254; 2] tt Default sample_eager
    sample_questions sample_abides); [done | reflexivity..].
Defined.

(** ** Where the two differ *)

(** On empty data the eager packet fails and the lazy one has no layers. *)
Lemma empty_data_differs :
  (∃ pe, NewPacket sample_Decode 1 [] (Some tt) Default = Ok (EagerPacket pe) ∧ eager_Layers pe ≠ []) ∧
  (∃ pl s', NewPacket sample_Decode 1 [] (Some tt) LazyOptions = Ok (LazyPacket pl) ∧
     lazy_Layers sample_Decode 3 pl = (Ok [], s')).
Proof. split; repeat eexists; vm_compute; (reflexivity || discriminate). Qed.
