(* ===== verification/Stack.v ===== *)
(** * A packet through the whole stack

    Ethernet, IPv4, TCP and a payload, serialized by [SerializeLayers] into a
    buffer and decoded again by a [DecodingLayerParser]: the components of the
    other files put together. The parser's layers share a store with one object
    of each kind, as in the usage example of [parser.go]. *)

From S2P Require Import Prelude SerializeBuffer LayerClasses Flows BaseLayers Parser Enums Checksum.
From S2P Require Import Tcp Ip4 Ethernet.

Inductive stack_layer : Type := LEthernet | LIPv4 | LTCP | LPayload.

Record store : Type := mkStore {
  st_eth : Ethernet.Ethernet;
  st_ip4 : Ip4.IPv4;
  st_tcp : Tcp.TCP;
  st_payload : bytes;
}.

Definition set_eth (v : Ethernet.Ethernet) (s : store) : store := mkStore v (st_ip4 s) (st_tcp s) (st_payload s).
Definition set_ip4 (v : Ip4.IPv4) (s : store) : store := mkStore (st_eth s) v (st_tcp s) (st_payload s).
Definition set_tcp (v : Tcp.TCP) (s : store) : store := mkStore (st_eth s) (st_ip4 s) v (st_payload s).
Definition set_payload (v : bytes) (s : store) : store := mkStore (st_eth s) (st_ip4 s) (st_tcp s) v.

(** Decode into one object of the store, with the parser's truncated flag. *)
Definition decode_into {L} (view : store → L) (upd : L → store → store) (m : M (dstate L) unit)
    : M (store * bool) unit :=
  zoom (fun s => DState (view s.1) s.2) (fun d s => (upd (dlayer d) s.1, dtruncated d)) m.

Section stack.
Context (md : metadata) (ports : port_table).

#[export] Instance stack_layers : DecodingLayers stack_layer store := {
  CanDecode d :=
    match d with
    | LEthernet => Ethernet.CanDecode
    | LIPv4 => Ip4.CanDecode
    | LTCP => Tcp.CanDecode
    | LPayload => PayloadLayer.CanDecode
    end;
  DecodeFromBytes d data :=
    match d with
    | LEthernet => decode_into st_eth set_eth (Ethernet.DecodeFromBytes data)
    | LIPv4 => decode_into st_ip4 set_ip4 (Ip4.DecodeFromBytes data)
    | LTCP => decode_into st_tcp set_tcp (Tcp.DecodeFromBytes data)
    | LPayload => decode_into st_payload set_payload (PayloadLayer.DecodeFromBytes data)
    end;
  NextLayerType d s :=
    match d with
    | LEthernet => Ethernet.NextLayerType md (st_eth s)
    | LIPv4 => Ip4.NextLayerType md (st_ip4 s)
    | LTCP => Tcp.NextLayerType ports (st_tcp s)
    | LPayload => PayloadLayer.NextLayerType (st_payload s)
    end;
  LayerPayload d s :=
    match d with
    | LEthernet => Payload (Ethernet.base (st_eth s))
    | LIPv4 => Payload (Ip4.base (st_ip4 s))
    | LTCP => Payload (Tcp.base (st_tcp s))
    | LPayload => PayloadLayer.LayerPayload (st_payload s)
    end;
}.
End stack.

Definition IPv4_object {W} `{SerializeBuffer W} (i : Ip4.IPv4) : layer_object W :=
  LayerObject Ip4.IPv4 i LayerTypeIPv4 Ip4.SerializeTo.

Definition all_decoders : list stack_layer := [LEthernet; LIPv4; LTCP; LPayload].

(** ** Serializing a layer of the stack *)

Section serialize.
Context {W : Type} `{SerializeBufferLaws W}.

Lemma serialize_step opts (l : layer_object W) rest w v w1 w2 r :
  lo_SerializeTo l opts (lo_value l, w) = (Ok tt, (v, w1)) →
  PushLayer (lo_LayerType l) w1 = (Ok tt, w2) →
  SerializeLayers_loop opts rest w2 = r →
  SerializeLayers_loop opts (l :: rest) w = r.
Proof.
  intros Hs Hp Hr. cbn [SerializeLayers_loop]. unfold mbind, M_bind, serialize_one. rewrite Hs.
  cbn [lo_LayerType]. by rewrite Hp.
Qed.
End serialize.

(** ** One step of the parser *)

Section parse.
Context {C : Type} `{ContainerLaws stack_layer C}.
Context (md : metadata) (ports : port_table).
#[local] Existing Instance stack_layers.

Lemma parse_step fuel dlc typ d data s s1 tr dec r :
  Parser.DecodeFromBytes (DecodingLayers := stack_layers md ports) d data (s, tr) = (Ok tt, (s1, tr)) →
  (let next := Parser.NextLayerType (DecodingLayers := stack_layers md ports) d s1 in
   let payload := Parser.LayerPayload (DecodingLayers := stack_layers md ports) d s1 in
   if len payload =? 0 then r = (Ok LayerTypeZero, PState s1 tr (dec ++ [typ]))
   else ∃ d', 0 <= next ∧ lookup_of dlc next = Some d' ∧
     LayersDecoder_loop (H := stack_layers md ports) fuel dlc next d' payload (PState s1 tr (dec ++ [typ])) = r) →
  LayersDecoder_loop (H := stack_layers md ports) (S fuel) dlc typ d data (PState s tr dec) = r.
Proof.
  intros Hd Hr. cbn [LayersDecoder_loop]. unfold mbind, M_bind, run_decoder, zoom. cbn [ps_layers ps_truncated].
  rewrite Hd. unfold modify, get. cbn [ps_layers ps_truncated ps_decoded]. cbv zeta in Hr.
  destruct (_ =? 0); [by rewrite Hr|]. destruct Hr as (d' & Hn & Hl & Hr). unfold lift.
  by rewrite (Decoder_spec dlc _ Hn), Hl.
Qed.
End parse.

Lemma stack_lookups {C} `{ContainerLaws stack_layer C} md ports (c dlc : C) :
  Put_all (H := stack_layers md ports) all_decoders c = Ok dlc →
  lookup_of dlc LayerTypeEthernet = Some LEthernet ∧ lookup_of dlc LayerTypeIPv4 = Some LIPv4 ∧
  lookup_of dlc LayerTypeTCP = Some LTCP ∧ lookup_of dlc LayerTypePayload = Some LPayload.
Proof.
  intros Hp. destruct (Put_all_lookup (H := stack_layers md ports) all_decoders c) as (c' & Hp' & Hl).
  { repeat constructor; vm_compute; discriminate. }
  rewrite Hp in Hp'. injection Hp' as <-.
  repeat split; rewrite Hl by (vm_compute; discriminate); reflexivity.
Qed.

(** ** The packet *)

(** A TCP segment in an IPv4 packet in an Ethernet frame, with fields in range,
    well-formed options, no fragment, and ports that no decoder is registered for. *)
Record stack_ok (opts : SerializeOptions) (ports : port_table) (e : Ethernet.Ethernet) (i : Ip4.IPv4)
    (t : Tcp.TCP) (p src dst : bytes) : Prop := {
  so_fix : FixLengths opts = true;
  so_macs : len (Ethernet.DstMAC e) = 6 ∧ len (Ethernet.SrcMAC e) = 6;
  so_type : Ethernet.EthernetType e = 0x0800 ∧ Ethernet.Length e = 0;
  so_ip : ∀ n, 0 <= n <= 64 + len p → let total := 20 + len (Ip4.encode_options (Ip4.Options i)) + n in
    Ip4.serializable opts i src dst total ∧ total < 65536;
  so_ip_options : Forall (fun o => Ip4.is_end o = false) (Ip4.Options i);
  so_ip_checksum : is_u16 (Ip4.Checksum i);
  so_whole : Ip4.Protocol i = IPProtocolTCP ∧
    has_bits (Ip4.Flags i) Ip4.IPv4MoreFragments = false ∧ Ip4.FragOffset i = 0;
  so_tcp : Tcp.fields_ok t ∧ Tcp.Padding t = [];
  so_tcp_options : Forall Tcp.option_ok (Tcp.Options t) ∧
    Forall (fun o => Tcp.is_end o = false) (Tcp.Options t) ∧ Tcp.options_length (Tcp.Options t) <= 40;
  so_tcp_checksum : ComputeChecksums opts = true → Tcp.checksum_ready opts t p;
  so_ports : port_LayerType ports (Tcp.DstPort t) = LayerTypePayload ∧
    port_LayerType ports (Tcp.SrcPort t) = LayerTypePayload;
  so_payload : p ≠ [];
}.

Definition stack_objects {W} `{SerializeBuffer W} (e : Ethernet.Ethernet) (i : Ip4.IPv4) (t : Tcp.TCP) (p : bytes)
    : list (layer_object W) :=
  [Ethernet_object e; IPv4_object i; TCP_object t; Payload_object p].

Definition stack_types : list LayerType := [LayerTypeEthernet; LayerTypeIPv4; LayerTypeTCP; LayerTypePayload].

(** The fields of two segments but their options, checksum and offset. *)
Record tcp_agree (t' t : Tcp.TCP) : Prop := {
  ta_ports : Tcp.SrcPort t' = Tcp.SrcPort t ∧ Tcp.DstPort t' = Tcp.DstPort t;
  ta_seq : Tcp.Seq t' = Tcp.Seq t ∧ Tcp.Ack t' = Tcp.Ack t;
  ta_flags : Tcp.FIN t' = Tcp.FIN t ∧ Tcp.SYN t' = Tcp.SYN t ∧ Tcp.RST t' = Tcp.RST t ∧ Tcp.PSH t' = Tcp.PSH t ∧
    Tcp.ACK t' = Tcp.ACK t ∧ Tcp.URG t' = Tcp.URG t ∧ Tcp.ECE t' = Tcp.ECE t ∧ Tcp.CWR t' = Tcp.CWR t ∧ Tcp.NS t' = Tcp.NS t;
  ta_window : Tcp.Window t' = Tcp.Window t ∧ Tcp.Urgent t' = Tcp.Urgent t;
}.

(** What the objects of the parser hold afterwards, relative to the layers that
    were serialized: every field that a caller sets, the checksums apart. When the
    TCP options do not fill a multiple of four bytes, the first byte of padding is
    read as an end-of-list option. *)
Record stack_read (e : Ethernet.Ethernet) (i : Ip4.IPv4) (t : Tcp.TCP) (p src dst : bytes) (k : Z) (s : store) : Prop := {
  sr_eth : Ethernet.DstMAC (st_eth s) = Ethernet.DstMAC e ∧ Ethernet.SrcMAC (st_eth s) = Ethernet.SrcMAC e ∧
    Ethernet.EthernetType (st_eth s) = Ethernet.EthernetType e ∧ Ethernet.Length (st_eth s) = Ethernet.Length e;
  sr_ip : Ip4.SrcIP (st_ip4 s) = src ∧ Ip4.DstIP (st_ip4 s) = dst ∧ Ip4.Id (st_ip4 s) = Ip4.Id i ∧
    Ip4.TTL (st_ip4 s) = Ip4.TTL i ∧ Ip4.TOS (st_ip4 s) = Ip4.TOS i ∧ Ip4.Flags (st_ip4 s) = Ip4.Flags i ∧
    Ip4.FragOffset (st_ip4 s) = Ip4.FragOffset i ∧ Ip4.Protocol (st_ip4 s) = Ip4.Protocol i ∧
    Ip4.Options (st_ip4 s) = Ip4.Options i ∧ Ip4.Version (st_ip4 s) = Ip4.Version i ∧ Ip4.Padding (st_ip4 s) = [];
  sr_length : Ip4.Length (st_ip4 s) = 40 + len (Ip4.encode_options (Ip4.Options i)) + Tcp.options_length (Tcp.Options t) + k + len p;
  sr_tcp : tcp_agree (st_tcp s) t;
  sr_padding : 0 <= k < 4 ∧ (k = 0 ↔ Tcp.options_length (Tcp.Options t) mod 4 = 0);
  sr_options : Tcp.Options (st_tcp s) = Tcp.Options t ++ Tcp.implicit_end (replicate (Z.to_nat k) 0);
  sr_payload : st_payload s = p ∧ Payload (Tcp.base (st_tcp s)) = p;
}.

Lemma tcp_agree_trans t1 t2 t3 : tcp_agree t1 t2 → tcp_agree t2 t3 → tcp_agree t1 t3.
Proof. intros [] []. constructor; intuition congruence. Qed.

Lemma tcp_fields t t' : Tcp.set_Checksum 0 (Tcp.set_DataOffset 0 t') = Tcp.set_Checksum 0 (Tcp.set_DataOffset 0 (Tcp.fix_lengths t)) →
  tcp_agree t' t.
Proof.
  destruct t, t'. unfold Tcp.fix_lengths, Tcp.set_Checksum, Tcp.set_DataOffset. cbn.
  destruct (_ =? 0); cbn; intros [=]; subst; by constructor.
Qed.

(** The packet layer with the padding of a frame behind it. *)
Lemma ip_serialize_decode {W} `{SerializeBufferLaws W} opts i src dst (w : W) old :
  let total := 20 + len (Ip4.encode_options (Ip4.Options i)) + len (Bytes w) in
  FixLengths opts = true → buf_ok w → Ip4.serializable opts i src dst total → total < 65536 →
  Forall (fun o => Ip4.is_end o = false) (Ip4.Options i) → is_u16 (Ip4.Checksum i) →
  ∃ i' w', Ip4.SerializeTo opts (i, w) = (Ok tt, (i', w')) ∧ buf_ok w' ∧ Layers w' = Layers w ∧
    0 < len (Bytes w') ∧
    Ip4.DecodeFromBytes (Bytes w' ++ frame_padding (len (Bytes w'))) (DState old false) = (Ok tt,
      DState (Ip4.read_back (Ip4.prepared opts src dst total i) (Ip4.Checksum i') (Bytes w)) false).
Proof.
  intros total Hfix Hw Hser Htot Hend Hcs.
  destruct (IPv4_serialize_decode opts i src dst w [] old false Hfix Hw Hser Htot Hend Hcs) as
    (i' & w' & Hs & Hw' & HL & Hd & _).
  destruct (IPv4_serialize_decode opts i src dst w (frame_padding (len (Bytes w'))) old false Hfix Hw Hser Htot Hend Hcs)
    as (i2 & w2 & Hs2 & _ & _ & Hd2 & _). rewrite Hs in Hs2. injection Hs2 as <- <-.
  exists i', w'. do 3 (split; [done|]). split; [|done].
  apply len_pos. intros Hnil. rewrite Hnil in Hd. discriminate Hd.
Qed.

Lemma typed_read_back e payload : Ethernet.EthernetType e = 0x0800 →
  Ethernet.EthernetType (Ethernet.read_back e payload) = 0x0800 ∧
  Payload (Ethernet.base (Ethernet.read_back e payload)) = payload ++ frame_padding (len payload) ∧
  Ethernet.DstMAC (Ethernet.read_back e payload) = Ethernet.DstMAC e ∧
  Ethernet.SrcMAC (Ethernet.read_back e payload) = Ethernet.SrcMAC e ∧
  Ethernet.Length (Ethernet.read_back e payload) = 0.
Proof. intros He. unfold Ethernet.read_back. by rewrite He. Qed.

Lemma ip_read_back opts i src dst payload csum total :
  let ip := Ip4.read_back (Ip4.prepared opts src dst total i) csum payload in
  Payload (Ip4.base ip) = payload ∧ Ip4.SrcIP ip = src ∧ Ip4.DstIP ip = dst ∧ Ip4.Id ip = Ip4.Id i ∧
  Ip4.TTL ip = Ip4.TTL i ∧ Ip4.TOS ip = Ip4.TOS i ∧ Ip4.Flags ip = Ip4.Flags i ∧
  Ip4.FragOffset ip = Ip4.FragOffset i ∧ Ip4.Protocol ip = Ip4.Protocol i ∧ Ip4.Options ip = Ip4.Options i ∧
  Ip4.Version ip = Ip4.Version i ∧ Ip4.Padding ip = [].
Proof. unfold Ip4.prepared. by destruct (FixLengths opts). Qed.

Lemma ip_read_length opts i src dst payload csum total : FixLengths opts = true → 0 <= total < 65536 →
  Ip4.Length (Ip4.read_back (Ip4.prepared opts src dst total i) csum payload) = total.
Proof. intros Hf Ht. unfold Ip4.prepared. rewrite Hf. cbn. by apply u16_small. Qed.

Lemma tcp_read_back t' os csum pad payload old :
  let tcp := Tcp.read_back t' os csum pad payload old in
  Payload (Tcp.base tcp) = payload ∧ Tcp.Options tcp = os ++ Tcp.implicit_end pad ∧ tcp_agree tcp t'.
Proof. done. Qed.

Lemma stack_next openbsd :
  enum_LayerType (initial_metadata openbsd) EthernetTypeEnum 0x0800 = LayerTypeIPv4 ∧
  enum_LayerType (initial_metadata openbsd) IPProtocolEnum IPProtocolTCP = LayerTypeTCP.
Proof. destruct openbsd; split; vm_compute; reflexivity. Qed.

Lemma decode_into_ok {L} (view : store → L) upd m s tr l :
  m (DState (view s) tr) = (Ok tt, DState l tr) → decode_into view upd m (s, tr) = (Ok tt, (upd l s, tr)).
Proof. intros Hm. unfold decode_into, zoom. cbn [fst snd]. by rewrite Hm. Qed.

(** The decoding of the four layers one after the other. *)
Record layer_steps (md : metadata) (ports : port_table) (data p : bytes) (s s' : store) : Prop := {
  ls_eth : Ethernet.DecodeFromBytes data (DState (st_eth s) false) = (Ok tt, DState (st_eth s') false);
  ls_ip : Ip4.DecodeFromBytes (Payload (Ethernet.base (st_eth s'))) (DState (st_ip4 s) false) =
            (Ok tt, DState (st_ip4 s') false);
  ls_tcp : Tcp.DecodeFromBytes (Payload (Ip4.base (st_ip4 s'))) (DState (st_tcp s) false) =
            (Ok tt, DState (st_tcp s') false);
  ls_payload : Payload (Tcp.base (st_tcp s')) = p ∧ st_payload s' = p;
  ls_next : Ethernet.NextLayerType md (st_eth s') = LayerTypeIPv4 ∧
    Ip4.NextLayerType md (st_ip4 s') = LayerTypeTCP ∧ Tcp.NextLayerType ports (st_tcp s') = LayerTypePayload;
  ls_nonempty : len (Payload (Ethernet.base (st_eth s'))) ≠ 0 ∧ len (Payload (Ip4.base (st_ip4 s'))) ≠ 0 ∧ len p ≠ 0;
}.

(** The parser takes exactly these steps. *)
Lemma stack_parsed {C} `{ContainerLaws stack_layer C} md ports popts fuel (c dlc : C) data p s s' tr dec :
  Put_all (H := stack_layers md ports) all_decoders c = Ok dlc → layer_steps md ports data p s s' →
  DecodeLayers (H := stack_layers md ports) (4 + fuel) popts dlc LayerTypeEthernet data (PState s tr dec) =
    (Ok None, PState s' false stack_types).
Proof.
  intros Hdlc [He Hi Ht [Hp Hp'] (Hn1 & Hn2 & Hn3) (Hl1 & Hl2 & Hl3)].
  destruct (stack_lookups md ports c dlc Hdlc) as (Leth & Lip & Ltcp & Lpay).
  apply Z.eqb_neq in Hl1, Hl2, Hl3. destruct s' as [eth ip tcp p']. cbn [st_eth st_ip4 st_tcp st_payload] in *. subst p'.
  assert (LayersDecoder_loop (H := stack_layers md ports) (4 + fuel) dlc LayerTypeEthernet LEthernet data (PState s false []) =
            (Ok LayerTypeZero, PState (mkStore eth ip tcp p) false stack_types)) as Hloop.
  { apply (parse_step md ports (3 + fuel)) with (s1 := set_eth eth s); [exact (decode_into_ok st_eth set_eth _ _ _ _ He)|].
    cbn [Parser.NextLayerType Parser.LayerPayload stack_layers set_eth st_eth]. rewrite Hl1, Hn1. exists LIPv4. split; [by vm_compute|]. split; [done|].
    apply (parse_step md ports (2 + fuel)) with (s1 := set_ip4 ip (set_eth eth s)); [exact (decode_into_ok st_ip4 set_ip4 _ (set_eth eth s) _ _ Hi)|].
    cbn [Parser.NextLayerType Parser.LayerPayload stack_layers set_ip4 st_ip4]. rewrite Hl2, Hn2. exists LTCP. split; [by vm_compute|]. split; [done|].
    apply (parse_step md ports (1 + fuel)) with (s1 := set_tcp tcp (set_ip4 ip (set_eth eth s))); [exact (decode_into_ok st_tcp set_tcp _ (set_ip4 ip (set_eth eth s)) _ _ Ht)|].
    cbn [Parser.NextLayerType Parser.LayerPayload stack_layers set_tcp st_tcp]. rewrite Hp, Hl3, Hn3. exists LPayload. split; [by vm_compute|]. split; [done|].
    by apply (parse_step md ports fuel) with (s1 := mkStore eth ip tcp p). }
  unfold DecodeLayers, LayersDecoder, mbind, M_bind, lift. rewrite Decoder_spec, Leth by (vm_compute; discriminate).
  unfold modify. cbn [ps_layers ps_truncated ps_decoded]. by rewrite Hloop.
Qed.

(** [SerializeLayers] on the stack writes what these steps decode. *)
Lemma stack_written {W} `{SerializeBufferLaws W} opts openbsd ports e i t p src dst (w : W) s :
  let md := initial_metadata openbsd in
  stack_ok opts ports e i t p src dst → buf_ok w →
  ∃ w' s' k, SerializeLayers opts (stack_objects e i t p) w = (Ok tt, w') ∧ Layers w' = rev stack_types ∧
    layer_steps md ports (Bytes w') p s s' ∧ stack_read e i t p src dst k s'.
Proof.
  intros md [Hfix [Hdm Hsm] [Het Hel] Hip Hipo Hipc (Hpr & Hmf & Hfo) [Htf Htp] (Hto & Hte & Htl) Htc [Hpd Hps] Hp] Hw.
  destruct (Clear_spec w Hw) as (w0 & Hclear & Hw0 & HB0 & HL0).
  destruct (Payload_encodes opts p [] w0 Hw0 HB0) as (pv & w1 & Hs1 & Hw1 & HB1 & HL1). rewrite app_nil_r in HB1.
  destruct (PushLayer_spec w1 LayerTypePayload Hw1) as (w2 & Hp2 & Hw2 & HB2 & HL2).
  assert (Bytes w2 = p) as HBp by congruence.
  destruct (TCP_serialize_decode opts t w2 (st_tcp s) false Hfix Hw2 Htf Htp Hto Hte Htl) as
    (t' & w3 & k & Hs3 & Hw3 & HL3 & Hlen3 & Hk & Hk0 & Hd3 & Heq); [by rewrite HBp|]. rewrite HBp in Hd3, Hlen3.
  destruct (PushLayer_spec w3 LayerTypeTCP Hw3) as (w4 & Hp4 & Hw4 & HB4 & HL4).
  pose proof (tcp_fields t t' Heq) as Hf.
  assert (0 <= Tcp.options_length (Tcp.Options t)) as Hol by (rewrite <-Tcp.encode_options_len; apply len_nonneg).
  pose proof (len_nonneg p) as Hpn.
  destruct (Hip (len (Bytes w4))) as [Hser Htot]; [rewrite HB4, Hlen3; lia|].
  destruct (ip_serialize_decode opts i src dst w4 (st_ip4 s) Hfix Hw4 Hser Htot Hipo Hipc) as
    (i' & w5 & Hs5 & Hw5 & HL5 & Hn5 & Hd5).
  destruct (PushLayer_spec w5 LayerTypeIPv4 Hw5) as (w6 & Hp6 & Hw6 & HB6 & HL6).
  destruct (Ethernet_serialize_decode opts e w6 (st_eth s) false Hfix Hw6 Hdm Hsm) as (e' & w7 & Hs7 & Hw7 & HL7 & _ & Hd7).
  { left. rewrite Het, Hel. unfold is_u16. lia. }
  destruct (PushLayer_spec w7 LayerTypeEthernet Hw7) as (w8 & Hp8 & Hw8 & HB8 & HL8).
  rewrite HB6 in Hd7. pose proof (typed_read_back e (Bytes w5) Het) as (Heth1 & Heth2 & Heth3 & Heth4 & Heth5).
  pose proof (ip_read_back opts i src dst (Bytes w4) (Ip4.Checksum i') (20 + len (Ip4.encode_options (Ip4.Options i)) + len (Bytes w4))) as Hr.
  pose proof (ip_read_length opts i src dst (Bytes w4) (Ip4.Checksum i') (20 + len (Ip4.encode_options (Ip4.Options i)) + len (Bytes w4)) Hfix) as Hlen.
  set (total := 20 + len (Ip4.encode_options (Ip4.Options i)) + len (Bytes w4)) in *.
  set (eth := Ethernet.read_back e (Bytes w5)) in *. set (ip := Ip4.read_back _ (Ip4.Checksum i') _) in *.
  set (tcp := Tcp.read_back t' (Tcp.Options t) (Tcp.Checksum t') (replicate (Z.to_nat k) 0) p (st_tcp s)) in *.
  exists w8, (mkStore eth ip tcp p), k. destruct Hr as (Hr1 & Hr). destruct (stack_next openbsd) as [Hnx1 Hnx2].
  destruct (tcp_read_back t' (Tcp.Options t) (Tcp.Checksum t') (replicate (Z.to_nat k) 0) p (st_tcp s)) as (Ht1 & Ht2 & Ht).
  fold tcp in Ht1, Ht2, Ht. pose proof (tcp_agree_trans _ _ _ Ht Hf) as Ht'. split; [|split; [|split]].
  - unfold SerializeLayers, mbind, M_bind. rewrite Hclear.
    refine (serialize_step opts (Payload_object p) _ _ _ _ _ _ Hs1 Hp2 _). 
    refine (serialize_step opts (TCP_object t) _ _ _ _ _ _ Hs3 Hp4 _).
    refine (serialize_step opts (IPv4_object i) _ _ _ _ _ _ Hs5 Hp6 _). 
    by refine (serialize_step opts (Ethernet_object e) _ _ _ _ _ _ Hs7 Hp8 _).
  - by rewrite HL8, HL7, HL6, HL5, HL4, HL3, HL2, HL1, HL0.
  - constructor; cbn [st_eth st_ip4 st_tcp st_payload].
    + by rewrite HB8.
    + by rewrite Heth2.
    + by rewrite Hr1, HB4.
    + done.
    + unfold Ethernet.NextLayerType, Ip4.NextLayerType, Tcp.NextLayerType.
      destruct Hr as (_ & _ & _ & _ & _ & Hrf & Hro & Hrp & _). destruct Ht' as [[-> ->] _ _ _].
      by rewrite Heth1, Hrf, Hro, Hrp, Hmf, Hfo, Hpr, Hpd, Hps.
    + rewrite Heth2, Hr1, len_app, HB4, Hlen3. pose proof (len_nonneg (frame_padding (len (Bytes w5)))).
      split; [lia|]. split; [lia|]. intros Hz. by apply Hp, len_zero.
  - constructor; cbn [st_eth st_ip4 st_tcp st_payload]; try done.
    + by rewrite Het, Hel.
    + rewrite Hlen by (unfold total; split; [pose proof (len_nonneg (Ip4.encode_options (Ip4.Options i))); pose proof (len_nonneg (Bytes w4)); lia|done]).
      unfold total. rewrite HB4, Hlen3. lia.
Qed.

(** C20 (the stack, end to end): a TCP segment in an IPv4 packet in an Ethernet
    frame, serialized with [FixLengths] into any buffer of any implementation
    of the buffer's interface, is decoded by a parser with any of the containers
    through all four layers, without error and not truncated, whatever the
    objects held before, and the objects then hold every field that was
    serialized - the checksums are not compared -, the length of the packet, the
    options of both headers and the payload, the padding of the frame cut off.
    Behind TCP options that do not fill a multiple of four bytes there is an
    end-of-list option more. *)
Theorem stack_roundtrip {W C} `{SerializeBufferLaws W} `{ContainerLaws stack_layer C} opts openbsd ports popts fuel
    e i t p src dst (w : W) (c dlc : C) s tr dec :
  let md := initial_metadata openbsd in
  stack_ok opts ports e i t p src dst → buf_ok w →
  Put_all (H := stack_layers md ports) all_decoders c = Ok dlc →
  ∃ w' s' k, SerializeLayers opts (stack_objects e i t p) w = (Ok tt, w') ∧ Layers w' = rev stack_types ∧
    DecodeLayers (H := stack_layers md ports) (4 + fuel) popts dlc LayerTypeEthernet (Bytes w') (PState s tr dec) =
      (Ok None, PState s' false stack_types) ∧
    stack_read e i t p src dst k s'.
Proof.
  intros md Hok Hw Hdlc.
  destruct (stack_written opts openbsd ports e i t p src dst w s Hok Hw) as (w' & s' & k & Hs & HL & Hst & Hr).
  exists w', s', k. split; [done|]. split; [done|]. split; [|done]. by apply (stack_parsed md ports popts fuel c dlc _ p).
Qed.

(** ** A packet *)

Definition sample_opts : SerializeOptions := mkSerializeOptions true true.
Definition sample_eth : Ethernet.Ethernet :=
  Ethernet.mkEthernet (mkBase [] []) [2; 0; 0; 0; 0; 1] [2; 0; 0; 0; 0; 2] 0x0800 0.
Definition sample_ip : Ip4.IPv4 :=
  Ip4.mkIPv4 (mkBase [] []) 4 0 0 0 77 2 0 64 6 0 [10; 0; 0; 1] [10; 0; 0; 2] [] [].
Definition sample_text : bytes := [104; 105].

Definition empty_store : store := mkStore Ethernet.empty_Ethernet Ip4.empty_IPv4 Tcp.empty_TCP [].

Lemma sample_stack_ok : stack_ok sample_opts ∅ sample_eth sample_ip Tcp.sample sample_text [10; 0; 0; 1] [10; 0; 0; 2].
Proof.
  split; try done.
  - intros n Hn. change (64 + len sample_text) with 66 in Hn. cbv zeta.
    change (len (Ip4.encode_options (Ip4.Options sample_ip))) with 0. split; [|lia].
    constructor; [reflexivity | | constructor | reflexivity | vm_compute; discriminate].
    unfold Ip4.prepared. change (FixLengths sample_opts) with true. cbv iota.
    rewrite u16_small by (unfold is_u16; lia).
    constructor; try (vm_compute; repeat split; (discriminate || reflexivity)).
    + change (is_u16 (20 + 0 + n)). unfold is_u16. lia.
    + split; [done|]. solve_Forall.
    + split; [done|]. solve_Forall.
  - split; [|split; [|vm_compute; discriminate]]; repeat constructor; unfold is_byte; cbn; lia.
  - intros _. split; [eexists; split; [reflexivity | repeat split; solve_Forall]|].
    split; [repeat constructor; unfold is_byte; cbn; lia|]. split; [constructor|].
    split; [solve_Forall|]. vm_compute. discriminate.
Qed.

Definition sample_table : DecodingLayerMap stack_layer :=
  match Put_all (H := stack_layers (initial_metadata false) ∅) all_decoders (∅ : DecodingLayerMap stack_layer) with
  | Ok dlc => dlc
  | _ => ∅
  end.

Lemma stack_roundtrip_witness :
  ∃ w' s' k, SerializeLayers sample_opts (stack_objects sample_eth sample_ip Tcp.sample sample_text) NewSerializeBuffer = (Ok tt, w') ∧
    Layers w' = rev stack_types ∧
    DecodeLayers (H := stack_layers (initial_metadata false) ∅) (4 + 0) (mkParserOptions false false) sample_table
      LayerTypeEthernet (Bytes w') (PState empty_store true []) = (Ok None, PState s' false stack_types) ∧
    stack_read sample_eth sample_ip Tcp.sample sample_text [10; 0; 0; 1] [10; 0; 0; 2] k s'.
Proof.
  apply (stack_roundtrip sample_opts false ∅ (mkParserOptions false false) 0 sample_eth sample_ip Tcp.sample sample_text
    [10; 0; 0; 1] [10; 0; 0; 2] NewSerializeBuffer (∅ : DecodingLayerMap stack_layer) sample_table empty_store true []).
  - exact sample_stack_ok.
  - exists 0, 0. exact NewSerializeBuffer_inv.
  - vm_compute. reflexivity.
Defined.
