(* ===== verification/Links.v ===== *)
(** * Doubly-linked lists of pages

    Both TCP assemblers keep data in doubly-linked lists of pages in a store.
    [linked prev next before ls after] says that the pages [ls] form such a
    list between the page before it and the page after it, for the links that
    [prev] and [next] read from the store. *)

From S2P Require Import Prelude.

Definition hd_or (ls : list nat) (o : option nat) : option nat :=
  match ls with [] => o | l :: _ => Some l end.
Definition last_or (o : option nat) (ls : list nat) : option nat :=
  match last ls with Some l => Some l | None => o end.

Lemma hd_or_app l1 l2 o : hd_or (l1 ++ l2) o = hd_or l1 (hd_or l2 o).
Proof. by destruct l1. Qed.
Lemma last_or_cons o l ls : last_or o (l :: ls) = last_or (Some l) ls.
Proof. unfold last_or. rewrite last_cons. by destruct (last ls). Qed.
Lemma last_or_snoc o ls l : last_or o (ls ++ [l]) = Some l.
Proof. unfold last_or. by rewrite last_snoc. Qed.

Fixpoint linked (prev next : nat → option nat) (before : option nat) (ls : list nat)
    (after : option nat) : Prop :=
  match ls with
  | [] => True
  | l :: ls' => prev l = before ∧ next l = hd_or ls' after ∧ linked prev next (Some l) ls' after
  end.

Lemma linked_ext prev next prev' next' before ls after :
  (∀ l, l ∈ ls → prev' l = prev l ∧ next' l = next l) →
  linked prev next before ls after → linked prev' next' before ls after.
Proof.
  revert before; induction ls as [|l ls IH]; intros before H; [done|]. cbn.
  destruct (H l) as [-> ->]; [by left|]. intros (H1 & H2 & H3). split_and!; [done..|].
  apply IH; [|done]. intros l' Hl'. apply H. by right.
Qed.

Lemma linked_app prev next before l1 l2 after :
  linked prev next before (l1 ++ l2) after ↔
  linked prev next before l1 (hd_or l2 after) ∧ linked prev next (last_or before l1) l2 after.
Proof.
  revert before; induction l1 as [|l l1 IH]; intros before; cbn; [tauto|].
  rewrite IH, last_or_cons, hd_or_app. tauto.
Qed.
