(* ===== verification/TcpAssembly.v ===== *)
(** * TCP stream reassembly ([tcpassembly/assembly.go])

    The assembler keeps out-of-order data of each connection in a doubly-linked
    list of pages taken from a page cache, and hands data to the streams in
    order. The model keeps the pages in a store ([mem]) and follows the code's
    pointer operations on them; the connection objects live in a second store
    ([objs]), from which the pool takes and to which it returns them. What the
    streams see is the trace.

    A whole call runs at once here: the locks that serialise assemblers sharing
    a pool are not modelled. Logging is left out (its flags are off), and so is
    the list [pageCache.pages], which only keeps the pages alive. *)

From S2P Require Import Prelude SerializeBuffer LayerClasses Flows BaseLayers Tcp.

Definition invalidSequence : Z := -1.
Definition uint32Size : Z := Z.shiftl 1 32.

(** ** Sequence numbers *)

Definition Sequence := Z.

Definition Difference (s t : Sequence) : Z :=
  if (s >? uint32Size - Z.quot uint32Size 4) && (t <? Z.quot uint32Size 4)
  then t + uint32Size - s
  else if (t >? uint32Size - Z.quot uint32Size 4) && (s <? Z.quot uint32Size 4)
  then t - (s + uint32Size)
  else t - s.

Definition Add (s : Sequence) (t : Z) : Sequence := Z.land (s + t) (uint32Size - 1).

(** ** Data *)

(** Times are numbers here; [Before] is [<]. *)
Definition time := Z.

Record Reassembly : Type := mkReassembly {
  Bytes : bytes;
  Skip : Z;
  Start : bool;
  End_ : bool;
  Seen : time;
}.

Definition pageBytes : Z := 1900.

(** The data of a page is [Bytes], a slice of its own buffer. *)
Abbreviation loc := nat.

Record page : Type := mkPage {
  p_re : Reassembly;
  p_seq : Sequence;
  p_prev : option loc;
  p_next : option loc;
}.

Definition zero_page : page := mkPage (mkReassembly [] 0 false false 0) 0 None None.

Record pageCache : Type := mkPageCache {
  pc_free : list loc;
  pcSize : Z;
  pc_size : Z;
  pc_used : Z;
}.

Definition initialAllocSize : Z := 1024.

Definition key : Type := Flow * Flow.

(** A stream is identified by the number of the [New] call that made it. *)
Record connection : Type := mkConnection {
  c_key : key;
  c_pages : Z;
  c_first : option loc;
  c_last : option loc;
  c_nextSeq : Sequence;
  c_created : time;
  c_lastSeen : time;
  c_stream : option nat;
  c_closed : bool;
}.

Definition zero_flow : Flow := mkFlow 0 0 0 [] [].
Definition zero_connection : connection :=
  mkConnection (zero_flow, zero_flow) 0 None None 0 0 0 None false.

Record StreamPool : Type := mkStreamPool {
  sp_conns : gmap key loc;
  sp_users : Z;
  sp_free : list loc;
  sp_all : Z;  (** the number of connections in [all] *)
  sp_nextAlloc : Z;
}.

Record AssemblerOptions : Type := mkAssemblerOptions {
  MaxBufferedPagesTotal : Z;
  MaxBufferedPagesPerConnection : Z;
}.

Definition DefaultAssemblerOptions : AssemblerOptions := mkAssemblerOptions 0 0.

(** What the factory and the streams are told. *)
Inductive event : Type :=
  | EvNew (stream : nat) (k : key)
  | EvReassembled (stream : nat) (rs : list Reassembly)
  | EvComplete (stream : nat).

(** An assembler with its pool and the memory they point into. *)
Record world : Type := mkWorld {
  options : AssemblerOptions;
  ret : list Reassembly;
  pc : pageCache;
  mem : gmap loc page;
  pool : StreamPool;
  objs : gmap loc connection;
  streams : nat;
  trace : list event;
}.

Definition set_ret (v : list Reassembly) (w : world) : world :=
  mkWorld (options w) v (pc w) (mem w) (pool w) (objs w) (streams w) (trace w).
Definition set_pc (v : pageCache) (w : world) : world :=
  mkWorld (options w) (ret w) v (mem w) (pool w) (objs w) (streams w) (trace w).
Definition set_mem (v : gmap loc page) (w : world) : world :=
  mkWorld (options w) (ret w) (pc w) v (pool w) (objs w) (streams w) (trace w).
Definition set_pool (v : StreamPool) (w : world) : world :=
  mkWorld (options w) (ret w) (pc w) (mem w) v (objs w) (streams w) (trace w).
Definition set_objs (v : gmap loc connection) (w : world) : world :=
  mkWorld (options w) (ret w) (pc w) (mem w) (pool w) v (streams w) (trace w).
Definition add_event (e : event) (w : world) : world :=
  mkWorld (options w) (ret w) (pc w) (mem w) (pool w) (objs w) (streams w) (trace w ++ [e]).

(** ** Memory *)

Definition page_at (w : world) (l : loc) : page := default zero_page (mem w !! l).
Definition conn_at (w : world) (c : loc) : connection := default zero_connection (objs w !! c).

Definition load_page (l : loc) : M world page := gets (fun w => page_at w l).
Definition store_page (l : loc) (p : page) : M world unit :=
  modify (fun w => set_mem (<[l := p]> (mem w)) w).
Definition load_conn (c : loc) : M world connection := gets (fun w => conn_at w c).
Definition store_conn (c : loc) (v : connection) : M world unit :=
  modify (fun w => set_objs (<[c := v]> (objs w)) w).

Definition set_prev (v : option loc) (p : page) : page := mkPage (p_re p) (p_seq p) v (p_next p).
Definition set_next (v : option loc) (p : page) : page := mkPage (p_re p) (p_seq p) (p_prev p) v.
Definition set_re (v : Reassembly) (p : page) : page := mkPage v (p_seq p) (p_prev p) (p_next p).
Definition set_data (v : bytes) (seq : Sequence) (p : page) : page :=
  mkPage (mkReassembly v (Skip (p_re p)) (Start (p_re p)) (End_ (p_re p)) (Seen (p_re p))) seq
    (p_prev p) (p_next p).
Definition set_End (v : bool) (p : page) : page :=
  set_re (mkReassembly (Bytes (p_re p)) (Skip (p_re p)) (Start (p_re p)) v (Seen (p_re p))) p.
Definition set_Skip (v : Z) (p : page) : page :=
  set_re (mkReassembly (Bytes (p_re p)) v (Start (p_re p)) (End_ (p_re p)) (Seen (p_re p))) p.
Definition set_Bytes (v : bytes) (p : page) : page := set_data v (p_seq p) p.

Definition update_page (l : loc) (f : page -> page) : M world unit :=
  p ← load_page l; store_page l (f p).

Definition set_ends (first last : option loc) (c : connection) : connection :=
  mkConnection (c_key c) (c_pages c) first last (c_nextSeq c) (c_created c) (c_lastSeen c)
    (c_stream c) (c_closed c).
Definition set_pages (v : Z) (c : connection) : connection :=
  mkConnection (c_key c) v (c_first c) (c_last c) (c_nextSeq c) (c_created c) (c_lastSeen c)
    (c_stream c) (c_closed c).
Definition set_nextSeq (v : Sequence) (c : connection) : connection :=
  mkConnection (c_key c) (c_pages c) (c_first c) (c_last c) v (c_created c) (c_lastSeen c)
    (c_stream c) (c_closed c).
Definition set_lastSeen (v : time) (c : connection) : connection :=
  mkConnection (c_key c) (c_pages c) (c_first c) (c_last c) (c_nextSeq c) (c_created c) v
    (c_stream c) (c_closed c).
Definition set_closed (v : bool) (c : connection) : connection :=
  mkConnection (c_key c) (c_pages c) (c_first c) (c_last c) (c_nextSeq c) (c_created c)
    (c_lastSeen c) (c_stream c) v.

Definition update_conn (c : loc) (f : connection -> connection) : M world unit :=
  v ← load_conn c; store_conn c (f v).

(** A pointer that the code dereferences. *)
Definition deref (o : option loc) : M world loc :=
  match o with Some l => mret l | None => lift (Panic NilDereference) end.

(** ** The page cache *)

Definition grow_cache (c : pageCache) : pageCache :=
  mkPageCache (pc_free c ++ seq (Z.to_nat (pc_size c)) (Z.to_nat (pcSize c)))
    (pcSize c * 2) (pc_size c + pcSize c) (pc_used c).

Definition newPageCache : pageCache := grow_cache (mkPageCache [] initialAllocSize 0 0).

Definition next_page (ts : time) : M world loc :=
  c ← gets pc;
  let c := if len (pc_free c) =? 0 then grow_cache c else c in
  let i := len (pc_free c) - 1 in
  p ← lift (index (pc_free c) i);
  free ← lift (slice_to (pc_free c) i);
  _ ← modify (set_pc (mkPageCache free (pcSize c) (pc_size c) (pc_used c + 1)));
  old ← load_page p;
  _ ← store_page p (mkPage (mkReassembly [] 0 false false ts) (p_seq old) None None);
  mret p.

Definition replace_page (p : loc) : M world unit :=
  modify (fun w => let c := pc w in
    set_pc (mkPageCache (pc_free c ++ [p]) (pcSize c) (pc_size c) (pc_used c - 1)) w).

(** ** The stream pool *)

Definition NewStreamPool : StreamPool := mkStreamPool ∅ 0 [] 0 initialAllocSize.

Definition assemblerReturnValueInitialSize : Z := 16.

(** [o] is the value of the variable [DefaultAssemblerOptions] at the time. *)
Definition NewAssembler (o : AssemblerOptions) (p : StreamPool) : world :=
  mkWorld o (replicate (Z.to_nat assemblerReturnValueInitialSize) (mkReassembly [] 0 false false 0))
    newPageCache ∅
    (mkStreamPool (sp_conns p) (sp_users p + 1) (sp_free p) (sp_all p) (sp_nextAlloc p)) ∅ 0 [].

Definition grow_pool (p : StreamPool) : StreamPool :=
  mkStreamPool (sp_conns p) (sp_users p)
    (sp_free p ++ seq (Z.to_nat (sp_all p)) (Z.to_nat (sp_nextAlloc p)))
    (sp_all p + sp_nextAlloc p) (sp_nextAlloc p * 2).

(** [reset] does not touch [lastSeen]. *)
Definition reset (k : key) (s : option nat) (ts : time) (c : connection) : connection :=
  mkConnection k 0 None None invalidSequence ts (c_lastSeen c) s false.

Definition newConnection (k : key) (s : option nat) (ts : time) : M world loc :=
  p ← gets pool;
  let p := if len (sp_free p) =? 0 then grow_pool p else p in
  let i := len (sp_free p) - 1 in
  c ← lift (index (sp_free p) i);
  free ← lift (slice_to (sp_free p) i);
  _ ← modify (set_pool (mkStreamPool (sp_conns p) (sp_users p) free (sp_all p) (sp_nextAlloc p)));
  _ ← update_conn c (reset k s ts);
  mret c.

(** [factory.New], a stream that is not nil. *)
Definition factory_New (k : key) : M world nat := fun w =>
  let s := streams w in
  (Ok s, mkWorld (options w) (ret w) (pc w) (mem w) (pool w) (objs w) (S s) (trace w ++ [EvNew s k])).

Definition getConnection (k : key) (end_ : bool) (ts : time) : M world (option loc) :=
  p ← gets pool;
  let conn := sp_conns p !! k in
  if end_ || match conn with Some _ => true | None => false end then mret conn
  else
    s ← factory_New k;
    c ← newConnection k (Some s) ts;
    p ← gets pool;
    match sp_conns p !! k with
    | Some conn2 => mret (Some conn2)
    | None =>
        _ ← modify (fun w => let p := pool w in
          set_pool (mkStreamPool (<[k := c]> (sp_conns p)) (sp_users p) (sp_free p) (sp_all p)
            (sp_nextAlloc p)) w);
        mret (Some c)
    end.

(** [remove]: the object goes back to the pool with its fields as they are. *)
Definition remove (c : loc) : M world unit :=
  v ← load_conn c;
  modify (fun w => let p := pool w in
    set_pool (mkStreamPool (delete (c_key v) (sp_conns p)) (sp_users p) (sp_free p ++ [c]) (sp_all p)
      (sp_nextAlloc p)) w).

(** ** The assembler *)

(** A bound on the number of pages in any list: the pages that exist. *)
Definition page_fuel (w : world) : nat := S (Z.to_nat (pc_size (pc w))).

Definition byteSpan (expected received : Sequence) (bytes : bytes) : outcome (Prelude.bytes * Sequence) :=
  if expected =? invalidSequence then mret (bytes, Add received (len bytes))
  else
    let span := Difference received expected in
    if span <=? 0 then mret (bytes, Add received (len bytes))
    else if len bytes <? span then mret ([], expected)
    else
      toSend ← slice_from bytes span;
      mret (toSend, Add expected (len bytes - span)).

(** Freeing the pages of a closed connection. *)
Fixpoint replace_pages (fuel : nat) (p : option loc) : M world unit :=
  match p with
  | None => mret tt
  | Some l =>
      match fuel with
      | O => lift NoFuel
      | S fuel' =>
          _ ← replace_page l;
          pg ← load_page l;
          replace_pages fuel' (p_next pg)
      end
  end.

Definition closeConnection (c : loc) : M world unit :=
  v ← load_conn c;
  match c_stream v with
  | None => lift (Panic NilDereference)
  | Some s =>
      _ ← modify (add_event (EvComplete s));
      _ ← update_conn c (set_closed true);
      _ ← remove c;
      w ← get;
      replace_pages (page_fuel w) (c_first (conn_at w c))
  end.

Definition addNextFromConn (c : loc) : M world unit :=
  v ← load_conn c;
  f ← deref (c_first v);
  first ← load_page f;
  _ ← (if c_nextSeq v =? invalidSequence then update_page f (set_Skip (-1))
       else
         let diff := Difference (c_nextSeq v) (p_seq first) in
         if diff >? 0 then update_page f (set_Skip diff) else mret tt);
  r ← lift (byteSpan (c_nextSeq v) (p_seq first) (Bytes (p_re first)));
  _ ← update_page f (set_Bytes r.1);
  _ ← update_conn c (set_nextSeq r.2);
  first ← load_page f;
  _ ← modify (fun w => set_ret (ret w ++ [p_re first]) w);
  _ ← replace_page f;
  v ← load_conn c;
  _ ← (if bool_decide (c_first v = c_last v) then update_conn c (set_ends None None)
       else
         _ ← update_conn c (set_ends (p_next first) (c_last v));
         f' ← deref (p_next first);
         update_page f' (set_prev None));
  update_conn c (fun v => set_pages (c_pages v - 1) v).

Fixpoint addContiguous (fuel : nat) (c : loc) : M world unit :=
  match fuel with
  | O => lift NoFuel
  | S fuel' =>
      v ← load_conn c;
      match c_first v with
      | None => mret tt
      | Some f =>
          p ← load_page f;
          if Difference (c_nextSeq v) (p_seq p) <=? 0 then
            _ ← addNextFromConn c;
            addContiguous fuel' c
          else mret tt
      end
  end.

Definition sendToConnection (c : loc) : M world unit :=
  w ← get;
  _ ← addContiguous (page_fuel w) c;
  v ← load_conn c;
  match c_stream v with
  | None => lift (Panic (Panicked "why?"))
  | Some s =>
      r ← gets ret;
      _ ← modify (add_event (EvReassembled s r));
      last ← lift (index r (len r - 1));
      if End_ last then closeConnection c else mret tt
  end.

Definition skipFlush (c : loc) : M world unit :=
  v ← load_conn c;
  match c_first v with
  | None => closeConnection c
  | Some _ =>
      _ ← modify (set_ret []);
      _ ← addNextFromConn c;
      w ← get;
      _ ← addContiguous (page_fuel w) c;
      sendToConnection c
  end.

(** [traverseConn], from [prev] and [current] backwards. *)
Fixpoint traverse (fuel : nat) (seq : Sequence) (prev current : option loc)
    : M world (option loc * option loc) :=
  match prev with
  | None => mret (None, current)
  | Some l =>
      p ← load_page l;
      if Difference (p_seq p) seq <? 0 then
        match fuel with
        | O => lift NoFuel
        | S fuel' => traverse fuel' seq (p_prev p) (Some l)
        end
      else mret (Some l, current)
  end.

Definition traverseConn (c : loc) (seq : Sequence) : M world (option loc * option loc) :=
  v ← load_conn c;
  w ← get;
  traverse (page_fuel w) seq (c_last v) None.

Definition pushBetween (c : loc) (prev next : option loc) (first last : loc) : M world unit :=
  v ← load_conn c;
  _ ← (match next, c_last v with
       | None, _ | _, None => update_conn c (fun v => set_ends (c_first v) (Some last) v)
       | Some n, Some _ =>
           _ ← update_page last (set_next (Some n));
           update_page n (set_prev (Some last))
       end);
  v ← load_conn c;
  match prev, c_first v with
  | None, _ | _, None => update_conn c (fun v => set_ends (Some first) (c_last v) v)
  | Some p, Some _ =>
      _ ← update_page first (set_prev (Some p));
      update_page p (set_next (Some first))
  end.

(** The loop of [pagesFromTCP], with the page that is being filled. *)
Fixpoint fill_pages (fuel : nat) (ts : time) (current : loc) (seq : Sequence) (bytes : bytes)
    (numPages : Z) : M world (loc * Z) :=
  match fuel with
  | O => lift NoFuel
  | S fuel' =>
      let length := Z.min (len bytes) pageBytes in
      data ← lift (slice_to bytes length);
      _ ← update_page current (set_data data seq);
      bytes ← lift (slice_from bytes length);
      if len bytes =? 0 then mret (current, numPages)
      else
        let seq := Add seq length in
        n ← next_page ts;
        _ ← update_page current (set_next (Some n));
        _ ← update_page n (set_prev (Some current));
        fill_pages fuel' ts n seq bytes (numPages + 1)
  end.

Definition pagesFromTCP (t : TCP) (ts : time) : M world (loc * loc * Z) :=
  first ← next_page ts;
  r ← fill_pages (S (length (Payload (base t)))) ts first (Seq t) (Payload (base t)) 1;
  _ ← update_page r.1 (set_End (RST t || FIN t));
  mret (first, r.1, r.2).

Definition insertIntoConn (t : TCP) (c : loc) (ts : time) : M world unit :=
  v ← load_conn c;
  w ← get;
  if match c_first v with Some f => p_seq (page_at w f) =? c_nextSeq v | None => false end
  then lift (Panic (Panicked "wtf"))
  else
    r ← pagesFromTCP t ts;
    let '(p, p2, numPages) := r in
    pos ← traverseConn c (Seq t);
    _ ← pushBetween c pos.1 pos.2 p p2;
    _ ← update_conn c (fun v => set_pages (c_pages v + numPages) v);
    v ← load_conn c;
    w ← get;
    let o := options w in
    if ((MaxBufferedPagesPerConnection o >? 0) && (c_pages v >=? MaxBufferedPagesPerConnection o))
       || ((MaxBufferedPagesTotal o >? 0) && (pc_used (pc w) >=? MaxBufferedPagesTotal o))
    then addNextFromConn c
    else mret tt.

(** The loop that fetches an open connection. *)
Fixpoint fetch_connection (fuel : nat) (k : key) (end_ : bool) (ts : time) : M world (option loc) :=
  match fuel with
  | O => lift NoFuel
  | S fuel' =>
      conn ← getConnection k end_ ts;
      match conn with
      | None => mret None
      | Some c =>
          v ← load_conn c;
          if c_closed v then fetch_connection fuel' k end_ ts else mret (Some c)
      end
  end.

(** The part of [AssembleWithTimestamp] after the connection is found. *)
Definition assemble_conn (t : TCP) (timestamp : time) (c : loc) : M world unit :=
  let payload := Payload (base t) in
  v ← load_conn c;
  _ ← (if c_lastSeen v <? timestamp then update_conn c (set_lastSeen timestamp) else mret tt);
  let seq := Seq t in
  v ← load_conn c;
  _ ← (if c_nextSeq v =? invalidSequence then
         if SYN t then
           _ ← modify (fun w => set_ret (ret w ++ [mkReassembly payload 0 true false timestamp]) w);
           update_conn c (set_nextSeq (Add seq (len payload + 1)))
         else insertIntoConn t c timestamp
       else
         let diff := Difference (c_nextSeq v) seq in
         if diff >? 0 then insertIntoConn t c timestamp
         else
           r ← lift (byteSpan (c_nextSeq v) seq payload);
           _ ← update_conn c (set_nextSeq r.2);
           modify (fun w => set_ret (ret w ++ [mkReassembly r.1 0 false (RST t || FIN t) timestamp]) w));
  r ← gets ret;
  if len r >? 0 then sendToConnection c else mret tt.

(** One round is enough for the loop when calls do not interleave. *)
Definition retry_fuel : nat := 1.

Definition AssembleWithTimestamp (netFlow : Flow) (t : TCP) (timestamp : time) : M world unit :=
  let payload := Payload (base t) in
  if negb (SYN t) && negb (FIN t) && negb (RST t) && (len payload =? 0) then mret tt
  else
    _ ← modify (set_ret []);
    tcpFlow ← lift (TransportFlow t);
    conn ← fetch_connection retry_fuel (netFlow, tcpFlow) (negb (SYN t) && (len payload =? 0)) timestamp;
    match conn with
    | None => mret tt
    | Some c => assemble_conn t timestamp c
    end.

(** ** Flushing *)

(** The connections of the pool; the order of a Go map is unspecified. *)
Definition connections (w : world) : list loc := (map_to_list (sp_conns (pool w))).*2.

Record FlushOptions : Type := mkFlushOptions {
  T_ : time;
  CloseAll : bool;
}.

(** The loop over the pages older than [T]: whether anything was flushed. *)
Fixpoint flush_old (fuel : nat) (c : loc) (T : time) (flushed : bool) : M world bool :=
  w ← get;
  let v := conn_at w c in
  match c_first v with
  | Some f =>
      if Seen (p_re (page_at w f)) <? T then
        match fuel with
        | O => lift NoFuel
        | S fuel' =>
            _ ← skipFlush c;
            v ← load_conn c;
            if c_closed v then mret true else flush_old fuel' c T true
        end
      else mret flushed
  | None => mret flushed
  end.

Definition flush_connection (opt : FlushOptions) (c : loc) : M world (bool * bool) :=
  v ← load_conn c;
  if c_closed v then mret (false, false)
  else
    w ← get;
    flushed ← flush_old (page_fuel w) c (T_ opt) false;
    w ← get;
    let v := conn_at w c in
    if CloseAll opt && negb (c_closed v) && bool_decide (c_first v = None)
       && (c_lastSeen v <? T_ opt)
    then _ ← closeConnection c; mret (true, true)
    else mret (flushed, c_closed v).

Fixpoint flush_loop (opt : FlushOptions) (conns : list loc) (flushes closes : Z) : M world (Z * Z) :=
  match conns with
  | [] => mret (flushes, closes)
  | c :: conns' =>
      r ← flush_connection opt c;
      flush_loop opt conns' (flushes + b2z r.1) (closes + b2z r.2)
  end.

Definition FlushWithOptions (opt : FlushOptions) : M world (Z * Z) :=
  conns ← gets connections;
  flush_loop opt conns 0 0.

Definition FlushOlderThan (t : time) : M world (Z * Z) :=
  FlushWithOptions (mkFlushOptions t true).

Fixpoint flush_until_closed (fuel : nat) (c : loc) : M world unit :=
  v ← load_conn c;
  if c_closed v then mret tt
  else
    match fuel with
    | O => lift NoFuel
    | S fuel' => _ ← skipFlush c; flush_until_closed fuel' c
    end.

Fixpoint flush_all_loop (conns : list loc) : M world unit :=
  match conns with
  | [] => mret tt
  | c :: conns' =>
      w ← get;
      _ ← flush_until_closed (page_fuel w) c;
      flush_all_loop conns'
  end.

Definition FlushAll : M world Z :=
  conns ← gets connections;
  _ ← flush_all_loop conns;
  mret (len conns).
