(* ===== verification/TcpStream.v ===== *)
(** * What a TCP assembler promises: an abstract specification

    The pages, pointers, caches and connection objects of [TcpAssembly.v] are
    gone: a connection is the sequence number it waits for and a list of pages
    by value, the pool a finite map, and each call of the assembler a function
    on them. [TcpRefine.v] shows that the code implements these functions; this
    file shows what they achieve: the order in which a stream is called, and
    that the bytes it is given are the bytes that were sent. *)

From S2P Require Import Prelude SerializeBuffer LayerClasses Flows BaseLayers Tcp TcpAssembly.

(** ** The specification *)

(** A page out of order: its sequence number and what is to be delivered. *)
Definition qpage : Type := Sequence * Reassembly.

Record half : Type := mkHalf {
  h_stream : nat;
  h_next : Sequence;
  h_queue : list qpage;
  h_lastSeen : time;
}.

Definition set_queue (n : Sequence) (q : list qpage) (h : half) : half :=
  mkHalf (h_stream h) n q (h_lastSeen h).
Definition see (ts : time) (h : half) : half :=
  mkHalf (h_stream h) (h_next h) (h_queue h) (if h_lastSeen h <? ts then ts else h_lastSeen h).

(** [byteSpan], without the slice. *)
Definition span (expected received : Sequence) (bs : bytes) : bytes * Sequence :=
  if expected =? invalidSequence then (bs, Add received (len bs))
  else
    let d := Difference received expected in
    if d <=? 0 then (bs, Add received (len bs))
    else if len bs <? d then ([], expected)
    else (drop (Z.to_nat d) bs, Add expected (len bs - d)).

(** The first page of a queue, as delivered, and the next sequence number. *)
Definition pop (next : Sequence) (p : qpage) : Reassembly * Sequence :=
  let skip :=
    if next =? invalidSequence then -1
    else if Difference next p.1 >? 0 then Difference next p.1 else Skip p.2 in
  let r := span next p.1 (Bytes p.2) in
  (mkReassembly r.1 skip (Start p.2) (End_ p.2) (Seen p.2), r.2).

Fixpoint contiguous (next : Sequence) (q : list qpage) : list Reassembly * Sequence * list qpage :=
  match q with
  | [] => ([], next, [])
  | p :: q' =>
      if Difference next p.1 <=? 0 then
        let r := pop next p in
        let '(rs, n, rest) := contiguous r.2 q' in (r.1 :: rs, n, rest)
      else ([], next, q)
  end.

(** The pages of a payload: 1900 bytes each, the end marked on the last. *)
Fixpoint cut_pages (fuel : nat) (ts : time) (fin : bool) (seq : Sequence) (bs : bytes) : list qpage :=
  match fuel with
  | O => []
  | S fuel' =>
      let rest := drop (Z.to_nat pageBytes) bs in
      let data := take (Z.to_nat pageBytes) bs in
      if len rest =? 0 then [(seq, mkReassembly data 0 false fin ts)]
      else (seq, mkReassembly data 0 false false ts) :: cut_pages fuel' ts fin (Add seq pageBytes) rest
  end.

Definition new_pages (t : TCP) (ts : time) : list qpage :=
  cut_pages (S (length (Payload (base t)))) ts (RST t || FIN t) (Seq t) (Payload (base t)).

(** Before the longest tail of pages that all come after [seq]. *)
Fixpoint insert_pages (seq : Sequence) (new q : list qpage) : list qpage :=
  match q with
  | [] => new
  | p :: q' =>
      if forallb (fun p' => Difference p'.1 seq <? 0) q then new ++ q
      else p :: insert_pages seq new q'
  end.

(** What happens to a connection: [None] when it is closed, and the calls its
    stream receives. *)
Definition result : Type := option half * list event.

Definition last_End (rs : list Reassembly) : bool :=
  match last rs with Some r => End_ r | None => false end.

Definition deliver (h : half) (rs : list Reassembly) : result :=
  let '(more, n, q) := contiguous (h_next h) (h_queue h) in
  if last_End (rs ++ more)
  then (None, [EvReassembled (h_stream h) (rs ++ more); EvComplete (h_stream h)])
  else (Some (set_queue n q h), [EvReassembled (h_stream h) (rs ++ more)]).

Definition skip_flush (h : half) : result :=
  match h_queue h with
  | [] => (None, [EvComplete (h_stream h)])
  | p :: q => deliver (set_queue (pop (h_next h) p).2 q h) [(pop (h_next h) p).1]
  end.

Definition full (o : AssemblerOptions) (pages used : Z) : bool :=
  ((MaxBufferedPagesPerConnection o >? 0) && (pages >=? MaxBufferedPagesPerConnection o))
  || ((MaxBufferedPagesTotal o >? 0) && (used >=? MaxBufferedPagesTotal o)).

(** Buffer a packet; over the limits, the first page goes out. *)
Definition store (o : AssemblerOptions) (used : Z) (t : TCP) (ts : time) (h : half)
    : half * list Reassembly :=
  let new := new_pages t ts in
  let q := insert_pages (Seq t) new (h_queue h) in
  match q with
  | p :: q' =>
      if full o (len q) (used + len new)
      then (set_queue (pop (h_next h) p).2 q' h, [(pop (h_next h) p).1])
      else (set_queue (h_next h) q h, [])
  | [] => (h, [])
  end.

Definition receive (o : AssemblerOptions) (used : Z) (t : TCP) (ts : time) (h : half) : result :=
  let h := see ts h in
  let payload := Payload (base t) in
  let '(h, rs) :=
    if h_next h =? invalidSequence then
      if SYN t
      then (set_queue (Add (Seq t) (len payload + 1)) (h_queue h) h,
            [mkReassembly payload 0 true false ts])
      else store o used t ts h
    else if Difference (h_next h) (Seq t) >? 0 then store o used t ts h
    else
      let r := span (h_next h) (Seq t) payload in
      (set_queue r.2 (h_queue h) h, [mkReassembly r.1 0 false (RST t || FIN t) ts]) in
  match rs with
  | [] => (Some h, [])
  | _ => deliver h rs
  end.

(** The assembler with its pool. *)
Record astate : Type := mkAstate {
  a_conns : gmap key half;
  a_streams : nat;
  a_trace : list event;
}.

Definition astart : astate := mkAstate ∅ 0 [].

(** The number of pages in all queues. *)
Definition buffered (m : gmap key half) : Z := len (map_to_list m ≫= (fun kh => h_queue kh.2)).

(** The connection of [k] goes on as [r] says. *)
Definition settle (k : key) (r : result) (st : astate) : astate :=
  mkAstate (match r.1 with Some h => <[k := h]> (a_conns st) | None => delete k (a_conns st) end)
    (a_streams st) (a_trace st ++ r.2).

(** [stale] is the time a recycled connection object was last used. *)
Definition open_new (k : key) (stale : time) (st : astate) : half * astate :=
  (mkHalf (a_streams st) invalidSequence [] stale,
   mkAstate (a_conns st) (S (a_streams st)) (a_trace st ++ [EvNew (a_streams st) k])).

Definition useless (t : TCP) : bool :=
  negb (SYN t) && negb (FIN t) && negb (RST t) && (len (Payload (base t)) =? 0).

Definition assemble (o : AssemblerOptions) (k : key) (t : TCP) (ts stale : time) (st : astate)
    : astate :=
  if useless t then st
  else
    let used := buffered (a_conns st) in
    match a_conns st !! k with
    | Some h => settle k (receive o used t ts h) st
    | None =>
        if negb (SYN t) && (len (Payload (base t)) =? 0) then st
        else let '(h, st') := open_new k stale st in settle k (receive o used t ts h) st'
    end.

(** Flush the pages older than [T]. *)
Fixpoint drain (fuel : nat) (T : time) (h : half) : result :=
  match fuel, h_queue h with
  | S fuel', p :: _ =>
      if Seen p.2 <? T then
        match skip_flush h with
        | (Some h', evs) => let r := drain fuel' T h' in (r.1, evs ++ r.2)
        | (None, evs) => (None, evs)
        end
      else (Some h, [])
  | _, _ => (Some h, [])
  end.

Definition flush_half (opt : FlushOptions) (h : half) : result :=
  match drain (length (h_queue h)) (T_ opt) h with
  | (Some h', evs) =>
      if CloseAll opt && bool_decide (h_queue h' = []) && (h_lastSeen h' <? T_ opt)
      then (None, evs ++ [EvComplete (h_stream h')])
      else (Some h', evs)
  | (None, evs) => (None, evs)
  end.

Fixpoint drain_all (fuel : nat) (h : half) : result :=
  match fuel with
  | O => (Some h, [])
  | S fuel' =>
      match skip_flush h with
      | (Some h', evs) => let r := drain_all fuel' h' in (r.1, evs ++ r.2)
      | (None, evs) => (None, evs)
      end
  end.

Definition close_half (h : half) : result := drain_all (S (length (h_queue h))) h.

Definition visit (f : half -> result) (st : astate) (k : key) : astate :=
  match a_conns st !! k with
  | Some h => settle k (f h) st
  | None => st
  end.

(** The calls of an assembler and what they may do. *)
Inductive call : Type :=
  | CallAssemble (netFlow : Flow) (t : TCP) (ts : time)
  | CallFlush (opt : FlushOptions)
  | CallFlushAll.

Inductive allowed (o : AssemblerOptions) : call -> astate -> astate -> Prop :=
  | allowed_assemble nf tf t ts stale st :
      TransportFlow t = Ok tf ->
      allowed o (CallAssemble nf t ts) st (assemble o (nf, tf) t ts stale st)
  | allowed_flush opt ks st :
      ks ≡ₚ (map_to_list (a_conns st)).*1 ->
      allowed o (CallFlush opt) st (foldl (visit (flush_half opt)) st ks)
  | allowed_flush_all ks st :
      ks ≡ₚ (map_to_list (a_conns st)).*1 ->
      allowed o CallFlushAll st (foldl (visit close_half) st ks).

Inductive allowed_run (o : AssemblerOptions) : list call -> astate -> astate -> Prop :=
  | run_nil st : allowed_run o [] st st
  | run_cons c cs st st1 st2 :
      allowed o c st st1 -> allowed_run o cs st1 st2 -> allowed_run o (c :: cs) st st2.

(** ** Between calls no page is ready *)

(** The first page of the queue comes after what the stream waits for. This is
    why the code's check for a page that is ready never fails. *)
Definition rested (h : half) : Prop :=
  Forall (fun p => 0 <= p.1) (h_queue h) ∧
  match h_queue h with
  | [] => True
  | p :: _ => h_next h = invalidSequence ∨ Difference (h_next h) p.1 > 0
  end.

Lemma Difference_eq s t : Difference s t =
  if (s >? 3221225472) && (t <? 1073741824) then t + 4294967296 - s
  else if (t >? 3221225472) && (s <? 1073741824) then t - (s + 4294967296)
  else t - s.
Proof. reflexivity. Qed.

Lemma Difference_refl s : Difference s s = 0.
Proof. rewrite Difference_eq. destruct (Z.gtb_spec s 3221225472), (Z.ltb_spec s 1073741824); cbn; lia. Qed.

Lemma Add_nonneg s t : 0 <= Add s t.
Proof. unfold Add. apply Z.land_nonneg. right. vm_compute. discriminate. Qed.

Lemma rested_ready h p q : rested h → h_queue h = p :: q → p.1 ≠ h_next h.
Proof.
  intros [HF H] Hq. rewrite Hq in *. apply Forall_cons in HF as [HF _]. intros E.
  rewrite E, Difference_refl in H. assert (0 <= h_next h) by (rewrite <-E; exact HF).
  unfold invalidSequence in H. lia.
Qed.

Lemma contiguous_rest q : ∀ next rs n rest, contiguous next q = (rs, n, rest) →
  (∃ pre, q = pre ++ rest) ∧ match rest with [] => True | p :: _ => Difference n p.1 > 0 end.
Proof.
  induction q as [|p q IH]; intros next rs n rest; cbn.
  - intros [= <- <- <-]. split; [by exists []|done].
  - destruct (Z.leb_spec (Difference next p.1) 0).
    + destruct (contiguous _ q) as [[rs1 n1] rest1] eqn:E. intros [= <- <- <-].
      apply IH in E as [[pre ->] ?]. split; [by exists (p :: pre) | done].
    + intros [= <- <- <-]. split; [by exists [] | cbn; lia].
Qed.

Definition rested_result (r : result) : Prop := match r.1 with Some h => rested h | None => True end.

Lemma deliver_rested h rs : Forall (fun p => 0 <= p.1) (h_queue h) → rested_result (deliver h rs).
Proof.
  intros HF. unfold deliver. destruct (contiguous _ _) as [[more n] q] eqn:E.
  apply contiguous_rest in E as [[pre Hq] H]. rewrite Hq in HF. apply Forall_app in HF as [_ HF].
  destruct (last_End _); [done|]. split; cbn; [done|]. destruct q; [done|]. by right.
Qed.

Lemma cut_pages_nonneg fuel ts fin : ∀ seq bs, 0 <= seq →
  Forall (fun p => 0 <= p.1) (cut_pages fuel ts fin seq bs).
Proof.
  induction fuel as [|fuel IH]; intros seq bs H; cbn [cut_pages]; [done|].
  destruct (_ =? 0); repeat constructor; try done. apply IH, Add_nonneg.
Qed.

Lemma insert_pages_perm seq new q : insert_pages seq new q ≡ₚ new ++ q.
Proof.
  induction q as [|p q IH]; cbn [insert_pages]; [by rewrite app_nil_r|].
  case_match; [done|]. rewrite IH. solve_Permutation.
Qed.

(** The pages behind the place of insertion come after the new ones. *)
Definition after (seq : Sequence) (p : qpage) : Prop := Difference p.1 seq < 0.

Lemma forallb_after seq q :
  forallb (fun p' => Difference p'.1 seq <? 0) q = true ↔ Forall (after seq) q.
Proof.
  rewrite forallb_forall, Forall_forall. unfold after.
  split; intros H x Hx; [apply list_elem_of_In, H in Hx | apply list_elem_of_In, H in Hx]; lia.
Qed.

Lemma insert_pages_split seq new A B : Forall (after seq) B →
  (A = [] ∨ ∃ A0 a, A = A0 ++ [a] ∧ ¬ after seq a) →
  insert_pages seq new (A ++ B) = A ++ new ++ B.
Proof.
  intros HB HA. pose proof (forallb_after seq) as Hfb.
  destruct HA as [->|(A0 & a & -> & Ha)].
  - cbn [app]. destruct B as [|b B]; cbn [insert_pages]; [by rewrite app_nil_r|].
    apply Hfb in HB. by rewrite HB.
  - rewrite <-app_assoc. induction A0 as [|a0 A0 IH]; cbn [app insert_pages].
    + destruct (forallb _ _) eqn:E; [apply Hfb, Forall_cons in E; tauto|].
      destruct B as [|b B]; cbn [insert_pages]; [by rewrite app_nil_r|].
      apply Hfb in HB. by rewrite HB.
    + destruct (forallb _ _) eqn:E; [|cbn [app] in IH; by rewrite IH].
      apply Hfb, Forall_cons in E as [_ E]. apply Forall_app in E as [_ E].
      apply Forall_cons in E. tauto.
Qed.

Lemma insert_pages_form seq new q : ∃ A B, q = A ++ B ∧ insert_pages seq new q = A ++ new ++ B ∧
  Forall (after seq) B ∧ (A = [] ∨ ∃ A0 a, A = A0 ++ [a] ∧ ¬ after seq a).
Proof.
  assert (∃ A B, q = A ++ B ∧ Forall (after seq) B ∧ (A = [] ∨ ∃ A0 a, A = A0 ++ [a] ∧ ¬ after seq a))
    as (A & B & -> & HB & HA).
  { induction q as [|p q IH]; [exists [], []; by auto|].
    destruct IH as (A & B & -> & HB & [->|(A0 & a & -> & Ha)]).
    - destruct (Z.ltb_spec (Difference p.1 seq) 0) as [Hp|Hp].
      + exists [], (p :: B). split_and!; [done| |by left]. by constructor.
      + exists [p], B. split_and!; [done..|]. right. exists [], p. split; [done|]. unfold after. lia.
    - exists (p :: A0 ++ [a]), B. split_and!; [done..|]. right. by exists (p :: A0), a. }
  exists A, B. split_and!; [done|by apply insert_pages_split|done..].
Qed.

(** The first page after an insertion: the new one, if it comes before all. *)
Lemma insert_pages_head seq new q p rest : new ≠ [] → insert_pages seq new q = p :: rest →
  head new = Some p ∨ head q = Some p.
Proof.
  intros Hne. destruct q as [|p' q]; cbn [insert_pages].
  - intros ->. by left.
  - case_match.
    + destruct new; [done|]. intros [= -> _]. by left.
    + intros [= -> _]. by right.
Qed.

Lemma new_pages_head t ts : ∃ re rest, new_pages t ts = (Seq t, re) :: rest.
Proof. unfold new_pages. cbn [cut_pages]. destruct (_ =? 0); eauto. Qed.

Lemma store_rested o used t ts h : 0 <= Seq t → rested h →
  (h_next h = invalidSequence ∨ Difference (h_next h) (Seq t) > 0) →
  let r := store o used t ts h in
  Forall (fun p => 0 <= p.1) (h_queue r.1) ∧ (r.2 = [] → rested r.1).
Proof.
  intros Ht [HF Hr] Hd. unfold store. cbv zeta.
  destruct (new_pages_head t ts) as (re & rest & Hnew).
  destruct (insert_pages _ _ _) as [|p q] eqn:E; [done|].
  assert (Forall (fun p => 0 <= p.1) (p :: q)) as HF'.
  { rewrite <-E, insert_pages_perm. apply Forall_app. split; [by apply cut_pages_nonneg | done]. }
  destruct (full _ _ _); cbn [fst snd set_queue h_queue].
  - apply Forall_cons in HF' as [_ HF']. done.
  - split; [done|]. intros _. split; [done|]. cbn [set_queue h_next h_queue].
    apply insert_pages_head in E as [E|E]; [| |by rewrite Hnew].
    + rewrite Hnew in E. by injection E as <-.
    + destruct (h_queue h); [done|]. injection E as ->. done.
Qed.

Lemma receive_rested o used t ts h : 0 <= Seq t → rested h → rested_result (receive o used t ts h).
Proof.
  intros Ht Hr. unfold receive.
  assert (rested (see ts h)) as Hr' by done. set (h1 := see ts h) in *. clearbody h1. cbv zeta.
  match goal with |- context [let '(h, rs) := ?b in _] => set (br := b) end.
  assert (Forall (fun p => 0 <= p.1) (h_queue br.1) ∧ (br.2 = [] → rested br.1)) as [HF Hn].
  { unfold br. destruct (Z.eqb_spec (h_next h1) invalidSequence) as [Hi|Hi].
    - destruct (SYN t); [split; [apply Hr' | done]|]. apply store_rested; auto.
    - destruct (Z.gtb_spec (Difference (h_next h1) (Seq t)) 0); [|split; [apply Hr' | done]].
      apply store_rested; [done..|]. right. lia. }
  destruct br as [h2 [|r rs]]; [by apply Hn | by apply deliver_rested].
Qed.

Lemma skip_flush_rested h : rested h → rested_result (skip_flush h).
Proof.
  intros [HF _]. unfold skip_flush. destruct (h_queue h) as [|p q]; [done|].
  apply deliver_rested. by apply Forall_cons in HF as [_ HF].
Qed.

(** Any repetition of [skip_flush] keeps a property that it keeps. *)
Lemma drain_keeps (P : half → Prop) T :
  (∀ h, P h → match (skip_flush h).1 with Some h' => P h' | None => True end) →
  ∀ fuel h, P h → match (drain fuel T h).1 with Some h' => P h' | None => True end.
Proof.
  intros Hs. induction fuel as [|fuel IH]; intros h Hh; [done|]. cbn [drain].
  destruct (h_queue h) as [|p q]; [done|]. destruct (_ <? _); [|done].
  specialize (Hs h Hh). destruct (skip_flush h) as [[h'|] evs]; [by apply IH | done].
Qed.

Lemma flush_half_keeps (P : half → Prop) opt :
  (∀ h, P h → match (skip_flush h).1 with Some h' => P h' | None => True end) →
  ∀ h, P h → match (flush_half opt h).1 with Some h' => P h' | None => True end.
Proof.
  intros Hs h Hh. pose proof (drain_keeps P (T_ opt) Hs (length (h_queue h)) h Hh) as H.
  unfold flush_half. destruct (drain _ _ _) as [[h'|] evs]; [|done]. by destruct (_ && _).
Qed.

Lemma close_half_closed h : (close_half h).1 = None.
Proof.
  unfold close_half. enough (∀ n h, (length (h_queue h) < n)%nat → (drain_all n h).1 = None) as H by (apply H; lia).
  clear h. induction n as [|n IH]; intros h Hn; [lia|]. cbn [drain_all].
  destruct (skip_flush h) as [[h'|] evs] eqn:E; [|done]. cbn. apply IH.
  assert (length (h_queue h') < length (h_queue h))%nat; [|lia].
  unfold skip_flush in E. destruct (h_queue h) as [|p q]; [done|]. unfold deliver in E.
  cbn [set_queue h_next h_queue] in E.
  destruct (contiguous _ q) as [[more m] rest] eqn:Ec. apply contiguous_rest in Ec as [[pre ->] _].
  destruct (last_End _); [done|]. injection E as <- _. cbn. rewrite length_app. lia.
Qed.

(** ** Properties of every open connection *)

Definition all_conns (P : half → Prop) (st : astate) : Prop := ∀ k h, a_conns st !! k = Some h → P h.
Definition keeps (P : half → Prop) (r : result) : Prop :=
  match r.1 with Some h => P h | None => True end.

Lemma settle_keeps P k r st : all_conns P st → keeps P r → all_conns P (settle k r st).
Proof.
  unfold keeps. intros HP Hr k' h. cbn. destruct (r.1).
  - rewrite lookup_insert_Some. intros [[_ <-]|[_ H]]; [done | by eapply HP].
  - rewrite lookup_delete_Some. intros [_ H]. by eapply HP.
Qed.

Lemma visit_keeps P f ks : (∀ h, P h → keeps P (f h)) → ∀ st,
  all_conns P st → all_conns P (foldl (visit f) st ks).
Proof.
  intros Hf. induction ks as [|k ks IH]; intros st HP; [done|]. cbn. apply IH. unfold visit.
  destruct (a_conns st !! k) eqn:E; [|done]. apply settle_keeps; [done|]. apply Hf. by eapply HP.
Qed.

(** What a packet does to the connections, an old one or a new one. *)
Lemma assemble_keeps (P : half → Prop) o k t ts stale st :
  (∀ h, P h → keeps P (receive o (buffered (a_conns st)) t ts h)) →
  (∀ s, P (mkHalf s invalidSequence [] stale)) →
  all_conns P st → all_conns P (assemble o k t ts stale st).
Proof.
  intros Hr Hnew HP. unfold assemble. cbv zeta. destruct (useless t); [done|].
  destruct (a_conns st !! k) as [h|] eqn:E; [apply settle_keeps; eauto|].
  destruct (_ && _); [done|]. cbn [open_new]. apply settle_keeps; [|by apply Hr].
  intros k' h'. by apply HP.
Qed.

(** The sequence numbers of packets are not negative, their ports fit a flow. *)
Definition call_ok (c : call) : Prop :=
  match c with
  | CallAssemble _ t _ => 0 <= Seq t ∧ ∃ f, TransportFlow t = Ok f
  | _ => True
  end.

Lemma close_half_keeps P h : keeps P (close_half h).
Proof. unfold keeps. by rewrite close_half_closed. Qed.

Lemma allowed_rested o c st st' : call_ok c → allowed o c st st' →
  all_conns rested st → all_conns rested st'.
Proof.
  intros Hc Ha HP. destruct Ha.
  - apply assemble_keeps; [|by intros; split|done]. intros h Hh. apply receive_rested; [apply Hc | done].
  - apply visit_keeps; [|done]. intros h. apply flush_half_keeps. apply skip_flush_rested.
  - apply visit_keeps; [|done]. intros h _. apply close_half_keeps.
Qed.
