(* ===== verification/TcpRefine.v ===== *)
(** * The assembler implements its specification *)

From S2P Require Import Prelude SerializeBuffer LayerClasses Flows BaseLayers Tcp Links TcpAssembly TcpStream.

(** [m] returns from [w], with a value and a world that satisfy [Q]. *)
Abbreviation runs m w Q := (wp m Q (fun _ _ => False) w).

Section frames.
Implicit Types w : world.

(** ** Reading back what was written *)

Definition put_page (l : loc) (p : page) (w : world) : world := set_mem (<[l := p]> (mem w)) w.
Definition put_conn (c : loc) (v : connection) (w : world) : world :=
  set_objs (<[c := v]> (objs w)) w.

Lemma page_put w l p l' : page_at (put_page l p w) l' = if decide (l = l') then p else page_at w l'.
Proof.
  unfold page_at, put_page. cbn. case_decide as H; [subst; by rewrite lookup_insert_eq|].
  by rewrite lookup_insert_ne.
Qed.
Lemma page_put_eq w l p : page_at (put_page l p w) l = p.
Proof. rewrite page_put. by rewrite decide_True. Qed.
Lemma page_put_ne w l p l' : l ≠ l' → page_at (put_page l p w) l' = page_at w l'.
Proof. intros. rewrite page_put. by rewrite decide_False. Qed.
Lemma conn_put_eq w c v : conn_at (put_conn c v w) c = v.
Proof. unfold conn_at, put_conn. cbn. by rewrite lookup_insert_eq. Qed.
Lemma conn_put_ne w c v c' : c ≠ c' → conn_at (put_conn c v w) c' = conn_at w c'.
Proof. intros. unfold conn_at, put_conn. cbn. by rewrite lookup_insert_ne. Qed.

Lemma wp_load_page l w Q E : wp (load_page l) Q E w ↔ Q (page_at w l) w.
Proof. reflexivity. Qed.
Lemma wp_store_page l p w Q E : wp (store_page l p) Q E w ↔ Q tt (put_page l p w).
Proof. reflexivity. Qed.
Lemma wp_update_page l f w Q E :
  wp (update_page l f) Q E w ↔ Q tt (put_page l (f (page_at w l)) w).
Proof. reflexivity. Qed.
Lemma wp_load_conn c w Q E : wp (load_conn c) Q E w ↔ Q (conn_at w c) w.
Proof. reflexivity. Qed.
Lemma wp_update_conn c f w Q E :
  wp (update_conn c f) Q E w ↔ Q tt (put_conn c (f (conn_at w c)) w).
Proof. reflexivity. Qed.

(** ** Linked lists of pages *)

(** The pages [ls], doubly linked, between [prev] and [next]. *)
Abbreviation seg w := (linked (fun l => p_prev (page_at w l)) (fun l => p_next (page_at w l))).

Definition content w (ls : list loc) : list qpage :=
  (fun l => (p_seq (page_at w l), p_re (page_at w l))) <$> ls.

Lemma seg_ext w w' ls prev next :
  (∀ l, l ∈ ls → page_at w' l = page_at w l) → seg w prev ls next → seg w' prev ls next.
Proof. intros H. apply linked_ext. intros l Hl. by rewrite H. Qed.

Lemma content_ext w w' ls :
  (∀ l, l ∈ ls → page_at w' l = page_at w l) → content w' ls = content w ls.
Proof. intros H. apply list_fmap_ext. intros i l Hl. rewrite H; [done|]. by eapply list_elem_of_lookup_2. Qed.

Lemma seg_app w prev l1 l2 next :
  seg w prev (l1 ++ l2) next ↔ seg w prev l1 (hd_or l2 next) ∧ seg w (last_or prev l1) l2 next.
Proof. apply linked_app. Qed.

(** Linking the ends elsewhere. *)
Lemma seg_set_next w prev ls l next next' : l ∉ ls → seg w prev (ls ++ [l]) next →
  seg (put_page l (set_next next' (page_at w l)) w) prev (ls ++ [l]) next'.
Proof.
  intros Hl. rewrite !seg_app. cbn. intros (H1 & H2 & _ & _). rewrite page_put_eq. cbn.
  split; [|done]. eapply seg_ext; [|apply H1]. intros l' Hl'. apply page_put_ne. congruence.
Qed.
Lemma seg_set_prev w prev prev' l ls next : l ∉ ls → seg w prev (l :: ls) next →
  seg (put_page l (set_prev prev' (page_at w l)) w) prev' (l :: ls) next.
Proof.
  intros Hl (H1 & H2 & H3). cbn. rewrite page_put_eq. cbn. split_and!; [done..|].
  eapply seg_ext; [|apply H3]. intros l' Hl'. apply page_put_ne. congruence.
Qed.

(** Relinking changes no content. *)
Lemma content_put w ls l p : p_seq p = p_seq (page_at w l) → p_re p = p_re (page_at w l) →
  content (put_page l p w) ls = content w ls.
Proof.
  intros H1 H2. apply list_fmap_ext. intros i l' _. rewrite page_put. case_decide; [subst|done].
  by rewrite H1, H2.
Qed.

Lemma content_app w l1 l2 : content w (l1 ++ l2) = content w l1 ++ content w l2.
Proof. apply fmap_app. Qed.
Lemma length_content w ls : length (content w ls) = length ls.
Proof. apply length_fmap. Qed.
Lemma len_content w ls : len (content w ls) = len ls.
Proof. unfold len. by rewrite length_content. Qed.

(** ** The heap: every page is free or in one place of one list *)

Record heap_ok w (L : list loc) : Prop := mkHeapOk {
  heap_nodup : NoDup (pc_free (pc w) ++ L);
  heap_bound : ∀ l, l ∈ pc_free (pc w) ++ L → Z.of_nat l < pc_size (pc w);
  heap_size : len (pc_free (pc w)) + len L = pc_size (pc w);
  heap_used : pc_used (pc w) = len L;
  heap_grow : 0 < pcSize (pc w);
}.

Lemma heap_perm w L L' : L ≡ₚ L' → heap_ok w L → heap_ok w L'.
Proof.
  intros HP [H1 H2 H3 H4 H5]. assert (len L = len L') as Hl by (unfold len; by rewrite HP).
  split; rewrite <-?Hl; try done; [by rewrite <-HP|]. intros l. rewrite <-HP. apply H2.
Qed.

Lemma heap_pc w w' L : pc w' = pc w → heap_ok w L → heap_ok w' L.
Proof. intros Hpc []. split; rewrite Hpc; done. Qed.

Lemma heap_fuel w L : heap_ok w L → (length L < page_fuel w)%nat.
Proof.
  intros [_ _ H3 _ _]. unfold page_fuel, len in *. lia.
Qed.

Lemma grow_cache_ok w L : heap_ok w L → heap_ok (set_pc (grow_cache (pc w)) w) L.
Proof.
  intros [H1 H2 H3 H4 H5]. pose proof (len_nonneg L). pose proof (len_nonneg (pc_free (pc w))).
  assert (∀ l, l ∈ pc_free (pc w) ∨ l ∈ L → Z.of_nat l < pc_size (pc w)) as Hb.
  { intros l Hl. apply H2, elem_of_app, Hl. }
  split; cbn; try done; try lia.
  - apply NoDup_app in H1 as (N1 & N2 & N3). apply NoDup_app. split_and!; [|..|done].
    + apply NoDup_app. split_and!; [done| |apply NoDup_ListNoDup, seq_NoDup].
      intros l Hl Hs. apply elem_of_seq in Hs. specialize (Hb l (or_introl Hl)). lia.
    + intros l. rewrite elem_of_app, elem_of_seq. intros [Hl|Hl] Hin; [by eapply N2|].
      specialize (Hb l (or_intror Hin)). lia.
  - intros l. rewrite !elem_of_app, elem_of_seq.
    intros [[Hl|Hl]|Hl]; [specialize (Hb l (or_introl Hl)) | | specialize (Hb l (or_intror Hl))]; lia.
  - rewrite len_app. unfold len at 2. rewrite length_seq. lia.
Qed.

(** [next] takes a page that no list holds. *)
Lemma next_page_ok w L ts : heap_ok w L → ∃ p pc' mem',
  let w' := set_mem mem' (set_pc pc' w) in
  next_page ts w = (Ok p, w') ∧ heap_ok w' (p :: L) ∧
  (∃ seq, page_at w' p = mkPage (mkReassembly [] 0 false false ts) seq None None) ∧
  ∀ l, l ∈ L → page_at w' l = page_at w l.
Proof.
  intros H. unfold next_page.
  set (c := if len (pc_free (pc w)) =? 0 then grow_cache (pc w) else pc w).
  assert (heap_ok (set_pc c w) L ∧ pc_free c ≠ []) as [Hc Hne].
  { unfold c. destruct (Z.eqb_spec (len (pc_free (pc w))) 0) as [H0|H0].
    - split; [by apply grow_cache_ok|]. cbn. apply len_zero in H0. rewrite H0. cbn.
      destruct H as [_ _ _ _ Hg]. destruct (Z.to_nat (pcSize (pc w))) eqn:E; [lia | done].
    - split; [eapply heap_pc, H; done|]. intros E. by rewrite E in H0. }
  destruct (exists_last Hne) as (free & p & Hfree).
  assert (index (pc_free c) (len (pc_free c) - 1) = Ok p) as Hi.
  { rewrite Hfree, len_app, len_cons, len_nil. unfold index.
    destruct (Z.ltb_spec (len free + (1 + 0) - 1) 0); [lens|].
    replace (Z.to_nat _) with (length free) by (unfold len; lia). by rewrite list_lookup_middle. }
  assert (slice_to (pc_free c) (len (pc_free c) - 1) = Ok free) as Hs.
  { rewrite Hfree. apply slice_to_app. lens. }
  exists p. do 2 eexists. cbv zeta. split.
  { unfold gets, mbind, M_bind, lift. fold c. rewrite Hi, Hs. reflexivity. }
  destruct Hc as [H1 H2 H3 H4 H5]. cbn in H1, H2, H3, H4, H5. rewrite Hfree in H1, H2, H3.
  split_and!.
  - split; cbn; [..|done].
    + eapply NoDup_Permutation_proper; [|apply H1]. solve_Permutation.
    + intros l Hl. apply H2. rewrite !elem_of_app, list_elem_of_singleton.
      rewrite elem_of_app, elem_of_cons in Hl. tauto.
    + revert H3. lens.
    + rewrite len_cons. lia.
  - unfold page_at. cbn. rewrite lookup_insert_eq. by eexists.
  - intros l Hl. unfold page_at. cbn. rewrite lookup_insert_ne; [done|]. intros ->.
    rewrite <-app_assoc in H1. apply NoDup_app in H1 as (_ & _ & H1). cbn in H1.
    apply NoDup_cons in H1. tauto.
Qed.

Lemma replace_page_ok w l L : heap_ok w (l :: L) → ∃ pc',
  replace_page l w = (Ok tt, set_pc pc' w) ∧ heap_ok (set_pc pc' w) L.
Proof.
  intros [H1 H2 H3 H4 H5]. eexists. split; [reflexivity|]. rewrite len_cons in H3, H4.
  split; cbn; [..|done].
  - eapply NoDup_Permutation_proper; [|apply H1]. solve_Permutation.
  - intros l' Hl. apply H2. rewrite !elem_of_app, list_elem_of_singleton in Hl.
    rewrite elem_of_app, elem_of_cons. tauto.
  - lens.
  - lia.
Qed.

(** ** The pages of a packet *)

Lemma heap_nodup_tail w L : heap_ok w L → NoDup L.
Proof. intros [H _ _ _ _]. by apply NoDup_app in H as (_ & _ & ?). Qed.

Lemma heap_put w l p L : heap_ok w L → heap_ok (put_page l p w) L.
Proof. by apply heap_pc. Qed.

Lemma slice_page (bs : bytes) :
  slice_to bs (Z.min (len bs) pageBytes) = Ok (take (Z.to_nat pageBytes) bs) ∧
  slice_from bs (Z.min (len bs) pageBytes) = Ok (drop (Z.to_nat pageBytes) bs).
Proof.
  rewrite slice_to_ok, slice_from_ok by (unfold pageBytes; lens). unfold len, pageBytes.
  destruct (Nat.le_gt_cases (length bs) 1900).
  - rewrite !take_ge, !drop_ge by lia. done.
  - replace (Z.to_nat (Z.min _ _)) with (Z.to_nat 1900) by lia. done.
Qed.

Lemma fill_pages_ok fuel : ∀ w ts current seq bs n L prev,
  heap_ok w L → current ∈ L → (length bs < fuel)%nat →
  (∃ sq, page_at w current = mkPage (mkReassembly [] 0 false false ts) sq prev None) →
  ∃ new l pc' mem', let w' := set_mem mem' (set_pc pc' w) in
    fill_pages fuel ts current seq bs n w = (Ok (l, n + len new), w') ∧
    heap_ok w' (new ++ L) ∧ seg w' prev (current :: new) None ∧
    content w' (current :: new) = cut_pages fuel ts false seq bs ∧
    last (current :: new) = Some l ∧
    ∀ l', l' ∈ L → l' ≠ current → page_at w' l' = page_at w l'.
Proof.
  induction fuel as [|fuel IH]; intros w ts current seq bs n L prev Hh HL Hf (sq & Hp); [lia|].
  pose proof (slice_page bs) as [Ht Hd].
  set (data := take _ _) in Ht. set (rest := drop _ _) in Hd.
  set (w1 := put_page current (set_data data seq (page_at w current)) w).
  assert (heap_ok w1 L) as Hh1 by by apply heap_put.
  assert (page_at w1 current = mkPage (mkReassembly data 0 false false ts) seq prev None) as Hp1.
  { unfold w1. by rewrite page_put_eq, Hp. }
  cbn [fill_pages cut_pages]. cbv zeta. fold data rest.
  rewrite (bind_ok _ _ _ data w) by (unfold lift; by rewrite Ht).
  rewrite (bind_ok _ _ _ tt w1) by done.
  rewrite (bind_ok _ _ _ rest w1) by (unfold lift; by rewrite Hd).
  destruct (Z.eqb_spec (len rest) 0) as [H0|H0].
  { exists [], current, (pc w), (mem w1). split_and!.
    - by rewrite len_nil, Z.add_0_r.
    - done.
    - cbn. change (set_mem _ _) with w1. by rewrite Hp1.
    - change (set_mem _ _) with w1. cbn. by rewrite Hp1.
    - done.
    - intros l' _ Hne. change (set_mem _ _) with w1. by apply page_put_ne. }
  destruct (next_page_ok w1 L ts Hh1) as (q & pc2 & mem2 & Hn & Hh2 & (sq2 & Hq) & Hfr).
  set (w2 := set_mem mem2 (set_pc pc2 w1)) in *.
  rewrite (bind_ok _ _ _ q w2) by done.
  assert (current ≠ q) as Hcq.
  { apply heap_nodup_tail, NoDup_cons in Hh2 as [Hh2 _]. congruence. }
  set (w3 := put_page current (set_next (Some q) (page_at w2 current)) w2).
  rewrite (bind_ok _ _ _ tt w3) by done.
  set (w4 := put_page q (set_prev (Some current) (page_at w3 q)) w3).
  rewrite (bind_ok _ _ _ tt w4) by done.
  assert (∀ l', l' ∈ L → l' ≠ current → page_at w4 l' = page_at w l') as Hfr4.
  { intros l' Hl' Hne. unfold w4, w3. rewrite !page_put_ne, Hfr; [|done..|].
    - by apply page_put_ne.
    - intros ->. apply heap_nodup_tail, NoDup_cons in Hh2 as [Hh2 _]. done. }
  assert (page_at w4 current = mkPage (mkReassembly data 0 false false ts) seq prev (Some q)) as Hp4.
  { unfold w4, w3. by rewrite page_put_ne, page_put_eq, Hfr, Hp1. }
  assert (Z.min (len bs) pageBytes = pageBytes) as Hmin.
  { unfold rest, pageBytes in H0. rewrite len_drop in H0. unfold pageBytes. lia. }
  rewrite Hmin.
  destruct (IH w4 ts q (Add seq pageBytes) rest (n + 1) (q :: L) (Some current))
    as (new & l & pc' & mem' & He & Hh' & Hseg & Hc & Hlast & Hfr').
  - by do 2 apply heap_put.
  - left.
  - unfold rest. rewrite length_drop. unfold rest, pageBytes, len in *. rewrite length_drop in H0. lia.
  - exists sq2. unfold w4. rewrite page_put_eq. unfold w3. by rewrite page_put_ne, Hq.
  - exists (q :: new), l, pc', mem'. cbv zeta.
    change (set_mem mem' (set_pc pc' w)) with (set_mem mem' (set_pc pc' w4)).
    assert (page_at (set_mem mem' (set_pc pc' w4)) current = page_at w4 current) as Hcur.
    { apply Hfr'; [by right | done]. }
    split_and!.
    + rewrite He. do 2 f_equal. rewrite len_cons. f_equal. lia.
    + eapply heap_perm, Hh'. solve_Permutation.
    + cbn [seg]. rewrite Hcur, Hp4. exact (conj eq_refl (conj eq_refl Hseg)).
    + unfold content in *. cbn [fmap list_fmap]. rewrite Hcur, Hp4. by rewrite <-Hc.
    + by rewrite last_cons, Hlast.
    + intros l' Hl' Hne. rewrite Hfr', Hfr4; [done..|by right|].
      intros ->. apply heap_nodup_tail, NoDup_cons in Hh2 as [Hh2 _]. done.
Qed.

Lemma cut_pages_last fuel ts : ∀ seq bs, (length bs < fuel)%nat → ∃ A s d, ∀ fin,
  cut_pages fuel ts fin seq bs = A ++ [(s, mkReassembly d 0 false fin ts)].
Proof.
  induction fuel as [|fuel IH]; intros seq bs Hf; [lia|]. cbn [cut_pages].
  destruct (Z.eqb_spec (len (drop (Z.to_nat pageBytes) bs)) 0) as [H0|H0].
  - by eexists [], seq, _.
  - destruct (IH (Add seq pageBytes) (drop (Z.to_nat pageBytes) bs)) as (A & s & d & HA).
    { unfold pageBytes, len in *. rewrite length_drop in *. lia. }
    eexists (_ :: A), s, d. intros fin. by rewrite HA.
Qed.

Lemma pagesFromTCP_ok w t ts L : heap_ok w L → ∃ new p l pc' mem',
  let w' := set_mem mem' (set_pc pc' w) in
  pagesFromTCP t ts w = (Ok (p, l, len new), w') ∧
  heap_ok w' (new ++ L) ∧ seg w' None new None ∧ content w' new = new_pages t ts ∧
  head new = Some p ∧ last new = Some l ∧ ∀ l', l' ∈ L → page_at w' l' = page_at w l'.
Proof.
  intros Hh. unfold pagesFromTCP.
  destruct (next_page_ok w L ts Hh) as (p & pc1 & mem1 & Hn & Hh1 & (sq & Hp) & Hfr).
  set (w1 := set_mem mem1 (set_pc pc1 w)) in *. rewrite (bind_ok _ _ _ p w1) by done.
  set (bs := Payload (base t)).
  destruct (fill_pages_ok (S (length bs)) w1 ts p (Seq t) bs 1 (p :: L) None) as
    (new & l & pc2 & mem2 & He & Hh2 & Hseg & Hc & Hl & Hfr2); [done | left | lia | by exists sq |].
  set (w2 := set_mem mem2 (set_pc pc2 w1)) in *. rewrite (bind_ok _ _ _ _ w2 He). cbn [fst snd].
  rewrite (bind_ok _ _ _ tt (put_page l (set_End (RST t || FIN t) (page_at w2 l)) w2)) by done.
  set (w3 := put_page l _ w2).
  assert (NoDup (p :: new)) as Hnd.
  { apply heap_nodup_tail in Hh2. eapply NoDup_app with (l := L).
    eapply NoDup_Permutation_proper; [|apply Hh2]. solve_Permutation. }
  apply last_Some in Hl as [ls Hls].
  assert (l ∉ ls) as Hnl.
  { rewrite Hls in Hnd. apply NoDup_app in Hnd as (_ & Hnd & _). intros Hin.
    apply (Hnd l Hin). left. }
  exists (p :: new), p, l, pc2, (mem w3). cbv zeta. change (set_mem _ (set_pc pc2 w)) with w3.
  split_and!.
  - rewrite len_cons. reflexivity.
  - apply heap_put. eapply heap_perm, Hh2. solve_Permutation.
  - rewrite Hls in *. rewrite seg_app in Hseg |- *. destruct Hseg as [Hs1 Hs2]. split.
    + eapply seg_ext; [|apply Hs1]. intros l' Hl'. apply page_put_ne. congruence.
    + cbn in *. unfold w3. rewrite page_put_eq. done.
  - unfold new_pages. fold bs.
    destruct (cut_pages_last (S (length bs)) ts (Seq t) bs) as (A & s & d & HA); [lia|].
    rewrite HA in Hc |- *. rewrite Hls in *. unfold content in *.
    rewrite !fmap_app in Hc |- *. apply app_inj_2 in Hc as [Hc1 Hc2]; [|done].
    cbn in Hc2 |- *. unfold w3. rewrite page_put_eq. cbn. injection Hc2 as -> ->. cbn. f_equal.
    rewrite <-Hc1. apply content_ext. intros l' Hl'. apply page_put_ne. congruence.
  - done.
  - by rewrite Hls, last_snoc.
  - intros l' Hl'. assert (l' ≠ p) as Hne.
    { intros ->. apply heap_nodup_tail, NoDup_cons in Hh1 as [Hh1 _]. done. }
    unfold w3. rewrite page_put_ne.
    + rewrite Hfr2; [by apply Hfr | by right | done].
    + intros ->. assert (l' ∈ p :: new) as Hin by (rewrite Hls, elem_of_app; right; left).
      apply heap_nodup_tail, NoDup_app in Hh2 as (_ & Hd & _).
      apply elem_of_cons in Hin as [|Hin]; [done|]. apply (Hd l' Hin). by right.
Qed.

(** ** Inserting into a list *)

Lemma traverse_ok w seq fuel : ∀ A B, (length A <= fuel)%nat → seg w None (A ++ B) None →
  Forall (after seq) (content w B) → ∃ A' B',
    traverse fuel seq (last A) (head B) w = (Ok (last A', head B'), w) ∧
    A' ++ B' = A ++ B ∧ Forall (after seq) (content w B') ∧
    (A' = [] ∨ ∃ A0 a, A' = A0 ++ [a] ∧ ¬ after seq (p_seq (page_at w a), p_re (page_at w a))).
Proof.
  induction fuel as [|fuel IH]; intros A B Hf Hseg HB.
  - destruct A; [|cbn in Hf; lia]. exists [], B. cbn. auto.
  - destruct A as [|a A _] using rev_ind; [exists [], B; cbn; auto|].
    rewrite last_snoc. cbn [traverse]. rewrite (bind_ok _ _ _ (page_at w a) w) by done.
    destruct (Z.ltb_spec (Difference (p_seq (page_at w a)) seq) 0) as [Hlt|Hge].
    + rewrite <-app_assoc, seg_app in Hseg. destruct Hseg as [Hs1 Hs2].
      pose proof Hs2 as (Hprev & _ & _).
      assert (p_prev (page_at w a) = last A) as ->.
      { rewrite Hprev. unfold last_or. by destruct (last A). }
      destruct (IH A (a :: B)) as (A' & B' & He & Happ & Hr).
      * rewrite length_app in Hf. cbn in Hf. lia.
      * rewrite seg_app. done.
      * constructor; [exact Hlt | done].
      * exists A', B'. rewrite <-app_assoc. done.
    + exists (A ++ [a]), B. rewrite last_snoc. split_and!; [done..|]. right.
      exists A, a. split; [done|]. unfold after. cbn. lia.
Qed.

(** The pages [l] and [n] now follow each other. *)
Definition relinked w w' (l n : loc) : Prop :=
  page_at w' l = set_next (Some n) (page_at w l) ∧
  page_at w' n = set_prev (Some l) (page_at w n) ∧
  ∀ x, x ≠ l → x ≠ n → page_at w' x = page_at w x.

Lemma relinked_seg w w' X l n Y px nx py ny : relinked w w' l n → NoDup ((X ++ [l]) ++ n :: Y) →
  seg w px (X ++ [l]) nx → seg w py (n :: Y) ny →
  seg w' px (X ++ [l]) (Some n) ∧ seg w' (Some l) (n :: Y) ny.
Proof.
  intros (Hl & Hn & Hx) Hnd. rewrite !seg_app. cbn [seg].
  intros (HX & Hpl & _ & _) (Hpn & Hnn & HY).
  apply NoDup_app in Hnd as (HndX & Hdis & HndY).
  apply NoDup_app in HndX as (_ & HXl & _). apply NoDup_cons in HndY as [HnY _].
  assert (l ∉ n :: Y) as HlY by (apply Hdis, elem_of_app; right; left).
  rewrite Hl, Hn. cbn. rewrite not_elem_of_cons in HlY. split_and!; try done.
  - eapply seg_ext; [|apply HX]. intros x Hin. apply Hx.
    + intros ->. apply (HXl l Hin). left.
    + intros ->. apply (Hdis n); [apply elem_of_app; by left | left].
  - eapply seg_ext; [|apply HY]. intros x Hin. apply Hx; [intros ->; tauto | congruence].
Qed.

Lemma relinked_content w w' l n ls : relinked w w' l n → content w' ls = content w ls.
Proof.
  intros (Hl & Hn & Hx). apply list_fmap_ext. intros i x _.
  destruct (decide (x = l)) as [->|]; [by rewrite Hl|].
  destruct (decide (x = n)) as [->|]; [by rewrite Hn|]. by rewrite Hx.
Qed.

Lemma relinked_next_prev w l n : l ≠ n →
  let w1 := put_page l (set_next (Some n) (page_at w l)) w in
  relinked w (put_page n (set_prev (Some l) (page_at w1 n)) w1) l n.
Proof.
  intros Hne w1. unfold w1. split_and!.
  - by rewrite page_put_ne, page_put_eq.
  - by rewrite page_put_eq, page_put_ne.
  - intros x H1 H2. by rewrite !page_put_ne.
Qed.
Lemma relinked_prev_next w l n : l ≠ n →
  let w1 := put_page n (set_prev (Some l) (page_at w n)) w in
  relinked w (put_page l (set_next (Some n) (page_at w1 l)) w1) l n.
Proof.
  intros Hne w1. unfold w1. split_and!.
  - by rewrite page_put_eq, page_put_ne.
  - by rewrite page_put_ne, page_put_eq.
  - intros x H1 H2. by rewrite !page_put_ne.
Qed.

(** What a change of the connection [c] and of pages outside [R] leaves alone. *)
Record frame w w' (c : loc) (R : list loc) : Prop := mkFrame {
  fr_options : options w' = options w;
  fr_pool : pool w' = pool w;
  fr_streams : streams w' = streams w;
  fr_pages : ∀ l, l ∈ R → page_at w' l = page_at w l;
  fr_conns : ∀ c', c' ≠ c → conn_at w' c' = conn_at w c';
}.

Lemma frame_refl w c R : frame w w c R.
Proof. done. Qed.
Lemma frame_trans w1 w2 w3 c R : frame w1 w2 c R → frame w2 w3 c R → frame w1 w3 c R.
Proof.
  intros [H1 H2 H3 H4 H5] [G1 G2 G3 G4 G5].
  split; [congruence..| |]; intros; [rewrite G4, H4 | rewrite G5, H5]; done.
Qed.

Lemma frame_sub w w' c R R' : (∀ l, l ∈ R → l ∈ R') → frame w w' c R' → frame w w' c R.
Proof. intros HR [H1 H2 H3 H4 H5]. split; auto. Qed.

Lemma pushBetween_tail w c B X l R :
  NoDup (X ++ [l] ++ B) → (∀ x, x ∈ R → x ∉ X ++ [l] ++ B) →
  seg w None (X ++ [l]) None → (∀ n B', B = n :: B' → ∃ p, seg w p B None) →
  (B ≠ [] → c_last (conn_at w c) = last B) → ∃ mem' objs',
  let w' := set_objs objs' (set_mem mem' w) in
  match head B, c_last (conn_at w c) with
  | None, _ | _, None => update_conn c (fun v => set_ends (c_first v) (Some l) v)
  | Some n, Some _ =>
      _ ← update_page l (set_next (Some n)); update_page n (set_prev (Some l))
  end w = (Ok tt, w') ∧
  seg w' None (X ++ [l]) (head B) ∧ seg w' (Some l) B None ∧
  (∀ ls, content w' ls = content w ls) ∧ frame w w' c R ∧
  conn_at w' c = set_ends (c_first (conn_at w c)) (last ([l] ++ B)) (conn_at w c).
Proof.
  intros Hnd HR Hs HB Hlast. destruct B as [|n B]; cbn [head app].
  - exists (mem w), (<[c := set_ends (c_first (conn_at w c)) (Some l) (conn_at w c)]> (objs w)).
    cbv zeta. change (set_objs _ (set_mem (mem w) w)) with
      (put_conn c (set_ends (c_first (conn_at w c)) (Some l) (conn_at w c)) w).
    split_and!; try done.
    + split; try done. intros c' Hc. by apply conn_put_ne.
    + by rewrite conn_put_eq.
  - destruct (HB n B eq_refl) as [p Hp]. rewrite Hlast by done. rewrite app_assoc in Hnd, HR.
    destruct (last (n :: B)) as [z|] eqn:Hz; [|by apply last_None in Hz].
    assert (l ≠ n) as Hne.
    { apply NoDup_app in Hnd as (_ & Hnd & _). intros ->.
      apply (Hnd n); [apply elem_of_app; right|]; left. }
    pose proof (relinked_next_prev w l n Hne) as Hre. cbv zeta in Hre.
    set (w2 := put_page n _ _) in Hre.
    exists (mem w2), (objs w). cbv zeta. change (set_objs _ (set_mem _ w)) with w2.
    destruct (relinked_seg w w2 X l n B None None p None Hre Hnd Hs Hp) as [Hs1 Hs2].
    do 3 (split; [done|]). split; [intros ls; by eapply relinked_content|]. split.
    + split; try done. intros x Hx. specialize (HR x Hx). rewrite !not_elem_of_app, !not_elem_of_cons in HR.
      apply Hre; tauto.
    + rewrite last_cons, Hz. change (conn_at w2 c) with (conn_at w c).
      rewrite <-(Hlast ltac:(done)). by destruct (conn_at w c).
Qed.

Lemma pushBetween_ok w c A B new p l R :
  NoDup (A ++ new ++ B) → (∀ x, x ∈ R → x ∉ A ++ new ++ B) →
  head new = Some p → last new = Some l →
  seg w None (A ++ B) None → seg w None new None →
  c_first (conn_at w c) = head (A ++ B) → c_last (conn_at w c) = last (A ++ B) → ∃ mem' objs',
  let w' := set_objs objs' (set_mem mem' w) in
  pushBetween c (last A) (head B) p l w = (Ok tt, w') ∧
  seg w' None (A ++ new ++ B) None ∧ (∀ ls, content w' ls = content w ls) ∧ frame w w' c R ∧
  conn_at w' c = set_ends (head (A ++ new ++ B)) (last (A ++ new ++ B)) (conn_at w c).
Proof.
  intros Hnd HR Hp Hl HAB Hnew Hfirst Hlast.
  apply last_Some in Hl as [X ->]. apply seg_app in HAB as [HA HB].
  pose proof Hnd as Hnd'. apply NoDup_app in Hnd' as (HndA & HdA & HndN).
  assert (∀ x, x ∈ A ++ R → x ∉ X ++ [l] ++ B) as HAR.
  { intros x. rewrite elem_of_app, app_assoc. intros [Hx|Hx]; [by apply HdA|].
    specialize (HR x Hx). rewrite !not_elem_of_app in *. tauto. }
  destruct (pushBetween_tail w c B X l (A ++ R)) as (mem1 & objs1 & He & Hs1 & HB1 & Hc1 & Hf1 & Hv1).
  - by rewrite <-app_assoc in HndN.
  - done.
  - done.
  - intros n B' ->. eauto.
  - intros HBne. rewrite Hlast. destruct B as [|n B] using rev_ind; [done|].
    by rewrite app_assoc, !last_snoc.
  - set (w1 := set_objs objs1 (set_mem mem1 w)) in *. cbv zeta in He.
    unfold pushBetween. rewrite (bind_ok _ _ _ (conn_at w c) w) by done.
    rewrite (bind_ok _ _ _ tt w1) by exact He. rewrite (bind_ok _ _ _ (conn_at w1 c) w1) by done.
    assert (c_first (conn_at w1 c) = head (A ++ B)) as Hf by by rewrite Hv1.
    assert (frame w w1 c R) as Hf1'.
    { eapply frame_sub, Hf1. intros x Hx. apply elem_of_app. by right. }
    assert (seg w1 None A (hd_or B None)) as HA1.
    { eapply seg_ext, HA. intros x Hx. apply Hf1, elem_of_app. by left. }
    assert (seg w1 None ((X ++ [l]) ++ B) None) as Hs2.
    { apply seg_app. split; [by destruct B|]. unfold last_or. by rewrite last_snoc. }
    assert (last (A ++ (X ++ [l]) ++ B) = last ([l] ++ B)) as ->.
    { rewrite <-!app_assoc. rewrite !last_app. by destruct (last B). }
    destruct A as [|a A _] using rev_ind.
    + exists mem1, (<[c := set_ends (Some p) (c_last (conn_at w1 c)) (conn_at w1 c)]> objs1).
      cbv zeta. change (set_objs _ (set_mem mem1 w)) with
        (put_conn c (set_ends (Some p) (c_last (conn_at w1 c)) (conn_at w1 c)) w1).
      split; [done|]. split; [by eapply seg_ext, Hs2|]. split.
      { intros ls. rewrite <-(Hc1 ls). by apply content_ext. }
      split.
      * eapply frame_trans; [apply Hf1'|]. split; try done. intros. by apply conn_put_ne.
      * rewrite conn_put_eq, Hv1. unfold set_ends. cbn. f_equal.
        rewrite <-Hp. by destruct X.
    + rewrite Hf, last_snoc. destruct (head ((A ++ [a]) ++ B)) as [z|] eqn:Hz; [|by destruct A].
      assert (X ++ [l] = p :: tail (X ++ [l])) as HX.
      { destruct X; cbn in Hp; injection Hp as ->; done. }
      set (Y := tail (X ++ [l])) in HX. rewrite HX in *. cbn [app] in *.
      assert (a ≠ p) as Hne.
      { intros ->. apply (HdA p); [apply elem_of_app; right|]; left. }
      pose proof (relinked_prev_next w1 a p Hne) as Hre. cbv zeta in Hre.
      set (w2 := put_page a _ _) in Hre.
      exists (mem w2), (objs w2). cbv zeta. change (set_objs _ (set_mem _ w)) with w2.
      destruct (relinked_seg w1 w2 A a p (Y ++ B) None (hd_or B None) None None Hre) as [G1 G2]; [done..|].
      split; [done|]. split.
      { apply seg_app. split; [done|]. unfold last_or. by rewrite last_snoc. }
      split; [intros ls; erewrite relinked_content by exact Hre; apply Hc1|]. split.
      * eapply frame_trans; [apply Hf1'|]. split; try done. intros x Hx.
        specialize (HR x Hx). rewrite !not_elem_of_app, !not_elem_of_cons in HR. apply Hre; tauto.
      * change (conn_at w2 c) with (conn_at w1 c). rewrite Hv1. unfold set_ends. cbn. f_equal.
        rewrite Hfirst. destruct A; done.
Qed.

(** ** A connection and its specification *)

(** The object [c] is the open connection of key [k] with the pages [ls];
    the pages [R] are those of the other connections. *)
Record focus w (c : loc) (k : key) (ls R : list loc) (h : half) : Prop := mkFocus {
  f_key : c_key (conn_at w c) = k;
  f_open : c_closed (conn_at w c) = false;
  f_stream : c_stream (conn_at w c) = Some (h_stream h);
  f_next : c_nextSeq (conn_at w c) = h_next h;
  f_seen : c_lastSeen (conn_at w c) = h_lastSeen h;
  f_pages : c_pages (conn_at w c) = len ls;
  f_first : c_first (conn_at w c) = head ls;
  f_last : c_last (conn_at w c) = last ls;
  f_seg : seg w None ls None;
  f_queue : content w ls = h_queue h;
  f_heap : heap_ok w (ls ++ R);
}.

Lemma byteSpan_eq expected received bs : byteSpan expected received bs = Ok (span expected received bs).
Proof.
  unfold byteSpan, span. destruct (_ =? _); [done|]. cbv zeta.
  destruct (Z.leb_spec (Difference received expected) 0); [done|].
  destruct (Z.ltb_spec (len bs) (Difference received expected)); [done|].
  by rewrite slice_from_ok by lia.
Qed.

(** The first page gets what [pop] says. *)
Lemma pop_page w l p : p = (p_seq (page_at w l), p_re (page_at w l)) → ∀ next,
  let w1 := if next =? invalidSequence then put_page l (set_Skip (-1) (page_at w l)) w
            else if Difference next p.1 >? 0 then put_page l (set_Skip (Difference next p.1) (page_at w l)) w
            else w in
  set_Bytes (span next p.1 (Bytes p.2)).1 (page_at w1 l) =
    mkPage (pop next p).1 p.1 (p_prev (page_at w l)) (p_next (page_at w l)).
Proof.
  intros -> next. unfold pop. cbn [fst snd].
  destruct (next =? invalidSequence); [by rewrite page_put_eq|].
  destruct (_ >? 0); [by rewrite page_put_eq | done].
Qed.

Lemma addNextFromConn_ok w c k l ls R h p q : focus w c k (l :: ls) R h → h_queue h = p :: q → ∃ w',
  addNextFromConn c w = (Ok tt, w') ∧
  ret w' = ret w ++ [(pop (h_next h) p).1] ∧ trace w' = trace w ∧ frame w w' c R ∧
  focus w' c k ls R (set_queue (pop (h_next h) p).2 q h).
Proof.
  intros [Hk Ho Hst Hn Hse Hp Hf Hl Hs Hq Hh] Hpq. rewrite Hpq in Hq.
  injection Hq as Hpl Hcq. unfold addNextFromConn.
  rewrite (bind_ok _ _ _ (conn_at w c) w) by done. rewrite Hf, Hn. cbn [head].
  rewrite (bind_ok _ _ _ l w) by done. rewrite (bind_ok _ _ _ (page_at w l) w) by done.
  pose proof (pop_page w l p (eq_sym Hpl) (h_next h)) as Hpop. cbv zeta in Hpop.
  set (w1 := if h_next h =? invalidSequence then _ else _) in Hpop.
  assert (w1 = set_mem (mem w1) w) as Hw1.
  { unfold w1. destruct (_ =? _); [done|]. destruct (_ >? _); [done|]. by destruct w. }
  assert (∀ l', l' ≠ l → page_at w1 l' = page_at w l') as Hfr1.
  { intros l' Hne. unfold w1. destruct (_ =? _); [|destruct (_ >? _); [|done]]; by apply page_put_ne. }
  rewrite (bind_ok _ _ _ tt w1).
  2:{ unfold w1. rewrite <-Hpl. cbn [fst]. cbv zeta. repeat case_match; done. }
  clearbody w1. rewrite byteSpan_eq.
  assert (p_seq (page_at w l) = p.1 ∧ Bytes (p_re (page_at w l)) = Bytes p.2) as [-> ->] by (by rewrite <-Hpl).
  rewrite (bind_ok _ _ _ (span (h_next h) p.1 (Bytes p.2)) w1) by done.
  change (span (h_next h) p.1 (Bytes p.2)).2 with (pop (h_next h) p).2.
  set (pg := mkPage (pop (h_next h) p).1 p.1 (p_prev (page_at w l)) (p_next (page_at w l))) in *.
  set (w2 := put_page l pg w1). rewrite (bind_ok _ _ _ tt w2) by (unfold w2; by rewrite <-Hpop).
  set (w3 := put_conn c (set_nextSeq (pop (h_next h) p).2 (conn_at w2 c)) w2).
  rewrite (bind_ok _ _ _ tt w3) by done.
  rewrite (bind_ok _ _ _ pg w3) by (unfold load_page, gets;
    change (page_at w3 l) with (page_at w2 l); unfold w2; by rewrite page_put_eq).
  set (w4 := set_ret (ret w3 ++ [p_re pg]) w3). rewrite (bind_ok _ _ _ tt w4) by done.
  assert (heap_ok w4 (l :: ls ++ R)) as Hh4 by (eapply heap_pc, Hh; unfold w4; cbn; by rewrite Hw1).
  destruct (replace_page_ok w4 l (ls ++ R) Hh4) as (pc5 & He5 & Hh5).
  set (w5 := set_pc pc5 w4) in *. rewrite (bind_ok _ _ _ tt w5) by done.
  assert (conn_at w5 c = set_nextSeq (pop (h_next h) p).2 (conn_at w c)) as Hc5.
  { change (conn_at w5 c) with (conn_at w3 c). unfold w3. rewrite conn_put_eq. unfold conn_at, w2. cbn.
    by rewrite Hw1. }
  assert (∀ l', l' ≠ l → page_at w5 l' = page_at w l') as Hfr5.
  { intros l' Hne. change (page_at w5 l') with (page_at w2 l'). unfold w2. rewrite page_put_ne; auto. }
  assert (frame w w5 c R) as Hf5.
  { split; try (cbn; by rewrite Hw1).
    - intros l' Hl'. apply Hfr5. intros ->. apply heap_nodup_tail, NoDup_cons in Hh as [Hh _].
      apply Hh, elem_of_app. by right.
    - intros c' Hc. change (conn_at w5 c') with (conn_at w3 c'). unfold w3. rewrite conn_put_ne by done.
      unfold conn_at, w2. cbn. by rewrite Hw1. }
  assert (ret w5 = ret w ++ [(pop (h_next h) p).1] ∧ trace w5 = trace w) as [Hret Htr].
  { cbn. by rewrite Hw1. }
  assert ((l ∉ ls) ∧ NoDup ls) as [Hlls Hnd].
  { apply heap_nodup_tail in Hh. apply (NoDup_app (l :: ls) R) in Hh as (Hh & _ & _). by apply NoDup_cons in Hh. }
  destruct Hs as (_ & Hnext & Hs).
  assert (content w5 ls = q) as Hcq5.
  { rewrite <-Hcq. apply content_ext. intros x Hx. apply Hfr5. by intros ->. }
  rewrite (bind_ok _ _ _ (conn_at w5 c) w5) by done.
  clearbody w5. destruct ls as [|l' ls].
  - rewrite bool_decide_true by (rewrite Hc5; cbn; by rewrite Hf, Hl).
    set (w6 := put_conn c (set_ends None None (conn_at w5 c)) w5).
    rewrite (bind_ok _ _ _ tt w6) by done.
    set (w7 := put_conn c (set_pages (c_pages (conn_at w6 c) - 1) (conn_at w6 c)) w6).
    assert (conn_at w6 c = set_ends None None (conn_at w5 c)) as Hc6 by apply conn_put_eq.
    exists w7. split_and!; [done..| |].
    { eapply frame_trans; [apply Hf5|]. split; try done. intros. unfold w7, w6. by rewrite !conn_put_ne. }
    split; try (unfold w7; rewrite conn_put_eq, Hc6, Hc5; cbn; (done || by rewrite Hp)).
    + done.
    + exact Hcq5.
    + by eapply heap_pc, Hh5.
  - rewrite bool_decide_false.
    2:{ rewrite Hc5. cbn. rewrite Hf, Hl. cbn [head]. rewrite last_cons_cons. intros E. symmetry in E.
        by apply last_Some_elem_of in E. }
    unfold pg. cbn [p_next]. rewrite Hnext. cbn [hd_or].
    set (w6 := put_conn c (set_ends (Some l') (c_last (conn_at w5 c)) (conn_at w5 c)) w5).
    set (w6' := put_page l' (set_prev None (page_at w6 l')) w6).
    rewrite (bind_ok _ _ _ tt w6') by done.
    set (w7 := put_conn c (set_pages (c_pages (conn_at w6' c) - 1) (conn_at w6' c)) w6').
    assert (conn_at w6' c = set_ends (Some l') (c_last (conn_at w5 c)) (conn_at w5 c)) as Hc6
      by apply conn_put_eq.
    exists w7. split_and!; [done..| |].
    { eapply frame_trans; [apply Hf5|]. split; try done; [|intros; unfold w7; by rewrite conn_put_ne; [apply conn_put_ne|]].
      intros x Hx. change (page_at w6' x = page_at w6 x). apply page_put_ne. intros ->. apply heap_nodup_tail in Hh5.
      apply NoDup_cons in Hh5 as [Hh5 _]. apply Hh5, elem_of_app. by right. }
    split; try (unfold w7; rewrite conn_put_eq, Hc6, Hc5; cbn; done).
    + unfold w7. rewrite conn_put_eq, Hc6, Hc5. cbn. rewrite Hp, !len_cons. lia.
    + eapply seg_ext; [|apply (seg_set_prev w6 (Some l) None l' ls None)].
      * done.
      * by apply NoDup_cons in Hnd as [Hnd _].
      * eapply seg_ext, Hs. intros x Hx. apply Hfr5. by intros ->.
    + rewrite <-Hcq5. change (content w7 (l' :: ls)) with (content w6' (l' :: ls)).
      unfold w6'. by rewrite content_put.
    + by eapply heap_pc, Hh5.
Qed.

Lemma addContiguous_ok k R : ∀ fuel w c ls h rs n rest, focus w c k ls R h → (length ls < fuel)%nat →
  contiguous (h_next h) (h_queue h) = (rs, n, rest) → ∃ w' ls',
  addContiguous fuel c w = (Ok tt, w') ∧ ret w' = ret w ++ rs ∧ trace w' = trace w ∧
  frame w w' c R ∧ focus w' c k ls' R (set_queue n rest h).
Proof.
  induction fuel as [|fuel IH]; intros w c ls h rs n rest Hf Hl Hc; [lia|].
  cbn [addContiguous]. rewrite (bind_ok _ _ _ (conn_at w c) w) by done.
  rewrite (f_first _ _ _ _ _ _ Hf). pose proof (f_queue _ _ _ _ _ _ Hf) as Hq.
  destruct ls as [|l ls].
  - cbn [head]. cbn in Hq. rewrite <-Hq in Hc. injection Hc as <- <- <-.
    exists w, []. rewrite app_nil_r. split_and!; try done.
    destruct h. cbn in Hq. rewrite <-Hq in Hf. done.
  - cbn [head]. rewrite (bind_ok _ _ _ (page_at w l) w) by done.
    rewrite (f_next _ _ _ _ _ _ Hf).
    destruct (h_queue h) as [|p q] eqn:Hhq; [done|]. injection Hq as Hp Hq.
    cbn [contiguous] in Hc. rewrite <-Hp in Hc at 1. cbn [fst] in Hc.
    destruct (_ <=? 0).
    + destruct (addNextFromConn_ok w c k l ls R h p q Hf Hhq) as (w1 & He & Hr & Ht & Hfr & Hf1).
      rewrite (bind_ok _ _ _ tt w1) by done.
      destruct (contiguous (pop (h_next h) p).2 q) as [[rs1 n1] rest1] eqn:Hc1.
      injection Hc as <- <- <-.
      destruct (IH w1 c ls _ rs1 n1 rest1 Hf1) as (w2 & ls' & He2 & Hr2 & Ht2 & Hfr2 & Hf2);
        [cbn in Hl; lia | done |].
      exists w2, ls'. split_and!; [done| | |by eapply frame_trans|done].
      * rewrite Hr2, Hr, <-app_assoc. done.
      * by rewrite Ht2.
    + injection Hc as <- <- <-. exists w, (l :: ls). rewrite app_nil_r. split_and!; try done.
      destruct h. cbn in Hhq. by rewrite Hhq in Hf.
Qed.

(** ** Closing *)

(** [c] is closed and back in the pool, its pages back in the cache. *)
Record closed w w' (c : loc) (k : key) (R : list loc) : Prop := mkClosed {
  cl_options : options w' = options w;
  cl_pool : pool w' =
    mkStreamPool (delete k (sp_conns (pool w))) (sp_users (pool w)) (sp_free (pool w) ++ [c])
      (sp_all (pool w)) (sp_nextAlloc (pool w));
  cl_streams : streams w' = streams w;
  cl_pages : ∀ l, l ∈ R → page_at w' l = page_at w l;
  cl_conns : ∀ c', c' ≠ c → conn_at w' c' = conn_at w c';
  cl_closed : c_closed (conn_at w' c) = true;
  cl_heap : heap_ok w' R;
}.

Lemma replace_pages_ok R fuel : ∀ w prev ls, heap_ok w (ls ++ R) → seg w prev ls None →
  (length ls <= fuel)%nat → ∃ pc', let w' := set_pc pc' w in
  replace_pages fuel (head ls) w = (Ok tt, w') ∧ heap_ok w' R.
Proof.
  induction fuel as [|fuel IH]; intros w prev ls Hh Hs Hl.
  - destruct ls; [|cbn in Hl; lia]. exists (pc w). split; [by destruct w | by eapply heap_pc, Hh].
  - destruct ls as [|l ls].
    { exists (pc w). split; [by destruct w | by eapply heap_pc, Hh]. }
    destruct Hs as (_ & Hn & Hs). cbn [head replace_pages].
    destruct (replace_page_ok w l (ls ++ R) Hh) as (pc1 & He & Hh1).
    rewrite (bind_ok _ _ _ tt _ He). rewrite (bind_ok _ _ _ (page_at w l) (set_pc pc1 w)) by done.
    rewrite Hn. assert (hd_or ls None = head ls) as -> by by destruct ls.
    destruct (IH (set_pc pc1 w) (Some l) ls) as (pc2 & He2 & Hh2); [done| |cbn in Hl; lia|].
    { by eapply seg_ext, Hs. }
    by exists pc2.
Qed.

Lemma closeConnection_ok w c k ls R h : focus w c k ls R h → ∃ w',
  closeConnection c w = (Ok tt, w') ∧ trace w' = trace w ++ [EvComplete (h_stream h)] ∧
  closed w w' c k R.
Proof.
  intros [Hk Ho Hst Hn Hse Hp Hf Hl Hs Hq Hh]. unfold closeConnection.
  rewrite (bind_ok _ _ _ (conn_at w c) w) by done. rewrite Hst.
  set (w1 := add_event (EvComplete (h_stream h)) w). rewrite (bind_ok _ _ _ tt w1) by done.
  set (w2 := put_conn c (set_closed true (conn_at w1 c)) w1). rewrite (bind_ok _ _ _ tt w2) by done.
  assert (conn_at w2 c = set_closed true (conn_at w c)) as Hc2 by apply conn_put_eq.
  set (w3 := set_pool (mkStreamPool (delete k (sp_conns (pool w))) (sp_users (pool w))
    (sp_free (pool w) ++ [c]) (sp_all (pool w)) (sp_nextAlloc (pool w))) w2).
  rewrite (bind_ok _ _ _ tt w3).
  2:{ unfold remove. rewrite (bind_ok _ _ _ (conn_at w2 c) w2) by done.
      rewrite Hc2. cbn [set_closed c_key]. by rewrite Hk. }
  rewrite (bind_ok _ _ _ w3 w3) by done.
  change (conn_at w3 c) with (conn_at w2 c). rewrite Hc2. cbn [set_closed c_first]. rewrite Hf.
  destruct (replace_pages_ok R (page_fuel w3) w3 None ls) as (pc' & He & Hh').
  - by eapply heap_pc, Hh.
  - by eapply seg_ext, Hs.
  - pose proof (heap_fuel w (ls ++ R) Hh) as Hlt. rewrite length_app in Hlt.
    change (page_fuel w3) with (page_fuel w). lia.
  - exists (set_pc pc' w3). split_and!; [done..|]. split; try done.
    + intros c' Hne. change (conn_at w2 c' = conn_at w1 c'). by apply conn_put_ne.
    + change (c_closed (conn_at w2 c) = true). by rewrite Hc2.
Qed.

(** ** Delivery *)

(** The connection has gone on as [r] says. *)
Definition settled w w' (c : loc) (k : key) (R : list loc) (r : result) : Prop :=
  trace w' = trace w ++ r.2 ∧
  match r.1 with
  | Some h => ∃ ls, frame w w' c R ∧ focus w' c k ls R h
  | None => closed w w' c k R
  end.

(** Changes of the return values, the trace and the last packet's time. *)
Lemma focus_ext w w' c k ls R h : pc w' = pc w → mem w' = mem w → conn_at w' c = conn_at w c →
  focus w c k ls R h → focus w' c k ls R h.
Proof.
  intros Hpc Hm Hc [Hk Ho Hst Hn Hse Hp Hf Hl Hs Hq Hh].
  assert (∀ l, page_at w' l = page_at w l) as Hpg by (intros l; unfold page_at; by rewrite Hm).
  split; rewrite ?Hc; try done.
  - by eapply seg_ext, Hs.
  - rewrite <-Hq. by apply content_ext.
  - by eapply heap_pc, Hh.
Qed.

Lemma focus_fuel w c k ls R h : focus w c k ls R h → (length ls < page_fuel w)%nat.
Proof. intros Hf. pose proof (heap_fuel _ _ (f_heap _ _ _ _ _ _ Hf)) as H. rewrite length_app in H. lia. Qed.

Lemma settled_frame w w1 w2 c k R evs r evs' : frame w w1 c R → trace w1 = trace w ++ evs →
  settled w1 w2 c k R (r, evs') → settled w w2 c k R (r, evs ++ evs').
Proof.
  intros Hf Ht [Ht2 Hr]. split; [by rewrite Ht2, Ht, <-app_assoc|]. cbn in *. destruct r as [h|].
  - destruct Hr as (ls & Hf2 & Hh). exists ls. split; [by eapply frame_trans | done].
  - destruct Hf as [H1 H2 H3 H4 H5], Hr as [G1 G2 G3 G4 G5 G6 G7].
    split; try congruence.
    + intros l Hl. rewrite G4, H4; done.
    + intros c' Hc. rewrite G5, H5; done.
Qed.

Lemma sendToConnection_ok w c k ls R h : focus w c k ls R h → ret w ≠ [] → ∃ w',
  sendToConnection c w = (Ok tt, w') ∧ settled w w' c k R (deliver h (ret w)).
Proof.
  intros Hf Hne. unfold sendToConnection, deliver. rewrite (bind_ok _ _ _ w w) by done.
  destruct (contiguous _ _) as [[more n] q] eqn:Hc.
  destruct (addContiguous_ok k R _ w c ls h more n q Hf (focus_fuel _ _ _ _ _ _ Hf) Hc)
    as (w1 & ls1 & He & Hr & Ht & Hfr & Hf1).
  rewrite (bind_ok _ _ _ tt w1) by done. rewrite (bind_ok _ _ _ (conn_at w1 c) w1) by done.
  rewrite (f_stream _ _ _ _ _ _ Hf1). cbn [h_stream set_queue].
  rewrite (bind_ok _ _ _ (ret w ++ more) w1) by (unfold gets; by rewrite Hr).
  set (e := EvReassembled _ _). set (w2 := add_event e w1). rewrite (bind_ok _ _ _ tt w2) by done.
  assert (∃ x, last (ret w ++ more) = Some x) as [x Hx].
  { destruct (last (ret w ++ more)) eqn:E; [eauto|]. apply last_None, app_eq_nil in E. tauto. }
  rewrite (bind_ok _ _ _ x w2) by (unfold lift; by rewrite (index_last _ _ Hx)).
  unfold last_End. rewrite Hx.
  assert (frame w w2 c R) as Hfr2 by (eapply frame_trans; [apply Hfr|]; done).
  assert (focus w2 c k ls1 R (set_queue n q h)) as Hf2 by by eapply focus_ext, Hf1.
  destruct (End_ x).
  - destruct (closeConnection_ok w2 c k ls1 R _ Hf2) as (w3 & He3 & Ht3 & Hc3).
    exists w3. split; [done|]. eapply (settled_frame w w2 w3 c k R [e]); [done| |by split].
    unfold w2. cbn. by rewrite Ht.
  - exists w2. split; [done|]. split; [unfold w2; cbn; by rewrite Ht|]. by exists ls1.
Qed.

Lemma contiguous_idem : ∀ q next rs n rest, contiguous next q = (rs, n, rest) →
  contiguous n rest = ([], n, rest).
Proof.
  induction q as [|p q IH]; intros next rs n rest; cbn; [by intros [= <- <- <-]|].
  destruct (Difference next p.1 <=? 0) eqn:E.
  - destruct (contiguous _ q) as [[rs1 n1] rest1] eqn:E1. intros [= <- <- <-]. by eapply IH.
  - intros [= <- <- <-]. cbn. by rewrite E.
Qed.

Lemma skipFlush_ok w c k ls R h : focus w c k ls R h → ∃ w',
  skipFlush c w = (Ok tt, w') ∧ settled w w' c k R (skip_flush h).
Proof.
  intros Hf. unfold skipFlush, skip_flush. rewrite (bind_ok _ _ _ (conn_at w c) w) by done.
  rewrite (f_first _ _ _ _ _ _ Hf). pose proof (f_queue _ _ _ _ _ _ Hf) as Hq.
  destruct ls as [|l ls], (h_queue h) as [|p q] eqn:Hhq; try done; cbn [head].
  - destruct (closeConnection_ok w c k [] R h Hf) as (w' & He & Ht & Hc). exists w'. by split.
  - set (w0 := set_ret [] w). rewrite (bind_ok _ _ _ tt w0) by done.
    assert (focus w0 c k (l :: ls) R h) as Hf0 by by eapply focus_ext, Hf.
    destruct (addNextFromConn_ok w0 c k l ls R h p q Hf0 Hhq) as (w1 & He1 & Hr1 & Ht1 & Hfr1 & Hf1).
    rewrite (bind_ok _ _ _ tt w1) by done. rewrite (bind_ok _ _ _ w1 w1) by done.
    set (h1 := set_queue _ q h) in *.
    destruct (contiguous (h_next h1) (h_queue h1)) as [[more n] rest] eqn:Hc.
    destruct (addContiguous_ok k R _ w1 c ls h1 more n rest Hf1 (focus_fuel _ _ _ _ _ _ Hf1) Hc)
      as (w2 & ls2 & He2 & Hr2 & Ht2 & Hfr2 & Hf2).
    rewrite (bind_ok _ _ _ tt w2) by done.
    destruct (sendToConnection_ok w2 c k ls2 R _ Hf2) as (w3 & He3 & Hs3).
    { rewrite Hr2, Hr1. by destruct more. }
    exists w3. split; [done|].
    assert (deliver (set_queue n rest h1) (ret w2) = deliver h1 [(pop (h_next h) p).1]) as <-.
    { unfold deliver. rewrite Hc. cbn [set_queue h_next h_queue h_stream].
      rewrite (contiguous_idem _ _ _ _ _ Hc), app_nil_r, Hr2, Hr1. done. }
    destruct (deliver _ _) as [r evs]. eapply (settled_frame w w2 w3 c k R []); [|..|done].
    + do 2 (eapply frame_trans; [|done]). done.
    + by rewrite Ht2, Ht1, app_nil_r.
Qed.


(** ** Buffering *)

(** Before a packet is buffered, the first page must not be the one the
    connection waits for: the code panics with "wtf" otherwise. *)
Definition no_wtf (h : half) : Prop :=
  match h_queue h with p :: _ => p.1 ≠ h_next h | [] => True end.

(** The new pages, found a place for and linked in. *)
Lemma link_pages_ok w c k ls R h t ts : focus w c k ls R h → ∃ w1 w2 p l n pos ls',
  pagesFromTCP t ts w = (Ok (p, l, n), w1) ∧ traverseConn c (Seq t) w1 = (Ok pos, w1) ∧
  pushBetween c pos.1 pos.2 p l w1 = (Ok tt, w2) ∧ n = len (new_pages t ts) ∧
  ret w2 = ret w ∧ trace w2 = trace w ∧ frame w w2 c R ∧ pc_used (pc w2) = pc_used (pc w) + n ∧
  focus (put_conn c (set_pages (c_pages (conn_at w2 c) + n) (conn_at w2 c)) w2) c k ls' R
    (set_queue (h_next h) (insert_pages (Seq t) (new_pages t ts) (h_queue h)) h).
Proof.
  intros [Hk Ho Hst Hn Hse Hp Hf Hl Hs Hq Hh].
  destruct (pagesFromTCP_ok w t ts (ls ++ R) Hh) as
    (new & p & l & pc1 & mem1 & He1 & Hh1 & Hs1 & Hc1 & Hhd & Hlst & Hfr1).
  set (w1 := set_mem mem1 (set_pc pc1 w)) in *. cbv zeta in He1.
  assert (∀ x, x ∈ ls → page_at w1 x = page_at w x) as Hls1.
  { intros x Hx. apply Hfr1, elem_of_app. by left. }
  assert (seg w1 None (ls ++ []) None) as Hs1' by (rewrite app_nil_r; by eapply seg_ext, Hs).
  destruct (traverse_ok w1 (Seq t) (page_fuel w1) ls []) as (A & B & He2 & HAB & HB & HA); [|done|constructor|].
  { pose proof (heap_fuel _ _ Hh1) as Hlt. rewrite !length_app in Hlt. lia. }
  rewrite app_nil_r in HAB. cbn [head] in He2.
  assert (NoDup (A ++ new ++ B) ∧ ∀ x, x ∈ R → x ∉ A ++ new ++ B) as [Hnd HR].
  { apply heap_nodup_tail in Hh1. rewrite <-HAB, app_assoc in Hh1.
    assert (new ++ A ++ B ≡ₚ A ++ new ++ B) as Hperm by solve_Permutation.
    rewrite Hperm in Hh1. apply NoDup_app in Hh1 as (H1 & H2 & _). split; [done|].
    intros x Hx Hin. by apply (H2 x). }
  destruct (pushBetween_ok w1 c A B new p l R) as (mem2 & objs2 & He3 & Hs3 & Hc3 & Hfr3 & Hv3); try done.
  { rewrite HAB. by rewrite app_nil_r in Hs1'. }
  { by rewrite HAB. }
  { by rewrite HAB. }
  set (w2 := set_objs objs2 (set_mem mem2 w1)) in *. cbv zeta in He3.
  assert (len new = len (new_pages t ts)) as Hln by by rewrite <-Hc1, len_content.
  assert (conn_at w1 c = conn_at w c) as Hcw by done.
  assert (heap_ok w2 ((A ++ new ++ B) ++ R)) as Hh2.
  { eapply heap_pc with (w := w1); [done|]. eapply heap_perm, Hh1. rewrite <-HAB. solve_Permutation. }
  exists w1, w2, p, l, (len new), (last A, head B), (A ++ new ++ B).
  split; [done|]. split.
  { unfold traverseConn. rewrite (bind_ok _ _ _ (conn_at w1 c) w1) by done.
    rewrite (bind_ok _ _ _ w1 w1) by done. rewrite Hcw, Hl. exact He2. }
  do 4 (split; [done|]). split.
  { destruct Hfr3 as [G1 G2 G3 G4 G5]. split; try done.
    intros x Hx. rewrite G4 by done. apply Hfr1, elem_of_app. by right. }
  split.
  { change (pc w2) with (pc w1). rewrite (heap_used _ _ Hh1), (heap_used _ _ Hh). lens. }
  split; rewrite ?conn_put_eq, ?Hv3, ?Hcw; cbn; try done.
  - rewrite Hp, <-HAB. lens.
  - transitivity (content w2 (A ++ new ++ B)); [by apply content_ext|].
    rewrite Hc3, !content_app, Hc1, <-Hq, <-(content_ext w w1 ls Hls1), <-HAB, content_app.
    rewrite insert_pages_split; [done..|].
    destruct HA as [->|(A0 & a & -> & Ha)]; [by left|]. right.
    eexists (content w1 A0), _. split; [by rewrite content_app|done].
  - by eapply heap_pc, Hh2.
Qed.

Lemma new_pages_ne t ts : new_pages t ts ≠ [].
Proof. unfold new_pages. cbn [cut_pages]. by destruct (_ =? 0). Qed.

Lemma insert_pages_ne seq new q : new ≠ [] → insert_pages seq new q ≠ [].
Proof. intros Hne. destruct q; cbn [insert_pages]; [done|]. case_match; [by destruct new | done]. Qed.

Lemma insertIntoConn_ok w c k ls R h t ts : focus w c k ls R h → no_wtf h → ∃ w' ls',
  let r := store (options w) (pc_used (pc w)) t ts h in
  insertIntoConn t c ts w = (Ok tt, w') ∧ ret w' = ret w ++ r.2 ∧ trace w' = trace w ∧
  frame w w' c R ∧ focus w' c k ls' R r.1.
Proof.
  intros Hf Hwtf. unfold insertIntoConn.
  rewrite (bind_ok _ _ _ (conn_at w c) w), (bind_ok _ _ _ w w) by done.
  replace (match c_first (conn_at w c) with Some f => _ | None => false end) with false.
  2:{ rewrite (f_first _ _ _ _ _ _ Hf), (f_next _ _ _ _ _ _ Hf). unfold no_wtf in Hwtf.
      pose proof (f_queue _ _ _ _ _ _ Hf) as Hq. destruct ls as [|l ls]; [done|].
      rewrite <-Hq in Hwtf. cbn in *. by destruct (Z.eqb_spec (p_seq (page_at w l)) (h_next h)). }
  destruct (link_pages_ok w c k ls R h t ts Hf) as
    (w1 & w2 & p & l & n & pos & ls' & He1 & He2 & He3 & -> & Hr2 & Ht2 & Hfr2 & Hu2 & Hf3).
  rewrite (bind_ok _ _ _ _ _ He1), (bind_ok _ _ _ _ _ He2), (bind_ok _ _ _ _ _ He3).
  set (w3 := put_conn c _ w2) in *. rewrite (bind_ok _ _ _ tt w3) by done.
  rewrite (bind_ok _ _ _ (conn_at w3 c) w3), (bind_ok _ _ _ w3 w3) by done. cbv zeta.
  rewrite (f_pages _ _ _ _ _ _ Hf3).
  assert (options w3 = options w) as -> by apply Hfr2.
  change (pc w3) with (pc w2). rewrite Hu2. fold (full (options w) (len ls') (pc_used (pc w) + len (new_pages t ts))).
  pose proof (f_queue _ _ _ _ _ _ Hf3) as Hq3. cbn [set_queue h_queue] in Hq3.
  assert (len ls' = len (insert_pages (Seq t) (new_pages t ts) (h_queue h))) as ->.
  { rewrite <-Hq3. by rewrite len_content. }
  assert (frame w w3 c R) as Hfr3.
  { eapply frame_trans; [apply Hfr2|]. split; try done. intros. by apply conn_put_ne. }
  unfold store. cbv zeta. destruct (insert_pages (Seq t) (new_pages t ts) (h_queue h)) as [|p' q'] eqn:Hins.
  - by apply insert_pages_ne in Hins; [|apply new_pages_ne].
  - cbn [set_queue h_next h_queue] in *. destruct (full _ _ _).
    + destruct ls' as [|l' ls']; [done|].
      destruct (addNextFromConn_ok w3 c k l' ls' R _ p' q' Hf3 eq_refl) as (w4 & He4 & Hr4 & Ht4 & Hfr4 & Hf4).
      exists w4, ls'. split_and!; [done| | |by eapply frame_trans|done].
      * rewrite Hr4. change (ret w3) with (ret w2). by rewrite Hr2.
      * rewrite Ht4. by change (trace w3) with (trace w2).
    + exists w3, ls'. split_and!; [done| |done..]. change (ret w3) with (ret w2). by rewrite Hr2, app_nil_r.
Qed.

(** ** A packet for an open connection *)

Lemma focus_next w w' c k ls R h n : pc w' = pc w → mem w' = mem w →
  conn_at w' c = set_nextSeq n (conn_at w c) → focus w c k ls R h →
  focus w' c k ls R (set_queue n (h_queue h) h).
Proof.
  intros Hpc Hm Hc [Hk Ho Hst Hn Hse Hp Hf Hl Hs Hq Hh].
  assert (∀ l, page_at w' l = page_at w l) as Hpg by (intros l; unfold page_at; by rewrite Hm).
  split; rewrite ?Hc; try done.
  - by eapply seg_ext, Hs.
  - rewrite <-Hq. by apply content_ext.
  - by eapply heap_pc, Hh.
Qed.

(** What is put into [ret], and the sequence number waited for after it. *)
Lemma set_next_ok w c k ls R h n r : focus w c k ls R h →
  let w' := put_conn c (set_nextSeq n (conn_at w c)) w in
  let w'' := set_ret (ret w ++ [r]) w' in
  frame w w'' c R ∧ focus w'' c k ls R (set_queue n (h_queue h) h).
Proof.
  intros Hf w' w''. split.
  - split; try done. intros. by apply conn_put_ne.
  - eapply (focus_next w); [done..|apply conn_put_eq|done].
Qed.

Lemma assemble_conn_ok w c k ls R h t ts : focus w c k ls R h → ret w = [] → no_wtf h → ∃ w',
  assemble_conn t ts c w = (Ok tt, w') ∧
  settled w w' c k R (receive (options w) (pc_used (pc w)) t ts h).
Proof.
  intros Hf Hret Hwtf. unfold assemble_conn, receive.
  rewrite (bind_ok _ _ _ (conn_at w c) w) by done.
  set (w1 := if h_lastSeen h <? ts then put_conn c (set_lastSeen ts (conn_at w c)) w else w).
  rewrite (bind_ok _ _ _ tt w1).
  2:{ rewrite (f_seen _ _ _ _ _ _ Hf). unfold w1. by destruct (_ <? _). }
  assert (focus w1 c k ls R (see ts h)) as Hf1.
  { unfold w1, see. destruct (_ <? _); [|by destruct h]. destruct Hf.
    split; rewrite ?conn_put_eq; cbn; try done; first [by eapply seg_ext, f_seg0 | by eapply heap_pc, f_heap0 | etransitivity; [by apply content_ext | done]]. }
  assert (frame w w1 c R ∧ trace w1 = trace w ∧ ret w1 = [] ∧ pc w1 = pc w) as (Hfr1 & Ht1 & Hr1 & Hpc1).
  { unfold w1. destruct (_ <? _); [|done]. split_and!; try done.
    split; try done. intros. by apply conn_put_ne. }
  assert (no_wtf (see ts h)) as Hwtf1 by done.
  rewrite (bind_ok _ _ _ (conn_at w1 c) w1) by done. rewrite (f_next _ _ _ _ _ _ Hf1).
  rewrite <-Hpc1. rewrite <-(fr_options _ _ _ _ Hfr1). clearbody w1.
  set (h1 := see ts h) in *. clearbody h1. cbv zeta.
  match goal with |- context [let '(h, rs) := ?b in _] => set (br := b) end.
  match goal with |- context [(if h_next h1 =? invalidSequence then ?a else ?b) ≫= _] =>
    set (m := if h_next h1 =? invalidSequence then a else b) end.
  assert (∃ w2 ls2, m w1 = (Ok tt, w2) ∧ ret w2 = br.2 ∧ trace w2 = trace w1 ∧ frame w1 w2 c R ∧
    focus w2 c k ls2 R br.1) as (w2 & ls2 & He2 & Hr2 & Ht2 & Hfr2 & Hf2).
  { unfold m, br. destruct (h_next h1 =? invalidSequence); [destruct (SYN t)|].
    - eexists _, ls. split; [reflexivity|]. cbn [ret set_ret fst snd]. split; [by rewrite Hr1|].
      split; [done|]. exact (set_next_ok w1 c k ls R h1 _ _ Hf1).
    - destruct (insertIntoConn_ok w1 c k ls R h1 t ts Hf1 Hwtf1) as (w2 & ls2 & He & Hr2 & Hrest).
      exists w2, ls2. split; [done|]. split; [by rewrite Hr2, Hr1|]. done.
    - destruct (Difference (h_next h1) (Seq t) >? 0).
      + destruct (insertIntoConn_ok w1 c k ls R h1 t ts Hf1 Hwtf1) as (w2 & ls2 & He & Hr2 & Hrest).
        exists w2, ls2. split; [done|]. split; [by rewrite Hr2, Hr1|]. done.
      + rewrite byteSpan_eq. eexists _, ls. split; [reflexivity|]. cbn [ret set_ret fst snd].
        split; [cbn; by rewrite Hr1|]. split; [done|]. exact (set_next_ok w1 c k ls R h1 _ _ Hf1). }
  rewrite (bind_ok _ _ _ _ _ He2). rewrite (bind_ok _ _ _ (ret w2) w2) by done.
  rewrite Hr2. destruct br as [h2 rs]. cbn [fst snd] in *. 
  destruct rs as [|r0 rs].
  - exists w2. split; [done|]. split; cbn; [by rewrite app_nil_r, Ht2, Ht1|].
    exists ls2. split; [by eapply frame_trans | done].
  - destruct (sendToConnection_ok w2 c k ls2 R h2 Hf2) as (w3 & He3 & Hs3); [by rewrite Hr2|].
    exists w3. destruct (Z.gtb_spec (len (r0 :: rs)) 0); [|lens]. split; [done|].
    rewrite Hr2 in Hs3. destruct (deliver _ _) as [r evs].
    eapply (settled_frame w w2 w3 c k R []); [by eapply frame_trans| |done].
    by rewrite Ht2, Ht1, app_nil_r.
Qed.
End frames.
