(* ===== verification/TcpPool.v ===== *)
(** * The assembler and its pool implement the specification

    [TcpRefine.v] follows one connection; here the pool of connections is put
    around it: every call of the assembler, from a world that represents an
    abstract state, returns normally in a world that represents a state the
    specification allows. *)

From S2P Require Import Prelude SerializeBuffer LayerClasses Flows BaseLayers Tcp TcpAssembly TcpStream TcpRefine.

(** ** Representation *)

(** The pages of all lists. *)
Definition pages (Q : gmap key (list loc)) : list loc := map_to_list Q ≫= snd.

Record pool_ok (p : StreamPool) : Prop := mkPoolOk {
  po_nodup : NoDup (sp_free p);
  po_disjoint : ∀ k c, sp_conns p !! k = Some c → c ∉ sp_free p;
  po_free : ∀ c, c ∈ sp_free p → Z.of_nat c < sp_all p;
  po_conns : ∀ k c, sp_conns p !! k = Some c → Z.of_nat c < sp_all p;
  po_grow : 0 < sp_nextAlloc p;
  po_all : 0 <= sp_all p;
}.

(** The three views of key [k]: its object, its specification, its pages. *)
Definition views (w : world) (k : key) (R : list loc) (c : option loc) (h : option half)
    (ls : option (list loc)) : Prop :=
  match c, h, ls with
  | Some c, Some h, Some ls => focus w c k ls R h
  | None, None, None => True
  | _, _, _ => False
  end.

Record represents (o : AssemblerOptions) (w : world) (st : astate) (Q : gmap key (list loc)) : Prop :=
  mkRepresents {
    r_options : options w = o;
    r_trace : trace w = a_trace st;
    r_streams : streams w = a_streams st;
    r_pool : pool_ok (pool w);
    r_heap : heap_ok w (pages Q);
    r_conns : ∀ k, views w k (pages (delete k Q)) (sp_conns (pool w) !! k) (a_conns st !! k) (Q !! k);
  }.

Definition implements (o : AssemblerOptions) (w : world) (st : astate) : Prop :=
  ∃ Q, represents o w st Q.

Lemma pages_insert k ls Q : pages (<[k := ls]> Q) ≡ₚ ls ++ pages (delete k Q).
Proof.
  unfold pages. rewrite <-insert_delete_eq, map_to_list_insert by apply lookup_delete_eq. done.
Qed.

Lemma pages_lookup k ls Q : Q !! k = Some ls → pages Q ≡ₚ ls ++ pages (delete k Q).
Proof. intros H. rewrite <-(insert_id Q k ls H) at 1. apply pages_insert. Qed.

(** The pages of one connection are among the others of another. *)
Lemma pages_delete k k' ls Q : k ≠ k' → Q !! k = Some ls → ∀ l, l ∈ ls → l ∈ pages (delete k' Q).
Proof.
  intros Hne HQ l Hl. rewrite (pages_lookup k ls); [apply elem_of_app; by left|].
  by rewrite lookup_delete_ne.
Qed.

Section represents.
Context (o : AssemblerOptions).

Lemma represents_lookup w st Q k c : represents o w st Q → sp_conns (pool w) !! k = Some c →
  ∃ h ls, a_conns st !! k = Some h ∧ Q !! k = Some ls ∧ focus w c k ls (pages (delete k Q)) h.
Proof.
  intros HR Hc. pose proof (r_conns _ _ _ _ HR k) as H. rewrite Hc in H. unfold views in H.
  destruct (a_conns st !! k) as [h|], (Q !! k) as [ls|]; try done. eauto.
Qed.

Lemma represents_lookup_None w st Q k : represents o w st Q →
  sp_conns (pool w) !! k = None ↔ a_conns st !! k = None.
Proof.
  intros HR. pose proof (r_conns _ _ _ _ HR k) as H. unfold views in H.
  destruct (sp_conns (pool w) !! k), (a_conns st !! k), (Q !! k); done.
Qed.

Lemma represents_inj w st Q k1 k2 c : represents o w st Q →
  sp_conns (pool w) !! k1 = Some c → sp_conns (pool w) !! k2 = Some c → k1 = k2.
Proof.
  intros HR H1 H2.
  destruct (represents_lookup _ _ _ _ _ HR H1) as (h1 & ls1 & _ & _ & F1).
  destruct (represents_lookup _ _ _ _ _ HR H2) as (h2 & ls2 & _ & _ & F2).
  by rewrite <-(f_key _ _ _ _ _ _ F1), <-(f_key _ _ _ _ _ _ F2).
Qed.

(** The other connections are as before. *)
Lemma focus_other w w' c k ls R R' h : conn_at w' c = conn_at w c →
  (∀ l, l ∈ ls → page_at w' l = page_at w l) → heap_ok w' (ls ++ R') →
  focus w c k ls R h → focus w' c k ls R' h.
Proof.
  intros Hc Hp Hh [Hk Ho Hst Hn Hse Hpg Hf Hl Hs Hq _]. split; rewrite ?Hc; try done.
  - by eapply seg_ext, Hs.
  - rewrite <-Hq. by apply content_ext.
Qed.

(** One connection goes on, the assembler goes on. *)
Lemma settled_represents w w' st Q k c h ls r : represents o w st Q →
  sp_conns (pool w) !! k = Some c → a_conns st !! k = Some h → Q !! k = Some ls →
  settled w w' c k (pages (delete k Q)) r → implements o w' (settle k r st).
Proof.
  intros HR Hc Hh HQ [Ht Hr]. pose proof (represents_inj w st Q) as Hinj.
  assert (∀ k' c', k' ≠ k → sp_conns (pool w) !! k' = Some c' → c' ≠ c) as Hother.
  { intros k' c' Hne Hc' ->. apply Hne. by eapply Hinj. }
  destruct (r.1) as [h'|] eqn:Er.
  - destruct Hr as (ls' & Hf & Hfo). exists (<[k := ls']> Q).
    assert (heap_ok w' (pages (<[k:=ls']> Q))) as Hheap.
    { eapply heap_perm, (f_heap _ _ _ _ _ _ Hfo). by rewrite pages_insert. }
    destruct Hf as [H1 H2 H3 H4 H5]. split; cbn [settle a_trace a_streams a_conns]; rewrite ?H1, ?H2, ?H3.
    + apply HR.
    + by rewrite Ht, (r_trace _ _ _ _ HR).
    + apply HR.
    + apply HR.
    + done.
    + intros k'. rewrite Er. destruct (decide (k' = k)) as [->|Hne].
      { rewrite Hc, !lookup_insert_eq, delete_insert_eq. done. }
      pose proof (r_conns _ _ _ _ HR k') as Hv. unfold views in *. rewrite !lookup_insert_ne by done.
      destruct (sp_conns (pool w) !! k') as [c'|] eqn:Hc', (a_conns st !! k') as [h2|], (Q !! k') as [ls2|] eqn:HQ'; try done.
      eapply focus_other, Hv.
      * apply H5. by eapply Hother.
      * intros l Hl. apply H4. by eapply pages_delete.
      * eapply heap_perm, Hheap. apply pages_lookup. by rewrite lookup_insert_ne.
  - destruct Hr as [H1 H2 H3 H4 H5 H6 H7]. exists (delete k Q).
    split; cbn [settle a_trace a_streams a_conns]; rewrite ?H1, ?H2, ?H3.
    + apply HR.
    + by rewrite Ht, (r_trace _ _ _ _ HR).
    + apply HR.
    + destruct (r_pool _ _ _ _ HR) as [P1 P2 P3 P4 P5 P6]. split; cbn; try done.
      * apply NoDup_app. split_and!; [done| |apply NoDup_singleton].
        intros x Hx ->%list_elem_of_singleton. by eapply P2.
      * intros k' c' [Hne Hc']%lookup_delete_Some. rewrite not_elem_of_app, list_elem_of_singleton.
        split; [by eapply P2 | by eapply Hother].
      * intros x. rewrite elem_of_app, list_elem_of_singleton. intros [Hx| ->]; [auto | by eapply P4].
      * intros k' c' [Hne Hc']%lookup_delete_Some. by eapply P4.
    + done.
    + intros k'. rewrite Er. cbn [sp_conns]. destruct (decide (k' = k)) as [->|Hne].
      { rewrite !lookup_delete_eq. done. }
      pose proof (r_conns _ _ _ _ HR k') as Hv. unfold views in *. rewrite !lookup_delete_ne by done.
      destruct (sp_conns (pool w) !! k') as [c'|] eqn:Hc', (a_conns st !! k') as [h2|], (Q !! k') as [ls2|] eqn:HQ'; try done.
      eapply focus_other, Hv.
      * apply H5. by eapply Hother.
      * intros l Hl. apply H4. by eapply pages_delete.
      * eapply heap_perm, H7. apply pages_lookup. by rewrite lookup_delete_ne.
Qed.


(** ** Pages in use *)

Lemma buffered_insert k h m : buffered (<[k := h]> m) = len (h_queue h) + buffered (delete k m).
Proof.
  unfold buffered. rewrite <-len_app. unfold len. f_equal. apply Permutation_length.
  rewrite <-insert_delete_eq, map_to_list_insert by apply lookup_delete_eq. done.
Qed.

Lemma buffered_pages Q : ∀ m : gmap key half,
  (∀ k, match m !! k, Q !! k with
        | Some h, Some ls => len (h_queue h) = len ls
        | None, None => True
        | _, _ => False
        end) → buffered m = len (pages Q).
Proof.
  induction Q as [|k ls Q HQ IH] using map_ind; intros m Hm.
  - assert (m = ∅) as ->; [|done]. apply map_empty. intros k. specialize (Hm k).
    rewrite lookup_empty in Hm. by destruct (m !! k).
  - pose proof (Hm k) as Hk. rewrite lookup_insert_eq in Hk. destruct (m !! k) as [h|] eqn:Hh; [|done].
    rewrite <-(insert_id m k h Hh), buffered_insert, Hk, (IH (delete k m)).
    + rewrite <-len_app. unfold len. f_equal. apply Permutation_length. symmetry.
      rewrite pages_insert, delete_id; done.
    + intros k'. specialize (Hm k'). destruct (decide (k' = k)) as [->|Hne].
      * by rewrite lookup_delete_eq, HQ.
      * by rewrite lookup_delete_ne, lookup_insert_ne in * by done.
Qed.

Lemma represents_used w st Q : represents o w st Q → pc_used (pc w) = buffered (a_conns st).
Proof.
  intros HR. rewrite (heap_used _ _ (r_heap _ _ _ _ HR)). symmetry. apply buffered_pages.
  intros k. pose proof (r_conns _ _ _ _ HR k) as H. unfold views in H.
  destruct (sp_conns (pool w) !! k), (a_conns st !! k), (Q !! k); try done.
  by rewrite <-(f_queue _ _ _ _ _ _ H), len_content.
Qed.

(** ** Opening a connection *)

Lemma grow_pool_ok p : pool_ok p → pool_ok (grow_pool p).
Proof.
  intros [P1 P2 P3 P4 P5 P6]. split; cbn; try lia.
  - apply NoDup_app. split_and!; [done| |apply NoDup_ListNoDup, seq_NoDup].
    intros x Hx Hs. apply elem_of_seq in Hs. specialize (P3 x Hx). lia.
  - intros k c Hc. rewrite not_elem_of_app, elem_of_seq. split; [by eapply P2|].
    specialize (P4 k c Hc). lia.
  - intros c. rewrite elem_of_app, elem_of_seq. intros [Hc|Hc]; [specialize (P3 c Hc)|]; lia.
  - intros k c Hc. specialize (P4 k c Hc). lia.
Qed.

Lemma newConnection_ok w k s ts : pool_ok (pool w) → sp_conns (pool w) !! k = None → ∃ c p,
  let w' := put_conn c (reset k s ts (conn_at w c)) (set_pool p w) in
  newConnection k s ts w = (Ok c, w') ∧ sp_conns p = sp_conns (pool w) ∧
  pool_ok (mkStreamPool (<[k := c]> (sp_conns p)) (sp_users p) (sp_free p) (sp_all p) (sp_nextAlloc p)) ∧
  ∀ k', sp_conns (pool w) !! k' ≠ Some c.
Proof.
  intros HP Hk. unfold newConnection.
  set (p := if len (sp_free (pool w)) =? 0 then grow_pool (pool w) else pool w).
  assert (pool_ok p ∧ sp_free p ≠ [] ∧ sp_conns p = sp_conns (pool w)) as (Hp & Hne & Hconns).
  { unfold p. destruct (Z.eqb_spec (len (sp_free (pool w))) 0) as [H0|H0].
    - split; [by apply grow_pool_ok|]. split; [|done]. cbn. apply len_zero in H0. rewrite H0. cbn.
      destruct HP as [_ _ _ _ Hg _]. destruct (Z.to_nat (sp_nextAlloc (pool w))) eqn:E; [lia | done].
    - split_and!; [done| |done]. intros E. by rewrite E in H0. }
  destruct (exists_last Hne) as (free & c & Hfree).
  assert (index (sp_free p) (len (sp_free p) - 1) = Ok c) as Hi.
  { apply index_last. by rewrite Hfree, last_snoc. }
  assert (slice_to (sp_free p) (len (sp_free p) - 1) = Ok free) as Hs.
  { rewrite Hfree. apply slice_to_app. lens. }
  exists c. eexists. cbv zeta. split.
  { rewrite (bind_ok _ _ _ (pool w) w) by done. cbv zeta. fold p. rewrite Hi, Hs. reflexivity. }
  cbn [sp_conns]. split; [done|]. destruct Hp as [P1 P2 P3 P4 P5 P6]. rewrite Hfree in *.
  apply NoDup_app in P1 as (P1 & Pc & _). split.
  - split; cbn; try done.
    + intros k' c'. rewrite lookup_insert_Some. intros [[_ <-]|[_ Hc']].
      * intros Hin. apply (Pc c Hin). left.
      * specialize (P2 k' c' Hc'). rewrite not_elem_of_app in P2. tauto.
    + intros x Hx. apply P3, elem_of_app. by left.
    + intros k' c'. rewrite lookup_insert_Some. intros [[_ <-]|[_ Hc']]; [|by eapply P4].
      apply P3, elem_of_app. right. left.
  - intros k' Hc. rewrite <-Hconns in Hc. apply (P2 k' c Hc), elem_of_app. right. left.
Qed.

Lemma getConnection_new w st Q k ts : represents o w st Q → sp_conns (pool w) !! k = None → ∃ w' c stale,
  let s := open_new k stale st in
  getConnection k false ts w = (Ok (Some c), w') ∧ ret w' = ret w ∧
  sp_conns (pool w') !! k = Some c ∧
  represents o w' (mkAstate (<[k := s.1]> (a_conns s.2)) (a_streams s.2) (a_trace s.2)) (<[k := []]> Q) ∧
  pc_used (pc w') = pc_used (pc w).
Proof.
  intros HR Hk. unfold getConnection. rewrite (bind_ok _ _ _ (pool w) w) by done. cbv zeta.
  rewrite Hk. cbn [orb].
  set (s := streams w). destruct (factory_New k w) as [os w1] eqn:Hnew. injection Hnew as <- Hw1.
  rewrite (bind_ok _ _ _ s w1) by by rewrite <-Hw1.
  destruct (newConnection_ok w1 k (Some s) ts) as (c & p & He & Hp & Hpool & Hfresh);
    [rewrite <-Hw1; apply HR | by rewrite <-Hw1|].
  set (w2 := put_conn c _ _) in He. cbv zeta in He. rewrite (bind_ok _ _ _ c w2) by done.
  rewrite (bind_ok _ _ _ p w2) by done.
  replace (sp_conns p !! k) with (@None loc) by (rewrite Hp, <-Hw1; cbn; by rewrite Hk).
  set (p3 := mkStreamPool (<[k := c]> (sp_conns p)) (sp_users p) (sp_free p) (sp_all p) (sp_nextAlloc p)) in *.
  set (w3 := set_pool p3 w2). rewrite (bind_ok _ _ _ tt w3) by done.
  assert (conn_at w3 c = reset k (Some s) ts (conn_at w1 c)) as Hc3 by apply conn_put_eq.
  assert (Q !! k = None ∧ a_conns st !! k = None) as [HQk Hak].
  { pose proof (r_conns _ _ _ _ HR k) as Hv. rewrite Hk in Hv. unfold views in Hv.
    by destruct (a_conns st !! k), (Q !! k). }
  exists w3, c, (c_lastSeen (conn_at w1 c)). cbv zeta. split; [done|].
  split; [unfold w3, w2; cbn; by rewrite <-Hw1|].
  split; [apply lookup_insert_eq|]. split; [|unfold w3, w2; cbn; by rewrite <-Hw1].
  assert (heap_ok w3 (pages (<[k := []]> Q))) as Hheap.
  { eapply heap_pc with (w := w); [unfold w3, w2; cbn; by rewrite <-Hw1|].
    eapply heap_perm, HR. rewrite pages_insert, delete_id by done. done. }
  split; cbn [open_new fst snd a_conns a_streams a_trace].
  - unfold w3, w2; cbn; rewrite <-Hw1; apply HR.
  - unfold w3, w2; cbn; rewrite <-Hw1; cbn. by rewrite (r_trace _ _ _ _ HR), <-(r_streams _ _ _ _ HR).
  - unfold w3, w2; cbn; rewrite <-Hw1; cbn. by rewrite (r_streams _ _ _ _ HR).
  - done.
  - done.
  - intros k'. cbn [sp_conns pool w3 set_pool p3]. rewrite Hp. destruct (decide (k' = k)) as [->|Hne].
    + rewrite !lookup_insert_eq, delete_insert_eq. cbn. split; rewrite ?Hc3; cbn; try done.
      * unfold s. by rewrite (r_streams _ _ _ _ HR).
      * eapply heap_perm, Hheap. by rewrite pages_insert.
    + rewrite !lookup_insert_ne by done. pose proof (r_conns _ _ _ _ HR k') as Hv. rewrite <-Hw1.
      cbn [pool]. unfold views in *.
      destruct (sp_conns (pool w) !! k') as [c'|] eqn:Hc', (a_conns st !! k') as [h2|], (Q !! k') as [ls2|] eqn:HQ'; try done.
      eapply focus_other, Hv.
      * change (conn_at w3 c') with (conn_at w2 c'). unfold w2. rewrite conn_put_ne.
        -- by rewrite <-Hw1.
        -- intros ->. apply (Hfresh k'). by rewrite <-Hw1.
      * intros l Hl. unfold w3, w2. rewrite <-Hw1. done.
      * eapply heap_perm, Hheap. apply pages_lookup. by rewrite lookup_insert_ne.
Qed.



(** ** Packets *)

Lemma represents_ret w st Q v : represents o w st Q → represents o (set_ret v w) st Q.
Proof.
  intros [H1 H2 H3 H4 H5 H6]. split; try done; [by eapply heap_pc, H5|].
  intros k. specialize (H6 k). unfold views in *. cbn [pool set_ret].
  destruct (sp_conns (pool w) !! k), (a_conns st !! k), (Q !! k); try done. by eapply focus_ext, H6.
Qed.

Lemma settle_insert k r h m n tr :
  settle k r (mkAstate (<[k := h]> m) n tr) = settle k r (mkAstate m n tr).
Proof.
  unfold settle. cbn. destruct (r.1); [by rewrite insert_insert_eq | by rewrite delete_insert_eq].
Qed.

Lemma rested_no_wtf h : rested h → no_wtf h.
Proof. intros H. unfold no_wtf. destruct (h_queue h) eqn:E; [done|]. by eapply rested_ready. Qed.

Lemma assemble_at_ok w st Q k c h t ts : represents o w st Q → ret w = [] →
  sp_conns (pool w) !! k = Some c → a_conns st !! k = Some h → rested h → ∃ w',
  assemble_conn t ts c w = (Ok tt, w') ∧
  implements o w' (settle k (receive o (pc_used (pc w)) t ts h) st).
Proof.
  intros HR Hret Hc Hh Hrest. destruct (represents_lookup _ _ _ _ _ HR Hc) as (h' & ls & Hh' & HQ & Hf).
  rewrite Hh in Hh'. injection Hh' as <-.
  destruct (assemble_conn_ok w c k ls _ h t ts Hf Hret) as (w' & He & Hs); [by apply rested_no_wtf|].
  exists w'. split; [done|]. rewrite (r_options _ _ _ _ HR) in Hs. by eapply settled_represents.
Qed.

Lemma AssembleWithTimestamp_ok w st nf tf t ts : implements o w st →
  (∀ k h, a_conns st !! k = Some h → rested h) → TransportFlow t = Ok tf → ∃ w' stale,
  AssembleWithTimestamp nf t ts w = (Ok tt, w') ∧
  implements o w' (assemble o (nf, tf) t ts stale st).
Proof.
  intros [Q HR] Hrest Htf. unfold AssembleWithTimestamp, assemble. cbv zeta. fold (useless t).
  destruct (useless t); [exists w, 0; split; [done | by exists Q]|].
  set (w0 := set_ret [] w). rewrite (bind_ok _ _ _ tt w0) by done. rewrite Htf.
  rewrite (bind_ok _ _ _ tf w0) by done. set (k := (nf, tf) : key).
  pose proof (represents_ret w st Q [] HR) as HR0. fold w0 in HR0.
  cbn [retry_fuel fetch_connection].
  destruct (sp_conns (pool w0) !! k) as [c|] eqn:Hc.
  - destruct (represents_lookup _ _ _ _ _ HR0 Hc) as (h & ls & Hh & HQ & Hf). rewrite Hh.
    rewrite (bind_ok _ _ _ (Some c) w0).
    2:{ rewrite (bind_ok _ _ _ (Some c) w0).
        - rewrite (bind_ok _ _ _ (conn_at w0 c) w0) by done. by rewrite (f_open _ _ _ _ _ _ Hf).
        - unfold getConnection. rewrite (bind_ok _ _ _ (pool w0) w0) by done. cbv zeta.
          rewrite Hc. by rewrite orb_true_r. }
    destruct (assemble_at_ok w0 st Q k c h t ts HR0 eq_refl Hc Hh (Hrest k h Hh)) as (w' & He & Hi).
    exists w', 0. split; [done|]. rewrite (represents_used _ _ _ HR0) in Hi. exact Hi.
  - assert (a_conns st !! k = None) as Hh by by apply (represents_lookup_None _ _ _ _ HR0).
    rewrite Hh. destruct (negb (SYN t) && (len (Payload (base t)) =? 0)) eqn:Hend.
    + exists w0, 0. split; [|by exists Q]. rewrite (bind_ok _ _ _ None w0); [done|].
      rewrite (bind_ok _ _ _ None w0); [done|].
      unfold getConnection. rewrite (bind_ok _ _ _ (pool w0) w0) by done. cbv zeta.
      by rewrite Hc.
    + destruct (getConnection_new w0 st Q k ts HR0 Hc) as (w1 & c & stale & He & Hr1 & Hc1 & HR1 & Hu1).
      cbv zeta in He, HR1. destruct (open_new k stale st) as [h st'] eqn:Hopen. cbn [fst snd] in HR1.
      destruct (represents_lookup _ _ _ _ _ HR1 Hc1) as (h' & ls & Hh' & HQ & Hf).
      cbn [a_conns] in Hh'. rewrite lookup_insert_eq in Hh'. injection Hh' as <-.
      rewrite (bind_ok _ _ _ (Some c) w1).
      2:{ rewrite (bind_ok _ _ _ (Some c) w1) by exact He.
          rewrite (bind_ok _ _ _ (conn_at w1 c) w1) by done. by rewrite (f_open _ _ _ _ _ _ Hf). }
      destruct (assemble_at_ok w1 _ _ k c h t ts HR1) as (w' & He' & Hi); [by rewrite Hr1|done| |..].
      { apply lookup_insert_eq. }
      { unfold open_new in Hopen. injection Hopen as <- <-. split; [constructor | done]. }
      exists w', stale. split; [done|]. rewrite settle_insert, Hu1, (represents_used _ _ _ HR0) in Hi.
      rewrite Hopen. by destruct st'.
Qed.

(** ** Flushing *)

Lemma skip_flush_shorter h h' : (skip_flush h).1 = Some h' →
  (length (h_queue h') < length (h_queue h))%nat.
Proof.
  unfold skip_flush. destruct (h_queue h) as [|p q]; [done|]. unfold deliver. cbn [set_queue h_next h_queue].
  destruct (contiguous _ q) as [[more n] rest] eqn:E. apply contiguous_rest in E as [[pre ->] _].
  destruct (last_End _); [done|]. intros [= <-]. cbn. rewrite length_app. lia.
Qed.

Lemma settled_open w w' c k R h evs : settled w w' c k R (Some h, evs) →
  c_closed (conn_at w' c) = false ∧ ∃ ls, focus w' c k ls R h.
Proof. intros [_ (ls & Hf & Hfo)]. split; [apply Hfo | eauto]. Qed.

Lemma settled_closed w w' c k R evs : settled w w' c k R (None, evs) → c_closed (conn_at w' c) = true.
Proof. intros [_ H]. apply H. Qed.

Lemma settled_trans w w1 w2 c k R h evs r evs' : settled w w1 c k R (Some h, evs) →
  settled w1 w2 c k R (r, evs') → settled w w2 c k R (r, evs ++ evs').
Proof. intros [Ht (ls & Hf & _)] H. by eapply settled_frame. Qed.

Lemma settled_refl w c k ls R h : focus w c k ls R h → settled w w c k R (Some h, []).
Proof. intros Hf. split; cbn; [by rewrite app_nil_r|]. by exists ls. Qed.

Lemma flush_old_ok c k R T : ∀ fuel n w ls h b, focus w c k ls R h →
  (length (h_queue h) <= fuel)%nat → (length (h_queue h) <= n)%nat → ∃ w' b',
  flush_old fuel c T b w = (Ok b', w') ∧ settled w w' c k R (drain n T h).
Proof.
  induction fuel as [|fuel IH]; intros n w ls h b Hf Hl Hn.
  - destruct (h_queue h) eqn:Hq; [|cbn in Hl; lia]. exists w, b. split.
    + unfold flush_old. rewrite (bind_ok _ _ _ w w) by done. rewrite (f_first _ _ _ _ _ _ Hf).
      pose proof (f_queue _ _ _ _ _ _ Hf) as Hc. rewrite Hq in Hc. by destruct ls.
    + destruct n; cbn [drain]; rewrite ?Hq; by eapply settled_refl.
  - cbn [flush_old]. rewrite (bind_ok _ _ _ w w) by done. cbv zeta. rewrite (f_first _ _ _ _ _ _ Hf).
    pose proof (f_queue _ _ _ _ _ _ Hf) as Hc. destruct ls as [|l ls], (h_queue h) as [|p q] eqn:Hq; try done.
    + exists w, b. split; [done|]. destruct n; cbn [drain]; rewrite ?Hq; by eapply settled_refl.
    + destruct n as [|n]; [cbn in Hn; lia|]. cbn [head drain]. rewrite Hq.
      injection Hc as Hp Hcq. rewrite <-Hp. cbn [snd].
      destruct (_ <? T); [|exists w, b; split; [done | by eapply settled_refl]].
      destruct (skipFlush_ok w c k (l :: ls) R h Hf) as (w1 & He & Hs).
      rewrite (bind_ok _ _ _ tt w1) by done. rewrite (bind_ok _ _ _ (conn_at w1 c) w1) by done.
      pose proof (skip_flush_shorter h) as Hsh. destruct (skip_flush h) as [[h1|] evs].
      * destruct (settled_open _ _ _ _ _ _ _ Hs) as [Hop [ls1 Hf1]]. rewrite Hop.
        specialize (Hsh h1 eq_refl). rewrite Hq in Hsh. cbn in Hsh, Hl, Hn.
        destruct (IH n w1 ls1 h1 true Hf1) as (w2 & b2 & He2 & Hs2); [lia..|].
        exists w2, b2. split; [done|]. destruct (drain n T h1) as [r evs2].
        by eapply settled_trans.
      * rewrite (settled_closed _ _ _ _ _ _ Hs). by exists w1, true.
Qed.


Lemma focus_empty w c k ls R h : focus w c k ls R h →
  bool_decide (c_first (conn_at w c) = None) = bool_decide (h_queue h = []).
Proof.
  intros Hf. rewrite (f_first _ _ _ _ _ _ Hf). pose proof (f_queue _ _ _ _ _ _ Hf) as Hq.
  destruct ls; cbn in Hq; rewrite <-Hq; by rewrite !bool_decide_decide.
Qed.

Lemma flush_connection_ok opt w c k ls R h : focus w c k ls R h → ∃ w' r,
  flush_connection opt c w = (Ok r, w') ∧ settled w w' c k R (flush_half opt h).
Proof.
  intros Hf. unfold flush_connection, flush_half.
  rewrite (bind_ok _ _ _ (conn_at w c) w) by done. rewrite (f_open _ _ _ _ _ _ Hf).
  rewrite (bind_ok _ _ _ w w) by done.
  destruct (flush_old_ok c k R (T_ opt) (page_fuel w) (length (h_queue h)) w ls h false Hf)
    as (w1 & b & He & Hs); [|done|].
  { rewrite <-(f_queue _ _ _ _ _ _ Hf), length_content. pose proof (focus_fuel _ _ _ _ _ _ Hf). lia. }
  rewrite (bind_ok _ _ _ b w1) by done. rewrite (bind_ok _ _ _ w1 w1) by done. cbv zeta.
  destruct (drain _ _ h) as [[h1|] evs].
  - destruct (settled_open _ _ _ _ _ _ _ Hs) as [Hop [ls1 Hf1]].
    rewrite Hop, (focus_empty _ _ _ _ _ _ Hf1), (f_seen _ _ _ _ _ _ Hf1). cbn [negb].
    rewrite andb_true_r. destruct (_ && _ && _); [|eauto].
    destruct (closeConnection_ok w1 c k ls1 R h1 Hf1) as (w2 & He2 & Ht2 & Hc2).
    rewrite (bind_ok _ _ _ tt w2) by done. eexists w2, _. split; [done|].
    eapply settled_trans; [apply Hs|]. by split.
  - rewrite (settled_closed _ _ _ _ _ _ Hs). cbn [negb]. rewrite andb_false_r. cbn. eauto.
Qed.

(** The connections that a loop has still to visit: each is in the pool, or
    was closed and removed since the loop began. *)
Definition visiting (w : world) (c : loc) (k : key) : Prop :=
  sp_conns (pool w) !! k = Some c ∨ sp_conns (pool w) !! k = None ∧ c_closed (conn_at w c) = true.

Lemma visiting_settled w w' st Q k c r R cs ks : represents o w st Q →
  sp_conns (pool w) !! k = Some c → settled w w' c k R r →
  Forall2 (visiting w) cs ks → Forall2 (visiting w') cs ks.
Proof.
  intros HR Hc Hs HF. eapply Forall2_impl; [apply HF|]. clear HF. intros c' k' Hv.
  destruct (represents_lookup _ _ _ _ _ HR Hc) as (h & ls & _ & _ & Hf).
  assert (pool w' = pool w ∨ c_closed (conn_at w' c) = true ∧ sp_conns (pool w') = delete k (sp_conns (pool w))) as Hp.
  { destruct r as [[h'|] evs], Hs as [_ Hs].
    - destruct Hs as (ls' & Hfr & _). left. apply Hfr.
    - right. split; [apply Hs|]. by rewrite (cl_pool _ _ _ _ _ Hs). }
  assert (∀ x, x ≠ c → conn_at w' x = conn_at w x) as Hx.
  { destruct r as [[h'|] evs], Hs as [_ Hs]; [destruct Hs as (ls' & Hs & _)|]; apply Hs. }
  unfold visiting in *. destruct Hv as [Hv|[Hv Hcl]].
  - destruct Hp as [->|[Hcl ->]]; [by left|]. destruct (decide (k' = k)) as [->|Hne].
    + rewrite Hc in Hv. injection Hv as <-. right. by rewrite lookup_delete_eq.
    + left. by rewrite lookup_delete_ne.
  - right. assert (c' ≠ c) as Hne.
    { intros ->. by rewrite (f_open _ _ _ _ _ _ Hf) in Hcl. }
    rewrite Hx by done. split; [|done]. destruct Hp as [->|[_ ->]]; [done|].
    apply lookup_delete_None. by right.
Qed.

(** One visit: [m] runs on the object, [f] on the abstract connection. *)
Section visits.
Context {A : Type} (m : loc → M world A) (f : half → result) (skipped : A).
Hypothesis m_open : ∀ w c k ls R h, focus w c k ls R h → ∃ w' a,
  m c w = (Ok a, w') ∧ settled w w' c k R (f h).
Hypothesis m_closed : ∀ w c, c_closed (conn_at w c) = true → m c w = (Ok skipped, w).

Lemma visit_ok w st c k cs ks : implements o w st → visiting w c k → Forall2 (visiting w) cs ks →
  ∃ w' a, m c w = (Ok a, w') ∧ implements o w' (visit f st k) ∧ Forall2 (visiting w') cs ks.
Proof.
  intros [Q HR] [Hc|[Hc Hcl]] Hcs; unfold visit.
  - destruct (represents_lookup _ _ _ _ _ HR Hc) as (h & ls & Hh & HQ & Hf). rewrite Hh.
    destruct (m_open w c k ls _ h Hf) as (w' & a & He & Hs). exists w', a. split; [done|].
    split; [by eapply settled_represents | by eapply visiting_settled].
  - assert (a_conns st !! k = None) as -> by by apply (represents_lookup_None _ _ _ _ HR).
    exists w, skipped. split; [by apply m_closed|]. split; [by exists Q | done].
Qed.
End visits.

Lemma connections_visiting w st : implements o w st → ∃ ks,
  ks ≡ₚ (map_to_list (a_conns st)).*1 ∧ Forall2 (visiting w) (connections w) ks.
Proof.
  intros [Q HR]. exists (map_to_list (sp_conns (pool w))).*1. split.
  - apply NoDup_Permutation; [apply NoDup_fst_map_to_list..|]. intros k.
    rewrite !list_elem_of_fmap. pose proof (represents_lookup_None _ _ _ k HR) as HN.
    split; intros ([k' v] & -> & Hin%elem_of_map_to_list); cbn [fst] in *.
    + destruct (a_conns st !! k') as [h|] eqn:E; [|destruct HN as [_ HN]; specialize (HN eq_refl); congruence].
      exists (k', h). split; [done|]. by apply elem_of_map_to_list.
    + destruct (sp_conns (pool w) !! k') as [c|] eqn:E; [|destruct HN as [HN _]; specialize (HN eq_refl); congruence].
      exists (k', c). split; [done|]. by apply elem_of_map_to_list.
  - unfold connections. apply Forall2_fmap, Forall_Forall2_diag, Forall_forall.
    intros [k c] Hin%elem_of_map_to_list. by left.
Qed.

Lemma flush_loop_ok opt : ∀ cs ks w st n1 n2, implements o w st → Forall2 (visiting w) cs ks → ∃ w' r,
  flush_loop opt cs n1 n2 w = (Ok r, w') ∧ implements o w' (foldl (visit (flush_half opt)) st ks).
Proof.
  induction cs as [|c cs IH]; intros ks w st n1 n2 HR Hv; inversion Hv; subst.
  - by exists w, (n1, n2).
  - destruct (visit_ok (flush_connection opt) (flush_half opt) (false, false)
      (fun w c k ls R h H => flush_connection_ok opt w c k ls R h H)
      (fun w c H => ltac:(unfold flush_connection; rewrite (bind_ok _ _ _ (conn_at w c) w) by done; by rewrite H))
      w st c y cs l' HR) as (w1 & r & He & HR1 & Hv1); [done..|].
    cbn [flush_loop foldl]. rewrite (bind_ok _ _ _ r w1) by done. by apply IH.
Qed.

(** [FlushAll] skips until the connection is closed. *)
Lemma flush_until_closed_ok c k R : ∀ fuel n w ls h, focus w c k ls R h →
  (length (h_queue h) < fuel)%nat → (length (h_queue h) < n)%nat → ∃ w',
  flush_until_closed fuel c w = (Ok tt, w') ∧ settled w w' c k R (drain_all n h).
Proof.
  induction fuel as [|fuel IH]; intros n w ls h Hf Hl Hn; [lia|]. destruct n as [|n]; [lia|].
  cbn [flush_until_closed drain_all]. rewrite (bind_ok _ _ _ (conn_at w c) w) by done.
  rewrite (f_open _ _ _ _ _ _ Hf). destruct (skipFlush_ok w c k ls R h Hf) as (w1 & He & Hs).
  rewrite (bind_ok _ _ _ tt w1) by done.
  pose proof (skip_flush_shorter h) as Hsh. destruct (skip_flush h) as [[h1|] evs].
  - destruct (settled_open _ _ _ _ _ _ _ Hs) as [Hop [ls1 Hf1]]. specialize (Hsh h1 eq_refl).
    destruct (IH n w1 ls1 h1 Hf1) as (w2 & He2 & Hs2); [lia..|].
    exists w2. split; [done|]. destruct (drain_all n h1). by eapply settled_trans.
  - exists w1. split; [|done]. pose proof (settled_closed _ _ _ _ _ _ Hs) as Hcl.
    destruct fuel; cbn [flush_until_closed]; rewrite (bind_ok _ _ _ (conn_at w1 c) w1) by done; by rewrite Hcl.
Qed.

Lemma flush_all_loop_ok : ∀ cs ks w st, implements o w st → Forall2 (visiting w) cs ks → ∃ w',
  flush_all_loop cs w = (Ok tt, w') ∧ implements o w' (foldl (visit close_half) st ks).
Proof.
  induction cs as [|c cs IH]; intros ks w st HR Hv; inversion Hv; subst.
  - by exists w.
  - destruct (visit_ok (fun c w => flush_until_closed (page_fuel w) c w) close_half tt) with
      (w := w) (st := st) (c := c) (k := y) (cs := cs) (ks := l') as (w1 & [] & He & HR1 & Hv1); try done.
    { intros w0 c0 k ls R h Hf.
      destruct (flush_until_closed_ok c0 k R (page_fuel w0) (S (length (h_queue h))) w0 ls h Hf) as (w' & He & Hs);
        [|lia|by exists w', tt].
      rewrite <-(f_queue _ _ _ _ _ _ Hf), length_content. by eapply focus_fuel. }
    { intros w0 c0 Hcl. destruct (page_fuel w0); cbn [flush_until_closed];
        rewrite (bind_ok _ _ _ (conn_at w0 c0) w0) by done; by rewrite Hcl. }
    cbn [flush_all_loop foldl]. rewrite (bind_ok _ _ _ w w) by done. rewrite (bind_ok _ _ _ tt w1) by done.
    by apply IH.
Qed.

End represents.

(** ** Runs of the assembler *)

Definition run_call (c : call) : M world unit :=
  match c with
  | CallAssemble nf t ts => AssembleWithTimestamp nf t ts
  | CallFlush opt => _ ← FlushWithOptions opt; mret tt
  | CallFlushAll => _ ← FlushAll; mret tt
  end.

Fixpoint run_calls (cs : list call) : M world unit :=
  match cs with
  | [] => mret tt
  | c :: cs' => _ ← run_call c; run_calls cs'
  end.

Lemma run_call_ok o w st c : implements o w st → all_conns rested st → call_ok c → ∃ w' st',
  run_call c w = (Ok tt, w') ∧ allowed o c st st' ∧ implements o w' st'.
Proof.
  intros HI Hrest Hc. destruct c as [nf t ts|opt|]; cbn [run_call].
  - destruct Hc as (_ & tf & Htf).
    destruct (AssembleWithTimestamp_ok o w st nf tf t ts HI Hrest Htf) as (w' & stale & He & HI').
    eexists w', _. split; [done|]. split; [by constructor | done].
  - destruct (connections_visiting o w st HI) as (ks & Hks & Hv).
    destruct (flush_loop_ok o opt (connections w) ks w st 0 0 HI Hv) as (w' & r & He & HI').
    eexists w', _. split; [|split; [by constructor | done]].
    rewrite (bind_ok _ _ _ r w'); [done|]. exact He.
  - destruct (connections_visiting o w st HI) as (ks & Hks & Hv).
    destruct (flush_all_loop_ok o (connections w) ks w st HI Hv) as (w' & He & HI').
    eexists w', _. split; [|split; [by constructor | done]].
    rewrite (bind_ok _ _ _ (len (connections w)) w'); [done|].
    unfold FlushAll. rewrite (bind_ok _ _ _ (connections w) w) by done.
    by rewrite (bind_ok _ _ _ tt w').
Qed.

Lemma run_calls_ok o cs : ∀ w st, implements o w st → all_conns rested st → Forall call_ok cs → ∃ w' st',
  run_calls cs w = (Ok tt, w') ∧ allowed_run o cs st st' ∧ implements o w' st' ∧ all_conns rested st'.
Proof.
  induction cs as [|c cs IH]; intros w st HI Hrest Hcs.
  - exists w, st. split_and!; [done|constructor|done..].
  - apply Forall_cons in Hcs as [Hc Hcs].
    destruct (run_call_ok o w st c HI Hrest Hc) as (w1 & st1 & He & Ha & HI1).
    destruct (IH w1 st1 HI1) as (w2 & st2 & He2 & Hrun & HI2 & Hr2); [by eapply allowed_rested|done|].
    exists w2, st2. cbn [run_calls]. rewrite (bind_ok _ _ _ tt w1) by done.
    split_and!; [done|by econstructor|done..].
Qed.

Lemma implements_start o : implements o (NewAssembler o NewStreamPool) astart.
Proof.
  exists ∅. split; try done.
  - split; cbn; try done; try lia; [constructor | intros c Hc; by apply elem_of_nil in Hc].
  - split; try (vm_compute; done).
    + rewrite app_nil_r. apply NoDup_ListNoDup, seq_NoDup.
    + intros l. change (l ∈ seq 0 (Z.to_nat 1024) ++ [] → Z.of_nat l < 1024).
      rewrite app_nil_r, elem_of_seq. lia.
Qed.
