(* ===== verification/TcpData.v ===== *)
(** * What a TCP stream is given is what was sent

    The packets of a connection are taken to be segments of one byte stream of
    less than a gigabyte. Then everything the assembler delivers is a piece of
    that stream, in the place that the [Skip] counts say; and if nothing is
    skipped, whatever has arrived without a gap has been delivered. *)

From S2P Require Import Prelude SerializeBuffer LayerClasses Flows BaseLayers Tcp TcpAssembly TcpStream.

(** ** Arithmetic of sequence numbers *)

Lemma Add_mod s t : Add s t = (s + t) mod 4294967296.
Proof. unfold Add. change (uint32Size - 1) with (Z.ones 32). by rewrite land_low. Qed.

Lemma Add_Add s i j : Add (Add s i) j = Add s (i + j).
Proof. rewrite !Add_mod, Zplus_mod_idemp_l. f_equal. lia. Qed.

(** Up to a quarter of the sequence space apart, [Difference] is exact. *)
Lemma Difference_Add s i j : -1073741824 < j - i < 1073741824 → Difference (Add s i) (Add s j) = j - i.
Proof.
  intros H. rewrite !Add_mod, Difference_eq.
  pose proof (Z.mod_pos_bound (s + i) 4294967296 eq_refl) as Hx.
  pose proof (Z.mod_pos_bound (s + j) 4294967296 eq_refl) as Hy.
  pose proof (Z.div_mod (s + i) 4294967296 ltac:(done)) as Ex.
  pose proof (Z.div_mod (s + j) 4294967296 ltac:(done)) as Ey.
  set (x := (s + i) mod _) in *. set (y := (s + j) mod _) in *.
  set (a := (s + i) / _) in *. set (b := (s + j) / _) in *. clearbody x y a b.
  destruct (Z.gtb_spec x 3221225472), (Z.ltb_spec y 1073741824),
    (Z.gtb_spec y 3221225472), (Z.ltb_spec x 1073741824); cbn; lia.
Qed.

Section data.
Context (isn : Z) (data : bytes).
Hypothesis short : len data < 1073741823.

(** The sequence number of the byte at offset [i]; [isn] itself, the number
    of the SYN packet, is that of offset -1. *)
Definition pos (i : Z) : Sequence := Add isn (1 + i).

Definition in_data (i : Z) : Prop := 0 <= i <= len data.

Lemma Difference_pos i j : -1 <= i <= len data → -1 <= j <= len data →
  Difference (pos i) (pos j) = j - i.
Proof. intros Hi Hj. unfold pos. rewrite Difference_Add; lia. Qed.

Lemma Add_pos i n : Add (pos i) n = pos (i + n).
Proof. unfold pos. rewrite Add_Add. f_equal. lia. Qed.

Lemma pos_valid i : pos i ≠ invalidSequence.
Proof. pose proof (Add_nonneg isn (1 + i)) as H. unfold pos, invalidSequence. lia. Qed.

(** [bs] is in the data at offset [o]. *)
Definition piece (o : Z) (bs : bytes) : Prop :=
  ∃ pre post, data = pre ++ bs ++ post ∧ len pre = o.

Lemma piece_app o b1 b2 : piece o (b1 ++ b2) → piece o b1 ∧ piece (o + len b1) b2.
Proof.
  intros (pre & post & H & <-). split.
  - exists pre, (b2 ++ post). by rewrite H, <-!app_assoc.
  - exists (pre ++ b1), post. rewrite H, <-!app_assoc. split; [done | lens].
Qed.

Lemma piece_range o bs : piece o bs → 0 <= o ∧ o + len bs <= len data.
Proof. intros (pre & post & H & <-). rewrite H. lens. Qed.

Lemma piece_nil i : in_data i → piece i [].
Proof.
  intros [H1 H2]. exists (take (Z.to_nat i) data), (drop (Z.to_nat i) data).
  cbn [app]. split; [by rewrite take_drop|]. rewrite len_take. lia.
Qed.

Lemma piece_join o b1 b2 : piece o b1 → piece (o + len b1) b2 → piece o (b1 ++ b2).
Proof.
  intros (pre & post & H1 & <-) (pre2 & post2 & H2 & Hl). exists pre, post2. split; [|done].
  assert (pre2 = pre ++ b1) as ->; [|by rewrite H2, <-!app_assoc].
  rewrite H1 in H2 at 1. rewrite app_assoc in H2. apply app_inj_1 in H2 as [<- _]; [done|].
  rewrite length_app. unfold len in Hl. lia.
Qed.

(** ** Well-formed packets, pages and connections *)

Definition is_segment (t : TCP) : Prop :=
  if SYN t then Seq t = pos (-1) ∧ Payload (base t) = []
  else ∃ o, Seq t = pos o ∧ piece o (Payload (base t)).

Definition page_at_offset (o : Z) (p : qpage) : Prop :=
  p.1 = pos o ∧ piece o (Bytes p.2) ∧ Skip p.2 = 0 ∧ Start p.2 = false.
Definition page_ok (p : qpage) : Prop := ∃ o, page_at_offset o p.

(** How far the stream has come: nowhere, or to an offset. *)
Definition next_ok (n : option Z) (next : Sequence) : Prop :=
  match n with None => next = invalidSequence | Some i => next = pos i ∧ in_data i end.

Definition half_ok (n : option Z) (h : half) : Prop :=
  next_ok n (h_next h) ∧ Forall page_ok (h_queue h).

(** A delivered piece is the data of its place: at the start, at an unknown
    place when the start was missed, or [Skip] bytes after the last one. *)
Inductive placed : option Z -> Reassembly -> option Z -> Prop :=
  | placed_start r : Start r = true -> Bytes r = [] -> Skip r = 0 -> placed None r (Some 0)
  | placed_first r o : Start r = false -> Skip r = -1 -> piece o (Bytes r) ->
      placed None r (Some (o + len (Bytes r)))
  | placed_next r i : Start r = false -> 0 <= Skip r -> piece (i + Skip r) (Bytes r) ->
      placed (Some i) r (Some (i + Skip r + len (Bytes r))).

Inductive placed_all : option Z -> list Reassembly -> option Z -> Prop :=
  | all_nil n : placed_all n [] n
  | all_cons n r n1 rs n2 : placed n r n1 -> placed_all n1 rs n2 -> placed_all n (r :: rs) n2.

Lemma placed_all_app n rs n1 rs' n2 : placed_all n rs n1 → placed_all n1 rs' n2 →
  placed_all n (rs ++ rs') n2.
Proof. induction 1; intros H2; cbn; [done|]. econstructor; eauto. Qed.

Lemma span_pos i o bs : in_data i → piece o bs → ∃ i',
  (span (pos i) (pos o) bs).2 = pos i' ∧ in_data i' ∧
  (o <= i → i' = i + len (span (pos i) (pos o) bs).1 ∧ piece i (span (pos i) (pos o) bs).1 ∧
            o + len bs <= i') ∧
  (i < o → (span (pos i) (pos o) bs).1 = bs ∧ i' = o + len bs).
Proof.
  intros Hi Hp. pose proof (piece_range _ _ Hp) as Hr. unfold span, in_data in *. pose proof (len_nonneg bs).
  destruct (Z.eqb_spec (pos i) invalidSequence) as [E|_]; [by apply pos_valid in E|]. cbv zeta.
  rewrite Difference_pos, !Add_pos by lia.
  destruct (Z.leb_spec (i - o) 0); [|destruct (Z.ltb_spec (len bs) (i - o))]; cbn [fst snd].
  - exists (o + len bs). split_and!; try done; try lia. intros. by replace i with o by lia.
  - exists i. split_and!; try done; try lia. intros. split_and!; [lens| |lia]. by apply piece_nil.
  - exists (i + (len bs - (i - o))). rewrite len_drop.
    split_and!; try done; try lia. intros. split_and!; try lia.
    rewrite <-(take_drop (Z.to_nat (i - o)) bs) in Hp. apply piece_app in Hp as [_ Hp].
    rewrite len_take in Hp. by replace (o + _) with i in Hp by lia.
Qed.

(** [pop] delivers a page in its place. *)
Lemma pop_placed n next p : next_ok n next → page_ok p → ∃ n',
  placed n (pop next p).1 n' ∧ next_ok n' (pop next p).2.
Proof.
  intros Hn (o & Hp & Hpiece & Hsk & Hst). pose proof (piece_range _ _ Hpiece) as Hr.
  pose proof (len_nonneg (Bytes p.2)) as Hl. unfold pop. destruct n as [i|].
  - destruct Hn as [-> Hi]. rewrite Hp. destruct (span_pos i o (Bytes p.2) Hi Hpiece) as (i' & -> & Hi' & Hle & Hlt).
    destruct (Z.eqb_spec (pos i) invalidSequence) as [E|_]; [by apply pos_valid in E|].
    unfold in_data in *. rewrite Difference_pos by lia. cbn [fst snd]. exists (Some i'). split; [|done].
    set (sp := (span _ _ _).1) in *. destruct (Z.gtb_spec (o - i) 0).
    + destruct Hlt as [Hsp ->]; [lia|]. rewrite Hsp.
      replace (o + len (Bytes p.2)) with (i + (o - i) + len (Bytes p.2)) by lia.
      apply (placed_next (mkReassembly (Bytes p.2) (o - i) _ _ _)); cbn; [done|lia|].
      by replace (i + (o - i)) with o by lia.
    + destruct Hle as (-> & Hpi & _); [lia|]. rewrite Hsk.
      replace (i + len sp) with (i + 0 + len sp) by lia.
      apply (placed_next (mkReassembly sp 0 _ _ _)); cbn; [done|lia|]. by rewrite Z.add_0_r.
  - rewrite Hn. cbn [Z.eqb]. unfold span. rewrite !Z.eqb_refl. cbn [fst snd].
    exists (Some (o + len (Bytes p.2))). split.
    + by apply (placed_first (mkReassembly (Bytes p.2) (-1) _ _ _)).
    + cbn. rewrite Hp, Add_pos. split; [done|]. unfold in_data. lia.
Qed.

Lemma contiguous_placed q : ∀ n next rs next' rest, next_ok n next → Forall page_ok q →
  contiguous next q = (rs, next', rest) → ∃ n', placed_all n rs n' ∧ next_ok n' next'.
Proof.
  induction q as [|p q IH]; intros n next rs next' rest Hn Hq; cbn.
  - intros [= <- <- <-]. exists n. split; [constructor | done].
  - apply Forall_cons in Hq as [Hp Hq]. destruct (_ <=? 0).
    + destruct (pop_placed n next p Hn Hp) as (n1 & H1 & Hn1).
      destruct (contiguous _ q) as [[rs1 next1] rest1] eqn:E. intros [= <- <- <-].
      destruct (IH n1 _ _ _ _ Hn1 Hq E) as (n2 & H2 & Hn2). exists n2. split; [by econstructor | done].
    + intros [= <- <- <-]. exists n. split; [constructor | done].
Qed.

(** ** Every step delivers pieces in their places *)

Definition reassembled (e : event) : list Reassembly :=
  match e with EvReassembled _ rs => rs | _ => [] end.
Definition delivered (evs : list event) : list Reassembly := evs ≫= reassembled.

Definition result_ok (n : option Z) (r : result) : Prop :=
  ∃ n', placed_all n (delivered r.2) n' ∧ keeps (half_ok n') r.

Lemma deliver_placed n h rs n1 : placed_all n rs n1 → half_ok n1 h → result_ok n (deliver h rs).
Proof.
  intros Hrs [Hn Hq]. unfold deliver. destruct (contiguous _ _) as [[more next] rest] eqn:E.
  destruct (contiguous_placed _ _ _ _ _ _ Hn Hq E) as (n2 & H2 & Hn2).
  exists n2. split.
  - destruct (last_End _); cbn; rewrite ?app_nil_r; by eapply placed_all_app.
  - destruct (last_End _); cbn; [done|]. split; [done|].
    apply contiguous_rest in E as [[pre Hpre] _]. cbn. rewrite Hpre in Hq.
    by apply Forall_app in Hq as [_ Hq].
Qed.

Lemma cut_pages_ok fuel ts fin : ∀ o bs, piece o bs → Forall page_ok (cut_pages fuel ts fin (pos o) bs).
Proof.
  induction fuel as [|fuel IH]; intros o bs Hp; cbn [cut_pages]; [done|].
  rewrite <-(take_drop (Z.to_nat pageBytes) bs) in Hp. apply piece_app in Hp as [H1 H2].
  destruct (Z.eqb_spec (len (drop (Z.to_nat pageBytes) bs)) 0); constructor; try done; try by exists o.
  rewrite Add_pos. apply IH. rewrite len_drop, len_take in *. unfold pageBytes in *.
  by replace (Z.min (Z.of_nat (Z.to_nat 1900)) (len bs)) with 1900 in H2 by lia.
Qed.

Lemma store_placed o used t ts h n : half_ok n h → ∀ off, Seq t = pos off → piece off (Payload (base t)) →
  let r := store o used t ts h in ∃ n', placed_all n r.2 n' ∧ half_ok n' r.1.
Proof.
  intros [Hn Hq] off Hseq Hp. unfold store. cbv zeta.
  assert (Forall page_ok (insert_pages (Seq t) (new_pages t ts) (h_queue h))) as HF.
  { rewrite insert_pages_perm. apply Forall_app. split; [|done].
    unfold new_pages. rewrite Hseq. by apply cut_pages_ok. }
  destruct (insert_pages _ _ _) as [|p q]; [exists n; split; [constructor | done]|].
  destruct (full _ _ _); cbn [fst snd]; [|exists n; split; [constructor | done]].
  apply Forall_cons in HF as [Hpg HF]. destruct (pop_placed n _ p Hn Hpg) as (n1 & H1 & Hn1).
  exists n1. split; [|done]. econstructor; [done | constructor].
Qed.

Lemma receive_placed o used t ts h n : half_ok n h → is_segment t → result_ok n (receive o used t ts h).
Proof.
  intros Hh Hseg. unfold receive. assert (half_ok n (see ts h)) as Hh1 by done.
  set (h1 := see ts h) in *. clearbody h1. cbv zeta.
  match goal with |- context [let '(h, rs) := ?b in _] => set (br := b) end.
  assert (∃ n', placed_all n br.2 n' ∧ half_ok n' br.1) as (n' & Hrs & Hh').
  { unfold br, is_segment in *. destruct Hh1 as [Hn Hq]. destruct (Z.eqb_spec (h_next h1) invalidSequence) as [Hi|Hi].
    - destruct n as [i|]; [destruct Hn as [E _]; rewrite E in Hi; by apply pos_valid in Hi|].
      destruct (SYN t); [|destruct Hseg as (off & Hs & Hp); by eapply store_placed].
      destruct Hseg as [Hs Hp]. exists (Some 0). rewrite Hp, Hs, Add_pos. split.
      + econstructor; [by apply placed_start | constructor].
      + split; [|done]. cbn. split; [done|]. unfold in_data. lens.
    - destruct n as [i|]; [|done]. destruct Hn as [E Hin]. unfold in_data in Hin.
      destruct (SYN t).
      + destruct Hseg as [Hs Hp]. rewrite E, Hs, Difference_pos by lia.
        destruct (Z.gtb_spec (-1 - i) 0); [lia|]. rewrite Hp. unfold span.
        destruct (Z.eqb_spec (pos i) invalidSequence) as [E'|_]; [by apply pos_valid in E'|]. cbv zeta.
        rewrite Difference_pos by lia. destruct (Z.leb_spec (i - -1) 0); [lia|].
        destruct (Z.ltb_spec (len (@nil Z)) (i - -1)); [|rewrite len_nil in *; lia]. cbn [fst snd].
        exists (Some (i + 0 + 0)). split; [|rewrite !Z.add_0_r; by split].
        econstructor; [|constructor]. apply (placed_next (mkReassembly [] 0 _ _ _)); cbn; [done|lia|].
        rewrite Z.add_0_r. by apply piece_nil.
      + destruct Hseg as (off & Hs & Hp). destruct (Z.gtb_spec (Difference (h_next h1) (Seq t)) 0) as [Hd|Hd].
        { by eapply (store_placed o used t ts h1 (Some i)). }
        pose proof (piece_range _ _ Hp). pose proof (len_nonneg (Payload (base t))).
        rewrite E, Hs, Difference_pos in Hd by lia.
        destruct (span_pos i off (Payload (base t)) Hin Hp) as (i' & Hsp & Hi' & Hle & _).
        destruct Hle as (-> & Hpi & _); [lia|]. rewrite E, Hs. cbn [fst snd]. rewrite Hsp.
        eexists (Some _). split; [|by split].
        econstructor; [|constructor].
        match goal with |- placed _ ?r _ => pose proof (placed_next r i eq_refl) as Hpl end.
        cbn in Hpl. rewrite Z.add_0_r in Hpl. by apply Hpl. }
  destruct br as [h2 [|r rs]]; cbn [fst snd] in *; [|by eapply deliver_placed].
  exists n'. by split.
Qed.

Lemma skip_flush_placed h n : half_ok n h → result_ok n (skip_flush h).
Proof.
  intros [Hn Hq]. unfold skip_flush. destruct (h_queue h) as [|p q].
  - exists n. split; [constructor | done].
  - apply Forall_cons in Hq as [Hp Hq]. destruct (pop_placed n _ p Hn Hp) as (n1 & H1 & Hn1).
    eapply deliver_placed; [econstructor; [done | constructor] | by split].
Qed.
End data.
