(* ===== verification/TcpTrace.v ===== *)
(** * The calls that a stream sees

    Over any run of the specification: how the trace of one stream looks, and
    that a stream whose packets are segments of one byte stream is given pieces
    of it in their places. *)

From S2P Require Import Prelude SerializeBuffer LayerClasses Flows BaseLayers Tcp TcpAssembly TcpStream TcpData.

Definition about (s : nat) (e : event) : bool :=
  match e with EvNew s' _ | EvReassembled s' _ | EvComplete s' => Nat.eqb s s' end.
Definition events_of (s : nat) (tr : list event) : list event := List.filter (about s) tr.
Arguments events_of : simpl never.

Definition is_data (e : event) : Prop := match e with EvReassembled _ _ => True | _ => False end.

(** What a result may tell its stream [s]: data, and completion if it closes. *)
Definition good_result (s : nat) (r : result) : Prop :=
  Forall (fun e => about s e = true) r.2 ∧
  match r.1 with
  | Some h => h_stream h = s ∧ Forall is_data r.2
  | None => ∃ mid, r.2 = mid ++ [EvComplete s] ∧ Forall is_data mid
  end.

Lemma events_of_app s t1 t2 : events_of s (t1 ++ t2) = events_of s t1 ++ events_of s t2.
Proof. apply List.filter_app. Qed.

Lemma events_of_all s evs : Forall (fun e => about s e = true) evs → events_of s evs = evs.
Proof. unfold events_of. induction 1 as [|e evs He _ IH]; cbn; [done|]. by rewrite He, IH. Qed.

Lemma events_of_none s s' evs : s ≠ s' → Forall (fun e => about s' e = true) evs → events_of s evs = [].
Proof.
  intros Hne. unfold events_of. induction 1 as [|e evs He _ IH]; cbn; [done|]. rewrite IH.
  destruct e; cbn in *; apply Nat.eqb_eq in He as <-; by rewrite (proj2 (Nat.eqb_neq _ _) Hne).
Qed.

Ltac solve_about := repeat (constructor; [apply Nat.eqb_refl|]); constructor.

(** ** Results tell only their own stream *)

Lemma deliver_good h rs : good_result (h_stream h) (deliver h rs).
Proof.
  unfold deliver, good_result. destruct (contiguous _ _) as [[more n] q].
  destruct (last_End _); cbn.
  - split; [solve_about|]. exists [EvReassembled (h_stream h) (rs ++ more)].
    split; [done | by repeat constructor].
  - split; [solve_about|]. split; [done | by repeat constructor].
Qed.

Lemma good_refl h : good_result (h_stream h) (Some h, []).
Proof. by repeat constructor. Qed.

Lemma store_stream o used t ts h : h_stream (store o used t ts h).1 = h_stream h.
Proof. unfold store. cbv zeta. repeat case_match; done. Qed.

Lemma receive_good o used t ts h : good_result (h_stream h) (receive o used t ts h).
Proof.
  unfold receive. cbv zeta.
  match goal with |- context [let '(h, rs) := ?b in _] => set (br := b) end.
  assert (h_stream br.1 = h_stream h) as Hs.
  { unfold br. destruct (h_next _ =? _); [destruct (SYN t) | destruct (_ >? 0)];
      rewrite ?store_stream; done. }
  destruct br as [h2 [|r rs]]; cbn [fst] in Hs; rewrite <-Hs; [apply good_refl | apply deliver_good].
Qed.

Lemma skip_flush_good h : good_result (h_stream h) (skip_flush h).
Proof.
  unfold skip_flush. destruct (h_queue h) as [|p q].
  - split; cbn; [solve_about|]. by exists [].
  - apply (deliver_good (set_queue _ q h)).
Qed.

Lemma good_trans s h evs r evs' : good_result s (Some h, evs) → good_result (h_stream h) (r, evs') →
  good_result s (r, evs ++ evs').
Proof.
  intros [H1 [<- H3]] [H4 H5]. split; cbn in *; [by apply Forall_app|].
  destruct r as [h'|].
  - destruct H5 as [H5 H6]. split; [done | by apply Forall_app].
  - destruct H5 as (mid & -> & H5). exists (evs ++ mid). rewrite app_assoc. split; [done | by apply Forall_app].
Qed.

Lemma drain_good T : ∀ fuel h, good_result (h_stream h) (drain fuel T h).
Proof.
  induction fuel as [|fuel IH]; intros h; cbn [drain]; [apply good_refl|].
  destruct (h_queue h) as [|p q]; [apply good_refl|]. destruct (_ <? _); [|apply good_refl].
  pose proof (skip_flush_good h) as Hs. destruct (skip_flush h) as [[h'|] evs]; [|done].
  specialize (IH h'). destruct (drain fuel T h'). by eapply good_trans.
Qed.

Lemma drain_all_good : ∀ fuel h, good_result (h_stream h) (drain_all fuel h).
Proof.
  induction fuel as [|fuel IH]; intros h; cbn [drain_all]; [apply good_refl|].
  pose proof (skip_flush_good h) as Hs. destruct (skip_flush h) as [[h'|] evs]; [|done].
  specialize (IH h'). destruct (drain_all fuel h'). by eapply good_trans.
Qed.

Lemma flush_half_good opt h : good_result (h_stream h) (flush_half opt h).
Proof.
  unfold flush_half. pose proof (drain_good (T_ opt) (length (h_queue h)) h) as Hs.
  destruct (drain _ _ h) as [[h'|] evs]; [|done]. destruct (_ && _); [|done].
  eapply good_trans; [apply Hs|]. split; cbn; [solve_about|]. by exists [].
Qed.

(** ** The protocol of every stream *)

Record traced (st : astate) : Prop := mkTraced {
  t_open : ∀ k h, a_conns st !! k = Some h → (h_stream h < a_streams st)%nat ∧
    ∃ mid, events_of (h_stream h) (a_trace st) = EvNew (h_stream h) k :: mid ∧ Forall is_data mid;
  t_closed : ∀ s, (s < a_streams st)%nat → (∀ k h, a_conns st !! k = Some h → h_stream h ≠ s) →
    ∃ k mid, events_of s (a_trace st) = EvNew s k :: mid ++ [EvComplete s] ∧ Forall is_data mid;
  t_fresh : ∀ s, (a_streams st <= s)%nat → events_of s (a_trace st) = [];
}.

Lemma traced_inj st k1 k2 h1 h2 : traced st → a_conns st !! k1 = Some h1 → a_conns st !! k2 = Some h2 →
  h_stream h1 = h_stream h2 → k1 = k2.
Proof.
  intros HT H1 H2 E. destruct (t_open _ HT _ _ H1) as (_ & m1 & E1 & _).
  destruct (t_open _ HT _ _ H2) as (_ & m2 & E2 & _). rewrite E in E1. rewrite E1 in E2. by injection E2.
Qed.

Lemma settle_traced st k h r : traced st → a_conns st !! k = Some h → good_result (h_stream h) r →
  traced (settle k r st).
Proof.
  intros HT Hh [Habout Hr].
  assert (∀ s, s ≠ h_stream h → events_of s (a_trace st ++ r.2) = events_of s (a_trace st)) as Hother.
  { intros s Hs. rewrite events_of_app, (events_of_none s (h_stream h) r.2), app_nil_r; done. }
  assert (∀ k' h', k' ≠ k → a_conns st !! k' = Some h' → h_stream h' ≠ h_stream h) as Hinj.
  { intros k' h' Hne Hk' E. apply Hne. by eapply traced_inj. }
  destruct (t_open _ HT _ _ Hh) as (Hlt & mid & Hmid & Hdata).
  assert (events_of (h_stream h) (a_trace st ++ r.2) = EvNew (h_stream h) k :: mid ++ r.2) as Hthis.
  { rewrite events_of_app, Hmid, events_of_all by done. done. }
  assert (∀ k' h', k' ≠ k → a_conns st !! k' = Some h' → (h_stream h' < a_streams st)%nat ∧
    ∃ mid, events_of (h_stream h') (a_trace st ++ r.2) = EvNew (h_stream h') k' :: mid ∧ Forall is_data mid) as Hopen.
  { intros k' h' Hne Hk'. rewrite Hother by (by eapply Hinj). by apply (t_open _ HT). }
  assert (∀ s, (a_streams st <= s)%nat → events_of s (a_trace st ++ r.2) = []) as Hfresh.
  { intros s Hs. rewrite Hother by lia. by apply (t_fresh _ HT). }
  unfold settle. destruct (r.1) as [h'|] eqn:E.
  - destruct Hr as [Hs Hd]. split; cbn; [| |done].
    + intros k1 h1. rewrite lookup_insert_Some. intros [[<- <-]|[Hne H1]]; [|by apply Hopen].
      rewrite Hs, Hthis. split; [done|]. exists (mid ++ r.2). split; [done | by apply Forall_app].
    + intros s Hs1 Hnone. assert (s ≠ h_stream h) as Hne.
      { rewrite <-Hs. intros ->. by apply (Hnone k h'); [apply lookup_insert_eq|]. }
      rewrite Hother by done. apply (t_closed _ HT); [done|]. intros k1 h1 H1.
      destruct (decide (k1 = k)) as [->|Hk]; [congruence|].
      apply (Hnone k1). by rewrite lookup_insert_ne.
  - destruct Hr as (m2 & Hm2 & Hd). split; cbn; [| |done].
    + intros k1 h1. rewrite lookup_delete_Some. intros [Hne H1]. by apply Hopen.
    + intros s Hs1 Hnone. destruct (decide (s = h_stream h)) as [->|Hne].
      * rewrite Hthis. exists k, (mid ++ m2). rewrite Hm2, app_assoc. split; [done | by apply Forall_app].
      * rewrite Hother by done. apply (t_closed _ HT); [done|]. intros k1 h1 H1.
        destruct (decide (k1 = k)) as [->|Hk]; [congruence|].
        apply (Hnone k1). by rewrite lookup_delete_ne.
Qed.

Lemma events_of_new s s' k : events_of s [EvNew s' k] = if Nat.eqb s s' then [EvNew s' k] else [].
Proof. done. Qed.

Definition opened (k : key) (stale : time) (st : astate) : astate :=
  mkAstate (<[k := mkHalf (a_streams st) invalidSequence [] stale]> (a_conns st)) (S (a_streams st))
    (a_trace st ++ [EvNew (a_streams st) k]).

Lemma opened_traced k stale st : traced st → a_conns st !! k = None → traced (opened k stale st).
Proof.
  intros HT Hk.
  assert (∀ s, s ≠ a_streams st → events_of s (a_trace (opened k stale st)) = events_of s (a_trace st)) as Hother.
  { intros s Hs. cbn. rewrite events_of_app, events_of_new, (proj2 (Nat.eqb_neq _ _) Hs). by rewrite app_nil_r. }
  split; cbn [opened a_conns a_streams].
  - intros k1 h1. rewrite lookup_insert_Some. intros [[<- <-]|[Hne H1]]; cbn [h_stream].
    + split; [lia|]. exists []. cbn. rewrite events_of_app, events_of_new, Nat.eqb_refl.
      by rewrite (t_fresh _ HT) by lia.
    + destruct (t_open _ HT _ _ H1) as (Hlt & Hm). rewrite Hother by lia. split; [lia | done].
  - intros s Hs Hnone. assert (s ≠ a_streams st) as Hne.
    { intros ->. by eapply (Hnone k); [apply lookup_insert_eq|]. }
    rewrite Hother by done. apply (t_closed _ HT); [lia|]. intros k1 h1 H1.
    apply (Hnone k1). rewrite lookup_insert_ne; [done|]. congruence.
  - intros s Hs. rewrite Hother by lia. apply (t_fresh _ HT). lia.
Qed.

Lemma opened_settle k stale st r : a_conns st !! k = None →
  settle k r (open_new k stale st).2 = settle k r (opened k stale st).
Proof.
  intros Hk. unfold settle, opened. cbn. destruct (r.1); [by rewrite insert_insert_eq|].
  by rewrite delete_insert_eq.
Qed.

(** ** Invariants of a call *)

(** What a call may do to one open connection. *)
Inductive move (o : AssemblerOptions) : call -> key -> half -> result -> Prop :=
  | move_packet nf tf t ts used h :
      TransportFlow t = Ok tf -> move o (CallAssemble nf t ts) (nf, tf) h (receive o used t ts h)
  | move_flush opt k h : move o (CallFlush opt) k h (flush_half opt h)
  | move_close k h : move o CallFlushAll k h (close_half h).

Lemma move_good o c k h r : move o c k h r → good_result (h_stream h) r.
Proof. destruct 1; [apply receive_good | apply flush_half_good | apply drain_all_good]. Qed.

Section invariant.
Context (o : AssemblerOptions) (c : call) (P : astate → Prop).
Hypothesis P_opened : ∀ st k stale, P st → a_conns st !! k = None → P (opened k stale st).
Hypothesis P_moved : ∀ st k h r, P st → a_conns st !! k = Some h → move o c k h r → P (settle k r st).

Lemma visit_invariant f ks : (∀ k h, move o c k h (f h)) → ∀ st, P st → P (foldl (visit f) st ks).
Proof.
  intros Hf. induction ks as [|k ks IH]; intros st HP; cbn; [done|]. apply IH. unfold visit.
  destruct (a_conns st !! k) eqn:E; [eauto | done].
Qed.

Lemma allowed_invariant st st' : allowed o c st st' → P st → P st'.
Proof.
  intros Ha HP. pose proof visit_invariant as Hvisit. destruct Ha.
  - assert (∀ used h, move o (CallAssemble nf t ts) (nf, tf) h (receive o used t ts h)) as Hm by by constructor.
    revert Hm. set (k := (nf, tf) : key). intros Hm.
    unfold assemble. cbv zeta. destruct (useless t); [done|].
    destruct (a_conns st !! k) as [h|] eqn:E; [by eapply P_moved|].
    destruct (_ && _); [done|]. pose proof (fun r => opened_settle k stale st r E) as Ho.
    cbn [open_new snd] in Ho |- *. rewrite Ho. eapply P_moved; [by apply P_opened| |apply Hm].
    apply lookup_insert_eq.
  - apply Hvisit; [constructor | done].
  - apply Hvisit; [constructor | done].
Qed.
End invariant.

Lemma run_invariant o (P : astate → Prop) cs st st' :
  (∀ c st st', c ∈ cs → allowed o c st st' → P st → P st') → allowed_run o cs st st' → P st → P st'.
Proof.
  intros Hstep Hrun. induction Hrun as [|c cs st st1 st2 Ha Hrun IH]; intros HP; [done|].
  apply IH; [|by eapply Hstep; [left|..]]. intros c' s s' Hc'. apply Hstep. by right.
Qed.

Lemma traced_start : traced astart.
Proof. split; cbn; try done; lia. Qed.

Lemma run_traced o cs st : allowed_run o cs astart st → traced st.
Proof.
  intros Hrun. eapply run_invariant; [|apply Hrun|apply traced_start]. clear.
  intros c st st' _. apply allowed_invariant.
  - intros. by apply opened_traced.
  - intros st1 k h r HT Hh Hm. eapply settle_traced; [done..|]. by eapply move_good.
Qed.

(** ** The data of one connection *)

Section data.
Context (isn : Z) (data : bytes) (k0 : key).
Hypothesis short : len data < 1073741823.

(** A packet of the connection is a segment of its stream. *)
Definition call_segment (c : call) : Prop :=
  match c with
  | CallAssemble nf t ts => ∀ tf, TransportFlow t = Ok tf → (nf, tf) = k0 → is_segment isn data t
  | _ => True
  end.

Definition data_inv (st : astate) : Prop := traced st ∧ ∀ s mid,
  events_of s (a_trace st) = EvNew s k0 :: mid → ∃ n, placed_all data None (delivered mid) n ∧
    ∀ h, a_conns st !! k0 = Some h → h_stream h = s → half_ok isn data n h.

Lemma drain_placed T : ∀ fuel h n, half_ok isn data n h → result_ok isn data n (drain fuel T h).
Proof.
  induction fuel as [|fuel IH]; intros h n Hh; cbn [drain]; [exists n; by split; [constructor|]|].
  destruct (h_queue h); [exists n; by split; [constructor|]|].
  destruct (_ <? _); [|exists n; by split; [constructor|]].
  pose proof (skip_flush_placed isn data short h n Hh) as Hs.
  destruct (skip_flush h) as [[h'|] evs]; [|done]. destruct Hs as (n1 & H1 & Hh1).
  destruct (IH h' n1 Hh1) as (n2 & H2 & Hk). exists n2. split; [|done].
  cbn. unfold delivered in *. rewrite bind_app. by eapply placed_all_app.
Qed.

Lemma drain_all_placed : ∀ fuel h n, half_ok isn data n h → result_ok isn data n (drain_all fuel h).
Proof.
  induction fuel as [|fuel IH]; intros h n Hh; cbn [drain_all]; [exists n; by split; [constructor|]|].
  pose proof (skip_flush_placed isn data short h n Hh) as Hs.
  destruct (skip_flush h) as [[h'|] evs]; [|done]. destruct Hs as (n1 & H1 & Hh1).
  destruct (IH h' n1 Hh1) as (n2 & H2 & Hk). exists n2. split; [|done].
  cbn. unfold delivered in *. rewrite bind_app. by eapply placed_all_app.
Qed.

Lemma flush_half_placed opt h n : half_ok isn data n h → result_ok isn data n (flush_half opt h).
Proof.
  intros Hh. unfold flush_half. pose proof (drain_placed (T_ opt) (length (h_queue h)) h n Hh) as Hs.
  destruct (drain _ _ h) as [[h'|] evs]; [|done]. destruct (_ && _); [|done].
  destruct Hs as (n1 & H1 & _). exists n1. split; [|done].
  cbn in *. unfold delivered in *. rewrite bind_app. cbn. by rewrite app_nil_r.
Qed.

Lemma move_placed o c k h r n : call_segment c → move o c k h r → k = k0 → half_ok isn data n h →
  result_ok isn data n r.
Proof.
  intros Hc Hm Hk Hh. destruct Hm.
  - apply receive_placed; [done..|]. by eapply Hc.
  - by apply flush_half_placed.
  - by apply drain_all_placed.
Qed.

Lemma opened_data k stale st : data_inv st → a_conns st !! k = None → data_inv (opened k stale st).
Proof.
  intros [HT HD] Hk. split; [by apply opened_traced|]. intros s mid. cbn [opened a_trace a_conns].
  rewrite events_of_app, events_of_new. destruct (Nat.eqb_spec s (a_streams st)) as [->|Hne].
  - rewrite (t_fresh _ HT) by done. cbn. intros [= -> <-]. exists None. split; [constructor|].
    intros h. rewrite lookup_insert_eq. intros [= <-] _. by split.
  - rewrite app_nil_r. intros Hs. destruct (HD s mid Hs) as (n & Hn & Hh). exists n. split; [done|].
    intros h. rewrite lookup_insert_Some. intros [[-> <-]|[_ H]]; [|by apply Hh].
    cbn. intros <-. done.
Qed.

Lemma settle_data o c st k h r : call_segment c → data_inv st → a_conns st !! k = Some h →
  move o c k h r → data_inv (settle k r st).
Proof.
  intros Hc [HT HD] Hh Hm. pose proof (move_good _ _ _ _ _ Hm) as Hg.
  split; [by eapply settle_traced|]. intros s mid. cbn [settle a_trace a_conns]. rewrite events_of_app.
  destruct (t_open _ HT _ _ Hh) as (Hlt & old & Hold & _).
  destruct (decide (s = h_stream h)) as [->|Hne].
  - rewrite Hold, events_of_all by apply Hg. cbn. intros [= -> <-].
    destruct (HD (h_stream h) old Hold) as (n & Hn & Hhalf).
    destruct (move_placed o c k0 h r n Hc Hm eq_refl (Hhalf h Hh eq_refl)) as (n' & Hn' & Hk).
    exists n'. split; [unfold delivered in *; rewrite bind_app; by eapply placed_all_app|].
    intros h'. unfold keeps in Hk. destruct (r.1) as [h1|]; [|by rewrite lookup_delete_eq].
    rewrite lookup_insert_eq. by intros [= ->].
  - rewrite (events_of_none s (h_stream h) r.2), app_nil_r by (done || apply Hg). intros Hs.
    destruct (HD s mid Hs) as (n & Hn & Hhalf). exists n. split; [done|].
    intros h' Hh' Hst. destruct Hg as [_ Hg].
    destruct (r.1) as [h1|]; [apply lookup_insert_Some in Hh' as [[-> <-]|[_ Hh']]|
      apply lookup_delete_Some in Hh' as [_ Hh']]; [|by apply Hhalf..].
    destruct Hg as [Hg _]. congruence.
Qed.

Lemma run_data o cs st : Forall call_segment cs → allowed_run o cs astart st → data_inv st.
Proof.
  intros Hcs Hrun. eapply run_invariant; [|apply Hrun|].
  - intros c st1 st2 Hin. apply allowed_invariant.
    + intros. by apply opened_data.
    + intros st3 k h r HD Hh Hm. eapply settle_data; try done. rewrite Forall_forall in Hcs. by apply Hcs.
  - split; [apply traced_start|]. done.
Qed.
End data.
