(* ===== verification/TcpComplete.v ===== *)
(** * Whatever has arrived without a gap has been delivered

    One connection whose packets arrive in any order, some of them many times,
    with nothing flushed: the bytes given to the stream are at any time the
    longest prefix of the data that the packets cover. *)

From S2P Require Import Prelude SerializeBuffer LayerClasses Flows BaseLayers Tcp TcpAssembly TcpStream TcpData.

Section complete.
Context (isn : Z) (data : bytes).
Hypothesis short : len data < 1073741823.

(** An interval of offsets: where it begins and how many bytes it has. *)
Abbreviation ival := (Z * Z)%type.
Implicit Types ivs : list ival.

Definition iv_page (iv : ival) (p : qpage) : Prop :=
  page_at_offset isn data iv.1 p ∧ len (Bytes p.2) = iv.2 ∧ End_ p.2 = false.

(** The order of a queue: a page comes before all pages behind it, or directly
    follows a page before it (they were cut from one packet), or is ready. *)
Definition chained (i : Z) ivs : Prop := ∀ a y b, ivs = a ++ y :: b →
  (∀ z, z ∈ b → y.1 <= z.1) ∨ (∃ x, x ∈ a ∧ x.1 + x.2 = y.1) ∨ y.1 <= i.

(** The byte at offset [b] was delivered or is in the queue. *)
Definition held (i : Z) ivs (b : Z) : Prop := b < i ∨ ∃ iv, iv ∈ ivs ∧ iv.1 <= b < iv.1 + iv.2.

Definition waits (i : Z) ivs : Prop := match ivs with [] => True | y :: _ => i < y.1 end.

Lemma waits_all i ivs : waits i ivs → chained i ivs → ∀ iv, iv ∈ ivs → i < iv.1.
Proof.
  destruct ivs as [|y ivs]; cbn; intros Hw Hc iv Hin; [by apply elem_of_nil in Hin|].
  apply elem_of_cons in Hin as [->|Hin]; [done|].
  destruct (Hc [] y ivs eq_refl) as [H|[(x & Hx & _)|H]]; [|by apply elem_of_nil in Hx|lia].
  specialize (H iv Hin). lia.
Qed.

(** Between calls, what is held and not delivered lies beyond a gap. *)
Lemma held_waits i ivs m : waits i ivs → chained i ivs → 0 <= i → (∀ b, 0 <= b < m → held i ivs b) → m <= i.
Proof.
  intros Hw Hc Hi Hh. destruct (Z.le_gt_cases m i) as [|Hm]; [done|].
  destruct (Hh i) as [H|(iv & Hin & Hb)]; [lia..|]. pose proof (waits_all _ _ Hw Hc iv Hin). lia.
Qed.

Lemma chained_drop i i' k ivs : i <= i' → (∀ iv, iv ∈ take k ivs → iv.1 + iv.2 <= i') →
  chained i ivs → chained i' (drop k ivs).
Proof.
  intros Hi Hk Hc a y b E. destruct (Hc (take k ivs ++ a) y b) as [H|[(x & Hx & Hy)|H]].
  - by rewrite <-app_assoc, <-E, take_drop.
  - by left.
  - apply elem_of_app in Hx as [Hx|Hx]; [right; right; specialize (Hk x Hx); lia|].
    right. left. by exists x.
  - right. right. lia.
Qed.

Lemma held_drop i i' k ivs b : i <= i' → (∀ iv, iv ∈ take k ivs → iv.1 + iv.2 <= i') →
  held i ivs b → held i' (drop k ivs) b.
Proof.
  intros Hi Hk [H|(iv & Hin & Hb)]; [left; lia|].
  rewrite <-(take_drop k ivs) in Hin. apply elem_of_app in Hin as [Hin|Hin].
  - left. specialize (Hk iv Hin). lia.
  - right. by exists iv.
Qed.

(** ** Delivery *)

Definition all_bytes (rs : list Reassembly) : bytes := rs ≫= Bytes.

(** From offset [i], exactly the data up to [i'], with no gap. *)
Definition delivers (i i' : Z) (rs : list Reassembly) : Prop :=
  piece data i (all_bytes rs) ∧ i' = i + len (all_bytes rs) ∧ in_data data i' ∧
  Forall (fun r => End_ r = false ∧ Skip r = 0) rs.

Lemma delivers_nil i : in_data data i → delivers i i [].
Proof. intros Hi. split_and!; [by apply piece_nil | lens | done | constructor]. Qed.

Lemma delivers_app i i1 i2 rs rs' : delivers i i1 rs → delivers i1 i2 rs' → delivers i i2 (rs ++ rs').
Proof.
  intros (H1 & -> & _ & H3) (H4 & -> & H5 & H6). unfold delivers, all_bytes in *. rewrite bind_app.
  split_and!; [by apply piece_join | lens | done | by apply Forall_app].
Qed.

Lemma delivers_le i i' rs : delivers i i' rs → i <= i'.
Proof. intros (_ & -> & _). lens. Qed.

Lemma pop_delivers i iv p : in_data data i → iv_page iv p → iv.1 <= i → ∃ i',
  (pop (pos isn i) p).2 = pos isn i' ∧ delivers i i' [(pop (pos isn i) p).1] ∧ iv.1 + iv.2 <= i'.
Proof.
  intros Hi ((Hp & Hpc & Hsk & _) & Hl & He) Hle. pose proof (piece_range _ _ _ Hpc) as Hr.
  pose proof (len_nonneg (Bytes p.2)) as Hlen. unfold pop, in_data in *. rewrite Hp.
  destruct (span_pos isn data short i iv.1 (Bytes p.2) Hi Hpc) as (i' & -> & Hi' & Hs & _).
  destruct Hs as (-> & Hpi & Hend); [lia|].
  destruct (Z.eqb_spec (pos isn i) invalidSequence) as [E|_]; [by apply pos_valid in E|].
  rewrite (Difference_pos isn data) by (done || lia).
  destruct (Z.gtb_spec (iv.1 - i) 0); [lia|]. cbn [fst snd].
  eexists. split; [reflexivity|]. split; [|lia]. unfold delivers, all_bytes. cbn. rewrite app_nil_r.
  split_and!; [done..|]. by repeat constructor.
Qed.

Lemma contiguous_delivers q : ∀ ivs i rs next rest, in_data data i → Forall2 iv_page ivs q →
  contiguous (pos isn i) q = (rs, next, rest) → ∃ i' k,
  next = pos isn i' ∧ delivers i i' rs ∧ rest = drop k q ∧ waits i' (drop k ivs) ∧
  ∀ iv, iv ∈ take k ivs → iv.1 + iv.2 <= i'.
Proof.
  induction q as [|p q IH]; intros ivs i rs next rest Hi Hq Hc; inversion Hq as [|iv p' ivs' q' Hp Hq']; subst.
  - cbn in Hc. injection Hc as <- <- <-. exists i, 0%nat.
    split_and!; [done|by apply delivers_nil|done..|]. intros iv. by rewrite take_0, elem_of_nil.
  - cbn [contiguous] in Hc. cbv zeta in Hc. assert (Difference (pos isn i) p.1 = iv.1 - i) as Hd.
    { destruct Hp as ((-> & Hpc & _) & _). pose proof (piece_range _ _ _ Hpc). unfold in_data in *.
      pose proof (len_nonneg (Bytes p.2)). apply (Difference_pos isn data); lia. }
    rewrite Hd in Hc. destruct (Z.leb_spec (iv.1 - i) 0).
    + destruct (pop_delivers i iv p Hi Hp) as (i1 & Hn & Hd1 & Hend); [lia|]. rewrite Hn in Hc.
      destruct (contiguous (pos isn i1) q) as [[rs1 next1] rest1] eqn:E. injection Hc as <- <- <-.
      destruct (IH ivs' i1 _ _ _ ltac:(apply Hd1) Hq' E) as (i2 & k & -> & Hd2 & -> & Hw & Hk).
      exists i2, (S k). split_and!; [done| |done..|].
      * by apply (delivers_app i i1 i2 [_] rs1).
      * intros iv'. cbn [take]. rewrite elem_of_cons. intros [->|Hin]; [|by apply Hk].
        pose proof (delivers_le _ _ _ Hd2). lia.
    + injection Hc as <- <- <-. exists i, 0%nat.
      split_and!; [done|by apply delivers_nil|done|cbn; lia|]. intros iv'. by rewrite take_0, elem_of_nil.
Qed.

(** ** Insertion *)

Lemma elem_of_split_lt (A : list ival) o : (A = [] ∨ ∃ A0 a, A = A0 ++ [a] ∧ a.1 <= o) →
  ∀ a y t, A = a ++ y :: t → (∀ z, z ∈ t → y.1 <= z.1) → y.1 <= o.
Proof.
  intros [->|(A0 & x & -> & Hx)] a y t E Ht; [by destruct a|].
  destruct t as [|z t _] using rev_ind.
  - apply app_inj_tail in E as [_ <-]. done.
  - rewrite app_comm_cons, app_assoc in E. apply app_inj_tail in E as [_ <-].
    specialize (Ht x). rewrite elem_of_app in Ht. assert (y.1 <= x.1); [apply Ht; right; left | lia].
Qed.

(** The intervals cut from one packet that begins at [o]. *)
Definition cut_at (o : Z) (N : list ival) : Prop :=
  (∀ a y b, N = a ++ y :: b → (a = [] ∧ y.1 = o) ∨ ∃ x, x ∈ a ∧ x.1 + x.2 = y.1) ∧
  (∀ iv, iv ∈ N → o <= iv.1).

Lemma chained_insert i o A B N : chained i (A ++ B) → cut_at o N → (∀ z, z ∈ B → o <= z.1) →
  (A = [] ∨ ∃ A0 a, A = A0 ++ [a] ∧ a.1 <= o) → chained i (A ++ N ++ B).
Proof.
  intros Hc [HN1 HN2] HB HA a y b E. apply app_eq_app in E as (t & [[-> Et]|[-> Et]]).
  - destruct t as [|y' t].
    + rewrite app_nil_r in *. cbn in Et. destruct N as [|y1 N].
      * cbn in Et. destruct (Hc a y b) as [H|[(x & Hx & Hy)|H]]; [by rewrite <-Et|by left|right; left; by exists x|right; by right].
      * cbn in Et. injection Et as -> ->. destruct (HN1 [] y1 N eq_refl) as [[_ Ho]|(x & Hx & _)]; [|by apply elem_of_nil in Hx].
        left. intros z. rewrite elem_of_app, Ho. intros [Hz|Hz]; [|by apply HB]. apply HN2. by right.
    + cbn in Et. injection Et as -> ->. destruct (Hc a y' (t ++ B)) as [H|[(x & Hx & Hy)|H]].
      * by rewrite <-app_assoc.
      * left. intros z. rewrite !elem_of_app. intros [Hz|[Hz|Hz]];
          [apply H, elem_of_app; by left| |apply H, elem_of_app; by right].
        pose proof (elem_of_split_lt _ o HA a y' t eq_refl) as Hy.
        specialize (HN2 z Hz). enough (y'.1 <= o) by lia. apply Hy. intros z' Hz'. apply H, elem_of_app. by left.
      * right. left. by exists x.
      * by right; right.
  - symmetry in Et. apply app_eq_app in Et as (t' & [[-> Et]|[-> Et]]).
    + destruct (Hc (A ++ t') y b) as [H|[(x & Hx & Hy)|H]]; [by rewrite <-app_assoc, Et|by left| |by right; right].
      right. left. exists x. split; [|done]. rewrite !elem_of_app in *. tauto.
    + destruct t' as [|y' t'].
      * rewrite app_nil_r in *. cbn in Et. destruct (Hc A y b) as [H|[(x & Hx & Hy)|H]]; [by rewrite <-Et|by left| |by right; right].
        right. left. exists x. split; [|done]. rewrite elem_of_app. tauto.
      * cbn in Et. injection Et as -> ->. destruct (HN1 t y' t' eq_refl) as [[-> Ho]|(x & Hx & Hy)].
        -- left. intros z. rewrite elem_of_app, Ho. intros [Hz|Hz]; [|by apply HB].
           apply HN2. right. done.
        -- right. left. exists x. split; [|done]. rewrite elem_of_app. tauto.
Qed.

Lemma cut_at_cons o l N : cut_at (o + l) N → 0 <= l → cut_at o ((o, l) :: N).
Proof.
  intros [H1 H2] Hl. split.
  - intros [|x a] y b E; injection E as <- E; [by left; subst|]. right.
    destruct (H1 a y b E) as [[-> Hy]|(x & Hx & Hy)].
    + exists (o, l). split; [by left | done].
    + exists x. split; [by right | done].
  - intros iv. rewrite elem_of_cons. intros [->|Hin]; [done|]. specialize (H2 iv Hin). lia.
Qed.

Lemma cut_pages_ivals ts fuel : ∀ o bs, piece data o bs → (length bs < fuel)%nat → ∃ N,
  Forall2 iv_page N (cut_pages fuel ts false (pos isn o) bs) ∧ cut_at o N ∧
  ∀ b, o <= b < o + len bs → ∃ iv, iv ∈ N ∧ iv.1 <= b < iv.1 + iv.2.
Proof.
  induction fuel as [|fuel IH]; intros o bs Hp Hf; [lia|]. cbn [cut_pages].
  pose proof (take_drop (Z.to_nat pageBytes) bs) as Htd.
  set (d := take (Z.to_nat pageBytes) bs) in *. set (rest := drop (Z.to_nat pageBytes) bs) in *.
  rewrite <-Htd in Hp. apply piece_app in Hp as [H1 H2].
  assert (len bs = len d + len rest) as Hlen by (rewrite <-Htd; lens).
  destruct (Z.eqb_spec (len rest) 0) as [H0|H0].
  - exists [(o, len d)]. split_and!; [constructor; [by repeat split|constructor]| |].
    + apply cut_at_cons; [|lens]. split; [by intros [|] ? ?|]. intros iv Hin. by apply elem_of_nil in Hin.
    + intros b Hb. exists (o, len d). split; [left | cbn; lia].
  - assert (len d = pageBytes) as Hd.
    { unfold d, rest, pageBytes in *. rewrite len_take, len_drop in *. lia. }
    rewrite Add_pos, <-Hd. rewrite Hd in H2 at 1. destruct (IH (o + len d) rest) as (N & HN & Hc & Hcov).
    { by rewrite Hd. }
    { unfold len, pageBytes in *. lia. }
    exists ((o, len d) :: N). split_and!.
    + constructor; [by repeat split | done].
    + apply cut_at_cons; [done | lens].
    + intros b Hb. destruct (Z.lt_ge_cases b (o + len d)).
      * exists (o, len d). split; [left | cbn; lia].
      * destruct (Hcov b) as (iv & Hin & Hiv); [lia|]. exists iv. split; [by right | done].
Qed.

(** ** One connection, packet by packet *)

(** The stream is at offset [i]; the bytes that [S] says came are held. *)
Record stream_ok (h : half) (i : Z) ivs (S : Z → Prop) : Prop := mkStreamOk {
  so_next : h_next h = pos isn i;
  so_data : in_data data i;
  so_queue : Forall2 iv_page ivs (h_queue h);
  so_chained : chained i ivs;
  so_waits : waits i ivs;
  so_held : ∀ b, S b → held i ivs b;
}.

Lemma last_End_false rs : Forall (fun r => End_ r = false ∧ Skip r = 0) rs → last_End rs = false.
Proof.
  intros HF. unfold last_End. destruct (last rs) as [r|] eqn:E; [|done].
  apply last_Some_elem_of in E. rewrite Forall_forall in HF. by apply HF.
Qed.

(** A result that delivers up to [i'] and leaves the stream open. *)
Definition goes_on (i : Z) (S : Z → Prop) (h : half) (r : result) : Prop := ∃ h' i' ivs',
  r.1 = Some h' ∧ h_stream h' = h_stream h ∧ delivers i i' (delivered r.2) ∧ stream_ok h' i' ivs' S.

Lemma deliver_goes_on h i0 i rs ivs S : h_next h = pos isn i → Forall2 iv_page ivs (h_queue h) →
  delivers i0 i rs → chained i ivs → (∀ b, S b → held i ivs b) → goes_on i0 S h (deliver h rs).
Proof.
  intros Hn Hq Hrs Hc Hh. unfold deliver. rewrite Hn.
  destruct (contiguous _ _) as [[more next] rest] eqn:E.
  destruct (contiguous_delivers _ _ _ _ _ _ ltac:(apply Hrs) Hq E) as (i' & k & -> & Hd & -> & Hw & Hk).
  pose proof (delivers_app _ _ _ _ _ Hrs Hd) as Hall. pose proof (delivers_le _ _ _ Hd) as Hle.
  rewrite last_End_false by apply Hall. eexists _, i', (drop k ivs). split; [reflexivity|].
  split; [done|]. split; [cbn; by rewrite app_nil_r|]. split; cbn; try done; try apply Hall.
  - by apply Forall2_drop.
  - by eapply chained_drop.
  - intros b Hb. by eapply held_drop, Hh.
Qed.

Definition no_limits (o : AssemblerOptions) : Prop :=
  MaxBufferedPagesTotal o <= 0 ∧ MaxBufferedPagesPerConnection o <= 0.

Lemma not_full o n used : no_limits o → full o n used = false.
Proof.
  intros [H1 H2]. unfold full.
  destruct (Z.gtb_spec (MaxBufferedPagesPerConnection o) 0), (Z.gtb_spec (MaxBufferedPagesTotal o) 0); cbn; (done || lia).
Qed.

(** A packet with data at offset [off] and no flag that opens or closes. *)
Definition is_data_at (off : Z) (t : TCP) : Prop :=
  SYN t = false ∧ FIN t = false ∧ RST t = false ∧ Seq t = pos isn off ∧ piece data off (Payload (base t)).

Definition carries (t : TCP) (b : Z) : Prop :=
  ∃ off, is_data_at off t ∧ off <= b < off + len (Payload (base t)).

Lemma pos_inj i j : -1 <= i <= len data → -1 <= j <= len data → pos isn i = pos isn j → i = j.
Proof.
  intros Hi Hj E. pose proof (Difference_pos isn data short i j Hi Hj) as H.
  rewrite E, Difference_refl in H. lia.
Qed.

Lemma carries_at off t b : is_data_at off t → carries t b → off <= b < off + len (Payload (base t)).
Proof.
  intros (_ & _ & _ & H1 & H2) (off' & (_ & _ & _ & H3 & H4) & Hb).
  apply piece_range in H2, H4. pose proof (len_nonneg (Payload (base t))).
  assert (off' = off) as <-; [|done]. apply pos_inj; [lia..|congruence].
Qed.

Lemma store_goes_on o used t ts h i ivs S off : no_limits o → is_data_at off t → stream_ok h i ivs S →
  i < off → let r := store o used t ts h in ∃ ivs',
  r.2 = [] ∧ h_stream r.1 = h_stream h ∧ stream_ok r.1 i ivs' (fun b => S b ∨ carries t b).
Proof.
  intros Ho Ht [Hn Hi Hq Hc Hw Hh] Hlt. pose proof Ht as (_ & HF & HR & Hs & Hp).
  unfold store. cbv zeta.
  destruct (cut_pages_ivals ts _ off (Payload (base t)) Hp (Nat.lt_succ_diag_r _)) as (N & HN & Hcut & Hcov).
  rewrite <-Hs in HN. assert (new_pages t ts = cut_pages (Datatypes.S (length (Payload (base t)))) ts false (Seq t) (Payload (base t)))
    as Hnew by (unfold new_pages; by rewrite HF, HR).
  destruct (insert_pages_form (Seq t) (new_pages t ts) (h_queue h)) as (A & B & HAB & Hins & HB & HA).
  rewrite HAB in Hq. apply Forall2_app_inv_r in Hq as (ivA & ivB & HqA & HqB & ->).
  assert (Forall2 iv_page (ivA ++ N ++ ivB) (insert_pages (Seq t) (new_pages t ts) (h_queue h))) as HF2.
  { rewrite Hins, Hnew. by repeat apply Forall2_app. }
  assert (∀ iv p, iv_page iv p → after (Seq t) p ↔ off < iv.1) as Hafter.
  { intros iv p ((Hp1 & Hp2 & _) & _). unfold after. rewrite Hp1, Hs. apply piece_range in Hp, Hp2.
    pose proof (len_nonneg (Payload (base t))). pose proof (len_nonneg (Bytes p.2)).
    rewrite (Difference_pos isn data) by (done || lia). lia. }
  assert (waits i (ivA ++ N ++ ivB)) as Hw'.
  { destruct ivA as [|y ivA]; [|done]. cbn in Hw |- *. destruct N as [|y N]; [done|]. cbn.
    destruct Hcut as [_ Hcut]. specialize (Hcut y ltac:(left)). lia. }
  assert (stream_ok (set_queue (h_next h) (insert_pages (Seq t) (new_pages t ts) (h_queue h)) h) i
    (ivA ++ N ++ ivB) (fun b => S b ∨ carries t b)) as Hok.
  { split; cbn; try done.
    - apply (chained_insert i off); [done..| |].
      + intros z Hz. apply list_elem_of_lookup in Hz as [j Hj].
        destruct (Forall2_lookup_l _ _ _ _ _ HqB Hj) as (p & Hpj & Hzp).
        rewrite Forall_forall in HB. apply list_elem_of_lookup_2, HB, (Hafter z p Hzp) in Hpj. lia.
      + destruct HA as [->|(A0 & a & -> & Ha)]; [left; by inversion HqA|]. right.
        apply Forall2_app_inv_r in HqA as (iv0 & iva & H0 & H1 & ->).
        inversion H1 as [|iv ? l ? Hiv Hnil]; subst. inversion Hnil; subst. exists iv0, iv. split; [done|].
        destruct (Z.le_gt_cases iv.1 off) as [|Hgt]; [done|]. exfalso. by apply Ha, (Hafter iv).
    - intros b [Hb|Hb].
      + destruct (Hh b Hb) as [|(iv & Hin & Hiv)]; [by left|]. right. exists iv. split; [|done].
        rewrite !elem_of_app in *. tauto.
      + destruct (Hcov b) as (iv & Hin & Hiv); [by apply (carries_at off)|]. right. exists iv.
        split; [|done]. rewrite !elem_of_app. tauto. }
  destruct (insert_pages _ _ _) as [|p q] eqn:E.
  { exfalso. destruct (new_pages_head t ts) as (re & rest & Hh1). rewrite Hh1 in Hins. by destruct A. }
  rewrite not_full by done. by exists (ivA ++ N ++ ivB).
Qed.

Lemma receive_goes_on o used t ts h i ivs S off : no_limits o → is_data_at off t → stream_ok h i ivs S →
  goes_on i (fun b => S b ∨ carries t b) h (receive o used t ts h).
Proof.
  intros Ho Ht Hok. assert (stream_ok (see ts h) i ivs S) as Hok1 by by destruct Hok.
  change (goes_on i (fun b => S b ∨ carries t b) (see ts h) (receive o used t ts h)). unfold receive.
  set (h1 := see ts h) in *. clearbody h1. cbv zeta. pose proof Hok1 as [Hn Hi Hq Hc Hw Hh].
  pose proof Ht as (HS & HF & HR & Hs & Hp). pose proof (piece_range _ _ _ Hp) as Hr.
  pose proof (len_nonneg (Payload (base t))) as Hl. unfold in_data in Hi.
  assert (goes_on i (fun b => S b ∨ carries t b) h1
    (let '(h2, rs) := if Difference (h_next h1) (Seq t) >? 0 then store o used t ts h1 else
       (set_queue (span (h_next h1) (Seq t) (Payload (base t))).2 (h_queue h1) h1,
        [mkReassembly (span (h_next h1) (Seq t) (Payload (base t))).1 0 false false ts]) in
     match rs with [] => (Some h2, []) | _ => deliver h2 rs end)) as H.
  { rewrite Hn, Hs at 1. rewrite (Difference_pos isn data) by (done || lia).
    destruct (Z.gtb_spec (off - i) 0) as [Hgt|Hle].
    - destruct (store_goes_on o used t ts h1 i ivs S off Ho Ht Hok1) as (ivs' & Hnil & Hst' & Hok'); [lia|].
      cbv zeta in *. destruct (store o used t ts h1) as [h2 rs]. cbn in Hnil, Hst', Hok'. subst rs.
      exists h2, i, ivs'. split_and!; [done..| |done]. by apply delivers_nil.
    - rewrite Hn, Hs. destruct (span_pos isn data short i off (Payload (base t)) Hi Hp) as (i' & Hsp & Hi' & Hs2 & _).
      destruct Hs2 as (Ei & Hpi & Hend); [lia|]. rewrite Hsp.
      match goal with |- goes_on _ ?S' _ ?r => change (goes_on i S' (set_queue (pos isn i') (h_queue h1) h1) r) end.
      apply (deliver_goes_on _ i i' _ ivs); cbn [set_queue h_next h_queue]; [done..| | |].
      + unfold delivers, all_bytes. cbn. rewrite app_nil_r. split_and!; [done..|]. by repeat constructor.
      + apply (chained_drop i i' 0); [lens| |done]. intros iv. by rewrite take_0, elem_of_nil.
      + intros b [Hb|Hb].
        * apply (held_drop i i' 0); [lens| |by apply Hh]. intros iv. by rewrite take_0, elem_of_nil.
        * left. pose proof (carries_at off t b Ht Hb). lia. }
  rewrite HR, HF. cbn [orb].
  destruct (Z.eqb_spec (h_next h1) invalidSequence) as [E|_]; [rewrite Hn in E; by apply pos_valid in E|].
  destruct H as (h' & i' & ivs' & H1 & H2 & H3 & H4). exists h', i', ivs'. split_and!; done.
Qed.

(** ** The whole connection *)

Record connected (st : astate) (k : key) (i : Z) (S : Z → Prop) : Prop := mkConnected {
  cn_open : ∃ h ivs, a_conns st !! k = Some h ∧ stream_ok h i ivs S;
  cn_delivered : delivers 0 i (delivered (a_trace st));
}.

Lemma stream_ok_iff h i ivs S S' : (∀ b, S' b → S b) → stream_ok h i ivs S → stream_ok h i ivs S'.
Proof. intros HS []. split; auto. Qed.

Lemma assemble_connected o k t ts stale st i S off : no_limits o → is_data_at off t → connected st k i S →
  ∃ i', connected (assemble o k t ts stale st) k i' (fun b => S b ∨ carries t b).
Proof.
  intros Ho Ht [(h & ivs & Hh & Hok) Hd]. unfold assemble. cbv zeta. destruct (useless t) eqn:Hu.
  - exists i. split; [|done]. exists h, ivs. split; [done|]. eapply stream_ok_iff, Hok.
    intros b [Hb|Hb]; [done|]. apply (carries_at off) in Hb; [|done]. unfold useless in Hu.
    destruct Ht as (H1 & H2 & H3 & _). rewrite H1, H2, H3 in Hu. cbn in Hu. apply Z.eqb_eq in Hu. lia.
  - rewrite Hh. destruct (receive_goes_on o (buffered (a_conns st)) t ts h i ivs S off Ho Ht Hok)
      as (h' & i' & ivs' & H1 & H2 & H3 & H4).
    exists i'. split; cbn; rewrite ?H1.
    + exists h', ivs'. split; [apply lookup_insert_eq | done].
    + unfold delivered. rewrite bind_app. by eapply delivers_app.
Qed.

(** The packet that opens the connection. *)
Definition is_syn (t : TCP) : Prop := SYN t = true ∧ Seq t = pos isn (-1) ∧ Payload (base t) = [].

Lemma syn_connected o k t ts stale : is_syn t →
  connected (assemble o k t ts stale astart) k 0 (fun _ => False).
Proof.
  intros (HS & Hs & Hp). unfold assemble, useless. cbv zeta. rewrite HS, Hp. cbn [negb andb].
  change (a_conns astart !! k) with (@None half). cbn [open_new]. unfold receive. cbn [see h_next]. rewrite HS, Hs, Hp. cbn.
  assert (in_data data 0) as H0 by (unfold in_data; lens).
  split; cbn.
  - eexists _, []. split; [apply lookup_insert_eq|]. split; cbn; try done.
    + rewrite Add_pos. done.
    + intros [|] ? ? E; done.
  - split_and!; [by apply piece_nil | done | done |]. by repeat constructor.
Qed.
End complete.
