(* ===== verification/TcpCorrect.v ===== *)
(** * The properties of the TCP assembler

    What the refinement ([TcpPool.v]) and the properties of the specification
    ([TcpTrace.v], [TcpComplete.v]) say together of the code of
    tcpassembly/assembly.go, from a new assembler with a new pool. *)

From S2P Require Import Prelude SerializeBuffer LayerClasses Flows BaseLayers Enums Tcp TcpAssembly TcpStream TcpRefine TcpPool TcpData TcpTrace TcpComplete.

(** [run o cs w]: a new assembler with options [o] makes the calls [cs]. *)
Definition run (o : AssemblerOptions) (cs : list call) (w : world) : Prop :=
  run_calls cs (NewAssembler o NewStreamPool) = (Ok tt, w).

Lemma run_spec o cs : Forall call_ok cs → ∃ w st,
  run o cs w ∧ allowed_run o cs astart st ∧ implements o w st ∧ all_conns rested st.
Proof. intros Hcs. by apply run_calls_ok; [apply implements_start|..]. Qed.

Lemma implements_view o w st : implements o w st →
  trace w = a_trace st ∧ pc_used (pc w) = buffered (a_conns st) ∧
  len (pc_free (pc w)) + buffered (a_conns st) = pc_size (pc w) ∧
  ∀ k, sp_conns (pool w) !! k = None ↔ a_conns st !! k = None.
Proof.
  intros [Q HR]. pose proof (represents_used _ _ _ _ HR) as Hu.
  pose proof (heap_size _ _ (r_heap _ _ _ _ HR)) as Hs. pose proof (heap_used _ _ (r_heap _ _ _ _ HR)) as Hu'.
  split_and!; [apply HR|done|rewrite <-Hu, Hu'; lia|]. intros k. by eapply represents_lookup_None.
Qed.

(** Sequences of calls, split. *)
Lemma allowed_run_app o cs1 cs2 st st' : allowed_run o (cs1 ++ cs2) st st' → ∃ st1,
  allowed_run o cs1 st st1 ∧ allowed_run o cs2 st1 st'.
Proof.
  revert st. induction cs1 as [|c cs1 IH]; intros st H; cbn in H.
  - exists st. split; [constructor | done].
  - inversion H as [|? ? ? st1 ? Hc Hr]; subst. destruct (IH st1 Hr) as (st2 & H1 & H2).
    exists st2. split; [by econstructor | done].
Qed.

Lemma close_all ks : ∀ st, (∀ k, is_Some (a_conns st !! k) → k ∈ ks) →
  a_conns (foldl (visit close_half) st ks) = ∅.
Proof.
  induction ks as [|k ks IH]; intros st Hks; cbn.
  - apply map_empty. intros k. destruct (a_conns st !! k) eqn:E; [|done].
    assert (k ∈ []) as Hk by (apply Hks; eauto). by apply elem_of_nil in Hk.
  - apply IH. intros k' [h Hh]. unfold visit in Hh. destruct (a_conns st !! k) as [h0|] eqn:E.
    + unfold settle in Hh. rewrite close_half_closed in Hh. cbn in Hh.
      apply lookup_delete_Some in Hh as [Hne Hh].
      assert (k' ∈ k :: ks) as Hin by (apply Hks; eauto). apply elem_of_cons in Hin as [->|]; [congruence | done].
    + assert (k' ∈ k :: ks) as Hin by (apply Hks; eauto). apply elem_of_cons in Hin as [->|]; [congruence | done].
Qed.

(** ** Packets for the witnesses *)

Definition packet (syn : bool) (seq : Z) (payload : bytes) : TCP :=
  mkTCP (mkBase [] payload) 1234 80 seq 0 5 false syn false false true false false false false
    1024 0 0 (be16 1234) (be16 80) [] [] None.

Definition packet_flow : Flow := mkFlow EndpointTCPPort 2 2 (pad16 (be16 1234)) (pad16 (be16 80)).

Lemma packet_TransportFlow syn seq payload : TransportFlow (packet syn seq payload) = Ok packet_flow.
Proof. reflexivity. Qed.

Lemma packet_call_ok nf syn seq payload ts : 0 <= seq → call_ok (CallAssemble nf (packet syn seq payload) ts).
Proof. intros H. split; [done|]. by exists packet_flow. Qed.

Ltac calls_ok :=
  repeat first [ apply List.Forall_nil | apply List.Forall_cons; [first [exact I | apply packet_call_ok; lia]|] ].

(** A connection whose second half arrives before the first. *)
Definition two_packets : list call :=
  [CallAssemble zero_flow (packet true 0 []) 1;
   CallAssemble zero_flow (packet false 3 [30; 40]) 2;
   CallAssemble zero_flow (packet false 1 [10; 20]) 3].

(** ** The properties *)

(** C1 (the assembler implements its specification): a new assembler makes any
    sequence of calls, packets and flushes, without a panic, a nil pointer or
    an endless loop, and what the streams are told is what the specification
    allows for these calls. The pages in use are those queued by value, and the
    pool holds the same connections. *)
Theorem assembler_refines o cs : Forall call_ok cs → ∃ w st,
  run_calls cs (NewAssembler o NewStreamPool) = (Ok tt, w) ∧
  allowed_run o cs astart st ∧ trace w = a_trace st ∧
  pc_used (pc w) = buffered (a_conns st) ∧ all_conns rested st ∧
  ∀ k, sp_conns (pool w) !! k = None ↔ a_conns st !! k = None.
Proof.
  intros Hcs. destruct (run_spec o cs Hcs) as (w & st & Hrun & Ha & HI & Hr).
  destruct (implements_view _ _ _ HI) as (Ht & Hu & _ & Hk). by exists w, st.
Qed.

Theorem assembler_refines_witness : ∃ w st,
  run_calls (two_packets ++ [CallFlushAll]) (NewAssembler DefaultAssemblerOptions NewStreamPool) = (Ok tt, w) ∧
  allowed_run DefaultAssemblerOptions (two_packets ++ [CallFlushAll]) astart st ∧ trace w = a_trace st ∧
  pc_used (pc w) = buffered (a_conns st) ∧ all_conns rested st ∧
  ∀ k, sp_conns (pool w) !! k = None ↔ a_conns st !! k = None.
Proof. apply assembler_refines. unfold two_packets. calls_ok. Defined.

(** The stream [s] belongs to a connection of the pool. *)
Definition live (w : world) (s : nat) : Prop :=
  ∃ k c, sp_conns (pool w) !! k = Some c ∧ c_stream (conn_at w c) = Some s.

Lemma live_spec o w st s : implements o w st →
  live w s ↔ ∃ k h, a_conns st !! k = Some h ∧ h_stream h = s.
Proof.
  intros [Q HR]. split.
  - intros (k & c & Hc & Hs). destruct (represents_lookup _ _ _ _ _ _ HR Hc) as (h & ls & Hh & _ & Hf).
    exists k, h. split; [done|]. rewrite (f_stream _ _ _ _ _ _ Hf) in Hs. by injection Hs.
  - intros (k & h & Hh & <-). pose proof (r_conns _ _ _ _ HR k) as Hv. rewrite Hh in Hv. unfold views in Hv.
    destruct (sp_conns (pool w) !! k) as [c|] eqn:Hc, (Q !! k); try done. exists k, c.
    split; [done|]. by apply (f_stream _ _ _ _ _ _ Hv).
Qed.

(** C4 (what one stream is told): [New] first, then only data, then at most
    one [ReassemblyComplete] and nothing after it: while its connection is in
    the pool the stream is not complete, and once it is gone it is. *)
Theorem stream_protocol o cs : Forall call_ok cs → ∃ w,
  run_calls cs (NewAssembler o NewStreamPool) = (Ok tt, w) ∧
  ∀ s, ∃ k mid, Forall is_data mid ∧
    ((streams w <= s)%nat ∧ events_of s (trace w) = [] ∨
     live w s ∧ events_of s (trace w) = EvNew s k :: mid ∨
     ¬ live w s ∧ events_of s (trace w) = EvNew s k :: mid ++ [EvComplete s]).
Proof.
  intros Hcs. destruct (run_spec o cs Hcs) as (w & st & Hrun & Ha & HI & _). exists w. split; [done|].
  pose proof (run_traced _ _ _ Ha) as HT. intros s. pose proof (live_spec _ _ _ s HI) as Hl.
  destruct HI as [Q HR]. rewrite (r_streams _ _ _ _ HR), (r_trace _ _ _ _ HR).
  destruct (Nat.le_gt_cases (a_streams st) s) as [Hs|Hs].
  { exists (zero_flow, zero_flow), []. split; [constructor|]. left. split; [done|]. by apply (t_fresh _ HT). }
  destruct (decide (Exists (fun kh => h_stream kh.2 = s) (map_to_list (a_conns st)))) as [He|He].
  - apply Exists_exists in He as ([k h] & Hin%elem_of_map_to_list & Hh). cbn in Hh.
    destruct (t_open _ HT _ _ Hin) as (_ & mid & Hm & Hd). rewrite Hh in Hm.
    exists k, mid. split; [done|]. right; left. split; [|done]. apply Hl. by exists k, h.
  - assert (∀ k h, a_conns st !! k = Some h → h_stream h ≠ s) as Hno.
    { intros k h Hh E. apply He, Exists_exists. exists (k, h). by rewrite elem_of_map_to_list. }
    destruct (t_closed _ HT s Hs Hno) as (k & mid & Hm & Hd). exists k, mid. split; [done|]. right; right.
    split; [|done]. intros (k' & h & Hh & E)%Hl. by eapply Hno.
Qed.

Theorem stream_protocol_witness : ∃ w,
  run_calls two_packets (NewAssembler DefaultAssemblerOptions NewStreamPool) = (Ok tt, w) ∧
  ∀ s, ∃ k mid, Forall is_data mid ∧
    ((streams w <= s)%nat ∧ events_of s (trace w) = [] ∨
     live w s ∧ events_of s (trace w) = EvNew s k :: mid ∨
     ¬ live w s ∧ events_of s (trace w) = EvNew s k :: mid ++ [EvComplete s]).
Proof. apply stream_protocol. unfold two_packets. calls_ok. Defined.

(** C2 (data in its place): when the packets of one connection are segments
    of one byte stream of less than a gigabyte, everything any of its streams
    is given is a piece of that stream, in the place that [Start] and [Skip]
    say: packets lost, repeated, overlapping or out of order, over buffer
    limits and flushes. *)
Theorem stream_data o cs k isn data :
  len data < 1073741823 → Forall call_ok cs → Forall (call_segment isn data k) cs → ∃ w,
  run_calls cs (NewAssembler o NewStreamPool) = (Ok tt, w) ∧
  ∀ s mid, events_of s (trace w) = EvNew s k :: mid → ∃ n, placed_all data None (delivered mid) n.
Proof.
  intros Hd Hcs Hseg. destruct (run_spec o cs Hcs) as (w & st & Hrun & Ha & HI & _).
  exists w. split; [done|]. destruct (run_data isn data k Hd _ _ _ Hseg Ha) as [_ HD].
  destruct HI as [Q HR]. rewrite (r_trace _ _ _ _ HR).
  intros s mid Hs. destruct (HD s mid Hs) as (n & Hn & _). by exists n.
Qed.

Theorem stream_data_witness : ∃ w,
  run_calls (two_packets ++ [CallFlushAll]) (NewAssembler DefaultAssemblerOptions NewStreamPool) = (Ok tt, w) ∧
  ∀ s mid, events_of s (trace w) = EvNew s (zero_flow, packet_flow) :: mid → ∃ n,
    placed_all [10; 20; 30; 40] None (delivered mid) n.
Proof.
  apply (stream_data _ _ _ 0); [reflexivity|unfold two_packets; calls_ok|].
  repeat (apply List.Forall_cons; [|]); try exact I; [..|apply List.Forall_nil]; intros tf _ _.
  - split; reflexivity.
  - exists 2. split; [reflexivity|]. exists [10; 20], []. split; reflexivity.
  - exists 0. split; [reflexivity|]. exists [], [30; 40]. split; reflexivity.
Defined.

(** ** Liveness *)

Lemma run_connected isn data o nf tf pkts : len data < 1073741823 → no_limits o → ∀ st st' i (S : Z → Prop),
  Forall (fun p => TransportFlow p.1 = Ok tf ∧ ∃ off, is_data_at isn data off p.1) pkts →
  connected isn data st (nf, tf) i S →
  allowed_run o (map (fun p => CallAssemble nf p.1 p.2) pkts) st st' →
  ∃ i', connected isn data st' (nf, tf) i' (fun b => S b ∨ ∃ p, p ∈ pkts ∧ carries isn data p.1 b).
Proof.
  intros Hd Ho. induction pkts as [|p pkts IH]; intros st st' i S Hp Hc Hrun; cbn in Hrun.
  - inversion Hrun; subst. exists i. destruct Hc as [(h & ivs & Hh & Hok) Hdel]. split; [|done].
    exists h, ivs. split; [done|]. eapply stream_ok_iff, Hok.
    intros b [Hb|(p & Hin & _)]; [done | by apply elem_of_nil in Hin].
  - apply Forall_cons in Hp as [[Htf [off Hoff]] Hp]. inversion Hrun as [|? ? ? st1 ? Ha Hrun']; subst.
    inversion Ha as [? tf' ? ? stale ? Htf'| |]; subst. rewrite Htf in Htf'. injection Htf' as <-.
    destruct (assemble_connected isn data Hd o (nf, tf) p.1 p.2 stale st i S off Ho Hoff Hc) as (i1 & Hc1).
    destruct (IH _ _ _ _ Hp Hc1 Hrun') as (i2 & Hc2). exists i2.
    destruct Hc2 as [(h & ivs & Hh & Hok) Hdel]. split; [|done]. exists h, ivs. split; [done|].
    eapply stream_ok_iff, Hok. intros b [Hb|(q & Hin & Hq)]; [by left; left|].
    apply elem_of_cons in Hin as [->|Hin]; [by left; right|]. right. by exists q.
Qed.

Lemma piece_0 data bs : piece data 0 bs → bs = take (length bs) data.
Proof.
  intros (pre & post & -> & Hl). apply len_zero in Hl. subst. cbn. by rewrite take_app_length.
Qed.

(** C3 (nothing that has arrived is held back): after the SYN packet of a
    connection, its data packets arrive in any order, some repeatedly, without
    buffer limits. What the stream was given is then a prefix of the data, with
    nothing skipped, that reaches as far as the packets cover it without a gap. *)
Theorem arrived_is_delivered o nf tf isn data syn ts0 pkts :
  len data < 1073741823 → no_limits o →
  is_syn isn syn → TransportFlow syn = Ok tf →
  Forall (fun p => TransportFlow p.1 = Ok tf ∧ ∃ off, is_data_at isn data off p.1) pkts → ∃ w,
  run_calls (CallAssemble nf syn ts0 :: map (fun p => CallAssemble nf p.1 p.2) pkts)
    (NewAssembler o NewStreamPool) = (Ok tt, w) ∧
  ∃ n, all_bytes (delivered (trace w)) = take n data ∧
    Forall (fun r => Skip r = 0) (delivered (trace w)) ∧
    ∀ m, (∀ b, 0 <= b < m → ∃ p, p ∈ pkts ∧ carries isn data p.1 b) → m <= Z.of_nat n.
Proof.
  intros Hd Ho Hsyn Htf Hp.
  destruct (run_spec o (CallAssemble nf syn ts0 :: map (fun p => CallAssemble nf p.1 p.2) pkts))
    as (w & st & Hrun & Ha & HI & _).
  { constructor; [split; [|by exists tf]; destruct Hsyn as (_ & -> & _); apply Add_nonneg|].
    apply Forall_map. eapply Forall_impl; [apply Hp|]. intros p [Hptf (off & _ & _ & _ & Hs & _)].
    split; [rewrite Hs; apply Add_nonneg | by exists tf]. }
  exists w. split; [done|]. inversion Ha as [|? ? ? st1 ? Hc Hrun']; subst.
  inversion Hc as [? tf' ? ? stale ? Htf'| |]; subst. rewrite Htf in Htf'. injection Htf' as <-.
  pose proof (syn_connected isn data o (nf, tf) syn ts0 stale Hsyn) as H0.
  destruct (run_connected isn data o nf tf pkts Hd Ho _ _ _ _ Hp H0 Hrun') as (i & [(h & ivs & Hh & Hok) Hdel]).
  destruct (implements_view _ _ _ HI) as (-> & _). destruct Hdel as (Hpc & Hi & Hin & HF).
  exists (length (all_bytes (delivered (a_trace st)))). split; [by apply piece_0|]. split.
  { eapply Forall_impl; [apply HF|]. by intros r []. }
  intros m Hcov. fold (len (all_bytes (delivered (a_trace st)))).
  replace (len (all_bytes _)) with i by lia. destruct Hok as [_ Hdata _ Hch Hw Hheld].
  eapply held_waits; [done..|apply Hdata|]. intros b Hb. apply Hheld. right. by apply Hcov.
Qed.

Theorem arrived_is_delivered_witness : ∃ w,
  run_calls two_packets (NewAssembler DefaultAssemblerOptions NewStreamPool) = (Ok tt, w) ∧
  ∃ n, all_bytes (delivered (trace w)) = take n [10; 20; 30; 40] ∧
    Forall (fun r => Skip r = 0) (delivered (trace w)) ∧
    ∀ m, (∀ b, 0 <= b < m → ∃ p,
        p ∈ [(packet false 3 [30; 40], 2); (packet false 1 [10; 20], 3)] ∧ carries 0 [10; 20; 30; 40] p.1 b) →
      m <= Z.of_nat n.
Proof.
  apply (arrived_is_delivered _ zero_flow packet_flow 0 [10; 20; 30; 40] (packet true 0 []) 1
    [(packet false 3 [30; 40], 2); (packet false 1 [10; 20], 3)]);
    [reflexivity | split; cbn; lia | done | reflexivity |].
  repeat (apply List.Forall_cons; [split; [reflexivity|]|]); [..|apply List.Forall_nil].
  - exists 2. split_and!; [done..|]. exists [10; 20], []. split; reflexivity.
  - exists 0. split_and!; [done..|]. exists [], [30; 40]. split; reflexivity.
Defined.

(** After [FlushAll]: no connection, no page in use, and every stream complete. *)
Lemma flush_all_run o cs : Forall call_ok cs → ∃ w,
  run_calls (cs ++ [CallFlushAll]) (NewAssembler o NewStreamPool) = (Ok tt, w) ∧
  sp_conns (pool w) = ∅ ∧ pc_used (pc w) = 0 ∧ len (pc_free (pc w)) = pc_size (pc w) ∧
  ∀ s, ((streams w <= s)%nat ∧ events_of s (trace w) = []) ∨
    ∃ k mid, events_of s (trace w) = EvNew s k :: mid ++ [EvComplete s] ∧ Forall is_data mid.
Proof.
  intros Hcs. destruct (run_spec o (cs ++ [CallFlushAll])) as (w & st & Hrun & Ha & HI & _).
  { apply Forall_app. split; [done|]. by constructor. }
  exists w. split; [done|]. pose proof (run_traced _ _ _ Ha) as HT.
  destruct (implements_view _ _ _ HI) as (Ht & Hu & Hs & Hk). rewrite Ht.
  assert (streams w = a_streams st) as -> by (destruct HI as [Q HR]; apply HR).
  assert (a_conns st = ∅) as Hempty.
  { apply allowed_run_app in Ha as (st1 & _ & Ha). inversion Ha as [|? ? ? st2 ? Hf Hnil]; subst.
    inversion Hnil; subst. inversion Hf as [| |ks ? Hks]; subst. apply close_all.
    intros k [h Hh]. rewrite Hks. apply list_elem_of_fmap. exists (k, h). split; [done|].
    by apply elem_of_map_to_list. }
  rewrite Hempty in Hu, Hs, Hk. split_and!.
  - apply map_empty. intros k. by apply Hk.
  - done.
  - change (buffered ∅) with 0 in Hs. lia.
  - intros s. destruct (Nat.le_gt_cases (a_streams st) s) as [Hle|Hlt]; [left; split; [done|]; by apply (t_fresh _ HT)|].
    right. apply (t_closed _ HT s Hlt). intros k h. by rewrite Hempty.
Qed.

(** C6 (closing everything): [FlushAll] at the end of any sequence of calls
    closes every connection, completes every stream that was ever opened and
    puts every page back into the cache. *)
Theorem FlushAll_closes o cs : Forall call_ok cs → ∃ w,
  run_calls (cs ++ [CallFlushAll]) (NewAssembler o NewStreamPool) = (Ok tt, w) ∧
  sp_conns (pool w) = ∅ ∧ pc_used (pc w) = 0 ∧ len (pc_free (pc w)) = pc_size (pc w) ∧
  ∀ s, events_of s (trace w) = [] ∨
    ∃ k mid, events_of s (trace w) = EvNew s k :: mid ++ [EvComplete s] ∧ Forall is_data mid.
Proof.
  intros Hcs. destruct (flush_all_run o cs Hcs) as (w & E & H1 & H2 & H3 & H4). exists w. split_and!; [done..|].
  intros s. destruct (H4 s) as [[_ H]|H]; auto.
Qed.

Theorem FlushAll_closes_witness : ∃ w,
  run_calls (two_packets ++ [CallFlushAll]) (NewAssembler DefaultAssemblerOptions NewStreamPool) = (Ok tt, w) ∧
  sp_conns (pool w) = ∅ ∧ pc_used (pc w) = 0 ∧ len (pc_free (pc w)) = pc_size (pc w) ∧
  ∀ s, events_of s (trace w) = [] ∨
    ∃ k mid, events_of s (trace w) = EvNew s k :: mid ++ [EvComplete s] ∧ Forall is_data mid.
Proof. apply FlushAll_closes. unfold two_packets. calls_ok. Defined.

(** ** Limits *)

(** One page is enough for the packet. *)
Definition small_call (c : call) : Prop :=
  match c with CallAssemble _ t _ => len (Payload (base t)) <= pageBytes | _ => True end.

Lemma small_new_pages t ts : len (Payload (base t)) <= pageBytes → len (new_pages t ts) = 1.
Proof.
  intros H. unfold new_pages. cbn [cut_pages]. rewrite len_drop. unfold pageBytes in *.
  destruct (Z.eqb_spec (Z.max 0 (len (Payload (base t)) - Z.of_nat (Z.to_nat 1900))) 0); [done | lia].
Qed.

Definition queue_len (h : half) : Z := len (h_queue h).

Lemma deliver_shorter h rs : keeps (fun h' => queue_len h' <= queue_len h) (deliver h rs).
Proof.
  unfold deliver, keeps, queue_len. destruct (contiguous _ _) as [[more n] q] eqn:E.
  apply contiguous_rest in E as [[pre Hq] _]. destruct (last_End _); cbn; [done|]. rewrite Hq. lens.
Qed.

Lemma skip_flush_shortens h h0 : queue_len h <= h0 → keeps (fun h' => queue_len h' <= h0) (skip_flush h).
Proof.
  intros H. unfold skip_flush, queue_len in *. destruct (h_queue h) as [|p q]; [done|].
  pose proof (deliver_shorter (set_queue (pop (h_next h) p).2 q h) [(pop (h_next h) p).1]) as Hd.
  unfold keeps, queue_len in *. destruct (deliver _ _).1; [|done]. cbn in Hd. rewrite len_cons in H. lia.
Qed.

(** A packet leaves the queue no longer, or one longer and within the limits. *)
Lemma receive_len o used t ts h : len (Payload (base t)) <= pageBytes →
  keeps (fun h' => queue_len h' <= queue_len h ∨
    queue_len h' <= queue_len h + 1 ∧ full o (queue_len h + 1) (used + 1) = false)
    (receive o used t ts h).
Proof.
  intros Hsmall. unfold receive. cbv zeta.
  match goal with |- context [let '(h, rs) := ?b in _] => set (br := b) end.
  assert (queue_len br.1 <= queue_len h ∨
    queue_len br.1 <= queue_len h + 1 ∧ full o (queue_len h + 1) (used + 1) = false) as Hbr.
  { assert (∀ h1, queue_len h1 = queue_len h →
      queue_len (store o used t ts h1).1 <= queue_len h ∨
      queue_len (store o used t ts h1).1 <= queue_len h + 1 ∧ full o (queue_len h + 1) (used + 1) = false) as Hst.
    { intros h1 Hh1. unfold store, queue_len in *. cbv zeta.
      assert (len (insert_pages (Seq t) (new_pages t ts) (h_queue h1)) = len (h_queue h) + 1) as Hl.
      { rewrite <-Hh1, <-(small_new_pages t ts Hsmall), Z.add_comm, <-len_app. unfold len. f_equal.
        apply Permutation_length, insert_pages_perm. }
      destruct (insert_pages (Seq t) (new_pages t ts) (h_queue h1)) as [|p q] eqn:E; [unfold len in Hl; cbn [length] in Hl; lia|]. rewrite Hl, small_new_pages by done.
      destruct (full o (len (h_queue h) + 1) (used + 1)); cbn [fst set_queue h_queue];
        rewrite len_cons in Hl; [left; lia|right; rewrite len_cons; split; [lia | done]]. }
    unfold br. destruct (h_next _ =? _); [destruct (SYN t)|destruct (_ >? 0)]; try (by left); by apply Hst. }
  destruct br as [h2 [|r rs]]; [done|].
  pose proof (deliver_shorter h2 (r :: rs)) as Hd. unfold keeps in *.
  destruct (deliver h2 (r :: rs)).1; [|done]. cbn [fst] in Hbr. destruct Hbr as [|[]]; [left|right]; split_and?; try done; lia.
Qed.

Definition limits (o : AssemblerOptions) (st : astate) : Prop :=
  (MaxBufferedPagesPerConnection o > 0 → ∀ k h, a_conns st !! k = Some h → queue_len h < MaxBufferedPagesPerConnection o) ∧
  (MaxBufferedPagesTotal o > 0 → buffered (a_conns st) < MaxBufferedPagesTotal o).

Lemma buffered_lookup m k h : m !! k = Some h → buffered m = queue_len h + buffered (delete k m).
Proof. intros H. rewrite <-(insert_id m k h H) at 1. apply buffered_insert. Qed.

Lemma buffered_nonneg m : 0 <= buffered m.
Proof. apply len_nonneg. Qed.

Lemma full_false o n used : full o n used = false →
  (MaxBufferedPagesPerConnection o > 0 → n < MaxBufferedPagesPerConnection o) ∧
  (MaxBufferedPagesTotal o > 0 → used < MaxBufferedPagesTotal o).
Proof.
  unfold full. rewrite orb_false_iff, !andb_false_iff, !Z.gtb_ltb, !Z.geb_leb, !Z.ltb_ge, !Z.leb_gt. lia.
Qed.

Lemma settle_limits o st k h r : limits o st → a_conns st !! k = Some h →
  keeps (fun h' => queue_len h' <= queue_len h ∨
    queue_len h' <= queue_len h + 1 ∧ full o (queue_len h + 1) (buffered (a_conns st) + 1) = false) r →
  limits o (settle k r st).
Proof.
  intros [H1 H2] Hh Hk. pose proof (buffered_lookup _ _ _ Hh) as Hb. pose proof (len_nonneg (h_queue h)) as Hq.
  unfold keeps in Hk. unfold limits, settle. destruct (r.1) as [h'|]; cbn [a_conns].
  - rewrite buffered_insert. fold (queue_len h'). split; intros Hpos.
    + intros k' h0. rewrite lookup_insert_Some. intros [[_ <-]|[_ H0]]; [|by eapply H1].
      specialize (H1 Hpos k h Hh). destruct Hk as [|[Hk Hf]]; [lia|]. apply full_false in Hf as [Hf _]. lia.
    + specialize (H2 Hpos). destruct Hk as [|[Hk Hf]]; [lia|]. apply full_false in Hf as [_ Hf]. lia.
  - split; intros Hpos.
    + intros k' h0. rewrite lookup_delete_Some. intros [_ H0]. by eapply H1.
    + specialize (H2 Hpos). unfold queue_len in Hb. lia.
Qed.

Lemma flush_half_shorter opt h : keeps (fun h' => queue_len h' <= queue_len h) (flush_half opt h).
Proof.
  apply (flush_half_keeps (fun h' => queue_len h' <= queue_len h)); [|done].
  intros h1 H1. by apply skip_flush_shortens.
Qed.

Lemma visits_limits o f ks : (∀ h, keeps (fun h' => queue_len h' <= queue_len h) (f h)) → ∀ st,
  limits o st → limits o (foldl (visit f) st ks).
Proof.
  intros Hf. induction ks as [|k ks IH]; intros st HL; cbn; [done|]. apply IH. unfold visit.
  destruct (a_conns st !! k) as [h|] eqn:E; [|done]. eapply settle_limits; [done..|].
  specialize (Hf h). unfold keeps in *. destruct (f h).1; auto.
Qed.

Lemma opened_limits o k stale st : a_conns st !! k = None → limits o st →
  buffered (a_conns (opened k stale st)) = buffered (a_conns st) ∧ limits o (opened k stale st).
Proof.
  intros Hk [H1 H2]. assert (buffered (a_conns (opened k stale st)) = buffered (a_conns st)) as Hb.
  { cbn [opened a_conns]. by rewrite buffered_insert, delete_id. }
  split; [done|]. split; [|by rewrite Hb]. intros Hpos k' h'. cbn.
  rewrite lookup_insert_Some. intros [[_ <-]|[_ Hh]]; [change (0 < MaxBufferedPagesPerConnection o); lia | by eapply H1].
Qed.

Lemma allowed_limits o c st st' : small_call c → allowed o c st st' → limits o st → limits o st'.
Proof.
  intros Hc Ha HL. destruct Ha as [nf tf t ts stale st Htf|opt ks st Hks|ks st Hks].
  - unfold assemble. cbv zeta. set (k := (nf, tf) : key). destruct (useless t); [done|].
    destruct (a_conns st !! k) as [h|] eqn:E.
    { eapply settle_limits; [done..|]. by apply receive_len. }
    destruct (_ && _); [done|]. destruct (opened_limits o k stale st E HL) as [Hb HL'].
    cbn [open_new]. pose proof (fun r => opened_settle k stale st r E) as Ho. cbn [open_new snd] in Ho.
    rewrite Ho. eapply settle_limits; [done|apply lookup_insert_eq|]. rewrite Hb. by apply receive_len.
  - apply visits_limits; [|done]. apply flush_half_shorter.
  - apply visits_limits; [|done]. intros h. apply close_half_keeps.
Qed.

(** C7 (buffer limits): as long as every packet fits into one page, no
    connection holds as many pages as [MaxBufferedPagesPerConnection] and all
    together less than [MaxBufferedPagesTotal], whatever the calls are. *)
Theorem buffer_limits o cs : Forall call_ok cs → Forall small_call cs → ∃ w,
  run_calls cs (NewAssembler o NewStreamPool) = (Ok tt, w) ∧
  (MaxBufferedPagesTotal o > 0 → pc_used (pc w) < MaxBufferedPagesTotal o) ∧
  (MaxBufferedPagesPerConnection o > 0 → ∀ k c, sp_conns (pool w) !! k = Some c →
    c_pages (conn_at w c) < MaxBufferedPagesPerConnection o).
Proof.
  intros Hcs Hsmall. destruct (run_spec o cs Hcs) as (w & st & Hrun & Ha & HI & _).
  assert (limits o st) as [H1 H2].
  { eapply (run_invariant o (limits o)); [|apply Ha|].
    - intros c st1 st2 Hin. apply allowed_limits. rewrite Forall_forall in Hsmall. by apply Hsmall.
    - split; [intros _ k h Hk; change (@None half = Some h) in Hk; done | intros H; change (0 < MaxBufferedPagesTotal o); lia]. }
  exists w. split; [done|]. split.
  - intros Hpos. destruct (implements_view _ _ _ HI) as (_ & -> & _). by apply H2.
  - intros Hpos k c Hc. destruct HI as [Q HR].
    destruct (represents_lookup _ _ _ _ _ _ HR Hc) as (h & ls & Hh & _ & Hf).
    rewrite (f_pages _ _ _ _ _ _ Hf). specialize (H1 Hpos k h Hh). unfold queue_len in H1.
    by rewrite <-(f_queue _ _ _ _ _ _ Hf), len_content in H1.
Qed.

Theorem buffer_limits_witness : ∃ w,
  run_calls two_packets (NewAssembler (mkAssemblerOptions 1 5) NewStreamPool) = (Ok tt, w) ∧
  (1 > 0 → pc_used (pc w) < 1) ∧
  (5 > 0 → ∀ k c, sp_conns (pool w) !! k = Some c → c_pages (conn_at w c) < 5).
Proof.
  apply (buffer_limits (mkAssemblerOptions 1 5)); [unfold two_packets; calls_ok|].
  repeat (apply List.Forall_cons; [cbn; discriminate|]). apply List.Forall_nil.
Defined.

(** Sequence numbers less than a quarter of their
    space apart are compared and subtracted exactly, through wrap-around. *)
Theorem Difference_exact s d : -1073741824 < d < 1073741824 → is_u32 s →
  Difference s (Add s d) = d ∧ is_u32 (Add s d).
Proof.
  intros Hd Hs. assert (Add s 0 = s) as Hs0.
  { rewrite Add_mod, Z.add_0_r. apply Z.mod_small, Hs. }
  split; [|rewrite Add_mod; apply Z.mod_pos_bound; lia].
  pose proof (Difference_Add s 0 d ltac:(lia)) as H. rewrite Hs0 in H. lia.
Qed.

Theorem Difference_exact_witness : Difference 4294967290 (Add 4294967290 100) = 100 ∧
  is_u32 (Add 4294967290 100).
Proof. apply Difference_exact; unfold is_u32; lia. Defined.

(** ** The calls that one packet causes *)

Lemma receive_events o used t ts h : (receive o used t ts h).2 = [] ∨ ∃ rs,
  (receive o used t ts h).2 = [EvReassembled (h_stream h) rs] ∨
  (receive o used t ts h).2 = [EvReassembled (h_stream h) rs; EvComplete (h_stream h)].
Proof.
  pose proof (receive_good o used t ts h) as [Habout _]. revert Habout.
  unfold receive. cbv zeta. match goal with |- context [let '(h, rs) := ?b in _] => set (br := b) end.
  destruct br as [h2 [|r rs]]; [by left|]. unfold deliver. destruct (contiguous _ _) as [[more n] q].
  intros Habout. right. destruct (last_End _); cbn in *; apply Forall_cons in Habout as [He _];
    apply Nat.eqb_eq in He; rewrite He; eauto.
Qed.

(** C5 (the calls of one packet): one call of [AssembleWithTimestamp] results
    in, in order, zero or one calls of [New], zero or one calls of
    [Reassembled] on a single stream, and zero or one calls of
    [ReassemblyComplete] on the same stream; the stream is the new one when
    there is one. *)
Theorem one_packet_calls o cs nf t ts : Forall call_ok cs → call_ok (CallAssemble nf t ts) → ∃ w w',
  run_calls cs (NewAssembler o NewStreamPool) = (Ok tt, w) ∧
  AssembleWithTimestamp nf t ts w = (Ok tt, w') ∧
  ∃ s news evs, trace w' = trace w ++ news ++ evs ∧
    (news = [] ∨ ∃ k, news = [EvNew s k]) ∧
    (evs = [] ∨ ∃ rs, evs = [EvReassembled s rs] ∨ evs = [EvReassembled s rs; EvComplete s]).
Proof.
  intros Hcs (_ & tf & Htf). destruct (run_spec o cs Hcs) as (w & st & Hrun & Ha & HI & Hr).
  destruct (AssembleWithTimestamp_ok o w st nf tf t ts HI Hr Htf) as (w' & stale & He & HI').
  exists w, w'. split; [done|]. split; [done|].
  destruct (implements_view _ _ _ HI) as (-> & _), (implements_view _ _ _ HI') as (-> & _).
  unfold assemble. cbv zeta. set (k := (nf, tf) : key). destruct (useless t).
  { exists 0%nat, [], []. rewrite !app_nil_r. auto. }
  destruct (a_conns st !! k) as [h|] eqn:E; [|destruct (_ && _)].
  - exists (h_stream h), [], (receive o (buffered (a_conns st)) t ts h).2. split; [done|].
    split; [by left | apply receive_events].
  - exists 0%nat, [], []. rewrite !app_nil_r. auto.
  - cbn [open_new]. set (h := mkHalf _ _ _ _).
    exists (a_streams st), [EvNew (a_streams st) k], (receive o (buffered (a_conns st)) t ts h).2.
    split; [cbn; by rewrite <-app_assoc|]. split; [right; by exists k|]. apply (receive_events o _ t ts h).
Qed.

Theorem one_packet_calls_witness : ∃ w w',
  run_calls two_packets (NewAssembler DefaultAssemblerOptions NewStreamPool) = (Ok tt, w) ∧
  AssembleWithTimestamp zero_flow (packet false 5 [50]) 9 w = (Ok tt, w') ∧
  ∃ s news evs, trace w' = trace w ++ news ++ evs ∧
    (news = [] ∨ ∃ k, news = [EvNew s k]) ∧
    (evs = [] ∨ ∃ rs, evs = [EvReassembled s rs] ∨ evs = [EvReassembled s rs; EvComplete s]).
Proof.
  apply one_packet_calls; [unfold two_packets; calls_ok|]. apply packet_call_ok. lia.
Defined.

(** The comments on [FlushWithOptions] say that stale connections are closed
    "regardless of the CloseAll setting"; without it none is. *)
Lemma stale_connection_kept T h : h_queue h = [] → flush_half (mkFlushOptions T false) h = (Some h, []).
Proof. intros Hq. unfold flush_half. rewrite Hq. done. Qed.
