(* ===== verification/TcpReaderCorrect.v ===== *)
(** * Reading a TCP stream

    The reader of [TcpReader] and the assembler that feeds it, in every
    interleaving: what [Read] returns is what reading one list of all the data
    would return, nobody panics, and when nobody can go on there is nothing left
    to do. The exception is [Close] before the end, which leaves the assembler
    waiting for ever. *)

From stdpp Require Import relations.
From S2P Require Import Prelude Capture TcpAssembly TcpReader.

(** ** Reading in sequence *)

(** [Read] of a list that has all data, with [lossReported]. *)
Definition seq_read (lossErrors : bool) (n : Z) (st : list Reassembly * bool)
    : result * (list Reassembly * bool) :=
  let x := strip st.1 st.2 in
  match x.1 with
  | [] => (([], Some io_EOF), x)
  | c :: cs =>
      if lossErrors && negb x.2 && negb (Skip c =? 0) then (([], Some DataLost), (x.1, true))
      else
        let length := Z.to_nat (Z.min n (len (Bytes c))) in
        ((take length (Bytes c), None), (set_Bytes (drop length (Bytes c)) c :: cs, x.2))
  end.

(** The first [k] calls of a program that only reads. *)
Fixpoint seq_reads (next : list result → option reader_call) (lossErrors : bool) (items : list Reassembly)
    (k : nat) : list result * (list Reassembly * bool) :=
  match k with
  | O => ([], (items, false))
  | S k =>
      let '(lg, st) := seq_reads next lossErrors items k in
      match next lg with
      | Some (CallRead n) => let x := seq_read lossErrors n st in (lg ++ [x.1], x.2)
      | _ => (lg, st)
      end
  end.

Lemma strip_app a b l :
  strip (a ++ b) l = match strip a l with ([], l') => strip b l' | (a', l') => (a' ++ b, l') end.
Proof. revert l. induction a as [|c a IH]; intros l; [done|]. cbn. by destruct (len (Bytes c) =? 0). Qed.

Lemma strip_head a l c cs : (strip a l).1 = c :: cs → (len (Bytes c) =? 0) = false.
Proof. revert l. induction a as [|x a IH]; intros l; [done|]. cbn. destruct (len (Bytes x) =? 0) eqn:E; naive_solver. Qed.

Lemma strip_idem a l : strip (strip a l).1 (strip a l).2 = strip a l.
Proof.
  destruct (strip a l) as [[|c cs] l'] eqn:E; [done|]. cbn.
  by rewrite (strip_head a l c cs) by (by rewrite E).
Qed.

Lemma seq_read_strip le n st st' : strip st.1 st.2 = strip st'.1 st'.2 → seq_read le n st = seq_read le n st'.
Proof. unfold seq_read. by intros ->. Qed.

(** ** The calls of the assembler *)

(** A stream is completed at most once, at the end ([TcpCorrect]). *)
Fixpoint orderly (cs : list assembler_call) : bool :=
  match cs with
  | [] => true
  | Reassembled _ :: cs => orderly cs
  | ReassemblyComplete :: cs => match cs with [] => true | _ => false end
  end.

Definition call_data (c : assembler_call) : list Reassembly :=
  match c with Reassembled rs => rs | ReassemblyComplete => [] end.

Definition all_data (cs : list assembler_call) : list Reassembly := concat (call_data <$> cs).
Arguments all_data : simpl never.
Lemma all_data_cons c cs : all_data (c :: cs) = call_data c ++ all_data cs.
Proof. done. Qed.

(** The data that the reader has not received yet. *)
Definition pending (s : state) : list Reassembly :=
  (match assembler s with Reassembled_send rs => rs | _ => [] end) ++ all_data (calls s).

Section reading.
Variable next : list result → option reader_call.
Variable le : bool.
Variable items : list Reassembly.
Hypothesis only_reads : ∀ lg, next lg ≠ Some CallClose.

(** The reader has read the data in sequence so far, and what is left is as expected. *)
Definition in_sequence (lg : list result) (cur pend : list Reassembly) (lost : bool) : Prop :=
  ∃ st, seq_reads next le items (length lg) = (lg, st) ∧ strip st.1 st.2 = strip (cur ++ pend) lost.

Definition reader_ok (s : state) : Prop :=
  match reader s with
  | RIdle => closed (stream s) = false → (assembler s = Reassembled_done ↔ first (stream s) = false)
  | Read_done n => next (log s) = Some (CallRead n) ∧ assembler s = Reassembled_done ∧
      first (stream s) = false ∧ closed (stream s) = false ∧ current (stream s) = []
  | Read_reassembled n => next (log s) = Some (CallRead n) ∧ assembler s ≠ Reassembled_done ∧
      first (stream s) = false ∧ closed (stream s) = false ∧ current (stream s) = []
  | _ => False
  end.

Record fine (s : state) : Prop := mkFine {
  fine_panicked : panicked s = None;
  fine_initiated : initiated (stream s) = true;
  fine_le : LossErrors (stream s) = le;
  fine_log : in_sequence (log s) (current (stream s)) (pending s) (lossReported (stream s));
  fine_orderly : orderly (calls s) = true;
  fine_reassembled : if reassembled_closed s
    then calls s = [] ∧ assembler s = (if done_closed s then AIdle else Complete_done)
    else done_closed s = false ∧ assembler s ≠ Complete_done;
  fine_closed : closed (stream s) = true → reassembled_closed s = true ∧ current (stream s) = [];
  fine_reader : reader_ok s;
}.

Lemma fine_init cs : items = all_data cs → orderly cs = true → fine (init le cs).
Proof.
  intros Hi Ho. split; try done.
  exists (items, false). by rewrite Hi.
Qed.

(** [Read], from the condition of its loop on, with a current slice that is stripped. *)
Lemma Read_loop_ok n r lg pend :
  next lg = Some (CallRead n) → LossErrors r = le → in_sequence lg (current r) pend (lossReported r) →
  strip (current r) (lossReported r) = (current r, lossReported r) →
  (closed r = true → current r = [] ∧ pend = []) →
  (∃ r', Read_loop n r = (inl (if first r then Read_reassembled n else Read_done n), r') ∧
     r' = set_first false r ∧ current r = [] ∧ closed r = false) ∨
  (∃ res r', Read_loop n r = (inr res, r') ∧ in_sequence (lg ++ [res]) (current r') pend (lossReported r') ∧
     LossErrors r' = le ∧ initiated r' = initiated r ∧ closed r' = closed r ∧ first r' = first r ∧
     (closed r = true → current r' = [])).
Proof.
  intros Hn Hle (st & Hst & Hs) Hr Hc. unfold Read_loop.
  assert (∀ x, seq_read le n (current r ++ pend, lossReported r) = x →
    seq_reads next le items (S (length lg)) = (lg ++ [x.1], x.2)) as Hread.
  { intros x <-. cbn. rewrite Hst, Hn. by rewrite (seq_read_strip _ _ st (current r ++ pend, lossReported r)). }
  destruct (current r) as [|c cs] eqn:Ec.
  - destruct (closed r) eqn:Ecl; cbn.
    + right. destruct (Hc eq_refl) as [_ ->]. exists ([], Some io_EOF), r. unfold Read_return. rewrite Ec.
      split_and!; try done. exists ([], lossReported r). rewrite length_app, Nat.add_1_r. split; [exact (Hread _ eq_refl)|done].
    + left. exists (set_first false r). split; [|done]. destruct (first r) eqn:Ef; [done|].
      f_equal. destruct r. cbn in *. by subst.
  - right. assert ((len (c :: cs) =? 0) = false) as -> by done. rewrite andb_false_r.
    assert ((len (Bytes c) =? 0) = false) as Hlen by (apply (strip_head (c :: cs) (lossReported r) c cs); by rewrite Hr).
    unfold seq_read in Hread. cbn in Hread. rewrite Hlen in Hread. cbn in Hread.
    unfold Read_return. rewrite Ec, Hle.
    destruct (le && negb (lossReported r) && negb (Skip c =? 0)) eqn:E; cbn;
      (eexists _, _; split; [reflexivity|]; split_and!; try done;
       [|intros Hcl; by destruct (Hc Hcl) as [[=] _]]);
      (eexists; rewrite length_app, Nat.add_1_r; split; [exact (Hread _ eq_refl)|]); cbn; [by rewrite Ec|done].
Qed.
Lemma in_sequence_strip lg cur pend l :
  in_sequence lg cur pend l → in_sequence lg (strip cur l).1 pend (strip cur l).2.
Proof.
  intros (st & H1 & H2). exists st. split; [done|]. rewrite H2, !strip_app, strip_idem. done.
Qed.

(** The conditions under which [Read_loop] may run, from [s], on the stream [r]. *)
Record ready (s : state) (n : Z) (r : ReaderStream) : Prop := mkReady {
  rdy_panicked : panicked s = None;
  rdy_initiated : initiated r = true;
  rdy_le : LossErrors r = le;
  rdy_log : in_sequence (log s) (current r) (pending s) (lossReported r);
  rdy_strip : strip (current r) (lossReported r) = (current r, lossReported r);
  rdy_orderly : orderly (calls s) = true;
  rdy_reassembled : if reassembled_closed s
    then calls s = [] ∧ assembler s = (if done_closed s then AIdle else Complete_done)
    else done_closed s = false ∧ assembler s ≠ Complete_done;
  rdy_closed : closed r = true → reassembled_closed s = true ∧ current r = [];
  rdy_next : next (log s) = Some (CallRead n);
  rdy_debt : closed r = false → (assembler s = Reassembled_done ↔ first r = false);
}.

Lemma Read_loop_fine s n r : ready s n r → fine (continue (Read_loop n r) s).
Proof.
  intros [R1 R2 R3 R4 R5 R6 R7 R8 R9 R10].
  destruct (Read_loop_ok n r (log s) (pending s)) as
    [(r' & E & -> & Hcur & Hcl)|(res & r' & E & Hs & E1 & E2 & E3 & E4 & E5)]; try done.
  { intros Hcl. destruct (R8 Hcl) as [Hrc Hcur]. split; [done|]. rewrite Hrc in R7. destruct R7 as [Hc Ha].
    unfold pending. rewrite Hc, Ha. by destruct (done_closed s). }
  - rewrite E. unfold continue. cbn. destruct (first r) eqn:Ef; split; cbn; try done; rewrite ?Hcl, ?Hcur; try done.
    + split_and!; try done. intros Ha. apply R10 in Ha; [|done]. congruence.
    + split_and!; try done. by apply R10.
  - rewrite E. unfold continue. cbn. split; cbn; rewrite ?E1, ?E2, ?E3, ?E4; try done.
    intros Hcl. split; [by apply R8|by apply E5].
Qed.

Lemma continue_assembler x s a : set_assembler a (continue x s) = continue x (set_assembler a s).
Proof. unfold continue. by destruct x.1. Qed.

(** A stream that was stripped. *)
Lemma ready_strip s n r : panicked s = None → initiated r = true → LossErrors r = le →
  in_sequence (log s) (current r) (pending s) (lossReported r) → orderly (calls s) = true →
  (if reassembled_closed s
    then calls s = [] ∧ assembler s = (if done_closed s then AIdle else Complete_done)
    else done_closed s = false ∧ assembler s ≠ Complete_done) →
  (closed r = true → reassembled_closed s = true ∧ current r = []) → next (log s) = Some (CallRead n) →
  (closed r = false → (assembler s = Reassembled_done ↔ first r = false)) → ready s n (stripEmpty r).
Proof.
  intros H1 H2 H3 H4 H5 H6 H7 H8 H9. split; cbn; try done.
  - by apply in_sequence_strip.
  - rewrite strip_idem. by destruct (strip _ _).
  - intros Hcl. destruct (H7 Hcl) as [? ->]. done.
Qed.

Lemma assembler_step_fine s s' : fine s → assembler_step s = Some s' → fine s'.
Proof.
  intros [F1 F2 F3 F4 F5 F6 F7 F8] E. unfold assembler_step in E. unfold reader_ok in F8.
  destruct (assembler s) eqn:Ea.
  - destruct (calls s) as [|[rs|] cs] eqn:Ec; [done| |]; injection E as <-.
    + rewrite F2. destruct (reassembled_closed s) eqn:Erc; [by destruct F6|].
      split; cbn; rewrite ?Erc; try done; [|by destruct F6|].
      * unfold pending in *. by rewrite Ea, Ec in F4.
      * unfold reader_ok. cbn. destruct (reader s); try done.
        -- intros Hcl. by rewrite <-(F8 Hcl).
        -- by destruct F8 as (_ & ? & _).
        -- naive_solver.
    + rewrite F2. cbn. destruct (reassembled_closed s) eqn:Erc; [by destruct F6|].
      cbn in F5. destruct cs; [|done]. split; cbn; try done.
      * unfold pending in *. by rewrite Ea, Ec in F4.
      * by destruct F6 as [-> _].
      * intros Hcl. by destruct (F7 Hcl).
      * unfold reader_ok. cbn. destruct (reader s); try done.
        -- intros Hcl. by rewrite <-(F8 Hcl).
        -- by destruct F8 as (_ & ? & _).
        -- naive_solver.
  - destruct (reassembled_closed s) eqn:Erc; [|done]. destruct F6 as [_ F6]. by destruct (done_closed s).
  - destruct (done_closed s) eqn:Ed; [|done]. destruct (reassembled_closed s); by destruct F6.
  - injection E as <-. destruct (reassembled_closed s) eqn:Erc; [|by destruct F6]. destruct F6 as [Hc Hd].
    destruct (done_closed s) eqn:Ed; [done|]. split; cbn; rewrite ?Erc; try done.
    + unfold pending in *. by rewrite Ea in F4.
    + unfold reader_ok. cbn. destruct (reader s); try done.
      * intros Hcl. by rewrite <-(F8 Hcl).
      * by destruct F8 as (_ & ? & _).
      * naive_solver.
Qed.

Lemma reader_step_fine s s' : fine s → reader_step next s = Some s' → fine s'.
Proof.
  intros [F1 F2 F3 F4 F5 F6 F7 F8] E. unfold reader_step in E. unfold reader_ok in F8.
  destruct (reader s) eqn:Er; try done.
  - destruct (next (log s)) as [[n|]|] eqn:En; [|by destruct (only_reads (log s))|done].
    rewrite F2 in E. injection E as <-. apply Read_loop_fine, ready_strip; auto.
  - destruct (done_closed s); [|done]. destruct F8 as (_ & F8 & _). rewrite F8 in F6.
    destruct (reassembled_closed s); by destruct F6.
  - destruct (reassembled_closed s) eqn:Erc; [|done]. injection E as <-.
    destruct F8 as (Hn & Ha & Hf & Hcl & Hcur). apply Read_loop_fine. split; cbn; rewrite ?Erc; try done.
    by rewrite Hcur in F4.
Qed.

Lemma meet_fine s s' : fine s → meet s = Some s' → fine s'.
Proof.
  intros [F1 F2 F3 F4 F5 F6 F7 F8] E. unfold meet in E. unfold reader_ok in F8.
  destruct (assembler s) as [|rs| |] eqn:Ea; try done; destruct (reader s) as [|n|n| |] eqn:Er; try done.
  - destruct (reassembled_closed s) eqn:Erc; [done|]. injection E as <-. rewrite continue_assembler.
    destruct F8 as (Hn & _ & Hf & Hcl & Hcur). apply Read_loop_fine, ready_strip; cbn; rewrite ?Erc; try done.
    + unfold pending in *. cbn. rewrite Ea, Hcur in F4. destruct F4 as (st & G1 & G2). by exists st.
    + by destruct F6.
    + intros Hcl'. congruence.
  - destruct (done_closed s) eqn:Ed; [done|]. injection E as <-. destruct F8 as (Hn & _ & Hf & Hcl & Hcur).
    destruct (reassembled_closed s) eqn:Erc; [by destruct F6 as [_ ?]|].
    split; cbn; rewrite ?Erc, ?Ed; try done. unfold pending in *. by rewrite Ea in F4.
Qed.

Lemma step_fine s s' : fine s → step next s s' → fine s'.
Proof.
  intros HF (_ & [E|[E|E]]); [by eapply assembler_step_fine|by eapply reader_step_fine|by eapply meet_fine].
Qed.

Lemma steps_fine s s' : fine s → rtc (step next) s s' → fine s'.
Proof. intros HF. induction 1; eauto using step_fine. Qed.
(** Nobody waits for someone who waits: when nothing can happen, the program that
    reads has ended, or the assembler has no more calls and the stream is open. *)
Lemma fine_stuck s : fine s → stuck next s →
  (reader s = RIdle ∧ next (log s) = None) ∨
  (assembler s = AIdle ∧ calls s = [] ∧ reassembled_closed s = false).
Proof.
  intros [F1 F2 F3 F4 F5 F6 F7 F8] Hst.
  assert (assembler_step s = None ∧ reader_step next s = None ∧ meet s = None) as (S1 & S2 & S3).
  { split_and!; [destruct (assembler_step s) as [s'|] eqn:E|destruct (reader_step next s) as [s'|] eqn:E|
      destruct (meet s) as [s'|] eqn:E]; try done; exfalso; apply (Hst s'); unfold step; auto. }
  unfold reader_step in S2. unfold reader_ok in F8. destruct (reader s) as [|n|n| |] eqn:Er; try done.
  - left. split; [done|]. destruct (next (log s)) as [[n|]|] eqn:En; [done|by destruct (only_reads (log s))|done].
  - destruct F8 as (_ & Ha & _). unfold meet in S3. rewrite Ha, Er in S3. by destruct (done_closed s).
  - destruct (reassembled_closed s) eqn:Erc; [done|]. right. destruct F8 as (_ & Ha & _).
    unfold assembler_step in S1. unfold meet in S3. rewrite Er in S3.
    destruct (assembler s) eqn:Ea; try done.
    + split; [done|]. destruct (calls s) as [|[rs|] cs]; done.
    + by rewrite Erc in S3.
Qed.

(** ** Every run ends *)

Definition weight (rs : list Reassembly) (lost : bool) : Z :=
  foldr (fun r n => 4 * len (Bytes r) + 8 + n) 0 rs - 4 * b2z lost.

Definition assembler_weight (a : assembler_at) : Z :=
  match a with AIdle => 0 | Reassembled_send _ => 8 | Reassembled_done => 4 | Complete_done => 5 end.
Definition reader_weight (r : reader_at) : Z :=
  match r with RIdle => 3 | Read_done _ => 2 | _ => 1 end.

(** How many steps are left, at most. *)
Definition steps_left (s : state) : Z :=
  10 * len (calls s) + assembler_weight (assembler s) + reader_weight (reader s) +
  weight (current (stream s) ++ pending s) (lossReported (stream s)) +
  (if closed (stream s) then 0 else 4).

Lemma weight_cons r rs l : weight (r :: rs) l = 4 * len (Bytes r) + 8 + weight rs l.
Proof. unfold weight. cbn. lia. Qed.
Lemma weight_lost rs : weight rs true = weight rs false - 4.
Proof. unfold weight. cbn. lia. Qed.

Lemma weight_strip rs pend l : weight ((strip rs l).1 ++ pend) (strip rs l).2 <= weight (rs ++ pend) l.
Proof.
  revert l. induction rs as [|r rs IH]; intros l; [done|]. cbn [strip].
  destruct (len (Bytes r) =? 0); [|done]. etrans; [apply IH|]. cbn [app]. rewrite weight_cons.
  pose proof (len_nonneg (Bytes r)). destruct l; [rewrite weight_lost|]; lia.
Qed.

Lemma weight_nonneg rs l : -4 <= weight rs l.
Proof.
  assert (0 <= weight rs false) by (induction rs as [|r rs IH]; [done|]; rewrite weight_cons;
    pose proof (len_nonneg (Bytes r)); lia).
  destruct l; [rewrite weight_lost|]; lia.
Qed.

Lemma steps_left_nonneg s : 0 <= steps_left s + 4.
Proof.
  unfold steps_left. pose proof (weight_nonneg (current (stream s) ++ pending s) (lossReported (stream s))).
  pose proof (len_nonneg (calls s)). destruct (assembler s), (reader s), (closed (stream s)); cbn; lia.
Qed.

Hypothesis reads_some : ∀ lg n, next lg = Some (CallRead n) → 0 < n.

(** [Read_loop] on a stream that is stripped and open takes some data. *)
Lemma Read_loop_weight n r pend x r' : 0 < n → closed r = false →
  strip (current r) (lossReported r) = (current r, lossReported r) → Read_loop n r = (x, r') →
  closed r' = false ∧
  match x with
  | inl a => a = (if first r then Read_reassembled n else Read_done n) ∧
      weight (current r' ++ pend) (lossReported r') = weight (current r ++ pend) (lossReported r)
  | inr _ => weight (current r' ++ pend) (lossReported r') <= weight (current r ++ pend) (lossReported r) - 4
  end.
Proof.
  intros Hn Hcl Hs. unfold Read_loop. rewrite Hcl. cbn [negb andb]. destruct (current r) as [|c cs] eqn:Ec.
  { cbn. destruct (first r); intros [= <- <-]; cbn; by rewrite ?Ec. }
  assert (0 < len (Bytes c)) as Hlen.
  { pose proof (strip_head (c :: cs) (lossReported r) c cs) as Hh. rewrite Hs in Hh. specialize (Hh eq_refl).
    pose proof (len_nonneg (Bytes c)). lia. }
  change (len (c :: cs) =? 0) with false. unfold Read_return. rewrite Ec.
  destruct (LossErrors r && negb (lossReported r) && negb (Skip c =? 0)) eqn:E; intros [= <- <-]; cbn.
  - destruct (lossReported r); [by rewrite andb_false_r in E|]. rewrite Ec. cbn [app]. split; [done|].
    rewrite weight_lost. lia.
  - split; [done|]. cbn [app]. rewrite !weight_cons. cbn. rewrite len_drop. lia.
Qed.
Hypothesis ends : ∀ lg : list result, last lg = Some ([], Some io_EOF) → next lg = None.

(** The end was reported. *)
Definition reported (s : state) : Prop :=
  closed (stream s) = true → last (log s) = Some ([], Some io_EOF).

Lemma Read_closed n r : current r = [] → closed r = true → Read_loop n r = (inr ([], Some io_EOF), r).
Proof. intros E1 E2. unfold Read_loop, Read_return. by rewrite E1, E2. Qed.

Lemma continue_weight s n r : 0 < n → closed r = false →
  strip (current r) (lossReported r) = (current r, lossReported r) →
  steps_left (continue (Read_loop n r) s) <=
    10 * len (calls s) + assembler_weight (assembler s) + weight (current r ++ pending s) (lossReported r) + 6 ∧
  closed (stream (continue (Read_loop n r) s)) = false.
Proof.
  intros Hn Hcl Hs. destruct (Read_loop n r) as [x r'] eqn:E.
  destruct (Read_loop_weight n r (pending s) x r' Hn Hcl Hs E) as [Hcl' Hw].
  unfold continue, steps_left, pending in *. destruct x as [a|res]; cbn; rewrite Hcl'; [|split; [lia|done]].
  destruct Hw as [-> ->]. split; [|done]. destruct (first r); cbn; lia.
Qed.

Lemma continue_strip_weight s n r : 0 < n → closed r = false →
  steps_left (continue (Read n r) s) <=
    10 * len (calls s) + assembler_weight (assembler s) + weight (current r ++ pending s) (lossReported r) + 6 ∧
  closed (stream (continue (Read n r) s)) = false.
Proof.
  intros Hn Hcl. destruct (continue_weight s n (stripEmpty r) Hn Hcl) as [H1 H2].
  { cbn. rewrite strip_idem. by destruct (strip _ _). }
  split; [|done]. etrans; [exact H1|]. cbn. pose proof (weight_strip (current r) (pending s) (lossReported r)). lia.
Qed.

Lemma assembler_step_weight s s' : fine s → assembler_step s = Some s' →
  steps_left s' < steps_left s ∧ stream s' = stream s ∧ log s' = log s.
Proof.
  intros [F1 F2 F3 F4 F5 F6 F7 F8] E. unfold assembler_step in E. unfold steps_left, pending.
  destruct (assembler s) eqn:Ea.
  - destruct (calls s) as [|[rs|] cs] eqn:Ec; [done| |]; injection E as <-.
    + rewrite F2. cbn. rewrite len_cons, all_data_cons. cbn. split; [lia|done].
    + rewrite F2. cbn. destruct (reassembled_closed s); [by destruct F6|]. cbn. rewrite len_cons, all_data_cons. cbn.
      split; [lia|done].
  - destruct (reassembled_closed s) eqn:Erc; [|done]. destruct F6 as [_ F6]. by destruct (done_closed s).
  - destruct (done_closed s) eqn:Ed; [|done]. destruct (reassembled_closed s); by destruct F6.
  - injection E as <-. destruct (reassembled_closed s) eqn:Erc; [|by destruct F6]. destruct F6 as [Hc Hd].
    destruct (done_closed s) eqn:Ed; [done|]. cbn. split; [lia|done].
Qed.

Lemma step_weight s s' : fine s → reported s → step next s s' → steps_left s' < steps_left s ∧ reported s'.
Proof.
  intros HF HE (_ & [E|[E|E]]).
  { destruct (assembler_step_weight s s' HF E) as (H1 & H2 & H3). split; [done|]. unfold reported. by rewrite H2, H3. }
  all: destruct HF as [F1 F2 F3 F4 F5 F6 F7 F8]; unfold reader_ok in F8.
  - unfold reader_step in E. destruct (reader s) eqn:Er; try done.
    + destruct (next (log s)) as [[n|]|] eqn:En; [|by destruct (only_reads (log s))|done].
      rewrite F2 in E. injection E as <-. destruct (closed (stream s)) eqn:Ecl.
      { by rewrite (ends _ (HE Ecl)) in En. }
      destruct (continue_strip_weight s n (stream s)) as [H1 H2]; [by eapply reads_some|done|].
      split; [|intros H; congruence]. unfold steps_left at 2. rewrite Er, Ecl. cbn. lia.
    + destruct (done_closed s) eqn:Ed; [|done]. destruct F8 as (_ & F8 & _). rewrite F8 in F6.
      destruct (reassembled_closed s); by destruct F6.
    + destruct (reassembled_closed s) eqn:Erc; [|done]. injection E as <-.
      destruct F8 as (Hn & Ha & Hf & Hcl & Hcur). cbn [Read_received]. rewrite Read_closed by done.
      unfold reported, steps_left, pending. cbn. rewrite Er, Hcl, Hcur, last_snoc. cbn. split; [lia|done].
  - unfold meet in E. destruct (assembler s) as [|rs| |] eqn:Ea; try done; destruct (reader s) as [|n|n| |] eqn:Er; try done.
    + destruct (reassembled_closed s) eqn:Erc; [done|]. injection E as <-. rewrite continue_assembler.
      destruct F8 as (Hn & _ & Hf & Hcl & Hcur).
      destruct (continue_strip_weight (set_assembler Reassembled_done s) n (set_current rs (stream s))) as [H1 H2];
        [by eapply reads_some|done|].
      split; [|intros H; cbn [Read_received] in H; unfold Read in H2; congruence].
      cbn [Read_received]. unfold Read in H1. eapply Z.le_lt_trans; [exact H1|].
      unfold steps_left, pending. cbn. rewrite Ea, Er, Hcl, Hcur. cbn. lia.
    + destruct (done_closed s) eqn:Ed; [done|]. injection E as <-. destruct F8 as (Hn & _ & Hf & Hcl & Hcur).
      unfold steps_left, pending, reported. cbn. rewrite Ea, Er, Hcl. cbn. split; [lia|done].
Qed.

Lemma steps_bounded k s s' : nsteps (step next) k s s' → fine s → reported s →
  Z.of_nat k <= steps_left s - steps_left s' ∧ fine s' ∧ reported s'.
Proof.
  induction 1 as [s|k s s1 s' Hs _ IH]; intros HF HE; [split; [lia|done]|].
  destruct (step_weight s s1 HF HE Hs) as [Hw HE1]. destruct (IH (step_fine _ _ HF Hs) HE1) as (H1 & H2 & H3).
  split; [lia|done].
Qed.
End reading.

(** ** Nothing is lost *)

Definition data_of (rs : list Reassembly) : bytes := concat (Bytes <$> rs).
Definition data_read (lg : list result) : bytes := concat lg.*1.

Lemma data_strip rs l : data_of (strip rs l).1 = data_of rs.
Proof.
  revert l. induction rs as [|r rs IH]; intros l; [done|]. cbn [strip].
  destruct (len (Bytes r) =? 0) eqn:E; [|done]. rewrite IH. unfold data_of. cbn.
  by rewrite (nil_length_inv (Bytes r)) by (unfold len in E; lia).
Qed.

Lemma data_read_app lg x : data_read (lg ++ [x]) = data_read lg ++ x.1.
Proof. unfold data_read. by rewrite fmap_app, concat_app, <-(app_nil_r x.1). Qed.

Lemma discarded_data lg : discarded lg = len (data_read lg).
Proof. unfold discarded, data_read. induction lg as [|x lg IH]; [done|]. cbn. by rewrite IH, len_app. Qed.

Lemma seq_read_data le n st : let x := seq_read le n st in
  x.1.1 ++ data_of x.2.1 = data_of st.1 ∧ (x.1 = ([], Some io_EOF) → x.2.1 = []).
Proof.
  unfold seq_read. rewrite <-(data_strip st.1 st.2). destruct (strip st.1 st.2) as [[|c cs] l]; cbn; [done|].
  destruct (le && negb l && negb (Skip c =? 0)); cbn; [done|]. split; [|done].
  unfold data_of. cbn. by rewrite app_assoc, take_drop.
Qed.

Lemma seq_reads_data next le items k lg st : seq_reads next le items k = (lg, st) →
  data_read lg ++ data_of st.1 = data_of items ∧ (last lg = Some ([], Some io_EOF) → st.1 = []).
Proof.
  revert lg st. induction k as [|k IH]; intros lg st; cbn; [by intros [= <- <-]|].
  destruct (seq_reads next le items k) as [lg0 st0] eqn:E. destruct (IH lg0 st0 eq_refl) as [IH1 IH2].
  destruct (next lg0) as [[n|]|]; [|by intros [= <- <-]..]. intros [= <- <-].
  destruct (seq_read_data le n st0) as [H1 H2]. rewrite data_read_app, last_snoc, <-app_assoc, H1. split; [done|].
  intros [= E']. auto.
Qed.

(** ** The assembler's last call *)

(** The stream is complete, or will be. *)
Definition completes (s : state) : Prop :=
  reassembled_closed s = true ∨ last (calls s) = Some ReassemblyComplete.

Lemma continue_completes x s : completes s → completes (continue x s).
Proof. unfold completes, continue. by destruct x.1. Qed.

Lemma step_completes next le items s s' : fine next le items s → step next s s' → completes s → completes s'.
Proof.
  intros HF (_ & [E|[E|E]]) Hc.
  - destruct HF as [_ F2 _ _ _ F6 _ _]. unfold assembler_step in E. destruct (assembler s).
    + destruct (calls s) as [|[rs|] cs] eqn:Ec; [done| |]; injection E as <-; rewrite F2; cbn.
      * destruct Hc as [Hc|Hc]; [by left|right]. rewrite Ec in Hc. destruct cs; [done|]. by rewrite last_cons_cons in Hc.
      * destruct (reassembled_closed s); [by destruct F6|]. by left.
    + destruct (reassembled_closed s); [|done]. destruct F6 as [_ F6]. by destruct (done_closed s).
    + destruct (done_closed s); [|done]. by injection E as <-.
    + injection E as <-. by destruct (done_closed s).
  - unfold reader_step in E. destruct (reader s) eqn:Er.
    + destruct (next (log s)) as [[n|]|]; [|by injection E as <-|done]. injection E as <-.
      destruct (initiated _); [by apply continue_completes|done].
    + destruct (done_closed s); [|done]. by injection E as <-.
    + destruct (reassembled_closed s); [|done]. injection E as <-. by apply continue_completes.
    + destruct (reassembled_closed s) eqn:Erc; [|done]. injection E as <-. by left.
    + destruct (done_closed s); [|done]. by injection E as <-.
  - unfold meet in E. destruct (assembler s), (reader s); try done.
    all: first [destruct (reassembled_closed s) eqn:Erc; [done|]|destruct (done_closed s); [done|]];
      injection E as <-; try done.
    rewrite continue_assembler. by apply continue_completes.
Qed.

(** The end is reported on a stream that is closed. *)
Definition told (s : state) : Prop :=
  last (log s) = Some ([], Some io_EOF) → closed (stream s) = true.

Lemma Read_loop_closed n r : closed (Read_loop n r).2 = closed r ∧
  ((Read_loop n r).1 = inr ([], Some io_EOF) → closed r = true).
Proof.
  unfold Read_loop, Read_return. destruct (closed r) eqn:Ecl; cbn.
  - destruct (current r); cbn; [done|]. by destruct (_ && _).
  - destruct (current r) as [|c cs]; [by cbn; destruct (first r)|]. change (len (c :: cs) =? 0) with false.
    by destruct (_ && _).
Qed.

Lemma continue_told n r s : (closed (stream s) = true → closed r = true) → told s → told (continue (Read_loop n r) s).
Proof.
  intros Hr Hs. destruct (Read_loop_closed n r) as [H1 H2]. unfold told, continue.
  destruct (Read_loop n r) as [[a|res] r']; cbn in *; rewrite H1; [auto|].
  rewrite last_snoc. intros [= ->]. auto.
Qed.

Lemma step_told next s s' : step next s s' → told s → told s'.
Proof.
  intros (_ & [E|[E|E]]) Hs.
  - unfold assembler_step in E. destruct (assembler s).
    + destruct (calls s) as [|[rs|] cs]; [done| |]; injection E as <-.
      * by destruct (initiated _).
      * destruct (negb _); [done|]. by destruct (reassembled_closed _).
    + destruct (reassembled_closed s); [|done]. by injection E as <-.
    + destruct (done_closed s); [|done]. by injection E as <-.
    + injection E as <-. by destruct (done_closed s).
  - unfold reader_step in E. destruct (reader s).
    + destruct (next (log s)) as [[n|]|]; [| |done]; injection E as <-; [|by intros _].
      destruct (initiated _); [|done]. by apply continue_told.
    + destruct (done_closed s); [|done]. by injection E as <-.
    + destruct (reassembled_closed s); [|done]. injection E as <-. by apply continue_told.
    + destruct (reassembled_closed s); [|done]. injection E as <-. unfold told. cbn. by rewrite last_snoc.
    + destruct (done_closed s); [|done]. by injection E as <-.
  - unfold meet in E. destruct (assembler s), (reader s); try done.
    all: first [destruct (reassembled_closed s); [done|]|destruct (done_closed s); [done|]];
      injection E as <-; try done.
    rewrite continue_assembler. by apply continue_told.
Qed.

(** ** The theorems *)

(** C10 (refinement): a program that reads from a [ReaderStream] (any sizes, its
    next read chosen from the results so far) runs beside an assembler that
    calls [Reassembled] and, at most once and last, [ReassemblyComplete]. In
    every interleaving of the two goroutines, at every moment: neither has
    panicked; the results of the reads so far, data and errors ([DataLost] and
    [io.EOF]), are those of reading one list with all the data in sequence,
    though each [Reassembled] brings its data only when the one before was read
    to its end; and if no step is possible, then the program makes no further
    call, or the assembler has none left and the stream is still open. *)
Theorem reads_in_sequence next le cs s :
  (∀ lg, next lg ≠ Some CallClose) → orderly cs = true → rtc (step next) (init le cs) s →
  panicked s = None ∧ log s = (seq_reads next le (all_data cs) (length (log s))).1 ∧
  (stuck next s → (reader s = RIdle ∧ next (log s) = None) ∨
                  (assembler s = AIdle ∧ calls s = [] ∧ reassembled_closed s = false)).
Proof.
  intros Hn Ho Hr. pose proof (steps_fine next le _ Hn _ _ (fine_init next le _ cs eq_refl Ho) Hr) as HF.
  split; [by eapply fine_panicked|]. split; [|by eapply fine_stuck].
  destruct (fine_log _ _ _ _ HF) as (st & E & _). by rewrite E.
Qed.

Lemma DiscardBytesToEOF_reads lg : DiscardBytesToEOF lg ≠ Some CallClose.
Proof. unfold DiscardBytesToEOF. destruct (last lg) as [[? [e|]]|]; [by destruct (is_EOF e)|done..]. Qed.

Lemma DiscardBytesToEOF_size lg n : DiscardBytesToEOF lg = Some (CallRead n) → 0 < n.
Proof.
  unfold DiscardBytesToEOF, discard_size. destruct (last lg) as [[? [e|]]|]; [destruct (is_EOF e)|..]; naive_solver lia.
Qed.

(** It stops at the end of the stream only. *)
Lemma DiscardBytesToEOF_stops next le items k lg st : seq_reads next le items k = (lg, st) →
  DiscardBytesToEOF lg = None → last lg = Some ([], Some io_EOF).
Proof.
  intros E. unfold DiscardBytesToEOF.
  assert (∀ x, last lg = Some x → x = ([], Some io_EOF) ∨ x = ([], Some DataLost) ∨ x.2 = None) as Hlast.
  { revert lg st E. induction k as [|k IH]; intros lg st; cbn; [by intros [= <- <-]|].
    destruct (seq_reads next le items k) as [lg0 st0] eqn:E. destruct (next lg0) as [[n|]|];
      [|by intros [= <- <-]; eapply IH..].
    intros [= <- <-] x. rewrite last_snoc. intros [= <-]. unfold seq_read.
    destruct (strip st0.1 st0.2) as [[|c cs] l]; cbn; [auto|]. destruct (_ && _); cbn; auto. }
  destruct (last lg) as [[d [e|]]|]; [|done..].
  destruct (Hlast _ eq_refl) as [[= -> ->]|[[= -> ->]|H]]; done.
Qed.

(** Both goroutines to the end of the stream. *)
Lemma discard_run le rss : let cs := (Reassembled <$> rss) ++ [ReassemblyComplete] in
  (∃ B, ∀ k s, nsteps (step DiscardBytesToEOF) k (init le cs) s → (k <= B)%nat) ∧
  ∀ s, rtc (step DiscardBytesToEOF) (init le cs) s → stuck DiscardBytesToEOF s →
    panicked s = None ∧ assembler s = AIdle ∧ calls s = [] ∧ last (log s) = Some ([], Some io_EOF) ∧
    data_read (log s) = data_of (concat rss) ∧ discarded (log s) = len (data_of (concat rss)).
Proof.
  intros cs. assert (orderly cs = true ∧ all_data cs = concat rss ∧ last cs = Some ReassemblyComplete) as (Ho & Hd & Hl).
  { unfold cs. split_and!; [|unfold all_data; rewrite fmap_app, concat_app|by rewrite last_snoc].
    - by induction rss.
    - rewrite app_nil_r. by induction rss as [|rs rss IH]; cbn; rewrite ?IH. }
  pose proof (fine_init DiscardBytesToEOF le (concat rss) cs (eq_sym Hd) Ho) as HF0.
  assert (∀ lg : list result, last lg = Some ([], Some io_EOF) → DiscardBytesToEOF lg = None) as Hends.
  { intros lg E. unfold DiscardBytesToEOF. by rewrite E. }
  split.
  - exists (Z.to_nat (steps_left (init le cs) + 4)). intros k s Hk.
    destruct (steps_bounded _ le _ DiscardBytesToEOF_reads DiscardBytesToEOF_size Hends k _ _ Hk HF0) as (Hw & _); [done|].
    pose proof (steps_left_nonneg s). lia.
  - intros s Hr Hst. pose proof (steps_fine _ _ _ DiscardBytesToEOF_reads _ _ HF0 Hr) as HF.
    assert (completes s) as Hc.
    { assert (completes (init le cs)) as Hc0 by (by right). clear Hst HF. induction Hr; [done|].
      apply IHHr; [by eapply step_fine; [apply DiscardBytesToEOF_reads|..]|by eapply step_completes]. }
    destruct (fine_log _ _ _ _ HF) as (st & E & Es).
    destruct (fine_stuck _ _ _ DiscardBytesToEOF_reads s HF Hst) as [[Hi Hn]|(_ & Hcl & Hrc)].
    2: { destruct Hc as [Hc|Hc]; [congruence|by rewrite Hcl in Hc]. }
    pose proof (DiscardBytesToEOF_stops _ _ _ _ _ _ E Hn) as Hlast.
    destruct (seq_reads_data _ _ _ _ _ _ E) as [Ht Hnil]. rewrite (Hnil Hlast), app_nil_r in Ht.
    assert (reassembled_closed s = true ∧ assembler s = AIdle) as [Hrc Ha].
    { assert (told s) as Htold.
      { assert (told (init le cs)) as H0 by done. clear -Hr H0. induction Hr; [done|]. by eapply IHHr, step_told. }
      destruct (fine_closed _ _ _ _ HF (Htold Hlast)) as [Hrc _]. split; [done|].
      pose proof (fine_reassembled _ _ _ _ HF) as HR. rewrite Hrc in HR. destruct HR as [_ HR].
      destruct (done_closed s) eqn:Ed; [done|]. exfalso. eapply Hst. split; [by eapply fine_panicked|].
      left. unfold assembler_step. by rewrite HR. }
    pose proof (fine_reassembled _ _ _ _ HF) as HR. rewrite Hrc in HR.
    rewrite discarded_data, Ht.
    split_and!; [by eapply fine_panicked|done|by destruct HR|done..].
Qed.

(** C11 (termination): [DiscardBytesToEOF] of a stream that the assembler
    completes. Every execution of the two goroutines is finite, with a bound that
    depends on the data only; and when it cannot go on, nobody has panicked, the
    assembler has finished all of its calls, and the program has been told of the
    end, has been given the data that was reassembled and has counted its bytes. *)
Theorem DiscardBytesToEOF_ends le rss : let cs := (Reassembled <$> rss) ++ [ReassemblyComplete] in
  (∃ B, ∀ k s, nsteps (step DiscardBytesToEOF) k (init le cs) s → (k <= B)%nat) ∧
  ∀ s, rtc (step DiscardBytesToEOF) (init le cs) s → stuck DiscardBytesToEOF s →
    panicked s = None ∧ assembler s = AIdle ∧ calls s = [] ∧ last (log s) = Some ([], Some io_EOF) ∧
    data_read (log s) = data_of (concat rss) ∧ discarded (log s) = len (data_of (concat rss)).
Proof. apply discard_run. Qed.

(** ** Closing *)

(** A program that reads once and closes the stream. *)
Definition read_then_close (n : Z) (lg : list result) : option reader_call :=
  match lg with
  | [] => Some (CallRead n)
  | [_] => Some CallClose
  | _ => None
  end.

Section closing.
Variables (le : bool) (n : Z) (c : Reassembly) (rs : list Reassembly) (cs : list assembler_call).
Hypothesis some_data : 0 < len (Bytes c).

(** The first read of the data [c :: rs]. *)
Definition first_read : result * ReaderStream :=
  Read_return n (mkReaderStream le (c :: rs) false false false true).

(** The states of the program, by the number of steps. *)
Definition stage (k : nat) (s : state) : Prop :=
  let st a rd r lg calls := mkState calls a rd r false false lg None in
  let r0 := NewReaderStream le in let r1 := set_first false r0 in let r2 := first_read.2 in
  let sending := Reassembled_send (c :: rs) in
  match k with
  | 0%nat => s = init le (Reassembled (c :: rs) :: cs)
  | 1%nat => s = st sending RIdle r0 [] cs ∨ s = st AIdle (Read_reassembled n) r1 [] (Reassembled (c :: rs) :: cs)
  | 2%nat => s = st sending (Read_reassembled n) r1 [] cs
  | 3%nat => s = st Reassembled_done RIdle r2 [first_read.1] cs
  | 4%nat => s = st Reassembled_done Close_reassembled (set_closed true (set_current [] r2)) [first_read.1] cs
  | _ => False
  end.

Lemma first_receive : Read_received n (Some (c :: rs)) (set_first false (NewReaderStream le)) =
  (inr first_read.1, first_read.2).
Proof.
  unfold Read_received, stripEmpty. cbn [set_current current strip]. rewrite (proj2 (Z.eqb_neq (len (Bytes c)) 0)) by lia.
  done.
Qed.

Lemma stage_step k s s' : stage k s → step (read_then_close n) s s' → stage (S k) s'.
Proof.
  intros Hs (_ & E). destruct k as [|[|[|[|[|k]]]]]; cbn in Hs; [| | | | |done].
  - subst s. cbn in E. destruct E as [[= <-]|[[= <-]|[=]]]; cbn; auto.
  - destruct Hs as [-> | ->]; cbn in E.
    + destruct E as [[=]|[[= <-]|[=]]]. done.
    + destruct E as [[= <-]|[[=]|[=]]]. done.
  - subst s. unfold meet in E. cbn [assembler reader stream reassembled_closed done_closed log] in E.
    rewrite first_receive in E. cbn in E. by destruct E as [[=]|[[=]|[= <-]]].
  - subst s. cbn in E. by destruct E as [[=]|[[= <-]|[=]]].
  - subst s. cbn in E. by destruct E as [[=]|[[=]|[=]]].
Qed.

Lemma stage_stuck k s : stage k s → stuck (read_then_close n) s → k = 4%nat.
Proof.
  intros Hs Hst. destruct k as [|[|[|[|[|k]]]]]; cbn in Hs; [| | | |done|done]; exfalso.
  - subst s. eapply Hst. split; [done|]. left. reflexivity.
  - destruct Hs as [-> | ->]; (eapply Hst; split; [done|]); [right; left|left]; reflexivity.
  - subst s. eapply Hst. split; [done|]. right. right. unfold meet.
    cbn [assembler reader stream reassembled_closed done_closed log]. rewrite first_receive. reflexivity.
  - subst s. eapply Hst. split; [done|]. right. left. reflexivity.
Qed.

Lemma stage_nsteps k s s' j : stage j s → nsteps (step (read_then_close n)) k s s' → stage (k + j) s'.
Proof.
  intros Hs H. revert j Hs. induction H as [s|k s s1 s' H1 _ IH]; intros j Hs; [done|].
  replace (S k + j)%nat with (k + S j)%nat by lia. by eapply IH, stage_step.
Qed.
End closing.

(** C12 (error): [Close] is documented to discard the rest in a manner that does
    not block the assembler. It does when data was read before: whatever the
    assembler reassembles, if the program reads once and then closes, every
    execution ends, after at most four steps, with both goroutines waiting for
    ever, [Close] for more data and [Reassembled] for [done], which [Close] sends
    only for the data it receives itself. The calls of the assembler that were
    to follow are never made. *)
Theorem Close_blocks_assembler le n c rs cs : 0 < len (Bytes c) →
  let s0 := init le (Reassembled (c :: rs) :: cs) in
  (∀ k s, nsteps (step (read_then_close n)) k s0 s → (k <= 4)%nat) ∧
  ∀ s, rtc (step (read_then_close n)) s0 s → stuck (read_then_close n) s →
    assembler s = Reassembled_done ∧ reader s = Close_reassembled ∧ calls s = cs ∧ panicked s = None.
Proof.
  intros Hc s0. assert (∀ k s, nsteps (step (read_then_close n)) k s0 s → stage le n c rs cs k s) as Hk.
  { intros k s H. rewrite <-(Nat.add_0_r k). by eapply stage_nsteps. }
  split.
  - intros k s H%Hk. by destruct k as [|[|[|[|[|k]]]]]; [lia..|].
  - intros s [k H%Hk]%rtc_nsteps Hst. pose proof (stage_stuck _ _ _ _ _ Hc _ _ H Hst) as ->. cbn in H. by subst s.
Qed.

(** ** Examples *)

(** A schedule: the first of the three steps that is possible. *)
Definition advance (next : list result → option reader_call) (s : state) : option state :=
  match assembler_step s with
  | Some s' => Some s'
  | None => match reader_step next s with Some s' => Some s' | None => meet s end
  end.

Fixpoint advances (next : list result → option reader_call) (k : nat) (s : state) : state :=
  match k with
  | O => s
  | S k =>
      match panicked s, advance next s with
      | None, Some s' => advances next k s'
      | _, _ => s
      end
  end.

Lemma advances_run next k s : rtc (step next) s (advances next k s).
Proof.
  revert s. induction k as [|k IH]; intros s; cbn; [done|]. destruct (panicked s) eqn:Ep; [done|].
  unfold advance. destruct (assembler_step s) as [s'|] eqn:E1; [|destruct (reader_step next s) as [s'|] eqn:E2;
    [|destruct (meet s) as [s'|] eqn:E3]]; try done; (eapply rtc_l; [split; [done|]|apply IH]); auto.
Qed.

Definition example_piece (skip : Z) (data : bytes) : Reassembly :=
  mkReassembly data skip false false 0.
Definition example_calls : list assembler_call :=
  [Reassembled [example_piece 0 [1; 2; 3]; example_piece 0 []]; Reassembled [example_piece 5 [4; 5]];
   ReassemblyComplete].

(** Two bytes at a time. *)
Definition example_next (lg : list result) : option reader_call :=
  if (length lg <? 5)%nat then Some (CallRead 2) else None.

Lemma reads_in_sequence_witness : ∃ s, rtc (step example_next) (init true example_calls) s ∧
  log s = [([1; 2], None); ([3], None); ([], Some DataLost); ([4; 5], None); ([], Some io_EOF)].
Proof.
  exists (advances example_next 30 (init true example_calls)). split; [apply advances_run|].
  destruct (reads_in_sequence example_next true example_calls
    (advances example_next 30 (init true example_calls))) as (_ & -> & _).
  - intros lg. unfold example_next. by destruct (_ <? _)%nat.
  - done.
  - apply advances_run.
  - by vm_compute.
Defined.

Lemma Close_blocks_assembler_witness :
  0 < len (Bytes (example_piece 0 [1; 2; 3])) ∧
  let s := advances (read_then_close 2) 10 (init false example_calls) in
  stuck (read_then_close 2) s ∧ assembler s = Reassembled_done ∧ reader s = Close_reassembled.
Proof.
  split; [done|]. intros s.
  assert (stuck (read_then_close 2) s) as Hst by (intros s' (_ & [H|[H|H]]); vm_compute in H; done).
  destruct (Close_blocks_assembler false 2 (example_piece 0 [1; 2; 3]) [example_piece 0 []]
    [Reassembled [example_piece 5 [4; 5]]; ReassemblyComplete]) as [_ H]; [done|].
  destruct (H s) as (H1 & H2 & _); [apply advances_run|exact Hst|]. done.
Defined.
