(* ===== verification/TcpReaderStack.v ===== *)
(** * The assembler and the readers of its streams

    The calls that the assembler of [TcpAssembly] makes on one of its streams,
    made on a [ReaderStream] of [TcpReader]: a program that reads each stream to
    its end in a goroutine of its own gets what the assembler delivered. *)

From stdpp Require Import relations.
From S2P Require Import Prelude Capture Flows BaseLayers Tcp TcpAssembly TcpStream TcpRefine TcpPool TcpData TcpTrace TcpComplete TcpCorrect TcpReader TcpReaderCorrect.

(** The calls of [Reassembled] and [ReassemblyComplete] on stream [s]. *)
Definition call_of (e : event) : option assembler_call :=
  match e with
  | EvNew _ _ => None
  | EvReassembled _ rs => Some (Reassembled rs)
  | EvComplete _ => Some ReassemblyComplete
  end.

Definition calls_to (s : nat) (tr : list event) : list assembler_call := omap call_of (events_of s tr).

Lemma all_bytes_data rs : all_bytes rs = data_of rs.
Proof. unfold all_bytes, data_of. induction rs as [|r rs IH]; [done|]. cbn. by rewrite IH. Qed.

Lemma calls_of_data mid : Forall is_data mid → ∃ rss, omap call_of mid = Reassembled <$> rss ∧
  data_of (concat rss) = all_bytes (delivered mid).
Proof.
  induction 1 as [|[|s rs|] mid Hd _ (rss & E & IH)]; [by exists []|done| |done].
  exists (rs :: rss). cbn. rewrite E. split; [done|].
  rewrite all_bytes_data in IH |- *. unfold data_of, delivered in *. cbn. by rewrite !fmap_app, !concat_app, IH.
Qed.

(** C13 (functional): any packets and flushes, and [FlushAll] at the end. For every
    stream that the assembler has opened, a goroutine that runs
    [DiscardBytesToEOF] on it, in any interleaving with the calls that the
    assembler makes, cannot block before both are done; it has then been given
    the bytes that the assembler delivered to the stream, in their order. *)
Theorem streams_are_read o cs le : Forall call_ok cs → ∃ w,
  run_calls (cs ++ [CallFlushAll]) (NewAssembler o NewStreamPool) = (Ok tt, w) ∧
  ∀ s, (s < streams w)%nat → ∀ t,
    rtc (step DiscardBytesToEOF) (init le (calls_to s (trace w))) t → stuck DiscardBytesToEOF t →
    panicked t = None ∧ assembler t = AIdle ∧ calls t = [] ∧
    data_read (log t) = all_bytes (delivered (events_of s (trace w))).
Proof.
  intros Hcs. destruct (flush_all_run o cs Hcs) as (w & E & _ & _ & _ & H). exists w. split; [done|].
  intros s Hs t Hr Hst. destruct (H s) as [[? _]|(k & mid & Ev & Hmid)]; [lia|].
  destruct (calls_of_data mid Hmid) as (rss & Ec & Ed). unfold calls_to in Hr. rewrite Ev in Hr |- *.
  cbn in Hr. rewrite omap_app, Ec in Hr. destruct (discard_run le rss) as [_ HD].
  destruct (HD t Hr Hst) as (H1 & H2 & H3 & _ & H4 & _). split_and!; [done..|].
  rewrite H4, Ed. unfold all_bytes, delivered. cbn. by rewrite bind_app, app_nil_r.
Qed.

Lemma streams_are_read_witness : ∃ w,
  run_calls (two_packets ++ [CallFlushAll]) (NewAssembler DefaultAssemblerOptions NewStreamPool) = (Ok tt, w) ∧
  ∀ s, (s < streams w)%nat → ∀ t,
    rtc (step DiscardBytesToEOF) (init true (calls_to s (trace w))) t → stuck DiscardBytesToEOF t →
    panicked t = None ∧ assembler t = AIdle ∧ calls t = [] ∧
    data_read (log t) = all_bytes (delivered (events_of s (trace w))).
Proof. apply streams_are_read. unfold two_packets. calls_ok. Defined.
