(* ===== verification/Reassembly.v ===== *)
(** * Bidirectional TCP reassembly ([reassembly/tcpassembly.go], [reassembly/memory.go])

    The newer assembler keeps a half-connection for each direction of a TCP
    connection. Data that arrives out of order is copied into a doubly-linked
    list of pages ([first] to [last]); what a stream asks to see again is kept in
    a second list ([saved]). A call of the stream gets its data as a list of
    containers: pages, and the packet at hand ([cacheLP]).

    As in the model of the older assembler, the pages live in a store ([mem])
    and the connections in another ([objs]), and the definitions follow the
    code's pointer operations on them. What the caller provides (its streams) and
    what the language leaves open (the page that [sync.Pool] hands out) are the
    operations of the class [Environment]; the streams are told what the [trace]
    records, on which their answers may depend.

    A whole call runs at once: the mutexes are not modelled. Logging and the
    functions that print the state are left out. *)

From S2P Require Import Prelude Flows BaseLayers Tcp TcpCheck Capture.

(** [t.Before(u)] *)
Definition Before (t u : time) : bool :=
  (seconds t <? seconds u) || ((seconds t =? seconds u) && (nanoseconds t <? nanoseconds u)).

(** ** Data *)

Abbreviation loc := nat.

(** A context is known by the capture information it gives. *)
Definition AssemblerContext : Type := CaptureInfo.

Definition pageBytes : Z := 1900.

(** [p_bytes] is a slice of the page's buffer; [p_cap] is its capacity. *)
Record page : Type := mkPage {
  p_bytes : bytes;
  p_cap : Z;
  p_seq : Sequence;
  p_prev : option loc;
  p_next : option loc;
  p_ac : option AssemblerContext;
  p_seen : time;
  p_start : bool;
  p_end : bool;
}.

Definition zero_page : page := mkPage [] 0 0 None None None zero_time false false.

Record livePacket : Type := mkLivePacket {
  lp_bytes : bytes;
  lp_start : bool;
  lp_end : bool;
  lp_ac : option AssemblerContext;
  lp_seq : Sequence;
}.

Definition zero_livePacket : livePacket := mkLivePacket [] false false None 0.

(** The only packet that a container points to is the assembler's [cacheLP]. *)
Inductive byteContainer : Type :=
  | Page (l : loc)
  | LivePacket.

Record halfconnection : Type := mkHalf {
  h_dir : TCPFlowDirection;
  h_pages : Z;
  h_saved : option loc;
  h_first : option loc;
  h_last : option loc;
  h_nextSeq : Sequence;
  h_ackSeq : Sequence;
  h_created : time;
  h_lastSeen : time;
  h_stream : option nat;
  h_closed : bool;
  h_queuedBytes : Z;
  h_queuedPackets : Z;
  h_overlapBytes : Z;
  h_overlapPackets : Z;
}.

Definition zero_half : halfconnection :=
  mkHalf false 0 None None None 0 0 zero_time zero_time None false 0 0 0 0.

Definition key : Type := Flow * Flow.
Definition key_Reverse (k : key) : key := (Flows.Reverse k.1, Flows.Reverse k.2).

Record connection : Type := mkConnection {
  c_key : key;
  c2s : halfconnection;
  s2c : halfconnection;
}.

Definition zero_flow : Flow := mkFlow 0 0 0 [] [].
Definition zero_connection : connection := mkConnection (zero_flow, zero_flow) zero_half zero_half.

(** The pool of pages that were put back; [pc_made] counts the pages that were ever made. *)
Record pageCache : Type := mkPageCache {
  pc_pool : list loc;
  pc_made : nat;
  pc_gets : nat;
  pc_used : Z;
}.

Record StreamPool : Type := mkStreamPool {
  sp_conns : gmap key loc;
  sp_users : Z;
  sp_free : list loc;
  sp_all : Z;  (** the number of connections in [all] *)
  sp_nextAlloc : Z;
}.

Record AssemblerOptions : Type := mkAssemblerOptions {
  MaxBufferedPagesTotal : Z;
  MaxBufferedPagesPerConnection : Z;
}.

Definition DefaultAssemblerOptions : AssemblerOptions := mkAssemblerOptions 0 0.

Record TCPAssemblyStats : Type := mkStats {
  st_Chunks : Z;
  st_Packets : Z;
  st_QueuedBytes : Z;
  st_QueuedPackets : Z;
  st_OverlapBytes : Z;
  st_OverlapPackets : Z;
}.

Record reassemblyObject : Type := mkSG {
  sg_all : list byteContainer;
  sg_Skip : Z;
  sg_Direction : TCPFlowDirection;
  sg_saved : Z;
  sg_toKeep : Z;
  sg_queuedBytes : Z;
  sg_queuedPackets : Z;
  sg_overlapBytes : Z;
  sg_overlapPackets : Z;
}.

(** What a stream can see of a container. *)
Record chunk : Type := mkChunk {
  ck_bytes : bytes;
  ck_seq : Sequence;
  ck_start : bool;
  ck_end : bool;
  ck_ac : option AssemblerContext;
  ck_isPacket : bool;
}.

(** The argument of [ReassembledSG]: the object and the containers it refers to. *)
Record ScatterGather : Type := mkScatterGather {
  chunks : list chunk;
  object : reassemblyObject;
}.

(** What the factory and the streams are told. A stream is the number of the
    [New] call that made it. *)
Inductive event : Type :=
  | EvNew (stream : nat) (netFlow tcpFlow : Flow) (t : TCP) (ac : AssemblerContext)
  | EvAccept (stream : nat) (t : TCP) (ci : CaptureInfo) (d : TCPFlowDirection) (nextSeq : Sequence)
      (start : bool) (ac : AssemblerContext)
  | EvReassembledSG (stream : nat) (sg : ScatterGather) (ac : option AssemblerContext)
  | EvReassemblyComplete (stream : nat).

(** The answers of the streams, given what was told so far: [Accept] with the
    value of [*start], the offset of the last call of [sg.KeepFrom] if there was
    one, and whether to remove the connection. [Pool_Get n] is the place in the
    pool of the page that the [n]th [Get] takes; without one, [New] makes it. *)
Class Environment : Type := {
  stream_Accept : list event -> nat -> bool * bool;
  stream_KeepFrom : list event -> nat -> option Z;
  stream_Complete : list event -> nat -> bool;
  Pool_Get : nat -> option nat;
}.

(** An assembler with its pool and the memory they point into. *)
Record world : Type := mkWorld {
  options : AssemblerOptions;
  ret : list byteContainer;
  pc : pageCache;
  mem : gmap loc page;
  pool : StreamPool;
  objs : gmap loc connection;
  cacheLP : livePacket;
  cacheSG : reassemblyObject;
  a_start : bool;
  streams : nat;
  trace : list event;
}.

(** ** Memory *)

Definition set_ret (v : list byteContainer) (w : world) : world :=
  mkWorld (options w) v (pc w) (mem w) (pool w) (objs w) (cacheLP w) (cacheSG w) (a_start w)
    (streams w) (trace w).
Definition set_pc (v : pageCache) (w : world) : world :=
  mkWorld (options w) (ret w) v (mem w) (pool w) (objs w) (cacheLP w) (cacheSG w) (a_start w)
    (streams w) (trace w).
Definition set_mem (v : gmap loc page) (w : world) : world :=
  mkWorld (options w) (ret w) (pc w) v (pool w) (objs w) (cacheLP w) (cacheSG w) (a_start w)
    (streams w) (trace w).
Definition set_pool (v : StreamPool) (w : world) : world :=
  mkWorld (options w) (ret w) (pc w) (mem w) v (objs w) (cacheLP w) (cacheSG w) (a_start w)
    (streams w) (trace w).
Definition set_objs (v : gmap loc connection) (w : world) : world :=
  mkWorld (options w) (ret w) (pc w) (mem w) (pool w) v (cacheLP w) (cacheSG w) (a_start w)
    (streams w) (trace w).
Definition set_cacheLP (v : livePacket) (w : world) : world :=
  mkWorld (options w) (ret w) (pc w) (mem w) (pool w) (objs w) v (cacheSG w) (a_start w)
    (streams w) (trace w).
Definition set_cacheSG (v : reassemblyObject) (w : world) : world :=
  mkWorld (options w) (ret w) (pc w) (mem w) (pool w) (objs w) (cacheLP w) v (a_start w)
    (streams w) (trace w).
Definition set_a_start (v : bool) (w : world) : world :=
  mkWorld (options w) (ret w) (pc w) (mem w) (pool w) (objs w) (cacheLP w) (cacheSG w) v
    (streams w) (trace w).
Definition add_event (e : event) (w : world) : world :=
  mkWorld (options w) (ret w) (pc w) (mem w) (pool w) (objs w) (cacheLP w) (cacheSG w) (a_start w)
    (streams w) (trace w ++ [e]).

Definition page_at (w : world) (l : loc) : page := default zero_page (mem w !! l).
Definition conn_at (w : world) (c : loc) : connection := default zero_connection (objs w !! c).

Definition load_page (l : loc) : M world page := gets (fun w => page_at w l).
Definition store_page (l : loc) (p : page) : M world unit :=
  modify (fun w => set_mem (<[l := p]> (mem w)) w).
Definition update_page (l : loc) (f : page -> page) : M world unit :=
  p ← load_page l; store_page l (f p).

Definition set_prev (v : option loc) (p : page) : page :=
  mkPage (p_bytes p) (p_cap p) (p_seq p) v (p_next p) (p_ac p) (p_seen p) (p_start p) (p_end p).
Definition set_next (v : option loc) (p : page) : page :=
  mkPage (p_bytes p) (p_cap p) (p_seq p) (p_prev p) v (p_ac p) (p_seen p) (p_start p) (p_end p).
Definition set_data (b : bytes) (cap : Z) (s : Sequence) (p : page) : page :=
  mkPage b cap s (p_prev p) (p_next p) (p_ac p) (p_seen p) (p_start p) (p_end p).
Definition set_bytes (b : bytes) (p : page) : page := set_data b (p_cap p) (p_seq p) p.
Definition set_ac (v : option AssemblerContext) (p : page) : page :=
  mkPage (p_bytes p) (p_cap p) (p_seq p) (p_prev p) (p_next p) v (p_seen p) (p_start p) (p_end p).
Definition set_end (v : bool) (p : page) : page :=
  mkPage (p_bytes p) (p_cap p) (p_seq p) (p_prev p) (p_next p) (p_ac p) (p_seen p) (p_start p) v.

(** A half-connection is addressed by its connection and its side: [false] is [c2s]. *)
Definition half_ref : Type := loc * bool.

Definition half_of (b : bool) (c : connection) : halfconnection := if b then s2c c else c2s c.
Definition set_half (b : bool) (v : halfconnection) (c : connection) : connection :=
  if b then mkConnection (c_key c) (c2s c) v else mkConnection (c_key c) v (s2c c).
Definition half_at (w : world) (h : half_ref) : halfconnection := half_of h.2 (conn_at w h.1).

Definition load_conn (c : loc) : M world connection := gets (fun w => conn_at w c).
Definition store_conn (c : loc) (v : connection) : M world unit :=
  modify (fun w => set_objs (<[c := v]> (objs w)) w).
Definition load_half (h : half_ref) : M world halfconnection := gets (fun w => half_at w h).
Definition update_half (h : half_ref) (f : halfconnection -> halfconnection) : M world unit :=
  c ← load_conn h.1; store_conn h.1 (set_half h.2 (f (half_of h.2 c)) c).

Definition set_h_pages (v : Z) (h : halfconnection) : halfconnection :=
  mkHalf (h_dir h) v (h_saved h) (h_first h) (h_last h) (h_nextSeq h) (h_ackSeq h) (h_created h)
    (h_lastSeen h) (h_stream h) (h_closed h) (h_queuedBytes h) (h_queuedPackets h)
    (h_overlapBytes h) (h_overlapPackets h).
Definition set_h_saved (v : option loc) (h : halfconnection) : halfconnection :=
  mkHalf (h_dir h) (h_pages h) v (h_first h) (h_last h) (h_nextSeq h) (h_ackSeq h) (h_created h)
    (h_lastSeen h) (h_stream h) (h_closed h) (h_queuedBytes h) (h_queuedPackets h)
    (h_overlapBytes h) (h_overlapPackets h).
Definition set_h_first (v : option loc) (h : halfconnection) : halfconnection :=
  mkHalf (h_dir h) (h_pages h) (h_saved h) v (h_last h) (h_nextSeq h) (h_ackSeq h) (h_created h)
    (h_lastSeen h) (h_stream h) (h_closed h) (h_queuedBytes h) (h_queuedPackets h)
    (h_overlapBytes h) (h_overlapPackets h).
Definition set_h_last (v : option loc) (h : halfconnection) : halfconnection :=
  mkHalf (h_dir h) (h_pages h) (h_saved h) (h_first h) v (h_nextSeq h) (h_ackSeq h) (h_created h)
    (h_lastSeen h) (h_stream h) (h_closed h) (h_queuedBytes h) (h_queuedPackets h)
    (h_overlapBytes h) (h_overlapPackets h).
Definition set_h_nextSeq (v : Sequence) (h : halfconnection) : halfconnection :=
  mkHalf (h_dir h) (h_pages h) (h_saved h) (h_first h) (h_last h) v (h_ackSeq h) (h_created h)
    (h_lastSeen h) (h_stream h) (h_closed h) (h_queuedBytes h) (h_queuedPackets h)
    (h_overlapBytes h) (h_overlapPackets h).
Definition set_h_ackSeq (v : Sequence) (h : halfconnection) : halfconnection :=
  mkHalf (h_dir h) (h_pages h) (h_saved h) (h_first h) (h_last h) (h_nextSeq h) v (h_created h)
    (h_lastSeen h) (h_stream h) (h_closed h) (h_queuedBytes h) (h_queuedPackets h)
    (h_overlapBytes h) (h_overlapPackets h).
Definition set_h_lastSeen (v : time) (h : halfconnection) : halfconnection :=
  mkHalf (h_dir h) (h_pages h) (h_saved h) (h_first h) (h_last h) (h_nextSeq h) (h_ackSeq h)
    (h_created h) v (h_stream h) (h_closed h) (h_queuedBytes h) (h_queuedPackets h)
    (h_overlapBytes h) (h_overlapPackets h).
Definition set_h_closed (v : bool) (h : halfconnection) : halfconnection :=
  mkHalf (h_dir h) (h_pages h) (h_saved h) (h_first h) (h_last h) (h_nextSeq h) (h_ackSeq h)
    (h_created h) (h_lastSeen h) (h_stream h) v (h_queuedBytes h) (h_queuedPackets h)
    (h_overlapBytes h) (h_overlapPackets h).
(** Counting: queued packets and bytes, overlapping packets and bytes. *)
Definition add_queued (packets n : Z) (h : halfconnection) : halfconnection :=
  mkHalf (h_dir h) (h_pages h) (h_saved h) (h_first h) (h_last h) (h_nextSeq h) (h_ackSeq h)
    (h_created h) (h_lastSeen h) (h_stream h) (h_closed h) (h_queuedBytes h + n)
    (h_queuedPackets h + packets) (h_overlapBytes h) (h_overlapPackets h).
Definition add_overlap (packets n : Z) (h : halfconnection) : halfconnection :=
  mkHalf (h_dir h) (h_pages h) (h_saved h) (h_first h) (h_last h) (h_nextSeq h) (h_ackSeq h)
    (h_created h) (h_lastSeen h) (h_stream h) (h_closed h) (h_queuedBytes h) (h_queuedPackets h)
    (h_overlapBytes h + n) (h_overlapPackets h + packets).
Definition reset_stats (h : halfconnection) : halfconnection :=
  mkHalf (h_dir h) (h_pages h) (h_saved h) (h_first h) (h_last h) (h_nextSeq h) (h_ackSeq h)
    (h_created h) (h_lastSeen h) (h_stream h) (h_closed h) 0 0 0 0.

(** A pointer that the code dereferences. *)
Definition deref {A} (o : option A) : M world A :=
  match o with Some l => mret l | None => lift (Panic NilDereference) end.

(** A bound on the number of pages in any list: the pages that exist. *)
Definition page_fuel (w : world) : nat := S (pc_made (pc w)).

(** ** What a stream sees: the methods of [ScatterGather] *)

Definition chunk_of (w : world) (r : byteContainer) : chunk :=
  match r with
  | Page l =>
      let p := page_at w l in
      mkChunk (p_bytes p) (p_seq p) (p_start p) (p_end p) (p_ac p)
        (match p_ac p with Some _ => true | None => false end)
  | LivePacket =>
      let p := cacheLP w in
      mkChunk (lp_bytes p) (lp_seq p) (lp_start p) (lp_end p) (lp_ac p) true
  end.

Definition sg_view (w : world) : ScatterGather :=
  mkScatterGather (chunk_of w <$> sg_all (cacheSG w)) (cacheSG w).

Definition ck_length (c : chunk) : Z := len (ck_bytes c).

(** [c.captureInfo()]: a method of the context, which may be nil. *)
Definition captureInfo (c : chunk) : outcome CaptureInfo :=
  match ck_ac c with Some ac => mret ac | None => Panic NilDereference end.

Definition sum_lengths (cs : list chunk) : Z := foldr (fun c s => ck_length c + s) 0 cs.

Definition Lengths (sg : ScatterGather) : Z * Z := (sum_lengths (chunks sg), sg_saved (object sg)).

(** [make([]byte, 0, l)] leaves zeros where fewer than [l] bytes are appended. *)
Definition Fetch (l : Z) (sg : ScatterGather) : outcome bytes :=
  first ← index (chunks sg) 0;
  if l <=? ck_length first then slice_to (ck_bytes first) l
  else
    let n := Z.to_nat l in
    mret (take n (concat (ck_bytes <$> chunks sg) ++ replicate n 0)).

Definition zero_CaptureInfo : CaptureInfo := mkCaptureInfo zero_time 0 0 0.

Fixpoint CaptureInfo_loop (offset current : Z) (cs : list chunk) : outcome CaptureInfo :=
  match cs with
  | [] => mret zero_CaptureInfo
  | r :: cs' =>
      if current + ck_length r >? offset then captureInfo r
      else CaptureInfo_loop offset (current + ck_length r) cs'
  end.

Definition sg_CaptureInfo (offset : Z) (sg : ScatterGather) : outcome CaptureInfo :=
  if offset <? 0 then mret zero_CaptureInfo else CaptureInfo_loop offset 0 (chunks sg).

Definition Info (sg : ScatterGather) : outcome (TCPFlowDirection * bool * bool * Z) :=
  first ← index (chunks sg) 0;
  last ← index (chunks sg) (len (chunks sg) - 1);
  mret (sg_Direction (object sg), ck_start first, ck_end last, sg_Skip (object sg)).

Definition Stats (sg : ScatterGather) : TCPAssemblyStats :=
  let o := object sg in
  mkStats (len (chunks sg)) (len (filter (fun c => ck_isPacket c = true) (chunks sg)))
    (sg_queuedBytes o) (sg_queuedPackets o) (sg_overlapBytes o) (sg_overlapPackets o).

Definition KeepFrom (offset : Z) (o : reassemblyObject) : reassemblyObject :=
  mkSG (sg_all o) (sg_Skip o) (sg_Direction o) (sg_saved o) offset (sg_queuedBytes o)
    (sg_queuedPackets o) (sg_overlapBytes o) (sg_overlapPackets o).

Section assembler.
Context `{Env : Environment}.

(** ** The page cache *)

Definition newPageCache : pageCache := mkPageCache [] 0 0 0.

(** [pagePool.Get]: a page that was put back, as it is, or a new one. *)
Definition pool_Get : M world loc :=
  c ← gets pc;
  match Pool_Get (pc_gets c) ≫= (fun i => l ← pc_pool c !! i; Some (i, l)) with
  | Some (i, l) =>
      _ ← modify (set_pc (mkPageCache (delete i (pc_pool c)) (pc_made c) (S (pc_gets c)) (pc_used c)));
      mret l
  | None =>
      let l := pc_made c in
      _ ← modify (set_pc (mkPageCache (pc_pool c) (S l) (S (pc_gets c)) (pc_used c)));
      _ ← store_page l zero_page;
      mret l
  end.

Definition next_page (ts : time) : M world loc :=
  l ← pool_Get;
  p ← load_page l;
  _ ← store_page l (mkPage [] pageBytes (p_seq p) (p_prev p) (p_next p) (p_ac p) ts (p_start p) (p_end p));
  _ ← modify (fun w => let c := pc w in
        set_pc (mkPageCache (pc_pool c) (pc_made c) (pc_gets c) (pc_used c + 1)) w);
  mret l.

Definition replace_page (l : loc) : M world unit :=
  _ ← modify (fun w => let c := pc w in
        set_pc (mkPageCache (pc_pool c) (pc_made c) (pc_gets c) (pc_used c - 1)) w);
  _ ← update_page l (fun p => set_next None (set_prev None p));
  modify (fun w => let c := pc w in
    set_pc (mkPageCache (pc_pool c ++ [l]) (pc_made c) (pc_gets c) (pc_used c)) w).

(** ** Containers *)

(** The loop of [livePacket.convertToPages]: [current] is the page being filled. *)
Fixpoint fill_pages (fuel : nat) (ts : time) (fin : bool) (current : loc) (seq : Sequence)
    (bytes : bytes) (numPages : Z) : M world (loc * Z) :=
  match fuel with
  | O => lift NoFuel
  | S fuel' =>
      let length := Z.min (len bytes) pageBytes in
      data ← lift (slice_to bytes length);
      _ ← update_page current (set_data data pageBytes seq);
      bytes ← lift (slice_from bytes length);
      if len bytes =? 0 then
        _ ← update_page current (fun p => set_next None (set_end fin p));
        mret (current, numPages)
      else
        let seq := Add seq length in
        n ← next_page ts;
        _ ← update_page current (set_next (Some n));
        _ ← update_page n (set_prev (Some current));
        _ ← update_page n (set_ac None);
        fill_pages fuel' ts fin n seq bytes (numPages + 1)
  end.

Definition livePacket_convertToPages (skip : Z) (ac : option AssemblerContext)
    : M world (loc * loc * Z) :=
  lp ← gets cacheLP;
  ci ← deref (lp_ac lp);
  let ts := Timestamp ci in
  first ← next_page ts;
  _ ← update_page first (set_prev None);
  _ ← update_page first (set_ac ac);
  bytes ← lift (slice_from (lp_bytes lp) skip);
  r ← fill_pages (S (length bytes)) ts (lp_end lp) first (Add (lp_seq lp) skip) bytes 1;
  mret (first, r.1, r.2).

Definition page_convertToPages (l : loc) (skip : Z) : M world (loc * loc * Z) :=
  p ← load_page l;
  _ ← (if negb (skip =? 0) then
         bytes ← lift (slice_from (p_bytes p) skip);
         update_page l (set_data bytes (p_cap p - skip) (Add (p_seq p) skip))
       else mret tt);
  _ ← update_page l (fun p => set_next None (set_prev None p));
  mret (l, l, 1).

Definition convertToPages (r : byteContainer) (skip : Z) (ac : option AssemblerContext)
    : M world (loc * loc * Z) :=
  match r with
  | Page l => page_convertToPages l skip
  | LivePacket => livePacket_convertToPages skip ac
  end.

Definition release (r : byteContainer) : M world Z :=
  match r with
  | Page l => _ ← replace_page l; mret 1
  | LivePacket => mret 0
  end.

Definition load_chunk (r : byteContainer) : M world chunk := gets (fun w => chunk_of w r).

(** ** The stream pool *)

Definition initialAllocSize : Z := 1024.

Definition NewStreamPool : StreamPool := mkStreamPool ∅ 0 [] 0 initialAllocSize.

Definition grow (p : StreamPool) : StreamPool :=
  mkStreamPool (sp_conns p) (sp_users p)
    (sp_free p ++ seq (Z.to_nat (sp_all p)) (Z.to_nat (sp_nextAlloc p)))
    (sp_all p + sp_nextAlloc p) (sp_nextAlloc p * 2).

Definition reset (k : key) (s : option nat) (ts : time) : connection :=
  let base d := mkHalf d 0 None None None invalidSequence invalidSequence ts ts s false 0 0 0 0 in
  mkConnection k (base TCPDirClientToServer) (base TCPDirServerToClient).

Definition c_lastSeen (c : connection) : time :=
  if Before (h_lastSeen (c2s c)) (h_lastSeen (s2c c)) then h_lastSeen (s2c c) else h_lastSeen (c2s c).

Definition remove (c : loc) : M world unit :=
  v ← load_conn c;
  p ← gets pool;
  match sp_conns p !! c_key v with
  | Some _ => modify (set_pool (mkStreamPool (delete (c_key v) (sp_conns p)) (sp_users p)
                (sp_free p ++ [c]) (sp_all p) (sp_nextAlloc p)))
  | None => mret tt
  end.

Definition newConnection (k : key) (s : option nat) (ts : time) : M world loc :=
  p ← gets pool;
  let p := if len (sp_free p) =? 0 then grow p else p in
  let i := len (sp_free p) - 1 in
  c ← lift (index (sp_free p) i);
  free ← lift (slice_to (sp_free p) i);
  _ ← modify (set_pool (mkStreamPool (sp_conns p) (sp_users p) free (sp_all p) (sp_nextAlloc p)));
  _ ← store_conn c (reset k s ts);
  mret c.

(** The connection of a key, with the side that sends by this key. *)
Definition getHalf (k : key) (p : StreamPool) : option (loc * bool) :=
  match sp_conns p !! k with
  | Some conn => Some (conn, false)
  | None =>
      match sp_conns p !! key_Reverse k with
      | Some conn => Some (conn, true)
      | None => None
      end
  end.

(** [factory.New], a stream that is not nil. *)
Definition factory_New (k : key) (t : TCP) (ac : AssemblerContext) : M world nat := fun w =>
  let s := streams w in
  (Ok s, mkWorld (options w) (ret w) (pc w) (mem w) (pool w) (objs w) (cacheLP w) (cacheSG w)
           (a_start w) (S s) (trace w ++ [EvNew s k.1 k.2 t ac])).

Definition getConnection (k : key) (end_ : bool) (ts : time) (t : TCP) (ac : AssemblerContext)
    : M world (option (loc * bool)) :=
  p ← gets pool;
  let conn := getHalf k p in
  if end_ || match conn with Some _ => true | None => false end then mret conn
  else
    s ← factory_New k t ac;
    c ← newConnection k (Some s) ts;
    p ← gets pool;
    match getHalf k p with
    | Some (conn2, side) =>
        v ← load_conn conn2;
        if bool_decide (c_key v = k) then mret (Some (conn2, side))
        else lift (Panic (Panicked "FIXME: other dir added in the meantime..."))
    | None =>
        _ ← modify (fun w => let p := pool w in
          set_pool (mkStreamPool (<[k := c]> (sp_conns p)) (sp_users p) (sp_free p) (sp_all p)
            (sp_nextAlloc p)) w);
        mret (Some (c, false))
    end.

(** [o] is the value of the variable [DefaultAssemblerOptions] at the time. *)
Definition NewAssembler (o : AssemblerOptions) (p : StreamPool) : world :=
  mkWorld o [] newPageCache ∅
    (mkStreamPool (sp_conns p) (sp_users p + 1) (sp_free p) (sp_all p) (sp_nextAlloc p)) ∅
    zero_livePacket (mkSG [] 0 false 0 0 0 0 0 0) false 0 [].

(** ** The queue *)

Definition isPacket (p : page) : bool := match p_ac p with Some _ => true | None => false end.

(** [checkOverlap], case 3: the page [l] is covered by the packet and goes. *)
Definition drop_page (h : half_ref) (l : loc) : M world (option loc) :=
  cur ← load_page l;
  _ ← update_half h (add_overlap (b2z (isPacket cur)) (len (p_bytes cur)));
  _ ← (match p_prev cur with
       | Some p => update_page p (set_next (p_next cur))
       | None => update_half h (set_h_first (p_next cur))
       end);
  cur ← load_page l;
  _ ← (match p_next cur with
       | Some n => update_page n (set_prev (p_prev cur))
       | None => update_half h (set_h_last (p_prev cur))
       end);
  cur ← load_page l;
  let tmp := p_prev cur in
  n ← release (Page l);
  _ ← update_half h (fun v => set_h_pages (h_pages v - n) v);
  mret tmp.

(** [copy(b[lo:hi], src)]: up to the capacity of [b], what lies beyond its length being lost. *)
Definition copy_page (b : bytes) (cap lo hi : Z) (src : bytes) : outcome bytes :=
  if (lo <? 0) || (hi <? lo) || (hi >? cap) then Panic SliceOutOfRange
  else
    let src := take (Z.to_nat (hi - lo)) src in
    let n := Z.to_nat lo in
    mret (take (length b) (take n b ++ src ++ drop (n + length src) b)).

(** The loop of [checkOverlap], from the last page backwards, with the page after
    [cur] that stays in the queue. *)
Fixpoint overlap_loop (fuel : nat) (h : half_ref) (start end_ : Sequence) (bytes : bytes)
    (next cur : option loc) : M world (option loc * option loc * Prelude.bytes) :=
  match cur with
  | None => mret (None, next, bytes)
  | Some l =>
      match fuel with
      | O => lift NoFuel
      | S fuel' =>
          p ← load_page l;
          (* case 5 *)
          if Difference end_ (p_seq p) >? 0
          then overlap_loop fuel' h start end_ bytes (Some l) (p_prev p)
          else
            let curEnd := Add (p_seq p) (len (p_bytes p)) in
            (* case 1 *)
            if Difference start curEnd <=? 0 then mret (Some l, next, bytes)
            else
              let diffStart := Difference start (p_seq p) in
              let diffEnd := Difference end_ curEnd in
              (* case 3 *)
              if (diffEnd <=? 0) && (diffStart >=? 0) then
                tmp ← drop_page h l;
                overlap_loop fuel' h start end_ bytes next tmp
              (* case 2 *)
              else if (diffEnd <? 0) && (Difference start curEnd >? 0) then
                data ← lift (slice_to (p_bytes p) (- Difference start (p_seq p)));
                _ ← update_page l (set_bytes data);
                mret (Some l, next, bytes)
              (* case 4 *)
              else if (diffStart >? 0) && (Difference end_ (p_seq p) <? 0) then
                let n := - Difference end_ (p_seq p) in
                data ← lift (slice_from (p_bytes p) n);
                _ ← update_page l (set_data data (p_cap p - n) (Add (p_seq p) n));
                overlap_loop fuel' h start end_ bytes (Some l) (p_prev p)
              (* case 6 *)
              else if (diffEnd >=? 0) && (diffStart <=? 0) then
                data ← lift (copy_page (p_bytes p) (p_cap p) (- diffStart) (- diffStart + len bytes) bytes);
                _ ← update_page l (set_bytes data);
                overlap_loop fuel' h start end_ [] next (p_prev p)
              else overlap_loop fuel' h start end_ bytes (Some l) (p_prev p)
      end
  end.

(** Splitting the packet into pages, and linking them between [cur] and [next]. *)
Definition queue_packet (h : half_ref) (ac : option AssemblerContext) (cur next : option loc)
    (bytes : bytes) : M world unit :=
  r ← livePacket_convertToPages 0 ac;
  let '(p, p2, numPages) := r in
  _ ← update_half h (add_queued 1 (len bytes));
  _ ← update_half h (fun v => set_h_pages (h_pages v + numPages) v);
  _ ← (match cur with
       | Some c => _ ← update_page c (set_next (Some p)); update_page p (set_prev (Some c))
       | None => update_half h (set_h_first (Some p))
       end);
  match next with
  | Some n => _ ← update_page p2 (set_next (Some n)); update_page n (set_prev (Some p2))
  | None => update_half h (set_h_last (Some p2))
  end.

Definition set_lp_data (b : bytes) (s : Sequence) (lp : livePacket) : livePacket :=
  mkLivePacket b (lp_start lp) (lp_end lp) (lp_ac lp) s.

Definition checkOverlap (h : half_ref) (queue : bool) (ac : option AssemblerContext) : M world unit :=
  w ← get;
  let lp := cacheLP w in
  let start := lp_seq lp in
  let end_ := Add start (len (lp_bytes lp)) in
  r ← overlap_loop (page_fuel w) h start end_ (lp_bytes lp) None (h_last (half_at w h));
  let '(cur, next, bytes) := r in
  _ ← modify (fun w => set_cacheLP (set_lp_data bytes start (cacheLP w)) w);
  if (len bytes >? 0) && queue then queue_packet h ac cur next bytes else mret tt.

Definition overlapExisting (h : half_ref) (start end_ : Sequence) (bytes : bytes)
    : M world (Prelude.bytes * Sequence) :=
  half ← load_half h;
  if h_nextSeq half =? invalidSequence then mret (bytes, start)
  else
    let diff := Difference start (h_nextSeq half) in
    if diff =? 0 then mret (bytes, start)
    else
      let e := len bytes in
      _ ← (if negb (e =? 0) then update_half h (add_overlap 1 diff) else mret tt);
      let s := if diff >=? e then e else diff in
      bytes ← lift (slice_from bytes s);
      mret (bytes, h_nextSeq half).

(** [addNextFromConn] *)
Definition addNextFromConn (h : half_ref) : M world unit :=
  v ← load_half h;
  match h_first v with
  | None => mret tt
  | Some f =>
      _ ← modify (fun w => set_ret (ret w ++ [Page f]) w);
      p ← load_page f;
      _ ← update_half h (set_h_first (p_next p));
      match p_next p with
      | Some n => update_page n (set_prev None)
      | None => update_half h (set_h_last None)
      end
  end.

Record assemblerAction : Type := mkAction { a_nextSeq : Sequence; a_queue : bool }.

Definition over_limit (o : AssemblerOptions) (pages used : Z) : bool :=
  ((MaxBufferedPagesPerConnection o >? 0) && (pages >=? MaxBufferedPagesPerConnection o))
  || ((MaxBufferedPagesTotal o >? 0) && (used >=? MaxBufferedPagesTotal o)).

(** Prepare to send or to queue. *)
Definition handleBytes (bytes : bytes) (seq : Sequence) (h : half_ref) (start end_ : bool)
    (action : assemblerAction) (ac : option AssemblerContext) : M world assemblerAction :=
  _ ← modify (set_cacheLP (mkLivePacket bytes start end_ ac seq));
  if a_queue action then
    _ ← checkOverlap h true ac;
    w ← get;
    if over_limit (options w) (h_pages (half_at w h)) (pc_used (pc w)) then
      _ ← addNextFromConn h;
      mret (mkAction (a_nextSeq action) false)
    else mret action
  else
    r ← overlapExisting h seq (Add seq (len bytes)) bytes;
    _ ← modify (fun w => set_cacheLP (set_lp_data r.1 r.2 (cacheLP w)) w);
    _ ← checkOverlap h false ac;
    w ← get;
    _ ← (if negb (len (lp_bytes (cacheLP w)) =? 0) || end_ || start
         then modify (fun w => set_ret (ret w ++ [LivePacket]) w) else mret tt);
    mret action.

(** ** Delivery *)

(** The pages of a list, from [p]. *)
Fixpoint saved_pages (fuel : nat) (p : option loc) : M world (list loc) :=
  match p with
  | None => mret []
  | Some l =>
      match fuel with
      | O => lift NoFuel
      | S fuel' => pg ← load_page l; ls ← saved_pages fuel' (p_next pg); mret (l :: ls)
      end
  end.

(** Dropping the pages that a stream kept: their number stays in [h_pages]. *)
Fixpoint release_saved (fuel : nat) (p : option loc) : M world unit :=
  match p with
  | None => mret tt
  | Some l =>
      match fuel with
      | O => lift NoFuel
      | S fuel' => pg ← load_page l; _ ← release (Page l); release_saved fuel' (p_next pg)
      end
  end.

Definition addPending (h : half_ref) (firstSeq : Sequence) : M world Z :=
  v ← load_half h;
  match h_saved v with
  | None => mret 0
  | Some l0 =>
      w ← get;
      ls ← saved_pages (page_fuel w) (Some l0);
      w ← get;
      let s := foldr (fun l s => len (p_bytes (page_at w l)) + s) 0 ls in
      if negb (Add (p_seq (page_at w l0)) s =? firstSeq) then
        _ ← release_saved (page_fuel w) (Some l0);
        _ ← update_half h (set_h_saved None);
        mret 0
      else
        _ ← modify (fun w => set_ret ((Page <$> ls) ++ ret w) w);
        mret s
  end.

Fixpoint contiguous_loop (fuel : nat) (h : half_ref) (page : option loc) (lastSeq : Sequence)
    : M world Sequence :=
  match page with
  | None => mret lastSeq
  | Some l =>
      p ← load_page l;
      if Difference lastSeq (p_seq p) =? 0 then
        match fuel with
        | O => lift NoFuel
        | S fuel' =>
            let lastSeq := Add lastSeq (len (p_bytes p)) in
            _ ← modify (fun w => set_ret (ret w ++ [Page l]) w);
            _ ← update_half h (set_h_first (p_next p));
            _ ← (match p_next p with
                 | None => update_half h (set_h_last None)
                 | Some n => update_page n (set_prev None)
                 end);
            contiguous_loop fuel' h (p_next p) lastSeq
        end
      else mret lastSeq
  end.

Definition addContiguous (h : half_ref) (lastSeq : Sequence) : M world Sequence :=
  v ← load_half h;
  match h_first v with
  | None => mret lastSeq
  | Some f =>
      p ← load_page f;
      let lastSeq := if lastSeq =? invalidSequence then p_seq p else lastSeq in
      w ← get;
      contiguous_loop (page_fuel w) h (Some f) lastSeq
  end.

Definition setStatsToSG (h : half_ref) : M world unit :=
  v ← load_half h;
  _ ← modify (fun w => let o := cacheSG w in
        set_cacheSG (mkSG (sg_all o) (sg_Skip o) (sg_Direction o) (sg_saved o) (sg_toKeep o)
          (h_queuedBytes v) (h_queuedPackets v) (h_overlapBytes v) (h_overlapPackets v)) w);
  update_half h reset_stats.

Definition buildSG (h : half_ref) : M world (bool * Sequence) :=
  v ← load_half h;
  r ← gets ret;
  r0 ← lift (index r 0);
  c0 ← load_chunk r0;
  let skip := if negb (h_nextSeq v =? invalidSequence)
              then Difference (h_nextSeq v) (ck_seq c0) else -1 in
  let last := Add (ck_seq c0) (ck_length c0) in
  saved ← addPending h (ck_seq c0);
  nextSeq ← addContiguous h last;
  r ← gets ret;
  _ ← modify (fun w => let o := cacheSG w in
        set_cacheSG (mkSG r skip (h_dir v) saved (-1) (sg_queuedBytes o) (sg_queuedPackets o)
          (sg_overlapBytes o) (sg_overlapPackets o)) w);
  _ ← setStatsToSG h;
  rl ← lift (index r (len r - 1));
  cl ← load_chunk rl;
  mret (ck_end cl, nextSeq).

(** The search for the first container to keep: its place, and the bytes of it to skip. *)
Fixpoint find_keep (toKeep cur skip ndx : Z) (lengths : list Z) : Z * Z :=
  match lengths with
  | [] => (ndx, skip)
  | l :: lengths' =>
      if toKeep <? cur + l then (ndx, skip)
      else find_keep toKeep (cur + l) (if skip >=? l then skip - l else skip) (ndx + 1) lengths'
  end.

(** [r == p] for a container and a pointer to a page. *)
Definition is_page (r : byteContainer) (p : option loc) : bool :=
  match r with Page l => bool_decide (p = Some l) | LivePacket => false end.

(** One container that was consumed. *)
Definition consume (h : half_ref) (r : byteContainer) : M world unit :=
  v ← load_half h;
  _ ← (if is_page r (h_saved v) then
         s ← deref (h_saved v);
         p ← load_page s;
         _ ← (match p_next p with
              | Some n => update_page n (set_prev None)
              | None => mret tt
              end);
         p ← load_page s;
         update_half h (set_h_saved (p_next p))
       else if is_page r (h_first v) then
         f ← deref (h_first v);
         p ← load_page f;
         _ ← (match p_next p with
              | Some n => update_page n (set_prev None)
              | None => mret tt
              end);
         if bool_decide (h_first v = h_last v)
         then update_half h (fun v => set_h_first None (set_h_last None v))
         else p ← load_page f; update_half h (set_h_first (p_next p))
       else mret tt);
  n ← release r;
  update_half h (fun v => set_h_pages (h_pages v - n) v).

Fixpoint consume_all (h : half_ref) (rs : list byteContainer) : M world unit :=
  match rs with
  | [] => mret tt
  | r :: rs' => _ ← consume h r; consume_all h rs'
  end.

(** The containers that are kept become the list [h_saved]; their number is only logged. *)
Fixpoint keep_all (h : half_ref) (ac : option AssemblerContext) (skip : Z) (saved : option loc)
    (rs : list byteContainer) : M world unit :=
  match rs with
  | [] => mret tt
  | r :: rs' =>
      c ← load_chunk r;
      let preConvertLen := ck_length c in
      x ← convertToPages r skip ac;
      let '(first, last, nb) := x in
      c ← load_chunk r;
      let delta := preConvertLen - ck_length c in
      let skip := if delta >? skip then 0 else skip - delta in
      v ← load_half h;
      _ ← (match h_saved v with
           | None => update_half h (set_h_saved (Some first))
           | Some _ =>
               s ← deref saved;
               _ ← update_page s (set_next (Some first));
               update_page first (set_prev (Some s))
           end);
      keep_all h ac skip (Some last) rs'
  end.

Definition cleanSG (h : half_ref) (ac : option AssemblerContext) : M world unit :=
  w ← get;
  let all := sg_all (cacheSG w) in
  let toKeep := sg_toKeep (cacheSG w) in
  let '(ndx, skip) :=
    if toKeep <? 0 then (len all, 0)
    else find_keep toKeep 0 toKeep 0 ((fun r => ck_length (chunk_of w r)) <$> all) in
  consumed ← lift (slice_to all ndx);
  _ ← consume_all h consumed;
  _ ← update_half h (set_h_saved None);
  kept ← lift (slice_from all ndx);
  keep_all h ac skip None kept.

(** Freeing the queue of a half that is closed: [p.next] is read after [p] was put back. *)
Fixpoint close_pages (fuel : nat) (h : half_ref) (p : option loc) : M world unit :=
  match p with
  | None => mret tt
  | Some l =>
      match fuel with
      | O => lift NoFuel
      | S fuel' =>
          _ ← replace_page l;
          _ ← update_half h (fun v => set_h_pages (h_pages v - 1) v);
          pg ← load_page l;
          close_pages fuel' h (p_next pg)
      end
  end.

(** [half.stream], whose methods are called. *)
Definition half_stream (h : half_ref) : M world nat := v ← load_half h; deref (h_stream v).

Definition ReassemblyComplete (s : nat) : M world bool :=
  _ ← modify (add_event (EvReassemblyComplete s));
  gets (fun w => stream_Complete (trace w) s).

Definition closeHalfConnection (h : half_ref) : M world unit :=
  _ ← update_half h (set_h_closed true);
  w ← get;
  _ ← close_pages (page_fuel w) h (h_first (half_at w h));
  conn ← load_conn h.1;
  if h_closed (s2c conn) && h_closed (c2s conn) then
    s ← half_stream h;
    b ← ReassemblyComplete s;
    if (b : bool) then remove h.1 else mret tt
  else mret tt.

(** [half.stream.ReassembledSG(&a.cacheSG, ac)] *)
Definition ReassembledSG (s : nat) (ac : option AssemblerContext) : M world unit :=
  w ← get;
  _ ← modify (add_event (EvReassembledSG s (sg_view w) ac));
  k ← gets (fun w => stream_KeepFrom (trace w) s);
  match k with
  | Some offset => modify (fun w => set_cacheSG (KeepFrom offset (cacheSG w)) w)
  | None => mret tt
  end.

Definition sendToConnection (h : half_ref) (ac : option AssemblerContext) : M world Sequence :=
  r ← buildSG h;
  s ← half_stream h;
  _ ← ReassembledSG s ac;
  _ ← cleanSG h ac;
  let '(end_, nextSeq) := (r : bool * Sequence) in
  _ ← (if end_ then closeHalfConnection h else mret tt);
  mret nextSeq.

Definition skipFlush (h : half_ref) : M world unit :=
  v ← load_half h;
  match h_first v with
  | None => closeHalfConnection h
  | Some _ =>
      _ ← modify (set_ret []);
      _ ← addNextFromConn h;
      r ← gets ret;
      r0 ← lift (index r 0);
      c ← load_chunk r0;
      nextSeq ← sendToConnection h (ck_ac c);
      if negb (nextSeq =? invalidSequence) then update_half h (set_h_nextSeq nextSeq) else mret tt
  end.

(** ** Packets *)

Definition stream_Accepts (s : nat) (t : TCP) (ci : CaptureInfo) (d : TCPFlowDirection)
    (nextSeq : Sequence) (ac : AssemblerContext) : M world bool :=
  w ← get;
  _ ← modify (add_event (EvAccept s t ci d nextSeq (a_start w) ac));
  r ← gets (fun w => stream_Accept (trace w) s);
  _ ← modify (set_a_start r.2);
  mret r.1.

(** What to do with a packet, and its sequence number after a SYN. *)
Definition choose_action (h : half_ref) (t : TCP) (seq : Sequence) : M world (assemblerAction * Sequence) :=
  v ← load_half h;
  start ← gets a_start;
  if h_nextSeq v =? invalidSequence then
    if SYN t then
      let seq := Add seq 1 in
      _ ← update_half h (set_h_nextSeq seq);
      mret (mkAction invalidSequence false, seq)
    else if (start : bool) then
      _ ← update_half h (set_h_nextSeq seq);
      mret (mkAction invalidSequence false, seq)
    else mret (mkAction invalidSequence true, seq)
  else
    let diff := Difference (h_nextSeq v) seq in
    mret (mkAction invalidSequence (diff >? 0), seq).

(** The packet is queued or sent, and what was sent moves the next sequence number. *)
Definition handle_and_send (t : TCP) (h : half_ref) (ac : AssemblerContext) (action : assemblerAction)
    (seq : Sequence) : M world unit :=
  action ← handleBytes (Payload (base t)) seq h (SYN t) (RST t || FIN t) action (Some ac);
  sent ← gets ret;
  nextSeq ← (if len sent >? 0 then sendToConnection h (Some ac) else mret (a_nextSeq action));
  if negb (nextSeq =? invalidSequence) then
    _ ← update_half h (set_h_nextSeq nextSeq);
    if FIN t then update_half h (fun v => set_h_nextSeq (Add (h_nextSeq v) 1) v) else mret tt
  else mret tt.

(** The part of [AssembleWithContext] after the packet was accepted. *)
Definition assemble_accepted (t : TCP) (h : half_ref) (ac : AssemblerContext) : M world unit :=
  _ ← (if ACK t then update_half h (set_h_ackSeq (Ack t)) else mret tt);
  r ← choose_action h t (Seq t);
  let '(action, seq) := (r : assemblerAction * Sequence) in
  handle_and_send t h ac action seq.

(** The part after the half-connection was found. *)
Definition assemble_half (t : TCP) (h : half_ref) (ac : AssemblerContext) : M world unit :=
  let timestamp := Timestamp ac in
  v ← load_half h;
  _ ← (if Before (h_lastSeen v) timestamp then update_half h (set_h_lastSeen timestamp) else mret tt);
  v ← load_half h;
  _ ← modify (set_a_start ((h_nextSeq v =? invalidSequence) && SYN t));
  s ← half_stream h;
  ok ← stream_Accepts s t ac (h_dir v) (h_nextSeq v) ac;
  if negb (ok : bool) then mret tt
  else
    v ← load_half h;
    if h_closed v then mret tt else assemble_accepted t h ac.

Definition AssembleWithContext (netFlow : Flow) (t : TCP) (ac : AssemblerContext) : M world unit :=
  _ ← modify (set_ret []);
  tcpFlow ← lift (TransportFlow t);
  c ← getConnection (netFlow, tcpFlow) false (Timestamp ac) t ac;
  match c with
  | None => mret tt
  | Some h => assemble_half t h ac
  end.

(** [now] is what [time.Now] gives. *)
Definition Assemble (now : time) (netFlow : Flow) (t : TCP) : M world unit :=
  AssembleWithContext netFlow t (mkCaptureInfo now 0 0 0).

(** ** Flushing *)

(** The connections of the pool; the order of a Go map is unspecified. *)
Definition connections (w : world) : list loc := (map_to_list (sp_conns (pool w))).*2.

Record FlushOptions : Type := mkFlushOptions { fo_T : time; fo_TC : time }.

(** The loop of [flushClose] over the pages older than [t]: flushed, and closed. *)
Fixpoint flush_old (fuel : nat) (h : half_ref) (t : time) (flushed : bool) : M world (bool * bool) :=
  w ← get;
  match h_first (half_at w h) with
  | Some f =>
      if Before (p_seen (page_at w f)) t then
        match fuel with
        | O => lift NoFuel
        | S fuel' =>
            _ ← skipFlush h;
            v ← load_half h;
            if h_closed v then mret (true, true) else flush_old fuel' h t true
        end
      else mret (flushed, false)
  | None => mret (flushed, false)
  end.

Definition flushClose (h : half_ref) (t tc : time) : M world (bool * bool) :=
  v ← load_half h;
  if h_closed v then mret (false, false)
  else
    w ← get;
    r ← flush_old (page_fuel w) h t false;
    let '(flushed, closed) := (r : bool * bool) in
    if closed then mret (true, true)
    else
      w ← get;
      let v := half_at w h in
      if negb (h_closed v) && bool_decide (h_first v = None)
         && Before (c_lastSeen (conn_at w h.1)) tc
      then _ ← closeHalfConnection h; mret (flushed, true)
      else mret (flushed, false).

Fixpoint flush_loop (opt : FlushOptions) (conns : list loc) (flushes closes : Z) : M world (Z * Z) :=
  match conns with
  | [] => mret (flushes, closes)
  | c :: conns' =>
      r1 ← flushClose (c, true) (fo_T opt) (fo_TC opt);
      r2 ← flushClose (c, false) (fo_T opt) (fo_TC opt);
      let '(flushed1, closed1) := (r1 : bool * bool) in
      let '(flushed2, closed2) := (r2 : bool * bool) in
      v ← load_conn c;
      _ ← (if h_closed (s2c v) && h_closed (c2s v) && Before (h_lastSeen (s2c v)) (fo_TC opt)
              && Before (h_lastSeen (c2s v)) (fo_TC opt)
           then remove c else mret tt);
      flush_loop opt conns' (flushes + b2z flushed1 + b2z flushed2) (closes + b2z closed1 + b2z closed2)
  end.

Definition FlushWithOptions (opt : FlushOptions) : M world (Z * Z) :=
  conns ← gets connections;
  flush_loop opt conns 0 0.

Definition FlushCloseOlderThan (t : time) : M world (Z * Z) :=
  FlushWithOptions (mkFlushOptions t t).

Fixpoint flush_until_closed (fuel : nat) (h : half_ref) : M world unit :=
  v ← load_half h;
  if h_closed v then mret tt
  else
    match fuel with
    | O => lift NoFuel
    | S fuel' => _ ← skipFlush h; flush_until_closed fuel' h
    end.

Definition flush_half (h : half_ref) : M world unit :=
  w ← get;
  _ ← flush_until_closed (page_fuel w) h;
  v ← load_half h;
  if negb (h_closed v) then closeHalfConnection h else mret tt.

Fixpoint flush_all_loop (conns : list loc) : M world unit :=
  match conns with
  | [] => mret tt
  | c :: conns' =>
      _ ← flush_half (c, true);
      _ ← flush_half (c, false);
      flush_all_loop conns'
  end.

Definition FlushAll : M world Z :=
  conns ← gets connections;
  _ ← flush_all_loop conns;
  mret (len conns).
End assembler.
