(* ===== verification/ReassemblyQueue.v ===== *)
(** * The queue of a half-connection, as a list

    [overlap] is the loop of [checkOverlap] on a list of pages instead of linked
    ones ([ReassemblyHeap] proves that the loop computes it). The file proves
    what the loop is for: as long as the sequence numbers in sight do not wrap,
    the queue stays ordered and free of overlaps, and it holds at each position
    the byte of the packet if the packet covers it, else the byte that it held
    before. *)

From S2P Require Import Prelude TcpCheck Capture Reassembly.

(** A page without its links. *)
Record qpage : Type := mkQ {
  q_bytes : bytes;
  q_cap : Z;
  q_seq : Sequence;
  q_ac : option AssemblerContext;
  q_seen : time;
  q_start : bool;
  q_end : bool;
}.

Definition unlinked (p : page) : qpage :=
  mkQ (p_bytes p) (p_cap p) (p_seq p) (p_ac p) (p_seen p) (p_start p) (p_end p).

Definition q_data (b : bytes) (cap : Z) (s : Sequence) (q : qpage) : qpage :=
  mkQ b cap s (q_ac q) (q_seen q) (q_start q) (q_end q).

Definition q_after (q : qpage) : Sequence := Add (q_seq q) (len (q_bytes q)).

(** The pages before the packet in reverse, those after it, what is left of the
    packet, and the pages that went. *)
Definition overlapped : Type := list qpage * list qpage * bytes * list qpage.

Fixpoint overlap (start end_ : Sequence) (bs : bytes) (rq acc gone : list qpage) : overlapped :=
  match rq with
  | [] => ([], acc, bs, gone)
  | cur :: rq' =>
      if Difference end_ (q_seq cur) >? 0 then overlap start end_ bs rq' (cur :: acc) gone
      else if Difference start (q_after cur) <=? 0 then (rq, acc, bs, gone)
      else
        let diffStart := Difference start (q_seq cur) in
        let diffEnd := Difference end_ (q_after cur) in
        if (diffEnd <=? 0) && (diffStart >=? 0) then overlap start end_ bs rq' acc (cur :: gone)
        else if (diffEnd <? 0) && (Difference start (q_after cur) >? 0) then
          (q_data (take (Z.to_nat (- diffStart)) (q_bytes cur)) (q_cap cur) (q_seq cur) cur :: rq', acc, bs, gone)
        else if (diffStart >? 0) && (Difference end_ (q_seq cur) <? 0) then
          let n := - Difference end_ (q_seq cur) in
          overlap start end_ bs rq'
            (q_data (drop (Z.to_nat n) (q_bytes cur)) (q_cap cur - n) (Add (q_seq cur) n) cur :: acc) gone
        else if (diffEnd >=? 0) && (diffStart <=? 0) then
          let n := Z.to_nat (- diffStart) in
          overlap start end_ [] rq'
            (q_data (take n (q_bytes cur) ++ bs ++ drop (n + length bs) (q_bytes cur)) (q_cap cur)
               (q_seq cur) cur :: acc) gone
        else overlap start end_ bs rq' (cur :: acc) gone
  end.

(** The packet against the queue [q], as [checkOverlap] starts. *)
Definition overlap_queue (start : Sequence) (bs : bytes) (q : list qpage) : overlapped :=
  overlap start (Add start (len bs)) bs (reverse q) [] [].

(** ** Positions *)

(** The byte that data at [seq] has at position [x]. *)
Definition byte_at (seq : Z) (bs : bytes) (x : Z) : option Z :=
  if seq <=? x then bs !! Z.to_nat (x - seq) else None.

(** The byte that a queue has at position [x]. *)
Fixpoint queue_at (q : list qpage) (x : Z) : option Z :=
  match q with
  | [] => None
  | p :: q' => match byte_at (q_seq p) (q_bytes p) x with Some b => Some b | None => queue_at q' x end
  end.

(** From [lo] to [hi], in order, without overlaps and without empty pages. *)
Fixpoint ordered (lo : Z) (q : list qpage) (hi : Z) : Prop :=
  match q with
  | [] => lo <= hi
  | p :: q' => lo <= q_seq p ∧ q_bytes p ≠ [] ∧ ordered (q_seq p + len (q_bytes p)) q' hi
  end.

Lemma byte_at_Some seq bs x b : byte_at seq bs x = Some b → seq <= x < seq + len bs.
Proof.
  unfold byte_at, len. destruct (Z.leb_spec seq x); [|done]. intros Hb%lookup_lt_Some. lia.
Qed.
Lemma byte_at_None seq bs x : byte_at seq bs x = None ↔ ¬ (seq <= x < seq + len bs).
Proof.
  unfold byte_at, len. destruct (Z.leb_spec seq x); [|naive_solver lia].
  rewrite lookup_ge_None. lia.
Qed.
Lemma byte_at_nil seq x : byte_at seq [] x = None.
Proof. unfold byte_at. by case_match. Qed.

Lemma byte_at_app seq b1 b2 x :
  byte_at seq (b1 ++ b2) x = match byte_at seq b1 x with
                             | Some b => Some b
                             | None => byte_at (seq + len b1) b2 x end.
Proof.
  unfold byte_at, len. destruct (Z.leb_spec seq x), (Z.leb_spec (seq + Z.of_nat (length b1)) x); try lia.
  - rewrite lookup_app. case_match; [done|]. f_equal. lia.
  - rewrite lookup_app_l by lia. by case_match.
  - done.
Qed.

Lemma byte_at_split seq bs n x : (n <= length bs)%nat →
  byte_at seq bs x = match byte_at seq (take n bs) x with
                     | Some b => Some b
                     | None => byte_at (seq + Z.of_nat n) (drop n bs) x end.
Proof.
  intros Hn. rewrite <-(take_drop n bs) at 1. rewrite byte_at_app. unfold len.
  by rewrite length_take, Nat.min_l.
Qed.

Lemma queue_at_app q1 q2 x :
  queue_at (q1 ++ q2) x = match queue_at q1 x with Some b => Some b | None => queue_at q2 x end.
Proof. induction q1 as [|p q1 IH]; [done|]. cbn [app queue_at]. by destruct (byte_at _ _ x). Qed.

Lemma ordered_le q : ∀ lo hi, ordered lo q hi → lo <= hi.
Proof.
  induction q as [|p q IH]; intros lo hi; [done|]. intros (H1 & _ & H2%IH).
  pose proof (len_nonneg (q_bytes p)). lia.
Qed.

Lemma ordered_app q1 q2 : ∀ lo hi,
  ordered lo (q1 ++ q2) hi ↔ ∃ m, ordered lo q1 m ∧ ordered m q2 hi.
Proof.
  induction q1 as [|p q1 IH]; intros lo hi; cbn.
  - split; [intros H; by exists lo|]. intros (m & H1 & H2). destruct q2; cbn in *; [lia|].
    destruct H2 as (? & ? & ?). split_and!; [lia|done..].
  - rewrite IH. naive_solver.
Qed.

Lemma ordered_lo lo lo' q hi : lo' <= lo → ordered lo q hi → ordered lo' q hi.
Proof. destruct q; cbn; [lia|]. intros ? (? & ? & ?). split_and!; [lia|done..]. Qed.
Lemma ordered_hi q : ∀ lo hi hi', hi <= hi' → ordered lo q hi → ordered lo q hi'.
Proof. induction q as [|p q IH]; cbn; intros lo hi hi' ?; [lia|]. naive_solver. Qed.

Lemma queue_at_range q : ∀ lo hi x b, ordered lo q hi → queue_at q x = Some b → lo <= x < hi.
Proof.
  induction q as [|p q IH]; intros lo hi x b; [done|]. cbn. intros (H1 & H2 & H3).
  pose proof (ordered_le _ _ _ H3). pose proof (len_nonneg (q_bytes p)). case_match eqn:E.
  - intros [= ->]. apply byte_at_Some in E. lia.
  - intros Hq. eapply IH in Hq; [|done]. lia.
Qed.

Lemma queue_at_out lo q hi x : ordered lo q hi → ¬ (lo <= x < hi) → queue_at q x = None.
Proof.
  intros Ho Hx. destruct (queue_at q x) eqn:E; [|done]. by eapply queue_at_range in E.
Qed.

(** ** Sequence numbers that do not wrap *)

(** The positions from [lo] to [hi] fit in a quarter of the sequence space. *)
Definition window (lo hi : Z) : Prop := 0 <= lo ∧ hi <= uint32Max ∧ hi - lo < 2 ^ 30.

Lemma Difference_window lo hi s t : window lo hi → lo <= s <= hi → lo <= t <= hi →
  Difference s t = t - s.
Proof.
  intros (H1 & H2 & H3) Hs Ht. unfold Difference, uint32Max in *.
  change (Z.quot 4294967295 4) with 1073741823.
  rewrite (proj2 (andb_false_iff _ _)), (proj2 (andb_false_iff _ _)); lia.
Qed.

Lemma Add_window lo hi s n : window lo hi → lo <= s → lo <= s + n <= hi → Add s n = s + n.
Proof.
  intros (H1 & H2 & H3) Hs Hn. unfold Add, uint32Max in *.
  change 0xFFFFFFFF with (Z.ones 32). rewrite Z.land_ones by lia. apply Z.mod_small. lia.
Qed.

(** ** The packet wins *)

Lemma split_byte (start : Z) (bs : bytes) (p : qpage) (x : Z) (v : option Z) :
  match byte_at start bs x with
  | Some b => Some b
  | None => match byte_at (q_seq p) (q_bytes p) x with Some b => Some b | None => v end
  end = match byte_at (q_seq p) (q_bytes p) x with
        | Some b => Some (default b (byte_at start bs x))
        | None => match byte_at start bs x with Some b => Some b | None => v end
        end.
Proof. by destruct (byte_at start bs x), (byte_at (q_seq p) (q_bytes p) x). Qed.

(** The pages [new] hold the data [bs] at [start]. *)
Definition holds (start : Z) (bs : bytes) (new : list qpage) : Prop :=
  ordered start new (start + len bs) ∧ (∀ x, queue_at new x = byte_at start bs x) ∧ (bs = [] → new = []).

Lemma overlap_done start end_ rq acc gone lo hi m : window lo hi → lo <= start <= hi →
  lo <= end_ <= hi → m <= start → m <= end_ → ordered lo (reverse rq) m →
  overlap start end_ [] rq acc gone = (rq, acc, [], gone).
Proof.
  intros Hw Hs He Hm Hme Ho. destruct rq as [|cur rq]; [done|]. rewrite reverse_cons, ordered_app in Ho.
  destruct Ho as (m' & Ho & H1 & H2 & H3). cbn in H3. apply ordered_le in Ho.
  pose proof (len_nonneg (q_bytes cur)).
  cbn [overlap]. unfold q_after. rewrite (Add_window lo hi) by (done || lia).
  rewrite !(Difference_window lo hi) by (done || lia).
  destruct (Z.gtb_spec (q_seq cur - end_) 0); [lia|].
  by destruct (Z.leb_spec (q_seq cur + len (q_bytes cur) - start) 0); [|lia].
Qed.

(** The page [p] has position [x]. *)
Definition covers (x : Z) (p : qpage) : Prop := q_seq p <= x < q_seq p + len (q_bytes p).

Section packet_wins.
Variables (lo hi start : Z) (bs0 : bytes).
Hypothesis Hw : window lo hi.
Hypothesis Hlo : lo <= start.
Hypothesis Hhi : start + len bs0 <= hi.
Let end_ := start + len bs0.

(** What the loop promises when it starts at [rq], [acc]. *)
Definition wins (rq acc : list qpage) (r : overlapped) : Prop :=
  let '(before, after, bs', _) := r in
  (bs' = bs0 ∨ bs' = [] ∧ Exists (covers start) rq) ∧
  ∀ new, holds start bs' new →
    ordered lo (reverse before ++ new ++ after) hi ∧
    ∀ x, queue_at (reverse before ++ new ++ after) x =
         match byte_at start bs0 x with Some b => Some b | None => queue_at (reverse rq ++ acc) x end.

Lemma wins_same cur rq acc acc' r :
  (∀ x, byte_at start bs0 x = None → queue_at (reverse rq ++ acc') x = queue_at (reverse (cur :: rq) ++ acc) x) →
  wins rq acc' r → wins (cur :: rq) acc r.
Proof.
  destruct r as [[[before after] bs'] gone]. intros Hq [H1 H2]. split.
  { destruct H1 as [?|[? ?]]; [by left|right]. split; [done|by right]. }
  intros new Hn. destruct (H2 new Hn) as [H3 H4]. split; [done|]. intros x. rewrite H4.
  destruct (byte_at start bs0 x) eqn:E; [done|]. by apply Hq.
Qed.

Lemma wins_stop before rq acc gone m : ordered lo (reverse before) m → m <= start →
  ordered end_ acc hi →
  (∀ x, byte_at start bs0 x = None → queue_at (reverse before ++ acc) x = queue_at (reverse rq ++ acc) x) →
  wins rq acc (before, acc, bs0, gone).
Proof.
  intros Hb Hm Ha Hq. split; [by left|]. intros new (Ho & Hn & _). split.
  - apply ordered_app. exists m. split; [done|]. apply ordered_app. exists end_.
    split; [by eapply ordered_lo|done].
  - intros x. specialize (Hq x). rewrite queue_at_app in Hq. rewrite !(queue_at_app (reverse before)).
    rewrite queue_at_app, Hn. destruct (byte_at start bs0 x) eqn:E; [|by apply Hq].
    rewrite (queue_at_out lo (reverse before) m); [done..|]. apply byte_at_Some in E. lia.
Qed.

(** Case 6: the packet goes into the page [cur]. *)
Lemma wins_inside cur rq acc gone m n : ordered lo (reverse rq) m → m <= q_seq cur →
  ordered (q_seq cur + len (q_bytes cur)) acc hi → q_bytes cur ≠ [] →
  start = q_seq cur + Z.of_nat n → end_ <= q_seq cur + len (q_bytes cur) →
  start < q_seq cur + len (q_bytes cur) → wins (cur :: rq) acc
    (rq, q_data (take n (q_bytes cur) ++ bs0 ++ drop (n + length bs0) (q_bytes cur)) (q_cap cur)
       (q_seq cur) cur :: acc, [], gone).
Proof.
  intros Ho Hm Ha Hne Hn He Hs. split; [right; split; [done|left; unfold covers; lia]|]. intros new (_ & _ & ->); [|done].
  set (bs := take _ _ ++ _ ++ _).
  assert (length bs = length (q_bytes cur)) as Hl.
  { subst bs. subst end_. unfold len in *. rewrite !length_app, length_take, length_drop. lia. }
  assert (len bs = len (q_bytes cur)) as Hl' by (unfold len; lia). split.
  - apply ordered_app. exists m. split; [done|]. cbn. rewrite Hl'. split_and!; try done.
    intros E. rewrite E in Hl. by destruct (q_bytes cur).
  - intros x. rewrite reverse_cons, <-app_assoc, !queue_at_app. cbn.
    destruct (queue_at (reverse rq) x) eqn:E.
    { eapply queue_at_range in E; [|done].
      rewrite (proj2 (byte_at_None start bs0 x)); [done|lia]. }
    assert (byte_at (q_seq cur) bs x = match byte_at start bs0 x with Some b => Some b
             | None => byte_at (q_seq cur) (q_bytes cur) x end) as ->.
    2: by destruct (byte_at start bs0 x), (byte_at (q_seq cur) (q_bytes cur) x).
    subst bs end_. unfold byte_at, len in *. subst start.
    destruct (Z.leb_spec (q_seq cur) x), (Z.leb_spec (q_seq cur + Z.of_nat n) x); try lia; try done.
    + set (i := Z.to_nat (x - q_seq cur)).
      replace (Z.to_nat (x - (q_seq cur + Z.of_nat n))) with (i - n)%nat by (subst i; lia).
      rewrite lookup_app_r by (rewrite length_take; subst i; lia). rewrite length_take, Nat.min_l by lia.
      destruct (bs0 !! (i - n)%nat) eqn:E2.
      * by apply lookup_app_l_Some.
      * apply lookup_ge_None in E2. rewrite lookup_app_r, lookup_drop by done. f_equal. subst i. lia.
    + rewrite lookup_app_l by (rewrite length_take; lia). rewrite lookup_take. case_decide; [done|lia].
Qed.

(** Case 3: the packet covers the page [cur]. *)
Lemma wins_covered cur rq acc r : start <= q_seq cur → q_seq cur + len (q_bytes cur) <= end_ →
  wins rq acc r → wins (cur :: rq) acc r.
Proof.
  intros Hs He. apply wins_same. intros x Hx%byte_at_None.
  rewrite reverse_cons, <-app_assoc, !queue_at_app. cbn.
  rewrite (proj2 (byte_at_None (q_seq cur) (q_bytes cur) x)); [done|]. subst end_. lia.
Qed.

(** Case 2: the packet takes the end of the page [cur]. *)
Lemma wins_tail cur rq acc gone m n : ordered lo (reverse rq) m → m <= q_seq cur →
  ordered end_ acc hi → 0 < n → start = q_seq cur + n →
  start <= q_seq cur + len (q_bytes cur) <= end_ →
  wins (cur :: rq) acc (q_data (take (Z.to_nat n) (q_bytes cur)) (q_cap cur) (q_seq cur) cur :: rq, acc, bs0, gone).
Proof.
  intros Ho Hm Ha Hn Hs He.
  assert (len (take (Z.to_nat n) (q_bytes cur)) = n) as Hl by (unfold len in *; rewrite length_take; lia).
  apply (wins_stop _ _ _ _ start); [|lia|done|].
  - rewrite reverse_cons. apply ordered_app. exists m. split; [done|]. cbn. rewrite Hl.
    split_and!; [done| |lia]. apply len_pos. lia.
  - intros x Hx%byte_at_None. rewrite !reverse_cons, <-!app_assoc, !queue_at_app. cbn.
    rewrite (byte_at_split (q_seq cur) (q_bytes cur) (Z.to_nat n) x) by (unfold len in *; lia).
    rewrite (proj2 (byte_at_None (q_seq cur + Z.of_nat (Z.to_nat n)) _ x)); [by repeat case_match|].
    unfold len. rewrite length_drop. unfold len in *. subst end_. lia.
Qed.

(** Case 4: the packet takes the start of the page [cur]. *)
Lemma wins_head cur rq acc r n cap : 0 < n <= len (q_bytes cur) → end_ = q_seq cur + n → start <= q_seq cur →
  wins rq (q_data (drop (Z.to_nat n) (q_bytes cur)) cap end_ cur :: acc) r → wins (cur :: rq) acc r.
Proof.
  intros Hn He Hs. apply wins_same. intros x Hx%byte_at_None.
  rewrite !reverse_cons, <-!app_assoc, !queue_at_app. cbn.
  rewrite (byte_at_split (q_seq cur) (q_bytes cur) (Z.to_nat n) x) by (unfold len in *; lia).
  replace (q_seq cur + Z.of_nat (Z.to_nat n)) with end_ by lia.
  rewrite (proj2 (byte_at_None (q_seq cur) (take (Z.to_nat n) _) x)); [by repeat case_match|].
  unfold len. rewrite length_take. unfold len in *. subst end_. lia.
Qed.

Lemma overlap_wins rq : ∀ acc gone m, ordered lo (reverse rq) m → ordered (Z.max m end_) acc hi →
  wins rq acc (overlap start end_ bs0 rq acc gone).
Proof.
  induction rq as [|cur rq IH]; intros acc gone m Hr Ha; cbn [overlap].
  - apply (wins_stop [] [] acc gone lo); [cbn; lia|lia| |done].
    eapply ordered_lo, Ha. lia.
  - rewrite reverse_cons, ordered_app in Hr. destruct Hr as (m' & Hr & H1 & H2 & H3). cbn in H3.
    pose proof (ordered_le _ _ _ Hr) as Hm'. pose proof (ordered_le _ _ _ Ha) as Hm.
    pose proof (proj2 (len_pos (q_bytes cur)) H2) as Hpos. pose proof (len_nonneg bs0).
    assert (ordered m acc hi) as Ha1 by (eapply ordered_lo, Ha; lia).
    assert (ordered end_ acc hi) as Ha2 by (eapply ordered_lo, Ha; lia).
    unfold q_after. rewrite (Add_window lo hi) by (done || lia).
    rewrite !(Difference_window lo hi) by (done || lia).
    set (e := q_seq cur + len (q_bytes cur)) in *.
    assert (end_ <= q_seq cur → wins (cur :: rq) acc (overlap start end_ bs0 rq (cur :: acc) gone)) as Hbefore.
    { intros He. apply (wins_same _ rq acc (cur :: acc)). { intros x _. by rewrite reverse_cons, <-app_assoc. }
      apply (IH _ _ m'); [done|]. cbn. split_and!; [lia|done|]. eapply ordered_lo, Ha. lia. }
    destruct (Z.gtb_spec (q_seq cur - end_) 0); [apply Hbefore; lia|].
    destruct (Z.leb_spec (e - start) 0).
    { apply (wins_stop _ _ _ _ e); [|lia|done|done]. rewrite reverse_cons. apply ordered_app.
      exists m'. split; [done|]. cbn. split_and!; [done|done|]. subst e. lia. }
    destruct ((e - end_ <=? 0) && (q_seq cur - start >=? 0)) eqn:E3.
    { apply wins_covered; [lia|subst e; lia|]. apply (IH _ _ m'); [done|]. eapply ordered_lo, Ha. lia. }
    destruct ((e - end_ <? 0) && (e - start >? 0)) eqn:E2.
    { eapply wins_tail; [done|lia|done|lia|lia|subst e; lia]. }
    destruct ((q_seq cur - start >? 0) && (q_seq cur - end_ <? 0)) eqn:E4.
    { rewrite (Add_window lo hi) by (done || lia).
      set (n := - (q_seq cur - end_)). replace (q_seq cur + n) with end_ by (subst n; lia).
      assert (len (drop (Z.to_nat n) (q_bytes cur)) = e - end_) as Hl.
      { unfold len in *. rewrite length_drop. subst n e. lia. }
      apply (wins_head _ _ _ _ n (q_cap cur - n)); [subst n e; lia|subst n; lia|lia|].
      apply (IH _ _ m'); [done|]. cbn. rewrite Hl. split_and!; [lia| |].
      - apply len_pos. lia.
      - replace (end_ + (e - end_)) with e by lia. eapply ordered_lo, Ha. lia. }
    destruct ((e - end_ >=? 0) && (q_seq cur - start <=? 0)) eqn:E6; [|apply Hbefore; lia].
    rewrite (overlap_done _ _ _ _ _ lo hi m') by (done || lia).
    eapply wins_inside; [done|lia| |done| |lia|lia].
    + eapply ordered_lo, Ha. lia.
    + lia.
Qed.
End packet_wins.
