(* ===== verification/ReassemblyHeap.v ===== *)
(** * The linked pages of the assembler implement its queues

    The pages of a half-connection form a doubly-linked list in the store, the
    pages that were put back are in the pool, and no page is in two places. The
    file proves that the operations on pages ([convertToPages], [checkOverlap])
    keep that, whatever page the pool hands out, and that the loop of
    [checkOverlap] computes [ReassemblyQueue.overlap]. *)

From S2P Require Import Prelude Flows BaseLayers Tcp TcpCheck Capture Links Reassembly ReassemblyQueue.

(** Linking and moving data does not mark a page as the end of its stream. *)
Ltac endless :=
  first [done | let H := fresh in intros [_ H]; cbn; apply H
        | let H := fresh in intros _ [_ H]; cbn; apply H].

Section heap.
Context `{Env : Environment}.
Implicit Types (w : world) (h : half_ref) (ls A B L R : list loc).

(** ** Reading back what was written *)

Definition put_page (l : loc) (p : page) (w : world) : world := set_mem (<[l := p]> (mem w)) w.
Definition put_half (h : half_ref) (v : halfconnection) (w : world) : world :=
  set_objs (<[h.1 := set_half h.2 v (conn_at w h.1)]> (objs w)) w.

Lemma page_at_put w l p l' : page_at (put_page l p w) l' = if decide (l = l') then p else page_at w l'.
Proof.
  unfold page_at, put_page. cbn. case_decide as H; [subst; by rewrite lookup_insert_eq|].
  by rewrite lookup_insert_ne.
Qed.
Lemma page_at_put_eq w l p : page_at (put_page l p w) l = p.
Proof. rewrite page_at_put. by rewrite decide_True. Qed.
Lemma page_at_put_ne w l p l' : l ≠ l' → page_at (put_page l p w) l' = page_at w l'.
Proof. intros. rewrite page_at_put. by rewrite decide_False. Qed.

Lemma half_of_set b v c : half_of b (set_half b v c) = v.
Proof. by destruct b. Qed.
Lemma half_of_set_ne b b' v c : b ≠ b' → half_of b' (set_half b v c) = half_of b' c.
Proof. by destruct b, b'. Qed.
Lemma conn_put w h v c : conn_at (put_half h v w) c =
  if decide (h.1 = c) then set_half h.2 v (conn_at w h.1) else conn_at w c.
Proof.
  unfold conn_at, put_half. cbn. case_decide as H; [subst; by rewrite lookup_insert_eq|].
  by rewrite lookup_insert_ne.
Qed.
Lemma half_put_eq w h v : half_at (put_half h v w) h = v.
Proof. unfold half_at. rewrite conn_put, decide_True by done. apply half_of_set. Qed.
Lemma half_put_ne w h v h' : h ≠ h' → half_at (put_half h v w) h' = half_at w h'.
Proof.
  intros Hh. unfold half_at. rewrite conn_put. case_decide as H; [|done].
  rewrite half_of_set_ne; [by rewrite H|]. destruct h, h'; cbn in *. congruence.
Qed.
Lemma key_put w h v c : c_key (conn_at (put_half h v w) c) = c_key (conn_at w c).
Proof. rewrite conn_put. case_decide as H; [subst|done]. by destruct (h.2). Qed.

Lemma update_page_eq l f w : update_page l f w = (Ok tt, put_page l (f (page_at w l)) w).
Proof. reflexivity. Qed.
Lemma update_half_eq h f w : update_half h f w = (Ok tt, put_half h (f (half_at w h)) w).
Proof. reflexivity. Qed.

(** ** What an operation leaves alone *)

(** Everything but the pages outside [R], the half [h], and the page cache. *)
Record frame w w' h R : Prop := mkFrame {
  fr_options : options w' = options w;
  fr_pool : pool w' = pool w;
  fr_streams : streams w' = streams w;
  fr_pages : ∀ l, l ∈ R → page_at w' l = page_at w l;
  fr_half : ∀ h', h ≠ h' → half_at w' h' = half_at w h';
  fr_key : ∀ c, c_key (conn_at w' c) = c_key (conn_at w c);
}.

(** The variables of the assembler, and what the streams were told. *)
Record quiet w w' : Prop := mkQuiet {
  qt_ret : ret w' = ret w;
  qt_LP : cacheLP w' = cacheLP w;
  qt_SG : cacheSG w' = cacheSG w;
  qt_start : a_start w' = a_start w;
  qt_trace : trace w' = trace w;
}.

(** No page, and not the packet at hand, is marked as the end of its stream. *)
Definition endless w : Prop := lp_end (cacheLP w) = false ∧ ∀ l, p_end (page_at w l) = false.

(** The part of a half that the operations on its queue do not write. *)
Definition core (v : halfconnection) :=
  (h_dir v, h_saved v, h_nextSeq v, h_ackSeq v, (h_created v, h_lastSeen v), h_stream v, h_closed v).

Lemma frame_reflexive w h R : frame w w h R.
Proof. done. Qed.
Lemma frame_transitive w1 w2 w3 h R : frame w1 w2 h R → frame w2 w3 h R → frame w1 w3 h R.
Proof.
  intros [A1 A2 A3 A4 A5 A6] [B1 B2 B3 B4 B5 B6].
  split; try congruence; intros x Hx; [by rewrite B4, A4|by rewrite B5, A5].
Qed.
Lemma frame_subset w w' h R R' : (∀ l, l ∈ R → l ∈ R') → frame w w' h R' → frame w w' h R.
Proof. intros Hs []. split; auto. Qed.
Lemma quiet_refl w : quiet w w.
Proof. done. Qed.
Lemma quiet_trans w1 w2 w3 : quiet w1 w2 → quiet w2 w3 → quiet w1 w3.
Proof. intros [] []. split; congruence. Qed.

Lemma frame_put_page w h R l p : l ∉ R → frame w (put_page l p w) h R.
Proof. intros Hl. split; try done. intros l' Hl'. apply page_at_put_ne. congruence. Qed.
Lemma frame_put_half w h R v : frame w (put_half h v w) h R.
Proof. split; try done; [intros h' Hh; by apply half_put_ne|intros c; apply key_put]. Qed.
Lemma quiet_put_page w l p : quiet w (put_page l p w).
Proof. done. Qed.
Lemma quiet_put_half w h v : quiet w (put_half h v w).
Proof. done. Qed.

(** ** Lists of pages *)

Definition content w ls : list qpage := (fun l => unlinked (page_at w l)) <$> ls.

Abbreviation seg w := (linked (fun l => p_prev (page_at w l)) (fun l => p_next (page_at w l))).

Lemma links_ext w w' ls prev next :
  (∀ l, l ∈ ls → page_at w' l = page_at w l) → seg w prev ls next → seg w' prev ls next.
Proof. intros H. apply linked_ext. intros l Hl. by rewrite H. Qed.
Lemma contents_ext w w' ls :
  (∀ l, l ∈ ls → page_at w' l = page_at w l) → content w' ls = content w ls.
Proof. intros H. apply list_fmap_ext. intros i l Hl. rewrite H; [done|]. by eapply list_elem_of_lookup_2. Qed.
Lemma contents_app w l1 l2 : content w (l1 ++ l2) = content w l1 ++ content w l2.
Proof. apply fmap_app. Qed.
Lemma content_reverse w ls : content w (reverse ls) = reverse (content w ls).
Proof. apply fmap_reverse. Qed.

(** Two lists that are linked to each other, from [w] to [w']. *)
Definition joined w w' A B : Prop := ∀ l,
  unlinked (page_at w' l) = unlinked (page_at w l) ∧
  p_next (page_at w' l) = (if decide (last A = Some l) then head B else p_next (page_at w l)) ∧
  p_prev (page_at w' l) = (if decide (head B = Some l) then last A else p_prev (page_at w l)).

Lemma joined_content w w' A B ls : joined w w' A B → content w' ls = content w ls.
Proof. intros HJ. apply list_fmap_ext. intros i l _. apply HJ. Qed.

Lemma head_hd_or ls o : head ls = hd_or ls (match ls with [] => None | _ => o end).
Proof. by destruct ls. Qed.

Lemma joined_first w w' A B y : NoDup (A ++ B) → joined w w' A B → seg w None A y →
  seg w' None A (head B).
Proof.
  intros Hnd HJ. destruct (decide (A = [])) as [->|Hne]; [done|].
  destruct (exists_last Hne) as (A' & a & ->). intros HA.
  apply NoDup_app in Hnd as (Hnd & Hd & _). apply NoDup_app in Hnd as (_ & Ha & _).
  apply linked_app in HA as [HA (H1 & H2 & _)]. apply linked_app. cbn in *.
  assert (∀ l, l ∈ A' ++ [a] → head B ≠ Some l) as HB.
  { intros l Hl Hb. apply (Hd l Hl). destruct B; [done|]. cbn in Hb. simplify_eq. left. }
  split; [eapply linked_ext, HA; intros l Hl|]; destruct (HJ a) as (_ & Hn & Hp).
  - destruct (HJ l) as (_ & -> & ->). rewrite !decide_False; [done|..].
    + rewrite last_snoc. intros [= ->]. apply (Ha l Hl). left.
    + apply HB, elem_of_app. by left.
  - assert (head B ≠ Some a) as Hb by (apply HB, elem_of_app; right; left).
    rewrite Hp, decide_False, Hn, last_snoc, decide_True by done. by destruct B.
Qed.

Lemma joined_second w w' A B x : NoDup (A ++ B) → joined w w' A B → seg w x B None →
  seg w' (last A) B None.
Proof.
  intros Hnd HJ. destruct B as [|b B]; [done|]. intros (H1 & H2 & HB). cbn.
  apply NoDup_app in Hnd as (_ & Hd & Hnd). apply NoDup_cons in Hnd as [Hb _].
  assert (∀ l, l ∈ b :: B → last A ≠ Some l) as HA.
  { intros l Hl Ha. apply (Hd l); [|done]. by apply last_Some_elem_of. }
  destruct (HJ b) as (_ & Hn & Hp). assert (last A ≠ Some b) as Hb' by (apply HA; left).
  rewrite Hp, decide_True, Hn, decide_False by done. split_and!; [done..|].
  eapply linked_ext, HB. intros l Hl. destruct (HJ l) as (_ & -> & ->).
  assert (last A ≠ Some l) by (apply HA; by right).
  rewrite !decide_False; [done|done|by intros [= ->]].
Qed.

Lemma joined_seg w w' A B x y : NoDup (A ++ B) → joined w w' A B →
  seg w None A y → seg w x B None → seg w' None (A ++ B) None.
Proof.
  intros Hnd HJ HA HB. apply linked_app. split.
  - eapply joined_first in HA; [|done..]. by destruct B.
  - eapply joined_second in HB; [|done..]. unfold last_or. by destruct (last A).
Qed.

(** ** The heap: every page is in the pool or in one place of one list *)

Record heap_ok w L : Prop := mkHeapOk {
  heap_nodup : NoDup (pc_pool (pc w) ++ L);
  heap_bound : ∀ l, l ∈ pc_pool (pc w) ++ L → (l < pc_made (pc w))%nat;
}.

Lemma heap_ok_perm w L L' : L ≡ₚ L' → heap_ok w L → heap_ok w L'.
Proof.
  intros HP [H1 H2]. split; [by rewrite <-HP|]. intros l. rewrite <-HP. apply H2.
Qed.
Lemma heap_ok_pc w w' L : pc_pool (pc w') = pc_pool (pc w) → pc_made (pc w') = pc_made (pc w) →
  heap_ok w L → heap_ok w' L.
Proof. intros E1 E2 []. split; rewrite ?E1, ?E2; done. Qed.

Lemma heap_ok_fuel w L : heap_ok w L → (length L < page_fuel w)%nat.
Proof.
  intros [H1 H2]. unfold page_fuel. apply NoDup_app in H1 as (_ & _ & H1).
  assert (length L <= length (seq 0 (pc_made (pc w))))%nat as Hl.
  { apply submseteq_length, NoDup_submseteq; [done|]. intros l Hl. apply elem_of_seq.
    assert (l < pc_made (pc w))%nat by (apply H2, elem_of_app; by right). lia. }
  rewrite length_seq in Hl. lia.
Qed.

Lemma heap_nodup_list w L : heap_ok w L → NoDup L.
Proof. intros [H _]. by apply NoDup_app in H as (_ & _ & ?). Qed.

(** ** A half-connection and the list of its pages *)

Definition ends_are (v : halfconnection) ls : Prop := h_first v = head ls ∧ h_last v = last ls.

(** The pages [ls] are the queue of [h]; the pages [R] are elsewhere. *)
Record focus w h ls R : Prop := mkFocus {
  f_seg : seg w None ls None;
  f_ends : ends_are (half_at w h) ls;
  f_heap : heap_ok w (ls ++ R);
}.

Lemma f_ends_first w h ls R : focus w h ls R → h_first (half_at w h) = head ls.
Proof. intros [_ [H _] _]. exact H. Qed.
Lemma f_ends_last w h ls R : focus w h ls R → h_last (half_at w h) = last ls.
Proof. intros [_ [_ H] _]. exact H. Qed.

(** A step that works on the queue of [h] only. *)
Record calm w w' h R : Prop := mkCalm {
  calm_frame : frame w w' h R;
  calm_quiet : quiet w w';
  calm_core : core (half_at w' h) = core (half_at w h);
  calm_endless : endless w → endless w';
}.

Lemma calm_saved w w' h R : calm w w' h R → h_saved (half_at w' h) = h_saved (half_at w h).
Proof. intros [_ _ [= ? ? ? ? ? ? ? ?] _]. congruence. Qed.
Lemma calm_nextSeq w w' h R : calm w w' h R → h_nextSeq (half_at w' h) = h_nextSeq (half_at w h).
Proof. intros [_ _ [= ? ? ? ? ? ? ? ?] _]. congruence. Qed.
Lemma calm_stream w w' h R : calm w w' h R → h_stream (half_at w' h) = h_stream (half_at w h).
Proof. intros [_ _ [= ? ? ? ? ? ? ? ?] _]. congruence. Qed.
Lemma calm_closed w w' h R : calm w w' h R → h_closed (half_at w' h) = h_closed (half_at w h).
Proof. intros [_ _ [= ? ? ? ? ? ? ? ?] _]. congruence. Qed.
Lemma calm_dir w w' h R : calm w w' h R → h_dir (half_at w' h) = h_dir (half_at w h).
Proof. intros [_ _ [= ? ? ? ? ? ? ? ?] _]. congruence. Qed.

Lemma calm_refl w h R : calm w w h R.
Proof. done. Qed.
Lemma calm_trans w1 w2 w3 h R : calm w1 w2 h R → calm w2 w3 h R → calm w1 w3 h R.
Proof. intros [] []. split; [by eapply frame_transitive|by eapply quiet_trans|congruence|auto]. Qed.
Lemma calm_put_page w h R l p : l ∉ R → (endless w → p_end p = false) → calm w (put_page l p w) h R.
Proof.
  intros Hl Hp. split; [by apply frame_put_page|done|done|]. intros He. split; [apply He|].
  intros l'. rewrite page_at_put. case_decide; [by apply Hp|apply He].
Qed.
Lemma calm_put_half w h R v : core v = core (half_at w h) → calm w (put_half h v w) h R.
Proof. intros. split; [apply frame_put_half|done|by rewrite half_put_eq|done]. Qed.


Lemma replace_page_frees w h l L R : heap_ok w (l :: L) → (∀ x, x ∈ R → x ∈ L) → ∃ w',
  replace_page l w = (Ok tt, w') ∧ heap_ok w' L ∧ calm w w' h R ∧
  (∀ x, x ≠ l → page_at w' x = page_at w x) ∧ half_at w' h = half_at w h.
Proof.
  intros [H1 H2] HR. eexists. split; [reflexivity|].
  assert (∀ x, x ∈ R → l ≠ x) as Hne.
  { intros x Hx%HR ->. apply NoDup_app in H1 as (_ & _ & H1). by apply NoDup_cons in H1 as []. }
  split.
  { split; cbn; rewrite <-app_assoc; [done|apply H2]. }
  split; [|split; [|done]].
  - split; [|done|done|].
    + split; try done. intros x Hx. unfold page_at. cbn. by rewrite lookup_insert_ne by auto.
    + intros [He1 He2]. split; [done|]. intros x. pose proof (page_at_put w l) as Hput.
      change (page_at _ x) with (page_at (put_page l (set_next None (set_prev None (page_at w l))) w) x).
      rewrite Hput. case_decide; apply He2.
  - intros x Hx. unfold page_at. cbn. by rewrite lookup_insert_ne.
Qed.

(** ** Linking two lists *)

Lemma joined_both w A B a b : last A = Some a → head B = Some b → a ≠ b →
  let w1 := put_page a (set_next (Some b) (page_at w a)) w in
  joined w (put_page b (set_prev (Some a) (page_at w1 b)) w1) A B.
Proof.
  intros HA HB Hab w1 l. subst w1. rewrite !page_at_put, HA, HB.
  repeat case_decide; simplify_eq; done.
Qed.
Lemma joined_left w A a : last A = Some a →
  joined w (put_page a (set_next None (page_at w a)) w) A [].
Proof. intros HA l. rewrite page_at_put, HA. repeat case_decide; simplify_eq; done. Qed.
Lemma joined_right w B b : head B = Some b →
  joined w (put_page b (set_prev None (page_at w b)) w) [] B.
Proof. intros HB l. rewrite page_at_put, HB. repeat case_decide; simplify_eq; done. Qed.
Lemma joined_nil w : joined w w [] [].
Proof. intros l. by rewrite !decide_False. Qed.

(** The links of [drop_page]. *)
Definition relink h (a b : option loc) w : world :=
  let w1 := match a with
            | Some x => put_page x (set_next b (page_at w x)) w
            | None => put_half h (set_h_first b (half_at w h)) w
            end in
  match b with
  | Some y => put_page y (set_prev a (page_at w1 y)) w1
  | None => put_half h (set_h_last a (half_at w1 h)) w1
  end.

Lemma relink_joined w h A B : NoDup (A ++ B) → joined w (relink h (last A) (head B) w) A B.
Proof.
  intros Hnd. unfold relink. destruct (last A) as [a|] eqn:HA, (head B) as [b|] eqn:HB.
  - apply joined_both; [done..|]. intros ->. apply NoDup_app in Hnd as (_ & Hd & _).
    apply (Hd b); [by apply last_Some_elem_of|]. destruct B; [done|]. cbn in HB. simplify_eq. left.
  - destruct B; [|done]. by apply joined_left.
  - apply last_None in HA as ->. intros l. exact (joined_right w B b HB l).
  - apply last_None in HA as ->. destruct B; [|done]. intros l. exact (joined_nil w l).
Qed.

Lemma relink_calm w h A B R : (∀ l, l ∈ R → l ∉ A ++ B) → calm w (relink h (last A) (head B) w) h R.
Proof.
  intros HR. unfold relink.
  assert (∀ a, last A = Some a → a ∉ R) as HA.
  { intros a Ha Hin. apply (HR a Hin), elem_of_app. left. by apply last_Some_elem_of. }
  assert (∀ b, head B = Some b → b ∉ R) as HB.
  { intros b Hb Hin. apply (HR b Hin), elem_of_app. right. destruct B; [done|]. cbn in Hb. simplify_eq. left. }
  set (w1 := match last A with Some x => _ | None => _ end).
  assert (calm w w1 h R) as H1.
  { subst w1. destruct (last A); [apply calm_put_page; [by apply HA|endless]|by apply calm_put_half]. }
  eapply calm_trans; [exact H1|]. destruct (head B); [apply calm_put_page; [by apply HB|endless]|by apply calm_put_half].
Qed.

Lemma last_skip (A : list loc) l b B : last (A ++ l :: b :: B) = last (A ++ b :: B).
Proof. rewrite !last_app, !last_cons. by destruct (last B). Qed.

Lemma relink_ends w h A l B : ends_are (half_at w h) (A ++ l :: B) →
  ends_are (half_at (relink h (last A) (head B) w) h) (A ++ B).
Proof.
  intros [H1 H2]. unfold relink, ends_are.
  assert (∀ b B', B = b :: B' → h_last (half_at w h) = last (A ++ B)) as Hb.
  { intros b B' ->. by rewrite H2, last_skip. }
  destruct (last A) as [a|] eqn:HA.
  - assert (head (A ++ B) = h_first (half_at w h)) as -> by (rewrite H1; by destruct A).
    destruct B as [|b B]; cbn [head].
    + rewrite half_put_eq, app_nil_r. by split.
    + split; [done|by eapply Hb].
  - apply last_None in HA as ->. destruct B as [|b B]; cbn [head app].
    + rewrite !half_put_eq. by split.
    + change (half_at (put_page b ?p ?w') h) with (half_at w' h). rewrite half_put_eq.
      split; [done|]. by eapply (Hb b B).
Qed.

(** ** The loop of [checkOverlap] *)

Lemma seg_links w prev A l B next : seg w prev (A ++ l :: B) next →
  p_prev (page_at w l) = last_or prev A ∧ p_next (page_at w l) = hd_or B next.
Proof. rewrite linked_app. cbn. tauto. Qed.

Lemma last_or_None ls : last_or None ls = last ls.
Proof. unfold last_or. by destruct (last ls). Qed.
Lemma hd_or_None ls : hd_or ls None = head ls.
Proof. by destruct ls. Qed.

Lemma relink_run {X} w h l a b (k : page → M world X) : a ≠ Some l → b ≠ Some l →
  p_prev (page_at w l) = a → p_next (page_at w l) = b →
  (_ ← (match a with
        | Some p => update_page p (set_next b)
        | None => update_half h (set_h_first b)
        end);
   cur ← load_page l;
   _ ← (match p_next cur with
        | Some n => update_page n (set_prev (p_prev cur))
        | None => update_half h (set_h_last (p_prev cur))
        end);
   cur ← load_page l; k cur) w = k (page_at w l) (relink h a b w).
Proof.
  intros Ha Hb Hp Hn. unfold relink. destruct a as [a|].
  - rewrite (bind_ok _ _ _ _ _ (update_page_eq a _ w)). rewrite bind_eq. unfold load_page, gets.
    rewrite page_at_put_ne, Hn, Hp by congruence. destruct b as [b|].
    + rewrite (bind_ok _ _ _ _ _ (update_page_eq b _ _)), bind_eq. by rewrite !page_at_put_ne by congruence.
    + rewrite (bind_ok _ _ _ _ _ (update_half_eq h _ _)), bind_eq.
      change (page_at (put_half h ?v ?w') l) with (page_at w' l). by rewrite page_at_put_ne by congruence.
  - rewrite (bind_ok _ _ _ _ _ (update_half_eq h _ w)). rewrite bind_eq. unfold load_page, gets.
    change (page_at (put_half h ?v ?w') l) with (page_at w' l). rewrite Hn, Hp. destruct b as [b|].
    + rewrite (bind_ok _ _ _ _ _ (update_page_eq b _ _)), bind_eq. by rewrite page_at_put_ne by congruence.
    + by rewrite (bind_ok _ _ _ _ _ (update_half_eq h _ _)), bind_eq.
Qed.

Lemma content_joined w w' A B ls : joined w w' A B → content w' ls = content w ls.
Proof. intros HJ. apply list_fmap_ext. intros i l _. apply HJ. Qed.

Lemma drop_page_ok w h A l B R : focus w h (A ++ l :: B) R → ∃ w',
  drop_page h l w = (Ok (last A), w') ∧ focus w' h (A ++ B) R ∧ calm w w' h R ∧
  content w' (A ++ B) = content w (A ++ B).
Proof.
  intros [Hs He Hh]. pose proof (seg_links _ _ _ _ _ _ Hs) as [Hp Hn].
  rewrite last_or_None in Hp. rewrite hd_or_None in Hn.
  apply linked_app in Hs as [HA (_ & _ & HB)]. rewrite <-app_assoc in Hh. cbn in Hh.
  assert (heap_ok w (l :: (A ++ B) ++ R)) as Hh'.
  { eapply heap_ok_perm, Hh. rewrite <-app_assoc. by rewrite <-Permutation_middle. }
  pose proof (heap_nodup_list _ _ Hh') as [Hl Hnd]%NoDup_cons.
  assert (∀ x, x ∈ R → x ∉ A ++ B) as HR.
  { intros x Hx Hin. apply NoDup_app in Hnd as (_ & Hd & _). by apply (Hd x). }
  apply NoDup_app in Hnd as (Hnd & _ & _). rewrite !elem_of_app in Hl.
  set (w1 := put_half h (add_overlap (b2z (isPacket (page_at w l))) (len (p_bytes (page_at w l)))
                           (half_at w h)) w).
  set (w2 := relink h (last A) (head B) w1).
  assert (calm w1 w2 h R) as C2 by (by apply relink_calm).
  assert (joined w1 w2 A B) as HJ by (by apply relink_joined).
  assert (ends_are (half_at w2 h) (A ++ B)) as He2.
  { apply (relink_ends w1 h A l B). unfold ends_are, w1. by rewrite half_put_eq. }
  destruct (replace_page_frees w2 h l ((A ++ B) ++ R) ((A ++ B) ++ R)) as (w3 & E3 & Hh3 & C3 & P3 & F3); [|done|].
  { eapply heap_ok_pc, Hh'; subst w2 w1; unfold relink; by destruct (last A), (head B). }
  set (w4 := put_half h (set_h_pages (h_pages (half_at w3 h) - 1) (half_at w3 h)) w3).
  assert (∀ x, x ∈ A ++ B → page_at w4 x = page_at w2 x) as Hpg.
  { intros x Hx. apply (fr_pages _ _ _ _ (calm_frame _ _ _ _ C3)), elem_of_app. by left. }
  exists w4. split; [|split; [|split]].
  - unfold drop_page. erewrite bind_ok by reflexivity. rewrite (bind_ok _ _ _ _ _ (update_half_eq h _ w)).
    fold w1. rewrite Hp, Hn, relink_run; [|..].
    + cbv beta zeta. change (page_at w1 l) with (page_at w l).
      unfold release. rewrite Hp, (bind_ok _ _ w2 1 w3); [reflexivity|]. by erewrite bind_ok by exact E3.
    + intros Ea. apply Hl. left. left. by apply last_Some_elem_of.
    + intros Eb. apply Hl. left. right. destruct B; [done|]. cbn in Eb. simplify_eq. left.
    + done.
    + done.
  - split.
    + eapply links_ext, (joined_seg w1 w2 A B); try done.
    + unfold ends_are, w4. by rewrite half_put_eq, F3.
    + by eapply heap_ok_pc, Hh3.
  - eapply calm_trans; [|eapply calm_trans; [apply C2|]].
    + by apply calm_put_half.
    + eapply calm_trans; [|by apply calm_put_half]. destruct C3 as [C3 C3' C3'' Ce]. split; try done.
      eapply frame_subset, C3. intros x Hx. apply elem_of_app. by right.
  - rewrite (contents_ext w2 w4) by done. exact (content_joined w1 w2 A B (A ++ B) HJ).
Qed.

(** The data of a page fits in its buffer. *)
Definition roomy (q : qpage) : Prop := len (q_bytes q) <= q_cap q.

Lemma copy_page_ok b cap n src : 0 <= n → n + len src <= len b → len b <= cap →
  copy_page b cap n (n + len src) src =
  Ok (take (Z.to_nat n) b ++ src ++ drop (Z.to_nat n + length src) b).
Proof.
  intros Hn Hl Hc. unfold copy_page. pose proof (len_nonneg src).
  rewrite (proj2 (Z.ltb_ge n 0)), (proj2 (Z.ltb_ge (n + len src) n)), Z.gtb_ltb,
    (proj2 (Z.ltb_ge cap (n + len src))) by lia. cbn.
  rewrite (take_ge src) by (unfold len; lia). unfold mret, outcome_ret. f_equal.
  apply take_ge. unfold len in *. rewrite !length_app, length_take, length_drop. lia.
Qed.

(** Writing the data of a page of the queue. *)
Lemma set_data_focus w h A l B R b cap s : focus w h (A ++ l :: B) R →
  let w' := put_page l (set_data b cap s (page_at w l)) w in
  focus w' h (A ++ l :: B) R ∧ calm w w' h R ∧ content w' A = content w A ∧ content w' B = content w B ∧
  unlinked (page_at w' l) = q_data b cap s (unlinked (page_at w l)).
Proof.
  intros [Hs He Hh] w'. pose proof (heap_nodup_list _ _ Hh) as Hnd. rewrite <-app_assoc in Hnd.
  cbn in Hnd. rewrite <-Permutation_middle in Hnd. apply NoDup_cons in Hnd as [Hl _].
  rewrite !elem_of_app in Hl.
  assert (∀ x, x ≠ l → page_at w' x = page_at w x) as Hne by (intros x Hx; by apply page_at_put_ne).
  split; [split|split_and!].
  - eapply linked_ext, Hs. intros x _. unfold w'. rewrite page_at_put. case_decide; by simplify_eq.
  - done.
  - by eapply heap_ok_pc, Hh.
  - apply calm_put_page; [tauto|endless].
  - apply contents_ext. intros x Hx. apply Hne. intros ->. tauto.
  - apply contents_ext. intros x Hx. apply Hne. intros ->. tauto.
  - unfold w'. by rewrite page_at_put_eq.
Qed.

Section overlap_loop.
Variables (h : half_ref) (R : list loc) (lo hi start : Z) (bs0 : bytes).
Hypothesis Hw : window lo hi.
Hypothesis Hlo : lo <= start.
Hypothesis Hhi : start + len bs0 <= hi.
Let end_ := start + len bs0.

(** What the loop returns, from [w]. *)
Definition loops w (r : outcome (option loc * option loc * bytes) * world)
    (rq acc gone : list qpage) (bs : bytes) : Prop := ∃ w' A' B' next' bs' gone',
  r = (Ok (last A', next', bs'), w') ∧
  overlap start end_ bs rq acc gone = (reverse (content w' A'), content w' B', bs', gone') ∧
  focus w' h (A' ++ B') R ∧ calm w w' h R ∧ (bs' ≠ [] → next' = head B') ∧
  Forall roomy (content w' (A' ++ B')).

Lemma loops_calm w w1 r rq acc gone bs : calm w w1 h R → loops w1 r rq acc gone bs → loops w r rq acc gone bs.
Proof.
  intros HC (w' & A' & B' & next' & bs' & gone' & H1 & H2 & H3 & H4 & H5 & H6).
  exists w', A', B', next', bs', gone'. split_and!; try done. by eapply calm_trans.
Qed.

Lemma overlap_loop_nil fuel bs next w :
  overlap_loop fuel h start end_ bs next None w = (Ok (None, next, bs), w).
Proof. by destruct fuel. Qed.

Lemma overlap_loop_ok fuel : ∀ A B w bs next gone m, (length A <= fuel)%nat →
  focus w h (A ++ B) R → ordered lo (content w A) m → m <= hi → Forall roomy (content w (A ++ B)) →
  len bs <= len bs0 → (bs ≠ [] → next = head B) →
  loops w (overlap_loop fuel h start end_ bs next (last A) w)
    (reverse (content w A)) (content w B) gone bs.
Proof.
  induction fuel as [|fuel IH]; intros A B w bs next gone m Hf HF Ho Hm HR Hbs Hnext;
    (destruct A as [|l A _] using rev_ind;
      [exists w, [], B, next, bs, gone; by rewrite overlap_loop_nil|]).
  { rewrite length_app in Hf. cbn in Hf. lia. }
  rewrite length_app in Hf. cbn in Hf. rewrite last_snoc.
  rewrite contents_app in Ho. apply ordered_app in Ho as (m' & Ho & H1 & H2 & H3). cbn in H1, H2, H3.
  set (p := page_at w l) in *. pose proof (ordered_le _ _ _ Ho) as Hm'.
  pose proof (len_nonneg bs0). pose proof (len_nonneg bs). pose proof (proj2 (len_pos _) H2) as Hpos.
  rewrite <-app_assoc in HF, HR. cbn [app] in HF, HR.
  pose proof (seg_links _ _ _ _ _ _ (f_seg _ _ _ _ HF)) as [Hp _]. rewrite last_or_None in Hp.
  fold p in Hp.
  rewrite contents_app, reverse_app. change (reverse (content w [l])) with [unlinked p]. cbn [app].
  assert (Forall roomy (content w A) ∧ len (p_bytes p) <= p_cap p ∧ Forall roomy (content w B))
    as (HRA & Hl & HRB).
  { rewrite contents_app in HR. apply Forall_app in HR as [? [??]%Forall_cons]. by split_and!. }
  cbn [overlap_loop]. rewrite bind_eq. cbn [load_page gets]. fold p. unfold loops. cbn [overlap].
  unfold q_after. change (q_seq (unlinked p)) with (p_seq p).
  change (q_bytes (unlinked p)) with (p_bytes p).
  rewrite !(Add_window lo hi) by (done || lia). rewrite !(Difference_window lo hi) by (done || lia).
  set (e := p_seq p + len (p_bytes p)) in *. assert (end_ = start + len bs0) as Hend by done.
  (* the page stays, and the loop goes on before it *)
  assert (loops w (overlap_loop fuel h start end_ bs (Some l) (p_prev p) w)
    (reverse (content w A)) (unlinked p :: content w B) gone bs) as Hbefore.
  { rewrite Hp. apply (IH A (l :: B) w bs (Some l) gone m'); try done; lia. }
  (* the page gets other data *)
  assert (∀ b cap s, len b <= cap →
    let w' := put_page l (set_data b cap s p) w in
    focus w' h (A ++ l :: B) R ∧ calm w w' h R ∧ content w' A = content w A ∧ content w' B = content w B ∧
    content w' [l] = [q_data b cap s (unlinked p)] ∧ Forall roomy (content w' (A ++ l :: B))) as Hset.
  { intros b cap s Hb w'. pose proof (set_data_focus w h A l B R b cap s HF) as (G1 & G2 & G3 & G4 & G5).
    fold p w' in G1, G2, G3, G4, G5. split_and!; try done; [cbn; by rewrite G5|].
    rewrite contents_app. change (content w' (l :: B)) with ([unlinked (page_at w' l)] ++ content w' B).
    rewrite G3, G4, G5. apply Forall_app. split; [done|]. by constructor. }
  destruct (Z.gtb_spec (p_seq p - end_) 0); [exact Hbefore|].
  destruct (Z.leb_spec (e - start) 0).
  { exists w, (A ++ [l]), B, next, bs, gone. rewrite last_snoc, contents_app, reverse_app, <-app_assoc.
    split_and!; try done. }
  destruct ((e - end_ <=? 0) && (p_seq p - start >=? 0)) eqn:E3.
  { destruct (drop_page_ok w h A l B R HF) as (w1 & E & HF1 & HC1 & Hc1).
    rewrite (bind_ok _ _ _ _ _ E). eapply loops_calm; [exact HC1|].
    rewrite !contents_app in Hc1. apply app_inj_1 in Hc1 as [Hc1 Hc2]; [|unfold content; by rewrite !length_fmap].
    rewrite <-Hc1, <-Hc2. apply (IH A B w1 bs next (unlinked p :: gone) m'); try done; try lia.
    - by rewrite Hc1.
    - rewrite contents_app, Hc1, Hc2. by apply Forall_app. }
  destruct ((e - end_ <? 0) && (e - start >? 0)) eqn:E2.
  { apply andb_true_iff in E2 as [E2 E2']. assert (p_seq p < start) by lia.
    rewrite bind_eq, slice_to_ok by (subst e; lia). cbn [lift].
    set (b := take _ _). rewrite (bind_ok _ _ _ _ _ (update_page_eq l _ w)). fold p.
    destruct (Hset b (p_cap p) (p_seq p)) as (G1 & G2 & G3 & G4 & G5 & G6).
    { subst b. unfold len in *. rewrite length_take. lia. }
    eexists _, (A ++ [l]), B, next, bs, gone. rewrite last_snoc, <-!app_assoc.
    split; [reflexivity|]. split; [|split; [exact G1|split; [exact G2|split; [done|exact G6]]]].
    unfold set_bytes. rewrite contents_app, reverse_app, G3, G4, G5. reflexivity. }
  destruct ((p_seq p - start >? 0) && (p_seq p - end_ <? 0)) eqn:E4.
  { apply andb_true_iff in E4 as [E4 E4']. assert (end_ < e) by lia.
    rewrite bind_eq, slice_from_ok by (subst e; lia). cbn [lift].
    set (b := drop _ _). rewrite (bind_ok _ _ _ _ _ (update_page_eq l _ w)). fold p.
    cbv zeta. rewrite !(Add_window lo hi) by (done || lia).
    replace (p_seq p + - (p_seq p - end_)) with end_ by lia.
    destruct (Hset b (p_cap p - - (p_seq p - end_)) end_) as (G1 & G2 & G3 & G4 & G5 & G6).
    { subst b. unfold len in *. rewrite length_drop. lia. }
    eapply loops_calm; [exact G2|]. rewrite Hp.
    pose proof (IH A (l :: B) _ bs (Some l) gone m' ltac:(lia) G1) as HL. rewrite G3 in HL.
    change (content ?w' (l :: B)) with (content w' [l] ++ content w' B) in HL. rewrite G4, G5 in HL.
    apply HL; try done; lia. }
  destruct ((e - end_ >=? 0) && (p_seq p - start <=? 0)) eqn:E6; [|exact Hbefore].
  apply andb_true_iff in E6 as [E6 E6'].
  rewrite bind_eq, copy_page_ok by (subst e; lia). cbn [lift].
  set (b := take _ _ ++ _). rewrite (bind_ok _ _ _ _ _ (update_page_eq l _ w)). fold p.
  destruct (Hset b (p_cap p) (p_seq p)) as (G1 & G2 & G3 & G4 & G5 & G6).
  { subst b e. unfold len in *. rewrite !length_app, length_take, length_drop. lia. }
  eapply loops_calm; [exact G2|]. rewrite Hp.
  pose proof (IH A (l :: B) _ [] next gone m' ltac:(lia) G1) as HL. rewrite G3 in HL.
  change (content ?w' (l :: B)) with (content w' [l] ++ content w' B) in HL. rewrite G4, G5 in HL.
  apply HL; try done; lia.
Qed.
End overlap_loop.

(** ** Taking pages *)

(** A step that writes only the pages [ls], which are not in use before. *)
Record takes w w' h L ls : Prop := mkTakes {
  tk_heap : heap_ok w' (ls ++ L);
  tk_calm : calm w w' h L;
  tk_half : half_at w' h = half_at w h;
}.

Lemma takes_trans w1 w2 w3 h L ls ls' : takes w1 w2 h L ls → takes w2 w3 h (ls ++ L) ls' →
  takes w1 w3 h L (ls' ++ ls).
Proof.
  intros [A1 A2 A3] [B1 [B2 B2' B2'' B2e] B3]. split; [by rewrite <-app_assoc| |congruence].
  eapply calm_trans; [exact A2|]. split; [|done..]. eapply frame_subset, B2. intros x Hx.
  apply elem_of_app. by right.
Qed.

Lemma takes_put w w' h L ls l p : takes w w' h L ls → l ∈ ls → (endless w → endless w' → p_end p = false) →
  takes w (put_page l p w') h L ls.
Proof.
  intros [A1 A2 A3] Hl Hp. split; [by eapply heap_ok_pc, A1| |done].
  assert (l ∉ L) as HL.
  { intros Hin. pose proof (heap_nodup_list _ _ A1) as Hnd. apply NoDup_app in Hnd as (_ & Hd & _).
    by apply (Hd l). }
  destruct A2 as [F Q C E]. split; [|by destruct Q|done|].
  - eapply frame_transitive; [exact F|by apply frame_put_page].
  - intros He. split; [exact (proj1 (E He))|]. intros x. rewrite page_at_put.
    case_decide; [by apply Hp, E|exact (proj2 (E He) x)].
Qed.

Lemma takes_pc w w' h L ls c : takes w w' h L ls → pc_pool c = pc_pool (pc w') → pc_made c = pc_made (pc w') →
  takes w (set_pc c w') h L ls.
Proof.
  intros [A1 [[] [] A2 A2'] A3] E1 E2.
  split; [by eapply heap_ok_pc, A1|split; [done|done|exact A2|exact A2']|exact A3].
Qed.

Lemma pool_Get_ok w h L : heap_ok w L → ∃ l w',
  pool_Get w = (Ok l, w') ∧ takes w w' h L [l].
Proof.
  intros [H1 H2]. unfold pool_Get. rewrite bind_eq. cbn [gets].
  destruct (Pool_Get (pc_gets (pc w)) ≫= _) as [[i l]|] eqn:E.
  - apply bind_Some in E as (i' & _ & E). apply bind_Some in E as (l' & Hi & E). simplify_eq.
    eexists l, _. split; [reflexivity|].
    pose proof (delete_Permutation _ _ _ Hi) as HP.
    assert (delete i (pc_pool (pc w)) ++ l :: L ≡ₚ pc_pool (pc w) ++ L) as HP'.
    { etransitivity; [by rewrite <-Permutation_middle|]. symmetry. exact (Permutation_app_tail L HP). }
    split; [|by split|done]. split; cbn [app pc set_pc pc_pool pc_made]; [by rewrite HP'|].
    intros x. rewrite HP'. apply H2.
  - set (l := pc_made (pc w)).
    assert (l ∉ pc_pool (pc w) ++ L) as Hl by (intros Hl%H2; subst l; lia).
    eexists l, _. split; [reflexivity|]. split; [split; cbn|..|done].
    + rewrite <-Permutation_middle. by apply NoDup_cons.
    + intros x. rewrite <-Permutation_middle. intros [->|Hx]%elem_of_cons; [subst l; lia|].
      apply H2 in Hx. lia.
    + split; [|done|done|].
      * split; try done. intros x Hx. unfold page_at. cbn.
        rewrite lookup_insert_ne; [done|]. intros ->. apply Hl, elem_of_app. by right.
      * intros [He1 He2]. split; [done|]. intros x. pose proof (page_at_put w l zero_page x) as Hput.
        change (page_at _ x) with (page_at (put_page l zero_page w) x). rewrite Hput.
        case_decide; [done|apply He2].
Qed.

Lemma next_page_takes w h L ts : heap_ok w L → ∃ l w',
  next_page ts w = (Ok l, w') ∧ takes w w' h L [l].
Proof.
  intros HL. destruct (pool_Get_ok w h L HL) as (l & w1 & E & HT).
  unfold next_page. rewrite (bind_ok _ _ _ _ _ E). eexists l, _. split; [reflexivity|].
  apply (takes_pc _ (put_page l _ w1)); [|done..]. apply takes_put; [done|left|endless].
Qed.

(** ** Cutting a packet into pages *)

Lemma holds_one q : q_bytes q ≠ [] → holds (q_seq q) (q_bytes q) [q].
Proof.
  intros Hq. split_and!; [cbn; split_and!; [lia|done|lia]| |done].
  intros x. cbn. by destruct (byte_at _ _ x).
Qed.
Lemma holds_cons q bs qs : q_bytes q ≠ [] → holds (q_seq q + len (q_bytes q)) bs qs →
  holds (q_seq q) (q_bytes q ++ bs) (q :: qs).
Proof.
  intros Hq (H1 & H2 & H3). split_and!.
  - cbn. split_and!; [lia|done|]. rewrite len_app, Z.add_assoc. exact H1.
  - intros x. cbn. by rewrite byte_at_app, H2.
  - intros E. apply app_eq_nil in E as [E _]. done.
Qed.

Lemma takes_perm w w' h L ls ls' : ls ≡ₚ ls' → takes w w' h L ls → takes w w' h L ls'.
Proof. intros HP [A1 A2 A3]. split; [|done..]. eapply heap_ok_perm, A1. by rewrite HP. Qed.

Lemma takes_nodup w w' h L ls : takes w w' h L ls → NoDup ls.
Proof. intros [A1 _ _]. apply heap_nodup_list in A1. by apply NoDup_app in A1 as (? & _). Qed.

Section fill.
Variables (h : half_ref) (L : list loc) (w0 : world) (lo hi : Z) (ts : time) (fin : bool).
Hypothesis Hw : window lo hi.
Hypothesis Hfin : endless w0 → fin = false.

Lemma seg_put_last w pre l p after : NoDup (pre ++ [l]) → p_prev p = p_prev (page_at w l) →
  seg w None (pre ++ [l]) after → seg (put_page l p w) None (pre ++ [l]) (p_next p).
Proof.
  intros Hnd Hp Hs. apply linked_app in Hs as [H1 (H2 & _ & _)]. apply linked_app. cbn in *.
  rewrite page_at_put_eq, Hp. split; [|done]. eapply links_ext, H1. intros x Hx. apply page_at_put_ne.
  intros <-. apply NoDup_app in Hnd as (_ & Hd & _). apply (Hd l Hx). left.
Qed.

Lemma content_put_ne w l p ls : l ∉ ls → content (put_page l p w) ls = content w ls.
Proof. intros Hl. apply contents_ext. intros x Hx. apply page_at_put_ne. congruence. Qed.

Lemma fill_pages_holds fuel : ∀ w pre current after seq bs n, takes w0 w h L (pre ++ [current]) →
  seg w None (pre ++ [current]) after → bs ≠ [] → (length bs < fuel)%nat → lo <= seq → seq + len bs <= hi →
  ∃ w' more lst, fill_pages fuel ts fin current seq bs n w = (Ok (lst, n + len more), w') ∧
    takes w0 w' h L (pre ++ current :: more) ∧ seg w' None (pre ++ current :: more) None ∧
    last (current :: more) = Some lst ∧ holds seq bs (content w' (current :: more)) ∧
    Forall roomy (content w' (current :: more)) ∧ content w' pre = content w pre.
Proof.
  induction fuel as [|fuel IH]; intros w pre current after seq bs n HT Hs Hbs Hf Hlo Hhi; [lia|].
  pose proof (takes_nodup _ _ _ _ _ HT) as Hnd.
  assert (current ∉ pre) as Hc.
  { intros Hc. apply NoDup_app in Hnd as (_ & Hd & _). apply (Hd current Hc). left. }
  assert (∀ p w', takes w0 w' h L (pre ++ [current]) → (endless w0 → endless w' → p_end p = false) →
    takes w0 (put_page current p w') h L (pre ++ [current])) as Hput.
  { intros p w' HT' Hp. apply takes_put; [done| |done]. apply elem_of_app. right. left. }
  pose proof (len_pos bs) as [_ Hpos]. specialize (Hpos Hbs).
  cbn [fill_pages]. set (k := Z.min (len bs) pageBytes). unfold pageBytes in k.
  rewrite bind_eq, slice_to_ok by (subst k; lia). cbn [lift]. set (b := take _ bs).
  rewrite (bind_ok _ _ _ _ _ (update_page_eq current _ w)).
  rewrite bind_eq, slice_from_ok by (subst k; lia). cbn [lift]. set (r := drop _ bs).
  set (w1 := put_page current _ w).
  assert (bs = b ++ r) as Hbr by (symmetry; apply take_drop).
  assert (len b = k) as Hb by (subst b k; unfold len; rewrite length_take; unfold len in *; lia).
  assert (len r = len bs - k) as Hr by (rewrite Hbr, len_app; lia).
  assert (b ≠ []) as Hb0 by (apply len_pos; subst k; lia).
  destruct (Z.eqb_spec (len r) 0) as [Hz|Hz].
  - rewrite (bind_ok _ _ _ _ _ (update_page_eq current _ w1)). set (w2 := put_page current _ w1).
    exists w2, [], current. split; [unfold len; cbn; by rewrite Z.add_0_r|].
    assert (unlinked (page_at w2 current) = mkQ b pageBytes seq (p_ac (page_at w current))
      (p_seen (page_at w current)) (p_start (page_at w current)) fin) as Hq.
    { subst w2 w1. by rewrite !page_at_put_eq. }
    apply len_zero in Hz. rewrite Hz, app_nil_r in Hbr. split_and!; [| |done|..].
    + apply Hput; [apply Hput; [done|endless]|]. intros He _. cbn. by apply Hfin.
    + eapply (seg_put_last w1 pre current (set_next None (set_end fin (page_at w1 current)))); [done..|].
      eapply seg_put_last; done.
    + cbn. rewrite Hq, Hbr. by apply (holds_one (mkQ b _ seq _ _ _ _)).
    + constructor; [|constructor]. rewrite Hq. unfold roomy, pageBytes. cbn. subst k. lia.
    + unfold w2, w1. by rewrite !content_put_ne.
  - assert (takes w0 w1 h L (pre ++ [current])) as HT1 by (apply Hput; [done|endless]).
    destruct (next_page_takes w1 h _ ts (tk_heap _ _ _ _ _ HT1)) as (nl & w2 & E & HT2).
    rewrite (bind_ok _ _ _ _ _ E), (bind_ok _ _ _ _ _ (update_page_eq current _ w2)).
    rewrite (bind_ok _ _ _ _ _ (update_page_eq nl _ _)), (bind_ok _ _ _ _ _ (update_page_eq nl _ _)).
    set (w3 := put_page current _ w2). set (w4 := put_page nl _ w3). set (w5 := put_page nl _ w4).
    pose proof (takes_trans _ _ _ _ _ _ _ HT1 HT2) as HT3.
    eapply (takes_perm _ _ _ _ _ ((pre ++ [current]) ++ [nl])) in HT3; [|by rewrite Permutation_app_comm].
    pose proof (takes_nodup _ _ _ _ _ HT3) as Hnd'.
    assert (nl ∉ pre ++ [current]) as Hnl.
    { intros Hin. apply NoDup_app in Hnd' as (_ & Hd & _). apply (Hd nl Hin). left. }
    assert (∀ x, x ∈ pre ++ [current] → page_at w2 x = page_at w1 x) as Hpg.
    { intros x Hx. apply (fr_pages _ _ _ _ (calm_frame _ _ _ _ (tk_calm _ _ _ _ _ HT2))), elem_of_app. by left. }
    assert (takes w0 w5 h L ((pre ++ [current]) ++ [nl])) as HT5.
    { assert (nl ∈ (pre ++ [current]) ++ [nl]) by (apply elem_of_app; right; left).
      do 2 (apply takes_put; [|done|endless]). apply takes_put; [done| |endless].
      rewrite !elem_of_app. left. right. left. }
    assert (seg w5 None ((pre ++ [current]) ++ [nl]) (p_next (page_at w5 nl))) as Hs5.
    { apply linked_app. cbn. split; [|rewrite last_or_snoc; unfold w5, w4; by rewrite !page_at_put_eq].
      apply (links_ext w3). { intros x Hx. unfold w5, w4. rewrite !page_at_put_ne; congruence. }
      eapply (seg_put_last w2); [done..|]. apply (links_ext w1); [done|]. eapply seg_put_last; done. }
    assert (content w5 pre = content w pre) as Hpre.
    { transitivity (content w1 pre); [apply contents_ext|by apply content_put_ne].
      intros x Hx. unfold w5, w4, w3. rewrite !page_at_put_ne; [apply Hpg, elem_of_app; by left|..].
      - congruence.
      - intros ->. apply Hnl, elem_of_app. by left.
      - intros ->. apply Hnl, elem_of_app. by left. }
    assert (unlinked (page_at w5 current) = mkQ b pageBytes seq (p_ac (page_at w current))
      (p_seen (page_at w current)) (p_start (page_at w current)) (p_end (page_at w current))) as Hq.
    { assert (nl ≠ current) by (intros ->; apply Hnl, elem_of_app; right; left).
      unfold w5, w4, w3. rewrite !page_at_put_ne, page_at_put_eq by done. unfold set_next, unlinked. cbn.
      rewrite Hpg by (apply elem_of_app; right; left). unfold w1. by rewrite page_at_put_eq. }
    destruct (IH w5 (pre ++ [current]) nl (p_next (page_at w5 nl)) (Add seq k) r (n + 1))
      as (w' & more & lst & E' & HT' & Hs' & Hl' & Hh' & Hr' & Hc'); [done|done|..].
    { intros ->. done. }
    { unfold len in *. rewrite Hbr, length_app in Hf. subst k. lia. }
    { rewrite (Add_window lo hi) by (done || lia). lia. }
    { rewrite (Add_window lo hi) by (done || lia). lia. }
    exists w', (nl :: more), lst. rewrite <-app_assoc in HT', Hs'. cbn in HT', Hs'.
    rewrite !contents_app in Hc'. apply app_inj_1 in Hc' as [Hc1 Hc2]; [|unfold content; by rewrite !length_fmap].
    change (content w' (current :: nl :: more)) with (content w' [current] ++ content w' (nl :: more)).
    rewrite Hc2. change (content w5 [current]) with [unlinked (page_at w5 current)]. rewrite Hq.
    split_and!; try done.
    + rewrite E'. f_equal. f_equal. f_equal. rewrite len_cons. lia.
    + rewrite Hbr. apply (holds_cons (mkQ b _ seq _ _ _ _)); [done|]. cbn. rewrite Hb.
      by rewrite (Add_window lo hi) in Hh' by (done || lia).
    + constructor; [|done]. unfold roomy, pageBytes. cbn. subst k. lia.
    + by rewrite Hc1.
Qed.
End fill.

Lemma convert_ok w h L ac ci lo hi : heap_ok w L → lp_ac (cacheLP w) = Some ci → window lo hi →
  lp_bytes (cacheLP w) ≠ [] → lo <= lp_seq (cacheLP w) → lp_seq (cacheLP w) + len (lp_bytes (cacheLP w)) <= hi →
  ∃ w' p new lst, livePacket_convertToPages 0 ac w = (Ok (p, lst, len (p :: new)), w') ∧
    takes w w' h L (p :: new) ∧ seg w' None (p :: new) None ∧ last (p :: new) = Some lst ∧
    holds (lp_seq (cacheLP w)) (lp_bytes (cacheLP w)) (content w' (p :: new)) ∧
    Forall roomy (content w' (p :: new)).
Proof.
  intros HL Hci Hw Hbs Hlo Hhi. destruct (next_page_takes w h L (Timestamp ci) HL) as (p & w1 & E & HT).
  unfold livePacket_convertToPages. rewrite bind_eq. cbn [gets]. rewrite Hci. cbn [deref].
  rewrite bind_eq, ret_eq, (bind_ok _ _ _ _ _ E).
  rewrite (bind_ok _ _ _ _ _ (update_page_eq p _ w1)), (bind_ok _ _ _ _ _ (update_page_eq p _ _)).
  set (w2 := put_page p _ w1). set (w3 := put_page p _ w2).
  rewrite bind_eq, slice_from_ok by (split; [lia|apply len_nonneg]). cbn [lift Z.to_nat drop].
  pose proof (len_nonneg (lp_bytes (cacheLP w))).
  rewrite (Add_window lo hi), Z.add_0_r by (done || lia).
  destruct (fill_pages_holds h L w lo hi (Timestamp ci) (lp_end (cacheLP w)) Hw
    (fun He => proj1 He) (S (length (lp_bytes (cacheLP w)))) w3 [] p (p_next (page_at w3 p)) (lp_seq (cacheLP w))
    (lp_bytes (cacheLP w)) 1) as (w' & more & lst & E' & HT' & Hs' & Hl' & Hh' & Hr' & _); try done.
  - do 2 (apply takes_put; [|left|endless]). done.
  - cbn. unfold w3, w2. by rewrite !page_at_put_eq.
  - lia.
  - exists w', p, more, lst. rewrite (bind_ok _ _ _ _ _ E'). split_and!; try done.
    unfold mret, M_ret. cbn [fst snd]. by rewrite len_cons.
Qed.

Lemma joined_same_left w B b : head B = Some b → p_prev (page_at w b) = None → joined w w [] B.
Proof.
  intros HB Hp l. rewrite HB. split_and!; [done|by rewrite decide_False|].
  by case_decide; simplify_eq.
Qed.
Lemma joined_same_right w A a : last A = Some a → p_next (page_at w a) = None → joined w w A [].
Proof.
  intros HA Hn l. rewrite HA. split_and!; [done| |by rewrite decide_False].
  by case_decide; simplify_eq.
Qed.

(** Linking the new pages behind [A], then before [B]. *)
Definition link_left h (a : option loc) (p : loc) w : world :=
  match a with
  | Some _ => relink h a (Some p) w
  | None => put_half h (set_h_first (Some p) (half_at w h)) w
  end.
Definition link_right h (p : loc) (b : option loc) w : world :=
  match b with
  | Some _ => relink h (Some p) b w
  | None => put_half h (set_h_last (Some p) (half_at w h)) w
  end.

Lemma link_left_eq {X} h a p w (k : M world X) :
  (_ ← (match a with
        | Some c => _ ← update_page c (set_next (Some p)); update_page p (set_prev (Some c))
        | None => update_half h (set_h_first (Some p))
        end); k) w = k (link_left h a p w).
Proof. by destruct a. Qed.
Lemma link_right_eq h p b w :
  (match b with
   | Some n => _ ← update_page p (set_next (Some n)); update_page n (set_prev (Some p))
   | None => update_half h (set_h_last (Some p))
   end) w = (Ok tt, link_right h p b w).
Proof. by destruct b. Qed.

Lemma link_left_joined w h A N p : NoDup (A ++ N) → head N = Some p → p_prev (page_at w p) = None →
  joined w (link_left h (last A) p w) A N.
Proof.
  intros Hnd HN Hp. unfold link_left. destruct (last A) as [a|] eqn:Ea.
  - rewrite <-Ea, <-HN. by apply relink_joined.
  - apply last_None in Ea as ->. intros l. exact (joined_same_left w N p HN Hp l).
Qed.
Lemma link_right_joined w h N B p : NoDup (N ++ B) → last N = Some p → p_next (page_at w p) = None →
  joined w (link_right h p (head B) w) N B.
Proof.
  intros Hnd HN Hp. unfold link_right. destruct (head B) as [b|] eqn:Eb.
  - rewrite <-Eb, <-HN. by apply relink_joined.
  - destruct B; [|done]. intros l. exact (joined_same_right w N p HN Hp l).
Qed.

(** What linking [N] and [B] leaves alone. *)
Lemma link_left_calm w h A N p R : head N = Some p → (∀ l, l ∈ R → l ∉ A ++ N) →
  calm w (link_left h (last A) p w) h R.
Proof.
  intros HN HR. unfold link_left. destruct (last A) eqn:Ea; [|by apply calm_put_half].
  rewrite <-Ea, <-HN. by apply relink_calm.
Qed.
Lemma link_right_calm w h N B p R : last N = Some p → (∀ l, l ∈ R → l ∉ N ++ B) →
  calm w (link_right h p (head B) w) h R.
Proof.
  intros HN HR. unfold link_right. destruct (head B) eqn:Eb; [|by apply calm_put_half].
  rewrite <-Eb, <-HN. by apply relink_calm.
Qed.
Lemma link_pc w h a p q b : pc (link_right h q b (link_left h a p w)) = pc w.
Proof. by destruct a, b. Qed.

Lemma link_ends w h A N B p q : head N = Some p → last N = Some q → ends_are (half_at w h) (A ++ B) →
  ends_are (half_at (link_right h q (head B) (link_left h (last A) p w)) h) (A ++ N ++ B).
Proof.
  intros HN HL [H1 H2]. destruct N as [|n N]; [done|]. cbn in HN. simplify_eq.
  assert (half_at (link_left h (last A) p w) h =
    match A with [] => set_h_first (Some p) (half_at w h) | _ => half_at w h end) as E1.
  { unfold link_left. destruct A as [|a A]; [cbn; by rewrite half_put_eq|].
    destruct (last (a :: A)) eqn:E; [done|]. by apply last_None in E. }
  assert (half_at (link_right h q (head B) (link_left h (last A) p w)) h =
    match B with [] => set_h_last (Some q) (half_at (link_left h (last A) p w) h)
               | _ => half_at (link_left h (last A) p w) h end) as ->.
  { unfold link_right. destruct B; [cbn; by rewrite half_put_eq|done]. }
  rewrite E1. split.
  - destruct A, B; cbn in *; congruence.
  - rewrite !last_app in *. destruct B as [|b B]; [rewrite HL; by destruct A|].
    destruct (last (b :: B)) eqn:E; [destruct A; cbn; congruence|by apply last_None in E].
Qed.

Lemma seg_first w b ls p next : head ls = Some p → seg w b ls next → p_prev (page_at w p) = b.
Proof. destruct ls; [done|]. intros [= ->] (? & _). done. Qed.
Lemma seg_last w b ls p next : last ls = Some p → seg w b ls next → p_next (page_at w p) = next.
Proof.
  destruct ls as [|x ls _] using rev_ind; [done|]. rewrite last_snoc. intros [= ->].
  rewrite linked_app. cbn. tauto.
Qed.

Lemma link_ok w h A N B p q R : seg w None (A ++ B) None → seg w None N None → head N = Some p →
  last N = Some q → heap_ok w (N ++ (A ++ B) ++ R) → ends_are (half_at w h) (A ++ B) →
  let w' := link_right h q (head B) (link_left h (last A) p w) in
  focus w' h (A ++ N ++ B) R ∧ calm w w' h R ∧ (∀ ls, content w' ls = content w ls).
Proof.
  intros Hs HsN HN HL Hh He w'. set (w1 := link_left h (last A) p w) in *.
  assert (heap_ok w ((A ++ N ++ B) ++ R)) as Hh'.
  { eapply heap_ok_perm, Hh. rewrite !app_assoc. do 2 apply Permutation_app_tail. apply Permutation_app_comm. }
  pose proof (heap_nodup_list _ _ Hh') as Hnd. apply NoDup_app in Hnd as (Hnd & Hd & _).
  assert (∀ x, x ∈ R → x ∉ A ++ N ++ B) as HR by (intros x Hx Hin; by apply (Hd x)).
  pose proof Hnd as Hnd1. rewrite app_assoc in Hnd1. pose proof Hnd1 as (HndAN & HdB & _)%NoDup_app.
  pose proof Hnd as (_ & HdA & HndNB)%NoDup_app.
  apply linked_app in Hs as [HA HB].
  assert (joined w w1 A N) as J1.
  { apply link_left_joined; [done..|]. by eapply seg_first. }
  pose proof (joined_seg _ _ _ _ _ _ HndAN J1 HA HsN) as HAN.
  assert (calm w w1 h (B ++ R)) as C1.
  { apply (link_left_calm _ _ _ N); [done|]. intros x [Hx|Hx]%elem_of_app; intros Hin.
    - by apply (HdB x).
    - apply (HR x Hx). rewrite app_assoc. apply elem_of_app. by left. }
  assert (seg w1 (last_or None A) B None) as HB1.
  { eapply links_ext, HB. intros x Hx. apply (fr_pages _ _ _ _ (calm_frame _ _ _ _ C1)), elem_of_app. by left. }
  assert (last (A ++ N) = Some q) as HLAN by (rewrite last_app; by rewrite HL).
  assert (joined w1 w' (A ++ N) B) as J2.
  { apply link_right_joined; [done..|]. by eapply seg_last. }
  pose proof (joined_seg _ _ _ _ _ _ Hnd1 J2 HAN HB1) as Hall.
  rewrite <-app_assoc in Hall. split_and!.
  - split; [done|by apply link_ends|]. apply (heap_ok_pc w); [..|exact Hh']; unfold w', w1; by rewrite link_pc.
  - eapply calm_trans; [|apply (link_right_calm _ _ (A ++ N)); [done|by rewrite <-app_assoc]].
    destruct C1 as [C1 C1' C1'' Ce]. split; [|done..]. eapply frame_subset, C1. intros x Hx. apply elem_of_app. by right.
  - intros ls. by rewrite (content_joined _ _ _ _ _ J2), (content_joined _ _ _ _ _ J1).
Qed.

Lemma calm_sub w w' h R R' : (∀ l, l ∈ R → l ∈ R') → calm w w' h R' → calm w w' h R.
Proof. intros HR [C1 C2 C3 C4]. split; [by eapply frame_subset|done..]. Qed.

Lemma queue_packet_ok w h ac ci A B R lo hi : focus w h (A ++ B) R → window lo hi →
  lp_ac (cacheLP w) = Some ci → lp_bytes (cacheLP w) ≠ [] → lo <= lp_seq (cacheLP w) →
  lp_seq (cacheLP w) + len (lp_bytes (cacheLP w)) <= hi → ∃ w' N,
  queue_packet h ac (last A) (head B) (lp_bytes (cacheLP w)) w = (Ok tt, w') ∧
  focus w' h (A ++ N ++ B) R ∧ calm w w' h R ∧ content w' A = content w A ∧ content w' B = content w B ∧
  holds (lp_seq (cacheLP w)) (lp_bytes (cacheLP w)) (content w' N) ∧ Forall roomy (content w' N).
Proof.
  intros [Hs He Hh] Hw Hci Hbs Hlo Hhi. set (bs := lp_bytes (cacheLP w)) in *.
  destruct (convert_ok w h ((A ++ B) ++ R) ac ci lo hi) as (w1 & p & new & lst & E & [T1 T2 T3] & HsN & HL & Hho & Hro);
    try done. fold bs in E, Hho.
  assert (∀ x, x ∈ A ++ B → page_at w1 x = page_at w x) as Hpg.
  { intros x Hx. apply (fr_pages _ _ _ _ (calm_frame _ _ _ _ T2)), elem_of_app. by left. }
  set (w2 := put_half h (add_queued 1 (len bs) (half_at w1 h)) w1).
  set (w3 := put_half h (set_h_pages (h_pages (half_at w2 h) + len (p :: new)) (half_at w2 h)) w2).
  assert (calm w1 w3 h ((A ++ B) ++ R)) as C3.
  { eapply calm_trans; by apply calm_put_half. }
  pose proof (link_ok w3 h A (p :: new) B p lst R) as HK. cbv zeta in HK.
  destruct HK as (HF & HC & Hct); [by eapply links_ext, Hs|done|done|done|by eapply heap_ok_pc, T1| |].
  { unfold w3, w2, ends_are. rewrite !half_put_eq. cbn. by rewrite T3. }
  eexists _, (p :: new). split; [|split; [exact HF|split]].
  - unfold queue_packet. rewrite (bind_ok _ _ _ _ _ E), (bind_ok _ _ _ _ _ (update_half_eq h _ w1)),
      (bind_ok _ _ _ _ _ (update_half_eq h _ w2)). fold w3. rewrite link_left_eq. apply link_right_eq.
  - eapply calm_trans, HC. eapply calm_trans; eapply calm_sub; [|exact T2| |exact C3]; intros x Hx;
      apply elem_of_app; by right.
  - rewrite !Hct. split_and!; [..|done|done]; apply contents_ext; intros x Hx; apply Hpg, elem_of_app; auto.
Qed.
End heap.
