(* ===== verification/ReassemblyHalf.v ===== *)
(** * A half-connection at work

    What the operations of a half-connection do, for streams that do not ask to
    keep data and sequence numbers that do not wrap: a packet goes into the
    queue or, with the pages that follow it, to the stream. *)

From S2P Require Import Prelude Flows BaseLayers Tcp TcpCheck Capture Links Reassembly ReassemblyQueue ReassemblyHeap.

(** [addContiguous], on a list: the pages that follow on [n], the others, and where it stops. *)
Fixpoint contiguous (n : Sequence) (q : list qpage) : list qpage * list qpage * Sequence :=
  match q with
  | [] => ([], [], n)
  | p :: q' =>
      if Difference n (q_seq p) =? 0 then
        let '(sent, rest, m) := contiguous (Add n (len (q_bytes p))) q' in (p :: sent, rest, m)
      else ([], q, n)
  end.

Lemma contiguous_app n q sent rest m : contiguous n q = (sent, rest, m) → q = sent ++ rest.
Proof.
  revert n sent rest m; induction q as [|p q IH]; intros n sent rest m; cbn.
  - by intros [= <- <- <-].
  - case_match; [|by intros [= <- <- <-]]. destruct (contiguous _ q) as [[a b] c] eqn:E.
    intros [= <- <- <-]. cbn. f_equal. by eapply IH.
Qed.

Section half.
Context `{Env : Environment}.
Implicit Types (w : world) (h : half_ref) (ls A B L R : list loc).

Lemma calm_set_LP w w' h R v : lp_end v = lp_end (cacheLP w) → calm w w' h R →
  calm (set_cacheLP v w) (set_cacheLP v w') h R.
Proof.
  intros Hv [[] [] ? E]. split; [by split|by split|done|]. intros [E1 E2]. split; [done|].
  apply E. split; [by rewrite <-Hv|exact E2].
Qed.
Lemma calm_set_ret w w' h R v : calm w w' h R → calm (set_ret v w) (set_ret v w') h R.
Proof. intros [[] [] ? E]. split; [by split|by split|done|exact E]. Qed.

Lemma calm_set_SG w w' h R v : calm w w' h R → calm (set_cacheSG v w) (set_cacheSG v w') h R.
Proof. intros [[] [] ? E]. split; [by split|by split|done|exact E]. Qed.
Lemma focus_set_SG w h ls R v : focus w h ls R → focus (set_cacheSG v w) h ls R.
Proof. intros [? ? Hh]. split; [done|done|by eapply heap_ok_pc, Hh]. Qed.
Lemma focus_set_LP w h ls R v : focus w h ls R → focus (set_cacheLP v w) h ls R.
Proof. intros [? ? Hh]. split; [done|done|by eapply heap_ok_pc, Hh]. Qed.
Lemma focus_set_ret w h ls R v : focus w h ls R → focus (set_ret v w) h ls R.
Proof. intros [? ? Hh]. split; [done|done|by eapply heap_ok_pc, Hh]. Qed.

(** ** [checkOverlap] *)

(** The queue [before ++ after], with room for the packet between. *)
Definition admits (lo hi start : Z) (bs0 bs' : bytes) (q before after : list qpage) : Prop :=
  (bs' = bs0 ∨ bs' = [] ∧ Exists (covers start) q) ∧ ∀ new, holds start bs' new →
    ordered lo (before ++ new ++ after) hi ∧
    ∀ x, queue_at (before ++ new ++ after) x =
         match byte_at start bs0 x with Some b => Some b | None => queue_at q x end.

Lemma holds_nil start : holds start [] [].
Proof. split_and!; [cbn [ordered]; rewrite len_nil; lia|intros x; by rewrite byte_at_nil|done]. Qed.

Lemma f_fuel w h ls R : focus w h ls R → (length ls <= page_fuel w)%nat.
Proof.
  intros [_ _ Hh]. apply heap_ok_fuel in Hh. rewrite length_app in Hh. lia.
Qed.

Lemma checkOverlap_ok w h ls R queue ac ci lo hi : focus w h ls R → window lo hi →
  ordered lo (content w ls) hi → Forall roomy (content w ls) → lp_ac (cacheLP w) = Some ci →
  lo <= lp_seq (cacheLP w) → lp_seq (cacheLP w) + len (lp_bytes (cacheLP w)) <= hi →
  ∃ w' ls' bs' before new after, checkOverlap h queue ac w = (Ok tt, w') ∧ focus w' h ls' R ∧
    calm (set_cacheLP (set_lp_data bs' (lp_seq (cacheLP w)) (cacheLP w)) w) w' h R ∧
    content w' ls' = before ++ new ++ after ∧ Forall roomy (content w' ls') ∧
    admits lo hi (lp_seq (cacheLP w)) (lp_bytes (cacheLP w)) bs' (content w ls) before after ∧
    (if queue then holds (lp_seq (cacheLP w)) bs' new else new = []).
Proof.
  intros HF Hw Ho Hr Hci Hlo Hhi. set (start := lp_seq (cacheLP w)) in *. set (bs0 := lp_bytes (cacheLP w)) in *.
  pose proof (len_nonneg bs0).
  destruct (overlap_loop_ok h R lo hi start bs0 Hw Hlo Hhi (page_fuel w) ls [] w bs0 None [] hi)
    as (w1 & A & B & next & bs' & gone & E1 & E2 & HF1 & HC1 & Hn1 & Hr1); rewrite ?app_nil_r; try done.
  { by eapply f_fuel. }
  pose proof (overlap_wins lo hi start bs0 Hw Hlo Hhi (reverse (content w ls)) [] [] hi) as HW.
  rewrite reverse_involutive in HW. specialize (HW Ho). cbn in E2. rewrite E2 in HW. cbn in HW.
  specialize (HW ltac:(cbn; lia)).
  assert (admits lo hi start bs0 bs' (content w ls) (content w1 A) (content w1 B)) as Hadm.
  { destruct HW as [Hb HW]. split.
    { destruct Hb as [?|[? Hb]]; [by left|right]. split; [done|]. apply Exists_exists in Hb as (p & Hp & Hb).
      rewrite elem_of_reverse in Hp. apply Exists_exists. by exists p. }
    intros new Hn. destruct (HW new Hn) as [W1 W2].
    rewrite reverse_involutive in W1. split; [done|]. intros x. specialize (W2 x).
    by rewrite !reverse_involutive, app_nil_r in W2. }
  set (lp' := set_lp_data bs' start (cacheLP w1)). set (w2 := set_cacheLP lp' w1).
  assert (cacheLP w1 = cacheLP w) as Hlp by apply HC1.
  assert (calm (set_cacheLP (set_lp_data bs' start (cacheLP w)) w) w2 h R) as HC2.
  { unfold w2, lp'. rewrite Hlp. by apply calm_set_LP. }
  assert (focus w2 h (A ++ B) R) as HF2 by (by apply focus_set_LP).
  assert (checkOverlap h queue ac w =
    (if (len bs' >? 0) && queue then queue_packet h ac (last A) next bs' else mret tt) w2) as Erun.
  { unfold checkOverlap. rewrite bind_eq. cbn [get]. fold start bs0.
    rewrite (Add_window lo hi), (f_ends_last _ _ _ _ HF) by (done || lia).
    by rewrite (bind_ok _ _ _ _ _ E1). }
  rewrite Erun. clear Erun.
  destruct (decide (bs' ≠ [] ∧ queue = true)) as [[Hne ->]|Hno].
  - rewrite (Hn1 Hne) in *.
    assert (len bs' >? 0 = true) as ->.
    { apply Z.gtb_lt, len_pos, Hne. }
    assert (bs' = bs0) as Hbs by (by destruct Hadm as [[?|[??]] _]).
    destruct (queue_packet_ok w2 h ac ci A B R lo hi HF2 Hw) as (w3 & N & E3 & HF3 & HC3 & HA3 & HB3 & Hh3 & Hr3);
      cbn; rewrite ?Hlp; try done; [by rewrite Hbs|].
    exists w3, (A ++ N ++ B), bs', (content w1 A), (content w3 N), (content w1 B).
    cbn [andb]. split_and!; try done.
    + by eapply calm_trans.
    + by rewrite !contents_app, HA3, HB3.
    + rewrite contents_app in Hr1. apply Forall_app in Hr1 as [? ?].
      rewrite !contents_app, HA3, HB3, !Forall_app. by split_and!.
  - assert ((len bs' >? 0) && queue = false) as ->.
    { apply not_true_is_false. intros [Hl ->]%andb_true_iff. apply Hno. split; [|done].
      apply len_pos. lia. }
    exists w2, (A ++ B), bs', (content w1 A), [], (content w1 B). split_and!; try done.
    + by rewrite contents_app.
    + destruct queue; [|done]. destruct (decide (bs' = [])) as [->|Hne]; [apply holds_nil|].
      exfalso. by apply Hno.
Qed.

(** ** Taking pages off the queue *)

Lemma focus_perm w h ls R R' : R ≡ₚ R' → focus w h ls R → focus w h ls R'.
Proof. intros HP [? ? Hh]. split; [done|done|]. eapply heap_ok_perm, Hh. by rewrite HP. Qed.

Lemma pop_ok w h l ls R : focus w h (l :: ls) R →
  p_next (page_at w l) = head ls ∧ ∃ w',
  (match head ls with
   | Some n => update_page n (set_prev None)
   | None => update_half h (set_h_last None)
   end) (put_half h (set_h_first (head ls) (half_at w h)) w) = (Ok tt, w') ∧
  focus w' h ls (l :: R) ∧ calm w w' h (l :: R) ∧ content w' ls = content w ls.
Proof.
  intros [(Hp & Hn & Hs) [H1 H2] Hh]. rewrite hd_or_None in Hn. split; [done|].
  set (w1 := put_half h _ w). assert (heap_ok w (ls ++ l :: R)) as Hh'.
  { eapply heap_ok_perm, Hh. by rewrite <-Permutation_middle. }
  assert (l ∉ ls) as Hl.
  { pose proof (heap_nodup_list _ _ Hh) as Hnd. cbn in Hnd. apply NoDup_cons in Hnd as [Hnd _].
    intros Hin. by apply Hnd, elem_of_app; left. }
  destruct ls as [|n ls]; cbn [head].
  - eexists. split; [apply update_half_eq|]. split_and!; [|by eapply calm_trans; apply calm_put_half|done].
    split; [done| |by eapply heap_ok_pc, Hh']. unfold ends_are, w1. by rewrite !half_put_eq.
  - eexists. split; [apply update_page_eq|]. destruct Hs as (Hs1 & Hs2 & Hs3).
    pose proof (heap_nodup_list _ _ Hh') as Hnd. cbn in Hnd. apply NoDup_cons in Hnd as [Hn' _].
    rewrite elem_of_app in Hn'. assert (∀ x, x ∈ ls → n ≠ x) as Hne by (intros x Hx ->; tauto).
    split_and!.
    + split; [|unfold ends_are|by eapply heap_ok_pc, Hh'].
      * cbn. rewrite page_at_put_eq. split_and!; [done|by rewrite <-Hs2|].
        eapply links_ext, Hs3. intros x Hx. by rewrite page_at_put_ne by (by apply Hne).
      * change (half_at (put_page n ?p w1) h) with (half_at w1 h). unfold w1. rewrite half_put_eq.
        split; [done|]. cbn. by rewrite H2, last_cons_cons.
    + apply (calm_trans _ w1); [by apply calm_put_half|]. apply calm_put_page; [tauto|endless].
    + cbn. f_equal; [by rewrite page_at_put_eq|]. apply contents_ext. intros x Hx. by rewrite page_at_put_ne by (by apply Hne).
Qed.

(** Popped pages keep their content; [w'] hands them to the assembler. *)
Lemma contiguous_loop_ok h : ∀ fuel R w ls n, (length ls <= fuel)%nat → focus w h ls R →
  ∃ w' sent rest m, contiguous_loop fuel h (head ls) n w = (Ok m, w') ∧ ls = sent ++ rest ∧
    contiguous n (content w ls) = (content w' sent, content w' rest, m) ∧
    focus w' h rest (sent ++ R) ∧ calm (set_ret (ret w ++ (Page <$> sent)) w) w' h R.
Proof.
  induction fuel as [|fuel IH]; intros R w ls n Hf HF; (destruct ls as [|l ls]; [
    exists w, [], [], n; cbn; rewrite app_nil_r; by split_and!|]).
  { cbn in Hf. lia. }
  cbn [contiguous_loop head content fmap list_fmap contiguous]. rewrite bind_eq. cbn [load_page gets].
  set (p := page_at w l). change (q_seq (unlinked p)) with (p_seq p).
  change (q_bytes (unlinked p)) with (p_bytes p).
  destruct (Z.eqb_spec (Difference n (p_seq p)) 0) as [Hd|Hd].
  2: { exists w, [], (l :: ls), n. cbn. rewrite app_nil_r. by split_and!. }
  set (w0 := set_ret (ret w ++ [Page l]) w).
  assert (focus w0 h (l :: ls) R) as HF0 by (by apply focus_set_ret).
  destruct (pop_ok w0 h l ls R HF0) as (Hn & w1 & E1 & HF1 & HC1 & Hc1).
  change (p_next (page_at w0 l)) with (p_next p) in Hn.
  destruct (IH (l :: R) w1 ls (Add n (len (p_bytes p)))) as (w' & sent & rest & m & E & -> & Ec & HF' & HC');
    [cbn in Hf; lia|done|].
  exists w', (l :: sent), rest, m. split_and!; try done.
  - rewrite (bind_ok _ _ w tt w0) by done. rewrite (bind_ok _ _ _ _ _ (update_half_eq h _ w0)), Hn.
    rewrite (bind_ok _ _ _ tt w1); [done|]. destruct (head (sent ++ rest)); exact E1.
  - change (_ <$> sent ++ rest) with (content w0 (sent ++ rest)). rewrite <-Hc1, Ec.
    assert (page_at w' l = p) as Hl.
    { etransitivity; [apply (fr_pages _ _ _ _ (calm_frame _ _ _ _ HC') l); left|].
      apply (fr_pages _ _ _ _ (calm_frame _ _ _ _ HC1) l). left. }
    cbn. by rewrite Hl.
  - eapply focus_perm, HF'. by rewrite <-Permutation_middle.
  - apply (calm_sub _ _ _ _ (l :: R)); [intros x Hx; by right|]. eapply calm_trans, HC'.
    rewrite (qt_ret _ _ (calm_quiet _ _ _ _ HC1)). cbn [ret set_ret w0 fmap list_fmap].
    rewrite <-app_assoc. by apply (calm_set_ret w0).
Qed.

Lemma Add_natural s n : 0 <= Add s n.
Proof. unfold Add. apply Z.land_nonneg. right. done. Qed.

Lemma focus_put_half w h ls R v : focus w h ls R →
  (h_first v = h_first (half_at w h) ∧ h_last v = h_last (half_at w h)) → focus (put_half h v w) h ls R.
Proof.
  intros [? [? ?] Hh] [H1 H2]. split; [done| |by eapply heap_ok_pc, Hh].
  unfold ends_are. by rewrite half_put_eq, H1, H2.
Qed.

Lemma half_addContiguous_ok w h ls R s n : focus w h ls R → ∃ w' sent rest m,
  addContiguous h (Add s n) w = (Ok m, w') ∧ ls = sent ++ rest ∧
  contiguous (Add s n) (content w ls) = (content w' sent, content w' rest, m) ∧
  focus w' h rest (sent ++ R) ∧ calm (set_ret (ret w ++ (Page <$> sent)) w) w' h R.
Proof.
  intros HF. destruct (contiguous_loop_ok h (page_fuel w) R w ls (Add s n) (f_fuel _ _ _ _ HF) HF)
    as (w' & sent & rest & m & E & H).
  exists w', sent, rest, m. split; [|done]. unfold addContiguous. rewrite bind_eq. cbn [load_half gets].
  rewrite (f_ends_first _ _ _ _ HF). destruct ls as [|l ls]; [by destruct (page_fuel w)|]. cbn [head].
  rewrite bind_eq. cbn [load_page gets]. pose proof (Add_natural s n).
  rewrite (proj2 (Z.eqb_neq _ _)) by (unfold invalidSequence; lia). exact E.
Qed.

Lemma half_addNextFromConn_ok w h l ls R : focus w h (l :: ls) R → ∃ w',
  addNextFromConn h w = (Ok tt, w') ∧ focus w' h ls (l :: R) ∧
  calm (set_ret (ret w ++ [Page l]) w) w' h (l :: R) ∧ content w' ls = content w ls.
Proof.
  intros HF. set (w0 := set_ret (ret w ++ [Page l]) w).
  assert (focus w0 h (l :: ls) R) as HF0 by (by apply focus_set_ret).
  destruct (pop_ok w0 h l ls R HF0) as (Hn & w1 & E1 & HF1 & HC1 & Hc1).
  exists w1. split; [|done]. unfold addNextFromConn. rewrite bind_eq. cbn [load_half gets].
  rewrite (f_ends_first _ _ _ _ HF). cbn [head]. rewrite (bind_ok _ _ w tt w0) by done.
  rewrite bind_eq. cbn [load_page gets]. rewrite (bind_ok _ _ _ _ _ (update_half_eq h _ w0)).
  change (page_at w l) with (page_at w0 l). by rewrite Hn.
Qed.

(** ** Building the object for the stream *)

Definition chunk_of_page (q : qpage) : chunk :=
  mkChunk (q_bytes q) (q_seq q) (q_start q) (q_end q) (q_ac q)
    (match q_ac q with Some _ => true | None => false end).

Lemma chunk_page w l : chunk_of w (Page l) = chunk_of_page (unlinked (page_at w l)).
Proof. done. Qed.
Lemma chunks_content w ls : chunk_of w <$> (Page <$> ls) = chunk_of_page <$> content w ls.
Proof. unfold content. by rewrite <-!list_fmap_compose. Qed.

(** The container [r] is the packet at hand or one of the pages [R]. *)
Definition among (r : byteContainer) R : Prop :=
  match r with Page l => l ∈ R | LivePacket => True end.

Lemma chunk_calm w w' h R r : calm w w' h R → among r R → chunk_of w' r = chunk_of w r.
Proof.
  intros [HF HQ _ _] Hr. destruct r as [l|]; cbn in *.
  - by rewrite (fr_pages _ _ _ _ HF l).
  - by rewrite (qt_LP _ _ HQ).
Qed.

Lemma buildSG_ok w h ls R r0 : focus w h ls R → h_saved (half_at w h) = None → ret w = [r0] → among r0 R →
  let c0 := chunk_of w r0 in ∃ w' sent rest m lc sg,
  buildSG h w = (Ok (ck_end lc, m), w') ∧ ls = sent ++ rest ∧
  contiguous (Add (ck_seq c0) (ck_length c0)) (content w ls) = (content w' sent, content w' rest, m) ∧
  focus w' h rest (sent ++ R) ∧ calm (set_cacheSG sg (set_ret (r0 :: (Page <$> sent)) w)) w' h R ∧
  sg_all sg = r0 :: (Page <$> sent) ∧ sg_toKeep sg = -1 ∧ sg_saved sg = 0 ∧
  sg_Direction sg = h_dir (half_at w h) ∧
  sg_Skip sg = (if h_nextSeq (half_at w h) =? invalidSequence then -1
                else Difference (h_nextSeq (half_at w h)) (ck_seq c0)) ∧
  last (c0 :: (chunk_of_page <$> content w' sent)) = Some lc.
Proof.
  intros HF Hsv Hret Hr c0.
  destruct (half_addContiguous_ok w h ls R (ck_seq c0) (ck_length c0) HF)
    as (w1 & sent & rest & m & E & Hls & Hct & HF1 & HC1).
  rewrite Hret in HC1. cbn [app] in HC1.
  set (rs := r0 :: (Page <$> sent)) in *.
  assert (ret w1 = rs) as Hret1 by (by rewrite (qt_ret _ _ (calm_quiet _ _ _ _ HC1))).
  assert (chunk_of w1 r0 = c0) as Hr1 by (by apply (chunk_calm _ _ _ _ _ HC1)).
  assert (h_saved (half_at w1 h) = None) as Hsv1.
  { rewrite <-Hsv. exact (calm_saved _ _ _ _ HC1). }
  set (skip := if negb (h_nextSeq (half_at w h) =? invalidSequence)
               then Difference (h_nextSeq (half_at w h)) (ck_seq c0) else -1).
  destruct (last (c0 :: (chunk_of_page <$> content w1 sent))) as [lc|] eqn:Hlast; [|by apply last_None in Hlast].
  set (sg := mkSG rs skip (h_dir (half_at w h)) 0 (-1) (h_queuedBytes (half_at w1 h))
    (h_queuedPackets (half_at w1 h)) (h_overlapBytes (half_at w1 h)) (h_overlapPackets (half_at w1 h))).
  set (w3 := put_half h (reset_stats (half_at w1 h)) (set_cacheSG sg w1)).
  exists w3, sent, rest, m, lc, sg. split_and!; try done.
  - unfold buildSG. rewrite bind_eq. cbn [load_half gets]. rewrite bind_eq. cbn [gets].
    rewrite Hret, (bind_ok (lift (index [r0] 0)) _ w r0 w) by done.
    rewrite bind_eq. cbn [load_chunk gets]. fold c0 skip.
    rewrite (bind_ok (addPending h (ck_seq c0)) _ w 0 w).
    2: { unfold addPending. rewrite bind_eq. cbn [load_half gets]. by rewrite Hsv. }
    rewrite (bind_ok _ _ _ _ _ E), bind_eq. cbn [gets]. rewrite Hret1.
    rewrite (bind_ok _ _ w1 tt (set_cacheSG (mkSG rs skip (h_dir (half_at w h)) 0 (-1)
      (sg_queuedBytes (cacheSG w1)) (sg_queuedPackets (cacheSG w1)) (sg_overlapBytes (cacheSG w1))
      (sg_overlapPackets (cacheSG w1))) w1)) by done.
    rewrite (bind_ok (setStatsToSG h) _ _ tt w3) by done.
    destruct (last rs) as [rl|] eqn:Hrl; [|by apply last_None in Hrl].
    rewrite (bind_ok (lift (index rs (len rs - 1))) _ w3 rl w3).
    2: { unfold lift. by rewrite (index_last rs rl Hrl). }
    rewrite bind_eq. cbn [load_chunk gets]. unfold mret, M_ret. do 2 f_equal. f_equal.
    assert (last (chunk_of w1 <$> rs) = Some (chunk_of w1 rl)) as Hl2 by (by rewrite fmap_last, Hrl).
    subst rs. rewrite fmap_cons, chunks_content, Hr1, Hlast in Hl2. by injection Hl2 as ->.
  - apply focus_put_half; [by apply focus_set_SG|done].
  - apply (calm_trans _ (set_cacheSG sg w1)); [by apply calm_set_SG|by apply calm_put_half].
  - cbn. unfold skip. by destruct (h_nextSeq (half_at w h) =? invalidSequence).
Qed.

(** ** Giving the pages back *)

Lemma consume_page_ok w h ls l R : focus w h ls (l :: R) → h_saved (half_at w h) = None → ∃ w',
  consume h (Page l) w = (Ok tt, w') ∧ focus w' h ls R ∧ calm w w' h R ∧ content w' ls = content w ls.
Proof.
  intros [Hs He Hh] Hsv. assert (heap_ok w (l :: ls ++ R)) as Hh'.
  { eapply heap_ok_perm, Hh. by rewrite <-Permutation_middle. }
  assert (head ls ≠ Some l) as Hne.
  { intros E. pose proof (heap_nodup_list _ _ Hh') as [Hl _]%NoDup_cons. apply Hl.
    destruct ls; [done|]. cbn in E. simplify_eq. left. }
  destruct (replace_page_frees w h l (ls ++ R) (ls ++ R) Hh') as (w1 & E & Hh1 & C1 & P1 & F1); [done|].
  assert (∀ x, x ∈ ls → page_at w1 x = page_at w x) as Hpg.
  { intros x Hx. apply (fr_pages _ _ _ _ (calm_frame _ _ _ _ C1)), elem_of_app. by left. }
  exists (put_half h (set_h_pages (h_pages (half_at w1 h) - 1) (half_at w1 h)) w1). split_and!.
  - unfold consume. rewrite bind_eq. cbn [load_half gets]. rewrite Hsv.
    unfold is_page. rewrite bool_decide_false by done.
    replace (h_first (half_at w h)) with (head ls) by (symmetry; apply He).
    rewrite bool_decide_false by done. rewrite (bind_ok _ _ _ tt w) by done.
    unfold release. rewrite (bind_ok _ _ w 1 w1); [reflexivity|]. by rewrite (bind_ok _ _ _ _ _ E).
  - apply focus_put_half; [|done]. split; [by eapply links_ext, Hs|unfold ends_are; by rewrite F1|done].
  - apply (calm_trans _ w1); [|by apply calm_put_half]. eapply calm_sub, C1. intros x Hx.
    apply elem_of_app. by right.
  - by apply contents_ext.
Qed.

Lemma consume_live_ok w h : consume h LivePacket w =
  (Ok tt, put_half h (set_h_pages (h_pages (half_at w h) - 0) (half_at w h)) w).
Proof. reflexivity. Qed.

Lemma consume_all_ok h R ls : ∀ ps w, focus w h ls (ps ++ R) → h_saved (half_at w h) = None → ∃ w',
  consume_all h (Page <$> ps) w = (Ok tt, w') ∧ focus w' h ls R ∧ calm w w' h R ∧ content w' ls = content w ls.
Proof.
  induction ps as [|l ps IH]; intros w HF Hsv; [by exists w|].
  destruct (consume_page_ok w h ls l (ps ++ R) HF Hsv) as (w1 & E1 & HF1 & HC1 & Hc1).
  destruct (IH w1 HF1) as (w2 & E2 & HF2 & HC2 & Hc2); [by rewrite (calm_saved _ _ _ _ HC1)|].
  exists w2. cbn [consume_all fmap list_fmap]. rewrite (bind_ok _ _ _ _ _ E1). split_and!; try done.
  - eapply calm_trans, HC2. eapply calm_sub, HC1. intros x Hx. apply elem_of_app. by right.
  - by rewrite Hc2.
Qed.

(** The containers of a delivery: the packet or a page of [R'], then the pages [sent]. *)
Definition pages_of (r : byteContainer) : list loc := match r with Page l => [l] | LivePacket => [] end.

Lemma cleanSG_ok w h ls r0 sent R ac : focus w h ls (sent ++ pages_of r0 ++ R) →
  h_saved (half_at w h) = None → sg_all (cacheSG w) = r0 :: (Page <$> sent) → sg_toKeep (cacheSG w) = -1 → ∃ w',
  cleanSG h ac w = (Ok tt, w') ∧ focus w' h ls R ∧ calm w w' h R ∧ content w' ls = content w ls.
Proof.
  intros HF Hsv Hall Hk.
  assert (∃ w1, consume h r0 w = (Ok tt, w1) ∧ focus w1 h ls (sent ++ R) ∧ calm w w1 h (sent ++ R) ∧
    content w1 ls = content w ls) as (w1 & E1 & HF1 & HC1 & Hc1).
  { destruct r0 as [l|]; cbn [pages_of app] in HF.
    - apply (focus_perm _ _ _ _ (l :: sent ++ R)) in HF; [|by rewrite Permutation_middle].
      by apply consume_page_ok.
    - eexists. split; [apply consume_live_ok|]. split_and!; [by apply focus_put_half|by apply calm_put_half|done]. }
  destruct (consume_all_ok h R ls sent w1 HF1) as (w2 & E2 & HF2 & HC2 & Hc2).
  { by rewrite (calm_saved _ _ _ _ HC1). }
  assert (calm w w2 h R) as HC.
  { eapply calm_trans, HC2. eapply calm_sub, HC1. intros x Hx. apply elem_of_app. by right. }
  exists (put_half h (set_h_saved None (half_at w2 h)) w2). split_and!.
  - unfold cleanSG. rewrite bind_eq. cbn [get]. rewrite Hk, Hall. cbn [Z.ltb Z.compare].
    rewrite (bind_ok (lift (slice_to _ _)) _ w (r0 :: (Page <$> sent)) w).
    2: { unfold lift. rewrite slice_to_ok by (split; [apply len_nonneg|lia]).
         by rewrite take_ge by (unfold len; lia). }
    rewrite (bind_ok (consume_all _ _) _ w tt w2).
    2: { cbn [consume_all]. by rewrite (bind_ok _ _ _ _ _ E1). }
    rewrite (bind_ok _ _ _ _ _ (update_half_eq h _ w2)).
    rewrite (bind_ok (lift (slice_from _ _)) _ _ [] (put_half h (set_h_saved None (half_at w2 h)) w2)); [done|].
    unfold lift. rewrite slice_from_ok by (split; [apply len_nonneg|lia]).
    by rewrite drop_ge by (unfold len; lia).
  - by apply focus_put_half.
  - eapply calm_trans; [exact HC|]. apply calm_put_half. unfold core. cbn.
    by rewrite (calm_saved _ _ _ _ HC), Hsv.
  - change (content w2 ls = content w ls). by rewrite Hc2.
Qed.

(** ** Delivery *)

(** The streams never ask to keep data. *)
Hypothesis no_keep : ∀ tr s, stream_KeepFrom tr s = None.

(** The frame and the core of the half are as before. *)
Record delivers w w' h R (evs : list event) : Prop := mkDelivers {
  dl_frame : frame w w' h R;
  dl_start : a_start w' = a_start w;
  dl_core : core (half_at w' h) = core (half_at w h);
  dl_trace : trace w' = trace w ++ evs;
}.

Lemma among_pages r R : among r (pages_of r ++ R).
Proof. destruct r; cbn; [left|done]. Qed.

Lemma half_sendToConnection_ok w h ls R r0 ac s : focus w h ls (pages_of r0 ++ R) → ret w = [r0] →
  h_saved (half_at w h) = None → h_stream (half_at w h) = Some s →
  let c0 := chunk_of w r0 in ∃ w' rest sentq m lc sg,
  sendToConnection h ac w = (_ ← (if ck_end lc then closeHalfConnection h else mret tt); mret m) w' ∧
  contiguous (Add (ck_seq c0) (ck_length c0)) (content w ls) = (sentq, content w' rest, m) ∧
  focus w' h rest R ∧ delivers w w' h R [EvReassembledSG s sg ac] ∧
  chunks sg = c0 :: (chunk_of_page <$> sentq) ∧ last (chunks sg) = Some lc ∧
  sg_Direction (object sg) = h_dir (half_at w h) ∧
  sg_Skip (object sg) = (if h_nextSeq (half_at w h) =? invalidSequence then -1
                         else Difference (h_nextSeq (half_at w h)) (ck_seq c0)) ∧
  (endless w → endless w').
Proof.
  intros HF Hret Hsv Hst c0.
  destruct (buildSG_ok w h ls (pages_of r0 ++ R) r0 HF Hsv Hret (among_pages _ _))
    as (w1 & sent & rest & m & lc & sg & E1 & -> & Hct & HF1 & HC1 & Hall & Hk & _ & Hdir & Hskip & Hlc).
  fold c0 in Hct, Hskip, Hlc.
  set (v := sg_view w1). set (w2 := add_event (EvReassembledSG s v ac) w1).
  assert (h_stream (half_at w1 h) = Some s) as Hst1 by (rewrite <-Hst; exact (calm_stream _ _ _ _ HC1)).
  assert (cacheSG w1 = sg) as Hsg by (by rewrite (qt_SG _ _ (calm_quiet _ _ _ _ HC1))).
  assert (chunks v = c0 :: (chunk_of_page <$> content w1 sent)) as Hv.
  { unfold v, sg_view. cbn [chunks]. rewrite Hsg, Hall, fmap_cons, chunks_content. f_equal.
    by apply (chunk_calm _ _ _ _ _ HC1), among_pages. }
  assert (focus w2 h rest (sent ++ pages_of r0 ++ R)) as HF2.
  { destruct HF1 as [? ? Hh]. split; [done|done|by eapply heap_ok_pc, Hh]. }
  destruct (cleanSG_ok w2 h rest r0 sent R ac HF2) as (w3 & E3 & HF3 & HC3 & Hc3);
    [by rewrite <-Hsv; apply (calm_saved _ _ _ _ HC1)|by cbn; rewrite Hsg|by cbn; rewrite Hsg|].
  exists w3, rest, (content w1 sent), m, lc, v. split_and!.
  - unfold sendToConnection. rewrite (bind_ok _ _ _ _ _ E1).
    rewrite (bind_ok (half_stream h) _ w1 s w1).
    2: { unfold half_stream. rewrite bind_eq. cbn [load_half gets].
         by rewrite Hst1. }
    rewrite (bind_ok (ReassembledSG s ac) _ w1 tt w2).
    2: { unfold ReassembledSG. rewrite bind_eq. cbn [get]. rewrite bind_eq. cbn [modify].
         rewrite bind_eq. cbn [gets]. by rewrite no_keep. }
    by rewrite (bind_ok _ _ _ _ _ E3).
  - by rewrite Hc3.
  - done.
  - pose proof (calm_sub _ _ _ R _ ltac:(intros x Hx; apply elem_of_app; by right) HC1) as HC1'.
    destruct HC1' as [F1 [Q1 Q2 Q3 Q4 Q5] G1 N1], HC3 as [F3 [P1 P2 P3 P4 P5] G3 N3].
    split; [|by rewrite P4|by rewrite G3|by rewrite P5; cbn; rewrite Q5].
    eapply frame_transitive; [|exact F3]. destruct F1. by split.
  - exact Hv.
  - by rewrite Hv.
  - by unfold v; cbn; rewrite Hsg.
  - by unfold v; cbn; rewrite Hsg.
  - intros He. by apply (calm_endless _ _ _ _ HC3), (calm_endless _ _ _ _ HC1).
Qed.

Lemma delivers_refl w h R : delivers w w h R [].
Proof. split; rewrite ?app_nil_r; done. Qed.
Lemma delivers_trans w1 w2 w3 h R e1 e2 : delivers w1 w2 h R e1 → delivers w2 w3 h R e2 →
  delivers w1 w3 h R (e1 ++ e2).
Proof.
  intros [F1 S1 C1 T1] [F2 S2 C2 T2].
  split; [by eapply frame_transitive|congruence|congruence|].
  rewrite T2, T1. by rewrite app_assoc.
Qed.
Lemma calm_delivers w w' h R : calm w w' h R → delivers w w' h R [].
Proof. intros [? [] ? ?]. split; rewrite ?app_nil_r; done. Qed.

(** ** Queueing a packet *)

(** A half-connection whose queue lies between [lo] and [hi]. *)
Record queues w h ls R lo hi : Prop := mkQueues {
  qs_focus : focus w h ls R;
  qs_ordered : ordered lo (content w ls) hi;
  qs_roomy : Forall roomy (content w ls);
}.

(** [q'] is [q] with the data [bs] at [start] in it. *)
Definition overrides start bs (q q' : list qpage) : Prop := ∀ x, queue_at q' x =
  match byte_at start bs x with Some b => Some b | None => queue_at q x end.

Lemma queue_ok w h ls R lo hi bs seq start end_ action ci : queues w h ls R lo hi → window lo hi →
  lo <= seq → seq + len bs <= hi → ret w = [] → a_queue action = true → ∃ w' ls',
  handleBytes bs seq h start end_ action (Some ci) w =
    (if over_limit (options w') (h_pages (half_at w' h)) (pc_used (pc w')) then
       _ ← addNextFromConn h; mret (mkAction (a_nextSeq action) false)
     else mret action) w' ∧
  queues w' h ls' R lo hi ∧ overrides seq bs (content w ls) (content w' ls') ∧ ret w' = [] ∧
  delivers w w' h R [] ∧ (end_ = false → endless w → endless w').
Proof.
  intros [HF Ho Hr] Hw Hlo Hhi Hret Hq. set (lp := mkLivePacket bs start end_ (Some ci) seq).
  set (w0 := set_cacheLP lp w).
  destruct (checkOverlap_ok w0 h ls R true (Some ci) ci lo hi) as (w1 & ls1 & bs' & before & new & after &
    E1 & HF1 & HC1 & Hc1 & Hr1 & [_ Hadm] & Hnew); try done; [by apply focus_set_LP|].
  destruct (Hadm new Hnew) as [Ho1 Hov]. rewrite <-Hc1 in Ho1, Hov.
  exists w1, ls1. split_and!; try done.
  - unfold handleBytes. rewrite (bind_ok _ _ w tt w0) by done. rewrite Hq.
    rewrite (bind_ok _ _ _ _ _ E1), bind_eq. done.
  - rewrite (qt_ret _ _ (calm_quiet _ _ _ _ HC1)). exact Hret.
  - destruct HC1 as [F [Q1 Q2 Q3 Q4 Q5] G _]. split; [by destruct F|done|done|by rewrite Q5, app_nil_r].
  - intros -> [_ He]. by apply (calm_endless _ _ _ _ HC1).
Qed.

(** ** A packet in order *)

(** What is left of the data [bs] at [seq] after [n]. *)
Definition trim (n seq : Z) (bs : bytes) : bytes := drop (Z.to_nat (n - seq)) bs.

Lemma overlapExisting_ok w h lo hi seq e bs n : window lo hi → h_nextSeq (half_at w h) = n →
  lo <= n <= hi → lo <= seq <= n → ∃ w',
  overlapExisting h seq e bs w = (Ok (trim n seq bs, n), w') ∧
  (∀ ls R, focus w h ls R → focus w' h ls R) ∧ (∀ R, calm w w' h R) ∧ mem w' = mem w.
Proof.
  intros Hw Hn Hnb Hs. unfold overlapExisting, trim. rewrite bind_eq. cbn [load_half gets]. rewrite Hn.
  assert (0 <= lo) by apply Hw. rewrite (proj2 (Z.eqb_neq n invalidSequence)) by (unfold invalidSequence; lia).
  rewrite (Difference_window lo hi) by (done || lia). pose proof (len_nonneg bs).
  destruct (Z.eqb_spec (n - seq) 0) as [Hz|Hz].
  { exists w. rewrite Hz. replace n with seq by lia. split_and!; done. }
  set (w1 := if negb (len bs =? 0) then put_half h (add_overlap 1 (n - seq) (half_at w h)) w else w).
  exists w1. split_and!.
  - rewrite (bind_ok _ _ w tt w1) by (unfold w1; by destruct (len bs =? 0)).
    rewrite bind_eq. destruct (Z.geb_spec (n - seq) (len bs)).
    + rewrite slice_from_ok by lia. cbn [lift]. unfold mret, M_ret. do 3 f_equal.
      rewrite !drop_ge by (unfold len in *; lia). done.
    + by rewrite slice_from_ok by lia.
  - intros ls R HF. unfold w1. destruct (negb _); [by apply focus_put_half|done].
  - intros R. unfold w1. destruct (negb _); [by apply calm_put_half|done].
  - unfold w1. by destruct (negb _).
Qed.

Lemma content_mem w w' ls : mem w' = mem w → content w' ls = content w ls.
Proof. intros E. apply contents_ext. intros l _. unfold page_at. by rewrite E. Qed.

Lemma window_sub lo lo' hi : lo <= lo' → window lo hi → window lo' hi.
Proof. intros Hl (H1 & H2 & H3). split_and!; lia. Qed.

Lemma direct_ok w h ls R lo0 lo hi bs seq n start end_ action ci : queues w h ls R lo hi → window lo0 hi →
  lo0 <= lo → h_nextSeq (half_at w h) = n → lo <= n <= hi → lo0 <= seq <= n → n + len (trim n seq bs) <= hi →
  ret w = [] → a_queue action = false → ∃ w' ls' bs' before after,
  handleBytes bs seq h start end_ action (Some ci) w = (Ok action, w') ∧
  focus w' h ls' R ∧ content w' ls' = before ++ after ∧ Forall roomy (content w' ls') ∧
  admits lo hi n (trim n seq bs) bs' (content w ls) before after ∧
  cacheLP w' = mkLivePacket bs' start end_ (Some ci) n ∧
  ret w' = (if negb (len bs' =? 0) || end_ || start then [LivePacket] else []) ∧ delivers w w' h R [] ∧
  (end_ = false → endless w → endless w').
Proof.
  intros [HF Ho Hr] Hw0 Hl0 Hn Hnb Hs Hhi Hret Hq. set (lp := mkLivePacket bs start end_ (Some ci) seq).
  set (w0 := set_cacheLP lp w). pose proof (window_sub _ _ _ Hl0 Hw0) as Hw.
  destruct (overlapExisting_ok w0 h lo0 hi seq (Add seq (len bs)) bs n Hw0 Hn ltac:(lia) Hs) as (w1 & E1 & HF1 & HC1 & Hm1).
  set (lp2 := mkLivePacket (trim n seq bs) start end_ (Some ci) n). set (w2 := set_cacheLP lp2 w1).
  assert (focus w2 h ls R) as HF2 by (apply focus_set_LP, HF1; by apply focus_set_LP).
  assert (cacheLP w1 = lp) as Hlp1 by apply (HC1 R).
  assert (content w2 ls = content w ls) as Hc2 by (by apply content_mem).
  destruct (checkOverlap_ok w2 h ls R false (Some ci) ci lo hi) as (w3 & ls3 & bs' & before & new & after &
    E3 & HF3 & HC3 & Hc3 & Hr3 & Hadm & ->); try done; [by rewrite Hc2..|cbn; lia|].
  rewrite Hc2 in Hadm. cbn [lp_seq lp_bytes cacheLP set_cacheLP w2 lp2] in Hadm.
  assert (cacheLP w3 = mkLivePacket bs' start end_ (Some ci) n) as Hlp3
    by (by rewrite (qt_LP _ _ (calm_quiet _ _ _ _ HC3))).
  assert (ret w3 = []) as Hret3.
  { rewrite (qt_ret _ _ (calm_quiet _ _ _ _ HC3)). cbn. by rewrite (qt_ret _ _ (calm_quiet _ _ _ _ (HC1 R))). }
  set (b := negb (len bs' =? 0) || end_ || start).
  exists (if b then set_ret [LivePacket] w3 else w3), ls3, bs', before, after. split_and!; try done.
  - unfold handleBytes. rewrite (bind_ok _ _ w tt w0) by done. rewrite Hq, (bind_ok _ _ _ _ _ E1).
    rewrite (bind_ok _ _ w1 tt w2) by (cbn [fst snd]; unfold modify, w2, lp2; by rewrite Hlp1).
    rewrite (bind_ok _ _ _ _ _ E3), bind_eq. cbn [get]. rewrite Hlp3. cbn [lp_bytes]. fold b.
    rewrite bind_eq. destruct b; [|done]. unfold modify. by rewrite Hret3.
  - destruct b; [by apply focus_set_ret|done].
  - by destruct b.
  - by destruct b.
  - by destruct b.
  - fold b. by destruct b.
  - assert (delivers w w3 h R []) as HD.
    { apply (delivers_trans _ w1 _ _ _ [] []).
      - destruct (HC1 R) as [F [Q1 Q2 Q3 Q4 Q5] G _]. split; [by destruct F|done|done|by rewrite Q5, app_nil_r].
      - destruct HC3 as [F [Q1 Q2 Q3 Q4 Q5] G _]. split; [by destruct F|done|done|by rewrite Q5, app_nil_r]. }
    destruct b; [|done]. destruct HD as [F Q1 Q2 Q3]. split; [by destruct F|done..].
  - intros -> He. assert (endless w3) as He3; [|by destruct b].
    apply (calm_endless _ _ _ _ HC3). split; [done|].
    exact (proj2 (calm_endless _ _ _ _ (HC1 R) (conj eq_refl (proj2 He)))).
Qed.
End half.
