(* ===== verification/ReassemblyData.v ===== *)
(** * What the streams receive

    For one half-connection whose packets carry slices of a byte stream: what
    was delivered is a prefix of the stream, in order and without gaps or
    repetitions, and it reaches as far as the packets so far allow. *)

From S2P Require Import Prelude Flows BaseLayers Tcp TcpCheck Capture Links Reassembly ReassemblyQueue ReassemblyHeap ReassemblyHalf.

(** ** The data of the pages that follow each other *)

Definition pages_data (q : list qpage) : bytes := concat (q_bytes <$> q).

Lemma pages_data_cons p q : pages_data (p :: q) = q_bytes p ++ pages_data q.
Proof. done. Qed.

Lemma contiguous_spec lo hi q : window lo hi → ∀ n sent rest m, lo <= n → ordered n q hi →
  contiguous n q = (sent, rest, m) →
  m = n + len (pages_data sent) ∧ ordered m rest hi ∧ queue_at rest m = None ∧
  ∀ x, queue_at q x = match byte_at n (pages_data sent) x with Some b => Some b | None => queue_at rest x end.
Proof.
  intros Hw. induction q as [|p q IH]; intros n sent rest m Hn Ho; cbn [contiguous].
  - intros [= <- <- <-]. cbn [pages_data fmap list_fmap concat]. rewrite len_nil. split_and!; [lia|done|done|].
    intros x. by rewrite byte_at_nil.
  - pose proof Ho as (H1 & H2 & H3). pose proof (ordered_le _ _ _ H3).
    pose proof (len_nonneg (q_bytes p)).
    rewrite (Difference_window lo hi) by (done || lia). destruct (Z.eqb_spec (q_seq p - n) 0) as [Hz|Hz].
    + assert (q_seq p = n) as E by lia. rewrite E in *. rewrite (Add_window lo hi) by (done || lia).
      destruct (contiguous _ q) as [[sent' rest'] m'] eqn:Ec. intros [= <- <- <-].
      destruct (IH (n + len (q_bytes p)) _ _ _ ltac:(lia) H3 Ec) as (-> & G2 & G3 & G4). rewrite pages_data_cons, len_app.
      split_and!; [lia|done|done|].
      intros x. cbn. rewrite E, byte_at_app, G4. by destruct (byte_at n (q_bytes p) x).
    + intros [= <- <- <-]. unfold pages_data. cbn [fmap list_fmap concat]. rewrite len_nil, Z.add_0_r.
      split_and!; [done|done| |intros x; by rewrite byte_at_nil].
      cbn. rewrite (proj2 (byte_at_None _ _ _)) by lia. eapply queue_at_out; [done|lia].
Qed.

Lemma queue_at_None q x : queue_at q x = None ↔ Forall (fun p => ¬ covers x p) q.
Proof.
  induction q as [|p q IH]; [done|]. cbn. rewrite Forall_cons, <-IH. unfold covers at 1.
  rewrite <-byte_at_None. by destruct (byte_at _ _ x); naive_solver.
Qed.

Lemma trim_byte n seq bs x : seq <= n <= x → byte_at n (trim n seq bs) x = byte_at seq bs x.
Proof.
  intros Hx. unfold byte_at, trim. rewrite (proj2 (Z.leb_le n x)), (proj2 (Z.leb_le seq x)) by lia.
  rewrite lookup_drop. f_equal. lia.
Qed.

Lemma len_trim n seq bs : seq <= n → len (trim n seq bs) = Z.max 0 (len bs - (n - seq)).
Proof. intros. unfold trim. rewrite len_drop. lia. Qed.

(** ** What the streams were told *)

Definition event_data (d : TCPFlowDirection) (e : event) : bytes :=
  match e with
  | EvReassembledSG _ sg _ =>
      if bool_decide (sg_Direction (object sg) = d) then concat (ck_bytes <$> chunks sg) else []
  | _ => []
  end.

(** The data that was delivered in direction [d]. *)
Definition delivered (d : TCPFlowDirection) (tr : list event) : bytes := concat (event_data d <$> tr).

Lemma delivered_app d t1 t2 : delivered d (t1 ++ t2) = delivered d t1 ++ delivered d t2.
Proof. unfold delivered. by rewrite fmap_app, concat_app. Qed.

Section data.
Context `{Env : Environment}.
Implicit Types (w : world) (h : half_ref) (ls R : list loc).
Hypothesis no_keep : ∀ tr s, stream_KeepFrom tr s = None.

(** An open half-connection that waits for [n]. *)
Record alive w h (s : nat) (n : Sequence) : Prop := mkAlive {
  al_saved : h_saved (half_at w h) = None;
  al_stream : h_stream (half_at w h) = Some s;
  al_closed : h_closed (half_at w h) = false;
  al_nextSeq : h_nextSeq (half_at w h) = n;
}.

Lemma core_eq v v' : core v' = core v → h_dir v' = h_dir v ∧ h_saved v' = h_saved v ∧
  h_nextSeq v' = h_nextSeq v ∧ h_stream v' = h_stream v ∧ h_closed v' = h_closed v.
Proof. intros [= ? ? ? ? ? ? ? ?]. done. Qed.

Lemma alive_core w w' h s n : core (half_at w' h) = core (half_at w h) → alive w h s n → alive w' h s n.
Proof. intros (E1 & E2 & E3 & E4 & E5)%core_eq []. split; congruence. Qed.

(** A queue with the packet's data in the gap at [n], when the loop left [bs'] of it. *)
Lemma admits_front lo hi n b1 bs' q before after : window lo hi → lo <= n → ordered n q hi →
  admits n hi n b1 bs' q before after → bs' ≠ [] → before = [].
Proof.
  intros Hw Hn Ho [_ Hadm] Hne. destruct (Hadm [mkQ bs' 0 n None zero_time false false]) as [Ho' _].
  { apply (holds_one (mkQ bs' 0 n None zero_time false false)). done. }
  apply ordered_app in Ho' as (m & Hb & Ho'). cbn in Ho'. destruct Ho' as (Hm & _).
  destruct before as [|p before]; [done|]. destruct Hb as (H1 & H2 & H3). apply ordered_le in H3.
  apply len_pos in H2. lia.
Qed.

(** The byte at [x] of [data] at [n], and beyond it of the queue [q]. *)
Definition either_at (n : Z) (data : bytes) (q : list qpage) (x : Z) : option Z :=
  match byte_at n data x with Some b => Some b | None => queue_at q x end.

Lemma direct_front lo hi n b1 bs' q before after sent rest m : window lo hi → lo <= n →
  ordered n q hi → admits n hi n b1 bs' q before after →
  contiguous (Add n (len bs')) (before ++ after) = (sent, rest, m) →
  let data := bs' ++ pages_data sent in
  m = n + len data ∧ ordered m rest hi ∧ queue_at rest m = None ∧
  ∀ x, either_at n b1 q x = either_at n data rest x.
Proof.
  intros Hw Hn Ho Hadm Hct data. destruct (decide (bs' = [])) as [->|Hb].
  - destruct Hadm as [_ Hadm]. destruct (Hadm [] (holds_nil n)) as [Hov Hq].
    cbn [app] in *. pose proof (ordered_le _ _ _ Hov).
    rewrite len_nil, (Add_window lo hi), Z.add_0_r in Hct by (done || lia).
    destruct (contiguous_spec lo hi _ Hw n sent rest m Hn Hov Hct) as (G1 & G2 & G3 & G4).
    split_and!; try done. intros x. unfold either_at. by rewrite <-Hq, G4.
  - pose proof (admits_front _ _ _ _ _ _ _ _ Hw Hn Ho Hadm Hb) as ->. destruct Hadm as [_ Hadm].
    set (c := mkQ bs' 0 n None zero_time false false).
    destruct (Hadm [c] (holds_one c Hb)) as [Hov Hq]. cbn [app] in *.
    pose proof Hov as (_ & _ & Hle). apply ordered_le in Hle. cbn in Hle. pose proof (len_nonneg bs').
    assert (contiguous n (c :: after) = (c :: sent, rest, m)) as Hct'.
    { cbn [contiguous q_seq q_bytes c]. rewrite (Difference_window lo hi) by (done || lia).
      replace (n - n =? 0) with true by lia. by rewrite Hct. }
    destruct (contiguous_spec lo hi _ Hw n _ rest m Hn Hov Hct') as (G1 & G2 & G3 & G4).
    rewrite pages_data_cons in G1, G4. split_and!; try done. intros x. unfold either_at.
    by rewrite <-Hq, G4.
Qed.

(** ** A packet in order *)

Definition unlimited w : Prop :=
  MaxBufferedPagesTotal (options w) <= 0 ∧ MaxBufferedPagesPerConnection (options w) <= 0.

(** What a packet changes: the half waits for [m] now, and the data up to there was delivered. *)
Record progress w w' h R (s : nat) (hi n m : Z) (ls' : list loc) (data : bytes) : Prop := mkProgress {
  pg_queues : queues w' h ls' R m hi;
  pg_alive : alive w' h s m;
  pg_frame : frame w w' h R;
  pg_dir : h_dir (half_at w' h) = h_dir (half_at w h);
  pg_len : m = n + len data;
  pg_gap : queue_at (content w' ls') m = None;
  pg_endless : endless w → endless w';
  pg_trace : ∃ evs, trace w' = trace w ++ evs ∧ delivered (h_dir (half_at w h)) evs = data ∧
                    delivered (negb (h_dir (half_at w h))) evs = [];
}.

Lemma endless_pages w ls : endless w → Forall (fun q => q_end q = false) (content w ls).
Proof. intros [_ He]. apply Forall_fmap, Forall_true. intros l. apply He. Qed.

Lemma endless_last (bs : bytes) k n ac start (q sent rest : list qpage) m lc :
  Forall (fun p => q_end p = false) q → contiguous n q = (sent, rest, m) →
  last (mkChunk bs k start false ac true :: (chunk_of_page <$> sent)) = Some lc → ck_end lc = false.
Proof.
  intros He Hct Hl. apply contiguous_app in Hct as ->. apply Forall_app in He as [He _].
  apply last_Some_elem_of in Hl. apply elem_of_cons in Hl as [->|Hl]; [done|].
  apply list_elem_of_fmap in Hl as (p & -> & Hp). cbn. rewrite Forall_forall in He. by apply He.
Qed.

Lemma direct_progress w h ls R lo hi n s t ac action seq : let bs := Payload (base t) in
  window lo hi → queues w h ls R n hi → alive w h s n → endless w → ret w = [] →
  lo <= seq <= n → seq + len bs <= hi → n <= hi →
  SYN t = true ∨ queue_at (content w ls) n = None → RST t = false → FIN t = false →
  a_queue action = false → a_nextSeq action = invalidSequence →
  ∃ w' ls' data, handle_and_send t h ac action seq w = (Ok tt, w') ∧
    progress w w' h R s hi n (n + len data) ls' data ∧
    ∀ x, n <= x → either_at seq bs (content w ls) x = either_at n data (content w' ls') x.
Proof.
  intros bs Hw HQ HA He Hret Hs Hhi Hnhi Hsyn Hr Hf Hq Ha.
  pose proof (window_sub lo n hi ltac:(lia) Hw) as Hwn. pose proof (len_nonneg bs).
  destruct (direct_ok w h ls R lo n hi bs seq n (SYN t) (RST t || FIN t) action ac)
    as (w1 & ls1 & bs' & before & after & E1 & HF1 & Hc1 & Hr1 & Hadm & Hlp1 & Hret1 & HD1 & He1); try done.
  { lia. } { apply HA. } { rewrite len_trim by lia. lia. }
  rewrite Hr, Hf in *. cbn [orb] in *. specialize (He1 eq_refl He).
  pose proof (alive_core _ _ _ _ _ (dl_core _ _ _ _ _ HD1) HA) as HA1.
  unfold handle_and_send. rewrite Hr, Hf. cbn [orb].
  rewrite (bind_ok _ _ _ _ _ E1), bind_eq. cbn [gets]. rewrite Hret1.
  destruct (negb (len bs' =? 0) || false || SYN t) eqn:Hb.
  - destruct (half_sendToConnection_ok no_keep w1 h ls1 R LivePacket (Some ac) s HF1 Hret1 (al_saved _ _ _ _ HA1)
      (al_stream _ _ _ _ HA1)) as (w2 & rest & sentq & m & lc & sg & E2 & Hct & HF2 & HD2 & Hck & Hlc & Hdir & _ & He2).
    cbn [chunk_of] in Hct, Hck. rewrite Hlp1 in Hct, Hck. cbn [lp_bytes lp_seq lp_start lp_end lp_ac ck_seq] in Hct, Hck.
    unfold ck_length in Hct. cbn [ck_bytes] in Hct. rewrite Hc1 in Hct.
    destruct (direct_front n hi n _ bs' _ before after sentq _ m Hwn ltac:(lia) (qs_ordered _ _ _ _ _ _ HQ) Hadm Hct)
      as (Hm & Ho2 & Hgap & Hat).
    assert (ck_end lc = false) as Hend.
    { rewrite Hck in Hlc. eapply endless_last; [|exact Hct|exact Hlc]. rewrite <-Hc1. by apply endless_pages. }
    set (data := bs' ++ pages_data sentq) in *. pose proof (len_nonneg data).
    set (w3 := put_half h (set_h_nextSeq m (half_at w2 h)) w2).
    pose proof (core_eq _ _ (dl_core _ _ _ _ _ HD2)) as (D1 & D2 & D3 & D4 & D5).
    pose proof (core_eq _ _ (dl_core _ _ _ _ _ HD1)) as (D1' & _).
    exists w3, rest, data. split; [|split].
    + change (len [LivePacket] >? 0) with true. cbn match.
      rewrite (bind_ok _ _ w1 m w2) by (by rewrite E2, Hend).
      assert (m =? invalidSequence = false) as -> by (apply Z.eqb_neq; unfold invalidSequence; destruct Hw; lia).
      cbn [negb]. by rewrite (bind_ok _ _ _ _ _ (update_half_eq h _ w2)).
    + subst m. split; try done.
      * split; [by apply focus_put_half|done|]. rewrite Hc1, (contiguous_app _ _ _ _ _ Hct) in Hr1.
        by apply Forall_app in Hr1 as [_ Hr1].
      * destruct HA1. split; unfold w3; rewrite half_put_eq; cbn; congruence.
      * eapply frame_transitive; [exact (dl_frame _ _ _ _ _ HD1)|].
        eapply frame_transitive; [exact (dl_frame _ _ _ _ _ HD2)|apply frame_put_half].
      * unfold w3. rewrite half_put_eq. cbn. congruence.
      * intros _. destruct (He2 He1). by split.
      * exists [EvReassembledSG s sg (Some ac)]. unfold delivered. cbn [fmap list_fmap concat event_data].
        rewrite !app_nil_r, Hdir, D1', bool_decide_true by done.
        rewrite (bool_decide_false (h_dir (half_at w h) = negb _)) by (by destruct (h_dir (half_at w h))).
        split_and!; [|rewrite Hck|done].
        -- unfold w3. cbn. rewrite (dl_trace _ _ _ _ _ HD2), (dl_trace _ _ _ _ _ HD1). by rewrite app_nil_r.
        -- cbn. subst data. unfold pages_data. by rewrite <-list_fmap_compose.
    + intros x Hx. rewrite <-Hat. unfold either_at. by rewrite trim_byte by lia.
  - apply orb_false_iff in Hb as [Hb Hsy]. rewrite orb_false_r in Hb. apply negb_false_iff, Z.eqb_eq, len_zero in Hb.
    destruct Hsyn as [Hsyn|Hgap]; [congruence|]. subst bs'. destruct Hadm as [Htrim Hadm].
    destruct (Hadm [] (holds_nil n)) as [Ho1 Hq1]. cbn [app] in Ho1, Hq1. rewrite <-Hc1 in Ho1, Hq1.
    assert (trim n seq bs = []) as Hz.
    { destruct Htrim as [E|[_ Hcov]]; [done|]. apply queue_at_None in Hgap. exfalso.
      apply Exists_exists in Hcov as (p & Hp & Hcov). rewrite Forall_forall in Hgap. by apply (Hgap p). }
    exists w1, ls1, []. rewrite len_nil, Z.add_0_r. split; [|split].
    + rewrite bind_eq, Ha. done.
    + split; try done.
      * by apply (dl_frame _ _ _ _ _ HD1).
      * apply (core_eq _ _ (dl_core _ _ _ _ _ HD1)).
      * rewrite len_nil. lia.
      * by rewrite Hq1, Hz, byte_at_nil.
      * exists []. split_and!; [exact (dl_trace _ _ _ _ _ HD1)|done|done].
    + intros x Hx. unfold either_at. rewrite <-(trim_byte n) by lia. by rewrite Hz, Hq1, Hz, !byte_at_nil.
Qed.

(** ** A packet ahead of its turn *)

Lemma unlimited_over w pages used : unlimited w → over_limit (options w) pages used = false.
Proof.
  intros [H1 H2]. unfold over_limit.
  rewrite !Z.gtb_ltb, (proj2 (Z.ltb_ge 0 (MaxBufferedPagesPerConnection (options w)))),
    (proj2 (Z.ltb_ge 0 (MaxBufferedPagesTotal (options w)))) by lia. done.
Qed.

Lemma queue_progress w h ls R lo hi s nx t ac action seq : let bs := Payload (base t) in
  window lo hi → queues w h ls R lo hi → alive w h s nx → unlimited w → ret w = [] →
  lo <= seq → seq + len bs <= hi → RST t = false → FIN t = false →
  a_queue action = true → a_nextSeq action = invalidSequence →
  ∃ w' ls', handle_and_send t h ac action seq w = (Ok tt, w') ∧ queues w' h ls' R lo hi ∧
    alive w' h s nx ∧ overrides seq bs (content w ls) (content w' ls') ∧ delivers w w' h R [] ∧
    (endless w → endless w').
Proof.
  intros bs Hw HQ HA Hun Hret Hlo Hhi Hr Hf Hq Ha.
  destruct (queue_ok w h ls R lo hi bs seq (SYN t) (RST t || FIN t) action ac HQ Hw Hlo Hhi Hret Hq)
    as (w1 & ls1 & E1 & HQ1 & Hov & Hret1 & HD1 & He1).
  assert (unlimited w1) as Hun1 by (unfold unlimited; by rewrite (fr_options _ _ _ _ (dl_frame _ _ _ _ _ HD1))).
  rewrite unlimited_over in E1 by done. exists w1, ls1. split_and!; try done.
  - unfold handle_and_send. rewrite (bind_ok _ _ w action w1) by exact E1.
    rewrite bind_eq. cbn [gets]. rewrite Hret1. rewrite bind_eq, Ha. done.
  - eapply alive_core, HA. exact (dl_core _ _ _ _ _ HD1).
  - intros He. apply He1; [by rewrite Hr, Hf|done].
Qed.

(** ** A packet of an open half-connection *)

Lemma either_override n seq bs q q' x : overrides seq bs q q' → either_at seq bs q x = either_at n [] q' x.
Proof. intros Hov. unfold either_at. by rewrite byte_at_nil, Hov. Qed.

(** The acknowledgment number is noted first. *)
Definition noted (t : TCP) h w : world :=
  if ACK t then put_half h (set_h_ackSeq (Ack t) (half_at w h)) w else w.

Lemma noted_eq {X} t h w (k : M world X) :
  (_ ← (if ACK t then update_half h (set_h_ackSeq (Ack t)) else mret tt); k) w = k (noted t h w).
Proof. unfold noted. by destruct (ACK t). Qed.

(** Changing fields of the half that say nothing about its queue. *)
Record tweaked w w' h : Prop := mkTweaked {
  tw_frame : ∀ R, frame w w' h R;
  tw_quiet : quiet w w';
  tw_mem : mem w' = mem w;
  tw_focus : ∀ ls R, focus w h ls R → focus w' h ls R;
  tw_dir : h_dir (half_at w' h) = h_dir (half_at w h);
}.

Lemma tweaked_put w h v : h_first v = h_first (half_at w h) → h_last v = h_last (half_at w h) →
  h_dir v = h_dir (half_at w h) → tweaked w (put_half h v w) h.
Proof.
  intros H1 H2 H3. split; [intros; apply frame_put_half|done|done|intros; by apply focus_put_half|].
  by rewrite half_put_eq.
Qed.
Lemma tweaked_refl w h : tweaked w w h.
Proof. done. Qed.
Lemma tweaked_trans w1 w2 w3 h : tweaked w1 w2 h → tweaked w2 w3 h → tweaked w1 w3 h.
Proof.
  intros [F1 Q1 M1 K1 D1] [F2 Q2 M2 K2 D2].
  split; [intros R; by eapply frame_transitive|by eapply quiet_trans|congruence|auto|congruence].
Qed.
Lemma tweaked_queues w w' h ls R lo hi : tweaked w w' h → queues w h ls R lo hi → queues w' h ls R lo hi.
Proof. intros [F Q M K D] [? ? ?]. split; rewrite ?(content_mem w w') by done; auto. Qed.
Lemma tweaked_endless w w' h : tweaked w w' h → endless w → endless w'.
Proof.
  intros [F Q M K D] [E1 E2]. split; [by rewrite (qt_LP _ _ Q)|]. intros l. unfold page_at. rewrite M. apply E2.
Qed.
Lemma tweaked_unlimited w w' h : tweaked w w' h → unlimited w → unlimited w'.
Proof. intros [F Q M K D]. unfold unlimited. by rewrite (fr_options _ _ _ _ (F [])). Qed.

Lemma progress_tweaked w w1 w' h R s hi n m ls' data : tweaked w w1 h →
  progress w1 w' h R s hi n m ls' data → progress w w' h R s hi n m ls' data.
Proof.
  intros HT [P1 P2 P3 P4 P5 P6 P7 P8]. pose proof (tweaked_endless _ _ _ HT) as He. destruct HT as [F Q M K D].
  split; try done.
  - by eapply frame_transitive.
  - by rewrite P4.
  - auto.
  - destruct P8 as (evs & P8). exists evs. rewrite <-D. by rewrite (qt_trace _ _ Q) in P8.
Qed.

Lemma noted_tweaked t h w : tweaked w (noted t h w) h.
Proof. unfold noted. destruct (ACK t); [by apply tweaked_put|apply tweaked_refl]. Qed.
Lemma noted_alive t h w s n : alive w h s n → alive (noted t h w) h s n.
Proof. unfold noted. destruct (ACK t); [|done]. intros []. split; by rewrite half_put_eq. Qed.
Lemma noted_ret t h w : ret (noted t h w) = ret w.
Proof. by unfold noted; destruct (ACK t). Qed.
Lemma noted_a_start t h w : a_start (noted t h w) = a_start w.
Proof. by unfold noted; destruct (ACK t). Qed.

(** A half that knows its place, [n]: the bytes from [n] are those of the packet and of the queue. *)
Lemma accepted_next w h ls R lo hi n s t ac : let bs := Payload (base t) in
  window lo hi → queues w h ls R n hi → alive w h s n → endless w → unlimited w → ret w = [] →
  lo <= n <= hi → lo <= Seq t → Seq t + len bs <= hi → queue_at (content w ls) n = None →
  RST t = false → FIN t = false →
  ∃ w' ls' data, assemble_accepted t h ac w = (Ok tt, w') ∧
    progress w w' h R s hi n (n + len data) ls' data ∧
    ∀ x, n <= x → either_at (Seq t) bs (content w ls) x = either_at n data (content w' ls') x.
Proof.
  intros bs Hw HQ HA He Hun Hret Hn Hlo Hhi Hgap Hr Hf.
  unfold assemble_accepted. rewrite noted_eq. set (w1 := noted t h w).
  pose proof (noted_tweaked t h w) as HT. fold w1 in HT.
  pose proof (noted_alive t h w s n HA) as HA1. fold w1 in HA1.
  pose proof (tweaked_queues _ _ _ _ _ _ _ HT HQ) as HQ1. pose proof (tweaked_endless _ _ _ HT He) as He1.
  assert (content w1 ls = content w ls) as Hc1 by (apply content_mem, HT).
  assert (ret w1 = []) as Hret1 by (unfold w1; by rewrite noted_ret).
  set (action := mkAction invalidSequence (n <? Seq t)).
  rewrite (bind_ok (choose_action h t (Seq t)) _ w1 (action, Seq t) w1).
  2: { unfold choose_action. rewrite bind_eq. cbn [load_half gets]. rewrite bind_eq. cbn [gets].
       rewrite (al_nextSeq _ _ _ _ HA1), (proj2 (Z.eqb_neq n invalidSequence))
         by (unfold invalidSequence; destruct Hw; lia).
       rewrite (Difference_window lo hi) by (done || (pose proof (len_nonneg bs); lia)).
       unfold action. do 4 f_equal. destruct (Z.gtb_spec (Seq t - n) 0), (Z.ltb_spec n (Seq t)); lia || done. }
  cbn match. destruct (Z.ltb_spec n (Seq t)) as [Hlt|Hle].
  - destruct (queue_progress w1 h ls R n hi s n t ac action (Seq t)) as
      (w' & ls' & E & HQ' & HA' & Hov & HD & He'); try done; try lia.
    { apply (window_sub lo); [lia|done]. } { by eapply tweaked_unlimited. }
    exists w', ls', []. rewrite len_nil, Z.add_0_r. split; [exact E|]. split.
    + eapply progress_tweaked; [exact HT|]. split; try done.
      * exact (dl_frame _ _ _ _ _ HD).
      * apply (core_eq _ _ (dl_core _ _ _ _ _ HD)).
      * rewrite len_nil. lia.
      * rewrite Hov, Hc1, Hgap, (proj2 (byte_at_None _ _ _)) by lia. done.
      * exists []. split_and!; [exact (dl_trace _ _ _ _ _ HD)|done|done].
    + intros x _. rewrite <-Hc1. by apply either_override.
  - destruct (direct_progress w1 h ls R lo hi n s t ac action (Seq t)) as (w' & ls' & data & E & HP & Hat);
      try done; try lia.
    { right. by rewrite Hc1. }
    exists w', ls', data. split; [exact E|]. split; [by eapply progress_tweaked|]. intros x Hx.
    rewrite <-Hc1. by apply Hat.
Qed.

(** A half that waits for its start: a SYN without data settles its place, other packets wait. *)
Lemma accepted_syn w h ls R hi s t ac : let n := Seq t + 1 in
  window (Seq t) hi → queues w h ls R n hi → alive w h s invalidSequence → endless w → ret w = [] →
  n <= hi → SYN t = true → Payload (base t) = [] → RST t = false → FIN t = false →
  ∃ w' ls' data, assemble_accepted t h ac w = (Ok tt, w') ∧
    progress w w' h R s hi n (n + len data) ls' data ∧
    ∀ x, n <= x → queue_at (content w ls) x = either_at n data (content w' ls') x.
Proof.
  intros n Hw HQ HA He Hret Hn Hsy Hb Hr Hf.
  unfold assemble_accepted. rewrite noted_eq. set (w1 := noted t h w).
  set (w2 := put_half h (set_h_nextSeq n (half_at w1 h)) w1).
  assert (tweaked w w2 h) as HT.
  { eapply tweaked_trans; [apply noted_tweaked|by apply tweaked_put]. }
  pose proof (noted_alive t h w s _ HA) as HA1. fold w1 in HA1.
  assert (alive w2 h s n) as HA2 by (destruct HA1; split; unfold w2; rewrite half_put_eq; done).
  pose proof (tweaked_queues _ _ _ _ _ _ _ HT HQ) as HQ2. pose proof (tweaked_endless _ _ _ HT He) as He2.
  assert (content w2 ls = content w ls) as Hc2 by (apply content_mem, HT).
  assert (ret w2 = []) as Hret2 by (cbn; unfold w1; by rewrite noted_ret).
  set (action := mkAction invalidSequence false).
  rewrite (bind_ok (choose_action h t (Seq t)) _ w1 (action, n) w2).
  2: { unfold choose_action. rewrite bind_eq. cbn [load_half gets]. rewrite bind_eq. cbn [gets].
       rewrite (al_nextSeq _ _ _ _ HA1), Z.eqb_refl, Hsy. cbv zeta.
       rewrite (Add_window (Seq t) hi) by (done || lia).
       by rewrite (bind_ok _ _ _ _ _ (update_half_eq h _ w1)). }
  cbn match.
  destruct (direct_progress w2 h ls R (Seq t) hi n s t ac action n) as (w' & ls' & data & E & HP & Hat);
    try done; try lia.
  { rewrite Hb, len_nil. lia. } { by left. }
  exists w', ls', data. split; [exact E|]. split; [by eapply progress_tweaked|]. intros x Hx.
  rewrite <-Hat, <-Hc2 by done. unfold either_at. by rewrite Hb, byte_at_nil.
Qed.

Lemma accepted_early w h ls R lo hi s t ac : let bs := Payload (base t) in
  window lo hi → queues w h ls R lo hi → alive w h s invalidSequence → endless w → unlimited w → ret w = [] →
  lo <= Seq t → Seq t + len bs <= hi → SYN t = false → RST t = false → FIN t = false → a_start w = false →
  ∃ w' ls', assemble_accepted t h ac w = (Ok tt, w') ∧ queues w' h ls' R lo hi ∧
    alive w' h s invalidSequence ∧ overrides (Seq t) bs (content w ls) (content w' ls') ∧
    frame w w' h R ∧ h_dir (half_at w' h) = h_dir (half_at w h) ∧ trace w' = trace w ∧ endless w'.
Proof.
  intros bs Hw HQ HA He Hun Hret Hlo Hhi Hsy Hr Hf Hst.
  unfold assemble_accepted. rewrite noted_eq. set (w1 := noted t h w).
  pose proof (noted_tweaked t h w) as HT. fold w1 in HT.
  pose proof (noted_alive t h w s _ HA) as HA1. fold w1 in HA1.
  pose proof (tweaked_queues _ _ _ _ _ _ _ HT HQ) as HQ1. pose proof (tweaked_endless _ _ _ HT He) as He1.
  assert (content w1 ls = content w ls) as Hc1 by (apply content_mem, HT).
  set (action := mkAction invalidSequence true).
  rewrite (bind_ok (choose_action h t (Seq t)) _ w1 (action, Seq t) w1).
  2: { unfold choose_action. rewrite bind_eq. cbn [load_half gets]. rewrite bind_eq. cbn [gets].
       rewrite (al_nextSeq _ _ _ _ HA1), Hsy. unfold w1. rewrite noted_a_start, Hst. done. }
  cbn match.
  destruct (queue_progress w1 h ls R lo hi s invalidSequence t ac action (Seq t)) as
    (w' & ls' & E & HQ' & HA' & Hov & HD & He'); try done.
  { by eapply tweaked_unlimited. } { unfold w1. by rewrite noted_ret. }
  exists w', ls'. split_and!; try done.
  - by rewrite <-Hc1.
  - eapply frame_transitive; [apply HT|exact (dl_frame _ _ _ _ _ HD)].
  - rewrite (proj1 (core_eq _ _ (dl_core _ _ _ _ _ HD))). apply HT.
  - rewrite (dl_trace _ _ _ _ _ HD), app_nil_r. apply HT.
  - by apply He'.
Qed.
End data.
