(* ===== verification/ReassemblyRun.v ===== *)
(** * A conversation, reassembled

    Both sides of a TCP connection send the packets of a byte stream, in any
    order, with repetitions and overlaps. The file proves that the assembler
    hands the stream of each side exactly the bytes that were sent, from the
    first one to the first one that is still missing, whatever pages [sync.Pool]
    hands out. *)

From S2P Require Import Prelude Flows BaseLayers Tcp TcpCheck Capture Links Reassembly ReassemblyQueue ReassemblyHeap ReassemblyHalf ReassemblyData.

(** ** What a side sends *)

(** The bytes that one side sends, after the SYN with sequence number [isn]. *)
Record side : Type := mkSide { isn : Z; sent : bytes }.

Definition first_seq (sd : side) : Z := isn sd + 1.
Definition last_seq (sd : side) : Z := isn sd + 1 + len (sent sd).

(** The sequence numbers of a side do not wrap. *)
Definition side_ok (sd : side) : Prop := window (isn sd) (last_seq sd).

(** A packet of the side: its SYN, or some of its bytes in their place. *)
Definition conforms (sd : side) (t : TCP) : Prop :=
  RST t = false ∧ FIN t = false ∧
  if SYN t then Seq t = isn sd ∧ Payload (base t) = []
  else first_seq sd <= Seq t ∧ Seq t + len (Payload (base t)) <= last_seq sd ∧
       ∀ x b, byte_at (Seq t) (Payload (base t)) x = Some b → byte_at (first_seq sd) (sent sd) x = Some b.

(** The packet [t] has the byte at position [x]. *)
Definition carries (x : Z) (t : TCP) : bool :=
  negb (SYN t) && (Seq t <=? x) && (x <? Seq t + len (Payload (base t))).

Definition known (x : Z) (ts : list TCP) : bool := existsb (carries x) ts.
Definition started (ts : list TCP) : bool := existsb SYN ts.

Lemma known_app x ts t : known x (ts ++ [t]) = known x ts || carries x t.
Proof. unfold known. rewrite existsb_app. cbn. by rewrite orb_false_r. Qed.
Lemma started_app ts t : started (ts ++ [t]) = started ts || SYN t.
Proof. unfold started. rewrite existsb_app. cbn. by rewrite orb_false_r. Qed.

Lemma conforms_byte sd t x : conforms sd t → SYN t = false →
  byte_at (Seq t) (Payload (base t)) x = if carries x t then byte_at (first_seq sd) (sent sd) x else None.
Proof.
  intros (_ & _ & H) Hs. unfold carries. rewrite Hs in *. destruct H as (H1 & H2 & H3). cbn [negb andb].
  destruct (byte_at (Seq t) (Payload (base t)) x) as [b|] eqn:E.
  - pose proof (byte_at_Some _ _ _ _ E). apply H3 in E. rewrite E.
    by rewrite (proj2 (Z.leb_le _ _)), (proj2 (Z.ltb_lt _ _)) by lia.
  - apply byte_at_None in E. destruct (_ && _) eqn:Hb; [lia|done].
Qed.

(** A packet with the bytes of the side from position [i] on. *)
Lemma conforms_slice sd t i : RST t = false → FIN t = false → SYN t = false →
  Seq t = first_seq sd + Z.of_nat i →
  take (length (Payload (base t))) (drop i (sent sd)) = Payload (base t) →
  (i + length (Payload (base t)) <= length (sent sd))%nat → conforms sd t.
Proof.
  intros Hr Hf Hs Hseq Hp Hl. split; [done|]. split; [done|]. rewrite Hs, Hseq. set (p := Payload (base t)) in *.
  split; [lia|]. split; [unfold last_seq, first_seq, len; lia|]. intros x b Hb.
  pose proof (byte_at_Some _ _ _ _ Hb) as Hx. unfold byte_at in *.
  destruct (Z.leb_spec (first_seq sd) x); [|lia]. destruct (Z.leb_spec (first_seq sd + Z.of_nat i) x); [|lia].
  rewrite <-Hp, lookup_take in Hb. case_decide; [|done]. rewrite lookup_drop in Hb. rewrite <-Hb. f_equal. lia.
Qed.

Section run.
Context `{Env : Environment}.
Implicit Types (w : world) (h : half_ref) (ls R : list loc).
Hypothesis no_keep : ∀ tr s, stream_KeepFrom tr s = None.

(** ** One side of a connection *)

(** After the packets [ts] of the side, [m] bytes were delivered and the queue
    has the others that are known. *)
Record follows w h ls R (s : nat) (sd : side) (ts : list TCP) (m : nat) : Prop := mkFollows {
  fo_queues : queues w h ls R (first_seq sd + Z.of_nat m) (last_seq sd);
  fo_alive : alive w h s (if started ts then first_seq sd + Z.of_nat m else invalidSequence);
  fo_fresh : started ts = false → m = 0%nat;
  fo_gap : started ts = true → queue_at (content w ls) (first_seq sd + Z.of_nat m) = None;
  fo_at : ∀ x, first_seq sd + Z.of_nat m <= x → queue_at (content w ls) x =
            if known x ts then byte_at (first_seq sd) (sent sd) x else None;
  fo_known : ∀ x, first_seq sd <= x < first_seq sd + Z.of_nat m → known x ts = true;
}.

Lemma follows_le w h ls R s sd ts m : follows w h ls R s sd ts m → (m <= length (sent sd))%nat.
Proof.
  intros HF. pose proof (ordered_le _ _ _ (qs_ordered _ _ _ _ _ _ (fo_queues _ _ _ _ _ _ _ _ HF))) as H.
  unfold last_seq, first_seq, len in H. lia.
Qed.

(** Delivered data that agrees with what was sent continues it. *)
Lemma take_more (l data : bytes) (m : nat) n :
  (∀ x b, byte_at (n + Z.of_nat m) data x = Some b → byte_at n l x = Some b) →
  take (m + length data) l = take m l ++ data.
Proof.
  intros H. rewrite <-take_take_drop. f_equal. apply list_eq. intros i. rewrite lookup_take, lookup_drop.
  case_decide as Hi; [|by rewrite (proj2 (lookup_ge_None data i)) by lia].
  destruct (data !! i) as [b|] eqn:E; [|apply lookup_ge_None in E; lia].
  specialize (H (n + Z.of_nat m + Z.of_nat i) b). unfold byte_at in H.
  rewrite !(proj2 (Z.leb_le _ _)) in H by lia.
  replace (Z.to_nat (n + Z.of_nat m + Z.of_nat i - (n + Z.of_nat m))) with i in H by lia.
  replace (Z.to_nat (n + Z.of_nat m + Z.of_nat i - n)) with (m + i)%nat in H by lia. by apply H.
Qed.

(** What a packet adds to what is known. *)
Lemma known_step sd ts t q x : conforms sd t →
  queue_at q x = (if known x ts then byte_at (first_seq sd) (sent sd) x else None) →
  either_at (Seq t) (Payload (base t)) q x =
    if known x (ts ++ [t]) then byte_at (first_seq sd) (sent sd) x else None.
Proof.
  intros Hc Hq. unfold either_at. rewrite known_app, Hq. destruct (SYN t) eqn:Hs.
  - assert (carries x t = false) as -> by (unfold carries; by rewrite Hs).
    destruct Hc as (_ & _ & Hc). rewrite Hs in Hc. destruct Hc as [_ ->]. by rewrite byte_at_nil, orb_false_r.
  - rewrite (conforms_byte sd) by done. destruct (known x ts), (carries x t); cbn; try done.
    all: by destruct (byte_at _ _ x).
Qed.

(** After progress, the side is followed with the new packet. *)
Lemma follows_progress w w' h R s sd ts t m ls' data : side_ok sd →
  let n := first_seq sd + Z.of_nat m in
  progress w w' h R s (last_seq sd) n (n + len data) ls' data →
  (∀ x, first_seq sd <= x < n → known x ts = true) → started (ts ++ [t]) = true →
  (∀ x, n <= x → either_at n data (content w' ls') x =
     if known x (ts ++ [t]) then byte_at (first_seq sd) (sent sd) x else None) →
  follows w' h ls' R s sd (ts ++ [t]) (m + length data) ∧
  take (m + length data) (sent sd) = take m (sent sd) ++ data.
Proof.
  intros Hok n [P1 P2 P3 P4 P5 P6 P7 P8] Hkn Hst Hat.
  assert (first_seq sd + Z.of_nat (m + length data) = n + len data) as En by (unfold n, len; lia).
  split; [split|].
  - by rewrite En.
  - by rewrite Hst, En.
  - by rewrite Hst.
  - by rewrite En.
  - intros x Hx. rewrite En in Hx. pose proof (len_nonneg data). rewrite <-Hat by lia. unfold either_at.
    by rewrite (proj2 (byte_at_None _ _ _)) by lia.
  - intros x Hx. rewrite En in Hx. destruct (Z.lt_ge_cases x n) as [Hlt|Hge].
    { rewrite known_app, Hkn by lia. done. }
    specialize (Hat x Hge). unfold either_at in Hat.
    destruct (byte_at n data x) eqn:E; [|apply byte_at_None in E; lia].
    by destruct (known x (ts ++ [t])).
  - apply (take_more _ _ _ (first_seq sd)). fold n. intros x b Hb. pose proof (byte_at_Some _ _ _ _ Hb).
    specialize (Hat x ltac:(lia)). unfold either_at in Hat. rewrite Hb in Hat.
    by destruct (known x (ts ++ [t])).
Qed.

(** What a packet of the side does to its half-connection. *)
Record step_of w w' h R (sd : side) (m m' : nat) : Prop := mkStep {
  st_frame : frame w w' h R;
  st_dir : h_dir (half_at w' h) = h_dir (half_at w h);
  st_endless : endless w';
  st_trace : ∃ evs, trace w' = trace w ++ evs ∧ delivered (negb (h_dir (half_at w h))) evs = [] ∧
    take m' (sent sd) = take m (sent sd) ++ delivered (h_dir (half_at w h)) evs;
}.

Lemma progress_step w w' h R s sd m ls' data hi n n' : endless w →
  take (m + length data) (sent sd) = take m (sent sd) ++ data →
  progress w w' h R s hi n n' ls' data → step_of w w' h R sd m (m + length data).
Proof.
  intros He Ht [P1 P2 P3 P4 P5 P6 P7 (evs & E1 & E2 & E3)]. split; [done|done|auto|].
  exists evs. by rewrite E2.
Qed.

Lemma conforms_bounds sd t : side_ok sd → conforms sd t →
  isn sd <= Seq t ∧ Seq t + len (Payload (base t)) <= last_seq sd ∧ isn sd + 1 <= last_seq sd.
Proof.
  intros Hok (_ & _ & H). pose proof (len_nonneg (sent sd)). unfold last_seq, first_seq in *.
  destruct (SYN t); [destruct H as [-> ->]; rewrite len_nil; lia|lia].
Qed.

Lemma follows_next w h ls R s sd ts m t ac : side_ok sd → follows w h ls R s sd ts m → conforms sd t →
  started ts = true → endless w → unlimited w → ret w = [] →
  ∃ w' ls' m', assemble_accepted t h ac w = (Ok tt, w') ∧ follows w' h ls' R s sd (ts ++ [t]) m' ∧
    step_of w w' h R sd m m'.
Proof.
  intros Hok HF Hc Hst He Hun Hret. pose proof (follows_le _ _ _ _ _ _ _ _ HF) as Hm.
  pose proof (conforms_bounds _ _ Hok Hc) as (B1 & B2 & B3). destruct HF as [F1 F2 F3 F4 F5 F6].
  rewrite Hst in F2. set (n := first_seq sd + Z.of_nat m) in *.
  assert (isn sd <= n <= last_seq sd) as Hn by (unfold n, last_seq, first_seq, len in *; lia).
  pose proof Hc as (Hr & Hf & _).
  destruct (accepted_next no_keep w h ls R (isn sd) (last_seq sd) n s t ac) as (w' & ls' & data & E & HP & Hat);
    try done; [by apply F4|].
  destruct (follows_progress w w' h R s sd ts t m ls' data) as [G1 G2]; try done.
  { by rewrite started_app, Hst. }
  { intros x Hx. rewrite <-Hat by done. by apply known_step, F5. }
  exists w', ls', (m + length data)%nat. split_and!; [done|done|]. by eapply progress_step.
Qed.

Lemma follows_first w h ls R s sd ts t ac : side_ok sd → follows w h ls R s sd ts 0 → conforms sd t →
  started ts = false → SYN t = true → endless w → ret w = [] →
  ∃ w' ls' m', assemble_accepted t h ac w = (Ok tt, w') ∧ follows w' h ls' R s sd (ts ++ [t]) m' ∧
    step_of w w' h R sd 0 m'.
Proof.
  intros Hok [F1 F2 F3 F4 F5 F6] Hc Hst Hsy He Hret.
  pose proof (conforms_bounds _ _ Hok Hc) as (B1 & B2 & B3). pose proof Hc as (Hr & Hf & Hc').
  rewrite Hsy in Hc'. destruct Hc' as [Hseq Hb]. rewrite Hst in F2.
  assert (first_seq sd + Z.of_nat 0 = Seq t + 1) as E0 by (unfold first_seq; lia). rewrite E0 in *.
  destruct (accepted_syn no_keep w h ls R (last_seq sd) s t ac) as (w' & ls' & data & E & HP & Hat); try done.
  { by rewrite Hseq. } { by rewrite Hseq. }
  destruct (follows_progress w w' h R s sd ts t 0 ls' data) as [G1 G2]; rewrite ?E0; try done.
  { by rewrite started_app, Hsy, orb_true_r. }
  { intros x Hx. rewrite <-Hat by done. rewrite F5, known_app by done.
    assert (carries x t = false) as -> by (unfold carries; by rewrite Hsy). by rewrite orb_false_r. }
  exists w', ls', (length data). split_and!; [done|done|].
  apply (progress_step _ _ _ _ _ _ 0 _ _ _ _ _ He G2 HP).
Qed.

Lemma follows_early w h ls R s sd ts t ac : side_ok sd → follows w h ls R s sd ts 0 → conforms sd t →
  started ts = false → SYN t = false → a_start w = false → endless w → unlimited w → ret w = [] →
  ∃ w' ls', assemble_accepted t h ac w = (Ok tt, w') ∧ follows w' h ls' R s sd (ts ++ [t]) 0 ∧
    step_of w w' h R sd 0 0.
Proof.
  intros Hok [F1 F2 F3 F4 F5 F6] Hc Hst Hsy Has He Hun Hret.
  pose proof Hc as (Hr & Hf & Hc'). rewrite Hsy in Hc'. destruct Hc' as (B1 & B2 & _). rewrite Hst in F2.
  rewrite Z.add_0_r in *.
  destruct (accepted_early w h ls R (first_seq sd) (last_seq sd) s t ac) as
    (w' & ls' & E & HQ & HA & Hov & HFr & Hd & Ht & He'); try done.
  { apply (window_sub (isn sd)); [unfold first_seq; lia|done]. }
  assert (started (ts ++ [t]) = false) as Hst' by (by rewrite started_app, Hst, Hsy).
  exists w', ls'. split; [done|]. split; [split; rewrite ?Hst', ?Z.add_0_r; try done|].
  - intros x Hx. rewrite <-(known_step sd ts t (content w ls)) by auto. by rewrite Hov.
  - intros x Hx. lia.
  - split; [done..|]. exists []. rewrite !app_nil_r. by split_and!.
Qed.

Lemma follows_step w h ls R s sd ts m t ac : side_ok sd → follows w h ls R s sd ts m → conforms sd t →
  (SYN t = false → started ts = false → a_start w = false) → endless w → unlimited w → ret w = [] →
  ∃ w' ls' m', assemble_accepted t h ac w = (Ok tt, w') ∧ follows w' h ls' R s sd (ts ++ [t]) m' ∧
    step_of w w' h R sd m m'.
Proof.
  intros Hok HF Hc Has He Hun Hret. destruct (started ts) eqn:Hst; [by eapply follows_next|].
  pose proof (fo_fresh _ _ _ _ _ _ _ _ HF Hst) as ->. destruct (SYN t) eqn:Hsy.
  - by apply (follows_first w h ls R s sd ts t ac).
  - destruct (follows_early w h ls R s sd ts t ac) as (w' & ls' & H); auto. by exists w', ls', 0%nat.
Qed.

(** ** Both sides of a connection *)

Definition same_queue (v v' : halfconnection) : Prop :=
  h_saved v' = h_saved v ∧ h_first v' = h_first v ∧ h_last v' = h_last v ∧ h_nextSeq v' = h_nextSeq v ∧
  h_stream v' = h_stream v ∧ h_closed v' = h_closed v.

(** A half is followed in another world that has its pages. *)
Lemma follows_ext w w' h ls R R' s sd ts m : follows w h ls R s sd ts m →
  same_queue (half_at w h) (half_at w' h) → (∀ l, l ∈ ls → page_at w' l = page_at w l) →
  heap_ok w' (ls ++ R') → follows w' h ls R' s sd ts m.
Proof.
  intros [[[Hs [He1 He2] _] F1' F1''] [A1 A2 A3 A4] F3 F4 F5 F6] (E1 & E2 & E3 & E4 & E5 & E6) Hp Hh.
  assert (content w' ls = content w ls) as Hc by (by apply contents_ext).
  split; rewrite ?Hc; try done.
  - split; rewrite ?Hc; try done. split; [by eapply links_ext, Hs| |done].
    unfold ends_are. by rewrite E2, E3.
  - split; congruence.
Qed.

Lemma follows_other w w' h h2 ls2 R R' s sd ts m : follows w h2 ls2 R s sd ts m → frame w w' h ls2 → h ≠ h2 →
  heap_ok w' (ls2 ++ R') → follows w' h2 ls2 R' s sd ts m.
Proof.
  intros HF HFr Hne Hh. eapply follows_ext; [done| |by apply HFr|done].
  rewrite (fr_half _ _ _ _ HFr) by done. by unfold same_queue; split_and!.
Qed.

Lemma follows_heap w h ls R s sd ts m : follows w h ls R s sd ts m → heap_ok w (ls ++ R).
Proof. intros HF. apply (qs_focus _ _ _ _ _ _ (fo_queues _ _ _ _ _ _ _ _ HF)). Qed.

(** The streams accept every packet and leave [*start] as it is. *)
Hypothesis accepts : ∀ tr s t ci d n b ac,
  stream_Accept (tr ++ [EvAccept s t ci d n b ac]) s = (true, b).

(** [assemble_half] up to the packet being accepted. *)
Definition accepting (t : TCP) h (s : nat) (ac : AssemblerContext) w : world :=
  let w1 := if Before (h_lastSeen (half_at w h)) (Timestamp ac)
            then put_half h (set_h_lastSeen (Timestamp ac) (half_at w h)) w else w in
  let b := (h_nextSeq (half_at w1 h) =? invalidSequence) && SYN t in
  let w2 := set_a_start b w1 in
  set_a_start b (add_event (EvAccept s t ac (h_dir (half_at w1 h)) (h_nextSeq (half_at w1 h)) b ac) w2).

Lemma assemble_half_eq t h s ac w : h_stream (half_at w h) = Some s → h_closed (half_at w h) = false →
  assemble_half t h ac w = assemble_accepted t h ac (accepting t h s ac w).
Proof.
  intros Hs Hc. unfold assemble_half, accepting. rewrite bind_eq. cbn [load_half gets].
  set (w1 := if Before _ _ then _ else w).
  rewrite (bind_ok _ _ w tt w1) by (unfold w1; by destruct (Before _ _)).
  assert (h_stream (half_at w1 h) = Some s ∧ h_closed (half_at w1 h) = false) as [Hs1 Hc1].
  { unfold w1. destruct (Before _ _); [by rewrite half_put_eq|done]. }
  rewrite bind_eq. cbn [load_half gets]. set (b := (h_nextSeq (half_at w1 h) =? invalidSequence) && SYN t).
  rewrite bind_eq. cbn [modify]. set (w2 := set_a_start b w1).
  rewrite (bind_ok (half_stream h) _ w2 s w2).
  2: { unfold half_stream. rewrite bind_eq. cbn [load_half gets].
       change (half_at w2 h) with (half_at w1 h). by rewrite Hs1. }
  set (ev := EvAccept s t ac (h_dir (half_at w1 h)) (h_nextSeq (half_at w1 h)) b ac).
  set (w4 := set_a_start b (add_event ev w2)).
  rewrite (bind_ok (stream_Accepts _ _ _ _ _ _) _ w2 true w4).
  2: { unfold stream_Accepts. rewrite bind_eq. cbn [get]. rewrite bind_eq. cbn [modify].
       rewrite bind_eq. cbn [gets]. change (a_start w2) with b. fold ev. change (trace (add_event ev w2)) with
         (trace w2 ++ [ev]). by rewrite !(accepts _ s t ac _ _ b ac : stream_Accept (trace w2 ++ [ev]) s = _). }
  cbn [negb]. rewrite bind_eq. cbn [load_half gets]. change (half_at w4 h) with (half_at w1 h). by rewrite Hc1.
Qed.

(** What [accepting] leaves alone. *)
Lemma accepting_facts t h s ac w : let w' := accepting t h s ac w in
  pc w' = pc w ∧ mem w' = mem w ∧ pool w' = pool w ∧ options w' = options w ∧ ret w' = ret w ∧
  cacheLP w' = cacheLP w ∧ same_queue (half_at w h) (half_at w' h) ∧
  h_dir (half_at w' h) = h_dir (half_at w h) ∧ (∀ h', h ≠ h' → half_at w' h' = half_at w h') ∧
  (∃ e, trace w' = trace w ++ [e] ∧ ∀ d, event_data d e = []) ∧
  a_start w' = ((h_nextSeq (half_at w h) =? invalidSequence) && SYN t).
Proof.
  unfold accepting. set (w1 := if Before _ _ then _ else w).
  assert (same_queue (half_at w h) (half_at w1 h) ∧ h_dir (half_at w1 h) = h_dir (half_at w h) ∧
    ∀ h', h ≠ h' → half_at w1 h' = half_at w h') as (Hq & Hd & Ho).
  { unfold w1. destruct (Before _ _); [|by unfold same_queue; split_and!].
    rewrite half_put_eq. split_and!; [by unfold same_queue; split_and!|done|].
    intros h' Hh. by apply half_put_ne. }
  assert (trace w1 = trace w) as Htr by (unfold w1; by destruct (Before _ _)).
  cbn zeta. split_and!; try (unfold w1; by destruct (Before _ _)); try done.
  - eexists. split; [cbn; rewrite Htr; reflexivity|done].
  - cbn. by rewrite (proj1 (proj2 (proj2 (proj2 Hq)))).
Qed.

Definition upd {A} (f : bool → A) (b : bool) (v : A) (b' : bool) : A := if Bool.eqb b b' then v else f b'.
Lemma upd_eq {A} (f : bool → A) b v : upd f b v b = v.
Proof. unfold upd. by rewrite Bool.eqb_reflx. Qed.
Lemma upd_negb {A} (f : bool → A) b v : upd f b v (negb b) = f (negb b).
Proof. unfold upd. by destruct b. Qed.

(** The only connection, [c], has received the packets [ts b] of each side [b]. *)
Record serving w (k : key) (c : loc) (s : nat) (sds : bool → side) (lss : bool → list loc)
    (tss : bool → list TCP) (ms : bool → nat) : Prop := mkServing {
  sv_conns : sp_conns (pool w) = {[k := c]};
  sv_unlimited : unlimited w;
  sv_endless : endless w;
  sv_side : ∀ b, follows w (c, b) (lss b) (lss (negb b)) s (sds b) (tss b) (ms b);
  sv_dir : ∀ b, h_dir (half_at w (c, b)) = b;
  sv_delivered : ∀ b, delivered b (trace w) = take (ms b) (sent (sds b));
}.

Lemma serving_step w k c s sds lss tss ms b t ac : serving w k c s sds lss tss ms → (∀ b, side_ok (sds b)) →
  conforms (sds b) t → ret w = [] → ∃ w' lss' ms',
  assemble_half t (c, b) ac w = (Ok tt, w') ∧ serving w' k c s sds lss' (upd tss b (tss b ++ [t])) ms'.
Proof.
  intros [V1 V2 V3 V4 V5 V6] Hok Hc Hret. set (h := (c, b)). pose proof (V4 b) as HF. fold h in HF.
  rewrite (assemble_half_eq t h s ac w) by apply (fo_alive _ _ _ _ _ _ _ _ HF).
  destruct (accepting_facts t h s ac w) as (A1 & A2 & A3 & A4 & A5 & A6 & A7 & A8 & A9 & (e & A10 & A10') & A11).
  set (w1 := accepting t h s ac w) in *.
  assert (∀ l, page_at w1 l = page_at w l) as Hp1 by (intros l; unfold page_at; by rewrite A2).
  assert (∀ L, heap_ok w L → heap_ok w1 L) as Hh1 by (intros L; apply heap_ok_pc; by rewrite A1).
  assert (follows w1 h (lss b) (lss (negb b)) s (sds b) (tss b) (ms b)) as HF1.
  { eapply follows_ext; [exact HF|done|done|]. by apply Hh1, (follows_heap _ _ _ _ _ _ _ _ HF). }
  assert (endless w1) as He1.
  { destruct V3 as [V3 V3']. split; [by rewrite A6|]. intros l. by rewrite Hp1. }
  destruct (follows_step w1 h (lss b) (lss (negb b)) s (sds b) (tss b) (ms b) t ac) as (w2 & ls2 & m2 & E & HF2 & S);
    try done.
  { intros Hsy Hst. by rewrite A11, Hsy, andb_false_r. } { unfold unlimited. by rewrite A4. } { by rewrite A5. }
  destruct S as [S1 S2 S3 (evs & T1 & T2 & T3)].
  rewrite A8, (V5 b : h_dir (half_at w h) = b) in T2, T3.
  assert ((c, b) ≠ (c, negb b)) as Hne by (intros [=]; by destruct b).
  exists w2, (upd lss b ls2), (upd ms b m2). split; [exact E|]. split; try done.
  - rewrite (fr_pool _ _ _ _ S1). by rewrite A3.
  - unfold unlimited. rewrite (fr_options _ _ _ _ S1). by rewrite A4.
  - intros b'. destruct (decide (b' = b)) as [->|Hb].
    + rewrite !upd_eq, upd_negb. exact HF2.
    + assert (b' = negb b) as -> by (by destruct b, b'). rewrite !upd_negb, negb_involutive, upd_eq.
      eapply (follows_other w1 w2 h); [|exact S1|exact Hne|].
      * eapply (follows_ext w w1 _ (lss (negb b)) _ (lss b)); [exact (V4 (negb b))| |done|].
        -- rewrite A9 by exact Hne. by unfold same_queue; split_and!.
        -- apply Hh1. eapply heap_ok_perm, (follows_heap _ _ _ _ _ _ _ _ HF). apply Permutation_app_comm.
      * eapply heap_ok_perm, (follows_heap _ _ _ _ _ _ _ _ HF2). apply Permutation_app_comm.
  - intros b'. destruct (decide (b' = b)) as [->|Hb].
    + fold h. rewrite S2, A8. apply V5.
    + assert (b' = negb b) as -> by (by destruct b, b').
      rewrite (fr_half _ _ _ _ S1) by exact Hne. rewrite A9 by exact Hne. apply V5.
  - intros b'. rewrite T1, A10, !delivered_app, V6.
    assert (delivered b' [e] = []) as -> by (unfold delivered; cbn; by rewrite A10').
    rewrite app_nil_r. destruct (decide (b' = b)) as [->|Hb].
    + by rewrite upd_eq, T3.
    + assert (b' = negb b) as -> by (by destruct b, b'). by rewrite T2, upd_negb, app_nil_r.
Qed.
(** ** The packets of a connection *)

(** The flows of side [b], of a connection that side [false] opens. *)
Definition flow_of (f : Flow) (b : bool) : Flow := if b then Flows.Reverse f else f.
Definition key_of (k : key) (b : bool) : key := (flow_of k.1 b, flow_of k.2 b).

(** A packet, and the side that sends it. *)
Definition packet : Type := bool * TCP * AssemblerContext.

Fixpoint assemble_all (net : Flow) (ps : list packet) : M world unit :=
  match ps with
  | [] => mret tt
  | (b, t, ac) :: ps => _ ← AssembleWithContext (flow_of net b) t ac; assemble_all net ps
  end.

Definition packets_of (b : bool) (ps : list packet) : list TCP :=
  omap (fun p => if Bool.eqb p.1.1 b then Some p.1.2 else None) ps.

(** A packet of the connection [k]. *)
Definition belongs (k : key) (sds : bool → side) (p : packet) : Prop :=
  conforms (sds p.1.1) p.1.2 ∧ TransportFlow p.1.2 = Ok (flow_of k.2 p.1.1).

Lemma key_of_true k : key_of k true = key_Reverse k.
Proof. done. Qed.
Lemma key_Reverse_involutive k : key_Reverse (key_Reverse k) = k.
Proof. destruct k. unfold key_Reverse. cbn. by rewrite !Flows.Reverse_involutive. Qed.

Lemma getHalf_serving w k c b : sp_conns (pool w) = {[k := c]} → k ≠ key_Reverse k →
  getHalf (key_of k b) (pool w) = Some (c, b).
Proof.
  intros Hp Hk. unfold getHalf. rewrite Hp. destruct b.
  - rewrite key_of_true, lookup_singleton_ne by done. by rewrite key_Reverse_involutive, lookup_singleton_eq.
  - assert (key_of k false = k) as -> by (by destruct k). by rewrite lookup_singleton_eq.
Qed.

Lemma serving_ret w k c s sds lss tss ms : serving w k c s sds lss tss ms →
  serving (set_ret [] w) k c s sds lss tss ms.
Proof.
  intros [V1 V2 V3 V4 V5 V6]. split; try done. intros b. specialize (V4 b).
  eapply follows_ext; [exact V4|by unfold same_queue; split_and!|done|].
  apply (heap_ok_pc w); [done|done|]. by eapply follows_heap.
Qed.

Lemma serving_packet net w k c s sds lss tss ms p : serving w k c s sds lss tss ms → (∀ b, side_ok (sds b)) →
  k ≠ key_Reverse k → k.1 = net → belongs k sds p → ∃ w' lss' ms',
  AssembleWithContext (flow_of net p.1.1) p.1.2 p.2 w = (Ok tt, w') ∧
  serving w' k c s sds lss' (upd tss p.1.1 (tss p.1.1 ++ [p.1.2])) ms'.
Proof.
  intros HS Hok Hk <- [Hc Ht]. destruct p as [[b t] ac]. cbn in *. pose proof (serving_ret _ _ _ _ _ _ _ _ HS) as HS'.
  destruct (serving_step (set_ret [] w) k c s sds lss tss ms b t ac) as (w' & lss' & ms' & E & HS2); try done.
  exists w', lss', ms'. split; [|done]. unfold AssembleWithContext. rewrite bind_eq. cbn [modify].
  rewrite Ht, bind_eq. cbn [lift]. rewrite (bind_ok _ _ _ (Some (c, b)) (set_ret [] w)); [done|].
  unfold getConnection. rewrite bind_eq. cbn [gets].
  change (flow_of k.1 b, flow_of k.2 b) with (key_of k b). by rewrite (getHalf_serving _ _ c) by (done || apply HS').
Qed.

Lemma serving_ext w k c s sds lss tss tss' ms : (∀ b, tss b = tss' b) → serving w k c s sds lss tss ms →
  serving w k c s sds lss tss' ms.
Proof. intros H [V1 V2 V3 V4 V5 V6]. split; try done. intros b. rewrite <-H. apply V4. Qed.

Lemma serving_all net k c s sds ps : (∀ b, side_ok (sds b)) → k ≠ key_Reverse k → k.1 = net →
  Forall (belongs k sds) ps → ∀ w lss tss ms, serving w k c s sds lss tss ms → ∃ w' lss' ms',
  assemble_all net ps w = (Ok tt, w') ∧ serving w' k c s sds lss' (fun b => tss b ++ packets_of b ps) ms'.
Proof.
  intros Hok Hk Hn. induction 1 as [|p ps Hp _ IH]; intros w lss tss ms HS.
  { exists w, lss, ms. split; [done|]. eapply serving_ext, HS. intros b. by rewrite app_nil_r. }
  destruct (serving_packet net w k c s sds lss tss ms p) as (w1 & lss1 & ms1 & E1 & HS1); try done.
  destruct (IH _ _ _ _ HS1) as (w2 & lss2 & ms2 & E2 & HS2). exists w2, lss2, ms2.
  destruct p as [[b t] ac]. cbn in *. split; [by rewrite (bind_ok _ _ _ _ _ E1)|].
  eapply serving_ext, HS2. intros b'. unfold upd. cbn. destruct (Bool.eqb b b') eqn:Hb; [|done].
  apply Bool.eqb_prop in Hb as ->. by rewrite <-app_assoc.
Qed.

(** The connection that the first packet makes. *)
Definition first_connection (k : key) (ts : time) (t : TCP) (ac : AssemblerContext) w : world :=
  mkWorld (options w) [] (pc w) (mem w)
    (mkStreamPool {[k := 1023%nat]} (sp_users (pool w)) (seq 0 1023) 1024 2048)
    (<[1023%nat := reset k (Some (streams w)) ts]> (objs w)) (cacheLP w) (cacheSG w)
    (a_start w) (S (streams w)) (trace w ++ [EvNew (streams w) k.1 k.2 t ac]).

Lemma getHalf_empty k p : sp_conns p = ∅ → getHalf k p = None.
Proof. unfold getHalf. intros ->. by rewrite !lookup_empty. Qed.

Lemma getConnection_first o k ts t ac : let w := NewAssembler o NewStreamPool in
  getConnection k false ts t ac (set_ret [] w) =
    (Ok (Some (1023%nat, false)), first_connection k ts t ac w).
Proof.
  intros w. unfold getConnection. rewrite bind_eq. cbn [gets]. rewrite getHalf_empty by done. cbn [orb].
  rewrite bind_eq. cbn [factory_New]. set (w1 := mkWorld _ _ _ _ _ _ _ _ _ _ _).
  assert (newConnection k (Some (streams (set_ret [] w))) ts w1 = (Ok 1023%nat,
    set_objs {[1023%nat := reset k (Some 0%nat) ts]}
      (set_pool (mkStreamPool ∅ 1 (seq 0 1023) 1024 2048) w1))) as E.
  { unfold newConnection. rewrite bind_eq. cbn [gets]. change (pool w1) with (pool w).
    assert ((if len (sp_free (pool w)) =? 0 then grow (pool w) else pool w) =
      mkStreamPool ∅ 1 (seq 0 1024) 1024 2048) as -> by reflexivity.
    cbn [sp_free sp_conns sp_users sp_all sp_nextAlloc].
    rewrite bind_eq, (eq_refl : index (seq 0 1024) (len (seq 0 1024) - 1) = Ok 1023%nat). cbn [lift].
    rewrite bind_eq, (eq_refl : slice_to (seq 0 1024) (len (seq 0 1024) - 1) = Ok (seq 0 1023)). cbn [lift].
    reflexivity. }
  rewrite (bind_ok _ _ _ _ _ E), bind_eq. cbn [gets]. by rewrite getHalf_empty.
Qed.

Lemma serving_first o k ts t ac sds : unlimited (NewAssembler o NewStreamPool) →
  let w := first_connection k ts t ac (NewAssembler o NewStreamPool) in
  ret w = [] ∧ serving w k 1023 0 sds (fun _ => []) (fun _ => []) (fun _ => 0%nat).
Proof.
  intros Hu w. assert (∀ b, half_at w (1023%nat, b) = half_of b (reset k (Some 0%nat) ts)) as Hh.
  { intros b. unfold half_at, conn_at. cbn. by rewrite lookup_insert_eq. }
  split; [done|]. split; [done|exact Hu| | | |done].
  - split; [done|]. intros l. unfold page_at. cbn. by rewrite lookup_empty.
  - intros b. split; try done.
    + split; [|cbn; unfold first_seq, last_seq, len; lia|constructor].
      split; [done| |split; [constructor|intros l []%elem_of_nil]].
      unfold ends_are. rewrite Hh. by destruct b.
    + split; rewrite Hh; by destruct b.
    + intros x Hx. lia.
  - intros b. rewrite Hh. by destruct b.
Qed.

(** ** What was received *)

(** The bytes that are known from position [x] on, before the first that is not. *)
Fixpoint run_from (n : nat) (x : Z) (ts : list TCP) : nat :=
  match n with
  | O => 0
  | S n => if known x ts then S (run_from n (x + 1) ts) else 0
  end.

(** The bytes of a side that can be delivered: none before its SYN. *)
Definition available (sd : side) (ts : list TCP) : nat :=
  if started ts then run_from (length (sent sd)) (first_seq sd) ts else 0.

Lemma run_from_spec n x ts m : (m <= n)%nat → (∀ y, x <= y < x + Z.of_nat m → known y ts = true) →
  m = n ∨ known (x + Z.of_nat m) ts = false → run_from n x ts = m.
Proof.
  revert x m. induction n as [|n IH]; intros x m Hm Hk He; [cbn; lia|]. cbn. destruct m as [|m].
  - rewrite Z.add_0_r in He. by destruct He as [?| ->].
  - rewrite Hk by lia. f_equal. apply IH; [lia|intros y Hy; apply Hk; lia|].
    destruct He as [?|He]; [left; lia|right]. rewrite <-He. f_equal. lia.
Qed.

Lemma follows_available w h ls R s sd ts m : follows w h ls R s sd ts m → m = available sd ts.
Proof.
  intros HF. pose proof (follows_le _ _ _ _ _ _ _ _ HF) as Hm. destruct HF as [F1 F2 F3 F4 F5 F6].
  unfold available. destruct (started ts) eqn:Hs; [|by apply F3]. symmetry. apply run_from_spec; [done|done|].
  specialize (F5 _ (Z.le_refl _)). rewrite F4 in F5 by done. destruct (known _ ts); [left|by right].
  symmetry in F5. apply byte_at_None in F5. unfold len in F5. lia.
Qed.

(** All packets of a connection, from the first one, which is from side [false]. *)
Lemma streams_run o k sds t ac ps : unlimited (NewAssembler o NewStreamPool) → (∀ b, side_ok (sds b)) →
  k ≠ key_Reverse k → Forall (belongs k sds) ((false, t, ac) :: ps) → ∃ w' lss ms,
  assemble_all k.1 ((false, t, ac) :: ps) (NewAssembler o NewStreamPool) = (Ok tt, w') ∧
  serving w' k 1023 0 sds lss (fun b => packets_of b ((false, t, ac) :: ps)) ms.
Proof.
  intros Hu Hok Hk Hps. apply Forall_cons in Hps as [[Hc Ht] Hps]. cbn in Hc, Ht.
  destruct (serving_first o k (Timestamp ac) t ac sds Hu) as [Hret HS].
  destruct (serving_step _ _ _ _ _ _ _ _ false t ac HS) as (w1 & lss1 & ms1 & E1 & HS1); try done.
  destruct (serving_all k.1 k 1023 0 sds ps) with (1 := Hok) (5 := HS1) as (w2 & lss2 & ms2 & E2 & HS2); try done.
  exists w2, lss2, ms2. split.
  - cbn [assemble_all]. rewrite (bind_ok _ _ _ tt w1); [done|]. unfold AssembleWithContext.
    rewrite bind_eq. cbn [modify]. rewrite Ht, bind_eq. cbn [lift].
    cbn [flow_of]. assert ((k.1, k.2) = k) as -> by (by destruct k).
    by rewrite (bind_ok _ _ _ _ _ (getConnection_first o k (Timestamp ac) t ac)).
  - eapply serving_ext, HS2. intros b. by destruct b.
Qed.

End run.
