(* ===== verification/ReassemblyCorrect.v ===== *)
(** * What the assembler promises

    The theorems about the assembler of [reassembly/tcpassembly.go], proved
    from the lemmas of the files before: a queued packet replaces the bytes
    that were queued at its positions, and a conversation is delivered to the
    stream of each side up to the first byte that is missing. *)

From S2P Require Import Prelude Flows BaseLayers Enums Tcp TcpCheck Capture Links Reassembly ReassemblyQueue ReassemblyHeap ReassemblyHalf ReassemblyData ReassemblyRun.

Section correct.
Context `{Env : Environment}.

(** C9 (refinement): the linked list of pages of a half-connection implements a
    map from sequence numbers to bytes. When the queue is in order, without two
    pages for one position, and no limit is set, [handleBytes] of a packet that
    is to be queued (its slices, links, pages from the cache and from
    [sync.Pool]) succeeds, the new queue is in order again, and at every
    position it has the packet's byte where the packet has one and the byte
    that was there before everywhere else. The other half-connections, the
    pages elsewhere and the streams see nothing of it. *)
Theorem handleBytes_newest_bytes w h ls R lo hi bs seq start end_ nx ac :
  queues w h ls R lo hi → window lo hi → lo <= seq → seq + len bs <= hi → ret w = [] → unlimited w →
  ∃ w' ls', handleBytes bs seq h start end_ (mkAction nx true) (Some ac) w = (Ok (mkAction nx true), w') ∧
    queues w' h ls' R lo hi ∧
    (∀ x, queue_at (content w' ls') x =
       match byte_at seq bs x with Some b => Some b | None => queue_at (content w ls) x end) ∧
    frame w w' h R ∧ ret w' = [] ∧ trace w' = trace w.
Proof.
  intros HQ Hw Hlo Hhi Hret Hun.
  destruct (queue_ok w h ls R lo hi bs seq start end_ (mkAction nx true) ac HQ Hw Hlo Hhi Hret eq_refl)
    as (w' & ls' & E & HQ' & Hov & Hret' & HD & _).
  destruct HD as [HF _ _ Ht]. exists w', ls'. rewrite E, unlimited_over by (unfold unlimited; by rewrite (fr_options _ _ _ _ HF)).
  by rewrite Ht, app_nil_r.
Qed.

(** C8 (liveness): a new assembler gets the packets of one connection, in any
    order and any interleaving of the two sides, with packets that repeat or
    overlap each other: each is the SYN of its side or carries some bytes of
    the side's stream at their place (sequence numbers that do not wrap,
    streams shorter than 2^30 bytes). The streams accept every packet, keep
    nothing, and no limit of pages is set. Then no call of [AssembleWithContext]
    panics or reports an error, and the stream of each side has received, in
    order and once, exactly the bytes from the first one of the side to the
    first one that no packet has carried, and nothing before the SYN of the
    side was seen. So when every byte was carried, everything was delivered. *)
Theorem streams_delivered o k sds t ac ps :
  (∀ tr s, stream_KeepFrom tr s = None) →
  (∀ tr s t ci d n b ac, stream_Accept (tr ++ [EvAccept s t ci d n b ac]) s = (true, b)) →
  unlimited (NewAssembler o NewStreamPool) → (∀ b, side_ok (sds b)) → k ≠ key_Reverse k →
  Forall (belongs k sds) ((false, t, ac) :: ps) →
  ∃ w', assemble_all k.1 ((false, t, ac) :: ps) (NewAssembler o NewStreamPool) = (Ok tt, w') ∧
    ∀ b, delivered b (trace w') =
      take (available (sds b) (packets_of b ((false, t, ac) :: ps))) (sent (sds b)).
Proof.
  intros Hk Ha Hu Hok Hne Hps. destruct (streams_run Hk Ha o k sds t ac ps) as (w' & lss & ms & E & HS); try done.
  exists w'. split; [exact E|]. intros b. rewrite (sv_delivered _ _ _ _ _ _ _ _ HS).
  by rewrite (follows_available _ _ _ _ _ _ _ _ (sv_side _ _ _ _ _ _ _ _ HS b)).
Qed.

End correct.

(** ** The theorems on concrete packets *)

(** Streams that accept what the assembler suggests and keep nothing. *)
Definition plain_start (tr : list event) : bool :=
  match last tr with Some (EvAccept _ _ _ _ _ b _) => b | _ => false end.
#[local] Instance plain_environment : Environment := {|
  stream_Accept := fun tr _ => (true, plain_start tr);
  stream_KeepFrom := fun _ _ => None;
  stream_Complete := fun _ _ => true;
  Pool_Get := fun _ => None;
|}.

Definition example_packet (sp dp : bytes) (seq : Z) (syn : bool) (data : bytes) : TCP :=
  mkTCP (mkBase [] data) 0 0 seq 0 0 false syn false false false false false false false 0 0 0 sp dp [] [] None.
Definition example_net : Flow := 
  mkFlow EndpointIPv4 4 4 ([10; 0; 0; 1] ++ replicate 12 0) ([10; 0; 0; 2] ++ replicate 12 0).
Definition example_ports : Flow := 
  mkFlow EndpointTCPPort 2 2 ([4; 210] ++ replicate 14 0) ([0; 80] ++ replicate 14 0).
Definition example_time (n : Z) : AssemblerContext := mkCaptureInfo (mkTime n 0) 0 0 0.

Definition example_sides (b : bool) : side := if b then mkSide 500 [9] else mkSide 99 [1; 2; 3; 4; 5].

(** Data before the SYN, a repeated byte, a byte in the other direction, and
    a byte that never comes before the last one. *)
Definition example_packets : list packet :=
  let c := example_packet [4; 210] [0; 80] in let s := example_packet [0; 80] [4; 210] in
  [(false, c 101 false [2; 3], example_time 1); (false, c 99 true [], example_time 2);
   (true, s 500 true [], example_time 3); (false, c 104 false [5], example_time 4);
   (true, s 501 false [9], example_time 5); (false, c 100 false [1; 2; 3], example_time 6)].

Lemma plain_accepts tr s t ci d n b ac :
  stream_Accept (tr ++ [EvAccept s t ci d n b ac]) s = (true, b).
Proof. cbn. unfold plain_start. by rewrite last_snoc. Qed.

Lemma example_belongs : Forall (belongs (example_net, example_ports) example_sides) example_packets.
Proof.
  repeat apply Forall_cons_2; try apply Forall_nil_2; (split; [|reflexivity]).
  - apply (conforms_slice _ _ 1); [done..|cbn; lia].
  - done.
  - done.
  - apply (conforms_slice _ _ 4); [done..|cbn; lia].
  - apply (conforms_slice _ _ 0); [done..|cbn; lia].
  - apply (conforms_slice _ _ 0); [done..|cbn; lia].
Qed.

Lemma streams_delivered_witness :
  ∃ w', assemble_all example_net example_packets
      (NewAssembler DefaultAssemblerOptions NewStreamPool) = (Ok tt, w') ∧
    ∀ b, delivered b (trace w') = if b then [9] else [1; 2; 3].
Proof.
  destruct (streams_delivered DefaultAssemblerOptions (example_net, example_ports) example_sides
    (example_packet [4; 210] [0; 80] 101 false [2; 3]) (example_time 1) (tail example_packets))
    as (w' & E & H).
  - done.
  - apply plain_accepts.
  - done.
  - by intros [].
  - done.
  - exact example_belongs.
  - exists w'. split; [exact E|]. intros b. rewrite H. by destruct b.
Defined.

(** Three bytes are queued, then two more that overlap the last of them. *)
Definition example_queue (data : bytes) (seq : Z) : M world assemblerAction :=
  handleBytes data seq (0%nat, false) false false (mkAction invalidSequence true) (Some (example_time 1)).

Lemma handleBytes_newest_bytes_witness :
  ∃ w w' ls', example_queue [1; 2; 3] 100 (NewAssembler DefaultAssemblerOptions NewStreamPool) =
      (Ok (mkAction invalidSequence true), w) ∧
    example_queue [4; 5] 102 w = (Ok (mkAction invalidSequence true), w') ∧
    (∀ x, 99 <= x < 106 → queue_at (content w' ls') x = byte_at 100 [1; 2; 4; 5] x).
Proof.
  set (w0 := NewAssembler DefaultAssemblerOptions NewStreamPool).
  destruct (handleBytes_newest_bytes w0 (0%nat, false) [] [] 90 110 [1; 2; 3] 100 false false
    invalidSequence (example_time 1)) as (w1 & ls1 & E1 & HQ1 & H1 & F1 & R1 & T1); try done.
  { split; [|done|constructor]. split; [done|done|]. split; [constructor|by intros l []%elem_of_nil]. }
  destruct (handleBytes_newest_bytes w1 (0%nat, false) ls1 [] 90 110 [4; 5] 102 false false
    invalidSequence (example_time 1)) as (w2 & ls2 & E2 & HQ2 & H2 & F2 & R2 & T2); try done.
  { unfold unlimited. by rewrite (fr_options _ _ _ _ F1). }
  exists w1, w2, ls2. split; [exact E1|]. split; [exact E2|]. intros x Hx. rewrite H2, H1.
  assert (x = 99 ∨ x = 100 ∨ x = 101 ∨ x = 102 ∨ x = 103 ∨ x = 104 ∨ x = 105) as Hcases by lia.
  by repeat destruct Hcases as [-> |Hcases]; [..|subst x].
Defined.
