(* ===== verification/ReassemblyIssues.v ===== *)
(** * Where the assembler does not do what it means to

    Runs of the assembler of [reassembly/tcpassembly.go] on a few packets of
    one side, each of which ends in a way that the code does not intend: bytes
    that a stream asked to keep are lost, a panic, pages that are never freed,
    a count below zero. The definitions are those of [Reassembly]; the packets
    are the examples of [ReassemblyCorrect]. *)

From S2P Require Import Prelude Flows BaseLayers Enums Tcp TcpCheck Capture Reassembly ReassemblyData ReassemblyCorrect.

(** Streams that keep the data from offset [k] of every delivery on. *)
Definition keeping_environment (k : option Z) : Environment := {|
  stream_Accept := fun tr _ => (true, plain_start tr);
  stream_KeepFrom := fun _ _ => k;
  stream_Complete := fun _ _ => true;
  Pool_Get := fun _ => None;
|}.

Definition issue_packet (seq : Z) (syn fin : bool) (data : bytes) : TCP :=
  mkTCP (mkBase [] data) 0 0 seq 0 0 fin syn false false false false false false false 0 0 0
    [4; 210] [0; 80] [] [] None.
Definition issue_syn (seq : Z) : TCP := issue_packet seq true false [].
Definition issue_data (seq : Z) (data : bytes) : TCP := issue_packet seq false false data.

Fixpoint issue_loop (E : Environment) (ts : list TCP) (n : Z) : M world unit :=
  match ts with
  | [] => mret tt
  | t :: ts => _ ← @AssembleWithContext E example_net t (example_time n); issue_loop E ts (n + 1)
  end.

(** The packets [ts], one second after the other, for a new assembler. *)
Definition issue_run (k : option Z) (ts : list TCP) : outcome unit * world :=
  issue_loop (keeping_environment k) ts 0 (NewAssembler DefaultAssemblerOptions NewStreamPool).

(** What the stream is given in each call: the number of bytes it has kept,
    and the data of the chunks. *)
Definition deliveries (w : world) : list (Z * list bytes) :=
  omap (fun e => match e with
                 | EvReassembledSG _ sg _ => Some (sg_saved (object sg), ck_bytes <$> chunks sg)
                 | _ => None
                 end) (trace w).

(** The half-connection of the client. *)
Definition issue_half (w : world) : halfconnection := half_at w (1023%nat, false).

(** A stream that keeps the data from offset 1 of the six bytes
    that a packet and a queued page give is to see the other five before the
    next byte; it sees only the next byte, because [cleanSG] does not count
    the bytes of the packet, whose length is the same after [convertToPages],
    when it goes on to the page. *)
Theorem KeepFrom_loses_bytes :
  let r := issue_run (Some 1) [issue_syn 99; issue_data 104 [5; 6]; issue_data 100 [1; 2; 3; 4]; issue_data 106 [7]] in
  r.1 = Ok tt ∧ deliveries r.2 = [(0, [[]]); (0, [[1; 2; 3; 4]; [5; 6]]); (0, [[7]])].
Proof. by vm_compute. Qed.

(** For the same reason [KeepFrom(3)] makes the assembler panic:
    the slice of the two bytes of the queued page starts at 3. *)
Theorem KeepFrom_panics :
  (issue_run (Some 3) [issue_syn 99; issue_data 104 [5; 6]; issue_data 100 [1; 2; 3; 4]]).1 =
    Panic SliceOutOfRange.
Proof. by vm_compute. Qed.

(** The pages that keep bytes of a packet are not counted in
    [half.pages], but their release is: the count falls below zero, and
    [MaxBufferedPagesPerConnection] allows more pages than it says. *)
Theorem kept_pages_are_not_counted :
  let r := issue_run (Some 1) [issue_syn 99; issue_data 100 [1; 2]; issue_data 102 [3; 4]] in
  r.1 = Ok tt ∧ h_pages (issue_half r.2) = -1 ∧ pc_used (pc r.2) = 1.
Proof. by vm_compute. Qed.

(** Near the end of the sequence space [Difference] of
    [tcpassembly.go] is one too small, so a packet that ends a page short of
    2^32 - 1 and one that overlaps its end make [checkOverlap] panic. *)
Theorem wraparound_panics :
  (issue_run None [issue_syn (uint32Max - 3000); issue_data (uint32Max - 1900) (replicate 1900 7);
     issue_data (uint32Max - 2) [1; 2; 3]]).1 = Panic SliceOutOfRange.
Proof. by vm_compute. Qed.

(** A connection that ends while two pages are queued gives back
    only the first of them: [replace] clears the link that the loop of
    [closeHalfConnection] follows next. The other page stays counted in the
    page cache for ever. *)
Theorem closing_leaks_pages :
  let r := issue_run None [issue_syn 99; issue_data 110 [1]; issue_data 120 [2]; issue_packet 100 false true []] in
  r.1 = Ok tt ∧ h_closed (issue_half r.2) = true ∧ h_pages (issue_half r.2) = 1 ∧ pc_used (pc r.2) = 1.
Proof. by vm_compute. Qed.

(** The scatter-gather object of the last delivery. *)
Definition last_object (w : world) : option ScatterGather :=
  last (omap (fun e => match e with EvReassembledSG _ sg _ => Some sg | _ => None end) (trace w)).

(** A packet that was queued in two pages has its capture
    information in the first page only: the stream that asks for the
    [CaptureInfo] of the byte at offset 1901 of the data panics. *)
Theorem CaptureInfo_panics :
  let r := issue_run None [issue_syn 99; issue_data 101 (replicate 1901 7); issue_data 100 [1]] in
  r.1 = Ok tt ∧
  (sg ← last_object r.2; Some (Lengths sg, sg_CaptureInfo 1900 sg, sg_CaptureInfo 1901 sg)) =
    Some ((1902, 0), Ok (example_time 1), Panic NilDereference).
Proof. by vm_compute. Qed.
