(* ===== verification/Snoop.v ===== *)
(** * Snoop files

    The reader of snoop capture files (RFC 1761) of [pcapgo/snoop.go], over byte
    streams. The fields of a file are big-endian. *)

From S2P Require Import Prelude Enums Capture.

Definition snoopMagic : Z := 0x736e6f6f70000000.
Definition snoopVersion : Z := 2.
Definition maxCaptureLen : Z := 4096.

(** [header] is inlined; [packetBuf] is made with length and capacity equal. *)
Record SnoopReader : Type := mkSnoop {
  sn_r : stream;
  sn_Version : Z;
  sn_linkType : Z;
  sn_pad : Z;
  sn_packetBuf : bytes;
  sn_buf : bytes;
}.

Definition set_sn_pad (v : Z) (r : SnoopReader) : SnoopReader :=
  mkSnoop (sn_r r) (sn_Version r) (sn_linkType r) v (sn_packetBuf r) (sn_buf r).
Definition set_sn_packetBuf (v : bytes) (r : SnoopReader) : SnoopReader :=
  mkSnoop (sn_r r) (sn_Version r) (sn_linkType r) (sn_pad r) v (sn_buf r).
Definition set_sn_buf (v : bytes) (r : SnoopReader) : SnoopReader :=
  mkSnoop (sn_r r) (sn_Version r) (sn_linkType r) (sn_pad r) (sn_packetBuf r) v.

(** [layerTypes] *)
Definition layerTypes (code : Z) : option Z :=
  match code with
  | 0 => Some LinkTypeEthernet
  | 2 => Some LinkTypeTokenRing
  | 4 => Some LinkTypeEthernet
  | 5 => Some LinkTypeC_HDLC
  | 8 => Some LinkTypeFDDI
  | _ => None
  end.

Definition LinkType (r : SnoopReader) : outcome Z :=
  match layerTypes (sn_linkType r) with
  | Some lt => mret lt
  | None => Err (Errorf "%s, Code:%d" [sn_linkType r])
  end.

Definition readHeader (r : stream) : outcome SnoopReader :=
  let '(o, r) := ReadFull 16 r in
  buf ← o;
  if len buf <? 16 then Err (errors_New "Not enough data for read")
  else
    magic ← slice buf 0 8 ≫= BE_Uint64;
    if negb (magic =? snoopMagic) then Err (Errorf "Unknown Snoop Magic Bytes: %x" [magic])
    else
      version ← slice buf 8 12 ≫= BE_Uint32;
      if negb (version =? snoopVersion) then Err (Errorf "Unknown Snoop Format Version: %d" [version])
      else
        linkType ← slice buf 12 16 ≫= BE_Uint32;
        if linkType >? 10 then Err (Errorf "Unknown Link Type, Code:%d" [linkType])
        else mret (mkSnoop r version linkType 0 [] (replicate 24 0)).

Definition NewSnoopReader (r : stream) : outcome SnoopReader := readHeader r.

(** [io.ReadFull(r.r, b)]: [b] with what was read at its front, and the error. *)
Definition read_front (b : bytes) : M SnoopReader (bytes * option error) := fun s =>
  let '(got, e, r) := ReadFull_partial (len b) (sn_r s) in
  let s := mkSnoop r (sn_Version s) (sn_linkType s) (sn_pad s) (sn_packetBuf s) (sn_buf s) in
  (b ← lift (write_at b 0 got); mret (b, e)) s.

(** An error that a function returns beside its results. *)
Definition check (e : option error) : M SnoopReader unit :=
  match e with None => mret tt | Some e => throw e end.

Definition readPacketHeader : M SnoopReader CaptureInfo :=
  s ← get;
  r ← read_front (sn_buf s);
  _ ← modify (set_sn_buf r.1);
  _ ← check r.2;
  let buf := r.1 in
  secs ← lift (slice buf 16 20 ≫= BE_Uint32);
  micros ← lift (slice buf 20 24 ≫= BE_Uint32);
  length ← lift (slice buf 0 4 ≫= BE_Uint32);
  caplen ← lift (slice buf 4 8 ≫= BE_Uint32);
  record ← lift (slice buf 8 12 ≫= BE_Uint32);
  _ ← modify (set_sn_pad (record - (24 + length)));
  if caplen >? length then throw (errors_New "Capture length exceeds original packet length")
  else if caplen >? maxCaptureLen then throw (errors_New "Capture length exceeds max capture length")
  else mret (mkCaptureInfo (time_Unix secs (u32 (micros * 1000))) caplen length 0).

Definition ReadPacketData : M SnoopReader (bytes * CaptureInfo) :=
  ci ← readPacketHeader;
  s ← get;
  data ← lift (make_bytes (CaptureLength ci + sn_pad s));
  r ← read_front data;
  data ← lift (slice_to r.1 (CaptureLength ci));
  _ ← check r.2;
  mret (data, ci).

Definition ZeroCopyReadPacketData : M SnoopReader (bytes * CaptureInfo) :=
  ci ← readPacketHeader;
  s ← get;
  let n := CaptureLength ci + sn_pad s in
  _ ← (if len (sn_packetBuf s) <? n then b ← lift (make_bytes n); modify (set_sn_packetBuf b)
       else mret tt);
  s ← get;
  b ← lift (slice_to (sn_packetBuf s) n);
  r ← read_front b;
  _ ← modify (fun s => set_sn_packetBuf (r.1 ++ drop (length b) (sn_packetBuf s)) s);
  s ← get;
  data ← lift (slice_to (sn_packetBuf s) (CaptureLength ci));
  _ ← check r.2;
  mret (data, ci).

(** [n] packets, one after the other. *)
Fixpoint read_packets (n : nat) : M SnoopReader (list (bytes * CaptureInfo)) :=
  match n with
  | O => mret []
  | S n => p ← ReadPacketData; ps ← read_packets n; mret (p :: ps)
  end.

(** ** What a record is read as *)

(** The header of a record: original and included length, length of the record,
    drops, and the time. *)
Definition record_header (orig incl reclen drops sec usec : Z) : bytes :=
  be32 orig ++ be32 incl ++ be32 reclen ++ be32 drops ++ be32 sec ++ be32 usec.

Definition info (orig incl sec usec : Z) : CaptureInfo :=
  mkCaptureInfo (time_Unix sec (u32 (usec * 1000))) incl orig 0.

Lemma BE_Uint32_be32_nil v : is_u32 v → BE_Uint32 (be32 v) = Ok v.
Proof. intros H. rewrite <-(app_nil_r (be32 v)). by apply BE_Uint32_be32. Qed.

Definition with_stream (r : stream) (s : SnoopReader) : SnoopReader :=
  mkSnoop r (sn_Version s) (sn_linkType s) (sn_pad s) (sn_packetBuf s) (sn_buf s).

Lemma write_front (b got : bytes) : len b = len got → write_at b 0 got = Ok got.
Proof.
  intros Hl. pose proof (write_at_app [] b [] got 0 eq_refl Hl) as H. cbn in H. by rewrite !app_nil_r in H.
Qed.

Lemma read_front_ok b got t e s : sn_r s = mkStream (got ++ t) e → len b = len got →
  read_front b s = (Ok (got, None), with_stream (mkStream t e) s).
Proof.
  intros Hs Hl. unfold read_front, ReadFull_partial. rewrite Hs. cbn [rest end_error].
  assert (Z.to_nat (len b) = length got) as -> by (unfold len in *; lia).
  rewrite take_app_length, drop_app_length. rewrite Hl, (proj2 (Z.geb_le _ _)) by lia.
  by rewrite lift_bind, write_front.
Qed.

(** Too few bytes: those are read, and the rest of the buffer stays. *)
Lemma read_front_short b s : len (rest (sn_r s)) < len b → ∃ b' e r,
  read_front b s = (Ok (b', Some e), with_stream r s) ∧ len b' = len b.
Proof.
  intros Hl. unfold read_front, ReadFull_partial. set (got := take (Z.to_nat (len b)) (rest (sn_r s))).
  assert (len got < len b) as Hg by (unfold got; rewrite len_take; lia).
  destruct (Z.geb_spec (len got) (len b)); [lia|].
  assert (∃ b', write_at b 0 got = Ok b' ∧ len b' = len b) as (b' & E & Hb').
  { eexists. split; [apply write_at_ok; lia|]. rewrite !len_app, len_take, len_drop. pose proof (len_nonneg got). lia. }
  destruct ((0 <? len got) && is_EOF _); (eexists b', _, _; split; [|done]); rewrite lift_bind, E; reflexivity.
Qed.

Section record.
Variables (orig incl reclen drops sec usec : Z).
Hypothesis fields : Forall is_u32 [orig; incl; reclen; drops; sec; usec].
Let header := record_header orig incl reclen drops sec usec.

(** The fields of the header, read back. *)
Lemma record_header_fields : (slice header 0 4 ≫= BE_Uint32) = Ok orig ∧ (slice header 4 8 ≫= BE_Uint32) = Ok incl ∧
  (slice header 8 12 ≫= BE_Uint32) = Ok reclen ∧ (slice header 16 20 ≫= BE_Uint32) = Ok sec ∧
  (slice header 20 24 ≫= BE_Uint32) = Ok usec.
Proof.
  pose proof fields as H. rewrite !Forall_cons in H. destruct H as (H1 & H2 & H3 & H4 & H5 & H6 & _).
  split_and!; (etrans; [|by apply BE_Uint32_be32_nil]); reflexivity.
Qed.

(** The reader after the header. *)
Definition after_header (r : stream) (s : SnoopReader) : SnoopReader :=
  mkSnoop r (sn_Version s) (sn_linkType s) (reclen - (24 + orig)) (sn_packetBuf s) header.

Lemma readPacketHeader_record s t e : sn_r s = mkStream (header ++ t) e → len (sn_buf s) = 24 →
  readPacketHeader s =
    (if incl >? orig then Err (errors_New "Capture length exceeds original packet length")
     else if incl >? maxCaptureLen then Err (errors_New "Capture length exceeds max capture length")
     else Ok (info orig incl sec usec), after_header (mkStream t e) s).
Proof.
  intros Hs Hb. destruct record_header_fields as (H1 & H2 & H3 & H4 & H5).
  unfold readPacketHeader. rewrite bind_eq. cbn [get].
  rewrite (bind_ok _ _ _ _ _ (read_front_ok (sn_buf s) header t e s Hs Hb)).
  rewrite bind_eq. cbn [modify fst snd check]. rewrite bind_eq. cbn [mret M_ret].
  rewrite !lift_bind, H4. rewrite !lift_bind, H5. rewrite !lift_bind, H1. rewrite !lift_bind, H2. rewrite !lift_bind, H3.
  rewrite bind_eq. cbn [modify]. destruct (incl >? orig); [done|]. by destruct (incl >? maxCaptureLen).
Qed.
End record.

Lemma slice_to_panics (l : bytes) hi : len l < hi → slice_to l hi = Panic SliceOutOfRange.
Proof.
  intros H. unfold slice_to. destruct (Z.ltb_spec hi 0); [done|].
  by rewrite take_exact_None by (unfold len in H; lia).
Qed.

Section reading.
Variables (orig incl reclen drops sec usec : Z).
Hypothesis fields : Forall is_u32 [orig; incl; reclen; drops; sec; usec].
Let header := record_header orig incl reclen drops sec usec.

(** The number of bytes that the code takes for data and padding. *)
Definition data_size : Z := incl + (reclen - (24 + orig)).

(** Every record, whole or not. *)
Lemma ReadPacketData_record s t e : sn_r s = mkStream (header ++ t) e → len (sn_buf s) = 24 →
  let r := ReadPacketData s in
  (orig < incl ∨ maxCaptureLen < incl → ∃ err, r.1 = Err err) ∧
  (incl <= orig → incl <= maxCaptureLen → data_size < incl → ∃ c, r.1 = Panic c) ∧
  (incl <= orig → incl <= maxCaptureLen → incl <= data_size → len t < data_size → ∃ err, r.1 = Err err) ∧
  (incl <= orig → incl <= maxCaptureLen → incl <= data_size → data_size <= len t →
    r = (Ok (take (Z.to_nat incl) t, info orig incl sec usec),
         after_header orig incl reclen drops sec usec (mkStream (drop (Z.to_nat data_size) t) e) s)).
Proof.
  intros Hs Hb r. pose proof (readPacketHeader_record _ _ _ _ _ _ fields s t e Hs Hb) as Hh.
  assert (0 <= incl) as Hincl by (rewrite !Forall_cons in fields; destruct fields as (_ & H & _); apply H).
  unfold r, ReadPacketData. rewrite bind_eq, Hh. destruct (Z.gtb_spec incl orig); [split_and!; [eauto|lia..]|].
  destruct (Z.gtb_spec incl maxCaptureLen); [split_and!; [eauto|lia..]|].
  rewrite bind_eq. cbn [get]. rewrite lift_bind. cbn [info CaptureLength after_header sn_pad]. fold data_size.
  unfold make_bytes. destruct (Z.ltb_spec data_size 0).
  { split_and!; [lia|intros; by eexists|lia..]. }
  cbn [mret outcome_ret]. set (buf := replicate (Z.to_nat data_size) 0).
  assert (len buf = data_size) as Hbuf by (unfold buf, len; rewrite length_replicate; lia).
  set (s1 := after_header _ _ _ _ _ _ _ s). destruct (Z.lt_ge_cases (len t) data_size) as [Hlt|Hge].
  - destruct (read_front_short buf s1) as (b' & err & rr & E & Hb'); [cbn; lia|].
    rewrite (bind_ok _ _ _ _ _ E), lift_bind. cbn [fst snd]. destruct (Z.lt_ge_cases data_size incl).
    + rewrite slice_to_panics by lia. split_and!; [lia|intros; by eexists|lia..].
    + rewrite slice_to_ok by lia. split_and!; [lia..|intros; by eexists|lia].
  - assert (t = take (Z.to_nat data_size) t ++ drop (Z.to_nat data_size) t) as Ht by (by rewrite take_drop).
    assert (len (take (Z.to_nat data_size) t) = data_size) as Hl by (rewrite len_take; lia).
    rewrite (bind_ok _ _ _ _ _ (read_front_ok buf (take (Z.to_nat data_size) t) (drop (Z.to_nat data_size) t) e s1
      ltac:(by cbn; rewrite take_drop) ltac:(lia))), lift_bind. cbn [fst snd].
    destruct (Z.lt_ge_cases data_size incl).
    + rewrite slice_to_panics by lia. split_and!; [lia|intros; by eexists|lia..].
    + rewrite slice_to_ok by lia. split_and!; [lia..|]. intros _ _ _ _.
      rewrite take_take, Nat.min_l by lia. done.
Qed.
End reading.

(** ** Files *)

(** A record of a file: time, drops, data and padding. *)
Record snoop_record : Type := mkRecord {
  rec_sec : Z;
  rec_usec : Z;
  rec_drops : Z;
  rec_data : bytes;
  rec_pad : bytes;
}.

Definition record_ok (p : snoop_record) : Prop :=
  is_u32 (rec_sec p) ∧ is_u32 (rec_usec p) ∧ is_u32 (rec_drops p) ∧
  len (rec_data p) <= maxCaptureLen ∧ len (rec_pad p) <= maxCaptureLen.

(** A packet of [orig] bytes of which the record has the first ones. *)
Definition record_bytes (orig : Z) (p : snoop_record) : bytes :=
  record_header orig (len (rec_data p)) (24 + len (rec_data p) + len (rec_pad p)) (rec_drops p) (rec_sec p) (rec_usec p)
    ++ rec_data p ++ rec_pad p.

Definition whole (p : snoop_record) : bytes := record_bytes (len (rec_data p)) p.

Definition record_packet (p : snoop_record) : bytes * CaptureInfo :=
  (rec_data p, info (len (rec_data p)) (len (rec_data p)) (rec_sec p) (rec_usec p)).

Definition file_header (linkType : Z) : bytes :=
  be32 0x736e6f6f ++ be32 0x70000000 ++ be32 snoopVersion ++ be32 linkType.

Lemma NewSnoopReader_header linkType t e : 0 <= linkType <= 10 →
  NewSnoopReader (mkStream (file_header linkType ++ t) e) =
    Ok (mkSnoop (mkStream t e) snoopVersion linkType 0 [] (replicate 24 0)).
Proof.
  intros Hl. unfold NewSnoopReader, readHeader. rewrite ReadFull_ok by done. cbn [mbind outcome_bind].
  change (len (file_header linkType) <? 16) with false. cbn [negb].
  assert (slice (file_header linkType) 0 8 = Ok (be32 0x736e6f6f ++ be32 0x70000000)) as -> by reflexivity.
  assert (slice (file_header linkType) 8 12 = Ok (be32 snoopVersion)) as -> by reflexivity.
  assert (slice (file_header linkType) 12 16 = Ok (be32 linkType)) as -> by reflexivity.
  cbn [mbind outcome_bind]. rewrite (BE_Uint32_be32_nil linkType) by (unfold is_u32; lia).
  assert (BE_Uint64 (be32 0x736e6f6f ++ be32 0x70000000) = Ok snoopMagic) as -> by reflexivity.
  assert (BE_Uint32 (be32 snoopVersion) = Ok snoopVersion) as -> by reflexivity.
  cbn. destruct (Z.gtb_spec linkType 10); [lia|done].
Qed.

Lemma read_whole p t e s : record_ok p → sn_r s = mkStream (whole p ++ t) e → len (sn_buf s) = 24 →
  ∃ s', ReadPacketData s = (Ok (record_packet p), s') ∧ sn_r s' = mkStream t e ∧ len (sn_buf s') = 24.
Proof.
  intros (H1 & H2 & H3 & H4 & H5) Hs Hb. unfold maxCaptureLen in *.
  pose proof (len_nonneg (rec_data p)). pose proof (len_nonneg (rec_pad p)).
  unfold whole, record_bytes in Hs. rewrite <-!app_assoc in Hs.
  eassert (Forall is_u32 _) as Hf; [|destruct (ReadPacketData_record _ _ _ _ _ _ Hf s _ e Hs Hb) as (_ & _ & _ & HR)].
  { repeat apply Forall_cons_2; try apply Forall_nil_2; try done; unfold is_u32; lia. }
  unfold data_size, maxCaptureLen in HR. rewrite !len_app in HR.
  specialize (HR ltac:(lia) ltac:(lia) ltac:(lia) ltac:(pose proof (len_nonneg t); lia)).
  replace (Z.to_nat (len (rec_data p))) with (length (rec_data p)) in HR by (unfold len; lia).
  replace (Z.to_nat (len (rec_data p) + _)) with (length (rec_data p) + length (rec_pad p))%nat in HR
    by (unfold len; lia).
  rewrite take_app_length, app_assoc, <-length_app, drop_app_length in HR.
  eexists. split; [exact HR|]. done.
Qed.

Lemma read_packets_whole ps t e : Forall record_ok ps → ∀ s, sn_r s = mkStream (concat (whole <$> ps) ++ t) e →
  len (sn_buf s) = 24 → ∃ s', read_packets (length ps) s = (Ok (record_packet <$> ps), s') ∧ sn_r s' = mkStream t e.
Proof.
  induction 1 as [|p ps Hp _ IH]; intros s Hs Hb; [by exists s|]. cbn in Hs. rewrite <-app_assoc in Hs.
  destruct (read_whole p _ e s Hp Hs Hb) as (s1 & E1 & Hs1 & Hb1).
  destruct (IH s1 Hs1 Hb1) as (s2 & E2 & Hs2). exists s2. split; [|done].
  cbn [length read_packets]. by rewrite (bind_ok _ _ _ _ _ E1), (bind_ok _ _ _ _ _ E2).
Qed.

(** A snoop file with packets that were captured whole, as RFC
    1761 lays it out, with any padding, is opened, and all its packets are read,
    in order, with their data, lengths and times; the input is then at the byte
    after the last record. *)
Theorem snoop_reads_file linkType ps t e : 0 <= linkType <= 10 → Forall record_ok ps → ∃ r s',
  NewSnoopReader (mkStream (file_header linkType ++ concat (whole <$> ps) ++ t) e) = Ok r ∧
  sn_linkType r = linkType ∧
  read_packets (length ps) r = (Ok (record_packet <$> ps), s') ∧ sn_r s' = mkStream t e.
Proof.
  intros Hl Hps. rewrite NewSnoopReader_header by done. set (r := mkSnoop _ _ _ _ _ _).
  destruct (read_packets_whole ps t e Hps r) as (s' & E & Hs'); [done..|]. by exists r, s'.
Qed.

Lemma snoop_reads_file_witness : ∃ r s',
  NewSnoopReader (mkStream (file_header 4 ++ concat (whole <$>
    [mkRecord 7 5 0 [1; 2; 3] [0]; mkRecord 8 999999 1 [4] [0; 0; 0]]) ++ [9]) io_EOF) = Ok r ∧
  sn_linkType r = 4 ∧
  read_packets 2 r = (Ok [([1; 2; 3], mkCaptureInfo (mkTime 7 5000) 3 3 0);
                          ([4], mkCaptureInfo (mkTime 8 999999000) 1 1 0)], s') ∧ sn_r s' = mkStream [9] io_EOF.
Proof.
  apply (snoop_reads_file 4 [mkRecord 7 5 0 [1; 2; 3] [0]; mkRecord 8 999999 1 [4] [0; 0; 0]]); [lia|].
  repeat (apply Forall_cons_2; [unfold record_ok, is_u32, maxCaptureLen, len; cbn; lia|]). apply Forall_nil_2.
Defined.

(** A packet that was cut off when it was captured, by more than its padding: the
    padding is computed with the length of the whole packet, comes out negative,
    and [ReadPacketData] panics. *)
Lemma snoop_truncated_panics orig p t e s : record_ok p → is_u32 orig →
  len (rec_data p) + len (rec_pad p) < orig →
  sn_r s = mkStream (record_bytes orig p ++ t) e → len (sn_buf s) = 24 → ∃ c, (ReadPacketData s).1 = Panic c.
Proof.
  intros (H1 & H2 & H3 & H4 & H5) Ho Hlt Hs Hb. unfold maxCaptureLen in *.
  pose proof (len_nonneg (rec_data p)). pose proof (len_nonneg (rec_pad p)).
  unfold record_bytes in Hs. rewrite <-!app_assoc in Hs.
  eassert (Forall is_u32 _) as Hf; [|destruct (ReadPacketData_record _ _ _ _ _ _ Hf s _ e Hs Hb) as (_ & HR & _)].
  { repeat apply Forall_cons_2; try apply Forall_nil_2; try done; unfold is_u32; lia. }
  apply HR; unfold data_size, maxCaptureLen; lia.
Qed.
