(* ===== verification/Lcm.v ===== *)
(** * LCM messages ([layers/lcm.go])

    The header of an LCM message or of a fragment of one, the table of
    fingerprints, and the decoder as a packet builder uses it. *)

From S2P Require Import Prelude SerializeBuffer LayerClasses Enums Packet.

Definition LCMShortHeaderMagic : Z := 0x4c433032.
Definition LCMFragmentedHeaderMagic : Z := 0x4c433033.

(** [ChannelName] is a Go string, the list of its bytes. *)
Record LCM : Type := mkLCM {
  Magic : Z;
  SequenceNumber : Z;
  PayloadSize : Z;
  FragmentOffset : Z;
  FragmentNumber : Z;
  TotalFragments : Z;
  ChannelName : bytes;
  Fragmented : bool;
  fingerprint : Z;
  contents : bytes;
  payload : bytes;
}.

Definition empty_LCM : LCM := mkLCM 0 0 0 0 0 0 [] false 0 [] [].

Definition set_magic (v : Z) (l : LCM) : LCM :=
  mkLCM v (SequenceNumber l) (PayloadSize l) (FragmentOffset l) (FragmentNumber l) (TotalFragments l)
    (ChannelName l) (Fragmented l) (fingerprint l) (contents l) (payload l).
Definition set_sequence (v : Z) (l : LCM) : LCM :=
  mkLCM (Magic l) v (PayloadSize l) (FragmentOffset l) (FragmentNumber l) (TotalFragments l)
    (ChannelName l) (Fragmented l) (fingerprint l) (contents l) (payload l).
Definition set_fragment (size offset number total : Z) (l : LCM) : LCM :=
  mkLCM (Magic l) (SequenceNumber l) size offset number total
    (ChannelName l) true (fingerprint l) (contents l) (payload l).
Definition set_Fragmented (v : bool) (l : LCM) : LCM :=
  mkLCM (Magic l) (SequenceNumber l) (PayloadSize l) (FragmentOffset l) (FragmentNumber l) (TotalFragments l)
    (ChannelName l) v (fingerprint l) (contents l) (payload l).
Definition set_channel (v : bytes) (l : LCM) : LCM :=
  mkLCM (Magic l) (SequenceNumber l) (PayloadSize l) (FragmentOffset l) (FragmentNumber l) (TotalFragments l)
    v (Fragmented l) (fingerprint l) (contents l) (payload l).
Definition set_body (fp : Z) (c p : bytes) (l : LCM) : LCM :=
  mkLCM (Magic l) (SequenceNumber l) (PayloadSize l) (FragmentOffset l) (FragmentNumber l) (TotalFragments l)
    (ChannelName l) (Fragmented l) fp c p.

(** A message of its own, or the first fragment: it names the channel. *)
Definition is_head (l : LCM) : bool :=
  negb (Fragmented l) || (Fragmented l && (FragmentNumber l =? 0)).

(** The loop over the name: its bytes, and how far [offset] moves. *)
Fixpoint channel_name (l : bytes) : bytes * Z :=
  match l with
  | [] => ([], 0)
  | b :: l => if b =? 0 then ([], 1) else let x := channel_name l in (b :: x.1, x.2 + 1)
  end.

Definition DecodeFromBytes (data : bytes) : M (dstate LCM) unit :=
  if len data <? 8 then
    _ ← SetTruncated;
    throw (errors_New "LCM < 8 bytes")
  else
    magic ← lift (slice data 0 4 ≫= BE_Uint32);
    _ ← modify_layer (set_magic magic);
    if negb (magic =? LCMShortHeaderMagic) && negb (magic =? LCMFragmentedHeaderMagic) then
      throw (Errorf "Received LCM header magic %v does not match know LCM magic numbers. Dropping packet." [magic])
    else
      seq ← lift (slice data 4 8 ≫= BE_Uint32);
      _ ← modify_layer (set_sequence seq);
      offset ← (if magic =? LCMFragmentedHeaderMagic then
                  size ← lift (slice data 8 12 ≫= BE_Uint32);
                  foffset ← lift (slice data 12 16 ≫= BE_Uint32);
                  number ← lift (slice data 16 18 ≫= BE_Uint16);
                  total ← lift (slice data 18 20 ≫= BE_Uint16);
                  _ ← modify_layer (set_fragment size foffset number total);
                  mret 20
                else _ ← modify_layer (set_Fragmented false); mret 8);
      l ← get_layer;
      offset ← (if is_head l then
                  rest ← lift (slice_from data offset);
                  let x := channel_name rest in
                  _ ← modify_layer (set_channel x.1);
                  mret (offset + x.2)
                else mret offset);
      fp ← lift (slice data offset (offset + 8) ≫= BE_Uint64);
      c ← lift (slice_to data offset);
      p ← lift (slice_from data offset);
      modify_layer (set_body fp c p).

(** ** Fingerprints *)

(** The two package variables. *)
Record lcm_table : Type := mkTable { lcmLayerTypes : gmap Z LayerType; layerTypeIndex : Z }.

Definition initial_table : lcm_table := mkTable ∅ 1001.

Definition RegisterLCMLayerType {D} (num : Z) (name : string) (fp : Z) (decoder : option D)
    (t : lcm_table) (r : registry D) : outcome (LayerType * lcm_table * registry D) :=
  let num' := if num =? 0 then layerTypeIndex t else num in
  let index := if num =? 0 then layerTypeIndex t + 1 else layerTypeIndex t in
  x ← RegisterLayerType num' (mkMetadata name decoder) r;
  mret (x.1, mkTable (<[fp := x.1]> (lcmLayerTypes t)) index, x.2).

(** The order of a Go map is unspecified. *)
Definition SupportedLCMFingerprints (t : lcm_table) : list Z := (map_to_list (lcmLayerTypes t)).*1.

Definition GetLCMLayerType (t : lcm_table) (fp : Z) : LayerType :=
  match lcmLayerTypes t !! fp with None => LayerTypePayload | Some lt => lt end.

Definition CanDecode : list LayerType := [LayerTypeLCM].

Definition NextLayerType (t : lcm_table) (l : LCM) : LayerType :=
  if is_head l then GetLCMLayerType t (fingerprint l) else LayerTypeFragment.

(** ** In a packet: [X] are the layers that decoders of LCM payloads add. *)
Section decoder.
Context {X : Type} `{LayerIface X} (t : lcm_table).

#[export] Instance LCM_layers : LayerIface (LCM + X) := {|
  x_type := fun l => match l with inl _ => LayerTypeLCM | inr x => x_type x end;
  x_payload := fun l => match l with inl l => payload l | inr x => x_payload x end;
|}.

Definition decodeLCM (data : bytes) : builder (LCM + X) LayerType :=
  let '(o, s) := DecodeFromBytes data (DState empty_LCM false) in
  let rest :=
    match o with
    | Ok _ =>
        let lcm := dlayer s in
        AddLayer (inl lcm) (SetLayer ApplicationSlot (inl lcm)
          (NextDecoder (Some (NextLayerType t lcm)) Return))
    | Err e => Return (Some e)
    | Panic c => Crash c
    | NoFuel => Crash (Panicked "")
    end in
  if dtruncated s then SetTruncatedThen rest else rest.
End decoder.
