(* ===== verification/LcmDefrag.v ===== *)
(** * Fragments of LCM messages ([defrag/lcmdefrag/lcmdefrag.go])

    The defragmenter collects the fragments of a message by its sequence number,
    puts their payloads behind each other and decodes the result with
    [NewPacket]. The readings of the clock are arguments: [now k] is the time at
    which [cleanUp] looks at the message [k], [seen] the time of [append], both
    in nanoseconds. A fragment is a layer of its own: the model keeps the value
    that the pointer refers to. *)

From S2P Require Import Prelude SerializeBuffer LayerClasses Enums Packet Lcm.

Definition timeout : Z := 3000000000.

Record lcmPacket : Type := mkLcmPacket {
  lastPacket : Z;
  done_ : bool;
  recFrags : Z;
  totalFrags : Z;
  frags : gmap Z LCM;
}.

Definition zero_time : Z := 0.

Definition newLCMPacket (totalFrags : Z) : lcmPacket := mkLcmPacket zero_time false 0 totalFrags ∅.

(** [LCMDefragmenter] *)
Definition packets : Type := gmap Z lcmPacket.
Definition NewLCMDefragmenter : packets := ∅.

Definition append (seen : Z) (l : LCM) (lp : lcmPacket) : lcmPacket :=
  mkLcmPacket seen (done_ lp) (u16 (recFrags lp + 1)) (totalFrags lp) (<[FragmentNumber l := l]> (frags lp)).

Definition set_done (lp : lcmPacket) : lcmPacket :=
  mkLcmPacket (lastPacket lp) true (recFrags lp) (totalFrags lp) (frags lp).

Definition cleanUp (now : Z → Z) (ld : packets) : packets :=
  filter (fun kp => negb (done_ kp.2 || (now kp.1 - lastPacket kp.2 >? timeout)) = true) ld.

(** The loop of [assemble], over [n] fragments from number [i] on. *)
Fixpoint collect (frags : gmap Z LCM) (n : nat) (i : Z) (blob : bytes) : outcome bytes :=
  match n with
  | O => mret blob
  | S n =>
      match frags !! i with
      | None => Err (Errorf "Tried to defragment incomplete packet. Waiting for more potential (unordered) packets... %d" [i])
      | Some l =>
          let blob := if i =? 0 then blob ++ contents l else blob in
          collect frags n (i + 1) (blob ++ payload l)
      end
  end.

Section defragmenter.
(** The table of fingerprints, and the layers and decoders that users register for
    the payloads. Decoders nest no deeper than there are bytes ([PacketCorrect]). *)
Context {X : Type} `{LayerIface X} (t : lcm_table).
Context (decode_other : LayerType → bytes → builder (LCM + X) LayerType).

Definition Decode (lt : LayerType) (data : bytes) : builder (LCM + X) LayerType :=
  if decide (lt = LayerTypeLCM) then decodeLCM t data else decode_other lt data.

(** [packet.Layer(LayerTypeLCM).( *layers.LCM)], if there is one. *)
Definition lcm_layer (p : Packet (LCM + X) LayerType) : option LCM :=
  match p with
  | EagerPacket p =>
      match eager_Layer (fun lt => bool_decide (lt = LayerTypeLCM)) p with
      | Some (Decoded (inl l)) => Some l
      | _ => None
      end
  | LazyPacket _ => None
  end.

Definition errDecoding : error :=
  errors_New "Error while decoding the defragmented packet. Erasing/dropping packet.".

Definition assemble : M lcmPacket LCM :=
  lp ← get;
  blob ← lift (collect (frags lp) (Z.to_nat (totalFrags lp)) 0 []);
  packet ← lift (NewPacket Decode (length blob) blob (Some LayerTypeLCM) NoCopyOptions);
  _ ← modify set_done;
  match lcm_layer packet with
  | Some out => mret out
  | None => throw errDecoding
  end.

(** [in] may be nil. *)
Definition Defrag (now : Z → Z) (seen : Z) (in_ : option LCM) : M packets (option LCM) :=
  _ ← modify (cleanUp now);
  match in_ with
  | None => mret None
  | Some l =>
      if negb (Fragmented l) then mret (Some l)
      else
        let k := SequenceNumber l in
        _ ← modify (fun ld => match ld !! k with
                              | Some _ => ld
                              | None => <[k := newLCMPacket (TotalFragments l)]> ld
                              end);
        _ ← modify (alter (append seen l) k);
        ld ← get;
        let lp := default (newLCMPacket 0) (ld !! k) in
        if recFrags lp =? TotalFragments l then
          let '(o, lp') := assemble lp in
          _ ← modify (<[k := lp']>);
          out ← lift o;
          mret (Some out)
        else mret None
  end.

(** A call: the clock of [cleanUp], that of [append], and the layer. *)
Record call : Type := mkCall { c_now : Z → Z; c_seen : Z; c_in : option LCM }.

(** Calls one after the other, each with its result. *)
Fixpoint run (cs : list call) (ld : packets) : list (outcome (option LCM)) * packets :=
  match cs with
  | [] => ([], ld)
  | c :: cs =>
      let '(o, ld) := Defrag (c_now c) (c_seen c) (c_in c) ld in
      let x := run cs ld in (o :: x.1, x.2)
  end.
End defragmenter.
