(* ===== verification/LcmCorrect.v ===== *)
(** * LCM messages, put together again

    The fragments of a message, as the layer decodes them, in any order and with
    other messages between them, give back the message. Where the code loses a
    message or panics is shown at the end. *)

From S2P Require Import Prelude SerializeBuffer LayerClasses Enums Packet PacketCorrect Lcm LcmDefrag.

(** ** A message in fragments *)

(** The channel, and the parts of the data; [m_place] has the size and the offset
    that the fragments say. *)
Record message : Type := mkMessage {
  m_sequence : Z;
  m_channel : bytes;
  m_place : nat → Z * Z;
  m_parts : list bytes;
}.

Definition header (m : message) (i : nat) : bytes :=
  be32 LCMFragmentedHeaderMagic ++ be32 (m_sequence m) ++ be32 (m_place m i).1 ++ be32 (m_place m i).2 ++
  be16 (Z.of_nat i) ++ be16 (len (m_parts m)) ++ (if (i =? 0)%nat then m_channel m ++ [0] else []).

Definition fragment_bytes (m : message) (i : nat) (p : bytes) : bytes := header m i ++ p.

Definition fingerprint_of (p : bytes) : Z :=
  match BE_Uint64 (take 8 p) with Ok v => v | _ => 0 end.

Definition fragment (m : message) (i : nat) (p : bytes) : LCM :=
  mkLCM LCMFragmentedHeaderMagic (m_sequence m) (m_place m i).1 (m_place m i).2 (Z.of_nat i) (len (m_parts m))
    (if (i =? 0)%nat then m_channel m else []) true (fingerprint_of p) (header m i) p.

Definition fragments (m : message) : list LCM := imap (fragment m) (m_parts m).

(** The message: the header of the first fragment with all of the data. *)
Definition whole (m : message) : LCM := fragment m 0 (concat (m_parts m)).

Record message_ok (m : message) : Prop := mkMessageOk {
  mo_sequence : is_u32 (m_sequence m);
  mo_place : ∀ i, (i < length (m_parts m))%nat → is_u32 (m_place m i).1 ∧ is_u32 (m_place m i).2;
  mo_channel : Forall (fun b => b ≠ 0) (m_channel m);
  mo_some : m_parts m ≠ [];
  mo_few : len (m_parts m) < 65536;
  mo_parts : Forall (fun p => 8 <= len p) (m_parts m);
}.

Lemma channel_name_zero l p : Forall (fun b => b ≠ 0) l → channel_name (l ++ 0 :: p) = (l, len l + 1).
Proof.
  induction 1 as [|b l Hb _ IH]; [done|]. cbn [app channel_name]. rewrite IH, (proj2 (Z.eqb_neq b 0)) by done.
  cbn [fst snd]. rewrite len_cons. f_equal. lia.
Qed.

Lemma BE_Uint64_eight p : 8 <= len p → BE_Uint64 (take 8 p) = Ok (fingerprint_of p).
Proof.
  intros Hl. unfold fingerprint_of. destruct p as [|b0 [|b1 [|b2 [|b3 [|b4 [|b5 [|b6 [|b7 p]]]]]]]];
    try (cbn in Hl; unfold len in Hl; cbn in Hl; lia). reflexivity.
Qed.

Lemma be_value32 v : is_u32 v → BE_Uint32 (be32 v) = Ok v.
Proof. intros H. rewrite <-(app_nil_r (be32 v)). by apply BE_Uint32_be32. Qed.
Lemma be_value16 v : is_u16 v → BE_Uint16 (be16 v) = Ok v.
Proof. intros H. rewrite <-(app_nil_r (be16 v)). by apply BE_Uint16_be16. Qed.

(** The six fields of a fragment's header. *)
Lemma fragment_fields seq size off num total tail :
  is_u32 seq → is_u32 size → is_u32 off → is_u16 num → is_u16 total →
  let data := be32 LCMFragmentedHeaderMagic ++ be32 seq ++ be32 size ++ be32 off ++ be16 num ++ be16 total ++ tail in
  (slice data 0 4 ≫= BE_Uint32) = Ok LCMFragmentedHeaderMagic ∧ (slice data 4 8 ≫= BE_Uint32) = Ok seq ∧
  (slice data 8 12 ≫= BE_Uint32) = Ok size ∧ (slice data 12 16 ≫= BE_Uint32) = Ok off ∧
  (slice data 16 18 ≫= BE_Uint16) = Ok num ∧ (slice data 18 20 ≫= BE_Uint16) = Ok total ∧
  slice_from data 20 = Ok tail.
Proof.
  intros H1 H2 H3 H4 H5 data. split_and!.
  - etrans; [|by apply (be_value32 LCMFragmentedHeaderMagic)]. reflexivity.
  - etrans; [|by apply (be_value32 seq)]. reflexivity.
  - etrans; [|by apply (be_value32 size)]. reflexivity.
  - etrans; [|by apply (be_value32 off)]. reflexivity.
  - etrans; [|by apply (be_value16 num)]. reflexivity.
  - etrans; [|by apply (be_value16 total)]. reflexivity.
  - reflexivity.
Qed.

Section message.
Variable m : message.
Hypothesis Hm : message_ok m.

Lemma len_header i : len (header m i) = 20 + (if (i =? 0)%nat then len (m_channel m) + 1 else 0).
Proof. unfold header. destruct (i =? 0)%nat; lens. Qed.

(** The layer decodes a fragment as it was made. *)
Lemma decode_fragment i p : (i < length (m_parts m))%nat → 8 <= len p →
  DecodeFromBytes (fragment_bytes m i p) (DState empty_LCM false) = (Ok tt, DState (fragment m i p) false).
Proof.
  intros Hi Hp. destruct Hm as [H1 H2 H3 H4 H5 _]. destruct (H2 i Hi) as [H6 H7].
  assert (is_u16 (Z.of_nat i) ∧ is_u16 (len (m_parts m))) as [H8 H9] by (unfold is_u16, len in *; lia).
  pose proof (len_header i) as Hh. pose proof (len_nonneg (m_channel m)).
  destruct (fragment_fields (m_sequence m) (m_place m i).1 (m_place m i).2 (Z.of_nat i) (len (m_parts m))
    ((if (i =? 0)%nat then m_channel m ++ [0] else []) ++ p) H1 H6 H7 H8 H9) as (E1 & E2 & E3 & E4 & E5 & E6 & E7).
  unfold DecodeFromBytes, fragment_bytes. set (data := header m i ++ p).
  assert (be32 LCMFragmentedHeaderMagic ++ be32 (m_sequence m) ++ be32 (m_place m i).1 ++ be32 (m_place m i).2 ++
    be16 (Z.of_nat i) ++ be16 (len (m_parts m)) ++ (if (i =? 0)%nat then m_channel m ++ [0] else []) ++ p = data) as Ed.
  { unfold data, header. by rewrite <-!app_assoc. }
  rewrite Ed in *. destruct (Z.ltb_spec (len data) 8) as [Hd|_].
  { unfold data in Hd. rewrite len_app in Hd. destruct (i =? 0)%nat; lia. }
  rewrite lift_bind, E1, bind_eq. cbn [modify_layer modify]. change (negb _ && negb _) with false. cbn [negb].
  rewrite lift_bind, E2, bind_eq. cbn [modify_layer modify].
  rewrite (bind_ok _ _ _ 20 (DState (set_fragment (m_place m i).1 (m_place m i).2 (Z.of_nat i) (len (m_parts m))
    (set_sequence (m_sequence m) (set_magic LCMFragmentedHeaderMagic empty_LCM))) false)).
  2: { rewrite Z.eqb_refl.
       do 4 (rewrite lift_bind; (rewrite E3 || rewrite E4 || rewrite E5 || rewrite E6); cbv beta iota). done. }
  rewrite bind_eq. cbn [get_layer gets dlayer]. unfold is_head. cbn [Fragmented FragmentNumber set_fragment negb andb orb].
  set (l := set_fragment _ _ _ _ _).
  rewrite (bind_ok _ _ _ (len (header m i)) (DState (set_channel (if (i =? 0)%nat then m_channel m else []) l) false)).
  2: { rewrite Hh. destruct i as [|i]; cbn [Nat.eqb Z.of_nat Z.eqb] in *; [|rewrite Z.add_0_r; done].
       change (Z.of_nat 0 =? 0) with true. cbv iota. rewrite lift_bind, E7. cbv beta iota zeta. rewrite <-app_assoc. cbn [app]. rewrite channel_name_zero by done. done. }
  rewrite !lift_bind. unfold data. rewrite slice_ok by (rewrite ?len_app; pose proof (len_nonneg (header m i)); lia).
  cbn [mbind outcome_bind].
  assert (drop (Z.to_nat (len (header m i))) (take (Z.to_nat (len (header m i) + 8)) (header m i ++ p)) = take 8 p) as ->.
  { pose proof (len_nonneg (header m i)). replace (Z.to_nat (len (header m i) + 8)) with (length (header m i) + 8)%nat by (unfold len; lia).
    replace (Z.to_nat (len (header m i))) with (length (header m i)) by (unfold len; lia).
    by rewrite take_app_add, drop_app_length. }
  rewrite BE_Uint64_eight by done. cbv beta iota. rewrite lift_bind, slice_to_app by done. cbv beta iota.
  rewrite lift_bind, slice_from_app by done.
  done.
Qed.

(** The bytes of the fragments, in any order, decode to the fragments in that order. *)
Lemma decoded_fragments raw ls : raw ≡ₚ imap (fragment_bytes m) (m_parts m) →
  Forall2 (fun data l => DecodeFromBytes data (DState empty_LCM false) = (Ok tt, DState l false)) raw ls →
  ls ≡ₚ fragments m.
Proof.
  intros Hraw Hdec. set (dec := fun data : bytes => dlayer (DecodeFromBytes data (DState empty_LCM false)).2).
  assert (ls = dec <$> raw) as ->.
  { clear Hraw. induction Hdec as [|data l raw ls Hd _ IH]; [done|]. cbn [fmap list_fmap]. unfold dec at 1. by rewrite Hd, IH. }
  rewrite Hraw. unfold fragments. rewrite fmap_imap. apply reflexive_eq, list_eq. intros i. rewrite !list_lookup_imap.
  destruct (m_parts m !! i) as [p|] eqn:Hp; [|done]. cbn [fmap option_fmap option_map compose]. f_equal. unfold dec.
  rewrite decode_fragment; [done| |].
  - by apply lookup_lt_Some in Hp.
  - pose proof (mo_parts m Hm) as Hf. rewrite Forall_lookup in Hf. by apply (Hf i).
Qed.
End message.

(** ** Calls *)

(** The calls for the fragments with sequence number [k], their layers, and their
    results among all results. *)
Definition is_own (k : Z) (c : call) : bool :=
  match c_in c with Some l => Fragmented l && (SequenceNumber l =? k) | None => false end.

Definition own_layers (k : Z) (cs : list call) : list LCM :=
  omap (fun c => if is_own k c then c_in c else None) cs.

Fixpoint own_results (k : Z) (cs : list call) (os : list (outcome (option LCM))) : list (outcome (option LCM)) :=
  match cs, os with
  | c :: cs, o :: os => if is_own k c then o :: own_results k cs os else own_results k cs os
  | _, _ => []
  end.

(** From one such call to the next, and at all calls between them, no more than
    [timeout] goes by. *)
Fixpoint timely (k : Z) (last : option Z) (cs : list call) : Prop :=
  match cs with
  | [] => True
  | c :: cs =>
      match last with Some seen => c_now c k - seen <= timeout | None => True end ∧
      timely k (if is_own k c then Some (c_seen c) else last) cs
  end.

(** ** The decoder keeps the contract of the packet builder *)

Section packets.
Context {X : Type} `{LayerIface X} (t : lcm_table).
Context (decode_other : LayerType → bytes → builder (LCM + X) LayerType).
Notation Decode := (LcmDefrag.Decode t decode_other).

Lemma slice_from_shorter {A} (data : list A) i p : 0 < i → slice_from data i = Ok p → len p < len data.
Proof.
  intros Hi Hp. destruct (Z_lt_le_dec (len data) i) as [Hl|Hl].
  - unfold slice_from in Hp. destruct (i <? 0); [done|]. rewrite drop_exact_None in Hp by (unfold len in Hl; lia). done.
  - rewrite slice_from_ok in Hp by lia. injection Hp as <-. unfold len in *. rewrite length_drop. lia.
Qed.

Lemma channel_name_advances l : 0 <= (channel_name l).2.
Proof. induction l as [|b l IH]; cbn; [done|]. destruct (b =? 0); cbn; lia. Qed.

(** What a decoded message carries is shorter than the message. *)
Lemma decode_shorter data u s : DecodeFromBytes data (DState empty_LCM false) = (Ok u, s) →
  len (payload (dlayer s)) < len data.
Proof.
  unfold DecodeFromBytes. destruct (_ <? _); [done|].
  assert (∀ offset fp c l tr, 0 < offset → ((fp ← lift (fp offset); c ← lift (c offset : outcome bytes);
    p ← lift (slice_from data offset); modify_layer (set_body fp c p)) : M (dstate LCM) unit) (DState l tr) = (Ok u, s) →
    len (payload (dlayer s)) < len data) as Hend.
  { intros offset fp c l tr Ho. rewrite !lift_bind. destruct (fp offset); try done. rewrite !lift_bind. destruct (c offset); try done.
    rewrite lift_bind. destruct (slice_from data offset) as [p| | |] eqn:Hp; try done. intros [= <- <-].
    by apply (slice_from_shorter data offset). }
  rewrite lift_bind. destruct (_ ≫= _) as [magic| | |]; try done. rewrite bind_eq. cbn [modify_layer modify].
  destruct (negb _ && negb _); [done|].
  rewrite lift_bind. destruct (_ ≫= _) as [seq| | |]; try done. rewrite bind_eq. cbn [modify_layer modify].
  set (tail := fun offset : Z => _).
  assert (∀ offset l tr, 0 < offset → tail offset (DState l tr) = (Ok u, s) → len (payload (dlayer s)) < len data) as Htail.
  { intros offset l tr Ho. unfold tail. rewrite bind_eq. cbn [get_layer gets dlayer]. destruct (is_head l).
    - rewrite bind_eq, lift_bind. destruct (slice_from data offset) as [rest| | |]; try done.
      pose proof (channel_name_advances rest). apply (Hend (offset + (channel_name rest).2)
        (fun o => slice data o (o + 8) ≫= BE_Uint64) (fun o => slice_to data o)). lia.
    - rewrite bind_eq. by apply (Hend offset (fun o => slice data o (o + 8) ≫= BE_Uint64) (fun o => slice_to data o)). }
  rewrite bind_eq. destruct (magic =? _).
  - do 4 (rewrite lift_bind; destruct (_ ≫= _); try done). by apply Htail.
  - by apply Htail.
Qed.

Lemma decodeLCM_abides data : abides false (decodeLCM (X := X) t data).
Proof.
  unfold decodeLCM. destruct (DecodeFromBytes _ _) as [[u|e|c|] [l tr]]; destruct tr; cbn [dtruncated];
    repeat constructor.
Qed.

Lemma decodeLCM_consumes data : consumes (len data) None (decodeLCM (X := X) t data).
Proof.
  unfold decodeLCM. destruct (DecodeFromBytes _ _) as [[u|e|c|] [l tr]] eqn:Hd; destruct tr; cbn [dtruncated];
    repeat constructor; apply (decode_shorter _ _ _ Hd).
Qed.

Hypothesis others_abide : ∀ lt data, abides false (decode_other lt data).
Hypothesis others_consume : ∀ lt data, consumes (len data) None (decode_other lt data).

Lemma Decode_abides : decoders_abide Decode.
Proof. intros lt data. unfold LcmDefrag.Decode. destruct (decide _); [apply decodeLCM_abides|done]. Qed.
Lemma Decode_consumes : decoders_consume Decode.
Proof. intros lt data. unfold LcmDefrag.Decode. destruct (decide _); [apply decodeLCM_consumes|done]. Qed.

(** ** A message put together *)

Variable m : message.
Hypothesis Hm : message_ok m.

Lemma parts_long : 8 <= len (concat (m_parts m)).
Proof.
  destruct Hm as [_ _ _ Hs _ Hp]. destruct (m_parts m) as [|p ps]; [done|]. cbn [concat]. apply Forall_cons in Hp as [Hp _].
  rewrite len_app. pose proof (len_nonneg (concat ps)). lia.
Qed.

Lemma whole_layer : ∃ p, NewPacket Decode (length (fragment_bytes m 0 (concat (m_parts m))))
    (fragment_bytes m 0 (concat (m_parts m))) (Some LayerTypeLCM) NoCopyOptions = Ok p ∧ lcm_layer p = Some (whole m).
Proof.
  set (blob := fragment_bytes m 0 (concat (m_parts m))).
  assert (DecodeFromBytes blob (DState empty_LCM false) = (Ok tt, DState (whole m) false)) as Hd.
  { apply decode_fragment; [done| |apply parts_long]. pose proof (mo_some m Hm) as Hs. destruct (m_parts m); [done|cbn; lia]. }
  destruct (NewPacket_first Decode Decode_abides Decode_consumes blob LayerTypeLCM NoCopyOptions (inl (whole m))
    (SetLayer ApplicationSlot (inl (whole m)) (NextDecoder (Some (NextLayerType t (whole m))) Return)))
    as (pe & ls & Hn & Hl); [done|done| |].
  { unfold LcmDefrag.Decode. rewrite decide_True by done. unfold decodeLCM. by rewrite Hd. }
  exists (EagerPacket pe). split; [done|]. cbn [lcm_layer]. unfold eager_Layer, find_layer. by rewrite Hl.
Qed.

(** ** The fragments in the table *)

Notation k := (m_sequence m).
Notation frag_map rs := (list_to_map ((fun l => (FragmentNumber l, l)) <$> rs) : gmap Z LCM).

(** The entry after the fragments [rs], the last first. *)
Definition entry (last : Z) (rs : list LCM) : lcmPacket :=
  mkLcmPacket last false (len rs) (len (m_parts m)) (frag_map rs).

Lemma fragments_lookup i p : m_parts m !! i = Some p → fragments m !! i = Some (fragment m i p).
Proof. intros Hp. unfold fragments. by rewrite list_lookup_imap, Hp. Qed.

Lemma fragments_numbers : NoDup (FragmentNumber <$> fragments m).
Proof.
  apply NoDup_alt. intros i j z. rewrite !list_lookup_fmap. unfold fragments. rewrite !list_lookup_imap.
  destruct (m_parts m !! i), (m_parts m !! j); cbn; intros; simplify_eq. lia.
Qed.

Lemma entry_lookup last rs i p : rs ≡ₚ fragments m → m_parts m !! i = Some p →
  frags (entry last rs) !! Z.of_nat i = Some (fragment m i p).
Proof.
  intros Hrs Hp. cbn [entry frags]. apply elem_of_list_to_map.
  - rewrite <-list_fmap_compose. rewrite Hrs. apply fragments_numbers.
  - apply list_elem_of_fmap. exists (fragment m i p). split; [done|]. rewrite Hrs.
    eapply list_elem_of_lookup_2, fragments_lookup, Hp.
Qed.

Lemma collect_all fs ps : ∀ n blob, (∀ i p, ps !! i = Some p → fs !! Z.of_nat (n + i) = Some (fragment m (n + i) p)) →
  collect fs (length ps) (Z.of_nat n) blob =
    Ok (match ps with p :: _ => if (n =? 0)%nat then blob ++ header m 0 ++ concat ps else blob ++ concat ps | [] => blob end).
Proof.
  induction ps as [|p ps IH]; intros n blob Hf; [done|]. cbn [length collect].
  pose proof (Hf 0%nat p eq_refl) as H0. rewrite Nat.add_0_r in H0. rewrite H0.
  replace (Z.of_nat n + 1) with (Z.of_nat (S n)) by lia. cbv zeta. rewrite IH.
  - cbn [Nat.eqb fragment contents payload concat]. destruct n as [|n]; cbn [Nat.eqb]; [change (Z.of_nat 0 =? 0) with true|
      rewrite (proj2 (Z.eqb_neq _ _)) by lia]; f_equal; destruct ps; cbn [concat]; rewrite ?app_nil_r, <-?app_assoc; done.
  - intros i q Hq. specialize (Hf (S i) q Hq). by rewrite Nat.add_succ_r in Hf.
Qed.

(** With all fragments there, [assemble] makes the message. *)
Lemma assemble_whole last rs : rs ≡ₚ fragments m →
  assemble t decode_other (entry last rs) = (Ok (whole m), set_done (entry last rs)).
Proof.
  intros Hrs. unfold assemble. rewrite bind_eq. cbn [get]. rewrite lift_bind.
  replace (Z.to_nat (totalFrags (entry last rs))) with (length (m_parts m)) by (cbn [entry totalFrags]; unfold len; lia).
  change 0 with (Z.of_nat 0). rewrite (collect_all _ (m_parts m) 0 []) by (intros i p Hp; by apply entry_lookup).
  pose proof (mo_some m Hm) as Hs. destruct whole_layer as (p & Hn & Hw). unfold fragment_bytes in Hn.
  destruct (m_parts m) as [|p0 ps] eqn:Hps; [done|]. cbn [Nat.eqb app]. cbv beta iota. rewrite lift_bind, Hn.
  cbv beta iota. rewrite bind_eq. cbn [modify]. by rewrite Hw.
Qed.

(** ** One call *)

Notation Defrag := (Defrag t decode_other).
Notation run := (run t decode_other).

(** What the table has for the message after the fragments [rs], the last of
    them at [last]. *)
Definition collected (last : Z) (rs : list LCM) (ld : packets) : Prop :=
  match rs with
  | [] => ∀ lp, ld !! k = Some lp → done_ lp = true
  | _ => ld !! k = Some (entry last rs)
  end.

Lemma cleanUp_lookup now (ld : packets) i : cleanUp now ld !! i =
  lp ← ld !! i; if done_ lp || (now i - lastPacket lp >? timeout) then None else Some lp.
Proof.
  unfold cleanUp, packets in *. rewrite (map_lookup_filter). destruct (ld !! i) as [lp|]; [|done]. cbn [mbind option_bind].
  destruct (done_ lp || _) eqn:Hb; case_guard as Hg; cbn in Hg |- *; first [done | exfalso; rewrite Hb in Hg; done | by destruct Hg].
Qed.

Lemma cleanUp_collected now last rs ld : collected last rs ld → (rs ≠ [] → now k - last <= timeout) →
  cleanUp now ld !! k = match rs with [] => None | _ => Some (entry last rs) end.
Proof.
  intros Hc Hn. rewrite cleanUp_lookup. destruct rs as [|r rs].
  - cbn in Hc. destruct (ld !! k) as [lp|]; [|done]. cbn. by rewrite (Hc lp).
  - cbn [collected] in Hc. rewrite Hc. cbn [mbind option_bind entry done_ lastPacket orb].
    destruct (Z.gtb_spec (now k - last) timeout); [|done]. specialize (Hn ltac:(done)). lia.
Qed.

(** A call for something else only cleans up. *)
Lemma Defrag_other c ld : is_own k c = false →
  (Defrag (c_now c) (c_seen c) (c_in c) ld).2 !! k = cleanUp (c_now c) ld !! k.
Proof.
  unfold is_own, LcmDefrag.Defrag, packets in *. intros Ho. rewrite bind_eq. cbn [modify]. destruct (c_in c) as [l|]; [|done].
  destruct (Fragmented l); [|done]. cbn [negb andb] in *. apply Z.eqb_neq in Ho.
  rewrite !bind_eq. cbn [modify get]. rewrite bind_eq. cbn [modify get]. rewrite bind_eq. cbn [modify get].
  set (ld1 := cleanUp _ _ : gmap Z lcmPacket).
  set (ld2 := match ld1 !! SequenceNumber l with Some _ => ld1 | None => <[SequenceNumber l := newLCMPacket (TotalFragments l)]> ld1 end).
  assert (ld2 !! k = ld1 !! k) as H2.
  { unfold ld2. destruct (ld1 !! _); [done|]. by rewrite (lookup_insert_ne). }
  destruct (_ =? TotalFragments l).
  - destruct (assemble _ _ _) as [o lp']. rewrite bind_eq. cbn [modify]. unfold mbind, M_bind, lift. destruct o; cbn; by rewrite lookup_insert_ne, lookup_alter_ne by done.
  - cbn. by rewrite lookup_alter_ne by done.
Qed.

(** A fragment of the message. *)
Lemma Defrag_own last rs l c ld : c_in c = Some l → l ∈ fragments m → collected last rs ld →
  (rs ≠ [] → c_now c k - last <= timeout) → len rs + 1 <= len (m_parts m) →
  let r := Defrag (c_now c) (c_seen c) (c_in c) ld in
  if len rs + 1 =? len (m_parts m) then
    r.1 = (out ← (assemble t decode_other (entry (c_seen c) (l :: rs))).1; Ok (Some out)) ∧
    r.2 !! k = Some (assemble t decode_other (entry (c_seen c) (l :: rs))).2
  else r.1 = Ok None ∧ r.2 !! k = Some (entry (c_seen c) (l :: rs)).
Proof.
  intros Hin Hl Hc Hn Hlen r. subst r. pose proof (cleanUp_collected (c_now c) last rs ld Hc Hn) as Hk.
  unfold fragments in Hl. apply list_elem_of_lookup_1 in Hl as [i Hi]. rewrite list_lookup_imap in Hi.
  destruct (m_parts m !! i) as [p|] eqn:Hp; [|done]. injection Hi as Hi.
  assert (Fragmented l = true ∧ SequenceNumber l = k ∧ TotalFragments l = len (m_parts m)) as (Hf & Hs & Ht) by (by subst l).
  unfold LcmDefrag.Defrag, packets in *. rewrite Hin, bind_eq. cbn [modify]. rewrite Hf. cbn [negb]. rewrite !bind_eq. cbn [modify get].
  rewrite bind_eq. cbn [modify get]. rewrite bind_eq. cbn [modify get]. rewrite Hs, Ht.
  set (ld1 := cleanUp _ _ : gmap Z lcmPacket) in *.
  set (ld2 := match ld1 !! k with Some _ => ld1 | None => <[k := newLCMPacket (len (m_parts m))]> ld1 end).
  assert (alter (append (c_seen c) l) k ld2 !! k = Some (entry (c_seen c) (l :: rs))) as H2.
  { rewrite (lookup_alter_eq). pose proof (mo_few m Hm). pose proof (len_nonneg rs).
    assert (u16 (len rs + 1) = len (l :: rs)) as Hu by (rewrite len_cons; unfold u16; rewrite Z.mod_small by lia; lia).
    unfold ld2. destruct rs as [|r rs]; rewrite Hk; [rewrite (lookup_insert_eq)|rewrite Hk]; cbn [fmap option_fmap option_map]; unfold append, entry, newLCMPacket;
      cbn [done_ recFrags totalFrags frags]; f_equal; f_equal; done. }
  rewrite H2. unfold default. cbn [from_option]. unfold id. replace (recFrags (entry (c_seen c) (l :: rs))) with (len rs + 1) by (cbn [entry recFrags]; rewrite len_cons; lia).
  destruct (_ =? _); [|by split]. destruct (assemble _ _ _) as [o lp']. rewrite bind_eq. cbn [modify fst snd].
  destruct o; (split; [done|apply lookup_insert_eq]).
Qed.

Lemma Defrag_last last rs l c ld : c_in c = Some l → l :: rs ≡ₚ fragments m → collected last rs ld →
  (rs ≠ [] → c_now c k - last <= timeout) →
  let r := Defrag (c_now c) (c_seen c) (c_in c) ld in
  r.1 = Ok (Some (whole m)) ∧ collected last [] r.2.
Proof.
  intros Hin Hall Hc Hn r. assert (len rs + 1 = len (m_parts m)) as Hlen.
  { apply Permutation_length in Hall. unfold fragments in Hall. rewrite length_imap in Hall. cbn in Hall. unfold len. lia. }
  pose proof (Defrag_own last rs l c ld Hin ltac:(rewrite <-Hall; left) Hc Hn ltac:(lia)) as Hr.
  rewrite Hlen, Z.eqb_refl, assemble_whole in Hr by done. destruct Hr as [Hr1 Hr2]. split; [exact Hr1|].
  intros lp Hlp. subst r. rewrite Hr2 in Hlp. by injection Hlp as <-.
Qed.

Lemma own_layers_other c cs : is_own k c = false → own_layers k (c :: cs) = own_layers k cs.
Proof. unfold own_layers. cbn [omap list_omap]. by intros ->. Qed.

Lemma own_layers_own c cs : is_own k c = true → ∃ l, c_in c = Some l ∧ own_layers k (c :: cs) = l :: own_layers k cs.
Proof.
  unfold own_layers. cbn [omap list_omap]. intros Ho. rewrite Ho. unfold is_own in Ho.
  destruct (c_in c) as [l|]; [by exists l|done].
Qed.

Lemma run_none cs ld : own_layers k cs = [] → own_results k cs (run cs ld).1 = [].
Proof.
  revert ld. induction cs as [|c cs IH]; intros ld Hn; [done|]. cbn [LcmDefrag.run].
  destruct (Defrag _ _ _ ld) as [o ld']. cbn [fst own_results]. destruct (is_own k c) eqn:Ho.
  - destruct (own_layers_own c cs Ho) as (l & _ & Hl). congruence.
  - apply IH. by rewrite <-(own_layers_other c).
Qed.

Lemma run_collected cs : ∀ last rs ld, collected last rs ld → own_layers k cs ≠ [] → own_layers k cs ++ rs ≡ₚ fragments m →
  timely k (match rs with [] => None | _ => Some last end) cs →
  own_results k cs (run cs ld).1 = replicate (length (own_layers k cs) - 1) (Ok None) ++ [Ok (Some (whole m))].
Proof.
  induction cs as [|c cs IH]; intros last rs ld Hc Hne Hall Ht; [done|]. destruct Ht as [Ht1 Ht2].
  assert (rs ≠ [] → c_now c k - last <= timeout) as Hn by (by destruct rs).
  cbn [LcmDefrag.run]. destruct (is_own k c) eqn:Ho.
  - destruct (own_layers_own c cs Ho) as (l & Hin & Hl). rewrite Hl in *.
    destruct (own_layers k cs) as [|l' ls] eqn:Hcs.
    + pose proof (Defrag_last last rs l c ld Hin Hall Hc Hn) as [Hr _]. destruct (Defrag _ _ _ ld) as [o ld'].
      cbn [fst own_results] in *. by rewrite Ho, run_none, Hr.
    + assert (len rs + 2 <= len (m_parts m)) as Hlen.
      { pose proof (Permutation_length Hall) as Hp. unfold fragments in Hp. rewrite length_imap, length_app in Hp. cbn in Hp. unfold len. lia. }
      pose proof (Defrag_own last rs l c ld Hin ltac:(rewrite <-Hall; left) Hc Hn ltac:(lia)) as Hr.
      rewrite (proj2 (Z.eqb_neq _ _)) in Hr by lia. destruct (Defrag _ _ _ ld) as [o ld']. cbn [fst snd own_results] in *.
      destruct Hr as [-> Hr]. rewrite Ho, (IH (c_seen c) (l :: rs) ld' Hr) by (done || (rewrite <-Hall, <-Permutation_middle; done)).
      cbn [length replicate Nat.sub]. by rewrite Nat.sub_0_r.
  - rewrite own_layers_other in * by done. pose proof (Defrag_other c ld Ho) as Hr.
    destruct (Defrag _ _ _ ld) as [o ld']. cbn [fst snd own_results] in *. rewrite Ho.
    apply (IH last rs ld'); [|done..]. rewrite (cleanUp_collected _ last rs) in Hr by done. destruct rs; [|done].
    intros lp. cbn. by rewrite Hr.
Qed.
End packets.

(** C28 (functional): the fragments of an LCM message, as the layer decodes them,
    given to a defragmenter in any order, with other calls of any kind between
    them and no more than [timeout] of silence: every fragment but the last of
    them gives nothing, and the last gives the message, the header of the first
    fragment with the data of all. *)
Theorem LCM_defragmented {X} `{LayerIface X} t (decode_other : LayerType → bytes → builder (LCM + X) LayerType)
    m (ld : packets) cs raw :
  (∀ lt data, abides false (decode_other lt data)) →
  (∀ lt data, consumes (len data) None (decode_other lt data)) →
  message_ok m → ld !! m_sequence m = None →
  raw ≡ₚ imap (fragment_bytes m) (m_parts m) →
  Forall2 (fun data l => DecodeFromBytes data (DState empty_LCM false) = (Ok tt, DState l false)) raw (own_layers (m_sequence m) cs) →
  timely (m_sequence m) None cs →
  own_results (m_sequence m) cs (run t decode_other cs ld).1 =
    replicate (length (m_parts m) - 1) (Ok None) ++ [Ok (Some (whole m))].
Proof.
  intros Hab Hco Hm Hld Hraw Hdec Ht.
  assert (own_layers (m_sequence m) cs ≡ₚ fragments m) as Hall by (by apply (decoded_fragments m Hm raw)).
  assert (length (own_layers (m_sequence m) cs) = length (m_parts m)) as Hlen.
  { rewrite Hall. unfold fragments. apply length_imap. }
  rewrite <-Hlen. apply (run_collected t decode_other Hab Hco m Hm cs 0 [] ld); [| |by rewrite app_nil_r|done].
  - intros lp. by rewrite Hld.
  - pose proof (mo_some m Hm). intros E. rewrite E in Hlen. by destruct (m_parts m).
Qed.

(** ** Three fragments, a duplicate and a short one *)

#[local] Instance no_layers : LayerIface Empty_set := {|
  x_type := fun x : Empty_set => match x with end;
  x_payload := fun x : Empty_set => match x with end;
|}.
Definition no_decoder (lt : LayerType) (data : bytes) : builder (LCM + Empty_set) LayerType := Return None.

Definition sample_message : message :=
  mkMessage 7 [97; 98] (fun i => (24, 8 * Z.of_nat i)) [[1; 2; 3; 4; 5; 6; 7; 8]; repeat 9 9; repeat 5 8].
Definition sample_other : message := mkMessage 8 [] (fun i => (8, 0)) [repeat 1 8; repeat 2 8].

Definition call_for (time : Z) (m : message) (i : nat) : call :=
  mkCall (fun _ => time) time (fragments m !! i).

(** The message, its fragments out of order, with another one between them. *)
Definition sample_calls : list call :=
  [call_for 10 sample_message 2; call_for 20 sample_other 0; call_for 30 sample_message 0;
   mkCall (fun _ => 40) 40 None; call_for 50 sample_message 1; call_for 60 sample_other 1].

Lemma sample_message_ok : message_ok sample_message.
Proof.
  split; try done.
  - intros [|[|[|i]]] Hi; cbn in Hi; [done..|lia].
  - by repeat constructor.
  - by repeat constructor.
Qed.

Lemma LCM_defragmented_witness :
  own_results 7 sample_calls (run (mkTable ∅ 1001) no_decoder sample_calls NewLCMDefragmenter).1 =
    [Ok None; Ok None; Ok (Some (whole sample_message))].
Proof.
  apply (LCM_defragmented (mkTable ∅ 1001) no_decoder sample_message NewLCMDefragmenter sample_calls
    [fragment_bytes sample_message 2 (repeat 5 8); fragment_bytes sample_message 0 [1; 2; 3; 4; 5; 6; 7; 8];
     fragment_bytes sample_message 1 (repeat 9 9)]).
  - constructor.
  - constructor.
  - exact sample_message_ok.
  - reflexivity.
  - exact (Permutation_app_comm [fragment_bytes sample_message 2 (repeat 5 8)] [_; _]).
  - vm_compute. repeat constructor.
  - cbn. unfold timeout. lia.
Defined.

(** A fragment that comes twice is counted twice: of [0 0 1 2] the first three
    already have the number of fragments, [assemble] fails on the missing one,
    and with all of them there the count has gone past the number. *)
Lemma duplicate_loses_message :
  let cs := map (call_for 10 sample_message) [0; 0; 1; 2]%nat in
  (run (X := Empty_set) (mkTable ∅ 1001) no_decoder cs NewLCMDefragmenter).1 =
    [Ok None; Ok None; Err (Errorf "Tried to defragment incomplete packet. Waiting for more potential (unordered) packets... %d" [2]); Ok None].
Proof. vm_compute. reflexivity. Qed.

(** The decoder reads a fingerprint of eight bytes from every fragment: the last
    one of a message may well be shorter. *)
Lemma short_fragment_panics :
  (DecodeFromBytes (fragment_bytes sample_message 2 [1; 2; 3]) (DState empty_LCM false)).1 = Panic SliceOutOfRange.
Proof. vm_compute. reflexivity. Qed.

(** The length of the header is not checked either. *)
Lemma short_header_panics :
  (DecodeFromBytes (be32 LCMFragmentedHeaderMagic ++ be32 7) (DState empty_LCM false)).1 = Panic SliceOutOfRange.
Proof. vm_compute. reflexivity. Qed.
