(* ===== verification/Ip6.v ===== *)
(** * IPv6 headers and extensions ([layers/ip6.go])

    The header with its hop-by-hop extension and jumbograms, the options of the
    extensions with their alignment and padding, and the other extension
    headers. A pointer to an option or to the hop-by-hop extension is the value
    it refers to; two of them are never the same object. *)

From S2P Require Import Prelude SerializeBuffer LayerClasses Flows BaseLayers Enums Checksum.

Definition IPv6HopByHopOptionJumbogram : Z := 0xC2.
Definition ipv6MaxPayloadLength : Z := 65535.

(** ** Options of the extensions *)

Record ipv6HeaderTLVOption : Type := mkTLV {
  OptionType : Z;
  OptionLength : Z;
  ActualLength : Z;
  OptionData : option bytes;
  OptionAlignment : Z * Z;
}.

(** The bytes of a slice that may be nil. *)
Definition data_of (o : ipv6HeaderTLVOption) : bytes := default [] (OptionData o).

Definition set_OptionLength (v : Z) (o : ipv6HeaderTLVOption) : ipv6HeaderTLVOption :=
  mkTLV (OptionType o) v (ActualLength o) (OptionData o) (OptionAlignment o).

(** [serializeTo]: the option, the bytes it was written to, and its length; in a
    dry run [data] is nil. *)
Definition TLV_serializeTo (h : ipv6HeaderTLVOption) (data : bytes) (fixLengths dryrun : bool)
    : outcome (ipv6HeaderTLVOption * bytes * Z) :=
  let h := if fixLengths then set_OptionLength (u8 (len (data_of h))) h else h in
  let length := OptionLength h + 2 in
  data ← (if dryrun then mret data
          else
            data ← set_index data 0 (OptionType h);
            data ← set_index data 1 (OptionLength h);
            copy_from data 2 (data_of h));
  mret (h, data, length).

Definition decodeIPv6HeaderTLVOption {L} (data : bytes) : M (dstate L) ipv6HeaderTLVOption :=
  if len data <? 2 then
    _ ← SetTruncated;
    throw (errors_New "IPv6 header option too small")
  else
    b0 ← lift (index data 0);
    if b0 =? 0 then mret (mkTLV 0 0 1 None (0, 0))
    else
      b1 ← lift (index data 1);
      let ActualLength := b1 + 2 in
      if len data <? ActualLength then
        _ ← SetTruncated;
        throw (errors_New "IPv6 header TLV option too small")
      else
        d ← lift (slice data 2 ActualLength);
        mret (mkTLV b0 b1 ActualLength (Some d) (0, 0)).

(** [serializeTLVOptionPadding]: the rest of [data] is cleared, not only the padding. *)
Definition serializeTLVOptionPadding (data : bytes) (padLength : Z) : outcome bytes :=
  if padLength <=? 0 then mret data
  else if padLength =? 1 then set_index data 0 0
  else
    let tlvLength := u8 (u8 padLength - 2) in
    data ← set_index data 0 1;
    data ← set_index data 1 tlvLength;
    if negb (tlvLength =? 0) then
      rest ← slice_from data 2;
      write_at data 2 (replicate (length rest) 0)
    else mret data.

(** An edit of [buf[at:]]. *)
Definition edit_from (buf : bytes) (at_ : Z) (f : bytes → outcome bytes) : outcome bytes :=
  tail ← slice_from buf at_;
  tail ← f tail;
  write_at buf at_ tail.

(** The padding in front of an option, for its alignment [x]n+[y]. *)
Definition alignment_padding (o : ipv6HeaderTLVOption) (length : Z) : Z :=
  let '(x, y) := OptionAlignment o in
  if x =? 0 then 0
  else
    let n := length / x in
    let offset := x * n + y in
    let offset := if offset <? length then offset + x else offset in
    offset - length.

(** The loop over the options, from [length] on; [buf] is not used in a dry run. *)
Fixpoint serialize_options (buf : bytes) (options : list ipv6HeaderTLVOption) (fixLengths dryrun : bool) (length : Z)
    : outcome (bytes * list ipv6HeaderTLVOption * Z) :=
  match options with
  | [] => mret (buf, [], length)
  | opt :: options =>
      let pad := if fixLengths then alignment_padding opt length else 0 in
      buf ← (if negb (pad =? 0) && negb dryrun
             then edit_from buf (length - 2) (fun d => serializeTLVOptionPadding d pad) else mret buf);
      let length := length + pad in
      r ← (if dryrun then TLV_serializeTo opt [] fixLengths true
           else
             tail ← slice_from buf (length - 2);
             r ← TLV_serializeTo opt tail fixLengths false;
             buf ← write_at buf (length - 2) r.1.2;
             mret (r.1.1, buf, r.2));
      let '(opt, buf', l) := r in
      let buf := if dryrun then buf else buf' in
      s ← serialize_options buf options fixLengths dryrun (length + l);
      mret (s.1.1, opt :: s.1.2, s.2)
  end.

(** The bytes, the options, and the length without the two bytes of the header. *)
Definition serializeIPv6HeaderTLVOptions (buf : option bytes) (options : list ipv6HeaderTLVOption) (fixLengths : bool)
    : outcome (bytes * list ipv6HeaderTLVOption * Z) :=
  let dryrun := match buf with None => true | Some _ => false end in
  s ← serialize_options (default [] buf) options fixLengths dryrun 2;
  let '(buf, options, length) := s in
  if fixLengths then
    let pad := length mod 8 in
    if negb (pad =? 0) then
      buf ← (if dryrun then mret buf
             else edit_from buf (length - 2) (fun d => serializeTLVOptionPadding d pad));
      mret (buf, options, length + pad - 2)
    else mret (buf, options, length - 2)
  else mret (buf, options, length - 2).

(** ** Extension headers *)

Record ipv6ExtensionBase : Type := mkExtension {
  ext_base : BaseLayer;
  ext_NextHeader : Z;
  HeaderLength : Z;
  ext_ActualLength : Z;
}.

Definition empty_extension : ipv6ExtensionBase := mkExtension (mkBase [] []) 0 0 0.

Definition decodeIPv6ExtensionBase {L} (data : bytes) : M (dstate L) ipv6ExtensionBase :=
  if len data <? 2 then
    _ ← SetTruncated;
    throw (Errorf "Invalid ip6-extension header. Length %d less than 2" [len data])
  else
    b0 ← lift (index data 0);
    b1 ← lift (index data 1);
    let ActualLength := b1 * 8 + 8 in
    if len data <? ActualLength then
      throw (Errorf "Invalid ip6-extension header. Length %d less than specified length %d" [len data; ActualLength])
    else
      contents ← lift (slice_to data ActualLength);
      payload ← lift (slice_from data ActualLength);
      mret (mkExtension (mkBase contents payload) b0 b1 ActualLength).

(** [IPv6HopByHop] and [IPv6Destination] have the same fields. *)
Record options_header : Type := mkOptionsHeader {
  ext : ipv6ExtensionBase;
  Options : list ipv6HeaderTLVOption;
}.

Definition IPv6HopByHop : Type := options_header.
Definition IPv6Destination : Type := options_header.
Definition empty_options_header : options_header := mkOptionsHeader empty_extension [].

Definition set_ext (e : ipv6ExtensionBase) (i : options_header) : options_header := mkOptionsHeader e (Options i).
Definition set_Options (os : list ipv6HeaderTLVOption) (i : options_header) : options_header := mkOptionsHeader (ext i) os.
Definition set_HeaderLength (v : Z) (i : options_header) : options_header :=
  mkOptionsHeader (mkExtension (ext_base (ext i)) (ext_NextHeader (ext i)) v (ext_ActualLength (ext i))) (Options i).
Definition append_option (o : ipv6HeaderTLVOption) (i : options_header) : options_header :=
  mkOptionsHeader (ext i) (Options i ++ [o]).

(** The loop over the options; every option takes at least one byte. *)
Fixpoint decode_options (fuel : nat) (data : bytes) (offset actual : Z) : M (dstate options_header) unit :=
  match fuel with
  | O => lift NoFuel
  | S fuel =>
      if offset <? actual then
        rest ← lift (slice_from data offset);
        opt ← decodeIPv6HeaderTLVOption rest;
        _ ← modify_layer (append_option opt);
        decode_options fuel data (offset + ActualLength opt) actual
      else mret tt
  end.

(** On an error of the base the embedded struct is overwritten with the empty one. *)
Definition decode_base (data : bytes) : M (dstate options_header) unit :=
  r ← attempt (decodeIPv6ExtensionBase data);
  match r with
  | inl e => modify_layer (set_ext e)
  | inr err => _ ← modify_layer (set_ext empty_extension); throw err
  end.

Definition HopByHop_DecodeFromBytes (data : bytes) : M (dstate IPv6HopByHop) unit :=
  _ ← decode_base data;
  _ ← modify_layer (set_Options []);
  i ← get_layer;
  decode_options (S (length data)) data 2 (ext_ActualLength (ext i)).

(** Options of an earlier packet are kept. *)
Definition Destination_DecodeFromBytes (data : bytes) : M (dstate IPv6Destination) unit :=
  _ ← decode_base data;
  i ← get_layer;
  decode_options (S (length data)) data 2 (ext_ActualLength (ext i)).

(** [SerializeTo] of both; [name] is the one in the error. *)
Definition extension_SerializeTo {W} `{SerializeBuffer W} (name : string) (opts : SerializeOptions)
    : M (options_header * W) unit :=
  i ← get_fields;
  d ← lift (serializeIPv6HeaderTLVOptions None (Options i) (FixLengths opts));
  _ ← put_fields (set_Options d.1.2 i);
  bytes ← prepend d.2;
  d ← lift (serializeIPv6HeaderTLVOptions (Some bytes) d.1.2 (FixLengths opts));
  let bytes := d.1.1 in
  _ ← put_fields (set_Options d.1.2 i);
  _ ← sync bytes;
  let length := len bytes + 2 in
  if negb (length mod 8 =? 0) then throw (Errorf name [])
  else
    bytes ← prepend 2;
    i ← get_fields;
    bytes ← lift (set_index bytes 0 (ext_NextHeader (ext i)));
    let i := if FixLengths opts then set_HeaderLength (u8 (length / 8 - 1)) i else i in
    _ ← put_fields i;
    bytes ← lift (set_index bytes 1 (HeaderLength (ext i)));
    sync bytes.

Definition HopByHop_SerializeTo {W} `{SerializeBuffer W} (opts : SerializeOptions) : M (IPv6HopByHop * W) unit :=
  extension_SerializeTo "IPv6HopByHop actual length must be multiple of 8" opts.
Definition Destination_SerializeTo {W} `{SerializeBuffer W} (opts : SerializeOptions) : M (IPv6Destination * W) unit :=
  extension_SerializeTo "IPv6Destination actual length must be multiple of 8" opts.

(** ** The header *)

Record IPv6 : Type := mkIPv6 {
  base : BaseLayer;
  Version : Z;
  TrafficClass : Z;
  FlowLabel : Z;
  Length : Z;
  NextHeader : Z;
  HopLimit : Z;
  SrcIP : bytes;
  DstIP : bytes;
  HopByHop : option IPv6HopByHop;
}.

Definition empty_IPv6 : IPv6 := mkIPv6 (mkBase [] []) 0 0 0 0 0 0 [] [] None.

Definition set_base (b : BaseLayer) (i : IPv6) : IPv6 :=
  mkIPv6 b (Version i) (TrafficClass i) (FlowLabel i) (Length i) (NextHeader i) (HopLimit i) (SrcIP i) (DstIP i) (HopByHop i).
Definition set_Length (v : Z) (i : IPv6) : IPv6 :=
  mkIPv6 (base i) (Version i) (TrafficClass i) (FlowLabel i) v (NextHeader i) (HopLimit i) (SrcIP i) (DstIP i) (HopByHop i).
Definition set_NextHeader (v : Z) (i : IPv6) : IPv6 :=
  mkIPv6 (base i) (Version i) (TrafficClass i) (FlowLabel i) (Length i) v (HopLimit i) (SrcIP i) (DstIP i) (HopByHop i).
Definition set_HopByHop (h : option IPv6HopByHop) (i : IPv6) : IPv6 :=
  mkIPv6 (base i) (Version i) (TrafficClass i) (FlowLabel i) (Length i) (NextHeader i) (HopLimit i) (SrcIP i) (DstIP i) h.

Definition NetworkFlow (i : IPv6) : outcome Flow := NewFlow EndpointIPv6 (SrcIP i) (DstIP i).

Definition is_jumbo (o : ipv6HeaderTLVOption) : bool := OptionType o =? IPv6HopByHopOptionJumbogram.

(** The length and whether there is one. *)
Definition getIPv6HopByHopJumboLength (hopopts : IPv6HopByHop) : outcome (Z * bool) :=
  match List.find is_jumbo (Options hopopts) with
  | None => mret (0, false)
  | Some tlv =>
      if negb (len (data_of tlv) =? 4) then Err (errors_New "Jumbo length TLV data must have length 4")
      else
        l ← BE_Uint32 (data_of tlv);
        if l <=? ipv6MaxPayloadLength then Err (Errorf "Jumbo length cannot be less than %d" [ipv6MaxPayloadLength + 1])
        else mret (l, true)
  end.

(** Data that is nil is made; other data is written to where it is. *)
Definition SetJumboLength (length : Z) (o : ipv6HeaderTLVOption) : outcome ipv6HeaderTLVOption :=
  let data := match OptionData o with None => make_bytes 4 | Some d => d end in
  data ← BE_PutUint32 data 0 length;
  mret (mkTLV IPv6HopByHopOptionJumbogram 4 6 (Some data) (4, 2)).

(** Apply [f] to the first jumbo option. *)
Fixpoint on_jumbo (f : ipv6HeaderTLVOption → outcome ipv6HeaderTLVOption) (os : list ipv6HeaderTLVOption)
    : outcome (list ipv6HeaderTLVOption) :=
  match os with
  | [] => mret []
  | o :: os =>
      if is_jumbo o then o ← f o; mret (o :: os)
      else os ← on_jumbo f os; mret (o :: os)
  end.

Definition addIPv6JumboOption (ip6 : IPv6) : outcome IPv6 :=
  let ip6 :=
    match HopByHop ip6 with
    | Some _ => ip6
    | None =>
        set_NextHeader IPProtocolIPv6HopByHop
          (set_HopByHop (Some (mkOptionsHeader (mkExtension (mkBase [] []) (NextHeader ip6) 0 0) [])) ip6)
    end in
  let hbh := default empty_options_header (HopByHop ip6) in
  os ← (if existsb is_jumbo (Options hbh) then on_jumbo (SetJumboLength 0) (Options hbh)
        else o ← SetJumboLength 0 (mkTLV 0 0 0 None (0, 0)); mret (Options hbh ++ [o]));
  mret (set_HopByHop (Some (set_Options os hbh)) ip6).

(** The loop over the options in the serialized extension: the place of the jumbo length. *)
Fixpoint jumbo_place (fuel : nat) (hbh : bytes) (hbhLen offset : Z) : outcome Z :=
  match fuel with
  | O => NoFuel
  | S fuel =>
      if offset <? hbhLen then
        opt ← index hbh offset;
        if opt =? 0 then jumbo_place fuel hbh hbhLen (offset + 1)
        else
          optLen ← index hbh (offset + 1);
          if opt =? IPv6HopByHopOptionJumbogram then
            if optLen =? 4 then mret (offset + 2)
            else Err (Errorf "Jumbo TLV too short (%d bytes)" [optLen])
          else jumbo_place fuel hbh hbhLen (offset + (2 + optLen))
      else Err (errors_New "Jumbo TLV not found")
  end.

Definition setIPv6PayloadJumboLength (hbh : bytes) : outcome bytes :=
  let pLen := len hbh in
  if pLen <? 8 then Err (Errorf "Invalid IPv6 payload (length %d)" [pLen])
  else
    b1 ← index hbh 1;
    let hbhLen := u8 (u8 (b1 + 1) * 8) in
    if hbhLen >? pLen then Err (Errorf "Invalid hop-by-hop length (length: %d, payload: %d" [hbhLen; pLen])
    else
      place ← jumbo_place (S (length hbh)) hbh hbhLen 2;
      BE_PutUint32 hbh place (u32 pLen).

(** ** Serialization *)

Section serialize.
Context {W : Type} `{SerializeBuffer W}.

(** What is done for a payload that is too long. *)
Definition prepare_jumbo (opts : SerializeOptions) (pLen : Z) : M (IPv6 * W) bool :=
  if pLen >? ipv6MaxPayloadLength then
    ip6 ← get_fields;
    _ ← (if FixLengths opts then i ← lift (addIPv6JumboOption ip6); put_fields i
         else
           match HopByHop ip6 with
           | None => throw (Errorf "Cannot fit payload length of %d into IPv6 packet" [pLen])
           | Some hbh =>
               r ← lift (getIPv6HopByHopJumboLength hbh);
               if negb r.2 then throw (errors_New "Missing jumbo length hop-by-hop option") else mret tt
           end);
    mret true
  else mret false.

(** The hop-by-hop extension, unless it is in the buffer already. *)
Definition serialize_HopByHop (opts : SerializeOptions) (jumbo : bool) : M (IPv6 * W) unit :=
  ip6 ← get_fields;
  layers ← gets (fun s => Layers s.2);
  match HopByHop ip6 with
  | Some hbh =>
      if existsb (Z.eqb LayerTypeIPv6HopByHop) layers then mret tt
      else
        _ ← put_fields (set_NextHeader IPProtocolIPv6HopByHop ip6);
        _ ← zoom (fun s => (hbh, s.2)) (fun t s => (set_HopByHop (Some t.1) s.1, t.2)) (HopByHop_SerializeTo opts);
        if FixLengths opts && jumbo then
          payload ← buffer_Bytes;
          payload ← lift (setIPv6PayloadJumboLength payload);
          sync payload
        else mret tt
  | None => mret tt
  end.

Definition put_header (i : IPv6) (bytes : bytes) : outcome Prelude.bytes :=
  bytes ← set_index bytes 0 (Z.lor (u8 (Z.shiftl (Version i) 4)) (Z.shiftr (TrafficClass i) 4));
  bytes ← set_index bytes 1 (Z.lor (u8 (Z.shiftl (TrafficClass i) 4)) (u8 (Z.shiftr (FlowLabel i) 16)));
  BE_PutUint16 bytes 2 (u16 (FlowLabel i)).

Definition SerializeTo (opts : SerializeOptions) : M (IPv6 * W) unit :=
  payload ← buffer_Bytes;
  jumbo ← prepare_jumbo opts (len payload);
  _ ← serialize_HopByHop opts jumbo;
  payload ← buffer_Bytes;
  let pLen := len payload in
  if negb jumbo && (pLen >? ipv6MaxPayloadLength) then throw (errors_New "Cannot fit payload into IPv6 header")
  else
    bytes ← prepend 40;
    ip6 ← get_fields;
    bytes ← lift (put_header ip6 bytes);
    let ip6 := if FixLengths opts then set_Length (if jumbo then 0 else u16 pLen) ip6 else ip6 in
    _ ← put_fields ip6;
    bytes ← lift (BE_PutUint16 bytes 4 (Length ip6));
    bytes ← lift (set_index bytes 6 (NextHeader ip6));
    bytes ← lift (set_index bytes 7 (HopLimit ip6));
    _ ← sync bytes;
    _ ← lift (AddressTo16 (SrcIP ip6) (DstIP ip6));
    bytes ← lift (copy_from bytes 8 (SrcIP ip6));
    bytes ← lift (copy_from bytes 24 (DstIP ip6));
    sync bytes.
End serialize.

(** ** Decoding *)

Definition decode_header (data : bytes) : outcome IPv6 :=
  b0 ← index data 0;
  w ← slice data 0 2 ≫= BE_Uint16;
  f ← slice data 0 4 ≫= BE_Uint32;
  Length ← slice data 4 6 ≫= BE_Uint16;
  NextHeader ← index data 6;
  HopLimit ← index data 7;
  SrcIP ← slice data 8 24;
  DstIP ← slice data 24 40;
  contents ← slice_to data 40;
  payload ← slice_from data 40;
  mret (mkIPv6 (mkBase contents payload) (Z.shiftr b0 4) (Z.land (Z.shiftr w 4) 0x00FF) (Z.land f 0x000FFFFF)
    Length NextHeader HopLimit SrcIP DstIP None).

Definition set_Payload (p : bytes) : M (dstate IPv6) unit :=
  modify_layer (fun i => set_base (mkBase (Contents (base i)) p) i).

(** The payload up to [pEnd], or all of it. *)
Definition cut_payload (pEnd : Z) : M (dstate IPv6) unit :=
  ip6 ← get_layer;
  let payload := Payload (base ip6) in
  pEnd ← (if pEnd >? len payload then _ ← SetTruncated; mret (len payload) else mret pEnd);
  p ← lift (slice_to payload pEnd);
  set_Payload p.

(** The end of the function, for packets that are not jumbograms. *)
Definition cut_to_Length : M (dstate IPv6) unit :=
  ip6 ← get_layer;
  if Length ip6 =? 0 then
    throw (Errorf "IPv6 length 0, but next header is %v, not HopByHop" [NextHeader ip6])
  else cut_payload (Length ip6).

Definition DecodeFromBytes (data : bytes) : M (dstate IPv6) unit :=
  if len data <? 40 then
    _ ← SetTruncated;
    throw (Errorf "Invalid ip6 header. Length %d less than 40" [len data])
  else
    ip6 ← lift (decode_header data);
    _ ← put_layer ip6;
    if NextHeader ip6 =? IPProtocolIPv6HopByHop then
      (* [hbh] is part of the layer and overwritten here *)
      hbh ← zoom (fun s => DState empty_options_header (dtruncated s)) (fun d s => DState (dlayer s) (dtruncated d))
              (_ ← HopByHop_DecodeFromBytes (Payload (base ip6)); get_layer);
      _ ← modify_layer (set_HopByHop (Some hbh));
      r ← lift (getIPv6HopByHopJumboLength hbh);
      let '(pEnd, jumbo) := r in
      if jumbo && (Length ip6 =? 0) then cut_payload pEnd
      else if jumbo && negb (Length ip6 =? 0) then
        throw (errors_New "IPv6 has jumbo length and IPv6 length is not 0")
      else if negb jumbo && (Length ip6 =? 0) then
        throw (errors_New "IPv6 length 0, but HopByHop header does not have jumbogram option")
      else
        p ← lift (slice_from (Payload (base ip6)) (ext_ActualLength (ext hbh)));
        _ ← set_Payload p;
        cut_to_Length
    else cut_to_Length.

Definition CanDecode : list LayerType := [LayerTypeIPv6].

Definition NextLayerType (md : metadata) (i : IPv6) : LayerType :=
  match HopByHop i with
  | Some hbh => enum_LayerType md IPProtocolEnum (ext_NextHeader (ext hbh))
  | None => enum_LayerType md IPProtocolEnum (NextHeader i)
  end.

(** ** The other extensions *)

Record IPv6ExtensionSkipper : Type := mkSkipper { sk_NextHeader : Z; sk_base : BaseLayer }.

Definition Skipper_DecodeFromBytes (data : bytes) : M (dstate IPv6ExtensionSkipper) unit :=
  e ← decodeIPv6ExtensionBase data;
  contents ← lift (slice_to data (ext_ActualLength e));
  payload ← lift (slice_from data (ext_ActualLength e));
  put_layer (mkSkipper (ext_NextHeader e) (mkBase contents payload)).

(** [LayerClassIPv6Extension] *)
Definition Skipper_CanDecode : list LayerType :=
  [LayerTypeIPv6HopByHop; LayerTypeIPv6Routing; LayerTypeIPv6Fragment; LayerTypeIPv6Destination].

Definition Skipper_NextLayerType (md : metadata) (i : IPv6ExtensionSkipper) : LayerType :=
  enum_LayerType md IPProtocolEnum (sk_NextHeader i).

Record IPv6Routing : Type := mkRouting {
  rt_ext : ipv6ExtensionBase;
  RoutingType : Z;
  SegmentsLeft : Z;
  Reserved : bytes;
  SourceRoutingIPs : list bytes;
}.

(** [for d := ...; len(d) >= 16; d = d\[16:\]] *)
Fixpoint source_routing_ips (fuel : nat) (d : bytes) : outcome (list bytes) :=
  match fuel with
  | O => NoFuel
  | S fuel =>
      if len d >=? 16 then
        ip ← slice_to d 16;
        d ← slice_from d 16;
        ips ← source_routing_ips fuel d;
        mret (ip :: ips)
      else mret []
  end.

(** [decodeIPv6Routing], up to the builder. *)
Definition parse_routing {L} (data : bytes) : M (dstate L) IPv6Routing :=
  e ← decodeIPv6ExtensionBase data;
  RoutingType ← lift (index data 2);
  SegmentsLeft ← lift (index data 3);
  Reserved ← lift (slice data 4 8);
  if RoutingType =? 0 then
    if negb (Z.rem (ext_ActualLength e - 8) 16 =? 0) then
      throw (Errorf "Invalid IPv6 source routing, length of type 0 packet %d" [ext_ActualLength e])
    else
      d ← lift (slice_from (Contents (ext_base e)) 8);
      ips ← lift (source_routing_ips (S (length d)) d);
      mret (mkRouting e RoutingType SegmentsLeft Reserved ips)
  else throw (Errorf "Unknown IPv6 routing header type %d" [RoutingType]).

Record IPv6Fragment : Type := mkFragment {
  fr_base : BaseLayer;
  fr_NextHeader : Z;
  Reserved1 : Z;
  FragmentOffset : Z;
  Reserved2 : Z;
  MoreFragments : bool;
  Identification : Z;
}.

(** [decodeIPv6Fragment], up to the builder. *)
Definition parse_fragment {L} (data : bytes) : M (dstate L) IPv6Fragment :=
  if len data <? 8 then
    _ ← SetTruncated;
    throw (Errorf "Invalid ip6-fragment header. Length %d less than 8" [len data])
  else
    contents ← lift (slice_to data 8);
    payload ← lift (slice_from data 8);
    b0 ← lift (index data 0);
    b1 ← lift (index data 1);
    off ← lift (slice data 2 4 ≫= BE_Uint16);
    b3 ← lift (index data 3);
    id ← lift (slice data 4 8 ≫= BE_Uint32);
    mret (mkFragment (mkBase contents payload) b0 b1 (Z.shiftr off 3) (Z.shiftr (Z.land b3 0x6) 1) (has_bits b3 0x1) id).
