(* ===== verification/Ip6Correct.v ===== *)
(** * IPv6 headers: what is written and what is read

    The options of an extension as bytes, with alignment and padding; the
    extension and the header that [SerializeTo] writes, jumbograms included;
    decoding them again, and decoding arbitrary bytes. *)

From S2P Require Import Prelude SerializeBuffer LayerClasses Flows BaseLayers Enums Checksum Ip6.

(** ** Options as bytes *)

(** An option that a decoder makes: one byte of padding, or type, length and data. *)
Definition pad1 : ipv6HeaderTLVOption := mkTLV 0 0 1 None (0, 0).
Definition tlv (t : Z) (d : bytes) : ipv6HeaderTLVOption := mkTLV t (len d) (len d + 2) (Some d) (0, 0).

Inductive decoded_option : ipv6HeaderTLVOption → bytes → Prop :=
  | decoded_pad1 : decoded_option pad1 [0]
  | decoded_tlv t d : t ≠ 0 → decoded_option (tlv t d) (t :: len d :: d).

(** Options that fill the space up to [room] bytes. Where the space ends
    is only looked at between options, so the last one may go beyond it. *)
Inductive decoded_options : Z → list ipv6HeaderTLVOption → bytes → Prop :=
  | decoded_nil room : room <= 0 → decoded_options room [] []
  | decoded_cons room o bs os rest : 0 < room → decoded_option o bs →
      decoded_options (room - len bs) os rest → decoded_options room (o :: os) (bs ++ rest).

Definition ends_pad1 (os : list ipv6HeaderTLVOption) : Prop := last os = Some pad1.

Lemma decoded_option_length o bs : decoded_option o bs → ActualLength o = len bs ∧ 0 < len bs.
Proof. destruct 1; cbn; [done|]. rewrite !len_cons. pose proof (len_nonneg d). lia. Qed.

(** Decoding one option, with anything after it. *)
Lemma decode_one_option {L} o bs rest (s : dstate L) : decoded_option o bs → (o = pad1 → rest ≠ []) →
  decodeIPv6HeaderTLVOption (bs ++ rest) s = (Ok o, s).
Proof.
  destruct 1 as [|t d Ht]; intros Hr; unfold decodeIPv6HeaderTLVOption.
  - specialize (Hr eq_refl). destruct rest as [|b rest]; [done|]. cbn [app].
    destruct (Z.ltb_spec (len (0 :: b :: rest)) 2); [exfalso; lens|]. rewrite lift_bind. done.
  - cbn [app]. pose proof (len_nonneg d). pose proof (len_nonneg rest).
    destruct (Z.ltb_spec (len (t :: len d :: d ++ rest)) 2); [exfalso; lens|]. rewrite lift_bind.
    change (index (t :: len d :: d ++ rest) 0) with (Ok t). cbv beta iota. rewrite (proj2 (Z.eqb_neq t 0)) by done.
    rewrite lift_bind. change (index (t :: len d :: d ++ rest) 1) with (Ok (len d)). cbv beta iota zeta.
    destruct (Z.ltb_spec (len (t :: len d :: d ++ rest)) (len d + 2)); [exfalso; lens|].
    pose proof (slice_app [t; len d] d rest 2 (len d + 2) eq_refl) as Hs. cbn [app] in Hs.
    rewrite lift_bind, Hs; [done|]. change (len [t; len d]) with 2. lia.
Qed.

Lemma decoded_options_some room o os bs : decoded_options room (o :: os) bs → bs ≠ [].
Proof. inversion 1 as [|? ? ? ? ? ? Ho]; subst. by destruct Ho. Qed.

Lemma decode_options_written os : ∀ fuel pre room bs rest i tr, decoded_options room os bs →
  (length os < fuel)%nat → (ends_pad1 os → rest ≠ []) →
  decode_options fuel (pre ++ bs ++ rest) (len pre) (len pre + room) (DState i tr) =
    (Ok tt, DState (mkOptionsHeader (ext i) (Options i ++ os)) tr).
Proof.
  induction os as [|o os IH]; intros [|fuel] pre room bs rest i tr Hd Hf Hr; try (cbn in Hf; lia);
    inversion Hd as [room' Hroom|room' o' bs1 os' bs2 Hroom Ho Hos]; subst; cbn [decode_options].
  - destruct (Z.ltb_spec (len pre) (len pre + room)); [lia|]. rewrite app_nil_r. by destruct i.
  - destruct (Z.ltb_spec (len pre) (len pre + room)); [|lia]. rewrite lift_bind, slice_from_app by done. cbv beta iota.
    rewrite <-(app_assoc bs1).
    assert (o = pad1 → bs2 ++ rest ≠ []) as Hne.
    { intros -> Hnil. apply app_nil in Hnil as [-> ->]. destruct os as [|o os]; [by apply Hr|].
      by apply decoded_options_some in Hos. }
    rewrite bind_eq, (decode_one_option o bs1) by done. cbv beta iota. rewrite bind_eq. cbn [modify_layer modify dlayer dtruncated].
    destruct (decoded_option_length o bs1 Ho) as [-> _].
    specialize (IH fuel (pre ++ bs1) (room - len bs1) bs2 rest (append_option o i) tr Hos).
    rewrite len_app in IH. rewrite <-!app_assoc in IH.
    replace (len pre + len bs1 + (room - len bs1)) with (len pre + room) in IH by lia. rewrite IH.
    + cbn [append_option ext Options]. by rewrite <-app_assoc.
    + cbn in Hf. lia.
    + unfold ends_pad1 in *. destruct os; [done|]. intros Hl. apply Hr. by cbn.
Qed.

(** ** What [SerializeTo] makes of options *)

Definition option_bytes (o : ipv6HeaderTLVOption) : bytes :=
  match OptionData o with None => [0] | Some d => OptionType o :: len d :: d end.
Definition options_bytes (os : list ipv6HeaderTLVOption) : bytes := concat (option_bytes <$> os).

Definition pad_options (pad : Z) : list ipv6HeaderTLVOption :=
  if pad <=? 0 then [] else if pad =? 1 then [pad1] else [tlv 1 (replicate (Z.to_nat (pad - 2)) 0)].

(** The options with the padding in front of each, from [length] on. *)
Fixpoint layout (os : list ipv6HeaderTLVOption) (length : Z) : list ipv6HeaderTLVOption :=
  match os with
  | [] => []
  | o :: os =>
      let pad := alignment_padding o length in
      pad_options pad ++ tlv (OptionType o) (data_of o) :: layout os (length + pad + (len (data_of o) + 2))
  end.

(** And after them the padding to the end, which is right if the length is a
    multiple of four. *)
Definition laid_out (os : list ipv6HeaderTLVOption) : list ipv6HeaderTLVOption :=
  let l := layout os 2 in l ++ pad_options ((2 + len (options_bytes l)) mod 8).

Definition with_length (o : ipv6HeaderTLVOption) : ipv6HeaderTLVOption := set_OptionLength (len (data_of o)) o.

Record option_ok (o : ipv6HeaderTLVOption) : Prop := mkOptionOk {
  oo_type : is_byte (OptionType o) ∧ OptionType o ≠ 0;
  oo_data : is_bytes (data_of o) ∧ len (data_of o) < 256;
  oo_alignment : is_byte (OptionAlignment o).1 ∧ is_byte (OptionAlignment o).2;
}.

Lemma options_bytes_app os1 os2 : options_bytes (os1 ++ os2) = options_bytes os1 ++ options_bytes os2.
Proof. unfold options_bytes. by rewrite fmap_app, concat_app. Qed.
Lemma options_bytes_cons o os : options_bytes (o :: os) = option_bytes o ++ options_bytes os.
Proof. reflexivity. Qed.

Lemma pad_options_length pad : len (options_bytes (pad_options pad)) = Z.max 0 pad.
Proof.
  unfold pad_options. destruct (Z.leb_spec pad 0); [by rewrite Z.max_l by lia|].
  destruct (Z.eqb_spec pad 1); [by subst|]. unfold options_bytes. cbn [fmap list_fmap concat option_bytes tlv OptionData OptionType].
  rewrite app_nil_r, !len_cons, len_replicate. lia.
Qed.

Lemma alignment_padding_range o length : option_ok o → 0 <= length → 0 <= alignment_padding o length < 256.
Proof.
  intros [_ _ [Hx Hy]] Hl. unfold alignment_padding, is_byte in *. destruct (OptionAlignment o) as [x y]. cbn [fst snd] in *.
  destruct (Z.eqb_spec x 0); [lia|]. pose proof (Z.div_mod length x ltac:(done)). pose proof (Z.mod_pos_bound length x ltac:(lia)).
  destruct (Z.ltb_spec (x * (length / x) + y) length); lia.
Qed.

Lemma copy_from_over {A} (pre old post src : list A) lo : lo = len pre → len old = len src →
  copy_from (pre ++ old ++ post) lo src = Ok (pre ++ src ++ post).
Proof.
  intros -> Hl. unfold copy_from. rewrite slice_from_ok by lens. cbn [mbind outcome_bind].
  rewrite take_ge by (rewrite length_drop, !length_app; unfold len in *; lia). by apply write_at_app.
Qed.

(** Padding written over the bytes at the front of [stale]. *)
Lemma write_padding pre stale pad : 0 < pad <= len stale → pad < 256 → ∃ stale',
  edit_from (pre ++ stale) (len pre) (fun d => serializeTLVOptionPadding d pad) =
    Ok (pre ++ options_bytes (pad_options pad) ++ stale') ∧ len stale' = len stale - pad.
Proof.
  intros Hp Hp'. unfold edit_from. rewrite slice_from_app by done. cbn [mbind outcome_bind].
  unfold serializeTLVOptionPadding, pad_options. rewrite (proj2 (Z.leb_gt pad 0)) by lia.
  assert (∀ st, len st = len stale → write_at (pre ++ stale) (len pre) st = Ok (pre ++ st)) as Hw.
  { intros st Hst. pose proof (write_at_app pre stale [] st (len pre) eq_refl) as Hw. rewrite !app_nil_r in Hw. by apply Hw. }
  destruct (Z.eqb_spec pad 1) as [->|Hp1].
  - destruct stale as [|a st]; [unfold len in Hp; cbn in Hp; lia|]. exists st.
    change (set_index (a :: st) 0 0) with (set_index ([] ++ a :: st) 0 0). rewrite set_index_app by done.
    cbn [app mbind outcome_bind]. rewrite Hw by (by rewrite !len_cons). split; [done|]. rewrite len_cons. lia.
  - destruct stale as [|a [|b st]]; try (unfold len in Hp; cbn in Hp; lia).
    change (set_index (a :: b :: st) 0 1) with (set_index ([] ++ a :: b :: st) 0 1). rewrite set_index_app by done.
    cbn [app mbind outcome_bind]. change (set_index (1 :: b :: st) 1 ?v) with (set_index ([1] ++ b :: st) 1 v).
    rewrite set_index_app by done. cbn [app mbind outcome_bind].
    assert (u8 (u8 pad - 2) = pad - 2) as -> by (unfold u8; zdiv).
    assert (options_bytes [tlv 1 (replicate (Z.to_nat (pad - 2)) 0)] = 1 :: pad - 2 :: replicate (Z.to_nat (pad - 2)) 0) as ->.
    { unfold options_bytes. cbn [fmap list_fmap concat option_bytes tlv OptionData OptionType]. rewrite app_nil_r, len_replicate. do 2 f_equal. lia. }
    destruct (Z.eqb_spec (pad - 2) 0) as [E|E]; cbn [negb].
    + rewrite E. exists st. cbn [mbind outcome_bind mret outcome_ret]. rewrite Hw by (by rewrite !len_cons). split; [done|]. rewrite !len_cons. lia.
    + change (slice_from (1 :: pad - 2 :: st) 2) with (slice_from ([1; pad - 2] ++ st) 2). rewrite slice_from_app by done.
      cbn [mbind outcome_bind]. pose proof (write_at_app [1; pad - 2] st [] (replicate (length st) 0) 2 eq_refl) as Hz.
      rewrite !app_nil_r in Hz. cbn [app] in Hz. rewrite Hz by (rewrite len_replicate; done). cbn [app mbind outcome_bind].
      rewrite !len_cons in Hp. exists (replicate (length st - Z.to_nat (pad - 2)) 0). rewrite Hw by (rewrite !len_cons, len_replicate; unfold len; lia).
      split; [|rewrite !len_cons, len_replicate; unfold len in *; lia]. cbn [app]. do 4 f_equal.
      rewrite <-replicate_add. f_equal. unfold len in *. lia.
Qed.

Lemma write_option stale o : option_ok o → len (data_of o) + 2 <= len stale → ∃ stale',
  TLV_serializeTo o stale true false =
    Ok (with_length o, option_bytes (tlv (OptionType o) (data_of o)) ++ stale', len (data_of o) + 2) ∧
  len stale' = len stale - (len (data_of o) + 2).
Proof.
  intros [_ [_ Hd] _] Hl. pose proof (len_nonneg (data_of o)).
  destruct (cut_at stale (len (data_of o) + 2)) as (st1 & st2 & -> & H1 & H2); [lia|].
  destruct st1 as [|a [|b st1]]; try (unfold len in H1 at 1; cbn in H1; lia). rewrite !len_cons in H1.
  exists st2. split; [|lia]. cbn [app]. assert (u8 (len (data_of o)) = len (data_of o)) as Hu by (apply u8_small; unfold is_u8; lia).
  unfold TLV_serializeTo. rewrite Hu. fold (with_length o).
  change (set_index (a :: b :: st1 ++ st2) 0 ?v) with (set_index ([] ++ a :: b :: st1 ++ st2) 0 v).
  rewrite set_index_app by done. cbn [app mbind outcome_bind].
  change (set_index (?t :: b :: st1 ++ st2) 1 ?v) with (set_index ([t] ++ b :: st1 ++ st2) 1 v).
  rewrite set_index_app by done. cbn [app mbind outcome_bind].
  pose proof (copy_from_over [OptionType (with_length o); OptionLength (with_length o)] st1 st2 (data_of o) 2 eq_refl) as Hc.
  cbn [app] in Hc. change (data_of (with_length o)) with (data_of o). rewrite Hc by lia. done.
Qed.

Lemma write_tail (pre old new : bytes) : len old = len new → write_at (pre ++ old) (len pre) new = Ok (pre ++ new).
Proof. intros H. pose proof (write_at_app pre old [] new (len pre) eq_refl H) as Hw. by rewrite !app_nil_r in Hw. Qed.

(** The dry run finds the length. *)
Lemma serialize_options_dry os : ∀ length, Forall option_ok os → 0 <= length →
  serialize_options [] os true true length =
    Ok ([], with_length <$> os, length + len (options_bytes (layout os length))).
Proof.
  induction os as [|o os IH]; intros length Ho Hl; cbn [serialize_options layout]; [by rewrite Z.add_0_r|].
  apply Forall_cons in Ho as [Ho Hos]. pose proof (alignment_padding_range o length Ho Hl). cbv zeta.
  set (pad := alignment_padding o length) in *. rewrite andb_false_r. cbn [mbind outcome_bind].
  pose proof (oo_data o Ho) as [_ Hd]. pose proof (len_nonneg (data_of o)).
  unfold TLV_serializeTo at 1. rewrite u8_small by (unfold is_u8; lia). fold (with_length o).
  cbn [mbind outcome_bind mret outcome_ret]. change (OptionLength (with_length o)) with (len (data_of o)).
  rewrite IH by (done || lia). cbn [mbind outcome_bind mret outcome_ret fst snd]. do 2 f_equal.
  rewrite options_bytes_app, options_bytes_cons, !len_app, pad_options_length. cbn [tlv option_bytes OptionData]. rewrite !len_cons. lia.
Qed.

(** The run over a buffer with enough room writes the layout. *)
Lemma serialize_options_write os : ∀ pre stale, Forall option_ok os →
  len (options_bytes (layout os (2 + len pre))) <= len stale → ∃ stale',
  serialize_options (pre ++ stale) os true false (2 + len pre) =
    Ok (pre ++ options_bytes (layout os (2 + len pre)) ++ stale', with_length <$> os,
        2 + len pre + len (options_bytes (layout os (2 + len pre)))) ∧
  len stale' = len stale - len (options_bytes (layout os (2 + len pre))).
Proof.
  induction os as [|o os IH]; intros pre stale Ho Hl; cbn [serialize_options layout] in *.
  { exists stale. rewrite Z.add_0_r. split; [done|]. cbn [options_bytes fmap list_fmap concat]. rewrite len_nil. lia. }
  apply Forall_cons in Ho as [Ho Hos]. pose proof (len_nonneg pre).
  pose proof (alignment_padding_range o (2 + len pre) Ho ltac:(lia)). cbv zeta in *.
  set (pad := alignment_padding o (2 + len pre)) in *.
  rewrite options_bytes_app, options_bytes_cons, !len_app, pad_options_length, Z.max_r in * by lia.
  set (body := option_bytes (tlv (OptionType o) (data_of o))) in *. pose proof (len_nonneg (data_of o)).
  assert (len body = len (data_of o) + 2) as Hb by (unfold body; cbn [tlv option_bytes OptionData]; rewrite !len_cons; lia).
  set (after := options_bytes (layout os _)) in *. pose proof (len_nonneg after).
  set (padding := options_bytes (pad_options pad)).
  assert (len padding = pad) as Hpl by (unfold padding; rewrite pad_options_length; lia).
  assert (∃ st1, (if negb (pad =? 0) && negb false
      then edit_from (pre ++ stale) (2 + len pre - 2) (fun d => serializeTLVOptionPadding d pad)
      else mret (pre ++ stale)) = Ok ((pre ++ padding) ++ st1) ∧ len st1 = len stale - pad) as (st1 & E1 & L1).
  { replace (2 + len pre - 2) with (len pre) by lia. rewrite andb_true_r. destruct (Z.eqb_spec pad 0) as [E|E]; cbn [negb].
    - exists stale. replace padding with (@nil Z) by (symmetry; apply len_zero; lia). rewrite app_nil_r. split; [done|lia].
    - destruct (write_padding pre stale pad) as (st1 & E1 & L1); [lia|lia|]. exists st1. rewrite <-app_assoc. done. }
  rewrite E1. cbn [mbind outcome_bind]. set (pre1 := pre ++ padding).
  replace (2 + len pre + pad - 2) with (len pre1) by (unfold pre1; rewrite len_app; lia).
  destruct (write_option st1 o Ho) as (st2 & E2 & L2); [lia|]. fold body in E2.
  rewrite slice_from_app by done. cbn [mbind outcome_bind]. rewrite E2. cbn [mbind outcome_bind fst snd].
  rewrite write_tail by (rewrite len_app; lia). cbn [mbind outcome_bind mret outcome_ret].
  destruct (IH (pre1 ++ body) st2 Hos) as (st3 & E3 & L3).
  { rewrite len_app. replace (2 + (len pre1 + len body)) with (2 + len pre + pad + (len (data_of o) + 2)) by (unfold pre1; rewrite len_app; lia).
    fold after. lia. }
  rewrite len_app in E3, L3.
  replace (2 + (len pre1 + len body)) with (2 + len pre + pad + (len (data_of o) + 2)) in E3, L3 by (unfold pre1; rewrite len_app; lia).
  fold after in E3, L3. rewrite <-(app_assoc pre1) in E3. rewrite E3 by done. cbn [mbind outcome_bind mret outcome_ret fst snd].
  exists st3. split; [|lia]. unfold pre1. rewrite <-!app_assoc. do 2 f_equal. lia.
Qed.

Lemma layout_with_length os : ∀ n, layout (with_length <$> os) n = layout os n.
Proof. induction os as [|o os IH]; intros n; cbn [fmap list_fmap layout]; [done|]. unfold fmap in IH. by rewrite IH. Qed.
Lemma laid_out_with_length os : laid_out (with_length <$> os) = laid_out os.
Proof. unfold laid_out. by rewrite layout_with_length. Qed.
Lemma with_length_idem (os : list ipv6HeaderTLVOption) : with_length <$> (with_length <$> os) = with_length <$> os.
Proof. rewrite <-list_fmap_compose. by apply list_fmap_ext. Qed.
Lemma with_length_ok os : Forall option_ok os → Forall option_ok (with_length <$> os).
Proof. rewrite Forall_fmap. intros H. eapply Forall_impl; [exact H|]. intros o [Ht Hd Ha]. by split. Qed.

(** The options end at a multiple of four, header included. *)
Definition aligned (os : list ipv6HeaderTLVOption) : Prop := (2 + len (options_bytes (layout os 2))) mod 4 = 0.

Lemma aligned_pad os : aligned os → let pad := (2 + len (options_bytes (layout os 2))) mod 8 in
  (pad = 0 ∨ pad = 4) ∧ (2 + len (options_bytes (laid_out os))) mod 8 = 0.
Proof.
  intros Ha pad. unfold aligned in Ha. unfold laid_out. rewrite options_bytes_app, len_app, pad_options_length. subst pad. split; zdiv.
Qed.

Lemma laid_out_length os :
  len (options_bytes (laid_out os)) = len (options_bytes (layout os 2)) + (2 + len (options_bytes (layout os 2))) mod 8.
Proof. unfold laid_out. rewrite options_bytes_app, len_app, pad_options_length. zdiv. Qed.

Lemma options_dry os : Forall option_ok os →
  serializeIPv6HeaderTLVOptions None os true = Ok ([], with_length <$> os, len (options_bytes (laid_out os))).
Proof.
  intros Ho. unfold serializeIPv6HeaderTLVOptions. cbn [default]. rewrite serialize_options_dry by done.
  rewrite laid_out_length. cbn [mbind outcome_bind]. destruct (Z.eqb_spec ((2 + len (options_bytes (layout os 2))) mod 8) 0) as [E|E]; cbn [negb].
  - rewrite E. cbn [mret outcome_ret]. do 2 f_equal. lia.
  - cbn [mbind outcome_bind mret outcome_ret]. do 2 f_equal. lia.
Qed.

Lemma options_write os stale : Forall option_ok os → len stale = len (options_bytes (laid_out os)) →
  serializeIPv6HeaderTLVOptions (Some stale) os true =
    Ok (options_bytes (laid_out os), with_length <$> os, len (options_bytes (laid_out os))).
Proof.
  intros Ho Hl. rewrite laid_out_length in *. set (n := 2 + len (options_bytes (layout os 2))) in *.
  pose proof (Z.mod_pos_bound n 8 ltac:(lia)).
  destruct (serialize_options_write os [] stale Ho) as (st1 & E1 & L1); [change (2 + len (@nil Z)) with 2; lia|].
  cbn [app] in E1. change (2 + len (@nil Z)) with 2 in *. unfold serializeIPv6HeaderTLVOptions. unfold default. cbn [from_option]. unfold id.
  rewrite E1. cbn [mbind outcome_bind]. fold n. unfold laid_out. fold n. rewrite options_bytes_app.
  destruct (Z.eqb_spec (n mod 8) 0) as [E|E]; cbn [negb].
  - rewrite E in *. assert (st1 = []) as -> by (apply len_zero; lia). cbn [mret outcome_ret pad_options Z.leb Z.compare options_bytes fmap list_fmap concat]. do 2 f_equal. lia.
  - destruct (write_padding (options_bytes (layout os 2)) st1 (n mod 8)) as (st2 & E2 & L2); [lia|lia|].
    replace (n - 2) with (len (options_bytes (layout os 2))) by lia. rewrite E2. cbn [mbind outcome_bind mret outcome_ret].
    assert (st2 = []) as -> by (apply len_zero; lia). rewrite app_nil_r. do 2 f_equal. lia.
Qed.

(** ** The extension *)

Definition extension_bytes (i : options_header) : bytes :=
  [ext_NextHeader (ext i); (2 + len (options_bytes (laid_out (Options i)))) / 8 - 1] ++ options_bytes (laid_out (Options i)).

Record extension_ok (i : options_header) : Prop := mkExtensionOk {
  eo_next : is_byte (ext_NextHeader (ext i));
  eo_options : Forall option_ok (Options i);
  eo_aligned : aligned (Options i);
  eo_length : len (options_bytes (laid_out (Options i))) < 2048;
}.

(** The fields that [SerializeTo] fixes. *)
Definition fixed_extension (i : options_header) : options_header :=
  set_HeaderLength ((2 + len (options_bytes (laid_out (Options i)))) / 8 - 1) (set_Options (with_length <$> Options i) i).

Lemma extension_written {W} `{SerializeBufferLaws W} name opts i (w : W) : FixLengths opts = true → buf_ok w → extension_ok i →
  wp (extension_SerializeTo name opts)
    (fun _ '(i', w') => i' = fixed_extension i ∧ buf_ok w' ∧ Bytes w' = extension_bytes i ++ Bytes w ∧ Layers w' = Layers w)
    (fun _ _ => False) (i, w).
Proof.
  intros Hfix Hw [Hn Ho Ha Hl]. unfold extension_SerializeTo. rewrite Hfix. set (ob := options_bytes (laid_out (Options i))) in *.
  pose proof (len_nonneg ob). destruct (aligned_pad _ Ha) as [_ Hm]. fold ob in Hm.
  apply wp_bind, wp_get_fields, wp_bind, wp_lift. rewrite options_dry by done. cbn [owp fst snd]. fold ob.
  apply wp_bind, wp_put_fields, wp_bind, wp_prepend; [done|lia|]. intros st1 w1 Hw1 Hst HB1 HL1.
  apply wp_bind, wp_lift. rewrite options_write; [|by apply with_length_ok|by rewrite laid_out_with_length].
  rewrite with_length_idem, laid_out_with_length. cbn [owp fst snd]. fold ob.
  apply wp_bind, wp_put_fields, wp_bind. eapply wp_sync; [done|exact HB1|unfold len in *; lia|]. intros w2 Hw2 HB2 HL2.
  replace ((len ob + 2) mod 8) with 0 by (rewrite Z.add_comm; done). cbn [Z.eqb negb].
  apply wp_bind, wp_prepend; [done|lia|]. intros st3 w3 Hw3 Hst3 HB3 HL3.
  destruct st3 as [|a [|b [|c st3]]]; try (unfold len in Hst3; cbn in Hst3; lia).
  apply wp_bind, wp_get_fields, wp_bind, wp_lift. cbn [owp]. apply wp_bind, wp_put_fields, wp_bind, wp_lift. cbn [owp].
  assert (u8 ((len ob + 2) / 8 - 1) = (2 + len ob) / 8 - 1) as -> by (rewrite u8_small; [f_equal; f_equal; lia|unfold is_u8; zdiv]).
  eapply wp_sync; [done|exact HB3|done|]. intros w4 Hw4 HB4 HL4. split; [done|]. split; [done|].
  split; [|congruence]. rewrite HB4, HB2. unfold extension_bytes. fold ob. by rewrite <-app_assoc.
Qed.

Lemma extension_written_eq {W} `{SerializeBufferLaws W} name opts i (w : W) : FixLengths opts = true → buf_ok w → extension_ok i →
  ∃ w', extension_SerializeTo name opts (i, w) = (Ok tt, (fixed_extension i, w')) ∧
    buf_ok w' ∧ Bytes w' = extension_bytes i ++ Bytes w ∧ Layers w' = Layers w.
Proof.
  intros Hfix Hw Hok. pose proof (extension_written name opts i w Hfix Hw Hok) as Hx. unfold wp in Hx.
  destruct (extension_SerializeTo name opts (i, w)) as [[[]| | |] [i' w']]; try done. destruct Hx as (-> & ?). by exists w'.
Qed.

(** ** The extension, decoded *)

Notation is_decoded o := (decoded_option o (option_bytes o)).

Lemma pad_options_decoded pad : Forall (fun o => is_decoded o) (pad_options pad).
Proof.
  unfold pad_options. destruct (_ <=? _); [constructor|]. destruct (_ =? _); (constructor; [|constructor]);
    [exact decoded_pad1|by apply decoded_tlv].
Qed.

Lemma layout_decoded os : ∀ n, Forall option_ok os → Forall (fun o => is_decoded o) (layout os n).
Proof.
  induction os as [|o os IH]; intros n Ho; cbn [layout]; [constructor|]. apply Forall_cons in Ho as [[[_ Ht] _ _] Ho].
  apply Forall_app_2; [apply pad_options_decoded|]. constructor; [by apply decoded_tlv|by apply IH].
Qed.

Lemma laid_out_decoded os : Forall option_ok os → Forall (fun o => is_decoded o) (laid_out os).
Proof. intros Ho. apply Forall_app_2; [by apply layout_decoded|apply pad_options_decoded]. Qed.

Lemma decoded_all os : Forall (fun o => is_decoded o) os →
  decoded_options (len (options_bytes os)) os (options_bytes os).
Proof.
  induction 1 as [|o os Ho _ IH]; [by constructor|]. rewrite options_bytes_cons, len_app.
  pose proof (decoded_option_length _ _ Ho) as [_ Hl]. pose proof (len_nonneg (options_bytes os)).
  constructor; [lia|done|]. by replace (len (option_bytes o) + len (options_bytes os) - len (option_bytes o)) with (len (options_bytes os)) by lia.
Qed.

Lemma decoded_count os : Forall (fun o => is_decoded o) os → (length os <= length (options_bytes os))%nat.
Proof.
  induction 1 as [|o os Ho _ IH]; [done|]. rewrite options_bytes_cons, length_app.
  pose proof (decoded_option_length _ _ Ho) as [_ Hl]. unfold len in Hl. cbn [length]. lia.
Qed.

Lemma layout_end os : ∀ n, last (layout os n) ≠ Some pad1.
Proof.
  induction os as [|o os IH]; intros n; [done|]. cbn [layout]. rewrite last_app_cons, last_cons.
  destruct (last (layout os _)) eqn:E; [|done]. rewrite <-E. apply IH.
Qed.

Lemma laid_out_end os : aligned os → ¬ ends_pad1 (laid_out os).
Proof.
  intros Ha. destruct (aligned_pad os Ha) as [[Hp|Hp] _]; unfold ends_pad1, laid_out; rewrite Hp.
  - cbn [pad_options Z.leb Z.compare]. rewrite app_nil_r. apply layout_end.
  - change (pad_options 4) with [tlv 1 [0; 0]]. by rewrite last_snoc.
Qed.

(** What a written extension is decoded to. *)
Definition decoded_base (i : options_header) (payload : bytes) : ipv6ExtensionBase :=
  mkExtension (mkBase (extension_bytes i) payload) (ext_NextHeader (ext i))
    ((2 + len (options_bytes (laid_out (Options i)))) / 8 - 1) (2 + len (options_bytes (laid_out (Options i)))).

Lemma extension_length i : len (extension_bytes i) = 2 + len (options_bytes (laid_out (Options i))).
Proof. unfold extension_bytes. cbn [app]. rewrite !len_cons. lia. Qed.

Lemma base_decoded {L} i payload (s : dstate L) : extension_ok i →
  decodeIPv6ExtensionBase (extension_bytes i ++ payload) s = (Ok (decoded_base i payload), s).
Proof.
  intros [Hn Ho Ha Hl]. destruct (aligned_pad _ Ha) as [_ Hm]. pose proof (extension_length i) as He.
  unfold decoded_base, decodeIPv6ExtensionBase. set (data := extension_bytes i ++ payload).
  assert (len data = 2 + len (options_bytes (laid_out (Options i))) + len payload) as Hd by (unfold data; rewrite len_app; lia).
  set (ob := options_bytes (laid_out (Options i))) in *. pose proof (len_nonneg ob). pose proof (len_nonneg payload).
  destruct (Z.ltb_spec (len data) 2); [lia|].
  rewrite lift_bind. change (index data 0) with (Ok (ext_NextHeader (ext i))). cbv beta iota.
  rewrite lift_bind. change (index data 1) with (Ok ((2 + len ob) / 8 - 1)). cbv beta iota zeta.
  replace (((2 + len ob) / 8 - 1) * 8 + 8) with (2 + len ob) by zdiv.
  destruct (Z.ltb_spec (len data) (2 + len ob)); [lia|]. unfold data.
  rewrite lift_bind, slice_to_app by done. cbv beta iota. by rewrite lift_bind, slice_from_app by done.
Qed.

(** The loop over the written options. *)
Lemma options_decoded i payload b os tr : extension_ok i →
  decode_options (S (length (extension_bytes i ++ payload))) (extension_bytes i ++ payload) 2 (len (extension_bytes i))
    (DState (mkOptionsHeader b os) tr) = (Ok tt, DState (mkOptionsHeader b (os ++ laid_out (Options i))) tr).
Proof.
  intros [Hn Ho Ha Hl]. rewrite extension_length. pose proof (laid_out_decoded _ Ho) as Hdec.
  unfold extension_bytes at 2. rewrite <-app_assoc. apply (decode_options_written _ _ [_; _] _ _ _ (mkOptionsHeader b os)).
  - by apply decoded_all.
  - pose proof (decoded_count _ Hdec). unfold extension_bytes. rewrite !length_app. cbn [length]. lia.
  - intros He. by apply laid_out_end in He.
Qed.

Lemma HopByHop_decoded i payload old tr : extension_ok i →
  HopByHop_DecodeFromBytes (extension_bytes i ++ payload) (DState old tr) =
    (Ok tt, DState (mkOptionsHeader (decoded_base i payload) (laid_out (Options i))) tr).
Proof.
  intros Hok. unfold HopByHop_DecodeFromBytes, decode_base, attempt. rewrite bind_eq, bind_eq, base_decoded by done.
  cbn [modify_layer modify dlayer dtruncated]. rewrite bind_eq. cbn [modify_layer modify dlayer dtruncated]. rewrite bind_eq. cbn [get_layer gets dlayer set_Options set_ext ext Options].
  replace (ext_ActualLength (decoded_base i payload)) with (len (extension_bytes i)) by apply extension_length. by apply options_decoded.
Qed.

Lemma Destination_decoded i payload old tr : extension_ok i →
  Destination_DecodeFromBytes (extension_bytes i ++ payload) (DState old tr) =
    (Ok tt, DState (mkOptionsHeader (decoded_base i payload) (Options old ++ laid_out (Options i))) tr).
Proof.
  intros Hok. unfold Destination_DecodeFromBytes, decode_base, attempt. rewrite bind_eq, bind_eq, base_decoded by done.
  cbn [modify_layer modify]. rewrite bind_eq. cbn [get_layer gets dlayer dtruncated set_ext ext Options].
  replace (ext_ActualLength (decoded_base i payload)) with (len (extension_bytes i)) by apply extension_length. by apply options_decoded.
Qed.

(** ** The header *)

Definition fixed_header (i : IPv6) : bytes :=
  [Version i * 16 + TrafficClass i / 16; TrafficClass i mod 16 * 16 + FlowLabel i / 65536] ++
  be16 (FlowLabel i mod 65536) ++ be16 (Length i) ++ [NextHeader i; HopLimit i] ++ SrcIP i ++ DstIP i.

Record header_ok (i : IPv6) : Prop := mkHeaderOk {
  ho_Version : 0 <= Version i < 16;
  ho_TrafficClass : is_u8 (TrafficClass i);
  ho_FlowLabel : 0 <= FlowLabel i < 1048576;
  ho_Length : is_u16 (Length i);
  ho_NextHeader : is_byte (NextHeader i);
  ho_HopLimit : is_byte (HopLimit i);
  ho_SrcIP : len (SrcIP i) = 16;
  ho_DstIP : len (DstIP i) = 16;
}.

Definition with_payload (i : IPv6) (h : option IPv6HopByHop) (p : bytes) : IPv6 :=
  mkIPv6 (mkBase (fixed_header i) p) (Version i) (TrafficClass i) (FlowLabel i) (Length i) (NextHeader i) (HopLimit i)
    (SrcIP i) (DstIP i) h.

Lemma len_fixed_header i : header_ok i → len (fixed_header i) = 40.
Proof. intros []. unfold fixed_header. rewrite !len_app, ho_SrcIP0, ho_DstIP0. reflexivity. Qed.

Lemma header_decoded i rest : header_ok i → decode_header (fixed_header i ++ rest) = Ok (with_payload i None rest).
Proof.
  intros Hok. pose proof (len_fixed_header i Hok) as Hl. unfold decode_header, with_payload.
  rewrite (slice_to_app (fixed_header i) rest 40), (slice_from_app (fixed_header i) rest 40) by done. destruct Hok.
  assert (∃ m, length (SrcIP i) = 16 + m)%nat as [m Hs] by (exists 0%nat; unfold len in *; lia).
  assert (∃ m, length (DstIP i) = 16 + m)%nat as [m' Hd] by (exists 0%nat; unfold len in *; lia).
  assert (slice (fixed_header i ++ rest) 8 24 = Ok (SrcIP i)) as ->.
  { unfold fixed_header. rewrite !app_assoc, <-(app_assoc _ (DstIP i)), <-(app_assoc _ (SrcIP i)). apply slice_app; [done|].
    rewrite ho_SrcIP0. done. }
  assert (slice (fixed_header i ++ rest) 24 40 = Ok (DstIP i)) as ->.
  { unfold fixed_header. rewrite !app_assoc, <-(app_assoc _ (DstIP i)). apply slice_app; rewrite !len_app, ho_SrcIP0; [done|].
    by rewrite ho_DstIP0. }
  unfold fixed_header at 1 2 3 4 5 6. run_slices. change 255 with (Z.ones 8). change 1048575 with (Z.ones 20).
  rewrite !Z.land_ones, !Z.shiftr_div_pow2 by lia. change (2 ^ 4) with 16. change (2 ^ 8) with 256. change (2 ^ 20) with 1048576.
  unfold is_u8, is_u16, is_byte in *. do 2 f_equal; try zdiv. rewrite Z.shiftr_div_pow2 by lia. change (2 ^ 4) with 16. zdiv.
Qed.

Lemma ip6_header_shape data : is_bytes data → 40 <= len data → ∃ i rest, header_ok i ∧ data = fixed_header i ++ rest.
Proof.
  intros Hb Hl. destruct (cut_at data 8 ltac:(lia)) as (h & r & -> & Hh & Hr). rewrite len_app in Hl.
  destruct (cut_at r 16 ltac:(lia)) as (src & r2 & -> & Hsrc & Hr2). rewrite len_app in Hl.
  destruct (cut_at r2 16 ltac:(lia)) as (dst & rest & -> & Hdst & _). apply is_bytes_app in Hb as [Hb _].
  assert (length h = 8 + 0)%nat as Hn by (unfold len in Hh; lia). explode h Hn. destruct h; [|discriminate Hn].
  rewrite !is_bytes_cons in Hb. destruct Hb as (B0 & B1 & B2 & B3 & B4 & B5 & B6 & B7 & _).
  exists (mkIPv6 (mkBase [] []) (z / 16) (z mod 16 * 16 + z0 / 16) (z0 mod 16 * 65536 + z1 * 256 + z2) (z3 * 256 + z4) z5 z6 src dst None), rest.
  unfold is_byte in *. split.
  - split; cbn [Version TrafficClass FlowLabel Length NextHeader HopLimit SrcIP DstIP]; unfold is_u8, is_u16, is_byte; try done; zdiv.
  - unfold fixed_header. cbn [Version TrafficClass FlowLabel Length NextHeader HopLimit SrcIP DstIP].
    replace ((z0 mod 16 * 65536 + z1 * 256 + z2) mod 65536) with (z1 * 256 + z2) by zdiv. rewrite !be16_of by done.
    rewrite <-!app_assoc. cbn [app]. f_equal; [zdiv|]. f_equal. zdiv.
Qed.

(** The edits of the header. *)
Lemma put_header_spec i stale : header_ok i → len stale = 40 → ∃ b1 b2 b3 b4 b5,
  put_header i stale = Ok b1 ∧ BE_PutUint16 b1 4 (Length i) = Ok b2 ∧ set_index b2 6 (NextHeader i) = Ok b3 ∧
  set_index b3 7 (HopLimit i) = Ok b4 ∧ len b4 = 40 ∧ copy_from b4 8 (SrcIP i) = Ok b5 ∧ copy_from b5 24 (DstIP i) = Ok (fixed_header i).
Proof.
  intros Hok Hst. destruct (cut_at stale 8 ltac:(lia)) as (h & r & -> & Hh & Hr). rewrite len_app in Hst.
  destruct (cut_at r 16 ltac:(lia)) as (s1 & s2 & -> & Hs1 & Hs2). destruct Hok.
  assert (length h = 8 + 0)%nat as Hn by (unfold len in Hh; lia). explode h Hn. destruct h; [|discriminate Hn].
  set (h8 := [Version i * 16 + TrafficClass i / 16; TrafficClass i mod 16 * 16 + FlowLabel i / 65536] ++
    be16 (FlowLabel i mod 65536) ++ be16 (Length i) ++ [NextHeader i; HopLimit i]).
  assert (Z.lor (u8 (Z.shiftl (Version i) 4)) (Z.shiftr (TrafficClass i) 4) = Version i * 16 + TrafficClass i / 16) as E0.
  { rewrite Z.shiftr_div_pow2 by lia. change (2 ^ 4) with 16. rewrite u8_small by (unfold is_u8; rewrite Z.shiftl_mul_pow2 by lia; lia).
    unfold is_u8 in *. rewrite lor_disjoint by (lia || (change (2 ^ 4) with 16; zdiv)). lia. }
  assert (Z.lor (u8 (Z.shiftl (TrafficClass i) 4)) (u8 (Z.shiftr (FlowLabel i) 16)) = TrafficClass i mod 16 * 16 + FlowLabel i / 65536) as E1.
  { rewrite Z.shiftr_div_pow2 by lia. change (2 ^ 16) with 65536.
    replace (u8 (FlowLabel i / 65536)) with (FlowLabel i / 65536) by (symmetry; apply u8_small; unfold is_u8; zdiv).
    replace (u8 (Z.shiftl (TrafficClass i) 4)) with (Z.shiftl (TrafficClass i mod 16) 4) by (unfold u8; rewrite !Z.shiftl_mul_pow2 by lia; unfold is_u8 in *; zdiv).
    rewrite lor_disjoint by (lia || (change (2 ^ 4) with 16; zdiv)). lia. }
  eexists _, _, _, (h8 ++ s1 ++ s2), (h8 ++ SrcIP i ++ s2). split; [|split; [|split; [|split; [|split; [|split]]]]].
  - unfold put_header. run_slices. reflexivity.
  - run_slices. reflexivity.
  - run_slices. reflexivity.
  - run_slices. rewrite E0, E1. reflexivity.
  - rewrite !len_app. change (len h8) with 8. lia.
  - apply copy_from_over; [done|lia].
  - rewrite app_assoc. unfold fixed_header. rewrite (copy_from_app (h8 ++ SrcIP i) s2 (DstIP i)).
    + unfold h8. by rewrite <-!app_assoc.
    + rewrite len_app, ho_SrcIP0. done.
    + lia.
Qed.

(** ** Jumbograms *)

Definition no_jumbo (os : list ipv6HeaderTLVOption) : Prop := Forall (fun o => is_jumbo o = false) os.

Definition jumbo_option (length : Z) : ipv6HeaderTLVOption :=
  mkTLV IPv6HopByHopOptionJumbogram 4 6 (Some (be32 length)) (4, 2).

Lemma find_app_none {A} (f : A → bool) l1 l2 : Forall (fun x => f x = false) l1 → List.find f (l1 ++ l2) = List.find f l2.
Proof. induction 1 as [|x l Hx _ IH]; [done|]. cbn. by rewrite Hx. Qed.

Lemma pad_options_no_jumbo pad : no_jumbo (pad_options pad).
Proof. unfold pad_options, no_jumbo. destruct (_ <=? _); [constructor|]. destruct (_ =? _); repeat constructor. Qed.

Lemma layout_no_jumbo os : ∀ n, no_jumbo os → no_jumbo (layout os n).
Proof.
  unfold no_jumbo. induction os as [|o os IH]; intros n Ho; cbn [layout]; [constructor|]. apply Forall_cons in Ho as [Ho Hos].
  apply Forall_app_2; [apply pad_options_no_jumbo|]. constructor; [exact Ho|by apply IH].
Qed.

Lemma layout_snoc os o : ∀ n, Forall option_ok os → 0 <= n →
  layout (os ++ [o]) n = layout os n ++ layout [o] (n + len (options_bytes (layout os n))).
Proof.
  induction os as [|a os IH]; intros n Ho Hn; [cbn [app layout options_bytes fmap list_fmap concat]; by rewrite len_nil, Z.add_0_r|].
  apply Forall_cons in Ho as [Ha Ho]. pose proof (alignment_padding_range a n Ha Hn). pose proof (len_nonneg (data_of a)).
  set (F := layout [o]) in *. cbn [app layout]. rewrite IH by (done || lia). rewrite <-app_assoc. cbn [app]. do 4 f_equal.
  rewrite options_bytes_app, options_bytes_cons, !len_app, pad_options_length. cbn [tlv option_bytes OptionData].
  rewrite !len_cons. rewrite Z.max_r by lia. lia.
Qed.

(** The options with a jumbo length behind the others: what comes before it and
    after it does not depend on the length. *)
Definition before_jumbo (os : list ipv6HeaderTLVOption) : list ipv6HeaderTLVOption :=
  layout os 2 ++ pad_options (alignment_padding (jumbo_option 0) (2 + len (options_bytes (layout os 2)))).
Definition after_jumbo (os : list ipv6HeaderTLVOption) : list ipv6HeaderTLVOption :=
  pad_options ((2 + len (options_bytes (layout (os ++ [jumbo_option 0]) 2))) mod 8).

Lemma laid_out_jumbo os l : Forall option_ok os →
  laid_out (os ++ [jumbo_option l]) = before_jumbo os ++ tlv IPv6HopByHopOptionJumbogram (be32 l) :: after_jumbo os.
Proof.
  intros Ho. unfold laid_out, before_jumbo, after_jumbo. rewrite !layout_snoc by (done || lia).
  rewrite !options_bytes_app, !len_app. cbn [layout].
  change (alignment_padding (jumbo_option l)) with (alignment_padding (jumbo_option 0)).
  change (data_of (jumbo_option ?k)) with (be32 k). rewrite !options_bytes_app, !options_bytes_cons, !len_app.
  cbn [tlv option_bytes OptionData OptionType]. rewrite !len_cons, !len_be32.
  rewrite <-!app_assoc. done.
Qed.

Lemma find_jumbo os l : Forall option_ok os → no_jumbo os →
  List.find is_jumbo (laid_out (os ++ [jumbo_option l])) = Some (tlv IPv6HopByHopOptionJumbogram (be32 l)).
Proof.
  intros Ho Hn. rewrite laid_out_jumbo by done. rewrite find_app_none; [done|].
  apply Forall_app_2; [by apply layout_no_jumbo|apply pad_options_no_jumbo].
Qed.

Lemma find_no_jumbo os : no_jumbo os → List.find is_jumbo (laid_out os) = None.
Proof.
  intros Hn. unfold laid_out. rewrite <-(app_nil_r (_ ++ _)), find_app_none; [done|].
  apply Forall_app_2; [by apply layout_no_jumbo|apply pad_options_no_jumbo].
Qed.

Lemma index_second {A} pre (a b : A) rest : index (pre ++ a :: b :: rest) (len pre + 1) = Ok b.
Proof.
  pose proof (index_at (pre ++ [a]) rest b) as Hi. rewrite <-app_assoc, len_app in Hi. exact Hi.
Qed.

(** The loop in the written options finds the place. *)
Lemma jumbo_place_found os : ∀ fuel pre rest hl, Forall (fun o => is_decoded o) os → no_jumbo os →
  (length os < fuel)%nat → len pre + len (options_bytes os) < hl →
  jumbo_place fuel (pre ++ options_bytes os ++ IPv6HopByHopOptionJumbogram :: 4 :: rest) hl (len pre) =
    Ok (len pre + len (options_bytes os) + 2).
Proof.
  induction os as [|o os IH]; intros [|fuel] pre rest hl Hd Hn Hf Hl; try (cbn in Hf; lia); cbn [jumbo_place].
  - cbn [options_bytes fmap list_fmap concat app] in *. rewrite len_nil in *. destruct (Z.ltb_spec (len pre) hl); [|lia].
    rewrite index_at. cbn [mbind outcome_bind]. change (IPv6HopByHopOptionJumbogram =? 0) with false. cbv iota.
    rewrite index_second. cbn [mbind outcome_bind]. rewrite Z.eqb_refl. cbn [Z.eqb Pos.eqb mret outcome_ret]. rewrite len_nil. f_equal. lia.
  - apply Forall_cons in Hd as [Ho Hd]. unfold no_jumbo in Hn. apply Forall_cons in Hn as [Hno Hn].
    pose proof (decoded_option_length _ _ Ho) as [_ Hlen]. rewrite options_bytes_cons, len_app in Hl. pose proof (len_nonneg (options_bytes os)).
    rewrite options_bytes_cons, <-app_assoc. destruct (Z.ltb_spec (len pre) hl); [|lia].
    specialize (IH fuel (pre ++ option_bytes o) rest hl Hd Hn ltac:(cbn in Hf; lia) ltac:(rewrite len_app; lia)).
    rewrite len_app, <-app_assoc in IH. inversion Ho as [Hp|t d Ht Hp Hb]; subst.
    + cbn [option_bytes pad1 OptionData app] in *. rewrite index_at. cbn [mbind outcome_bind Z.eqb].
      change (len [0]) with 1 in IH. rewrite IH. f_equal. rewrite len_cons. lia.
    + cbn [option_bytes tlv OptionData OptionType app] in *. rewrite index_at. cbn [mbind outcome_bind].
      rewrite (proj2 (Z.eqb_neq t 0)) by done.
      rewrite index_second. cbn [mbind outcome_bind].
      unfold is_jumbo in Hno. cbn [tlv OptionType] in Hno. rewrite Hno.
      rewrite !len_cons in *. replace (len pre + (2 + len d)) with (len pre + (1 + (1 + len d))) by lia. rewrite IH.
      f_equal. rewrite len_app. lia.
Qed.

Definition with_jumbo (h : options_header) (l : Z) : options_header := set_Options (Options h ++ [jumbo_option l]) h.

(** The written extension around the jumbo length. *)
Lemma jumbo_extension_bytes h l : Forall option_ok (Options h) →
  let os := Options h in
  extension_bytes (with_jumbo h l) =
    [ext_NextHeader (ext h); (2 + len (options_bytes (laid_out (os ++ [jumbo_option 0])))) / 8 - 1] ++
    options_bytes (before_jumbo os) ++ IPv6HopByHopOptionJumbogram :: 4 :: be32 l ++ options_bytes (after_jumbo os).
Proof.
  intros Ho os. unfold extension_bytes. cbn [with_jumbo set_Options Options ext]. fold os.
  rewrite !laid_out_jumbo by done. rewrite !options_bytes_app, !options_bytes_cons, !len_app. reflexivity.
Qed.

Lemma jumbo_extension_ok h l : is_u32 l → extension_ok (with_jumbo h 0) → extension_ok (with_jumbo h l).
Proof.
  intros Hl [Hn Ho Ha Hlen]. cbn [with_jumbo set_Options Options] in *. apply Forall_app in Ho as [Ho Hj]. split; cbn [with_jumbo set_Options Options ext].
  - done.
  - apply Forall_app_2; [done|]. constructor; [|constructor]. split; [done| |done].
    change (data_of (jumbo_option l)) with (be32 l). rewrite len_be32. split; [apply be32_bytes|lia].
  - assert (∀ n, len (options_bytes (layout [jumbo_option l] n)) = len (options_bytes (layout [jumbo_option 0] n))) as Hj'.
    { intros n. cbn [layout]. rewrite !options_bytes_app, !options_bytes_cons, !len_app. reflexivity. }
    unfold aligned in *. rewrite layout_snoc in * by (done || lia). rewrite options_bytes_app, len_app in *. by rewrite Hj'.
  - rewrite laid_out_jumbo in * by done. rewrite options_bytes_app, options_bytes_cons, !len_app in *. exact Hlen.
Qed.

Lemma jumbo_length_set h payload : extension_ok (with_jumbo h 0) → no_jumbo (Options h) → len (extension_bytes (with_jumbo h 0)) < 256 →
  let n := len (extension_bytes (with_jumbo h 0) ++ payload) in
  setIPv6PayloadJumboLength (extension_bytes (with_jumbo h 0) ++ payload) = Ok (extension_bytes (with_jumbo h (u32 n)) ++ payload).
Proof.
  intros [_ Ho Ha _] Hnj Hlen n. cbn [with_jumbo set_Options Options] in Ho, Ha. apply Forall_app in Ho as [Ho _].
  pose proof (extension_length (with_jumbo h 0)) as Hel. destruct (aligned_pad _ Ha) as [_ Hm].
  cbn [with_jumbo set_Options Options] in Hel. fold (with_jumbo h 0) in Hel.
  unfold setIPv6PayloadJumboLength. fold n. pose proof (len_nonneg payload). unfold n in *. rewrite len_app.
  rewrite !jumbo_extension_bytes in * by done.
  set (ob := len (options_bytes (laid_out (Options h ++ [jumbo_option 0])))) in *.
  set (pre := [ext_NextHeader (ext h); (2 + ob) / 8 - 1]) in *. set (before := options_bytes (before_jumbo (Options h))) in *.
  set (after := options_bytes (after_jumbo (Options h))) in *. pose proof (len_nonneg before). pose proof (len_nonneg after).
  rewrite !len_app, !len_cons, len_app, len_be32 in *. change (len pre) with 2 in *.
  destruct (Z.ltb_spec (2 + (len before + (1 + (1 + (4 + len after)))) + len payload) 8); [lia|].
  rewrite <-!app_assoc. change (index (pre ++ ?r) 1) with (Ok ((2 + ob) / 8 - 1)). cbn [mbind outcome_bind].
  replace (u8 (u8 ((2 + ob) / 8 - 1 + 1) * 8)) with (2 + ob) by (unfold u8; zdiv).
  destruct (Z.gtb_spec (2 + ob) (2 + (len before + (1 + (1 + (4 + len after)))) + len payload)); [lia|].
  cbn [app]. change (ext_NextHeader (ext h) :: (2 + ob) / 8 - 1 :: ?r) with (pre ++ r).
  assert (Forall (fun o => is_decoded o) (before_jumbo (Options h))) as Hdec.
  { apply Forall_app_2; [by apply layout_decoded|apply pad_options_decoded]. }
  rewrite (jumbo_place_found (before_jumbo (Options h)) _ pre _ (2 + ob) Hdec).
  - cbn [mbind outcome_bind]. change (len pre) with 2. fold before.
    assert (2 + len before + 2 = len (pre ++ before ++ [IPv6HopByHopOptionJumbogram; 4])) as -> by (rewrite !len_app; change (len pre) with 2; change (len [_; _]) with 2; lia).
    unfold BE_PutUint32. rewrite <-(app_assoc (be32 0)).
    pose proof (write_at_app (pre ++ before ++ [IPv6HopByHopOptionJumbogram; 4]) (be32 0) (after ++ payload)) as Hw.
    rewrite <-!app_assoc in Hw. cbn [app] in Hw. unfold pre in *. cbn [app] in *.
    rewrite Hw by (by rewrite ?len_be32). by rewrite <-!app_assoc.
  - apply Forall_app_2; [by apply layout_no_jumbo|apply pad_options_no_jumbo].
  - pose proof (decoded_count _ Hdec) as Hc. fold before in Hc. cbn [length app]. rewrite !length_app. unfold lt. cbn [length]. rewrite ?length_app. lia.
  - fold before. change (len pre) with 2. lia.
Qed.

(** ** The header, written *)

Section serialize.
Context {W : Type} `{SerializeBufferLaws W}.
Implicit Types (i : IPv6) (w : W).

Definition no_extension_yet w : Prop := existsb (Z.eqb LayerTypeIPv6HopByHop) (Layers w) = false.

(** The hop-by-hop extension, for a payload that is no jumbogram, and for one that is. *)
Lemma HopByHop_written opts i h w : FixLengths opts = true → buf_ok w → no_extension_yet w →
  HopByHop i = Some h → extension_ok h →
  wp (serialize_HopByHop opts false)
    (fun _ '(i', w') => i' = set_HopByHop (Some (fixed_extension h)) (set_NextHeader IPProtocolIPv6HopByHop i) ∧
       buf_ok w' ∧ Bytes w' = extension_bytes h ++ Bytes w) (fun _ _ => False) (i, w).
Proof.
  intros Hfix Hw Hno Hh Hok. unfold serialize_HopByHop.
  apply wp_bind, wp_get_fields, wp_bind, wp_gets. cbn [fst snd]. rewrite Hh, Hno.
  apply wp_bind, wp_put_fields, wp_bind.
  destruct (extension_written_eq "IPv6HopByHop actual length must be multiple of 8" opts h w Hfix Hw Hok) as (w' & E & Hw' & HB & _).
  unfold wp at 1, zoom. cbn [fst snd]. unfold HopByHop_SerializeTo, IPv6HopByHop in *. rewrite E. cbn [fst snd]. rewrite andb_false_r. done.
Qed.

Lemma HopByHop_jumbo_written opts i h w : FixLengths opts = true → buf_ok w → no_extension_yet w →
  HopByHop i = Some (with_jumbo h 0) → extension_ok (with_jumbo h 0) → no_jumbo (Options h) → len (extension_bytes (with_jumbo h 0)) < 256 →
  wp (serialize_HopByHop opts true)
    (fun _ '(i', w') => i' = set_HopByHop (Some (fixed_extension (with_jumbo h 0))) (set_NextHeader IPProtocolIPv6HopByHop i) ∧
       buf_ok w' ∧ Bytes w' = extension_bytes (with_jumbo h (u32 (len (extension_bytes (with_jumbo h 0) ++ Bytes w)))) ++ Bytes w)
    (fun _ _ => False) (i, w).
Proof.
  intros Hfix Hw Hno Hh Hok Hnj Hlen. unfold serialize_HopByHop.
  apply wp_bind, wp_get_fields, wp_bind, wp_gets. cbn [fst snd]. rewrite Hh, Hno.
  apply wp_bind, wp_put_fields, wp_bind.
  destruct (extension_written_eq "IPv6HopByHop actual length must be multiple of 8" opts _ w Hfix Hw Hok) as (w' & E & Hw' & HB & _).
  unfold wp at 1, zoom. cbn [fst snd]. unfold HopByHop_SerializeTo, IPv6HopByHop in *. rewrite E, Hfix. cbn [andb fst snd].
  apply wp_bind, wp_buffer_Bytes, wp_bind, wp_lift. rewrite HB, jumbo_length_set by done. cbn [owp].
  assert (length (extension_bytes (with_jumbo h (u32 (len (extension_bytes (with_jumbo h 0) ++ Bytes w))))) = length (extension_bytes (with_jumbo h 0))) as Hle.
  { destruct Hok as [_ Ho _ _]. cbn [with_jumbo set_Options Options] in Ho. apply Forall_app in Ho as [Ho _].
    rewrite !jumbo_extension_bytes by done. rewrite !length_app. cbn [length]. rewrite !length_app. done. }
  eapply (wp_sync _ (extension_bytes (with_jumbo h 0) ++ Bytes w) []); [done|by rewrite app_nil_r|by rewrite !length_app, Hle|].
  intros w2 Hw2 HB2 _. rewrite app_nil_r in HB2. done.
Qed.

(** The forty bytes in front of everything; [n] is the length field. *)
Lemma header_written opts i (jumbo : bool) w payload :
  let n := if FixLengths opts then (if jumbo then 0 else u16 (len payload)) else Length i in
  buf_ok w → Bytes w = payload → header_ok (set_Length n i) →
  wp (bytes ← prepend 40;
      ip6 ← get_fields;
      bytes ← lift (put_header ip6 bytes);
      let ip6 := if FixLengths opts then set_Length (if jumbo then 0 else u16 (len payload)) ip6 else ip6 in
      _ ← put_fields ip6;
      bytes ← lift (BE_PutUint16 bytes 4 (Length ip6));
      bytes ← lift (set_index bytes 6 (NextHeader ip6));
      bytes ← lift (set_index bytes 7 (HopLimit ip6));
      _ ← sync bytes;
      _ ← lift (AddressTo16 (SrcIP ip6) (DstIP ip6));
      bytes ← lift (copy_from bytes 8 (SrcIP ip6));
      bytes ← lift (copy_from bytes 24 (DstIP ip6));
      sync bytes)
    (fun _ '(i', w') => i' = set_Length n i ∧ buf_ok w' ∧ Bytes w' = fixed_header (set_Length n i) ++ payload)
    (fun _ _ => False) (i, w).
Proof.
  intros n Hw HB Hok. apply wp_bind, wp_prepend; [done|lia|]. intros st w1 Hw1 Hst HB1 HL1. rewrite HB in HB1.
  destruct (put_header_spec (set_Length n i) st Hok Hst) as (b1 & b2 & b3 & b4 & b5 & E1 & E2 & E3 & E4 & L4 & E5 & E6).
  apply wp_bind, wp_get_fields, wp_bind, wp_lift. change (put_header i st) with (put_header (set_Length n i) st). rewrite E1. cbn [owp].
  replace (if FixLengths opts then set_Length (if jumbo then 0 else u16 (len payload)) i else i) with (set_Length n i)
    by (unfold n; destruct (FixLengths opts); [done|by destruct i]).
  apply wp_bind, wp_put_fields, wp_bind, wp_lift. rewrite E2. cbn [owp]. apply wp_bind, wp_lift. rewrite E3. cbn [owp].
  apply wp_bind, wp_lift. rewrite E4. cbn [owp]. apply wp_bind. eapply wp_sync; [done|exact HB1|unfold len in *; lia|].
  intros w2 Hw2 HB2 _. apply wp_bind, wp_lift.
  assert (AddressTo16 (SrcIP (set_Length n i)) (DstIP (set_Length n i)) = Ok tt) as ->.
  { unfold AddressTo16, checkIPv6Address. by rewrite (ho_SrcIP _ Hok), (ho_DstIP _ Hok). }
  cbn [owp]. apply wp_bind, wp_lift. rewrite E5. cbn [owp]. apply wp_bind, wp_lift. rewrite E6. cbn [owp].
  eapply wp_sync; [done|exact HB2| |].
  { pose proof (len_fixed_header _ Hok). unfold len in *. lia. }
  intros w3 Hw3 HB3 _. done.
Qed.
End serialize.

(** ** Serialized, and decoded again *)

Definition hop_bytes (i : IPv6) : bytes := match HopByHop i with None => [] | Some h => extension_bytes h end.

(** The fields that [SerializeTo] fixes, for [n] bytes behind the header. *)
Definition fixed (i : IPv6) (n : Z) : IPv6 :=
  set_Length n
    match HopByHop i with
    | None => i
    | Some h => set_HopByHop (Some (fixed_extension h)) (set_NextHeader IPProtocolIPv6HopByHop i)
    end.

Lemma header_ok_fixed i n : header_ok i → is_u16 n → header_ok (fixed i n).
Proof. intros [] Hn. unfold fixed. destruct (HopByHop i); by split. Qed.

(** An extension that a packet without a jumbo length can have. *)
Definition plain_extension (i : IPv6) : Prop :=
  match HopByHop i with
  | None => NextHeader i ≠ IPProtocolIPv6HopByHop
  | Some h => extension_ok h ∧ no_jumbo (Options h)
  end.

Definition decoded_extension (h : options_header) (p : bytes) : options_header :=
  mkOptionsHeader (decoded_base h p) (laid_out (Options h)).

Lemma IPv6_written {W} `{SerializeBufferLaws W} opts i (w : W) : FixLengths opts = true → buf_ok w → no_extension_yet w →
  header_ok i → plain_extension i → len (hop_bytes i) + len (Bytes w) <= 65535 →
  let n := len (hop_bytes i) + len (Bytes w) in
  wp (SerializeTo opts) (fun _ '(i', w') => i' = fixed i n ∧ buf_ok w' ∧
    Bytes w' = fixed_header (fixed i n) ++ hop_bytes i ++ Bytes w) (fun _ _ => False) (i, w).
Proof.
  intros Hfix Hw Hno Hok Hp Hl n. pose proof (len_nonneg (hop_bytes i)). pose proof (len_nonneg (Bytes w)).
  unfold SerializeTo. apply wp_bind, wp_buffer_Bytes, wp_bind. unfold prepare_jumbo, ipv6MaxPayloadLength.
  destruct (Z.gtb_spec (len (Bytes w)) 65535); [lia|]. apply wp_ret, wp_bind.
  assert (wp (serialize_HopByHop opts false) (fun _ '(i', w') => set_Length n i' = fixed i n ∧ header_ok (set_Length n i') ∧ buf_ok w' ∧
    Bytes w' = hop_bytes i ++ Bytes w) (fun _ _ => False) (i, w)) as Hhop.
  { pose proof (header_ok_fixed i n Hok ltac:(unfold is_u16; lia)) as Hf. unfold plain_extension, hop_bytes, fixed in *.
    destruct (HopByHop i) as [h|] eqn:Hh.
    - destruct Hp as [Hp _]. eapply wp_mono; [| |by apply (HopByHop_written opts i h w)]; [|done].
      intros _ [i' w'] (-> & ? & ?). done.
    - unfold serialize_HopByHop. apply wp_bind, wp_get_fields, wp_bind, wp_gets. rewrite Hh. by apply wp_ret. }
  eapply wp_mono; [| |exact Hhop]; [|done]. intros _ [i1 w1] (Hi & Hok1 & Hw1 & HB1).
  apply wp_bind, wp_buffer_Bytes. cbv zeta. assert (len (Bytes w1) = n) as Hn by (rewrite HB1, len_app; lia).
  rewrite Hn. destruct (Z.gtb_spec n 65535); [lia|]. cbn [negb andb].
  assert (u16 n = n) as Hu by (apply u16_small; unfold is_u16; lia).
  pose proof (header_written opts i1 false w1 (Bytes w1)) as Hwr. rewrite Hfix, Hn, Hu in Hwr. rewrite Hfix, Hu. 
  eapply wp_mono; [| |by apply Hwr]; [|done]. intros _ [i' w'] (-> & Hw' & HB'). rewrite Hi, HB1 in *. done.
Qed.

Lemma IPv6_decode_start i rest old tr : header_ok i →
  DecodeFromBytes (fixed_header i ++ rest) (DState old tr) =
    (if NextHeader i =? IPProtocolIPv6HopByHop then
      (hbh ← zoom (fun s => DState empty_options_header (dtruncated s)) (fun d s => DState (dlayer s) (dtruncated d))
              (_ ← HopByHop_DecodeFromBytes rest; get_layer);
      _ ← modify_layer (set_HopByHop (Some hbh));
      r ← lift (getIPv6HopByHopJumboLength hbh);
      let '(pEnd, jumbo) := r in
      if jumbo && (Length i =? 0) then cut_payload pEnd
      else if jumbo && negb (Length i =? 0) then
        throw (errors_New "IPv6 has jumbo length and IPv6 length is not 0")
      else if negb jumbo && (Length i =? 0) then
        throw (errors_New "IPv6 length 0, but HopByHop header does not have jumbogram option")
      else
        p ← lift (slice_from rest (ext_ActualLength (ext hbh)));
        _ ← set_Payload p;
        cut_to_Length)
    else cut_to_Length) (DState (with_payload i None rest) tr).
Proof.
  intros Hok. unfold DecodeFromBytes. rewrite len_app, len_fixed_header by done. pose proof (len_nonneg rest).
  destruct (Z.ltb_spec (40 + len rest) 40); [lia|]. rewrite lift_bind, header_decoded by done. cbv beta iota.
  rewrite bind_eq. reflexivity.
Qed.

Lemma cut_payload_eq n i tr : 0 <= n →
  cut_payload n (DState i tr) = (Ok tt, DState (set_base (mkBase (Contents (base i)) (take (Z.to_nat n) (Payload (base i)))) i)
    (tr || (n >? len (Payload (base i))))).
Proof.
  intros Hn. unfold cut_payload. rewrite bind_eq. cbn [get_layer gets dlayer]. pose proof (len_nonneg (Payload (base i))).
  destruct (Z.gtb_spec n (len (Payload (base i)))).
  - rewrite bind_eq, bind_eq. cbn [SetTruncated modify dlayer dtruncated mret M_ret]. rewrite lift_bind, slice_to_ok by lia. cbv beta iota.
    rewrite orb_true_r. unfold set_Payload, modify_layer, modify. cbn [dlayer dtruncated]. rewrite !take_ge by (unfold len in *; lia). done.
  - rewrite bind_eq. cbn [mret M_ret]. rewrite lift_bind, slice_to_ok by lia. rewrite orb_false_r. done.
Qed.

Lemma no_extension_decoded i p old tr : header_ok i → NextHeader i ≠ IPProtocolIPv6HopByHop → Length i = len p → p ≠ [] →
  DecodeFromBytes (fixed_header i ++ p) (DState old tr) = (Ok tt, DState (with_payload i None p) tr).
Proof.
  intros Hok Hn Hl Hp. rewrite IPv6_decode_start by done. rewrite (proj2 (Z.eqb_neq _ _)) by done.
  assert (len p ≠ 0) as Hp0 by (intros E; by apply len_zero in E).
  unfold cut_to_Length. rewrite bind_eq. cbn [get_layer gets dlayer]. change (Length (with_payload i None p)) with (Length i).
  rewrite Hl, (proj2 (Z.eqb_neq _ _)) by done. rewrite cut_payload_eq by apply len_nonneg.
  cbn [with_payload base Payload Contents]. rewrite take_ge by (unfold len; lia).
  destruct (Z.gtb_spec (len p) (len p)); [lia|]. by rewrite orb_false_r.
Qed.

(** Running the loop of the hop-by-hop extension inside of the header's decoder. *)
Lemma hop_decoded i h rest tr : extension_ok h →
  zoom (fun s : dstate IPv6 => DState empty_options_header (dtruncated s)) (fun d s => DState (dlayer s) (dtruncated d))
    (_ ← HopByHop_DecodeFromBytes (extension_bytes h ++ rest); get_layer) (DState i tr) =
  (Ok (decoded_extension h rest), DState i tr).
Proof.
  intros Hok. unfold zoom. cbn [dtruncated dlayer]. rewrite bind_eq, HopByHop_decoded by done. reflexivity.
Qed.

Lemma extension_decoded i h p old tr : header_ok i → extension_ok h → no_jumbo (Options h) →
  NextHeader i = IPProtocolIPv6HopByHop → Length i = len (extension_bytes h) + len p →
  DecodeFromBytes (fixed_header i ++ extension_bytes h ++ p) (DState old tr) =
    (Ok tt, DState (with_payload i (Some (decoded_extension h p)) p) true).
Proof.
  intros Hok Hext Hnj Hn Hl. rewrite IPv6_decode_start, Hn, Z.eqb_refl by done.
  rewrite bind_eq, hop_decoded by done. cbv beta iota. rewrite bind_eq. cbn [modify_layer modify dlayer dtruncated].
  pose proof (extension_length h) as He. pose proof (len_nonneg (options_bytes (laid_out (Options h)))). pose proof (len_nonneg p).
  rewrite lift_bind. unfold getIPv6HopByHopJumboLength. cbn [decoded_extension Options]. rewrite find_no_jumbo by done.
  cbn [mret outcome_ret andb negb]. rewrite (proj2 (Z.eqb_neq (Length i) 0)) by lia.
  rewrite lift_bind, slice_from_app by (cbn [decoded_extension ext decoded_base ext_ActualLength]; lia). cbv beta iota.
  rewrite bind_eq. cbn [set_Payload modify_layer modify dlayer dtruncated]. unfold cut_to_Length. rewrite bind_eq. cbn [get_layer gets dlayer].
  change (Length (set_base _ _)) with (Length i). rewrite (proj2 (Z.eqb_neq (Length i) 0)) by lia.
  rewrite cut_payload_eq by lia. cbn [set_base base Payload Contents set_HopByHop with_payload]. rewrite take_ge by (unfold len in *; lia).
  destruct (Z.gtb_spec (Length i) (len p)); [|lia]. by rewrite orb_true_r.
Qed.

Lemma jumbo_decoded i h l p old tr : header_ok i → extension_ok (with_jumbo h l) → no_jumbo (Options h) →
  NextHeader i = IPProtocolIPv6HopByHop → Length i = 0 → is_u32 l → 65535 < l → l = len (extension_bytes (with_jumbo h l)) + len p →
  DecodeFromBytes (fixed_header i ++ extension_bytes (with_jumbo h l) ++ p) (DState old tr) =
    (Ok tt, DState (with_payload i (Some (decoded_extension (with_jumbo h l) p)) (extension_bytes (with_jumbo h l) ++ p)) tr).
Proof.
  intros Hok Hext Hnj Hn Hl Hu Hbig Hlen. rewrite IPv6_decode_start, Hn, Z.eqb_refl by done.
  rewrite bind_eq, hop_decoded by done. cbv beta iota. rewrite bind_eq. cbn [modify_layer modify dlayer dtruncated].
  assert (Forall option_ok (Options h)) as Ho.
  { destruct Hext as [_ Ho _ _]. cbn [with_jumbo set_Options Options] in Ho. by apply Forall_app in Ho as [Ho _]. }
  rewrite lift_bind. unfold getIPv6HopByHopJumboLength. cbn [decoded_extension Options with_jumbo set_Options]. fold (with_jumbo h l).
  rewrite find_jumbo by done. change (data_of (tlv _ ?d)) with d. change (negb (len (be32 l) =? 4)) with false. cbv iota.
  rewrite <-(app_nil_r (be32 l)) at 1. rewrite BE_Uint32_be32 by done. cbn [mbind outcome_bind]. unfold ipv6MaxPayloadLength.
  destruct (Z.leb_spec l 65535); [lia|]. cbn [mret outcome_ret]. rewrite Hl. cbn [Z.eqb andb].
  rewrite cut_payload_eq by lia. cbn [set_HopByHop with_payload base Payload Contents]. rewrite !len_app, <-Hlen.
  rewrite take_ge by (rewrite length_app; unfold len in *; lia).
  destruct (Z.gtb_spec l l); [lia|]. by rewrite orb_false_r.
Qed.

(** C38 (roundtrip): an IPv6 header with fields in range, serialized with fixed
    lengths onto a payload that fits, with or without a hop-by-hop extension whose
    options are aligned: decoding gives the fields, the options with their padding
    and the payload. Behind an extension the packet is always marked as truncated:
    the length of the whole is compared with what is left after the extension. *)
Theorem IPv6_roundtrip {W} `{SerializeBufferLaws W} opts i (w : W) old tr :
  FixLengths opts = true → buf_ok w → no_extension_yet w → header_ok i → plain_extension i →
  Bytes w ≠ [] → len (hop_bytes i) + len (Bytes w) <= 65535 →
  let n := len (hop_bytes i) + len (Bytes w) in
  ∃ w', SerializeTo opts (i, w) = (Ok tt, (fixed i n, w')) ∧ buf_ok w' ∧ len (Bytes w') = 40 + n ∧
    DecodeFromBytes (Bytes w') (DState old tr) =
      (Ok tt, DState
        (with_payload (fixed i n) ((fun h => decoded_extension h (Bytes w)) <$> HopByHop i) (Bytes w))
        (tr || bool_decide (is_Some (HopByHop i)))).
Proof.
  intros Hfix Hw Hno Hok Hp Hne Hl n. pose proof (IPv6_written opts i w Hfix Hw Hno Hok Hp Hl) as Hs. unfold wp in Hs.
  destruct (SerializeTo opts (i, w)) as [[[]| | |] [i' w']]; try done. destruct Hs as (-> & Hw' & HB). exists w'.
  pose proof (len_nonneg (hop_bytes i)). pose proof (len_nonneg (Bytes w)).
  assert (header_ok (fixed i n)) as Hf by (apply header_ok_fixed; [done|unfold is_u16; lia]).
  split; [done|]. split; [done|]. split; [rewrite HB, !len_app, len_fixed_header by done; lia|].
  rewrite HB. unfold plain_extension, hop_bytes, fixed in *. destruct (HopByHop i) as [h|].
  - destruct Hp. rewrite bool_decide_eq_true_2 by done. rewrite orb_true_r. by apply extension_decoded.
  - rewrite bool_decide_eq_false_2 by (by intros []). rewrite orb_false_r. cbn [app fmap option_fmap option_map]. by apply no_extension_decoded.
Qed.

(** ** Jumbograms, serialized and decoded again *)

(** The extension of the header, or a new one. *)
Definition own_extension (i : IPv6) : options_header :=
  match HopByHop i with
  | Some h => h
  | None => mkOptionsHeader (mkExtension (mkBase [] []) (NextHeader i) 0 0) []
  end.

Definition jumbo_fixed (i : IPv6) : IPv6 :=
  set_Length 0 (set_HopByHop (Some (fixed_extension (with_jumbo (own_extension i) 0))) (set_NextHeader IPProtocolIPv6HopByHop i)).

Lemma jumbo_added i : no_jumbo (Options (own_extension i)) → ∃ next,
  addIPv6JumboOption i = Ok (set_HopByHop (Some (with_jumbo (own_extension i) 0)) (set_NextHeader next i)).
Proof.
  intros Hn. assert (existsb is_jumbo (Options (own_extension i)) = false) as He.
  { apply not_true_is_false. rewrite existsb_exists. intros (o & Ho & Hj). unfold no_jumbo in Hn.
    rewrite List.Forall_forall in Hn. rewrite (Hn o Ho) in Hj. discriminate. }
  unfold addIPv6JumboOption, own_extension in *. destruct (HopByHop i) as [h|] eqn:Hh.
  - exists (NextHeader i). unfold default. rewrite Hh. cbn [from_option id]. rewrite He.
    change (SetJumboLength 0 (mkTLV 0 0 0 None (0, 0))) with (Ok (jumbo_option 0)). cbn [mbind outcome_bind mret outcome_ret].
    by destruct i.
  - exists IPProtocolIPv6HopByHop. reflexivity.
Qed.

(** C39 (roundtrip): a payload of more than 65535 bytes is serialized as a
    jumbogram, with an extension if there was none, its length in the option and
    zero in the header; decoding finds the length and the options again. The
    payload of the decoded layer, unlike that of other packets, still begins with the
    extension. *)
Theorem IPv6_jumbo_roundtrip {W} `{SerializeBufferLaws W} opts i (w : W) old tr :
  let h := own_extension i in
  let n := len (extension_bytes (with_jumbo h 0)) + len (Bytes w) in
  FixLengths opts = true → buf_ok w → no_extension_yet w → header_ok i → no_jumbo (Options h) →
  extension_ok (with_jumbo h 0) → len (extension_bytes (with_jumbo h 0)) < 256 →
  65535 < len (Bytes w) → is_u32 n →
  ∃ w', SerializeTo opts (i, w) = (Ok tt, (jumbo_fixed i, w')) ∧ buf_ok w' ∧ len (Bytes w') = 40 + n ∧
    DecodeFromBytes (Bytes w') (DState old tr) = (Ok tt,
      DState (with_payload (jumbo_fixed i) (Some (decoded_extension (with_jumbo h n) (Bytes w)))
        (extension_bytes (with_jumbo h n) ++ Bytes w)) tr).
Proof.
  intros h n Hfix Hw Hno Hok Hnj Hext H256 Hbig Hn. set (e := extension_bytes (with_jumbo h 0)) in *.
  assert (len (extension_bytes (with_jumbo h n)) = len e) as He.
  { destruct Hext as [_ Ho _ _]. cbn [with_jumbo set_Options Options] in Ho. apply Forall_app in Ho as [Ho _].
    unfold e. rewrite !jumbo_extension_bytes by done. by rewrite !len_app, !len_cons, !len_app. }
  assert (header_ok (jumbo_fixed i)) as Hf by (destruct Hok; by split).
  enough (wp (SerializeTo opts) (fun _ '(i', w') => i' = jumbo_fixed i ∧ buf_ok w' ∧
    Bytes w' = fixed_header (jumbo_fixed i) ++ extension_bytes (with_jumbo h n) ++ Bytes w) (fun _ _ => False) (i, w)) as Hs.
  { unfold wp in Hs. destruct (SerializeTo opts (i, w)) as [[[]| | |] [i' w']]; try done. destruct Hs as (-> & Hw' & HB).
    pose proof (len_nonneg e). assert (n = len e + len (Bytes w)) as En by done.
    exists w'. split; [done|]. split; [done|]. split; [rewrite HB, !len_app, len_fixed_header by done; lia|].
    rewrite HB. apply jumbo_decoded; try done; [by apply jumbo_extension_ok|lia|lia]. }
  unfold SerializeTo. apply wp_bind, wp_buffer_Bytes, wp_bind. unfold prepare_jumbo, ipv6MaxPayloadLength.
  destruct (Z.gtb_spec (len (Bytes w)) 65535); [|lia]. apply wp_bind, wp_get_fields, wp_bind. rewrite Hfix.
  destruct (jumbo_added i Hnj) as (next & Ha). apply wp_bind, wp_lift. rewrite Ha. cbn [owp]. apply wp_put_fields, wp_ret, wp_bind.
  eapply wp_mono; [| |apply (HopByHop_jumbo_written opts _ h w); done]; [|done].
  intros _ [i1 w1] (-> & Hw1 & HB1). rewrite len_app in HB1. fold e n in HB1. rewrite u32_small in HB1 by done.
  apply wp_bind, wp_buffer_Bytes. cbv zeta. cbn [negb andb].
  pose proof (header_written opts (set_HopByHop (Some (fixed_extension (with_jumbo h 0))) (set_NextHeader IPProtocolIPv6HopByHop i)) true w1 (Bytes w1)) as Hwr.
  rewrite Hfix in Hwr. eapply wp_mono; [| |by apply Hwr]; [|done].
  intros _ [i' w'] (-> & Hw' & HB'). rewrite HB', HB1. done.
Qed.

(** ** Arbitrary bytes *)

Lemma one_option_total {L} data (s : dstate L) : is_bytes data →
  wp (decodeIPv6HeaderTLVOption data)
    (fun o s' => s' = s ∧ ∃ bs tail, decoded_option o bs ∧ data = bs ++ tail) (fun _ _ => True) s.
Proof.
  intros Hb. unfold decodeIPv6HeaderTLVOption. destruct (Z.ltb_spec (len data) 2); [by apply wp_bind, wp_modify|].
  destruct data as [|t [|l d]]; try (unfold len in *; cbn in *; lia). rewrite !is_bytes_cons in Hb. destruct Hb as (Ht & Hl & Hd).
  unfold is_byte in *. apply wp_bind, wp_lift. change (index (t :: l :: d) 0) with (Ok t). cbn [owp].
  destruct (Z.eqb_spec t 0) as [->|Ht0].
  { apply wp_ret. split; [done|]. exists [0], (l :: d). split; [constructor|done]. }
  apply wp_bind, wp_lift. change (index (t :: l :: d) 1) with (Ok l). cbn [owp].
  destruct (Z.ltb_spec (len (t :: l :: d)) (l + 2)) as [Hlt|Hge]; [by apply wp_bind, wp_modify|]. rewrite !len_cons in Hge.
  destruct (cut_at d l ltac:(lia)) as (d1 & d2 & -> & H1 & H2). apply wp_bind, wp_lift.
  pose proof (slice_app [t; l] d1 d2 2 (l + 2) eq_refl) as Hs. cbn [app] in Hs. rewrite Hs by (change (len [t; l]) with 2; lia).
  cbn [owp]. apply wp_ret. split; [done|]. exists (t :: l :: d1), d2. rewrite <-H1. split; [by apply decoded_tlv|done].
Qed.

Lemma options_total fuel : ∀ pre rest actual i tr, is_bytes rest → (length rest < fuel)%nat → actual <= len (pre ++ rest) →
  wp (decode_options fuel (pre ++ rest) (len pre) actual)
    (fun _ s => ∃ os bs tail, decoded_options (actual - len pre) os bs ∧ rest = bs ++ tail ∧
       s = DState (mkOptionsHeader (ext i) (Options i ++ os)) tr) (fun _ _ => True) (DState i tr).
Proof.
  induction fuel as [|fuel IH]; intros pre rest actual i tr Hb Hf Ha; [lia|]. cbn [decode_options].
  destruct (Z.ltb_spec (len pre) actual) as [Hlt|Hge].
  2: { apply wp_ret. exists [], [], rest. split; [constructor; lia|]. rewrite app_nil_r. by destruct i. }
  apply wp_bind, wp_lift. rewrite slice_from_app by done. cbn [owp]. apply wp_bind.
  eapply wp_mono; [| |by apply one_option_total]; [|done]. intros o s (-> & bs & tail & Ho & ->).
  pose proof (decoded_option_length _ _ Ho) as [-> Hpos]. apply is_bytes_app in Hb as [_ Hb].
  apply wp_bind, wp_modify. cbn [dlayer dtruncated]. rewrite app_assoc, <-len_app.
  eapply wp_mono; [| |apply (IH (pre ++ bs) tail actual (append_option o i) tr); [done| |by rewrite <-app_assoc]]; [|done|].
  - intros _ s (os & bs' & tail' & Hos & -> & ->). exists (o :: os), (bs ++ bs'), tail'. split; [|split; [by rewrite <-app_assoc|]].
    + constructor; [lia|done|]. rewrite len_app in Hos. by replace (actual - len pre - len bs) with (actual - (len pre + len bs)) by lia.
    + cbn [append_option ext Options]. by rewrite <-app_assoc.
  - rewrite length_app in Hf. unfold len in Hpos. lia.
Qed.

(** An extension at the front of [data]: the options are what its bytes say. *)
Definition extension_of (data : bytes) (h : options_header) : Prop :=
  ∃ next hl bs tail, data = [next; hl] ++ bs ++ tail ∧ decoded_options (hl * 8 + 6) (Options h) bs ∧
    hl * 8 + 8 <= len data ∧
    ext h = mkExtension (mkBase (take (Z.to_nat (hl * 8 + 8)) data) (drop (Z.to_nat (hl * 8 + 8)) data)) next hl (hl * 8 + 8).

Lemma base_total {L} data (s : dstate L) : is_bytes data →
  wp (decodeIPv6ExtensionBase data) (fun e s' => s' = s ∧ ∃ next hl rest, data = next :: hl :: rest ∧ is_byte hl ∧ hl * 8 + 8 <= len data ∧
       e = mkExtension (mkBase (take (Z.to_nat (hl * 8 + 8)) data) (drop (Z.to_nat (hl * 8 + 8)) data)) next hl (hl * 8 + 8))
    (fun _ s' => dlayer s' = dlayer s) s.
Proof.
  intros Hb. unfold decodeIPv6ExtensionBase. destruct (Z.ltb_spec (len data) 2); [by apply wp_bind, wp_modify|].
  destruct data as [|t [|l d]]; try (unfold len in *; cbn in *; lia). rewrite !is_bytes_cons in Hb. destruct Hb as (Ht & Hl & Hd).
  apply wp_bind, wp_lift. change (index (t :: l :: d) 0) with (Ok t). cbn [owp]. apply wp_bind, wp_lift. change (index (t :: l :: d) 1) with (Ok l). cbn [owp].
  destruct (Z.ltb_spec (len (t :: l :: d)) (l * 8 + 8)) as [Hlt|Hge]; [done|]. unfold is_byte in Hl.
  apply wp_bind, wp_lift. rewrite slice_to_ok by lia. cbn [owp]. apply wp_bind, wp_lift. rewrite slice_from_ok by lia. cbn [owp].
  apply wp_ret. split; [done|]. exists t, l, d. done.
Qed.

Lemma wp_attempt {S A} (m : M S A) (Q : A + error → S → Prop) E s :
  wp m (fun a s' => Q (inl a) s') (fun e s' => Q (inr e) s') s → wp (attempt m) Q E s.
Proof. unfold wp, attempt. by destruct (m s) as [[] s']. Qed.

Lemma HopByHop_total data old tr : is_bytes data →
  wp (HopByHop_DecodeFromBytes data) (fun _ s => dtruncated s = tr ∧ extension_of data (dlayer s)) (fun _ _ => True) (DState old tr).
Proof.
  intros Hb. unfold HopByHop_DecodeFromBytes. apply wp_bind. unfold decode_base. apply wp_bind.
  apply wp_attempt. eapply wp_mono; [| |by apply base_total]; [|intros e s _; by apply wp_bind, wp_modify].
  intros e s (-> & next & hl & rest & -> & Hhl & Hlen & ->). unfold is_byte in Hhl.
  apply wp_modify, wp_bind, wp_modify, wp_bind, wp_gets. cbn [dlayer dtruncated set_ext set_Options ext ext_ActualLength Options].
  rewrite !is_bytes_cons in Hb. destruct Hb as (_ & _ & Hb).
  eapply wp_mono; [| |apply (options_total _ [next; hl] rest); [done|cbn; lia|done]]; [|done].
  intros _ s (os & bs & tail & Hos & -> & ->). split; [done|]. exists next, hl, bs, tail. split; [done|].
  split; [|split; [done|done]]. cbn [Options app]. change (len [next; hl]) with 2 in Hos. by replace (hl * 8 + 6) with (hl * 8 + 8 - 2) by lia.
Qed.

(** The payload that the lengths of a packet select of what is behind the header,
    and whether there is less than they say. *)
Definition selected (i : IPv6) (h : option IPv6HopByHop) (rest : bytes) : bytes * bool :=
  let select n r := (take (Z.to_nat n) r, n >? len r) in
  match h with
  | None => select (Length i) rest
  | Some h =>
      match getIPv6HopByHopJumboLength h with
      | Ok (l, true) => select l rest
      | _ => select (Length i) (drop (Z.to_nat (ext_ActualLength (ext h))) rest)
      end
  end.

Lemma jumbo_length_total h : match getIPv6HopByHopJumboLength h with
  | Ok (l, jumbo) => jumbo = true → 65535 < l
  | Err _ => True
  | _ => False
  end.
Proof.
  unfold getIPv6HopByHopJumboLength. destruct (List.find is_jumbo (Options h)) as [o|]; [|done].
  destruct (Z.eqb_spec (len (data_of o)) 4) as [E|E]; [|done]. cbn [negb].
  destruct (data_of o) as [|a [|b [|c [|d [|e l]]]]]; try (unfold len in E; cbn in E; lia). cbn [BE_Uint32 mbind outcome_bind].
  unfold ipv6MaxPayloadLength. destruct (Z.leb_spec (((a * 256 + b) * 256 + c) * 256 + d) 65535); [done|]. by intros _.
Qed.

Lemma wp_run_eq {S A} (m m' : M S A) (Q : A → S → Prop) E s s' : m s = m' s' → wp m' Q E s' → wp m Q E s.
Proof. unfold wp. by intros ->. Qed.

Lemma cut_to_Length_total i h p tr : header_ok i → Length i ≠ 0 →
  cut_to_Length (DState (set_base (mkBase (fixed_header i) p) (with_payload i h [])) tr) =
    (Ok tt, DState (with_payload i h (take (Z.to_nat (Length i)) p)) (tr || (Length i >? len p))).
Proof.
  intros Hok Hl. pose proof (ho_Length i Hok) as [? _]. unfold cut_to_Length. rewrite bind_eq. cbn [get_layer gets dlayer].
  change (Length (set_base _ _)) with (Length i). rewrite (proj2 (Z.eqb_neq _ _)) by done. by rewrite cut_payload_eq.
Qed.

(** Decoding any bytes as an IPv6 header ends and never panics, and
    fails only if there are fewer than 40 of them, the length field is zero, or the
    next header is a hop-by-hop extension; a decoded layer has the fields and the
    options that the bytes say and the payload that the lengths select, whatever
    the layer held before. *)
Theorem IPv6_decode_total data old tr : is_bytes data →
  wp (DecodeFromBytes data)
    (fun _ s => ∃ i h rest, header_ok i ∧ data = fixed_header i ++ rest ∧
       match h with
       | None => NextHeader i ≠ IPProtocolIPv6HopByHop ∧ Length i ≠ 0
       | Some h => NextHeader i = IPProtocolIPv6HopByHop ∧ extension_of rest h
       end ∧
       s = DState (with_payload i h (selected i h rest).1) (tr || (selected i h rest).2))
    (fun _ _ => len data < 40 ∨ ∃ i rest, data = fixed_header i ++ rest ∧ (Length i = 0 ∨ NextHeader i = IPProtocolIPv6HopByHop))
    (DState old tr).
Proof.
  intros Hb. destruct (Z.lt_ge_cases (len data) 40) as [Hlt|Hge].
  { unfold DecodeFromBytes. destruct (Z.ltb_spec (len data) 40); [|lia]. apply wp_bind, wp_modify. by left. }
  destruct (ip6_header_shape data Hb Hge) as (i & rest & Hok & ->). apply is_bytes_app in Hb as [_ Hb].
  pose proof (ho_Length i Hok) as [HL _]. eapply wp_run_eq; [by apply IPv6_decode_start|].
  destruct (Z.eqb_spec (NextHeader i) IPProtocolIPv6HopByHop) as [Hn|Hn].
  2: { destruct (Z.eq_dec (Length i) 0) as [E|E].
    - unfold cut_to_Length. apply wp_bind, wp_gets. cbn [dlayer]. change (Length (with_payload i None rest)) with (Length i).
      rewrite E. right. exists i, rest. auto.
    - eapply wp_of_eq; [apply (cut_to_Length_total i None rest tr Hok E)|]. exists i, None, rest. done. }
  assert (∀ e s, (fun (_ : error) (_ : dstate IPv6) => True) e s → len (fixed_header i ++ rest) < 40 ∨ ∃ i' rest', fixed_header i ++ rest = fixed_header i' ++ rest' ∧
       (Length i' = 0 ∨ NextHeader i' = IPProtocolIPv6HopByHop)) as HE by (intros _ _ _; right; exists i, rest; auto).
  eapply wp_mono; [intros a s Hs; exact Hs|exact HE|]. apply wp_bind.
  pose proof (HopByHop_total rest empty_options_header tr Hb) as Hh. unfold wp at 1, zoom. cbn [dtruncated dlayer].
  rewrite bind_eq. unfold wp in Hh. unfold IPv6HopByHop in *.
  destruct (HopByHop_DecodeFromBytes rest (DState empty_options_header tr)) as [[[]| | |] [h tr']]; try done.
  cbn [get_layer gets dlayer dtruncated] in *. destruct Hh as [-> Hh].
  apply wp_bind, wp_modify, wp_bind, wp_lift. cbn [dlayer dtruncated].
  pose proof (jumbo_length_total h) as Hj. destruct (getIPv6HopByHopJumboLength h) as [[l jumbo]| | |] eqn:Hg; try done. cbn [owp].
  destruct Hh as (next & hl & bs & tail & Hrest & Hos & Hlen & Hext). pose proof (len_nonneg rest).
  destruct jumbo; cbn [andb negb].
  - destruct (Z.eqb_spec (Length i) 0) as [E|E]; [|done]. cbn [negb]. specialize (Hj eq_refl).
    eapply wp_of_eq; [apply cut_payload_eq; lia|]. exists i, (Some h), rest. split; [done|]. split; [done|]. split.
    + split; [done|]. by exists next, hl, bs, tail.
    + unfold selected. rewrite Hg. done.
  - destruct (Z.eqb_spec (Length i) 0) as [E|E]; [done|]. apply wp_bind, wp_lift.
    assert (0 <= hl) as Hhl by (rewrite Hrest in Hb; cbn [app] in Hb; rewrite !is_bytes_cons in Hb; unfold is_byte in Hb; lia).
    rewrite Hext. cbn [ext_ActualLength]. rewrite slice_from_ok by lia. cbn [owp]. apply wp_bind, wp_modify. cbn [dlayer dtruncated].
    eapply wp_of_eq; [apply (cut_to_Length_total i (Some h)); done|]. exists i, (Some h), rest. split; [done|]. split; [done|]. split.
    + split; [done|]. by exists next, hl, bs, tail.
    + unfold selected. rewrite Hg, Hext. done.
Qed.

(** ** Examples, and what does not work *)

Definition sample_header (h : option IPv6HopByHop) : IPv6 :=
  mkIPv6 (mkBase [] []) 6 184 0xBEEF1 0 17 64 (replicate 16 1) (replicate 16 2) h.

Definition sample_extension (os : list ipv6HeaderTLVOption) : IPv6HopByHop :=
  mkOptionsHeader (mkExtension (mkBase [] []) 17 0 0) os.

(** An option of 4 bytes, and one that is to start at a multiple of four. *)
Definition sample_options : list ipv6HeaderTLVOption :=
  [mkTLV 0x3E 0 0 (Some [1; 2; 3]) (0, 0); mkTLV 0x1E 0 0 (Some [9; 9]) (4, 0)].

Lemma sample_header_ok h : header_ok (sample_header h).
Proof. split; cbn; unfold is_u8, is_u16, is_byte, len; cbn; lia. Qed.

Lemma IPv6_roundtrip_witness :
  let i := sample_header (Some (sample_extension sample_options)) in
  no_extension_yet (W := serializeBuffer) (sb_AppendBytes 3 NewSerializeBuffer).2 ∧
  ∃ w', SerializeTo (mkSerializeOptions true true) (i, (sb_AppendBytes 3 NewSerializeBuffer).2) = (Ok tt, (fixed i 19, w')) ∧
    len (Bytes w') = 59 ∧
    DecodeFromBytes (Bytes w') (DState empty_IPv6 false) =
      (Ok tt, DState (with_payload (fixed i 19) (Some (decoded_extension (sample_extension sample_options) [0; 0; 0])) [0; 0; 0]) true).
Proof.
  intros i. split; [reflexivity|].
  destruct (IPv6_roundtrip (mkSerializeOptions true true) i (sb_AppendBytes 3 NewSerializeBuffer).2 empty_IPv6 false)
    as (w' & Hs & _ & Hl & Hd).
  - reflexivity.
  - destruct (sb_Append_inv 0 0 NewSerializeBuffer 3 NewSerializeBuffer_inv ltac:(lia)) as (st & w' & E & Hw & _).
    rewrite E. cbn [snd]. by exists 0, 3.
  - reflexivity.
  - apply sample_header_ok.
  - split; [|repeat constructor]. split; [split; cbn; lia| |reflexivity|reflexivity].
    repeat constructor; cbn; unfold is_byte; try lia.
  - discriminate.
  - vm_compute. discriminate.
  - exists w'. split; [exact Hs|]. split; [exact Hl|]. exact Hd.
Defined.

(** A buffer that holds [n] bytes. *)
Definition filled (n : nat) : serializeBuffer := mkBuffer (replicate n 7) (Z.of_nat n) 0 (Z.of_nat n) 0 [].

Lemma filled_ok n : buf_inv (Z.of_nat n) 0 (filled n).
Proof. split; cbn [filled sb_prepended sb_start sb_len sb_appended sb_arr]; rewrite ?len_replicate; lia. Qed.

Lemma sample_jumbo_ok : extension_ok (with_jumbo (own_extension (sample_header None)) 0).
Proof.
  split; [split; cbn; lia| |reflexivity|reflexivity].
  constructor; [|constructor]. split; [done| |done]. split; [apply be32_bytes|reflexivity].
Qed.

Lemma IPv6_jumbo_roundtrip_witness :
  let i := sample_header None in let h := own_extension i in let w := filled (Z.to_nat 65536) in
  ∃ w', SerializeTo (mkSerializeOptions true true) (i, w) = (Ok tt, (jumbo_fixed i, w')) ∧ len (Bytes w') = 65584 ∧
    DecodeFromBytes (Bytes w') (DState empty_IPv6 false) = (Ok tt,
      DState (with_payload (jumbo_fixed i) (Some (decoded_extension (with_jumbo h 65544) (Bytes w)))
        (extension_bytes (with_jumbo h 65544) ++ Bytes w)) false).
Proof.
  intros i h w. assert (len (Bytes w) = 65536) as Hl.
  { etrans; [exact (sb_Bytes_len _ _ _ (filled_ok (Z.to_nat 65536)))|]. rewrite Z2Nat.id by (intros E; discriminate E). reflexivity. }
  pose proof (IPv6_jumbo_roundtrip (mkSerializeOptions true true) i w empty_IPv6 false) as H. rewrite Hl in H.
  change (len (extension_bytes (with_jumbo (own_extension i) 0)) + 65536) with 65544 in H. fold h in H.
  destruct H as (w' & Hs & _ & HL & Hd).
  - reflexivity.
  - exists 65536, 0. exact (filled_ok (Z.to_nat 65536)).
  - reflexivity.
  - apply sample_header_ok.
  - constructor.
  - exact sample_jumbo_ok.
  - reflexivity.
  - lia.
  - split; [discriminate|reflexivity].
  - exists w'. auto.
Defined.

Definition sample_packet : bytes := fixed_header (set_Length 2 (sample_header None)) ++ [1; 2; 3].

Lemma IPv6_decode_total_witness : ∃ i h rest,
  sample_packet = fixed_header i ++ rest ∧
  DecodeFromBytes sample_packet (DState empty_IPv6 false) =
    (Ok tt, DState (with_payload i h (selected i h rest).1) (selected i h rest).2).
Proof.
  assert (is_bytes sample_packet) as Hb by (let x := eval vm_compute in sample_packet in change (is_bytes x); unfold is_bytes; solve_Forall).
  pose proof (IPv6_decode_total sample_packet empty_IPv6 false Hb) as H. unfold wp in H.
  destruct (DecodeFromBytes _ _) as [[[]|e|c|] s] eqn:Hd; try (vm_compute in Hd; discriminate Hd).
  destruct H as (i & h & rest & _ & Hi & _ & ->). by exists i, h, rest.
Defined.

(** The padding at the end is computed as the remainder and not as what is missing
    to a multiple of eight: a router alert, which needs two bytes of padding, gets
    six, and the extension is refused; so is an extension without options. *)
Definition extension_error (opts : list ipv6HeaderTLVOption) : option error :=
  match HopByHop_SerializeTo (mkSerializeOptions true true) (sample_extension opts, NewSerializeBuffer) with
  | (Err e, _) => Some e
  | _ => None
  end.

Lemma router_alert_refused :
  extension_error [mkTLV 5 2 0 (Some [0; 0]) (0, 0)] = Some (errors_New "IPv6HopByHop actual length must be multiple of 8") ∧
  extension_error [] = Some (errors_New "IPv6HopByHop actual length must be multiple of 8").
Proof. split; vm_compute; reflexivity. Qed.

(** Decoding makes one byte of padding an option of its own, which is serialized as
    two bytes. *)
Lemma pad1_grows : TLV_serializeTo pad1 [7; 7] true false = Ok (pad1, [0; 0], 2).
Proof. reflexivity. Qed.

(** Without anything behind the extension, padding of one byte at its end is an error. *)
Lemma last_pad1_refused :
  (HopByHop_DecodeFromBytes [17; 0; 1; 3; 0; 0; 0; 0] (DState empty_options_header false)).1 =
    Err (errors_New "IPv6 header option too small") ∧
  (HopByHop_DecodeFromBytes [17; 0; 1; 3; 0; 0; 0; 0; 9] (DState empty_options_header false)).1 = Ok tt.
Proof. split; vm_compute; reflexivity. Qed.

(** An option may run beyond its extension, into the payload. *)
Lemma option_beyond_extension :
  (Options (dlayer (HopByHop_DecodeFromBytes [17; 0; 1; 6; 0; 0; 0; 0; 8; 9] (DState empty_options_header false)).2)) =
    [tlv 1 [0; 0; 0; 0; 8; 9]].
Proof. vm_compute. reflexivity. Qed.

(** A packet with nothing behind its header is refused. *)
Lemma empty_packet_refused i old tr : header_ok i → NextHeader i ≠ IPProtocolIPv6HopByHop → Length i = 0 →
  (DecodeFromBytes (fixed_header i) (DState old tr)).1 =
    Err (Errorf "IPv6 length 0, but next header is %v, not HopByHop" [NextHeader i]).
Proof.
  intros Hok Hn Hl. rewrite <-(app_nil_r (fixed_header i)), IPv6_decode_start by done.
  rewrite (proj2 (Z.eqb_neq _ _)) by done. unfold cut_to_Length. rewrite bind_eq. cbn [get_layer gets dlayer].
  change (Length (with_payload i None [])) with (Length i). by rewrite Hl.
Qed.

(** Decoding into a destination extension keeps the options of the packet before. *)
Lemma destination_options_pile_up h p old tr : extension_ok h →
  Options (dlayer (Destination_DecodeFromBytes (extension_bytes h ++ p) (DState old tr)).2) = Options old ++ laid_out (Options h).
Proof. intros Hok. by rewrite Destination_decoded. Qed.
