(* ===== verification/LinkLayers.v ===== *)
(** * Layers next to the link ([layers/arp.go], [dot1q.go], [loopback.go], [llc.go],
    [ppp.go], [pppoe.go], [mpls.go], [ctp.go], [fddi.go], [linux_sll.go])

    Each module has the layer, how it is decoded and, where the source has it, how
    it is serialized. Functions that build their layer from the bytes and hand it
    to the builder are [parse] here; [Decoders] hands the layer on. A slice has no
    capacity beyond its length, as everywhere in the development: where these
    functions do not check the length, data with spare capacity would be read on
    instead. *)

From S2P Require Import Prelude SerializeBuffer LayerClasses Flows BaseLayers Enums.

(** Bytes that are read as a number. *)
Definition be16_at (data : bytes) (i : Z) : outcome Z := slice data i (i + 2) ≫= BE_Uint16.
Definition be32_at (data : bytes) (i : Z) : outcome Z := slice data i (i + 4) ≫= BE_Uint32.

(** ** ARP ([layers/arp.go]) *)

Module Arp.
Definition ARPRequest : Z := 1.
Definition ARPReply : Z := 2.

Record ARP : Type := mkARP {
  base : BaseLayer;
  AddrType : Z;
  Protocol : Z;
  HwAddressSize : Z;
  ProtAddressSize : Z;
  Operation : Z;
  SourceHwAddress : bytes;
  SourceProtAddress : bytes;
  DstHwAddress : bytes;
  DstProtAddress : bytes;
}.

Definition empty_ARP : ARP := mkARP (mkBase [] []) 0 0 0 0 0 [] [] [] [].

Definition set_fields (at_ proto hw prot op : Z) (a : ARP) : ARP :=
  mkARP (base a) at_ proto hw prot op (SourceHwAddress a) (SourceProtAddress a) (DstHwAddress a) (DstProtAddress a).
Definition set_sizes (hw prot : Z) (a : ARP) : ARP :=
  mkARP (base a) (AddrType a) (Protocol a) hw prot (Operation a) (SourceHwAddress a) (SourceProtAddress a)
    (DstHwAddress a) (DstProtAddress a).
Definition set_addresses (b : BaseLayer) (shw sp dhw dp : bytes) (a : ARP) : ARP :=
  mkARP b (AddrType a) (Protocol a) (HwAddressSize a) (ProtAddressSize a) (Operation a) shw sp dhw dp.

(** [LinkType] is a [uint8], and so are all sizes and offsets. *)
Definition DecodeFromBytes (data : bytes) : M (dstate ARP) unit :=
  if len data <? 8 then
    _ ← SetTruncated;
    throw (Errorf "ARP length %d too short" [len data])
  else
    at_ ← lift (be16_at data 0);
    proto ← lift (be16_at data 2);
    hw ← lift (index data 4);
    prot ← lift (index data 5);
    op ← lift (be16_at data 6);
    _ ← modify_layer (set_fields (u8 at_) proto hw prot op);
    let arpLength := u8 (u8 (8 + u8 (2 * hw)) + u8 (2 * prot)) in
    if len data <? arpLength then
      _ ← SetTruncated;
      throw (Errorf "ARP length %d too short, %d expected" [len data; arpLength])
    else
      let o1 := u8 (8 + hw) in
      let o2 := u8 (o1 + prot) in
      let o3 := u8 (u8 (8 + u8 (2 * hw)) + prot) in
      shw ← lift (slice data 8 o1);
      sp ← lift (slice data o1 o2);
      dhw ← lift (slice data o2 o3);
      dp ← lift (slice data o3 arpLength);
      contents ← lift (slice_to data arpLength);
      payload ← lift (slice_from data arpLength);
      modify_layer (set_addresses (mkBase contents payload) shw sp dhw dp).

Definition SerializeTo {W} `{SerializeBuffer W} (opts : SerializeOptions) : M (ARP * W) unit :=
  a ← get_fields;
  bytes ← prepend (8 + len (SourceHwAddress a) + len (SourceProtAddress a) + len (DstHwAddress a) + len (DstProtAddress a));
  _ ← (if FixLengths opts then
         if negb (len (SourceHwAddress a) =? len (DstHwAddress a)) then throw (errors_New "mismatched hardware address sizes")
         else
           _ ← put_fields (set_sizes (u8 (len (SourceHwAddress a))) (ProtAddressSize a) a);
           if negb (len (SourceProtAddress a) =? len (DstProtAddress a)) then throw (errors_New "mismatched prot address sizes")
           else put_fields (set_sizes (u8 (len (SourceHwAddress a))) (u8 (len (SourceProtAddress a))) a)
       else mret tt);
  a ← get_fields;
  bytes ← lift (BE_PutUint16 bytes 0 (AddrType a));
  bytes ← lift (BE_PutUint16 bytes 2 (Protocol a));
  bytes ← lift (set_index bytes 4 (HwAddressSize a));
  bytes ← lift (set_index bytes 5 (ProtAddressSize a));
  bytes ← lift (BE_PutUint16 bytes 6 (Operation a));
  bytes ← lift (copy_from bytes 8 (SourceHwAddress a));
  let start := 8 + len (SourceHwAddress a) in
  bytes ← lift (copy_from bytes start (SourceProtAddress a));
  let start := start + len (SourceProtAddress a) in
  bytes ← lift (copy_from bytes start (DstHwAddress a));
  let start := start + len (DstHwAddress a) in
  bytes ← lift (copy_from bytes start (DstProtAddress a));
  sync bytes.

Definition CanDecode : list LayerType := [LayerTypeARP].
Definition NextLayerType (a : ARP) : LayerType := LayerTypePayload.
End Arp.

(** ** VLAN tags ([layers/dot1q.go]) *)

Module Dot1Q.
Record Dot1Q : Type := mkDot1Q {
  base : BaseLayer;
  Priority : Z;
  DropEligible : bool;
  VLANIdentifier : Z;
  Type_ : Z;
}.

Definition empty_Dot1Q : Dot1Q := mkDot1Q (mkBase [] []) 0 false 0 0.

Definition decode_header (data : bytes) : outcome Dot1Q :=
  b0 ← index data 0;
  w ← slice_to data 2 ≫= BE_Uint16;
  t ← be16_at data 2;
  contents ← slice_to data 4;
  payload ← slice_from data 4;
  mret (mkDot1Q (mkBase contents payload) (Z.shiftr (Z.land b0 0xE0) 5) (has_bits b0 0x10) (Z.land w 0x0FFF) t).

Definition DecodeFromBytes (data : bytes) : M (dstate Dot1Q) unit :=
  if len data <? 4 then
    _ ← SetTruncated;
    throw (Errorf "802.1Q tag length %d too short" [len data])
  else
    d ← lift (decode_header data);
    put_layer d.

Definition SerializeTo {W} `{SerializeBuffer W} (opts : SerializeOptions) : M (Dot1Q * W) unit :=
  d ← get_fields;
  bytes ← prepend 4;
  if VLANIdentifier d >? 0xFFF then throw (Errorf "vlan identifier %v is too high" [VLANIdentifier d])
  else
    let firstBytes := Z.lor (u16 (Z.shiftl (Priority d) 13)) (VLANIdentifier d) in
    let firstBytes := if DropEligible d then Z.lor firstBytes 0x1000 else firstBytes in
    bytes ← lift (BE_PutUint16 bytes 0 firstBytes);
    bytes ← lift (BE_PutUint16 bytes 2 (u16 (Type_ d)));
    sync bytes.

Definition CanDecode : list LayerType := [LayerTypeDot1Q].
Definition NextLayerType (md : metadata) (d : Dot1Q) : LayerType := enum_LayerType md EthernetTypeEnum (Type_ d).
End Dot1Q.

(** ** Loopback ([layers/loopback.go]) *)

Module Loopback.
Record Loopback : Type := mkLoopback { base : BaseLayer; Family : Z }.

Definition empty_Loopback : Loopback := mkLoopback (mkBase [] []) 0.

Definition DecodeFromBytes (data : bytes) : M (dstate Loopback) unit :=
  if len data <? 4 then throw (errors_New "Loopback packet too small")
  else
    b0 ← lift (index data 0);
    b1 ← lift (index data 1);
    prot ← lift (if (b0 =? 0) && (b1 =? 0) then slice_to data 4 ≫= BE_Uint32 else slice_to data 4 ≫= LE_Uint32);
    if prot >? 0xFF then
      d ← lift (slice_to data 4);
      throw (Errorf "Invalid loopback protocol %q" d)
    else
      contents ← lift (slice_to data 4);
      payload ← lift (slice_from data 4);
      put_layer (mkLoopback (mkBase contents payload) (u8 prot)).

Definition SerializeTo {W} `{SerializeBuffer W} (opts : SerializeOptions) : M (Loopback * W) unit :=
  l ← get_fields;
  bytes ← prepend 4;
  bytes ← lift (LE_PutUint32 bytes 0 (Family l));
  sync bytes.

Definition CanDecode : list LayerType := [LayerTypeLoopback].
Definition NextLayerType (md : metadata) (l : Loopback) : LayerType := enum_LayerType md ProtocolFamilyEnum (Family l).
End Loopback.

(** ** Logical link control ([layers/llc.go]) *)

Module Llc.
Record LLC : Type := mkLLC {
  base : BaseLayer;
  DSAP : Z;
  IG : bool;
  SSAP : Z;
  CR : bool;
  Control : Z;
}.

Definition empty_LLC : LLC := mkLLC (mkBase [] []) 0 false 0 false 0.

Definition set_header (dsap : Z) (ig : bool) (ssap : Z) (cr : bool) (c : Z) (l : LLC) : LLC := mkLLC (base l) dsap ig ssap cr c.
Definition set_Control (c : Z) (b : BaseLayer) (l : LLC) : LLC := mkLLC b (DSAP l) (IG l) (SSAP l) (CR l) c.

(** Control fields of two bytes. *)
Definition long_control (c : Z) : bool := (Z.land c 0x1 =? 0) || (Z.land c 0x3 =? 0x1).

Definition DecodeFromBytes (data : bytes) : M (dstate LLC) unit :=
  if len data <? 3 then throw (errors_New "LLC header too small")
  else
    b0 ← lift (index data 0);
    b1 ← lift (index data 1);
    c ← lift (index data 2);
    _ ← modify_layer (set_header (Z.land b0 0xFE) (has_bits b0 0x1) (Z.land b1 0xFE) (has_bits b1 0x1) c);
    if long_control c then
      if len data <? 4 then throw (errors_New "LLC header too small")
      else
        b3 ← lift (index data 3);
        contents ← lift (slice_to data 4);
        payload ← lift (slice_from data 4);
        modify_layer (set_Control (Z.lor (u16 (Z.shiftl c 8)) b3) (mkBase contents payload))
    else
      contents ← lift (slice_to data 3);
      payload ← lift (slice_from data 3);
      modify_layer (set_Control c (mkBase contents payload)).

Definition SerializeTo {W} `{SerializeBuffer W} (opts : SerializeOptions) : M (LLC * W) unit :=
  l ← get_fields;
  let length := if negb (Z.land (Control l) 0xFF00 =? 0) then 4 else 3 in
  if has_bits (DSAP l) 0x1 then throw (errors_New "DSAP value invalid, should not include IG flag bit")
  else if has_bits (SSAP l) 0x1 then throw (errors_New "SSAP value invalid, should not include CR flag bit")
  else
    buf ← prepend length;
    buf ← lift (set_index buf 0 (u8 (DSAP l + b2z (IG l))));
    buf ← lift (set_index buf 1 (u8 (SSAP l + b2z (CR l))));
    buf ← lift (if length =? 4 then
                  buf ← set_index buf 2 (u8 (Z.shiftr (Control l) 8));
                  set_index buf 3 (u8 (Control l))
                else set_index buf 2 (u8 (Control l)));
    sync buf.

Definition CanDecode : list LayerType := [LayerTypeLLC].
Definition NextLayerType (l : LLC) : LayerType :=
  if (DSAP l =? 0xAA) && (SSAP l =? 0xAA) then LayerTypeSNAP
  else if (DSAP l =? 0x42) && (SSAP l =? 0x42) then LayerTypeSTP
  else LayerTypeZero.
End Llc.

Module Snap.
Record SNAP : Type := mkSNAP { base : BaseLayer; OrganizationalCode : bytes; Type_ : Z }.

Definition empty_SNAP : SNAP := mkSNAP (mkBase [] []) [] 0.

Definition DecodeFromBytes (data : bytes) : M (dstate SNAP) unit :=
  if len data <? 5 then throw (errors_New "SNAP header too small")
  else
    code ← lift (slice_to data 3);
    t ← lift (be16_at data 3);
    contents ← lift (slice_to data 5);
    payload ← lift (slice_from data 5);
    put_layer (mkSNAP (mkBase contents payload) code t).

Definition SerializeTo {W} `{SerializeBuffer W} (opts : SerializeOptions) : M (SNAP * W) unit :=
  s ← get_fields;
  buf ← prepend 5;
  c0 ← lift (index (OrganizationalCode s) 0);
  buf ← lift (set_index buf 0 c0);
  c1 ← lift (index (OrganizationalCode s) 1);
  buf ← lift (set_index buf 1 c1);
  c2 ← lift (index (OrganizationalCode s) 2);
  buf ← lift (set_index buf 2 c2);
  buf ← lift (BE_PutUint16 buf 3 (u16 (Type_ s)));
  sync buf.

Definition CanDecode : list LayerType := [LayerTypeSNAP].
Definition NextLayerType (md : metadata) (s : SNAP) : LayerType := enum_LayerType md EthernetTypeEnum (Type_ s).
End Snap.

(** ** PPP ([layers/ppp.go]) and PPPoE ([layers/pppoe.go]) *)

Module Ppp.
Record PPP : Type := mkPPP { base : BaseLayer; PPPType : Z; HasPPTPHeader : bool }.

(** [decodePPP], up to the builder. *)
Definition parse {L} (data : bytes) : M (dstate L) PPP :=
  b0 ← lift (index data 0);
  pptp ← lift (if b0 =? 0xff then b1 ← index data 1; mret (b1 =? 0x03) else mret false);
  let offset := if pptp : bool then 2 else 0 in
  b ← lift (index data offset);
  if Z.land b 0x1 =? 0 then
    b' ← lift (index data (offset + 1));
    if Z.land b' 0x1 =? 0 then throw (errors_New "PPP has invalid type")
    else
      t ← lift (be16_at data offset);
      contents ← lift (slice data offset (offset + 2));
      payload ← lift (slice_from data (offset + 2));
      mret (mkPPP (mkBase contents payload) t pptp)
  else
    contents ← lift (slice data offset (offset + 1));
    payload ← lift (slice_from data (offset + 1));
    mret (mkPPP (mkBase contents payload) b pptp).

Definition SerializeTo {W} `{SerializeBuffer W} (opts : SerializeOptions) : M (PPP * W) unit :=
  p ← get_fields;
  _ ← (if Z.land (PPPType p) 0x100 =? 0 then
         bytes ← prepend 2;
         bytes ← lift (BE_PutUint16 bytes 0 (PPPType p));
         sync bytes
       else
         bytes ← prepend 1;
         bytes ← lift (set_index bytes 0 (u8 (PPPType p)));
         sync bytes);
  if HasPPTPHeader p then
    bytes ← prepend 2;
    bytes ← lift (set_index bytes 0 0xff);
    bytes ← lift (set_index bytes 1 0x03);
    sync bytes
  else mret tt.
End Ppp.

Module Pppoe.
Record PPPoE : Type := mkPPPoE {
  base : BaseLayer;
  Version : Z;
  Type_ : Z;
  Code : Z;
  SessionId : Z;
  Length : Z;
}.

Definition set_Length (v : Z) (p : PPPoE) : PPPoE := mkPPPoE (base p) (Version p) (Type_ p) (Code p) (SessionId p) v.

(** [decodePPPoE], up to the builder; the end of the payload is a [uint16]. *)
Definition parse {L} (data : bytes) : M (dstate L) PPPoE :=
  b0 ← lift (index data 0);
  code ← lift (index data 1);
  id ← lift (be16_at data 2);
  length ← lift (be16_at data 4);
  contents ← lift (slice_to data 6);
  payload ← lift (slice data 6 (u16 (6 + length)));
  mret (mkPPPoE (mkBase contents payload) (Z.shiftr b0 4) (Z.land b0 0x0F) code id length).

Definition SerializeTo {W} `{SerializeBuffer W} (opts : SerializeOptions) : M (PPPoE * W) unit :=
  p ← get_fields;
  payload ← buffer_Bytes;
  bytes ← prepend 6;
  bytes ← lift (set_index bytes 0 (Z.lor (u8 (Z.shiftl (Version p) 4)) (Type_ p)));
  bytes ← lift (set_index bytes 1 (Code p));
  bytes ← lift (BE_PutUint16 bytes 2 (SessionId p));
  let p := if FixLengths opts then set_Length (u16 (len payload)) p else p in
  _ ← put_fields p;
  bytes ← lift (BE_PutUint16 bytes 4 (Length p));
  sync bytes.
End Pppoe.

(** ** MPLS ([layers/mpls.go]) *)

Module Mpls.
Record MPLS : Type := mkMPLS {
  base : BaseLayer;
  Label : Z;
  TrafficClass : Z;
  StackBottom : bool;
  TTL : Z;
}.

(** [decodeMPLS], up to the builder. *)
Definition parse {L} (data : bytes) : M (dstate L) MPLS :=
  decoded ← lift (slice_to data 4 ≫= BE_Uint32);
  contents ← lift (slice_to data 4);
  payload ← lift (slice_from data 4);
  mret (mkMPLS (mkBase contents payload) (Z.shiftr decoded 12) (Z.land (u8 (Z.shiftr decoded 9)) 0x7)
    (has_bits decoded 0x100) (u8 decoded)).

Definition SerializeTo {W} `{SerializeBuffer W} (opts : SerializeOptions) : M (MPLS * W) unit :=
  m ← get_fields;
  bytes ← prepend 4;
  let encoded := u32 (Z.shiftl (Label m) 12) in
  let encoded := Z.lor encoded (u32 (Z.shiftl (TrafficClass m) 9)) in
  let encoded := Z.lor encoded (TTL m) in
  let encoded := if StackBottom m then Z.lor encoded 0x100 else encoded in
  bytes ← lift (BE_PutUint32 bytes 0 encoded);
  sync bytes.

(** What [ProtocolGuessingDecoder] makes of the first byte. *)
Definition guess (data : bytes) : outcome decode_func :=
  b ← index data 0;
  if (0x45 <=? b) && (b <=? 0x4f) then mret F_decodeIPv4
  else if (0x60 <=? b) && (b <=? 0x6f) then mret F_decodeIPv6
  else Err (errors_New "Unable to guess protocol of packet data").
End Mpls.

(** ** The configuration test protocol ([layers/ctp.go]) *)

Module Ctp.
Record EthernetCTP : Type := mkCTP { base : BaseLayer; SkipCount : Z }.
Record EthernetCTPForwardData : Type := mkForward { fw_base : BaseLayer; fw_Function : Z; ForwardAddress : bytes }.
Record EthernetCTPReply : Type := mkReply { re_base : BaseLayer; re_Function : Z; ReceiptNumber : Z; re_Data : bytes }.

Definition EthernetCTPFunctionReply : Z := 1.
Definition EthernetCTPFunctionForwardData : Z := 2.

(** [decodeEthernetCTP], up to the builder. *)
Definition parse {L} (data : bytes) : M (dstate L) EthernetCTP :=
  skip ← lift (slice_to data 2 ≫= LE_Uint16);
  contents ← lift (slice_to data 2);
  payload ← lift (slice_from data 2);
  if negb (skip mod 2 =? 0) then throw (Errorf "EthernetCTP skip count is odd: %d" [skip])
  else mret (mkCTP (mkBase contents payload) skip).

(** [decodeEthernetCTPFromFunctionType], up to the builder. *)
Definition parse_function {L} (data : bytes) : M (dstate L) (EthernetCTPReply + EthernetCTPForwardData) :=
  function ← lift (slice_to data 2 ≫= LE_Uint16);
  if function =? EthernetCTPFunctionReply then
    receipt ← lift (slice data 2 4 ≫= LE_Uint16);
    d ← lift (slice_from data 4);
    mret (inl (mkReply (mkBase data []) function receipt d))
  else if function =? EthernetCTPFunctionForwardData then
    addr ← lift (slice data 2 8);
    contents ← lift (slice_to data 8);
    payload ← lift (slice_from data 8);
    mret (inr (mkForward (mkBase contents payload) function addr))
  else throw (Errorf "Unknown EthernetCTP function type %v" [function]).
End Ctp.

(** ** FDDI ([layers/fddi.go]) *)

Module Fddi.
Record FDDI : Type := mkFDDI { base : BaseLayer; FrameControl : Z; Priority : Z; SrcMAC : bytes; DstMAC : bytes }.

Definition LinkFlow (f : FDDI) : outcome Flow := NewFlow EndpointMAC (SrcMAC f) (DstMAC f).

(** [decodeFDDI], up to the builder. *)
Definition parse {L} (data : bytes) : M (dstate L) FDDI :=
  b0 ← lift (index data 0);
  src ← lift (slice data 1 7);
  dst ← lift (slice data 7 13);
  contents ← lift (slice_to data 13);
  payload ← lift (slice_from data 13);
  mret (mkFDDI (mkBase contents payload) (Z.land b0 0xF8) (Z.land b0 0x07) src dst).
End Fddi.

(** ** Linux cooked captures ([layers/linux_sll.go]) *)

Module LinuxSll.
Record LinuxSLL : Type := mkSLL {
  base : BaseLayer;
  PacketType : Z;
  AddrLen : Z;
  Addr : bytes;
  EthernetType : Z;
  AddrType : Z;
}.

Definition empty_SLL : LinuxSLL := mkSLL (mkBase [] []) 0 0 [] 0 0.

Definition set_header (pt al at_ : Z) (s : LinuxSLL) : LinuxSLL := mkSLL (base s) pt al (Addr s) (EthernetType s) at_.
Definition set_rest (b : BaseLayer) (addr : bytes) (t : Z) (s : LinuxSLL) : LinuxSLL :=
  mkSLL b (PacketType s) (AddrLen s) addr t (AddrType s).

(** The end of the address is a [uint16]. *)
Definition DecodeFromBytes (data : bytes) : M (dstate LinuxSLL) unit :=
  if len data <? 16 then throw (errors_New "Linux SLL packet too small")
  else
    pt ← lift (be16_at data 0);
    at_ ← lift (be16_at data 2);
    al ← lift (be16_at data 4);
    _ ← modify_layer (set_header pt al at_);
    addr ← lift (slice data 6 (u16 (al + 6)));
    t ← lift (be16_at data 14);
    contents ← lift (slice_to data 16);
    payload ← lift (slice_from data 16);
    modify_layer (set_rest (mkBase contents payload) addr t).

Definition CanDecode : list LayerType := [LayerTypeLinuxSLL].
Definition NextLayerType (md : metadata) (s : LinuxSLL) : LayerType := enum_LayerType md EthernetTypeEnum (EthernetType s).
Definition LinkFlow (s : LinuxSLL) : outcome Flow := NewFlow EndpointMAC (Addr s) [].
End LinuxSll.
