(* ===== verification/TunnelLayers.v ===== *)
(** * Layers that carry packets in packets ([layers/gre.go], [vxlan.go], [geneve.go],
    [etherip.go], [erspan2.go], [gtp.go], [ipsec.go])

    As in [LinkLayers], a module for each layer. *)

From S2P Require Import Prelude SerializeBuffer LayerClasses Flows BaseLayers Enums Checksum Ip6 LinkLayers.

(** [buf[i] |= v] *)
Definition or_index (buf : bytes) (i v : Z) : outcome bytes :=
  b ← index buf i;
  set_index buf i (Z.lor b v).

(** [if c { buf[i] |= v }] *)
Definition or_if (c : bool) (i v : Z) (buf : bytes) : outcome bytes := if c then or_index buf i v else mret buf.

(** ** GRE ([layers/gre.go]) *)

Module Gre.
Record GRERouting : Type := mkSRE {
  AddressFamily : Z;
  SREOffset : Z;
  SRELength : Z;
  RoutingInformation : bytes;
}.

(** The list of routing entries that the embedded pointer starts is a list. *)
Record GRE : Type := mkGRE {
  base : BaseLayer;
  ChecksumPresent : bool; RoutingPresent : bool; KeyPresent : bool;
  SeqPresent : bool; StrictSourceRoute : bool; AckPresent : bool;
  RecursionControl : Z; Flags : Z; Version : Z;
  Protocol : Z;
  Checksum : Z; Offset : Z;
  Key : Z; Seq : Z; Ack : Z;
  Routing : list GRERouting;
}.

Definition empty_GRE : GRE :=
  mkGRE (mkBase [] []) false false false false false false 0 0 0 0 0 0 0 0 0 [].

Definition set_flags (b0 b1 proto : Z) (g : GRE) : GRE :=
  mkGRE (base g) (has_bits b0 0x80) (has_bits b0 0x40) (has_bits b0 0x20) (has_bits b0 0x10) (has_bits b0 0x08)
    (has_bits b1 0x80) (Z.land b0 0x7) (Z.shiftr b1 3) (Z.land b1 0x7) proto (Checksum g) (Offset g) (Key g) (Seq g) (Ack g) (Routing g).
Definition set_checksum (c o : Z) (g : GRE) : GRE :=
  mkGRE (base g) (ChecksumPresent g) (RoutingPresent g) (KeyPresent g) (SeqPresent g) (StrictSourceRoute g) (AckPresent g)
    (RecursionControl g) (Flags g) (Version g) (Protocol g) c o (Key g) (Seq g) (Ack g) (Routing g).
Definition set_numbers (k s a : Z) (g : GRE) : GRE :=
  mkGRE (base g) (ChecksumPresent g) (RoutingPresent g) (KeyPresent g) (SeqPresent g) (StrictSourceRoute g) (AckPresent g)
    (RecursionControl g) (Flags g) (Version g) (Protocol g) (Checksum g) (Offset g) k s a (Routing g).
Definition set_Routing (r : list GRERouting) (g : GRE) : GRE :=
  mkGRE (base g) (ChecksumPresent g) (RoutingPresent g) (KeyPresent g) (SeqPresent g) (StrictSourceRoute g) (AckPresent g)
    (RecursionControl g) (Flags g) (Version g) (Protocol g) (Checksum g) (Offset g) (Key g) (Seq g) (Ack g) r.
Definition set_base (b : BaseLayer) (g : GRE) : GRE :=
  mkGRE b (ChecksumPresent g) (RoutingPresent g) (KeyPresent g) (SeqPresent g) (StrictSourceRoute g) (AckPresent g)
    (RecursionControl g) (Flags g) (Version g) (Protocol g) (Checksum g) (Offset g) (Key g) (Seq g) (Ack g) (Routing g).

(** The loop over the entries, each of at least four bytes: those before the
    empty one, and the offset behind it. *)
Fixpoint routing_entries (fuel : nat) (data : bytes) (offset : Z) : outcome (list GRERouting * Z) :=
  match fuel with
  | O => NoFuel
  | S fuel =>
      family ← be16_at data offset;
      off ← index data (offset + 2);
      length ← index data (offset + 3);
      info ← slice data (offset + 4) (offset + 4 + length);
      let offset := offset + (4 + length) in
      if (family =? 0) && (length =? 0) then mret ([], offset)
      else
        r ← routing_entries fuel data offset;
        mret (mkSRE family off length info :: r.1, r.2)
  end.

(** Nothing of this checks the length of the data. *)
Definition DecodeFromBytes (data : bytes) : M (dstate GRE) unit :=
  b0 ← lift (index data 0);
  b1 ← lift (index data 1);
  proto ← lift (be16_at data 2);
  _ ← modify_layer (set_flags b0 b1 proto);
  g ← get_layer;
  offset ← (if ChecksumPresent g || RoutingPresent g then
              c ← lift (be16_at data 4);
              o ← lift (be16_at data 6);
              _ ← modify_layer (set_checksum c o);
              mret 8
            else mret 4);
  offset ← (if KeyPresent g then
              k ← lift (be32_at data offset);
              _ ← modify_layer (fun g => set_numbers k (Seq g) (Ack g) g);
              mret (offset + 4)
            else mret offset);
  offset ← (if SeqPresent g then
              s ← lift (be32_at data offset);
              _ ← modify_layer (fun g => set_numbers (Key g) s (Ack g) g);
              mret (offset + 4)
            else mret offset);
  offset ← (if RoutingPresent g then
              r ← lift (routing_entries (S (length data)) data offset);
              _ ← (match r.1 with [] => mret tt | rs => modify_layer (set_Routing rs) end);
              mret r.2
            else mret offset);
  offset ← (if AckPresent g then
              a ← lift (be32_at data offset);
              _ ← modify_layer (fun g => set_numbers (Key g) (Seq g) a g);
              mret (offset + 4)
            else mret offset);
  contents ← lift (slice_to data offset);
  payload ← lift (slice_from data offset);
  modify_layer (set_base (mkBase contents payload)).

Definition size (g : GRE) : Z :=
  4 + (if ChecksumPresent g || RoutingPresent g then 4 else 0) + (if KeyPresent g then 4 else 0) +
  (if SeqPresent g then 4 else 0) +
  (if RoutingPresent g then foldr (fun r n => 4 + SRELength r + n) 0 (Routing g) + 4 else 0) +
  (if AckPresent g then 4 else 0).

Definition put_flags (g : GRE) (buf : bytes) : outcome bytes :=
  buf ← set_index buf 0 0;
  buf ← set_index buf 1 0;
  buf ← or_if (ChecksumPresent g) 0 0x80 buf;
  buf ← or_if (RoutingPresent g) 0 0x40 buf;
  buf ← or_if (KeyPresent g) 0 0x20 buf;
  buf ← or_if (SeqPresent g) 0 0x10 buf;
  buf ← or_if (StrictSourceRoute g) 0 0x08 buf;
  buf ← or_if (AckPresent g) 1 0x80 buf;
  buf ← or_index buf 0 (RecursionControl g);
  buf ← or_index buf 1 (u8 (Z.shiftl (Flags g) 3));
  buf ← or_index buf 1 (Version g);
  BE_PutUint16 buf 2 (u16 (Protocol g)).

Fixpoint put_entries (rs : list GRERouting) (buf : bytes) (offset : Z) : outcome (bytes * Z) :=
  match rs with
  | [] => mret (buf, offset)
  | r :: rs =>
      buf ← BE_PutUint16 buf offset (AddressFamily r);
      buf ← set_index buf (offset + 2) (SREOffset r);
      buf ← set_index buf (offset + 3) (SRELength r);
      buf ← copy_into buf (offset + 4) (offset + 4 + SRELength r) (RoutingInformation r);
      put_entries rs buf (offset + (4 + SRELength r))
  end.

(** The bytes up to the checksum; the empty entry at the end of the routing
    does not move the offset. *)
Definition put_header (g : GRE) (buf : bytes) : outcome bytes :=
  buf ← put_flags g buf;
  x ← (if ChecksumPresent g || RoutingPresent g then
         buf ← set_index buf 4 0;
         buf ← set_index buf 5 0;
         buf ← BE_PutUint16 buf 6 (Offset g);
         mret (buf, 8)
       else mret (buf, 4));
  let '(buf, offset) := x in
  x ← (if KeyPresent g then buf ← BE_PutUint32 buf offset (Key g); mret (buf, offset + 4) else mret (buf, offset));
  let '(buf, offset) := x in
  x ← (if SeqPresent g then buf ← BE_PutUint32 buf offset (Seq g); mret (buf, offset + 4) else mret (buf, offset));
  let '(buf, offset) := x in
  x ← (if RoutingPresent g then
         x ← put_entries (Routing g) buf offset;
         buf ← BE_PutUint32 x.1 x.2 0;
         mret (buf, x.2)
       else mret (buf, offset));
  let '(buf, offset) := x in
  if AckPresent g then BE_PutUint32 buf offset (Ack g) else mret buf.

Definition SerializeTo {W} `{SerializeBuffer W} (opts : SerializeOptions) : M (GRE * W) unit :=
  g ← get_fields;
  buf ← prepend (size g);
  buf ← lift (put_header g buf);
  _ ← sync buf;
  if ChecksumPresent g then
    _ ← (if ComputeChecksums opts then
           all ← buffer_Bytes;
           c ← lift (tcpipChecksum all 0);
           put_fields (set_checksum c (Offset g) g)
         else mret tt);
    g ← get_fields;
    buf ← lift (BE_PutUint16 buf 4 (Checksum g));
    sync buf
  else mret tt.

Definition CanDecode : list LayerType := [LayerTypeGRE].
Definition NextLayerType (md : metadata) (g : GRE) : LayerType := enum_LayerType md EthernetTypeEnum (Protocol g).
End Gre.

(** ** VXLAN ([layers/vxlan.go]) *)

Module Vxlan.
Record VXLAN : Type := mkVXLAN {
  base : BaseLayer;
  ValidIDFlag : bool;
  VNI : Z;
  GBPExtension : bool;
  GBPDontLearn : bool;
  GBPApplied : bool;
  GBPGroupPolicyID : Z;
}.

Definition empty_VXLAN : VXLAN := mkVXLAN (mkBase [] []) false 0 false false false 0.

(** Three bytes behind a zero. *)
Definition uint24 (data : bytes) : outcome Z :=
  v ← slice data 4 7;
  buf ← copy_from [0; 0; 0; 0] 1 v;
  BE_Uint32 buf.

Definition decode_header (data : bytes) : outcome VXLAN :=
  vni ← uint24 data;
  b0 ← index data 0;
  b1 ← index data 1;
  id ← be16_at data 2;
  contents ← slice_to data 8;
  payload ← slice_from data 8;
  mret (mkVXLAN (mkBase contents payload) (Z.land b0 0x08 >? 0) vni (Z.land b0 0x80 >? 0) (Z.land b1 0x40 >? 0)
    (Z.land b1 0x80 >? 0) id).

Definition DecodeFromBytes (data : bytes) : M (dstate VXLAN) unit :=
  if len data <? 8 then throw (errors_New "vxlan packet too small")
  else
    vx ← lift (decode_header data);
    put_layer vx.

Definition SerializeTo {W} `{SerializeBuffer W} (opts : SerializeOptions) : M (VXLAN * W) unit :=
  vx ← get_fields;
  bytes ← prepend 8;
  bytes ← lift (set_index bytes 0 0);
  bytes ← lift (set_index bytes 1 0);
  bytes ← lift (or_if (ValidIDFlag vx) 0 0x08 bytes);
  bytes ← lift (or_if (GBPExtension vx) 0 0x80 bytes);
  bytes ← lift (or_if (GBPDontLearn vx) 1 0x40 bytes);
  bytes ← lift (or_if (GBPApplied vx) 1 0x80 bytes);
  bytes ← lift (BE_PutUint16 bytes 2 (GBPGroupPolicyID vx));
  _ ← sync bytes;
  if VNI vx >=? 16777216 then throw (Errorf "Virtual Network Identifier = %x exceeds max for 24-bit uint" [VNI vx])
  else
    bytes ← lift (BE_PutUint32 bytes 4 (u32 (Z.shiftl (VNI vx) 8)));
    sync bytes.

Definition CanDecode : list LayerType := [LayerTypeVXLAN].
Definition NextLayerType (vx : VXLAN) : LayerType := LayerTypeEthernet.
End Vxlan.

(** ** EtherIP ([layers/etherip.go]) *)

Module EtherIp.
Record EtherIP : Type := mkEtherIP { base : BaseLayer; Version : Z; Reserved : Z }.

Definition empty_EtherIP : EtherIP := mkEtherIP (mkBase [] []) 0 0.

Definition DecodeFromBytes (data : bytes) : M (dstate EtherIP) unit :=
  b0 ← lift (index data 0);
  w ← lift (slice_to data 2 ≫= BE_Uint16);
  contents ← lift (slice_to data 2);
  payload ← lift (slice_from data 2);
  put_layer (mkEtherIP (mkBase contents payload) (Z.shiftr b0 4) (Z.land w 0x0fff)).

Definition CanDecode : list LayerType := [LayerTypeEtherIP].
Definition NextLayerType (e : EtherIP) : LayerType := LayerTypeEthernet.
End EtherIp.

(** ** ERSPAN ([layers/erspan2.go]) *)

Module Erspan2.
Record ERSPANII : Type := mkERSPANII {
  base : BaseLayer;
  IsTruncated : bool;
  Version : Z; CoS : Z; TrunkEncap : Z;
  VLANIdentifier : Z; SessionID : Z; Reserved : Z;
  Index : Z;
}.

Definition empty_ERSPANII : ERSPANII := mkERSPANII (mkBase [] []) false 0 0 0 0 0 0 0.

Definition DecodeFromBytes (data : bytes) : M (dstate ERSPANII) unit :=
  b0 ← lift (index data 0);
  w0 ← lift (slice_to data 2 ≫= BE_Uint16);
  b2 ← lift (index data 2);
  w2 ← lift (be16_at data 2);
  w4 ← lift (be16_at data 4);
  d4 ← lift (be32_at data 4);
  contents ← lift (slice_to data 8);
  payload ← lift (slice_from data 8);
  put_layer (mkERSPANII (mkBase contents payload) (negb (Z.shiftr (Z.land b2 0x4) 2 =? 0)) (Z.shiftr (Z.land b0 0xF0) 4)
    (Z.shiftr (Z.land b2 0xE0) 5) (Z.shiftr (Z.land b2 0x18) 3) (Z.land w0 0x0FFF) (Z.land w2 0x03FF)
    (Z.shiftr (Z.land w4 0xFFF0) 4) (Z.land d4 0x000FFFFF)).

Definition SerializeTo {W} `{SerializeBuffer W} (opts : SerializeOptions) : M (ERSPANII * W) unit :=
  e ← get_fields;
  bytes ← prepend 8;
  bytes ← lift (BE_PutUint16 bytes 0 (Z.lor (Z.shiftl (Z.land (Version e) 0xF) 12) (Z.land (VLANIdentifier e) 0x0FFF)));
  let w := Z.lor (Z.lor (Z.shiftl (Z.land (CoS e) 0x7) 13) (Z.shiftl (Z.land (TrunkEncap e) 0x3) 11)) (Z.land (SessionID e) 0x03FF) in
  let w := if IsTruncated e then Z.lor w 0x400 else w in
  bytes ← lift (BE_PutUint16 bytes 2 w);
  bytes ← lift (BE_PutUint32 bytes 4 (Z.lor (Z.shiftl (Z.land (Reserved e) 0x0FFF) 20) (Z.land (Index e) 0x000FFFFF)));
  sync bytes.

Definition CanDecode : list LayerType := [LayerTypeERSPANII].
Definition NextLayerType (e : ERSPANII) : LayerType := LayerTypeEthernet.
End Erspan2.

(** ** Geneve ([layers/geneve.go]) *)

Module Geneve.
Record GeneveOption : Type := mkOption { Class_ : Z; Type_ : Z; Flags : Z; opt_Length : Z; Data : bytes }.

Record Geneve : Type := mkGeneve {
  base : BaseLayer;
  Version : Z;
  OptionsLength : Z;
  OAMPacket : bool;
  CriticalOption : bool;
  Protocol : Z;
  VNI : Z;
  Options : list GeneveOption;
}.

Definition empty_Geneve : Geneve := mkGeneve (mkBase [] []) 0 0 false false 0 0 [].

Definition set_header (v ol : Z) (oam critical : bool) (proto vni : Z) (g : Geneve) : Geneve :=
  mkGeneve (base g) v ol oam critical proto vni (Options g).
Definition append_option (o : GeneveOption) (g : Geneve) : Geneve :=
  mkGeneve (base g) (Version g) (OptionsLength g) (OAMPacket g) (CriticalOption g) (Protocol g) (VNI g) (Options g ++ [o]).
Definition set_base (b : BaseLayer) (g : Geneve) : Geneve :=
  mkGeneve b (Version g) (OptionsLength g) (OAMPacket g) (CriticalOption g) (Protocol g) (VNI g) (Options g).

(** Three bytes are enough for the check, but four are read. *)
Definition decodeGeneveOption {L} (data : bytes) : M (dstate L) (GeneveOption * Z) :=
  if len data <? 3 then
    _ ← SetTruncated;
    throw (errors_New "geneve option too small")
  else
    cls ← lift (slice data 0 2 ≫= BE_Uint16);
    ty ← lift (index data 2);
    b3 ← lift (index data 3);
    let length := u8 (u8 (Z.land b3 0xf * 4) + 4) in
    if len data <? length then
      _ ← SetTruncated;
      throw (errors_New "geneve option too small")
    else
      d ← lift (slice data 4 length);
      mret (mkOption cls ty (Z.shiftr b3 4) length d, length).

(** [for length > 0]; the offset is a [uint8]. *)
Fixpoint decode_options (fuel : nat) (data : bytes) (offset length : Z) : M (dstate Geneve) Z :=
  match fuel with
  | O => lift NoFuel
  | S fuel =>
      if length >? 0 then
        rest ← lift (slice_from data offset);
        r ← decodeGeneveOption rest;
        _ ← modify_layer (append_option r.1);
        decode_options fuel data (u8 (offset + r.2)) (length - r.2)
      else mret offset
  end.

Definition DecodeFromBytes (data : bytes) : M (dstate Geneve) unit :=
  if len data <? 7 then
    _ ← SetTruncated;
    throw (errors_New "geneve packet too short")
  else
    b0 ← lift (index data 0);
    b1 ← lift (index data 1);
    proto ← lift (be16_at data 2);
    vni ← lift (Vxlan.uint24 data);
    let length := u8 (Z.land b0 0x3f * 4) in
    _ ← modify_layer (set_header (Z.shiftr b0 7) length (Z.land b1 0x80 >? 0) (Z.land b1 0x40 >? 0) proto vni);
    if len data <? length + 7 then
      _ ← SetTruncated;
      throw (errors_New "geneve packet too short")
    else
      offset ← decode_options 257 data 8 length;
      contents ← lift (slice_to data offset);
      payload ← lift (slice_from data offset);
      modify_layer (set_base (mkBase contents payload)).

Definition NextLayerType (md : metadata) (g : Geneve) : LayerType := enum_LayerType md EthernetTypeEnum (Protocol g).

(** The loop over the options; the offset is a [uint8], the flags are added to what is in the buffer. *)
Fixpoint put_options (os : list GeneveOption) (bytes : bytes) (offset : Z) : outcome Prelude.bytes :=
  match os with
  | [] => mret bytes
  | o :: os =>
      _ ← slice bytes offset (u8 (offset + 2));
      bytes ← BE_PutUint16 bytes offset (Class_ o);
      let offset := u8 (offset + 2) in
      bytes ← set_index bytes offset (Type_ o);
      let offset := u8 (offset + 1) in
      bytes ← or_index bytes offset (u8 (Z.shiftl (Flags o) 5));
      bytes ← or_index bytes offset (Z.land (Z.shiftr (u8 (opt_Length o - 4)) 2) 0x1f);
      let offset := u8 (offset + 1) in
      let hi := u8 (u8 (offset + opt_Length o) - 4) in
      bytes ← copy_into bytes offset hi (Data o);
      put_options os bytes (u8 (offset + u8 (opt_Length o - 4)))
  end.

Definition SerializeTo {W} `{SerializeBuffer W} (opts : SerializeOptions) : M (Geneve * W) unit :=
  g ← get_fields;
  bytes ← prepend (u8 (OptionsLength g + 8));
  bytes ← lift (set_index bytes 0 0);
  bytes ← lift (set_index bytes 1 0);
  bytes ← lift (or_index bytes 0 (u8 (Z.shiftl (Version g) 6)));
  bytes ← lift (or_index bytes 0 (Z.land (Z.shiftr (OptionsLength g) 2) 0x3f));
  bytes ← lift (or_if (OAMPacket g) 1 0x80 bytes);
  bytes ← lift (or_if (CriticalOption g) 1 0x40 bytes);
  bytes ← lift (BE_PutUint16 bytes 2 (u16 (Protocol g)));
  _ ← sync bytes;
  if VNI g >=? 16777216 then throw (Errorf "Virtual Network Identifier = %x exceeds max for 24-bit uint" [VNI g])
  else
    bytes ← lift (BE_PutUint32 bytes 4 (u32 (Z.shiftl (VNI g) 8)));
    bytes ← lift (put_options (Options g) bytes 8);
    sync bytes.
End Geneve.

(** ** GTP ([layers/gtp.go]) *)

Module Gtp.
Record GTPExtensionHeader : Type := mkExtensionHeader { Type_ : Z; Content : bytes }.

Record GTPv1U : Type := mkGTP {
  base : BaseLayer;
  Version : Z; ProtocolType : Z; Reserved : Z;
  ExtensionHeaderFlag : bool; SequenceNumberFlag : bool; NPDUFlag : bool;
  MessageType : Z; MessageLength : Z; TEID : Z;
  SequenceNumber : Z; NPDU : Z;
  GTPExtensionHeaders : list GTPExtensionHeader;
}.

Definition gtpMinimumSizeInBytes : Z := 8.
Definition empty_GTP : GTPv1U := mkGTP (mkBase [] []) 0 0 0 false false false 0 0 0 0 0 [].

Definition set_header (b0 mt ml : Z) (g : GTPv1U) : GTPv1U :=
  mkGTP (base g) (Z.land (Z.shiftr b0 5) 0x07) (Z.land (Z.shiftr b0 4) 0x01) (Z.land (Z.shiftr b0 3) 0x01)
    (Z.land (Z.shiftr b0 2) 0x01 =? 1) (Z.land (Z.shiftr b0 1) 0x01 =? 1) (Z.land b0 0x01 =? 1)
    mt ml (TEID g) (SequenceNumber g) (NPDU g) (GTPExtensionHeaders g).
Definition set_numbers (teid sn npdu : Z) (g : GTPv1U) : GTPv1U :=
  mkGTP (base g) (Version g) (ProtocolType g) (Reserved g) (ExtensionHeaderFlag g) (SequenceNumberFlag g) (NPDUFlag g)
    (MessageType g) (MessageLength g) teid sn npdu (GTPExtensionHeaders g).
Definition set_extensions (flag : bool) (ehs : list GTPExtensionHeader) (g : GTPv1U) : GTPv1U :=
  mkGTP (base g) (Version g) (ProtocolType g) (Reserved g) flag (SequenceNumberFlag g) (NPDUFlag g)
    (MessageType g) (MessageLength g) (TEID g) (SequenceNumber g) (NPDU g) ehs.
Definition set_base (b : BaseLayer) (g : GTPv1U) : GTPv1U :=
  mkGTP b (Version g) (ProtocolType g) (Reserved g) (ExtensionHeaderFlag g) (SequenceNumberFlag g) (NPDUFlag g)
    (MessageType g) (MessageLength g) (TEID g) (SequenceNumber g) (NPDU g) (GTPExtensionHeaders g).

(** [for extensionFlag]; the offsets are [uint16]. *)
Fixpoint decode_extensions (fuel : nat) (data : bytes) (cIndex : Z) : M (dstate GTPv1U) Z :=
  match fuel with
  | O => lift NoFuel
  | S fuel =>
      extensionType ← lift (index data (u16 (cIndex - 1)));
      extensionLength ← lift (index data cIndex);
      if extensionLength =? 0 then throw (errors_New "GTP packet with invalid extension header")
      else
        let lIndex := u16 (cIndex + extensionLength * 4) in
        if u16 (len data) <? lIndex then throw (Errorf "GTP packet with small extension header: %d bytes" [len data])
        else
          content ← lift (slice data (u16 (cIndex + 1)) (u16 (lIndex - 1)));
          _ ← modify_layer (fun g => set_extensions (ExtensionHeaderFlag g)
                                       (GTPExtensionHeaders g ++ [mkExtensionHeader extensionType content]) g);
          next ← lift (index data (u16 (lIndex - 1)));
          if negb (next =? 0) then decode_extensions fuel data lIndex else mret lIndex
  end.

Definition DecodeFromBytes (data : bytes) : M (dstate GTPv1U) unit :=
  let dLen := len data in
  if dLen <? gtpMinimumSizeInBytes then throw (Errorf "GTP packet too small: %d bytes" [dLen])
  else
    b0 ← lift (index data 0);
    mt ← lift (index data 1);
    ml ← lift (be16_at data 2);
    _ ← modify_layer (set_header b0 mt ml);
    if u16 dLen <? u16 (8 + ml) then throw (Errorf "GTP packet too small: %d bytes" [dLen])
    else
      teid ← lift (be32_at data 4);
      _ ← modify_layer (fun g => set_numbers teid (SequenceNumber g) (NPDU g) g);
      g ← get_layer;
      cIndex ← (if SequenceNumberFlag g || NPDUFlag g || ExtensionHeaderFlag g then
                  if dLen <? 12 then throw (Errorf "GTP packet too small: %d bytes" [dLen])
                  else
                    _ ← (if SequenceNumberFlag g then
                           sn ← lift (be16_at data 8);
                           modify_layer (fun g => set_numbers (TEID g) sn (NPDU g) g)
                         else mret tt);
                    _ ← (if NPDUFlag g then
                           n ← lift (index data 10);
                           modify_layer (fun g => set_numbers (TEID g) (SequenceNumber g) n g)
                         else mret tt);
                    if ExtensionHeaderFlag g then decode_extensions (S (length data)) data 12 else mret 12
                else mret 8);
      contents ← lift (slice_to data cIndex);
      payload ← lift (slice_from data cIndex);
      modify_layer (set_base (mkBase contents payload)).

Section serialize.
Context {W : Type} `{SerializeBuffer W}.

(** The extension headers; [data] are the bytes appended last. *)
Fixpoint append_extensions (ehs : list GTPExtensionHeader) (data : bytes) : M (GTPv1U * W) unit :=
  match ehs with
  | [] => mret tt
  | eh :: ehs =>
      data ← lift (set_index data (len data - 1) (Type_ eh));
      _ ← sync_back data;
      let lContent := len (Content eh) in
      data ← append (lContent + 2);
      data ← lift (set_index data 0 (u8 ((lContent + 2) / 4)));
      data ← lift (copy_into data 1 (lContent + 1) (Content eh));
      _ ← sync_back data;
      append_extensions ehs data
  end.

(** The first byte is added to what is in the buffer, and the optional fields go behind the payload. *)
Definition SerializeTo (opts : SerializeOptions) : M (GTPv1U * W) unit :=
  g ← get_fields;
  data ← prepend gtpMinimumSizeInBytes;
  data ← lift (or_index data 0 (u8 (Z.shiftl (Version g) 5)));
  data ← lift (or_index data 0 0x10);
  data ← lift (or_if (negb (len (GTPExtensionHeaders g) =? 0)) 0 0x04 data);
  let g := if negb (len (GTPExtensionHeaders g) =? 0) then set_extensions true (GTPExtensionHeaders g) g else g in
  _ ← put_fields g;
  data ← lift (or_if (SequenceNumberFlag g) 0 0x02 data);
  data ← lift (or_if (NPDUFlag g) 0 0x01 data);
  data ← lift (set_index data 1 (MessageType g));
  data ← lift (BE_PutUint16 data 2 (MessageLength g));
  data ← lift (BE_PutUint32 data 4 (TEID g));
  _ ← sync data;
  if ExtensionHeaderFlag g || SequenceNumberFlag g || NPDUFlag g then
    data ← append 4;
    data ← lift (BE_PutUint16 data 0 (SequenceNumber g));
    data ← lift (set_index data 2 (NPDU g));
    _ ← sync_back data;
    append_extensions (GTPExtensionHeaders g) data
  else mret tt.
End serialize.

Definition CanDecode : list LayerType := [LayerTypeGTPv1U].
Definition NextLayerType (g : GTPv1U) : LayerType :=
  match Payload (base g) with
  | [] => LayerTypeZero
  | b :: _ =>
      let version := Z.shiftr b 4 in
      if version =? 4 then LayerTypeIPv4 else if version =? 6 then LayerTypeIPv6 else LayerTypePPP
  end.
End Gtp.

(** ** IPSec ([layers/ipsec.go]) *)

Module IpSec.
Record IPSecAH : Type := mkAH {
  ext : ipv6ExtensionBase;
  Reserved : Z;
  SPI : Z;
  Seq : Z;
  AuthenticationData : bytes;
}.

(** [decodeIPSecAH], up to the builder. *)
Definition parse_AH {L} (data : bytes) : M (dstate L) IPSecAH :=
  if len data <? 12 then
    _ ← SetTruncated;
    throw (errors_New "IPSec AH packet less than 12 bytes")
  else
    b0 ← lift (index data 0);
    b1 ← lift (index data 1);
    res ← lift (be16_at data 2);
    spi ← lift (be32_at data 4);
    seq ← lift (be32_at data 8);
    let ActualLength := (b1 + 2) * 4 in
    if len data <? ActualLength then
      _ ← SetTruncated;
      throw (errors_New "Truncated AH packet < ActualLength")
    else
      auth ← lift (slice data 12 ActualLength);
      contents ← lift (slice_to data ActualLength);
      payload ← lift (slice_from data ActualLength);
      mret (mkAH (mkExtension (mkBase contents payload) b0 b1 ActualLength) res spi seq auth).

Record IPSecESP : Type := mkESP { esp_base : BaseLayer; esp_SPI : Z; esp_Seq : Z; Encrypted : bytes }.

(** [decodeIPSecESP], up to the builder. *)
Definition parse_ESP {L} (data : bytes) : M (dstate L) IPSecESP :=
  spi ← lift (slice_to data 4 ≫= BE_Uint32);
  seq ← lift (be32_at data 4);
  encrypted ← lift (slice_from data 8);
  mret (mkESP (mkBase data []) spi seq encrypted).
End IpSec.
