(* ===== verification/ControlLayers.v ===== *)
(** * Control protocols and small transports ([layers/icmp4.go], [icmp6.go],
    [icmp6msg.go], [udplite.go], [rudp.go], [stp.go], [eap.go], [vrrp.go],
    [pflog.go], [ague_var0.go], [ague_var1.go])

    As in [LinkLayers], a module for each layer. *)

From S2P Require Import Prelude SerializeBuffer LayerClasses Flows BaseLayers Enums Checksum LinkLayers TunnelLayers.

(** ** ICMP for IPv4 ([layers/icmp4.go]) *)

Module Icmp4.
Record ICMPv4 : Type := mkICMPv4 { base : BaseLayer; TypeCode : Z; Checksum : Z; Id : Z; Seq : Z }.

Definition empty_ICMPv4 : ICMPv4 := mkICMPv4 (mkBase [] []) 0 0 0 0.
Definition set_Checksum (c : Z) (i : ICMPv4) : ICMPv4 := mkICMPv4 (base i) (TypeCode i) c (Id i) (Seq i).

Definition TypeCode_Type (a : Z) : Z := u8 (Z.shiftr a 8).
Definition TypeCode_Code (a : Z) : Z := u8 a.
Definition CreateICMPv4TypeCode (typ code : Z) : Z := typ * 256 + code.

Definition decode_header (data : bytes) : outcome ICMPv4 :=
  ty ← index data 0;
  code ← index data 1;
  c ← be16_at data 2;
  id ← be16_at data 4;
  seq ← be16_at data 6;
  contents ← slice_to data 8;
  payload ← slice_from data 8;
  mret (mkICMPv4 (mkBase contents payload) (CreateICMPv4TypeCode ty code) c id seq).

Definition DecodeFromBytes (data : bytes) : M (dstate ICMPv4) unit :=
  if len data <? 8 then
    _ ← SetTruncated;
    throw (errors_New "ICMP layer less then 8 bytes for ICMPv4 packet")
  else
    i ← lift (decode_header data);
    put_layer i.

Definition SerializeTo {W} `{SerializeBuffer W} (opts : SerializeOptions) : M (ICMPv4 * W) unit :=
  i ← get_fields;
  bytes ← prepend 8;
  bytes ← lift (BE_PutUint16 bytes 0 (TypeCode i));
  bytes ← lift (BE_PutUint16 bytes 4 (Id i));
  bytes ← lift (BE_PutUint16 bytes 6 (Seq i));
  bytes ← (if ComputeChecksums opts then
             bytes ← lift (set_index bytes 2 0);
             bytes ← lift (set_index bytes 3 0);
             _ ← sync bytes;
             all ← buffer_Bytes;
             c ← lift (tcpipChecksum all 0);
             _ ← put_fields (set_Checksum c i);
             mret bytes
           else mret bytes);
  i ← get_fields;
  bytes ← lift (BE_PutUint16 bytes 2 (Checksum i));
  sync bytes.

Definition CanDecode : list LayerType := [LayerTypeICMPv4].
Definition NextLayerType (i : ICMPv4) : LayerType := LayerTypePayload.
End Icmp4.

(** ** ICMP for IPv6 ([layers/icmp6.go], [icmp6msg.go]) *)

Module Icmp6.
Definition ICMPv6TypeEchoRequest : Z := 128.
Definition ICMPv6TypeEchoReply : Z := 129.
Definition ICMPv6TypeMLDv1MulticastListenerQueryMessage : Z := 130.
Definition ICMPv6TypeMLDv1MulticastListenerReportMessage : Z := 131.
Definition ICMPv6TypeMLDv1MulticastListenerDoneMessage : Z := 132.
Definition ICMPv6TypeRouterSolicitation : Z := 133.
Definition ICMPv6TypeRouterAdvertisement : Z := 134.
Definition ICMPv6TypeNeighborSolicitation : Z := 135.
Definition ICMPv6TypeNeighborAdvertisement : Z := 136.
Definition ICMPv6TypeRedirect : Z := 137.
Definition ICMPv6TypeMLDv2MulticastListenerReportMessageV2 : Z := 143.

Record ICMPv6 : Type := mkICMPv6 {
  base : BaseLayer;
  TypeCode : Z;
  Checksum : Z;
  pseudoheader : option network_layer;
}.

Definition empty_ICMPv6 : ICMPv6 := mkICMPv6 (mkBase [] []) 0 0 None.
Definition set_Checksum (c : Z) (i : ICMPv6) : ICMPv6 := mkICMPv6 (base i) (TypeCode i) c (pseudoheader i).
Definition set_pseudoheader (p : option network_layer) (i : ICMPv6) : ICMPv6 := mkICMPv6 (base i) (TypeCode i) (Checksum i) p.

Definition TypeCode_Type (a : Z) : Z := u8 (Z.shiftr a 8).
Definition CreateICMPv6TypeCode (typ code : Z) : Z := typ * 256 + code.

Definition decode_header (data : bytes) (i : ICMPv6) : outcome ICMPv6 :=
  ty ← index data 0;
  code ← index data 1;
  c ← be16_at data 2;
  contents ← slice_to data 4;
  payload ← slice_from data 4;
  mret (mkICMPv6 (mkBase contents payload) (CreateICMPv6TypeCode ty code) c (pseudoheader i)).

Definition DecodeFromBytes (data : bytes) : M (dstate ICMPv6) unit :=
  if len data <? 4 then
    _ ← SetTruncated;
    throw (errors_New "ICMP layer less then 4 bytes for ICMPv6 packet")
  else
    old ← get_layer;
    i ← lift (decode_header data old);
    put_layer i.

Definition SerializeTo {W} `{SerializeBuffer W} (opts : SerializeOptions) : M (ICMPv6 * W) unit :=
  i ← get_fields;
  bytes ← prepend 4;
  bytes ← lift (BE_PutUint16 bytes 0 (TypeCode i));
  bytes ← (if ComputeChecksums opts then
             bytes ← lift (set_index bytes 2 0);
             bytes ← lift (set_index bytes 3 0);
             _ ← sync bytes;
             all ← buffer_Bytes;
             csum ← on_fst (zoom pseudoheader set_pseudoheader (computeChecksum all IPProtocolICMPv6));
             i ← get_fields;
             _ ← put_fields (set_Checksum csum i);
             mret bytes
           else mret bytes);
  i ← get_fields;
  bytes ← lift (BE_PutUint16 bytes 2 (Checksum i));
  sync bytes.

Definition CanDecode : list LayerType := [LayerTypeICMPv6].
Definition NextLayerType (i : ICMPv6) : LayerType :=
  let t := TypeCode_Type (TypeCode i) in
  if (t =? ICMPv6TypeEchoRequest) || (t =? ICMPv6TypeEchoReply) then LayerTypeICMPv6Echo
  else if t =? ICMPv6TypeRouterSolicitation then LayerTypeICMPv6RouterSolicitation
  else if t =? ICMPv6TypeRouterAdvertisement then LayerTypeICMPv6RouterAdvertisement
  else if t =? ICMPv6TypeNeighborSolicitation then LayerTypeICMPv6NeighborSolicitation
  else if t =? ICMPv6TypeNeighborAdvertisement then LayerTypeICMPv6NeighborAdvertisement
  else if t =? ICMPv6TypeRedirect then LayerTypeICMPv6Redirect
  else if t =? ICMPv6TypeMLDv1MulticastListenerQueryMessage then
    if len (Payload (base i)) >? 20 then LayerTypeMLDv2MulticastListenerQuery else LayerTypeMLDv1MulticastListenerQuery
  else if t =? ICMPv6TypeMLDv1MulticastListenerDoneMessage then LayerTypeMLDv1MulticastListenerDone
  else if t =? ICMPv6TypeMLDv1MulticastListenerReportMessage then LayerTypeMLDv1MulticastListenerReport
  else if t =? ICMPv6TypeMLDv2MulticastListenerReportMessageV2 then LayerTypeMLDv2MulticastListenerReport
  else LayerTypePayload.

(** The echo message; decoding does not set the contents or the payload. *)
Record ICMPv6Echo : Type := mkEcho { echo_base : BaseLayer; Identifier : Z; SeqNumber : Z }.
Definition empty_Echo : ICMPv6Echo := mkEcho (mkBase [] []) 0 0.

Definition Echo_DecodeFromBytes (data : bytes) : M (dstate ICMPv6Echo) unit :=
  if len data <? 4 then
    _ ← SetTruncated;
    throw (errors_New "ICMP layer less then 4 bytes for ICMPv6 Echo")
  else
    id ← lift (be16_at data 0);
    seq ← lift (be16_at data 2);
    modify_layer (fun e => mkEcho (echo_base e) id seq).

Definition Echo_SerializeTo {W} `{SerializeBuffer W} (opts : SerializeOptions) : M (ICMPv6Echo * W) unit :=
  e ← get_fields;
  buf ← prepend 4;
  buf ← lift (BE_PutUint16 buf 0 (Identifier e));
  buf ← lift (BE_PutUint16 buf 2 (SeqNumber e));
  sync buf.

(** *** Options of the neighbour discovery messages *)

Record ICMPv6Option : Type := mkOption { Type_ : Z; Data : bytes }.

(** [for len(data) > 0], on a layer whose options [add] appends to. *)
Fixpoint Options_DecodeFromBytes {L} (add : ICMPv6Option → L → L) (fuel : nat) (data : bytes) : M (dstate L) unit :=
  match fuel with
  | O => lift NoFuel
  | S fuel =>
      if len data >? 0 then
        if len data <? 2 then
          _ ← SetTruncated;
          throw (errors_New "ICMP layer less then 2 bytes for ICMPv6 message option")
        else
          b1 ← lift (index data 1);
          let length := b1 * 8 in
          if length =? 0 then
            _ ← SetTruncated;
            throw (errors_New "ICMPv6 message option with length 0")
          else if len data <? length then
            _ ← SetTruncated;
            throw (Errorf "ICMP layer only %v bytes for ICMPv6 message option with length %v" [len data; length])
          else
            b0 ← lift (index data 0);
            d ← lift (slice data 2 length);
            data ← lift (slice_from data length);
            _ ← modify_layer (add (mkOption b0 d));
            Options_DecodeFromBytes add fuel data
      else mret tt
  end.

(** Each option is put in front of the one before it. *)
Fixpoint Options_SerializeTo {L W} `{SerializeBuffer W} (options : list ICMPv6Option) : M (L * W) unit :=
  match options with
  | [] => mret tt
  | opt :: options =>
      let length := len (Data opt) + 2 in
      buf ← prepend length;
      buf ← lift (set_index buf 0 (Type_ opt));
      buf ← lift (set_index buf 1 (u8 (length / 8)));
      buf ← lift (copy_from buf 2 (Data opt));
      _ ← sync buf;
      Options_SerializeTo options
  end.

(** *** The messages *)

Record ICMPv6RouterSolicitation : Type := mkRS { rs_base : BaseLayer; rs_Options : list ICMPv6Option }.
Definition empty_RS : ICMPv6RouterSolicitation := mkRS (mkBase [] []) [].
Definition rs_add (o : ICMPv6Option) (r : ICMPv6RouterSolicitation) := mkRS (rs_base r) (rs_Options r ++ [o]).

Definition RS_DecodeFromBytes (data : bytes) : M (dstate ICMPv6RouterSolicitation) unit :=
  if len data <? 4 then
    _ ← SetTruncated;
    throw (errors_New "ICMP layer less then 4 bytes for ICMPv6 router solicitation")
  else
    _ ← modify_layer (fun r => mkRS (rs_base r) []);
    rest ← lift (slice_from data 4);
    Options_DecodeFromBytes rs_add (S (length rest)) rest.

Definition RS_SerializeTo {W} `{SerializeBuffer W} (opts : SerializeOptions) : M (ICMPv6RouterSolicitation * W) unit :=
  r ← get_fields;
  _ ← Options_SerializeTo (rs_Options r);
  buf ← prepend 4;
  buf ← lift (copy_from buf 0 (take 4 lotsOfZeros));
  sync buf.

Record ICMPv6RouterAdvertisement : Type := mkRA {
  ra_base : BaseLayer;
  HopLimit : Z; ra_Flags : Z; RouterLifetime : Z; ReachableTime : Z; RetransTimer : Z;
  ra_Options : list ICMPv6Option;
}.
Definition empty_RA : ICMPv6RouterAdvertisement := mkRA (mkBase [] []) 0 0 0 0 0 [].
Definition ra_add (o : ICMPv6Option) (r : ICMPv6RouterAdvertisement) :=
  mkRA (ra_base r) (HopLimit r) (ra_Flags r) (RouterLifetime r) (ReachableTime r) (RetransTimer r) (ra_Options r ++ [o]).

Definition RA_DecodeFromBytes (data : bytes) : M (dstate ICMPv6RouterAdvertisement) unit :=
  if len data <? 12 then
    _ ← SetTruncated;
    throw (errors_New "ICMP layer less then 12 bytes for ICMPv6 router advertisement")
  else
    hop ← lift (index data 0);
    flags ← lift (index data 1);
    life ← lift (be16_at data 2);
    reach ← lift (be32_at data 4);
    retrans ← lift (be32_at data 8);
    _ ← put_layer (mkRA (mkBase data []) hop flags life reach retrans []);
    rest ← lift (slice_from data 12);
    Options_DecodeFromBytes ra_add (S (length rest)) rest.

Definition RA_SerializeTo {W} `{SerializeBuffer W} (opts : SerializeOptions) : M (ICMPv6RouterAdvertisement * W) unit :=
  r ← get_fields;
  _ ← Options_SerializeTo (ra_Options r);
  buf ← prepend 12;
  buf ← lift (set_index buf 0 (HopLimit r));
  buf ← lift (set_index buf 1 (ra_Flags r));
  buf ← lift (BE_PutUint16 buf 2 (RouterLifetime r));
  buf ← lift (BE_PutUint32 buf 4 (ReachableTime r));
  buf ← lift (BE_PutUint32 buf 8 (RetransTimer r));
  sync buf.

Definition ManagedAddressConfig (r : ICMPv6RouterAdvertisement) : bool := has_bits (ra_Flags r) 0x80.
Definition OtherConfig (r : ICMPv6RouterAdvertisement) : bool := has_bits (ra_Flags r) 0x40.

Record ICMPv6NeighborSolicitation : Type := mkNS {
  ns_base : BaseLayer; ns_TargetAddress : bytes; ns_Options : list ICMPv6Option }.
Definition empty_NS : ICMPv6NeighborSolicitation := mkNS (mkBase [] []) [] [].
Definition ns_add (o : ICMPv6Option) (n : ICMPv6NeighborSolicitation) :=
  mkNS (ns_base n) (ns_TargetAddress n) (ns_Options n ++ [o]).

Definition NS_DecodeFromBytes (data : bytes) : M (dstate ICMPv6NeighborSolicitation) unit :=
  if len data <? 20 then
    _ ← SetTruncated;
    throw (errors_New "ICMP layer less then 20 bytes for ICMPv6 neighbor solicitation")
  else
    target ← lift (slice data 4 20);
    _ ← put_layer (mkNS (mkBase data []) target []);
    rest ← lift (slice_from data 20);
    Options_DecodeFromBytes ns_add (S (length rest)) rest.

Definition NS_SerializeTo {W} `{SerializeBuffer W} (opts : SerializeOptions) : M (ICMPv6NeighborSolicitation * W) unit :=
  n ← get_fields;
  _ ← Options_SerializeTo (ns_Options n);
  buf ← prepend 20;
  buf ← lift (copy_from buf 0 (take 4 lotsOfZeros));
  buf ← lift (copy_from buf 4 (ns_TargetAddress n));
  sync buf.

Record ICMPv6NeighborAdvertisement : Type := mkNA {
  na_base : BaseLayer; na_Flags : Z; na_TargetAddress : bytes; na_Options : list ICMPv6Option }.
Definition empty_NA : ICMPv6NeighborAdvertisement := mkNA (mkBase [] []) 0 [] [].
Definition na_add (o : ICMPv6Option) (n : ICMPv6NeighborAdvertisement) :=
  mkNA (na_base n) (na_Flags n) (na_TargetAddress n) (na_Options n ++ [o]).

Definition NA_DecodeFromBytes (data : bytes) : M (dstate ICMPv6NeighborAdvertisement) unit :=
  if len data <? 20 then
    _ ← SetTruncated;
    throw (errors_New "ICMP layer less then 20 bytes for ICMPv6 neighbor advertisement")
  else
    flags ← lift (index data 0);
    target ← lift (slice data 4 20);
    _ ← put_layer (mkNA (mkBase data []) flags target []);
    rest ← lift (slice_from data 20);
    Options_DecodeFromBytes na_add (S (length rest)) rest.

Definition NA_SerializeTo {W} `{SerializeBuffer W} (opts : SerializeOptions) : M (ICMPv6NeighborAdvertisement * W) unit :=
  n ← get_fields;
  _ ← Options_SerializeTo (na_Options n);
  buf ← prepend 20;
  buf ← lift (set_index buf 0 (na_Flags n));
  buf ← lift (copy_from buf 1 (take 3 lotsOfZeros));
  buf ← lift (copy_from buf 4 (na_TargetAddress n));
  sync buf.

Definition Router (n : ICMPv6NeighborAdvertisement) : bool := has_bits (na_Flags n) 0x80.
Definition Solicited (n : ICMPv6NeighborAdvertisement) : bool := has_bits (na_Flags n) 0x40.
Definition Override (n : ICMPv6NeighborAdvertisement) : bool := has_bits (na_Flags n) 0x20.

Record ICMPv6Redirect : Type := mkRedirect {
  rd_base : BaseLayer; rd_TargetAddress : bytes; DestinationAddress : bytes; rd_Options : list ICMPv6Option }.
Definition empty_Redirect : ICMPv6Redirect := mkRedirect (mkBase [] []) [] [] [].
Definition rd_add (o : ICMPv6Option) (r : ICMPv6Redirect) :=
  mkRedirect (rd_base r) (rd_TargetAddress r) (DestinationAddress r) (rd_Options r ++ [o]).

Definition Redirect_DecodeFromBytes (data : bytes) : M (dstate ICMPv6Redirect) unit :=
  if len data <? 36 then
    _ ← SetTruncated;
    throw (errors_New "ICMP layer less then 36 bytes for ICMPv6 redirect")
  else
    target ← lift (slice data 4 20);
    dst ← lift (slice data 20 36);
    _ ← put_layer (mkRedirect (mkBase data []) target dst []);
    rest ← lift (slice_from data 36);
    Options_DecodeFromBytes rd_add (S (length rest)) rest.

Definition Redirect_SerializeTo {W} `{SerializeBuffer W} (opts : SerializeOptions) : M (ICMPv6Redirect * W) unit :=
  r ← get_fields;
  _ ← Options_SerializeTo (rd_Options r);
  buf ← prepend 36;
  buf ← lift (copy_from buf 0 (take 4 lotsOfZeros));
  buf ← lift (copy_from buf 4 (rd_TargetAddress r));
  buf ← lift (copy_from buf 20 (DestinationAddress r));
  sync buf.
End Icmp6.

(** ** UDP-Lite ([layers/udplite.go]) *)

Module UdpLite.
Record UDPLite : Type := mkUDPLite {
  base : BaseLayer;
  SrcPort : Z; DstPort : Z;
  ChecksumCoverage : Z; Checksum : Z;
  sPort : bytes; dPort : bytes;
}.

(** [decodeUDPLite], up to the builder. *)
Definition parse {L} (data : bytes) : M (dstate L) UDPLite :=
  sp ← lift (be16_at data 0);
  sb ← lift (slice data 0 2);
  dp ← lift (be16_at data 2);
  db ← lift (slice data 2 4);
  cov ← lift (be16_at data 4);
  c ← lift (be16_at data 6);
  contents ← lift (slice_to data 8);
  payload ← lift (slice_from data 8);
  mret (mkUDPLite (mkBase contents payload) sp dp cov c sb db).

Definition TransportFlow (u : UDPLite) : outcome Flow := NewFlow EndpointUDPLitePort (sPort u) (dPort u).
End UdpLite.

(** ** Reliable UDP ([layers/rudp.go]) *)

Module Rudp.
Record RUDPHeaderSYN : Type := mkSYN { MaxOutstandingSegments : Z; MaxSegmentSize : Z; OptionFlags : Z }.

(** The two embedded pointers, which may be nil; [SeqsReceivedOK] is that of the second. *)
Record RUDP : Type := mkRUDP {
  base : BaseLayer;
  SYN : bool; ACK : bool; EACK : bool; RST : bool; NUL : bool;
  Version : Z; HeaderLength : Z; SrcPort : Z; DstPort : Z;
  DataLength : Z; Seq : Z; Ack : Z; Checksum : Z;
  VariableHeaderArea : bytes;
  HeaderSYN : option RUDPHeaderSYN;
  HeaderEACK : option (list Z);
}.

(** [for i := 0; i < len(headerData); i += 4] *)
Fixpoint seqs_received (fuel : nat) (headerData : bytes) (i : Z) : outcome (list Z) :=
  match fuel with
  | O => NoFuel
  | S fuel =>
      if i <? len headerData then
        s ← be32_at headerData i;
        ss ← seqs_received fuel headerData (i + 4);
        mret (s :: ss)
      else mret []
  end.

(** [decodeRUDP], up to the builder. *)
Definition parse {L} (data : bytes) : M (dstate L) RUDP :=
  b0 ← lift (index data 0);
  hl ← lift (index data 1);
  sp ← lift (index data 2);
  dp ← lift (index data 3);
  dl ← lift (be16_at data 4);
  seq ← lift (be32_at data 6);
  ack ← lift (be32_at data 10);
  csum ← lift (be32_at data 14);
  if hl <? 9 then throw (Errorf "RUDP packet with too-short header length %d" [hl])
  else
    let hlen := hl * 2 in
    contents ← lift (slice_to data hlen);
    payload ← lift (slice data hlen (hlen + dl));
    headerData ← lift (slice data 18 hlen);
    let r := mkRUDP (mkBase contents payload) (has_bits b0 0x80) (has_bits b0 0x40) (has_bits b0 0x20) (has_bits b0 0x10)
               (has_bits b0 0x08) (Z.land b0 0x3) hl sp dp dl seq ack csum headerData in
    if has_bits b0 0x80 then
      if negb (len headerData =? 6) then throw (Errorf "RUDP packet invalid SYN header length: %d" [len headerData])
      else
        m ← lift (slice_to headerData 2 ≫= BE_Uint16);
        z ← lift (be16_at headerData 2);
        f ← lift (be16_at headerData 4);
        mret (r (Some (mkSYN m z f)) None)
    else if has_bits b0 0x20 then
      if negb (len headerData mod 4 =? 0) then throw (Errorf "RUDP packet invalid EACK header length: %d" [len headerData])
      else
        ss ← lift (seqs_received (S (length headerData)) headerData 0);
        mret (r None (Some ss))
    else mret (r None None).

Definition TransportFlow (r : RUDP) : outcome Flow := NewFlow EndpointRUDPPort [SrcPort r] [DstPort r].
End Rudp.

(** ** The spanning tree protocol ([layers/stp.go]) *)

Module Stp.
Record STPSwitchID : Type := mkSwitch { Priority : Z; SysID : Z; HwAddr : bytes }.

Record STP : Type := mkSTP {
  base : BaseLayer;
  ProtocolID : Z; Version : Z; Type_ : Z; TC : bool; TCA : bool;
  RouteID : STPSwitchID; BridgeID : STPSwitchID;
  Cost : Z; PortID : Z; MessageAge : Z; MaxAge : Z; HelloTime : Z; FDelay : Z;
}.

Definition empty_STP : STP :=
  mkSTP (mkBase [] []) 0 0 0 false false (mkSwitch 0 0 []) (mkSwitch 0 0 []) 0 0 0 0 0 0.

Definition decode_switch (data : bytes) (i : Z) : outcome STPSwitchID :=
  p ← be16_at data i;
  hw ← slice data (i + 2) (i + 8);
  mret (mkSwitch (Z.land p 0xf000) (Z.land p 0x0fff) hw).

Definition decode_header (data : bytes) : outcome STP :=
  id ← slice_to data 2 ≫= BE_Uint16;
  v ← index data 2;
  ty ← index data 3;
  b4 ← index data 4;
  route ← decode_switch data 5;
  cost ← be32_at data 13;
  bridge ← decode_switch data 17;
  port ← be16_at data 25;
  age ← be16_at data 27;
  maxAge ← be16_at data 29;
  hello ← be16_at data 31;
  delay ← be16_at data 33;
  contents ← slice_to data 35;
  payload ← slice_from data 35;
  mret (mkSTP (mkBase contents payload) id v ty (has_bits b4 0x01) (has_bits b4 0x80) route bridge cost port age maxAge
    hello delay).

Definition DecodeFromBytes (data : bytes) : M (dstate STP) unit :=
  if len data <? 35 then
    _ ← SetTruncated;
    throw (Errorf "STP length %d too short" [len data])
  else
    stp ← lift (decode_header data);
    put_layer stp.

(** [checkPriority], whose error is turned into a panic, and the check of the VLAN. *)
Definition switch_word (s : STPSwitchID) : outcome Z :=
  if (Priority s =? 0) || negb (Priority s mod 4096 =? 0) then
    Panic (Panicked "Invalid Priority value must be in the rage <4096-61440> with an increment of 4096")
  else if SysID s >=? 4096 then Panic (Panicked "Invalid VlanID value ..!")
  else mret (Z.lor (Priority s) (SysID s)).

Definition put_switch (bytes : bytes) (i : Z) (s : STPSwitchID) : outcome Prelude.bytes :=
  w ← switch_word s;
  bytes ← BE_PutUint16 bytes i w;
  copy_into bytes (i + 2) (i + 8) (HwAddr s).

Definition put_header (s : STP) (bytes : bytes) : outcome Prelude.bytes :=
  bytes ← BE_PutUint16 bytes 0 (ProtocolID s);
  bytes ← set_index bytes 2 (Version s);
  bytes ← set_index bytes 3 (Type_ s);
  bytes ← set_index bytes 4 (Z.lor (if TC s then 0x01 else 0) (if TCA s then 0x80 else 0));
  bytes ← put_switch bytes 5 (RouteID s);
  bytes ← BE_PutUint32 bytes 13 (Cost s);
  bytes ← put_switch bytes 17 (BridgeID s);
  bytes ← BE_PutUint16 bytes 25 (PortID s);
  bytes ← BE_PutUint16 bytes 27 (MessageAge s);
  bytes ← BE_PutUint16 bytes 29 (MaxAge s);
  bytes ← BE_PutUint16 bytes 31 (HelloTime s);
  BE_PutUint16 bytes 33 (FDelay s).

Definition SerializeTo {W} `{SerializeBuffer W} (opts : SerializeOptions) : M (STP * W) unit :=
  s ← get_fields;
  bytes ← prepend 35;
  bytes ← lift (put_header s bytes);
  sync bytes.

Definition CanDecode : list LayerType := [LayerTypeSTP].
Definition NextLayerType (s : STP) : LayerType := LayerTypePayload.
End Stp.

(** ** EAP ([layers/eap.go]) *)

Module Eap.
Record EAP : Type := mkEAP { base : BaseLayer; Code : Z; Id : Z; Length : Z; Type_ : Z; TypeData : bytes }.

Definition empty_EAP : EAP := mkEAP (mkBase [] []) 0 0 0 0 [].

Definition set_header (c i l : Z) (e : EAP) : EAP := mkEAP (base e) c i l (Type_ e) (TypeData e).
Definition set_type (t : Z) (d : bytes) (e : EAP) : EAP := mkEAP (base e) (Code e) (Id e) (Length e) t d.
Definition set_base (b : BaseLayer) (e : EAP) : EAP := mkEAP b (Code e) (Id e) (Length e) (Type_ e) (TypeData e).

(** The data of the type runs to the end of the packet, not to [Length]. *)
Definition DecodeFromBytes (data : bytes) : M (dstate EAP) unit :=
  if len data <? 4 then
    _ ← SetTruncated;
    throw (Errorf "EAP length %d too short" [len data])
  else
    code ← lift (index data 0);
    id ← lift (index data 1);
    length ← lift (be16_at data 2);
    _ ← modify_layer (set_header code id length);
    if len data <? length then
      _ ← SetTruncated;
      throw (Errorf "EAP length %d too short, %d expected" [len data; length])
    else
      _ ← (if length >? 4 then
             t ← lift (index data 4);
             d ← lift (slice_from data 5);
             modify_layer (set_type t d)
           else if length =? 4 then modify_layer (set_type 0 [])
           else throw (Errorf "invalid EAP length %d" [length]));
      contents ← lift (slice_to data length);
      payload ← lift (slice_from data length);
      modify_layer (set_base (mkBase contents payload)).

Definition SerializeTo {W} `{SerializeBuffer W} (opts : SerializeOptions) : M (EAP * W) unit :=
  e ← get_fields;
  let e := if FixLengths opts then set_header (Code e) (Id e) (u16 (len (TypeData e) + 1)) e else e in
  _ ← put_fields e;
  let size := len (TypeData e) + 4 in
  let size := if size >? 4 then size + 1 else size in
  bytes ← prepend size;
  bytes ← lift (set_index bytes 0 (Code e));
  bytes ← lift (set_index bytes 1 (Id e));
  bytes ← lift (BE_PutUint16 bytes 2 (Length e));
  bytes ← lift (if size >? 4 then
                  bytes ← set_index bytes 4 (Type_ e);
                  copy_from bytes 5 (TypeData e)
                else mret bytes);
  sync bytes.

Definition CanDecode : list LayerType := [LayerTypeEAP].
Definition NextLayerType (e : EAP) : LayerType := LayerTypeZero.
End Eap.

(** ** VRRP ([layers/vrrp.go]) *)

Module Vrrp.
Record VRRPv2 : Type := mkVRRP {
  base : BaseLayer;
  Version : Z; Type_ : Z; VirtualRtrID : Z; Priority : Z; CountIPAddr : Z; AuthType : Z; AdverInt : Z; Checksum : Z;
  IPAddress : list bytes;
}.

Definition empty_VRRP : VRRPv2 := mkVRRP (mkBase [] []) 0 0 0 0 0 0 0 0 [].

Definition set_type (b : BaseLayer) (ver ty : Z) (v : VRRPv2) : VRRPv2 :=
  mkVRRP b ver ty (VirtualRtrID v) (Priority v) (CountIPAddr v) (AuthType v) (AdverInt v) (Checksum v) (IPAddress v).
Definition set_router (id prio count : Z) (v : VRRPv2) : VRRPv2 :=
  mkVRRP (base v) (Version v) (Type_ v) id prio count (AuthType v) (AdverInt v) (Checksum v) (IPAddress v).
Definition set_rest (auth adv csum : Z) (v : VRRPv2) : VRRPv2 :=
  mkVRRP (base v) (Version v) (Type_ v) (VirtualRtrID v) (Priority v) (CountIPAddr v) auth adv csum (IPAddress v).
Definition append_address (a : bytes) (v : VRRPv2) : VRRPv2 :=
  mkVRRP (base v) (Version v) (Type_ v) (VirtualRtrID v) (Priority v) (CountIPAddr v) (AuthType v) (AdverInt v) (Checksum v)
    (IPAddress v ++ [a]).

(** The loop over the addresses. *)
Fixpoint decode_addresses (n : nat) (data : bytes) (offset : Z) : M (dstate VRRPv2) unit :=
  match n with
  | O => mret tt
  | S n =>
      a ← lift (slice data offset (offset + 4));
      _ ← modify_layer (append_address a);
      decode_addresses n data (offset + 4)
  end.

(** The addresses are added to those of earlier packets. *)
Definition DecodeFromBytes (data : bytes) : M (dstate VRRPv2) unit :=
  b0 ← lift (index data 0);
  _ ← modify_layer (set_type (mkBase data []) (Z.shiftr b0 4) (Z.land b0 0x0F));
  if negb (Z.land b0 0x0F =? 1) then throw (errors_New "Unrecognized VRRPv2 type field.")
  else
    id ← lift (index data 1);
    prio ← lift (index data 2);
    count ← lift (index data 3);
    _ ← modify_layer (set_router id prio count);
    if count <? 1 then throw (errors_New "VRRPv2 number of IP addresses is not valid.")
    else
      auth ← lift (index data 4);
      adv ← lift (index data 5);
      csum ← lift (be16_at data 6);
      _ ← modify_layer (set_rest auth adv csum);
      decode_addresses (Z.to_nat count) data 8.

Definition CanDecode : list LayerType := [LayerTypeVRRP].
Definition NextLayerType (v : VRRPv2) : LayerType := LayerTypeZero.
End Vrrp.

(** ** Packet filter logs ([layers/pflog.go]) *)

Module PfLog.
Record PFLog : Type := mkPFLog {
  base : BaseLayer;
  Length : Z; Family : Z; Action : Z; Reason : Z;
  IFName : bytes; Ruleset : bytes;
  RuleNum : Z; SubruleNum : Z; UID : Z; PID : Z; RuleUID : Z; RulePID : Z;
  Direction : Z;
}.

Definition empty_PFLog : PFLog := mkPFLog (mkBase [] []) 0 0 0 0 [] [] 0 0 0 0 0 0 0.
Definition set_base (b : BaseLayer) (p : PFLog) : PFLog :=
  mkPFLog b (Length p) (Family p) (Action p) (Reason p) (IFName p) (Ruleset p) (RuleNum p) (SubruleNum p) (UID p) (PID p)
    (RuleUID p) (RulePID p) (Direction p).

(** [int32(x)] *)
Definition int32_of (x : Z) : Z := if x <? 2147483648 then x else x - 4294967296.

Definition decode_header (data : bytes) (b : BaseLayer) : outcome PFLog :=
  l ← index data 0;
  fam ← index data 1;
  act ← index data 2;
  why ← index data 3;
  ifn ← slice data 4 20;
  rules ← slice data 20 36;
  rn ← be32_at data 36;
  srn ← be32_at data 40;
  uid ← be32_at data 44;
  pid ← be32_at data 48;
  ruid ← be32_at data 52;
  rpid ← be32_at data 56;
  dir ← index data 60;
  mret (mkPFLog b l fam act why ifn rules rn srn uid (int32_of pid) ruid (int32_of rpid) dir).

(** Sixty bytes are asked for, and the 61st is read. *)
Definition DecodeFromBytes (data : bytes) : M (dstate PFLog) unit :=
  if len data <? 60 then
    _ ← SetTruncated;
    throw (errors_New "PFLog data less than 60 bytes")
  else
    old ← get_layer;
    pf ← lift (decode_header data (base old));
    _ ← put_layer pf;
    if negb (Length pf mod 4 =? 1) then throw (errors_New "PFLog header length should be 3 less than multiple of 4")
    else
      let actualLength := Length pf + 3 in
      if len data <? actualLength then throw (Errorf "PFLog data size < %d" [actualLength])
      else
        contents ← lift (slice_to data actualLength);
        payload ← lift (slice_from data actualLength);
        modify_layer (set_base (mkBase contents payload)).

Definition CanDecode : list LayerType := [LayerTypePFLog].
Definition NextLayerType (md : metadata) (p : PFLog) : LayerType := enum_LayerType md ProtocolFamilyEnum (Family p).
End PfLog.

(** ** Generic UDP encapsulation ([layers/ague_var0.go], [ague_var1.go]) *)

Module Ague.
Record AGUEVar0 : Type := mkVar0 { Version : Z; C : bool; Protocol : Z; Flags : Z; Extensions : bytes; Data : bytes }.

Definition empty_Var0 : AGUEVar0 := mkVar0 0 false 0 0 [] [].

Definition LayerContents (l : AGUEVar0) : bytes :=
  let hlen := u8 (len (Extensions l)) in
  let b0 := Z.lor (u8 (Z.shiftl (Version l) 6)) hlen in
  let b0 := if C l then Z.lor b0 0x20 else b0 in
  [Z.lor b0 hlen; u8 (Protocol l); u8 (Z.shiftr (Flags l) 8); u8 (Z.land (Flags l) 0xff)] ++ Extensions l.

Definition SerializeTo {W} `{SerializeBuffer W} (opts : SerializeOptions) : M (AGUEVar0 * W) unit :=
  l ← get_fields;
  let b := LayerContents l in
  writeTo ← prepend (len b);
  writeTo ← lift (copy_from writeTo 0 b);
  sync writeTo.

Definition DecodeFromBytes (data : bytes) : M (dstate AGUEVar0) unit :=
  b0 ← lift (index data 0);
  p ← lift (index data 1);
  b2 ← lift (index data 2);
  b3 ← lift (index data 3);
  let hlen := Z.land b0 0x1f in
  ext ← lift (slice data 4 (u8 (4 + hlen)));
  d ← lift (slice_from data (u8 (4 + hlen)));
  put_layer (mkVar0 (Z.shiftr b0 6) (has_bits b0 0x20) p (Z.lor (u16 (Z.shiftl b2 8)) b3) ext d).

Definition CanDecode : list LayerType := [LayerTypeAGUEVar0].
Definition NextLayerType (md : metadata) (l : AGUEVar0) : LayerType := enum_LayerType md IPProtocolEnum (Protocol l).

(** The second variant has no header: its data are the bytes themselves. *)
Record AGUEVar1 : Type := mkVar1 { v1_Protocol : Z; v1_Data : bytes }.
Definition empty_Var1 : AGUEVar1 := mkVar1 0 [].

Definition Var1_DecodeFromBytes (data : bytes) : M (dstate AGUEVar1) unit :=
  if len data <? 1 then throw (errors_New "DecodeFromBytes() failed, no data")
  else
    b0 ← lift (index data 0);
    let ipVersion := Z.shiftr b0 4 in
    if ipVersion =? 4 then put_layer (mkVar1 IPProtocolIPv4 data)
    else if ipVersion =? 6 then put_layer (mkVar1 IPProtocolIPv6 data)
    else throw (errors_New "DecodeFromBytes() failed, unknown IP version").

Definition Var1_SerializeTo {W} `{SerializeBuffer W} (opts : SerializeOptions) : M (AGUEVar1 * W) unit := mret tt.
Definition Var1_CanDecode : list LayerType := [LayerTypeAGUEVar1].
Definition Var1_NextLayerType (md : metadata) (l : AGUEVar1) : LayerType := enum_LayerType md IPProtocolEnum (v1_Protocol l).
End Ague.
