(* ===== verification/Sctp.v ===== *)
(** * SCTP ([layers/sctp.go])

    The common header, the chunks and their parameters. Each [parse] is a
    decoder up to the builder; chunks follow each other in the payload of the
    one before. *)

From S2P Require Import Prelude SerializeBuffer LayerClasses Flows BaseLayers Enums LinkLayers.

Record SCTP : Type := mkSCTP {
  base : BaseLayer;
  SrcPort : Z;
  DstPort : Z;
  VerificationTag : Z;
  Checksum : Z;
  sPort : bytes;
  dPort : bytes;
}.

Definition empty_SCTP : SCTP := mkSCTP (mkBase [] []) 0 0 0 0 [] [].

Definition TransportFlow (s : SCTP) : outcome Flow := NewFlow EndpointSCTPPort (sPort s) (dPort s).

Definition decode_header (data : bytes) : outcome SCTP :=
  sp ← slice_to data 2 ≫= BE_Uint16;
  sb ← slice_to data 2;
  dp ← be16_at data 2;
  db ← slice data 2 4;
  tag ← be32_at data 4;
  c ← be32_at data 8;
  contents ← slice_to data 12;
  payload ← slice_from data 12;
  mret (mkSCTP (mkBase contents payload) sp dp tag c sb db).

Definition DecodeFromBytes (data : bytes) : M (dstate SCTP) unit :=
  if len data <? 12 then throw (errors_New "Invalid SCTP common header length")
  else
    s ← lift (decode_header data);
    put_layer s.

(** [crc32.Checksum] with the Castagnoli polynomial, bit by bit. *)
Definition crc_bit (c : Z) : Z := if Z.testbit c 0 then Z.lxor (Z.shiftr c 1) 0x82F63B78 else Z.shiftr c 1.
Definition crc_byte (c b : Z) : Z := Nat.iter 8 crc_bit (Z.lxor c b).
Definition crc32c (data : bytes) : Z := Z.lxor (foldl crc_byte 0xFFFFFFFF data) 0xFFFFFFFF.

(** The four bytes of the checksum are as they were, also while it is computed. *)
Definition SerializeTo {W} `{SerializeBuffer W} (opts : SerializeOptions) : M (SCTP * W) unit :=
  s ← get_fields;
  bytes ← prepend 12;
  bytes ← lift (BE_PutUint16 bytes 0 (SrcPort s));
  bytes ← lift (BE_PutUint16 bytes 2 (DstPort s));
  bytes ← lift (BE_PutUint32 bytes 4 (VerificationTag s));
  _ ← sync bytes;
  if ComputeChecksums opts then
    all ← buffer_Bytes;
    bytes ← lift (LE_PutUint32 bytes 8 (crc32c all));
    sync bytes
  else mret tt.

Definition CanDecode : list LayerType := [LayerTypeSCTP].
Definition NextLayerType (s : SCTP) : LayerType := LayerTypePayload.

(** ** Chunks *)

Record SCTPChunk : Type := mkChunk { ch_base : BaseLayer; Type_ : Z; Flags : Z; Length : Z; ActualLength : Z }.

Definition roundUpToNearest4 (i : Z) : Z := if Z.rem i 4 =? 0 then i else i + 4 - Z.rem i 4.

Definition decodeSCTPChunk (data : bytes) : outcome SCTPChunk :=
  length ← be16_at data 2;
  if length <? 4 then Err (errors_New "invalid SCTP chunk length")
  else
    let actual := roundUpToNearest4 length in
    ct ← index data 0;
    let '(delta, actual) := if ct =? SCTPChunkTypeData then (actual - length, 16) else (0, actual) in
    flags ← index data 1;
    contents ← slice_to data actual;
    payload ← slice data actual (len data - delta);
    mret (mkChunk (mkBase contents payload) ct flags length actual).

Record SCTPParameter : Type := mkParameter { p_Type : Z; p_Length : Z; p_ActualLength : Z; Value : bytes }.

Definition decodeSCTPParameter (data : bytes) : outcome SCTPParameter :=
  length ← be16_at data 2;
  ty ← be16_at data 0;
  v ← slice data 4 length;
  mret (mkParameter ty length (roundUpToNearest4 length) v).

Definition Parameter_Bytes (p : SCTPParameter) : outcome bytes :=
  let length := 4 + len (Value p) in
  data ← BE_PutUint16 (make_bytes (roundUpToNearest4 length)) 0 (p_Type p);
  data ← BE_PutUint16 data 2 (u16 length);
  copy_from data 4 (Value p).

(** [for len(paramData) > 0] *)
Fixpoint decode_parameters (fuel : nat) (paramData : bytes) : outcome (list SCTPParameter) :=
  match fuel with
  | O => NoFuel
  | S fuel =>
      if len paramData >? 0 then
        p ← decodeSCTPParameter paramData;
        rest ← slice_from paramData (p_ActualLength p);
        ps ← decode_parameters fuel rest;
        mret (p :: ps)
      else mret []
  end.

(** The bytes of all parameters. *)
Fixpoint parameters_payload (ps : list SCTPParameter) : outcome bytes :=
  match ps with
  | [] => mret []
  | p :: ps => b ← Parameter_Bytes p; r ← parameters_payload ps; mret (b ++ r)
  end.

(** A layer that is a chunk without more, and one with parameters. *)
Record SCTPUnknownChunkType : Type := mkUnknown { u_chunk : SCTPChunk; u_bytes : bytes }.
Record SCTPParameters : Type := mkParameters { ps_chunk : SCTPChunk; Parameters : list SCTPParameter }.

Record SCTPData : Type := mkData {
  d_chunk : SCTPChunk;
  Unordered : bool; BeginFragment : bool; EndFragment : bool;
  TSN : Z; StreamId : Z; StreamSequence : Z; PayloadProtocol : Z;
}.

Record SCTPInit : Type := mkInit {
  i_chunk : SCTPChunk;
  InitiateTag : Z; i_AdvertisedReceiverWindowCredit : Z;
  OutboundStreams : Z; InboundStreams : Z; InitialTSN : Z;
  i_Parameters : list SCTPParameter;
}.

Record SCTPSack : Type := mkSack {
  s_chunk : SCTPChunk;
  CumulativeTSNAck : Z; s_AdvertisedReceiverWindowCredit : Z;
  NumGapACKs : Z; NumDuplicateTSNs : Z;
  GapACKs : list Z; DuplicateTSNs : list Z;
}.

Record SCTPShutdown : Type := mkShutdown { sh_chunk : SCTPChunk; sh_CumulativeTSNAck : Z }.
Record SCTPCookieEcho : Type := mkCookie { c_chunk : SCTPChunk; Cookie : bytes }.

(** ** Decoding *)

Definition parse_unknown (data : bytes) : outcome SCTPUnknownChunkType :=
  chunk ← decodeSCTPChunk data;
  b ← slice_to data (ActualLength chunk);
  mret (mkUnknown chunk b).

Definition parse_data (data : bytes) : outcome SCTPData :=
  chunk ← decodeSCTPChunk data;
  b1 ← index data 1;
  tsn ← be32_at data 4;
  id ← be16_at data 8;
  seq ← be16_at data 10;
  proto ← be32_at data 12;
  mret (mkData chunk (has_bits b1 0x4) (has_bits b1 0x2) (has_bits b1 0x1) tsn id seq proto).

Definition parse_init (data : bytes) : outcome SCTPInit :=
  chunk ← decodeSCTPChunk data;
  tag ← be32_at data 4;
  credit ← be32_at data 8;
  o ← be16_at data 12;
  i ← be16_at data 14;
  tsn ← be32_at data 16;
  paramData ← slice data 20 (ActualLength chunk);
  ps ← decode_parameters (S (length paramData)) paramData;
  mret (mkInit chunk tag credit o i tsn ps).

(** The loops over the acknowledgements: numbers of two or four bytes, and what is behind them. *)
Fixpoint take_numbers (n : nat) (size : Z) (read : bytes → outcome Z) (bytesRemaining : bytes)
    : outcome (list Z * bytes) :=
  match n with
  | O => mret ([], bytesRemaining)
  | S n =>
      v ← slice_to bytesRemaining size ≫= read;
      rest ← slice_from bytesRemaining size;
      r ← take_numbers n size read rest;
      mret (v :: r.1, r.2)
  end.

Definition parse_sack (data : bytes) : outcome SCTPSack :=
  chunk ← decodeSCTPChunk data;
  ack ← be32_at data 4;
  credit ← be32_at data 8;
  gaps ← be16_at data 12;
  dups ← be16_at data 14;
  bytesRemaining ← slice_from data 16;
  g ← take_numbers (Z.to_nat gaps) 2 BE_Uint16 bytesRemaining;
  d ← take_numbers (Z.to_nat dups) 4 BE_Uint32 g.2;
  mret (mkSack chunk ack credit gaps dups g.1 d.1).

(** [decodeSCTPHeartbeat] and [decodeSCTPError]; the parameters end at [Length],
    before the padding. *)
Definition parse_parameters (data : bytes) : outcome SCTPParameters :=
  chunk ← decodeSCTPChunk data;
  paramData ← slice data 4 (Length chunk);
  ps ← decode_parameters (S (length paramData)) paramData;
  mret (mkParameters chunk ps).

Definition parse_shutdown (data : bytes) : outcome SCTPShutdown :=
  chunk ← decodeSCTPChunk data;
  ack ← be32_at data 4;
  mret (mkShutdown chunk ack).

Definition parse_cookie (data : bytes) : outcome SCTPCookieEcho :=
  chunk ← decodeSCTPChunk data;
  c ← slice data 4 (Length chunk);
  mret (mkCookie chunk c).

(** The layer types that depend on the type of the chunk. *)
Definition Init_LayerType (i : SCTPInit) : LayerType :=
  if Type_ (i_chunk i) =? SCTPChunkTypeInitAck then LayerTypeSCTPInitAck else LayerTypeSCTPInit.
Definition Heartbeat_LayerType (p : SCTPParameters) : LayerType :=
  if Type_ (ps_chunk p) =? SCTPChunkTypeHeartbeatAck then LayerTypeSCTPHeartbeatAck else LayerTypeSCTPHeartbeat.
Definition Error_LayerType (p : SCTPParameters) : LayerType :=
  if Type_ (ps_chunk p) =? SCTPChunkTypeAbort then LayerTypeSCTPAbort else LayerTypeSCTPError.
Definition EmptyLayer_LayerType (c : SCTPChunk) : LayerType :=
  if Type_ c =? SCTPChunkTypeShutdownComplete then LayerTypeSCTPShutdownComplete else LayerTypeSCTPCookieAck.

(** ** Serialization; no method changes its receiver *)

Section serialize.
Context {L W : Type} `{SerializeBuffer W}.

(** The type, the flags and the length of a chunk. *)
Definition put_chunk (c : SCTPChunk) (flags length : Z) (bytes : bytes) : outcome Prelude.bytes :=
  bytes ← set_index bytes 0 (Type_ c);
  bytes ← set_index bytes 1 flags;
  BE_PutUint16 bytes 2 (u16 length).

Definition Unknown_SerializeTo (s : SCTPUnknownChunkType) (opts : SerializeOptions) : M (L * W) unit :=
  bytes ← prepend (ActualLength (u_chunk s));
  bytes ← lift (copy_from bytes 0 (u_bytes s));
  sync bytes.

(** The padding behind the payload is what was in the buffer. *)
Definition Data_SerializeTo (sc : SCTPData) (opts : SerializeOptions) : M (L * W) unit :=
  payload ← buffer_Bytes;
  let rem := len payload mod 4 in
  _ ← (if negb (rem =? 0) then _ ← append (4 - rem); mret tt else mret tt);
  bytes ← prepend 16;
  let flags := Z.lor (Z.lor (if Unordered sc then 0x4 else 0) (if BeginFragment sc then 0x2 else 0))
                 (if EndFragment sc then 0x1 else 0) in
  bytes ← lift (put_chunk (d_chunk sc) flags (16 + len payload) bytes);
  bytes ← lift (BE_PutUint32 bytes 4 (TSN sc));
  bytes ← lift (BE_PutUint16 bytes 8 (StreamId sc));
  bytes ← lift (BE_PutUint16 bytes 10 (StreamSequence sc));
  bytes ← lift (BE_PutUint32 bytes 12 (PayloadProtocol sc));
  sync bytes.

Definition Init_SerializeTo (sc : SCTPInit) (opts : SerializeOptions) : M (L * W) unit :=
  payload ← lift (parameters_payload (i_Parameters sc));
  let length := 20 + len payload in
  bytes ← prepend (roundUpToNearest4 length);
  bytes ← lift (put_chunk (i_chunk sc) (Flags (i_chunk sc)) length bytes);
  bytes ← lift (BE_PutUint32 bytes 4 (InitiateTag sc));
  bytes ← lift (BE_PutUint32 bytes 8 (i_AdvertisedReceiverWindowCredit sc));
  bytes ← lift (BE_PutUint16 bytes 12 (OutboundStreams sc));
  bytes ← lift (BE_PutUint16 bytes 14 (InboundStreams sc));
  bytes ← lift (BE_PutUint32 bytes 16 (InitialTSN sc));
  bytes ← lift (copy_from bytes 20 payload);
  sync bytes.

Fixpoint put_numbers (put : bytes → Z → Z → outcome bytes) (size : Z) (vs : list Z) (bytes : bytes) (offset : Z)
    : outcome Prelude.bytes :=
  match vs with
  | [] => mret bytes
  | v :: vs => bytes ← put bytes offset v; put_numbers put size vs bytes (offset + size)
  end.

Definition Sack_SerializeTo (sc : SCTPSack) (opts : SerializeOptions) : M (L * W) unit :=
  let length := 16 + 2 * len (GapACKs sc) + 4 * len (DuplicateTSNs sc) in
  bytes ← prepend (roundUpToNearest4 length);
  bytes ← lift (put_chunk (s_chunk sc) (Flags (s_chunk sc)) length bytes);
  bytes ← lift (BE_PutUint32 bytes 4 (CumulativeTSNAck sc));
  bytes ← lift (BE_PutUint32 bytes 8 (s_AdvertisedReceiverWindowCredit sc));
  bytes ← lift (BE_PutUint16 bytes 12 (u16 (len (GapACKs sc))));
  bytes ← lift (BE_PutUint16 bytes 14 (u16 (len (DuplicateTSNs sc))));
  bytes ← lift (put_numbers BE_PutUint16 2 (GapACKs sc) bytes 16);
  bytes ← lift (put_numbers BE_PutUint32 4 (DuplicateTSNs sc) bytes (16 + 2 * len (GapACKs sc)));
  sync bytes.

(** [SerializeTo] of [SCTPHeartbeat] and of [SCTPError]. *)
Definition Parameters_SerializeTo (sc : SCTPParameters) (opts : SerializeOptions) : M (L * W) unit :=
  payload ← lift (parameters_payload (Parameters sc));
  let length := 4 + len payload in
  bytes ← prepend (roundUpToNearest4 length);
  bytes ← lift (put_chunk (ps_chunk sc) (Flags (ps_chunk sc)) length bytes);
  bytes ← lift (copy_from bytes 4 payload);
  sync bytes.

Definition Shutdown_SerializeTo (sc : SCTPShutdown) (opts : SerializeOptions) : M (L * W) unit :=
  bytes ← prepend 8;
  bytes ← lift (put_chunk (sh_chunk sc) (Flags (sh_chunk sc)) 8 bytes);
  bytes ← lift (BE_PutUint32 bytes 4 (sh_CumulativeTSNAck sc));
  sync bytes.

(** [SerializeTo] of [SCTPShutdownAck] and of [SCTPEmptyLayer]. *)
Definition Empty_SerializeTo (sc : SCTPChunk) (opts : SerializeOptions) : M (L * W) unit :=
  bytes ← prepend 4;
  bytes ← lift (put_chunk sc (Flags sc) 4 bytes);
  sync bytes.

Definition Cookie_SerializeTo (sc : SCTPCookieEcho) (opts : SerializeOptions) : M (L * W) unit :=
  let length := 4 + len (Cookie sc) in
  bytes ← prepend (roundUpToNearest4 length);
  bytes ← lift (put_chunk (c_chunk sc) (Flags (c_chunk sc)) length bytes);
  bytes ← lift (copy_from bytes 4 (Cookie sc));
  sync bytes.
End serialize.

(** The standard check value of the checksum. *)
Example crc32c_check : crc32c [49; 50; 51; 52; 53; 54; 55; 56; 57] = 0xE3069283.
Proof. vm_compute. reflexivity. Qed.
