(* ===== verification/Decoders.v ===== *)
(** * Decoders in packets ([layers/*.go], [layers/base.go], [layers/enums.go])

    The functions [decodeX] of the layers: what each does with the builder of
    [Packet]. A decoder that is handed on is a value here - a function, a layer
    type, a protocol number - which [Decode] dispatches through the tables. The
    decoders of other layers, and what they add to a packet, are parameters. *)

From S2P Require Import Prelude SerializeBuffer LayerClasses Flows BaseLayers Capture Packet Enums Checksum.
From S2P Require Ethernet Ip4 Ip6 Tcp Udp Dns Lcm LinkLayers TunnelLayers ControlLayers Sctp.

(** The layers; [O] are those of other decoders. *)
Inductive layer (O : Type) : Type :=
  | LPayload (l : bytes)
  | LFragment (l : bytes)
  | LEthernet (l : Ethernet.Ethernet)
  | LARP (l : LinkLayers.Arp.ARP)
  | LDot1Q (l : LinkLayers.Dot1Q.Dot1Q)
  | LLoopback (l : LinkLayers.Loopback.Loopback)
  | LLLC (l : LinkLayers.Llc.LLC)
  | LSNAP (l : LinkLayers.Snap.SNAP)
  | LPPP (l : LinkLayers.Ppp.PPP)
  | LPPPoE (l : LinkLayers.Pppoe.PPPoE)
  | LMPLS (l : LinkLayers.Mpls.MPLS)
  | LEthernetCTP (l : LinkLayers.Ctp.EthernetCTP)
  | LEthernetCTPForwardData (l : LinkLayers.Ctp.EthernetCTPForwardData)
  | LEthernetCTPReply (l : LinkLayers.Ctp.EthernetCTPReply)
  | LFDDI (l : LinkLayers.Fddi.FDDI)
  | LLinuxSLL (l : LinkLayers.LinuxSll.LinuxSLL)
  | LIPv4 (l : Ip4.IPv4)
  | LIPv6 (l : Ip6.IPv6)
  | LIPv6HopByHop (l : Ip6.IPv6HopByHop)
  | LIPv6Routing (l : Ip6.IPv6Routing)
  | LIPv6Fragment (l : Ip6.IPv6Fragment)
  | LIPv6Destination (l : Ip6.IPv6Destination)
  | LIPSecAH (l : TunnelLayers.IpSec.IPSecAH)
  | LIPSecESP (l : TunnelLayers.IpSec.IPSecESP)
  | LTCP (l : Tcp.TCP)
  | LUDP (l : Udp.UDP)
  | LUDPLite (l : ControlLayers.UdpLite.UDPLite)
  | LRUDP (l : ControlLayers.Rudp.RUDP)
  | LICMPv4 (l : ControlLayers.Icmp4.ICMPv4)
  | LICMPv6 (l : ControlLayers.Icmp6.ICMPv6)
  | LICMPv6Echo (l : ControlLayers.Icmp6.ICMPv6Echo)
  | LICMPv6RouterSolicitation (l : ControlLayers.Icmp6.ICMPv6RouterSolicitation)
  | LICMPv6RouterAdvertisement (l : ControlLayers.Icmp6.ICMPv6RouterAdvertisement)
  | LICMPv6NeighborSolicitation (l : ControlLayers.Icmp6.ICMPv6NeighborSolicitation)
  | LICMPv6NeighborAdvertisement (l : ControlLayers.Icmp6.ICMPv6NeighborAdvertisement)
  | LICMPv6Redirect (l : ControlLayers.Icmp6.ICMPv6Redirect)
  | LSTP (l : ControlLayers.Stp.STP)
  | LEAP (l : ControlLayers.Eap.EAP)
  | LVRRP (l : ControlLayers.Vrrp.VRRPv2)
  | LPFLog (l : ControlLayers.PfLog.PFLog)
  | LAGUEVar0 (l : ControlLayers.Ague.AGUEVar0)
  | LAGUEVar1 (l : ControlLayers.Ague.AGUEVar1)
  | LGRE (l : TunnelLayers.Gre.GRE)
  | LVXLAN (l : TunnelLayers.Vxlan.VXLAN)
  | LEtherIP (l : TunnelLayers.EtherIp.EtherIP)
  | LERSPANII (l : TunnelLayers.Erspan2.ERSPANII)
  | LGeneve (l : TunnelLayers.Geneve.Geneve)
  | LGTPv1U (l : TunnelLayers.Gtp.GTPv1U)
  | LDNS (l : Dns.DNS)
  | LLCM (l : Lcm.LCM)
  | LSCTP (l : Sctp.SCTP)
  | LSCTPData (l : Sctp.SCTPData)
  | LSCTPInit (l : Sctp.SCTPInit)
  | LSCTPSack (l : Sctp.SCTPSack)
  | LSCTPHeartbeat (l : Sctp.SCTPParameters)
  | LSCTPError (l : Sctp.SCTPParameters)
  | LSCTPShutdown (l : Sctp.SCTPShutdown)
  | LSCTPShutdownAck (l : Sctp.SCTPChunk)
  | LSCTPCookieEcho (l : Sctp.SCTPCookieEcho)
  | LSCTPEmptyLayer (l : Sctp.SCTPChunk)
  | LOther (l : O).

Arguments LPayload {O} l.
Arguments LFragment {O} l.
Arguments LEthernet {O} l.
Arguments LARP {O} l.
Arguments LDot1Q {O} l.
Arguments LLoopback {O} l.
Arguments LLLC {O} l.
Arguments LSNAP {O} l.
Arguments LPPP {O} l.
Arguments LPPPoE {O} l.
Arguments LMPLS {O} l.
Arguments LEthernetCTP {O} l.
Arguments LEthernetCTPForwardData {O} l.
Arguments LEthernetCTPReply {O} l.
Arguments LFDDI {O} l.
Arguments LLinuxSLL {O} l.
Arguments LIPv4 {O} l.
Arguments LIPv6 {O} l.
Arguments LIPv6HopByHop {O} l.
Arguments LIPv6Routing {O} l.
Arguments LIPv6Fragment {O} l.
Arguments LIPv6Destination {O} l.
Arguments LIPSecAH {O} l.
Arguments LIPSecESP {O} l.
Arguments LTCP {O} l.
Arguments LUDP {O} l.
Arguments LUDPLite {O} l.
Arguments LRUDP {O} l.
Arguments LICMPv4 {O} l.
Arguments LICMPv6 {O} l.
Arguments LICMPv6Echo {O} l.
Arguments LICMPv6RouterSolicitation {O} l.
Arguments LICMPv6RouterAdvertisement {O} l.
Arguments LICMPv6NeighborSolicitation {O} l.
Arguments LICMPv6NeighborAdvertisement {O} l.
Arguments LICMPv6Redirect {O} l.
Arguments LSTP {O} l.
Arguments LEAP {O} l.
Arguments LVRRP {O} l.
Arguments LPFLog {O} l.
Arguments LAGUEVar0 {O} l.
Arguments LAGUEVar1 {O} l.
Arguments LGRE {O} l.
Arguments LVXLAN {O} l.
Arguments LEtherIP {O} l.
Arguments LERSPANII {O} l.
Arguments LGeneve {O} l.
Arguments LGTPv1U {O} l.
Arguments LDNS {O} l.
Arguments LLCM {O} l.
Arguments LSCTP {O} l.
Arguments LSCTPData {O} l.
Arguments LSCTPInit {O} l.
Arguments LSCTPSack {O} l.
Arguments LSCTPHeartbeat {O} l.
Arguments LSCTPError {O} l.
Arguments LSCTPShutdown {O} l.
Arguments LSCTPShutdownAck {O} l.
Arguments LSCTPCookieEcho {O} l.
Arguments LSCTPEmptyLayer {O} l.
Arguments LOther {O} l.

(** What is handed to [NextDecoder]; [F] are decoders of the other layers' own. *)
Inductive decoder (F : Type) : Type :=
  | DecodeFunc_ (f : decode_func)
  | DecodeType (t : LayerType)
  | DecodeEnum (k : enum_kind) (a : Z)
  | GuessingDecoder
  | EthernetCTPFromFunctionType
  | WithSCTPChunkTypePrefix
  | OtherDecoder (x : F).
Arguments DecodeFunc_ {F} f.
Arguments DecodeType {F} t.
Arguments DecodeEnum {F} k a.
Arguments GuessingDecoder {F}.
Arguments EthernetCTPFromFunctionType {F}.
Arguments WithSCTPChunkTypePrefix {F}.
Arguments OtherDecoder {F} x.

(** The variables of the packages that decoding consults. *)
Record tables : Type := mkTables {
  t_registry : registry decode_func;
  t_metadata : metadata;
  t_tcp : port_table;
  t_udp : port_table;
  t_lcm : Lcm.lcm_table;
}.

(** Their values at start. *)
Definition initial_tables (openbsd : bool) : outcome tables :=
  r ← register_all layertypes empty_registry;
  mret (mkTables r (initial_metadata openbsd) tcpPortLayerType udpPortLayerType Lcm.initial_table).

(** The reason that marks an exhausted loop bound in a builder; it never occurs. *)
Definition loop_bound : crash := Panicked "loop bound exhausted".

Section decoders.
Context {O F : Type} `{LayerIface O}.
Notation builder := (Packet.builder (layer O) (decoder F)).

Definition layer_LayerType (x : layer O) : LayerType :=
  match x with
  | LPayload _ => LayerTypePayload
  | LFragment _ => LayerTypeFragment
  | LEthernet _ => LayerTypeEthernet
  | LARP _ => LayerTypeARP
  | LDot1Q _ => LayerTypeDot1Q
  | LLoopback _ => LayerTypeLoopback
  | LLLC _ => LayerTypeLLC
  | LSNAP _ => LayerTypeSNAP
  | LPPP _ => LayerTypePPP
  | LPPPoE _ => LayerTypePPPoE
  | LMPLS _ => LayerTypeMPLS
  | LEthernetCTP _ => LayerTypeEthernetCTP
  | LEthernetCTPForwardData _ => LayerTypeEthernetCTPForwardData
  | LEthernetCTPReply _ => LayerTypeEthernetCTPReply
  | LFDDI _ => LayerTypeFDDI
  | LLinuxSLL _ => LayerTypeLinuxSLL
  | LIPv4 _ => LayerTypeIPv4
  | LIPv6 _ => LayerTypeIPv6
  | LIPv6HopByHop _ => LayerTypeIPv6HopByHop
  | LIPv6Routing _ => LayerTypeIPv6Routing
  | LIPv6Fragment _ => LayerTypeIPv6Fragment
  | LIPv6Destination _ => LayerTypeIPv6Destination
  | LIPSecAH _ => LayerTypeIPSecAH
  | LIPSecESP _ => LayerTypeIPSecESP
  | LTCP _ => LayerTypeTCP
  | LUDP _ => LayerTypeUDP
  | LUDPLite _ => LayerTypeUDPLite
  | LRUDP _ => LayerTypeRUDP
  | LICMPv4 _ => LayerTypeICMPv4
  | LICMPv6 _ => LayerTypeICMPv6
  | LICMPv6Echo _ => LayerTypeICMPv6Echo
  | LICMPv6RouterSolicitation _ => LayerTypeICMPv6RouterSolicitation
  | LICMPv6RouterAdvertisement _ => LayerTypeICMPv6RouterAdvertisement
  | LICMPv6NeighborSolicitation _ => LayerTypeICMPv6NeighborSolicitation
  | LICMPv6NeighborAdvertisement _ => LayerTypeICMPv6NeighborAdvertisement
  | LICMPv6Redirect _ => LayerTypeICMPv6Redirect
  | LSTP _ => LayerTypeSTP
  | LEAP _ => LayerTypeEAP
  | LVRRP _ => LayerTypeVRRP
  | LPFLog _ => LayerTypePFLog
  | LAGUEVar0 _ => LayerTypeAGUEVar0
  | LAGUEVar1 _ => LayerTypeAGUEVar1
  | LGRE _ => LayerTypeGRE
  | LVXLAN _ => LayerTypeVXLAN
  | LEtherIP _ => LayerTypeEtherIP
  | LERSPANII _ => LayerTypeERSPANII
  | LGeneve _ => LayerTypeGeneve
  | LGTPv1U _ => LayerTypeGTPv1U
  | LDNS _ => LayerTypeDNS
  | LLCM _ => LayerTypeLCM
  | LSCTP _ => LayerTypeSCTP
  | LSCTPData _ => LayerTypeSCTPData
  | LSCTPInit l => Sctp.Init_LayerType l
  | LSCTPSack _ => LayerTypeSCTPSack
  | LSCTPHeartbeat l => Sctp.Heartbeat_LayerType l
  | LSCTPError l => Sctp.Error_LayerType l
  | LSCTPShutdown _ => LayerTypeSCTPShutdown
  | LSCTPShutdownAck _ => LayerTypeSCTPShutdownAck
  | LSCTPCookieEcho _ => LayerTypeSCTPCookieEcho
  | LSCTPEmptyLayer l => Sctp.EmptyLayer_LayerType l
  | LOther l => x_type l
  end.

Definition layer_LayerPayload (x : layer O) : bytes :=
  match x with
  | LPayload l => []
  | LFragment l => []
  | LEthernet l => Payload (Ethernet.base l)
  | LARP l => Payload (LinkLayers.Arp.base l)
  | LDot1Q l => Payload (LinkLayers.Dot1Q.base l)
  | LLoopback l => Payload (LinkLayers.Loopback.base l)
  | LLLC l => Payload (LinkLayers.Llc.base l)
  | LSNAP l => Payload (LinkLayers.Snap.base l)
  | LPPP l => Payload (LinkLayers.Ppp.base l)
  | LPPPoE l => Payload (LinkLayers.Pppoe.base l)
  | LMPLS l => Payload (LinkLayers.Mpls.base l)
  | LEthernetCTP l => Payload (LinkLayers.Ctp.base l)
  | LEthernetCTPForwardData l => Payload (LinkLayers.Ctp.fw_base l)
  | LEthernetCTPReply l => Payload (LinkLayers.Ctp.re_base l)
  | LFDDI l => Payload (LinkLayers.Fddi.base l)
  | LLinuxSLL l => Payload (LinkLayers.LinuxSll.base l)
  | LIPv4 l => Payload (Ip4.base l)
  | LIPv6 l => Payload (Ip6.base l)
  | LIPv6HopByHop l => Payload (Ip6.ext_base (Ip6.ext l))
  | LIPv6Routing l => Payload (Ip6.ext_base (Ip6.rt_ext l))
  | LIPv6Fragment l => Payload (Ip6.fr_base l)
  | LIPv6Destination l => Payload (Ip6.ext_base (Ip6.ext l))
  | LIPSecAH l => Payload (Ip6.ext_base (TunnelLayers.IpSec.ext l))
  | LIPSecESP l => Payload (TunnelLayers.IpSec.esp_base l)
  | LTCP l => Payload (Tcp.base l)
  | LUDP l => Payload (Udp.base l)
  | LUDPLite l => Payload (ControlLayers.UdpLite.base l)
  | LRUDP l => Payload (ControlLayers.Rudp.base l)
  | LICMPv4 l => Payload (ControlLayers.Icmp4.base l)
  | LICMPv6 l => Payload (ControlLayers.Icmp6.base l)
  | LICMPv6Echo l => Payload (ControlLayers.Icmp6.echo_base l)
  | LICMPv6RouterSolicitation l => Payload (ControlLayers.Icmp6.rs_base l)
  | LICMPv6RouterAdvertisement l => Payload (ControlLayers.Icmp6.ra_base l)
  | LICMPv6NeighborSolicitation l => Payload (ControlLayers.Icmp6.ns_base l)
  | LICMPv6NeighborAdvertisement l => Payload (ControlLayers.Icmp6.na_base l)
  | LICMPv6Redirect l => Payload (ControlLayers.Icmp6.rd_base l)
  | LSTP l => Payload (ControlLayers.Stp.base l)
  | LEAP l => Payload (ControlLayers.Eap.base l)
  | LVRRP l => Payload (ControlLayers.Vrrp.base l)
  | LPFLog l => Payload (ControlLayers.PfLog.base l)
  | LAGUEVar0 l => ControlLayers.Ague.Data l
  | LAGUEVar1 l => ControlLayers.Ague.v1_Data l
  | LGRE l => Payload (TunnelLayers.Gre.base l)
  | LVXLAN l => Payload (TunnelLayers.Vxlan.base l)
  | LEtherIP l => Payload (TunnelLayers.EtherIp.base l)
  | LERSPANII l => Payload (TunnelLayers.Erspan2.base l)
  | LGeneve l => Payload (TunnelLayers.Geneve.base l)
  | LGTPv1U l => Payload (TunnelLayers.Gtp.base l)
  | LDNS l => Payload (Dns.base l)
  | LLCM l => Lcm.payload l
  | LSCTP l => Payload (Sctp.base l)
  | LSCTPData l => Payload (Sctp.ch_base (Sctp.d_chunk l))
  | LSCTPInit l => Payload (Sctp.ch_base (Sctp.i_chunk l))
  | LSCTPSack l => Payload (Sctp.ch_base (Sctp.s_chunk l))
  | LSCTPHeartbeat l => Payload (Sctp.ch_base (Sctp.ps_chunk l))
  | LSCTPError l => Payload (Sctp.ch_base (Sctp.ps_chunk l))
  | LSCTPShutdown l => Payload (Sctp.ch_base (Sctp.sh_chunk l))
  | LSCTPShutdownAck l => Payload (Sctp.ch_base l)
  | LSCTPCookieEcho l => Payload (Sctp.ch_base (Sctp.c_chunk l))
  | LSCTPEmptyLayer l => Payload (Sctp.ch_base l)
  | LOther l => x_payload l
  end.

#[export] Instance layer_iface : LayerIface (layer O) := { x_type := layer_LayerType; x_payload := layer_LayerPayload }.

(** ** Running a decoder's methods in the builder *)

Definition give {A} (o : outcome A) (k : A → builder) : builder :=
  match o with
  | Ok a => k a
  | Err e => Return (Some e)
  | Panic c => Crash c
  | NoFuel => Crash loop_bound
  end.

Definition feedback (truncated : bool) (b : builder) : builder := if truncated then SetTruncatedThen b else b.

(** [if err := l.DecodeFromBytes(data, p); err != nil { return err }] on a new layer. *)
Definition run_layer {L} (zero : L) (dec : M (dstate L) unit) (k : L → builder) : builder :=
  let '(o, s) := dec (DState zero false) in
  feedback (dtruncated s) (give o (fun _ => k (dlayer s))).

(** The same with the error looked at after [k] has added the layer. *)
Definition run_layer_add {L} (zero : L) (dec : M (dstate L) unit) (add : L → builder → builder) (k : L → builder) : builder :=
  let '(o, s) := dec (DState zero false) in
  feedback (dtruncated s)
    (match o with
     | Ok _ => add (dlayer s) (k (dlayer s))
     | Err e => add (dlayer s) (Return (Some e))
     | o => give o (fun _ => Return None)
     end).

(** With [NilDecodeFeedback]. *)
Definition run_layer_nil {L} (zero : L) (dec : M (dstate L) unit) (k : L → builder) : builder :=
  let '(o, s) := dec (DState zero false) in give o (fun _ => k (dlayer s)).

(** A decoder that makes its layer itself. *)
Definition run_parse {A} (p : M (dstate unit) A) (k : A → builder) : builder :=
  let '(o, s) := p (DState tt false) in feedback (dtruncated s) (give o k).

(** [p.AddLayer(l)], alone or with one of the setters, and [return p.NextDecoder(d)] *)
Definition next (d : decoder F) : builder := NextDecoder (Some d) Return.
Definition add_as (s : slot) (l : layer O) (k : builder) : builder := AddLayer l (SetLayer s l k).

Definition decodingLayerDecoder {L} (zero : L) (dec : M (dstate L) unit) (inj : L → layer O) (NextLayerType : L → LayerType)
    : builder :=
  run_layer zero dec (fun l => AddLayer (inj l)
    (if NextLayerType l =? LayerTypeZero then Return None else next (DecodeType (NextLayerType l)))).

(** The decoders of other layers. *)
Context (tb : tables) (other : decode_func + F → bytes → builder).
Let md : metadata := t_metadata tb.

Definition decodeUnknown (data : bytes) : builder := Return (Some (errors_New "Layer type not currently supported")).
Definition decodePayload (data : bytes) : builder :=
  run_layer [] (PayloadLayer.DecodeFromBytes data) (fun l => add_as ApplicationSlot (LPayload l) (Return None)).
Definition decodeFragment (data : bytes) : builder :=
  run_layer [] (FragmentLayer.DecodeFromBytes data) (fun l => add_as ApplicationSlot (LFragment l) (Return None)).

(** *** Next to the link *)

Definition decodeEthernet (data : bytes) : builder :=
  run_layer Ethernet.empty_Ethernet (Ethernet.DecodeFromBytes data)
    (fun eth => add_as LinkSlot (LEthernet eth) (next (DecodeEnum EthernetTypeEnum (Ethernet.EthernetType eth)))).
Definition decodeARP (data : bytes) : builder :=
  decodingLayerDecoder LinkLayers.Arp.empty_ARP (LinkLayers.Arp.DecodeFromBytes data) LARP LinkLayers.Arp.NextLayerType.
Definition decodeDot1Q (data : bytes) : builder :=
  decodingLayerDecoder LinkLayers.Dot1Q.empty_Dot1Q (LinkLayers.Dot1Q.DecodeFromBytes data) LDot1Q (LinkLayers.Dot1Q.NextLayerType md).
Definition decodeLoopback (data : bytes) : builder :=
  run_layer_nil LinkLayers.Loopback.empty_Loopback (LinkLayers.Loopback.DecodeFromBytes data)
    (fun l => AddLayer (LLoopback l) (next (DecodeEnum ProtocolFamilyEnum (LinkLayers.Loopback.Family l)))).
Definition decodeLLC (data : bytes) : builder :=
  run_layer LinkLayers.Llc.empty_LLC (LinkLayers.Llc.DecodeFromBytes data)
    (fun l => AddLayer (LLLC l) (next (DecodeType (LinkLayers.Llc.NextLayerType l)))).
Definition decodeSNAP (data : bytes) : builder :=
  run_layer LinkLayers.Snap.empty_SNAP (LinkLayers.Snap.DecodeFromBytes data)
    (fun s => AddLayer (LSNAP s) (next (DecodeEnum EthernetTypeEnum (LinkLayers.Snap.Type_ s)))).
Definition decodePPP (data : bytes) : builder :=
  run_parse (LinkLayers.Ppp.parse data)
    (fun p => add_as LinkSlot (LPPP p) (next (DecodeEnum PPPTypeEnum (LinkLayers.Ppp.PPPType p)))).
Definition decodePPPoE (data : bytes) : builder :=
  run_parse (LinkLayers.Pppoe.parse data)
    (fun p => AddLayer (LPPPoE p) (next (DecodeEnum PPPoECodeEnum (LinkLayers.Pppoe.Code p)))).
Definition MPLSPayloadDecoder : decoder F := GuessingDecoder.
Definition decodeMPLS (data : bytes) : builder :=
  run_parse (LinkLayers.Mpls.parse data)
    (fun m => AddLayer (LMPLS m)
      (if LinkLayers.Mpls.StackBottom m then next MPLSPayloadDecoder else next (DecodeFunc_ F_decodeMPLS))).
Definition decodeEthernetCTP (data : bytes) : builder :=
  run_parse (LinkLayers.Ctp.parse data) (fun c => AddLayer (LEthernetCTP c) (next EthernetCTPFromFunctionType)).
Definition decodeEthernetCTPFromFunctionType (data : bytes) : builder :=
  run_parse (LinkLayers.Ctp.parse_function data)
    (fun x => match x with
       | inl reply => add_as ApplicationSlot (LEthernetCTPReply reply) (Return None)
       | inr forward => AddLayer (LEthernetCTPForwardData forward) (next EthernetCTPFromFunctionType)
       end).
Definition decodeFDDI (data : bytes) : builder :=
  run_parse (LinkLayers.Fddi.parse data)
    (fun f => SetLayer LinkSlot (LFDDI f) (AddLayer (LFDDI f)
      (next (DecodeEnum FDDIFrameControlEnum (LinkLayers.Fddi.FrameControl f))))).
Definition decodeLinuxSLL (data : bytes) : builder :=
  run_layer LinkLayers.LinuxSll.empty_SLL (LinkLayers.LinuxSll.DecodeFromBytes data)
    (fun s => add_as LinkSlot (LLinuxSLL s) (next (DecodeEnum EthernetTypeEnum (LinkLayers.LinuxSll.EthernetType s)))).
Definition decodeSTP (data : bytes) : builder :=
  decodingLayerDecoder ControlLayers.Stp.empty_STP (ControlLayers.Stp.DecodeFromBytes data) LSTP ControlLayers.Stp.NextLayerType.
Definition decodeEAP (data : bytes) : builder :=
  decodingLayerDecoder ControlLayers.Eap.empty_EAP (ControlLayers.Eap.DecodeFromBytes data) LEAP ControlLayers.Eap.NextLayerType.
Definition decodePFLog (data : bytes) : builder :=
  decodingLayerDecoder ControlLayers.PfLog.empty_PFLog (ControlLayers.PfLog.DecodeFromBytes data) LPFLog
    (ControlLayers.PfLog.NextLayerType md).

(** *** Networks *)

Definition decodeIPv4 (data : bytes) : builder :=
  run_layer_add Ip4.empty_IPv4 (Ip4.DecodeFromBytes data) (fun i => add_as NetworkSlot (LIPv4 i))
    (fun i => next (DecodeType (Ip4.NextLayerType md i))).
Definition decodeIPv6 (data : bytes) : builder :=
  run_layer_add Ip6.empty_IPv6 (Ip6.DecodeFromBytes data)
    (fun i k => add_as NetworkSlot (LIPv6 i)
       (match Ip6.HopByHop i with Some h => AddLayer (LIPv6HopByHop h) k | None => k end))
    (fun i => next (DecodeType (Ip6.NextLayerType md i))).
Definition decodeIPv4or6 (data : bytes) : builder :=
  give (index data 0) (fun b =>
    let version := Z.shiftr b 4 in
    if version =? 4 then decodeIPv4 data
    else if version =? 6 then decodeIPv6 data
    else Return (Some (Errorf "Invalid IP packet version %v" [version]))).
Definition decodeIPv6HopByHop (data : bytes) : builder :=
  run_layer_add Ip6.empty_options_header (Ip6.HopByHop_DecodeFromBytes data) (fun i => AddLayer (LIPv6HopByHop i))
    (fun i => next (DecodeEnum IPProtocolEnum (Ip6.ext_NextHeader (Ip6.ext i)))).
Definition decodeIPv6Destination (data : bytes) : builder :=
  run_layer_add Ip6.empty_options_header (Ip6.Destination_DecodeFromBytes data) (fun i => AddLayer (LIPv6Destination i))
    (fun i => next (DecodeEnum IPProtocolEnum (Ip6.ext_NextHeader (Ip6.ext i)))).
Definition decodeIPv6Routing (data : bytes) : builder :=
  run_parse (Ip6.parse_routing data)
    (fun i => AddLayer (LIPv6Routing i) (next (DecodeEnum IPProtocolEnum (Ip6.ext_NextHeader (Ip6.rt_ext i))))).
Definition decodeIPv6Fragment (data : bytes) : builder :=
  run_parse (Ip6.parse_fragment data) (fun i => AddLayer (LIPv6Fragment i) (next (DecodeFunc_ F_DecodeFragment))).
Definition decodeIPSecAH (data : bytes) : builder :=
  run_parse (TunnelLayers.IpSec.parse_AH data)
    (fun i => AddLayer (LIPSecAH i) (next (DecodeEnum IPProtocolEnum (Ip6.ext_NextHeader (TunnelLayers.IpSec.ext i))))).
Definition decodeIPSecESP (data : bytes) : builder :=
  run_parse (TunnelLayers.IpSec.parse_ESP data) (fun i => AddLayer (LIPSecESP i) (Return None)).
Definition decodeICMPv4 (data : bytes) : builder :=
  decodingLayerDecoder ControlLayers.Icmp4.empty_ICMPv4 (ControlLayers.Icmp4.DecodeFromBytes data) LICMPv4
    ControlLayers.Icmp4.NextLayerType.
Definition decodeICMPv6 (data : bytes) : builder :=
  decodingLayerDecoder ControlLayers.Icmp6.empty_ICMPv6 (ControlLayers.Icmp6.DecodeFromBytes data) LICMPv6
    ControlLayers.Icmp6.NextLayerType.
Definition decodeICMPv6Echo (data : bytes) : builder :=
  decodingLayerDecoder ControlLayers.Icmp6.empty_Echo (ControlLayers.Icmp6.Echo_DecodeFromBytes data) LICMPv6Echo
    (fun _ => LayerTypePayload).
Definition decodeICMPv6RouterSolicitation (data : bytes) : builder :=
  decodingLayerDecoder ControlLayers.Icmp6.empty_RS (ControlLayers.Icmp6.RS_DecodeFromBytes data) LICMPv6RouterSolicitation
    (fun _ => LayerTypePayload).
Definition decodeICMPv6RouterAdvertisement (data : bytes) : builder :=
  decodingLayerDecoder ControlLayers.Icmp6.empty_RA (ControlLayers.Icmp6.RA_DecodeFromBytes data) LICMPv6RouterAdvertisement
    (fun _ => LayerTypePayload).
Definition decodeICMPv6NeighborSolicitation (data : bytes) : builder :=
  decodingLayerDecoder ControlLayers.Icmp6.empty_NS (ControlLayers.Icmp6.NS_DecodeFromBytes data) LICMPv6NeighborSolicitation
    (fun _ => LayerTypePayload).
Definition decodeICMPv6NeighborAdvertisement (data : bytes) : builder :=
  decodingLayerDecoder ControlLayers.Icmp6.empty_NA (ControlLayers.Icmp6.NA_DecodeFromBytes data) LICMPv6NeighborAdvertisement
    (fun _ => LayerTypePayload).
Definition decodeICMPv6Redirect (data : bytes) : builder :=
  decodingLayerDecoder ControlLayers.Icmp6.empty_Redirect (ControlLayers.Icmp6.Redirect_DecodeFromBytes data) LICMPv6Redirect
    (fun _ => LayerTypePayload).
Definition decodeVRRP (data : bytes) : builder :=
  if len data <? 8 then Return (Some (errors_New "Not a valid VRRP packet. Packet length is too small."))
  else decodingLayerDecoder ControlLayers.Vrrp.empty_VRRP (ControlLayers.Vrrp.DecodeFromBytes data) LVRRP
         ControlLayers.Vrrp.NextLayerType.

(** *** Transports *)

Definition decodeTCP (data : bytes) : builder :=
  run_layer_add Tcp.empty_TCP (Tcp.DecodeFromBytes data) (fun t => add_as TransportSlot (LTCP t))
    (fun t => GetDecodeOptions (fun o =>
       if DecodeStreamsAsDatagrams o then next (DecodeType (Tcp.NextLayerType (t_tcp tb) t))
       else next (DecodeType LayerTypePayload))).
Definition decodeUDP (data : bytes) : builder :=
  run_layer_add Udp.empty_UDP (Udp.DecodeFromBytes data) (fun u => add_as TransportSlot (LUDP u))
    (fun u => next (DecodeType (Udp.NextLayerType (t_udp tb) u))).
Definition decodeUDPLite (data : bytes) : builder :=
  run_parse (ControlLayers.UdpLite.parse data)
    (fun u => add_as TransportSlot (LUDPLite u) (next (DecodeType LayerTypePayload))).
Definition decodeRUDP (data : bytes) : builder :=
  run_parse (ControlLayers.Rudp.parse data)
    (fun r => add_as TransportSlot (LRUDP r) (next (DecodeType LayerTypePayload))).
Definition decodeSCTP (data : bytes) : builder :=
  run_layer_add Sctp.empty_SCTP (Sctp.DecodeFromBytes data) (fun s => add_as TransportSlot (LSCTP s))
    (fun _ => next WithSCTPChunkTypePrefix).

(** The chunks, which all but the data chunk are followed by others. *)
Definition decode_chunk {A} (p : bytes → outcome A) (inj : A → layer O) (data : bytes) : builder :=
  give (p data) (fun sc => AddLayer (inj sc) (next WithSCTPChunkTypePrefix)).
Definition decodeSCTPData (data : bytes) : builder :=
  give (Sctp.parse_data data) (fun sc => AddLayer (LSCTPData sc) (next (DecodeType LayerTypePayload))).
Definition decodeSCTPInit : bytes → builder := decode_chunk Sctp.parse_init LSCTPInit.
Definition decodeSCTPSack : bytes → builder := decode_chunk Sctp.parse_sack LSCTPSack.
Definition decodeSCTPHeartbeat : bytes → builder := decode_chunk Sctp.parse_parameters LSCTPHeartbeat.
Definition decodeSCTPError : bytes → builder := decode_chunk Sctp.parse_parameters LSCTPError.
Definition decodeSCTPShutdown : bytes → builder := decode_chunk Sctp.parse_shutdown LSCTPShutdown.
Definition decodeSCTPShutdownAck : bytes → builder := decode_chunk Sctp.decodeSCTPChunk LSCTPShutdownAck.
Definition decodeSCTPCookieEcho : bytes → builder := decode_chunk Sctp.parse_cookie LSCTPCookieEcho.
Definition decodeSCTPEmptyLayer : bytes → builder := decode_chunk Sctp.decodeSCTPChunk LSCTPEmptyLayer.

(** *** Tunnels and applications *)

Definition decodeGRE (data : bytes) : builder :=
  decodingLayerDecoder TunnelLayers.Gre.empty_GRE (TunnelLayers.Gre.DecodeFromBytes data) LGRE (TunnelLayers.Gre.NextLayerType md).
Definition decodeVXLAN (data : bytes) : builder :=
  run_layer TunnelLayers.Vxlan.empty_VXLAN (TunnelLayers.Vxlan.DecodeFromBytes data)
    (fun vx => AddLayer (LVXLAN vx) (next (DecodeEnum LinkTypeEnum LinkTypeEthernet))).
Definition decodeEtherIP (data : bytes) : builder :=
  decodingLayerDecoder TunnelLayers.EtherIp.empty_EtherIP (TunnelLayers.EtherIp.DecodeFromBytes data) LEtherIP
    TunnelLayers.EtherIp.NextLayerType.
Definition decodeERSPANII (data : bytes) : builder :=
  decodingLayerDecoder TunnelLayers.Erspan2.empty_ERSPANII (TunnelLayers.Erspan2.DecodeFromBytes data) LERSPANII
    TunnelLayers.Erspan2.NextLayerType.
Definition decodeGeneve (data : bytes) : builder :=
  decodingLayerDecoder TunnelLayers.Geneve.empty_Geneve (TunnelLayers.Geneve.DecodeFromBytes data) LGeneve
    (TunnelLayers.Geneve.NextLayerType md).
Definition decodeGTPv1u (data : bytes) : builder :=
  run_layer TunnelLayers.Gtp.empty_GTP (TunnelLayers.Gtp.DecodeFromBytes data)
    (fun g => AddLayer (LGTPv1U g) (next (DecodeType (TunnelLayers.Gtp.NextLayerType g)))).
Definition decodeAGUEVar1 (data : bytes) : builder :=
  run_layer_nil ControlLayers.Ague.empty_Var1 (ControlLayers.Ague.Var1_DecodeFromBytes data)
    (fun l => AddLayer (LAGUEVar1 l) (next (DecodeType (ControlLayers.Ague.Var1_NextLayerType md l)))).
Definition decodeAGUE (data : bytes) : builder :=
  if len data =? 0 then Return (Some (errors_New "decodeAGUE() failed, no data"))
  else give (index data 0) (fun b =>
    if Z.shiftr b 6 =? 1 then decodeAGUEVar1 data
    else run_layer_nil ControlLayers.Ague.empty_Var0 (ControlLayers.Ague.DecodeFromBytes data)
           (fun l => AddLayer (LAGUEVar0 l) (next (DecodeType (ControlLayers.Ague.NextLayerType md l))))).
Definition decodeDNS (data : bytes) : builder :=
  run_layer Dns.empty_DNS (Dns.DecodeFromBytes data) (fun d => add_as ApplicationSlot (LDNS d) (Return None)).
Definition decodeLCM (data : bytes) : builder :=
  run_layer Lcm.empty_LCM (Lcm.DecodeFromBytes data)
    (fun l => add_as ApplicationSlot (LLCM l) (next (DecodeType (Lcm.NextLayerType (t_lcm tb) l)))).

(** ** Dispatch *)

Definition run_func (f : decode_func) (data : bytes) : builder :=
  match f with
  | F_DecodeUnknown => decodeUnknown data
  | F_DecodePayload => decodePayload data
  | F_DecodeFragment => decodeFragment data
  | F_decodeEthernet => decodeEthernet data
  | F_decodeARP => decodeARP data
  | F_decodeDot1Q => decodeDot1Q data
  | F_decodeLoopback => decodeLoopback data
  | F_decodeLLC => decodeLLC data
  | F_decodeSNAP => decodeSNAP data
  | F_decodePPP => decodePPP data
  | F_decodePPPoE => decodePPPoE data
  | F_decodeMPLS => decodeMPLS data
  | F_decodeEthernetCTP => decodeEthernetCTP data
  | F_decodeFDDI => decodeFDDI data
  | F_decodeLinuxSLL => decodeLinuxSLL data
  | F_decodeSTP => decodeSTP data
  | F_decodeEAP => decodeEAP data
  | F_decodePFLog => decodePFLog data
  | F_decodeIPv4 => decodeIPv4 data
  | F_decodeIPv6 => decodeIPv6 data
  | F_decodeIPv4or6 => decodeIPv4or6 data
  | F_decodeIPv6HopByHop => decodeIPv6HopByHop data
  | F_decodeIPv6Destination => decodeIPv6Destination data
  | F_decodeIPv6Routing => decodeIPv6Routing data
  | F_decodeIPv6Fragment => decodeIPv6Fragment data
  | F_decodeIPSecAH => decodeIPSecAH data
  | F_decodeIPSecESP => decodeIPSecESP data
  | F_decodeICMPv4 => decodeICMPv4 data
  | F_decodeICMPv6 => decodeICMPv6 data
  | F_decodeICMPv6Echo => decodeICMPv6Echo data
  | F_decodeICMPv6RouterSolicitation => decodeICMPv6RouterSolicitation data
  | F_decodeICMPv6RouterAdvertisement => decodeICMPv6RouterAdvertisement data
  | F_decodeICMPv6NeighborSolicitation => decodeICMPv6NeighborSolicitation data
  | F_decodeICMPv6NeighborAdvertisement => decodeICMPv6NeighborAdvertisement data
  | F_decodeICMPv6Redirect => decodeICMPv6Redirect data
  | F_decodeVRRP => decodeVRRP data
  | F_decodeTCP => decodeTCP data
  | F_decodeUDP => decodeUDP data
  | F_decodeUDPLite => decodeUDPLite data
  | F_decodeRUDP => decodeRUDP data
  | F_decodeSCTP => decodeSCTP data
  | F_decodeSCTPData => decodeSCTPData data
  | F_decodeSCTPInit => decodeSCTPInit data
  | F_decodeSCTPSack => decodeSCTPSack data
  | F_decodeSCTPHeartbeat => decodeSCTPHeartbeat data
  | F_decodeSCTPError => decodeSCTPError data
  | F_decodeSCTPShutdown => decodeSCTPShutdown data
  | F_decodeSCTPShutdownAck => decodeSCTPShutdownAck data
  | F_decodeSCTPCookieEcho => decodeSCTPCookieEcho data
  | F_decodeSCTPEmptyLayer => decodeSCTPEmptyLayer data
  | F_decodeGRE => decodeGRE data
  | F_decodeVXLAN => decodeVXLAN data
  | F_decodeEtherIP => decodeEtherIP data
  | F_decodeERSPANII => decodeERSPANII data
  | F_decodeGeneve => decodeGeneve data
  | F_decodeGTPv1u => decodeGTPv1u data
  | F_decodeAGUE => decodeAGUE data
  | F_decodeDNS => decodeDNS data
  | F_decodeLCM => decodeLCM data
  | f => other (inl f) data
  end.

(** [Decode] of a protocol number. *)
Definition run_enum (k : enum_kind) (a : Z) (data : bytes) : builder :=
  match enum_Decode md k a with
  | DecodeFunc f => run_func f data
  | errorDecoder k i => Return (Some (Errorf ("Unable to decode " +:+ kind_name k +:+ " %d") [i]))
  end.

Definition Decode (d : decoder F) (data : bytes) : builder :=
  match d with
  | DecodeFunc_ f => run_func f data
  | DecodeType t => give (LayerType_decoder t (t_registry tb)) (fun f => run_func f data)
  | DecodeEnum k a => run_enum k a data
  | GuessingDecoder => give (LinkLayers.Mpls.guess data) (fun f => run_func f data)
  | EthernetCTPFromFunctionType => decodeEthernetCTPFromFunctionType data
  | WithSCTPChunkTypePrefix => give (index data 0) (fun t => run_enum SCTPChunkTypeEnum t data)
  | OtherDecoder x => other (inr x) data
  end.
End decoders.
