(* ===== verification/Typing.v ===== *)
(** * Decoders that may panic: ranges of what they decode

    [safe m Q E s]: run from [s], [m] does not exhaust a loop bound; a value
    satisfies [Q] with its state, and the state left by an error satisfies [E].
    Panics of the runtime are allowed: many decoders of [layers/] read without
    checking the length. The rules give to what is read from bytes the range of its type. *)

From S2P Require Import Prelude SerializeBuffer BaseLayers LinkLayers.

(** A panic of the runtime, not one of a call of [panic]. *)
Definition runtime (c : crash) : Prop := match c with Panicked _ => False | _ => True end.

Definition safe {S A} (m : M S A) (Q : A → S → Prop) (E : S → Prop) (s : S) : Prop :=
  match m s with
  | (Ok a, s') => Q a s'
  | (Err _, s') => E s'
  | (Panic c, _) => runtime c
  | (NoFuel, _) => False
  end.

Definition osafe {A} (o : outcome A) (Q : A → Prop) (E : Prop) : Prop :=
  match o with Ok a => Q a | Err _ => E | Panic c => runtime c | NoFuel => False end.

Section rules.
Context {S : Type}.

Lemma ts_bind {A B} (m : M S A) (k : A → M S B) Q E s :
  safe m (fun a s' => safe (k a) Q E s') E s → safe (m ≫= k) Q E s.
Proof. unfold safe, mbind, M_bind. by destruct (m s) as [[] ?]. Qed.
Lemma ts_ret {A} (a : A) Q E (s : S) : Q a s → safe (mret a) Q E s.
Proof. done. Qed.
Lemma ts_throw {A} e (Q : A → S → Prop) E s : E s → safe (throw e) Q E s.
Proof. done. Qed.
Lemma ts_lift {A} (o : outcome A) Q (E : S → Prop) s : osafe o (fun a => Q a s) (E s) → safe (lift o) Q E s.
Proof. by destruct o. Qed.
Lemma ts_gets {A} (f : S → A) Q E s : Q (f s) s → safe (gets f) Q E s.
Proof. done. Qed.
Lemma ts_modify (f : S → S) Q E s : Q tt (f s) → safe (modify f) Q E s.
Proof. done. Qed.
Lemma ts_if {A} (b : bool) (m1 m2 : M S A) Q E s :
  (b = true → safe m1 Q E s) → (b = false → safe m2 Q E s) → safe (if b then m1 else m2) Q E s.
Proof. destruct b; auto. Qed.
Lemma ts_mono {A} (m : M S A) (Q Q' : A → S → Prop) (E E' : S → Prop) s :
  safe m Q E s → (∀ a s', Q a s' → Q' a s') → (∀ s', E s' → E' s') → safe m Q' E' s.
Proof. unfold safe. destruct (m s) as [[] ?]; auto. Qed.
(** A step whose effect is forgotten but for [Q1]. *)
Lemma ts_phase {A B} (Q1 : A → S → Prop) (m : M S A) (k : A → M S B) Q E s :
  safe m Q1 E s → (∀ a s', Q1 a s' → safe (k a) Q E s') → safe (m ≫= k) Q E s.
Proof. intros Hm Hk. apply ts_bind. eapply ts_mono; [exact Hm | exact Hk | done]. Qed.
Lemma ts_attempt {A} (m : M S A) Q E s :
  safe m (fun a s' => Q (inl a) s') (fun s' => ∀ e, Q (inr e) s') s → safe (attempt m) Q E s.
Proof. unfold safe, attempt. destruct (m s) as [[] ?]; auto. Qed.
Lemma ts_zoom {T A} (view : S → T) upd (m : M T A) Q E s :
  safe m (fun a t => Q a (upd t s)) (fun t => E (upd t s)) (view s) → safe (zoom view upd m) Q E s.
Proof. unfold safe, zoom. by destruct (m (view s)) as [[] ?]. Qed.
Lemma ts_of_wp {A} (m : M S A) Q E s : wp m Q (fun _ => E) s → safe m Q E s.
Proof. unfold wp, safe. by destruct (m s) as [[] ?]. Qed.
End rules.

Section layer_rules.
Context {L : Type}.

Lemma ts_SetTruncated Q E (l : L) tr : Q tt (DState l true) → safe SetTruncated Q E (DState l tr).
Proof. done. Qed.
Lemma ts_get_layer Q E (l : L) tr : Q l (DState l tr) → safe get_layer Q E (DState l tr).
Proof. done. Qed.
Lemma ts_put_layer l' Q E (l : L) tr : Q tt (DState l' tr) → safe (put_layer l') Q E (DState l tr).
Proof. done. Qed.
Lemma ts_modify_layer f Q E (l : L) tr : Q tt (DState (f l) tr) → safe (modify_layer f) Q E (DState l tr).
Proof. done. Qed.
End layer_rules.

Lemma osafe_bind {A B} (m : outcome A) (k : A → outcome B) Q E :
  osafe m (fun a => osafe (k a) Q E) E → osafe (m ≫= k) Q E.
Proof. by destruct m. Qed.
Lemma osafe_ret {A} (a : A) Q E : Q a → osafe (mret a) Q E.
Proof. done. Qed.
Lemma osafe_err {A} e (Q : A → Prop) (E : Prop) : E → osafe (Err e) Q E.
Proof. done. Qed.
Lemma osafe_if {A} (b : bool) (m1 m2 : outcome A) Q E :
  (b = true → osafe m1 Q E) → (b = false → osafe m2 Q E) → osafe (if b then m1 else m2) Q E.
Proof. destruct b; auto. Qed.
Lemma osafe_mono {A} (m : outcome A) (Q Q' : A → Prop) (E E' : Prop) :
  osafe m Q E → (∀ a, Q a → Q' a) → (E → E') → osafe m Q' E'.
Proof. destruct m; cbn; auto. Qed.

Lemma osafe_index l i (Q : Z → Prop) E :
  is_bytes l → (∀ a, is_byte a → 0 <= i < len l → Q a) → osafe (index l i) Q E.
Proof.
  intros Hl HQ. unfold index. destruct (Z.ltb_spec i 0); [done|].
  destruct (l !! Z.to_nat i) as [a|] eqn:Ha; [|done]. cbn. apply HQ; [by eapply is_bytes_lookup|].
  apply lookup_lt_Some in Ha. unfold len. lia.
Qed.

Lemma take_exact_Some {A} n (l r : list A) : take_exact n l = Some r → r = take n l ∧ (n <= length l)%nat.
Proof.
  destruct (le_lt_dec n (length l)) as [H|H]; [rewrite take_exact_ok by done; by intros [= <-]|by rewrite take_exact_None].
Qed.
Lemma drop_exact_Some {A} n (l r : list A) : drop_exact n l = Some r → r = drop n l ∧ (n <= length l)%nat.
Proof.
  destruct (le_lt_dec n (length l)) as [H|H]; [rewrite drop_exact_ok by done; by intros [= <-]|by rewrite drop_exact_None].
Qed.

Lemma osafe_slice_from l lo (Q : bytes → Prop) E :
  is_bytes l → (∀ r, is_bytes r → 0 <= lo → len r = len l - lo → Q r) → osafe (slice_from l lo) Q E.
Proof.
  intros Hl HQ. unfold slice_from. destruct (Z.ltb_spec lo 0); [done|].
  destruct (drop_exact _ l) as [r|] eqn:Hr; [|done]. apply drop_exact_Some in Hr as [-> Hn]. cbn.
  apply HQ; [by apply is_bytes_drop | done | rewrite len_drop; unfold len; lia].
Qed.
Lemma osafe_slice_to l hi (Q : bytes → Prop) E :
  is_bytes l → (∀ r, is_bytes r → len r = hi → 0 <= hi <= len l → Q r) → osafe (slice_to l hi) Q E.
Proof.
  intros Hl HQ. unfold slice_to. destruct (Z.ltb_spec hi 0); [done|].
  destruct (take_exact _ l) as [r|] eqn:Hr; [|done]. apply take_exact_Some in Hr as [-> Hn]. cbn.
  apply HQ; [by apply is_bytes_take | rewrite len_take; unfold len; lia | unfold len; lia].
Qed.
Lemma osafe_slice l lo hi (Q : bytes → Prop) E :
  is_bytes l → (∀ r, is_bytes r → len r = hi - lo → 0 <= lo <= hi → hi <= len l → Q r) → osafe (slice l lo hi) Q E.
Proof.
  intros Hl HQ. unfold slice. destruct (Z.ltb_spec lo 0); [done|]. destruct (Z.ltb_spec hi lo); [done|]. cbn [orb].
  apply osafe_bind, osafe_slice_to; [done|]. intros t Ht Hlt Hh. apply osafe_slice_from; [done|].
  intros r Hr _ Hlr. apply HQ; [done | lia | lia | lia].
Qed.

Lemma osafe_BE_Uint16 b (Q : Z → Prop) E : is_bytes b → (∀ v, is_u16 v → Q v) → osafe (BE_Uint16 b) Q E.
Proof.
  intros Hb HQ. destruct b as [|b0 [|b1 b]]; try done. cbn. apply HQ. rewrite !is_bytes_cons in Hb.
  unfold is_byte, is_u16 in *. lia.
Qed.
Lemma osafe_LE_Uint16 b (Q : Z → Prop) E : is_bytes b → (∀ v, is_u16 v → Q v) → osafe (LE_Uint16 b) Q E.
Proof.
  intros Hb HQ. destruct b as [|b0 [|b1 b]]; try done. cbn [LE_Uint16 osafe]. apply HQ. rewrite !is_bytes_cons in Hb.
  unfold is_byte, is_u16 in *. lia.
Qed.
Lemma osafe_BE_Uint32 b (Q : Z → Prop) E : is_bytes b → (∀ v, is_u32 v → Q v) → osafe (BE_Uint32 b) Q E.
Proof.
  intros Hb HQ. destruct b as [|b0 [|b1 [|b2 [|b3 b]]]]; try done. cbn [BE_Uint32 osafe]. apply HQ. rewrite !is_bytes_cons in Hb.
  unfold is_byte, is_u32 in *. lia.
Qed.
Lemma osafe_LE_Uint32 b (Q : Z → Prop) E : is_bytes b → (∀ v, is_u32 v → Q v) → osafe (LE_Uint32 b) Q E.
Proof.
  intros Hb HQ. destruct b as [|b0 [|b1 [|b2 [|b3 b]]]]; try done. cbn [LE_Uint32 osafe]. apply HQ. rewrite !is_bytes_cons in Hb.
  unfold is_byte, is_u32 in *. lia.
Qed.
Definition is_word64 (v : Z) : Prop := 0 <= v < 18446744073709551616.
Lemma osafe_BE_Uint64 b (Q : Z → Prop) E : is_bytes b → (∀ v, is_word64 v → Q v) → osafe (BE_Uint64 b) Q E.
Proof.
  intros Hb HQ. apply osafe_bind, osafe_BE_Uint32; [done|]. intros hi Hhi. apply osafe_bind, osafe_slice_from; [done|].
  intros r Hr _ _. apply osafe_bind, osafe_BE_Uint32; [done|]. intros lo Hlo. apply HQ. unfold is_word64, is_u32 in *. lia.
Qed.
Lemma osafe_be16_at l i (Q : Z → Prop) E : is_bytes l → (∀ v, is_u16 v → Q v) → osafe (be16_at l i) Q E.
Proof. intros Hl HQ. apply osafe_bind, osafe_slice; [done|]. intros r Hr _ _ _. by apply osafe_BE_Uint16. Qed.
Lemma osafe_be32_at l i (Q : Z → Prop) E : is_bytes l → (∀ v, is_u32 v → Q v) → osafe (be32_at l i) Q E.
Proof. intros Hl HQ. apply osafe_bind, osafe_slice; [done|]. intros r Hr _ _ _. by apply osafe_BE_Uint32. Qed.

Lemma overlay_bytes src : ∀ l r, is_bytes l → is_bytes src → overlay l src = Some r → is_bytes r.
Proof.
  induction src as [|b src IH]; intros l r Hl Hs; cbn; [intros [= <-]; exact Hl|].
  destruct l as [|a l]; [done|]. destruct (overlay l src) as [r'|] eqn:Hr; [|done]. intros [= <-].
  apply is_bytes_cons in Hl as [_ Hl], Hs as [Hb Hs]. apply is_bytes_cons. split; [exact Hb | by apply (IH l)].
Qed.
Lemma overwrite_bytes n : ∀ l src r, is_bytes l → is_bytes src → overwrite n l src = Some r → is_bytes r.
Proof.
  induction n as [|n IH]; intros l src r Hl Hs; cbn; [by apply overlay_bytes|].
  destruct l as [|a l]; [done|]. destruct (overwrite n l src) as [r'|] eqn:Hr; [|done]. intros [= <-].
  apply is_bytes_cons in Hl as [Ha Hl]. apply is_bytes_cons. split; [exact Ha | by apply (IH l src)].
Qed.
Lemma osafe_write_at l off src (Q : bytes → Prop) E :
  is_bytes l → is_bytes src → (∀ r, is_bytes r → Q r) → osafe (write_at l off src) Q E.
Proof.
  intros Hl Hs HQ. unfold write_at. destruct (off <? 0); [done|].
  destruct (overwrite _ l src) as [r|] eqn:Hr; [|done]. cbn. apply HQ. exact (overwrite_bytes _ _ _ _ Hl Hs Hr).
Qed.
Lemma osafe_copy_from l lo src (Q : bytes → Prop) E :
  is_bytes l → is_bytes src → (∀ r, is_bytes r → Q r) → osafe (copy_from l lo src) Q E.
Proof.
  intros Hl Hs HQ. apply osafe_bind, osafe_slice_from; [done|]. intros r Hr _ _.
  apply osafe_write_at; [done | by apply is_bytes_take | exact HQ].
Qed.

(** ** Ranges *)

Lemma land_r_range n x c : 0 <= c < n → 0 <= Z.land x c < n.
Proof. intros [Hc Hn]. split; [by apply Z.land_nonneg; right|].
  assert (Z.ldiff (Z.land x c) c = 0) as H0.
  { apply Z.bits_inj'. intros i _. rewrite Z.ldiff_spec, Z.land_spec, Z.bits_0. by destruct (Z.testbit x i), (Z.testbit c i). }
  pose proof (Z.sub_nocarry_ldiff c (Z.land x c) H0). assert (0 <= Z.ldiff c (Z.land x c)) by (apply Z.ldiff_nonneg; auto). lia.
Qed.
Lemma shiftr_range n x k : 0 <= x < n → 0 <= k → 0 <= Z.shiftr x k < n.
Proof.
  intros [Hx Hn] Hk. rewrite Z.shiftr_div_pow2 by done. assert (0 < 2 ^ k) by (by apply Z.pow_pos_nonneg).
  split; [by apply Z.div_pos|]. pose proof (Z.div_le_upper_bound x (2 ^ k) x ltac:(lia) ltac:(nia)). lia.
Qed.
Lemma lor_range k a b : 0 <= k → 0 <= a < 2 ^ k → 0 <= b < 2 ^ k → 0 <= Z.lor a b < 2 ^ k.
Proof.
  intros Hk [Ha Ha'] [Hb Hb']. split; [by apply Z.lor_nonneg|].
  assert (∀ v, 0 <= v → v < 2 ^ k ↔ Z.land v (Z.ones k) = v) as Hland.
  { intros v Hv. rewrite land_low by done. split; [intros; by apply Z.mod_small|].
    intros <-. apply Z.mod_pos_bound. by apply Z.pow_pos_nonneg. }
  apply Hland; [by apply Z.lor_nonneg|]. rewrite Z.land_lor_distr_l.
  apply Hland in Ha' as ->; [|done]. by apply Hland in Hb' as ->.
Qed.

(** The range of an expression over values whose ranges are known. *)
Ltac range :=
  unfold is_byte, is_u8, is_u16, is_u32 in *;
  repeat match goal with
  | |- context [u8 ?v] => lazymatch goal with _ : 0 <= u8 v < 256 |- _ => fail | _ => pose proof (u8_range v : 0 <= u8 v < 256) end
  | |- context [u16 ?v] => lazymatch goal with _ : 0 <= u16 v < 65536 |- _ => fail | _ => pose proof (u16_range v : 0 <= u16 v < 65536) end
  | |- context [u32 ?v] => lazymatch goal with _ : 0 <= u32 v < 4294967296 |- _ => fail | _ => pose proof (u32_range v : 0 <= u32 v < 4294967296) end
  end;
  repeat first
    [ lia
    | apply land_r_range
    | apply shiftr_range
    | match goal with |- 0 <= Z.lor _ _ < 256 => apply (lor_range 8) | |- 0 <= Z.lor _ _ < 65536 => apply (lor_range 16)
        | |- 0 <= Z.lor _ _ < 4294967296 => apply (lor_range 32) end; cbn [Z.pow Z.pow_pos Pos.iter Z.mul Pos.mul] ].

(** ** Symbolic execution *)

Create HintDb typed.
#[export] Hint Resolve is_bytes_nil is_bytes_take is_bytes_drop : typed.

Ltac bytes_side := solve [ assumption | eauto with typed ].

(** One step of a program; what it reads is introduced with its range. *)
Ltac safe_step :=
  lazymatch goal with
  | |- safe (mbind _ _) _ _ _ => apply ts_bind
  | |- safe (mret _) _ _ _ => apply ts_ret
  | |- safe (throw _) _ _ _ => apply ts_throw
  | |- safe (lift _) _ _ _ => apply ts_lift
  | |- safe (if _ then _ else _) _ _ _ => apply ts_if; intros ?
  | |- safe SetTruncated _ _ (DState _ _) => apply ts_SetTruncated
  | |- safe get_layer _ _ (DState _ _) => apply ts_get_layer
  | |- safe (gets _) _ _ _ => apply ts_gets
  | |- safe (put_layer _) _ _ (DState _ _) => apply ts_put_layer
  | |- safe (modify_layer _) _ _ (DState _ _) => apply ts_modify_layer
  | |- osafe (mbind _ _) _ _ => apply osafe_bind
  | |- osafe (mret _) _ _ => apply osafe_ret
  | |- osafe (Err _) _ _ => apply osafe_err
  | |- osafe (Panic _) _ _ => exact I
  | |- osafe (Ok _) _ _ => apply osafe_ret
  | |- osafe (if _ then _ else _) _ _ => apply osafe_if; intros ?
  | |- osafe (index _ _) _ _ => apply osafe_index; [bytes_side | intros]
  | |- osafe (slice_from _ _) _ _ => apply osafe_slice_from; [bytes_side | intros]
  | |- osafe (slice_to _ _) _ _ => apply osafe_slice_to; [bytes_side | intros]
  | |- osafe (slice _ _ _) _ _ => apply osafe_slice; [bytes_side | intros]
  | |- osafe (BE_Uint16 _) _ _ => apply osafe_BE_Uint16; [bytes_side | intros]
  | |- osafe (BE_Uint32 _) _ _ => apply osafe_BE_Uint32; [bytes_side | intros]
  | |- osafe (LE_Uint16 _) _ _ => apply osafe_LE_Uint16; [bytes_side | intros]
  | |- osafe (LE_Uint32 _) _ _ => apply osafe_LE_Uint32; [bytes_side | intros]
  | |- osafe (BE_Uint64 _) _ _ => apply osafe_BE_Uint64; [bytes_side | intros]
  | |- osafe (copy_from _ _ _) _ _ => apply osafe_copy_from; [bytes_side | bytes_side | intros]
  | |- osafe (be16_at _ _) _ _ => apply osafe_be16_at; [bytes_side | intros]
  | |- osafe (be32_at _ _) _ _ => apply osafe_be32_at; [bytes_side | intros]
  end; cbv beta zeta.

Ltac safe_steps := repeat safe_step.

(** The facts about a decoded layer, one by one. *)
Ltac typed :=
  cbn in *; repeat match goal with |- _ ∧ _ => split end;
  first [ assumption | done | by eauto with typed | solve [range] | solve [lens] | idtac ].

Lemma Forall_snoc {A} (P : A → Prop) l x : Forall P l → P x → Forall P (l ++ [x]).
Proof. intros Hl Hx. apply Forall_app_2; [done | by apply Forall_singleton]. Qed.
#[export] Hint Resolve Forall_snoc List.Forall_nil : typed.
