(* ===== verification/LayersTyped.v ===== *)
(** * Decoded layers have fields in the ranges of their types

    For each layer what its Go type promises of the fields - a [uint16] field is
    below 65536, a slice holds bytes - and that decoding bytes keeps the promise,
    on success and on an error, and takes something from the bytes. *)

From S2P Require Import Prelude SerializeBuffer LayerClasses Flows BaseLayers Enums Checksum Typing.
From S2P Require Ethernet Ip4 Ip6 Tcp Udp Dns DnsCorrect Lcm LinkLayers TunnelLayers ControlLayers Sctp.
From S2P Require Import LinkLayers.

Definition is_int32 (v : Z) : Prop := -2147483648 <= v < 2147483648.
Definition base_ok (b : BaseLayer) : Prop := is_bytes (Contents b) ∧ is_bytes (Payload b).

Definition Ethernet_ok (l : Ethernet.Ethernet) : Prop :=
  base_ok (Ethernet.base l) ∧ is_bytes (Ethernet.SrcMAC l) ∧ is_bytes (Ethernet.DstMAC l) ∧
  is_u16 (Ethernet.EthernetType l) ∧ is_u16 (Ethernet.Length l).
Definition ARP_ok (l : LinkLayers.Arp.ARP) : Prop :=
  base_ok (LinkLayers.Arp.base l) ∧ is_u8 (LinkLayers.Arp.AddrType l) ∧ is_u16 (LinkLayers.Arp.Protocol l) ∧
  is_u8 (LinkLayers.Arp.HwAddressSize l) ∧ is_u8 (LinkLayers.Arp.ProtAddressSize l) ∧
  is_u16 (LinkLayers.Arp.Operation l) ∧ is_bytes (LinkLayers.Arp.SourceHwAddress l) ∧
  is_bytes (LinkLayers.Arp.SourceProtAddress l) ∧ is_bytes (LinkLayers.Arp.DstHwAddress l) ∧
  is_bytes (LinkLayers.Arp.DstProtAddress l).
Definition Dot1Q_ok (l : LinkLayers.Dot1Q.Dot1Q) : Prop :=
  base_ok (LinkLayers.Dot1Q.base l) ∧ is_u8 (LinkLayers.Dot1Q.Priority l) ∧
  is_u16 (LinkLayers.Dot1Q.VLANIdentifier l) ∧ is_u16 (LinkLayers.Dot1Q.Type_ l).
Definition Loopback_ok (l : LinkLayers.Loopback.Loopback) : Prop :=
  base_ok (LinkLayers.Loopback.base l) ∧ is_u8 (LinkLayers.Loopback.Family l).
Definition LLC_ok (l : LinkLayers.Llc.LLC) : Prop :=
  base_ok (LinkLayers.Llc.base l) ∧ is_u8 (LinkLayers.Llc.DSAP l) ∧ is_u8 (LinkLayers.Llc.SSAP l) ∧
  is_u16 (LinkLayers.Llc.Control l).
Definition SNAP_ok (l : LinkLayers.Snap.SNAP) : Prop :=
  base_ok (LinkLayers.Snap.base l) ∧ is_bytes (LinkLayers.Snap.OrganizationalCode l) ∧
  is_u16 (LinkLayers.Snap.Type_ l).
Definition PPP_ok (l : LinkLayers.Ppp.PPP) : Prop :=
  base_ok (LinkLayers.Ppp.base l) ∧ is_u16 (LinkLayers.Ppp.PPPType l).
Definition PPPoE_ok (l : LinkLayers.Pppoe.PPPoE) : Prop :=
  base_ok (LinkLayers.Pppoe.base l) ∧ is_u8 (LinkLayers.Pppoe.Version l) ∧ is_u8 (LinkLayers.Pppoe.Type_ l) ∧
  is_u8 (LinkLayers.Pppoe.Code l) ∧ is_u16 (LinkLayers.Pppoe.SessionId l) ∧ is_u16 (LinkLayers.Pppoe.Length l).
Definition MPLS_ok (l : LinkLayers.Mpls.MPLS) : Prop :=
  base_ok (LinkLayers.Mpls.base l) ∧ is_u32 (LinkLayers.Mpls.Label l) ∧ is_u8 (LinkLayers.Mpls.TrafficClass l) ∧
  is_u8 (LinkLayers.Mpls.TTL l).
Definition CTP_ok (l : LinkLayers.Ctp.EthernetCTP) : Prop :=
  base_ok (LinkLayers.Ctp.base l) ∧ is_u16 (LinkLayers.Ctp.SkipCount l).
Definition CTPForward_ok (l : LinkLayers.Ctp.EthernetCTPForwardData) : Prop :=
  base_ok (LinkLayers.Ctp.fw_base l) ∧ is_u16 (LinkLayers.Ctp.fw_Function l) ∧
  is_bytes (LinkLayers.Ctp.ForwardAddress l).
Definition CTPReply_ok (l : LinkLayers.Ctp.EthernetCTPReply) : Prop :=
  base_ok (LinkLayers.Ctp.re_base l) ∧ is_u16 (LinkLayers.Ctp.re_Function l) ∧
  is_u16 (LinkLayers.Ctp.ReceiptNumber l) ∧ is_bytes (LinkLayers.Ctp.re_Data l).
Definition FDDI_ok (l : LinkLayers.Fddi.FDDI) : Prop :=
  base_ok (LinkLayers.Fddi.base l) ∧ is_u8 (LinkLayers.Fddi.FrameControl l) ∧
  is_u8 (LinkLayers.Fddi.Priority l) ∧ is_bytes (LinkLayers.Fddi.SrcMAC l) ∧
  is_bytes (LinkLayers.Fddi.DstMAC l).
Definition SLL_ok (l : LinkLayers.LinuxSll.LinuxSLL) : Prop :=
  base_ok (LinkLayers.LinuxSll.base l) ∧ is_u16 (LinkLayers.LinuxSll.PacketType l) ∧
  is_u16 (LinkLayers.LinuxSll.AddrLen l) ∧ is_bytes (LinkLayers.LinuxSll.Addr l) ∧
  is_u16 (LinkLayers.LinuxSll.EthernetType l) ∧ is_u16 (LinkLayers.LinuxSll.AddrType l).
Definition IPv4Option_ok (l : Ip4.IPv4Option) : Prop :=
  is_u8 (Ip4.OptionType l) ∧ is_u8 (Ip4.OptionLength l) ∧ is_bytes (Ip4.OptionData l).
Definition IPv4_ok (l : Ip4.IPv4) : Prop :=
  base_ok (Ip4.base l) ∧ is_u8 (Ip4.Version l) ∧ is_u8 (Ip4.IHL l) ∧ is_u8 (Ip4.TOS l) ∧ is_u16 (Ip4.Length l) ∧
  is_u16 (Ip4.Id l) ∧ is_u8 (Ip4.Flags l) ∧ is_u16 (Ip4.FragOffset l) ∧ is_u8 (Ip4.TTL l) ∧
  is_u8 (Ip4.Protocol l) ∧ is_u16 (Ip4.Checksum l) ∧ is_bytes (Ip4.SrcIP l) ∧ is_bytes (Ip4.DstIP l) ∧
  Forall IPv4Option_ok (Ip4.Options l) ∧ is_bytes (Ip4.Padding l).
Definition TLV_ok (l : Ip6.ipv6HeaderTLVOption) : Prop :=
  is_u8 (Ip6.OptionType l) ∧ is_u8 (Ip6.OptionLength l) ∧ is_bytes (Ip6.data_of l).
Definition Extension_ok (l : Ip6.ipv6ExtensionBase) : Prop :=
  base_ok (Ip6.ext_base l) ∧ is_u8 (Ip6.ext_NextHeader l) ∧ is_u8 (Ip6.HeaderLength l).
Definition OptionsHeader_ok (l : Ip6.options_header) : Prop :=
  Extension_ok (Ip6.ext l) ∧ Forall TLV_ok (Ip6.Options l).
Definition IPv6_ok (l : Ip6.IPv6) : Prop :=
  base_ok (Ip6.base l) ∧ is_u8 (Ip6.Version l) ∧ is_u8 (Ip6.TrafficClass l) ∧ is_u32 (Ip6.FlowLabel l) ∧
  is_u16 (Ip6.Length l) ∧ is_u8 (Ip6.NextHeader l) ∧ is_u8 (Ip6.HopLimit l) ∧ is_bytes (Ip6.SrcIP l) ∧
  is_bytes (Ip6.DstIP l) ∧ from_option OptionsHeader_ok True (Ip6.HopByHop l).
Definition IPv6Routing_ok (l : Ip6.IPv6Routing) : Prop :=
  Extension_ok (Ip6.rt_ext l) ∧ is_u8 (Ip6.RoutingType l) ∧ is_u8 (Ip6.SegmentsLeft l) ∧
  is_bytes (Ip6.Reserved l) ∧ Forall is_bytes (Ip6.SourceRoutingIPs l).
Definition IPv6Fragment_ok (l : Ip6.IPv6Fragment) : Prop :=
  base_ok (Ip6.fr_base l) ∧ is_u8 (Ip6.fr_NextHeader l) ∧ is_u8 (Ip6.Reserved1 l) ∧
  is_u16 (Ip6.FragmentOffset l) ∧ is_u8 (Ip6.Reserved2 l) ∧ is_u32 (Ip6.Identification l).
Definition IPSecAH_ok (l : TunnelLayers.IpSec.IPSecAH) : Prop :=
  Extension_ok (TunnelLayers.IpSec.ext l) ∧ is_u16 (TunnelLayers.IpSec.Reserved l) ∧
  is_u32 (TunnelLayers.IpSec.SPI l) ∧ is_u32 (TunnelLayers.IpSec.Seq l) ∧
  is_bytes (TunnelLayers.IpSec.AuthenticationData l).
Definition IPSecESP_ok (l : TunnelLayers.IpSec.IPSecESP) : Prop :=
  base_ok (TunnelLayers.IpSec.esp_base l) ∧ is_u32 (TunnelLayers.IpSec.esp_SPI l) ∧
  is_u32 (TunnelLayers.IpSec.esp_Seq l) ∧ is_bytes (TunnelLayers.IpSec.Encrypted l).
Definition TCPOption_ok (l : Tcp.TCPOption) : Prop :=
  is_u8 (Tcp.OptionType l) ∧ is_u8 (Tcp.OptionLength l) ∧ is_bytes (Tcp.OptionData l).
Definition TCP_ok (l : Tcp.TCP) : Prop :=
  base_ok (Tcp.base l) ∧ is_u16 (Tcp.SrcPort l) ∧ is_u16 (Tcp.DstPort l) ∧ is_u32 (Tcp.Seq l) ∧
  is_u32 (Tcp.Ack l) ∧ is_u8 (Tcp.DataOffset l) ∧ is_u16 (Tcp.Window l) ∧ is_u16 (Tcp.Checksum l) ∧
  is_u16 (Tcp.Urgent l) ∧ is_bytes (Tcp.sPort l) ∧ is_bytes (Tcp.dPort l) ∧
  Forall TCPOption_ok (Tcp.Options l) ∧ is_bytes (Tcp.Padding l).
Definition UDP_ok (l : Udp.UDP) : Prop :=
  base_ok (Udp.base l) ∧ is_u16 (Udp.SrcPort l) ∧ is_u16 (Udp.DstPort l) ∧ is_u16 (Udp.Length l) ∧
  is_u16 (Udp.Checksum l) ∧ is_bytes (Udp.sPort l) ∧ is_bytes (Udp.dPort l).
Definition UDPLite_ok (l : ControlLayers.UdpLite.UDPLite) : Prop :=
  base_ok (ControlLayers.UdpLite.base l) ∧ is_u16 (ControlLayers.UdpLite.SrcPort l) ∧
  is_u16 (ControlLayers.UdpLite.DstPort l) ∧ is_u16 (ControlLayers.UdpLite.ChecksumCoverage l) ∧
  is_u16 (ControlLayers.UdpLite.Checksum l) ∧ is_bytes (ControlLayers.UdpLite.sPort l) ∧
  is_bytes (ControlLayers.UdpLite.dPort l).
Definition RUDPSyn_ok (l : ControlLayers.Rudp.RUDPHeaderSYN) : Prop :=
  is_u16 (ControlLayers.Rudp.MaxOutstandingSegments l) ∧ is_u16 (ControlLayers.Rudp.MaxSegmentSize l) ∧
  is_u16 (ControlLayers.Rudp.OptionFlags l).
Definition RUDP_ok (l : ControlLayers.Rudp.RUDP) : Prop :=
  base_ok (ControlLayers.Rudp.base l) ∧ is_u8 (ControlLayers.Rudp.Version l) ∧
  is_u8 (ControlLayers.Rudp.HeaderLength l) ∧ is_u8 (ControlLayers.Rudp.SrcPort l) ∧
  is_u8 (ControlLayers.Rudp.DstPort l) ∧ is_u16 (ControlLayers.Rudp.DataLength l) ∧
  is_u32 (ControlLayers.Rudp.Seq l) ∧ is_u32 (ControlLayers.Rudp.Ack l) ∧
  is_u32 (ControlLayers.Rudp.Checksum l) ∧ is_bytes (ControlLayers.Rudp.VariableHeaderArea l) ∧
  from_option RUDPSyn_ok True (ControlLayers.Rudp.HeaderSYN l) ∧
  from_option (Forall is_u32) True (ControlLayers.Rudp.HeaderEACK l).
Definition ICMPv4_ok (l : ControlLayers.Icmp4.ICMPv4) : Prop :=
  base_ok (ControlLayers.Icmp4.base l) ∧ is_u16 (ControlLayers.Icmp4.TypeCode l) ∧
  is_u16 (ControlLayers.Icmp4.Checksum l) ∧ is_u16 (ControlLayers.Icmp4.Id l) ∧
  is_u16 (ControlLayers.Icmp4.Seq l).
Definition ICMPv6_ok (l : ControlLayers.Icmp6.ICMPv6) : Prop :=
  base_ok (ControlLayers.Icmp6.base l) ∧ is_u16 (ControlLayers.Icmp6.TypeCode l) ∧
  is_u16 (ControlLayers.Icmp6.Checksum l).
Definition Echo_ok (l : ControlLayers.Icmp6.ICMPv6Echo) : Prop :=
  base_ok (ControlLayers.Icmp6.echo_base l) ∧ is_u16 (ControlLayers.Icmp6.Identifier l) ∧
  is_u16 (ControlLayers.Icmp6.SeqNumber l).
Definition ICMPv6Option_ok (l : ControlLayers.Icmp6.ICMPv6Option) : Prop :=
  is_u8 (ControlLayers.Icmp6.Type_ l) ∧ is_bytes (ControlLayers.Icmp6.Data l).
Definition RS_ok (l : ControlLayers.Icmp6.ICMPv6RouterSolicitation) : Prop :=
  base_ok (ControlLayers.Icmp6.rs_base l) ∧ Forall ICMPv6Option_ok (ControlLayers.Icmp6.rs_Options l).
Definition RA_ok (l : ControlLayers.Icmp6.ICMPv6RouterAdvertisement) : Prop :=
  base_ok (ControlLayers.Icmp6.ra_base l) ∧ is_u8 (ControlLayers.Icmp6.HopLimit l) ∧
  is_u8 (ControlLayers.Icmp6.ra_Flags l) ∧ is_u16 (ControlLayers.Icmp6.RouterLifetime l) ∧
  is_u32 (ControlLayers.Icmp6.ReachableTime l) ∧ is_u32 (ControlLayers.Icmp6.RetransTimer l) ∧
  Forall ICMPv6Option_ok (ControlLayers.Icmp6.ra_Options l).
Definition NS_ok (l : ControlLayers.Icmp6.ICMPv6NeighborSolicitation) : Prop :=
  base_ok (ControlLayers.Icmp6.ns_base l) ∧ is_bytes (ControlLayers.Icmp6.ns_TargetAddress l) ∧
  Forall ICMPv6Option_ok (ControlLayers.Icmp6.ns_Options l).
Definition NA_ok (l : ControlLayers.Icmp6.ICMPv6NeighborAdvertisement) : Prop :=
  base_ok (ControlLayers.Icmp6.na_base l) ∧ is_u8 (ControlLayers.Icmp6.na_Flags l) ∧
  is_bytes (ControlLayers.Icmp6.na_TargetAddress l) ∧ Forall ICMPv6Option_ok (ControlLayers.Icmp6.na_Options l).
Definition Redirect_ok (l : ControlLayers.Icmp6.ICMPv6Redirect) : Prop :=
  base_ok (ControlLayers.Icmp6.rd_base l) ∧ is_bytes (ControlLayers.Icmp6.rd_TargetAddress l) ∧
  is_bytes (ControlLayers.Icmp6.DestinationAddress l) ∧
  Forall ICMPv6Option_ok (ControlLayers.Icmp6.rd_Options l).
Definition Switch_ok (l : ControlLayers.Stp.STPSwitchID) : Prop :=
  is_u16 (ControlLayers.Stp.Priority l) ∧ is_u16 (ControlLayers.Stp.SysID l) ∧
  is_bytes (ControlLayers.Stp.HwAddr l).
Definition STP_ok (l : ControlLayers.Stp.STP) : Prop :=
  base_ok (ControlLayers.Stp.base l) ∧ is_u16 (ControlLayers.Stp.ProtocolID l) ∧
  is_u8 (ControlLayers.Stp.Version l) ∧ is_u8 (ControlLayers.Stp.Type_ l) ∧
  Switch_ok (ControlLayers.Stp.RouteID l) ∧ Switch_ok (ControlLayers.Stp.BridgeID l) ∧
  is_u32 (ControlLayers.Stp.Cost l) ∧ is_u16 (ControlLayers.Stp.PortID l) ∧
  is_u16 (ControlLayers.Stp.MessageAge l) ∧ is_u16 (ControlLayers.Stp.MaxAge l) ∧
  is_u16 (ControlLayers.Stp.HelloTime l) ∧ is_u16 (ControlLayers.Stp.FDelay l).
Definition EAP_ok (l : ControlLayers.Eap.EAP) : Prop :=
  base_ok (ControlLayers.Eap.base l) ∧ is_u8 (ControlLayers.Eap.Code l) ∧ is_u8 (ControlLayers.Eap.Id l) ∧
  is_u16 (ControlLayers.Eap.Length l) ∧ is_u8 (ControlLayers.Eap.Type_ l) ∧
  is_bytes (ControlLayers.Eap.TypeData l).
Definition VRRP_ok (l : ControlLayers.Vrrp.VRRPv2) : Prop :=
  base_ok (ControlLayers.Vrrp.base l) ∧ is_u8 (ControlLayers.Vrrp.Version l) ∧
  is_u8 (ControlLayers.Vrrp.Type_ l) ∧ is_u8 (ControlLayers.Vrrp.VirtualRtrID l) ∧
  is_u8 (ControlLayers.Vrrp.Priority l) ∧ is_u8 (ControlLayers.Vrrp.CountIPAddr l) ∧
  is_u8 (ControlLayers.Vrrp.AuthType l) ∧ is_u8 (ControlLayers.Vrrp.AdverInt l) ∧
  is_u16 (ControlLayers.Vrrp.Checksum l) ∧ Forall is_bytes (ControlLayers.Vrrp.IPAddress l).
Definition PFLog_ok (l : ControlLayers.PfLog.PFLog) : Prop :=
  base_ok (ControlLayers.PfLog.base l) ∧ is_u8 (ControlLayers.PfLog.Length l) ∧
  is_u8 (ControlLayers.PfLog.Family l) ∧ is_u8 (ControlLayers.PfLog.Action l) ∧
  is_u8 (ControlLayers.PfLog.Reason l) ∧ is_bytes (ControlLayers.PfLog.IFName l) ∧
  is_bytes (ControlLayers.PfLog.Ruleset l) ∧ is_u32 (ControlLayers.PfLog.RuleNum l) ∧
  is_u32 (ControlLayers.PfLog.SubruleNum l) ∧ is_u32 (ControlLayers.PfLog.UID l) ∧
  is_int32 (ControlLayers.PfLog.PID l) ∧ is_u32 (ControlLayers.PfLog.RuleUID l) ∧
  is_int32 (ControlLayers.PfLog.RulePID l) ∧ is_u8 (ControlLayers.PfLog.Direction l).
Definition AGUEVar0_ok (l : ControlLayers.Ague.AGUEVar0) : Prop :=
  is_u8 (ControlLayers.Ague.Version l) ∧ is_u8 (ControlLayers.Ague.Protocol l) ∧
  is_u16 (ControlLayers.Ague.Flags l) ∧ is_bytes (ControlLayers.Ague.Extensions l) ∧
  is_bytes (ControlLayers.Ague.Data l).
Definition AGUEVar1_ok (l : ControlLayers.Ague.AGUEVar1) : Prop :=
  is_u8 (ControlLayers.Ague.v1_Protocol l) ∧ is_bytes (ControlLayers.Ague.v1_Data l).
Definition SRE_ok (l : TunnelLayers.Gre.GRERouting) : Prop :=
  is_u16 (TunnelLayers.Gre.AddressFamily l) ∧ is_u8 (TunnelLayers.Gre.SREOffset l) ∧
  is_u8 (TunnelLayers.Gre.SRELength l) ∧ is_bytes (TunnelLayers.Gre.RoutingInformation l).
Definition GRE_ok (l : TunnelLayers.Gre.GRE) : Prop :=
  base_ok (TunnelLayers.Gre.base l) ∧ is_u8 (TunnelLayers.Gre.RecursionControl l) ∧
  is_u8 (TunnelLayers.Gre.Flags l) ∧ is_u8 (TunnelLayers.Gre.Version l) ∧ is_u16 (TunnelLayers.Gre.Protocol l) ∧
  is_u16 (TunnelLayers.Gre.Checksum l) ∧ is_u16 (TunnelLayers.Gre.Offset l) ∧ is_u32 (TunnelLayers.Gre.Key l) ∧
  is_u32 (TunnelLayers.Gre.Seq l) ∧ is_u32 (TunnelLayers.Gre.Ack l) ∧
  Forall SRE_ok (TunnelLayers.Gre.Routing l).
Definition VXLAN_ok (l : TunnelLayers.Vxlan.VXLAN) : Prop :=
  base_ok (TunnelLayers.Vxlan.base l) ∧ is_u32 (TunnelLayers.Vxlan.VNI l) ∧
  is_u16 (TunnelLayers.Vxlan.GBPGroupPolicyID l).
Definition EtherIP_ok (l : TunnelLayers.EtherIp.EtherIP) : Prop :=
  base_ok (TunnelLayers.EtherIp.base l) ∧ is_u8 (TunnelLayers.EtherIp.Version l) ∧
  is_u16 (TunnelLayers.EtherIp.Reserved l).
Definition ERSPANII_ok (l : TunnelLayers.Erspan2.ERSPANII) : Prop :=
  base_ok (TunnelLayers.Erspan2.base l) ∧ is_u8 (TunnelLayers.Erspan2.Version l) ∧
  is_u8 (TunnelLayers.Erspan2.CoS l) ∧ is_u8 (TunnelLayers.Erspan2.TrunkEncap l) ∧
  is_u16 (TunnelLayers.Erspan2.VLANIdentifier l) ∧ is_u16 (TunnelLayers.Erspan2.SessionID l) ∧
  is_u16 (TunnelLayers.Erspan2.Reserved l) ∧ is_u32 (TunnelLayers.Erspan2.Index l).
Definition GeneveOption_ok (l : TunnelLayers.Geneve.GeneveOption) : Prop :=
  is_u16 (TunnelLayers.Geneve.Class_ l) ∧ is_u8 (TunnelLayers.Geneve.Type_ l) ∧
  is_u8 (TunnelLayers.Geneve.Flags l) ∧ is_u8 (TunnelLayers.Geneve.opt_Length l) ∧
  is_bytes (TunnelLayers.Geneve.Data l).
Definition Geneve_ok (l : TunnelLayers.Geneve.Geneve) : Prop :=
  base_ok (TunnelLayers.Geneve.base l) ∧ is_u8 (TunnelLayers.Geneve.Version l) ∧
  is_u8 (TunnelLayers.Geneve.OptionsLength l) ∧ is_u16 (TunnelLayers.Geneve.Protocol l) ∧
  is_u32 (TunnelLayers.Geneve.VNI l) ∧ Forall GeneveOption_ok (TunnelLayers.Geneve.Options l).
Definition GTPExtension_ok (l : TunnelLayers.Gtp.GTPExtensionHeader) : Prop :=
  is_u8 (TunnelLayers.Gtp.Type_ l) ∧ is_bytes (TunnelLayers.Gtp.Content l).
Definition GTP_ok (l : TunnelLayers.Gtp.GTPv1U) : Prop :=
  base_ok (TunnelLayers.Gtp.base l) ∧ is_u8 (TunnelLayers.Gtp.Version l) ∧
  is_u8 (TunnelLayers.Gtp.ProtocolType l) ∧ is_u8 (TunnelLayers.Gtp.Reserved l) ∧
  is_u8 (TunnelLayers.Gtp.MessageType l) ∧ is_u16 (TunnelLayers.Gtp.MessageLength l) ∧
  is_u32 (TunnelLayers.Gtp.TEID l) ∧ is_u16 (TunnelLayers.Gtp.SequenceNumber l) ∧
  is_u8 (TunnelLayers.Gtp.NPDU l) ∧ Forall GTPExtension_ok (TunnelLayers.Gtp.GTPExtensionHeaders l).
Definition DNS_ok (l : Dns.DNS) : Prop :=
  base_ok (Dns.base l) ∧ is_u16 (Dns.ID l) ∧ is_u8 (Dns.OpCode l) ∧ is_u8 (Dns.Z_ l) ∧
  is_u8 (Dns.ResponseCode l) ∧ is_u16 (Dns.QDCount l) ∧ is_u16 (Dns.ANCount l) ∧ is_u16 (Dns.NSCount l) ∧
  is_u16 (Dns.ARCount l).
Definition LCM_ok (l : Lcm.LCM) : Prop :=
  is_u32 (Lcm.Magic l) ∧ is_u32 (Lcm.SequenceNumber l) ∧ is_u32 (Lcm.PayloadSize l) ∧
  is_u32 (Lcm.FragmentOffset l) ∧ is_u16 (Lcm.FragmentNumber l) ∧ is_u16 (Lcm.TotalFragments l) ∧
  is_bytes (Lcm.ChannelName l) ∧ is_word64 (Lcm.fingerprint l) ∧ is_bytes (Lcm.contents l) ∧
  is_bytes (Lcm.payload l).
Definition SCTP_ok (l : Sctp.SCTP) : Prop :=
  base_ok (Sctp.base l) ∧ is_u16 (Sctp.SrcPort l) ∧ is_u16 (Sctp.DstPort l) ∧ is_u32 (Sctp.VerificationTag l) ∧
  is_u32 (Sctp.Checksum l) ∧ is_bytes (Sctp.sPort l) ∧ is_bytes (Sctp.dPort l).
Definition Chunk_ok (l : Sctp.SCTPChunk) : Prop :=
  base_ok (Sctp.ch_base l) ∧ is_u8 (Sctp.Type_ l) ∧ is_u8 (Sctp.Flags l) ∧ is_u16 (Sctp.Length l).
Definition Parameter_ok (l : Sctp.SCTPParameter) : Prop :=
  is_u16 (Sctp.p_Type l) ∧ is_u16 (Sctp.p_Length l) ∧ is_bytes (Sctp.Value l).
Definition SCTPData_ok (l : Sctp.SCTPData) : Prop :=
  Chunk_ok (Sctp.d_chunk l) ∧ is_u32 (Sctp.TSN l) ∧ is_u16 (Sctp.StreamId l) ∧ is_u16 (Sctp.StreamSequence l) ∧
  is_u32 (Sctp.PayloadProtocol l).
Definition SCTPInit_ok (l : Sctp.SCTPInit) : Prop :=
  Chunk_ok (Sctp.i_chunk l) ∧ is_u32 (Sctp.InitiateTag l) ∧ is_u32 (Sctp.i_AdvertisedReceiverWindowCredit l) ∧
  is_u16 (Sctp.OutboundStreams l) ∧ is_u16 (Sctp.InboundStreams l) ∧ is_u32 (Sctp.InitialTSN l) ∧
  Forall Parameter_ok (Sctp.i_Parameters l).
Definition SCTPSack_ok (l : Sctp.SCTPSack) : Prop :=
  Chunk_ok (Sctp.s_chunk l) ∧ is_u32 (Sctp.CumulativeTSNAck l) ∧
  is_u32 (Sctp.s_AdvertisedReceiverWindowCredit l) ∧ is_u16 (Sctp.NumGapACKs l) ∧
  is_u16 (Sctp.NumDuplicateTSNs l) ∧ Forall is_u16 (Sctp.GapACKs l) ∧ Forall is_u32 (Sctp.DuplicateTSNs l).
Definition SCTPParameters_ok (l : Sctp.SCTPParameters) : Prop :=
  Chunk_ok (Sctp.ps_chunk l) ∧ Forall Parameter_ok (Sctp.Parameters l).
Definition SCTPShutdown_ok (l : Sctp.SCTPShutdown) : Prop :=
  Chunk_ok (Sctp.sh_chunk l) ∧ is_u32 (Sctp.sh_CumulativeTSNAck l).
Definition SCTPCookie_ok (l : Sctp.SCTPCookieEcho) : Prop :=
  Chunk_ok (Sctp.c_chunk l) ∧ is_bytes (Sctp.Cookie l).

(** A payload that is decoded on, if it is not empty, is shorter than the data. *)
Definition shorter (payload data : bytes) : Prop := payload ≠ [] → len payload < len data.

Lemma shorter_nil data : shorter [] data.
Proof. by intros ?. Qed.
Lemma shorter_by payload data n : len payload = len data - n → 0 < n → shorter payload data.
Proof. intros H ? _. rewrite H. lia. Qed.
Lemma shorter_len payload data : len payload < len data → shorter payload data.
Proof. by intros ? _. Qed.
Lemma base_nil : base_ok (mkBase [] []).
Proof. split; apply is_bytes_nil. Qed.
#[export] Hint Resolve shorter_nil base_nil : typed.

Ltac layer :=
  typed; try match goal with
  | |- base_ok (mkBase _ _) => split; cbn; bytes_side
  | |- shorter _ _ => first [apply shorter_nil | eapply shorter_by; [eassumption | unfold is_byte in *; lia] | apply shorter_len; lens]
  end.

Lemma int32_of_range v : is_u32 v → is_int32 (ControlLayers.PfLog.int32_of v).
Proof. unfold ControlLayers.PfLog.int32_of, is_u32, is_int32. destruct (Z.ltb_spec v 2147483648); lia. Qed.
Lemma four_zeros : is_bytes [0; 0; 0; 0].
Proof. by apply (is_bytes_replicate 4). Qed.
#[export] Hint Resolve int32_of_range four_zeros : typed.

(** The claims about a decoder: of a layer object, and of one that returns its layer. *)
Definition decodes {L} (zero : L) (dec : M (dstate L) unit) (ok : L → Prop) (payload : L → bytes) (data : bytes) : Prop :=
  safe dec (fun _ s => ok (dlayer s) ∧ shorter (payload (dlayer s)) data) (fun s => ok (dlayer s)) (DState zero false).
Definition parses {A} (p : M (dstate unit) A) (ok : A → Prop) (payload : A → bytes) (data : bytes) : Prop :=
  safe p (fun a _ => ok a ∧ shorter (payload a) data) (fun _ => True) (DState tt false).

Ltac decoder := intros Hb; unfold decodes, parses; safe_steps.

Lemma Ethernet_typed data : is_bytes data →
  decodes Ethernet.empty_Ethernet (Ethernet.DecodeFromBytes data) Ethernet_ok (fun l => Payload (Ethernet.base l)) data.
Proof. unfold Ethernet.DecodeFromBytes, Ethernet.decode_header. decoder. all: unfold Ethernet_ok; layer. Qed.
Lemma ARP_typed data : is_bytes data →
  decodes LinkLayers.Arp.empty_ARP (LinkLayers.Arp.DecodeFromBytes data) ARP_ok (fun l => Payload (LinkLayers.Arp.base l)) data.
Proof. unfold LinkLayers.Arp.DecodeFromBytes. decoder. all: unfold ARP_ok; layer. Qed.
Lemma Dot1Q_typed data : is_bytes data →
  decodes LinkLayers.Dot1Q.empty_Dot1Q (LinkLayers.Dot1Q.DecodeFromBytes data) Dot1Q_ok (fun l => Payload (LinkLayers.Dot1Q.base l)) data.
Proof. unfold LinkLayers.Dot1Q.DecodeFromBytes, LinkLayers.Dot1Q.decode_header. decoder. all: unfold Dot1Q_ok; layer. Qed.
Lemma Loopback_typed data : is_bytes data →
  decodes LinkLayers.Loopback.empty_Loopback (LinkLayers.Loopback.DecodeFromBytes data) Loopback_ok (fun l => Payload (LinkLayers.Loopback.base l)) data.
Proof. unfold LinkLayers.Loopback.DecodeFromBytes. decoder. all: unfold Loopback_ok; layer. Qed.
Lemma LLC_typed data : is_bytes data →
  decodes LinkLayers.Llc.empty_LLC (LinkLayers.Llc.DecodeFromBytes data) LLC_ok (fun l => Payload (LinkLayers.Llc.base l)) data.
Proof. unfold LinkLayers.Llc.DecodeFromBytes. decoder. all: unfold LLC_ok; layer. Qed.
Lemma SNAP_typed data : is_bytes data →
  decodes LinkLayers.Snap.empty_SNAP (LinkLayers.Snap.DecodeFromBytes data) SNAP_ok (fun l => Payload (LinkLayers.Snap.base l)) data.
Proof. unfold LinkLayers.Snap.DecodeFromBytes. decoder. all: unfold SNAP_ok; layer. Qed.
Lemma PPP_typed data : is_bytes data →
  parses (LinkLayers.Ppp.parse data) PPP_ok (fun l => Payload (LinkLayers.Ppp.base l)) data.
Proof. unfold LinkLayers.Ppp.parse. decoder. all: unfold PPP_ok; layer. Qed.
Lemma PPPoE_typed data : is_bytes data →
  parses (LinkLayers.Pppoe.parse data) PPPoE_ok (fun l => Payload (LinkLayers.Pppoe.base l)) data.
Proof. unfold LinkLayers.Pppoe.parse. decoder. all: unfold PPPoE_ok; layer. Qed.
Lemma MPLS_typed data : is_bytes data →
  parses (LinkLayers.Mpls.parse data) MPLS_ok (fun l => Payload (LinkLayers.Mpls.base l)) data.
Proof. unfold LinkLayers.Mpls.parse. decoder. all: unfold MPLS_ok; layer. Qed.
Lemma CTP_typed data : is_bytes data →
  parses (LinkLayers.Ctp.parse data) CTP_ok (fun l => Payload (LinkLayers.Ctp.base l)) data.
Proof. unfold LinkLayers.Ctp.parse. decoder. all: unfold CTP_ok; layer. Qed.
Lemma FDDI_typed data : is_bytes data →
  parses (LinkLayers.Fddi.parse data) FDDI_ok (fun l => Payload (LinkLayers.Fddi.base l)) data.
Proof. unfold LinkLayers.Fddi.parse. decoder. all: unfold FDDI_ok; layer. Qed.
Lemma SLL_typed data : is_bytes data →
  decodes LinkLayers.LinuxSll.empty_SLL (LinkLayers.LinuxSll.DecodeFromBytes data) SLL_ok (fun l => Payload (LinkLayers.LinuxSll.base l)) data.
Proof. unfold LinkLayers.LinuxSll.DecodeFromBytes. decoder. all: unfold SLL_ok; layer. Qed.
Lemma UDP_typed data : is_bytes data →
  decodes Udp.empty_UDP (Udp.DecodeFromBytes data) UDP_ok (fun l => Payload (Udp.base l)) data.
Proof. unfold Udp.DecodeFromBytes, Udp.decode_header, Udp.set_Payload. decoder. all: unfold UDP_ok; layer. Qed.
Lemma UDPLite_typed data : is_bytes data →
  parses (ControlLayers.UdpLite.parse data) UDPLite_ok (fun l => Payload (ControlLayers.UdpLite.base l)) data.
Proof. unfold ControlLayers.UdpLite.parse. decoder. all: unfold UDPLite_ok; layer. Qed.
Lemma ICMPv4_typed data : is_bytes data →
  decodes ControlLayers.Icmp4.empty_ICMPv4 (ControlLayers.Icmp4.DecodeFromBytes data) ICMPv4_ok (fun l => Payload (ControlLayers.Icmp4.base l)) data.
Proof. unfold ControlLayers.Icmp4.DecodeFromBytes, ControlLayers.Icmp4.decode_header, ControlLayers.Icmp4.CreateICMPv4TypeCode. decoder. all: unfold ICMPv4_ok; layer. Qed.
Lemma ICMPv6_typed data : is_bytes data →
  decodes ControlLayers.Icmp6.empty_ICMPv6 (ControlLayers.Icmp6.DecodeFromBytes data) ICMPv6_ok (fun l => Payload (ControlLayers.Icmp6.base l)) data.
Proof. unfold ControlLayers.Icmp6.DecodeFromBytes, ControlLayers.Icmp6.decode_header, ControlLayers.Icmp6.CreateICMPv6TypeCode. decoder. all: unfold ICMPv6_ok; layer. Qed.
Lemma Echo_typed data : is_bytes data →
  decodes ControlLayers.Icmp6.empty_Echo (ControlLayers.Icmp6.Echo_DecodeFromBytes data) Echo_ok (fun l => Payload (ControlLayers.Icmp6.echo_base l)) data.
Proof. unfold ControlLayers.Icmp6.Echo_DecodeFromBytes. decoder. all: unfold Echo_ok; layer. Qed.
Lemma STP_typed data : is_bytes data →
  decodes ControlLayers.Stp.empty_STP (ControlLayers.Stp.DecodeFromBytes data) STP_ok (fun l => Payload (ControlLayers.Stp.base l)) data.
Proof. unfold ControlLayers.Stp.DecodeFromBytes, ControlLayers.Stp.decode_header, ControlLayers.Stp.decode_switch. decoder. all: unfold STP_ok, Switch_ok; layer. Qed.
Lemma EAP_typed data : is_bytes data →
  decodes ControlLayers.Eap.empty_EAP (ControlLayers.Eap.DecodeFromBytes data) EAP_ok (fun l => Payload (ControlLayers.Eap.base l)) data.
Proof. unfold ControlLayers.Eap.DecodeFromBytes. decoder. all: unfold EAP_ok; layer. Qed.
Lemma PFLog_typed data : is_bytes data →
  decodes ControlLayers.PfLog.empty_PFLog (ControlLayers.PfLog.DecodeFromBytes data) PFLog_ok (fun l => Payload (ControlLayers.PfLog.base l)) data.
Proof. unfold ControlLayers.PfLog.DecodeFromBytes, ControlLayers.PfLog.decode_header. decoder. all: unfold PFLog_ok; layer. Qed.
Lemma IPv6Fragment_typed data : is_bytes data →
  parses (Ip6.parse_fragment data) IPv6Fragment_ok (fun l => Payload (Ip6.fr_base l)) data.
Proof. unfold Ip6.parse_fragment. decoder. all: unfold IPv6Fragment_ok; layer. Qed.
Lemma IPSecAH_typed data : is_bytes data →
  parses (TunnelLayers.IpSec.parse_AH data) IPSecAH_ok (fun l => Payload (Ip6.ext_base (TunnelLayers.IpSec.ext l))) data.
Proof. unfold TunnelLayers.IpSec.parse_AH. decoder. all: unfold IPSecAH_ok; layer. Qed.
Lemma IPSecESP_typed data : is_bytes data →
  parses (TunnelLayers.IpSec.parse_ESP data) IPSecESP_ok (fun l => Payload (TunnelLayers.IpSec.esp_base l)) data.
Proof. unfold TunnelLayers.IpSec.parse_ESP. decoder. all: unfold IPSecESP_ok; layer. Qed.
Lemma VXLAN_typed data : is_bytes data →
  decodes TunnelLayers.Vxlan.empty_VXLAN (TunnelLayers.Vxlan.DecodeFromBytes data) VXLAN_ok (fun l => Payload (TunnelLayers.Vxlan.base l)) data.
Proof. unfold TunnelLayers.Vxlan.DecodeFromBytes, TunnelLayers.Vxlan.decode_header, TunnelLayers.Vxlan.uint24. decoder. all: unfold VXLAN_ok; layer. Qed.
Lemma EtherIP_typed data : is_bytes data →
  decodes TunnelLayers.EtherIp.empty_EtherIP (TunnelLayers.EtherIp.DecodeFromBytes data) EtherIP_ok (fun l => Payload (TunnelLayers.EtherIp.base l)) data.
Proof. unfold TunnelLayers.EtherIp.DecodeFromBytes. decoder. all: unfold EtherIP_ok; layer. Qed.
Lemma ERSPANII_typed data : is_bytes data →
  decodes TunnelLayers.Erspan2.empty_ERSPANII (TunnelLayers.Erspan2.DecodeFromBytes data) ERSPANII_ok (fun l => Payload (TunnelLayers.Erspan2.base l)) data.
Proof. unfold TunnelLayers.Erspan2.DecodeFromBytes. decoder. all: unfold ERSPANII_ok; layer. Qed.
Lemma SCTP_typed data : is_bytes data →
  decodes Sctp.empty_SCTP (Sctp.DecodeFromBytes data) SCTP_ok (fun l => Payload (Sctp.base l)) data.
Proof. unfold Sctp.DecodeFromBytes, Sctp.decode_header. decoder. all: unfold SCTP_ok; layer. Qed.

(** ** Decoders with loops *)

(** Close a loop's goals: recursive calls with [IH], the layer's claim with [set]. *)
Ltac loop IH set :=
  safe_steps; cbn [dlayer];
  try (split; [|reflexivity]);
  repeat (apply set; [|auto using Forall_snoc, is_bytes_nil]);
  try assumption;
  try (eapply ts_mono;
    [ eapply IH; [assumption | unfold len, is_byte in *; lia |
        repeat (apply set; [|auto using Forall_snoc, is_bytes_nil]); assumption]
    | intros ? ? [? ->]; split; [assumption | reflexivity]
    | intros ? ?; assumption ]).

Lemma byte_0 : is_byte 0.
Proof. done. Qed.
Lemma byte_1 : is_byte 1.
Proof. done. Qed.
#[export] Hint Resolve byte_0 byte_1 : typed.

Lemma TCP_options_typed fuel : ∀ rest l tr, is_bytes rest → (length rest < fuel)%nat → TCP_ok l →
  safe (Tcp.decode_options fuel rest) (fun _ s => TCP_ok (dlayer s) ∧ Tcp.base (dlayer s) = Tcp.base l)
    (fun s => TCP_ok (dlayer s)) (DState l tr).
Proof.
  induction fuel as [|fuel IH]; intros rest l tr Hb Hn Hl; [lia|]. cbn [Tcp.decode_options].
  assert (∀ os l, TCP_ok l → Forall TCPOption_ok os → TCP_ok (Tcp.set_Options os l)) as Hset.
  { unfold TCP_ok. cbn. tauto. }
  assert (Forall TCPOption_ok (Tcp.Options l)) as Hos by (unfold TCP_ok in Hl; tauto).
  assert (∀ k n d, is_byte k → is_byte n → is_bytes d → TCPOption_ok (Tcp.mkOption k n d)) as Ho by done.
  pose proof byte_0. pose proof byte_1. loop IH Hset.
  - assert (∀ p l, TCP_ok l → is_bytes p → TCP_ok (Tcp.set_Padding p l)) as Hpad by (unfold TCP_ok; cbn; tauto).
    apply Hpad; [|assumption]. repeat (apply Hset; [|auto using Forall_snoc, is_bytes_nil]). assumption.
Qed.

Lemma TCP_typed data : is_bytes data →
  decodes Tcp.empty_TCP (Tcp.DecodeFromBytes data) TCP_ok (fun l => Payload (Tcp.base l)) data.
Proof.
  unfold Tcp.DecodeFromBytes, Tcp.decode_header. decoder. all: try (unfold TCP_ok; layer; fail).
  eapply ts_mono; [apply TCP_options_typed; [assumption | lia | unfold TCP_ok; layer]| |done].
  intros _ s' [Hok ->]. split; [done|]. cbn in *. layer.
Qed.

Lemma IPv4_options_typed fuel : ∀ rest l tr, is_bytes rest → (length rest < fuel)%nat → IPv4_ok l →
  safe (Ip4.decode_options fuel rest) (fun _ s => IPv4_ok (dlayer s) ∧ Ip4.base (dlayer s) = Ip4.base l)
    (fun s => IPv4_ok (dlayer s)) (DState l tr).
Proof.
  induction fuel as [|fuel IH]; intros rest l tr Hb Hn Hl; [lia|]. cbn [Ip4.decode_options]. unfold Ip4.append_option.
  assert (∀ os l, IPv4_ok l → Forall IPv4Option_ok os → IPv4_ok (Ip4.set_Options os l)) as Hset.
  { unfold IPv4_ok. cbn. tauto. }
  assert (Forall IPv4Option_ok (Ip4.Options l)) as Hos by (unfold IPv4_ok in Hl; tauto).
  assert (∀ k n d, is_byte k → is_byte n → is_bytes d → IPv4Option_ok (Ip4.mkOption k n d)) as Ho by done.
  pose proof byte_0. pose proof byte_1. loop IH Hset.
  - assert (∀ p l, IPv4_ok l → is_bytes p → IPv4_ok (Ip4.set_Padding p l)) as Hpad by (unfold IPv4_ok; cbn; tauto).
    apply Hpad; [|assumption]. repeat (apply Hset; [|auto using Forall_snoc, is_bytes_nil]). assumption.
Qed.

Lemma IPv4_header_typed data : is_bytes data →
  osafe (Ip4.decode_header data) (fun ip => IPv4_ok ip ∧ Ip4.IHL ip < 16) True.
Proof.
  intros Hb. unfold Ip4.decode_header. safe_steps. all: try done.
  assert (is_u16 (if v0 =? 0 then u16 (len data) else v0)) as Hlen by (destruct (_ =? 0); typed).
  assert (0 <= Z.land a 15 < 16) by (apply land_r_range; lia).
  assert (is_u8 (Z.shiftr v 13)) by (unfold is_u8, is_u16 in *; rewrite Z.shiftr_div_pow2 by done; change (2 ^ 13) with 8192; Z.div_mod_to_equations; lia).
  split; [|cbn; lia]. unfold IPv4_ok. layer.
Qed.

Lemma IPv4_typed data : is_bytes data →
  decodes Ip4.empty_IPv4 (Ip4.DecodeFromBytes data) IPv4_ok (fun l => Payload (Ip4.base l)) data.
Proof.
  unfold Ip4.DecodeFromBytes, Ip4.cut_to_length. decoder. { unfold IPv4_ok. layer. }
  eapply osafe_mono; [apply IPv4_header_typed; assumption | intros ip [Hip Hihl] | intros _; unfold IPv4_ok; layer].
  assert (∀ b l, IPv4_ok l → base_ok b → IPv4_ok (Ip4.set_base b l)) as Hset by (unfold IPv4_ok; cbn; tauto).
  assert (∀ (options : bytes) c (p : bytes) tr, Ip4.IHL ip >= 5 → is_bytes options → is_bytes c → is_bytes p →
    len p <= len data - u8 (Ip4.IHL ip * 4) →
    safe (Ip4.decode_options (S (length options)) options)
      (fun _ s => IPv4_ok (dlayer s) ∧ shorter (Payload (Ip4.base (dlayer s))) data)
      (fun s => IPv4_ok (dlayer s)) (DState (Ip4.set_base (mkBase c p) ip) tr)) as Ho.
  { intros options c p tr Hi ? ? ? Hp. eapply ts_mono; [apply IPv4_options_typed; [assumption | lia |]| |done].
    - apply Hset; [assumption | by split].
    - intros _ s' [Hok ->]. split; [exact Hok|]. apply shorter_len. cbn [Payload Ip4.base Ip4.set_base].
      unfold u8 in Hp. rewrite Z.mod_small in Hp by lia. lia. }
  safe_steps; try exact Hip. all: apply Ho; try assumption; lia.
Qed.

Definition function_ok (r : LinkLayers.Ctp.EthernetCTPReply + LinkLayers.Ctp.EthernetCTPForwardData) : Prop :=
  match r with inl l => CTPReply_ok l | inr l => CTPForward_ok l end.
Definition function_payload (r : LinkLayers.Ctp.EthernetCTPReply + LinkLayers.Ctp.EthernetCTPForwardData) : bytes :=
  match r with inl _ => [] | inr l => Payload (LinkLayers.Ctp.fw_base l) end.
Lemma CTP_function_typed data : is_bytes data →
  parses (LinkLayers.Ctp.parse_function data) function_ok function_payload data.
Proof. unfold LinkLayers.Ctp.parse_function. decoder. all: unfold function_ok, CTPReply_ok, CTPForward_ok; layer. Qed.

Lemma GRE_routing_typed fuel : ∀ data offset, is_bytes data → (1 <= fuel)%nat → len data - offset < Z.of_nat fuel →
  osafe (TunnelLayers.Gre.routing_entries fuel data offset) (fun r => Forall SRE_ok r.1 ∧ offset < r.2) True.
Proof.
  induction fuel as [|fuel IH]; intros data offset Hb H1 Hf; [lia|]. cbn [TunnelLayers.Gre.routing_entries].
  safe_steps; [done.. | |].
  - unfold is_byte in *. split; [constructor | cbn; lia].
  - unfold is_byte in *. eapply osafe_mono; [apply IH; [assumption | lia..]| |done]. cbn. intros p [Hp Ho]. split; [|lia].
    constructor; [|exact Hp]. unfold SRE_ok. cbn. unfold is_u8. auto.
Qed.

Lemma GRE_typed data : is_bytes data →
  decodes TunnelLayers.Gre.empty_GRE (TunnelLayers.Gre.DecodeFromBytes data) GRE_ok (fun l => Payload (TunnelLayers.Gre.base l)) data.
Proof.
  unfold TunnelLayers.Gre.DecodeFromBytes. intros Hb. unfold decodes.
  assert (∀ c o g, GRE_ok g → is_u16 c → is_u16 o → GRE_ok (TunnelLayers.Gre.set_checksum c o g)) as Hc by (unfold GRE_ok; cbn; tauto).
  assert (∀ k s a g, GRE_ok g → is_u32 k → is_u32 s → is_u32 a → GRE_ok (TunnelLayers.Gre.set_numbers k s a g)) as Hn by (unfold GRE_ok; cbn; tauto).
  assert (∀ g, GRE_ok g → is_u32 (TunnelLayers.Gre.Key g) ∧ is_u32 (TunnelLayers.Gre.Seq g) ∧ is_u32 (TunnelLayers.Gre.Ack g)) as Hg by (unfold GRE_ok; tauto).
  assert (∀ r g, GRE_ok g → Forall SRE_ok r → GRE_ok (TunnelLayers.Gre.set_Routing r g)) as Hr by (unfold GRE_ok; cbn; tauto).
  assert (∀ b g, GRE_ok g → base_ok b → GRE_ok (TunnelLayers.Gre.set_base b g)) as Hs by (unfold GRE_ok; cbn; tauto).
  do 13 safe_step.
  set (g := TunnelLayers.Gre.set_flags _ _ _ _). assert (GRE_ok g) as Hok by (unfold GRE_ok, g; layer). clearbody g. 
  apply (ts_phase (fun o s => GRE_ok (dlayer s) ∧ 4 <= o)).
  { safe_steps; auto. all: cbn; split; [auto | lia]. }
  intros o1 [g1 tr1] [Ho1 Hx1]. cbn in Ho1. destruct (Hg _ Ho1) as (?&?&?).
  apply (ts_phase (fun o s => GRE_ok (dlayer s) ∧ 4 <= o)).
  { safe_steps; auto. all: cbn; split; [auto | lia]. }
  intros o2 [g2 tr2] [Ho2 Hx2]. cbn in Ho2. destruct (Hg _ Ho2) as (?&?&?).
  apply (ts_phase (fun o s => GRE_ok (dlayer s) ∧ 4 <= o)).
  { safe_steps; auto. all: cbn; split; [auto | lia]. }
  intros o3 [g3 tr3] [Ho3 Hx3]. cbn in Ho3. destruct (Hg _ Ho3) as (?&?&?).
  apply (ts_phase (fun o s => GRE_ok (dlayer s) ∧ 4 <= o)).
  { safe_steps; auto.
    eapply osafe_mono; [apply GRE_routing_typed; [assumption | lia | unfold len; lia]| |auto].
    intros [[|r rs] o] [Hrs Hlt]; safe_steps; cbn in *; (split; [auto | lia]). }
  intros o4 [g4 tr4] [Ho4 Hx4]. cbn in Ho4. destruct (Hg _ Ho4) as (?&?&?).
  apply (ts_phase (fun o s => GRE_ok (dlayer s) ∧ 4 <= o)).
  { safe_steps; auto. all: cbn; split; [auto | lia]. }
  intros o5 [g5 tr5] [Ho5 Hx5]. cbn in Ho5.
  safe_steps; auto. split; [apply Hs; [auto | by split]|]. cbn. layer.
Qed.

Lemma Geneve_option_typed {L} data (l : L) tr : is_bytes data →
  safe (TunnelLayers.Geneve.decodeGeneveOption data)
    (fun r s => dlayer s = l ∧ GeneveOption_ok r.1 ∧ 4 <= r.2) (fun s => dlayer s = l) (DState l tr).
Proof.
  intros Hb. unfold TunnelLayers.Geneve.decodeGeneveOption. safe_steps; try done.
  assert (0 <= Z.land a0 15 < 16) by (apply land_r_range; lia).
  split; [done|]. split; [unfold GeneveOption_ok; layer|]. cbn. unfold u8. Z.div_mod_to_equations. lia.
Qed.

Lemma Geneve_options_typed fuel : ∀ data offset length l tr, is_bytes data → Z.max 0 length < Z.of_nat fuel → Geneve_ok l →
  safe (TunnelLayers.Geneve.decode_options fuel data offset length)
    (fun _ s => Geneve_ok (dlayer s)) (fun s => Geneve_ok (dlayer s)) (DState l tr).
Proof.
  induction fuel as [|fuel IH]; intros data offset length l tr Hb Hn Hl; [lia|]. cbn [TunnelLayers.Geneve.decode_options].
  safe_steps; try assumption. eapply ts_mono; [by apply Geneve_option_typed| |by cbn; intros s ->].
  intros r' [l' tr'] (Heq & Ho & Hr). cbn in Heq. subst l'. safe_steps. apply IH; [assumption | lia |].
  unfold Geneve_ok in *. cbn. intuition auto using Forall_snoc.
Qed.

(** The offset behind the options is a [uint8], which may have wrapped: the payload may be all of the data. *)
Lemma Geneve_typed data : is_bytes data →
  safe (TunnelLayers.Geneve.DecodeFromBytes data)
    (fun _ s => Geneve_ok (dlayer s) ∧ len (Payload (TunnelLayers.Geneve.base (dlayer s))) <= len data)
    (fun s => Geneve_ok (dlayer s)) (DState TunnelLayers.Geneve.empty_Geneve false).
Proof.
  intros Hb. unfold TunnelLayers.Geneve.DecodeFromBytes, TunnelLayers.Vxlan.uint24. safe_steps.
  all: try (unfold Geneve_ok; layer; fail).
  - eapply ts_mono; [apply Geneve_options_typed; [assumption | | unfold Geneve_ok; layer]| |done].
    + pose proof (u8_range (Z.land a 63 * 4)). unfold is_u8 in *. lia.
    + intros o [l tr] Hl. cbn in Hl. safe_steps; try assumption. cbn. unfold Geneve_ok in *. cbn in *.
      split; [|lia]. intuition auto. by split.
Qed.

Lemma u16_step c e n : 0 < c < n → n < 65536 → 0 < e < 256 → u16 (c + 1) <= u16 (u16 (c + e * 4) - 1) < n →
  u16 (c + e * 4) = c + e * 4.
Proof. unfold u16. intros. Z.div_mod_to_equations. lia. Qed.

(** The offsets are [uint16]: of data of 65535 bytes at most each round takes some. *)
Lemma GTP_extensions_typed fuel : ∀ data cIndex l tr, is_bytes data → len data < 65536 → 0 < cIndex →
  (1 <= fuel)%nat → len data - cIndex < Z.of_nat fuel → GTP_ok l →
  safe (TunnelLayers.Gtp.decode_extensions fuel data cIndex)
    (fun c s => 0 < c ∧ GTP_ok (dlayer s)) (fun s => GTP_ok (dlayer s)) (DState l tr).
Proof.
  induction fuel as [|fuel IH]; intros data cIndex l tr Hb Hlen Hc H1 Hf Hl; [lia|]. cbn [TunnelLayers.Gtp.decode_extensions].
  assert (∀ b es l, GTP_ok l → Forall GTPExtension_ok es → GTP_ok (TunnelLayers.Gtp.set_extensions b es l)) as Hset
    by (unfold GTP_ok; cbn; tauto).
  assert (Forall GTPExtension_ok (TunnelLayers.Gtp.GTPExtensionHeaders l)) as Hes by (unfold GTP_ok in Hl; tauto).
  safe_steps; try assumption.
  all: rewrite (u16_step cIndex a0 (len data)) in * by (unfold is_byte in *; lia).
  - apply IH; [assumption | unfold is_byte in *; lia.. | apply Hset; [exact Hl|]]. apply Forall_snoc; [exact Hes | by split].
  - cbn [dlayer]. split; [unfold is_byte in *; lia|]. apply Hset; [exact Hl|]. apply Forall_snoc; [exact Hes | by split].
Qed.

Lemma GTP_typed data : is_bytes data → len data < 65536 →
  decodes TunnelLayers.Gtp.empty_GTP (TunnelLayers.Gtp.DecodeFromBytes data) GTP_ok (fun l => Payload (TunnelLayers.Gtp.base l)) data.
Proof.
  intros Hb Hlen. unfold decodes, TunnelLayers.Gtp.DecodeFromBytes.
  assert (∀ t s n g, GTP_ok g → is_u32 t → is_u16 s → is_u8 n → GTP_ok (TunnelLayers.Gtp.set_numbers t s n g)) as Hn by (unfold GTP_ok; cbn; tauto).
  assert (∀ g, GTP_ok g → is_u32 (TunnelLayers.Gtp.TEID g) ∧ is_u16 (TunnelLayers.Gtp.SequenceNumber g) ∧ is_u8 (TunnelLayers.Gtp.NPDU g)) as Hg by (unfold GTP_ok; tauto).
  assert (∀ b g, GTP_ok g → base_ok b → GTP_ok (TunnelLayers.Gtp.set_base b g)) as Hs by (unfold GTP_ok; cbn; tauto).
  apply ts_if; intros ?; [apply ts_throw; unfold GTP_ok; layer|]. do 11 safe_step.
  set (g := TunnelLayers.Gtp.set_header _ _ _ _). assert (GTP_ok g) as Hok by (unfold GTP_ok, g; layer). clearbody g.
  apply ts_if; intros ?; [by apply ts_throw|]. do 5 safe_step.
  destruct (Hg _ Hok) as (?&?&?). set (g1 := TunnelLayers.Gtp.set_numbers _ _ _ _). assert (GTP_ok g1) as Hok1 by (by apply Hn).
  clearbody g1. do 2 safe_step. destruct (Hg _ Hok1) as (?&?&?).
  apply (ts_phase (fun c s => 0 < c ∧ GTP_ok (dlayer s))).
  { apply ts_if; intros ?; [|by apply ts_ret]. apply ts_if; intros ?; [by apply ts_throw|].
    apply (ts_phase (fun _ s => GTP_ok (dlayer s))); [safe_steps; cbn; auto|]. intros _ [g2 tr2] Hok2. cbn in Hok2.
    destruct (Hg _ Hok2) as (?&?&?).
    apply (ts_phase (fun _ s => GTP_ok (dlayer s))); [safe_steps; cbn; auto|]. intros _ [g3 tr3] Hok3. cbn in Hok3.
    apply ts_if; intros ?; [|by apply ts_ret]. apply GTP_extensions_typed; try assumption; unfold len; lia. }
  intros c [g2 tr2] [Hc Hok2]. cbn in Hok2. safe_steps; try assumption. split; [apply Hs; [assumption | by split]|]. cbn. layer.
Qed.

Lemma RUDP_seqs_typed fuel : ∀ d i, is_bytes d → 0 <= i → len d - i < Z.of_nat fuel → (1 <= fuel)%nat →
  osafe (ControlLayers.Rudp.seqs_received fuel d i) (Forall is_u32) True.
Proof.
  induction fuel as [|fuel IH]; intros d i Hb Hi Hf H1; [lia|]. cbn [ControlLayers.Rudp.seqs_received]. safe_steps; [|constructor].
  eapply osafe_mono; [apply IH; [assumption | lia..] | | done]. intros ss Hss. safe_steps. by constructor.
Qed.

Lemma RUDP_typed data : is_bytes data →
  parses (ControlLayers.Rudp.parse data) RUDP_ok (fun l => Payload (ControlLayers.Rudp.base l)) data.
Proof.
  unfold ControlLayers.Rudp.parse. decoder. all: try (unfold RUDP_ok, RUDPSyn_ok; layer; fail).
  eapply osafe_mono; [apply RUDP_seqs_typed; [assumption | unfold len; lia..]| |done].
  intros ss Hss. safe_steps. unfold RUDP_ok. layer.
Qed.

Lemma VRRP_addresses_typed n : ∀ data offset l tr, is_bytes data → VRRP_ok l →
  safe (ControlLayers.Vrrp.decode_addresses n data offset)
    (fun _ s => VRRP_ok (dlayer s) ∧ ControlLayers.Vrrp.base (dlayer s) = ControlLayers.Vrrp.base l)
    (fun s => VRRP_ok (dlayer s)) (DState l tr).
Proof.
  induction n as [|n IH]; intros data offset l tr Hb Hl; cbn [ControlLayers.Vrrp.decode_addresses]; safe_steps; [by split|].
  eapply ts_mono; [apply IH; [assumption|]|cbn; auto|auto]. unfold VRRP_ok in *. cbn. intuition auto using Forall_snoc.
Qed.

Lemma VRRP_typed data : is_bytes data →
  decodes ControlLayers.Vrrp.empty_VRRP (ControlLayers.Vrrp.DecodeFromBytes data) VRRP_ok (fun l => Payload (ControlLayers.Vrrp.base l)) data.
Proof.
  unfold ControlLayers.Vrrp.DecodeFromBytes. decoder. all: try (unfold VRRP_ok; layer; fail).
  eapply ts_mono; [apply VRRP_addresses_typed; [assumption | unfold VRRP_ok; layer]| |done].
  intros _ s [Hok ->]. split; [exact Hok | layer].
Qed.

Lemma AGUEVar0_typed data : is_bytes data →
  decodes ControlLayers.Ague.empty_Var0 (ControlLayers.Ague.DecodeFromBytes data) AGUEVar0_ok ControlLayers.Ague.Data data.
Proof. unfold ControlLayers.Ague.DecodeFromBytes. decoder. all: unfold AGUEVar0_ok; layer. Qed.

(** The second variant hands on all of the data. *)
Lemma AGUEVar1_typed data : is_bytes data →
  safe (ControlLayers.Ague.Var1_DecodeFromBytes data)
    (fun _ s => AGUEVar1_ok (dlayer s) ∧ ControlLayers.Ague.v1_Data (dlayer s) = data)
    (fun s => AGUEVar1_ok (dlayer s)) (DState ControlLayers.Ague.empty_Var1 false).
Proof. unfold ControlLayers.Ague.Var1_DecodeFromBytes. intros Hb. safe_steps. all: unfold AGUEVar1_ok; layer. Qed.

Lemma NDP_options_typed {L} (add : ControlLayers.Icmp6.ICMPv6Option → L → L) (ok : L → Prop) fuel :
  (∀ o l, ok l → ICMPv6Option_ok o → ok (add o l)) →
  ∀ data l tr, is_bytes data → (length data < fuel)%nat → ok l →
  safe (ControlLayers.Icmp6.Options_DecodeFromBytes add fuel data)
    (fun _ s => ok (dlayer s)) (fun s => ok (dlayer s)) (DState l tr).
Proof.
  intros Hadd. induction fuel as [|fuel IH]; intros data l tr Hb Hn Hl; [lia|].
  cbn [ControlLayers.Icmp6.Options_DecodeFromBytes]. safe_steps; try assumption.
  apply IH; [assumption | unfold len, is_byte in *; lia | by apply Hadd].
Qed.

(** A neighbour discovery message whose header is decoded: its options, and no payload. *)
Ltac ndp ok base :=
  decoder; try (unfold ok; layer; fail);
  eapply ts_mono; [apply (NDP_options_typed _ (fun l => ok l ∧ Payload (base l) = []))| |];
  [ unfold ok; cbn; intuition auto using Forall_snoc | assumption | lia | unfold ok; layer
  | intros _ s [Hok ->]; split; [exact Hok | apply shorter_nil] | by intros s [Hok _] ].

Lemma RS_typed data : is_bytes data →
  decodes ControlLayers.Icmp6.empty_RS (ControlLayers.Icmp6.RS_DecodeFromBytes data) RS_ok (fun l => Payload (ControlLayers.Icmp6.rs_base l)) data.
Proof. unfold ControlLayers.Icmp6.RS_DecodeFromBytes. ndp RS_ok ControlLayers.Icmp6.rs_base. Qed.
Lemma RA_typed data : is_bytes data →
  decodes ControlLayers.Icmp6.empty_RA (ControlLayers.Icmp6.RA_DecodeFromBytes data) RA_ok (fun l => Payload (ControlLayers.Icmp6.ra_base l)) data.
Proof. unfold ControlLayers.Icmp6.RA_DecodeFromBytes. ndp RA_ok ControlLayers.Icmp6.ra_base. Qed.
Lemma NS_typed data : is_bytes data →
  decodes ControlLayers.Icmp6.empty_NS (ControlLayers.Icmp6.NS_DecodeFromBytes data) NS_ok (fun l => Payload (ControlLayers.Icmp6.ns_base l)) data.
Proof. unfold ControlLayers.Icmp6.NS_DecodeFromBytes. ndp NS_ok ControlLayers.Icmp6.ns_base. Qed.
Lemma NA_typed data : is_bytes data →
  decodes ControlLayers.Icmp6.empty_NA (ControlLayers.Icmp6.NA_DecodeFromBytes data) NA_ok (fun l => Payload (ControlLayers.Icmp6.na_base l)) data.
Proof. unfold ControlLayers.Icmp6.NA_DecodeFromBytes. ndp NA_ok ControlLayers.Icmp6.na_base. Qed.
Lemma Redirect_typed data : is_bytes data →
  decodes ControlLayers.Icmp6.empty_Redirect (ControlLayers.Icmp6.Redirect_DecodeFromBytes data) Redirect_ok (fun l => Payload (ControlLayers.Icmp6.rd_base l)) data.
Proof. unfold ControlLayers.Icmp6.Redirect_DecodeFromBytes. ndp Redirect_ok ControlLayers.Icmp6.rd_base. Qed.

Lemma Extension_typed {L} data (l : L) tr : is_bytes data →
  safe (Ip6.decodeIPv6ExtensionBase data)
    (fun e s => dlayer s = l ∧ Extension_ok e ∧ 8 <= Ip6.ext_ActualLength e ∧ Ip6.ext_ActualLength e <= len data ∧
       len (Payload (Ip6.ext_base e)) = len data - Ip6.ext_ActualLength e)
    (fun s => dlayer s = l) (DState l tr).
Proof.
  intros Hb. unfold Ip6.decodeIPv6ExtensionBase. safe_steps; try done.
  split; [done|]. unfold is_byte in *. split; [|cbn; lia]. unfold Extension_ok. layer.
Qed.

Lemma TLV_typed {L} data (l : L) tr : is_bytes data →
  safe (Ip6.decodeIPv6HeaderTLVOption data)
    (fun o s => dlayer s = l ∧ TLV_ok o ∧ 1 <= Ip6.ActualLength o) (fun s => dlayer s = l) (DState l tr).
Proof.
  intros Hb. unfold Ip6.decodeIPv6HeaderTLVOption. safe_steps; try done.
  all: split; [done|]; unfold is_byte in *; (split; [|cbn; lia]); unfold TLV_ok, Ip6.data_of; layer.
Qed.

Lemma IPv6_options_typed fuel : ∀ data offset actual l tr, is_bytes data → 0 <= offset → len data - offset < Z.of_nat fuel →
  (1 <= fuel)%nat → actual <= len data → OptionsHeader_ok l →
  safe (Ip6.decode_options fuel data offset actual)
    (fun _ s => OptionsHeader_ok (dlayer s) ∧ Ip6.ext (dlayer s) = Ip6.ext l)
    (fun s => OptionsHeader_ok (dlayer s)) (DState l tr).
Proof.
  induction fuel as [|fuel IH]; intros data offset actual l tr Hb Ho Hf H1 Ha Hl; [lia|]. cbn [Ip6.decode_options].
  safe_steps; [|by split].
  eapply ts_mono; [by apply TLV_typed | | by cbn; intros s ->].
  intros o [l' tr'] (Heq & Hok & Hlen). cbn in Heq. subst l'. safe_steps.
  eapply ts_mono; [apply IH; [assumption | lia.. | ] | |]; cbn; auto.
  unfold OptionsHeader_ok in *. cbn. split; [apply Hl | apply Forall_snoc; [apply Hl | exact Hok]].
Qed.

Definition options_payload (i : Ip6.options_header) : bytes := Payload (Ip6.ext_base (Ip6.ext i)).

Lemma IPv6_base_typed data l tr : is_bytes data → Forall TLV_ok (Ip6.Options l) →
  safe (Ip6.decode_base data)
    (fun _ s => OptionsHeader_ok (dlayer s) ∧ 8 <= Ip6.ext_ActualLength (Ip6.ext (dlayer s)) <= len data ∧
       len (options_payload (dlayer s)) = len data - Ip6.ext_ActualLength (Ip6.ext (dlayer s)))
    (fun s => OptionsHeader_ok (dlayer s)) (DState l tr).
Proof.
  intros Hb Hl. unfold Ip6.decode_base. apply ts_bind, ts_attempt.
  eapply ts_mono; [by apply Extension_typed | |].
  - intros e [l' tr'] (Heq & Hok & H8 & Hle & Hp). cbn in Heq. subst l'. safe_steps. cbn. unfold OptionsHeader_ok, options_payload. cbn. auto.
  - intros [l' tr'] Heq e. cbn in Heq. subst l'. safe_steps. unfold OptionsHeader_ok, Extension_ok. layer.
Qed.

Lemma HopByHop_typed data tr : is_bytes data →
  safe (Ip6.HopByHop_DecodeFromBytes data)
    (fun _ s => OptionsHeader_ok (dlayer s) ∧ shorter (options_payload (dlayer s)) data ∧ 0 <= Ip6.ext_ActualLength (Ip6.ext (dlayer s)))
    (fun s => OptionsHeader_ok (dlayer s)) (DState Ip6.empty_options_header tr).
Proof.
  intros Hb. unfold Ip6.HopByHop_DecodeFromBytes.
  eapply ts_phase; [apply IPv6_base_typed; [assumption | constructor]|].
  intros _ [l tr'] (Hok & Hr & Hp). cbn in Hok, Hr, Hp. safe_steps.
  eapply ts_mono; [apply IPv6_options_typed; [assumption | unfold len in *; cbn; lia.. | ]| |done].
  - unfold OptionsHeader_ok in *. cbn. split; [apply Hok | constructor].
  - intros _ s' [Hok' Heq]. change (Ip6.ext (dlayer s') = Ip6.ext l) in Heq. unfold options_payload in *. rewrite Heq. split; [exact Hok' |]. split; [|lia].
    eapply shorter_by; [exact Hp | lia].
Qed.

Lemma Destination_typed data : is_bytes data →
  decodes Ip6.empty_options_header (Ip6.Destination_DecodeFromBytes data) OptionsHeader_ok options_payload data.
Proof.
  intros Hb. unfold decodes, Ip6.Destination_DecodeFromBytes.
  eapply ts_phase; [apply IPv6_base_typed; [assumption | constructor]|].
  intros _ [l tr'] (Hok & Hr & Hp). cbn in Hok, Hr, Hp. safe_steps.
  eapply ts_mono; [apply IPv6_options_typed; [assumption | unfold len in *; cbn; lia.. | assumption]| |done].
  intros _ s' [Hok' Heq]. unfold options_payload in *. rewrite Heq. split; [exact Hok' |].
  eapply shorter_by; [exact Hp | lia].
Qed.

Lemma IPv6_header_typed data : is_bytes data →
  osafe (Ip6.decode_header data) (fun i => IPv6_ok i ∧ len (Payload (Ip6.base i)) = len data - 40 ∧ Ip6.HopByHop i = None) True.
Proof. intros Hb. unfold Ip6.decode_header. safe_steps; try done. split; [unfold IPv6_ok; layer | cbn; split; [lia | done]].
Qed.

Lemma IPv6_set_base_ok b i : IPv6_ok i → base_ok b → IPv6_ok (Ip6.set_base b i).
Proof. unfold IPv6_ok. cbn. tauto. Qed.

(** What the steps behind the header keep of the layer. *)
Definition IPv6_cut_ok (n : Z) (h : option Ip6.IPv6HopByHop) (i : Ip6.IPv6) : Prop :=
  IPv6_ok i ∧ len (Payload (Ip6.base i)) <= n ∧ Ip6.HopByHop i = h.

Lemma IPv6_cut_payload_typed n h pEnd i tr : IPv6_cut_ok n h i →
  safe (Ip6.cut_payload pEnd) (fun _ s => IPv6_cut_ok n h (dlayer s)) (fun s => IPv6_ok (dlayer s)) (DState i tr).
Proof.
  intros (Hok & Hn & Hh). unfold Ip6.cut_payload, Ip6.set_Payload. assert (base_ok (Ip6.base i)) as [Hc Hp] by (unfold IPv6_ok in Hok; tauto).
  safe_steps; cbn [dlayer]; try assumption.
  all: split; [apply IPv6_set_base_ok; [exact Hok | by split] | cbn; split; [lia | exact Hh]].
Qed.

Lemma IPv6_cut_to_Length_typed n h i tr : IPv6_cut_ok n h i →
  safe Ip6.cut_to_Length (fun _ s => IPv6_cut_ok n h (dlayer s)) (fun s => IPv6_ok (dlayer s)) (DState i tr).
Proof. intros Hok. unfold Ip6.cut_to_Length. safe_steps; [apply Hok | by apply IPv6_cut_payload_typed]. Qed.

Lemma jumbo_length_typed h : OptionsHeader_ok h → osafe (Ip6.getIPv6HopByHopJumboLength h) (fun _ => True) True.
Proof.
  intros [_ Hos]. unfold Ip6.getIPv6HopByHopJumboLength. destruct (List.find _ _) as [o|] eqn:Ho; [|done].
  apply List.find_some in Ho as [Hin _]. apply list_elem_of_In in Hin. rewrite Forall_forall in Hos. specialize (Hos _ Hin).
  assert (is_bytes (Ip6.data_of o)) by (apply Hos). safe_steps; done.
Qed.

(** What is decoded behind the header: a packet's next layer is looked for behind the
    hop-by-hop layer, where there is one. *)
Definition IPv6_next (i : Ip6.IPv6) : bytes :=
  match Ip6.HopByHop i with Some h => options_payload h | None => Payload (Ip6.base i) end.

Lemma IPv6_typed data : is_bytes data →
  decodes Ip6.empty_IPv6 (Ip6.DecodeFromBytes data) IPv6_ok IPv6_next data.
Proof.
  intros Hb. unfold decodes, Ip6.DecodeFromBytes. apply ts_if; intros ?; [safe_steps; unfold IPv6_ok; layer|].
  apply ts_bind, ts_lift. eapply osafe_mono; [by apply IPv6_header_typed | | intros _; unfold IPv6_ok; layer].
  intros i (Hok & Hp & Hnone). safe_step. safe_step.
  assert (is_bytes (Payload (Ip6.base i))) as Hpb by (unfold IPv6_ok, base_ok in Hok; tauto).
  apply ts_if; intros ?.
  2: { eapply ts_mono; [by apply (IPv6_cut_to_Length_typed (len data - 40) None); split; [|split; [lia|]]| |done].
       unfold IPv6_next. intros _ s (? & ? & ->). split; [done | apply shorter_len; lia]. }
  apply (ts_phase (fun h s => dlayer s = i ∧ OptionsHeader_ok h ∧ 0 <= Ip6.ext_ActualLength (Ip6.ext h) ∧
    shorter (options_payload h) (Payload (Ip6.base i)))).
  { apply ts_zoom. cbn. apply ts_bind. eapply ts_mono; [by apply HopByHop_typed | | by intros].
    intros _ [h tr] (Hh & Hs & Ha). safe_steps. by cbn. }
  intros h [i' tr] (Heq & Hh & Ha & Hs). cbn in Heq. subst i'. safe_step. safe_step.
  assert (IPv6_ok (Ip6.set_HopByHop (Some h) i)) as Hok' by (unfold IPv6_ok in *; cbn; tauto).
  apply (ts_mono _ (fun _ s => IPv6_cut_ok (len data - 40) (Some h) (dlayer s)) _ (fun s => IPv6_ok (dlayer s)));
    [| intros _ s (? & ? & Heq); unfold IPv6_next; rewrite Heq; split; [done | intros Hne; specialize (Hs Hne); lia] | done].
  apply ts_bind, ts_lift. eapply osafe_mono; [by apply jumbo_length_typed | intros [pEnd jumbo] _ | by intros _].
  safe_steps; try assumption.
  - apply IPv6_cut_payload_typed. split; [exact Hok' | cbn; split; [lia | done]].
  - unfold Ip6.set_Payload. safe_steps. apply IPv6_cut_to_Length_typed. split; [|cbn; split; [lia | done]].
    apply IPv6_set_base_ok; [exact Hok'|]. split; [|assumption]. unfold IPv6_ok, base_ok in Hok'. tauto.
Qed.

Lemma source_routing_typed fuel : ∀ d, is_bytes d → (length d < fuel)%nat → osafe (Ip6.source_routing_ips fuel d) (Forall is_bytes) True.
Proof.
  induction fuel as [|fuel IH]; intros d Hb Hf; [lia|]. cbn [Ip6.source_routing_ips]. safe_steps; [|constructor].
  eapply osafe_mono; [apply IH; [assumption | unfold len in *; lia] | | done]. intros ips Hips. safe_steps. by constructor.
Qed.

Lemma Routing_typed data : is_bytes data →
  parses (Ip6.parse_routing data) IPv6Routing_ok (fun l => Payload (Ip6.ext_base (Ip6.rt_ext l))) data.
Proof.
  intros Hb. unfold parses, Ip6.parse_routing. apply ts_bind.
  eapply ts_mono; [by apply Extension_typed | | done]. intros e [l tr] (Heq & He & H8 & Hle & Hp). cbn in Heq. subst l.
  assert (is_bytes (Contents (Ip6.ext_base e))) by (unfold Extension_ok, base_ok in He; tauto).
  safe_steps; try done. eapply osafe_mono; [apply source_routing_typed; [assumption | lia] | | done]. intros ips Hips. safe_steps.
  split; [unfold IPv6Routing_ok; layer|]. cbn. eapply shorter_by; [exact Hp | lia].
Qed.

Lemma channel_name_typed d : is_bytes d → is_bytes (Lcm.channel_name d).1 ∧ 0 <= (Lcm.channel_name d).2.
Proof.
  induction d as [|b d IH]; intros Hb; cbn; [split; [apply is_bytes_nil | done]|].
  apply is_bytes_cons in Hb as [Hb Hd]. destruct (b =? 0); cbn; [split; [apply is_bytes_nil | done]|].
  specialize (IH Hd) as [IH1 IH2]. split; [by apply is_bytes_cons | lia].
Qed.

Lemma LCM_typed data : is_bytes data →
  decodes Lcm.empty_LCM (Lcm.DecodeFromBytes data) LCM_ok Lcm.payload data.
Proof.
  intros Hb. unfold decodes, Lcm.DecodeFromBytes. safe_steps.
  all: try match goal with |- context [Lcm.channel_name ?r] => destruct (channel_name_typed r) as [? ?]; [assumption|] end.
  all: try (unfold LCM_ok; layer; fail).
Qed.

(** The records of a message are those that [DnsCorrect] describes; here only its header. *)
Lemma DNS_items_typed {A} (dec : bytes → Z → M bytes (A * Z)) add data :
  (∀ off buf, wp (dec data off) (fun _ _ => True) (fun _ _ => True) buf) →
  (∀ x d, DNS_ok d → DNS_ok (add x d) ∧ Dns.base (add x d) = Dns.base d) →
  ∀ n off l tr, DNS_ok l → Payload (Dns.base l) = [] →
  safe (Dns.decode_items dec add n data off)
    (fun _ s => DNS_ok (dlayer s) ∧ Payload (Dns.base (dlayer s)) = []) (fun s => DNS_ok (dlayer s)) (DState l tr).
Proof.
  intros Hdec Hadd. induction n as [|n IH]; intros off l tr Hl Hp; cbn [Dns.decode_items]; [by safe_steps|].
  apply ts_bind, ts_zoom. cbn. apply ts_of_wp. eapply wp_mono; [| |apply Hdec]; [|done].
  intros [x off'] buf _. safe_steps. destruct (Hadd x (Dns.set_buffer buf l)) as [Hok Heq]; [done|].
  apply IH; [exact Hok | by rewrite Heq].
Qed.

Lemma DNS_additional_typed r d : DNS_ok d → DNS_ok (Dns.add_additional r d) ∧ Dns.base (Dns.add_additional r d) = Dns.base d.
Proof.
  intros Hok. split; [|done]. unfold DNS_ok in *. cbn. unfold Dns.extended_code. destruct (_ =? _); [|tauto].
  assert (is_u8 (Z.lor (Dns.ResponseCode d) (u8 (Z.land (Z.shiftr (Dns.TTL r) 20) 0xF0)))); [|tauto].
  apply (lor_range 8); [done | unfold is_u8 in *; tauto | apply u8_range].
Qed.

Lemma DNS_typed data : is_bytes data →
  decodes Dns.empty_DNS (Dns.DecodeFromBytes data) DNS_ok (fun l => Payload (Dns.base l)) data.
Proof.
  intros Hb. unfold decodes, Dns.DecodeFromBytes, Dns.decode_header. safe_steps.
  all: try (unfold DNS_ok; layer; fail).
  match goal with |- safe _ _ _ (DState ?d _) => assert (DNS_ok d) as Hd by (unfold DNS_ok; layer);
    assert (Payload (Dns.base d) = []) as Hp by done; set (d0 := d) in *; clearbody d0 end.
  do 4 (try apply ts_bind; eapply ts_mono; [apply DNS_items_typed;
      [ auto using DnsCorrect.Question_decode_safe, DnsCorrect.RR_decode_safe
      | first [by unfold DNS_ok | intros; by apply DNS_additional_typed] | assumption..]
    | let l := fresh "l" in let tr := fresh "tr" in intros ? [l tr] [? ?]; cbn [dlayer] in * | done]).
  safe_steps. unfold Dns.check_counts. safe_steps; try done. split; [done|]. by intros [].
Qed.

Lemma roundUp4 v : 0 <= v → v <= Sctp.roundUpToNearest4 v.
Proof. intros Hv. unfold Sctp.roundUpToNearest4. pose proof (Z.rem_bound_pos v 4). destruct (_ =? _); lia. Qed.

Lemma Chunk_typed data : is_bytes data →
  osafe (Sctp.decodeSCTPChunk data) (fun c => Chunk_ok c ∧ 4 <= Sctp.ActualLength c ∧ shorter (Payload (Sctp.ch_base c)) data) True.
Proof.
  intros Hb. unfold Sctp.decodeSCTPChunk. safe_steps; try done.
  pose proof (roundUp4 v). unfold is_u16 in *.
  destruct (_ =? _); safe_steps; (split; [unfold Chunk_ok; layer|]); cbn; (split; [lia|]); apply shorter_len; lia.
Qed.

Lemma Parameters_typed fuel : ∀ d, is_bytes d → (length d < fuel)%nat →
  osafe (Sctp.decode_parameters fuel d) (Forall Parameter_ok) True.
Proof.
  induction fuel as [|fuel IH]; intros d Hb Hf; [lia|]. cbn [Sctp.decode_parameters]. unfold Sctp.decodeSCTPParameter.
  safe_steps; [|constructor]. pose proof (roundUp4 v ltac:(unfold is_u16 in *; lia)). cbn in *.
  eapply osafe_mono; [apply IH; [assumption | unfold len in *; lia] | | done]. intros ps Hps. safe_steps.
  constructor; [|exact Hps]. unfold Parameter_ok. layer.
Qed.

Lemma take_numbers_typed (P : Z → Prop) size read n : ∀ b, is_bytes b →
  (∀ b, is_bytes b → osafe (read b) P True) →
  osafe (Sctp.take_numbers n size read b) (fun r => Forall P r.1 ∧ is_bytes r.2) True.
Proof.
  induction n as [|n IH]; intros b Hb Hread; cbn [Sctp.take_numbers]; [by safe_steps|].
  safe_steps. eapply osafe_mono; [by apply Hread | intros v Hv | done]. safe_steps.
  eapply osafe_mono; [by apply IH | intros [vs r'] [Hvs Hr'] | done]. safe_steps. split; [by constructor | done].
Qed.

(** The claims about a chunk that is decoded without an object. *)
Definition parses_chunk {A} (p : bytes → outcome A) (ok : A → Prop) (chunk : A → Sctp.SCTPChunk) (data : bytes) : Prop :=
  osafe (p data) (fun a => ok a ∧ shorter (Payload (Sctp.ch_base (chunk a))) data) True.

Ltac chunk := unfold parses_chunk; apply osafe_bind; eapply osafe_mono; [by apply Chunk_typed | intros c (Hc & Ha & Hs) | done];
  safe_steps; try done.

Lemma SCTPUnknown_typed data : is_bytes data →
  parses_chunk Sctp.parse_unknown (fun l => Chunk_ok (Sctp.u_chunk l) ∧ is_bytes (Sctp.u_bytes l)) Sctp.u_chunk data.
Proof. intros Hb. unfold Sctp.parse_unknown. chunk. Qed.
Lemma SCTPData_typed data : is_bytes data → parses_chunk Sctp.parse_data SCTPData_ok Sctp.d_chunk data.
Proof. intros Hb. unfold Sctp.parse_data. chunk. Qed.
Lemma SCTPInit_typed data : is_bytes data → parses_chunk Sctp.parse_init SCTPInit_ok Sctp.i_chunk data.
Proof.
  intros Hb. unfold Sctp.parse_init. chunk. eapply osafe_mono; [apply Parameters_typed; [assumption | lia] | | done].
  intros ps Hps. safe_steps. split; [unfold SCTPInit_ok; layer | done].
Qed.
Lemma SCTPSack_typed data : is_bytes data → parses_chunk Sctp.parse_sack SCTPSack_ok Sctp.s_chunk data.
Proof.
  intros Hb. unfold Sctp.parse_sack. chunk.
  eapply osafe_mono; [apply (take_numbers_typed is_u16); [assumption | intros; by apply osafe_BE_Uint16] | | done].
  intros [gs b] [Hgs Hb']. safe_steps. cbn in Hb'.
  eapply osafe_mono; [apply (take_numbers_typed is_u32); [assumption | intros; by apply osafe_BE_Uint32] | | done].
  intros [ds b'] [Hds _]. safe_steps. split; [unfold SCTPSack_ok; layer | done].
Qed.
Lemma SCTPParameters_typed data : is_bytes data → parses_chunk Sctp.parse_parameters SCTPParameters_ok Sctp.ps_chunk data.
Proof.
  intros Hb. unfold Sctp.parse_parameters. chunk. eapply osafe_mono; [apply Parameters_typed; [assumption | lia] | | done].
  intros ps Hps. safe_steps. done.
Qed.
Lemma SCTPShutdown_typed data : is_bytes data → parses_chunk Sctp.parse_shutdown SCTPShutdown_ok Sctp.sh_chunk data.
Proof. intros Hb. unfold Sctp.parse_shutdown. chunk. Qed.
Lemma SCTPCookie_typed data : is_bytes data → parses_chunk Sctp.parse_cookie SCTPCookie_ok Sctp.c_chunk data.
Proof. intros Hb. unfold Sctp.parse_cookie. chunk. Qed.
