(* ===== verification/DecodersCorrect.v ===== *)
(** * Decoding a packet ends, with layers whose fields are in range

    The builders that [Decoders] makes of bytes add layers whose fields are in
    the ranges of their types, and hand on less than they got; so decoding a
    packet ends, and never by a loop that runs on. *)

From S2P Require Import Prelude SerializeBuffer LayerClasses Flows BaseLayers Capture Packet PacketCorrect Enums Checksum Typing LayersTyped Decoders.
From S2P Require Ethernet Ip4 Ip6 Tcp Udp Dns Lcm LinkLayers TunnelLayers ControlLayers Sctp.

(** The decoders that may hand on all of their data: the second variant of GUE
    has no header, and Geneve's offset wraps. *)
Definition may_keep (f : decode_func) : Z :=
  match f with F_decodeAGUE | F_decodeGeneve => 1 | _ => 0 end.

Section contract.
Context {O F : Type} `{LayerIface O}.
Notation builder := (Packet.builder (layer O) (decoder F)).
Context (tb : tables).

(** The fields of a layer are in the ranges of their types. The decoders that are
    modelled add no layer of another. *)
Definition layer_ok (x : layer O) : Prop :=
  match x with
  | LPayload l => is_bytes l
  | LFragment l => is_bytes l
  | LEthernet l => Ethernet_ok l
  | LARP l => ARP_ok l
  | LDot1Q l => Dot1Q_ok l
  | LLoopback l => Loopback_ok l
  | LLLC l => LLC_ok l
  | LSNAP l => SNAP_ok l
  | LPPP l => PPP_ok l
  | LPPPoE l => PPPoE_ok l
  | LMPLS l => MPLS_ok l
  | LEthernetCTP l => CTP_ok l
  | LEthernetCTPForwardData l => CTPForward_ok l
  | LEthernetCTPReply l => CTPReply_ok l
  | LFDDI l => FDDI_ok l
  | LLinuxSLL l => SLL_ok l
  | LIPv4 l => IPv4_ok l
  | LIPv6 l => IPv6_ok l
  | LIPv6HopByHop l => OptionsHeader_ok l
  | LIPv6Routing l => IPv6Routing_ok l
  | LIPv6Fragment l => IPv6Fragment_ok l
  | LIPv6Destination l => OptionsHeader_ok l
  | LIPSecAH l => IPSecAH_ok l
  | LIPSecESP l => IPSecESP_ok l
  | LTCP l => TCP_ok l
  | LUDP l => UDP_ok l
  | LUDPLite l => UDPLite_ok l
  | LRUDP l => RUDP_ok l
  | LICMPv4 l => ICMPv4_ok l
  | LICMPv6 l => ICMPv6_ok l
  | LICMPv6Echo l => Echo_ok l
  | LICMPv6RouterSolicitation l => RS_ok l
  | LICMPv6RouterAdvertisement l => RA_ok l
  | LICMPv6NeighborSolicitation l => NS_ok l
  | LICMPv6NeighborAdvertisement l => NA_ok l
  | LICMPv6Redirect l => Redirect_ok l
  | LSTP l => STP_ok l
  | LEAP l => EAP_ok l
  | LVRRP l => VRRP_ok l
  | LPFLog l => PFLog_ok l
  | LAGUEVar0 l => AGUEVar0_ok l
  | LAGUEVar1 l => AGUEVar1_ok l
  | LGRE l => GRE_ok l
  | LVXLAN l => VXLAN_ok l
  | LEtherIP l => EtherIP_ok l
  | LERSPANII l => ERSPANII_ok l
  | LGeneve l => Geneve_ok l
  | LGTPv1U l => GTP_ok l
  | LDNS l => DNS_ok l
  | LLCM l => LCM_ok l
  | LSCTP l => SCTP_ok l
  | LSCTPData l => SCTPData_ok l
  | LSCTPInit l => SCTPInit_ok l
  | LSCTPSack l => SCTPSack_ok l
  | LSCTPHeartbeat l => SCTPParameters_ok l
  | LSCTPError l => SCTPParameters_ok l
  | LSCTPShutdown l => SCTPShutdown_ok l
  | LSCTPShutdownAck l => Chunk_ok l
  | LSCTPCookieEcho l => SCTPCookie_ok l
  | LSCTPEmptyLayer l => Chunk_ok l
  | LOther l => False
  end.

(** What the data of a decoder count for: protocol numbers and layer types that do
    not name one of the two decoders count one less. *)
Definition size (d : decoder F) (data : bytes) : Z :=
  2 * len data +
  match d with
  | DecodeType t => match LayerType_decoder t (t_registry tb) with Ok f => may_keep f | _ => 0 end
  | _ => 1
  end.

(** The builders a decoder may make, of data that count for [bound]; [last] is the
    layer added last. *)
Inductive good (bound : Z) : option (layer O) → builder → Prop :=
  | good_Return last err : good bound last (Return err)
  | good_Crash last c : c ≠ loop_bound → good bound last (Crash c)
  | good_AddLayer last l k : layer_ok l → good bound (Some l) k → good bound last (AddLayer l k)
  | good_SetLayer last s l k : layer_ok l → good bound last k → good bound last (SetLayer s l k)
  | good_SetTruncated last k : good bound last k → good bound last (SetTruncatedThen k)
  | good_GetDecodeOptions last k : (∀ o, good bound last (k o)) → good bound last (GetDecodeOptions k)
  | good_NextDecoder l d : (x_payload l ≠ [] → size d (x_payload l) < bound) → good bound (Some l) (NextDecoder (Some d) Return)
  | good_nil last : good bound last (NextDecoder None Return).

(** No protocol number that the two decoders hand on names one of them. *)
Definition dispatch_ok : Prop := ∀ k a, k = EthernetTypeEnum ∨ k = IPProtocolEnum →
  match LayerType_decoder (enum_LayerType (t_metadata tb) k a) (t_registry tb) with Ok f => may_keep f = 0 | _ => True end.

Lemma size_le d data : size d data <= 2 * len data + 1.
Proof. unfold size, may_keep. destruct d; try lia. destruct (LayerType_decoder _ _) as [f| | |]; [destruct f|..]; lia. Qed.

Lemma good_mono bound bound' last b : bound <= bound' → good bound last b → good bound' last b.
Proof. intros Hb. induction 1; constructor; auto. intros Hne. specialize (H0 Hne). lia. Qed.

Lemma good_next bound l d data : shorter (x_payload l) data → 2 * len data <= bound → good bound (Some l) (next d).
Proof. intros Hs Hb. apply good_NextDecoder. intros Hne. specialize (Hs Hne). pose proof (size_le d (x_payload l)). lia. Qed.

Lemma runtime_not_bound c : runtime c → c ≠ loop_bound.
Proof. by intros Hc ->. Qed.

Lemma good_feedback bound last tr b : good bound last b → good bound last (feedback tr b).
Proof. destruct tr; [apply good_SetTruncated | done]. Qed.

Lemma good_give {A} (o : outcome A) (Q : A → Prop) E k bound last : osafe o Q E → (∀ a, Q a → good bound last (k a)) →
  good bound last (give o k).
Proof. destruct o; cbn; intros Ho Hk; [auto | apply good_Return | by apply good_Crash, runtime_not_bound | done]. Qed.

Lemma good_run_layer {L} (zero : L) dec (Q : L → Prop) E k bound last :
  safe dec (fun _ s => Q (dlayer s)) E (DState zero false) → (∀ l, Q l → good bound last (k l)) → good bound last (run_layer zero dec k).
Proof.
  unfold safe, run_layer. intros Hs Hk. destruct (dec _) as [o s]. apply good_feedback.
  destruct o; cbn; [auto | apply good_Return | by apply good_Crash, runtime_not_bound | done].
Qed.

Lemma good_run_layer_nil {L} (zero : L) dec (Q : L → Prop) E k bound last :
  safe dec (fun _ s => Q (dlayer s)) E (DState zero false) → (∀ l, Q l → good bound last (k l)) → good bound last (run_layer_nil zero dec k).
Proof.
  unfold safe, run_layer_nil. intros Hs Hk. destruct (dec _) as [o s].
  destruct o; cbn; [auto | apply good_Return | by apply good_Crash, runtime_not_bound | done].
Qed.

Lemma good_run_layer_add {L} (zero : L) dec (Q E : L → Prop) add k bound last :
  safe dec (fun _ s => Q (dlayer s)) (fun s => E (dlayer s)) (DState zero false) →
  (∀ l, Q l → good bound last (add l (k l))) → (∀ l e, E l → good bound last (add l (Return (Some e)))) →
  good bound last (run_layer_add zero dec add k).
Proof.
  unfold safe, run_layer_add. intros Hs Hk He. destruct (dec _) as [o s]. apply good_feedback.
  destruct o; cbn; [auto | auto | by apply good_Crash, runtime_not_bound | done].
Qed.

Lemma good_run_parse {A} (p : M (dstate unit) A) (Q : A → Prop) E k bound last :
  safe p (fun a _ => Q a) E (DState tt false) → (∀ a, Q a → good bound last (k a)) → good bound last (run_parse p k).
Proof.
  unfold safe, run_parse. intros Hs Hk. destruct (p _) as [o s]. apply good_feedback.
  destruct o; cbn; [auto | apply good_Return | by apply good_Crash, runtime_not_bound | done].
Qed.

Lemma good_add_as bound last s l k : layer_ok l → good bound (Some l) k → good bound last (add_as s l k).
Proof. intros Hl Hk. apply good_AddLayer; [done|]. by apply good_SetLayer. Qed.


(** The shapes of decoders: a layer, in a slot or not, and the next decoder or none. *)
Section shapes.
Context {L : Type} (ok : L → Prop) (payload : L → bytes) (data : bytes) (inj : L → layer O) (bound : Z) (last : option (layer O)).
Hypothesis Hok : ∀ l, ok l → layer_ok (inj l).
Hypothesis Hpayload : ∀ l, payload l = x_payload (inj l).
Hypothesis Hbound : 2 * len data <= bound.

Lemma good_add_next l d : ok l ∧ shorter (payload l) data → good bound last (AddLayer (inj l) (next d)).
Proof. intros [Hl Hs]. apply good_AddLayer; [auto|]. eapply good_next; [by rewrite <-Hpayload | done]. Qed.
Lemma good_slot_next s l d : ok l ∧ shorter (payload l) data → good bound last (add_as s (inj l) (next d)).
Proof. intros [Hl Hs]. apply good_add_as; [auto|]. eapply good_next; [by rewrite <-Hpayload | done]. Qed.

Context (zero : L) (dec : M (dstate L) unit).
Hypothesis Hdec : decodes zero dec ok payload data.

Lemma good_layer_next d : good bound last (run_layer zero dec (fun l => AddLayer (inj l) (next (d l)))).
Proof. eapply (good_run_layer _ _ (fun l => ok l ∧ shorter (payload l) data)); [exact Hdec|]. intros l Hl. by apply good_add_next. Qed.
Lemma good_layer_slot_next s d : good bound last (run_layer zero dec (fun l => add_as s (inj l) (next (d l)))).
Proof. eapply (good_run_layer _ _ (fun l => ok l ∧ shorter (payload l) data)); [exact Hdec|]. intros l Hl. by apply good_slot_next. Qed.
Lemma good_layer_slot_end s : good bound last (run_layer zero dec (fun l => add_as s (inj l) (Return None))).
Proof.
  eapply (good_run_layer _ _ (fun l => ok l ∧ shorter (payload l) data)); [exact Hdec|]. intros l [Hl _].
  apply good_add_as; [auto | apply good_Return].
Qed.
Lemma good_layer_nil_next d : good bound last (run_layer_nil zero dec (fun l => AddLayer (inj l) (next (d l)))).
Proof. eapply (good_run_layer_nil _ _ (fun l => ok l ∧ shorter (payload l) data)); [exact Hdec|]. intros l Hl. by apply good_add_next. Qed.
Lemma good_layer_early_next d : good bound last (run_layer_add zero dec (fun l => AddLayer (inj l)) (fun l => next (d l))).
Proof.
  eapply (good_run_layer_add _ _ (fun l => ok l ∧ shorter (payload l) data)); [exact Hdec | intros l Hl; by apply good_add_next |].
  intros l e Hl. apply good_AddLayer; [auto | apply good_Return].
Qed.
Lemma good_layer_slot_early_next s d : good bound last (run_layer_add zero dec (fun l => add_as s (inj l)) (fun l => next (d l))).
Proof.
  eapply (good_run_layer_add _ _ (fun l => ok l ∧ shorter (payload l) data)); [exact Hdec | intros l Hl; by apply good_slot_next |].
  intros l e Hl. apply good_add_as; [auto | apply good_Return].
Qed.
Lemma good_decodingLayerDecoder nlt : good bound last (decodingLayerDecoder zero dec inj nlt).
Proof.
  eapply (good_run_layer _ _ (fun l => ok l ∧ shorter (payload l) data)); [exact Hdec|]. intros l Hl.
  destruct (_ =? _); [apply good_AddLayer; [apply Hok, Hl | apply good_Return] | by apply good_add_next].
Qed.
End shapes.

Section parsed.
Context {A : Type} (ok : A → Prop) (payload : A → bytes) (data : bytes) (inj : A → layer O) (bound : Z) (last : option (layer O)).
Hypothesis Hok : ∀ l, ok l → layer_ok (inj l).
Hypothesis Hpayload : ∀ l, payload l = x_payload (inj l).
Hypothesis Hbound : 2 * len data <= bound.
Context (p : M (dstate unit) A).
Hypothesis Hp : parses p ok payload data.

Lemma good_parse_next d : good bound last (run_parse p (fun l => AddLayer (inj l) (next (d l)))).
Proof. eapply (good_run_parse _ (fun l => ok l ∧ shorter (payload l) data)); [exact Hp|]. intros l Hl. by eapply good_add_next. Qed.
Lemma good_parse_slot_next s d : good bound last (run_parse p (fun l => add_as s (inj l) (next (d l)))).
Proof. eapply (good_run_parse _ (fun l => ok l ∧ shorter (payload l) data)); [exact Hp|]. intros l Hl. by eapply good_slot_next. Qed.
End parsed.

Lemma good_chunk {A} (p : bytes → outcome A) (ok : A → Prop) chunk inj data bound last :
  parses_chunk p ok chunk data → (∀ l, ok l → layer_ok (inj l)) → (∀ l, Payload (Sctp.ch_base (chunk l)) = x_payload (inj l)) →
  2 * len data <= bound → good bound last (decode_chunk p inj data).
Proof.
  intros Hp Hok Hpl Hb. eapply good_give; [exact Hp|]. intros l Hl.
  by eapply (good_add_next ok (fun l => Payload (Sctp.ch_base (chunk l)))).
Qed.

(** ** The decoders *)

Section decoders.
Context (data : bytes) (Hb : is_bytes data) (Hlen : len data < 65536) (Hdispatch : dispatch_ok).
Context (last : option (layer O)).
Notation good_of b := (good (2 * len data) last b).

Lemma good_decodeEthernet : good_of (decodeEthernet data).
Proof. eapply good_layer_slot_next; [.. | by apply Ethernet_typed]; done. Qed.
Lemma good_decodeARP : good_of (decodeARP data).
Proof. eapply good_decodingLayerDecoder; [.. | by apply ARP_typed]; done. Qed.
Lemma good_decodeDot1Q : good_of (decodeDot1Q tb data).
Proof. eapply good_decodingLayerDecoder; [.. | by apply Dot1Q_typed]; done. Qed.
Lemma good_decodeLoopback : good_of (decodeLoopback data).
Proof. eapply good_layer_nil_next; [.. | by apply Loopback_typed]; done. Qed.
Lemma good_decodeLLC : good_of (decodeLLC data).
Proof. eapply good_layer_next; [.. | by apply LLC_typed]; done. Qed.
Lemma good_decodeSNAP : good_of (decodeSNAP data).
Proof. eapply good_layer_next; [.. | by apply SNAP_typed]; done. Qed.
Lemma good_decodePPP : good_of (decodePPP data).
Proof. eapply good_parse_slot_next; [.. | by apply PPP_typed]; done. Qed.
Lemma good_decodePPPoE : good_of (decodePPPoE data).
Proof. eapply good_parse_next; [.. | by apply PPPoE_typed]; done. Qed.
Lemma good_decodeEthernetCTP : good_of (decodeEthernetCTP data).
Proof. eapply good_parse_next; [.. | by apply CTP_typed]; done. Qed.
Lemma good_decodeLinuxSLL : good_of (decodeLinuxSLL data).
Proof. eapply good_layer_slot_next; [.. | by apply SLL_typed]; done. Qed.
Lemma good_decodeSTP : good_of (decodeSTP data).
Proof. eapply good_decodingLayerDecoder; [.. | by apply STP_typed]; done. Qed.
Lemma good_decodeEAP : good_of (decodeEAP data).
Proof. eapply good_decodingLayerDecoder; [.. | by apply EAP_typed]; done. Qed.
Lemma good_decodePFLog : good_of (decodePFLog tb data).
Proof. eapply good_decodingLayerDecoder; [.. | by apply PFLog_typed]; done. Qed.
Lemma good_decodeIPv4 : good_of (decodeIPv4 tb data).
Proof. eapply good_layer_slot_early_next; [.. | by apply IPv4_typed]; done. Qed.
Lemma good_decodeIPv6Destination : good_of (decodeIPv6Destination data).
Proof. eapply good_layer_early_next; [.. | by apply Destination_typed]; done. Qed.
Lemma good_decodeIPv6Routing : good_of (decodeIPv6Routing data).
Proof. eapply good_parse_next; [.. | by apply Routing_typed]; done. Qed.
Lemma good_decodeIPv6Fragment : good_of (decodeIPv6Fragment data).
Proof. eapply good_parse_next; [.. | by apply IPv6Fragment_typed]; done. Qed.
Lemma good_decodeIPSecAH : good_of (decodeIPSecAH data).
Proof. eapply good_parse_next; [.. | by apply IPSecAH_typed]; done. Qed.
Lemma good_decodeICMPv4 : good_of (decodeICMPv4 data).
Proof. eapply good_decodingLayerDecoder; [.. | by apply ICMPv4_typed]; done. Qed.
Lemma good_decodeICMPv6 : good_of (decodeICMPv6 data).
Proof. eapply good_decodingLayerDecoder; [.. | by apply ICMPv6_typed]; done. Qed.
Lemma good_decodeICMPv6Echo : good_of (decodeICMPv6Echo data).
Proof. eapply good_decodingLayerDecoder; [.. | by apply Echo_typed]; done. Qed.
Lemma good_decodeICMPv6RouterSolicitation : good_of (decodeICMPv6RouterSolicitation data).
Proof. eapply good_decodingLayerDecoder; [.. | by apply RS_typed]; done. Qed.
Lemma good_decodeICMPv6RouterAdvertisement : good_of (decodeICMPv6RouterAdvertisement data).
Proof. eapply good_decodingLayerDecoder; [.. | by apply RA_typed]; done. Qed.
Lemma good_decodeICMPv6NeighborSolicitation : good_of (decodeICMPv6NeighborSolicitation data).
Proof. eapply good_decodingLayerDecoder; [.. | by apply NS_typed]; done. Qed.
Lemma good_decodeICMPv6NeighborAdvertisement : good_of (decodeICMPv6NeighborAdvertisement data).
Proof. eapply good_decodingLayerDecoder; [.. | by apply NA_typed]; done. Qed.
Lemma good_decodeICMPv6Redirect : good_of (decodeICMPv6Redirect data).
Proof. eapply good_decodingLayerDecoder; [.. | by apply Redirect_typed]; done. Qed.
Lemma good_decodeUDP : good_of (decodeUDP tb data).
Proof. eapply good_layer_slot_early_next; [.. | by apply UDP_typed]; done. Qed.
Lemma good_decodeUDPLite : good_of (decodeUDPLite data).
Proof. eapply good_parse_slot_next; [.. | by apply UDPLite_typed]; done. Qed.
Lemma good_decodeRUDP : good_of (decodeRUDP data).
Proof. eapply good_parse_slot_next; [.. | by apply RUDP_typed]; done. Qed.
Lemma good_decodeSCTP : good_of (decodeSCTP data).
Proof. eapply good_layer_slot_early_next; [.. | by apply SCTP_typed]; done. Qed.
Lemma good_decodeGRE : good_of (decodeGRE tb data).
Proof. eapply good_decodingLayerDecoder; [.. | by apply GRE_typed]; done. Qed.
Lemma good_decodeVXLAN : good_of (decodeVXLAN data).
Proof. eapply good_layer_next; [.. | by apply VXLAN_typed]; done. Qed.
Lemma good_decodeEtherIP : good_of (decodeEtherIP data).
Proof. eapply good_decodingLayerDecoder; [.. | by apply EtherIP_typed]; done. Qed.
Lemma good_decodeERSPANII : good_of (decodeERSPANII data).
Proof. eapply good_decodingLayerDecoder; [.. | by apply ERSPANII_typed]; done. Qed.
Lemma good_decodeDNS : good_of (decodeDNS data).
Proof. eapply good_layer_slot_end; [.. | by apply DNS_typed]; done. Qed.
Lemma good_decodeLCM : good_of (decodeLCM tb data).
Proof. eapply good_layer_slot_next; [.. | by apply LCM_typed]; done. Qed.
Lemma good_decodeSCTPInit : good_of (decodeSCTPInit data).
Proof. eapply good_chunk; [by apply SCTPInit_typed | done..]. Qed.
Lemma good_decodeSCTPSack : good_of (decodeSCTPSack data).
Proof. eapply good_chunk; [by apply SCTPSack_typed | done..]. Qed.
Lemma good_decodeSCTPHeartbeat : good_of (decodeSCTPHeartbeat data).
Proof. eapply good_chunk; [by apply SCTPParameters_typed | done..]. Qed.
Lemma good_decodeSCTPError : good_of (decodeSCTPError data).
Proof. eapply good_chunk; [by apply SCTPParameters_typed | done..]. Qed.
Lemma good_decodeSCTPShutdown : good_of (decodeSCTPShutdown data).
Proof. eapply good_chunk; [by apply SCTPShutdown_typed | done..]. Qed.
Lemma good_decodeSCTPCookieEcho : good_of (decodeSCTPCookieEcho data).
Proof. eapply good_chunk; [by apply SCTPCookie_typed | done..]. Qed.

Lemma good_decodePayload : good_of (decodePayload data).
Proof. eapply (good_run_layer _ _ is_bytes (fun _ => True)); [exact Hb|]. intros l Hl. by apply good_add_as, good_Return. Qed.
Lemma good_decodeFragment : good_of (decodeFragment data).
Proof. eapply (good_run_layer _ _ is_bytes (fun _ => True)); [exact Hb|]. intros l Hl. by apply good_add_as, good_Return. Qed.
Lemma good_decodeMPLS : good_of (decodeMPLS data).
Proof.
  eapply good_run_parse; [by apply MPLS_typed|]. intros l Hl. destruct (LinkLayers.Mpls.StackBottom l);
    by eapply (good_add_next MPLS_ok (fun l => Payload (LinkLayers.Mpls.base l))).
Qed.
Lemma good_decodeEthernetCTPFromFunctionType : good_of (decodeEthernetCTPFromFunctionType data).
Proof.
  eapply good_run_parse; [by apply CTP_function_typed|]. intros [l|l] [Hl Hs].
  - apply good_add_as; [exact Hl | apply good_Return].
  - by eapply (good_add_next CTPForward_ok (fun l => Payload (LinkLayers.Ctp.fw_base l))).
Qed.
Lemma good_decodeFDDI : good_of (decodeFDDI data).
Proof.
  eapply good_run_parse; [by apply FDDI_typed|]. intros l [Hl Hs]. apply good_SetLayer; [exact Hl|].
  by eapply (good_add_next FDDI_ok (fun l => Payload (LinkLayers.Fddi.base l))).
Qed.
Lemma good_decodeIPv6HopByHop : good_of (decodeIPv6HopByHop data).
Proof.
  eapply (good_run_layer_add _ _ (fun l => OptionsHeader_ok l ∧ shorter (options_payload l) data) OptionsHeader_ok).
  - eapply ts_mono; [by apply HopByHop_typed | intros _ s (? & ? & _); by split | done].
  - intros l Hl. by eapply (good_add_next OptionsHeader_ok options_payload).
  - intros l e Hl. by apply good_AddLayer, good_Return.
Qed.
Lemma good_decodeIPv6 : good_of (decodeIPv6 tb data).
Proof.
  assert (∀ l k, IPv6_ok l → (match Ip6.HopByHop l with Some h => good (2 * len data) (Some (LIPv6HopByHop h)) k
    | None => good (2 * len data) (Some (LIPv6 l)) k end) →
    good (2 * len data) last (add_as NetworkSlot (LIPv6 l)
      (match Ip6.HopByHop l with Some h => AddLayer (LIPv6HopByHop h) k | None => k end))) as Hadd.
  { intros l k Hl Hk. apply good_add_as; [exact Hl|]. destruct (Ip6.HopByHop l) as [h|] eqn:Hh; [|exact Hk].
    apply good_AddLayer; [|exact Hk]. unfold IPv6_ok in Hl. rewrite Hh in Hl. apply Hl. }
  eapply (good_run_layer_add _ _ (fun l => IPv6_ok l ∧ shorter (IPv6_next l) data)); [by apply IPv6_typed| |].
  - unfold IPv6_next. intros l [Hl Hs]. apply Hadd; [exact Hl|]. destruct (Ip6.HopByHop l); by eapply good_next.
  - intros l e Hl. apply Hadd; [exact Hl|]. destruct (Ip6.HopByHop l); apply good_Return.
Qed.
Lemma good_decodeIPv4or6 : good_of (decodeIPv4or6 tb data).
Proof.
  eapply (good_give _ (fun _ => True) True); [apply osafe_index; [exact Hb | done]|]. intros b _. cbv zeta beta.
  destruct (_ =? _); [apply good_decodeIPv4|]. destruct (_ =? _); [apply good_decodeIPv6 | apply good_Return].
Qed.
Lemma good_decodeIPSecESP : good_of (decodeIPSecESP data).
Proof. eapply good_run_parse; [by apply IPSecESP_typed|]. intros l [Hl _]. apply good_AddLayer; [exact Hl | apply good_Return]. Qed.
Lemma good_decodeVRRP : good_of (decodeVRRP data).
Proof.
  unfold decodeVRRP. destruct (_ <? _); [apply good_Return|]. eapply good_decodingLayerDecoder; [.. | by apply VRRP_typed]; done.
Qed.
Lemma good_decodeTCP : good_of (decodeTCP tb data).
Proof.
  eapply (good_run_layer_add _ _ (fun l => TCP_ok l ∧ shorter (Payload (Tcp.base l)) data)); [by apply TCP_typed | |].
  - intros l [Hl Hs]. apply good_add_as; [exact Hl|]. apply good_GetDecodeOptions. intros o.
    destruct (DecodeStreamsAsDatagrams o); by eapply good_next.
  - intros l e Hl. apply good_add_as; [exact Hl | apply good_Return].
Qed.
Lemma good_decodeSCTPData : good_of (decodeSCTPData data).
Proof.
  eapply good_give; [by apply SCTPData_typed|]. intros l Hl.
  by eapply (good_add_next SCTPData_ok (fun l => Payload (Sctp.ch_base (Sctp.d_chunk l)))).
Qed.
Lemma good_bare_chunk inj : (∀ l, Chunk_ok l → layer_ok (inj l)) → (∀ l, Payload (Sctp.ch_base l) = x_payload (inj l)) →
  good_of (decode_chunk Sctp.decodeSCTPChunk inj data).
Proof.
  intros Hok Hp. eapply (good_chunk _ Chunk_ok (fun c => c)); [|done..]. unfold parses_chunk.
  eapply osafe_mono; [by apply Chunk_typed | by intros c (? & _ & ?) | done].
Qed.
Lemma good_decodeGTPv1u : good_of (decodeGTPv1u data).
Proof. eapply good_layer_next; [.. | by apply GTP_typed]; done. Qed.
Lemma good_decodeUnknown : good_of (decodeUnknown data).
Proof. apply good_Return. Qed.

(** Those that may hand on all of the data, to a decoder that is not one of them. *)
Lemma good_next_kept l k a : len (x_payload l) <= len data → k = EthernetTypeEnum ∨ k = IPProtocolEnum →
  good (2 * len data + 1) (Some l) (next (DecodeType (enum_LayerType (t_metadata tb) k a))).
Proof.
  intros Hl Hk. apply good_NextDecoder. intros _. unfold size. specialize (Hdispatch k a Hk).
  destruct (LayerType_decoder _ _) as [f| | |]; lia.
Qed.
Lemma good_decodeGeneve : good (2 * len data + 1) last (decodeGeneve tb data).
Proof.
  eapply (good_run_layer _ _ (fun l => Geneve_ok l ∧ len (Payload (TunnelLayers.Geneve.base l)) <= len data)); [by apply Geneve_typed|]. intros l [Hl Hs]. apply good_AddLayer; [exact Hl|].
  destruct (_ =? _); [apply good_Return|]. by apply good_next_kept; [exact Hs | left].
Qed.
Lemma good_decodeAGUE : good (2 * len data + 1) last (decodeAGUE tb data).
Proof.
  unfold decodeAGUE. destruct (_ =? _); [apply good_Return|].
  eapply (good_give _ (fun _ => True) True); [apply osafe_index; [exact Hb | done]|]. intros b _. cbv zeta beta. destruct (_ =? _).
  - eapply (good_run_layer_nil _ _ (fun l => AGUEVar1_ok l ∧ ControlLayers.Ague.v1_Data l = data)); [by apply AGUEVar1_typed|]. intros l [Hl Hs]. apply good_AddLayer; [exact Hl|].
    apply good_next_kept; [cbn; by rewrite Hs | by right].
  - eapply (good_run_layer_nil _ _ (fun l => AGUEVar0_ok l ∧ shorter (ControlLayers.Ague.Data l) data)); [by apply AGUEVar0_typed|]. intros l [Hl Hs]. apply good_AddLayer; [exact Hl|].
    eapply good_next; [exact Hs | lia].
Qed.
End decoders.

Create HintDb good.
#[local] Hint Resolve good_decodeARP good_decodeDNS good_decodeDot1Q good_decodeEAP good_decodeERSPANII good_decodeEtherIP
  good_decodeEthernet good_decodeEthernetCTP good_decodeEthernetCTPFromFunctionType good_decodeFDDI
  good_decodeFragment good_decodeGRE good_decodeGTPv1u good_decodeICMPv4 good_decodeICMPv6 good_decodeICMPv6Echo
  good_decodeICMPv6NeighborAdvertisement good_decodeICMPv6NeighborSolicitation good_decodeICMPv6Redirect
  good_decodeICMPv6RouterAdvertisement good_decodeICMPv6RouterSolicitation good_decodeIPSecAH
  good_decodeIPSecESP good_decodeIPv4 good_decodeIPv4or6 good_decodeIPv6 good_decodeIPv6Destination
  good_decodeIPv6Fragment good_decodeIPv6HopByHop good_decodeIPv6Routing good_decodeLCM good_decodeLLC
  good_decodeLinuxSLL good_decodeLoopback good_decodeMPLS good_decodePFLog good_decodePPP good_decodePPPoE
  good_decodePayload good_decodeRUDP good_decodeSCTP good_decodeSCTPCookieEcho good_decodeSCTPData
  good_decodeSCTPError good_decodeSCTPHeartbeat good_decodeSCTPInit good_decodeSCTPSack good_decodeSCTPShutdown
  good_decodeSNAP good_decodeSTP good_decodeTCP good_decodeUDP good_decodeUDPLite good_decodeUnknown
  good_decodeVRRP good_decodeVXLAN : good.

Context (Hdispatch : dispatch_ok).

(** What a dispatch comes to: a builder that is good for [bound] and does not depend
    on the decoders that are not modelled, or one of those. *)
Definition dispatched (bound : Z) (data : bytes) (run : (decode_func + F → bytes → builder) → builder) : Prop :=
  (∃ b, good bound None b ∧ ∀ other, run other = b) ∨ ∃ f, ∀ other, run other = other f data.

Lemma dispatched_mono bound bound' data run : bound <= bound' → dispatched bound data run → dispatched bound' data run.
Proof. intros Hle [(b & Hg & Hb)|Hf]; [left|by right]. exists b. split; [by eapply good_mono|done]. Qed.

Lemma dispatched_good bound data b : good bound None b → dispatched bound data (fun _ => b).
Proof. intros Hg. left. by exists b. Qed.

Lemma run_func_dispatched f data : is_bytes data → len data < 65536 →
  dispatched (2 * len data + may_keep f) data (fun other => run_func tb other f data).
Proof.
  intros Hb Hlen.
  destruct f; cbn [may_keep run_func];
    first [ right; by eexists | apply dispatched_good ];
    first [ by apply good_decodeGeneve | by apply good_decodeAGUE
          | apply (good_mono (2 * len data)); [lia|]; first [ by auto with good nocore | by apply good_bare_chunk ] ].
Qed.

Lemma run_enum_dispatched k a data : is_bytes data → len data < 65536 →
  dispatched (2 * len data + 1) data (fun other => run_enum tb other k a data).
Proof.
  intros Hb Hlen. unfold run_enum. destruct (enum_Decode _ k a) as [f|]; [|apply dispatched_good, good_Return].
  eapply dispatched_mono; [|by apply run_func_dispatched]. destruct f; cbn; lia.
Qed.

Lemma dispatched_give {A} (o : outcome A) (Q : A → Prop) E bound data k : osafe o Q E → (∀ a, Q a → dispatched bound data (k a)) →
  dispatched bound data (fun other => give o (fun a => k a other)).
Proof.
  destruct o; cbn; intros Ho Hk; [auto | apply dispatched_good, good_Return | apply dispatched_good; by apply good_Crash, runtime_not_bound | done].
Qed.

Lemma Decode_dispatched d data : is_bytes data → len data < 65536 → dispatched (size d data) data (fun other => Decode tb other d data).
Proof.
  intros Hb Hlen. assert (∀ f, dispatched (2 * len data + 1) data (fun other => run_func tb other f data)) as Hrun1.
  { intros f. eapply dispatched_mono; [|by apply run_func_dispatched]. destruct f; cbn; lia. }
  destruct d as [f|t|k a| | | |x]; unfold size; cbn [Decode].
  - apply Hrun1.
  - destruct (LayerType_decoder t (t_registry tb)) as [f|e|c|] eqn:Ht; cbn [give];
      [by apply run_func_dispatched | apply dispatched_good, good_Return | | ].
    1,2: unfold LayerType_decoder in Ht; by destruct (if in_array t then _ else _).
  - by apply run_enum_dispatched.
  - eapply (dispatched_give _ (fun _ => True) True _ _ (fun f other => run_func tb other f data)); [|auto]. unfold LinkLayers.Mpls.guess. by safe_steps.
  - apply dispatched_good. eapply good_mono; [|by apply good_decodeEthernetCTPFromFunctionType]. lia.
  - eapply (dispatched_give _ (fun _ => True) True _ _ (fun t other => run_enum tb other SCTPChunkTypeEnum t data)); [by apply osafe_index|].
    intros t _. by apply run_enum_dispatched.
  - right. by exists (inr x).
Qed.

(** ** Packets *)

Definition typed_layer (l : Layer (layer O)) : Prop :=
  match l with Decoded x => layer_ok x | DecodeFailure d _ => is_bytes d end.

Record typed_packet (o : DecodeOptions) (p : packet (layer O)) : Prop := {
  tp_options : p_options p = o;
  tp_data : is_bytes (p_data p);
  tp_layers : Forall typed_layer (p_layers p);
  tp_last : ∀ l, p_last p = Some l → typed_layer l;
  tp_slots : ∀ s l, p_slots p s = Some l → typed_layer l;
}.

Lemma typed_new data o : is_bytes data → typed_packet o (new_packet data o).
Proof. intros Hd. by split; cbn. Qed.

Lemma typed_add o l p : typed_layer l → typed_packet o p → typed_packet o (add_layer l p).
Proof. intros Hl []. split; cbn; try done; [by apply Forall_snoc | by intros ? [= <-]]. Qed.

Lemma typed_set o s l p : typed_layer l → typed_packet o p → typed_packet o (set_slot s l p).
Proof.
  intros Hl []. unfold set_slot. destruct (p_slots p s) eqn:Hs; [by split|]. split; cbn; try done.
  intros s' l'. destruct (decide _) as [->|]; [by intros [= <-] | eauto].
Qed.

Lemma typed_truncated o p : typed_packet o p → typed_packet o (set_truncated p).
Proof. intros []. by split. Qed.

Lemma layer_payload_bytes x : layer_ok x → is_bytes (x_payload x).
Proof.
  destruct x; cbn; intros Hl;
    first [ apply is_bytes_nil | exact (proj2 (proj1 Hl)) | exact (proj2 (proj1 (proj1 Hl))) | exact (proj2 (proj1 (proj1 (proj1 Hl))))
          | unfold LCM_ok, AGUEVar0_ok, AGUEVar1_ok in Hl; tauto | contradiction ].
Qed.

Lemma typed_payload l : typed_layer l → is_bytes (layer_payload l).
Proof. destruct l; cbn; [apply layer_payload_bytes | intros _; apply is_bytes_nil]. Qed.

Lemma typed_remaining o p : typed_packet o p → is_bytes (remaining p).
Proof. intros []. unfold remaining. destruct (p_last p); [by apply typed_payload, tp_last0 | done]. Qed.

Lemma typed_failure o e p : typed_packet o p → typed_packet o (addFinalDecodeError e p).
Proof.
  intros Hp. assert (typed_layer (DecodeFailure (remaining p) e)) as Hf by exact (typed_remaining o p Hp).
  unfold addFinalDecodeError. cbv zeta. by apply typed_set, typed_add.
Qed.

(** How a run of the modelled decoders ends, whatever the others are: with a result or
    a panic, or where it reaches another decoder, whose run the rest is. *)
Definition run_ok (o : DecodeOptions) (r : outcome (option error) * packet (layer O)) : Prop :=
  typed_packet o r.2 ∧ match r.1 with Ok _ => True | Panic c => c ≠ loop_bound | _ => False end.

Definition run_ends (o : DecodeOptions) (run : (decode_func + F → bytes → builder) → outcome (option error) * packet (layer O)) : Prop :=
  (∃ r, run_ok o r ∧ ∀ other, run other = r) ∨
  (∃ m f rest p, typed_packet o p ∧ is_bytes rest ∧ ∀ other, run other = eager_run (Decode tb other) m (other f rest) p).

Lemma run_ends_eq o run run' : (∀ other, run other = run' other) → run_ends o run' → run_ends o run.
Proof.
  intros He [(r & Hr & H1)|(m & f & rest & p & Hp & Hb & H1)]; [left; exists r|right; exists m, f, rest, p];
    repeat (split; [done|]); intros other; by rewrite He.
Qed.

Lemma eager_run_good o n : ∀ bound last b p, good bound last b → bound <= Z.of_nat n + 1 → bound <= 131071 →
  typed_packet o p → (∀ l, last = Some l → p_last p = Some (Decoded l)) →
  run_ends o (fun other => eager_run (Decode tb other) n b p).
Proof.
  induction n as [|n IHn]; intros bound last b p Hg Hn Hmax; revert p;
    induction Hg as [last err|last c Hc|last l k Hl _ IH|last s l k Hl _ IH|last k _ IH|last k _ IH|l d Hd|last];
    intros p Hp Hlast; (eapply run_ends_eq; [intros other; rewrite eager_run_unfold; reflexivity|]);
    try (left; eexists (_, p); split; [|intros other; reflexivity]; by split).
  1,6: apply (IH (add_layer (Decoded l) p)); [by apply typed_add | by intros ? [= <-]].
  1,5: apply (IH (set_slot s (Decoded l) p)); [by apply typed_set | by rewrite slot_last].
  1,4: apply (IH (set_truncated p)); [by apply typed_truncated | done].
  1,3: by apply (IH (p_options p) p).
  all: eapply run_ends_eq; [intros other; rewrite bind_eq; unfold eager_NextDecoder; rewrite bind_eq; cbn [get];
    rewrite (Hlast l eq_refl); cbn [layer_payload]; reflexivity|].
  all: destruct (Z.eqb_spec (len (x_payload l)) 0) as [H0|H0];
    [left; exists (Ok None, p); split; [by split|]; intros other; by rewrite ret_eq, eager_run_unfold|].
  all: assert (x_payload l ≠ []) as Hne by (intros Heq; by rewrite Heq in H0); specialize (Hd Hne).
  all: assert (2 * len (x_payload l) <= size d (x_payload l)) by (unfold size, may_keep;
    destruct d; try lia; destruct (LayerType_decoder _ _) as [f| | |]; [destruct f|..]; lia).
  { pose proof (len_nonneg (x_payload l)). lia. }
  assert (is_bytes (x_payload l)) as Hb by (apply (typed_payload (Decoded l)), (tp_last _ _ Hp), Hlast, eq_refl).
  apply (run_ends_eq o _ (fun other => eager_run (Decode tb other) n (Decode tb other d (x_payload l)) p)).
  { intros other. destruct (eager_run _ n _ p) as [[err|e|c|] p']; [by rewrite eager_run_unfold|done..]. }
  destruct (Decode_dispatched d (x_payload l) Hb ltac:(lia)) as [(b & Hg & Hd')|(f & Hf)].
  - eapply run_ends_eq; [intros other; by rewrite Hd'|]. by apply (IHn _ None _ p Hg ltac:(lia) ltac:(lia) Hp).
  - right. exists n, f, (x_payload l), p. repeat (split; [done|]). intros other. by rewrite Hf.
Qed.

(** Making a packet, in terms of the run of its first decoder. *)
Definition packet_of_run (o : DecodeOptions) (r : outcome (option error) * packet (layer O)) : outcome (Packet (layer O) (decoder F)) :=
  match r with
  | (Ok None, p) => Ok (EagerPacket p)
  | (Ok (Some e), p) => Ok (EagerPacket (addFinalDecodeError e p))
  | (Err e, _) => Err e
  | (Panic c, p) => if SkipDecodeRecovery (p_options p) then Panic c else Ok (EagerPacket (addFinalDecodeError (recovered c) p))
  | (NoFuel, _) => NoFuel
  end.

Lemma NewPacket_of_run other n d data o : Lazy o = false →
  NewPacket (Decode tb other) n data (Some d) o = packet_of_run o (eager_run (Decode tb other) n (Decode tb other d data) (new_packet data o)).
Proof.
  intros Hl. unfold NewPacket. rewrite Hl. unfold initialDecode, recoverDecodeError. rewrite bind_eq. cbn [get decode_with p_data new_packet].
  rewrite bind_eq. destruct (eager_run _ n _ _) as [[[e|]|e|c|] p]; cbn; try done. by destruct (SkipDecodeRecovery _).
Qed.

(** A packet that is made well, or a panic that is not recovered from. *)
Definition packet_ok (o : DecodeOptions) (r : outcome (Packet (layer O) (decoder F))) : Prop :=
  match r with
  | Ok (EagerPacket p) => typed_packet o p
  | Panic c => SkipDecodeRecovery o = true ∧ c ≠ loop_bound
  | _ => False
  end.

Lemma packet_of_run_good o r : run_ok o r → packet_ok o (packet_of_run o r).
Proof.
  intros [Hp Hr]. destruct r as [[[e|]|e|c|] p]; cbn in *; try done; [by apply typed_failure|].
  pose proof Hp as [-> _ _ _ _]. destruct (SkipDecodeRecovery o) eqn:Hs; [done|]. by apply typed_failure.
Qed.
End contract.

(** The tables the packages start with name neither of the two decoders for an
    EtherType or an IP protocol number. *)
Definition entry_dispatches (e : enum_kind * Z * EnumMetadata) : bool :=
  let '(k, _, m) := e in
  negb (bool_decide (k = EthernetTypeEnum) || bool_decide (k = IPProtocolEnum)) ||
  existsb (fun '(t, lm) => (t =? em_LayerType m) && (from_option may_keep 0 (lt_Decoder lm) =? 0)) layertypes.

Lemma initial_dispatch openbsd tb : initial_tables openbsd = Ok tb → dispatch_ok tb.
Proof.
  destruct layertypes_lookup as (r & Hr & Hdec). unfold initial_tables. rewrite Hr. intros [= <-] k a Hk. cbn [t_metadata t_registry].
  assert (forallb entry_dispatches (initial_metadata openbsd) = true) as Hall by (destruct openbsd; vm_compute; reflexivity).
  assert (∀ t lm, In (t, lm) layertypes → from_option may_keep 0 (lt_Decoder lm) = 0 →
    match LayerType_decoder t r with Ok f => may_keep f = 0 | _ => True end) as Hin.
  { intros t lm Hl Hz. rewrite (Hdec t lm Hl). by destruct (lt_Decoder lm). }
  unfold enum_LayerType. destruct (metadata_at_cases (initial_metadata openbsd) k a) as [->|Hm].
  - cbn. apply (Hin LayerTypeZero (mkMetadata "Unknown" (Some F_DecodeUnknown))); [|done].
    repeat first [by left | right].
  - rewrite forallb_forall in Hall. specialize (Hall _ Hm). set (m := metadata_at _ _ _) in *. clearbody m.
    unfold entry_dispatches in Hall.
    apply orb_true_iff in Hall as [Hno|Hall]; [destruct Hk as [-> | ->]; discriminate Hno|].
    apply existsb_exists in Hall as ([t lm] & Hlm & [Ht Hz]%andb_true_iff). apply Z.eqb_eq in Ht, Hz.
    rewrite <-Ht. by apply (Hin t lm).
Qed.

(** C14 (type): of any fewer than 65536 bytes, with any first decoder, making an eager
    packet comes to one of two ends, whatever the decoders that are not modelled do.
    Either the modelled decoders make the whole packet - decoding ends, though decoders
    are free to hand on to each other, and no loop of a decoder runs on - and all layers
    are well formed, every field in the range of its Go type; without the recovery from
    panics it may be a panic of a decoder itself instead. Or decoding reaches a decoder
    [f] that is not modelled with some bytes: the layers made up to there are well
    formed, and the rest is a run of [f]. [initial_dispatch] has the hypothesis on the
    tables for those the packages start with. *)
Theorem NewPacket_layers_typed {O F} `{LayerIface O} (tb : tables) (d : decoder F) data o n :
  dispatch_ok tb → is_bytes data → len data < 65536 → Lazy o = false → (2 * length data <= n)%nat →
  (∃ r, packet_ok o r ∧ ∀ other, NewPacket (Decode (O := O) tb other) n data (Some d) o = r) ∨
  (∃ m f rest p, typed_packet o p ∧ is_bytes rest ∧ ∀ other,
     NewPacket (Decode (O := O) tb other) n data (Some d) o = packet_of_run o (eager_run (Decode tb other) m (other f rest) p)).
Proof.
  intros Hdispatch Hb Hlen Hlazy Hn. pose proof (size_le tb d data) as Hsize.
  assert (run_ends tb o (fun other => eager_run (Decode (O := O) tb other) n (Decode tb other d data) (new_packet data o))) as Hends.
  { destruct (Decode_dispatched tb Hdispatch d data Hb Hlen) as [(b & Hg & Hd)|(f & Hf)].
    - eapply run_ends_eq; [intros other; by rewrite Hd|].
      apply (eager_run_good tb Hdispatch o n _ None b _ Hg); [unfold len in *; lia|unfold len in *; lia|by apply typed_new|done].
    - right. exists n, f, data, (new_packet data o). split; [by apply typed_new|]. split; [done|]. intros other. by rewrite Hf. }
  destruct Hends as [(r & Hr & He)|(m & f & rest & p & Hp & Hrest & He)]; [left|right].
  - exists (packet_of_run o r). split; [by apply packet_of_run_good|]. intros other. by rewrite NewPacket_of_run, He.
  - exists m, f, rest, p. repeat (split; [done|]). intros other. by rewrite NewPacket_of_run, He.
Qed.

#[local] Instance none_iface : LayerIface Empty_set :=
  {| x_type := Empty_set_rect (fun _ => LayerType); x_payload := Empty_set_rect (fun _ => bytes) |}.

(** Decoders that stand for those that are not modelled, and fail in some way. *)
Definition unsupported (e : error) (f : decode_func + Empty_set) (data : bytes) : Packet.builder (layer Empty_set) (decoder Empty_set) :=
  Return (Some e).

(** Ethernet, IPv4, UDP to port 4789, VXLAN, Ethernet and ARP that is cut off. *)
Definition vxlan_packet : bytes :=
  [1; 2; 3; 4; 5; 6; 7; 8; 9; 10; 11; 12; 8; 0] ++
  [0x45; 0; 0; 54; 0; 0; 0; 0; 64; 17; 0; 0; 10; 0; 0; 1; 10; 0; 0; 2] ++
  [0x30; 0x39; 0x12; 0xb5; 0; 34; 0; 0] ++ [8; 0; 0; 0; 0; 0; 1; 0] ++
  [1; 2; 3; 4; 5; 6; 7; 8; 9; 10; 11; 12; 8; 6] ++ [0; 1; 8; 0].

Definition decoded_types (r : outcome (Packet (layer Empty_set) (decoder Empty_set))) : list LayerType :=
  match r with Ok (EagerPacket p) => map layer_type (p_layers p) | _ => [] end.

Definition decoded_errors (r : outcome (Packet (layer Empty_set) (decoder Empty_set))) : list error :=
  match r with Ok (EagerPacket p) => omap (fun l => match l with DecodeFailure _ e => Some e | _ => None end) [default (DecodeFailure [] io_EOF) (last (p_layers p))] | _ => [] end.

Lemma unsupported_ends e o m f rest (p : packet (layer Empty_set)) tb :
  decoded_errors (packet_of_run o (eager_run (Decode tb (unsupported e)) m (unsupported e f rest) p)) = [e].
Proof.
  unfold unsupported at 2. rewrite eager_run_unfold, ret_eq. cbn [packet_of_run decoded_errors]. unfold addFinalDecodeError.
  cbv zeta. rewrite slot_layers. cbn [add_layer p_layers]. by rewrite last_snoc.
Qed.

(** All decoders that the packet needs are modelled: whatever the others are, it is the same. *)
Lemma NewPacket_layers_typed_witness : ∃ tb p, initial_tables false = Ok tb ∧
  (∀ other, NewPacket (Decode (F := Empty_set) tb other) 136 vxlan_packet (Some (DecodeType LayerTypeEthernet)) Default = Ok (EagerPacket p)) ∧
  typed_packet Default p ∧
  map layer_type (p_layers p) =
    [LayerTypeEthernet; LayerTypeIPv4; LayerTypeUDP; LayerTypeVXLAN; LayerTypeEthernet; LayerTypeDecodeFailure].
Proof.
  set (make := fun e tb => NewPacket (Decode tb (unsupported e)) 136 vxlan_packet (Some (DecodeType LayerTypeEthernet)) Default).
  set (types := [LayerTypeEthernet; LayerTypeIPv4; LayerTypeUDP; LayerTypeVXLAN; LayerTypeEthernet; LayerTypeDecodeFailure]).
  assert (decoded_types (tb ← initial_tables false; make io_EOF tb) = types ∧
    decoded_errors (tb ← initial_tables false; make io_EOF tb) = decoded_errors (tb ← initial_tables false; make errNilDecoder tb)) as [Htypes Herr]
    by (split; vm_compute; reflexivity).
  destruct (initial_tables false) as [tb| | |] eqn:Htb; try discriminate Htypes.
  change (decoded_types (make io_EOF tb) = types) in Htypes.
  change (decoded_errors (make io_EOF tb) = decoded_errors (make errNilDecoder tb)) in Herr.
  destruct (NewPacket_layers_typed (O := Empty_set) (F := Empty_set) tb (DecodeType LayerTypeEthernet) vxlan_packet Default 136
    (initial_dispatch false tb Htb) ltac:(solve_Forall) ltac:(reflexivity) ltac:(reflexivity)
    ltac:(apply Nat.leb_le; reflexivity)) as [(r & Hr & He)|(m & f & rest & p & Hp & Hrest & He)].
  - unfold make in Htypes. rewrite He in Htypes. destruct r as [[p|p]|e|c|]; cbn in Hr; try contradiction; [|discriminate Htypes].
    exists tb, p. split; [reflexivity|]. split; [exact He|]. by split.
  - exfalso. unfold make in Herr. rewrite !He, !unsupported_ends in Herr. discriminate Herr.
Defined.
