(* ===== verification/LayerIssues.v ===== *)
(** * What the models of the layers show

    Inputs on which the decoders and serializers of [LinkLayers], [TunnelLayers],
    [ControlLayers] and [Sctp] do what they do not mean to. *)

From S2P Require Import Prelude SerializeBuffer BaseLayers Checksum.
From S2P Require LinkLayers TunnelLayers ControlLayers Sctp.

(** ** GTP: the offsets of the extension headers are [uint16] *)

(** An extension header flag, and extensions of four bytes in more than 65535 bytes. *)
Definition endless : bytes := 4 :: replicate (Z.to_nat 131070) 1.

Lemma endless_index i : 0 <= i < 131071 → index endless i = Ok (if i =? 0 then 4 else 1).
Proof.
  intros Hi. unfold index. destruct (Z.ltb_spec i 0); [lia|]. unfold endless.
  destruct (Z.eqb_spec i 0) as [->|Hne]; [done|].
  by rewrite lookup_cons_ne_0, lookup_replicate_2 by lia.
Qed.

Lemma endless_len : len endless = 131071.
Proof. unfold endless, len. cbn [length]. rewrite length_replicate. lia. Qed.

(** Whatever the bound, the loop over the extensions has not ended. *)
Lemma GTP_runs_forever fuel : ∀ c s, 0 <= c < 65536 → c mod 4 = 0 →
  (TunnelLayers.Gtp.decode_extensions fuel endless c s).1 = NoFuel.
Proof.
  induction fuel as [|fuel IH]; intros c s Hc H4; [done|]. cbn [TunnelLayers.Gtp.decode_extensions].
  pose proof (u16_range (c - 1)) as Hu. unfold is_u16 in Hu. set (e := if c =? 0 then 4 else 1).
  assert (1 <= e <= 4 ∧ (c = 0 → e = 4) ∧ (c ≠ 0 → e = 1)) as (He & He0 & He1) by (unfold e; destruct (Z.eqb_spec c 0); lia).
  rewrite bind_eq, endless_index by lia. cbn [lift]. rewrite bind_eq, endless_index by lia. cbn [lift]. fold e.
  destruct (Z.eqb_spec e 0); [lia|]. cbv zeta. rewrite endless_len. change (u16 131071) with 65535.
  assert (u16 (c + e * 4) mod 4 = 0 ∧ 0 <= u16 (c + e * 4) < 65536 ∧ (c + 1 <= u16 (u16 (c + e * 4) - 1) < 65536)) as (Hm & Hr & Hs).
  { unfold u16. destruct (Z.eq_dec c 0); [rewrite He0 by lia; subst c | rewrite He1 by lia]; Z.div_mod_to_equations; lia. }
  destruct (Z.ltb_spec 65535 (u16 (c + e * 4))); [lia|].
  replace (u16 (c + 1)) with (c + 1) by (unfold u16; Z.div_mod_to_equations; lia).
  rewrite bind_eq, slice_ok by (rewrite ?endless_len; lia). cbn [lift]. rewrite bind_eq. unfold modify_layer, modify.
  rewrite bind_eq, endless_index by lia. cbn [lift].
  by destruct (u16 (u16 (c + e * 4) - 1) =? 0); apply IH.
Qed.

(** The same of the decoder with the bound the model gives it. *)
Lemma GTP_decode_runs_forever s : (TunnelLayers.Gtp.decode_extensions (S (length endless)) endless 12 s).1 = NoFuel.
Proof. by apply GTP_runs_forever. Qed.

(** ** Running a layer's methods *)

Section runs.
Context {L A : Type}.

(** The layer that new data leave, and what is left of it. *)
Definition parsed (zero : L) (dec : M (dstate L) unit) (f : L → A) : outcome A :=
  match dec (DState zero false) with
  | (Ok _, s) => Ok (f (dlayer s))
  | (Err e, _) => Err e
  | (Panic c, _) => Panic c
  | (NoFuel, _) => NoFuel
  end.

(** The bytes of a buffer in front of which a layer is serialized. *)
Definition written_to (w : serializeBuffer) (ser : M (L * serializeBuffer) unit) (l : L) : outcome bytes :=
  match ser (l, w) with
  | (Ok _, s) => Ok (Bytes s.2)
  | (Err e, _) => Err e
  | (Panic c, _) => Panic c
  | (NoFuel, _) => NoFuel
  end.
Definition written : M (L * serializeBuffer) unit → L → outcome bytes := written_to NewSerializeBuffer.
End runs.

Definition fixed : SerializeOptions := mkSerializeOptions true true.

(** A buffer that was used for bytes of 0xff and cleared. *)
Definition used (n : Z) : serializeBuffer :=
  ((bs ← PrependBytes n; _ ← Store (map (fun _ => 255) bs); Clear) NewSerializeBuffer).2.

(** ** Links *)

(** Two bytes of control whose first is zero become one. *)
Lemma LLC_control_lost :
  parsed LinkLayers.Llc.empty_LLC (LinkLayers.Llc.DecodeFromBytes [66; 66; 0; 2]) LinkLayers.Llc.Control = Ok 2 ∧
  written (LinkLayers.Llc.SerializeTo fixed) (LinkLayers.Llc.mkLLC (mkBase [] []) 66 false 66 false 2) = Ok [66; 66; 2].
Proof. split; vm_compute; reflexivity. Qed.

(** The length of a PPPoE header is added to in 16 bits and not checked. *)
Lemma PPPoE_length_panics :
  (LinkLayers.Pppoe.parse [17; 0; 0; 1; 255; 255; 1] (DState tt false)).1 = Panic SliceOutOfRange.
Proof. vm_compute. reflexivity. Qed.

(** The lengths of an ARP header are added in eight bits: 256 bytes are none. *)
Lemma ARP_length_wraps :
  parsed LinkLayers.Arp.empty_ARP (LinkLayers.Arp.DecodeFromBytes [0; 1; 8; 0; 124; 0; 0; 1]) LinkLayers.Arp.Operation = Panic SliceOutOfRange.
Proof. vm_compute. reflexivity. Qed.

(** The length of the address of a cooked header is not checked. *)
Lemma SLL_address_panics :
  parsed LinkLayers.LinuxSll.empty_SLL (LinkLayers.LinuxSll.DecodeFromBytes [0; 0; 0; 1; 0; 200; 1; 2; 3; 4; 5; 6; 7; 8; 8; 0])
    LinkLayers.LinuxSll.AddrLen = Panic SliceOutOfRange.
Proof. vm_compute. reflexivity. Qed.

(** Decoders without a check of the length. *)
Lemma short_data_panics :
  (LinkLayers.Mpls.parse [1; 2; 3] (DState tt false)).1 = Panic SliceOutOfRange ∧
  (LinkLayers.Ppp.parse [] (DState tt false)).1 = Panic IndexOutOfRange ∧
  (LinkLayers.Fddi.parse [0x50] (DState tt false)).1 = Panic SliceOutOfRange ∧
  parsed TunnelLayers.Gre.empty_GRE (TunnelLayers.Gre.DecodeFromBytes [0]) TunnelLayers.Gre.Protocol = Panic IndexOutOfRange ∧
  parsed TunnelLayers.EtherIp.empty_EtherIP (TunnelLayers.EtherIp.DecodeFromBytes [48]) TunnelLayers.EtherIp.Version = Panic SliceOutOfRange ∧
  parsed ControlLayers.PfLog.empty_PFLog (ControlLayers.PfLog.DecodeFromBytes (replicate 60 0)) ControlLayers.PfLog.Length = Panic IndexOutOfRange.
Proof. split_and!; vm_compute; reflexivity. Qed.

(** ** Tunnels *)

(** The acknowledgement number goes where the last entry of the routing should, and
    the last four bytes of the header are what the buffer held. *)
Lemma GRE_ack_misplaced :
  written_to (used 32) (TunnelLayers.Gre.SerializeTo (mkSerializeOptions false false))
    (TunnelLayers.Gre.set_numbers 0 0 0x01020304 (TunnelLayers.Gre.set_flags 0x40 0x80 0x800 TunnelLayers.Gre.empty_GRE)) =
  Ok [0x40; 0x80; 8; 0; 0; 0; 0; 0; 1; 2; 3; 4; 255; 255; 255; 255].
Proof. vm_compute. reflexivity. Qed.

(** Options of 248 bytes, and the offset behind them wraps: no contents, and all data as payload. *)
Definition geneve_248 : bytes := 62 :: replicate 260 0.
Lemma Geneve_offset_wraps :
  parsed TunnelLayers.Geneve.empty_Geneve (TunnelLayers.Geneve.DecodeFromBytes geneve_248) TunnelLayers.Geneve.base =
    Ok (mkBase [] geneve_248).
Proof. vm_compute. reflexivity. Qed.

(** The version is two bits: of version 1 the decoder sees 0. *)
Lemma Geneve_version_lost :
  parsed TunnelLayers.Geneve.empty_Geneve (TunnelLayers.Geneve.DecodeFromBytes [64; 0; 101; 88; 0; 0; 1; 0]) TunnelLayers.Geneve.Version = Ok 0.
Proof. vm_compute. reflexivity. Qed.

(** The sequence number of GTP, with the rest of the optional fields, goes behind the payload. *)
Lemma GTP_optional_misplaced :
  written_to ((bs ← PrependBytes 2; Store [170; 187]) NewSerializeBuffer).2 (TunnelLayers.Gtp.SerializeTo fixed)
    (TunnelLayers.Gtp.mkGTP (mkBase [] []) 1 1 0 false true false 255 6 7 0x0102 0 []) =
  Ok [0x32; 255; 0; 6; 0; 0; 0; 7; 170; 187; 1; 2; 0; 0].
Proof. vm_compute. reflexivity. Qed.

(** ** Control protocols *)

(** The payload of an echo message is not kept. *)
Lemma Echo_payload_lost :
  parsed ControlLayers.Icmp6.empty_Echo (ControlLayers.Icmp6.Echo_DecodeFromBytes [0; 1; 0; 2; 104; 105]) ControlLayers.Icmp6.echo_base = Ok (mkBase [] []).
Proof. reflexivity. Qed.

(** Options are prepended from the first on. *)
Lemma NDP_options_reversed :
  written (ControlLayers.Icmp6.RS_SerializeTo fixed)
    (ControlLayers.Icmp6.mkRS (mkBase [] []) [ControlLayers.Icmp6.mkOption 1 (replicate 6 1); ControlLayers.Icmp6.mkOption 5 (replicate 6 2)]) =
  Ok ([0; 0; 0; 0] ++ [5; 1; 2; 2; 2; 2; 2; 2] ++ [1; 1; 1; 1; 1; 1; 1; 1]).
Proof. vm_compute. reflexivity. Qed.

(** The length that [FixLengths] writes does not count the header: what is written is not decoded again. *)
Lemma EAP_fixed_length_refused :
  written (ControlLayers.Eap.SerializeTo fixed) (ControlLayers.Eap.mkEAP (mkBase [] []) 2 7 0 1 [97; 98]) = Ok [2; 7; 0; 3; 1; 97; 98] ∧
  parsed ControlLayers.Eap.empty_EAP (ControlLayers.Eap.DecodeFromBytes [2; 7; 0; 3; 1; 97; 98]) ControlLayers.Eap.TypeData =
    Err (Errorf "invalid EAP length %d" [3]).
Proof. split; vm_compute; reflexivity. Qed.

(** A layer that is used again keeps the addresses of the packet before. *)
Definition vrrp_one : bytes := [33; 1; 100; 1; 0; 1; 0; 0; 10; 0; 0; 1].
Lemma VRRP_addresses_pile_up :
  parsed ControlLayers.Vrrp.empty_VRRP (_ ← ControlLayers.Vrrp.DecodeFromBytes vrrp_one; ControlLayers.Vrrp.DecodeFromBytes vrrp_one)
    ControlLayers.Vrrp.IPAddress = Ok [[10; 0; 0; 1]; [10; 0; 0; 1]].
Proof. vm_compute. reflexivity. Qed.

(** ** SCTP *)

(** The checksum covers what the buffer held in its place. *)
Lemma SCTP_checksum_of_stale_bytes :
  written_to (used 16) (Sctp.SerializeTo fixed) (Sctp.mkSCTP (mkBase [] []) 1 2 3 0 [] []) ≠
  written (Sctp.SerializeTo fixed) (Sctp.mkSCTP (mkBase [] []) 1 2 3 0 [] []).
Proof. vm_compute. discriminate. Qed.

(** A data chunk of one byte with three of padding and a cookie acknowledgement behind
    it: the payload has the padding and the first byte of the other chunk, and the
    rest is lost. *)
Definition bundled : bytes := [0; 3; 0; 17; 0; 0; 0; 1; 0; 0; 0; 0; 0; 0; 0; 0; 65; 0; 0; 0] ++ [11; 0; 0; 4].
Lemma SCTPData_swallows_chunks :
  (d ← Sctp.parse_data bundled; mret (Payload (Sctp.ch_base (Sctp.d_chunk d)))) = Ok [65; 0; 0; 0; 11].
Proof. vm_compute. reflexivity. Qed.

(** A heartbeat whose parameter is padded ends before the padding that is skipped. *)
Lemma SCTPHeartbeat_padding_panics :
  Sctp.parse_parameters [4; 0; 0; 9; 0; 1; 0; 5; 66; 0; 0; 0] = Panic SliceOutOfRange.
Proof. vm_compute. reflexivity. Qed.
