(* ===== verification/RawSend.v ===== *)
(** * Sending raw packets ([rawsend/batch_linux.go], [rawsend/sender.go])

    A batch collects packets in one buffer and hands them to the kernel in one
    call. The pointers that the kernel follows - from the messages to the
    addresses and the vectors, from the vectors to the bytes - are positions in
    the arrays of the batch. The kernel is an interface: what it answers is its
    own affair, what it has transmitted is what it says it has. *)

From S2P Require Import Prelude.

(** ** Data *)

Record sockaddrInet4Raw : Type := mkSockaddr { Family : Z; Port : Z; Addr : bytes; Zero : bytes }.
#[export] Instance sockaddr_eq_dec : EqDecision sockaddrInet4Raw.
Proof. solve_decision. Defined.

(** [unix.Iovec]: [Base] is the position in [pkts] that it points to. *)
Record Iovec : Type := mkIovec { Base : Z; Len_ : Z }.
(** [unix.Msghdr]: [Name] is an element of [addrs], [Iov] one of [iovs]. *)
Record Msghdr : Type := mkMsghdr { Name : Z; Namelen : Z; Iov : Z; Iovlen : Z }.
(** [MsgLen] is for the kernel to write; nothing reads it. *)
Record mmsghdr : Type := mkMmsghdr { Hdr : Msghdr; MsgLen : Z }.

Record Batch : Type := mkBatch {
  fd : Z;
  count : Z;
  batchSize : Z;
  maxPktLen : Z;
  pkts : bytes;
  pktLens : list Z;
  addrs : list sockaddrInet4Raw;
  iovs : list Iovec;
  msgs : list mmsghdr;
}.

Definition set_count (n : Z) (b : Batch) : Batch :=
  mkBatch (fd b) n (batchSize b) (maxPktLen b) (pkts b) (pktLens b) (addrs b) (iovs b) (msgs b).
Definition set_pkts p (b : Batch) : Batch :=
  mkBatch (fd b) (count b) (batchSize b) (maxPktLen b) p (pktLens b) (addrs b) (iovs b) (msgs b).
Definition set_pktLens l (b : Batch) : Batch :=
  mkBatch (fd b) (count b) (batchSize b) (maxPktLen b) (pkts b) l (addrs b) (iovs b) (msgs b).
Definition set_addrs a (b : Batch) : Batch :=
  mkBatch (fd b) (count b) (batchSize b) (maxPktLen b) (pkts b) (pktLens b) a (iovs b) (msgs b).
Definition set_iovs v (b : Batch) : Batch :=
  mkBatch (fd b) (count b) (batchSize b) (maxPktLen b) (pkts b) (pktLens b) (addrs b) v (msgs b).

(** ** The kernel *)

(** What a message is when its pointers are followed. *)
Record message : Type := mkMessage { m_data : bytes; m_addr : sockaddrInet4Raw }.

(** [sendmmsg(fd, msgvec, vlen, 0)], with the two registers it returns. *)
Class Sendmmsg (W : Type) := {
  sendmmsg : Z → list message → W → (Z * Z) * W;
  transmitted : W → list message;
}.

(** [int(r1)] of a 64-bit [uintptr] *)
Definition int_of (r : Z) : Z := if r <? 2 ^ 63 then r else r - 2 ^ 64.

(** What the manual says of the answer: the number of messages that were sent, from the
    first one, or -1 when none was. *)
Class SendmmsgLaws (W : Type) `{Sendmmsg W} := {
  sendmmsg_range f ms w : -1 <= int_of (sendmmsg f ms w).1.1 <= len ms;
  sendmmsg_transmits f ms w :
    transmitted (sendmmsg f ms w).2 = transmitted w ++ take (Z.to_nat (int_of (sendmmsg f ms w).1.1)) ms;
}.

Definition Errno (e : Z) : error := Errorf "errno" [e].
Definition EAGAIN : error := Errno 11.
Definition AF_INET : Z := 2.

(** ** Operations *)

(** [make([]T, n)] *)
Definition make {A} (n : Z) (zero : A) : outcome (list A) :=
  if n <? 0 then Panic (Panicked "makeslice: len out of range") else Ok (replicate (Z.to_nat n) zero).

(** One round of the loop that sets the pointers up. *)
Definition point (maxLen i : Z) : M Batch unit :=
  b ← get;
  a ← lift (index (addrs b) i);
  l ← lift (set_index (addrs b) i (mkSockaddr AF_INET (Port a) (Addr a) (Zero a)));
  _ ← modify (set_addrs l);
  v ← lift (index (iovs b) i);
  _ ← lift (index (pkts b) (i * maxLen));
  l ← lift (set_index (iovs b) i (mkIovec (i * maxLen) (Len_ v)));
  _ ← modify (set_iovs l);
  m ← lift (index (msgs b) i);
  l ← lift (set_index (msgs b) i (mkMmsghdr (mkMsghdr i 16 i 1) (MsgLen m)));
  modify (fun b => mkBatch (fd b) (count b) (batchSize b) (maxPktLen b) (pkts b) (pktLens b) (addrs b) (iovs b) l).

(** [available]: the address of [sendmmsg] has been found. *)
Definition NewBatch (available : bool) (fd batchSize maxPktLen : Z) : outcome (option Batch) :=
  if negb available then Ok None
  else
    pkts ← make (batchSize * maxPktLen) 0;
    pktLens ← make batchSize 0;
    addrs ← make batchSize (mkSockaddr 0 0 [0; 0; 0; 0] (replicate 8 0));
    iovs ← make batchSize (mkIovec 0 0);
    msgs ← make batchSize (mkMmsghdr (mkMsghdr 0 0 0 0) 0);
    match for_loop 0 batchSize (point maxPktLen) (mkBatch fd 0 batchSize maxPktLen pkts pktLens addrs iovs msgs) with
    | (Ok _, b) => Ok (Some b)
    | (Err e, _) => Err e
    | (Panic c, _) => Panic c
    | (NoFuel, _) => NoFuel
    end.

(** [copy] of a packet, its length and its address from slot [src] to slot [k]. *)
Definition move_slot (src k : Z) : M Batch unit :=
  b ← get;
  ln ← lift (index (pktLens b) src);
  let srcOff := src * maxPktLen b in
  let dstOff := k * maxPktLen b in
  data ← lift (slice (pkts b) srcOff (srcOff + ln));
  p ← lift (copy_into (pkts b) dstOff (dstOff + ln) data);
  _ ← modify (set_pkts p);
  l ← lift (set_index (pktLens b) k ln);
  _ ← modify (set_pktLens l);
  v ← lift (index (iovs b) k);
  l ← lift (set_index (iovs b) k (mkIovec (Base v) ln));
  _ ← modify (set_iovs l);
  a ← lift (index (addrs b) k);
  a' ← lift (index (addrs b) src);
  l ← lift (set_index (addrs b) k (mkSockaddr (Family a) (Port a) (Addr a') (Zero a)));
  modify (set_addrs l).

Definition keepUnsent (sent n : Z) : M Batch unit :=
  if sent =? 0 then modify (set_count n)
  else
    let rem := n - sent in
    _ ← for_loop 0 rem (fun k => move_slot (sent + k) k);
    modify (set_count rem).

(** What the kernel finds at [msgs[i]]. *)
Definition view (b : Batch) (i : Z) : outcome message :=
  m ← index (msgs b) i;
  v ← index (iovs b) (Iov (Hdr m));
  data ← slice (pkts b) (Base v) (Base v + Len_ v);
  a ← index (addrs b) (Name (Hdr m));
  mret (mkMessage data a).

Fixpoint view_from (b : Batch) (i : Z) (n : nat) : outcome (list message) :=
  match n with
  | O => mret []
  | S n => m ← view b i; ms ← view_from b (i + 1) n; mret (m :: ms)
  end.

Section sending.
Context {W : Type} `{Sendmmsg W}.

(** [purego.SyscallN(sendmmsgAddr, b.fd, &b.msgs[sent], n-sent, 0)] *)
Definition SyscallN (sent n : Z) : M (Batch * W) (Z * Z) := fun s =>
  match view_from s.1 sent (Z.to_nat (n - sent)) with
  | Ok ms => match sendmmsg (fd s.1) ms s.2 with (r, w) => (Ok r, (s.1, w)) end
  | Err e => (Err e, s)
  | Panic c => (Panic c, s)
  | NoFuel => (NoFuel, s)
  end.

Fixpoint Flush_loop (fuel : nat) (sent n : Z) : M (Batch * W) unit :=
  match fuel with
  | O => lift NoFuel
  | S fuel =>
      if sent <? n then
        r ← SyscallN sent n;
        if int_of r.1 <? 0 then _ ← on_fst (keepUnsent sent n); throw (Errno r.2)
        else
          let cnt := int_of r.1 in
          if cnt =? 0 then _ ← on_fst (keepUnsent sent n); throw EAGAIN
          else Flush_loop fuel (sent + cnt) n
      else mret tt
  end.

Definition Flush : M (Batch * W) unit :=
  b ← gets fst;
  if count b =? 0 then mret tt
  else
    let n := count b in
    _ ← Flush_loop (S (Z.to_nat n)) 0 n;
    on_fst (modify (set_count 0)).

(** The copy of the packet into the slot behind the last one. *)
Definition append (pkt : bytes) (dstIP : bytes) : M Batch unit :=
  b ← get;
  let i := count b in
  let off := i * maxPktLen b in
  p ← lift (copy_into (pkts b) off (off + maxPktLen b) pkt);
  let n := Z.min (maxPktLen b) (len pkt) in
  _ ← modify (set_pkts p);
  l ← lift (set_index (pktLens b) i n);
  _ ← modify (set_pktLens l);
  v ← lift (index (iovs b) i);
  l ← lift (set_index (iovs b) i (mkIovec (Base v) n));
  _ ← modify (set_iovs l);
  a ← lift (index (addrs b) i);
  l ← lift (set_index (addrs b) i (mkSockaddr (Family a) (Port a) dstIP (Zero a)));
  _ ← modify (set_addrs l);
  modify (fun b => set_count (count b + 1) b).

Definition Add (pkt : bytes) (dstIP : bytes) : M (Batch * W) unit :=
  b ← gets fst;
  _ ← (if batchSize b <=? count b then
         _ ← Flush;
         b ← gets fst;
         if batchSize b <=? count b then throw EAGAIN else mret tt
       else mret tt);
  _ ← on_fst (append pkt dstIP);
  b ← gets fst;
  if count b =? batchSize b then Flush else mret tt.

Definition Len : M (Batch * W) Z := gets (fun s => count s.1).
End sending.

(** ** One packet at a time *)

Section sender.
Context {W : Type} (Sendto : Z → bytes → bytes → W → outcome unit * W).

(** The descriptor and the address of [sa]; the connection is only held. *)
Record Sender : Type := mkSender { s_fd : Z; s_Addr : bytes }.
Definition NewFromFD (fd : Z) : Sender := mkSender fd [0; 0; 0; 0].
Definition SendTo (pkt dstIP : bytes) : M (Sender * W) unit := fun s =>
  let s1 := mkSender (s_fd s.1) dstIP in
  match Sendto (s_fd s1) pkt (s_Addr s1) s.2 with (o, w) => (o, (s1, w)) end.
End sender.
