(* ===== verification/RawSendCorrect.v ===== *)
(** * A batch is a queue

    The specification of a batch is a list of messages. The slots of the
    buffer, the lengths, the addresses and the pointers represent it; adding and
    flushing do to the arrays what the specification does to the list, whatever
    the kernel answers. So packets are sent in order, each once, and none is lost. *)

From S2P Require Import Prelude RawSend.

(** ** Reading back what was written *)

Lemma index_insert {A} (l : list A) i j v : 0 <= i < len l → 0 <= j →
  index (<[Z.to_nat i := v]> l) j = if j =? i then Ok v else index l j.
Proof.
  intros Hi Hj. unfold index, len in *. destruct (Z.ltb_spec j 0); [lia|]. destruct (Z.eqb_spec j i) as [->|Hne].
  - by rewrite list_lookup_insert_eq by lia.
  - by rewrite list_lookup_insert_ne by lia.
Qed.

Lemma index_replicate {A} (n : nat) (a : A) i : 0 <= i < Z.of_nat n → index (replicate n a) i = Ok a.
Proof. intros Hi. unfold index. destruct (Z.ltb_spec i 0); [lia|]. by rewrite lookup_replicate_2 by lia. Qed.

Lemma slice_lookup {A} (l : list A) lo n : 0 <= lo → 0 <= n → lo + n <= len l →
  ∃ r, slice l lo (lo + n) = Ok r ∧ len r = n ∧ ∀ j, (j < Z.to_nat n)%nat → r !! j = l !! (Z.to_nat lo + j)%nat.
Proof.
  intros H1 H2 H3. rewrite slice_ok by lia. eexists. split; [done|]. split; [lens|]. intros j Hj.
  rewrite lookup_drop, lookup_take_lt by lia. done.
Qed.

Lemma slice_ext {A} (l1 l2 : list A) lo n : 0 <= lo → 0 <= n → lo + n <= len l1 → lo + n <= len l2 →
  (∀ j : nat, lo <= Z.of_nat j < lo + n → l1 !! j = l2 !! j) → slice l1 lo (lo + n) = slice l2 lo (lo + n).
Proof.
  intros H1 H2 H3 H4 Heq. destruct (slice_lookup l1 lo n) as (r1 & -> & L1 & E1); [done..|].
  destruct (slice_lookup l2 lo n) as (r2 & -> & L2 & E2); [done..|]. f_equal. unfold len in *.
  apply list_eq_same_length with (n := Z.to_nat n); [lia..|]. intros j x y Hj Hx Hy.
  rewrite E1 in Hx by done. rewrite E2 in Hy by done. rewrite Heq in Hx by lia. congruence.
Qed.

(** What [copy] does to a part of the buffer and to the others. *)
Lemma copy_into_spec {A} (l src : list A) lo hi : 0 <= lo <= hi → hi <= len l →
  let n := Z.min (hi - lo) (len src) in
  ∃ l', copy_into l lo hi src = Ok l' ∧ len l' = len l ∧
    slice l' lo (lo + n) = Ok (take (Z.to_nat n) src) ∧
    ∀ o k, 0 <= o → 0 <= k → o + k <= len l → o + k <= lo ∨ hi <= o → slice l' o (o + k) = slice l o (o + k).
Proof.
  intros Hlo Hhi n. unfold copy_into. rewrite slice_ok by lia. cbn [mbind outcome_bind].
  replace (take (length _) src) with (take (Z.to_nat n) src); cycle 1.
  { rewrite length_drop, length_take. unfold n, len in *. destruct (decide (hi - lo <= Z.of_nat (length src))).
    - f_equal. lia.
    - rewrite !take_ge by lia. done. }
  set (s := take _ src). assert (len s = n) as Ls by (unfold s, n; pose proof (len_nonneg src); lens).
  pose proof (len_nonneg src). assert (0 <= n <= hi - lo) as Hn by lia. rewrite write_at_ok by lia. eexists. split; [done|].
  split; [lens|]. split.
  { rewrite <-Ls. apply slice_app; lens. }
  intros o k Ho Hk Hok Hdis. apply slice_ext; [lia..|lens|lia|]. intros j Hj. unfold len in *. destruct Hdis.
  - rewrite lookup_app_l by (rewrite length_take; lia). by rewrite lookup_take_lt by lia.
  - rewrite lookup_app_r by (rewrite length_take; lia). rewrite length_take, lookup_app_r by lia.
    rewrite lookup_drop. f_equal. lia.
Qed.

(** ** The specification *)

Definition message_of (maxLen : Z) (pkt dstIP : bytes) : message :=
  mkMessage (take (Z.to_nat maxLen) pkt) (mkSockaddr AF_INET 0 dstIP (replicate 8 0)).

Section spec.
Context {W : Type} `{Sendmmsg W} (f size maxLen : Z).

Fixpoint flush_spec (fuel : nat) : M (list message * W) unit := fun s =>
  match fuel, s with
  | _, ([], w) => (Ok tt, ([], w))
  | O, s => (NoFuel, s)
  | S fuel, (q, w) =>
      match sendmmsg f q w with
      | ((r, e), w) =>
          if int_of r <? 0 then (Err (Errno e), (q, w))
          else if int_of r =? 0 then (Err EAGAIN, (q, w))
          else flush_spec fuel (drop (Z.to_nat (int_of r)) q, w)
      end
  end.

Definition Flush_spec : M (list message * W) unit := fun s => flush_spec (length s.1) s.

Definition full : M (list message * W) bool := gets (fun s => size <=? len s.1).

Definition Add_spec (pkt dstIP : bytes) : M (list message * W) unit :=
  b ← full;
  _ ← (if b : bool then Flush_spec else mret tt);
  _ ← modify (fun s => (s.1 ++ [message_of maxLen pkt dstIP], s.2));
  b ← full;
  if b : bool then Flush_spec else mret tt.
End spec.

(** ** The representation *)

Section representation.
Implicit Types (b : Batch) (i : Z) (m : message) (q : list message).

(** The arrays and the pointers between them, as [NewBatch] set them up. *)
Record shaped (size maxLen : Z) b : Prop := {
  sh_size : batchSize b = size;
  sh_max : maxPktLen b = maxLen;
  sh_bounds : 0 < size ∧ 0 <= maxLen;
  sh_pkts : len (pkts b) = size * maxLen;
  sh_pktLens : len (pktLens b) = size;
  sh_addrs : len (addrs b) = size;
  sh_iovs : len (iovs b) = size;
  sh_slot i : 0 <= i < size →
    (∃ ip, index (addrs b) i = Ok (mkSockaddr AF_INET 0 ip (replicate 8 0))) ∧
    (∃ n, index (iovs b) i = Ok (mkIovec (i * maxLen) n)) ∧
    index (msgs b) i = Ok (mkMmsghdr (mkMsghdr i 16 i 1) 0);
}.

(** The message in slot [i]. *)
Record slot b i m : Prop := {
  sl_len : len (m_data m) <= maxPktLen b;
  sl_pktLen : index (pktLens b) i = Ok (len (m_data m));
  sl_iov : index (iovs b) i = Ok (mkIovec (i * maxPktLen b) (len (m_data m)));
  sl_addr : index (addrs b) i = Ok (m_addr m);
  sl_data : slice (pkts b) (i * maxPktLen b) (i * maxPktLen b + len (m_data m)) = Ok (m_data m);
}.

Definition slots b i q : Prop := ∀ k m, q !! k = Some m → slot b (i + Z.of_nat k) m.

(** What no operation changes. *)
Definition same b b' : Prop := fd b' = fd b ∧ batchSize b' = batchSize b ∧ maxPktLen b' = maxPktLen b.

Record holds (size maxLen : Z) b q : Prop := {
  h_shaped : shaped size maxLen b;
  h_count : count b = len q;
  h_fits : len q <= size;
  h_slots : slots b 0 q;
}.

Lemma slot_view size maxLen b i m : shaped size maxLen b → 0 <= i < size → slot b i m → view b i = Ok m.
Proof.
  intros Hs Hi []. destruct (sh_slot _ _ _ Hs i Hi) as (_ & _ & Hm). unfold view. rewrite Hm. cbn [mbind outcome_bind Hdr Iov Name].
  rewrite sl_iov0. cbn [mbind outcome_bind Base Len_]. rewrite sl_data0. cbn [mbind outcome_bind]. rewrite sl_addr0. by destruct m.
Qed.

Lemma slots_view size maxLen b q : ∀ i, shaped size maxLen b → 0 <= i → i + len q <= size → slots b i q →
  view_from b i (length q) = Ok q.
Proof.
  induction q as [|m q IH]; intros i Hs Hi Hle Hq; [done|]. cbn [length view_from]. autorewrite with lens in Hle. pose proof (len_nonneg q).
  rewrite (slot_view size maxLen b i m Hs); [|lia|]; cycle 1.
  { pose proof (Hq O m eq_refl) as Hm. by rewrite Z.add_0_r in Hm. }
  cbn [mbind outcome_bind]. rewrite IH; [done|done|lia|lia|]. intros k m' Hk. pose proof (Hq (S k) m' Hk) as Hm.
  by replace (i + 1 + Z.of_nat k) with (i + Z.of_nat (S k)) by lia.
Qed.

Lemma holds_view size maxLen b q : holds size maxLen b q → view_from b 0 (Z.to_nat (count b)) = Ok q.
Proof.
  intros [Hs Hc Hf Hq]. rewrite Hc. replace (Z.to_nat (len q)) with (length q) by (unfold len; lia).
  by apply (slots_view size maxLen).
Qed.

(** [b] with a packet of [n] bytes for [ip] in slot [k]. *)
Definition with_slot b (k n : Z) (ip p : bytes) : Batch :=
  mkBatch (fd b) (count b) (batchSize b) (maxPktLen b) p (<[Z.to_nat k := n]> (pktLens b))
    (<[Z.to_nat k := mkSockaddr AF_INET 0 ip (replicate 8 0)]> (addrs b))
    (<[Z.to_nat k := mkIovec (k * maxPktLen b) n]> (iovs b)) (msgs b).

Section one_slot.
Context (size maxLen : Z) (b : Batch) (Hb : shaped size maxLen b) (k : Z) (Hk : 0 <= k < size).

Lemma slot_room j : 0 <= j < size → 0 <= j * maxLen ∧ j * maxLen + maxLen <= len (pkts b).
Proof using Hb. intros Hj. destruct Hb. rewrite sh_pkts0. nia. Qed.

Lemma slots_apart (j n m : Z) : 0 <= j → j ≠ k → n <= maxLen → m <= maxLen →
  j * maxLen + n <= k * maxLen ∨ k * maxLen + m <= j * maxLen.
Proof using Hb. intros Hj Hne Hn Hm. destruct (sh_bounds _ _ _ Hb). destruct (decide (j < k)); [left|right]; nia. Qed.

Lemma write_slot room src ip : 0 <= room <= maxLen → let n := Z.min room (len src) in ∃ p,
  copy_into (pkts b) (k * maxLen) (k * maxLen + room) src = Ok p ∧
  let b' := with_slot b k n ip p in
  shaped size maxLen b' ∧ slot b' k (mkMessage (take (Z.to_nat n) src) (mkSockaddr AF_INET 0 ip (replicate 8 0))) ∧
  ∀ j m, 0 <= j < size → j ≠ k → slot b j m → slot b' j m.
Proof using Hb Hk.
  intros Hroom n. pose proof (len_nonneg src). pose proof Hb as []. destruct (slot_room k Hk).
  destruct (copy_into_spec (pkts b) src (k * maxLen) (k * maxLen + room)) as (p & Ep & Lp & Hsame & Hother); [lia..|].
  replace (k * maxLen + room - k * maxLen) with room in Hsame by lia. fold n in Hsame.
  assert (len (take (Z.to_nat n) src) = n) as Ln by (unfold n; lens).
  exists p. split; [done|]. intros b'. split_and!.
  - split; cbn [b' with_slot batchSize maxPktLen pkts pktLens addrs iovs msgs]; rewrite ?len_insert; try done; [lia|].
    intros i Hi. destruct (sh_slot0 i Hi) as ((ip' & Ha) & (n' & Hv) & Hm). rewrite !index_insert by lia. rewrite sh_max0.
    destruct (Z.eqb_spec i k) as [->|]; split_and!; eauto.
  - split; cbn [b' with_slot batchSize maxPktLen pkts pktLens addrs iovs msgs m_data m_addr]; rewrite ?Ln, ?sh_max0, ?index_insert, ?Z.eqb_refl by lia;
      try done. unfold n; lia.
  - intros j m Hj Hne []. destruct (slot_room j Hj). pose proof (len_nonneg (m_data m)). rewrite sh_max0 in *.
    split; cbn [b' with_slot batchSize maxPktLen pkts pktLens addrs iovs msgs]; rewrite ?sh_max0, ?index_insert by lia;
      try (destruct (Z.eqb_spec j k); [done|]); try done.
    rewrite Hother; [done|lia..|]. by apply slots_apart; lia.
Qed.
End one_slot.

Lemma holds_counted size maxLen b q n : shaped size maxLen b → n = len q → n <= size → slots b 0 q →
  holds size maxLen (set_count n b) q.
Proof.
  intros [] -> Hf Hq. split; [by split|done|done|]. intros k m Hk. by destruct (Hq k m Hk).
Qed.

Lemma append_spec size maxLen b q pkt ip : holds size maxLen b q → len q < size → ∃ b',
  append pkt ip b = (Ok tt, b') ∧ same b b' ∧ holds size maxLen b' (q ++ [message_of maxLen pkt ip]).
Proof.
  intros [Hs Hc Hf Hq] Hlt. pose proof (len_nonneg q). pose proof Hs as [? Hm [] ? ? ? ? Hsl].
  destruct (write_slot size maxLen b Hs (len q) ltac:(lia) maxLen pkt ip ltac:(lia)) as (p & Ep & Hb' & Hnew & Hold).
  destruct (Hsl (len q) ltac:(lia)) as ((ip' & Ha) & (n' & Hv) & _).
  exists (set_count (count b + 1) (with_slot b (len q) (Z.min maxLen (len pkt)) ip p)). split_and!.
  - unfold append, get. rewrite bind_eq, lift_bind, Hc, Hm, Ep. unfold modify. rewrite bind_eq.
    cbn [set_pkts pktLens]. rewrite lift_bind, set_index_insert by lia. rewrite bind_eq, lift_bind, Hv, lift_bind, set_index_insert by lia.
    rewrite bind_eq, lift_bind, Ha, lift_bind, set_index_insert by lia. rewrite bind_eq. unfold set_count, with_slot. cbn. by rewrite Hm, Hc.
  - done.
  - apply holds_counted; [done|lens|lia|]. intros j m Hj. apply lookup_app_Some in Hj as [Hj|[Hge Hj]].
    + pose proof (lookup_lt_Some _ _ _ Hj). destruct (Hold (Z.of_nat j) m ltac:(unfold len in *; lia) ltac:(unfold len in *; lia) (Hq j m Hj)). by split.
    + apply list_lookup_singleton_Some in Hj as [Hj <-]. replace (0 + Z.of_nat j) with (len q) by (unfold len; lia).
      unfold message_of. replace (take _ pkt) with (take (Z.to_nat (Z.min maxLen (len pkt))) pkt); [destruct Hnew; by split|].
      destruct (decide (maxLen <= len pkt)); [f_equal; lia|]. unfold len in *. rewrite !take_ge by lia. done.
Qed.

Lemma move_slot_spec size maxLen b src k m : shaped size maxLen b → 0 <= k → k < src < size → slot b src m → ∃ b',
  move_slot src k b = (Ok tt, b') ∧ same b b' ∧ shaped size maxLen b' ∧ slot b' k m ∧
  ∀ j m', 0 <= j < size → j ≠ k → slot b j m' → slot b' j m'.
Proof.
  intros Hs Hk Hsrc []. pose proof (len_nonneg (m_data m)). pose proof Hs as [? Hm [] ? ? ? ? Hsl]. rewrite Hm in *.
  destruct (Hsl src ltac:(lia)) as ((ip & Hip) & _). rewrite Hip in sl_addr0. injection sl_addr0 as Ea.
  destruct (write_slot size maxLen b Hs k ltac:(lia) (len (m_data m)) (m_data m) ip ltac:(lia)) as (p & Ep & Hb' & Hnew & Hold).
  rewrite Z.min_id in *. replace (take _ (m_data m)) with (m_data m) in Hnew by (unfold len; by rewrite Nat2Z.id, take_ge).
  destruct (Hsl k ltac:(lia)) as ((ip' & Ha) & (n' & Hv) & _).
  exists (with_slot b k (len (m_data m)) ip p). split_and!; [|done|done| |done].
  - unfold move_slot, get. rewrite bind_eq, lift_bind, sl_pktLen0, Hm, lift_bind, sl_data0, lift_bind, Ep. unfold modify. rewrite bind_eq.
    cbn [set_pkts pktLens]. rewrite lift_bind, set_index_insert by lia. rewrite bind_eq, lift_bind, Hv, lift_bind, set_index_insert by lia.
    rewrite bind_eq, lift_bind, Ha, lift_bind, Hip, lift_bind, set_index_insert by lia. unfold set_addrs, set_iovs, set_pktLens, set_pkts, with_slot. cbn. by rewrite Hm.
  - destruct m as [d a]. cbn in *. by rewrite <-Ea.
Qed.

Lemma keepUnsent_spec size maxLen b q sent : holds size maxLen b q → 0 <= sent <= len q → ∃ b',
  keepUnsent sent (len q) b = (Ok tt, b') ∧ same b b' ∧ holds size maxLen b' (drop (Z.to_nat sent) q).
Proof.
  intros [Hs Hc Hf Hq] Hsent. unfold keepUnsent. destruct (Z.eqb_spec sent 0) as [->|Hne].
  { exists (set_count (len q) b). split_and!; [done..|]. by apply holds_counted. }
  set (I k b' := same b b' ∧ shaped size maxLen b' ∧
    (∀ j m, 0 <= Z.of_nat j < k → q !! (Z.to_nat sent + j)%nat = Some m → slot b' (Z.of_nat j) m) ∧
    (∀ j m, sent + k <= Z.of_nat j → q !! j = Some m → slot b' (Z.of_nat j) m)).
  assert (wp (for_loop 0 (len q - sent) (λ k, move_slot (sent + k) k)) (λ _ b', I (len q - sent) b') (λ _ _, False) b) as Hloop.
  { apply wp_for_loop; [lia| |].
    - split; [done|]. split; [done|]. split; [lia|]. intros j m _ Hj. by apply (Hq j m).
    - intros k b1 Hk (Hsame & Hs1 & Hmoved & Hrest). assert (∃ m, q !! Z.to_nat (sent + k) = Some m) as (m & Hm).
      { apply lookup_lt_is_Some_2. unfold len in *. lia. }
      destruct (move_slot_spec size maxLen b1 (sent + k) k m Hs1) as (b2 & E & Hsame2 & Hs2 & Hnew & Hold); [lia|lia| |].
      { replace (sent + k) with (Z.of_nat (Z.to_nat (sent + k))) by lia. apply Hrest; [lia|done]. }
      eapply wp_of_eq; [exact E|]. split; [unfold same in *; intuition congruence|]. split; [done|]. split.
      + intros j m' Hj Hm'. destruct (decide (Z.of_nat j = k)) as [Ej|Hn].
        * rewrite Ej. replace (Z.to_nat sent + j)%nat with (Z.to_nat (sent + k)) in Hm' by lia. congruence.
        * apply Hold; [lia..|]. apply Hmoved; [lia|done].
      + intros j m' Hj Hm'. pose proof (lookup_lt_Some _ _ _ Hm'). apply Hold; [unfold len in *; lia|lia|]. apply Hrest; [lia|done]. }
  unfold wp in Hloop. rewrite bind_eq. destruct (for_loop _ _ _ b) as [[[]|e|c|] b1]; try done. destruct Hloop as (Hsame & Hs1 & Hmoved & _).
  exists (set_count (len q - sent) b1). split; [done|]. split; [done|]. apply holds_counted; [done|lens|lia|].
  intros j m Hj. rewrite lookup_drop in Hj. pose proof (lookup_lt_Some _ _ _ Hj). apply Hmoved; [unfold len; lia|done].
Qed.
End representation.

(** ** Refinement *)

Section refinement.
Context {W : Type} `{SendmmsgLaws W} (size maxLen f : Z).
Implicit Types (b : Batch) (q : list message) (w : W).

(** A batch and its world, and the list of messages that the batch represents. *)
Definition refines_queue (s : Batch * W) (t : list message * W) : Prop :=
  fd s.1 = f ∧ holds size maxLen s.1 t.1 ∧ s.2 = t.2.

(** A call that answers as the specification does, and stays related. *)
Definition simulates {A} (r : outcome A * (Batch * W)) (r' : outcome A * (list message * W)) : Prop :=
  r.1 = r'.1 ∧ refines_queue r.2 r'.2 ∧ ends r.1.

(** The part of the batch from [sent] on is what is still to be sent. *)
Lemma SyscallN_spec b q w sent : holds size maxLen b q → 0 <= sent <= len q →
  SyscallN sent (len q) (b, w) = (Ok (sendmmsg (fd b) (drop (Z.to_nat sent) q) w).1, (b, (sendmmsg (fd b) (drop (Z.to_nat sent) q) w).2)).
Proof.
  intros [Hs Hc Hf Hq] Hsent. unfold SyscallN. cbn [fst snd].
  replace (Z.to_nat (len q - sent)) with (length (drop (Z.to_nat sent) q)) by (rewrite length_drop; unfold len in *; lia).
  rewrite (slots_view size maxLen); [by destruct (sendmmsg _ _ _)|done|lia|lens|].
  intros k m Hk. rewrite lookup_drop in Hk. replace (sent + Z.of_nat k) with (Z.of_nat (Z.to_nat sent + k)) by lia. by apply (Hq _ m).
Qed.

Lemma Flush_loop_spec b q : holds size maxLen b q → fd b = f → ∀ fuel n sent w, 0 <= sent <= len q →
  (Z.to_nat (len q - sent) < fuel)%nat → (Z.to_nat (len q - sent) <= n)%nat →
  let r := Flush_loop fuel sent (len q) (b, w) in
  let r' := flush_spec f n (drop (Z.to_nat sent) q, w) in
  r.1 = r'.1 ∧ match r.1 with
               | Ok _ => r.2.1 = b ∧ r'.2.1 = [] ∧ r.2.2 = r'.2.2
               | Err _ => refines_queue r.2 r'.2
               | _ => False
               end.
Proof.
  intros Hh Hfd fuel. induction fuel as [|fuel IH]; intros n sent w Hsent Hfuel Hn; [lia|].
  cbn [Flush_loop]. destruct (Z.ltb_spec sent (len q)) as [Hlt|Hge]; cycle 1.
  { replace (drop _ q) with ([] : list message) by (rewrite drop_ge; [done|unfold len in *; lia]). by destruct n. }
  rewrite bind_eq, SyscallN_spec by done. rewrite Hfd.
  set (rest := drop (Z.to_nat sent) q). assert (len rest = len q - sent) as Lr by (unfold rest; lens).
  pose proof (sendmmsg_range f rest w) as Hr. destruct n as [|n]; [lia|].
  destruct rest as [|m ms] eqn:Er; [rewrite len_nil in Lr; lia|].
  cbn [flush_spec]. destruct (sendmmsg f (m :: ms) w) as [[r e] w'] eqn:Ew. cbn [fst snd] in *.
  destruct (keepUnsent_spec size maxLen b q sent Hh Hsent) as (b' & Ek & (Efd & _) & Hh').
  destruct (Z.ltb_spec (int_of r) 0); [|destruct (Z.eqb_spec (int_of r) 0)].
  1,2: rewrite bind_eq; unfold on_fst, zoom; cbn [fst snd]; rewrite Ek; cbn; split; [done|];
    split; [cbn; congruence|]; split; [|done]; cbn; by rewrite <-Er.
  replace (drop (Z.to_nat (int_of r)) (m :: ms)) with (drop (Z.to_nat (sent + int_of r)) q); [apply IH; lia|].
  rewrite <-Er. unfold rest. rewrite drop_drop. f_equal. lia.
Qed.

Lemma Flush_refines s t : refines_queue s t → simulates (Flush s) (Flush_spec f t).
Proof.
  destruct s as [b w], t as [q w']. intros (Hfd & Hh & Hw). cbn in Hfd, Hh, Hw. subst w'. unfold Flush, Flush_spec, gets. rewrite bind_eq. cbn [fst].
  rewrite (h_count _ _ _ _ Hh). destruct (Z.eqb_spec (len q) 0) as [E|Hne].
  { apply len_zero in E as ->. by split. }
  rewrite bind_eq. destruct (Flush_loop_spec b q Hh Hfd (S (Z.to_nat (len q))) (length q) 0 w
    ltac:(pose proof (len_nonneg q); lia) ltac:(lia) ltac:(unfold len; lia)) as (E1 & E2). rewrite drop_0 in E1, E2.
  destruct (Flush_loop _ 0 _ _) as [[[]|e|c|] [b1 w1]], (flush_spec f (length q) _) as [o [q2 w2]]; cbn [fst snd] in *; try done; subst o; [|by split..].
  destruct E2 as (-> & -> & ->). split; [done|]. split; [|done]. split; [done|]. split; [|done].
  apply holds_counted; [by destruct Hh|done| |by intros k m Hk]. pose proof (h_fits _ _ _ _ Hh). pose proof (len_nonneg q). lia.
Qed.

(** After a flush without error there is nothing to send. *)
Lemma flush_spec_Ok fuel : ∀ t, (flush_spec f fuel t).1 = Ok () → (flush_spec f fuel t).2.1 = [].
Proof.
  induction fuel as [|fuel IH]; intros [[|m q] w]; cbn; try done.
  destruct (sendmmsg f (m :: q) w) as [[r e] w']. destruct (int_of r <? 0); [done|]. destruct (int_of r =? 0); [done|]. apply IH.
Qed.

Lemma Add_refines s t pkt ip : 0 < size → refines_queue s t → simulates (Add pkt ip s) (Add_spec f size maxLen pkt ip t).
Proof.
  intros Hsize Hs. unfold Add, Add_spec, full, gets. rewrite !bind_eq.
  set (cond (t : list message * W) := size <=? len t.1).
  assert (∀ s t, refines_queue s t → (size =? len t.1) = cond t ∧ count s.1 = len t.1 ∧ batchSize s.1 = size) as Hcond.
  { intros s0 t0 (_ & [Hsh Hc Hf _] & _). destruct Hsh. unfold cond. split_and!; [|done|done]. lia. }
  set (first := if batchSize s.1 <=? count s.1 then _ else _).
  set (first' := if size <=? len t.1 then Flush_spec f else mret ()).
  assert (simulates (first s) (first' t) ∧ ((first s).1 = Ok () → len (first' t).2.1 < size)) as ((E1 & E2 & E3) & E4).
  { unfold first, first'. destruct (Hcond s t Hs) as (_ & -> & ->). destruct (Z.leb_spec size (len t.1)); [|by split].
    pose proof (Flush_refines s t Hs) as (F1 & F2 & F3). rewrite bind_eq.
    pose proof (flush_spec_Ok (length t.1) t) as Hempty. fold (Flush_spec f t) in Hempty. 
    destruct (Flush s) as [[[]|e|c|] s1], (Flush_spec f t) as [o t1]; cbn [fst snd] in *; try done; subst o; [|by split..].
    rewrite bind_eq. destruct (Hcond s1 t1 F2) as (_ & -> & ->). rewrite (Hempty eq_refl), len_nil.
    destruct (Z.leb_spec size 0); [lia|]. split; [by split|]. intros _. lia. }
  clearbody first first'. destruct (first s) as [[[]|e|c|] [b1 w1]], (first' t) as [o [q1 w1']]; cbn [fst snd] in *; try done; subst o; [|by split..].
  destruct E2 as (Hfd & Hh & Hw). cbn in Hfd, Hh, Hw. subst w1'. specialize (E4 eq_refl).
  destruct (append_spec size maxLen b1 q1 pkt ip Hh E4) as (b2 & Ea & (Efd & _) & Hh2).
  rewrite !bind_eq. unfold on_fst, zoom. cbn [fst snd]. rewrite Ea. unfold modify. rewrite !bind_eq. cbn [fst snd].
  assert (refines_queue (b2, w1) (q1 ++ [message_of maxLen pkt ip], w1)) as Hr by (split; [cbn; congruence|done]).
  destruct (Hcond _ _ Hr) as (Ec & Hc & Hz). unfold cond in Ec. cbn [fst] in *. rewrite <-Ec, Hc, Hz, Z.eqb_sym.
  destruct (size =? _); [by apply Flush_refines|by split].
Qed.
End refinement.

(** ** Runs *)

Inductive op : Type := OpAdd (pkt dstIP : bytes) | OpFlush.

Fixpoint run {S} (call : op → M S unit) (ops : list op) : M S (list (unit + error)) :=
  match ops with
  | [] => mret []
  | o :: ops => r ← attempt (call o); rs ← run call ops; mret (r :: rs)
  end.

Section runs.
Context {W : Type} `{SendmmsgLaws W} (size maxLen f : Z).

Definition call (o : op) : M (Batch * W) unit :=
  match o with OpAdd pkt ip => Add pkt ip | OpFlush => Flush end.
Definition call_spec (o : op) : M (list message * W) unit :=
  match o with OpAdd pkt ip => Add_spec f size maxLen pkt ip | OpFlush => Flush_spec f end.

Lemma NewBatch_ok : 0 < size → 0 < maxLen → ∃ b, NewBatch true f size maxLen = Ok (Some b) ∧ fd b = f ∧ holds size maxLen b [].
Proof using.
  intros Hs Hm. unfold NewBatch, make. cbn [negb]. destruct (Z.ltb_spec (size * maxLen) 0); [nia|]. destruct (Z.ltb_spec size 0); [lia|].
  cbn [mbind outcome_bind]. set (b0 := mkBatch _ _ _ _ _ _ _ _ _).
  set (I i b := fd b = f ∧ count b = 0 ∧ batchSize b = size ∧ maxPktLen b = maxLen ∧ pkts b = pkts b0 ∧ pktLens b = pktLens b0 ∧
    len (addrs b) = size ∧ len (iovs b) = size ∧ len (msgs b) = size ∧ ∀ j, 0 <= j < size →
      (∃ fam, index (addrs b) j = Ok (mkSockaddr fam 0 [0; 0; 0; 0] (replicate 8 0)) ∧ (j < i → fam = AF_INET)) ∧
      (∃ base, index (iovs b) j = Ok (mkIovec base 0) ∧ (j < i → base = j * maxLen)) ∧
      (∃ h, index (msgs b) j = Ok (mkMmsghdr h 0) ∧ (j < i → h = mkMsghdr j 16 j 1))).
  assert (wp (for_loop 0 size (point maxLen)) (λ _ b, I size b) (λ _ _, False) b0) as Hloop.
  { apply wp_for_loop; [lia| |].
    - unfold I. cbn. rewrite !len_replicate. split_and!; try done; try lia. intros j Hj. rewrite !index_replicate by lia.
      split_and!; (eexists; split; [done|lia]).
    - intros i b Hi (? & ? & ? & ? & Hp & ? & La & Lv & Lm & Hj). destruct (Hj i Hi) as ((fam & Ha & _) & (base & Hv & _) & (h & Hh & _)).
      eapply wp_of_eq.
      + unfold point, get, modify. rewrite bind_eq, lift_bind, Ha, lift_bind, set_index_insert by lia. rewrite bind_eq, lift_bind, Hv, lift_bind, Hp.
        cbn [b0 pkts]. rewrite index_replicate by (rewrite Z2Nat.id by nia; nia). rewrite lift_bind, set_index_insert by lia.
        rewrite bind_eq, lift_bind, Hh, lift_bind, set_index_insert by lia. reflexivity.
      + unfold I. cbn. rewrite !len_insert. split_and!; try done. intros j Hj'. destruct (Hj j Hj') as ((fam' & Ha' & ?) & (base' & Hv' & ?) & (h' & Hh' & ?)).
        rewrite !index_insert by lia. destruct (Z.eqb_spec j i) as [->|]; split_and!; eexists; (split; [done|]); intros; auto with lia. }
  unfold wp in Hloop. destruct (for_loop _ _ _ b0) as [[[]|e|c|] b]; try done. destruct Hloop as (? & ? & ? & ? & Hp & Hl & ? & ? & ? & Hj).
  exists b. split; [done|]. split; [done|]. split; [|by rewrite len_nil|rewrite len_nil; lia|by intros k m Hk].
  split; try done; rewrite ?Hp, ?Hl; cbn; rewrite ?len_replicate; try lia. intros i Hi. destruct (Hj i Hi) as ((fam & Ha & E1) & (base & Hv & E2) & (h & Hh & E3)).
  rewrite E1 in Ha by lia. rewrite E2 in Hv by lia. rewrite E3 in Hh by lia. eauto.
Qed.

Lemma run_simulates ops : 0 < size → ∀ s t, refines_queue size maxLen f s t → simulates size maxLen f (run call ops s) (run call_spec ops t).
Proof.
  intros Hsize. induction ops as [|o ops IH]; intros s t Hs; [by split|]. cbn [run]. rewrite !bind_eq. unfold attempt.
  assert (simulates size maxLen f (call o s) (call_spec o t)) as (E1 & E2 & E3).
  { destruct o; [by apply Add_refines|by apply Flush_refines]. }
  destruct (call o s) as [[r|e|c|] s1], (call_spec o t) as [o1 t1]; cbn [fst snd] in *; try done; subst o1;
    rewrite !bind_eq; destruct (IH s1 t1 E2) as (F1 & F2 & F3);
    destruct (run call ops s1) as [[rs|e'|c|] s2], (run call_spec ops t1) as [o2 t2]; cbn [fst snd] in *; try done; subst o2; by split.
Qed.

(** C15 (refinement): a batch is a queue: whatever packets are added and flushed
    and whatever the kernel answers, the arrays, slots and pointers of the batch
    give the results that the list of messages gives, ask the kernel to send the
    same messages, represent the list afterwards, and nothing panics. *)
Theorem batch_is_a_queue : 0 < size → 0 < maxLen → ∃ b, NewBatch true f size maxLen = Ok (Some b) ∧
  ∀ ops (w : W), let r := run call ops (b, w) in let r' := run call_spec ops ([], w) in
  r.1 = r'.1 ∧ ends r.1 ∧ r.2.2 = r'.2.2 ∧
  count r.2.1 = len r'.2.1 ∧ view_from r.2.1 0 (Z.to_nat (count r.2.1)) = Ok r'.2.1.
Proof.
  intros Hs Hm. destruct (NewBatch_ok Hs Hm) as (b & E & Hfd & Hb). exists b. split; [done|]. intros ops w.
  destruct (run_simulates ops Hs (b, w) ([], w)) as (E1 & (_ & Hh & Hw) & E3); [done|]. intros r r'. split_and!; [done..| |].
  - by destruct Hh.
  - by apply (holds_view size maxLen).
Qed.

(** What the calls accepted, given their results: a packet that was added without
    error, or, with an error, may have been. *)
Inductive accepts : list op → list (unit + error) → list message → Prop :=
  | acc_nil : accepts [] [] []
  | acc_Flush r ops rs ms : accepts ops rs ms → accepts (OpFlush :: ops) (r :: rs) ms
  | acc_Add pkt ip r ops rs ms : accepts ops rs ms → accepts (OpAdd pkt ip :: ops) (r :: rs) (message_of maxLen pkt ip :: ms)
  | acc_Refused pkt ip e ops rs ms : accepts ops rs ms → accepts (OpAdd pkt ip :: ops) (inr e :: rs) ms.

Lemma flush_spec_sends fuel : ∀ t : list message * W, transmitted (flush_spec f fuel t).2.2 ++ (flush_spec f fuel t).2.1 = transmitted t.2 ++ t.1.
Proof.
  induction fuel as [|fuel IH]; intros [[|m q] w]; try done. cbn [flush_spec].
  pose proof (sendmmsg_transmits f (m :: q) w) as Ht. pose proof (sendmmsg_range f (m :: q) w) as Hr.
  destruct (sendmmsg f (m :: q) w) as [[r e] w'] eqn:Ew. cbn [fst snd] in *.
  destruct (Z.ltb_spec (int_of r) 0); [|destruct (Z.eqb_spec (int_of r) 0)]; cbn [fst snd]; rewrite ?IH; cbn [fst snd]; rewrite Ht.
  - replace (Z.to_nat (int_of r)) with O by lia. by rewrite take_0, app_nil_r.
  - replace (Z.to_nat (int_of r)) with O by lia. by rewrite take_0, app_nil_r.
  - by rewrite <-app_assoc, take_drop.
Qed.

Lemma flush_spec_ends fuel : ∀ t : list message * W, (length t.1 <= fuel)%nat → ends (flush_spec f fuel t).1.
Proof.
  induction fuel as [|fuel IH]; intros [[|m q] w] Hf; try done; cbn in *; [lia|].
  pose proof (sendmmsg_range f (m :: q) w) as Hr. destruct (sendmmsg f (m :: q) w) as [[r e] w']. cbn [fst snd] in *.
  destruct (Z.ltb_spec (int_of r) 0); [done|]. destruct (Z.eqb_spec (int_of r) 0); [done|]. apply IH. cbn. rewrite length_drop. cbn. lia.
Qed.

Lemma Flush_spec_sends (t : list message * W) :
  let r := Flush_spec f t in ends r.1 ∧ transmitted r.2.2 ++ r.2.1 = transmitted t.2 ++ t.1.
Proof. split; [by apply flush_spec_ends|apply flush_spec_sends]. Qed.

Lemma Add_spec_sends pkt ip (t : list message * W) : let r := Add_spec f size maxLen pkt ip t in
  ends r.1 ∧ ∃ ms, transmitted r.2.2 ++ r.2.1 = transmitted t.2 ++ t.1 ++ ms ∧
    (ms = [message_of maxLen pkt ip] ∨ ms = [] ∧ r.1 ≠ Ok ()).
Proof.
  unfold Add_spec, full, gets, modify. rewrite !bind_eq. set (first := if size <=? len t.1 then _ else _).
  assert (ends (first t).1 ∧ transmitted (first t).2.2 ++ (first t).2.1 = transmitted t.2 ++ t.1) as (E1 & E2).
  { unfold first. destruct (size <=? len t.1); [apply Flush_spec_sends|done]. }
  destruct (first t) as [[[]|e|c|] t1]; cbn [fst snd] in *; try done; cycle 1.
  { split; [done|]. exists []. rewrite app_nil_r. split; [done|by right]. }
  rewrite !bind_eq. set (t2 := (_ ++ [message_of maxLen pkt ip], _)).
  assert (transmitted t2.2 ++ t2.1 = transmitted t.2 ++ t.1 ++ [message_of maxLen pkt ip]) as E.
  { unfold t2. cbn. by rewrite !app_assoc, E2. }
  destruct (Flush_spec_sends t2) as (F1 & F2). destruct (size <=? len t2.1); (split; [done|]); exists [message_of maxLen pkt ip];
    (split; [|by left]); [by rewrite F2|done].
Qed.

Lemma run_sends ops : ∀ t : list message * W, ∃ rs t' ms, run call_spec ops t = (Ok rs, t') ∧ accepts ops rs ms ∧
  transmitted t'.2 ++ t'.1 = transmitted t.2 ++ t.1 ++ ms.
Proof.
  induction ops as [|o ops IH]; intros t; [by exists [], t, []; rewrite app_nil_r; split_and!; [|constructor|]|].
  cbn [run]. rewrite !bind_eq. unfold attempt.
  assert (∃ ms, ends (call_spec o t).1 ∧ transmitted (call_spec o t).2.2 ++ (call_spec o t).2.1 = transmitted t.2 ++ t.1 ++ ms ∧
    ∀ r ops rs ms', ((∃ e, r = inr e) ∨ (call_spec o t).1 = Ok ()) → accepts ops rs ms' → accepts (o :: ops) (r :: rs) (ms ++ ms')) as (ms & E1 & E2 & E3).
  { destruct o as [pkt ip|].
    - destruct (Add_spec_sends pkt ip t) as (E1 & ms & E2 & E3). exists ms. split; [done|]. split; [done|].
      intros r ops' rs ms' Hr Ha. destruct E3 as [->|[-> E3]]; [by constructor|]. destruct Hr as [[e ->]|Hr]; [by constructor|done].
    - exists []. destruct (Flush_spec_sends t) as (E1 & E2). rewrite app_nil_r. split_and!; [done..|]. intros. by constructor. }
  destruct (call_spec o t) as [[[]|e|c|] t1]; cbn [fst snd] in *; try done; rewrite !bind_eq; destruct (IH t1) as (rs & t' & ms' & -> & Ha & Ht);
    do 3 eexists; (split; [done|]); (split; [apply E3; [eauto|exact Ha]|]); rewrite Ht, !app_assoc, E2; by rewrite <-!app_assoc.
Qed.

(** C16 (safety): no packet is lost, sent twice or out of order: at any time what
    the kernel has transmitted, followed by what is still in the batch, are the
    packets that were accepted, in their order, cut to the length of a slot.
    A packet that was added without error has been accepted. *)
Theorem batch_loses_nothing : 0 < size → 0 < maxLen → ∃ b, NewBatch true f size maxLen = Ok (Some b) ∧
  ∀ ops (w : W), ∃ rs b' w' accepted queued, run call ops (b, w) = (Ok rs, (b', w')) ∧
  accepts ops rs accepted ∧ view_from b' 0 (Z.to_nat (count b')) = Ok queued ∧ len queued = count b' ∧ count b' <= size ∧
  transmitted w' ++ queued = transmitted w ++ accepted.
Proof.
  intros Hs Hm. destruct (NewBatch_ok Hs Hm) as (b & E & Hfd & Hb). exists b. split; [done|]. intros ops w.
  destruct (run_simulates ops Hs (b, w) ([], w)) as (E1 & (_ & Hh & Hw) & E3); [done|].
  destruct (run_sends ops ([], w)) as (rs & [q w'] & ms & Er & Ha & Ht). rewrite Er in *. cbn [fst snd] in *.
  destruct (run call ops (b, w)) as [o [b' w1]]. cbn [fst snd] in *. subst o w1. pose proof Hh as [Hsh Hc Hf Hsl].
  exists rs, b', w', ms, q. split_and!; [done..|by apply (holds_view size maxLen)|done|lia|done].
Qed.
End runs.

(** ** A kernel that answers by a script *)

(** The numbers of messages to send, -1 for an error, then all of them; at most 1024 at a time. *)
Definition kernel : Type := list Z * list message.

Definition answer (a : Z) (ms : list message) : Z := a `min` len ms `min` 1024.

#[export] Instance kernel_Sendmmsg : Sendmmsg kernel := {
  sendmmsg _ ms k :=
    let n := answer (default 1024 (head k.1)) ms in
    if n <? 0 then ((2 ^ 64 - 1, 105), (tail k.1, k.2))
    else ((n, 0), (tail k.1, k.2 ++ take (Z.to_nat n) ms));
  transmitted k := snd k;
}.

#[export] Instance kernel_laws : SendmmsgLaws kernel.
Proof.
  split; intros f ms [answers log]; pose proof (len_nonneg ms); unfold sendmmsg; cbn [kernel_Sendmmsg fst snd];
    set (n := answer _ ms); assert (n <= len ms `min` 1024) by (unfold n, answer; lia);
    destruct (Z.ltb_spec n 0); cbn [fst snd transmitted].
  1,3: change (int_of (2 ^ 64 - 1)) with (-1); first [lia | by rewrite app_nil_r].
  1,2: unfold int_of; destruct (Z.ltb_spec n (2 ^ 63)); [|lia]; first [done | lia].
Qed.

Lemma batch_is_a_queue_witness : ∃ b, NewBatch true 3 2 4 = Ok (Some b) ∧
  let r := run call [OpAdd [1; 2] [10; 0; 0; 1]; OpAdd [3] [10; 0; 0; 2]] (b, ([1; -1] : list Z, [] : list message)) in
  let r' := run (call_spec 2 4 3) [OpAdd [1; 2] [10; 0; 0; 1]; OpAdd [3] [10; 0; 0; 2]] ([], ([1; -1], [])) in
  r.1 = r'.1 ∧ ends r.1 ∧ r.2.2 = r'.2.2 ∧
  count r.2.1 = len r'.2.1 ∧ view_from r.2.1 0 (Z.to_nat (count r.2.1)) = Ok r'.2.1.
Proof.
  destruct (batch_is_a_queue (W := kernel) 2 4 3) as (b & E & H); [lia|lia|]. exists b. split; [done|]. apply H.
Defined.

Lemma batch_loses_nothing_witness : ∃ b, NewBatch true 3 2 4 = Ok (Some b) ∧
  ∃ rs b' w' accepted queued, run call [OpAdd [1; 2] [10; 0; 0; 1]; OpFlush] (b, ([-1] : list Z, [] : list message)) = (Ok rs, (b', w')) ∧
  accepts 4 [OpAdd [1; 2] [10; 0; 0; 1]; OpFlush] rs accepted ∧ view_from b' 0 (Z.to_nat (count b')) = Ok queued ∧ len queued = count b' ∧ count b' <= 2 ∧
  transmitted w' ++ queued = transmitted (([-1], []) : kernel) ++ accepted.
Proof.
  destruct (batch_loses_nothing (W := kernel) 2 4 3) as (b & E & H); [lia|lia|]. exists b. split; [done|]. apply H.
Defined.

(** An error of [Add] does not say whether the packet is in the batch: the same
    answer comes back for a packet that was kept and for one that was not. *)
Lemma Add_error_ambiguous : ∃ b, NewBatch true 3 1 4 = Ok (Some b) ∧
  let s1 := (Add [1] [10; 0; 0; 1] (b, ([-1; -1] : list Z, [] : list message))) in
  let s2 := Add [2] [10; 0; 0; 2] s1.2 in
  s1.1 = s2.1 ∧ count s1.2.1 = 1 ∧ view_from s2.2.1 0 1 = view_from s1.2.1 0 1.
Proof. eexists. split; [vm_compute; reflexivity|]. by vm_compute. Qed.

(** [sendmmsg] returns an [int] of 32 bits. A register that holds its -1 without
    sign extension is a large positive number of messages for [int(r1)]: the
    error goes unnoticed, and the packets of the batch are lost. *)
Definition half_register : Type := list message.
#[local] Instance half_register_Sendmmsg : Sendmmsg half_register := {
  sendmmsg _ ms k := ((2 ^ 32 - 1, 105), k);
  transmitted k := k;
}.
Lemma Flush_loses_all : ∃ b, NewBatch true 3 2 4 = Ok (Some b) ∧
  let s := (_ ← Add [1] [10; 0; 0; 1]; Flush) (b, [] : half_register) in
  s.1 = Ok () ∧ count s.2.1 = 0 ∧ transmitted s.2.2 = [].
Proof. eexists. split; [vm_compute; reflexivity|]. by vm_compute. Qed.
