(* ===== verification/Routing.v ===== *)
(** * Routing ([routing/routing.go])

    The table of routes that [New] makes of the kernel's answer, and the choice of
    a route. The bytes of the answer and the interfaces are what the system calls
    returned; [net.IP], [net.IPNet] and [net.CIDRMask], and the parsing of netlink
    messages by [syscall], are modelled here. A nil slice is [None]. [sort.Sort] is a
    parameter, as is the order in which Go goes through a map. *)

From stdpp Require Import sorting.
From S2P Require Import Prelude.

(** ** [net] *)

Abbreviation IP := (option bytes).

(** The length of a slice that may be nil. *)
Definition olen (ip : IP) : Z := from_option len 0 ip.

Definition v4InV6Prefix : bytes := replicate 10 0 ++ [255; 255].

Definition To4 (ip : IP) : IP :=
  b ← ip;
  if len b =? 4 then Some b
  else if (len b =? 16) && bool_decide (take 12 b = v4InV6Prefix) then Some (drop 12 b)
  else None.

Definition To16 (ip : IP) : IP :=
  b ← ip;
  if len b =? 4 then Some (v4InV6Prefix ++ b) else if len b =? 16 then Some b else None.

Record IPNet : Type := mkIPNet { net_IP : IP; net_Mask : IP }.

Fixpoint cidr_bytes (l : nat) (n : Z) : bytes :=
  match l with
  | O => []
  | S l => if 8 <=? n then 255 :: cidr_bytes l (n - 8) else Z.lxor 255 (Z.shiftr 255 n) :: cidr_bytes l 0
  end.

Definition CIDRMask (ones bits : Z) : IP :=
  if negb (bits =? 32) && negb (bits =? 128) then None
  else if (ones <? 0) || (bits <? ones) then None
  else Some (cidr_bytes (Z.to_nat (bits / 8)) ones).

Definition networkNumberAndMask (n : IPNet) : IP * IP :=
  let ip := match To4 (net_IP n) with Some b => Some b | None => net_IP n end in
  if (match To4 (net_IP n) with Some _ => false | None => true end) && negb (olen ip =? 16) then (None, None)
  else
    let m := net_Mask n in
    if olen m =? 4 then if olen ip =? 4 then (ip, m) else (None, None)
    else if olen m =? 16 then if olen ip =? 4 then (ip, drop 12 <$> m) else (ip, m)
    else (None, None).

Fixpoint masked_equal (nn m ip : bytes) : bool :=
  match nn, m, ip with
  | a :: nn, k :: m, b :: ip => (Z.land a k =? Z.land b k) && masked_equal nn m ip
  | _, _, _ => true
  end.

Definition Contains (n : IPNet) (ip : IP) : bool :=
  match networkNumberAndMask n with
  | (nn, m) =>
      let ip := match To4 ip with Some x => Some x | None => ip end in
      if negb (olen ip =? olen nn) then false
      else masked_equal (default [] nn) (default [] m) (default [] ip)
  end.

Record Interface : Type := mkInterface { if_Index : Z; if_HardwareAddr : bytes }.
(** [net.Addr]: an [*net.IPNet] with its address, or something else. *)
Inductive NetAddr : Type := AddrIPNet (ip : IP) | AddrOther.

(** ** Data *)

Record rtInfo : Type := mkRtInfo {
  Src : option IPNet; Dst : option IPNet;
  Gateway : IP; PrefSrc : IP;
  InputIface : Z; OutputIface : Z; Priority : Z;
}.

Record ipAddrs : Type := mkIpAddrs { ia_v4 : IP; ia_v6 : IP }.

Record router : Type := mkRouter {
  ifaces : gmap Z Interface;
  addrs : gmap Z ipAddrs;
  r_v4 : list rtInfo;
  r_v6 : list rtInfo;
}.

(** ** Choosing a route *)

Definition no_route : error := errors_New "no route found for %v".

Section routing.
(** The order of [range] over a map. *)
Context (range : gmap Z Interface → list (Z * Interface)).

Definition inputIndex (r : router) (input : option bytes) : Z :=
  match input with
  | None => 0
  | Some hw =>
      match find (fun p => bool_decide (hw = if_HardwareAddr p.2)) (range (ifaces r)) with
      | Some p => u32 p.1
      | None => 0
      end
  end.

Definition contains (n : option IPNet) (ip : IP) : bool :=
  match n with None => true | Some n => Contains n ip end.

Fixpoint route_loop (routes : list rtInfo) (index : Z) (src dst : IP) (defaultGateway : option rtInfo) : option rtInfo :=
  match routes with
  | [] => defaultGateway
  | rt :: routes =>
      if negb (InputIface rt =? 0) && negb (InputIface rt =? index) then route_loop routes index src dst defaultGateway
      else match Src rt, Dst rt with
      | None, None => route_loop routes index src dst (Some rt)
      | _, _ =>
          if negb (contains (Src rt) src) then route_loop routes index src dst defaultGateway
          else if negb (contains (Dst rt) dst) then route_loop routes index src dst defaultGateway
          else Some rt
      end
  end.

Definition route (r : router) (routes : list rtInfo) (input : option bytes) (src dst : IP) : outcome (Z * IP * IP) :=
  match route_loop routes (inputIndex r input) src dst None with
  | Some rt => Ok (OutputIface rt, Gateway rt, PrefSrc rt)
  | None => Err no_route
  end.

Definition RouteWithSrc (r : router) (input : option bytes) (src dst : IP) : outcome (option Interface * IP * IP) :=
  '(ifaceIndex, gateway, preferredSrc) ←
    match To4 dst, To16 dst with
    | Some _, _ => route r (r_v4 r) input src dst
    | None, Some _ => route r (r_v6 r) input src dst
    | None, None => Err (errors_New "IP is not valid as IPv4 or IPv6")
    end;
  let a := default (mkIpAddrs None None) (addrs r !! ifaceIndex) in
  let preferredSrc :=
    match preferredSrc with
    | Some _ => preferredSrc
    | None => match To4 dst with Some _ => ia_v4 a | None => ia_v6 a end
    end in
  mret (ifaces r !! ifaceIndex, gateway, preferredSrc).

Definition Route (r : router) (dst : IP) : outcome (option Interface * IP * IP) := RouteWithSrc r None None dst.
End routing.

(** ** Netlink messages ([syscall]) *)

Record NetlinkMessage : Type := mkNetlinkMessage { nm_Type : Z; nm_Data : bytes }.
Record NetlinkRouteAttr : Type := mkRouteAttr { ra_Type : Z; ra_Value : bytes }.

Definition NLMSG_HDRLEN : Z := 16.
Definition SizeofRtMsg : Z := 12.
Definition SizeofRtAttr : Z := 4.
Definition EINVAL : error := errors_New "invalid argument".

(** [nlmAlignOf] and [rtaAlignOf] *)
Definition align4 (n : Z) : Z := Z.land (n + 3) (Z.lnot 3).

Fixpoint parse_messages (fuel : nat) (b : bytes) : outcome (list NetlinkMessage) :=
  match fuel with
  | O => NoFuel
  | S fuel =>
      if len b <? NLMSG_HDRLEN then mret []
      else
        n ← LE_Uint32 b;
        type ← (slice_from b 4 ≫= LE_Uint16);
        if (n <? NLMSG_HDRLEN) || (len b <? align4 n) then Err EINVAL
        else
          data ← slice b NLMSG_HDRLEN n;
          rest ← slice_from b (align4 n);
          msgs ← parse_messages fuel rest;
          mret (mkNetlinkMessage type data :: msgs)
  end.
Definition ParseNetlinkMessage (b : bytes) : outcome (list NetlinkMessage) := parse_messages (S (length b)) b.

Fixpoint parse_attrs (fuel : nat) (b : bytes) : outcome (list NetlinkRouteAttr) :=
  match fuel with
  | O => NoFuel
  | S fuel =>
      if len b <? SizeofRtAttr then mret []
      else
        n ← LE_Uint16 b;
        type ← (slice_from b 2 ≫= LE_Uint16);
        if (n <? SizeofRtAttr) || (len b <? n) then Err EINVAL
        else
          value ← slice b SizeofRtAttr n;
          rest ← slice_from b (align4 n);
          attrs ← parse_attrs fuel rest;
          mret (mkRouteAttr type value :: attrs)
  end.
(** Of a message of type [RTM_NEWROUTE]. *)
Definition ParseNetlinkRouteAttr (m : NetlinkMessage) : outcome (list NetlinkRouteAttr) :=
  b ← slice_from (nm_Data m) SizeofRtMsg; parse_attrs (S (length b)) b.

(** ** Making the table *)

Definition NLMSG_DONE : Z := 3.
Definition RTM_NEWROUTE : Z := 24.
Definition AF_INET : Z := 2.
Definition AF_INET6 : Z := 10.

Definition zero_rtInfo : rtInfo := mkRtInfo None None None None 0 0 0.

(** [*( *uint32)(unsafe.Pointer(&attr.Value[0]))]; a value has the four bytes. *)
Definition uint32_at (v : bytes) : outcome Z := LE_Uint32 v.

Definition set_attr (DstLen SrcLen : Z) (ri : rtInfo) (attr : NetlinkRouteAttr) : outcome rtInfo :=
  let v := ra_Value attr in
  let cidr n := Some (mkIPNet (Some v) (CIDRMask n (len v * 8))) in
  if ra_Type attr =? 1 then
    mret (mkRtInfo (Src ri) (cidr DstLen) (Gateway ri) (PrefSrc ri) (InputIface ri) (OutputIface ri) (Priority ri))
  else if ra_Type attr =? 2 then
    mret (mkRtInfo (cidr SrcLen) (Dst ri) (Gateway ri) (PrefSrc ri) (InputIface ri) (OutputIface ri) (Priority ri))
  else if ra_Type attr =? 5 then
    mret (mkRtInfo (Src ri) (Dst ri) (Some v) (PrefSrc ri) (InputIface ri) (OutputIface ri) (Priority ri))
  else if ra_Type attr =? 7 then
    mret (mkRtInfo (Src ri) (Dst ri) (Gateway ri) (Some v) (InputIface ri) (OutputIface ri) (Priority ri))
  else if ra_Type attr =? 3 then
    i ← uint32_at v; mret (mkRtInfo (Src ri) (Dst ri) (Gateway ri) (PrefSrc ri) i (OutputIface ri) (Priority ri))
  else if ra_Type attr =? 4 then
    i ← uint32_at v; mret (mkRtInfo (Src ri) (Dst ri) (Gateway ri) (PrefSrc ri) (InputIface ri) i (Priority ri))
  else if ra_Type attr =? 6 then
    i ← uint32_at v; mret (mkRtInfo (Src ri) (Dst ri) (Gateway ri) (PrefSrc ri) (InputIface ri) (OutputIface ri) i)
  else mret ri.

Fixpoint set_attrs (DstLen SrcLen : Z) (ri : rtInfo) (attrs : list NetlinkRouteAttr) : outcome rtInfo :=
  match attrs with
  | [] => mret ri
  | a :: attrs => ri ← set_attr DstLen SrcLen ri a; set_attrs DstLen SrcLen ri attrs
  end.

(** The addresses of one interface. *)
Fixpoint iface_addrs (l : list NetAddr) (a : ipAddrs) : ipAddrs :=
  match l with
  | [] => a
  | AddrIPNet ip :: l =>
      match To4 ip with
      | Some v4 => iface_addrs l (match ia_v4 a with None => mkIpAddrs (Some v4) (ia_v6 a) | Some _ => a end)
      | None => iface_addrs l (match ia_v6 a with None => mkIpAddrs (ia_v4 a) ip | Some _ => a end)
      end
  | AddrOther :: l => iface_addrs l a
  end.

Fixpoint message_loop (msgs : list NetlinkMessage) (v4 v6 : list rtInfo) : outcome (list rtInfo * list rtInfo) :=
  match msgs with
  | [] => mret (v4, v6)
  | m :: msgs =>
      if nm_Type m =? NLMSG_DONE then mret (v4, v6)
      else if nm_Type m =? RTM_NEWROUTE then
        Family ← index (nm_Data m) 0;
        attrs ← ParseNetlinkRouteAttr m;
        DstLen ← index (nm_Data m) 1;
        SrcLen ← index (nm_Data m) 2;
        if Family =? AF_INET then ri ← set_attrs DstLen SrcLen zero_rtInfo attrs; message_loop msgs (v4 ++ [ri]) v6
        else if Family =? AF_INET6 then ri ← set_attrs DstLen SrcLen zero_rtInfo attrs; message_loop msgs v4 (v6 ++ [ri])
        else message_loop msgs v4 v6
      else message_loop msgs v4 v6
  end.

Fixpoint iface_loop (l : list (Interface * outcome (list NetAddr))) (ifs : gmap Z Interface) (ads : gmap Z ipAddrs) :
  outcome (gmap Z Interface * gmap Z ipAddrs) :=
  match l with
  | [] => mret (ifs, ads)
  | (i, addrs) :: l =>
      let ifs := <[if_Index i := i]> ifs in
      ifaceAddrs ← addrs;
      iface_loop l ifs (<[if_Index i := iface_addrs ifaceAddrs (mkIpAddrs None None)]> ads)
  end.

(** [NetlinkRIB] gave [tab], [net.Interfaces] gave [interfaces]. *)
Definition New (sort_Sort : list rtInfo → list rtInfo) (tab : outcome bytes)
    (interfaces : outcome (list (Interface * outcome (list NetAddr)))) : outcome router :=
  tab ← tab;
  msgs ← ParseNetlinkMessage tab;
  '(v4, v6) ← message_loop msgs [] [];
  let v4 := sort_Sort v4 in
  let v6 := sort_Sort v6 in
  l ← interfaces;
  '(ifs, ads) ← iface_loop l ∅ ∅;
  mret (mkRouter ifs ads v4 v6).
