(* ===== verification/RoutingCorrect.v ===== *)
(** * The routes that are chosen

    What [rtnetlink(7)] says of the bytes in which the kernel describes its routes,
    and the proof that a router made of them chooses a route that the kernel named. *)

From stdpp Require Import sorting.
From S2P Require Import Prelude Routing.

(** ** Prefixes *)

(** The number that the bytes of an address are. *)
Fixpoint be_value (l : bytes) : Z :=
  match l with
  | [] => 0
  | b :: l => b * 256 ^ len l + be_value l
  end.

Lemma be_value_range l : is_bytes l → 0 <= be_value l < 256 ^ len l.
Proof.
  induction 1 as [|b l Hb _ IH]; [change (0 <= 0 < 1); lia|]. cbn [be_value]. rewrite len_cons. unfold is_byte in Hb. pose proof (len_nonneg l).
  replace (256 ^ (1 + len l)) with (256 * 256 ^ len l) by (rewrite Z.pow_add_r by lia; lia). nia.
Qed.

(** The first [n] bits of a value of [8 * l] bits. *)
Definition prefix (n : Z) (l : bytes) : Z := be_value l / 2 ^ (8 * len l - n).

Lemma pow256 n : 0 <= n → 256 ^ n = 2 ^ (8 * n).
Proof. intros Hn. change 256 with (2 ^ 8). by rewrite <-Z.pow_mul_r by lia. Qed.

Lemma prefix_cons_high n a l : is_bytes (a :: l) → 8 <= n <= 8 * len (a :: l) →
  prefix n (a :: l) = a * 2 ^ (n - 8) + prefix (n - 8) l ∧ 0 <= prefix (n - 8) l < 2 ^ (n - 8).
Proof.
  intros Hb Hn. apply is_bytes_cons in Hb as [Ha Hl]. pose proof (be_value_range l Hl) as Hr. rewrite len_cons in Hn. pose proof (len_nonneg l).
  rewrite pow256 in Hr by lia. unfold prefix. cbn [be_value]. rewrite len_cons, pow256 by lia.
  replace (8 * (1 + len l) - n) with (8 * len l - (n - 8)) by lia.
  replace (8 * len l) with ((n - 8) + (8 * len l - (n - 8))) at 1 by lia. set (e := 8 * len l - (n - 8)).
  assert (0 < 2 ^ e) by (apply Z.pow_pos_nonneg; lia). split.
  - rewrite Z.pow_add_r, Z.mul_assoc, Z.div_add_l by lia. done.
  - split; [apply Z.div_pos; lia|]. apply Z.div_lt_upper_bound; [done|]. rewrite <-Z.pow_add_r by lia.
    replace (e + (n - 8)) with (8 * len l) by lia. lia.
Qed.

Lemma prefix_cons_low n a l : is_bytes (a :: l) → 0 <= n < 8 → prefix n (a :: l) = a / 2 ^ (8 - n).
Proof.
  intros Hb Hn. apply is_bytes_cons in Hb as [Ha Hl]. pose proof (be_value_range l Hl) as Hr. pose proof (len_nonneg l).
  rewrite pow256 in Hr by lia. unfold prefix. cbn [be_value]. rewrite len_cons, pow256 by lia.
  replace (8 * (1 + len l) - n) with (8 * len l + (8 - n)) by lia.
  assert (0 < 2 ^ (8 * len l)) by (apply Z.pow_pos_nonneg; lia). assert (0 < 2 ^ (8 - n)) by (apply Z.pow_pos_nonneg; lia).
  rewrite Z.pow_add_r, <-Z.div_div, Z.div_add_l by lia. by rewrite (Z.div_small (be_value l)), Z.add_0_r by lia.
Qed.

(** A mask of the first [n] bits of a byte. *)
Lemma land_high n a b : 0 <= n < 8 → is_byte a → is_byte b →
  Z.land a (Z.lxor 255 (Z.shiftr 255 n)) = Z.land b (Z.lxor 255 (Z.shiftr 255 n)) ↔ a / 2 ^ (8 - n) = b / 2 ^ (8 - n).
Proof.
  intros Hn Ha Hb. assert (∀ c, is_byte c → Z.land c (Z.lxor 255 (Z.shiftr 255 n)) = c / 2 ^ (8 - n) * 2 ^ (8 - n)) as E.
  { intros c Hc. assert (n ∈ seqZ 0 8) as Hin by (apply elem_of_seqZ; lia).
    apply Z.eqb_eq. revert c Hc. apply byte_decide. revert n Hn Hin.
    assert (Forall (fun n => all_bytes (fun c => Z.land c (Z.lxor 255 (Z.shiftr 255 n)) =? c / 2 ^ (8 - n) * 2 ^ (8 - n)) = true) (seqZ 0 8)) as F
      by (repeat constructor).
    intros n _ Hin. by apply (proj1 (Forall_forall _ _) F). }
  rewrite !E by done. assert (0 < 2 ^ (8 - n)) by (apply Z.pow_pos_nonneg; lia). nia.
Qed.

Lemma masked_zero l : ∀ x y, masked_equal x (cidr_bytes l 0) y = true.
Proof.
  induction l as [|l IH]; intros [|a x] y; cbn [cidr_bytes masked_equal]; try done. change (8 <=? 0) with false. cbn iota.
  destruct y as [|b y]; [done|]. change (Z.lxor 255 (Z.shiftr 255 0)) with 0. rewrite !Z.land_0_r, IH. done.
Qed.

Lemma masked_prefix x : ∀ y n, is_bytes x → is_bytes y → length x = length y → 0 <= n <= 8 * len x →
  masked_equal x (cidr_bytes (length x) n) y = true ↔ prefix n x = prefix n y.
Proof.
  induction x as [|a x IH]; intros [|b y] n Hx Hy Hl Hn; try done. cbn [length cidr_bytes].
  pose proof Hx as [Ha Hx']%is_bytes_cons. pose proof Hy as [Hb Hy']%is_bytes_cons. injection Hl as Hl.
  assert (len (b :: y) = len (a :: x)) as El by (rewrite !len_cons; unfold len; lia).
  destruct (Z.leb_spec 8 n); cbn [masked_equal]; rewrite andb_true_iff, Z.eqb_eq.
  - rewrite len_cons in Hn. rewrite IH by (done || lia).
    destruct (prefix_cons_high n a x Hx) as (-> & ?); [rewrite len_cons; lia|].
    destruct (prefix_cons_high n b y Hy) as (-> & ?); [rewrite El, len_cons; lia|].
    assert (∀ c, is_byte c → Z.land c 255 = c) as E. { intros c Hc. change 255 with (Z.ones 8). rewrite land_low by lia. apply Z.mod_small. done. }
    rewrite !E by done. split; [by intros [-> ->]|]. generalize dependent (2 ^ (n - 8)).
    intros P ? ? Heq. apply (Z.div_mod_unique P); lia.
  - rewrite masked_zero, (prefix_cons_low n a x), (prefix_cons_low n b y) by (done || lia). rewrite (land_high n) by (done || lia). naive_solver.
Qed.

(** ** Networks *)

(** An address in its shortest form. *)
Definition short (b : bytes) : bytes := default b (To4 (Some b)).

(** The addresses of the network of the first [n] bits of [v]; an IPv4-mapped
    network is one of IPv4. *)
Definition inside (n : Z) (v b : bytes) : Prop :=
  len (short v) = len (short b) ∧
  let m := n - 8 * (len v - len (short v)) in prefix m (short v) = prefix m (short b).

Lemma cidr_drop l : ∀ k n, 8 * Z.of_nat k <= n → drop k (cidr_bytes (k + l) n) = cidr_bytes l (n - 8 * Z.of_nat k).
Proof.
  induction k as [|k IH]; intros n Hn; [change (Z.of_nat 0) with 0; by rewrite Z.mul_0_r, Z.sub_0_r|]. rewrite Nat.add_succ_l. cbn [cidr_bytes drop].
  destruct (Z.leb_spec 8 n); [|lia]. cbn [drop]. rewrite IH by lia. f_equal. lia.
Qed.

Lemma cidr_len l : ∀ n, length (cidr_bytes l n) = l.
Proof. induction l as [|l IH]; intros n; cbn; [done|]. destruct (8 <=? n); cbn; by rewrite IH. Qed.

Lemma short_cases b : len b = 16 ∧ len (short b) = 4 ∧ To4 (Some b) = Some (short b) ∨
  short b = b ∧ (To4 (Some b) = None ∨ len b = 4 ∧ To4 (Some b) = Some b).
Proof.
  unfold short, To4. cbn [mbind option_bind]. destruct (Z.eqb_spec (len b) 4); [by right; split; [|right]|].
  destruct (Z.eqb_spec (len b) 16); cbn [andb]; [|right; split; [done|by left]].
  case_bool_decide; [left|right; split; [done|by left]]. cbn. split_and!; try done. unfold len in *. rewrite length_drop. lia.
Qed.

Lemma short_bytes b : is_bytes b → is_bytes (short b).
Proof.
  intros Hb. unfold short, To4. cbn [mbind option_bind]. destruct (len b =? 4); [done|]. destruct (_ && _); [|done]. by apply is_bytes_drop.
Qed.

Lemma To4_or b : match To4 (Some b) with Some x => Some x | None => Some b end = Some (short b).
Proof. unfold short. by destruct (To4 (Some b)). Qed.

Lemma network_of n v : len v = 4 ∨ len v = 16 → 0 <= n <= 8 * len v → 8 * (len v - len (short v)) <= n →
  networkNumberAndMask (mkIPNet (Some v) (CIDRMask n (len v * 8))) =
    (Some (short v), Some (cidr_bytes (length (short v)) (n - 8 * (len v - len (short v))))).
Proof.
  intros Hl Hn Hm. assert (CIDRMask n (len v * 8) = Some (cidr_bytes (length v) n)) as ->.
  { unfold CIDRMask. replace (len v * 8 / 8) with (len v) by zdiv. replace (Z.to_nat (len v)) with (length v) by (unfold len; lia).
    destruct (Z.ltb_spec n 0); [lia|]. destruct (Z.ltb_spec (len v * 8) n); [lia|]. by destruct Hl as [-> | ->]. }
  unfold networkNumberAndMask. cbn [net_IP net_Mask]. rewrite To4_or. unfold olen. cbn [from_option].
  assert (len (cidr_bytes (length v) n) = len v) as -> by (unfold len; by rewrite cidr_len).
  destruct (short_cases v) as [(H16 & H4 & ->)|(Hs & [H|[H4 H]])]; cbn [andb].
  - rewrite H16, H4. cbn [Z.eqb Pos.eqb fmap option_fmap option_map]. do 3 f_equal.
    replace (length v) with (12 + 4)%nat by (unfold len in *; lia). rewrite (cidr_drop 4 12) by lia. f_equal; unfold len in *; lia.
  - rewrite Hs, H. assert (len v = 16) as ->.
    { destruct Hl as [Hl|?]; [|done]. unfold To4 in H. cbn [mbind option_bind] in H. by rewrite Hl in H. }
    cbn [Z.eqb Pos.eqb negb]. do 3 f_equal. lia.
  - rewrite Hs, H, H4. cbn [Z.eqb Pos.eqb]. do 3 f_equal. lia.
Qed.

(** [Contains] of an address that is there. *)
Lemma Contains_inside n v b : is_bytes v → len v = 4 ∨ len v = 16 → 0 <= n <= 8 * len v → 8 * (len v - len (short v)) <= n →
  is_bytes b → Contains (mkIPNet (Some v) (CIDRMask n (len v * 8))) (Some b) = true ↔ inside n v b.
Proof.
  intros Hv Hl Hn Hm Hb. unfold inside, Contains. rewrite network_of, To4_or by done. unfold olen. cbn [from_option id].
  destruct (Z.eqb_spec (len (short b)) (len (short v))) as [E|E]; cbn [negb]; [|split; [done|intros [? _]; congruence]].
  rewrite masked_prefix; [by split; [|intros [_ ?]]| | | |].
  - by apply short_bytes.
  - by apply short_bytes.
  - unfold len in E. lia.
  - lia.
Qed.

(** ... and of none. *)
Lemma Contains_nil n v : len v = 4 ∨ len v = 16 → 0 <= n <= 8 * len v → 8 * (len v - len (short v)) <= n →
  Contains (mkIPNet (Some v) (CIDRMask n (len v * 8))) None = false.
Proof.
  intros Hl Hn Hm. unfold Contains. rewrite network_of by done. unfold olen. cbn [from_option To4 mbind option_bind].
  destruct (Z.eqb_spec 0 (len (short v))) as [E|]; [|done].
  destruct (short_cases v) as [(? & ? & _)|(Hs & _)]; [lia|]. rewrite Hs in E. lia.
Qed.

(** ** The route that is chosen *)

Definition usable (index : Z) (rt : rtInfo) : bool := (InputIface rt =? 0) || (InputIface rt =? index).
Definition is_default (rt : rtInfo) : bool := match Src rt, Dst rt with None, None => true | _, _ => false end.
(** A route for all addresses, and one whose prefixes hold the addresses. *)
Definition gateway (index : Z) (rt : rtInfo) : bool := usable index rt && is_default rt.
Definition specific (index : Z) (src dst : IP) (rt : rtInfo) : bool :=
  usable index rt && negb (is_default rt) && contains (Src rt) src && contains (Dst rt) dst.

(** The route that [routes] give for [src] and [dst]: of those with a prefix, one of
    least priority; without any, of the gateways the one of greatest priority. *)
Definition chosen (index : Z) (src dst : IP) (routes : list rtInfo) (rt : rtInfo) : Prop :=
  rt ∈ routes ∧
  (specific index src dst rt = true ∧ (∀ rt', rt' ∈ routes → specific index src dst rt' = true → Priority rt <= Priority rt') ∨
   (∀ rt', rt' ∈ routes → specific index src dst rt' = false) ∧ gateway index rt = true ∧
   (∀ rt', rt' ∈ routes → gateway index rt' = true → Priority rt' <= Priority rt)).

Definition by_priority (r1 r2 : rtInfo) : Prop := Priority r1 <= Priority r2.
#[export] Instance by_priority_dec : RelDecision by_priority := fun r1 r2 => Z_le_dec (Priority r1) (Priority r2).
#[export] Instance by_priority_trans : Transitive by_priority.
Proof. intros x y z. unfold by_priority. lia. Qed.
#[export] Instance by_priority_total : Total by_priority.
Proof. intros x y. unfold by_priority. lia. Qed.

Lemma route_loop_step rt routes index src dst d : route_loop (rt :: routes) index src dst d =
  if specific index src dst rt then Some rt
  else route_loop routes index src dst (if gateway index rt then Some rt else d).
Proof.
  cbn [route_loop]. unfold specific, gateway, usable, is_default, contains.
  destruct (InputIface rt =? 0), (InputIface rt =? index), (Src rt) as [s|], (Dst rt) as [n|]; cbn [negb andb orb]; try done;
    try destruct (Contains s src); try destruct (Contains n dst); done.
Qed.

Lemma route_loop_spec routes index src dst : StronglySorted by_priority routes → ∀ d,
  match route_loop routes index src dst d with
  | Some rt => chosen index src dst routes rt ∨
      d = Some rt ∧ ∀ rt', rt' ∈ routes → specific index src dst rt' = false ∧ gateway index rt' = false
  | None => d = None ∧ ∀ rt', rt' ∈ routes → specific index src dst rt' = false ∧ gateway index rt' = false
  end.
Proof.
  induction 1 as [|rt routes Hs IH Hle]; intros d.
  { cbn. destruct d as [rt|]; [right|]; (split; [done|]); intros rt' ?%elem_of_nil; done. }
  rewrite Forall_forall in Hle. rewrite route_loop_step. destruct (specific index src dst rt) eqn:E.
  { left. split; [by left|]. left. split; [done|]. intros rt' [->|Hin]%elem_of_cons _; [done|]. by apply Hle. }
  specialize (IH (if gateway index rt then Some rt else d)). destruct (route_loop routes _ _ _ _) as [rt1|].
  - destruct IH as [[Hin [[Hsp Hmin]|(Hno & Hg & Hmax)]]|[Hd Hno]].
    + left. split; [by right|]. left. split; [done|]. intros rt' [->|Hin']%elem_of_cons Hsp'; [congruence|auto].
    + left. split; [by right|]. right. split; [by intros rt' [->|Hin']%elem_of_cons; auto|]. split; [done|].
      intros rt' [->|Hin']%elem_of_cons Hg'; [by apply Hle|auto].
    + destruct (gateway index rt) eqn:G.
      * injection Hd as ->. left. split; [by left|]. right. split; [by intros rt' [->|Hin']%elem_of_cons; naive_solver|].
        split; [done|]. intros rt' [->|Hin']%elem_of_cons Hg'; [done|]. destruct (Hno rt' Hin'). congruence.
      * right. split; [done|]. intros rt' [->|Hin']%elem_of_cons; auto.
  - destruct IH as [Hd Hno]. destruct (gateway index rt) eqn:G; [done|]. split; [done|]. intros rt' [->|Hin']%elem_of_cons; auto.
Qed.

Section choice.
Context (range : gmap Z Interface → list (Z * Interface)).
Context (sort_Sort : list rtInfo → list rtInfo).
Context (sort_perm : ∀ l, sort_Sort l ≡ₚ l) (sort_sorted : ∀ l, StronglySorted by_priority (sort_Sort l)).

Lemma route_sorted r routes input src dst :
  match route range r (sort_Sort routes) input src dst with
  | Ok (i, gw, pref) => ∃ rt, chosen (inputIndex range r input) src dst routes rt ∧
      i = OutputIface rt ∧ gw = Gateway rt ∧ pref = PrefSrc rt
  | Err _ => ∀ rt, rt ∈ routes → specific (inputIndex range r input) src dst rt = false ∧ gateway (inputIndex range r input) rt = false
  | _ => False
  end.
Proof using sort_perm sort_sorted.
  unfold route. pose proof (route_loop_spec (sort_Sort routes) (inputIndex range r input) src dst (sort_sorted routes) None) as H.
  destruct (route_loop _ _ _ _ _) as [rt|].
  - destruct H as [H|[? _]]; [|done]. exists rt. split; [|done]. unfold chosen in *. by setoid_rewrite sort_perm in H.
  - destruct H as [_ H]. by setoid_rewrite sort_perm in H.
Qed.

End choice.

(** ** What the kernel says

    The attributes of a route and their numbers, as [rtnetlink(7)] lists them. *)

Inductive attribute : Type :=
  | RTA_DST (address : bytes)
  | RTA_SRC (address : bytes)
  | RTA_IIF (interface : Z)
  | RTA_OIF (interface : Z)
  | RTA_GATEWAY (address : bytes)
  | RTA_PRIORITY (priority : Z)
  | RTA_PREFSRC (address : bytes)
  | RTA_other (type : Z) (value : bytes).

Definition attr_type (a : attribute) : Z :=
  match a with
  | RTA_DST _ => 1 | RTA_SRC _ => 2 | RTA_IIF _ => 3 | RTA_OIF _ => 4
  | RTA_GATEWAY _ => 5 | RTA_PRIORITY _ => 6 | RTA_PREFSRC _ => 7 | RTA_other t _ => t
  end.
Definition attr_value (a : attribute) : bytes :=
  match a with
  | RTA_DST v | RTA_SRC v | RTA_GATEWAY v | RTA_PREFSRC v | RTA_other _ v => v
  | RTA_IIF i | RTA_OIF i | RTA_PRIORITY i => le32 i
  end.

(** [struct rtmsg]: of the fields behind the lengths of the prefixes nothing is said. *)
Record kernel_route : Type := mkRoute {
  family : Z;
  dst_len : Z;
  src_len : Z;
  other_fields : bytes;
  attributes : list attribute;
}.

Definition latest {A} (l : list attribute) (f : attribute → option A) : option A := last (omap f l).
Definition select {A} (f : attribute → option A) (k : kernel_route) : option A := latest (attributes k) f.
Definition destination := select (fun a => match a with RTA_DST v => Some v | _ => None end).
Definition origin := select (fun a => match a with RTA_SRC v => Some v | _ => None end).
Definition via := select (fun a => match a with RTA_GATEWAY v => Some v | _ => None end).
Definition preferred := select (fun a => match a with RTA_PREFSRC v => Some v | _ => None end).
Definition incoming k : Z := default 0 (select (fun a => match a with RTA_IIF i => Some i | _ => None end) k).
Definition outgoing k : Z := default 0 (select (fun a => match a with RTA_OIF i => Some i | _ => None end) k).
Definition priority k : Z := default 0 (select (fun a => match a with RTA_PRIORITY i => Some i | _ => None end) k).

(** Messages: a header of the length of the whole, the type, and ten bytes more. *)
Inductive message_body : Type :=
  | NewRoute (k : kernel_route)
  | Done (data : bytes)
  | OtherMessage (type : Z) (data : bytes).
Record message : Type := mkMessage { flags_and_ids : bytes; body : message_body }.

Definition zeros_to_4 (n : Z) : bytes := replicate (Z.to_nat (- n mod 4)) 0.
Definition attr_bytes (a : attribute) : bytes :=
  let n := 4 + len (attr_value a) in le16 n ++ le16 (attr_type a) ++ attr_value a ++ zeros_to_4 n.
Definition body_type (b : message_body) : Z :=
  match b with NewRoute _ => 24 | Done _ => 3 | OtherMessage t _ => t end.
Definition body_bytes (b : message_body) : bytes :=
  match b with
  | NewRoute k => [family k; dst_len k; src_len k] ++ other_fields k ++ concat (attr_bytes <$> attributes k)
  | Done d | OtherMessage _ d => d
  end.
Definition message_bytes (m : message) : bytes :=
  let n := 16 + len (body_bytes (body m)) in
  le32 n ++ le16 (body_type (body m)) ++ flags_and_ids m ++ body_bytes (body m) ++ zeros_to_4 n.

(** What the kernel keeps to. *)
Definition number_ok (a : attribute) : Prop :=
  match a with
  | RTA_IIF i | RTA_OIF i | RTA_PRIORITY i => is_u32 i
  | RTA_other t _ => is_u16 t ∧ 7 < t
  | _ => True
  end.
Definition attr_ok (a : attribute) : Prop := 4 + len (attr_value a) < 65536 ∧ number_ok a.

(** A network of the family: its prefix fits, and an IPv4-mapped one has all of the mapping in it. *)
Definition network_ok (k : kernel_route) (n : Z) (v : bytes) : Prop :=
  is_bytes v ∧ len v = (if family k =? 2 then 4 else 16) ∧ 8 * (len v - len (short v)) <= n <= 8 * len v.

Record route_ok (k : kernel_route) : Prop := {
  ok_family : is_byte (family k);
  ok_fields : len (other_fields k) = 9;
  ok_attributes : Forall attr_ok (attributes k);
  ok_destination v : destination k = Some v → network_ok k (dst_len k) v;
  ok_origin v : origin k = Some v → network_ok k (src_len k) v;
}.

Definition message_ok (m : message) : Prop :=
  len (flags_and_ids m) = 10 ∧ 16 + len (body_bytes (body m)) < 2 ^ 32 - 4 ∧
  match body m with
  | NewRoute k => route_ok k
  | Done _ => True
  | OtherMessage t _ => is_u16 t ∧ t ≠ 3 ∧ t ≠ 24
  end.

(** The routes of a family, up to the message that ends the list. *)
Fixpoint routes_of (f : Z) (ms : list message) : list kernel_route :=
  match ms with
  | [] => []
  | m :: ms =>
      match body m with
      | Done _ => []
      | NewRoute k => if family k =? f then k :: routes_of f ms else routes_of f ms
      | OtherMessage _ _ => routes_of f ms
      end
  end.

(** ** Reading it *)

Lemma align4_eq n : align4 n = 4 * ((n + 3) / 4).
Proof.
  unfold align4. change 3 with (Z.ones 2) at 2. rewrite <-Z.ldiff_land, Z.ldiff_ones_r by lia.
  rewrite Z.shiftl_mul_pow2, Z.shiftr_div_pow2 by lia. change (2 ^ 2) with 4. lia.
Qed.

Lemma len_zeros_to_4 n : len (zeros_to_4 n) = align4 n - n.
Proof. unfold zeros_to_4. rewrite align4_eq, len_replicate. zdiv. Qed.

Definition raw (a : attribute) : NetlinkRouteAttr := mkRouteAttr (attr_type a) (attr_value a).

Lemma attr_bytes_len a : len (attr_bytes a) = align4 (4 + len (attr_value a)).
Proof. unfold attr_bytes. cbv zeta. rewrite !len_app, len_zeros_to_4, !len_le16. lia. Qed.

Lemma type_range a : number_ok a → is_u16 (attr_type a).
Proof. unfold is_u16. destruct a; cbn; try lia. intros [? _]. done. Qed.

Lemma parse_attrs_bytes l : Forall attr_ok l → ∀ fuel, (length l < fuel)%nat →
  parse_attrs fuel (concat (attr_bytes <$> l)) = Ok (raw <$> l).
Proof.
  induction 1 as [|a l [Hlen Ha] _ IH]; intros [|fuel] Hf; try lia; [done|]. cbn [length] in Hf. cbn [parse_attrs fmap list_fmap concat].
  set (rest := concat (attr_bytes <$> l)). pose proof (len_nonneg (attr_value a)). pose proof (len_nonneg rest).
  set (n := 4 + len (attr_value a)) in *. assert (align4 n >= n) by (rewrite align4_eq; zdiv).
  assert (attr_bytes a ++ rest = le16 n ++ le16 (attr_type a) ++ attr_value a ++ zeros_to_4 n ++ rest) as E by (unfold attr_bytes; by rewrite <-!app_assoc).
  assert (slice_from (attr_bytes a ++ rest) (align4 n) = Ok rest) as Er by (apply slice_from_app; by rewrite attr_bytes_len).
  rewrite len_app, attr_bytes_len. fold n. rewrite E. rewrite E in Er. unfold SizeofRtAttr. destruct (Z.ltb_spec (align4 n + len rest) 4); [lia|].
  rewrite LE_Uint16_le16 by (unfold is_u16; lia). cbn [mbind outcome_bind].
  rewrite (slice_from_app (le16 _) _ 2) by done. cbn [mbind outcome_bind].
  rewrite LE_Uint16_le16 by (by apply type_range). cbn [mbind outcome_bind].
  destruct (Z.ltb_spec n 4); [lia|]. destruct (Z.ltb_spec (align4 n + len rest) n); [lia|].
  cbn [orb]. rewrite (app_assoc (le16 _)), (slice_app (le16 _ ++ le16 _)) by (unfold n; lens). cbn [mbind outcome_bind].
  rewrite <-!app_assoc, Er. cbn [mbind outcome_bind]. unfold rest. by rewrite IH by lia.
Qed.

Lemma message_bytes_len m : len (flags_and_ids m) = 10 → len (message_bytes m) = align4 (16 + len (body_bytes (body m))).
Proof. intros Hf. unfold message_bytes. cbv zeta. rewrite !len_app, len_zeros_to_4, len_le32, len_le16. lia. Qed.

Lemma body_type_range m : message_ok m → is_u16 (body_type (body m)).
Proof. unfold is_u16. intros (_ & _ & Hb). destruct (body m); cbn in *; try lia. by destruct Hb. Qed.

Lemma parse_messages_bytes ms : Forall message_ok ms → ∀ fuel, (length ms < fuel)%nat →
  parse_messages fuel (concat (message_bytes <$> ms)) = Ok ((fun m => mkNetlinkMessage (body_type (body m)) (body_bytes (body m))) <$> ms).
Proof.
  induction 1 as [|m ms Hm _ IH]; intros [|fuel] Hf; try lia; [done|]. cbn [length] in Hf. cbn [parse_messages fmap list_fmap concat].
  pose proof Hm as (Hm1 & Hm2 & _). set (b := body_bytes (body m)) in *. set (n := 16 + len b) in *. set (rest := concat (message_bytes <$> ms)).
  pose proof (len_nonneg b). pose proof (len_nonneg rest). assert (align4 n >= n) by (rewrite align4_eq; zdiv).
  assert (message_bytes m ++ rest = le32 n ++ le16 (body_type (body m)) ++ flags_and_ids m ++ b ++ zeros_to_4 n ++ rest) as E
    by (unfold message_bytes; by rewrite <-!app_assoc).
  assert (slice_from (message_bytes m ++ rest) (align4 n) = Ok rest) as Er by (apply slice_from_app; by rewrite message_bytes_len).
  rewrite len_app, message_bytes_len by done. fold b n. rewrite E. rewrite E in Er. unfold NLMSG_HDRLEN. destruct (Z.ltb_spec (align4 n + len rest) 16); [lia|].
  rewrite LE_Uint32_le32 by (unfold is_u32; lia). cbn [mbind outcome_bind].
  rewrite (slice_from_app (le32 _) _ 4) by done. cbn [mbind outcome_bind].
  rewrite LE_Uint16_le16 by (by apply body_type_range). cbn [mbind outcome_bind].
  destruct (Z.ltb_spec n 16); [lia|]. destruct (Z.ltb_spec (align4 n + len rest) (align4 n)); [lia|].
  cbn [orb]. rewrite (app_assoc (le32 _)), (app_assoc (le32 _ ++ _)).
  rewrite (slice_app ((le32 _ ++ le16 _) ++ flags_and_ids m)) by (unfold n; lens). cbn [mbind outcome_bind].
  rewrite <-!app_assoc, Er. cbn [mbind outcome_bind]. unfold rest. by rewrite IH by lia.
Qed.

(** ** The table *)

Definition net_of (n : Z) (v : option bytes) : option IPNet := (fun v => mkIPNet (Some v) (CIDRMask n (len v * 8))) <$> v.

(** What the router keeps of a route. *)
Definition info (k : kernel_route) : rtInfo :=
  mkRtInfo (net_of (src_len k) (origin k)) (net_of (dst_len k) (destination k)) (via k) (preferred k) (incoming k) (outgoing k) (priority k).

Definition or_else {A} (x y : option A) : option A := match x with Some _ => x | None => y end.

Lemma latest_cons {A} (f : attribute → option A) a l : latest (a :: l) f = or_else (latest l f) (f a).
Proof. unfold latest. cbn. destruct (f a) as [b|]; [|by destruct (last _)]. rewrite last_cons. by destruct (last _). Qed.

Lemma uint32_at_le32 i : is_u32 i → uint32_at (le32 i) = Ok i.
Proof. intros Hi. unfold uint32_at. rewrite <-(app_nil_r (le32 i)). by apply LE_Uint32_le32. Qed.

Lemma net_or_else n x v : net_of n (or_else x (Some v)) = or_else (net_of n x) (net_of n (Some v)).
Proof. by destruct x. Qed.

(** The attributes, one after the other: of a kind the last one counts. *)
Lemma set_attrs_raw D S l : Forall attr_ok l → ∀ ri, set_attrs D S ri (raw <$> l) = Ok (
  mkRtInfo (or_else (net_of S (latest l (fun a => match a with RTA_SRC v => Some v | _ => None end))) (Src ri))
    (or_else (net_of D (latest l (fun a => match a with RTA_DST v => Some v | _ => None end))) (Dst ri))
    (or_else (latest l (fun a => match a with RTA_GATEWAY v => Some v | _ => None end)) (Gateway ri))
    (or_else (latest l (fun a => match a with RTA_PREFSRC v => Some v | _ => None end)) (PrefSrc ri))
    (default (InputIface ri) (latest l (fun a => match a with RTA_IIF i => Some i | _ => None end)))
    (default (OutputIface ri) (latest l (fun a => match a with RTA_OIF i => Some i | _ => None end)))
    (default (Priority ri) (latest l (fun a => match a with RTA_PRIORITY i => Some i | _ => None end)))).
Proof.
  induction 1 as [|a l [_ Ha] _ IH]; intros ri; [by destruct ri|]. cbn [fmap list_fmap set_attrs]. cbv zeta in *.
  assert (∃ ri', set_attr D S ri (raw a) = Ok ri' ∧ ri' = mkRtInfo
    (or_else (net_of S (match a with RTA_SRC v => Some v | _ => None end)) (Src ri)) (or_else (net_of D (match a with RTA_DST v => Some v | _ => None end)) (Dst ri))
    (or_else (match a with RTA_GATEWAY v => Some v | _ => None end) (Gateway ri)) (or_else (match a with RTA_PREFSRC v => Some v | _ => None end) (PrefSrc ri))
    (default (InputIface ri) (match a with RTA_IIF i => Some i | _ => None end)) (default (OutputIface ri) (match a with RTA_OIF i => Some i | _ => None end))
    (default (Priority ri) (match a with RTA_PRIORITY i => Some i | _ => None end))) as (ri' & -> & ->).
  { unfold set_attr, raw. cbn [ra_Type ra_Value]. destruct a as [v|v|i|i|v|i|v|t v]; cbn [attr_type attr_value Z.eqb Pos.eqb]; cbn [number_ok] in Ha;
      rewrite ?uint32_at_le32 by done; try (eexists; split; [reflexivity|by destruct ri]).
    destruct Ha as [_ Ht]. rewrite !(proj2 (Z.eqb_neq _ _)) by lia. eexists. split; [reflexivity|by destruct ri]. }
  cbn [mbind outcome_bind]. rewrite IH. rewrite !latest_cons. f_equal. cbn [Src Dst Gateway PrefSrc InputIface OutputIface Priority].
  f_equal; repeat match goal with |- context [latest ?x ?f] => destruct (latest x f) end; try done; by destruct a.
Qed.

Lemma set_attrs_info k : Forall attr_ok (attributes k) → set_attrs (dst_len k) (src_len k) zero_rtInfo (raw <$> attributes k) = Ok (info k).
Proof.
  intros Hk. rewrite set_attrs_raw by done. f_equal. unfold info, origin, destination, via, preferred, incoming, outgoing, priority, select, zero_rtInfo.
  cbn [Src Dst Gateway PrefSrc InputIface OutputIface Priority]. f_equal; repeat match goal with |- context [latest ?x ?f] => destruct (latest x f) end; done.
Qed.

Lemma ParseNetlinkRouteAttr_route k : route_ok k → ParseNetlinkRouteAttr (mkNetlinkMessage 24 (body_bytes (NewRoute k))) = Ok (raw <$> attributes k).
Proof.
  intros []. unfold ParseNetlinkRouteAttr. cbn [nm_Data body_bytes]. rewrite app_assoc. rewrite slice_from_app; cycle 1.
  { rewrite len_app, ok_fields0. done. }
  cbn [mbind outcome_bind]. apply parse_attrs_bytes; [done|].
  assert (∀ l, Forall attr_ok l → (length l <= length (concat (attr_bytes <$> l)))%nat) as Hl; [|specialize (Hl _ ok_attributes0); lia].
  induction 1 as [|a l _ _ IH]; [done|]. cbn. rewrite length_app. pose proof (attr_bytes_len a). pose proof (len_nonneg (attr_value a)).
  assert (align4 (4 + len (attr_value a)) >= 4) by (rewrite align4_eq; zdiv). unfold len in *. lia.
Qed.

Lemma message_loop_routes ms : Forall message_ok ms → ∀ v4 v6,
  message_loop ((fun m => mkNetlinkMessage (body_type (body m)) (body_bytes (body m))) <$> ms) v4 v6 =
    Ok (v4 ++ (info <$> routes_of 2 ms), v6 ++ (info <$> routes_of 10 ms)).
Proof.
  induction 1 as [|m ms Hm _ IH]; intros v4 v6; cbn [fmap list_fmap message_loop routes_of]; [by rewrite !app_nil_r|].
  destruct Hm as (_ & _ & Hb). destruct (body m) as [k|d|t d]; cbn [nm_Type nm_Data body_type].
  - change (24 =? NLMSG_DONE) with false. change (24 =? RTM_NEWROUTE) with true. cbn iota. rewrite ParseNetlinkRouteAttr_route by done.
    cbn [body_bytes app]. change (index (family k :: ?l) 0) with (Ok (family k)). change (index (_ :: dst_len k :: ?l) 1) with (Ok (dst_len k)).
    change (index (_ :: _ :: src_len k :: ?l) 2) with (Ok (src_len k)). cbn [mbind outcome_bind].
    rewrite set_attrs_info by apply Hb. unfold AF_INET, AF_INET6. cbn [mbind outcome_bind].
    destruct (Z.eqb_spec (family k) 2) as [E|E]; [rewrite E|destruct (Z.eqb_spec (family k) 10)]; cbn iota; rewrite IH; cbn [fmap list_fmap]; by rewrite <-?app_assoc.
  - change (3 =? NLMSG_DONE) with true. cbn. by rewrite !app_nil_r.
  - destruct Hb as (_ & H3 & H24). unfold NLMSG_DONE, RTM_NEWROUTE. rewrite !(proj2 (Z.eqb_neq _ _)) by done. by rewrite IH.
Qed.

(** ** The routes that the kernel named *)

Definition usable_from (index : Z) (k : kernel_route) : Prop := incoming k = 0 ∨ incoming k = index.
Definition for_all (k : kernel_route) : Prop := destination k = None ∧ origin k = None.

(** A route with a prefix that holds the addresses, and one without any. *)
Definition covers (index : Z) (src dst : IP) (k : kernel_route) : Prop :=
  usable_from index k ∧ ¬ for_all k ∧
  (∀ v, destination k = Some v → ∃ b, dst = Some b ∧ inside (dst_len k) v b) ∧
  (∀ v, origin k = Some v → ∃ b, src = Some b ∧ inside (src_len k) v b).
Definition is_gateway (index : Z) (k : kernel_route) : Prop := usable_from index k ∧ for_all k.

(** The route that is followed: of those that cover the addresses one of least
    priority; without any, of the gateways one of greatest priority. *)
Definition followed (index : Z) (src dst : IP) (ks : list kernel_route) (k : kernel_route) : Prop :=
  k ∈ ks ∧
  (covers index src dst k ∧ (∀ k', k' ∈ ks → covers index src dst k' → priority k <= priority k') ∨
   (∀ k', k' ∈ ks → ¬ covers index src dst k') ∧ is_gateway index k ∧
   (∀ k', k' ∈ ks → is_gateway index k' → priority k' <= priority k)).

Definition address_ok (a : IP) : Prop := ∀ b, a = Some b → is_bytes b.

Lemma usable_iff index k : usable index (info k) = true ↔ usable_from index k.
Proof. unfold usable, usable_from. cbn. by rewrite orb_true_iff, !Z.eqb_eq. Qed.

Lemma default_iff k : is_default (info k) = true ↔ for_all k.
Proof. unfold is_default, for_all. cbn. destruct (origin k), (destination k); naive_solver. Qed.

Lemma contains_iff k n o a : (∀ v, o = Some v → network_ok k n v) → address_ok a →
  contains (net_of n o) a = true ↔ ∀ v, o = Some v → ∃ b, a = Some b ∧ inside n v b.
Proof.
  intros Ho Ha. destruct o as [v|]; [|done]. destruct (Ho v eq_refl) as (Hv & Hl & Hm & Hn). cbn [net_of fmap option_fmap option_map contains].
  assert (len v = 4 ∨ len v = 16) as Hl' by (destruct (family k =? 2); auto).
  assert (0 <= n) by (destruct (short_cases v) as [(? & ? & _)|(E & _)]; [lia|rewrite E in Hm; lia]).
  destruct a as [b|].
  - rewrite Contains_inside by first [done|lia|by apply Ha]. split; [intros Hi v' [= <-]; by exists b|].
    intros Hi. destruct (Hi v eq_refl) as (b' & [= <-] & ?). done.
  - rewrite Contains_nil by first [done|lia]. split; [done|]. intros Hi. by destruct (Hi v eq_refl) as (? & ? & _).
Qed.

Lemma covers_iff index src dst k : route_ok k → address_ok src → address_ok dst →
  specific index src dst (info k) = true ↔ covers index src dst k.
Proof.
  intros [] Hs Hd. unfold specific, covers. rewrite !andb_true_iff, negb_true_iff, <-not_true_iff_false, usable_iff, default_iff. cbn [Src Dst info].
  rewrite !(contains_iff k) by done. tauto.
Qed.

Lemma gateway_iff index k : gateway index (info k) = true ↔ is_gateway index k.
Proof. unfold gateway, is_gateway. by rewrite andb_true_iff, usable_iff, default_iff. Qed.

Lemma chosen_followed index src dst ks rt : Forall route_ok ks → address_ok src → address_ok dst →
  chosen index src dst (info <$> ks) rt → ∃ k, rt = info k ∧ followed index src dst ks k.
Proof.
  intros Hks Hs Hd [(k & -> & Hk)%list_elem_of_fmap Hc]. rewrite Forall_forall in Hks.
  assert (∀ k', k' ∈ ks → info k' ∈ info <$> ks) as Hin by (intros; by apply list_elem_of_fmap_2).
  exists k. split; [done|]. split; [done|]. destruct Hc as [[Hc Hmin]|(Hno & Hg & Hmax)]; [left|right].
  - split; [by apply covers_iff; auto|]. intros k' Hk' Hc'. apply (Hmin (info k')); [auto|]. by apply covers_iff; auto.
  - split; [|split; [by apply gateway_iff|]].
    + intros k' Hk' Hc'. apply covers_iff in Hc'; [|by auto..]. by rewrite Hno in Hc' by auto.
    + intros k' Hk' Hg'. apply (Hmax (info k')); [auto|]. by apply gateway_iff.
Qed.

Lemma routes_of_ok f ms : Forall message_ok ms → Forall route_ok (routes_of f ms).
Proof.
  induction 1 as [|m ms (_ & _ & Hm) _ IH]; cbn; [done|]. destruct (body m); [destruct (_ =? _)|..]; try done. by constructor.
Qed.

(** ** The interfaces *)

Definition interfaces := list (Interface * list NetAddr).
Definition answered (p : Interface * list NetAddr) : Interface * outcome (list NetAddr) := (p.1, Ok p.2).

Definition interface_of (n : Z) (ifs : interfaces) : option (Interface * list NetAddr) := find (fun p => if_Index p.1 =? n) ifs.

(** The first address of the family of the destination. *)
Definition first_v4 (l : list NetAddr) : IP := head (omap (fun a => match a with AddrIPNet ip => To4 ip | AddrOther => None end) l).
Definition first_v6 (l : list NetAddr) : IP :=
  head (omap (fun a => match a with AddrIPNet ip => match To4 ip with Some _ => None | None => ip end | AddrOther => None end) l).
Definition first_address (dst : IP) (l : list NetAddr) : IP := match To4 dst with Some _ => first_v4 l | None => first_v6 l end.

(** The number of the interface that a packet came in by; 0 if it is not known. *)
Definition input_index (ifs : interfaces) (input : option bytes) (index : Z) : Prop :=
  match input with
  | None => index = 0
  | Some hw => (∃ p, p ∈ ifs ∧ if_HardwareAddr p.1 = hw ∧ index = u32 (if_Index p.1)) ∨
               index = 0 ∧ ∀ p, p ∈ ifs → if_HardwareAddr p.1 ≠ hw
  end.

Lemma iface_addrs_first l : ∀ a, iface_addrs l a = mkIpAddrs (or_else (ia_v4 a) (first_v4 l)) (or_else (ia_v6 a) (first_v6 l)).
Proof.
  unfold first_v4, first_v6. induction l as [|[ip|] l IH]; intros a; cbn [iface_addrs omap list_omap]; [by destruct a as [[] []]|..].
  - destruct (To4 ip) as [v4|]; rewrite IH; [by destruct a as [[] []]|]. by destruct a as [[] []], ip.
  - by rewrite IH.
Qed.

Lemma iface_loop_spec ifs : NoDup ((fun p => if_Index p.1) <$> ifs) → ∀ m ads, ∃ m' ads',
  iface_loop (answered <$> ifs) m ads = Ok (m', ads') ∧
  (∀ n, m' !! n = or_else (fst <$> interface_of n ifs) (m !! n)) ∧
  (∀ n, ads' !! n = or_else ((fun p => mkIpAddrs (first_v4 p.2) (first_v6 p.2)) <$> interface_of n ifs) (ads !! n)).
Proof.
  induction ifs as [|[i l] ifs IH]; intros Hnd m ads; cbn [fmap list_fmap iface_loop]; [by exists m, ads|].
  apply NoDup_cons in Hnd as [Hni Hnd]. unfold answered at 1. cbn [fst snd mbind outcome_bind].
  destruct (IH Hnd (<[if_Index i := i]> m) (<[if_Index i := iface_addrs l (mkIpAddrs None None)]> ads)) as (m' & ads' & E & Hm & Ha).
  exists m', ads'. split; [exact E|]. unfold interface_of in *. cbn [find fst].
  assert (find (fun p => if_Index p.1 =? if_Index i) ifs = None) as Hnone.
  { destruct (find _ ifs) as [p|] eqn:Ef; [|done]. apply find_some in Ef as [Hp Hi]. apply Z.eqb_eq in Hi. destruct Hni.
    apply list_elem_of_fmap. exists p. split; [by rewrite Hi|]. by apply list_elem_of_In. }
  split; intros n; rewrite ?Hm, ?Ha; (destruct (Z.eqb_spec (if_Index i) n) as [<-|Hne];
    [by rewrite Hnone, lookup_insert_eq, ?iface_addrs_first | by rewrite lookup_insert_ne]).
Qed.

Lemma interface_of_elem ifs : NoDup ((fun p => if_Index p.1) <$> ifs) → ∀ p, p ∈ ifs → interface_of (if_Index p.1) ifs = Some p.
Proof.
  unfold interface_of. induction ifs as [|q ifs IH]; intros Hnd p Hp; [by apply elem_of_nil in Hp|]. apply NoDup_cons in Hnd as [Hni Hnd]. cbn [find].
  apply elem_of_cons in Hp as [->|Hp]; [by rewrite Z.eqb_refl|]. destruct (Z.eqb_spec (if_Index q.1) (if_Index p.1)) as [E|]; [|by apply IH].
  destruct Hni. apply list_elem_of_fmap. exists p. by rewrite E.
Qed.

Section input.
Context (range : gmap Z Interface → list (Z * Interface)) (range_all : ∀ m, range m ≡ₚ map_to_list m).

Lemma inputIndex_of ifs r input : NoDup ((fun p => if_Index p.1) <$> ifs) → (∀ n, ifaces r !! n = fst <$> interface_of n ifs) →
  input_index ifs input (inputIndex range r input).
Proof using range_all.
  intros Hnd Hr. unfold inputIndex, input_index. destruct input as [hw|]; [|done].
  assert (∀ n i, (n, i) ∈ range (ifaces r) ↔ ∃ p, p ∈ ifs ∧ i = p.1 ∧ n = if_Index i) as Hin.
  { intros n i. rewrite range_all, elem_of_map_to_list, Hr. split.
    - destruct (interface_of n ifs) as [p|] eqn:E; [|done]. intros [= <-]. apply find_some in E as [Hp Hi]. apply Z.eqb_eq in Hi.
      exists p. split; [by apply list_elem_of_In|]. done.
    - intros (p & Hp & -> & ->). by rewrite interface_of_elem. }
  destruct (find _ _) as [[n i]|] eqn:E.
  - left. apply find_some in E as [Hp Hi]. apply bool_decide_eq_true in Hi. apply list_elem_of_In, Hin in Hp as (p & Hp & -> & ->). by exists p.
  - right. split; [done|]. intros p Hp <-. assert ((if_Index p.1, p.1) ∈ range (ifaces r)) as Hx by (apply Hin; by exists p).
    apply list_elem_of_In in Hx. pose proof (find_none _ _ E _ Hx) as Hf. cbn in Hf. by rewrite bool_decide_eq_false in Hf.
Qed.
End input.

(** ** From the kernel's bytes to a route *)

Section routes.
Context (range : gmap Z Interface → list (Z * Interface)) (sort_Sort : list rtInfo → list rtInfo).
Context (range_all : ∀ m, range m ≡ₚ map_to_list m).
Context (sort_perm : ∀ l, sort_Sort l ≡ₚ l) (sort_sorted : ∀ l, StronglySorted by_priority (sort_Sort l)).

Lemma ParseNetlinkMessage_bytes ms : Forall message_ok ms →
  ParseNetlinkMessage (concat (message_bytes <$> ms)) = Ok ((fun m => mkNetlinkMessage (body_type (body m)) (body_bytes (body m))) <$> ms).
Proof.
  intros Hms. unfold ParseNetlinkMessage. apply parse_messages_bytes; [done|].
  enough (length ms <= length (concat (message_bytes <$> ms)))%nat by lia.
  induction Hms as [|m ms (Hf & _) _ IH]; [done|]. cbn. rewrite length_app. pose proof (message_bytes_len m Hf). pose proof (len_nonneg (body_bytes (body m))).
  assert (align4 (16 + len (body_bytes (body m))) >= 16) by (rewrite align4_eq; zdiv). unfold len in *. lia.
Qed.

(** The router that is made of the kernel's bytes. *)
Lemma New_router ms ifs : Forall message_ok ms → NoDup ((fun p => if_Index p.1) <$> ifs) → ∃ r,
  New sort_Sort (Ok (concat (message_bytes <$> ms))) (Ok (answered <$> ifs)) = Ok r ∧
  r_v4 r = sort_Sort (info <$> routes_of 2 ms) ∧ r_v6 r = sort_Sort (info <$> routes_of 10 ms) ∧
  (∀ n, ifaces r !! n = fst <$> interface_of n ifs) ∧
  (∀ n, addrs r !! n = (fun p => mkIpAddrs (first_v4 p.2) (first_v6 p.2)) <$> interface_of n ifs).
Proof.
  intros Hms Hnd. unfold New. cbn [mbind outcome_bind]. rewrite ParseNetlinkMessage_bytes by done. cbn [mbind outcome_bind].
  rewrite message_loop_routes by done. cbn [mbind outcome_bind app].
  destruct (iface_loop_spec ifs Hnd ∅ ∅) as (m & ads & -> & Hm & Ha). eexists. split; [reflexivity|]. cbn [r_v4 r_v6 ifaces addrs].
  do 2 (split; [done|]). split; intros n; rewrite ?Hm, ?Ha, lookup_empty; by destruct (interface_of n ifs).
Qed.

(** C18 (functional): of the bytes in which the kernel lists its routes, as
    [rtnetlink(7)] describes them, and of the interfaces of the system, [New] makes a
    router that, for a destination, chooses of the routes that the kernel named for the
    destination's family - up to the message that ends the list - one of least
    priority whose networks hold the destination and the source, or else a route
    without networks - of these the one of greatest priority. A source that is not
    given is in no network, and a route for packets from one interface is only for those.
    The router gives that route's interface, gateway and source, or else the first
    address of its family of the interface. It finds no route only if there is none or
    the destination is no address. *)
Theorem Route_chooses ms ifs : Forall message_ok ms → NoDup ((fun p => if_Index p.1) <$> ifs) → ∃ r,
  New sort_Sort (Ok (concat (message_bytes <$> ms))) (Ok (answered <$> ifs)) = Ok r ∧
  ∀ input src dst, address_ok src → address_ok dst → ∃ index, input_index ifs input index ∧
    let routes := routes_of (match To4 dst with Some _ => 2 | None => 10 end) ms in
    match RouteWithSrc range r input src dst with
    | Ok (iface, gw, pref) => ∃ k, followed index src dst routes k ∧
        iface = fst <$> interface_of (outgoing k) ifs ∧ gw = via k ∧
        pref = or_else (preferred k) (p ← interface_of (outgoing k) ifs; first_address dst p.2)
    | Err _ => To16 dst = None ∨ ∀ k, k ∈ routes → ¬ covers index src dst k ∧ ¬ is_gateway index k
    | _ => False
    end.
Proof using range_all sort_perm sort_sorted.
  intros Hms Hnd. destruct (New_router ms ifs Hms Hnd) as (r & E & E4 & E6 & Hif & Had). exists r. split; [exact E|].
  intros input src dst Hs Hd. exists (inputIndex range r input). split; [by apply inputIndex_of|].
  set (index := inputIndex range r input). unfold RouteWithSrc, first_address. rewrite E4, E6.
  assert (∀ f, match route range r (sort_Sort (info <$> routes_of f ms)) input src dst with
    | Ok (i, gw, pref) => ∃ k, followed index src dst (routes_of f ms) k ∧ i = outgoing k ∧ gw = via k ∧ pref = preferred k
    | Err _ => ∀ k, k ∈ routes_of f ms → ¬ covers index src dst k ∧ ¬ is_gateway index k
    | _ => False end) as Hroute.
  { intros f. pose proof (routes_of_ok f ms Hms) as Hok. pose proof (route_sorted range sort_Sort sort_perm sort_sorted r (info <$> routes_of f ms) input src dst) as H.
    destruct (route range r _ input src dst) as [[[i gw] pref]|e|c|]; try done.
    - destruct H as (rt & Hc & -> & -> & ->). destruct (chosen_followed _ _ _ _ _ Hok Hs Hd Hc) as (k & -> & Hk). by exists k.
    - intros k Hk. destruct (H (info k)) as [H1 H2]; [by apply list_elem_of_fmap_2|]. rewrite Forall_forall in Hok.
      split; [intros Hc%covers_iff; [by fold index in H1; rewrite Hc in H1|by auto..]|].
      intros Hg%gateway_iff. by fold index in H2; rewrite Hg in H2. }
  destruct (To4 dst) as [d4|] eqn:Ed; [specialize (Hroute 2)|specialize (Hroute 10); destruct (To16 dst) as [d16|]; [|by left]];
    (destruct (route range r _ input src dst) as [[[i gw] pref]|e|c|]; cbn [mbind outcome_bind]; [|by right|done..]).
  all: destruct Hroute as (k & Hk & -> & -> & ->); exists k; rewrite Hif, Had; repeat (split; [done|]).
  all: destruct (preferred k); [done|]; by destruct (interface_of _ ifs).
Qed.
End routes.

(** ** A table *)

Definition v4_route (n : Z) (l : list attribute) : message := mkMessage (replicate 10 0) (NewRoute (mkRoute 2 n 0 (replicate 9 0) l)).
Definition two_routes : list message :=
  [v4_route 0 [RTA_GATEWAY [192; 168; 0; 1]; RTA_OIF 1; RTA_PRIORITY 100]; v4_route 8 [RTA_other 15 (le32 254); RTA_DST [10; 0; 0; 0]; RTA_OIF 2];
   mkMessage (replicate 10 0) (Done [0; 0; 0; 0])].
Definition two_interfaces : interfaces :=
  [(mkInterface 1 [1; 2; 3; 4; 5; 6], [AddrIPNet (Some [192; 168; 0; 7])]); (mkInterface 2 [1; 2; 3; 4; 5; 7], [AddrOther; AddrIPNet (Some [10; 0; 0; 9])])].

Lemma v4_route_ok n l : 0 <= n <= 32 → Forall attr_ok l → len (concat (attr_bytes <$> l)) < 1000 →
  (∀ v, origin (mkRoute 2 n 0 (replicate 9 0) l) = Some v → is_bytes v ∧ len v = 4) →
  (∀ v, destination (mkRoute 2 n 0 (replicate 9 0) l) = Some v → is_bytes v ∧ len v = 4) → message_ok (v4_route n l).
Proof.
  intros Hn Hl Hlen Ho Hd. split; [done|]. split.
  { cbn [body v4_route body_bytes]. rewrite !len_app. cbn [other_fields attributes]. change (len [_; _; _]) with 3. change (len (replicate 9 0)) with 9. lia. }
  assert (∀ v, len v = 4 → len (short v) = 4) as Hs.
  { intros v Hv. unfold short, To4. cbn [mbind option_bind]. by rewrite Hv. }
  split; cbn [family other_fields attributes dst_len src_len]; try done.
  - intros v Hv. destruct (Hd v Hv) as [? H4]. split; [done|]. split; [done|]. rewrite (Hs v H4), H4. lia.
  - intros v Hv. destruct (Ho v Hv) as [? H4]. split; [done|]. split; [done|]. rewrite (Hs v H4), H4. lia.
Qed.

Lemma two_routes_ok : Forall message_ok two_routes.
Proof.
  assert (∀ i, 0 <= i < 256 → attr_ok (RTA_OIF i) ∧ attr_ok (RTA_PRIORITY i)) as Hn by (intros i Hi; split; (split; [done|unfold number_ok, is_u32; lia])).
  constructor; [|constructor; [|constructor; [|done]]].
  - apply v4_route_ok; [lia| |vm_compute; reflexivity|done|done]. constructor; [done|]. constructor; [by apply Hn|]. constructor; [by apply Hn|done].
  - apply v4_route_ok; [lia| |vm_compute; reflexivity|done|]. { constructor; [done|]. constructor; [done|]. constructor; [by apply Hn|done]. }
    intros v [= <-]. split; [solve_Forall|done].
  - by split.
Qed.

Lemma Route_chooses_witness : ∃ r, New (merge_sort by_priority) (Ok (concat (message_bytes <$> two_routes))) (Ok (answered <$> two_interfaces)) = Ok r ∧
  Route map_to_list r (Some [10; 1; 2; 3]) = Ok (Some (mkInterface 2 [1; 2; 3; 4; 5; 7]), None, Some [10; 0; 0; 9]) ∧
  ∃ k, followed 0 None (Some [10; 1; 2; 3]) (routes_of 2 two_routes) k ∧ outgoing k = 2.
Proof.
  destruct (Route_chooses map_to_list (merge_sort by_priority) (fun m => reflexivity _) (merge_sort_Permutation by_priority)
    (StronglySorted_merge_sort by_priority) two_routes two_interfaces two_routes_ok) as (r & E & H).
  { apply NoDup_ListNoDup. cbn. repeat constructor; set_solver. }
  exists r. split; [exact E|]. assert (Route map_to_list r (Some [10; 1; 2; 3]) = Ok (Some (mkInterface 2 [1; 2; 3; 4; 5; 7]), None, Some [10; 0; 0; 9])) as Er.
  { vm_compute in E. injection E as <-. by vm_compute. }
  split; [exact Er|]. destruct (H None None (Some [10; 1; 2; 3])) as (index & -> & Hr); [done|intros b [= <-]; solve_Forall|].
  unfold Route in Er. rewrite Er in Hr. destruct Hr as (k & Hk & Hi & _). exists k. split; [exact Hk|].
  destruct Hk as [Hin _]. cbn in Hin. apply elem_of_cons in Hin as [->|Hin]; [by vm_compute in Hi|]. apply elem_of_cons in Hin as [->|Hin]; [done|].
  by apply elem_of_nil in Hin.
Defined.

(** ** Where the code goes wrong *)

Definition routed (ms : list message) (dst : bytes) : outcome (option Interface * IP * IP) :=
  r ← New (merge_sort by_priority) (Ok (concat (message_bytes <$> ms))) (Ok []); Route map_to_list r (Some dst).

(** Of two default routes the code takes the one of greater metric, which the
    kernel would use last. *)
Lemma worst_gateway_chosen :
  routed [v4_route 0 [RTA_GATEWAY [192; 168; 0; 1]; RTA_PRIORITY 100]; v4_route 0 [RTA_GATEWAY [192; 168; 9; 9]; RTA_PRIORITY 200]] [8; 8; 8; 8] =
    Ok (None, Some [192; 168; 9; 9], None).
Proof. by vm_compute. Qed.

(** A router of the kernel's table picks the less specific of two prefixes when its metric is less. *)
Lemma longest_prefix_ignored :
  routed [v4_route 16 [RTA_DST [10; 1; 0; 0]; RTA_GATEWAY [2; 2; 2; 2]; RTA_PRIORITY 100]; v4_route 8 [RTA_DST [10; 0; 0; 0]; RTA_GATEWAY [1; 1; 1; 1]]] [10; 1; 2; 3] =
    Ok (None, Some [1; 1; 1; 1], None).
Proof. by vm_compute. Qed.

(** The doc of [Router] says that no source is treated as 0.0.0.0 or ::, but no
    route with a source prefix, not even that of all addresses, is found for it. *)
Lemma nil_source_matches_nothing : contains (Some (mkIPNet (Some [0; 0; 0; 0]) (CIDRMask 0 32))) None = false ∧
  contains (Some (mkIPNet (Some [0; 0; 0; 0]) (CIDRMask 0 32))) (Some [0; 0; 0; 0]) = true.
Proof. by vm_compute. Qed.

(** The comment of [InputIface] says that it is ignored, but a route for packets that
    come in by an interface is not used for others. *)
Lemma input_interface_counts : ∃ e,
  routed [v4_route 8 [RTA_DST [10; 0; 0; 0]; RTA_IIF 3; RTA_OIF 2]] [10; 1; 2; 3] = Err e.
Proof. eexists. by vm_compute. Qed.
