(* ===== verification/BsdBpf.v ===== *)
(** * Sniffing with BPF ([bsdbpf/bsd_bpf_sniffer.go])

    The sniffer opens a device, sets it up and reads buffers of frames. The system
    calls are an interface. The layout of [unix.BpfHdr] depends on the system: the
    header that a pointer into the buffer gives is a parameter. Options are passed
    by pointer; the default options are one object that sniffers share. *)

From stdpp Require Import pretty.
From S2P Require Import Prelude Capture.

Definition wordSize : Z := 8.
Definition bpfWordAlign (x : Z) : Z := Z.land (x + (wordSize - 1)) (Z.lnot (wordSize - 1)).

Record Timeval : Type := mkTimeval { tv_Sec : Z; tv_Usec : Z }.

Record Options : Type := mkOptions {
  BPFDeviceName : string;
  ReadBufLen : Z;
  Timeout : option Timeval;
  Promisc : bool;
  Immediate : bool;
  PreserveLinkAddr : bool;
}.

Definition defaultOptions : Options := mkOptions "" 32767 None true true true.

Definition set_name n (o : Options) : Options :=
  mkOptions n (ReadBufLen o) (Timeout o) (Promisc o) (Immediate o) (PreserveLinkAddr o).
Definition set_ReadBufLen n (o : Options) : Options :=
  mkOptions (BPFDeviceName o) n (Timeout o) (Promisc o) (Immediate o) (PreserveLinkAddr o).

(** The fields of [unix.BpfHdr] that the sniffer reads. *)
Record BpfHdr : Type := mkBpfHdr { h_Sec : Z; h_Usec : Z; h_Caplen : Z; h_Hdrlen : Z }.

(** A pointer to options: to the shared ones, or to the caller's. *)
Inductive options_ref : Type := Shared | Own (o : Options).

Record BPFSniffer : Type := mkSniffer {
  options : options_ref;
  sniffDeviceName : string;
  fd : Z;
  readBuffer : bytes;
  lastReadLen : Z;
  readBytesConsumed : Z;
}.

(** The system calls. *)
Class Bpf (K : Type) := {
  sys_Open : string → M K Z;
  sys_Close : Z → M K unit;
  sys_Read : Z → Z → M K bytes;
  BpfBuflen : Z → M K Z;
  SetBpfBuflen : Z → Z → M K Z;
  SetBpfInterface : Z → string → M K unit;
  SetBpfImmediate : Z → Z → M K unit;
  SetBpfTimeout : Z → Timeval → M K unit;
  SetBpfHeadercmpl : Z → Z → M K unit;
  SetBpfPromisc : Z → Z → M K unit;
}.

(** What the methods see: the sniffer, the shared options, the system. *)
Record state (K : Type) : Type := mkState { sniffer : BPFSniffer; shared : Options; kernel : K }.
Arguments mkState {K}. Arguments sniffer {K}. Arguments shared {K}. Arguments kernel {K}.

Section sniffing.
Context {K : Type} `{Bpf K} (hdr_at : bytes → BpfHdr).
Implicit Types s : state K.

Definition opts s : Options := match options (sniffer s) with Shared => shared s | Own o => o end.
(** [b.options.x = ...] *)
Definition set_opts (f : Options → Options) s : state K :=
  let b := sniffer s in
  match options b with
  | Shared => mkState b (f (shared s)) (kernel s)
  | Own o => mkState (mkSniffer (Own (f o)) (sniffDeviceName b) (fd b) (readBuffer b) (lastReadLen b) (readBytesConsumed b)) (shared s) (kernel s)
  end.
Definition on_sniffer (f : BPFSniffer → BPFSniffer) s : state K := mkState (f (sniffer s)) (shared s) (kernel s).
Definition set_fd n := on_sniffer (fun b => mkSniffer (options b) (sniffDeviceName b) n (readBuffer b) (lastReadLen b) (readBytesConsumed b)).
Definition set_readBuffer l := on_sniffer (fun b => mkSniffer (options b) (sniffDeviceName b) (fd b) l (lastReadLen b) (readBytesConsumed b)).
Definition set_lastReadLen n := on_sniffer (fun b => mkSniffer (options b) (sniffDeviceName b) (fd b) (readBuffer b) n (readBytesConsumed b)).
Definition set_readBytesConsumed n := on_sniffer (fun b => mkSniffer (options b) (sniffDeviceName b) (fd b) (readBuffer b) (lastReadLen b) n).

Definition sys {A} (m : M K A) : M (state K) A := zoom kernel (fun k s => mkState (sniffer s) (shared s) k) m.
(** A call with the descriptor of the sniffer. *)
Definition sys_fd {A} (m : Z → M K A) : M (state K) A := s ← get; sys (m (fd (sniffer s))).

Fixpoint pick_loop (n : nat) (i : Z) : M (state K) unit :=
  match n with
  | O => lift (Panic (Panicked "failed to acquire a BPF device for read-write access"))
  | S n =>
      let name := ("/dev/bpf" +:+ pretty i)%string in
      _ ← modify (set_opts (set_name name));
      r ← attempt (sys (sys_Open name));
      match r with
      | inl f => modify (set_fd f)
      | inr _ => _ ← modify (set_fd (-1)); pick_loop n (i + 1)
      end
  end.

Definition pickBpfDevice : M (state K) unit :=
  _ ← modify (set_opts (set_name "")); pick_loop 99 0.

(** A length that a call returns, 0 with an error. *)
Definition set_len (m : M (state K) Z) : M (state K) unit :=
  r ← attempt m;
  match r with
  | inl n => modify (set_opts (set_ReadBufLen n))
  | inr e => _ ← modify (set_opts (set_ReadBufLen 0)); throw e
  end.

Definition make_buffer : M (state K) unit :=
  n ← gets (fun s => ReadBufLen (opts s));
  if n <? 0 then lift (Panic (Panicked "makeslice: len out of range"))
  else modify (set_readBuffer (replicate (Z.to_nat n) 0)).

(** [if b.options.field { err = call }] *)
Definition when_set (field : Options → bool) (call : M (state K) unit) : M (state K) unit :=
  b ← gets (fun s => field (opts s)); if b : bool then call else mret tt.

Definition setup : M (state K) unit :=
  name ← gets (fun s => BPFDeviceName (opts s));
  _ ← (if decide (name = ""%string) then pickBpfDevice else mret tt);
  n ← gets (fun s => ReadBufLen (opts s));
  _ ← (if n =? 0 then set_len (sys_fd BpfBuflen) else set_len (sys_fd (fun f => SetBpfBuflen f n)));
  _ ← make_buffer;
  dev ← gets (fun s => sniffDeviceName (sniffer s));
  _ ← sys_fd (fun f => SetBpfInterface f dev);
  _ ← when_set Immediate (sys_fd (fun f => SetBpfImmediate f 1));
  t ← gets (fun s => Timeout (opts s));
  _ ← match t with Some t => sys_fd (fun f => SetBpfTimeout f t) | None => mret tt end;
  _ ← when_set PreserveLinkAddr (sys_fd (fun f => SetBpfHeadercmpl f 1));
  when_set Promisc (sys_fd (fun f => SetBpfPromisc f 1)).

(** [iface] and the pointer to options, nil for the shared ones; the shared options
    and the system are those the call is made with. *)
Definition NewBPFSniffer (iface : string) (options : option Options) (shared : Options) (k : K) : outcome unit * state K :=
  setup (mkState (mkSniffer (match options with None => Shared | Some o => Own o end) iface 0 [] 0 0) shared k).

Definition Close : M (state K) unit := sys_fd sys_Close.

Definition fill : M (state K) unit :=
  _ ← modify (set_readBytesConsumed 0);
  _ ← make_buffer;
  l ← gets (fun s => len (readBuffer (sniffer s)));
  r ← attempt (sys_fd (fun f => sys_Read f l));
  match r with
  | inl data =>
      b ← gets (fun s => readBuffer (sniffer s));
      b ← lift (copy_from b 0 data);
      _ ← modify (set_readBuffer b);
      modify (set_lastReadLen (len data))
  | inr e => _ ← modify (set_lastReadLen 0); throw e
  end.

(** [time.Unix(sec, usec * 1000)] of a header *)
Definition hdr_time (h : BpfHdr) : time := time_Unix (h_Sec h) (h_Usec h * 1000).

Definition ReadPacketData : M (state K) (bytes * CaptureInfo) :=
  b ← gets sniffer;
  _ ← (if lastReadLen b <=? readBytesConsumed b then fill else mret tt);
  b ← gets sniffer;
  rest ← lift (_ ← index (readBuffer b) (readBytesConsumed b); slice_from (readBuffer b) (readBytesConsumed b));
  let hdr := hdr_at rest in
  let frameStart := readBytesConsumed b + h_Hdrlen hdr in
  _ ← modify (set_readBytesConsumed (readBytesConsumed b + bpfWordAlign (h_Hdrlen hdr + h_Caplen hdr)));
  if len (readBuffer b) <? frameStart + h_Caplen hdr then
    throw (errors_New "BPF captured frame received with corrupted BpfHdr struct.")
  else
    rawFrame ← lift (slice (readBuffer b) frameStart (frameStart + h_Caplen hdr));
    mret (rawFrame, mkCaptureInfo (hdr_time hdr) (len rawFrame) (len rawFrame) 0).

Definition GetReadBufLen : M (state K) Z := gets (fun s => ReadBufLen (opts s)).
End sniffing.

(** ** Reading what the kernel delivered *)

Lemma bpfWordAlign_eq x : bpfWordAlign x = 8 * ((x + 7) / 8).
Proof.
  unfold bpfWordAlign, wordSize. change (8 - 1) with (Z.ones 3). rewrite <-Z.ldiff_land, Z.ldiff_ones_r by lia.
  rewrite Z.shiftl_mul_pow2, Z.shiftr_div_pow2 by lia. change (Z.ones 3) with 7. change (2 ^ 3) with 8. lia.
Qed.

Section frames.
Context {K : Type} `{Bpf K} (hdr_at : bytes → BpfHdr).
Implicit Types s : state K.

(** A frame as it lies in a buffer: header, data, padding. *)
Record frame : Type := mkFrame { fr_hdr : bytes; fr_info : BpfHdr; fr_data : bytes; fr_pad : bytes }.
Definition frame_bytes (f : frame) : bytes := fr_hdr f ++ fr_data f ++ fr_pad f.

Record frame_ok (f : frame) : Prop := {
  fo_hdrlen : h_Hdrlen (fr_info f) = len (fr_hdr f);
  fo_nonempty : 0 < len (fr_hdr f);
  fo_caplen : h_Caplen (fr_info f) = len (fr_data f);
  fo_parsed rest : hdr_at (fr_hdr f ++ rest) = fr_info f;
}.

(** As [bpf(4)] documents it, a frame is padded to the next multiple of
    [BPF_ALIGNMENT] bytes; the last one may be without padding. *)
Definition padded (alignment : Z) (f : frame) : Prop :=
  len (fr_pad f) < alignment ∧ (alignment | len (frame_bytes f)).

Fixpoint laid_out (alignment : Z) (fs : list frame) : Prop :=
  match fs with
  | [] => True
  | f :: fs => frame_ok f ∧ laid_out alignment fs ∧ (padded alignment f ∨ fs = [] ∧ fr_pad f = [])
  end.

Definition frame_packet (f : frame) : bytes * CaptureInfo :=
  (fr_data f, mkCaptureInfo (hdr_time (fr_info f)) (len (fr_data f)) (len (fr_data f)) 0).

Fixpoint read_packets (n : nat) : M (state K) (list (bytes * CaptureInfo)) :=
  match n with
  | O => mret []
  | S n => p ← ReadPacketData hdr_at; ps ← read_packets n; mret (p :: ps)
  end.

(** [s] has buffered [fs], which are still to be read. *)
Record buffered s (fs : list frame) : Prop := {
  bu_at : readBytesConsumed (sniffer s) < lastReadLen (sniffer s);
  bu_bytes : ∃ pre post, readBuffer (sniffer s) = pre ++ concat (frame_bytes <$> fs) ++ post ∧
    readBytesConsumed (sniffer s) = len pre ∧ lastReadLen (sniffer s) = len pre + len (concat (frame_bytes <$> fs));
  bu_laid : laid_out 8 fs;
}.

(** All that has been read has been returned. *)
Definition drained s : Prop := lastReadLen (sniffer s) <= readBytesConsumed (sniffer s).

(** What the frames do not change. *)
Definition keeps s s' : Prop := options (sniffer s') = options (sniffer s) ∧ fd (sniffer s') = fd (sniffer s) ∧ shared s' = shared s.

Lemma frame_bytes_len f : len (frame_bytes f) = len (fr_hdr f) + len (fr_data f) + len (fr_pad f).
Proof. unfold frame_bytes. lens. Qed.

(** The sniffer finds the end of a frame with its padding. *)
Lemma frame_end f : padded 8 f → bpfWordAlign (len (fr_hdr f) + len (fr_data f)) = len (frame_bytes f).
Proof.
  intros [Hp [q Hq]]. rewrite bpfWordAlign_eq. rewrite frame_bytes_len in *. pose proof (len_nonneg (fr_pad f)). zdiv.
Qed.

Lemma frame_end_last f : padded 8 f ∨ fr_pad f = [] → len (frame_bytes f) <= bpfWordAlign (len (fr_hdr f) + len (fr_data f)).
Proof.
  intros [Hp|Hp]; [by rewrite frame_end|]. rewrite bpfWordAlign_eq, frame_bytes_len, Hp. change (len []) with 0.
  pose proof (len_nonneg (fr_hdr f)). pose proof (len_nonneg (fr_data f)). zdiv.
Qed.

(** Reading a frame that lies in the buffer. *)
Lemma read_frame s f fs : buffered s (f :: fs) → ∃ s', ReadPacketData hdr_at s = (Ok (frame_packet f), s') ∧ keeps s s' ∧ kernel s' = kernel s ∧
  match fs with [] => drained s' | _ => buffered s' fs end.
Proof.
  intros [Hat (pre & post & Hb & Hc & Hl) (Hf & Hfs & Hlen)]. pose proof Hf as [E1 E2 E3 E4]. cbn [fmap list_fmap concat] in Hb, Hl. rewrite len_app, frame_bytes_len in Hl.
  set (more := concat (frame_bytes <$> fs)) in *. pose proof (len_nonneg pre). pose proof (len_nonneg (fr_data f)). pose proof (len_nonneg (fr_pad f)).
  pose proof (len_nonneg more). pose proof (len_nonneg post).
  unfold ReadPacketData, gets. rewrite bind_eq. destruct (Z.leb_spec (lastReadLen (sniffer s)) (readBytesConsumed (sniffer s))); [lia|].
  rewrite bind_eq, ret_eq, bind_eq, lift_bind, Hb, Hc.
  assert (pre ++ (frame_bytes f ++ more) ++ post = pre ++ fr_hdr f ++ fr_data f ++ fr_pad f ++ more ++ post) as -> by (unfold frame_bytes; by rewrite <-!app_assoc).
  destruct (index_ok (pre ++ fr_hdr f ++ fr_data f ++ fr_pad f ++ more ++ post) (len pre)) as (a & _ & ->); [lens|].
  cbn [mbind outcome_bind]. rewrite slice_from_app by done. rewrite bind_eq. unfold modify. rewrite E4, E1, E3.
  destruct (Z.ltb_spec (len (pre ++ fr_hdr f ++ fr_data f ++ fr_pad f ++ more ++ post)) (len pre + len (fr_hdr f) + len (fr_data f))) as [Hlt|_]; [lens|].
  rewrite lift_bind. rewrite (app_assoc pre), slice_app by lens.
  eexists. split; [reflexivity|]. split; [done|]. split; [done|]. unfold set_readBytesConsumed, on_sniffer, drained. destruct fs as [|f' fs].
  - pose proof (frame_end_last f ltac:(naive_solver)) as Hend. cbn [sniffer lastReadLen readBytesConsumed]. unfold more in Hl. cbn [fmap list_fmap concat] in Hl. rewrite len_nil in Hl. rewrite frame_bytes_len in Hend. lia.
  - destruct Hlen as [Hlen%frame_end|[? _]]; [|done]. split; [| |done].
    + cbn [sniffer lastReadLen readBytesConsumed]. rewrite Hlen, frame_bytes_len, Hl.
      enough (0 < len more) by lia. unfold more. cbn. destruct Hfs as ([] & _). rewrite len_app, frame_bytes_len.
      pose proof (len_nonneg (fr_data f')). pose proof (len_nonneg (fr_pad f')). pose proof (len_nonneg (concat (frame_bytes <$> fs))). lia.
    + cbn [sniffer lastReadLen readBytesConsumed readBuffer]. exists (pre ++ frame_bytes f), post. rewrite Hlen.
      split; [by rewrite Hb, <-!app_assoc|]. rewrite len_app, frame_bytes_len. split; [lia|]. rewrite Hl. fold more. lia.
Qed.

Lemma read_buffered fs : ∀ s, fs ≠ [] → buffered s fs → ∃ s', read_packets (length fs) s = (Ok (frame_packet <$> fs), s') ∧
  keeps s s' ∧ kernel s' = kernel s ∧ drained s'.
Proof.
  induction fs as [|f fs IH]; [done|]. intros s _ Hs. destruct (read_frame s f fs Hs) as (s1 & E1 & Hk1 & Ek1 & H1).
  cbn [length read_packets]. rewrite (bind_ok _ _ _ _ _ E1). destruct fs as [|f' fs]; [by exists s1|].
  destruct (IH s1) as (s2 & E2 & Hk2 & Ek2 & H2); [done..|]. rewrite (bind_ok _ _ _ _ _ E2). exists s2. split; [done|].
  unfold keeps in *. intuition congruence.
Qed.

(** The reads of the descriptor [f] with room for [n] bytes that fill one buffer after the other. *)
Inductive delivers (f n : Z) : K → list (list frame) → K → Prop :=
  | del_nil k : delivers f n k [] k
  | del_cons k fs k' batches k'' : fs ≠ [] → laid_out 8 fs → len (concat (frame_bytes <$> fs)) <= n →
      sys_Read f n k = (Ok (concat (frame_bytes <$> fs)), k') → delivers f n k' batches k'' → delivers f n k (fs :: batches) k''.

Lemma read_packets_app n m s ps s1 : read_packets n s = (Ok ps, s1) →
  read_packets (n + m) s = match read_packets m s1 with
                           | (Ok qs, s2) => (Ok (ps ++ qs), s2)
                           | (Err e, s2) => (Err e, s2) | (Panic c, s2) => (Panic c, s2) | (NoFuel, s2) => (NoFuel, s2)
                           end.
Proof.
  revert s ps s1. induction n as [|n IH]; intros s ps s1 E; cbn [read_packets plus] in *.
  { injection E as <- <-. by destruct (read_packets m s) as [[]]. }
  rewrite bind_eq in E |- *. destruct (ReadPacketData hdr_at s) as [[p|e|c|] s0]; try done. rewrite bind_eq in E |- *.
  destruct (read_packets n s0) as [[qs|e|c|] s2] eqn:E2; try done. injection E as <- <-. rewrite (IH _ _ _ E2).
  by destruct (read_packets m s2) as [[]].
Qed.

(** A read leaves the frames of the kernel's answer buffered. *)
Lemma filled s fs k' n : drained s → ReadBufLen (opts s) = n → len (concat (frame_bytes <$> fs)) <= n → fs ≠ [] → laid_out 8 fs →
  sys_Read (fd (sniffer s)) n (kernel s) = (Ok (concat (frame_bytes <$> fs)), k') →
  ∃ s', ReadPacketData hdr_at s = ReadPacketData hdr_at s' ∧ keeps s s' ∧ kernel s' = k' ∧ buffered s' fs.
Proof.
  intros Hd Hn Hle Hne Hl Hr. set (data := concat (frame_bytes <$> fs)) in *. pose proof (len_nonneg data).
  assert (0 < len data) as Hpos.
  { destruct fs as [|f fs]; [done|]. destruct Hl as ([] & _). unfold data. cbn. rewrite len_app, frame_bytes_len.
    pose proof (len_nonneg (fr_data f)). pose proof (len_nonneg (fr_pad f)). pose proof (len_nonneg (concat (frame_bytes <$> fs))). lia. }
  set (buf := data ++ drop (length data) (replicate (Z.to_nat n) 0)).
  assert (fill s = (Ok (), mkState (mkSniffer (options (sniffer s)) (sniffDeviceName (sniffer s)) (fd (sniffer s)) buf (len data) 0) (shared s) k')) as Ef.
  { unfold fill, modify, gets. rewrite bind_eq. unfold make_buffer, gets. rewrite !bind_eq.
    change (opts (set_readBytesConsumed 0 s)) with (opts s). rewrite Hn. destruct (Z.ltb_spec n 0); [lia|].
    unfold modify. rewrite bind_eq. cbn [set_readBuffer on_sniffer sniffer readBuffer]. rewrite len_replicate, Z2Nat.id by lia.
    rewrite bind_eq. unfold attempt, sys_fd, get. rewrite bind_eq. unfold sys, zoom. cbn [set_readBytesConsumed set_readBuffer on_sniffer sniffer fd kernel]. rewrite Hr.
    rewrite bind_eq. cbn [sniffer readBuffer set_readBuffer on_sniffer]. rewrite lift_bind.
    assert (replicate (Z.to_nat n) 0 = take (length data) (replicate (Z.to_nat n) 0) ++ drop (length data) (replicate (Z.to_nat n) 0)) as -> by (by rewrite take_drop).
    unfold copy_from. rewrite slice_from_ok by lens. cbn [mbind outcome_bind]. change (Z.to_nat 0) with O. rewrite drop_0, (take_ge data); cycle 1.
    { rewrite length_app, length_take, length_drop, length_replicate. unfold len in *. lia. }
    pose proof (write_at_app [] (take (length data) (replicate (Z.to_nat n) 0)) (drop (length data) (replicate (Z.to_nat n) 0)) data 0) as Hw.
    cbn [app] in Hw. rewrite Hw; [done|done|]. rewrite len_take, len_replicate. unfold len in *. lia. }
  exists (mkState (mkSniffer (options (sniffer s)) (sniffDeviceName (sniffer s)) (fd (sniffer s)) buf (len data) 0) (shared s) k').
  split; [|split; [|split]].
  - unfold ReadPacketData, gets. rewrite !bind_eq. unfold drained in Hd. destruct (Z.leb_spec (lastReadLen (sniffer s)) (readBytesConsumed (sniffer s))); [|lia].
    rewrite Ef. cbn [sniffer lastReadLen readBytesConsumed]. destruct (Z.leb_spec (len data) 0); [lia|]. by rewrite ret_eq.
  - done.
  - done.
  - split; [done| |done]. exists [], (drop (length data) (replicate (Z.to_nat n) 0)). done.
Qed.

(** C19 (functional): where the kernel pads frames to eight bytes - the size of a
    pointer, as FreeBSD, NetBSD and DragonFly do on 64-bit machines -, reading returns
    the frames that it delivered, in order, over any number of buffers: the bytes that were
    captured of each, their number as both of its lengths, and its time. *)
Theorem bpf_reads_frames s batches k' : drained s → delivers (fd (sniffer s)) (ReadBufLen (opts s)) (kernel s) batches k' →
  ∃ s', read_packets (length (concat batches)) s = (Ok (frame_packet <$> concat batches), s') ∧ kernel s' = k' ∧ drained s'.
Proof.
  intros Hs Hd. remember (kernel s) as k eqn:Ek. remember (fd (sniffer s)) as f eqn:Ef. remember (ReadBufLen (opts s)) as n eqn:En. revert s Hs Ek Ef En.
  induction Hd as [k|k fs k1 batches k'' Hne Hl Hle Hr _ IH]; intros s Hs -> -> ->; [by exists s|].
  destruct (filled s fs k1 _ Hs eq_refl Hle Hne Hl Hr) as (s1 & E & (K1 & K2 & K3) & Ek & Hb).
  destruct (read_buffered fs s1 Hne Hb) as (s2 & E2 & (K4 & K5 & K6) & Ek2 & Hd2).
  assert (read_packets (length fs) s = (Ok (frame_packet <$> fs), s2)) as E3.
  { destruct fs; [done|]. cbn [length read_packets] in *. rewrite bind_eq, E. by rewrite bind_eq in E2. }
  destruct (IH s2 Hd2) as (s3 & E4 & ? & ?); [congruence|congruence|unfold opts; by rewrite K4, K1, K6, K3|].
  exists s3. cbn [concat]. rewrite length_app, fmap_app. rewrite (read_packets_app _ _ _ _ _ E3), E4. done.
Qed.
End frames.

(** ** A system that answers reads from a list and notes the descriptors it is asked for *)

Definition system : Type := list bytes * list Z.
Definition noted (f : Z) : M system unit := modify (fun k => (k.1, k.2 ++ [f])).
#[export] Instance system_Bpf : Bpf system := {
  sys_Open _ := mret 5;
  sys_Close := noted;
  sys_Read f _ := fun k => match k.1 with
                           | [] => (Ok [], k)
                           | l :: reads => (Ok l, (reads, k.2))
                           end;
  BpfBuflen f := _ ← noted f; mret 4096;
  SetBpfBuflen f n := _ ← noted f; mret n;
  SetBpfInterface f _ := noted f;
  SetBpfImmediate f _ := noted f;
  SetBpfTimeout f _ := noted f;
  SetBpfHeadercmpl f _ := noted f;
  SetBpfPromisc f _ := noted f;
}.

(** A header of eight bytes. *)
Definition small_hdr (l : bytes) : BpfHdr :=
  match l with sec :: usec :: cap :: hl :: _ => mkBpfHdr sec usec cap hl | _ => mkBpfHdr 0 0 0 0 end.

Definition small_frame (sec : Z) (data pad : bytes) : frame :=
  mkFrame [sec; 0; len data; 8; 0; 0; 0; 0] (mkBpfHdr sec 0 (len data) 8) data pad.

Definition small_state (k : system) : state system :=
  mkState (mkSniffer (Own (mkOptions "/dev/bpf3" 64 None true true true)) "em0" 5 [] 0 0) defaultOptions k.

Definition two_batches : list (list frame) :=
  [[small_frame 7 [1; 2; 3] [0; 0; 0; 0; 0]; small_frame 8 [4] []]; [small_frame 9 [5; 6] []]].

Lemma bpf_reads_frames_witness : ∃ s',
  read_packets small_hdr 3 (small_state ((fun fs => concat (frame_bytes <$> fs)) <$> two_batches, [])) =
    (Ok [([1; 2; 3], mkCaptureInfo (mkTime 7 0) 3 3 0); ([4], mkCaptureInfo (mkTime 8 0) 1 1 0); ([5; 6], mkCaptureInfo (mkTime 9 0) 2 2 0)], s') ∧
  kernel s' = ([], []) ∧ drained s'.
Proof.
  apply (bpf_reads_frames small_hdr (small_state _) two_batches ([], [])); [unfold drained; cbn; lia|].
  eapply del_cons; [done| |vm_compute; congruence|reflexivity|eapply del_cons; [done| |vm_compute; congruence|reflexivity|apply del_nil]].
  - split; [by split|]. split; [split; [by split|]; split; [done|by right]|]. left. split; [done|]. by exists 2.
  - split; [by split|]. split; [done|by right].
Defined.

(** ** What the sniffer does otherwise *)

(** Where [BPF_ALIGNMENT] is 4, as on Darwin and OpenBSD, the second frame of a
    buffer is looked for at the wrong place. *)
Definition aligned_to_4 : list frame := [small_frame 7 [1; 2; 3] [0]; small_frame 8 [4] []].
Lemma alignment_4_misread : laid_out small_hdr 4 aligned_to_4 ∧
  (read_packets small_hdr 2 (small_state ([concat (frame_bytes <$> aligned_to_4)], []))).1 =
    Ok [([1; 2; 3], mkCaptureInfo (mkTime 7 0) 3 3 0); ([], mkCaptureInfo (mkTime 0 0) 0 0 0)].
Proof.
  split; [|by vm_compute]. split; [by split|]. split; [split; [by split|]; split; [done|by right]|]. left. split; [done|]. by exists 3.
Qed.

(** A device that is named in the options is not opened: the calls go to descriptor 0. *)
Lemma named_device_not_opened :
  (NewBPFSniffer "em0" (Some (mkOptions "/dev/bpf3" 64 None false false false)) defaultOptions ([], [] : list Z)).1 = Ok () ∧
  (kernel (NewBPFSniffer "em0" (Some (mkOptions "/dev/bpf3" 64 None false false false)) defaultOptions ([], [] : list Z)).2).2 = [0; 0].
Proof. by vm_compute. Qed.

(** The first sniffer with default options leaves the name of its device in them,
    so that the second one opens none. *)
Lemma second_sniffer_opens_nothing :
  let r1 := NewBPFSniffer "em0" None defaultOptions ([], [] : list Z) in
  let r2 := NewBPFSniffer "em1" None (shared r1.2) ([], [] : list Z) in
  r1.1 = Ok () ∧ r2.1 = Ok () ∧ fd (sniffer r1.2) = 5 ∧ fd (sniffer r2.2) = 0 ∧ (kernel r2.2).2 = [0; 0; 0; 0; 0].
Proof. by vm_compute. Qed.

(** A read that times out gives no bytes and no error; the sniffer then returns an empty packet. *)
Lemma timeout_is_a_packet :
  (ReadPacketData small_hdr (small_state ([], []))).1 = Ok ([], mkCaptureInfo (mkTime 0 0) 0 0 0).
Proof. by vm_compute. Qed.
