(* ===== verification/Afpacket.v ===== *)
(** * AF_PACKET sockets ([afpacket/afpacket.go], [afpacket/header.go], [afpacket/options.go])

    A [TPacket] reads packets from a ring of memory that the kernel fills. The
    memory is an interface: the structures of [golang.org/x/sys/unix] at an
    address, which counts from the start of the ring. The kernel works whenever the
    reader looks at a status word and while it polls. Locks are left out. *)

From S2P Require Import Prelude Capture.

(** ** Options *)

Definition Millisecond : Z := 1000000.

Record options : Type := mkOpts {
  frameSize : Z; framesPerBlock : Z; blockSize : Z; numBlocks : Z;
  addVLANHeader : bool; blockTimeout : Z; pollTimeout : Z; version : Z; socktype : Z; iface : string;
}.

(** An argument of [NewTPacket]: one of the [Opt] types, or something else. *)
Inductive option_arg : Type :=
  | OptFrameSize (v : Z) | OptBlockSize (v : Z) | OptNumBlocks (v : Z) | OptBlockTimeout (v : Z) | OptPollTimeout (v : Z)
  | OptTPacketVersion (v : Z) | OptInterface (v : string) | OptSocketType (v : Z) | OptAddVLANHeader (v : bool) | OptOther.

Definition TPacketVersionHighestAvailable : Z := -1.
Definition TPacketVersion1 : Z := 0.
Definition TPacketVersion2 : Z := 1.
Definition TPacketVersion3 : Z := 2.

Definition defaultOpts : options := mkOpts 4096 0 (4096 * 128) 128 false (64 * Millisecond) (-1 * Millisecond) (-1) 3 "".

Definition set_option (o : options) (a : option_arg) : outcome options :=
  match o with
  | mkOpts fs fpb bs nb vl bt pt ve so ifc =>
      match a with
      | OptFrameSize v => Ok (mkOpts v fpb bs nb vl bt pt ve so ifc)
      | OptBlockSize v => Ok (mkOpts fs fpb v nb vl bt pt ve so ifc)
      | OptNumBlocks v => Ok (mkOpts fs fpb bs v vl bt pt ve so ifc)
      | OptBlockTimeout v => Ok (mkOpts fs fpb bs nb vl v pt ve so ifc)
      | OptPollTimeout v => Ok (mkOpts fs fpb bs nb vl bt v ve so ifc)
      | OptTPacketVersion v => Ok (mkOpts fs fpb bs nb vl bt pt v so ifc)
      | OptInterface v => Ok (mkOpts fs fpb bs nb vl bt pt ve so v)
      | OptSocketType v => Ok (mkOpts fs fpb bs nb vl bt pt ve v ifc)
      | OptAddVLANHeader v => Ok (mkOpts fs fpb bs nb v bt pt ve so ifc)
      | OptOther => Err (errors_New "unknown type in options")
      end
  end.

Fixpoint set_options (o : options) (args : list option_arg) : outcome options :=
  match args with
  | [] => Ok o
  | a :: args => o ← set_option o a; set_options o args
  end.

(** [a % b] and [a / b] on [int] *)
Definition go_rem (a b : Z) : outcome Z := if b =? 0 then Panic (Panicked "integer divide by zero") else Ok (Z.rem a b).
Definition go_div (a b : Z) : outcome Z := if b =? 0 then Panic (Panicked "integer divide by zero") else Ok (Z.quot a b).

Section checks.
Context (pageSize : Z).

Definition check (o : options) : outcome unit :=
  r ← go_rem (blockSize o) pageSize;
  if negb (r =? 0) then Err (Errorf "block size %d must be divisible by page size %d" [blockSize o; pageSize]) else
  r ← go_rem (blockSize o) (frameSize o);
  if negb (r =? 0) then Err (Errorf "block size %d must be divisible by frame size %d" [blockSize o; frameSize o]) else
  if numBlocks o <? 1 then Err (Errorf "num blocks %d must be >= 1" [numBlocks o]) else
  if blockTimeout o <? Millisecond then Err (Errorf "block timeout %v must be > %v" [blockTimeout o; Millisecond]) else
  if (version o <? -1) || (TPacketVersion3 <? version o) then Err (Errorf "tpacket version %v is invalid" [version o]) else
  Ok tt.

Definition parseOptions (args : list option_arg) : outcome options :=
  o ← set_options defaultOpts args;
  _ ← check o;
  n ← go_div (blockSize o) (frameSize o);
  match o with mkOpts fs _ bs nb vl bt pt ve so ifc => Ok (mkOpts fs n bs nb vl bt pt ve so ifc) end.
End checks.

(** ** The memory that is shared with the kernel *)

Record tpacketHdr : Type := mkTp1 { t1_Status : Z; t1_Len : Z; t1_Snaplen : Z; t1_Mac : Z; t1_Sec : Z; t1_Usec : Z }.
Record tpacket2Hdr : Type := mkTp2 { t2_Status : Z; t2_Len : Z; t2_Snaplen : Z; t2_Mac : Z; t2_Sec : Z; t2_Nsec : Z; t2_Vlan_tci : Z }.
Record tpacket3Hdr : Type := mkTp3 {
  t3_Next_offset : Z; t3_Sec : Z; t3_Nsec : Z; t3_Snaplen : Z; t3_Len : Z; t3_Status : Z; t3_Mac : Z; t3_Vlan_tci : Z;
}.
Record tpacketHdrV1 : Type := mkBlock { Block_status : Z; Num_pkts : Z; Offset_to_first_pkt : Z }.

Class Memory (Mem : Type) := {
  tp1_at : Mem → Z → tpacketHdr;
  tp2_at : Mem → Z → tpacket2Hdr;
  tp3_at : Mem → Z → tpacket3Hdr;
  block_at : Mem → Z → tpacketHdrV1;
  ifindex_at : Mem → Z → Z;
  bytes_at : Mem → Z → Z → bytes;
  clear_tp1 : Z → Mem → Mem;
  clear_tp2 : Z → Mem → Mem;
  clear_block : Z → Mem → Mem;
  sizeofTpacketHdr : Z;
  sizeofTpacket2Hdr : Z;
  sizeofTpacket3Hdr : Z;
}.

(** The kernel: [meanwhile] is what it does until a status word is read, [sys_Poll]
    what it does during a poll, with the number, the events and the error returned. *)
Class Kernel (Mem W : Type) := {
  meanwhile : Mem → W → Mem * W;
  sys_Poll : Z → Mem → W → (Z * Z * option Z) * (Mem * W);
}.

Definition TP_STATUS_USER : Z := 1.
Definition TP_STATUS_VLAN_VALID : Z := 16.
Definition POLLERR : Z := 8.
Definition EINTR : Z := 4.

Definition tpAlign (x : Z) : Z := Z.land (x + 15) (Z.lnot 15).

Definition insertVlanHeader (data : bytes) (vlanTCI : Z) (o : options) : outcome bytes :=
  if (vlanTCI =? 0) || negb (addVLANHeader o) then Ok data
  else
    l ← slice data 0 12;
    r ← slice_from data 12;
    Ok (l ++ [129; 0; Z.land (Z.shiftr vlanTCI 8) 255; Z.land vlanTCI 255] ++ r).

(** [v3wrapper]: the block, the packet, the number of packets used *)
Record v3wrapper : Type := mkV3 { w_block : Z; w_packet : Z; w_used : Z }.

Inductive header : Type := V1 (addr : Z) | V2 (addr : Z) | V3 (w : v3wrapper).

Record Stats : Type := mkStats { Packets : Z; Polls : Z }.

Record TPacket : Type := mkTPacket {
  stats : Stats;
  opts : options;
  offset : Z;
  current : option header;
  shouldReleasePacket : bool;
  headerNextNeeded : bool;
  tpVersion : Z;
}.

Section reading.
Context {Mem W : Type} `{Memory Mem} `{Kernel Mem W}.

(** The reader, the memory and the kernel. *)
Record state : Type := mkSt { tp : TPacket; mem : Mem; world : W }.
Implicit Types s : state.

Definition set_stats v (t : TPacket) := mkTPacket v (opts t) (offset t) (current t) (shouldReleasePacket t) (headerNextNeeded t) (tpVersion t).
Definition set_offset v (t : TPacket) := mkTPacket (stats t) (opts t) v (current t) (shouldReleasePacket t) (headerNextNeeded t) (tpVersion t).
Definition set_current v (t : TPacket) := mkTPacket (stats t) (opts t) (offset t) v (shouldReleasePacket t) (headerNextNeeded t) (tpVersion t).
Definition set_release v (t : TPacket) := mkTPacket (stats t) (opts t) (offset t) (current t) v (headerNextNeeded t) (tpVersion t).
Definition set_needed v (t : TPacket) := mkTPacket (stats t) (opts t) (offset t) (current t) (shouldReleasePacket t) v (tpVersion t).
Definition on_tp (f : TPacket → TPacket) s : state := mkSt (f (tp s)) (mem s) (world s).
Definition on_mem (f : Mem → Mem) s : state := mkSt (tp s) (f (mem s)) (world s).

Definition initV3Wrapper (m : Mem) (block : Z) : v3wrapper := mkV3 block (block + Offset_to_first_pkt (block_at m block)) 0.

(** The methods of the three headers, and what a call through the interface does. *)
Definition v1_getTime (m : Mem) (a : Z) : time := time_Unix (t1_Sec (tp1_at m a)) (t1_Usec (tp1_at m a) * 1000).
Definition v2_getTime (m : Mem) (a : Z) : time := time_Unix (t2_Sec (tp2_at m a)) (t2_Nsec (tp2_at m a)).
Definition v3_getTime (m : Mem) (v : v3wrapper) : time := time_Unix (t3_Sec (tp3_at m (w_packet v))) (t3_Nsec (tp3_at m (w_packet v))).

Definition v1_getData (m : Mem) (a : Z) : bytes := bytes_at m (a + t1_Mac (tp1_at m a)) (t1_Snaplen (tp1_at m a)).
Definition v2_getData (m : Mem) (a : Z) (o : options) : outcome bytes :=
  let t := tp2_at m a in insertVlanHeader (bytes_at m (a + t2_Mac t) (t2_Snaplen t)) (t2_Vlan_tci t) o.
Definition v3_getData (m : Mem) (v : v3wrapper) (o : options) : outcome bytes :=
  let t := tp3_at m (w_packet v) in insertVlanHeader (bytes_at m (w_packet v + t3_Mac t) (t3_Snaplen t)) (t3_Vlan_tci t) o.

Definition v1_getIfaceIndex (m : Mem) (a : Z) : Z := ifindex_at m (a + tpAlign sizeofTpacketHdr).
Definition v2_getIfaceIndex (m : Mem) (a : Z) : Z := ifindex_at m (a + tpAlign sizeofTpacket2Hdr).
Definition v3_getIfaceIndex (m : Mem) (v : v3wrapper) : Z := ifindex_at m (w_packet v + tpAlign sizeofTpacket3Hdr).

Definition v3_getVLAN (m : Mem) (v : v3wrapper) : Z :=
  let t := tp3_at m (w_packet v) in
  if has_bits (t3_Status t) TP_STATUS_VLAN_VALID then Z.land (t3_Vlan_tci t) 4095 else -1.

Definition v3_next (m : Mem) (v : v3wrapper) : bool * v3wrapper :=
  let used := u32 (w_used v + 1) in
  if Num_pkts (block_at m (w_block v)) <=? used then (false, mkV3 (w_block v) (w_packet v) used)
  else
    let t := tp3_at m (w_packet v) in
    let nextOffset := if t3_Next_offset t =? 0 then tpAlign (t3_Snaplen t + t3_Mac t) else t3_Next_offset t in
    (true, mkV3 (w_block v) (w_packet v + nextOffset) used).

Definition getStatus (h : header) : M state Z := fun s =>
  match meanwhile (mem s) (world s) with
  | (m, w) =>
      (Ok match h with
          | V1 a => t1_Status (tp1_at m a)
          | V2 a => t2_Status (tp2_at m a)
          | V3 v => Block_status (block_at m (w_block v))
          end, mkSt (tp s) m w)
  end.

Definition clearStatus (h : header) : Mem → Mem :=
  match h with V1 a => clear_tp1 a | V2 a => clear_tp2 a | V3 v => clear_block (w_block v) end.

Definition getTime (m : Mem) (h : header) : time :=
  match h with V1 a => v1_getTime m a | V2 a => v2_getTime m a | V3 v => v3_getTime m v end.

Definition getData (m : Mem) (h : header) (o : options) : outcome bytes :=
  match h with V1 a => Ok (v1_getData m a) | V2 a => v2_getData m a o | V3 v => v3_getData m v o end.

Definition getLength (m : Mem) (h : header) : Z :=
  match h with V1 a => t1_Len (tp1_at m a) | V2 a => t2_Len (tp2_at m a) | V3 v => t3_Len (tp3_at m (w_packet v)) end.

Definition getIfaceIndex (m : Mem) (h : header) : Z :=
  match h with V1 a => v1_getIfaceIndex m a | V2 a => v2_getIfaceIndex m a | V3 v => v3_getIfaceIndex m v end.

Definition getVLAN (m : Mem) (h : header) : Z :=
  match h with V3 v => v3_getVLAN m v | _ => -1 end.

(** [next], with the header it moved. *)
Definition next (m : Mem) (h : header) : bool * header :=
  match h with V3 v => match v3_next m v with (b, v) => (b, V3 v) end | h => (false, h) end.

Definition getTPacketHeader : M state header := fun s =>
  let t := tp s in
  let o := opts t in
  let wrap n := if n <=? offset t then 0 else offset t in
  let at_ off := on_tp (set_offset off) s in
  if tpVersion t =? TPacketVersion1 then
    let off := wrap (framesPerBlock o * numBlocks o) in (Ok (V1 (frameSize o * off)), at_ off)
  else if tpVersion t =? TPacketVersion2 then
    let off := wrap (framesPerBlock o * numBlocks o) in (Ok (V2 (frameSize o * off)), at_ off)
  else if tpVersion t =? TPacketVersion3 then
    let off := wrap (numBlocks o) in (Ok (V3 (initV3Wrapper (mem s) (frameSize o * off * framesPerBlock o))), at_ off)
  else (Panic (Panicked "handle tpacket version is invalid"), s).

Definition releaseCurrentPacket : M state unit :=
  c ← gets (fun s => current (tp s));
  match c with
  | None => lift (Panic NilDereference)
  | Some h => _ ← modify (on_mem (clearStatus h)); modify (on_tp (fun t => set_release false (set_offset (offset t + 1) t)))
  end.

Definition ErrPoll : error := errors_New "packet poll failed".
Definition ErrTimeout : error := errors_New "packet poll timeout expired".

Fixpoint poll_loop (fuel : nat) (tm : Z) (h : header) : M state unit :=
  match fuel with
  | O => lift NoFuel
  | S fuel =>
      st ← getStatus h;
      if negb (has_bits st TP_STATUS_USER) then
        r ← (fun s => match sys_Poll tm (mem s) (world s) with (r, (m, w)) => (Ok r, mkSt (tp s) m w) end);
        match r with
        | (n, revents, err) =>
            if n =? 0 then throw ErrTimeout
            else
              _ ← modify (on_tp (fun t => set_stats (mkStats (Packets (stats t)) (Polls (stats t) + 1)) t));
              if has_bits revents POLLERR then throw ErrPoll
              else match err with
                   | Some e => if e =? EINTR then poll_loop fuel tm h else throw (Errorf "errno" [e])
                   | None => poll_loop fuel tm h
                   end
        end
      else modify (on_tp (set_release true))
  end.

Definition pollForFirstPacket (fuel : nat) (h : header) : M state unit :=
  o ← gets (fun s => opts (tp s)); poll_loop fuel (Z.quot (pollTimeout o) Millisecond) h.

(** [h.current == nil || !h.headerNextNeeded || !h.current.next()], negated *)
Definition move_on : M state bool := fun s =>
  match current (tp s) with
  | None => (Ok false, s)
  | Some h =>
      if headerNextNeeded (tp s) then
        match next (mem s) h with (b, h) => (Ok b, on_tp (set_current (Some h)) s) end
      else (Ok false, s)
  end.

(** The header of the next packet; a block that is empty is passed over. *)
Fixpoint next_header (fuel polls : nat) : M state unit :=
  match fuel with
  | O => lift NoFuel
  | S fuel =>
      moved ← move_on;
      if moved : bool then mret tt
      else
        b ← gets (fun s => shouldReleasePacket (tp s));
        _ ← (if b : bool then releaseCurrentPacket else mret tt);
        h ← getTPacketHeader;
        _ ← modify (on_tp (set_current (Some h)));
        r ← attempt (pollForFirstPacket polls h);
        match r with
        | inr e => _ ← modify (on_tp (set_needed false)); throw e
        | inl _ =>
            n ← gets (fun s => getLength (mem s) h);
            if n =? 0 then next_header fuel polls else mret tt
        end
  end.

(** A packet as it is returned: data, metadata, and the VLAN in [AncillaryData]. *)
Definition packet : Type := bytes * CaptureInfo * list Z.

Definition packet_at (m : Mem) (h : header) (o : options) : outcome packet :=
  data ← getData m h o;
  let vlan := getVLAN m h in
  Ok (data, mkCaptureInfo (getTime m h) (len data) (getLength m h) (getIfaceIndex m h), if 0 <=? vlan then [vlan] else []).

Definition ZeroCopyReadPacketData (fuel polls : nat) : M state packet :=
  _ ← next_header fuel polls;
  c ← gets (fun s => current (tp s));
  match c with
  | None => lift (Panic NilDereference)
  | Some h =>
      s ← get;
      p ← lift (packet_at (mem s) h (opts (tp s)));
      _ ← modify (on_tp (fun t => set_needed true (set_stats (mkStats (Packets (stats t) + 1) (Polls (stats t))) t)));
      mret p
  end.

(** The data are copied; they are values here. *)
Definition ReadPacketData := ZeroCopyReadPacketData.

(** [ReadPacketDataTo(data)], with the contents of [data] afterwards *)
Definition ReadPacketDataTo (fuel polls : nat) (data : bytes) : M state (bytes * CaptureInfo * list Z) :=
  p ← ZeroCopyReadPacketData fuel polls;
  match p with
  | (d, ci, vlan) =>
      data' ← lift (copy_from data 0 d);
      mret (data', mkCaptureInfo (Timestamp ci) (Z.min (len data) (len d)) (Length ci) (InterfaceIndex ci), vlan)
  end.

(** A handle as [NewTPacket] returns it. *)
Definition new_handle (o : options) (ver : Z) : TPacket := mkTPacket (mkStats 0 0) o 0 None false false ver.
End reading.
