(* ===== verification/AfpacketFrames.v ===== *)
(** * The ring of frames of AF_PACKET is a queue

    With TPACKET_V1 and TPACKET_V2 the ring is an array of frames of one size. The
    kernel fills them in turn and hands each over by its status word, the reader
    empties them in turn and gives each back by clearing the word. What is assumed of
    the kernel is what Documentation/networking/packet_mmap.rst says of it: where the
    frames lie, what is in them, and that a frame changes hands by its status word
    alone. Blocks of TPACKET_V3 are in AfpacketCorrect. *)

From S2P Require Import Prelude Capture Afpacket.

(** ** Frames as they are documented *)

(** A packet that the kernel has received: its bytes as captured, its length on the
    wire, its time with the fraction in the unit of the version, the interface, and
    the VLAN tag that the hardware has removed from it, or 0. *)
Record frame : Type := mkFrame { f_bytes : bytes; f_length : Z; f_sec : Z; f_sub : Z; f_ifindex : Z; f_tag : Z }.

(** The bytes with the tag behind the two addresses. *)
Definition tag_bytes (tag : Z) : bytes := [129; 0; tag / 256; tag mod 256].
Definition with_tag (f : frame) : bytes := take 12 (f_bytes f) ++ tag_bytes (f_tag f) ++ drop 12 (f_bytes f).

(** The frames with something in them; of length 0 the reader takes none. *)
Definition solid (fs : list frame) : list frame := filter (fun f => f_length f ≠ 0) fs.

Section ring.
Context {Mem W : Type} `{Memory Mem} `{Kernel Mem W} (o : options) (ver : Z).

(** What is to be returned for a packet. *)
Definition packet_of (f : frame) : packet :=
  let data := if (ver =? TPacketVersion2) && addVLANHeader o && negb (f_tag f =? 0) then with_tag f else f_bytes f in
  (data, mkCaptureInfo (mkTime (f_sec f) (if ver =? TPacketVersion1 then f_sub f * 1000 else f_sub f)) (len data) (f_length f) (f_ifindex f), []).

Definition packets_of (fs : list frame) : list packet := packet_of <$> solid fs.

(** The number of frames; the place of the frame [i]: blocks lie one behind the other,
    and in a block the frames. *)
Definition frames : Z := framesPerBlock o * numBlocks o.
Definition place (i : Z) : Z := i / framesPerBlock o * blockSize o + i mod framesPerBlock o * frameSize o.

Definition hdr (a : Z) : header := if ver =? TPacketVersion1 then V1 a else V2 a.
Definition clear (a : Z) : Mem → Mem := if ver =? TPacketVersion1 then clear_tp1 a else clear_tp2 a.
Definition status_at (m : Mem) (a : Z) : Z := if ver =? TPacketVersion1 then t1_Status (tp1_at m a) else t2_Status (tp2_at m a).
Definition user (m : Mem) (a : Z) : bool := has_bits (status_at m a) TP_STATUS_USER.

(** The layout of a frame at [a]: the header; at the next multiple of 16 the address of
    the link layer, with the interface; at [tp_mac] the packet. A tagged packet has
    the addresses that the tag goes behind. *)
Definition aligned_up (n k : Z) : Prop := n <= k < n + 16 ∧ k mod 16 = 0.

Definition frame_at (m : Mem) (a : Z) (f : frame) : Prop :=
  ∃ mac ll, bytes_at m (a + mac) (len (f_bytes f)) = f_bytes f ∧ ifindex_at m (a + ll) = f_ifindex f ∧
  if ver =? TPacketVersion1 then
    (∃ st, tp1_at m a = mkTp1 st (f_length f) (len (f_bytes f)) mac (f_sec f) (f_sub f)) ∧ aligned_up sizeofTpacketHdr ll ∧ 0 <= f_sub f < 1000000
  else
    (∃ st, tp2_at m a = mkTp2 st (f_length f) (len (f_bytes f)) mac (f_sec f) (f_sub f) (f_tag f)) ∧ aligned_up sizeofTpacket2Hdr ll ∧ 0 <= f_sub f < 1000000000 ∧
    (f_tag f = 0 ∨ 0 < f_tag f < 65536 ∧ 12 <= len (f_bytes f)).

(** From frame [off] on, the frames of [fs] are the reader's, the others the kernel's. *)
Definition owned (m : Mem) (off : Z) (fs : list frame) : Prop :=
  len fs <= frames ∧
  (∀ (j : nat) f, fs !! j = Some f → let a := place ((off + Z.of_nat j) mod frames) in user m a = true ∧ frame_at m a f) ∧
  (∀ j, len fs <= j < frames → user m (place ((off + j) mod frames)) = false).

(** Clearing the status of a frame hands it over and leaves the others alone. *)
Class FrameMemory := {
  sizes : 0 <= sizeofTpacketHdr ∧ 0 <= sizeofTpacket2Hdr;
  clear_status i m : 0 <= i < frames → user (clear (place i) m) (place i) = false;
  clear_other i j m : 0 <= i < frames → 0 <= j < frames → i ≠ j →
    user (clear (place i) m) (place j) = user m (place j) ∧
    ∀ f, frame_at m (place j) f → frame_at (clear (place i) m) (place j) f;
}.

(** The kernel has [written] packets into the ring and goes on at [position]. It fills
    frames that are its own, in turn, and leaves the others as they are. A poll ends
    because of its timeout, of an error, of a signal, or because there is something to
    be read; [patience] bounds how often in a row it ends by a signal, or frames are
    filled with packets of length 0, so that a call comes to an end. *)
Definition fails (r : Z * Z * option Z) : Prop :=
  match r with (n, ev, err) => n = 0 ∨ has_bits ev POLLERR = true ∨ ∃ e, err = Some e ∧ e ≠ EINTR end.

Class FrameKernel := {
  written : W → list frame;
  position : W → Z;
  patience : W → nat;
  meanwhile_fills m w off fs : 0 <= off < frames → owned m off fs → position w = (off + len fs) mod frames →
    ∃ new, let r := meanwhile m w in owned r.1 off (fs ++ new) ∧ position r.2 = (off + len (fs ++ new)) mod frames ∧
      written r.2 = written w ++ new ∧ (solid new = [] → (length new + patience r.2 <= patience w)%nat);
  poll_fills tm m w off fs : 0 <= off < frames → owned m off fs → position w = (off + len fs) mod frames →
    ∃ new, let r := (sys_Poll tm m w).2 in owned r.1 off (fs ++ new) ∧ position r.2 = (off + len (fs ++ new)) mod frames ∧
      written r.2 = written w ++ new ∧
      (solid new = [] → fails (sys_Poll tm m w).1 ∨ (length new + patience r.2 < patience w)%nat);
}.

Context {FM : FrameMemory} {FK : FrameKernel}.
Hypothesis Hver : ver = TPacketVersion1 ∨ ver = TPacketVersion2.
Hypothesis Hblock : blockSize o = framesPerBlock o * frameSize o.
Hypothesis Hfpb : 0 < framesPerBlock o.
Hypothesis Hblocks : 0 < numBlocks o.
Implicit Types (s : @state Mem W) (fs gs new : list frame).

Lemma frames_pos : 0 < frames.
Proof. unfold frames. nia. Qed.

Lemma place_eq i : frameSize o * i = place i.
Proof. unfold place. rewrite Hblock. pose proof (Z.div_mod i (framesPerBlock o)). nia. Qed.

(** ** Reading one frame *)

Lemma tpAlign_eq n k : 0 <= n → aligned_up n k → tpAlign n = k.
Proof.
  intros Hn [Hk Hm]. unfold tpAlign. replace (Z.lnot 15) with (Z.lnot (Z.ones 4)) by done. rewrite <-Z.ldiff_land, Z.ldiff_ones_r by lia.
  rewrite Z.shiftr_div_pow2, Z.shiftl_mul_pow2 by lia. change (2 ^ 4) with 16. zdiv.
Qed.

Lemma time_Unix_small a b : 0 <= b < nanosPerSecond → time_Unix a b = mkTime a b.
Proof. intros Hb. unfold time_Unix. rewrite Z.div_small, Z.mod_small by lia. f_equal. lia. Qed.

Lemma insert_tag d tag : 0 < tag < 65536 → 12 <= len d → addVLANHeader o = true →
  insertVlanHeader d tag o = Ok (take 12 d ++ tag_bytes tag ++ drop 12 d).
Proof.
  intros Ht Hd Ho. unfold insertVlanHeader. rewrite Ho. destruct (Z.eqb_spec tag 0); [lia|]. cbn [orb negb].
  rewrite slice_ok, slice_from_ok by lia. unfold tag_bytes. change 255 with (Z.ones 8). rewrite !land_low, Z.shiftr_div_pow2 by lia.
  change (2 ^ 8) with 256. rewrite (Z.mod_small (tag / 256)) by zdiv. done.
Qed.

Lemma frame_read m a f : frame_at m a f → packet_at m (hdr a) o = Ok (packet_of f) ∧ getLength m (hdr a) = f_length f.
Proof.
  unfold frame_at, hdr, packet_at, packet_of. destruct sizes as [Hsize1 Hsize2]. intros (mac & ll & Hb & Hi & Hf). destruct Hver as [-> | ->]; cbn [Z.eqb TPacketVersion1 TPacketVersion2 Pos.eqb andb] in *.
  - destruct Hf as ((st & E) & Ha & Hs). cbn [getData getVLAN getTime getLength getIfaceIndex]. unfold v1_getData, v1_getTime, v1_getIfaceIndex.
    rewrite (tpAlign_eq _ ll), E by done. cbn [t1_Mac t1_Snaplen t1_Sec t1_Usec t1_Len]. by rewrite Hb, Hi, time_Unix_small by (unfold nanosPerSecond; lia).
  - destruct Hf as ((st & E) & Ha & Hs & Ht). cbn [getData getVLAN getTime getLength getIfaceIndex]. unfold v2_getData, v2_getTime, v2_getIfaceIndex.
    rewrite (tpAlign_eq _ ll), E by done. cbn [t2_Mac t2_Snaplen t2_Sec t2_Nsec t2_Len t2_Vlan_tci]. rewrite Hb, Hi, time_Unix_small by (unfold nanosPerSecond; lia).
    destruct Ht as [-> | [Ht Hl]]; [by rewrite Bool.andb_false_r|]. destruct (addVLANHeader o) eqn:Eo.
    + rewrite insert_tag by done. destruct (Z.eqb_spec (f_tag f) 0); [lia|done].
    + unfold insertVlanHeader. by rewrite Eo, Bool.orb_true_r.
Qed.

(** ** Who owns which frames *)

Lemma solid_app fs new : solid (fs ++ new) = solid fs ++ solid new.
Proof. apply filter_app. Qed.

Lemma solid_cons f fs : solid (f :: fs) = (if f_length f =? 0 then [] else [f]) ++ solid fs.
Proof. unfold solid. rewrite filter_cons. destruct (Z.eqb_spec (f_length f) 0), (decide (f_length f ≠ 0)); done. Qed.

Lemma in_ring i : 0 <= i mod frames < frames.
Proof. apply Z.mod_pos_bound, frames_pos. Qed.

Lemma owned_first m off fs : 0 <= off < frames → owned m off fs →
  user m (place off) = bool_decide (fs ≠ []) ∧ ∀ f gs, fs = f :: gs → frame_at m (place off) f.
Proof.
  intros Hoff (_ & Hf & Hk). split.
  - destruct fs as [|f fs].
    + specialize (Hk 0). rewrite Z.add_0_r, Z.mod_small in Hk by lia. apply Hk. pose proof frames_pos. rewrite len_nil. lia.
    + destruct (Hf O f eq_refl) as [Hu _]. by rewrite Z.add_0_r, Z.mod_small in Hu by lia.
  - intros f gs ->. destruct (Hf O f eq_refl) as [_ Ha]. by rewrite Z.add_0_r, Z.mod_small in Ha by lia.
Qed.

(** Two frames that are not a whole ring apart. *)
Lemma other_frame off j : 0 <= off < frames → 0 <= j → 1 + j < frames → (off + (1 + j)) mod frames ≠ off.
Proof.
  intros Hoff Hj0 Hj1 E. pose proof frames_pos. destruct (decide (off + (1 + j) < frames)) as [Hlt|Hge].
  - rewrite Z.mod_small in E; lia.
  - rewrite <-(Z.mod_unique _ _ 1 (off + (1 + j) - frames)) in E; lia.
Qed.

Lemma next_mod off j : ((off + 1) mod frames + j) mod frames = (off + (1 + j)) mod frames.
Proof. rewrite Zplus_mod_idemp_l. f_equal. lia. Qed.

(** Giving the first frame back. *)
Lemma owned_release m off f fs : 0 <= off < frames → owned m off (f :: fs) →
  owned (clear (place off) m) ((off + 1) mod frames) fs.
Proof.
  intros Hoff (Hl & Hf & Hk). rewrite len_cons in *. pose proof (len_nonneg fs). split; [lia|]. split.
  - intros j g Hj. pose proof (lookup_lt_Some _ _ _ Hj). cbn zeta. rewrite next_mod. specialize (Hf (S j) g Hj). cbn zeta in Hf.
    replace (off + Z.of_nat (S j)) with (off + (1 + Z.of_nat j)) in Hf by lia. destruct Hf as [Hu Ha].
    destruct (clear_other off ((off + (1 + Z.of_nat j)) mod frames) m) as [-> Hc]; [lia|apply in_ring| |by auto].
    symmetry. apply other_frame; unfold len in *; lia.
  - intros j Hj. rewrite next_mod. destruct (decide (j = frames - 1)) as [->|Hn].
    + replace (off + (1 + (frames - 1))) with (off + 1 * frames) by lia. rewrite Z.mod_add, Z.mod_small by lia. by apply clear_status.
    + destruct (clear_other off ((off + (1 + j)) mod frames) m) as [-> _]; [lia|apply in_ring|symmetry; apply other_frame; lia|]. apply Hk. lia.
Qed.

(** ** Waiting for a frame *)

Definition count s : Z := Packets (stats (tp s)).

(** What a wait for frame [off] leaves: the frame has come, or there was none. *)
Definition waited (off : Z) s fs (x : outcome unit * state) : Prop :=
  ∃ new, owned (mem x.2) off (fs ++ new) ∧ position (world x.2) = (off + len (fs ++ new)) mod frames ∧
    written (world x.2) = written (world s) ++ new ∧ count x.2 = count s ∧
    (∃ st, tp x.2 = (if x.1 is Ok _ then set_release true else id) (set_stats st (tp s))) ∧
    match x.1 with
    | Ok _ => fs ++ new ≠ [] ∧ (solid new = [] → (length new + patience (world x.2) <= patience (world s))%nat)
    | Err _ => fs = []
    | _ => False
    end.

(** A wait that goes on after the kernel has worked. *)
Lemma waited_after off s st m w new x :
  written w = written (world s) ++ new → Packets st = count s → (solid new = [] → (length new + patience w <= patience (world s))%nat) →
  waited off (mkSt (set_stats st (tp s)) m w) new x → waited off s [] x.
Proof.
  intros Hw Hst Hp (new' & Ho & Hpos & Hw' & Hc & (st' & Ht) & Hx). exists (new ++ new'). cbn [app mem world tp] in *. split_and!; try done.
  - by rewrite Hw', Hw, app_assoc.
  - by rewrite Hc, <-Hst.
  - by exists st'.
  - destruct (x.1); try done. destruct Hx as [Hne Hx]. split; [done|]. rewrite solid_app, length_app. intros [E1 E2]%app_nil.
    specialize (Hp E1). specialize (Hx E2). lia.
Qed.

Lemma getStatus_hdr a s : getStatus (hdr a) s = let r := meanwhile (mem s) (world s) in (Ok (status_at r.1 a), mkSt (tp s) r.1 r.2).
Proof. unfold getStatus, hdr, status_at. destruct (meanwhile (mem s) (world s)). by destruct (ver =? TPacketVersion1). Qed.

Lemma poll_loop_spec tm off : 0 <= off < frames → ∀ fuel s fs,
  owned (mem s) off fs → position (world s) = (off + len fs) mod frames →
  (match fs with [] => S (patience (world s)) | _ => 0 end < fuel)%nat → waited off s fs (poll_loop fuel tm (hdr (place off)) s).
Proof.
  intros Hoff. induction fuel as [|fuel IH]; intros s fs Ho Hpos Hfuel; [lia|]. cbn [poll_loop].
  destruct (meanwhile_fills (mem s) (world s) off fs Hoff Ho Hpos) as (new & Ho1 & Hpos1 & Hw1 & Hpat1).
  rewrite bind_eq, getStatus_hdr. destruct (meanwhile (mem s) (world s)) as [m1 w1]. cbn [fst snd] in *.
  change (has_bits (status_at m1 (place off)) TP_STATUS_USER) with (user m1 (place off)). rewrite (proj1 (owned_first m1 off (fs ++ new) Hoff Ho1)).
  destruct (decide (fs ++ new = [])) as [Hnil|Hne]; cycle 1.
  { rewrite bool_decide_eq_true_2 by done. cbn [negb]. exists new. cbn. split_and!; try done. exists (stats (tp s)). by destruct (tp s). }
  rewrite bool_decide_eq_false_2 by naive_solver. cbn [negb]. apply app_nil in Hnil as [-> ->]. specialize (Hpat1 eq_refl).
  rewrite bind_eq. cbn [mem world tp app length] in *. rewrite app_nil_r in Hw1.
  destruct (poll_fills tm m1 w1 off [] Hoff Ho1 Hpos1) as (new & Ho2 & Hpos2 & Hw2 & Hpat2).
  destruct (sys_Poll tm m1 w1) as [[[n ev] err] [m2 w2]]. cbn [fst snd app fails] in *.
  assert (∀ st e, Packets st = count s → waited off s [] (Err e, mkSt (set_stats st (tp s)) m2 w2)) as Herr.
  { intros st e Hst. exists new. cbn. split_and!; try done; [congruence|by exists st]. }
  assert (∀ st, Packets st = count s → ¬ (n = 0 ∨ has_bits ev POLLERR = true ∨ (∃ e, err = Some e ∧ e ≠ EINTR)) →
    waited off s [] (poll_loop fuel tm (hdr (place off)) (mkSt (set_stats st (tp s)) m2 w2))) as Hgo.
  { intros st Hst Hne. assert (solid new = [] → (length new + patience w2 < patience w1)%nat) as Hlt by naive_solver.
    apply (waited_after off s st m2 w2 new); [congruence|done|intros E; specialize (Hlt E); lia|]. apply IH; [done|done|]. cbn [world].
    destruct new as [|g new]; [|lia]. specialize (Hlt eq_refl). cbn in Hlt. lia. }
  destruct (Z.eqb_spec n 0) as [->|Hn].
  { specialize (Herr (stats (tp s)) ErrTimeout eq_refl). unfold throw. by destruct (tp s). }
  unfold modify. rewrite bind_eq. unfold on_tp. cbn [tp mem world].
  destruct (has_bits ev POLLERR) eqn:Ev; [by apply Herr|]. destruct err as [e|].
  - destruct (Z.eqb_spec e EINTR); [|by apply Herr]. apply Hgo; [done|]. intros [?|[?|(e' & [= ->] & ?)]]; done.
  - apply Hgo; [done|]. intros [?|[?|(e' & ? & ?)]]; done.
Qed.

(** ** The next frame *)

(** The reader between two frames, with [fs] in the ring before it. *)
Definition between s fs : Prop :=
  tpVersion (tp s) = ver ∧ opts (tp s) = o ∧ 0 <= offset (tp s) <= frames ∧ shouldReleasePacket (tp s) = false ∧
  owned (mem s) (offset (tp s) mod frames) fs ∧ position (world s) = (offset (tp s) mod frames + len fs) mod frames.

(** The reader with the frame [f] in its hands. *)
Definition holding s f fs : Prop :=
  tpVersion (tp s) = ver ∧ opts (tp s) = o ∧ 0 <= offset (tp s) < frames ∧ shouldReleasePacket (tp s) = true ∧
  current (tp s) = Some (hdr (place (offset (tp s)))) ∧
  owned (mem s) (offset (tp s)) (f :: fs) ∧ position (world s) = (offset (tp s) + len (f :: fs)) mod frames.

Inductive reader s fs : Prop :=
  | idle : between s fs → current (tp s) = None ∨ headerNextNeeded (tp s) = false → reader s fs
  | busy f : holding s f fs → reader s fs.

Lemma move_on_reader s fs : reader s fs → move_on s = (Ok false, s).
Proof.
  intros [_ Hc | f (_ & _ & _ & _ & Hc & _)]; unfold move_on.
  - destruct (current (tp s)), (headerNextNeeded (tp s)); try done. by destruct Hc.
  - rewrite Hc. destruct (headerNextNeeded (tp s)); [|done]. assert (next (mem s) (hdr (place (offset (tp s)))) = (false, hdr (place (offset (tp s))))) as ->
      by (unfold next, hdr; by destruct (ver =? TPacketVersion1)). rewrite <-Hc. destruct s as [[] ? ?]; by cbn in *.
Qed.

Lemma release_reader s fs : reader s fs → ∃ s1, (if shouldReleasePacket (tp s) then releaseCurrentPacket else mret tt) s = (Ok tt, s1) ∧
  between s1 fs ∧ world s1 = world s ∧ count s1 = count s.
Proof.
  intros [Hb _ | f (Hv & Ho & Hoff & Hr & Hc & Hown & Hpos)].
  - pose proof Hb as (_ & _ & _ & -> & _). by exists s.
  - rewrite Hr. eexists. split.
    { unfold releaseCurrentPacket, gets, modify. rewrite bind_eq, Hc, bind_eq. reflexivity. }
    split; [|done]. unfold between. cbn. rewrite Hpos, len_cons. split_and!; try done; try lia.
    + assert (clearStatus (hdr (place (offset (tp s)))) (mem s) = clear (place (offset (tp s))) (mem s)) as ->
        by (unfold clearStatus, hdr, clear; by destruct (ver =? TPacketVersion1)). by apply (owned_release _ _ f).
    + rewrite Zplus_mod_idemp_l. f_equal. lia.
Qed.

(** [next_header] behind the release of the last frame. *)
Definition enter (fuel polls : nat) : M state unit :=
  h ← getTPacketHeader;
  _ ← modify (on_tp (set_current (Some h)));
  r ← attempt (pollForFirstPacket polls h);
  match r with
  | inr e => _ ← modify (on_tp (set_needed false)); throw e
  | inl _ => n ← gets (fun s => getLength (mem s) h); if n =? 0 then next_header fuel polls else mret tt
  end.

Lemma next_header_enter fuel polls s fs s1 : reader s fs →
  (if shouldReleasePacket (tp s) then releaseCurrentPacket else mret tt) s = (Ok tt, s1) → next_header (S fuel) polls s = enter fuel polls s1.
Proof.
  intros Hr E. cbn [next_header]. rewrite (bind_ok _ _ _ _ _ (move_on_reader s fs Hr)). unfold gets. rewrite bind_eq. by rewrite (bind_ok _ _ _ _ _ E).
Qed.

Lemma getTPacketHeader_eq s fs : between s fs →
  getTPacketHeader s = (Ok (hdr (place (offset (tp s) mod frames))), on_tp (set_offset (offset (tp s) mod frames)) s).
Proof.
  intros (Hv & Ho & Hoff & _). pose proof frames_pos as Hp. unfold getTPacketHeader. rewrite Hv, Ho. fold frames.
  assert ((if frames <=? offset (tp s) then 0 else offset (tp s)) = offset (tp s) mod frames) as ->.
  { destruct (Z.leb_spec frames (offset (tp s))).
    - replace (offset (tp s)) with frames by lia. by rewrite Z.mod_same by lia.
    - by rewrite Z.mod_small by lia. }
  rewrite place_eq. unfold hdr. by destruct Hver as [-> | ->].
Qed.

Lemma enter_spec fuel polls s fs : between s fs → (match fs with [] => S (patience (world s)) | _ => 0 end < polls)%nat →
  ∃ new s2, written (world s2) = written (world s) ++ new ∧ count s2 = count s ∧
    ((∃ f gs, fs ++ new = f :: gs ∧ holding s2 f gs ∧ (solid new = [] → (length new + patience (world s2) <= patience (world s))%nat) ∧
        enter fuel polls s = if f_length f =? 0 then next_header fuel polls s2 else (Ok tt, s2)) ∨
     (∃ e, fs = [] ∧ reader s2 new ∧ enter fuel polls s = (Err e, s2))).
Proof.
  intros Hb Hpolls. pose proof (in_ring (offset (tp s))) as Hr. set (off := offset (tp s) mod frames) in *.
  unfold enter. rewrite (bind_ok _ _ _ _ _ (getTPacketHeader_eq s fs Hb)). fold off. pose proof Hb as (Hv & Ho & Hoff & Hrel & Hown & Hpos).
  unfold modify, pollForFirstPacket, gets, attempt. rewrite !bind_eq.
  set (s1 := on_tp (set_current _) _).
  pose proof (poll_loop_spec (Z.quot (pollTimeout (opts (tp s1))) Millisecond) off Hr polls s1 fs Hown Hpos Hpolls) as (new & Ho' & Hpos' & Hw & Hc & (st & Ht) & Hx).
  destruct (poll_loop _ _ _ s1) as [[[]|e|c|] s2]; cbn [fst snd] in *; try done.
  - destruct Hx as [Hne Hpat]. exists new, s2. split; [done|]. split; [done|]. left. destruct (fs ++ new) as [|f gs] eqn:E; [done|].
    exists f, gs. split; [done|]. split; [|split; [done|]].
    + unfold holding. rewrite Ht. cbn. split_and!; try done; lia.
    + rewrite bind_eq. destruct (owned_first _ _ _ Hr Ho') as [_ Ha]. rewrite (proj2 (frame_read _ _ _ (Ha f gs eq_refl))). by destruct (f_length f =? 0).
  - subst fs. eexists new, _. unfold throw. rewrite bind_eq. split; [|split; [|right; exists e; split; [done|split; [|reflexivity]]]]; [done|done|].
    apply idle; [|by right]. unfold between. cbn. rewrite !Ht. cbn. rewrite (Z.mod_small off) by lia. split_and!; try done; lia.
Qed.

(** ** Frames of length 0 are passed over *)

(** How many frames are looked at at most before one that is returned. *)
Fixpoint lead (fs : list frame) : nat :=
  match fs with f :: fs => if f_length f =? 0 then S (lead fs) else O | [] => O end.

Definition need fs (w : W) : nat :=
  if decide (solid fs = []) then length fs + patience w + Z.to_nat frames else lead fs.

Lemma lead_app fs new : lead (fs ++ new) = if decide (solid fs = []) then (length fs + lead new)%nat else lead fs.
Proof.
  induction fs as [|f fs IH]; [done|]. cbn [app lead length]. rewrite IH, solid_cons. destruct (f_length f =? 0); cbn [app]; [|done].
  by repeat case_decide.
Qed.

Lemma lead_lt fs : solid fs ≠ [] → (lead fs < length fs)%nat.
Proof.
  induction fs as [|f fs IH]; [done|]. rewrite solid_cons. cbn [lead length]. destruct (f_length f =? 0); [|lia]. cbn [app]. intros Hs. specialize (IH Hs). lia.
Qed.

Lemma need_next fs new f gs w w' : fs ++ new = f :: gs → f_length f = 0 → len (f :: gs) <= frames →
  (solid new = [] → (length new + patience w' <= patience w)%nat) → (need gs w' < need fs w)%nat ∧ solid (fs ++ new) = solid gs.
Proof.
  intros E Hf Hl Hpat. assert (solid (f :: gs) = solid gs) as Es by (by rewrite solid_cons, Hf). split; [|by rewrite E].
  assert (lead (f :: gs) = S (lead gs)) as El by (cbn [lead]; by rewrite Hf). rewrite <-E in Es, El. rewrite solid_app in Es. rewrite lead_app in El.
  assert (length gs + 1 = length fs + length new)%nat as En by (rewrite <-length_app, E; cbn; lia). unfold need. pose proof (lead_lt gs).
  unfold len in Hl. cbn [length] in Hl. destruct (decide (solid gs = [])) as [Eg|Ng].
  - rewrite Eg in Es. apply app_nil in Es as [E1 E2]. rewrite decide_True by done. specialize (Hpat E2). lia.
  - specialize (H1 Ng). destruct (decide (solid fs = [])); lia.
Qed.

Lemma next_header_spec polls : (0 < polls)%nat → ∀ fuel s fs, reader s fs → (solid fs = [] → (S (patience (world s)) < polls)%nat) → (need fs (world s) < fuel)%nat →
  ∃ new s', written (world s') = written (world s) ++ new ∧ count s' = count s ∧
    ((∃ f gs, solid (fs ++ new) = f :: solid gs ∧ holding s' f gs ∧ next_header fuel polls s = (Ok tt, s')) ∨
     (∃ e rest, solid fs = [] ∧ solid (fs ++ new) = solid rest ∧ reader s' rest ∧ next_header fuel polls s = (Err e, s'))).
Proof.
  intros Hp. induction fuel as [|fuel IH]; intros s fs Hr Hpolls Hneed; [lia|].
  destruct (release_reader s fs Hr) as (s1 & E1 & Hb & Ew & Ec). rewrite (next_header_enter fuel polls s fs s1 Hr E1).
  destruct (enter_spec fuel polls s1 fs Hb) as (new & s2 & Hw & Hc & Hx).
  { rewrite Ew. destruct fs; [by apply Hpolls|lia]. }
  rewrite Ew in *. rewrite Ec in *. destruct Hx as [(f & gs & E & Hh & Hpat & ->) | (e & -> & Hr2 & ->)]; cycle 1.
  { exists new, s2. split; [done|]. split; [done|]. right. by exists e, new. }
  destruct (Z.eqb_spec (f_length f) 0) as [Hf|Hf]; cycle 1.
  { exists new, s2. split; [done|]. split; [done|]. left. exists f, gs. rewrite E, solid_cons. destruct (Z.eqb_spec (f_length f) 0); [done|]. by split_and!. }
  destruct (need_next fs new f gs (world s) (world s2) E Hf) as [Hn Es]; [by destruct Hh as (_ & _ & _ & _ & _ & (? & _) & _)|done|].
  destruct (IH s2 gs) as (new' & s' & Hw' & Hc' & Hx).
  - by apply (busy _ _ f).
  - rewrite <-Es, solid_app. intros [E2 E3]%app_nil. specialize (Hpolls E2). specialize (Hpat E3). lia.
  - lia.
  - exists (new ++ new'), s'. split; [by rewrite Hw', Hw, app_assoc|]. split; [congruence|]. rewrite !app_assoc, (solid_app (fs ++ new)), Es, <-solid_app.
    destruct Hx as [Hx | (e & rest & Hg & ? & ? & ?)]; [by left|right]. exists e, rest. split_and!; try done. rewrite Hg, solid_app in Es. by apply app_nil in Es as [-> _].
Qed.

(** ** Calls *)

(** As much fuel as a call needs: a ring of frames, and the patience for others. *)
Definition read : M state packet := fun s =>
  ZeroCopyReadPacketData (S (Z.to_nat (2 * frames) + patience (world s))) (S (S (patience (world s)))) s.

Lemma read_spec s fs : reader s fs → ∃ new rest s', reader s' rest ∧ written (world s') = written (world s) ++ new ∧
  ((∃ f, solid (fs ++ new) = f :: solid rest ∧ read s = (Ok (packet_of f), s') ∧ count s' = count s + 1) ∨
   (∃ e, solid fs = [] ∧ solid (fs ++ new) = solid rest ∧ read s = (Err e, s') ∧ count s' = count s)).
Proof.
  intros Hr. assert (len fs <= frames) as Hl.
  { destruct Hr as [(_ & _ & _ & _ & (? & _) & _) _ | f (_ & _ & _ & _ & _ & (Hl & _) & _)]; [done|]. rewrite len_cons in Hl. lia. }
  unfold read, ZeroCopyReadPacketData. destruct (next_header_spec (S (S (patience (world s)))) ltac:(lia) (S (Z.to_nat (2 * frames) + patience (world s))) s fs Hr)
    as (new & s' & Hw & Hc & [(f & gs & Es & Hh & E) | (e & rest & Ef & Es & Hr' & E)]); [lia| | |].
  - unfold need. case_decide as Hd; [|pose proof (lead_lt fs Hd)]; unfold len in Hl; lia.
  - pose proof Hh as (Hv & Ho & Hoff & Hrel & Hcur & Hown & Hpos). destruct (owned_first _ _ _ Hoff Hown) as [_ Ha].
    eexists new, gs, _. rewrite (bind_ok _ _ _ _ _ E). unfold gets, get, modify. rewrite bind_eq, Hcur, bind_eq, Ho, (proj1 (frame_read _ _ _ (Ha f gs eq_refl))), lift_bind, bind_eq.
    split; [|split; [|left; exists f; split; [done|split; [reflexivity|]]]]; [|done|]; cbn.
    + by apply (busy _ _ f).
    + unfold count in *. cbn. lia.
  - exists new, rest, s'. split; [done|]. split; [done|]. right. exists e. rewrite bind_eq, E. by split_and!.
Qed.

(** ** Many calls *)

Fixpoint reads (n : nat) : M state (list (packet + error)) :=
  match n with
  | O => mret []
  | S n => r ← attempt read; rs ← reads n; mret (r :: rs)
  end.

Definition returned (rs : list (packet + error)) : list packet := omap (fun r => match r with inl p => Some p | inr _ => None end) rs.

Lemma reads_spec n : ∀ s fs, reader s fs → ∃ rs s' rest new, reads n s = (Ok rs, s') ∧ reader s' rest ∧
  written (world s') = written (world s) ++ new ∧ packets_of (fs ++ new) = returned rs ++ packets_of rest ∧
  count s' = count s + len (returned rs).
Proof.
  induction n as [|n IH]; intros s fs Hs.
  { exists [], s, fs, []. rewrite !app_nil_r. split_and!; try done. change (len (returned [])) with 0. lia. }
  cbn [reads]. rewrite bind_eq. unfold attempt. destruct (read_spec s fs Hs) as (new1 & rest1 & s1 & Hr1 & Hw1 & [(f & Es & -> & Hc) | (e & _ & Es & -> & Hc)]);
    rewrite bind_eq; destruct (IH s1 rest1 Hr1) as (rs & s' & rest & new2 & -> & Hr' & Hw2 & Ep & Hc').
  - exists (inl (packet_of f) :: rs), s', rest, (new1 ++ new2). split_and!; [done|done|by rewrite Hw2, Hw1, app_assoc| |].
    + change (returned (inl (packet_of f) :: rs)) with (packet_of f :: returned rs). unfold packets_of in *.
      rewrite app_assoc, solid_app, Es. cbn [app fmap list_fmap]. by rewrite <-Ep, solid_app.
    + change (returned (inl (packet_of f) :: rs)) with (packet_of f :: returned rs). rewrite len_cons. lia.
  - exists (inr e :: rs), s', rest, (new1 ++ new2). split_and!; [done|done|by rewrite Hw2, Hw1, app_assoc| |].
    + change (returned (inr e :: rs)) with (returned rs). unfold packets_of in *. by rewrite app_assoc, solid_app, Es, <-solid_app.
    + change (returned (inr e :: rs)) with (returned rs). lia.
Qed.

(** What the next call makes of the packets in the ring. *)
Lemma next_call s fs : reader s fs →
  match (read s).1 with
  | Ok p => packets_of fs = [] ∨ head (packets_of fs) = Some p
  | Err _ => packets_of fs = []
  | _ => False
  end.
Proof.
  intros Hs. unfold packets_of. destruct (read_spec s fs Hs) as (new & rest & s' & _ & _ & [(f & Es & -> & _) | (e & Ef & _ & -> & _)]); cbn [fst].
  - rewrite solid_app in Es. destruct (solid fs) as [|g gs]; [by left|right]. by injection Es as -> _.
  - by rewrite Ef.
Qed.
End ring.

(** The sizes that the options are checked for. *)
Lemma parse_frames pageSize args o : parseOptions pageSize args = Ok o → 0 < frameSize o → 0 < blockSize o →
  blockSize o = framesPerBlock o * frameSize o ∧ 0 < framesPerBlock o ∧ 0 < numBlocks o.
Proof.
  unfold parseOptions. destruct (set_options defaultOpts args) as [o'| | |]; try done. cbn [mbind outcome_bind]. unfold check.
  destruct (go_rem (blockSize o') pageSize) as [r1| | |]; try done. cbn [mbind outcome_bind]. destruct (negb (r1 =? 0)); [done|].
  destruct o' as [fs fpb bs nb vl bt pt ve so ifc]. cbn [blockSize frameSize numBlocks framesPerBlock]. unfold go_rem, go_div.
  destruct (Z.eqb_spec fs 0); [done|]. cbn [mbind outcome_bind]. destruct (Z.eqb_spec (Z.rem bs fs) 0) as [Hr|]; [|done]. cbn [negb].
  destruct (Z.ltb_spec nb 1); [done|]. destruct (_ <? _); [done|]. destruct (_ || _); [done|]. cbn [mbind outcome_bind].
  intros [= <-]. cbn. intros Hf Hb. pose proof (Z.quot_rem bs fs n) as Hq. rewrite Hr in Hq. nia.
Qed.


(** ** A ring of four frames *)

(** A frame that has been handed over, by its address. *)
Definition shelf : Type := Z → option frame.

#[export] Instance shelf_Memory : Memory shelf := {
  tp1_at m a := match m a with Some f => mkTp1 1 (f_length f) (len (f_bytes f)) 80 (f_sec f) (f_sub f) | None => mkTp1 0 0 0 0 0 0 end;
  tp2_at m a := match m a with Some f => mkTp2 1 (f_length f) (len (f_bytes f)) 80 (f_sec f) (f_sub f) (f_tag f) | None => mkTp2 0 0 0 0 0 0 0 end;
  tp3_at _ _ := mkTp3 0 0 0 0 0 0 0 0;
  block_at _ _ := mkBlock 0 0 0;
  ifindex_at m a := match m (a - 32) with Some f => f_ifindex f | None => 0 end;
  bytes_at m a n := match m (a - 80) with Some f => take (Z.to_nat n) (f_bytes f) | None => [] end;
  clear_tp1 a m := fun x => if x =? a then None else m x;
  clear_tp2 a m := fun x => if x =? a then None else m x;
  clear_block _ m := m;
  sizeofTpacketHdr := 32;
  sizeofTpacket2Hdr := 32;
  sizeofTpacket3Hdr := 48;
}.

Definition ring_args : list option_arg := [OptFrameSize 2048; OptBlockSize 4096; OptNumBlocks 2; OptAddVLANHeader true; OptTPacketVersion TPacketVersion2].
Definition ring_options : options := mkOpts 2048 2 4096 2 true (64 * Millisecond) (-1 * Millisecond) TPacketVersion2 3 "".
Notation place' := (place ring_options).

(** What comes: a packet, or a signal. *)
Record tape : Type := mkTape { todo : list (option frame); t_position : Z; t_written : list frame }.

(** A packet as it fits into a frame. *)
Definition fit (f : frame) : frame :=
  mkFrame (f_bytes f) (f_length f) (f_sec f) (f_sub f mod 1000000) (f_ifindex f) (if 12 <=? len (f_bytes f) then f_tag f mod 65536 else 0).

Definition put (m : shelf) (a : Z) (f : frame) : shelf := fun x => if x =? a then Some f else m x.

(** A packet goes into the next frame, if that is free. *)
Definition deliver (m : shelf) (w : tape) : option (shelf * tape) :=
  match todo w, m (place' (t_position w)) with
  | Some f :: l, None => Some (put m (place' (t_position w)) (fit f), mkTape l ((t_position w + 1) mod 4) (t_written w ++ [fit f]))
  | _, _ => None
  end.

(** One packet comes before the reader polls, the others while it does. *)
#[export] Instance tape_Kernel : Kernel shelf tape := {
  meanwhile m w := match deliver m w with Some r => if (length (todo w) =? 3)%nat then r else (m, w) | None => (m, w) end;
  sys_Poll _ m w :=
    match todo w with
    | None :: l => ((-1, 0, Some EINTR), (m, mkTape l (t_position w) (t_written w)))
    | _ => match deliver m w with Some r => ((1, 1, None), r) | None => ((0, 0, None), (m, w)) end
    end;
}.

Lemma shelf_user m a : user TPacketVersion2 m a = bool_decide (m a ≠ None).
Proof. unfold user, status_at. cbn. by destruct (m a). Qed.

Lemma place_four i : place' i = 2048 * i.
Proof. unfold place. cbn [framesPerBlock blockSize frameSize ring_options]. zdiv. Qed.

(** A frame depends on what is at its address alone. *)
Lemma frame_same (m m' : shelf) a f : m a = m' a → frame_at TPacketVersion2 m a f → frame_at TPacketVersion2 m' a f.
Proof.
  intros E (mac & ll & Hb & Hi & (st & Et) & Ha & Hf). assert (ll = 32) as -> by (destruct Ha as [Ha1 Ha2]; cbn in *; zdiv).
  exists mac, 32. split; [|split_and!; try done]; cbn [bytes_at ifindex_at tp2_at shelf_Memory] in *; rewrite ?Z.add_simpl_r, <-?E in *.
  - destruct (m a) as [g|] eqn:Eg.
    + injection Et as <- Hl Hz <- _ _ _. rewrite Z.add_simpl_r in *. by rewrite <-E, Eg in *.
    + injection Et as <- Hl Hz <- _ _ _. assert (f_bytes f = []) as -> by (apply len_zero; lia). by destruct (m' (a + 0 - 80)).
  - done.
  - change (TPacketVersion2 =? TPacketVersion1) with false. cbn iota. cbn [tp2_at shelf_Memory]. rewrite <-?E. eauto.
Qed.

#[export] Instance shelf_FrameMemory : FrameMemory ring_options TPacketVersion2.
Proof.
  split; [done|..].
  - intros i m _. rewrite shelf_user. cbn. by rewrite Z.eqb_refl.
  - intros i j m Hi Hj Hne. assert (m (place' j) = clear TPacketVersion2 (place' i) m (place' j)) as E.
    { cbn. rewrite !place_four. destruct (Z.eqb_spec (2048 * j) (2048 * i)); [lia|done]. }
    split; [by rewrite !shelf_user, <-E|]. intros f. by apply frame_same.
Qed.

Lemma put_frame m a f : frame_at TPacketVersion2 (put m a (fit f)) a (fit f).
Proof.
  exists 80, 32. unfold put. cbn [tp2_at ifindex_at bytes_at shelf_Memory]. rewrite !Z.add_simpl_r, Z.eqb_refl.
  split; [rewrite take_ge; [done|unfold len; lia]|]. split; [done|]. split; [by eexists|]. split; [done|]. cbn [f_sub f_tag f_bytes fit].
  split; [zdiv|]. destruct (Z.leb_spec 12 (len (f_bytes f))); [|by left]. destruct (decide (f_tag f mod 65536 = 0)); [by left|right]. split; [zdiv|done].
Qed.

Notation owned' := (owned ring_options TPacketVersion2).

(** Frames that change hands one at a time. *)
Lemma put_owned m off fs f b : 0 <= off < 4 → owned' m off fs → b = (off + len fs) mod 4 → m (place' b) = None →
  owned' (put m (place' b) (fit f)) off (fs ++ [fit f]).
Proof.
  intros Hoff (Hl & Hf & Hk) Eb Hb. change (frames ring_options) with 4 in *. pose proof (len_nonneg fs).
  assert (∀ i, i ≠ b → m (place' i) = put m (place' b) (fit f) (place' i)) as Hsame.
  { intros i Hi. unfold put. rewrite !place_four. destruct (Z.eqb_spec (2048 * i) (2048 * b)); [lia|done]. }
  assert (len fs < 4) as Hlt.
  { destruct (decide (len fs < 4)); [done|]. exfalso. destruct fs as [|g fs]; [by vm_compute in Hl|]. destruct (Hf O g eq_refl) as [Hu _].
    rewrite shelf_user in Hu. replace ((off + Z.of_nat 0) mod 4) with b in Hu by (rewrite Eb; zdiv). by rewrite Hb in Hu. }
  unfold owned. change (frames ring_options) with 4. rewrite len_app. change (len [fit f]) with 1. split; [lia|]. split.
  - intros j g Hj. cbn zeta. apply lookup_app_Some in Hj as [Hj|[Hge Hj]].
    + pose proof (lookup_lt_Some _ _ _ Hj). destruct (Hf j g Hj) as [Hu Ha]. assert ((off + Z.of_nat j) mod 4 ≠ b) as Hn by (rewrite Eb; unfold len in *; intros ?; zdiv).
      rewrite shelf_user, <-(Hsame _ Hn), <-shelf_user. split; [done|]. by eapply frame_same, Ha; apply Hsame.
    + apply list_lookup_singleton_Some in Hj as [Hj <-]. replace ((off + Z.of_nat j) mod 4) with b by (rewrite Eb; f_equal; unfold len in *; lia).
      split; [|apply put_frame]. rewrite shelf_user. unfold put. by rewrite Z.eqb_refl.
  - intros j Hj. rewrite shelf_user, <-Hsame, <-shelf_user; [apply Hk; lia|]. rewrite Eb. intros ?. zdiv.
Qed.

Lemma deliver_spec m w off fs r : 0 <= off < 4 → owned' m off fs → t_position w = (off + len fs) mod 4 → deliver m w = Some r →
  ∃ f, owned' r.1 off (fs ++ [f]) ∧ t_position r.2 = (off + len (fs ++ [f])) mod 4 ∧ t_written r.2 = t_written w ++ [f] ∧ length (todo w) = S (length (todo r.2)).
Proof.
  unfold deliver. intros Hoff Hown Hpos E. destruct (todo w) as [|[f|] l] eqn:El; [done| |done]. destruct (m (place' (t_position w))) eqn:Em; [done|].
  injection E as <-. exists (fit f). cbn [fst snd t_position t_written todo]. split; [by apply put_owned|]. split; [|done].
  rewrite Hpos, len_app. change (len [fit f]) with 1. zdiv.
Qed.

#[export] Instance tape_FrameKernel : FrameKernel (W := tape) ring_options TPacketVersion2.
Proof.
  refine {| written := t_written; position := t_position; patience := fun w => (2 * length (todo w))%nat |}; change (frames ring_options) with 4.
  - intros m w off fs Hoff Hown Hpos. cbn [meanwhile tape_Kernel]. destruct (deliver m w) as [r|] eqn:E; [destruct (_ =? _)%nat|].
    + destruct (deliver_spec m w off fs r Hoff Hown Hpos E) as (f & Ho & Hp & Hw & Hl). exists [f]. cbn zeta. split_and!; try done. intros _. cbn [length]. lia.
    + exists []. cbn. rewrite !app_nil_r. split_and!; try done; lia.
    + exists []. cbn. rewrite !app_nil_r. split_and!; try done; lia.
  - intros tm m w off fs Hoff Hown Hpos. cbn [sys_Poll tape_Kernel]. destruct (todo w) as [|[f|] l] eqn:El; cycle 2.
    { exists []. cbn. rewrite !app_nil_r. split_and!; try done. intros _. right. lia. }
    all: destruct (deliver m w) as [r|] eqn:E; cbn [fst snd]; [|exists []; cbn; rewrite !app_nil_r; split_and!; try done; intros _; left; by left].
    all: destruct (deliver_spec m w off fs r Hoff Hown Hpos E) as (g & Ho & Hp & Hw & Hl); exists [g]; cbn zeta; split_and!; try done; intros _; right; rewrite El in Hl; cbn [length] in *; lia.
Defined.

(** Four packets for a reader: one of them has a tag, one has length 0. *)
Definition some_packets : tape :=
  mkTape [Some (mkFrame [1; 2; 3] 3 10 20 5 0); None; Some (mkFrame [] 0 11 0 5 0);
          Some (mkFrame [1; 2; 3; 4; 5; 6; 7; 8; 9; 10; 11; 12; 8; 0; 99] 1500 12 30 6 258); None; Some (mkFrame [7] 1 13 0 5 0)] 0 [].


(** The calls return three packets and then time out. *)
Example three_of_four :
  (reads ring_options TPacketVersion2 5 (mkSt (new_handle ring_options TPacketVersion2) (fun _ => None) some_packets)).1 =
  Ok [inl ([1; 2; 3], mkCaptureInfo (mkTime 10 20) 3 3 5, []);
      inl ([1; 2; 3; 4; 5; 6; 7; 8; 9; 10; 11; 12; 129; 0; 1; 2; 8; 0; 99], mkCaptureInfo (mkTime 12 30) 19 1500 6, []);
      inl ([7], mkCaptureInfo (mkTime 13 0) 1 1 5, []); inr ErrTimeout; inr ErrTimeout].
Proof. by vm_compute. Qed.
