(* ===== verification/AfpacketCorrect.v ===== *)
(** * The blocks of AF_PACKET

    With TPACKET_V3 the ring is made of blocks of packets. The reader takes the address
    of the first packet of a block from the block's descriptor before it waits for the
    block (afpacket.go:297), and it takes a block without a packet for one whose memory
    has a packet of length 0. What the kernel's documentation says of blocks is not
    enough for that: [packet_is_lost] shows a kernel that keeps to it, with which a
    packet is lost. The lemma [blocks_are_a_queue] is therefore for kernels of which
    more holds: no block is handed over without a packet ([filled]), and the offset in
    a descriptor never changes ([StableOffsets]). Rings of frames, which need neither,
    are in AfpacketFrames. *)

From S2P Require Import Prelude Capture Afpacket.

Section ring.
Context {Mem W : Type} `{Memory Mem} `{Kernel Mem W} (o : options).

(** ** The ring *)

(** The start of block [i]. *)
Definition base (i : Z) : Z := frameSize o * i * framesPerBlock o.

Definition next_offset (m : Mem) (a : Z) : Z :=
  let t := tp3_at m a in if t3_Next_offset t =? 0 then tpAlign (t3_Snaplen t + t3_Mac t) else t3_Next_offset t.

(** The packets of a block, with their addresses, from [a] on. *)
Fixpoint chain (m : Mem) (a : Z) (ps : list (Z * packet)) : Prop :=
  match ps with
  | [] => True
  | (a', p) :: ps => a' = a ∧ packet_at m (V3 (mkV3 0 a 0)) o = Ok p ∧ t3_Len (tp3_at m a) ≠ 0 ∧ chain m (a + next_offset m a) ps
  end.

Definition user (m : Mem) (b : Z) : bool := has_bits (Block_status (block_at m b)) TP_STATUS_USER.

(** A block that the kernel has handed over. *)
Definition filled (m : Mem) (b : Z) (ps : list (Z * packet)) : Prop :=
  user m b = true ∧ Num_pkts (block_at m b) = len ps ∧ 0 < len ps < 4294967296 ∧ chain m (b + Offset_to_first_pkt (block_at m b)) ps.

(** From block [off] on, the blocks of [qs] are the reader's, the others the kernel's. *)
Definition owned (m : Mem) (off : Z) (qs : list (list (Z * packet))) : Prop :=
  len qs <= numBlocks o ∧
  (∀ (j : nat) ps, qs !! j = Some ps → filled m (base ((off + Z.of_nat j) mod numBlocks o)) ps) ∧
  (∀ j, len qs <= j < numBlocks o → user m (base ((off + j) mod numBlocks o)) = false).

Definition packets_of (qs : list (list (Z * packet))) : list packet := snd <$> concat qs.

(** Clearing the status of a block leaves the others alone. *)
Class MemoryLaws := {
  clear_status b m : user (clear_block b m) b = false;
  clear_other i j m : 0 <= i < numBlocks o → 0 <= j < numBlocks o → i ≠ j →
    user (clear_block (base i) m) (base j) = user m (base j) ∧
    ∀ ps, filled m (base j) ps → filled (clear_block (base i) m) (base j) ps;
}.

(** The kernel fills the blocks that are its own, in turn, with what it has received.
    A poll that ends without error has put packets into the ring, or there are only
    so many of its kind before one that has. *)
Class KernelLaws := {
  received : W → list packet;
  position : W → Z;
  patience : W → nat;
  meanwhile_fills m w off qs : 0 <= off < numBlocks o → owned m off qs → position w = (off + len qs) mod numBlocks o →
    ∃ new, let r := meanwhile m w in owned r.1 off (qs ++ new) ∧ position r.2 = (off + len (qs ++ new)) mod numBlocks o ∧
      received r.2 = received w ++ packets_of new ∧ (new = [] → (patience r.2 <= patience w)%nat);
  poll_fills tm m w off qs : 0 <= off < numBlocks o → owned m off qs → position w = (off + len qs) mod numBlocks o →
    ∃ new, let r := (sys_Poll tm m w).2 in owned r.1 off (qs ++ new) ∧ position r.2 = (off + len (qs ++ new)) mod numBlocks o ∧
      received r.2 = received w ++ packets_of new ∧
      (new = [] → ∀ n ev err, (sys_Poll tm m w).1 = (n, ev, err) → n = 0 ∨ has_bits ev POLLERR = true ∨ (∃ e, err = Some e ∧ e ≠ EINTR) ∨
        (patience r.2 < patience w)%nat);
}.

(** The first packet of a block is at an offset that does not change: not documented,
    and needed because the reader looks at it before it looks at the status. *)
Class StableOffsets := {
  meanwhile_offset m w i : 0 <= i < numBlocks o →
    Offset_to_first_pkt (block_at (meanwhile m w).1 (base i)) = Offset_to_first_pkt (block_at m (base i));
  poll_offset tm m w i : 0 <= i < numBlocks o →
    Offset_to_first_pkt (block_at (sys_Poll tm m w).2.1 (base i)) = Offset_to_first_pkt (block_at m (base i));
}.

Context `{!MemoryLaws} `{!KernelLaws} `{!StableOffsets}.
Implicit Types (s : @state Mem W) (qs : list (list (Z * packet))).

Lemma packets_of_app qs1 qs2 : packets_of (qs1 ++ qs2) = packets_of qs1 ++ packets_of qs2.
Proof. unfold packets_of. by rewrite concat_app, fmap_app. Qed.

Lemma blocks_first m off qs : 0 <= off < numBlocks o → owned m off qs → user m (base off) = bool_decide (qs ≠ []).
Proof.
  intros Hoff (_ & Hf & Hk). destruct qs as [|ps qs].
  - specialize (Hk 0). rewrite Z.add_0_r, Z.mod_small in Hk by lia. apply Hk. rewrite len_nil. lia.
  - destruct (Hf O ps eq_refl) as [Hu _]. by rewrite Z.add_0_r, Z.mod_small in Hu by lia.
Qed.

(** Giving the first block back. *)
Lemma blocks_release m off ps qs : 0 <= off < numBlocks o → owned m off (ps :: qs) →
  owned (clear_block (base off) m) ((off + 1) mod numBlocks o) qs.
Proof.
  intros Hoff (Hl & Hf & Hk). rewrite len_cons in *. pose proof (len_nonneg qs).
  assert (∀ j, ((off + 1) mod numBlocks o + j) mod numBlocks o = (off + (1 + j)) mod numBlocks o) as E.
  { intros j. rewrite Zplus_mod_idemp_l. f_equal. lia. }
  assert (∀ j, 0 <= j → 1 + j < numBlocks o → (off + (1 + j)) mod numBlocks o ≠ off) as Hne.
  { intros j Hj0 Hj1 Heq. assert ((off + (1 + j)) mod numBlocks o = off + (1 + j) ∨ (off + (1 + j)) mod numBlocks o = off + (1 + j) - numBlocks o) as [E'|E']; [|lia..].
    destruct (decide (off + (1 + j) < numBlocks o)); [left; apply Z.mod_small; lia|right]. symmetry. apply (Z.mod_unique _ _ 1); lia. }
  assert (∀ j, 0 <= (off + j) mod numBlocks o < numBlocks o) as Hr by (intros; apply Z.mod_pos_bound; lia).
  split; [lia|]. split.
  - intros j q Hj. pose proof (lookup_lt_Some _ _ _ Hj). rewrite E. specialize (Hf (S j) q Hj).
    replace (off + Z.of_nat (S j)) with (off + (1 + Z.of_nat j)) in Hf by lia.
    apply clear_other; [lia|done| |done]. symmetry. apply Hne; unfold len in *; lia.
  - intros j Hj. rewrite E. destruct (decide (j = numBlocks o - 1)) as [->|Hn].
    + replace (off + (1 + (numBlocks o - 1))) with (off + 1 * numBlocks o) by lia. rewrite Z.mod_add, Z.mod_small by lia. apply clear_status.
    + destruct (clear_other off ((off + (1 + j)) mod numBlocks o) m) as [-> _]; [lia|done|symmetry; apply Hne; lia|]. apply Hk. lia.
Qed.

(** A place in a block. *)
Lemma chain_at m ps : ∀ a k a' p, chain m a ps → ps !! k = Some (a', p) →
  packet_at m (V3 (mkV3 0 a' 0)) o = Ok p ∧ t3_Len (tp3_at m a') ≠ 0 ∧ (k = O → a' = a) ∧
  ∀ a2 p2, ps !! S k = Some (a2, p2) → a2 = a' + next_offset m a'.
Proof.
  induction ps as [|[a0 p0] ps IH]; intros a k a' p Hc Hk; [done|]. destruct Hc as (-> & Hp & Hl & Hc). destruct k as [|k].
  - injection Hk as -> ->. split_and!; [done..|]. intros a2 p2 Hnext. destruct ps as [|[a3 p3] ps]; [done|]. injection Hnext as -> ->. by destruct Hc as (-> & _).
  - destruct (IH _ k a' p Hc Hk) as (? & ? & _ & ?). done.
Qed.

(** ** The reader *)

(** The reader, with [pending] in the ring that it has not returned. *)
Inductive reader s (pending : list packet) : Prop :=
  | outside qs :
      tpVersion (tp s) = TPacketVersion3 → opts (tp s) = o → 0 <= offset (tp s) <= numBlocks o →
      shouldReleasePacket (tp s) = false → (current (tp s) = None ∨ headerNextNeeded (tp s) = false) →
      owned (mem s) (offset (tp s) mod numBlocks o) qs →
      position (world s) = (offset (tp s) mod numBlocks o + len qs) mod numBlocks o →
      pending = packets_of qs → reader s pending
  | inside k a p ps qs :
      tpVersion (tp s) = TPacketVersion3 → opts (tp s) = o → 0 <= offset (tp s) < numBlocks o →
      shouldReleasePacket (tp s) = true → headerNextNeeded (tp s) = true →
      current (tp s) = Some (V3 (mkV3 (base (offset (tp s))) a (Z.of_nat k))) → ps !! k = Some (a, p) →
      owned (mem s) (offset (tp s)) (ps :: qs) →
      position (world s) = (offset (tp s) + len (ps :: qs)) mod numBlocks o →
      pending = (snd <$> drop (S k) ps) ++ packets_of qs → reader s pending.

(** What a wait for block [off] leaves: the block has come, or there was none. *)
Definition waited (off : Z) s qs (x : outcome unit * state) : Prop :=
  ∃ new, owned (mem x.2) off (qs ++ new) ∧ position (world x.2) = (off + len (qs ++ new)) mod numBlocks o ∧
    received (world x.2) = received (world s) ++ packets_of new ∧
    Offset_to_first_pkt (block_at (mem x.2) (base off)) = Offset_to_first_pkt (block_at (mem s) (base off)) ∧
    (∃ st, tp x.2 = (if x.1 is Ok _ then set_release true else id) (set_stats st (tp s))) ∧
    match x.1 with Ok _ => qs ++ new ≠ [] | Err _ => qs = [] | _ => False end.

(** A wait that goes on after the kernel has worked. *)
Lemma waited_block off s st m w new x :
  received w = received (world s) ++ packets_of new →
  Offset_to_first_pkt (block_at m (base off)) = Offset_to_first_pkt (block_at (mem s) (base off)) →
  waited off (mkSt (set_stats st (tp s)) m w) new x → waited off s [] x.
Proof.
  intros Hr Hf (new' & Ho & Hp & Hrec & Hoff & (st' & Ht) & Hx). exists (new ++ new'). cbn [app mem world tp] in *. split_and!; try done.
  - by rewrite Hrec, Hr, packets_of_app, app_assoc.
  - congruence.
  - by exists st'.
  - by destruct (x.1).
Qed.

Lemma poll_block tm off v : 0 <= off < numBlocks o → w_block v = base off → ∀ fuel s qs,
  owned (mem s) off qs → position (world s) = (off + len qs) mod numBlocks o →
  (match qs with [] => S (patience (world s)) | _ => 0 end < fuel)%nat → waited off s qs (poll_loop fuel tm (V3 v) s).
Proof.
  intros Hoff Hv. induction fuel as [|fuel IH]; intros s qs Ho Hpos Hfuel; [lia|]. cbn [poll_loop].
  destruct (meanwhile_fills (mem s) (world s) off qs Hoff Ho Hpos) as (new & Ho1 & Hpos1 & Hrec1 & Hpat1).
  pose proof (meanwhile_offset (mem s) (world s) off Hoff) as Hf1.
  unfold getStatus. rewrite bind_eq. destruct (meanwhile (mem s) (world s)) as [m1 w1]. cbn [fst snd] in *. rewrite Hv.
  change (has_bits _ TP_STATUS_USER) with (user m1 (base off)). rewrite (blocks_first m1 off (qs ++ new)) by done.
  destruct (decide (qs ++ new = [])) as [Hnil|Hne]; cycle 1.
  { rewrite bool_decide_eq_true_2 by done. cbn [negb]. exists new. cbn. split_and!; try done. exists (stats (tp s)). by destruct (tp s). }
  rewrite bool_decide_eq_false_2 by naive_solver. cbn [negb]. apply app_nil in Hnil as [-> ->]. specialize (Hpat1 eq_refl).
  rewrite bind_eq. cbn [mem world tp app] in *. rewrite app_nil_r in Hrec1.
  destruct (poll_fills tm m1 w1 off [] Hoff Ho1 Hpos1) as (new & Ho2 & Hpos2 & Hrec2 & Hpat2).
  pose proof (poll_offset tm m1 w1 off Hoff) as Hf2.
  destruct (sys_Poll tm m1 w1) as [[[n ev] err] [m2 w2]]. cbn [fst snd app] in *.
  assert (∀ st e, waited off s [] (Err e, mkSt (set_stats st (tp s)) m2 w2)) as Herr.
  { intros st e. exists new. cbn. split_and!; try done; [congruence|congruence|by exists st]. }
  assert (∀ st, (n = 0 ∨ has_bits ev POLLERR = true ∨ (∃ e, err = Some e ∧ e ≠ EINTR) → False) →
    waited off s [] (poll_loop fuel tm (V3 v) (mkSt (set_stats st (tp s)) m2 w2))) as Hgo.
  { intros st Hne. apply (waited_block off s st m2 w2 new); [congruence..|]. apply IH; [done|done|]. cbn [world].
    destruct new as [|q new]; [|lia]. destruct (Hpat2 eq_refl n ev err eq_refl) as [?|[?|[?|?]]]; [naive_solver..|lia]. }
  destruct (Z.eqb_spec n 0) as [->|Hn].
  { specialize (Herr (stats (tp s)) ErrTimeout). unfold throw. by destruct (tp s). }
  unfold modify. rewrite bind_eq. unfold on_tp. cbn [tp mem world].
  destruct (has_bits ev POLLERR) eqn:Ev; [apply Herr|]. destruct err as [e|].
  - destruct (Z.eqb_spec e EINTR); [|apply Herr]. apply Hgo. intros [?|[?|(e' & [= ->] & ?)]]; done.
  - apply Hgo. intros [?|[?|(e' & ? & ?)]]; done.
Qed.

(** ** A call *)

Definition read : M state packet := fun s => ZeroCopyReadPacketData 1 (S (S (patience (world s)))) s.

(** What a call makes of the packets in the ring: it returns the first one, or, if
    there is none, one that has come meanwhile, or an error. *)
Definition read_ok s (pending : list packet) (x : outcome packet * state) : Prop :=
  ∃ new pending', reader x.2 pending' ∧ received (world x.2) = received (world s) ++ new ∧
    match x.1 with
    | Ok p => pending ++ new = p :: pending'
    | Err _ => pending = [] ∧ pending' = new
    | _ => False
    end.

Lemma packet_at_address m v : packet_at m (V3 v) o = packet_at m (V3 (mkV3 0 (w_packet v) 0)) o.
Proof. done. Qed.

(** With the header in place the packet is returned. *)
Lemma return_packet s v k p ps qs : current (tp s) = Some (V3 v) → tpVersion (tp s) = TPacketVersion3 → opts (tp s) = o → 0 <= offset (tp s) < numBlocks o →
  shouldReleasePacket (tp s) = true → v = mkV3 (base (offset (tp s))) (w_packet v) (Z.of_nat k) → ps !! k = Some (w_packet v, p) →
  owned (mem s) (offset (tp s)) (ps :: qs) → position (world s) = (offset (tp s) + len (ps :: qs)) mod numBlocks o →
  ∀ (m : M state unit) s0, m s0 = (Ok tt, s) →
  ∃ s', (_ ← m; c ← gets (fun s => current (tp s));
    match c with
    | None => lift (Panic NilDereference)
    | Some h => s ← get; p ← lift (packet_at (mem s) h (opts (tp s)));
                _ ← modify (on_tp (fun t => set_needed true (set_stats (mkStats (Packets (stats t) + 1) (Polls (stats t))) t))); mret p
    end) s0 = (Ok p, s') ∧ reader s' ((snd <$> drop (S k) ps) ++ packets_of qs) ∧ world s' = world s.
Proof.
  intros Hc Hver Hopt Hoff Hrel Hv Hk Ho Hpos m s0 E. rewrite (bind_ok _ _ _ _ _ E). unfold gets, get. rewrite bind_eq, Hc, bind_eq, Hopt, packet_at_address.
  destruct (proj1 (proj2 Ho) O ps eq_refl) as (_ & _ & _ & Hch). destruct (chain_at _ _ _ _ _ _ Hch Hk) as (-> & _).
  rewrite lift_bind. unfold modify. rewrite bind_eq. eexists. split; [reflexivity|]. split; [|done].
  eapply (inside _ _ k (w_packet v) p ps qs); cbn; try done. by rewrite Hc, Hv.
Qed.

Lemma filled_first m off ps qs : 0 <= off < numBlocks o → owned m off (ps :: qs) → filled m (base off) ps.
Proof. intros Hoff (_ & Hf & _). specialize (Hf O ps eq_refl). by rewrite Z.add_0_r, Z.mod_small in Hf by lia. Qed.

(** The part of [next_header] behind the release of the block. *)
Definition enter (polls : nat) : M state unit :=
  h ← getTPacketHeader;
  _ ← modify (on_tp (set_current (Some h)));
  r ← attempt (pollForFirstPacket polls h);
  match r with
  | inr e => _ ← modify (on_tp (set_needed false)); throw e
  | inl _ => n ← gets (fun s => getLength (mem s) h); if n =? 0 then next_header 0 polls else mret tt
  end.

(** The state between the blocks. *)
Definition between s qs : Prop :=
  tpVersion (tp s) = TPacketVersion3 ∧ opts (tp s) = o ∧ 0 <= offset (tp s) <= numBlocks o ∧ shouldReleasePacket (tp s) = false ∧
  owned (mem s) (offset (tp s) mod numBlocks o) qs ∧ position (world s) = (offset (tp s) mod numBlocks o + len qs) mod numBlocks o.

(** The state at the first packet of a block. *)
Definition at_first s ps qs : Prop :=
  tpVersion (tp s) = TPacketVersion3 ∧ opts (tp s) = o ∧ 0 <= offset (tp s) < numBlocks o ∧ shouldReleasePacket (tp s) = true ∧
  owned (mem s) (offset (tp s)) (ps :: qs) ∧ position (world s) = (offset (tp s) + len (ps :: qs)) mod numBlocks o ∧
  ∃ a p, current (tp s) = Some (V3 (mkV3 (base (offset (tp s))) a 0)) ∧ ps !! 0%nat = Some (a, p).

Lemma enter_block s qs : 0 < numBlocks o → between s qs →
  let x := enter (S (S (patience (world s)))) s in
  ∃ new, received (world x.2) = received (world s) ++ packets_of new ∧
    match x.1 with
    | Ok _ => ∃ ps qs', qs ++ new = ps :: qs' ∧ at_first x.2 ps qs'
    | Err _ => qs = [] ∧ reader x.2 (packets_of new)
    | _ => False
    end.
Proof.
  intros HN (Hver & Hopt & Hoff & Hrel & Ho & Hpos) x. set (off := offset (tp s) mod numBlocks o) in *.
  assert (0 <= off < numBlocks o) as Hr by (apply Z.mod_pos_bound; lia).
  assert ((if numBlocks o <=? offset (tp s) then 0 else offset (tp s)) = off) as Ew.
  { unfold off. destruct (Z.leb_spec (numBlocks o) (offset (tp s))).
    - replace (offset (tp s)) with (numBlocks o) by lia. by rewrite Z.mod_same by lia.
    - by rewrite Z.mod_small by lia. }
  unfold x, enter. rewrite bind_eq. unfold getTPacketHeader. rewrite Hver, Hopt. change (TPacketVersion3 =? TPacketVersion1) with false.
  change (TPacketVersion3 =? TPacketVersion2) with false. rewrite Z.eqb_refl, Ew. set (h := V3 _).
  unfold modify, pollForFirstPacket, gets, attempt. rewrite !bind_eq.
  set (s1 := on_tp (set_current (Some h)) (on_tp (set_offset off) s)). change (opts (tp s1)) with (opts (tp s)). rewrite Hopt.
  pose proof (poll_block (Z.quot (pollTimeout o) Millisecond) off (initV3Wrapper (mem s) (base off)) Hr eq_refl
    (S (S (patience (world s)))) s1 qs Ho Hpos ltac:(destruct qs; [unfold s1; cbn; lia|lia])) as (new & Ho' & Hpos' & Hrec & Hf & (st & Ht) & Hx).
  change (V3 (initV3Wrapper (mem s) (base off))) with h in *. destruct (poll_loop _ _ h s1) as [[[]|e|c|] s2]; cbn [fst snd] in *; try done.
  - exists new. destruct (qs ++ new) as [|ps qs'] eqn:E; [done|]. rewrite bind_eq.
    destruct (filled_first _ _ _ _ Hr Ho') as (_ & _ & Hn & Hch). destruct ps as [|[a p] ps]; [unfold len in Hn; cbn in Hn; lia|].
    pose proof Hch as (Ea & _ & Hl & _).
    assert (base off + Offset_to_first_pkt (block_at (mem s) (base off)) = a) as Ew' by (rewrite Ea, Hf; done).
    assert (h = V3 (mkV3 (base off) a 0)) as Eh by (rewrite <-Ew'; done). clearbody h. subst h. cbn [getLength w_packet].
    destruct (Z.eqb_spec (t3_Len (tp3_at (mem s2) a)) 0); [by rewrite <-Ea in Hl|]. split; [done|].
    exists ((a, p) :: ps), qs'. split; [done|]. unfold at_first. cbn [fst snd mret M_ret]. rewrite Ht. cbn. split_and!; try done; try lia.
    by exists a, p.
  - exists new. unfold throw. rewrite bind_eq. cbn [fst snd]. split; [done|]. split; [done|]. subst qs. cbn [app] in *.
    apply (outside _ _ new); cbn; rewrite ?Ht; cbn; rewrite ?(Z.mod_small off) by lia; try done; try lia; by right.
Qed.

Lemma next_header_block s polls b s1 : move_on s = (Ok false, s1) → shouldReleasePacket (tp s1) = b →
  next_header 1 polls s = (_ ← (if b then releaseCurrentPacket else mret tt); enter polls) s1.
Proof. intros E <-. cbn [next_header]. by rewrite (bind_ok _ _ _ _ _ E). Qed.

Lemma packets_of_cons ps qs : packets_of (ps :: qs) = (snd <$> ps) ++ packets_of qs.
Proof. unfold packets_of. cbn. by rewrite fmap_app. Qed.

(** From between the blocks, a call returns the first packet of the next block. *)
Lemma read_between s0 s qs polls : 0 < numBlocks o → between s qs → polls = S (S (patience (world s))) → received (world s0) = received (world s) →
  next_header 1 polls s0 = enter polls s → read_ok s0 (packets_of qs) (ZeroCopyReadPacketData 1 polls s0).
Proof.
  intros HN Hb -> Hw E. destruct (enter_block s qs HN Hb) as (new & Hrec & Hx). rewrite <-E in *. unfold ZeroCopyReadPacketData.
  destruct (next_header 1 _ s0) as [[[]|e|c|] s1] eqn:E1; cbn [fst snd] in *; try done.
  - destruct Hx as (ps & qs' & Eq & (? & ? & ? & ? & Ho & Hp & a & p & Hc & Hk)).
    destruct (return_packet s1 (mkV3 (base (offset (tp s1))) a 0) 0 p ps qs') with (m := next_header 1 (S (S (patience (world s)))) ) (s0 := s0)
      as (s2 & E2 & Hr2 & Hw2); [done..|]. setoid_rewrite E2. exists (packets_of new), ((snd <$> drop 1 ps) ++ packets_of qs'). cbn [fst snd].
    split; [done|]. split; [by rewrite Hw2, Hrec, Hw|]. rewrite <-packets_of_app, Eq, packets_of_cons. destruct ps as [|[a' p'] ps]; [done|]. injection Hk as -> ->. done.
  - rewrite bind_eq, E1. destruct Hx as [-> Hr]. exists (packets_of new), (packets_of new). cbn [fst snd]. split; [done|]. split; [by rewrite Hrec, Hw|done].
Qed.

Lemma read_block s pending : 0 < numBlocks o → reader s pending → read_ok s pending (read s).
Proof.
  intros HN [qs Hver Hopt Hoff Hrel Hcur Ho Hpos -> | k a p ps qs Hver Hopt Hoff Hrel Hneed Hcur Hk Ho Hpos ->]; unfold read.
  { apply (read_between s s); [done..| ]. erewrite (next_header_block s _ false s); [done| |done].
    unfold move_on. destruct (current (tp s)), (headerNextNeeded (tp s)); try done. by destruct Hcur. }
  destruct (filled_first _ _ _ _ Hoff Ho) as (Hu & Hn & Hlen & Hch). pose proof (lookup_lt_Some _ _ _ Hk) as Hlt.
  assert (u32 (Z.of_nat k + 1) = Z.of_nat (S k)) as Eu by (unfold u32, len in *; rewrite Z.mod_small by lia; lia).
  assert (∀ b v, v3_next (mem s) (mkV3 (base (offset (tp s))) a (Z.of_nat k)) = (b, v) →
    move_on s = (Ok b, on_tp (set_current (Some (V3 v))) s)) as Hm by (intros b v E; unfold move_on, next; by rewrite Hcur, Hneed, E).
  unfold v3_next in Hm. cbn [w_used w_block w_packet] in Hm. rewrite Eu, Hn in Hm. destruct (Z.leb_spec (len ps) (Z.of_nat (S k))) as [Hle|Hgt].
  - specialize (Hm _ _ eq_refl). set (s1 := on_tp _ s) in Hm.
    replace (drop (S k) ps) with ([] : list (Z * packet)) by (rewrite drop_ge; [done|unfold len in *; lia]).
    set (h := V3 (mkV3 (base (offset (tp s))) a (Z.of_nat (S k)))) in *.
    set (s2 := on_tp (fun t => set_release false (set_offset (offset t + 1) t)) (on_mem (clearStatus h) s1)).
    assert (releaseCurrentPacket s1 = (Ok tt, s2)) as Er by done.
    apply (read_between s s2); [done| |done|done|].
    + unfold between. subst s2 s1. cbn. rewrite Hpos, len_cons. split_and!; try done; try lia.
      * by apply (blocks_release _ _ ps).
      * rewrite Zplus_mod_idemp_l. f_equal. lia.
    + erewrite (next_header_block s _ true s1 Hm Hrel). by rewrite (bind_ok _ _ _ _ _ Er).
  - destruct (lookup_lt_is_Some_2 ps (S k)) as [[a2 p2] Hk2]; [unfold len in *; lia|].
    destruct (chain_at _ _ _ _ _ _ Hch Hk) as (_ & _ & _ & Hnext). specialize (Hnext _ _ Hk2). fold (next_offset (mem s) a) in Hm. rewrite <-Hnext in Hm.
    specialize (Hm _ _ eq_refl). set (s1 := on_tp _ s) in Hm.
    destruct (return_packet s1 (mkV3 (base (offset (tp s))) a2 (Z.of_nat (S k))) (S k) p2 ps qs) with (m := next_header 1 (S (S (patience (world s))))) (s0 := s)
      as (s2 & E2 & Hr2 & Hw2); [done..| |].
    { cbn [next_header]. by rewrite (bind_ok _ _ _ _ _ Hm). }
    setoid_rewrite E2. exists [], ((snd <$> drop (S (S k)) ps) ++ packets_of qs). cbn [fst snd]. split; [done|]. rewrite !app_nil_r. split; [by rewrite Hw2|].
    by rewrite (drop_S _ _ _ Hk2).
Qed.

(** ** Many calls *)

Fixpoint reads (n : nat) : M state (list (packet + error)) :=
  match n with
  | O => mret []
  | S n => r ← attempt read; rs ← reads n; mret (r :: rs)
  end.

Definition returned (rs : list (packet + error)) : list packet := omap (fun r => match r with inl p => Some p | inr _ => None end) rs.

Lemma reads_blocks n : 0 < numBlocks o → ∀ s pending, reader s pending → ∃ rs s' pending' new, reads n s = (Ok rs, s') ∧ reader s' pending' ∧
  received (world s') = received (world s) ++ new ∧ pending ++ new = returned rs ++ pending'.
Proof.
  intros HN. induction n as [|n IH]; intros s pending Hs.
  { exists [], s, pending, []. by rewrite !app_nil_r. }
  cbn [reads]. rewrite bind_eq. unfold attempt. destruct (read_block s pending HN Hs) as (new1 & p1 & Hr1 & Hw1 & Hx).
  destruct (read s) as [[p|e|c|] s1]; cbn [fst snd] in *; try done; rewrite bind_eq;
    destruct (IH s1 p1 Hr1) as (rs & s' & p' & new2 & -> & Hr' & Hw2 & Ep).
  - exists (inl p :: rs), s', p', (new1 ++ new2). split_and!; [done|done|by rewrite Hw2, Hw1, app_assoc|].
    by rewrite app_assoc, Hx; cbn; rewrite Ep.
  - destruct Hx as [-> ->]. exists (inr e :: rs), s', p', (new1 ++ new2). split_and!; [done|done|by rewrite Hw2, Hw1, app_assoc|]. done.
Qed.

(** With a kernel whose offsets are stable, and which hands over no block without a
    packet, the blocks are a queue: a reader that starts when the ring is empty returns
    the packets that the kernel has put into the ring, in order, each once. *)
Lemma blocks_are_a_queue n m w : 0 < numBlocks o → owned m 0 [] → position w = 0 → received w = [] →
  ∃ rs s pending, reads n (mkSt (new_handle o TPacketVersion3) m w) = (Ok rs, s) ∧ received (world s) = returned rs ++ pending ∧
    match (read s).1 with
    | Ok p => pending = [] ∨ head pending = Some p
    | Err _ => pending = []
    | _ => False
    end.
Proof.
  intros HN Ho Hpos Hrec. destruct (reads_blocks n HN (mkSt (new_handle o TPacketVersion3) m w) []) as (rs & s & pending & new & E & Hr & Hw & Ep).
  { apply (outside _ _ []); cbn; try done; try lia; try (by left); rewrite ?Z.mod_0_l by lia; done. }
  exists rs, s, pending. split; [done|]. cbn in Hw. rewrite Hrec in Hw. split; [by rewrite Hw|].
  destruct (read_block s pending HN Hr) as (new' & p' & _ & _ & Hx). destruct (read s) as [[p|e|c|] s']; cbn [fst snd] in *; try done; [|by destruct Hx].
  destruct pending as [|q pending]; [by left|right]. by injection Hx as ->.
Qed.
End ring.

(** ** A ring of two blocks *)

(** A block holds the packets that it was handed over with; they lie at consecutive
    addresses behind the start of the block. *)
Definition big : Z := 2 ^ 40.
Definition two_blocks : Type := Z → option (list (Z * bytes)).
Definition data_of (x : Z * bytes) : bytes := x.1 :: x.2.
Definition packet_in (m : two_blocks) (a : Z) : option bytes :=
  l ← m (a / big); if a mod big =? 0 then None else data_of <$> l !! Z.to_nat (a mod big - 1).

#[export] Instance two_blocks_Memory : Memory two_blocks := {
  tp1_at _ _ := mkTp1 0 0 0 0 0 0;
  tp2_at _ _ := mkTp2 0 0 0 0 0 0 0;
  tp3_at m a := match packet_in m a with Some d => mkTp3 1 0 0 (len d) (len d) 0 0 0 | None => mkTp3 0 0 0 0 0 0 0 0 end;
  block_at m b := match m (b / big) with Some l => mkBlock 1 (len l) 1 | None => mkBlock 0 0 1 end;
  ifindex_at _ _ := 1;
  bytes_at m a n := match packet_in m a with Some d => take (Z.to_nat n) d | None => [] end;
  clear_tp1 _ m := m;
  clear_tp2 _ m := m;
  clear_block b m := fun i => if i =? b / big then None else m i;
  sizeofTpacketHdr := 32;
  sizeofTpacket2Hdr := 32;
  sizeofTpacket3Hdr := 48;
}.

Definition two_options : options := mkOpts big 1 big 2 false Millisecond 0 2 3 "".

Definition packet_of (d : bytes) : packet := (d, mkCaptureInfo (mkTime 0 0) (len d) (len d) 1, []).

Fixpoint placed (a : Z) (l : list (Z * bytes)) : list (Z * packet) :=
  match l with [] => [] | x :: l => (a, packet_of (data_of x)) :: placed (a + 1) l end.

Lemma packet_at_placed m a d : packet_in m a = Some d → packet_at m (V3 (mkV3 0 a 0)) two_options = Ok (packet_of d).
Proof.
  intros E. unfold packet_at, getData, v3_getData, getVLAN, v3_getVLAN, getTime, v3_getTime, getLength, getIfaceIndex, v3_getIfaceIndex.
  cbn [w_packet tp3_at bytes_at two_blocks_Memory]. rewrite E. cbn [t3_Mac t3_Snaplen t3_Vlan_tci t3_Status t3_Len t3_Sec t3_Nsec].
  rewrite Z.add_0_r, E. cbn. replace (take _ d) with d; [done|]. rewrite take_ge; [done|]. unfold len. lia.
Qed.

(** What the packets of a block are depends on the block alone. *)
Lemma chain_same m m' b ps : m b = m' b → ∀ k, 1 <= k → k + len ps < big →
  chain two_options m (b * big + k) ps → chain two_options m' (b * big + k) ps.
Proof.
  intros Eb. induction ps as [|[a p] ps IH]; intros k Hk Hlt; [done|]. intros (-> & Hp & Hl & Hc). rewrite len_cons in Hlt. pose proof (len_nonneg ps).
  assert (packet_in m (b * big + k) = packet_in m' (b * big + k)) as Ep.
  { unfold packet_in. by rewrite Z.div_add_l, (Z.div_small k), Z.add_0_r, Eb by (unfold big in *; lia). }
  cbn [tp3_at two_blocks_Memory] in Hl. destruct (packet_in m (b * big + k)) as [d|] eqn:E; [|done].
  assert (Ok p = Ok (packet_of d)) as Hp' by (etransitivity; [symmetry; exact Hp | exact (packet_at_placed _ _ _ E)]). injection Hp' as ->.
  split; [done|]. split; [by apply packet_at_placed|]. cbn [tp3_at two_blocks_Memory]. rewrite <-Ep.
  split; [done|]. unfold next_offset in *. cbn [tp3_at two_blocks_Memory] in *. rewrite E in Hc. rewrite <-Ep. cbn in *.
  rewrite <-Z.add_assoc in *. apply IH; [lia|lia|done].
Qed.

Lemma block_at_eq (m : two_blocks) b : block_at m (b * big + 0) = match m b with Some l => mkBlock 1 (len l) 1 | None => mkBlock 0 0 1 end.
Proof.
  unfold block_at, two_blocks_Memory. by replace ((b * big + 0) / big) with b by (rewrite Z.div_add_l by (unfold big; lia); change (0 / big) with 0; lia).
Qed.

Lemma filled_same m m' b ps : m b = m' b → filled two_options m (base two_options b) ps → filled two_options m' (base two_options b) ps.
Proof.
  assert (base two_options b = b * big + 0) as -> by (unfold base; cbn; lia). intros Eb (Hu & Hn & Hl & Hc).
  assert (block_at m (b * big + 0) = block_at m' (b * big + 0)) as E.
  { by rewrite !block_at_eq, Eb. }
  unfold filled, user in *. rewrite E in *. split; [done|]. split; [done|]. split; [done|].
  assert (Offset_to_first_pkt (block_at m' (b * big + 0)) = 1) as Eo by (rewrite block_at_eq; by destruct (m' b)). rewrite Eo in *.
  rewrite <-Z.add_assoc in *. eapply chain_same; [exact Eb|lia|unfold big; lia|done].
Qed.

Lemma user_at m b : user m (base two_options b) = bool_decide (m b ≠ None).
Proof.
  assert (base two_options b = b * big + 0) as -> by (unfold base; cbn; lia). unfold user. rewrite block_at_eq. by destruct (m b).
Qed.

#[export] Instance two_blocks_laws : MemoryLaws two_options.
Proof.
  split.
  - intros b m. unfold user. cbn. by rewrite Z.eqb_refl.
  - intros i j m Hi Hj Hne. assert (clear_block (base two_options i) m j = m j) as E.
    { cbn. assert (base two_options i = i * big) as -> by (unfold base; cbn; lia). rewrite Z.div_mul by done. by destruct (Z.eqb_spec j i). }
    split; [by rewrite !user_at, E|]. intros ps. by apply filled_same.
Qed.

(** A kernel that fills a block at every poll, until it has nothing left. *)
Record script : Type := mkScript { todo : list (list (Z * bytes)); sc_position : Z; sc_received : list packet }.

(** At most a thousand packets go into a block. *)
Definition batch (l : list (Z * bytes)) : list (Z * bytes) := match take 1000 l with [] => [(0, [])] | l => l end.

#[export] Instance script_Kernel : Kernel two_blocks script := {
  meanwhile m w := (m, w);
  sys_Poll _ m w :=
    match todo w, m (sc_position w) with
    | l :: ls, None =>
        ((1, 1, None), (fun i => if i =? sc_position w then Some (batch l) else m i,
          mkScript ls ((sc_position w + 1) mod 2) (sc_received w ++ (snd <$> placed (sc_position w * big + 1) (batch l)))))
    | _, _ => ((0, 0, None), (m, w))
    end;
}.

Lemma placed_chain m b l : m b = Some l → ∀ pre suf k, l = pre ++ suf → k = 1 + len pre → k + len suf < big →
  chain two_options m (b * big + k) (placed (b * big + k) suf).
Proof.
  intros Eb pre suf. revert pre. induction suf as [|x suf IH]; intros pre k El Ek Hlt; [done|]. rewrite len_cons in Hlt. pose proof (len_nonneg suf). pose proof (len_nonneg pre).
  assert (packet_in m (b * big + k) = Some (data_of x)) as E.
  { unfold packet_in. rewrite Z.div_add_l, (Z.div_small k), Z.add_0_r, Eb by (unfold big in *; lia). cbn [mbind option_bind].
    rewrite Z.add_comm, Z.mod_add, Z.mod_small by (unfold big in *; lia). destruct (Z.eqb_spec k 0); [lia|]. rewrite El, lookup_app_r by (unfold len in *; lia).
    by replace (Z.to_nat (k - 1) - length pre)%nat with O by (unfold len in *; lia). }
  cbn [placed chain]. split; [done|]. split; [by apply packet_at_placed|]. unfold next_offset. cbn [tp3_at two_blocks_Memory]. rewrite E. cbn [t3_Len t3_Next_offset].
  split; [unfold data_of; rewrite len_cons; pose proof (len_nonneg x.2); lia|]. change (1 =? 0) with false. cbn iota.
  rewrite <-!Z.add_assoc. apply (IH (pre ++ [x])); [by rewrite <-app_assoc|lens|lia].
Qed.

Lemma len_placed a l : len (placed a l) = len l.
Proof. revert a. induction l as [|x l IH]; intros a; [done|]. cbn [placed]. rewrite !len_cons. by rewrite IH. Qed.

Lemma batch_filled m b l : m b = Some (batch l) → filled two_options m (base two_options b) (placed (b * big + 1) (batch l)).
Proof.
  intros E. assert (1 <= len (batch l) <= 1000) as Hl.
  { unfold batch. pose proof (firstn_le_length 1000 l). destruct (take 1000 l) as [|x l']; [done|]. rewrite len_cons. unfold len in *. cbn in *. lia. }
  assert (base two_options b = b * big + 0) as -> by (unfold base; cbn; lia). unfold filled, user. rewrite len_placed.
  assert (block_at m (b * big + 0) = mkBlock 1 (len (batch l)) 1) as ->.
  { by rewrite block_at_eq, E. }
  split; [done|]. split; [done|]. split; [lia|]. cbn [Offset_to_first_pkt]. rewrite <-Z.add_assoc. by apply (placed_chain _ _ _ E []); [done|done|unfold big; lia].
Qed.

Lemma script_fills m b l off (qs : list (list (Z * packet))) : 0 <= off < 2 → owned two_options m off qs → b = (off + len qs) mod 2 → m b = None →
  owned two_options (fun i => if i =? b then Some (batch l) else m i) off (qs ++ [placed (b * big + 1) (batch l)]).
Proof.
  intros Hoff (Hl & Hf & Hk) Eb Hb. cbn [numBlocks two_options] in *. set (m' := fun i => _). pose proof (len_nonneg qs).
  assert (∀ i, i ≠ b → m i = m' i) as Hsame by (intros i Hi; unfold m'; by destruct (Z.eqb_spec i b)).
  assert (m' b = Some (batch l)) as Hnew by (unfold m'; by rewrite Z.eqb_refl).
  assert (len qs < 2) as Hlt.
  { destruct (decide (len qs < 2)); [done|]. exfalso. destruct qs as [|q qs]; [unfold len in *; cbn in *; lia|].
    destruct (Hf O q eq_refl) as [Hu _]. rewrite user_at in Hu. replace ((off + Z.of_nat 0) mod 2) with b in Hu by (rewrite Eb; zdiv). by rewrite Hb in Hu. }
  unfold owned. cbn [numBlocks two_options]. split; [rewrite len_app; change (len [_]) with 1; lia|]. split.
  - intros j q Hj. apply lookup_app_Some in Hj as [Hj|[Hge Hj]].
    + pose proof (lookup_lt_Some _ _ _ Hj). eapply filled_same; [|by apply Hf]. apply Hsame. rewrite Eb. unfold len in *. intros ?. zdiv.
    + apply list_lookup_singleton_Some in Hj as [Hj <-]. replace ((off + Z.of_nat j) mod 2) with b by (rewrite Eb; f_equal; unfold len in *; lia).
      by apply batch_filled.
  - intros j Hj. rewrite len_app in Hj. change (len [_]) with 1 in Hj. rewrite <-(Hk j) by lia. rewrite !user_at. do 2 f_equal.
    rewrite Hsame; [done|]. rewrite Eb. intros ?. zdiv.
Qed.

#[export] Instance script_laws : KernelLaws (W := script) two_options.
Proof.
  refine {| received := sc_received; position := sc_position; patience := fun _ => O |}.
  - intros m w off qs Hoff Ho Hp. exists []. cbn. rewrite !app_nil_r. done.
  - intros tm m w off qs Hoff Ho Hp. cbn [sys_Poll script_Kernel].
    destruct (todo w) as [|l ls]; [|destruct (m (sc_position w)) eqn:E];
      try (exists []; cbn; rewrite !app_nil_r; split_and!; try done; intros _ n ev err [= <- <- <-]; by left).
    exists [placed (sc_position w * big + 1) (batch l)]. cbn [fst snd sc_position sc_received]. split; [by apply script_fills|]. split.
    + rewrite Hp. cbn [numBlocks two_options]. rewrite len_app. change (len [_]) with 1. zdiv.
    + split; [|done]. unfold packets_of. cbn [concat]. by rewrite app_nil_r.
Defined.

#[export] Instance script_offsets : StableOffsets (W := script) two_options.
Proof.
  split; [done|]. intros tm m w i Hi. cbn [sys_Poll script_Kernel]. destruct (todo w) as [|l ls]; [done|]. destruct (m (sc_position w)); [done|].
  assert (base two_options i = i * big + 0) as -> by (unfold base; cbn; lia). cbn [fst snd]. rewrite !block_at_eq. by repeat case_match.
Defined.

Definition no_blocks : two_blocks := fun _ => None.

Lemma two_blocks_are_a_queue : ∃ rs s pending,
  reads two_options 4 (mkSt (new_handle two_options TPacketVersion3) no_blocks (mkScript [[(1, [2]); (3, [])]; [(4, [5; 6])]] 0 [])) = (Ok rs, s) ∧
  received two_options (world s) = returned rs ++ pending ∧
  match (read two_options s).1 with
  | Ok p => pending = [] ∨ head pending = Some p
  | Err _ => pending = []
  | _ => False
  end.
Proof.
  apply (blocks_are_a_queue two_options 4 no_blocks (mkScript [[(1, [2]); (3, [])]; [(4, [5; 6])]] 0 [])); [done| |done|done].
  split; [vm_compute; congruence|]. split; [intros j ps Hj; by rewrite lookup_nil in Hj|]. intros j _. by rewrite user_at.
Qed.

(** The four calls return the three packets and then time out. *)
Example three_packets :
  (reads two_options 4 (mkSt (new_handle two_options TPacketVersion3) no_blocks (mkScript [[(1, [2]); (3, [])]; [(4, [5; 6])]] 0 []))).1 =
  Ok [inl (packet_of [1; 2]); inl (packet_of [3]); inl (packet_of [4; 5; 6]); inr ErrTimeout].
Proof. by vm_compute. Qed.

(** ** Where the code goes wrong *)

(** A frame size of 0 divides by zero instead of being refused. *)
Lemma frame_size_zero_panics : ∃ c, parseOptions 4096 [OptFrameSize 0] = Panic c.
Proof. eexists. by vm_compute. Qed.

(** A memory in which a block has no offset to its first packet before the kernel
    has written it. *)
Record late_blocks : Type := mkLate { blocks : two_blocks }.
#[local] Instance late_Memory : Memory late_blocks := {
  tp1_at m := tp1_at (blocks m);
  tp2_at m := tp2_at (blocks m);
  tp3_at m := tp3_at (blocks m);
  block_at m b := match blocks m (b / big) with Some l => mkBlock 1 (len l) 1 | None => mkBlock 0 0 0 end;
  ifindex_at m := ifindex_at (blocks m);
  bytes_at m := bytes_at (blocks m);
  clear_tp1 _ m := m;
  clear_tp2 _ m := m;
  clear_block b m := mkLate (clear_block b (blocks m));
  sizeofTpacketHdr := 32;
  sizeofTpacket2Hdr := 32;
  sizeofTpacket3Hdr := 48;
}.
#[local] Instance late_Kernel : Kernel late_blocks script := {
  meanwhile m w := (m, w);
  sys_Poll tm m w := match sys_Poll tm (blocks m) w with (r, (b, w)) => (r, (mkLate b, w)) end;
}.

(** The reader takes the address of the first packet from the block before it waits
    for the block: it finds no packet there, takes the block for empty and gives it
    back, with the packet that the kernel has put into it. *)
Lemma packet_is_lost :
  let x := ZeroCopyReadPacketData 3 3 (mkSt (new_handle two_options TPacketVersion3) (mkLate no_blocks) (mkScript [[(1, [2])]] 0 [])) in
  x.1 = Err ErrTimeout ∧ sc_received (world x.2) = [packet_of [1; 2]] ∧ blocks (mem x.2) 0 = None.
Proof. by vm_compute. Qed.
